(* ===== verification/_CoqProject ===== *)
-Q . S2P
Prelude.v
ByteOrder.v
Hex.v
SmallBuffer.v
Constants.v
Validation.v
ProtocolRange.v
Ports.v
Oxm.v
Prereq.v
Matches.v
Actions.v
Instructions.v
MsgBuffer.v
Messages.v
Multipart.v
Hello.v
NormActions.v
Normalize.v
NormSafe.v
NormSpec.v
FlowMod.v
FlowModV1.v
Packet.v
MatchPacket.v
PacketSafe.v
PacketBuilder.v
Text.v
Addresses.v
Timestamp.v
RateLimiter.v
SegmentCache.v
Flow.v
MessageSource.v
Buffered.v
Sections.v
ChannelMsgs.v
Connection.v
ConnInv.v
ConnLoop.v
ConnSafe.v
ConnVersion.v
MsgChecks.v
