(* ===== verification/Prelude.v ===== *)
(** * OFTR / libofp: verification development (root file)

    libofp reads and writes OpenFlow messages of versions 1.0 to 1.5. Bytes of a
    connection, or of captured packets, are cut into messages; a message is
    checked structurally before anything looks inside it; older versions are
    rewritten to the newest layout; matches of OpenFlow 1.0 and 1.1 are
    converted to lists of OXM fields, and back when a message is written for
    an old peer. This development models the parts that carry that logic and
    proves what they promise to each other.

    ** Conventions

    A pointer with a length is the list of bytes it can reach (a [Z] per byte,
    [bytes_ok] says that each is one); an integer of w bits is a [Z] with the
    wrap-around written out ([u8] to [u64]). [None] is undefined behaviour or a
    failing [assert]: a read past the end has no result, so a theorem that a
    function returns [Some] is a theorem that it stays inside its memory. Errors
    the code reports are ordinary values. A loop whose bound is not structural
    has fuel, and each theorem that it returns is proved for the fuel that the
    caller passes, the length of its input plus one. Generated tables
    (OXM types, prerequisites) and system calls (inet_pton) are not in the
    sources: they are parameters, with what the code relies on in the laws of a
    class or a section hypothesis, and each theorem over them has a concrete
    instance as its witness.

    ** Files and what they model (paths under src/)

    - [Prelude]: machine integers, reads and slices of byte lists, the
      [assert!] notation, the tactics [zl], [bytes], [split_ifs], hint databases.
    - [ByteOrder] (include/ofp/byteorder.h, padding.h): byte swapping,
      big-endian objects on either kind of host, padding.
    - [Hex] (src/ofp/types.cpp): hexadecimal and base-64 text of raw data.
    - [SmallBuffer] (smallbuffer.cpp, bytelist.cpp): the growing byte buffer
      with in-object storage; blocks are lists, malloc gives arbitrary bytes.
      [SmallBuffer_refines] is its refinement of an abstract byte string.
    - [Constants] (constants.cpp, constants_error.cpp, header.cpp): message
      types by version, flags of OpenFlow 1.0, error codes, header checks.
    - [Validation], [ProtocolRange] (validation.cpp, protocoliterator.cpp): the
      checks that a range of bytes is tiled by elements, and the iterators that
      rely on it: acceptance is characterised exactly and makes iteration safe.
    - [Oxm] (oxmtype.h, oxmiterator.h, oxmrange.h, oxmlist.cpp): OXM type words,
      ranges and lists. The list operations are proved against the class
      [ByteBuffer] with its laws, which [SmallBuffer] discharges.
    - [Prereq] (prerequisites.cpp, oxmtypeset.cpp, matchbuilder.h): inserting,
      checking and substituting the prerequisites of match fields.
    - [Matches] (originalmatch.cpp, standardmatch.cpp, matchheader.cpp,
      match.cpp, ipv4address.cpp): the three forms of a match; conversions are
      total on validated input and are round trips on canonical matches.
    - [Text], [Addresses], [Timestamp], [RateLimiter] (StringRef.cpp of
      external/yaml-io, macaddress.cpp, ipv6address.cpp, ipv6endpoint.cpp,
      vlannumber.cpp, timestamp.cpp, rpc/ratelimiter.cpp): parsing and printing
      of addresses, times and limits, and the limiter's state machine with its
      burst bound and its progress. Times are whole nanoseconds.
    - [SegmentCache], [Flow], [MessageSource] (demux/): TCP reassembly over
      32-bit sequence numbers, connections and sessions, the parsers of
      captured frames and the framing of messages. In the parsers a pointer is an
      offset into the capture and lengths are 64-bit and wrap, so a missing check
      would show. [messages_of_stream] composes all three: [capture_run] is an
      inductive relation over the packets of a capture, of any connections in any
      order, each handled by [submitSegment] itself, and the messages delivered
      for one direction are those of the sender's stream.
    - [Ports] (port.cpp, portrange.cpp, propertyrange.h): port structures of
      the three layouts, validation, conversion and writing.
    - [Actions] (actionrange.cpp): validation of action lists and their
      translation to OpenFlow 1.0.
    - [MsgBuffer] (bytelist.cpp, header.h): a message as an editable byte
      string; uninitialized bytes are the class [Uninit].
    - [NormActions], [Normalize] (normalize.cpp, normalize.h): the rewriting of
      received messages of older versions, one function per handler. The
      in-place loop over actions equals a reference that maps every action.
    - [NormSafe], [NormSpec]: theorems about [Normalize]. A small program logic
      over [option] walks through all handlers and gives [normalize_safe]; the
      layouts of the results are in [NormSpec], with the handlers that fail.
    - [Packet], [MatchPacket], [PacketBuilder] (pkt.h, pkt.cpp, matchpacket.cpp,
      matchpacketbuilder.cpp): packet headers, the Internet checksum, the
      decoder of a frame into match fields and the builder of a frame from
      fields. Host byte order and addresses are arguments; moving on by more bytes
      than are left is [None]. [PacketSafe] proves for which addresses of a
      frame decoding is safe, and that it gives valid matches; [PacketBuilder] that
      building and decoding are inverse for ARP, ICMP, TCP, neighbor discovery
      and LLDP.
    - [Instructions] (instructionrange.cpp, instructions.h, instructionlist.h):
      validation of instruction lists, their output actions, building them.
    - [Messages] (message.h, protocolmsg.h, writable.h, memorychannel.h): the
      cast of a buffer to a message class; the class [Writable] with its laws is
      what the builders are proved against, and [MemoryChannel] and the
      connections discharge it.
    - [Multipart] (multipartreply.cpp, multipartrequest.cpp): the builders, and
      the splitting of a long body into messages.
    - [FlowMod], [FlowModV1] (flowmod.cpp): flow modifications of every version.
      A message that is sent, normalised by the receiver where its version asks
      for it, and cast is the message of the builder; this composes the models of
      the matches, actions, instructions, normalization and channels.
    - [Hello] (protocolversions.cpp, hello.cpp): version sets and negotiation.
    - [ChannelMsgs] (headeronly.h, error.cpp, echorequest.cpp, echoreply.cpp,
      featuresreply.cpp): the messages that a connection itself sends or reads.
    - [Sections] (bucket.cpp, queue.cpp, tabledesc.cpp, statheader.cpp, the
      property validators and mp*.cpp): the checks of the structures inside
      messages, and that each ends inside the range it was given.
    - [MsgChecks] (the classes that derive from ProtocolMsg, and the switch of
      yaml/decoder.cpp): the check of every message class and the choice of the
      class. The check of any framed message is defined, but for two kinds of
      multipart replies whose checks can leave the message; both are exhibited.
    - [Buffered] (sys/buffered.h): the two output buffers of a socket are a
      queue.
    - [Connection] (sys/connection.cpp, sys/defaulthandshake.cpp,
      sys/tcp_connection.ipp, sys/engine.cpp): objects in a store with their
      pointers to each other, the engine's tables, the handshake, and one function
      per handler of the event loop. [ConnInv] has the invariant and that every
      operation keeps it, [ConnLoop] the event loop as a step relation and the
      reachable states, [ConnSafe] that every handler is defined there, with the
      theorems; [ConnVersion] follows the version and the listener of each
      connection through a run. The event loop may run any handler that is
      waiting, in any order; [enabled] states what asio promises about them (a
      read that was started ends once, with a header of 8 bytes or with the rest
      of the message, or with an error), and nothing about the contents of
      messages. [checked_event] is a condition on the peer: the message is
      neither a flow statistics reply of OpenFlow 1.0 nor a group statistics reply
      of OpenFlow 1.2, whose normalization is unsafe ([NormSpec]). [reachable]
      asks for both at every step, so the theorems speak of peers that send
      neither. The recursion of the destructor has the number
      of connections as fuel, and is proved to need no more.

    ** The theorems

    Safety of what handles input from the network comes first: reassembly,
    normalization, the event loop with its connections, the packet decoder.
    Then the refinements (containers, streams, output buffers), the round trips
    through sending, normalising and receiving, the exact characterisations of
    the structural checks (each with the fact that the check itself never reads
    out of range), the match conversions, the prerequisites and the text round
    trips. The theorems of the last group evaluate the model on inputs on which
    the code does not do what it means to: they are the findings that
    modelling showed. Where a correctness theorem needs a hypothesis to avoid
    one of them (no final segment and at most two neighbours in [store_covers],
    room for the growth in [SmallBuffer_refines] and [OXMList_refines], the
    address of the frame in [decode_safe], the port fields in
    [flow_mod_v1_roundtrip], 88 bytes in [match_of_accepted_header], the size of
    the ports and the two unsafe statistics replies in [loop_defined]), the
    finding shows that it is needed.

    ** Not modelled

    Engine::closeAll, which stops the engine: the event loop is followed until
    then. Sockets, TLS, servers, signals and the loop's own scheduling (asio and
    OpenSSL, outside the repository) beyond the order of handlers that they may
    choose; the RPC server, which is written against them (rpc/rpcserver.cpp).
    A user's listener is not modelled: the calls it gets are recorded, and it
    makes none back. Packet capture: libpcap. YAML and
    JSON (src/ofp/yaml): declarative mappings onto a vendored library; of the
    decoder only the choice and the check of the message class is modelled. Printing
    of enums and toString functions. The clock and calendar format of
    timestamps. Hashing of addresses. The builders of
    the message classes of [MsgChecks] fill structures field by field and are
    left out, except those of flow modifications and multipart messages; the text
    of LLDP values serves YAML only. *)

From stdpp Require Export base tactics numbers list option gmap.
From Stdlib Require Export ZArith Lia.
From Stdlib Require Ascii String.
Export String.StringSyntax.

Declare Scope ofp_scope.
Delimit Scope ofp_scope with ofp.
#[global] Open Scope ofp_scope.
#[global] Open Scope Z_scope.

(** A debug assertion: a failing one has no result, like undefined behaviour. *)
Notation "'assert!' b ';;' k" := (if b then k else None)
  (at level 60, b at level 99, k at level 200, right associativity, only parsing) : ofp_scope.

(** ** Machine integers: an unsigned w-bit value is a [Z] in [0, 2^w) *)

Definition u8 (z : Z) : Z := z mod 2 ^ 8.
Definition u16 (z : Z) : Z := z mod 2 ^ 16.
Definition u32 (z : Z) : Z := z mod 2 ^ 32.
Definition u64 (z : Z) : Z := z mod 2 ^ 64.

Definition is_byte (b : Z) : Prop := 0 <= b < 256.
Abbreviation bytes_ok := (Forall is_byte).

#[export] Instance is_byte_dec b : Decision (is_byte b).
Proof. unfold is_byte. apply _. Defined.

Lemma u8_range z : 0 <= u8 z < 256.
Proof. unfold u8. apply (Z.mod_pos_bound z 256). lia. Qed.

Lemma u16_range z : 0 <= u16 z < 2 ^ 16.
Proof. apply Z.mod_pos_bound. lia. Qed.

Lemma u32_range z : 0 <= u32 z < 2 ^ 32.
Proof. apply Z.mod_pos_bound. lia. Qed.

Lemma u64_range z : 0 <= u64 z < 2 ^ 64.
Proof. apply Z.mod_pos_bound. lia. Qed.

Lemma u8_small z : 0 <= z < 256 -> u8 z = z.
Proof. intros. apply Z.mod_small. lia. Qed.

Lemma u16_small z : 0 <= z < 2 ^ 16 -> u16 z = z.
Proof. apply Z.mod_small. Qed.

Lemma u32_small z : 0 <= z < 2 ^ 32 -> u32 z = z.
Proof. apply Z.mod_small. Qed.

Lemma u64_small z : 0 <= z < 2 ^ 64 -> u64 z = z.
Proof. apply Z.mod_small. Qed.

(** ** Bit operations used by the packing code *)

Lemma land_ones_mod z n m : 0 <= n -> m = Z.ones n -> Z.land z m = z mod 2 ^ n.
Proof. intros ? ->. by apply Z.land_ones. Qed.

Lemma testbit_high f n i : 0 <= f < 2 ^ n -> n <= i -> Z.testbit f i = false.
Proof.
  intros Hf Hi. destruct (decide (f = 0)) as [->|]; [apply Z.bits_0|].
  apply Z.bits_above_log2; [lia|]. assert (Z.log2 f < n); [|lia].
  apply Z.log2_lt_pow2; lia.
Qed.

Lemma bits_range x n : 0 <= n -> 0 <= x -> (forall i, n <= i -> Z.testbit x i = false) -> 0 <= x < 2 ^ n.
Proof.
  intros Hn Hx H. split; [done|]. destruct (Z.le_gt_cases (2 ^ n) x) as [Hle|]; [|done].
  assert (0 < x) by (pose proof (Z.pow_pos_nonneg 2 n); lia).
  pose proof (Z.bit_log2 x ltac:(done)) as Hb. rewrite H in Hb; [done|].
  by apply Z.log2_le_pow2.
Qed.

(** Testing a flag: [f & (1 << k)]. *)
Lemma land_flag f k : 0 <= k -> (Z.land f (Z.shiftl 1 k) =? 0) = negb (Z.testbit f k).
Proof.
  intros Hk. rewrite Z.shiftl_1_l. destruct (Z.testbit f k) eqn:E; simpl.
  - apply Z.eqb_neq. intros H%(f_equal (fun z => Z.testbit z k)).
    cbv beta in H. by rewrite Z.land_spec, E, Z.pow2_bits_true, Z.bits_0 in H.
  - apply Z.eqb_eq, Z.bits_inj'. intros i Hi.
    rewrite Z.land_spec, Z.bits_0, Z.pow2_bits_eqb by lia.
    destruct (Z.eqb_spec k i) as [<-|]; [by rewrite E|]. by rewrite andb_false_r.
Qed.

(** Bits of a contiguous mask. *)
Lemma testbit_field k n i :
  0 <= k -> 0 <= n -> 0 <= i ->
  Z.testbit (Z.shiftl (Z.ones n) k) i = (k <=? i) && (i <? k + n).
Proof.
  intros. destruct (Z.leb_spec k i); simpl.
  - rewrite Z.shiftl_spec, Z.testbit_ones by lia. lia.
  - by rewrite Z.shiftl_spec_low by lia.
Qed.

(** Joining a low part that fits in [k] bits with a shifted high part. *)
Lemma lor_shift_add a b k :
  0 <= k -> 0 <= a < 2 ^ k -> Z.lor a (Z.shiftl b k) = a + b * 2 ^ k.
Proof.
  intros Hk Ha. rewrite <- Z.shiftl_mul_pow2 by done.
  assert (Z.land a (Z.shiftl b k) = 0) as Hd.
  { apply Z.bits_inj'. intros i Hi. rewrite Z.land_spec, Z.bits_0.
    destruct (decide (i < k)).
    - rewrite Z.shiftl_spec_low by lia. by rewrite andb_false_r.
    - by rewrite (testbit_high a k i) by lia. }
  by rewrite Z.add_nocarry_lxor, Z.lxor_lor.
Qed.

(** Masking with a shifted mask selects a field. *)
Lemma land_shifted_mask n m k :
  0 <= k -> Z.land n (Z.shiftl m k) = Z.shiftl (Z.land (Z.shiftr n k) m) k.
Proof.
  intros Hk. apply Z.bits_inj'. intros i Hi. rewrite Z.land_spec.
  destruct (decide (i < k)).
  - rewrite !Z.shiftl_spec_low by lia. apply andb_false_r.
  - rewrite !Z.shiftl_spec, Z.land_spec, Z.shiftr_spec by lia.
    by replace (i - k + k) with i by lia.
Qed.

(** ** Byte strings *)

Definition zlen {A} (l : list A) : Z := Z.of_nat (length l).

(** Value of a big-endian byte string, and the [n]-byte encoding of a value. *)
Definition be (bs : list Z) : Z := foldl (fun acc b => acc * 256 + b) 0 bs.

Fixpoint be_bytes (n : nat) (z : Z) : list Z :=
  match n with
  | O => []
  | S n' => be_bytes n' (z / 256) ++ [z mod 256]
  end.

Section ByteStrings.
Implicit Types (bs : list Z) (n : nat).

Lemma zlen_nonneg {A} (l : list A) : 0 <= zlen l.
Proof. unfold zlen. lia. Qed.

Lemma zlen_app {A} (l k : list A) : zlen (l ++ k) = zlen l + zlen k.
Proof. unfold zlen. rewrite length_app. lia. Qed.

Lemma zlen_cons {A} (x : A) l : zlen (x :: l) = 1 + zlen l.
Proof. unfold zlen. simpl. lia. Qed.

Lemma zlen_nil : zlen (@nil Z) = 0.
Proof. done. Qed.

Lemma zlen_take {A} (l : list A) k : zlen (take k l) = Z.min (Z.of_nat k) (zlen l).
Proof. unfold zlen. rewrite length_take. lia. Qed.

Lemma zlen_drop {A} (l : list A) k : zlen (drop k l) = Z.max 0 (zlen l - Z.of_nat k).
Proof. unfold zlen. rewrite length_drop. lia. Qed.

Lemma zlen_replicate {A} (x : A) k : zlen (replicate k x) = Z.of_nat k.
Proof. unfold zlen. by rewrite length_replicate. Qed.

Lemma foldl_be acc bs :
  foldl (fun acc b => acc * 256 + b) acc bs = acc * 256 ^ zlen bs + be bs.
Proof.
  unfold be. revert acc. induction bs as [|b bs IH]; intros acc; simpl.
  - rewrite zlen_nil. lia.
  - rewrite (IH (acc * 256 + b)), (IH (0 * 256 + b)), zlen_cons, Z.pow_add_r;
      [lia|lia|apply zlen_nonneg].
Qed.

Lemma be_app bs cs : be (bs ++ cs) = be bs * 256 ^ zlen cs + be cs.
Proof. unfold be at 1. by rewrite foldl_app, foldl_be. Qed.

Lemma be_cons b bs : be (b :: bs) = b * 256 ^ zlen bs + be bs.
Proof. change (b :: bs) with ([b] ++ bs). by rewrite be_app. Qed.

Lemma be_snoc bs b : be (bs ++ [b]) = be bs * 256 + b.
Proof. by rewrite be_app. Qed.

Lemma be_range bs : bytes_ok bs -> 0 <= be bs < 256 ^ zlen bs.
Proof.
  induction bs as [|b bs IH] using rev_ind; [done|].
  rewrite Forall_app, Forall_singleton. intros [Hbs Hb].
  pose proof (zlen_nonneg bs).
  rewrite be_snoc, zlen_app, zlen_cons, zlen_nil, Z.pow_add_r by lia.
  specialize (IH Hbs). unfold is_byte in Hb. lia.
Qed.

Lemma be_zeros k : be (replicate k 0) = 0.
Proof. induction k as [|k IH]; [done|]. simpl. by rewrite be_cons, IH. Qed.

Lemma be_bytes_length n z : length (be_bytes n z) = n.
Proof.
  revert z. induction n as [|n IH]; intros z; [done|]. simpl.
  rewrite length_app, IH. simpl. lia.
Qed.

Lemma be_bytes_ok n z : bytes_ok (be_bytes n z).
Proof.
  revert z. induction n as [|n IH]; intros z; simpl; [done|].
  rewrite Forall_app, Forall_singleton. split; [apply IH|].
  unfold is_byte. apply Z.mod_pos_bound. lia.
Qed.

Lemma be_be_bytes n z : be (be_bytes n z) = z mod 256 ^ Z.of_nat n.
Proof.
  revert z. induction n as [|n IH]; intros z.
  - simpl. by rewrite Z.mod_1_r.
  - simpl be_bytes. rewrite be_snoc, IH, Nat2Z.inj_succ, Z.pow_succ_r by lia.
    rewrite (Z.rem_mul_r z 256) by lia. lia.
Qed.

Lemma be_bytes_be bs : bytes_ok bs -> be_bytes (length bs) (be bs) = bs.
Proof.
  induction bs as [|b bs IH] using rev_ind; [done|].
  rewrite Forall_app, Forall_singleton. intros [Hbs Hb]. unfold is_byte in Hb.
  rewrite length_app, Nat.add_1_r. simpl. rewrite be_snoc.
  rewrite Z.div_add_l, (Z.div_small b 256), Z.add_0_r, IH by (lia || done).
  rewrite Z.add_comm, Z.mod_add, Z.mod_small by lia. done.
Qed.

Lemma be_bytes_be_len n bs : length bs = n -> bytes_ok bs -> be_bytes n (be bs) = bs.
Proof. intros <-. apply be_bytes_be. Qed.

Lemma be_inj bs cs :
  bytes_ok bs -> bytes_ok cs -> length bs = length cs -> be bs = be cs -> bs = cs.
Proof.
  intros Hb Hc Hl He.
  by rewrite <- (be_bytes_be bs), <- (be_bytes_be cs), Hl, He.
Qed.
End ByteStrings.

#[export] Hint Rewrite @zlen_app @zlen_cons zlen_nil @zlen_take @zlen_drop
  @zlen_replicate : zlen.
#[export] Hint Resolve u8_range u16_range u32_range u64_range be_bytes_ok : ofp.

(** C string literals as lists of character codes. *)
Definition chr (a : Ascii.ascii) : Z := Z.of_N (Ascii.N_of_ascii a).
Definition str (s : String.string) : list Z := chr <$> String.list_ascii_of_string s.
Arguments str s%_string_scope.

(** ** Checked memory: an access outside the buffer is undefined behaviour,
    represented by [None] *)

Definition rd8 (m : list Z) (i : Z) : option Z :=
  if 0 <=? i then m !! Z.to_nat i else None.

(** [len] bytes starting at [off]. *)
Definition slice (m : list Z) (off len : Z) : option (list Z) :=
  if (0 <=? off) && (0 <=? len) && (off + len <=? zlen m)
  then Some (take (Z.to_nat len) (drop (Z.to_nat off) m)) else None.

Definition rd_be (w : Z) (m : list Z) (off : Z) : option Z := be <$> slice m off w.
Abbreviation rd16 := (rd_be 2).
Abbreviation rd32 := (rd_be 4).
Abbreviation rd64 := (rd_be 8).

(** Overwrite the bytes at [off] (memcpy into the buffer). *)
Definition wr (m : list Z) (off : Z) (bs : list Z) : option (list Z) :=
  if (0 <=? off) && (off + zlen bs <=? zlen m)
  then Some (take (Z.to_nat off) m ++ bs ++ drop (Z.to_nat (off + zlen bs)) m)
  else None.

(** ** Tactics *)

(** Normalise list lengths and finish with linear arithmetic. *)
Ltac zl := unfold zlen in *; repeat (rewrite ?length_app, ?length_take,
  ?length_drop, ?length_replicate, ?length_cons, ?length_nil in *); simpl length in *; lia.

(** Discharge [bytes_ok] of an explicit list. *)
Ltac bytes :=
  repeat (apply Forall_cons_2); try apply Forall_nil_2; unfold is_byte in *; lia.

(** Split the conditionals of the goal, keeping the tests as hypotheses. *)
Ltac split_ifs :=
  repeat match goal with
  | |- context [if ?b then _ else _] =>
      lazymatch type of b with bool => destruct b eqn:? | _ => destruct b end
  end.

(** Check a decidable property of a small integer by enumeration. *)
Lemma small_cases (P : Z -> Prop) (n : Z) :
  Forall P (seqZ 0 n) -> forall v, 0 <= v < n -> P v.
Proof. rewrite Forall_forall. intros H v Hv. apply H, elem_of_seqZ. lia. Qed.

Lemma small_check (f : Z -> bool) (n : Z) :
  forallb f (seqZ 0 n) = true -> forall v, 0 <= v < n -> f v = true.
Proof.
  rewrite List.forallb_forall. intros H v Hv. apply H, list_elem_of_In, elem_of_seqZ. lia.
Qed.

Section Memory.
Implicit Types (m bs : list Z) (off len i : Z).

Lemma rd8_some m i : 0 <= i < zlen m -> is_Some (rd8 m i).
Proof.
  intros Hi. unfold rd8. destruct (0 <=? i) eqn:?; [|lia].
  apply lookup_lt_is_Some. unfold zlen in Hi. lia.
Qed.

Lemma rd8_inv m i b : rd8 m i = Some b -> 0 <= i < zlen m.
Proof.
  unfold rd8. destruct (0 <=? i) eqn:?; [|done].
  intros H%lookup_lt_Some. unfold zlen. lia.
Qed.

Lemma rd8_byte m i b : bytes_ok m -> rd8 m i = Some b -> is_byte b.
Proof.
  unfold rd8. destruct (0 <=? i); [|done]. intros Hm Hb.
  by eapply Forall_lookup_1 in Hb.
Qed.

Lemma slice_some m off len :
  0 <= off -> 0 <= len -> off + len <= zlen m ->
  slice m off len = Some (take (Z.to_nat len) (drop (Z.to_nat off) m)).
Proof. intros. unfold slice. by rewrite !(proj2 (Z.leb_le _ _)) by lia. Qed.

Lemma slice_all m len : zlen m = len -> slice m 0 len = Some m.
Proof.
  intros <-. pose proof (zlen_nonneg m). rewrite slice_some by lia.
  f_equal. apply take_ge. unfold zlen. simpl. lia.
Qed.

Lemma slice_inv m off len bs :
  slice m off len = Some bs ->
  0 <= off /\ 0 <= len /\ off + len <= zlen m /\
  bs = take (Z.to_nat len) (drop (Z.to_nat off) m) /\ zlen bs = len.
Proof.
  unfold slice. destruct (_ && _) eqn:E; [|done]. intros [= <-].
  apply andb_true_iff in E as [[??]%andb_true_iff ?].
  repeat split; try lia. autorewrite with zlen. lia.
Qed.

Lemma slice_ok m off len bs : bytes_ok m -> slice m off len = Some bs -> bytes_ok bs.
Proof. intros Hm (_&_&_&->&_)%slice_inv. by apply Forall_take, Forall_drop. Qed.

Lemma rd_be_some w m off :
  0 <= off -> 0 <= w -> off + w <= zlen m -> is_Some (rd_be w m off).
Proof. intros. unfold rd_be. rewrite slice_some by done. by eexists. Qed.

Lemma rd_be_range w m off v :
  bytes_ok m -> rd_be w m off = Some v -> 0 <= v < 256 ^ w.
Proof.
  intros Hm. unfold rd_be. destruct (slice m off w) as [bs|] eqn:E; [|done].
  intros [= <-]. pose proof (slice_ok _ _ _ _ Hm E) as Hok.
  apply slice_inv in E as (_&_&_&_&<-). by apply be_range.
Qed.

Lemma rd_be_inv w m off v :
  rd_be w m off = Some v -> 0 <= off /\ off + w <= zlen m.
Proof.
  unfold rd_be. destruct (slice m off w) eqn:E; [|done].
  apply slice_inv in E. intros _. lia.
Qed.

Lemma wr_inv m off bs m' :
  wr m off bs = Some m' ->
  0 <= off /\ off + zlen bs <= zlen m /\ zlen m' = zlen m /\
  m' = take (Z.to_nat off) m ++ bs ++ drop (Z.to_nat (off + zlen bs)) m.
Proof.
  unfold wr. destruct (_ && _) eqn:E; [|done]. intros [= <-].
  apply andb_true_iff in E as [? ?]. pose proof (zlen_nonneg bs).
  repeat split; try lia. autorewrite with zlen. lia.
Qed.

Lemma wr_ok m off bs m' :
  bytes_ok m -> bytes_ok bs -> wr m off bs = Some m' -> bytes_ok m'.
Proof.
  intros Hm Hb (_&_&_&->)%wr_inv. rewrite !Forall_app.
  split_and!; [by apply Forall_take|done|by apply Forall_drop].
Qed.

(** Reading back what was written. *)
Lemma slice_wr m off bs m' :
  wr m off bs = Some m' -> slice m' off (zlen bs) = Some bs.
Proof.
  intros (H1&H2&H3&->)%wr_inv. pose proof (zlen_nonneg bs).
  rewrite slice_some by (lia || autorewrite with zlen; lia).
  rewrite drop_app_length' by (unfold zlen in *; rewrite length_take; lia).
  f_equal. apply take_app_length'. unfold zlen. lia.
Qed.

(** Accesses described by cutting the memory at the access. *)
Lemma slice_split m off len a b d :
  m = a ++ b ++ d -> zlen a = off -> zlen b = len -> slice m off len = Some b.
Proof.
  intros -> <- <-. pose proof (zlen_nonneg a). pose proof (zlen_nonneg b).
  pose proof (zlen_nonneg d).
  rewrite slice_some by (lia || autorewrite with zlen; lia).
  rewrite drop_app_length' by (unfold zlen; lia).
  by rewrite take_app_length' by (unfold zlen; lia).
Qed.

Lemma wr_split m off bs a b d :
  m = a ++ b ++ d -> zlen a = off -> zlen b = zlen bs ->
  wr m off bs = Some (a ++ bs ++ d).
Proof.
  intros -> <- Hb. pose proof (zlen_nonneg a). pose proof (zlen_nonneg d).
  pose proof (zlen_nonneg bs).
  unfold wr. autorewrite with zlen. rewrite !(proj2 (Z.leb_le _ _)) by lia. simpl.
  rewrite take_app_length' by (unfold zlen; lia).
  rewrite (app_assoc a b d), drop_app_length'; [done|]. rewrite length_app. unfold zlen in *. lia.
Qed.

(** Accesses to a first part that has them. *)
Lemma slice_app_l m k off len : off + len <= zlen m -> slice (m ++ k) off len = slice m off len.
Proof.
  intros H. unfold slice. destruct (Z.leb_spec 0 off), (Z.leb_spec 0 len); simpl; try done.
  rewrite zlen_app, !(proj2 (Z.leb_le _ _)) by (pose proof (zlen_nonneg k); lia). f_equal.
  rewrite drop_app_le, take_app_le; [done|rewrite length_drop; unfold zlen in *; lia|unfold zlen in *; lia].
Qed.

Lemma rd_be_app_l w m k off : off + w <= zlen m -> rd_be w (m ++ k) off = rd_be w m off.
Proof. intros. unfold rd_be. by rewrite slice_app_l. Qed.

Lemma rd8_app_l m k i : i < zlen m -> rd8 (m ++ k) i = rd8 m i.
Proof.
  intros. unfold rd8. destruct (Z.leb_spec 0 i); [|done].
  apply lookup_app_l. unfold zlen in *. lia.
Qed.

(** Accesses behind a first part, and to a first part of known length. *)
Lemma slice_skip m k n off len :
  zlen m = n -> n <= off -> slice (m ++ k) off len = slice k (off - n) len.
Proof.
  intros <- H. unfold slice. pose proof (zlen_nonneg m).
  rewrite (proj2 (Z.leb_le 0 off)), (proj2 (Z.leb_le 0 (off - zlen m))) by lia. cbn [andb].
  destruct (0 <=? len); [cbn [andb]|done]. rewrite zlen_app.
  replace (off + len <=? zlen m + zlen k) with (off - zlen m + len <=? zlen k) by lia.
  destruct (_ <=? _); [|done]. f_equal. f_equal. rewrite drop_app_ge by (unfold zlen in *; lia).
  f_equal. unfold zlen in *. lia.
Qed.

(** Accesses relative to the end of a first part. *)
Lemma slice_shift m k i len : 0 <= i -> slice (m ++ k) (zlen m + i) len = slice k i len.
Proof. intros. rewrite (slice_skip m k (zlen m)) by lia. f_equal. lia. Qed.

Lemma slice_shift0 m k len : slice (m ++ k) (zlen m) len = slice k 0 len.
Proof. rewrite (slice_skip m k (zlen m)) by lia. f_equal. lia. Qed.

(** Accesses inside the middle part. *)
Lemma slice_mid pre x post i len :
  0 <= i -> i + len <= zlen x -> slice (pre ++ x ++ post) (zlen pre + i) len = slice x i len.
Proof. intros. rewrite slice_shift by done. by apply slice_app_l. Qed.

Lemma rd8_mid pre x post i : 0 <= i < zlen x -> rd8 (pre ++ x ++ post) (zlen pre + i) = rd8 x i.
Proof.
  intros. unfold rd8. pose proof (zlen_nonneg pre). rewrite !(proj2 (Z.leb_le 0 _)) by lia.
  rewrite lookup_app_r, lookup_app_l by (unfold zlen in *; lia). f_equal. unfold zlen. lia.
Qed.

Lemma slice_mid0 pre x post len :
  len <= zlen x -> slice (pre ++ x ++ post) (zlen pre) len = slice x 0 len.
Proof. intros. rewrite slice_shift0. by apply slice_app_l. Qed.

Lemma slice_head m k len : zlen m = len -> slice (m ++ k) 0 len = Some m.
Proof.
  intros H. rewrite slice_app_l by lia. by apply slice_all.
Qed.

Lemma zlen_be_bytes w v : zlen (be_bytes w v) = Z.of_nat w.
Proof. unfold zlen. by rewrite be_bytes_length. Qed.

Lemma be_be_bytes_small w v : 0 <= v < 256 ^ Z.of_nat w -> be (be_bytes w v) = v.
Proof. intros. rewrite be_be_bytes. by apply Z.mod_small. Qed.

Lemma cut_at {A} (l : list A) n :
  0 <= n <= zlen l -> exists a b, l = a ++ b /\ zlen a = n.
Proof.
  intros Hn. exists (take (Z.to_nat n) l), (drop (Z.to_nat n) l).
  rewrite take_drop, zlen_take. split; [done|lia].
Qed.
End Memory.

(** ** Concatenations *)

Lemma foldl_join {A} (f : A -> list Z) l out :
  foldl (fun o x => o ++ f x) out l = out ++ mjoin (f <$> l).
Proof.
  revert out. induction l as [|x l IH]; intros out; simpl; [by rewrite app_nil_r|].
  by rewrite IH, <- app_assoc.
Qed.

Lemma mjoin_one (x : list Z) : mjoin [x] = x.
Proof. apply app_nil_r. Qed.

Lemma Forall_mjoin {A} (P : A -> Prop) (ls : list (list A)) : Forall P (mjoin ls) <-> Forall (Forall P) ls.
Proof.
  induction ls as [|x ls IH]; [done|]. change (mjoin (x :: ls)) with (x ++ mjoin ls).
  by rewrite Forall_app, Forall_cons, IH.
Qed.

Lemma zlen_mjoin_cons (x : list Z) l : zlen (mjoin (x :: l)) = zlen x + zlen (mjoin l).
Proof. apply zlen_app. Qed.

Lemma mjoin_fmap_length {A} (f : A -> list Z) n (l : list A) :
  Forall (fun x => zlen (f x) = n) l -> zlen (mjoin (f <$> l)) = n * zlen l.
Proof.
  induction 1 as [|x l Hx Hl IH]; [simpl; change (zlen []) with 0; unfold zlen; simpl; lia|].
  change (mjoin (f <$> x :: l)) with (f x ++ mjoin (f <$> l)).
  rewrite zlen_app, zlen_cons, Hx, IH. lia.
Qed.

#[export] Hint Rewrite zlen_be_bytes : zlen.

Lemma rd8_rd_be m off : rd8 m off = rd_be 1 m off.
Proof.
  unfold rd8, rd_be, slice. destruct (Z.leb_spec 0 off); [|done]. cbn [andb Z.leb].
  destruct (Z.leb_spec (off + 1) (zlen m)) as [Hl|Hl].
  - destruct (m !! Z.to_nat off) as [b|] eqn:E; [|apply lookup_ge_None in E; unfold zlen in *; lia].
    rewrite (drop_S _ _ _ E). reflexivity.
  - rewrite lookup_ge_None_2; [done|]. unfold zlen in *. lia.
Qed.

(** ** Reading a structure back from its layout

    The length of a part of a layout: an encoded integer, padding, or a
    byte string whose length is a hypothesis. *)
Ltac part_size a :=
  lazymatch a with
  | be_bytes ?n _ => eval cbv in (Z.of_nat n)
  | replicate ?n _ => eval cbv in (Z.of_nat n)
  | _ => lazymatch goal with H : zlen a = ?n |- _ => n end
  end.

Ltac part_length := by (assumption || (autorewrite with zlen; reflexivity)).

(** Evaluate the accesses to a concatenation of such parts. *)
Ltac read_layout :=
  unfold rd_be;
  repeat match goal with
  | |- context [slice (?a ++ ?k) ?off ?len] =>
      let o := eval cbv in off in
      let n := part_size a in
      lazymatch o with
      | 0 => change (slice (a ++ k) off len) with (slice (a ++ k) 0 len);
             rewrite (slice_head a k len) by part_length
      | _ => let d := eval cbv in (o - n) in
             change (slice (a ++ k) off len) with (slice (a ++ k) o len);
             rewrite (slice_skip a k n o len) by (part_length || lia);
             change (o - n) with d
      end
  | |- context [slice ?a ?off ?len] =>
      let o := eval cbv in off in
      lazymatch o with
      | 0 => change (slice a off len) with (slice a 0 len); rewrite (slice_all a len) by part_length
      end
  end;
  cbn [fmap option_fmap option_map mbind option_bind].

(** Overwriting a part of a concatenation. *)
Lemma wr_head (a k y : list Z) : zlen a = zlen y -> wr (a ++ k) 0 y = Some (y ++ k).
Proof. intros H. exact (wr_split (a ++ k) 0 y [] a k eq_refl eq_refl H). Qed.

Lemma wr_skip (a k y : list Z) n off :
  zlen a = n -> n <= off -> wr (a ++ k) off y = app a <$> wr k (off - n) y.
Proof.
  intros <- Ho. pose proof (zlen_nonneg a). unfold wr. rewrite zlen_app.
  replace (off + zlen y <=? zlen a + zlen k) with (off - zlen a + zlen y <=? zlen k) by lia.
  rewrite !(proj2 (Z.leb_le 0 _)) by lia. cbn [andb].
  destruct (_ <=? _); [|done]. cbn [fmap option_fmap option_map]. f_equal. pose proof (zlen_nonneg y).
  rewrite take_app, drop_app. rewrite take_ge, drop_ge by (unfold zlen in *; lia). cbn [app].
  rewrite <- app_assoc. do 3 f_equal; unfold zlen in *; f_equal; lia.
Qed.

Lemma wr_shift (a k y : list Z) i : 0 <= i -> wr (a ++ k) (zlen a + i) y = app a <$> wr k i y.
Proof. intros. rewrite (wr_skip a k y (zlen a)) by lia. do 2 f_equal. lia. Qed.

Lemma wr_shift0 (a k y : list Z) : wr (a ++ k) (zlen a) y = app a <$> wr k 0 y.
Proof. rewrite (wr_skip a k y (zlen a)) by lia. do 2 f_equal. lia. Qed.

Ltac write_layout :=
  repeat match goal with
  | |- context [wr (?a ++ ?k) ?off ?y] =>
      let o := eval cbv in off in
      let n := part_size a in
      lazymatch o with
      | 0 => change (wr (a ++ k) off y) with (wr (a ++ k) 0 y);
             rewrite (wr_head a k y) by (autorewrite with zlen; part_length || congruence)
      | _ => let d := eval cbv in (o - n) in
             change (wr (a ++ k) off y) with (wr (a ++ k) o y);
             rewrite (wr_skip a k y n o) by (part_length || lia);
             change (o - n) with d
      end
  end;
  cbn [fmap option_fmap option_map mbind option_bind].

(** Read the fields of a structure that lies inside [m]; the values of the
    integers get their range, those of byte fields their equation. *)
Ltac read_fields m :=
  repeat match goal with
  | |- context [rd_be ?w m ?off] =>
      let v := fresh "v" in let E := fresh in
      destruct (rd_be_some w m off) as [v E]; [lia..|]; rewrite E;
      try (apply rd_be_range in E; [|assumption]); cbn [mbind option_bind]
  | |- context [rd8 m ?off] =>
      let v := fresh "v" in let E := fresh in
      destruct (rd8_some m off) as [v E]; [lia|]; rewrite E;
      try (apply rd8_byte in E; [|assumption]); cbn [mbind option_bind]
  | |- context [slice m ?off ?n] =>
      let v := fresh "a" in let E := fresh "E" in
      destruct (slice m off n) as [v|] eqn:E;
      [cbn [mbind option_bind]|rewrite slice_some in E by lia; discriminate]
  end.

(** The length of a byte field read by [read_fields]. *)
Ltac field_length m :=
  match goal with
  | E : slice m _ ?n = Some ?a |- length ?a = _ =>
      apply slice_inv in E as (_ & _ & _ & _ & E); unfold zlen in E; lia
  | E : slice m _ ?n = Some ?a |- zlen ?a = _ => apply slice_inv in E as (_ & _ & _ & _ & E); lia
  end.

(** ** A program that returns, with a result that satisfies [Q] *)

Definition wp {A} (r : option A) (Q : A -> Prop) : Prop :=
  match r with Some a => Q a | None => False end.

Lemma wp_some {A} (r : option A) Q : wp r Q -> exists a, r = Some a /\ Q a.
Proof. destruct r; naive_solver. Qed.

Lemma wp_mono {A} (r : option A) (P Q : A -> Prop) : wp r P -> (forall a, P a -> Q a) -> wp r Q.
Proof. destruct r; naive_solver. Qed.

Lemma wp_bind {A B} (r : option A) (k : A -> option B) P Q :
  wp r P -> (forall a, P a -> wp (k a) Q) -> wp (a ← r; k a) Q.
Proof. destruct r; naive_solver. Qed.

(** A tail call is a call whose result is returned. *)
Lemma wp_tail {A} (r : option A) Q : wp (a ← r; Some a) Q -> wp r Q.
Proof. by destruct r. Qed.

Lemma wp_rd8 buf off {B} (k : Z -> option B) Q :
  bytes_ok buf -> 0 <= off < zlen buf ->
  (forall v, rd8 buf off = Some v -> 0 <= v < 256 -> wp (k v) Q) -> wp (b ← rd8 buf off; k b) Q.
Proof.
  intros Hb Ho K. destruct (rd8_some buf off Ho) as [v E]. rewrite E. apply K; [done|].
  by apply (rd8_byte buf off v).
Qed.

Lemma wp_read_be buf w off {B} (k : Z -> option B) Q :
  bytes_ok buf -> 0 <= off -> 0 <= w -> off + w <= zlen buf ->
  (forall v, rd_be w buf off = Some v -> 0 <= v < 256 ^ w -> wp (k v) Q) -> wp (b ← rd_be w buf off; k b) Q.
Proof.
  intros Hb ? ? ? K. destruct (rd_be_some w buf off) as [v E]; [lia..|]. rewrite E. apply K; [done|].
  by eapply rd_be_range.
Qed.

Lemma wp_read buf off n {B} (k : list Z -> option B) Q :
  bytes_ok buf -> 0 <= off -> 0 <= n -> off + n <= zlen buf ->
  (forall y, slice buf off n = Some y -> bytes_ok y -> zlen y = n -> wp (k y) Q) -> wp (b ← slice buf off n; k b) Q.
Proof.
  intros Hb ? ? ? K. destruct (slice buf off n) as [y|] eqn:E; [|by rewrite slice_some in E by lia].
  cbn [mbind option_bind]. apply K; [done|by eapply slice_ok|]. by apply slice_inv in E as (_ & _ & _ & _ & ?).
Qed.
