(* ===== verification/ByteOrder.v ===== *)
(** * Byte order, padding and fixed-width big-endian integers

    Models include/ofp/byteorder.h and [PadLength] of include/ofp/padding.h.
    A [BigEndianAligned<Type>] object is its only field [n_], a host integer
    of [w] bytes; [le] is the constant [IsHostLittleEndian] of the platform,
    and every statement holds for both of its values. *)

From S2P Require Import Prelude.

(** ** include/ofp/byteorder.h: byte swaps *)

Definition SwapTwoBytes (n : Z) : Z :=
  u16 (Z.lor (Z.shiftl (Z.land n 0x00ff) 8) (Z.shiftr (Z.land n 0xff00) 8)).

Definition SwapFourBytes (n : Z) : Z :=
  u32 (Z.lor (Z.lor (Z.lor (Z.shiftl (Z.land n 0x000000ff) 24)
                           (Z.shiftl (Z.land n 0x0000ff00) 8))
                    (Z.shiftr (Z.land n 0x00ff0000) 8))
             (Z.shiftr (Z.land n 0xff000000) 24)).

Definition SwapEightBytes (n : Z) : Z :=
  u64 (Z.lor (Z.lor (Z.lor (Z.lor (Z.lor (Z.lor (Z.lor
         (Z.shiftl (Z.land n 0x00000000000000ff) 56)
         (Z.shiftl (Z.land n 0x000000000000ff00) 40))
         (Z.shiftl (Z.land n 0x0000000000ff0000) 24))
         (Z.shiftl (Z.land n 0x00000000ff000000) 8))
         (Z.shiftr (Z.land n 0x000000ff00000000) 8))
         (Z.shiftr (Z.land n 0x0000ff0000000000) 24))
         (Z.shiftr (Z.land n 0x00ff000000000000) 40))
         (Z.shiftr (Z.land n 0xff00000000000000) 56)).

(** The four overloads of [SwapByteOrder], selected by [sizeof(Type)]. *)
Inductive width := W1 | W2 | W4 | W8.

Definition wbytes (w : width) : nat :=
  match w with W1 => 1 | W2 => 2 | W4 => 4 | W8 => 8 end.

Definition SwapByteOrder (w : width) (n : Z) : Z :=
  match w with
  | W1 => n
  | W2 => SwapTwoBytes n
  | W4 => SwapFourBytes n
  | W8 => SwapEightBytes n
  end.

Definition HostSwapByteOrder (le : bool) (w : width) (n : Z) : Z :=
  if le then SwapByteOrder w n else n.

(** How the host lays an integer out in memory (language semantics). *)
Definition host_store (le : bool) (w : width) (n : Z) : list Z :=
  if le then rev (be_bytes (wbytes w) n) else be_bytes (wbytes w) n.
Definition host_load (le : bool) (bs : list Z) : Z :=
  if le then be (rev bs) else be bs.

(** ** [BigEndianAligned<Type>], represented by its field [n_] *)

Definition Big_make (le : bool) (w : width) (n : Z) (bigEndian : bool) : Z :=
  if bigEndian then n else HostSwapByteOrder le w n.
Definition Big_native (le : bool) (w : width) (n_ : Z) : Z :=
  HostSwapByteOrder le w n_.
Definition Big_not (n_ : Z) : bool := n_ =? 0.
Definition Big_assign (le : bool) (w : width) (n : Z) : Z :=
  HostSwapByteOrder le w n.

(** [fromBytes(data)]: memcpy of [sizeof(big)] bytes into the object. *)
Definition Big_fromBytes (le : bool) (w : width) (data : list Z) : option Z :=
  host_load le <$> slice data 0 (Z.of_nat (wbytes w)).

(** [fromBytes(data, size)]: the object starts as zero; a longer input is
    read from its tail, a shorter one is copied to the end of the object. *)
Definition Big_fromBytes_size (le : bool) (w : width) (data : list Z) (size : Z)
  : option Z :=
  let sz := Z.of_nat (wbytes w) in
  if size =? 0 then Some 0
  else if sz <? size then
    tail ← slice data (size - sz) sz;
    Big_fromBytes le w tail
  else
    bs ← slice data 0 size;
    obj ← wr (host_store le w 0) (sz - size) bs;
    Some (host_load le obj).

(** [Big24], an array of three bytes. *)
Definition Big24_make (n : Z) : list Z :=
  [u8 (Z.land (Z.shiftr n 16) 0xFF); u8 (Z.land (Z.shiftr n 8) 0xFF);
   u8 (Z.land n 0xFF)].
Definition Big24_native (n_ : list Z) : option Z :=
  match n_ with
  | [a; b; c] => Some (Z.lor (Z.lor (Z.shiftl a 16) (Z.shiftl b 8)) c)
  | _ => None
  end.
Definition Big24_not (n_ : list Z) : option bool :=
  match n_ with
  | [a; b; c] => Some ((a =? 0) || (b =? 0) || (a =? 0))
  | _ => None
  end.

(** ** include/ofp/padding.h (size_t arithmetic wraps at 64 bits) *)
Definition PadLength (length : Z) : Z := u64 (8 * (u64 (length + 7) / 8)).

(** ** Lemmas *)

Definition byte_at (n k : Z) : Z := (n / 256 ^ k) mod 256.

Lemma byte_at_range n k : 0 <= byte_at n k < 256.
Proof. apply Z.mod_pos_bound. lia. Qed.

Lemma land_byte n k :
  0 <= k -> Z.land n (Z.shiftl 255 (8 * k)) = byte_at n k * 2 ^ (8 * k).
Proof.
  intros Hk. rewrite land_shifted_mask by lia.
  rewrite Z.shiftl_mul_pow2, (land_ones_mod _ 8), Z.shiftr_div_pow2 by (lia || done).
  unfold byte_at. rewrite Z.pow_mul_r by lia. done.
Qed.

Lemma lor_hi_lo a x k : 0 <= k -> 0 <= x < 2 ^ k -> Z.lor (a * 2 ^ k) x = a * 2 ^ k + x.
Proof.
  intros. rewrite Z.lor_comm, <- (Z.shiftl_mul_pow2 a) by done.
  rewrite lor_shift_add by done. rewrite Z.shiftl_mul_pow2 by done. lia.
Qed.

Lemma shiftr_field b k s :
  0 <= s <= k -> Z.shiftr (b * 2 ^ k) s = b * 2 ^ (k - s).
Proof.
  intros. rewrite Z.shiftr_div_pow2 by lia.
  replace (2 ^ k) with (2 ^ (k - s) * 2 ^ s)
    by (rewrite <- Z.pow_add_r by lia; f_equal; lia).
  rewrite Z.mul_assoc, Z.div_mul; [done|]. apply Z.pow_nonzero; lia.
Qed.

Lemma shiftl_field b k s : 0 <= k -> 0 <= s -> Z.shiftl (b * 2 ^ k) s = b * 2 ^ (k + s).
Proof. intros. rewrite Z.shiftl_mul_pow2, Z.pow_add_r by lia. lia. Qed.

(** Read off the bytes of [n] in a goal about masks and shifts. *)
Ltac bytes_of n :=
  repeat match goal with
  | |- context [Z.land n ?m] =>
      let k := eval vm_compute in (Z.log2 m / 8) in
      replace (Z.land n m) with (byte_at n k * 2 ^ (8 * k))
        by (symmetry; exact (land_byte n k ltac:(lia)))
  end;
  repeat ((rewrite shiftl_field by lia) || (rewrite shiftr_field by lia));
  repeat match goal with
  | |- context [2 ^ ?e] =>
      let v := eval vm_compute in e in progress change (2 ^ e) with (2 ^ v)
  end;
  repeat match goal with
  | |- context [byte_at n ?k] =>
      lazymatch goal with
      | _ : 0 <= byte_at n k < 256 |- _ => fail
      | _ => pose proof (byte_at_range n k)
      end
  end.

(** One step of assembling an integer from its bytes, high byte first. *)
Lemma lor_step A b j k :
  0 <= k -> j = k + 8 -> 0 <= b < 256 ->
  Z.lor (A * 2 ^ j) (b * 2 ^ k) = (A * 256 + b) * 2 ^ k.
Proof.
  intros Hk -> Hb. pose proof (Z.pow_pos_nonneg 2 k).
  rewrite lor_hi_lo; [|lia|]; rewrite Z.pow_add_r by lia; nia.
Qed.

Ltac swap_spec n := bytes_of n; repeat rewrite lor_step by lia.

Lemma SwapTwoBytes_spec n : SwapTwoBytes n = be [byte_at n 0; byte_at n 1].
Proof.
  unfold SwapTwoBytes. swap_spec n. rewrite u16_small by lia. unfold be. simpl. lia.
Qed.

Lemma SwapFourBytes_spec n :
  SwapFourBytes n = be (byte_at n <$> [0; 1; 2; 3]).
Proof.
  unfold SwapFourBytes. swap_spec n. rewrite u32_small by lia. unfold be. simpl. lia.
Qed.

Lemma SwapEightBytes_spec n :
  SwapEightBytes n = be (byte_at n <$> [0; 1; 2; 3; 4; 5; 6; 7]).
Proof.
  unfold SwapEightBytes. swap_spec n. rewrite u64_small by lia. unfold be. simpl. lia.
Qed.

Lemma byte_at_div n k : 0 <= k -> byte_at (n / 256) k = byte_at n (k + 1).
Proof.
  intros. unfold byte_at.
  rewrite Z.div_div, <- Z.pow_succ_r by (try apply Z.pow_pos_nonneg; lia).
  by rewrite <- Z.add_1_r.
Qed.

Lemma be_bytes_rev w n :
  rev (be_bytes w n) = (fun k => byte_at n (Z.of_nat k)) <$> seq 0 w.
Proof.
  revert n. induction w as [|w IH]; intros n; [done|]. simpl be_bytes.
  rewrite rev_app_distr, IH. simpl. unfold byte_at at 2. rewrite Z.div_1_r. f_equal.
  rewrite <- fmap_S_seq, <- list_fmap_compose. apply list_fmap_ext. intros _ k _.
  simpl. rewrite byte_at_div by lia. f_equal. lia.
Qed.

(** A swap reverses the bytes of the value. *)
Lemma SwapByteOrder_rev w n :
  0 <= n < 256 ^ Z.of_nat (wbytes w) ->
  SwapByteOrder w n = be (rev (be_bytes (wbytes w) n)).
Proof.
  intros Hn. rewrite be_bytes_rev. destruct w; simpl SwapByteOrder.
  - simpl in *. unfold byte_at, be. simpl.
    rewrite Z.div_1_r, (Z.mod_small n) by lia. lia.
  - apply SwapTwoBytes_spec.
  - apply SwapFourBytes_spec.
  - apply SwapEightBytes_spec.
Qed.

Lemma host_load_store le w n :
  0 <= n < 256 ^ Z.of_nat (wbytes w) -> host_load le (host_store le w n) = n.
Proof.
  intros. unfold host_load, host_store.
  destruct le; rewrite ?rev_involutive, be_be_bytes; by apply Z.mod_small.
Qed.

Lemma rev_ok bs : bytes_ok bs -> bytes_ok (rev bs).
Proof. apply List.Forall_rev. Qed.

Lemma HostSwap_load le w bs :
  length bs = wbytes w -> bytes_ok bs ->
  HostSwapByteOrder le w (host_load le bs) = be bs.
Proof.
  intros Hl Hb. unfold HostSwapByteOrder, host_load. destruct le; [|done].
  pose proof (be_range (rev bs) (rev_ok _ Hb)) as Hr.
  unfold zlen in Hr. rewrite length_rev, Hl in Hr.
  rewrite SwapByteOrder_rev by done.
  rewrite <- Hl, <- (length_rev bs), be_bytes_be by (by apply rev_ok).
  by rewrite rev_involutive.
Qed.

(** An object made from a native value reads back as that value and lies
    in memory as its big-endian encoding, whatever the host's byte order. *)
Theorem Big_layout le w n :
  0 <= n < 256 ^ Z.of_nat (wbytes w) ->
  Big_native le w (Big_make le w n false) = n /\
  host_store le w (Big_make le w n false) = be_bytes (wbytes w) n.
Proof.
  intros Hn. unfold Big_native, Big_make, host_store, HostSwapByteOrder.
  destruct le; [|done].
  pose proof (be_bytes_ok (wbytes w) n) as Hok. pose proof (be_bytes_length (wbytes w) n) as Hl.
  rewrite (SwapByteOrder_rev w n) by done.
  assert (be_bytes (wbytes w) (be (rev (be_bytes (wbytes w) n)))
          = rev (be_bytes (wbytes w) n)) as E.
  { rewrite <- Hl at 1. rewrite <- length_rev at 1. by apply be_bytes_be, rev_ok. }
  split; [|by rewrite E, rev_involutive].
  rewrite SwapByteOrder_rev.
  - by rewrite E, rev_involutive, be_be_bytes, Z.mod_small.
  - pose proof (be_range _ (rev_ok _ Hok)) as Hr. unfold zlen in Hr.
    by rewrite length_rev, Hl in Hr.
Qed.

Lemma Big_layout_witness :
  Big_native true W4 (Big_make true W4 0x01020304 false) = 0x01020304 /\
  host_store true W4 (Big_make true W4 0x01020304 false) = [1; 2; 3; 4].
Proof. apply (Big_layout true W4 0x01020304). simpl. lia. Defined.

(** [fromBytes(data, size)] followed by the conversion to the native type
    is the big-endian value of the last [sizeof(Type)] bytes of the data. *)
Theorem Big_fromBytes_size_spec le w data :
  bytes_ok data ->
  Big_native le w <$> Big_fromBytes_size le w data (zlen data) =
  Some (be (drop (length data - wbytes w) data)).
Proof.
  intros Hb. unfold Big_native, Big_fromBytes_size, Big_fromBytes.
  pose proof (zlen_nonneg data) as Hz.
  destruct (Z.eqb_spec (zlen data) 0) as [E|E].
  { destruct data; [|rewrite zlen_cons in E; pose proof (zlen_nonneg data); lia].
    simpl. unfold HostSwapByteOrder. by destruct le, w. }
  destruct (Z.ltb_spec (Z.of_nat (wbytes w)) (zlen data)) as [Hlt|Hge].
  - rewrite slice_some by lia. simpl.
    replace (Z.to_nat (zlen data - Z.of_nat (wbytes w)))
      with (length data - wbytes w)%nat by (unfold zlen in *; lia).
    set (t := take _ _).
    assert (length t = wbytes w) as Hl.
    { unfold t. rewrite length_take, length_drop. unfold zlen in *. lia. }
    assert (t = drop (length data - wbytes w) data) as Et.
    { unfold t. apply take_ge. rewrite length_drop. unfold zlen in *. lia. }
    rewrite slice_all by (unfold zlen; lia). simpl.
    rewrite HostSwap_load; [by rewrite Et|done|].
    rewrite Et. by apply Forall_drop.
  - rewrite slice_all by lia. simpl.
    assert (zlen (host_store le w 0) = Z.of_nat (wbytes w)) as Hs.
    { unfold host_store, zlen. destruct le; by rewrite ?length_rev, be_bytes_length. }
    unfold wr. rewrite Hs, !(proj2 (Z.leb_le _ _)) by lia. simpl.
    replace (Z.of_nat (wbytes w) - zlen data + zlen data) with (Z.of_nat (wbytes w)) by lia.
    rewrite (drop_ge (host_store le w 0)), app_nil_r by (unfold zlen in *; lia).
    assert (host_store le w 0 = replicate (wbytes w) 0) as ->.
    { unfold host_store. by destruct le, w. }
    rewrite take_replicate. rewrite HostSwap_load.
    + rewrite be_app, be_zeros. replace (_ - _)%nat with 0%nat by (unfold zlen in *; lia).
      done.
    + rewrite length_app, length_replicate. unfold zlen in *. lia.
    + apply Forall_app; split; [|done]. apply Forall_replicate. unfold is_byte. lia.
Qed.

Lemma Big_fromBytes_size_witness :
  Big_native true W2 <$> Big_fromBytes_size true W2 [9; 1; 2] 3 = Some 258.
Proof. apply (Big_fromBytes_size_spec true W2 [9; 1; 2]). bytes. Defined.

Lemma Big24_native_bytes a b c :
  0 <= a < 256 -> 0 <= b < 256 -> 0 <= c < 256 ->
  Big24_native [a; b; c] = Some (be [a; b; c]).
Proof.
  intros. unfold Big24_native. rewrite !Z.shiftl_mul_pow2 by lia.
  replace c with (c * 2 ^ 0) at 1 by lia.
  rewrite !lor_step by lia. unfold be. simpl. f_equal. lia.
Qed.

(** A 24-bit value survives the three-byte representation, which is its
    big-endian encoding. *)
Theorem Big24_roundtrip n :
  0 <= n < 2 ^ 24 ->
  Big24_make n = be_bytes 3 n /\ Big24_native (Big24_make n) = Some n.
Proof.
  intros Hn. assert (Big24_make n = be_bytes 3 n) as E.
  { unfold Big24_make. simpl be_bytes.
    rewrite !(land_ones_mod _ 8), !Z.shiftr_div_pow2, Z.div_div by (lia || done).
    unfold u8. rewrite !Z.mod_mod by lia. done. }
  split; [done|]. rewrite E.
  pose proof (be_bytes_ok 3 n) as Hok. simpl be_bytes in *. simpl app in *.
  repeat (apply Forall_cons in Hok as [? Hok]; unfold is_byte in * ).
  rewrite Big24_native_bytes by done. f_equal.
  pose proof (be_be_bytes 3 n) as R. simpl be_bytes in R. simpl app in R. rewrite R.
  apply Z.mod_small. done.
Qed.

Lemma Big24_roundtrip_witness :
  Big24_make 0x010203 = be_bytes 3 0x010203 /\ Big24_native (Big24_make 0x010203) = Some 0x010203.
Proof. apply (Big24_roundtrip 0x010203). lia. Defined.

(** [Big24::operator!] is not the test for zero: it reports a nonzero
    value such as 0x010000 as zero, because it tests bytes 0, 1 and 0. *)
Theorem Big24_not_wrong :
  Big24_not (Big24_make 0x010000) = Some true /\
  Big24_native (Big24_make 0x010000) = Some 0x010000.
Proof. done. Qed.

Lemma PadLength_eq n : 0 <= n < 2 ^ 64 - 7 -> PadLength n = 8 * ((n + 7) / 8).
Proof.
  intros. unfold PadLength. rewrite (u64_small (n + 7)) by lia.
  apply u64_small. pose proof (Z.mul_div_le (n + 7) 8). 
  pose proof (Z.div_pos (n + 7) 8). lia.
Qed.

Lemma PadLength_bounds n :
  0 <= n < 2 ^ 64 - 7 ->
  n <= PadLength n < n + 8 /\ (PadLength n) mod 8 = 0.
Proof.
  intros. rewrite PadLength_eq by done. split.
  - Z.to_euclidean_division_equations. lia.
  - rewrite Z.mul_comm. by apply Z.mod_mul.
Qed.

(** Padding rounds a length up to the next multiple of eight, without
    overflow for every length below 2^64 - 7, and is the least such multiple. *)
Theorem PadLength_spec n k :
  0 <= n < 2 ^ 64 - 7 ->
  n <= PadLength n < n + 8 /\ (PadLength n) mod 8 = 0 /\
  (n <= 8 * k -> PadLength n <= 8 * k).
Proof.
  intros Hn. destruct (PadLength_bounds n Hn) as [H1 H2]. split_and!; [lia..|done|].
  intros Hk. revert H2. Z.to_euclidean_division_equations. lia.
Qed.

Lemma PadLength_witness : 13 <= PadLength 13 < 13 + 8 /\ (PadLength 13) mod 8 = 0 /\
  (13 <= 8 * 2 -> PadLength 13 <= 8 * 2).
Proof. apply (PadLength_spec 13 2). lia. Defined.

Lemma PadLength_fixed n : 0 <= n < 2 ^ 64 - 7 -> n mod 8 = 0 -> PadLength n = n.
Proof. intros. rewrite PadLength_eq by done. Z.to_euclidean_division_equations. lia. Qed.
