(* ===== verification/Hex.v ===== *)
(** * Text conversions of raw data: src/ofp/types.cpp

    Characters are their codes (0..255) in the "C" locale and strings are
    lists of codes. An output buffer is modelled by the list of bytes stored
    so far; its capacity is the [maxlen]/[length] argument. *)

From S2P Require Import Prelude.

Section Hex.
Local Open Scope Z_scope.

Definition kTwoGigabytes : Z := 0x80000000.

(** [isxdigit] and [isspace] of <cctype>. *)
Definition isdigit (c : Z) : bool := (48 <=? c) && (c <=? 57).
Definition isxdigit (c : Z) : bool :=
  isdigit c || ((65 <=? c) && (c <=? 70)) || ((97 <=? c) && (c <=? 102)).
Definition isspace (c : Z) : bool := (c =? 32) || ((9 <=? c) && (c <=? 13)).

Definition HexDigitsUpperCase : list Z := str "0123456789ABCDEF".
Definition HexDigitsLowerCase : list Z := str "0123456789abcdef".
Definition Base64Digits : list Z :=
  str "ABCDEFGHIJKLMNOPQRSTUVWXYZabcdefghijklmnopqrstuvwxyz0123456789+/".

Definition FromHex (hex : Z) : Z :=
  if hex <=? 57 then hex - 48 else Z.land hex (Z.lnot 0x20) - 65 + 10.

Definition ToHexUpperCase (value : Z) : Z :=
  default 0 (rd8 HexDigitsUpperCase value).
Definition ToHexLowerCase (value : Z) : Z :=
  default 0 (rd8 HexDigitsLowerCase value).
Definition ToBase64 (value : Z) : Z := default 0 (rd8 Base64Digits value).

Definition hexPairUpper (b : Z) : list Z :=
  [ToHexUpperCase (Z.shiftr b 4); ToHexUpperCase (Z.land b 0x0F)].
Definition hexPairLower (b : Z) : list Z :=
  [ToHexLowerCase (Z.shiftr b 4); ToHexLowerCase (Z.land b 0x0F)].

(** [RawDataToHexDelimitedLowercase] on an array of [Length >= 1] bytes; the
    text without the terminating NUL. *)
Definition RawDataToHexDelimitedLowercase (data : list Z) : list Z :=
  match data with
  | [] => []
  | e :: rest => hexPairLower e ++ mjoin ((fun b => 58 :: hexPairLower b) <$> rest)
  end.

(** [RawDataToHex(data, len)] as a std::string. *)
Definition RawDataToHex (data : list Z) : list Z :=
  if kTwoGigabytes <? zlen data then str "== hex too big =="
  else mjoin (hexPairUpper <$> data).

(** [RawDataToHex(data, length, os)]: blocks of 128 bytes through a 256-char
    buffer. The result is the list of the [os.write] calls' texts. *)
Fixpoint hex_blocks (fuel : nat) (pos : list Z) : option (list (list Z)) :=
  match fuel with
  | O => None
  | S f =>
      if 128 <=? zlen pos then
        rest ← hex_blocks f (drop 128 pos);
        Some (mjoin (hexPairUpper <$> take 128 pos) :: rest)
      else Some [mjoin (hexPairUpper <$> pos)]
  end.

Definition RawDataToHex_os (data : list Z) : option (list (list Z)) :=
  if kTwoGigabytes <? zlen data then Some [str "== hex too big =="]
  else hex_blocks (S (length data)) data.

(** [RawDataToHex(data, len, delimiter, word)]. *)
Fixpoint hex_delim_loop (delimiter word cnt : Z) (pos : list Z) : list Z :=
  match pos with
  | [] => []
  | b :: rest =>
      if word <? cnt + 1 then
        delimiter :: hexPairUpper b ++ hex_delim_loop delimiter word 1 rest
      else hexPairUpper b ++ hex_delim_loop delimiter word (cnt + 1) rest
  end.

Definition RawDataToHex_delim (data : list Z) (delimiter word : Z) : list Z :=
  if kTwoGigabytes <=? zlen data then str "== hex too big =="
  else hex_delim_loop delimiter word 0 data.

(** [hex.c_str()] scanned up to the terminating NUL. *)
Fixpoint c_str (s : list Z) : list Z :=
  match s with
  | [] => []
  | c :: s' => if c =? 0 then [] else c :: c_str s'
  end.

(** State of the scanning loop of [HexToRawData]: the pending high digit
    ([idx] = 1), the non-hex flag and the bytes stored. *)
Record hexscan := HexScan { hs_ch : option Z; hs_nonhex : bool; hs_out : list Z }.

Fixpoint hex_scan (end_ : Z) (s : list Z) (st : hexscan) : hexscan :=
  match s with
  | [] => st
  | c :: s' =>
      if isxdigit c then
        match hs_ch st with
        | None => hex_scan end_ s' (HexScan (Some (FromHex c)) (hs_nonhex st) (hs_out st))
        | Some ch0 =>
            let out := hs_out st ++ [u8 (Z.lor (Z.shiftl ch0 4) (FromHex c))] in
            let st' := HexScan None (hs_nonhex st) out in
            if end_ <=? zlen out then st' else hex_scan end_ s' st'
        end
      else if negb (hs_nonhex st) && negb (isspace c) then
        hex_scan end_ s' (HexScan (hs_ch st) true (hs_out st))
      else hex_scan end_ s' st
  end.

(** [HexToRawData(hex, data, maxlen, error)]: the returned count, the contents
    of the output buffer and, when it is assigned, the value of [*error]. *)
Definition HexToRawData_buf (hex : list Z) (maxlen : Z) : Z * list Z * option bool :=
  if maxlen =? 0 then (0, [], None)
  else
    let st := hex_scan maxlen (c_str hex) (HexScan None false []) in
    let out := hs_out st in
    (zlen out, out ++ replicate (Z.to_nat (maxlen - zlen out)) 0,
     Some (hs_nonhex st || bool_decide (hs_ch st ≠ None))).

(** [HexDelimitedToRawData]: the returned size (0 for an error) and the bytes
    stored. *)
Fixpoint hex_delimited (delimiter length : Z) (s : list Z) (out : list Z) : Z * list Z :=
  match s with
  | a :: b :: rest =>
      if length <=? zlen out then (0, out)
      else if negb (isxdigit a) then (0, out)
      else if b =? delimiter then
        hex_delimited delimiter length rest (out ++ [u8 (FromHex a)])
      else if negb (isxdigit b) then (0, out)
      else
        let out' := out ++ [u8 (Z.lor (Z.shiftl (FromHex a) 4) (FromHex b))] in
        match rest with
        | [] => (zlen out', out')
        | delim :: rest' =>
            if negb (delim =? delimiter) then (0, out')
            else hex_delimited delimiter length rest' out'
        end
  | [last] =>
      if length <=? zlen out then (0, out)
      else if negb (isxdigit last) then (0, out)
      else let out' := out ++ [u8 (FromHex last)] in (zlen out', out')
  | [] => (0, out)
  end.

Definition HexDelimitedToRawData (s : list Z) (length delimiter : Z) : Z * list Z :=
  hex_delimited delimiter length s [].

(** [HexStrictToRawData]. *)
Fixpoint hex_strict (length : Z) (s : list Z) (out : list Z) : Z * list Z :=
  match s with
  | a :: b :: rest =>
      if length <=? zlen out then (0, out)
      else if negb (isxdigit a) || negb (isxdigit b) then (0, out)
      else hex_strict length rest
             (out ++ [u8 (Z.lor (Z.shiftl (FromHex a) 4) (FromHex b))])
  | [_] => (0, out)
  | [] => (zlen out, out)
  end.

Definition HexStrictToRawData (s : list Z) (length : Z) : Z * list Z :=
  hex_strict length s [].

(** [HexToRawData(hex)] returning a std::string. *)
Fixpoint hex_collect (s : list Z) (ch : option Z) : list Z :=
  match s with
  | [] => []
  | c :: s' =>
      if isxdigit c then
        match ch with
        | None => hex_collect s' (Some (FromHex c))
        | Some ch0 => u8 (Z.lor (Z.shiftl ch0 4) (FromHex c)) :: hex_collect s' None
        end
      else hex_collect s' ch
  end.

Definition HexToRawData (hex : list Z) : list Z := hex_collect (c_str hex) None.

(** [RawDataToBase64]. *)
Definition block24 (a b c : Z) : Z :=
  Z.lor (Z.lor (Z.shiftl a 16) (Z.shiftl b 8)) c.
Definition sextet (block k : Z) : Z := ToBase64 (Z.land (Z.shiftr block k) 0x03F).

Fixpoint base64_loop (src : list Z) : list Z :=
  match src with
  | a :: b :: c :: rest =>
      let blk := block24 a b c in
      [sextet blk 18; sextet blk 12; sextet blk 6; sextet blk 0] ++ base64_loop rest
  | [a; b] =>
      let blk := Z.lor (Z.shiftl a 16) (Z.shiftl b 8) in
      [sextet blk 18; sextet blk 12; sextet blk 6; 61]
  | [a] =>
      let blk := Z.shiftl a 16 in [sextet blk 18; sextet blk 12; 61; 61]
  | [] => []
  end.

Definition RawDataToBase64 (data : list Z) : list Z :=
  if kTwoGigabytes <? zlen data then str "== base64 too big =="
  else base64_loop data.

(** [IsMemFilled] and [MemCopyMasked]. *)
Fixpoint IsMemFilled (data : list Z) (ch : Z) : bool :=
  match data with
  | [] => true
  | p :: rest => if negb (p =? u8 ch) then false else IsMemFilled rest ch
  end.

Definition MemCopyMasked (data mask : list Z) : list Z := zip_with Z.land data mask.

#[local] Arguments hexPairUpper : simpl never.
#[local] Arguments hexPairLower : simpl never.
#[local] Arguments isxdigit : simpl never.
#[local] Arguments FromHex : simpl never.

(** ** Digit facts, checked over the finite domains *)

(** A pair of printed digits reads back as the byte. *)
Definition pair_reads (pr : list Z) (b : Z) : bool :=
  match pr with
  | [x; y] =>
      isxdigit x && isxdigit y && negb (x =? 0) && negb (y =? 0) &&
      negb (y =? 58) && (u8 (Z.lor (Z.shiftl (FromHex x) 4) (FromHex y)) =? b)
  | _ => false
  end.

Lemma hexPairUpper_reads b : is_byte b -> pair_reads (hexPairUpper b) b = true.
Proof. by apply (small_check (fun b => pair_reads (hexPairUpper b) b) 256); vm_compute. Qed.

Lemma hexPairLower_reads b : is_byte b -> pair_reads (hexPairLower b) b = true.
Proof. by apply (small_check (fun b => pair_reads (hexPairLower b) b) 256); vm_compute. Qed.

Lemma pair_reads_inv pr b :
  pair_reads pr b = true ->
  exists x y, pr = [x; y] /\ isxdigit x = true /\ isxdigit y = true /\
    (x =? 0) = false /\ (y =? 0) = false /\ (y =? 58) = false /\
    u8 (Z.lor (Z.shiftl (FromHex x) 4) (FromHex y)) = b.
Proof.
  destruct pr as [|x [|y [|]]]; try done. simpl.
  rewrite !andb_true_iff, !negb_true_iff, Z.eqb_eq. naive_solver.
Qed.

(** Open the two characters printed for a byte. *)
Ltac open_pair H :=
  let x := fresh "x" in let y := fresh "y" in
  destruct (pair_reads_inv _ _ H) as (x & y & -> & ? & ? & ? & ? & ? & ?).

Lemma hex_text_cons b data :
  mjoin (hexPairUpper <$> b :: data) = hexPairUpper b ++ mjoin (hexPairUpper <$> data).
Proof. done. Qed.

Lemma hex_text_length data : zlen (mjoin (hexPairUpper <$> data)) = 2 * zlen data.
Proof.
  induction data as [|b data IH]; [done|].
  rewrite hex_text_cons, zlen_app, zlen_cons, IH. change (zlen (hexPairUpper b)) with 2. lia.
Qed.

Lemma c_str_hex data :
  bytes_ok data -> c_str (mjoin (hexPairUpper <$> data)) = mjoin (hexPairUpper <$> data).
Proof.
  induction data as [|b data IH]; [done|]. intros [Hb Hd]%Forall_cons.
  rewrite hex_text_cons. pose proof (hexPairUpper_reads b Hb) as Hp. open_pair Hp.
  simpl. rewrite H1, H2. by rewrite IH.
Qed.

Lemma hex_collect_hex data :
  bytes_ok data -> hex_collect (mjoin (hexPairUpper <$> data)) None = data.
Proof.
  induction data as [|b data IH]; [done|]. intros [Hb Hd]%Forall_cons.
  rewrite hex_text_cons. pose proof (hexPairUpper_reads b Hb) as Hp. open_pair Hp.
  simpl. rewrite H, H0, H4. by rewrite IH.
Qed.

Lemma hex_strict_hex data out length :
  bytes_ok data -> zlen out + zlen data <= length ->
  hex_strict length (mjoin (hexPairUpper <$> data)) out = (zlen (out ++ data), out ++ data).
Proof.
  revert out. induction data as [|b data IH]; intros out Hd Hl.
  { simpl. by rewrite app_nil_r. }
  apply Forall_cons in Hd as [Hb Hd]. rewrite hex_text_cons, zlen_cons in *.
  pose proof (zlen_nonneg data). pose proof (hexPairUpper_reads b Hb) as Hp. open_pair Hp.
  simpl. rewrite H0, H1, H5. simpl. destruct (Z.leb_spec length (zlen out)); [lia|].
  rewrite IH, <- app_assoc by (done || rewrite zlen_app, zlen_cons, zlen_nil; lia). done.
Qed.

(** Printing bytes in hexadecimal and reading them back is the identity,
    for the lenient reader and for the strict one when the buffer has room. *)
Theorem hex_roundtrip data length :
  bytes_ok data -> zlen data <= kTwoGigabytes -> zlen data <= length ->
  HexToRawData (RawDataToHex data) = data /\
  HexStrictToRawData (RawDataToHex data) length = (zlen data, data).
Proof.
  intros Hd Hs Hl. unfold HexToRawData, RawDataToHex, HexStrictToRawData.
  destruct (Z.ltb_spec kTwoGigabytes (zlen data)); [lia|].
  rewrite c_str_hex, hex_collect_hex, hex_strict_hex by (done || rewrite zlen_nil; lia).
  done.
Qed.

Lemma hex_roundtrip_witness :
  HexToRawData (RawDataToHex [0; 171; 255]) = [0; 171; 255] /\
  HexStrictToRawData (RawDataToHex [0; 171; 255]) 3 = (3, [0; 171; 255]).
Proof. apply (hex_roundtrip [0; 171; 255] 3); [bytes|..]; by vm_compute. Defined.

Lemma hex_blocks_spec fuel pos :
  (length pos < fuel)%nat ->
  exists w, hex_blocks fuel pos = Some w /\ mjoin w = mjoin (hexPairUpper <$> pos) /\
            Forall (fun t => zlen t <= 256) w.
Proof.
  revert pos. induction fuel as [|f IH]; intros pos Hf; [lia|]. simpl.
  destruct (Z.leb_spec 128 (zlen pos)) as [Hl|Hl].
  - destruct (IH (drop 128 pos)) as (w & Hw & Hj & Hb).
    { rewrite length_drop. unfold zlen in Hl. lia. }
    rewrite Hw. simpl. eexists; split_and!; [done| |].
    + simpl. rewrite Hj, <- join_app, <- fmap_app. by rewrite take_drop.
    + constructor; [|done]. rewrite hex_text_length, zlen_take. lia.
  - eexists; split_and!; [done| |].
    + simpl. by rewrite app_nil_r.
    + constructor; [|done]. rewrite hex_text_length. lia.
Qed.

(** The streaming printer terminates, never exceeds its 256-character
    buffer and writes exactly the text of the string-returning one. *)
Theorem RawDataToHex_os_equiv data :
  exists w, RawDataToHex_os data = Some w /\ mjoin w = RawDataToHex data /\
            Forall (fun t => zlen t <= 256) w.
Proof.
  unfold RawDataToHex_os, RawDataToHex. destruct (kTwoGigabytes <? zlen data).
  - eexists. split_and!; [done|done|]. by repeat constructor.
  - apply hex_blocks_spec. lia.
Qed.

Lemma hex_delimited_tail data out length :
  bytes_ok data -> data ≠ [] -> zlen out + zlen data <= length ->
  hex_delimited 58 length (RawDataToHexDelimitedLowercase data) out
  = (zlen (out ++ data), out ++ data).
Proof.
  revert out. induction data as [|b data IH]; intros out Hd Hne Hl; [done|].
  apply Forall_cons in Hd as [Hb Hd]. rewrite zlen_cons in Hl.
  pose proof (zlen_nonneg data). pose proof (hexPairLower_reads b Hb) as Hp.
  destruct data as [|b' data'].
  - change (RawDataToHexDelimitedLowercase [b]) with (hexPairLower b ++ []).
    open_pair Hp. simpl.
    destruct (Z.leb_spec length (zlen out)); [lia|]. by rewrite H0, H1, H4, H5.
  - change (RawDataToHexDelimitedLowercase (b :: b' :: data'))
      with (hexPairLower b ++ 58 :: RawDataToHexDelimitedLowercase (b' :: data')).
    specialize (IH (out ++ [b]) Hd).
    set (rest := RawDataToHexDelimitedLowercase _) in *. clearbody rest.
    open_pair Hp. simpl.
    destruct (Z.leb_spec length (zlen out)); [lia|]. rewrite H0, H1, H4, H5. simpl.
    rewrite IH by (done || rewrite zlen_app, !zlen_cons, zlen_nil in *; lia).
    by rewrite <- app_assoc.
Qed.

(** The delimited reader stores at most [length] bytes. *)
Lemma hex_delimited_bound s delimiter length : forall out,
  zlen out <= length -> zlen (hex_delimited delimiter length s out).2 <= length.
Proof.
  induction s as [s IH] using (induction_ltof1 _ Datatypes.length). unfold ltof in IH. intros out Ho.
  destruct s as [|a [|b rest]]; simpl; [done|..].
  - destruct (Z.leb_spec length (zlen out)); [done|]. destruct (isxdigit a); simpl; [|done].
    rewrite zlen_app, zlen_cons, zlen_nil. lia.
  - destruct (Z.leb_spec length (zlen out)); [done|].
    assert (forall v : Z, zlen (out ++ [v]) <= length) as Hv
      by (intros v; rewrite zlen_app, zlen_cons, zlen_nil; lia).
    destruct (isxdigit a); simpl; [|done]. destruct (b =? delimiter); [apply IH; [simpl; lia|done]|].
    destruct (isxdigit b); simpl; [|done]. destruct rest as [|d rest']; [apply Hv|].
    destruct (d =? delimiter); simpl; [|apply Hv]. apply IH; [simpl; lia|done].
Qed.

(** The colon-delimited form printed for MAC addresses and datapath ids
    reads back as the same bytes. *)
Theorem hex_delimited_roundtrip data length :
  bytes_ok data -> 0 < zlen data <= length ->
  HexDelimitedToRawData (RawDataToHexDelimitedLowercase data) length 58
  = (zlen data, data).
Proof.
  intros Hd Hl. unfold HexDelimitedToRawData.
  apply (hex_delimited_tail data []); [done| |rewrite zlen_nil; lia].
  intros ->. rewrite zlen_nil in Hl. lia.
Qed.

Lemma hex_delimited_roundtrip_witness :
  HexDelimitedToRawData (RawDataToHexDelimitedLowercase [0; 17; 34; 51; 68; 255]) 6 58
  = (6, [0; 17; 34; 51; 68; 255]).
Proof.
  apply (hex_delimited_roundtrip [0; 17; 34; 51; 68; 255] 6); [bytes|];
    by vm_compute.
Defined.

Lemma hex_scan_out end_ s st :
  zlen (hs_out st) < end_ ->
  hs_out (hex_scan end_ s st) =
  take (Z.to_nat end_) (hs_out st ++ hex_collect s (hs_ch st)).
Proof.
  revert st. induction s as [|c s IH]; intros [ch nh out] Hl; simpl in *.
  { rewrite app_nil_r, take_ge; [done|unfold zlen in Hl; lia]. }
  destruct (isxdigit c); simpl.
  - destruct ch as [ch0|]; simpl; [|by rewrite IH].
    set (b := u8 _). destruct (Z.leb_spec end_ (zlen (out ++ [b]))) as [He|He]; simpl.
    + rewrite (cons_middle b out (hex_collect s None)), app_assoc.
      rewrite take_app_le, take_ge by zl. done.
    + rewrite IH by done. simpl. by rewrite <- app_assoc.
  - destruct (negb nh && negb (isspace c)); by rewrite IH.
Qed.

(** [HexToRawData] into a buffer stores the bytes of the lenient reader,
    truncated to the capacity, zero-fills the rest and returns the count. *)
Theorem HexToRawData_buf_spec hex maxlen :
  0 < maxlen ->
  let bs := take (Z.to_nat maxlen) (HexToRawData hex) in
  exists err, HexToRawData_buf hex maxlen =
    (zlen bs, bs ++ replicate (Z.to_nat (maxlen - zlen bs)) 0, Some err) /\
  zlen bs <= maxlen.
Proof.
  intros Hm bs. unfold HexToRawData_buf. destruct (Z.eqb_spec maxlen 0); [lia|].
  eexists. rewrite hex_scan_out by done. simpl.
  fold (HexToRawData hex). fold bs. split; [done|]. subst bs. rewrite zlen_take. lia.
Qed.

Lemma HexToRawData_buf_witness :
  let bs := take (Z.to_nat 3) (HexToRawData (str "01 2G")) in
  exists err, HexToRawData_buf (str "01 2G") 3 =
    (zlen bs, bs ++ replicate (Z.to_nat (3 - zlen bs)) 0, Some err) /\ zlen bs <= 3.
Proof. apply (HexToRawData_buf_spec (str "01 2G") 3). lia. Defined.

(** The error result of [HexToRawData] misses non-hex characters after the
    point where the buffer is full, and is not assigned for an empty buffer. *)
Theorem HexToRawData_error_gaps :
  HexToRawData_buf (str "00zz") 1 = (1, [0], Some false) /\
  HexToRawData_buf (str "zz") 0 = (0, [], None).
Proof. by vm_compute. Qed.

(** ** Base 64 *)

(** Reference decoder: the inverse alphabet and groups of four characters. *)
Definition unBase64 (c : Z) : Z :=
  if (65 <=? c) && (c <=? 90) then c - 65
  else if (97 <=? c) && (c <=? 122) then c - 71
  else if isdigit c then c + 4
  else if c =? 43 then 62 else 63.

Definition group24 (a b c d : Z) : Z :=
  ((unBase64 a * 64 + unBase64 b) * 64 + unBase64 c) * 64 + unBase64 d.

Fixpoint base64_decode (s : list Z) : list Z :=
  match s with
  | a :: b :: c :: d :: rest =>
      if c =? 61 then take 1 (be_bytes 3 (group24 a b 65 65))
      else if d =? 61 then take 2 (be_bytes 3 (group24 a b c 65))
      else be_bytes 3 (group24 a b c d) ++ base64_decode rest
  | _ => []
  end.

Lemma ToBase64_decode v :
  0 <= v < 64 -> unBase64 (ToBase64 v) = v /\ (ToBase64 v =? 61) = false.
Proof.
  intros Hv.
  pose proof (small_check (fun v => (unBase64 (ToBase64 v) =? v) && negb (ToBase64 v =? 61)) 64
    ltac:(by vm_compute) v Hv) as H.
  apply andb_true_iff in H as [?%Z.eqb_eq ?%negb_true_iff]. done.
Qed.

Lemma sextet_decode blk k :
  0 <= k -> unBase64 (sextet blk k) = (blk / 2 ^ k) mod 64 /\ (sextet blk k =? 61) = false.
Proof.
  intros Hk. unfold sextet. rewrite (land_ones_mod _ 6), Z.shiftr_div_pow2 by done.
  apply ToBase64_decode, Z.mod_pos_bound. done.
Qed.

Lemma block24_be a b c :
  is_byte a -> is_byte b -> is_byte c -> block24 a b c = be [a; b; c].
Proof.
  unfold is_byte. intros. unfold block24.
  rewrite Z.lor_comm, (Z.lor_comm (Z.shiftl a 16)).
  replace (Z.shiftl a 16) with (Z.shiftl (Z.shiftl a 8) 8) by (by rewrite Z.shiftl_shiftl).
  rewrite <- Z.shiftl_lor. rewrite (lor_shift_add b), lor_shift_add by lia.
  unfold be. simpl. lia.
Qed.

Lemma group24_sextets n :
  0 <= n < 2 ^ 24 ->
  group24 (sextet n 18) (sextet n 12) (sextet n 6) (sextet n 0) = n.
Proof.
  intros Hn. unfold group24.
  rewrite !(fun k H => proj1 (sextet_decode n k H)) by lia.
  rewrite Z.pow_0_r. simpl (2 ^ _). Z.to_euclidean_division_equations. lia.
Qed.

Lemma group24_pad1 n :
  0 <= n < 2 ^ 24 -> n mod 64 = 0 ->
  group24 (sextet n 18) (sextet n 12) (sextet n 6) 65 = n.
Proof.
  intros Hn Hm. rewrite <- (group24_sextets n) at 4 by done. unfold group24.
  rewrite (proj1 (sextet_decode n 0 ltac:(lia))). rewrite Z.div_1_r, Hm. done.
Qed.

Lemma group24_pad2 n :
  0 <= n < 2 ^ 24 -> n mod 4096 = 0 ->
  group24 (sextet n 18) (sextet n 12) 65 65 = n.
Proof.
  intros Hn Hm. rewrite <- (group24_pad1 n) at 3 by (Z.to_euclidean_division_equations; lia).
  unfold group24. rewrite (proj1 (sextet_decode n 6 ltac:(lia))).
  replace ((n / 2 ^ 6) mod 64) with 0; [done|].
  change (2 ^ 6) with 64. Z.to_euclidean_division_equations. lia.
Qed.

#[local] Arguments be_bytes : simpl never.
#[local] Arguments sextet : simpl never.
#[local] Arguments be : simpl never.

Lemma base64_loop_decode n data :
  (length data < n)%nat -> bytes_ok data ->
  base64_decode (base64_loop data) = data /\
  zlen (base64_loop data) = (zlen data + 2) / 3 * 4.
Proof.
  revert data. induction n as [|n IH]; intros data Hl Hd; [lia|].
  destruct data as [|a [|b [|c data]]]; [done|..];
    repeat (apply Forall_cons in Hd as [? Hd]).
  - assert (Z.shiftl a 16 = be [a; 0; 0]) as E.
    { rewrite Z.shiftl_mul_pow2 by lia. unfold be. simpl. lia. }
    pose proof (be_range [a; 0; 0] ltac:(bytes)) as Hr.
    cbn [base64_loop base64_decode]. rewrite E, Z.eqb_refl, (group24_pad2 (be [a; 0; 0])).
    + by rewrite (be_bytes_be_len 3 [a; 0; 0]) by (done || bytes).
    + apply Hr.
    + unfold be. cbn. Z.to_euclidean_division_equations. lia.
  - assert (Z.lor (Z.shiftl a 16) (Z.shiftl b 8) = be [a; b; 0]) as E.
    { rewrite <- block24_be by (done || unfold is_byte; lia).
      unfold block24. by rewrite Z.lor_0_r. }
    pose proof (be_range [a; b; 0] ltac:(bytes)) as Hr.
    cbn [base64_loop base64_decode].
    rewrite E, (proj2 (sextet_decode _ 6 ltac:(lia))), Z.eqb_refl, (group24_pad1 (be [a; b; 0])).
    + by rewrite (be_bytes_be_len 3 [a; b; 0]) by (done || bytes).
    + apply Hr.
    + unfold be. cbn. Z.to_euclidean_division_equations. lia.
  - pose proof (be_range [a; b; c] ltac:(bytes)) as Hr.
    simpl in Hl. destruct (IH data ltac:(lia) Hd) as [IH1 IH2].
    cbn [base64_loop base64_decode app]. rewrite block24_be by done.
    rewrite !(fun k H => proj2 (sextet_decode _ k H)) by lia.
    rewrite group24_sextets by apply Hr.
    rewrite (be_bytes_be_len 3 [a; b; c]), IH1 by (done || bytes).
    split; [done|]. rewrite !zlen_cons, IH2.
    replace (1 + (1 + (1 + zlen data)) + 2) with (1 * 3 + (zlen data + 2)) by lia.
    rewrite Z.div_add_l by lia. lia.
Qed.

(** The base-64 text decodes to the data under the reference decoder and
    has the length the code reserves for it. *)
Theorem base64_roundtrip data :
  bytes_ok data -> zlen data <= kTwoGigabytes ->
  base64_decode (RawDataToBase64 data) = data /\
  zlen (RawDataToBase64 data) = (zlen data + 2) / 3 * 4.
Proof.
  intros Hd Hs. unfold RawDataToBase64.
  destruct (Z.ltb_spec kTwoGigabytes (zlen data)); [lia|].
  apply (base64_loop_decode (S (length data))); [lia|done].
Qed.

Lemma base64_roundtrip_witness :
  base64_decode (RawDataToBase64 [77; 97; 110; 255]) = [77; 97; 110; 255] /\
  zlen (RawDataToBase64 [77; 97; 110; 255]) = (zlen [77; 97; 110; 255] + 2) / 3 * 4.
Proof. apply (base64_roundtrip [77; 97; 110; 255]); [bytes|]; by vm_compute. Defined.

(** ** Memory helpers *)

Lemma IsMemFilled_true data ch :
  IsMemFilled data ch = true <-> Forall (fun b => b = u8 ch) data.
Proof.
  induction data as [|b data IH]; simpl; [done|]. rewrite Forall_cons, <- IH.
  destruct (Z.eqb_spec b (u8 ch)); simpl; naive_solver.
Qed.

Lemma MemCopyMasked_ok data mask :
  bytes_ok data -> bytes_ok mask -> bytes_ok (MemCopyMasked data mask).
Proof.
  intros Hd. revert mask. induction Hd as [|x data Hx Hd IH]; intros mask Hm; [constructor|].
  destruct Hm as [|y mask Hy Hm]; constructor; [|by apply IH]. unfold is_byte in *.
  assert (Z.land y 255 = y) as <- by (rewrite (land_ones_mod y 8), Z.mod_small by (lia || done); lia).
  rewrite Z.land_assoc, (land_ones_mod _ 8) by done. apply (Z.mod_pos_bound _ 256). lia.
Qed.

Lemma MemCopyMasked_length data mask :
  length data = length mask -> length (MemCopyMasked data mask) = length data.
Proof. intros. unfold MemCopyMasked. rewrite length_zip_with. lia. Qed.

End Hex.
