(* ===== verification/SmallBuffer.v ===== *)
(** * Growable byte buffers: SmallBuffer and ByteList

    Models include/ofp/smallbuffer.h, src/ofp/smallbuffer.cpp and the byte
    operations of src/ofp/bytelist.cpp. A buffer owns either its intrinsic
    64-byte array [buf_] or a heap block; [end_] is kept as an offset from
    [begin_]. The model runs the code as compiled with NDEBUG: assertions are
    the hypotheses of the theorems, and a memory access outside the owning
    block is [None]. [heap_fill n] is the arbitrary contents of an [n]-byte
    block returned by malloc; a failed allocation ends the process
    (log::fatal), so only successful ones are modelled. *)

From S2P Require Import Prelude ByteOrder Hex.

Record SmallBuffer := SB {
  sb_buf : list Z;              (* UInt8 buf_[IntrinsicBufSize] *)
  sb_heap : option (list Z);    (* the malloc'd block, if begin_ != buf_ *)
  sb_size : Z;                  (* end_ - begin_ *)
}.

Definition IntrinsicBufSize : Z := 64.

Section Operations.
Variable heap_fill : Z -> list Z.

Definition SB_isSmall (sb : SmallBuffer) : bool :=
  match sb_heap sb with None => true | Some _ => false end.

(** The block [begin_, capacity_). *)
Definition SB_mem (sb : SmallBuffer) : list Z := default (sb_buf sb) (sb_heap sb).
Definition SB_set_mem (sb : SmallBuffer) (m : list Z) (size : Z) : SmallBuffer :=
  match sb_heap sb with
  | None => SB m None size
  | Some _ => SB (sb_buf sb) (Some m) size
  end.

Definition SB_capacity (sb : SmallBuffer) : Z := zlen (SB_mem sb).
Definition SB_remaining (sb : SmallBuffer) : Z := SB_capacity sb - sb_size sb.

(** What a reader of the buffer sees: [begin(), end()). *)
Definition SB_contents (sb : SmallBuffer) : list Z :=
  take (Z.to_nat (sb_size sb)) (SB_mem sb).

Definition SB_init (buf_ : list Z) : SmallBuffer := SB buf_ None 0.

Definition computeCapacity (length : Z) : Z :=
  if length <=? 1024 then 1024
  else if length <=? 8192 then 8192
  else if length <=? 65536 then 65536
  else if length <=? 524288 then 524288
  else if length <=? 4194304 then 4194304
  else u64 (2 * PadLength length).

(** malloc and realloc of a block of [n] bytes. *)
Definition malloc (n : Z) : list Z := heap_fill n.
Definition realloc (b : list Z) (n : Z) : list Z :=
  take (Z.to_nat n) b ++ drop (length b) (heap_fill n).

Definition memmove (m : list Z) (dst src n : Z) : option (list Z) :=
  bs ← slice m src n; wr m dst bs.

Definition increaseCapacity (sb : SmallBuffer) (newLength : Z) : option SmallBuffer :=
  let newCapacity := computeCapacity newLength in
  match sb_heap sb with
  | None =>
      old ← slice (sb_buf sb) 0 (sb_size sb);
      newBuf ← wr (malloc newCapacity) 0 old;
      Some (SB (sb_buf sb) (Some newBuf) (sb_size sb))
  | Some b => Some (SB (sb_buf sb) (Some (realloc b newCapacity)) (sb_size sb))
  end.

Definition SB_assign (sb : SmallBuffer) (data : list Z) : option SmallBuffer :=
  sb ← (if SB_capacity sb <? zlen data then increaseCapacity sb (zlen data) else Some sb);
  m ← wr (SB_mem sb) 0 data;
  Some (SB_set_mem sb m (zlen data)).

Definition SB_add (sb : SmallBuffer) (data : list Z) : option SmallBuffer :=
  sb ← (if SB_remaining sb <? zlen data
        then increaseCapacity sb (sb_size sb + zlen data) else Some sb);
  m ← wr (SB_mem sb) (sb_size sb) data;
  Some (SB_set_mem sb m (sb_size sb + zlen data)).

Definition SB_insert (sb : SmallBuffer) (pos : Z) (data : list Z) : option SmallBuffer :=
  let length := zlen data in
  sb ← (if SB_remaining sb <? length
        then increaseCapacity sb (sb_size sb + length) else Some sb);
  m ← memmove (SB_mem sb) (pos + length) pos (sb_size sb - pos);
  m ← wr m pos data;
  Some (SB_set_mem sb m (sb_size sb + length)).

Definition SB_replace (sb : SmallBuffer) (pos posEnd : Z) (data : list Z)
  : option SmallBuffer :=
  let length := zlen data in
  let posLen := posEnd - pos in
  if posLen <? length then
    let more := length - posLen in
    sb ← (if SB_remaining sb <? more
          then increaseCapacity sb (sb_size sb + more) else Some sb);
    m ← memmove (SB_mem sb) (posEnd + more) posEnd (sb_size sb - posEnd);
    m ← wr m pos data;
    Some (SB_set_mem sb m (sb_size sb + more))
  else
    let less := posLen - length in
    m ← memmove (SB_mem sb) (posEnd - less) posEnd (sb_size sb - posEnd);
    m ← wr m pos data;
    Some (SB_set_mem sb m (sb_size sb - less)).

Definition SB_remove (sb : SmallBuffer) (pos posEnd : Z) : option SmallBuffer :=
  let less := posEnd - pos in
  m ← memmove (SB_mem sb) (posEnd - less) posEnd (sb_size sb - posEnd);
  Some (SB_set_mem sb m (sb_size sb - less)).

Definition SB_resize (sb : SmallBuffer) (length : Z) : option SmallBuffer :=
  sb ← (if SB_capacity sb <? length then increaseCapacity sb length else Some sb);
  Some (SB_set_mem sb (SB_mem sb) length).

Definition SB_clear (sb : SmallBuffer) : SmallBuffer := SB_set_mem sb (SB_mem sb) 0.

Definition SB_reset (sb : SmallBuffer) (length : Z) : SmallBuffer :=
  if length <=? IntrinsicBufSize then SB (sb_buf sb) None length
  else SB (sb_buf sb) (Some (malloc (PadLength length))) length.

(** The three operations that return a pointer to uninitialised room; the
    pointer is returned as an offset. *)
Definition SB_addUninitialized (sb : SmallBuffer) (length : Z)
  : option (SmallBuffer * Z) :=
  sb ← (if SB_remaining sb <? length
        then increaseCapacity sb (sb_size sb + length) else Some sb);
  Some (SB_set_mem sb (SB_mem sb) (sb_size sb + length), sb_size sb).

Definition SB_insertUninitialized (sb : SmallBuffer) (pos length : Z)
  : option (SmallBuffer * Z) :=
  sb ← (if SB_remaining sb <? length
        then increaseCapacity sb (sb_size sb + length) else Some sb);
  m ← memmove (SB_mem sb) (pos + length) pos (sb_size sb - pos);
  Some (SB_set_mem sb m (sb_size sb + length), pos).

Definition SB_replaceUninitialized (sb : SmallBuffer) (pos posEnd length : Z)
  : option (SmallBuffer * Z) :=
  let posLen := posEnd - pos in
  if posLen <? length then
    let more := length - posLen in
    sb ← (if SB_remaining sb <? more then increaseCapacity sb more else Some sb);
    m ← memmove (SB_mem sb) (posEnd + more) posEnd (sb_size sb - posEnd);
    Some (SB_set_mem sb m (sb_size sb + more), pos)
  else
    let less := posLen - length in
    m ← memmove (SB_mem sb) (posEnd - less) posEnd (sb_size sb - posEnd);
    Some (SB_set_mem sb m (sb_size sb - less), pos).

(** memset(p, 0, length) on the block. *)
Definition SB_memset0 (sb : SmallBuffer) (p length : Z) : option SmallBuffer :=
  m ← wr (SB_mem sb) p (replicate (Z.to_nat length) 0);
  Some (SB_set_mem sb m (sb_size sb)).

Definition SB_addZeros (sb : SmallBuffer) (length : Z) : option SmallBuffer :=
  '(sb, p) ← SB_addUninitialized sb length; SB_memset0 sb p length.
Definition SB_insertZeros (sb : SmallBuffer) (pos length : Z) : option SmallBuffer :=
  '(sb, p) ← SB_insertUninitialized sb pos length; SB_memset0 sb p length.
Definition SB_replaceZeros (sb : SmallBuffer) (pos posEnd length : Z)
  : option SmallBuffer :=
  '(sb, p) ← SB_replaceUninitialized sb pos posEnd length; SB_memset0 sb p length.

(** Move construction and assignment: the new object and the emptied source. *)
Definition SB_move (this_buf : list Z) (buf : SmallBuffer)
  : option (SmallBuffer * SmallBuffer) :=
  dst ← (match sb_heap buf with
         | None =>
             bs ← slice (sb_buf buf) 0 (sb_size buf);
             b ← wr this_buf 0 bs;
             Some (SB b None (sb_size buf))
         | Some b => Some (SB this_buf (Some b) (sb_size buf))
         end);
  Some (dst, SB_init (sb_buf buf)).

Definition SB_move_assign (sb buf : SmallBuffer) : option (SmallBuffer * SmallBuffer) :=
  dst ← (match sb_heap buf with
         | None => SB_assign sb (SB_contents buf)
         | Some b => Some (SB (sb_buf sb) (Some b) (sb_size buf))
         end);
  Some (dst, SB_init (sb_buf buf)).

Definition SB_copy_assign (sb buf : SmallBuffer) : option SmallBuffer :=
  SB_assign sb (SB_contents buf).

Definition SB_eqb (a b : SmallBuffer) : bool :=
  (sb_size a =? sb_size b) && bool_decide (SB_contents a = SB_contents b).

(** ** src/ofp/bytelist.cpp: [addMasked] *)
Definition ByteList_addMasked (sb : SmallBuffer) (data mask : list Z) (length : Z)
  : option SmallBuffer :=
  '(sb, _) ← SB_addUninitialized sb length;
  m ← wr (SB_mem sb) (sb_size sb - length) (MemCopyMasked data mask);
  Some (SB_set_mem sb m (sb_size sb)).
End Operations.

(** ** Invariant ([assertInvariant]) and representation of a byte string *)

Definition SB_inv (sb : SmallBuffer) : Prop :=
  0 <= sb_size sb <= SB_capacity sb /\ SB_capacity sb mod 8 = 0 /\
  0 < SB_capacity sb < 2 ^ 63 /\ zlen (sb_buf sb) = IntrinsicBufSize.

Definition represents (sb : SmallBuffer) (c : list Z) : Prop :=
  SB_inv sb /\ SB_contents sb = c.

(** Largest length for which the growth computation does not overflow. *)
Definition maxLength : Z := 2 ^ 61.

Class HeapFill (heap_fill : Z -> list Z) : Prop :=
  heap_fill_len n : 0 <= n -> zlen (heap_fill n) = n.

#[export] Instance heap_fill_const x : HeapFill (fun n => replicate (Z.to_nat n) x).
Proof. intros n Hn. rewrite zlen_replicate. lia. Qed.

Section Refinement.
Context (heap_fill : Z -> list Z) `{Hfill : !HeapFill heap_fill}.
Implicit Types (sb : SmallBuffer) (c data m : list Z).

Lemma SB_mem_set sb m n : SB_mem (SB_set_mem sb m n) = m.
Proof. unfold SB_mem, SB_set_mem. by destruct (sb_heap sb). Qed.

Lemma SB_size_set sb m n : sb_size (SB_set_mem sb m n) = n.
Proof. unfold SB_set_mem. by destruct (sb_heap sb). Qed.

Lemma SB_inv_set sb m n :
  SB_inv sb -> zlen m = SB_capacity sb -> 0 <= n <= SB_capacity sb ->
  SB_inv (SB_set_mem sb m n).
Proof.
  unfold SB_inv, SB_capacity. intros (H1 & H2 & H3 & H4) Hm Hn.
  rewrite SB_mem_set, SB_size_set, Hm. split_and!; try done; try lia.
  unfold SB_set_mem, SB_mem in *. destruct (sb_heap sb); simpl in *; congruence.
Qed.

(** Cut the owning block into the represented bytes and the spare room. *)
Lemma represents_cut sb c :
  represents sb c ->
  exists r, SB_mem sb = c ++ r /\ sb_size sb = zlen c /\
            SB_capacity sb = zlen c + zlen r.
Proof.
  intros [(H1 & _ & _ & _) <-]. unfold SB_contents, SB_capacity in *.
  exists (drop (Z.to_nat (sb_size sb)) (SB_mem sb)). rewrite take_drop.
  autorewrite with zlen. split_and!; [done|lia..].
Qed.

Lemma represents_set sb m n c :
  SB_inv sb -> zlen m = SB_capacity sb -> n = zlen c ->
  (exists r, m = c ++ r) -> represents (SB_set_mem sb m n) c.
Proof.
  intros Hi Hm -> [r ->]. pose proof (zlen_nonneg c). pose proof (zlen_nonneg r).
  rewrite zlen_app in Hm. split; [apply SB_inv_set; [done|rewrite zlen_app; lia|lia]|].
  unfold SB_contents. rewrite SB_mem_set, SB_size_set.
  apply take_app_length'. unfold zlen. lia.
Qed.

Lemma computeCapacity_spec n :
  0 <= n <= maxLength ->
  n <= computeCapacity n < 2 ^ 63 /\ 0 < computeCapacity n /\ computeCapacity n mod 8 = 0.
Proof.
  unfold maxLength. intros Hn. unfold computeCapacity.
  repeat match goal with |- context [n <=? ?k] => destruct (Z.leb_spec n k);
    [split_and!; first [lia|done]|] end.
  destruct (PadLength_bounds n) as [P1 P2]; [lia|].
  rewrite u64_small by lia. split_and!; try lia.
  by rewrite <- Zmult_mod_idemp_r, P2.
Qed.

Lemma increaseCapacity_block sb c n :
  represents sb c -> 0 <= n <= maxLength -> SB_capacity sb <= computeCapacity n ->
  exists sb', increaseCapacity heap_fill sb n = Some sb' /\ represents sb' c /\
              SB_capacity sb' = computeCapacity n.
Proof.
  intros Hr Hn Hcap. destruct (represents_cut _ _ Hr) as (r & Em & Es & Ec).
  destruct Hr as [(Hi1 & Hi2 & Hi3 & Hi4) _].
  pose proof (zlen_nonneg c). pose proof (zlen_nonneg r).
  destruct (computeCapacity_spec n) as (Hc1 & Hc2 & Hc3); [lia|].
  set (nc := computeCapacity n) in *.
  pose proof (heap_fill_len nc ltac:(lia)) as Hf.
  unfold increaseCapacity. fold nc. unfold SB_mem in Em.
  destruct (sb_heap sb) as [b|] eqn:Eh; simpl in Em.
  - assert (zlen (realloc heap_fill b nc) = nc) as Hl.
    { unfold realloc, SB_capacity, SB_mem in *. rewrite Eh in *. simpl in *.
      autorewrite with zlen. unfold zlen in *. lia. }
    eexists. split_and!; [done| |unfold SB_capacity, SB_mem; simpl; lia].
    split; [unfold SB_inv, SB_capacity, SB_mem; simpl; rewrite Hl; lia|].
    unfold SB_contents, SB_mem, realloc. simpl. subst b. rewrite Es.
    unfold zlen in *. rewrite length_app in *.
    rewrite take_app_le by (rewrite length_take, length_app; lia).
    rewrite take_take, take_app_le by lia. apply take_ge. lia.
  - rewrite (slice_split _ _ _ [] c r) by done. simpl.
    destruct (cut_at (malloc heap_fill nc) (zlen c)) as (x & y & Exy & Ex).
    { unfold malloc. rewrite Hf. unfold SB_capacity, SB_mem in *. lia. }
    rewrite (wr_split _ _ c [] x y) by done. simpl.
    assert (zlen (c ++ y) = nc) as Hl.
    { unfold malloc in Exy. rewrite Exy in Hf. rewrite zlen_app in *. lia. }
    eexists. split_and!; [done| |unfold SB_capacity, SB_mem; simpl; lia].
    split; [unfold SB_inv, SB_capacity, SB_mem; simpl; rewrite Hl; lia|].
    unfold SB_contents, SB_mem. simpl. apply take_app_length'. rewrite Es. unfold zlen. lia.
Qed.

Lemma increaseCapacity_spec sb c n :
  represents sb c -> SB_capacity sb < n <= maxLength ->
  exists sb', increaseCapacity heap_fill sb n = Some sb' /\ represents sb' c /\
              n <= SB_capacity sb'.
Proof.
  intros Hr Hn. pose proof (proj1 Hr) as (? & _ & ? & _).
  destruct (computeCapacity_spec n) as (Hc & _ & _); [lia|].
  destruct (increaseCapacity_block sb c n Hr) as (sb' & E & Hr' & Hb); [lia..|].
  exists sb'. split_and!; [done|done|lia].
Qed.

(** The "grow if needed" prefix shared by the operations. *)
Lemma grow_spec sb c more :
  represents sb c -> 0 <= more -> zlen c + more <= maxLength ->
  exists sb', (if SB_remaining sb <? more
               then increaseCapacity heap_fill sb (sb_size sb + more) else Some sb) = Some sb' /\
              represents sb' c /\ zlen c + more <= SB_capacity sb'.
Proof.
  intros Hr Hm Hl. destruct (represents_cut _ _ Hr) as (r & Em & Es & Ec).
  unfold SB_remaining. destruct (Z.ltb_spec (SB_capacity sb - sb_size sb) more).
  - rewrite Es in *. apply increaseCapacity_spec; [done|lia].
  - exists sb. split_and!; [done|done|lia].
Qed.

Lemma grow_total_spec sb c n :
  represents sb c -> 0 <= n <= maxLength ->
  exists sb', (if SB_capacity sb <? n then increaseCapacity heap_fill sb n
               else Some sb) = Some sb' /\
              represents sb' c /\ n <= SB_capacity sb'.
Proof.
  intros Hr Hn. destruct (Z.ltb_spec (SB_capacity sb) n).
  - apply increaseCapacity_spec; [done|lia].
  - exists sb. split_and!; [done|done|lia].
Qed.

(** Moving a middle part right over spare room, and left over a gap. *)
Lemma memmove_right A B r k :
  0 <= k <= zlen r ->
  exists X r2, memmove (A ++ B ++ r) (zlen A + k) (zlen A) (zlen B) = Some (A ++ X ++ B ++ r2)
    /\ zlen X = k /\ zlen r2 = zlen r - k.
Proof.
  intros Hk. destruct (cut_at r k) as (r1 & r2 & -> & H1); [done|].
  rewrite zlen_app in *. pose proof (zlen_nonneg B).
  destruct (cut_at (B ++ r1) k) as (X & Y & E & HX); [rewrite zlen_app; lia|].
  exists X, r2. unfold memmove. rewrite (slice_split _ _ _ A B (r1 ++ r2)) by done. simpl.
  assert (zlen (B ++ r1) = zlen (X ++ Y)) as HL by (by rewrite E). rewrite !zlen_app in HL.
  rewrite (wr_split _ _ B (A ++ X) Y r2).
  - rewrite <- app_assoc. split_and!; [done|lia..].
  - by rewrite (app_assoc B), E, <- !app_assoc.
  - rewrite zlen_app. lia.
  - lia.
Qed.

Lemma memmove_left A G B r :
  exists r', memmove (A ++ G ++ B ++ r) (zlen A) (zlen A + zlen G) (zlen B)
             = Some (A ++ B ++ r') /\ zlen r' = zlen G + zlen r.
Proof.
  pose proof (zlen_nonneg G). pose proof (zlen_nonneg B).
  destruct (cut_at (G ++ B) (zlen B)) as (X & Y & E & HX); [rewrite zlen_app; lia|].
  exists (Y ++ r). unfold memmove.
  rewrite (slice_split _ _ _ (A ++ G) B r) by (by rewrite ?zlen_app, <- ?app_assoc). simpl.
  assert (zlen (G ++ B) = zlen (X ++ Y)) as HL by (by rewrite E). rewrite !zlen_app in HL.
  rewrite (wr_split _ _ B A X (Y ++ r)).
  - rewrite zlen_app. split; [done|lia].
  - by rewrite (app_assoc G), E, <- !app_assoc.
  - done.
  - done.
Qed.

(** Unpack the growth step and cut the block of the grown buffer. *)
Ltac grow H :=
  let sb' := fresh "sb'" in let Eg := fresh "Eg" in let Hr := fresh "Hr'" in
  let Hc := fresh "Hcap" in let r := fresh "r" in let Em := fresh "Em" in
  let Es := fresh "Es" in let Ec := fresh "Ec" in
  destruct H as (sb' & Eg & Hr & Hc); rewrite Eg; clear Eg; simpl;
  destruct (represents_cut _ _ Hr) as (r & Em & Es & Ec).

Lemma SB_assign_spec sb c data :
  represents sb c -> zlen data <= maxLength ->
  exists sb', SB_assign heap_fill sb data = Some sb' /\ represents sb' data.
Proof.
  intros Hr Hl. pose proof (zlen_nonneg data). unfold SB_assign.
  grow (grow_total_spec sb c (zlen data) Hr ltac:(lia)).
  destruct (cut_at (c ++ r) (zlen data)) as (x & y & E & Hx); [rewrite zlen_app; lia|].
  rewrite Em, E, (wr_split _ _ data [] x y) by done. simpl.
  eexists. split; [done|]. apply represents_set; [apply Hr'| |done|by eexists].
  rewrite Ec, <- zlen_app, E, !zlen_app. lia.
Qed.

Lemma SB_add_spec sb c data :
  represents sb c -> zlen c + zlen data <= maxLength ->
  exists sb', SB_add heap_fill sb data = Some sb' /\ represents sb' (c ++ data).
Proof.
  intros Hr Hl. pose proof (zlen_nonneg data). unfold SB_add.
  grow (grow_spec sb c (zlen data) Hr ltac:(lia) Hl).
  destruct (cut_at r (zlen data)) as (x & y & -> & Hx); [lia|].
  rewrite Em, Es, (wr_split _ _ data c x y) by done. simpl.
  eexists. split; [done|]. apply represents_set; [apply Hr'| | |].
  - rewrite Ec, !zlen_app. lia.
  - by rewrite zlen_app.
  - exists y. by rewrite <- app_assoc.
Qed.

Lemma SB_insert_spec sb A B data :
  represents sb (A ++ B) -> zlen (A ++ B) + zlen data <= maxLength ->
  exists sb', SB_insert heap_fill sb (zlen A) data = Some sb' /\
              represents sb' (A ++ data ++ B).
Proof.
  intros Hr Hl. pose proof (zlen_nonneg data). unfold SB_insert.
  grow (grow_spec sb _ (zlen data) Hr ltac:(lia) Hl).
  destruct (memmove_right A B r (zlen data)) as (X & r2 & E & HX & Hr2); [lia|].
  rewrite Em, Es, <- app_assoc, zlen_app.
  replace (zlen A + zlen B - zlen A) with (zlen B) by lia. rewrite E. simpl.
  rewrite (wr_split _ _ data A X (B ++ r2)) by done. simpl.
  eexists. split; [done|]. apply represents_set; [apply Hr'| | |].
  - rewrite Ec, !zlen_app. lia.
  - rewrite !zlen_app. lia.
  - exists r2. by rewrite <- !app_assoc.
Qed.

Lemma SB_remove_spec sb A G B :
  represents sb (A ++ G ++ B) ->
  exists sb', SB_remove sb (zlen A) (zlen A + zlen G) = Some sb' /\
              represents sb' (A ++ B).
Proof.
  intros Hr. destruct (represents_cut _ _ Hr) as (r & Em & Es & Ec).
  unfold SB_remove. destruct (memmove_left A G B r) as (r' & E & Hr').
  rewrite Em, Es, <- !app_assoc, !zlen_app.
  replace (zlen A + zlen G - (zlen A + zlen G - zlen A)) with (zlen A) by lia.
  replace (zlen A + (zlen G + zlen B) - (zlen A + zlen G)) with (zlen B) by lia.
  rewrite E. simpl. eexists. split; [done|]. apply represents_set; [apply Hr| | |].
  - rewrite Ec, !zlen_app. lia.
  - rewrite !zlen_app. lia.
  - exists r'. by rewrite <- !app_assoc.
Qed.

Lemma SB_replace_spec sb A G B data :
  represents sb (A ++ G ++ B) -> zlen (A ++ G ++ B) + zlen data <= maxLength ->
  exists sb', SB_replace heap_fill sb (zlen A) (zlen A + zlen G) data = Some sb' /\
              represents sb' (A ++ data ++ B).
Proof.
  intros Hr Hl. pose proof (zlen_nonneg data). pose proof (zlen_nonneg G).
  unfold SB_replace. replace (zlen A + zlen G - zlen A) with (zlen G) by lia.
  destruct (Z.ltb_spec (zlen G) (zlen data)) as [Hlt|Hge].
  - grow (grow_spec sb _ (zlen data - zlen G) Hr ltac:(lia) ltac:(lia)).
    destruct (memmove_right (A ++ G) B r (zlen data - zlen G)) as (X & r2 & E & HX & Hr2); [lia|].
    rewrite zlen_app in E. rewrite Em, Es, !zlen_app.
    replace (zlen A + (zlen G + zlen B) - (zlen A + zlen G)) with (zlen B) by lia.
    replace ((A ++ G ++ B) ++ r) with ((A ++ G) ++ B ++ r) by (by rewrite <- !app_assoc).
    rewrite E. simpl.
    rewrite (wr_split _ _ data A (G ++ X) (B ++ r2));
      [|by rewrite <- !app_assoc|done|rewrite zlen_app; lia].
    simpl. eexists. split; [done|]. apply represents_set; [apply Hr'| | |].
    + rewrite Ec, !zlen_app. lia.
    + rewrite !zlen_app. lia.
    + exists r2. by rewrite <- !app_assoc.
  - destruct (represents_cut _ _ Hr) as (r & Em & Es & Ec).
    destruct (cut_at G (zlen data)) as (G1 & G2 & -> & HG1); [lia|].
    destruct (memmove_left (A ++ G1) G2 B r) as (r' & E & Hr').
    rewrite !zlen_app in *. rewrite Em, Es, ?zlen_app.
    replace (zlen A + (zlen G1 + zlen G2) - (zlen G1 + zlen G2 - zlen data))
      with (zlen A + zlen G1) by lia.
    replace (zlen A + (zlen G1 + zlen G2)) with (zlen A + zlen G1 + zlen G2) by lia.
    replace (zlen A + (zlen G1 + zlen G2 + zlen B) - (zlen A + zlen G1 + zlen G2))
      with (zlen B) by lia.
    replace ((A ++ (G1 ++ G2) ++ B) ++ r) with ((A ++ G1) ++ G2 ++ B ++ r)
      by (by rewrite <- !app_assoc).
    rewrite E. simpl.
    rewrite (wr_split _ _ data A G1 (B ++ r')) by (by rewrite <- ?app_assoc). simpl.
    eexists. split; [done|]. apply represents_set; [apply Hr| | |].
    + rewrite Ec, !zlen_app. lia.
    + rewrite !zlen_app. lia.
    + exists r'. by rewrite <- !app_assoc.
Qed.

Lemma SB_resize_spec sb c n :
  represents sb c -> 0 <= n <= maxLength ->
  exists sb' c', SB_resize heap_fill sb n = Some sb' /\ represents sb' c' /\
    zlen c' = n /\ take (Z.to_nat n) c = take (length c) c'.
Proof.
  intros Hr Hn. unfold SB_resize. grow (grow_total_spec sb c n Hr Hn).
  destruct (cut_at (c ++ r) n) as (x & y & E & Hx); [rewrite zlen_app; lia|].
  exists (SB_set_mem sb' (SB_mem sb') n), x. split_and!; [done| |done|].
  - apply represents_set; [apply Hr'|done|done|exists y; congruence].
  - assert (take (Z.to_nat n) (c ++ r) = x) as <-.
    { rewrite E. apply take_app_length'. unfold zlen in Hx. lia. }
    rewrite take_take, take_app_le by lia.
    rewrite <- (take_ge c (length c)) at 1 by lia. rewrite take_take. f_equal. lia.
Qed.

Lemma SB_clear_spec sb c : represents sb c -> represents (SB_clear sb) [].
Proof. intros Hr. apply represents_set; [apply Hr|done|done|by eexists]. Qed.

Lemma SB_reset_spec sb c n :
  represents sb c -> 0 <= n <= maxLength ->
  exists c', represents (SB_reset heap_fill sb n) c' /\ zlen c' = n.
Proof.
  unfold maxLength. intros [(_ & _ & _ & Hb) _] Hn. unfold SB_reset, IntrinsicBufSize in *.
  destruct (Z.leb_spec n 64).
  - eexists. split; [split; [|done]|].
    + unfold SB_inv, SB_capacity, SB_mem, IntrinsicBufSize; simpl. rewrite Hb. split_and!; done || lia.
    + unfold SB_contents, SB_mem. simpl. rewrite zlen_take. lia.
  - destruct (PadLength_bounds n) as [P1 P2]; [lia|].
    pose proof (heap_fill_len (PadLength n) ltac:(lia)) as Hf.
    eexists. split; [split; [|done]|].
    + unfold SB_inv, SB_capacity, SB_mem, malloc, IntrinsicBufSize; simpl. rewrite Hf.
      split_and!; try done; lia.
    + unfold SB_contents, SB_mem, malloc. simpl. rewrite zlen_take, Hf. lia.
Qed.

(** Storing into the represented bytes. *)
Lemma SB_store_spec sb A X B bs :
  represents sb (A ++ X ++ B) -> zlen X = zlen bs ->
  exists m, wr (SB_mem sb) (zlen A) bs = Some m /\
            represents (SB_set_mem sb m (sb_size sb)) (A ++ bs ++ B).
Proof.
  intros Hr Hx. destruct (represents_cut _ _ Hr) as (r & Em & Es & Ec).
  rewrite Em, <- !app_assoc, (wr_split _ _ bs A X (B ++ r)) by done.
  eexists. split; [done|]. apply represents_set; [apply Hr| | |].
  - rewrite Ec, !zlen_app. lia.
  - rewrite Es, !zlen_app. lia.
  - exists r. by rewrite <- !app_assoc.
Qed.

Lemma SB_memset0_spec sb A X B n :
  represents sb (A ++ X ++ B) -> zlen X = n ->
  exists sb', SB_memset0 sb (zlen A) n = Some sb' /\
              represents sb' (A ++ replicate (Z.to_nat n) 0 ++ B).
Proof.
  intros Hr Hx. unfold SB_memset0. pose proof (zlen_nonneg X).
  destruct (SB_store_spec sb A X B (replicate (Z.to_nat n) 0) Hr) as (m & E & Hm).
  { rewrite zlen_replicate. lia. }
  rewrite E. simpl. by eexists.
Qed.

Lemma SB_insertUninitialized_spec sb A B n :
  represents sb (A ++ B) -> 0 <= n -> zlen (A ++ B) + n <= maxLength ->
  exists sb' X, SB_insertUninitialized heap_fill sb (zlen A) n = Some (sb', zlen A) /\
                represents sb' (A ++ X ++ B) /\ zlen X = n.
Proof.
  intros Hr Hn Hl. unfold SB_insertUninitialized. grow (grow_spec sb _ n Hr Hn Hl).
  destruct (memmove_right A B r n) as (X & r2 & E & HX & Hr2); [lia|].
  rewrite Em, Es, <- app_assoc, zlen_app.
  replace (zlen A + zlen B - zlen A) with (zlen B) by lia. rewrite E. simpl.
  eexists _, X. split_and!; [done| |done]. apply represents_set; [apply Hr'| | |].
  - rewrite Ec, !zlen_app. lia.
  - rewrite !zlen_app. lia.
  - exists r2. by rewrite <- !app_assoc.
Qed.

Lemma SB_addUninitialized_spec sb c n :
  represents sb c -> 0 <= n -> zlen c + n <= maxLength ->
  exists sb' X, SB_addUninitialized heap_fill sb n = Some (sb', zlen c) /\
                represents sb' (c ++ X) /\ zlen X = n.
Proof.
  intros Hr Hn Hl. unfold SB_addUninitialized. grow (grow_spec sb c n Hr Hn Hl).
  destruct (cut_at r n) as (x & y & -> & Hx); [lia|]. rewrite Es.
  eexists _, x. split_and!; [done| |done]. apply represents_set; [apply Hr'|done| |].
  - rewrite zlen_app. lia.
  - exists y. by rewrite Em, <- app_assoc.
Qed.

Lemma SB_insertZeros_spec sb A B n :
  represents sb (A ++ B) -> 0 <= n -> zlen (A ++ B) + n <= maxLength ->
  exists sb', SB_insertZeros heap_fill sb (zlen A) n = Some sb' /\
              represents sb' (A ++ replicate (Z.to_nat n) 0 ++ B).
Proof.
  intros Hr Hn Hl. unfold SB_insertZeros.
  destruct (SB_insertUninitialized_spec sb A B n Hr Hn Hl) as (sb' & X & -> & Hr' & HX).
  by apply (SB_memset0_spec sb' A X B).
Qed.

Lemma SB_addZeros_spec sb c n :
  represents sb c -> 0 <= n -> zlen c + n <= maxLength ->
  exists sb', SB_addZeros heap_fill sb n = Some sb' /\
              represents sb' (c ++ replicate (Z.to_nat n) 0).
Proof.
  intros Hr Hn Hl. unfold SB_addZeros.
  destruct (SB_addUninitialized_spec sb c n Hr Hn Hl) as (sb' & X & -> & Hr' & HX).
  simpl. destruct (SB_memset0_spec sb' c X [] n) as (sb2 & E & H2);
    [by rewrite app_nil_r|done|]. rewrite app_nil_r in H2. eauto.
Qed.

Lemma ByteList_addMasked_spec sb c data mask n :
  represents sb c -> zlen data = n -> zlen mask = n -> zlen c + n <= maxLength ->
  exists sb', ByteList_addMasked heap_fill sb data mask n = Some sb' /\
              represents sb' (c ++ MemCopyMasked data mask).
Proof.
  intros Hr Hd Hm Hl. unfold ByteList_addMasked. pose proof (zlen_nonneg data).
  destruct (SB_addUninitialized_spec sb c n Hr ltac:(lia) Hl) as (sb' & X & -> & Hr' & HX).
  simpl. destruct (represents_cut _ _ Hr') as (r & _ & Es & _).
  replace (sb_size sb' - n) with (zlen c) by (rewrite Es, zlen_app; lia).
  destruct (SB_store_spec sb' c X [] (MemCopyMasked data mask)) as (m & -> & H2).
  - by rewrite app_nil_r.
  - unfold zlen in *. rewrite MemCopyMasked_length; lia.
  - simpl. rewrite app_nil_r in H2. by eexists.
Qed.

(** A replacement that does not lengthen the range is correct. *)
Lemma SB_replaceUninitialized_shrink sb A G B n :
  represents sb (A ++ G ++ B) -> 0 <= n <= zlen G ->
  exists sb' X, SB_replaceUninitialized heap_fill sb (zlen A) (zlen A + zlen G) n
                = Some (sb', zlen A) /\
                represents sb' (A ++ X ++ B) /\ zlen X = n.
Proof.
  intros Hr Hn. unfold SB_replaceUninitialized.
  replace (zlen A + zlen G - zlen A) with (zlen G) by lia.
  destruct (Z.ltb_spec (zlen G) n); [lia|].
  destruct (represents_cut _ _ Hr) as (r & Em & Es & Ec).
  destruct (cut_at G n) as (X & G2 & -> & HX); [lia|].
  destruct (memmove_left (A ++ X) G2 B r) as (r' & E & Hr').
  rewrite !zlen_app in *. rewrite Em, Es.
  replace (zlen A + (zlen X + zlen G2) - (zlen X + zlen G2 - n)) with (zlen A + zlen X) by lia.
  replace (zlen A + (zlen X + zlen G2)) with (zlen A + zlen X + zlen G2) by lia.
  replace (zlen A + (zlen X + zlen G2 + zlen B) - (zlen A + zlen X + zlen G2))
    with (zlen B) by lia.
  replace ((A ++ (X ++ G2) ++ B) ++ r) with ((A ++ X) ++ G2 ++ B ++ r)
    by (by rewrite <- !app_assoc).
  rewrite E. simpl. eexists _, X. split_and!; [done| |done].
  apply represents_set; [apply Hr| | |].
  - rewrite Ec, !zlen_app. lia.
  - rewrite !zlen_app. lia.
  - exists r'. by rewrite <- !app_assoc.
Qed.

(** [replaceUninitialized] that lengthens the range asks [increaseCapacity]
    for the growth alone, not for [size() + more]: there is room only when
    the owning block has it already, or when the block allocated for the
    growth happens to hold the whole buffer. The second case carries the
    assertions of [computeCapacity] and [increaseCapacity]. *)
Definition replace_room sb (more : Z) : Prop :=
  more <= SB_remaining sb \/
  (IntrinsicBufSize < more <= maxLength /\ SB_capacity sb < computeCapacity more /\
   sb_size sb + more <= computeCapacity more).

Lemma replace_grow_spec sb c (more : Z) :
  represents sb c -> replace_room sb more ->
  exists sb', (if SB_remaining sb <? more then increaseCapacity heap_fill sb more
               else Some sb) = Some sb' /\
              represents sb' c /\ zlen c + more <= SB_capacity sb'.
Proof.
  intros Hr Hm. destruct (represents_cut _ _ Hr) as (r & Em & Es & Ec).
  unfold replace_room, IntrinsicBufSize in Hm.
  destruct (Z.ltb_spec (SB_remaining sb) more); unfold SB_remaining in *.
  - destruct Hm as [?|(? & ? & ?)]; [lia|].
    destruct (increaseCapacity_block sb c more Hr) as (sb' & E & Hr' & Hb); [lia..|].
    exists sb'. split_and!; [done|done|lia].
  - exists sb. split_and!; [done|done|lia].
Qed.

Lemma SB_replaceUninitialized_spec sb A G B n :
  represents sb (A ++ G ++ B) -> 0 <= n -> replace_room sb (n - zlen G) ->
  exists sb' X, SB_replaceUninitialized heap_fill sb (zlen A) (zlen A + zlen G) n
                = Some (sb', zlen A) /\
                represents sb' (A ++ X ++ B) /\ zlen X = n.
Proof.
  intros Hr Hn Hroom. destruct (Z.ltb_spec (zlen G) n) as [Hlt|Hge];
    [|by apply SB_replaceUninitialized_shrink].
  unfold SB_replaceUninitialized. replace (zlen A + zlen G - zlen A) with (zlen G) by lia.
  rewrite (proj2 (Z.ltb_lt _ _) Hlt). grow (replace_grow_spec sb _ _ Hr Hroom).
  destruct (memmove_right (A ++ G) B r (n - zlen G)) as (X & r2 & E & HX & Hr2); [lia|].
  rewrite zlen_app in E. rewrite Em, Es, !zlen_app.
  replace (zlen A + (zlen G + zlen B) - (zlen A + zlen G)) with (zlen B) by lia.
  replace ((A ++ G ++ B) ++ r) with ((A ++ G) ++ B ++ r) by (by rewrite <- !app_assoc).
  rewrite E. simpl. eexists _, (G ++ X). split_and!; [done| |rewrite zlen_app; lia].
  apply represents_set; [apply Hr'| | |].
  - rewrite Ec, !zlen_app. lia.
  - rewrite !zlen_app. lia.
  - exists r2. by rewrite <- !app_assoc.
Qed.

Lemma SB_replaceZeros_spec sb A G B n :
  represents sb (A ++ G ++ B) -> 0 <= n -> replace_room sb (n - zlen G) ->
  exists sb', SB_replaceZeros heap_fill sb (zlen A) (zlen A + zlen G) n = Some sb' /\
              represents sb' (A ++ replicate (Z.to_nat n) 0 ++ B).
Proof.
  intros Hr Hn Hroom. unfold SB_replaceZeros.
  destruct (SB_replaceUninitialized_spec sb A G B n Hr Hn Hroom) as (sb' & X & -> & Hr' & HX).
  by apply (SB_memset0_spec sb' A X B).
Qed.

Lemma SB_init_represents buf_ : zlen buf_ = IntrinsicBufSize -> represents (SB_init buf_) [].
Proof.
  unfold IntrinsicBufSize. intros Hb. split; [|done].
  unfold SB_inv, SB_capacity, SB_mem, SB_init, IntrinsicBufSize. simpl.
  rewrite Hb. split_and!; done || lia.
Qed.

(** Moving a buffer, into a new object or over an existing one, transfers
    the bytes and leaves the source empty, for small and heap buffers alike. *)
Theorem SB_move_spec this_buf sb buf c0 c :
  zlen this_buf = IntrinsicBufSize -> represents sb c0 -> represents buf c ->
  zlen c <= maxLength ->
  (exists dst src, SB_move this_buf buf = Some (dst, src) /\
                   represents dst c /\ represents src []) /\
  (exists dst src, SB_move_assign heap_fill sb buf = Some (dst, src) /\
                   represents dst c /\ represents src []).
Proof.
  intros Ht Hs Hr Hl. pose proof Hr as [(I1 & I2 & I3 & I4) Hc].
  pose proof (SB_init_represents _ I4) as Hsrc.
  destruct (represents_cut _ _ Hr) as (r & Em & Es & Ec).
  unfold SB_move, SB_move_assign. unfold SB_mem in Em.
  destruct (sb_heap buf) as [b|] eqn:Eh; simpl in *.
  - split; eexists _, _; split_and!; try done; (split; [|by rewrite <- Hc;
      unfold SB_contents, SB_mem; simpl; rewrite Eh]);
      unfold SB_inv, SB_capacity, SB_mem in *; rewrite Eh in *; simpl in *; [lia|].
    destruct Hs as [(_ & _ & _ & ?) _]. lia.
  - split.
    + rewrite (slice_split _ _ _ [] c r) by done. simpl.
      destruct (cut_at this_buf (zlen c)) as (x & y & -> & Hx).
      { unfold SB_capacity, SB_mem, IntrinsicBufSize in *. rewrite Eh in *. simpl in *.
        pose proof (zlen_nonneg c). lia. }
      rewrite (wr_split _ _ c [] x y) by done. simpl.
      eexists _, _. split_and!; [done| |done]. split.
      * unfold SB_inv, SB_capacity, SB_mem, IntrinsicBufSize in *. rewrite Eh in *.
        simpl in *. rewrite !zlen_app in *. pose proof (zlen_nonneg y).
        replace (zlen c + zlen y) with 64 by lia. split_and!; try done; lia.
      * unfold SB_contents, SB_mem. simpl. rewrite Es. apply take_app_length'. unfold zlen. lia.
    + destruct (SB_assign_spec sb c0 c Hs Hl) as (dst & E & Hd).
      rewrite Hc, E. simpl. by eexists _, _.
Qed.
End Refinement.

(** ** The contract: a byte string with edits, and the refinement *)

Inductive sb_op :=
  | OpAssign (data : list Z) | OpAdd (data : list Z)
  | OpInsert (pos : Z) (data : list Z)
  | OpReplace (pos posEnd : Z) (data : list Z)
  | OpRemove (pos posEnd : Z)
  | OpResize (n : Z) | OpClear | OpReset (n : Z)
  | OpAddUninitialized (n : Z) | OpInsertUninitialized (pos n : Z)
  | OpReplaceUninitialized (pos posEnd n : Z)
  | OpAddZeros (n : Z) | OpInsertZeros (pos n : Z)
  | OpReplaceZeros (pos posEnd n : Z).

Definition sb_step (heap_fill : Z -> list Z) (sb : SmallBuffer) (op : sb_op)
  : option SmallBuffer :=
  match op with
  | OpAssign data => SB_assign heap_fill sb data
  | OpAdd data => SB_add heap_fill sb data
  | OpInsert pos data => SB_insert heap_fill sb pos data
  | OpReplace pos posEnd data => SB_replace heap_fill sb pos posEnd data
  | OpRemove pos posEnd => SB_remove sb pos posEnd
  | OpResize n => SB_resize heap_fill sb n
  | OpClear => Some (SB_clear sb)
  | OpReset n => Some (SB_reset heap_fill sb n)
  | OpAddUninitialized n => fst <$> SB_addUninitialized heap_fill sb n
  | OpInsertUninitialized pos n => fst <$> SB_insertUninitialized heap_fill sb pos n
  | OpReplaceUninitialized pos posEnd n =>
      fst <$> SB_replaceUninitialized heap_fill sb pos posEnd n
  | OpAddZeros n => SB_addZeros heap_fill sb n
  | OpInsertZeros pos n => SB_insertZeros heap_fill sb pos n
  | OpReplaceZeros pos posEnd n => SB_replaceZeros heap_fill sb pos posEnd n
  end.

(** Abstract effect; [resize], [reset] and the uninitialised room leave the
    new bytes unspecified. *)
Definition abs_step (c : list Z) (op : sb_op) (c' : list Z) : Prop :=
  let upto n := take (Z.to_nat n) c in
  let from n := drop (Z.to_nat n) c in
  match op with
  | OpAssign data => c' = data
  | OpAdd data => c' = c ++ data
  | OpInsert pos data => c' = upto pos ++ data ++ from pos
  | OpReplace pos posEnd data => c' = upto pos ++ data ++ from posEnd
  | OpRemove pos posEnd => c' = upto pos ++ from posEnd
  | OpResize n => zlen c' = n /\ upto n = take (length c) c'
  | OpClear => c' = []
  | OpReset n => zlen c' = n
  | OpAddUninitialized n => exists X, zlen X = n /\ c' = c ++ X
  | OpInsertUninitialized pos n => exists X, zlen X = n /\ c' = upto pos ++ X ++ from pos
  | OpReplaceUninitialized pos posEnd n =>
      exists X, zlen X = n /\ c' = upto pos ++ X ++ from posEnd
  | OpAddZeros n => c' = c ++ replicate (Z.to_nat n) 0
  | OpInsertZeros pos n => c' = upto pos ++ replicate (Z.to_nat n) 0 ++ from pos
  | OpReplaceZeros pos posEnd n =>
      c' = upto pos ++ replicate (Z.to_nat n) 0 ++ from posEnd
  end.

(** The assertions on the arguments ([assertInRange], length limits); for the
    two operations that replace a range by new room, also that the room is
    there, which the code does not see to ([SB_replaceUninitialized_overflow]). *)
Definition op_pre (sb : SmallBuffer) (op : sb_op) : Prop :=
  let c := SB_contents sb in
  match op with
  | OpAssign data => zlen data <= maxLength
  | OpAdd data => zlen c + zlen data <= maxLength
  | OpInsert pos data => 0 <= pos <= zlen c /\ zlen c + zlen data <= maxLength
  | OpReplace pos posEnd data =>
      0 <= pos <= posEnd /\ posEnd <= zlen c /\ zlen c + zlen data <= maxLength
  | OpRemove pos posEnd => 0 <= pos <= posEnd /\ posEnd <= zlen c
  | OpResize n | OpReset n => 0 <= n <= maxLength
  | OpClear => True
  | OpAddUninitialized n | OpAddZeros n => 0 <= n /\ zlen c + n <= maxLength
  | OpReplaceUninitialized pos posEnd n | OpReplaceZeros pos posEnd n =>
      0 <= pos <= posEnd /\ posEnd <= zlen c /\ 0 <= n /\
      replace_room sb (n - (posEnd - pos))
  | OpInsertUninitialized pos n | OpInsertZeros pos n =>
      0 <= pos <= zlen c /\ 0 <= n /\ zlen c + n <= maxLength
  end.

Lemma cut2 (c : list Z) pos posEnd :
  0 <= pos <= posEnd -> posEnd <= zlen c ->
  exists A G B, c = A ++ G ++ B /\ zlen A = pos /\ zlen A + zlen G = posEnd /\
    take (Z.to_nat pos) c = A /\ drop (Z.to_nat posEnd) c = B.
Proof.
  intros H1 H2. destruct (cut_at c pos) as (A & r & -> & HA); [lia|].
  rewrite zlen_app in H2. destruct (cut_at r (posEnd - pos)) as (G & B & -> & HG); [lia|].
  exists A, G, B. split_and!; [done|done|lia| |].
  - apply take_app_length'. unfold zlen in HA. lia.
  - rewrite app_assoc. apply drop_app_length'. rewrite length_app. unfold zlen in *. lia.
Qed.

(** Cut the represented bytes at a range of positions, or at one position. *)
Ltac at_range c pos pe Hr :=
  let HA := fresh "HA" in let HG := fresh "HG" in
  let EA := fresh "EA" in let EB := fresh "EB" in
  destruct (cut2 c pos pe) as (A & G & B & Ec & HA & HG & EA & EB); [lia..|];
  rewrite EA, EB, <- HG, <- HA; rewrite Ec in Hr.
Ltac at_pos c pos Hr :=
  let HA := fresh "HA" in let HG := fresh "HG" in
  let EA := fresh "EA" in let EB := fresh "EB" in
  destruct (cut2 c pos pos) as (A & G & B & Ec & HA & HG & EA & EB); [lia..|];
  assert (G = []) as -> by (apply length_zero_iff_nil; unfold zlen in *; lia);
  simpl in Ec; rewrite EA, EB, <- HA; rewrite Ec in Hr.

(** C8. SmallBuffer implements its contract: from a buffer that represents
    [c], every operation that edits it, with in-range arguments, completes
    without leaving the owning block, keeps the invariant and represents the
    edited bytes. For [replaceUninitialized] and [replaceZeros] this holds
    only when the range does not grow, or the block has room for the growth
    (or the block allocated for the growth alone holds the whole buffer);
    otherwise they write past the block ([SB_replaceUninitialized_overflow]). *)
Theorem SmallBuffer_refines heap_fill `{!HeapFill heap_fill} sb c op :
  represents sb c -> op_pre sb op ->
  exists sb' c', sb_step heap_fill sb op = Some sb' /\ abs_step c op c' /\
                 represents sb' c'.
Proof.
  intros Hr Hp. pose proof (proj2 Hr) as EC. unfold op_pre in Hp. rewrite EC in Hp. clear EC.
  destruct op as [data|data|pos data|pos pe data|pos pe|n| |n|n|pos n|pos pe n|n|pos n|pos pe n];
    unfold sb_step, abs_step in *.
  - destruct (SB_assign_spec heap_fill sb c data Hr Hp) as (sb' & ? & ?). eauto.
  - destruct (SB_add_spec heap_fill sb c data Hr Hp) as (sb' & ? & ?). eauto.
  - at_pos c pos Hr.
    destruct (SB_insert_spec heap_fill sb A B data Hr) as (sb' & ? & ?); [rewrite <- Ec; lia|eauto].
  - at_range c pos pe Hr.
    destruct (SB_replace_spec heap_fill sb A G B data Hr) as (sb' & ? & ?);
      [rewrite <- Ec; lia|eauto].
  - at_range c pos pe Hr. destruct (SB_remove_spec sb A G B Hr) as (sb' & ? & ?). eauto.
  - destruct (SB_resize_spec heap_fill sb c n Hr Hp) as (sb' & c' & ? & ? & ? & ?). eauto 6.
  - eexists _, []. split_and!; [done|done|by eapply SB_clear_spec].
  - destruct (SB_reset_spec heap_fill sb c n Hr Hp) as (c' & ? & ?). eauto.
  - destruct Hp. destruct (SB_addUninitialized_spec heap_fill sb c n Hr)
      as (sb' & X & -> & ? & ?); [done..|simpl; eauto 8].
  - at_pos c pos Hr. destruct (SB_insertUninitialized_spec heap_fill sb A B n Hr)
      as (sb' & X & -> & ? & ?); [lia|rewrite <- Ec; lia|simpl; eauto 8].
  - destruct Hp as (? & ? & ? & ?). at_range c pos pe Hr.
    destruct (SB_replaceUninitialized_spec heap_fill sb A G B n Hr)
      as (sb' & X & -> & ? & ?); [lia|by replace (zlen G) with (pe - pos) by lia|simpl; eauto 8].
  - destruct Hp. destruct (SB_addZeros_spec heap_fill sb c n Hr) as (sb' & ? & ?); [done..|eauto].
  - at_pos c pos Hr. destruct (SB_insertZeros_spec heap_fill sb A B n Hr) as (sb' & ? & ?);
      [lia|rewrite <- Ec; lia|eauto].
  - destruct Hp as (? & ? & ? & ?). at_range c pos pe Hr.
    destruct (SB_replaceZeros_spec heap_fill sb A G B n Hr)
      as (sb' & ? & ?); [lia|by replace (zlen G) with (pe - pos) by lia|eauto].
Qed.

Definition fillAA (n : Z) : list Z := replicate (Z.to_nat n) 0xAA.

(** A buffer that has just been constructed. *)
Definition sb_fresh : SmallBuffer := SB_init (replicate 64 0).

Lemma sb_fresh_represents : represents sb_fresh [].
Proof. by apply SB_init_represents. Qed.

Definition sb_three : SmallBuffer := SB ([1; 2; 3] ++ replicate 61 0) None 3.

Lemma SmallBuffer_refines_witness :
  exists sb' c', sb_step fillAA sb_three (OpReplaceZeros 1 2 100) = Some sb' /\
    abs_step [1; 2; 3] (OpReplaceZeros 1 2 100) c' /\ represents sb' c'.
Proof.
  apply (SmallBuffer_refines fillAA sb_three [1; 2; 3] (OpReplaceZeros 1 2 100)).
  - split; [|reflexivity]. unfold SB_inv. vm_compute SB_capacity. split_and!; done.
  - split_and!; [done..|]. right. split_and!; by vm_compute.
Defined.

Lemma SB_move_witness :
  (exists dst src, SB_move (replicate 64 7) sb_fresh = Some (dst, src) /\
                   represents dst [] /\ represents src []) /\
  (exists dst src, SB_move_assign fillAA sb_fresh sb_fresh = Some (dst, src) /\
                   represents dst [] /\ represents src []).
Proof.
  apply (SB_move_spec fillAA (replicate 64 7) sb_fresh sb_fresh [] []);
    [done|exact sb_fresh_represents|exact sb_fresh_represents|by vm_compute].
Defined.

(** A 1024-byte heap block holding 1000 bytes, reachable by adding data. *)
Definition sb_nearly_full : SmallBuffer :=
  SB (replicate 64 0) (Some (replicate 1024 0)) 1000.

(** [replaceUninitialized] that lengthens the range computes the new
    capacity from the growth alone ([increaseCapacity(more)] instead of
    [size() + more]): on a valid buffer of 1000 bytes it moves bytes past the
    end of the block, where [insertUninitialized] with the same effect is fine. *)
Theorem SB_replaceUninitialized_overflow :
  SB_inv sb_nearly_full /\
  SB_replaceUninitialized fillAA sb_nearly_full 0 0 100 = None /\
  is_Some (SB_insertUninitialized fillAA sb_nearly_full 0 100).
Proof.
  split_and!; [|by vm_compute|vm_compute; by eexists].
  unfold SB_inv. vm_compute SB_capacity. split_and!; done.
Qed.
