(* ===== verification/Constants.v ===== *)
(** * Protocol constants and version translations

    Models src/ofp/header.cpp ([Header] and the message-type translation),
    the flag conversions of src/ofp/constants.cpp and the error type/code
    conversions of src/ofp/constants_error.cpp. Enumerators are their wire
    values. *)

From S2P Require Import Prelude.

(** ** include/ofp/constants.h *)

Definition OFP_VERSION_1 : Z := 1.
Definition OFP_VERSION_2 : Z := 2.
Definition OFP_VERSION_3 : Z := 3.
Definition OFP_VERSION_4 : Z := 4.
Definition OFP_VERSION_5 : Z := 5.
Definition OFP_VERSION_6 : Z := 6.
Definition OFP_VERSION_MAX_ALLOWED : Z := 9.
Definition OFP_MAX_SIZE : Z := 65535.

Definition PROTOCOL_ICMP : Z := 1.
Definition PROTOCOL_TCP : Z := 6.
Definition PROTOCOL_UDP : Z := 17.
Definition PROTOCOL_ICMPV6 : Z := 58.
Definition PROTOCOL_SCTP : Z := 132.
Definition DATALINK_IPV4 : Z := 0x0800.
Definition DATALINK_IPV6 : Z := 0x86dd.
Definition DATALINK_8021Q : Z := 0x8100.
Definition DATALINK_ARP : Z := 0x0806.
Definition DATALINK_LLDP : Z := 0x88cc.
Definition DATALINK_BDDP : Z := 0x8942.
Definition ICMPV6_TYPE_NEIGHBOR_SOLICIT : Z := 135.
Definition ICMPV6_TYPE_NEIGHBOR_ADVERTISE : Z := 136.
Definition ICMPV6_OPTION_SLL : Z := 1.
Definition ICMPV6_OPTION_TLL : Z := 2.
Definition OFPVID_PRESENT : Z := 0x1000.
Definition OFPVID_NONE : Z := 0.
Definition OFPVID_MASK : Z := 0x0fff.
Definition NXM_FRAG_TYPE_NONE : Z := 0x00.
Definition NXM_FRAG_TYPE_ANY : Z := 0x01.
Definition NXM_FRAG_TYPE_LATER : Z := 0x02.
Definition OFPIEH_NONEXT : Z := Z.shiftl 1 0.
Definition OFPIEH_ESP : Z := Z.shiftl 1 1.
Definition OFPIEH_AUTH : Z := Z.shiftl 1 2.
Definition OFPIEH_DEST : Z := Z.shiftl 1 3.
Definition OFPIEH_FRAG : Z := Z.shiftl 1 4.
Definition OFPIEH_ROUTER : Z := Z.shiftl 1 5.
Definition OFPIEH_HOP : Z := Z.shiftl 1 6.
Definition OFPIEH_UNREP : Z := Z.shiftl 1 7.
Definition OFPIEH_UNSEQ : Z := Z.shiftl 1 8.

Definition OFPT_HELLO : Z := 0.
Definition OFPT_ERROR : Z := 1.
Definition OFPT_ECHO_REQUEST : Z := 2.
Definition OFPT_ECHO_REPLY : Z := 3.
Definition OFPT_EXPERIMENTER : Z := 4.
Definition OFPT_FEATURES_REQUEST : Z := 5.
Definition OFPT_FEATURES_REPLY : Z := 6.
Definition OFPT_GET_CONFIG_REQUEST : Z := 7.
Definition OFPT_PACKET_IN : Z := 10.
Definition OFPT_FLOW_REMOVED : Z := 11.
Definition OFPT_PORT_STATUS : Z := 12.
Definition OFPT_PACKET_OUT : Z := 13.
Definition OFPT_FLOW_MOD : Z := 14.
Definition OFPT_GROUP_MOD : Z := 15.
Definition OFPT_PORT_MOD : Z := 16.
Definition OFPT_TABLE_MOD : Z := 17.
Definition OFPT_MULTIPART_REQUEST : Z := 18.
Definition OFPT_MULTIPART_REPLY : Z := 19.
Definition OFPT_BARRIER_REQUEST : Z := 20.
Definition OFPT_QUEUE_GET_CONFIG_REQUEST : Z := 22.
Definition OFPT_QUEUE_GET_CONFIG_REPLY : Z := 23.
Definition OFPT_ROLE_REQUEST : Z := 24.
Definition OFPT_GET_ASYNC_REQUEST : Z := 26.
Definition OFPT_GET_ASYNC_REPLY : Z := 27.
Definition OFPT_SET_ASYNC : Z := 28.
Definition OFPT_LAST : Z := 34.
Definition OFPT_MAX_ALLOWED : Z := 64.
Definition OFPT_UNSUPPORTED : Z := 0xF9.

(** ** src/ofp/header.cpp *)

(** Wire header: version, type, length, xid. *)
Record Header := Hdr {
  hdr_version : Z; hdr_type : Z; hdr_length : Z; hdr_xid : Z }.

Definition v1_OFPT_PORT_MOD : Z := 15.

(** [MaxTypeByVersion[]]; indices past 4 are out of the array. *)
Definition MaxTypeByVersion : list Z := [0; 21; 23; 25; OFPT_LAST].

Definition translateTypeToVersion (type version : Z) : option Z :=
  let go type :=
    max ← rd8 MaxTypeByVersion version;
    Some (if max <? type then OFPT_UNSUPPORTED else type) in
  if version =? OFP_VERSION_1 then
    if (type =? OFPT_GROUP_MOD) || (type =? OFPT_TABLE_MOD) then Some OFPT_UNSUPPORTED
    else go (u8 (if type =? OFPT_PORT_MOD then type - 1 else type - 2))
  else go type.

Definition translateTypeFromVersion (type version : Z) : option Z :=
  max ← rd8 MaxTypeByVersion version;
  if max <? type then Some OFPT_UNSUPPORTED
  else if version =? OFP_VERSION_1 then
    Some (if type =? v1_OFPT_PORT_MOD then OFPT_PORT_MOD
          else if v1_OFPT_PORT_MOD <? type then u8 (type + 2) else type)
  else Some type.

Definition Header_translateType (version type newVersion : Z) : option Z :=
  if version =? 0 then Some OFPT_UNSUPPORTED
  else if version =? newVersion then Some type
  else if (OFP_VERSION_4 <? version) || (OFP_VERSION_4 <? newVersion) then Some type
  else if type <=? OFPT_FLOW_MOD then Some type
  else if version =? OFP_VERSION_4 then translateTypeToVersion type newVersion
  else if newVersion =? OFP_VERSION_4 then translateTypeFromVersion type version
  else Some OFPT_UNSUPPORTED.

Definition Header_validateInput (h : Header) (negotiatedVersion : Z) : bool :=
  if hdr_length h <? 8 then false
  else if (hdr_version h =? 0) || (OFP_VERSION_MAX_ALLOWED <? hdr_version h) then false
  else if negb (negotiatedVersion =? 0) && negb (hdr_version h =? negotiatedVersion)
  then false
  else if OFPT_MAX_ALLOWED <? hdr_type h then false
  else true.

Definition Header_validateVersionAndType (h : Header) : option bool :=
  if hdr_version h =? 0 then
    Some ((hdr_type h =? OFPT_HELLO) || (hdr_type h =? OFPT_ERROR))
  else
    t ← Header_translateType OFP_VERSION_4 (hdr_type h) (hdr_version h);
    Some (negb (t =? OFPT_UNSUPPORTED)).

(** ** include/ofp/portnumber.h: [fromV1] sign-extends the reserved 16-bit ports *)

Definition PortNumber_fromV1 (port : Z) : Z :=
  if 0xFF00 <? port then Z.lor port 0xFFFF0000 else port.
Definition PortNumber_toV1 (port : Z) : Z := u16 port.

(** ** src/ofp/constants.cpp: flag conversions *)

Definition OFPATF_STRIP_VLAN_V1 : Z := Z.shiftl 1 30.
Definition OFPATF_ENQUEUE_V1 : Z := Z.shiftl 1 31.
Definition v1_OFPAT_STRIP_VLAN : Z := 3.
Definition v1_OFPAT_ENQUEUE : Z := 11.

Definition OFPActionTypeFlagsConvertToV1 (actions : Z) : Z :=
  let result := Z.land actions 0x0607 in
  let moved := Z.shiftl (Z.land actions 0x00F8) 1 in
  let result := Z.lor result moved in
  let result := if negb (Z.land actions OFPATF_STRIP_VLAN_V1 =? 0)
                then Z.lor result (Z.shiftl 1 v1_OFPAT_STRIP_VLAN) else result in
  if negb (Z.land actions OFPATF_ENQUEUE_V1 =? 0)
  then Z.lor result (Z.shiftl 1 v1_OFPAT_ENQUEUE) else result.

Definition OFPActionTypeFlagsConvertFromV1 (actions : Z) : Z :=
  let result := Z.land actions 0x0607 in
  let moved := Z.shiftr (Z.land actions 0x01F0) 1 in
  let result := Z.lor result moved in
  let result := if negb (Z.land actions (Z.shiftl 1 v1_OFPAT_STRIP_VLAN) =? 0)
                then Z.lor result OFPATF_STRIP_VLAN_V1 else result in
  if negb (Z.land actions (Z.shiftl 1 v1_OFPAT_ENQUEUE) =? 0)
  then Z.lor result OFPATF_ENQUEUE_V1 else result.

Definition OFPC_STP : Z := Z.shiftl 1 31.
Definition v1_OFPC_STP : Z := Z.shiftl 1 3.

Definition OFPCapabilitiesFlagsConvertToV1 (capabilities : Z) : Z :=
  let result := Z.land capabilities 0x7FFFFFFF in
  if negb (Z.land capabilities OFPC_STP =? 0) then Z.lor result v1_OFPC_STP else result.

Definition OFPCapabilitiesFlagsConvertFromV1 (capabilities : Z) : Z :=
  let result := capabilities in
  if negb (Z.land capabilities v1_OFPC_STP =? 0)
  then Z.land (Z.lor result OFPC_STP) (Z.lnot v1_OFPC_STP) else result.

Definition OFPPortFeaturesFlagsConvertToV1 (features : Z) : Z :=
  Z.lor (Z.land features (Z.lnot 0x0FF80)) (Z.shiftr (Z.land features 0xF800) 4).

Definition OFPPortFeaturesFlagsConvertFromV1 (features : Z) : Z :=
  Z.lor (Z.land features (Z.lnot 0x0FF80)) (Z.shiftl (Z.land features 0x00F80) 4).

(** ** src/ofp/constants_error.cpp *)

Definition OFPET_BAD_ACTION : Z := 2.
Definition OFPET_FLOW_MOD_FAILED : Z := 5.
Definition OFPET_TABLE_FEATURES_FAILED : Z := 13.
Definition OFPET_BAD_PROPERTY : Z := 14.
Definition OFPET_EXPERIMENTER : Z := 0xffff.
Definition OFPET_UNKNOWN_FLAG : Z := 0x8000.
Definition kMaxErrorType : Z := OFPET_TABLE_FEATURES_FAILED.

Definition OFPErrorCodeMake (type code : Z) : Z := Z.lor (Z.shiftl type 16) code.
Definition OFPErrorCodeGetType (code : Z) : Z := Z.land (Z.shiftr code 16) 0xffff.

Definition OFPFMFC_UNSUPPORTED : Z := OFPErrorCodeMake OFPET_FLOW_MOD_FAILED 0x7f.
Definition OFPBAC_UNSUPPORTED_ORDER : Z := OFPErrorCodeMake OFPET_BAD_ACTION 11.

(** [sErrorTypesV1]: wire value in version 1, error type. *)
Definition sErrorTypesV1 : list (Z * Z) := [(0, 0); (1, 1); (2, 2); (3, 5); (4, 7); (5, 9)].

(** [sErrorFlowModFailedV1]: wire code in version 1, error code. *)
Definition sErrorFlowModFailedV1 : list (Z * Z) :=
  [(0, OFPErrorCodeMake OFPET_FLOW_MOD_FAILED 1); (1, OFPErrorCodeMake OFPET_FLOW_MOD_FAILED 3);
   (2, OFPErrorCodeMake OFPET_FLOW_MOD_FAILED 4); (3, OFPErrorCodeMake OFPET_FLOW_MOD_FAILED 5);
   (4, OFPErrorCodeMake OFPET_FLOW_MOD_FAILED 6); (5, OFPFMFC_UNSUPPORTED)].

(** The range-for loops over the two tables. *)
Definition find_fst (k : Z) (l : list (Z * Z)) : option Z :=
  snd <$> head (filter (fun p => p.1 = k) l).
Definition find_snd (k : Z) (l : list (Z * Z)) : option Z :=
  fst <$> head (filter (fun p => p.2 = k) l).

Definition OFPErrorTypeFromValue (version type code : Z) : Z :=
  if type =? OFPET_EXPERIMENTER then OFPET_EXPERIMENTER
  else if version =? OFP_VERSION_1 then
    match find_fst type sErrorTypesV1 with
    | Some t => t
    | None => Z.lor type OFPET_UNKNOWN_FLAG
    end
  else if kMaxErrorType <? type then Z.lor type OFPET_UNKNOWN_FLAG
  else type.

Definition OFPErrorTypeToValue (version code : Z) : Z :=
  let type := OFPErrorCodeGetType code in
  if type =? OFPET_EXPERIMENTER then OFPET_EXPERIMENTER
  else if negb (Z.land type OFPET_UNKNOWN_FLAG =? 0) then
    Z.land type (Z.lnot OFPET_UNKNOWN_FLAG)
  else if version =? OFP_VERSION_1 then
    match find_snd type sErrorTypesV1 with Some v => v | None => type end
  else if code =? OFPFMFC_UNSUPPORTED then OFPET_BAD_ACTION
  else type.

Definition OFPErrorCodeFromValue (version type code : Z) : Z :=
  if type =? OFPET_EXPERIMENTER then OFPErrorCodeMake type code
  else if version =? OFP_VERSION_1 then
    match (if type =? 3 then find_fst code sErrorFlowModFailedV1 else None) with
    | Some c => c
    | None => OFPErrorCodeMake (OFPErrorTypeFromValue version type code) code
    end
  else OFPErrorCodeMake type code.

Definition OFPErrorCodeToValue (version code : Z) : Z :=
  if version =? OFP_VERSION_1 then
    match find_snd code sErrorFlowModFailedV1 with
    | Some c => c
    | None => Z.land code 0xffff
    end
  else if code =? OFPFMFC_UNSUPPORTED then Z.land OFPBAC_UNSUPPORTED_ORDER 0xffff
  else Z.land code 0xffff.

(** ** Theorems *)

(** The message type translation between OpenFlow 1.0-1.2 and 1.3 stays in
    its table, and translating a type of an old version to 1.3 and back gives
    the same type; no old type translates to a 1.3 type of another one. *)
Theorem translateType_roundtrip version type :
  OFP_VERSION_1 <= version <= OFP_VERSION_3 -> 0 <= type < 256 ->
  exists t4, Header_translateType version type OFP_VERSION_4 = Some t4 /\
  (t4 ≠ OFPT_UNSUPPORTED ->
   Header_translateType OFP_VERSION_4 t4 version = Some type) /\
  (default 0 (rd8 MaxTypeByVersion version) < type -> t4 = OFPT_UNSUPPORTED).
Proof.
  intros Hv Ht.
  set (ok v t :=
    match Header_translateType v t OFP_VERSION_4 with
    | Some t4 =>
        ((t4 =? OFPT_UNSUPPORTED) ||
         bool_decide (Header_translateType OFP_VERSION_4 t4 v = Some t)) &&
        ((t <=? default 0 (rd8 MaxTypeByVersion v)) || (t4 =? OFPT_UNSUPPORTED))
    | None => false
    end).
  assert (ok version type = true) as H.
  { apply (small_check (ok version) 256); [|done].
    assert (version = 1 \/ version = 2 \/ version = 3) as [-> | [-> | ->]]
      by (unfold OFP_VERSION_1, OFP_VERSION_3 in *; lia); by vm_compute. }
  unfold ok in H. destruct (Header_translateType version type OFP_VERSION_4) as [t4|]; [|done].
  exists t4. apply andb_true_iff in H as [H1 H2]. split_and!; [done| |].
  - intros Hne. apply orb_true_iff in H1 as [E%Z.eqb_eq|E%bool_decide_eq_true_1]; done.
  - intros Hgt. apply orb_true_iff in H2 as [E%Z.leb_le|E%Z.eqb_eq]; [lia|done].
Qed.

Lemma translateType_roundtrip_witness :
  exists t4, Header_translateType 1 16 OFP_VERSION_4 = Some t4 /\
  (t4 ≠ OFPT_UNSUPPORTED -> Header_translateType OFP_VERSION_4 t4 1 = Some 16) /\
  (default 0 (rd8 MaxTypeByVersion 1) < 16 -> t4 = OFPT_UNSUPPORTED).
Proof. apply (translateType_roundtrip 1 16); by vm_compute. Defined.

(** The accepted headers are those with a length of at least eight bytes,
    a version in 1..9 that agrees with the negotiated one, and a type <= 64. *)
Theorem Header_validateInput_iff h neg :
  Header_validateInput h neg = true <->
  8 <= hdr_length h /\ hdr_version h ≠ 0 /\ hdr_version h <= 9 /\
  (neg ≠ 0 -> hdr_version h = neg) /\ hdr_type h <= 64.
Proof.
  unfold Header_validateInput, OFP_VERSION_MAX_ALLOWED, OFPT_MAX_ALLOWED.
  split_ifs; lia.
Qed.

(** Twelve-bit action masks, as OpenFlow 1.0 defines them. *)
Lemma action_flags_check f :
  0 <= f < 2 ^ 12 ->
  OFPActionTypeFlagsConvertToV1 (OFPActionTypeFlagsConvertFromV1 f) = f.
Proof.
  intros Hf. apply Z.eqb_eq.
  apply (small_check (fun f =>
    OFPActionTypeFlagsConvertToV1 (OFPActionTypeFlagsConvertFromV1 f) =? f) 4096);
    [by vm_compute|done].
Qed.

Lemma capabilities_check f :
  0 <= f < 2 ^ 31 ->
  OFPCapabilitiesFlagsConvertToV1 (OFPCapabilitiesFlagsConvertFromV1 f) = f.
Proof.
  intros Hf. unfold OFPCapabilitiesFlagsConvertToV1, OFPCapabilitiesFlagsConvertFromV1,
    OFPC_STP, v1_OFPC_STP.
  rewrite !land_flag, !negb_involutive by lia.
  assert (Z.testbit f 31 = false) as Hb by (apply (testbit_high f 31); lia).
  change 0x7FFFFFFF with (Z.ones 31). destruct (Z.testbit f 3) eqn:Hb3.
  - rewrite Z.land_spec, Z.lor_spec, Hb. simpl. apply Z.bits_inj'. intros i Hi.
    rewrite Z.lor_spec, !Z.land_spec, Z.lor_spec, Z.lnot_spec, Z.testbit_ones by lia.
    rewrite (Z.pow2_bits_eqb 3), (Z.pow2_bits_eqb 31) by lia.
    destruct (Z.eqb_spec 3 i) as [<-|]; [by rewrite Hb3|].
    destruct (Z.eqb_spec 31 i) as [<-|]; [by rewrite Hb|].
    destruct (Z.ltb_spec i 31); [|rewrite (testbit_high f 31) by lia; by rewrite andb_false_r].
    rewrite (proj2 (Z.leb_le 0 i)) by lia. by destruct (Z.testbit f i).
  - rewrite Hb, Z.land_ones, Z.mod_small by lia. done.
Qed.

(** Decides every comparison of the goal, discarding the impossible cases. *)
Ltac cmp_cases :=
  repeat match goal with
  | |- context [(?a <=? ?b)] => destruct (Z.leb_spec a b); try lia
  | |- context [(?a <? ?b)] => destruct (Z.ltb_spec a b); try lia
  end; simpl.

(** Bit [i] of the converted port features: bits 7..15 move by four. *)
Lemma port_features_ToV1_bit f i :
  0 <= i ->
  Z.testbit (OFPPortFeaturesFlagsConvertToV1 f) i =
  if (7 <=? i) && (i <? 16) then (i <? 12) && Z.testbit f (i + 4) else Z.testbit f i.
Proof.
  intros Hi. unfold OFPPortFeaturesFlagsConvertToV1.
  change 0x0FF80 with (Z.shiftl (Z.ones 9) 7). change 0xF800 with (Z.shiftl (Z.ones 5) 11).
  rewrite Z.lor_spec, Z.shiftr_spec, !Z.land_spec, Z.lnot_spec, !testbit_field by lia.
  cmp_cases; by destruct (Z.testbit f i), (Z.testbit f (i + 4)).
Qed.

Lemma port_features_FromV1_bit f i :
  0 <= i ->
  Z.testbit (OFPPortFeaturesFlagsConvertFromV1 f) i =
  if (7 <=? i) && (i <? 16) then (11 <=? i) && Z.testbit f (i - 4) else Z.testbit f i.
Proof.
  intros Hi. unfold OFPPortFeaturesFlagsConvertFromV1.
  change 0x0FF80 with (Z.shiftl (Z.ones 9) 7). change 0x00F80 with (Z.shiftl (Z.ones 5) 7).
  rewrite Z.lor_spec, !Z.land_spec, Z.lnot_spec, testbit_field by lia.
  destruct (Z.leb_spec 4 i).
  - rewrite Z.shiftl_spec, Z.land_spec, testbit_field by lia.
    cmp_cases; by destruct (Z.testbit f i), (Z.testbit f (i - 4)).
  - rewrite Z.shiftl_spec_low by lia. cmp_cases; by destruct (Z.testbit f i).
Qed.

Lemma port_features_FromV1_range f :
  0 <= f < 2 ^ 32 -> 0 <= OFPPortFeaturesFlagsConvertFromV1 f < 2 ^ 32.
Proof.
  intros Hf. apply bits_range; [done| |].
  - unfold OFPPortFeaturesFlagsConvertFromV1. apply Z.lor_nonneg. split.
    + apply Z.land_nonneg. lia.
    + apply Z.shiftl_nonneg, Z.land_nonneg. lia.
  - intros i Hi. rewrite port_features_FromV1_bit by lia.
    rewrite (proj2 (Z.ltb_ge i 16)), andb_false_r by lia. by apply (testbit_high f 32).
Qed.

Lemma port_features_check f :
  0 <= f -> Z.land f 0xF000 = 0 ->
  OFPPortFeaturesFlagsConvertToV1 (OFPPortFeaturesFlagsConvertFromV1 f) = f.
Proof.
  intros Hf H0. apply Z.bits_inj'. intros i Hi.
  assert (12 <= i < 16 -> Z.testbit f i = false) as Hz.
  { intros Hr. apply (f_equal (fun z => Z.testbit z i)) in H0. cbv beta in H0.
    change 0xF000 with (Z.shiftl (Z.ones 4) 12) in H0.
    rewrite Z.land_spec, testbit_field, Z.bits_0 in H0 by lia.
    revert H0. cmp_cases. by destruct (Z.testbit f i). }
  rewrite port_features_ToV1_bit, !port_features_FromV1_bit by lia.
  replace (i + 4 - 4) with i by lia.
  cmp_cases; try done; try (symmetry; apply Hz; lia).
Qed.

(** Converting OpenFlow 1.0 action, capability and port-feature masks to
    the library's form and back loses nothing: for the twelve 1.0 actions,
    any capabilities with bit 31 clear and any features with bits 12-15 clear. *)
Theorem v1_flags_roundtrip acts caps feats :
  0 <= acts < 2 ^ 12 -> 0 <= caps < 2 ^ 31 -> 0 <= feats -> Z.land feats 0xF000 = 0 ->
  OFPActionTypeFlagsConvertToV1 (OFPActionTypeFlagsConvertFromV1 acts) = acts /\
  OFPCapabilitiesFlagsConvertToV1 (OFPCapabilitiesFlagsConvertFromV1 caps) = caps /\
  OFPPortFeaturesFlagsConvertToV1 (OFPPortFeaturesFlagsConvertFromV1 feats) = feats.
Proof.
  intros. split_and!; [by apply action_flags_check|by apply capabilities_check|].
  by apply port_features_check.
Qed.

Lemma v1_flags_roundtrip_witness :
  OFPActionTypeFlagsConvertToV1 (OFPActionTypeFlagsConvertFromV1 0xFFF) = 0xFFF /\
  OFPCapabilitiesFlagsConvertToV1 (OFPCapabilitiesFlagsConvertFromV1 0xEF) = 0xEF /\
  OFPPortFeaturesFlagsConvertToV1 (OFPPortFeaturesFlagsConvertFromV1 0xFFF) = 0xFFF.
Proof. by apply (v1_flags_roundtrip 0xFFF 0xEF 0xFFF); vm_compute. Defined.

(** ** Error types and codes *)

Lemma ErrorCode_type t c :
  0 <= t < 2 ^ 16 -> 0 <= c < 2 ^ 16 ->
  OFPErrorCodeMake t c = c + t * 2 ^ 16 /\
  OFPErrorCodeGetType (OFPErrorCodeMake t c) = t /\
  Z.land (OFPErrorCodeMake t c) 0xffff = c.
Proof.
  intros Ht Hc. unfold OFPErrorCodeMake, OFPErrorCodeGetType.
  rewrite Z.lor_comm, lor_shift_add by lia.
  rewrite !(land_ones_mod _ 16), Z.shiftr_div_pow2 by (lia || done).
  split_and!; [done| |].
  - rewrite Z.div_add, Z.div_small, Z.mod_small by lia. lia.
  - rewrite Z.mod_add, Z.mod_small by lia. done.
Qed.

Lemma unknown_flag_clear t :
  0 <= t < 2 ^ 15 ->
  Z.land t OFPET_UNKNOWN_FLAG = 0 /\
  Z.lor t OFPET_UNKNOWN_FLAG = t + 2 ^ 15 /\
  (Z.land (Z.lor t OFPET_UNKNOWN_FLAG) OFPET_UNKNOWN_FLAG =? 0) = false /\
  Z.land (Z.lor t OFPET_UNKNOWN_FLAG) (Z.lnot OFPET_UNKNOWN_FLAG) = t.
Proof.
  intros Ht. change OFPET_UNKNOWN_FLAG with (Z.shiftl 1 15).
  assert (Z.testbit t 15 = false) as Hb by (apply (testbit_high t 15); lia).
  split_and!.
  - apply Z.eqb_eq. by rewrite land_flag, Hb by lia.
  - rewrite lor_shift_add by lia. lia.
  - rewrite land_flag, Z.lor_spec, Hb by lia. done.
  - apply Z.bits_inj'. intros i Hi.
    rewrite Z.land_spec, Z.lor_spec, Z.lnot_spec, Z.shiftl_1_l, Z.pow2_bits_eqb by lia.
    destruct (Z.eqb_spec 15 i) as [<-|]; [by rewrite Hb|].
    by rewrite orb_false_r, andb_true_r.
Qed.

(** An error (type, code) pair of a wire message of version 1.1 or later
    is reproduced when it is written back, unless it is the pair the library
    uses internally for the 1.0 "unsupported" code. *)
Theorem error_roundtrip version t c :
  version ≠ OFP_VERSION_1 -> (0 <= t < 2 ^ 15 \/ t = OFPET_EXPERIMENTER) ->
  0 <= c < 2 ^ 16 -> OFPErrorCodeMake t c ≠ OFPFMFC_UNSUPPORTED ->
  OFPErrorTypeToValue version (OFPErrorCodeFromValue version t c) = t /\
  OFPErrorCodeToValue version (OFPErrorCodeFromValue version t c) = c.
Proof.
  intros Hv Ht Hc Hu.
  assert (OFPErrorCodeFromValue version t c = OFPErrorCodeMake t c) as ->.
  { unfold OFPErrorCodeFromValue. rewrite (proj2 (Z.eqb_neq _ _) Hv).
    by destruct (t =? OFPET_EXPERIMENTER). }
  assert (0 <= t < 2 ^ 16) as Ht16 by (unfold OFPET_EXPERIMENTER in *; lia).
  destruct (ErrorCode_type t c Ht16 Hc) as (_ & Et & Ec).
  unfold OFPErrorTypeToValue, OFPErrorCodeToValue.
  rewrite Et, (proj2 (Z.eqb_neq _ _) Hv), (proj2 (Z.eqb_neq _ _) Hu), Ec.
  split; [|done]. destruct (Z.eqb_spec t OFPET_EXPERIMENTER); [done|].
  destruct Ht as [Ht|]; [|done].
  destruct (unknown_flag_clear t Ht) as (-> & _). done.
Qed.

Lemma error_roundtrip_witness :
  OFPErrorTypeToValue 4 (OFPErrorCodeFromValue 4 5 6) = 5 /\
  OFPErrorCodeToValue 4 (OFPErrorCodeFromValue 4 5 6) = 6.
Proof. apply (error_roundtrip 4 5 6); [done|left|..]; by vm_compute. Defined.

(** Only codes of type 5 (flow-mod failed) are in the table of 1.0 flow-mod codes. *)
Lemma flow_mod_code_only t c :
  0 <= c < 2 ^ 16 -> t ≠ 5 -> find_snd (c + t * 2 ^ 16) sErrorFlowModFailedV1 = None.
Proof.
  intros Hc Ht. unfold find_snd, sErrorFlowModFailedV1.
  rewrite !filter_cons. 
  rewrite !decide_False by (unfold OFPFMFC_UNSUPPORTED, OFPET_FLOW_MOD_FAILED; vm_compute (OFPErrorCodeMake _ _); simpl; lia).
  done.
Qed.

(** The same for version 1.0: the listed types (and any unlisted type below
    0x7fff, which the unknown flag would turn into the experimenter type) and the six flow-mod codes come back unchanged. *)
Theorem error_roundtrip_v1 t c :
  0 <= t < 2 ^ 15 - 1 -> 0 <= c < 2 ^ 16 -> (t = 3 -> c < 6) ->
  OFPErrorTypeToValue 1 (OFPErrorCodeFromValue 1 t c) = t /\
  OFPErrorCodeToValue 1 (OFPErrorCodeFromValue 1 t c) = c.
Proof.
  intros Ht Hc H3. unfold OFPErrorCodeFromValue.
  destruct (Z.eqb_spec t OFPET_EXPERIMENTER) as [|Hne]; [unfold OFPET_EXPERIMENTER in *; lia|].
  destruct (Z.eqb_spec t 3) as [->|Hn3]; simpl (OFP_VERSION_1 =? 1).
  - assert (c = 0 \/ c = 1 \/ c = 2 \/ c = 3 \/ c = 4 \/ c = 5)
      as [-> | [-> | [-> | [-> | [-> | -> ]]]]] by lia; by vm_compute.
  - assert (t < 6 \/ 6 <= t) as [Hs|Hb] by lia.
    + assert (exists t', OFPErrorTypeFromValue 1 t c = t' /\ 0 <= t' < 2 ^ 15 /\
        t' ≠ 5 /\ find_snd t' sErrorTypesV1 = Some t) as (t' & -> & Hr & H5 & Hf).
      { assert (t = 0 \/ t = 1 \/ t = 2 \/ t = 4 \/ t = 5)
          as [-> | [-> | [-> | [-> | -> ]]]] by lia; by eexists. }
      simpl. destruct (ErrorCode_type t' c ltac:(lia) Hc) as (Em & Et & Ec).
      unfold OFPErrorTypeToValue, OFPErrorCodeToValue. rewrite Et, Hf.
      destruct (unknown_flag_clear t' Hr) as (-> & _). simpl.
      destruct (Z.eqb_spec t' OFPET_EXPERIMENTER); [unfold OFPET_EXPERIMENTER in *; lia|].
      split; [done|]. by rewrite Em, flow_mod_code_only, <- Em by lia.
    + assert (OFPErrorTypeFromValue 1 t c = Z.lor t OFPET_UNKNOWN_FLAG) as ->.
      { unfold OFPErrorTypeFromValue, find_fst. rewrite (proj2 (Z.eqb_neq _ _) Hne).
        unfold sErrorTypesV1. rewrite !filter_cons, !decide_False by (simpl; lia). done. }
      destruct (unknown_flag_clear t ltac:(lia)) as (_ & El & E1 & E2).
      destruct (ErrorCode_type (Z.lor t OFPET_UNKNOWN_FLAG) c) as (Em & Et & Ec); [lia|done|].
      simpl. unfold OFPErrorTypeToValue, OFPErrorCodeToValue. rewrite Et, E1, E2.
      destruct (Z.eqb_spec (Z.lor t OFPET_UNKNOWN_FLAG) OFPET_EXPERIMENTER) as [He|].
      { unfold OFPET_EXPERIMENTER in He. lia. }
      split; [done|]. by rewrite Em, flow_mod_code_only, <- Em by lia.
Qed.

Lemma error_roundtrip_v1_witness :
  OFPErrorTypeToValue 1 (OFPErrorCodeFromValue 1 3 5) = 3 /\
  OFPErrorCodeToValue 1 (OFPErrorCodeFromValue 1 3 5) = 5.
Proof. by apply (error_roundtrip_v1 3 5). Defined.

(** The type enumerators of [OFPErrorType] that follow table-features-failed:
    bad property, async config failed, flow monitor failed, bundle failed. *)
Definition later_error_types : list Z := [14; 15; 16; 17].

(** [OFPErrorTypeFromValue] marks the four error types that [OFPErrorType]
    defines after table-features-failed as unknown (types up to it
    are returned as they are), although they are known types: [kMaxErrorType] was not updated. *)
Theorem known_types_flagged_unknown version code :
  version ≠ OFP_VERSION_1 ->
  (forall t, 0 <= t <= 13 -> OFPErrorTypeFromValue version t code = t) /\
  (forall t, t ∈ later_error_types ->
     OFPErrorTypeFromValue version t code = Z.lor t OFPET_UNKNOWN_FLAG).
Proof.
  intros Hv. unfold OFPErrorTypeFromValue. rewrite (proj2 (Z.eqb_neq _ _) Hv).
  split.
  - intros t Ht. unfold OFPET_EXPERIMENTER, kMaxErrorType, OFPET_TABLE_FEATURES_FAILED.
    split_ifs; lia.
  - intros t Ht. unfold later_error_types in Ht. by set_unfold; destruct_or!; subst.
Qed.

Lemma known_types_flagged_unknown_witness :
  OFPErrorTypeFromValue 5 14 0 = Z.lor 14 OFPET_UNKNOWN_FLAG.
Proof. apply (known_types_flagged_unknown 5 0); [done|]. apply list_elem_of_here. Defined.

(** ** Port numbers *)

Lemma PortNumber_fromV1_reserved port :
  0xFF00 < port < 2 ^ 16 -> PortNumber_fromV1 port = port + 0xFFFF * 2 ^ 16.
Proof.
  intros H. unfold PortNumber_fromV1. destruct (Z.ltb_spec 0xFF00 port); [|lia].
  change 0xFFFF0000 with (Z.shiftl 0xFFFF 16). apply lor_shift_add; lia.
Qed.

Lemma PortNumber_fromV1_range port : 0 <= port < 2 ^ 16 -> 0 <= PortNumber_fromV1 port < 2 ^ 32.
Proof.
  intros H. destruct (decide (0xFF00 < port)).
  - rewrite PortNumber_fromV1_reserved; lia.
  - unfold PortNumber_fromV1. rewrite (proj2 (Z.ltb_ge _ _)); lia.
Qed.

Lemma PortNumber_v1_roundtrip port :
  0 <= port < 2 ^ 16 -> PortNumber_toV1 (PortNumber_fromV1 port) = port.
Proof.
  intros H. unfold PortNumber_toV1. destruct (decide (0xFF00 < port)).
  - rewrite PortNumber_fromV1_reserved by lia. unfold u16. rewrite Z.mod_add by lia.
    apply Z.mod_small. lia.
  - unfold PortNumber_fromV1. rewrite (proj2 (Z.ltb_ge _ _)) by lia. by apply u16_small.
Qed.
