(* ===== verification/Validation.v ===== *)
(** * Validation context (src/ofp/validation.cpp, include/ofp/validation.h)

    The [Validation] object that the structural checks of a message share: it
    carries the protocol version and the length that is left, and it records
    the error code and message of the check that failed. The object is mutated
    through a pointer, so every function that takes a [Validation *] takes and
    returns the record. *)

From S2P Require Import Prelude.
From S2P Require Import ByteOrder.
From S2P Require Import Constants.

(** The members of the class, with the objects its pointers reach: [v_msg] is
    the address of the message's data ([None] for a null message), [v_info]
    the message's [MessageInfo] with its last error message, [v_error] the
    error code that [error_] points to. [v_log] is what [log_info] was given. *)
Record Validation : Type := mkValidation {
  v_msg : option Z;
  v_length : Z;
  v_lengthRemaining : Z;
  v_version : Z;
  v_error : option Z;
  v_info : option (list Z);
  v_log : list (list Z * Z) }.

Definition OFPEC_UNKNOWN_FLAG : Z := 0x80000000.
Definition OFPET_BAD_REQUEST : Z := 1.
Definition OFPBRC_BAD_TYPE : Z := OFPErrorCodeMake OFPET_BAD_REQUEST 1.
Definition OFPBRC_BAD_MULTIPART : Z := OFPErrorCodeMake OFPET_BAD_REQUEST 2.
Definition OFPBRC_BAD_LEN : Z := OFPErrorCodeMake OFPET_BAD_REQUEST 6.

Definition setErrorCode (error : Z) (c : Validation) : Validation :=
  match v_error c with
  | None => c
  | Some _ => mkValidation (v_msg c) (v_length c) (v_lengthRemaining c) (v_version c)
                           (Some error) (v_info c) (v_log c)
  end.

Definition setErrorMessage (errorMessage : list Z) (errorOffset : Z) (c : Validation) : Validation :=
  mkValidation (v_msg c) (v_length c) (v_lengthRemaining c) (v_version c) (v_error c)
    (match v_msg c, v_info c with
     | Some _, Some _ => Some errorMessage
     | _, i => i
     end)
    (v_log c ++ [(errorMessage, errorOffset)]).

Definition setLengthRemaining (length : Z) (c : Validation) : Validation :=
  mkValidation (v_msg c) (v_length c) length (v_version c) (v_error c) (v_info c) (v_log c).

(** The constructor: [msg] is the message's address, size, version and info. *)
Definition Validation_make (msg : option (Z * Z * Z * option (list Z))) (error : option Z)
    : Validation :=
  match msg with
  | Some (addr, size, version, info) =>
      setErrorCode OFPEC_UNKNOWN_FLAG (mkValidation (Some addr) size 0 version error info [])
  | None => setErrorCode OFPEC_UNKNOWN_FLAG (mkValidation None 0 0 0 error None [])
  end.

(** [offset]: [size_t] difference of the pointers, 0xFFFFFFFF if there is none. *)
Definition v_offset (c : Validation) (ptr : Z) : Z :=
  match v_msg c with
  | None => 0xFFFFFFFF
  | Some base => if ptr <? base then 0xFFFFFFFF else ptr - base
  end.

(** Every failure report sets a code and then a message. *)
Definition report (code : Z) (message : list Z) (off : Z) (c : Validation) : Validation :=
  setErrorMessage message off (setErrorCode code c).

Definition messageSizeIsInvalid : Validation -> Validation :=
  report OFPBRC_BAD_LEN (str "Message size is invalid") 0.
Definition messageTypeIsNotSupported : Validation -> Validation :=
  report OFPBRC_BAD_TYPE (str "Message type is not supported") 0.
Definition messageTypeIsNotImplemented : Validation -> Validation :=
  report OFPBRC_BAD_TYPE (str "Message type is not implemented") 0.
Definition messagePreprocessTooBigError : Validation -> Validation :=
  report OFPBRC_BAD_LEN (str "Message is too big. See documentation for limits.") 0.
Definition messagePreprocessFailure : Validation -> Validation :=
  report OFPBRC_BAD_LEN (str "Message parse error") 0.
Definition multipartTypeIsNotSupported : Validation -> Validation :=
  report OFPBRC_BAD_MULTIPART (str "Multipart type is not supported") 0.
Definition multipartTypeIsNotSupportedForVersion : Validation -> Validation :=
  report OFPBRC_BAD_MULTIPART
    (str "Multipart type is not supported for this protocol version") 0.
Definition multipartSizeHasImproperAlignment : Validation -> Validation :=
  report OFPBRC_BAD_LEN (str "Multipart size has improper alignment") 0.
Definition lengthRemainingIsInvalid (ptr : Z) (c : Validation) : Validation :=
  report OFPBRC_BAD_LEN (str "Length remaining is invalid") (v_offset c ptr) c.
Definition rangeSizeHasImproperAlignment (ptr : Z) (c : Validation) : Validation :=
  report OFPBRC_BAD_LEN (str "Range size has improper alignment") (v_offset c ptr) c.
Definition rangeDataHasImproperAlignment (ptr : Z) (c : Validation) : Validation :=
  report OFPBRC_BAD_LEN (str "Range data has improper alignment") (v_offset c ptr) c.
Definition rangeElementSizeIsTooSmall (ptr : Z) (c : Validation) : Validation :=
  report OFPBRC_BAD_LEN (str "Range element size is too small") (v_offset c ptr) c.
Definition rangeElementSizeHasImproperAlignment (ptr : Z) (c : Validation) : Validation :=
  report OFPBRC_BAD_LEN (str "Range element size has improper alignment") (v_offset c ptr) c.
Definition rangeElementSizeOverrunsEnd (ptr : Z) (c : Validation) : Validation :=
  report OFPBRC_BAD_LEN (str "Range element size overruns end") (v_offset c ptr) c.
Definition rangeSizeIsNotMultipleOfElementSize (ptr : Z) (c : Validation) : Validation :=
  report OFPBRC_BAD_LEN (str "Range size is not multiple of element size") (v_offset c ptr) c.
Definition matchIsInvalid (message : list Z) (ptr : Z) (c : Validation) : Validation :=
  report OFPBRC_BAD_LEN (str "Match: " ++ message) (v_offset c ptr) c.

Definition validateBool (condition : bool) (errorMessage : list Z) (c : Validation)
    : bool * Validation :=
  if condition then (true, c) else (false, setErrorMessage errorMessage 0 c).

Definition validateAlignedLength (length minSize : Z) (c : Validation) : bool * Validation :=
  validateBool ((minSize <=? length) && (length mod 8 =? 0))
    (str "Length too small or not aligned") c.

(** The context after a failed check: the code was set (when the caller asked
    for one) and something was logged; nothing else the checks depend on moved. *)
Definition failed_from (code : Z) (c c' : Validation) : Prop :=
  v_error c' = (fun _ => code) <$> v_error c /\
  (exists e, v_log c' = v_log c ++ [e]) /\
  v_version c' = v_version c /\ v_length c' = v_length c /\
  v_lengthRemaining c' = v_lengthRemaining c /\ v_msg c' = v_msg c.

Lemma report_failed code m off c : failed_from code c (report code m off c).
Proof.
  unfold failed_from, report, setErrorMessage, setErrorCode.
  destruct (v_error c) eqn:E; simpl; rewrite ?E; repeat split; eauto.
Qed.

#[export] Hint Resolve report_failed : ofp.
