(* ===== verification/ProtocolRange.v ===== *)
(** * Protocol ranges (src/ofp/protocoliterator.cpp, include/ofp/protocoliterator.h,
    protocolrange.h, and the array checks of validation.h)

    An OpenFlow array of variable-sized elements: each element carries its own
    length in a 16-bit field at a fixed offset, and is padded to the alignment.
    [IsProtocolRangeValid] checks a range once; the iterator and the item count
    then walk it without checks. A range is its address and its bytes; a
    pointer into it is an offset [p] from the start. [None] is a read outside
    the range or a failing assertion. *)

From S2P Require Import Prelude.
From S2P Require Import ByteOrder.
From S2P Require Import Validation.

Record ByteRange : Type := mkRange { br_addr : Z; br_data : list Z }.

Definition br_size (r : ByteRange) : Z := zlen (br_data r).

Definition IsPtrAligned (ptr byteBoundary : Z) : bool := Z.land ptr (byteBoundary - 1) =? 0.

Definition PROTOCOL_ITERATOR_SIZE_FIXED : Z := 0xffff.
Definition PROTOCOL_ITERATOR_SIZE_CONDITIONAL : Z := 0xfffe.

(** ** Structural validity *)

Definition isProtocolRangeFixedValid (elementSize : Z) (range : ByteRange) (c : Validation)
    : option (bool * Validation) :=
  assert! (0 <? elementSize) && (elementSize mod 8 =? 0);;
  if negb (br_size range mod elementSize =? 0)
  then Some (false, rangeSizeIsNotMultipleOfElementSize (br_addr range) c)
  else Some (true, c).

(** The [while (len > 0)] loop of [IsProtocolRangeValid]. *)
Fixpoint range_valid_loop (fuel : nat) (elementSize sizeFieldOffset alignment : Z)
    (range : ByteRange) (p len : Z) (c : Validation) : option (bool * Validation) :=
  match fuel with
  | O => None
  | S fuel' =>
    if negb (0 <? len) then
      assert! (len =? 0) && (p =? br_size range);; Some (true, c)
    else
    assert! (alignment <=? len);;
    let ptr := br_addr range + p in
    let body (elemSize : Z) :=
      if elemSize <? 4 then Some (false, rangeElementSizeIsTooSmall ptr c)
      else if (elemSize <? elementSize) && (alignment =? 8)
      then Some (false, rangeElementSizeIsTooSmall ptr c)
      else if negb (alignment =? 8) && negb (elemSize mod alignment =? 0)
      then Some (false, rangeElementSizeHasImproperAlignment ptr c)
      else
        let jumpSize := if negb (alignment =? 8) then elemSize else PadLength elemSize in
        if len <? jumpSize then Some (false, rangeElementSizeOverrunsEnd ptr c)
        else range_valid_loop fuel' elementSize sizeFieldOffset alignment range
               (p + jumpSize) (len - jumpSize) c in
    if sizeFieldOffset =? PROTOCOL_ITERATOR_SIZE_CONDITIONAL then
      t ← rd16 (br_data range) p; body (if t =? 0xffff then 8 else 4)
    else if len <? sizeFieldOffset + 2
    then Some (false, rangeElementSizeOverrunsEnd ptr c)
    else t ← rd16 (br_data range) (p + sizeFieldOffset); body t
  end.

Definition IsProtocolRangeValid (elementSize : Z) (range : ByteRange)
    (sizeFieldOffset alignment : Z) (c : Validation) : option (bool * Validation) :=
  if sizeFieldOffset =? PROTOCOL_ITERATOR_SIZE_FIXED
  then isProtocolRangeFixedValid elementSize range c
  else
  assert! (4 <=? elementSize) &&
          ((sizeFieldOffset <? 32) || (sizeFieldOffset =? PROTOCOL_ITERATOR_SIZE_CONDITIONAL));;
  let len := br_size range in
  if negb (len mod alignment =? 0)
  then Some (false, rangeSizeHasImproperAlignment (br_addr range) c)
  else if negb (IsPtrAligned (br_addr range) alignment)
  then Some (false, rangeDataHasImproperAlignment (br_addr range) c)
  else range_valid_loop (S (length (br_data range))) elementSize sizeFieldOffset alignment
         range 0 len c.

(** ** Walking a range *)

(** [ProtocolElement::size], its three template cases. *)
Definition ProtocolElement_size (sizeofElem sizeFieldOffset : Z) (data : list Z) (p : Z) : option Z :=
  if sizeFieldOffset =? PROTOCOL_ITERATOR_SIZE_FIXED then Some sizeofElem
  else if sizeFieldOffset =? PROTOCOL_ITERATOR_SIZE_CONDITIONAL then
    t ← rd16 data p; Some (if t =? 0xffff then 8 else 4)
  else t ← rd16 data (p + sizeFieldOffset); Some (Z.max (2 + sizeFieldOffset) t).

(** [ProtocolIterator::operator++]: the next position. *)
Definition ProtocolIterator_next (sizeofElem sizeFieldOffset alignment : Z) (range : ByteRange)
    (p : Z) : option Z :=
  assert! (IsPtrAligned (br_addr range + p) alignment);;
  s ← ProtocolElement_size sizeofElem sizeFieldOffset (br_data range) p;
  Some (p + if alignment =? 8 then PadLength s else s).

Definition protocolRangeFixedItemCount (elementSize : Z) (range : ByteRange) : option Z :=
  assert! (0 <? elementSize) && (elementSize mod 8 =? 0);;
  Some (br_size range / elementSize).

Fixpoint item_count_loop (fuel : nat) (sizeFieldOffset alignment : Z) (data : list Z)
    (p len count : Z) : option Z :=
  match fuel with
  | O => None
  | S fuel' =>
    if negb (0 <? len) then Some count else
    assert! (alignment <=? len);;
    elemSize ← (if sizeFieldOffset =? PROTOCOL_ITERATOR_SIZE_CONDITIONAL then
                  assert! (alignment =? 4);;
                  t ← rd16 data p; Some (if t =? 0xffff then 8 else 4)
                else t ← rd16 data (p + sizeFieldOffset);
                     Some (Z.max (sizeFieldOffset + 2) t));
    let jumpSize := if alignment =? 8 then PadLength elemSize else elemSize in
    if len <? jumpSize then Some count
    else item_count_loop fuel' sizeFieldOffset alignment data (p + jumpSize)
           (len - jumpSize) (count + 1)
  end.

Definition ProtocolRangeItemCount (elementSize : Z) (range : ByteRange)
    (sizeFieldOffset alignment : Z) : option Z :=
  if sizeFieldOffset =? PROTOCOL_ITERATOR_SIZE_FIXED
  then protocolRangeFixedItemCount elementSize range
  else
  assert! ((sizeFieldOffset <? 32) || (sizeFieldOffset =? PROTOCOL_ITERATOR_SIZE_CONDITIONAL)) &&
          ((alignment =? 4) || (alignment =? 8));;
  assert! (br_size range mod alignment =? 0) && IsPtrAligned (br_addr range) alignment;;
  item_count_loop (S (length (br_data range))) sizeFieldOffset alignment (br_data range)
    0 (br_size range) 0.

Fixpoint split_offset_loop (fuel : nat) (chunkSize sizeFieldOffset : Z) (data : list Z)
    (p len result : Z) : option Z :=
  match fuel with
  | O => None
  | S fuel' =>
    if negb (0 <? len) then Some result else
    assert! (8 <=? len);;
    t ← rd16 data (p + sizeFieldOffset);
    let elemSize := Z.max (sizeFieldOffset + 2) t in
    let jumpSize := PadLength elemSize in
    if len <? jumpSize then Some result
    else if chunkSize <? result + jumpSize then Some result
    else assert! (jumpSize mod 8 =? 0);;
      split_offset_loop fuel' chunkSize sizeFieldOffset data (p + jumpSize)
           (len - jumpSize) (result + jumpSize)
  end.

(** A zero result is fatal ([log::fatal_if_false]). *)
Definition ProtocolRangeSplitOffset (chunkSize : Z) (range : ByteRange) (sizeFieldOffset : Z)
    : option Z :=
  assert! (sizeFieldOffset <? 32) && (8 <=? chunkSize);;
  let len := br_size range in
  assert! (len mod 8 =? 0) && IsPtrAligned (br_addr range) 8;;
  if len <=? chunkSize then Some len else
  result ← split_offset_loop (S (length (br_data range))) chunkSize sizeFieldOffset
             (br_data range) 0 len 0;
  assert! (result mod 8 =? 0) && negb (result =? 0);; Some result.

(** [for (const Element &elem : range)]: the body is given the position of the
    element and answers whether to go on. *)
Section ForElements.
Context {A : Type} (sizeofElem sizeFieldOffset alignment : Z).
Context (body : Z -> A -> option (bool * A)).

Fixpoint for_elements (fuel : nat) (range : ByteRange) (p : Z) (a : A) : option (bool * A) :=
  if p =? br_size range then Some (true, a)
  else match fuel with
       | O => None
       | S fuel' =>
           '(go, a) ← body p a;
           if negb go then Some (false, a)
           else p ← ProtocolIterator_next sizeofElem sizeFieldOffset alignment range p;
                for_elements fuel' range p a
       end.
End ForElements.

(** [ProtocolRange::validateInput]; [elem] is [Element::validateInput]. *)
Definition ProtocolRange_validateInput (sizeofElem sizeFieldOffset alignment : Z)
    (elem : Z -> Validation -> option (bool * Validation)) (range : ByteRange) (c : Validation)
    : option (bool * Validation) :=
  '(ok, c) ← IsProtocolRangeValid sizeofElem range sizeFieldOffset alignment c;
  if negb ok then Some (false, c)
  else for_elements sizeofElem sizeFieldOffset alignment elem (length (br_data range)) range 0 c.

(** ** Arrays of multipart sections: [Validation::validateArray...]

    [Type::validateInput] is the element's own check; it is given the position
    of the element in the body and the context. *)
Section ValidateArray.
Context (validateInput : Z -> Validation -> option (bool * Validation)).

Definition validateEmpty (body minVersion : Z) (c : Validation) : bool * Validation :=
  if v_version c <? minVersion then (false, multipartTypeIsNotSupportedForVersion c)
  else if negb (v_lengthRemaining c =? 0) then (false, lengthRemainingIsInvalid body c)
  else (true, c).

Definition validate (minVersion : Z) (lenMultiple8 : bool) (c : Validation)
    : option (bool * Validation) :=
  if v_version c <? minVersion then Some (false, multipartTypeIsNotSupportedForVersion c)
  else if lenMultiple8 && negb (v_lengthRemaining c mod 8 =? 0)
  then Some (false, multipartSizeHasImproperAlignment c)
  else validateInput 0 c.

Fixpoint array_var_loop (fuel : nat) (Offset : Z) (body : ByteRange) (p length : Z)
    (c : Validation) : option (bool * Validation) :=
  match fuel with
  | O => None
  | S fuel' =>
    if length =? 0 then Some (true, c) else
    let ptr := br_addr body + p in
    assert! (IsPtrAligned ptr 8);;
    if length <? Offset + 2 then Some (false, rangeElementSizeIsTooSmall ptr c) else
    size ← rd16 (br_data body) (p + Offset);
    if size <? Offset + 2 then Some (false, rangeElementSizeIsTooSmall ptr c) else
    let size := PadLength size in
    if length <? size then Some (false, rangeElementSizeOverrunsEnd ptr c) else
    '(ok, c') ← validateInput p c;
    if negb ok then Some (false, c') else
    assert! (0 <? size);;
    array_var_loop fuel' Offset body (p + size) (length - size) c'
  end.

Definition validateArrayVariableSize (Offset : Z) (body : ByteRange) (minVersion : Z)
    (c : Validation) : option (bool * Validation) :=
  if v_version c <? minVersion then Some (false, multipartTypeIsNotSupportedForVersion c) else
  let length := v_lengthRemaining c in
  if negb (length mod 8 =? 0)
  then Some (false, rangeSizeHasImproperAlignment (br_addr body) c)
  else if negb (IsPtrAligned (br_addr body) 8)
  then Some (false, rangeDataHasImproperAlignment (br_addr body) c)
  else array_var_loop (S (Z.to_nat length)) Offset body 0 length c.

Fixpoint array_fixed_loop (fuel : nat) (size : Z) (body : ByteRange) (p length : Z)
    (c : Validation) : option (bool * Validation) :=
  match fuel with
  | O => None
  | S fuel' =>
    if length =? 0 then Some (true, c) else
    let ptr := br_addr body + p in
    assert! (IsPtrAligned ptr 8);;
    if length <? size then Some (false, rangeElementSizeOverrunsEnd ptr c) else
    '(ok, c') ← validateInput p c;
    if negb ok then Some (false, c')
    else array_fixed_loop fuel' size body (p + size) (length - size) c'
  end.

Definition validateArrayFixedSize (size : Z) (body : ByteRange) (minVersion : Z)
    (c : Validation) : option (bool * Validation) :=
  if v_version c <? minVersion then Some (false, multipartTypeIsNotSupportedForVersion c) else
  let length := v_lengthRemaining c in
  if negb (IsPtrAligned (br_addr body) 8)
  then Some (false, rangeDataHasImproperAlignment (br_addr body) c)
  else if negb (length mod size =? 0)
  then Some (false, rangeSizeIsNotMultipleOfElementSize (br_addr body) c)
  else array_fixed_loop (S (Z.to_nat length)) size body 0 length c.
End ValidateArray.

(** ** Specification: how a range is tiled by its elements *)

(** The length an element declares. *)
Definition declared (sizeFieldOffset : Z) (data : list Z) (p : Z) : option Z :=
  if sizeFieldOffset =? PROTOCOL_ITERATOR_SIZE_CONDITIONAL then
    t ← rd16 data p; Some (if t =? 0xffff then 8 else 4)
  else rd16 data (p + sizeFieldOffset).

Definition jump (alignment e : Z) : Z := if negb (alignment =? 8) then e else PadLength e.

(** [tiled ... p n]: from [p] on, the range consists of exactly [n] elements,
    each long enough and padded as the alignment demands. *)
Inductive tiled (elementSize sfo alignment : Z) (range : ByteRange) : Z -> nat -> Prop :=
| tiled_end : tiled elementSize sfo alignment range (br_size range) 0
| tiled_elem p e n :
    declared sfo (br_data range) p = Some e -> 4 <= e ->
    (alignment = 8 -> elementSize <= e) -> (alignment ≠ 8 -> e mod alignment = 0) ->
    p + jump alignment e <= br_size range ->
    tiled elementSize sfo alignment range (p + jump alignment e) n ->
    tiled elementSize sfo alignment range p (S n).

(** [n] steps of the iterator. *)
Fixpoint walk (n : nat) (elementSize sfo alignment : Z) (range : ByteRange) (p : Z) : option Z :=
  match n with
  | O => Some p
  | S n' => p' ← ProtocolIterator_next elementSize sfo alignment range p;
            walk n' elementSize sfo alignment range p'
  end.

(** The parameters a [ProtocolIterator] is instantiated with (its static
    assertions, and an element type that contains its own size field). *)
Definition iter_params (elementSize sfo alignment : Z) : Prop :=
  4 <= elementSize < 2 ^ 16 /\
  ((alignment = 8 /\ 0 <= sfo < 32 /\ sfo + 2 <= elementSize) \/
   (alignment = 4 /\ 0 <= sfo <= 2) \/
   (alignment = 4 /\ sfo = PROTOCOL_ITERATOR_SIZE_CONDITIONAL)).

(** ** Proofs *)

Lemma IsPtrAligned_pow2 p k : 0 <= k -> IsPtrAligned p (2 ^ k) = (p mod 2 ^ k =? 0).
Proof. intros. unfold IsPtrAligned. rewrite (land_ones_mod p k); [done|done|]. by rewrite Z.ones_equiv. Qed.

Lemma IsPtrAligned_8 a : IsPtrAligned a 8 = (a mod 8 =? 0).
Proof. unfold IsPtrAligned. by rewrite (land_ones_mod a 3). Qed.

Lemma IsPtrAligned_8_add a p : a mod 8 = 0 -> p mod 8 = 0 -> IsPtrAligned (a + p) 8 = true.
Proof. intros Ha Hp. by rewrite IsPtrAligned_8, Zplus_mod, Ha, Hp. Qed.

Section Ranges.
Context (elementSize sfo alignment : Z) (range : ByteRange).
Context (Hparams : iter_params elementSize sfo alignment).
Context (Hbytes : bytes_ok (br_data range)).

Local Abbreviation tiling := (tiled elementSize sfo alignment range).

Lemma declared_range p e : declared sfo (br_data range) p = Some e -> 0 <= e < 2 ^ 16.
Proof.
  unfold declared. destruct (sfo =? _).
  - destruct (rd16 _ p); simpl; [|done]. intros [= <-]. split_ifs; lia.
  - intros H. by apply rd_be_range in H.
Qed.

Lemma jump_bounds e :
  4 <= e < 2 ^ 16 -> (alignment ≠ 8 -> e mod alignment = 0) ->
  e <= jump alignment e < e + 8 /\ jump alignment e mod alignment = 0.
Proof.
  intros He Hm. unfold jump. destruct (Z.eqb_spec alignment 8) as [->|]; simpl.
  - pose proof (PadLength_bounds e ltac:(lia)). lia.
  - split; [lia|auto].
Qed.

Lemma size_mod_step len j :
  len mod alignment = 0 -> j mod alignment = 0 -> (len - j) mod alignment = 0.
Proof.
  intros Hl Hj. rewrite Zminus_mod, Hl, Hj. done.
Qed.

Lemma align_pos : alignment = 4 \/ alignment = 8.
Proof. unfold iter_params in Hparams. lia. Qed.

Lemma declared_some p len :
  0 <= p -> p + len = br_size range -> alignment <= len ->
  (len <? sfo + 2 = false \/ sfo = PROTOCOL_ITERATOR_SIZE_CONDITIONAL) ->
  is_Some (declared sfo (br_data range) p).
Proof.
  intros Hp Hl Ha Hs. unfold declared, br_size in *. pose proof align_pos.
  destruct (Z.eqb_spec sfo PROTOCOL_ITERATOR_SIZE_CONDITIONAL) as [E|E].
  - destruct (rd_be_some 2 (br_data range) p) as [v ->]; [lia..|]. by eexists.
  - apply rd_be_some; unfold iter_params in *; lia.
Qed.

(** One unfolding of the loop, in terms of the declared length. *)
Lemma range_valid_loop_S fuel p len c :
  0 < len -> alignment <= len ->
  range_valid_loop (S fuel) elementSize sfo alignment range p len c =
  if negb (sfo =? PROTOCOL_ITERATOR_SIZE_CONDITIONAL) && (len <? sfo + 2)
  then Some (false, rangeElementSizeOverrunsEnd (br_addr range + p) c)
  else
    e ← declared sfo (br_data range) p;
    if e <? 4 then Some (false, rangeElementSizeIsTooSmall (br_addr range + p) c)
    else if (e <? elementSize) && (alignment =? 8)
    then Some (false, rangeElementSizeIsTooSmall (br_addr range + p) c)
    else if negb (alignment =? 8) && negb (e mod alignment =? 0)
    then Some (false, rangeElementSizeHasImproperAlignment (br_addr range + p) c)
    else if len <? jump alignment e
    then Some (false, rangeElementSizeOverrunsEnd (br_addr range + p) c)
    else range_valid_loop fuel elementSize sfo alignment range
           (p + jump alignment e) (len - jump alignment e) c.
Proof.
  intros H0 Ha. cbn [range_valid_loop]. rewrite (proj2 (Z.ltb_lt 0 len) H0).
  rewrite (proj2 (Z.leb_le _ _) Ha). cbn [negb]. unfold declared, jump.
  destruct (sfo =? _); cbn [negb andb].
  - by destruct (rd16 _ p).
  - destruct (len <? sfo + 2); [done|]. by destruct (rd16 _ _).
Qed.

(** An element at a position before the end, seen through the tiling. *)
Lemma tiled_inv p n :
  p < br_size range -> tiling p n ->
  exists e n', n = S n' /\ declared sfo (br_data range) p = Some e /\ 4 <= e /\
    (alignment = 8 -> elementSize <= e) /\ (alignment ≠ 8 -> e mod alignment = 0) /\
    p + jump alignment e <= br_size range /\ tiling (p + jump alignment e) n'.
Proof. intros Hp Ht. inversion Ht; subst; [lia|]. eauto 10. Qed.

(** An element that is tiled contains its size field. *)
Lemma declared_room p e :
  declared sfo (br_data range) p = Some e -> 4 <= e ->
  (alignment = 8 -> elementSize <= e) -> p + jump alignment e <= br_size range ->
  sfo ≠ PROTOCOL_ITERATOR_SIZE_CONDITIONAL -> sfo + 2 <= br_size range - p.
Proof.
  intros Hd He H8 Hj Hs. pose proof (declared_range _ _ Hd).
  unfold jump in Hj. destruct (Z.eqb_spec alignment 8); simpl in Hj.
  - pose proof (PadLength_bounds e ltac:(lia)). unfold iter_params in *. lia.
  - unfold iter_params in *. lia.
Qed.

Lemma range_valid_loop_spec fuel p len c :
  0 <= p -> 0 <= len -> p + len = br_size range -> len mod alignment = 0 ->
  (Z.to_nat len < fuel)%nat ->
  exists b c', range_valid_loop fuel elementSize sfo alignment range p len c = Some (b, c') /\
    (b = true <-> exists n, tiling p n) /\ (b = true -> c' = c) /\
    (b = false -> failed_from OFPBRC_BAD_LEN c c').
Proof.
  pose proof align_pos as Ha.
  revert p len. induction fuel as [|fuel IH]; intros p len Hp Hl Hs Hm Hf; [lia|].
  destruct (decide (len = 0)) as [->|Hn].
  { exists true, c. simpl. replace p with (br_size range) by lia. rewrite Z.eqb_refl.
    split_and!; try done. split; [|done]. exists O. constructor. }
  assert (alignment <= len) as Hal.
  { destruct Ha; subst; Z.to_euclidean_division_equations; lia. }
  rewrite range_valid_loop_S by lia.
  (* a rejected element refutes the tiling *)
  assert (forall r, (forall n, ~ tiling p n) ->
    exists b c', Some (false, report OFPBRC_BAD_LEN r (v_offset c (br_addr range + p)) c) = Some (b, c') /\
    (b = true <-> exists n, tiling p n) /\ (b = true -> c' = c) /\
    (b = false -> failed_from OFPBRC_BAD_LEN c c')) as Hrej.
  { intros r Hno. do 2 eexists. split; [done|]. split_and!; [|done|eauto with ofp].
    split; [done|]. intros [n Hn']. by destruct (Hno n). }
  assert (p < br_size range) as Hlt by lia.
  destruct (negb _ && _) eqn:E1.
  { apply Hrej. intros n (e & n' & -> & Hd & He & H8 & _ & Hj & _)%(tiled_inv p n Hlt).
    pose proof (declared_room p e Hd He H8 Hj). lia. }
  destruct (declared_some p len) as [e He]; [lia..|].
  rewrite He. simpl. pose proof (declared_range _ _ He).
  (* every rejected element contradicts one of the tiling's conditions *)
  assert (forall n, tiling p n -> 4 <= e /\ (alignment = 8 -> elementSize <= e) /\
    (alignment ≠ 8 -> e mod alignment = 0) /\ jump alignment e <= len /\
    exists n', tiling (p + jump alignment e) n') as Hinv.
  { intros n (e' & n' & -> & Hd & ? & ? & ? & ? & ?)%(tiled_inv p n Hlt).
    simplify_eq. split_and!; eauto with lia. }
  destruct (e <? 4) eqn:E2; [apply Hrej; intros n Ht%Hinv; lia|].
  destruct ((e <? elementSize) && (alignment =? 8)) eqn:E3;
    [apply Hrej; intros n Ht%Hinv; lia|].
  destruct (negb (alignment =? 8) && _) eqn:E4.
  { apply Hrej. intros n (_ & _ & Hmod & _)%Hinv. apply andb_true_iff in E4 as [? ?%negb_true_iff].
    rewrite Hmod in *; lia. }
  assert (alignment ≠ 8 -> e mod alignment = 0) as Hmod by lia.
  destruct (jump_bounds e) as [Hj Hjm]; [lia|done|].
  destruct (len <? jump alignment e) eqn:E5; [apply Hrej; intros n Ht%Hinv; lia|].
  destruct (IH (p + jump alignment e) (len - jump alignment e)) as (b & c' & -> & Hb & Ht & Hfa);
    [lia..|by apply size_mod_step|lia|].
  exists b, c'. split_and!; try done. rewrite Hb. split.
  - intros [n Hn']. exists (S n). eapply tiled_elem; eauto with lia.
  - intros [n Hn']. by apply Hinv in Hn' as (_ & _ & _ & _ & ?).
Qed.

(** The iterator's own element size agrees with the declared one. *)
Lemma element_size_declared p e :
  declared sfo (br_data range) p = Some e -> 4 <= e -> (alignment = 8 -> elementSize <= e) ->
  ProtocolElement_size elementSize sfo (br_data range) p = Some e /\
  (sfo = PROTOCOL_ITERATOR_SIZE_CONDITIONAL \/ sfo + 2 <= e).
Proof.
  intros Hd He H8. unfold declared, ProtocolElement_size, iter_params in *.
  unfold PROTOCOL_ITERATOR_SIZE_FIXED, PROTOCOL_ITERATOR_SIZE_CONDITIONAL in *.
  destruct (Z.eqb_spec sfo 0xfffe) as [->|]; simpl; [auto|].
  rewrite (proj2 (Z.eqb_neq sfo 0xffff)), Hd by lia. simpl. split; [f_equal|]; lia.
Qed.

Lemma IsPtrAligned_mod a : IsPtrAligned a alignment = (a mod alignment =? 0).
Proof.
  destruct align_pos as [->| ->].
  - unfold IsPtrAligned. by rewrite (land_ones_mod a 2).
  - apply IsPtrAligned_8.
Qed.

Lemma jump_eq e : jump alignment e = if alignment =? 8 then PadLength e else e.
Proof. unfold jump. by destruct (alignment =? 8). Qed.

Lemma tiled_walk p n :
  tiling p n -> IsPtrAligned (br_addr range + p) alignment = true ->
  walk n elementSize sfo alignment range p = Some (br_size range).
Proof.
  induction 1 as [|p e n Hd He H8 Hm Hj Ht IH]; intros Ha; [done|].
  cbn [walk]. unfold ProtocolIterator_next. rewrite Ha.
  destruct (element_size_declared p e Hd He H8) as [-> _].
  cbn. rewrite <- jump_eq. apply IH.
  pose proof (declared_range _ _ Hd). destruct (jump_bounds e) as [_ Hz]; [lia|done|].
  rewrite IsPtrAligned_mod in *. apply Z.eqb_eq in Ha.
  apply Z.eqb_eq. by rewrite Z.add_assoc, Zplus_mod, Ha, Hz.
Qed.

Lemma tiled_item_count fuel p len n count :
  tiling p n -> p + len = br_size range -> len mod alignment = 0 -> (n < fuel)%nat ->
  item_count_loop fuel sfo alignment (br_data range) p len count = Some (count + Z.of_nat n).
Proof.
  intros Ht. revert fuel len count.
  induction Ht as [|p e n Hd He H8 Hm Hj Ht IH]; intros fuel len count Hl Hmod Hf;
    (destruct fuel as [|fuel]; [lia|]).
  - replace len with 0 by lia. simpl. f_equal. lia.
  - pose proof (declared_range _ _ Hd). destruct (jump_bounds e) as [Hb Hz]; [lia|done|].
    assert (alignment <= len).
    { destruct align_pos as [E|E]; rewrite E in *; Z.to_euclidean_division_equations; lia. }
    destruct (element_size_declared p e Hd He H8) as [Hes Hsz].
    cbn [item_count_loop]. rewrite (proj2 (Z.ltb_lt 0 len)) by lia.
    rewrite (proj2 (Z.leb_le alignment len)) by done. cbn [negb].
    assert ((if sfo =? PROTOCOL_ITERATOR_SIZE_CONDITIONAL
             then if alignment =? 4
                  then t ← rd16 (br_data range) p; Some (if t =? 65535 then 8 else 4)
                  else None
             else t ← rd16 (br_data range) (p + sfo); Some (Z.max (sfo + 2) t)) = Some e) as ->.
    { unfold declared in Hd. destruct (Z.eqb_spec sfo PROTOCOL_ITERATOR_SIZE_CONDITIONAL).
      - rewrite (proj2 (Z.eqb_eq alignment 4)); [done|].
        unfold iter_params, PROTOCOL_ITERATOR_SIZE_CONDITIONAL in *. lia.
      - rewrite Hd. simpl. f_equal. lia. }
    cbn. rewrite <- jump_eq, (proj2 (Z.ltb_ge len _)) by lia.
    rewrite (IH fuel (len - jump alignment e)); [f_equal; lia|lia|by apply size_mod_step|lia].
Qed.

(** Every element takes at least four bytes, which bounds their number. *)
Lemma tiled_count p n : tiling p n -> 4 * Z.of_nat n <= br_size range - p.
Proof.
  induction 1 as [|p e n Hd He H8 Hm Hj Ht IH]; [lia|].
  pose proof (declared_range _ _ Hd). destruct (jump_bounds e); [lia|done|]. lia.
Qed.

(** A loop over a tiled range keeps an invariant and ends, at the end or early. *)
Lemma for_elements_tiled {A} (body : Z -> A -> option (bool * A)) (I : Z -> A -> Prop) fuel p n a :
  (forall p e a, 0 <= p -> declared sfo (br_data range) p = Some e -> 4 <= e ->
     (alignment = 8 -> elementSize <= e) -> p + jump alignment e <= br_size range ->
     IsPtrAligned (br_addr range + p) alignment = true -> I p a ->
     exists go a', body p a = Some (go, a') /\ (go = true -> I (p + jump alignment e) a')) ->
  tiling p n -> 0 <= p -> IsPtrAligned (br_addr range + p) alignment = true -> (n <= fuel)%nat -> I p a ->
  exists go a', for_elements elementSize sfo alignment body fuel range p a = Some (go, a') /\
    (go = true -> I (br_size range) a').
Proof.
  intros Hbody Ht. revert fuel a. induction Ht as [|p e n Hd He H8 Hm Hj Ht IH]; intros fuel a Hp Ha Hf HI.
  { exists true, a. by destruct fuel; cbn [for_elements]; rewrite Z.eqb_refl. }
  pose proof (declared_range _ _ Hd). destruct (jump_bounds e) as [Hb Hz]; [lia|done|].
  destruct fuel as [|fuel]; [lia|]. cbn [for_elements].
  rewrite (proj2 (Z.eqb_neq _ _)) by lia.
  destruct (Hbody p e a) as (go & a' & -> & Hgo); try done. cbn [mbind option_bind].
  destruct go; cbn [negb]; [|by exists false, a'].
  unfold ProtocolIterator_next. rewrite Ha. destruct (element_size_declared p e Hd He H8) as [-> _].
  cbn [mbind option_bind]. rewrite <- jump_eq. apply IH; [lia| |lia|by apply Hgo].
  rewrite IsPtrAligned_mod in *. apply Z.eqb_eq in Ha. apply Z.eqb_eq.
  by rewrite Z.add_assoc, Zplus_mod, Ha, Hz.
Qed.
End Ranges.

Lemma IsProtocolRangeValid_variable elementSize sfo alignment range c :
  iter_params elementSize sfo alignment ->
  IsProtocolRangeValid elementSize range sfo alignment c =
  if negb (br_size range mod alignment =? 0)
  then Some (false, rangeSizeHasImproperAlignment (br_addr range) c)
  else if negb (br_addr range mod alignment =? 0)
  then Some (false, rangeDataHasImproperAlignment (br_addr range) c)
  else range_valid_loop (S (length (br_data range))) elementSize sfo alignment
         range 0 (br_size range) c.
Proof.
  intros Hp. unfold IsProtocolRangeValid. rewrite (IsPtrAligned_mod elementSize sfo) by done.
  unfold iter_params, PROTOCOL_ITERATOR_SIZE_FIXED, PROTOCOL_ITERATOR_SIZE_CONDITIONAL in *.
  rewrite (proj2 (Z.eqb_neq sfo 0xffff)) by lia.
  by rewrite (proj2 (andb_true_iff _ _)) by lia.
Qed.

Lemma range_validity elementSize sfo alignment range c :
  iter_params elementSize sfo alignment -> bytes_ok (br_data range) ->
  exists b c', IsProtocolRangeValid elementSize range sfo alignment c = Some (b, c') /\
    (b = true <-> br_size range mod alignment = 0 /\ br_addr range mod alignment = 0 /\
                  exists n, tiled elementSize sfo alignment range 0 n) /\
    (b = true -> c' = c) /\ (b = false -> failed_from OFPBRC_BAD_LEN c c').
Proof.
  intros Hp Hb. rewrite IsProtocolRangeValid_variable by done.
  destruct (Z.eqb_spec (br_size range mod alignment) 0) as [Hm|Hm]; cbn [negb].
  2: { do 2 eexists. split; [done|]. split_and!; [|done|intros _; apply report_failed].
    split; [done|]. by intros []. }
  destruct (Z.eqb_spec (br_addr range mod alignment) 0) as [Ha|Ha]; cbn [negb].
  2: { do 2 eexists. split; [done|]. split_and!; [|done|intros _; apply report_failed].
    split; [done|]. by intros (_ & ? & _). }
  destruct (range_valid_loop_spec elementSize sfo alignment range Hp Hb
              (S (length (br_data range))) 0 (br_size range) c) as (b & c' & -> & Hiff & Ht & Hf);
    [unfold br_size, zlen in *; lia || done..|].
  exists b, c'. split_and!; try done. rewrite Hiff. naive_solver.
Qed.

(** C19. [IsProtocolRangeValid] on a range of variable-sized elements always
    returns (it never reads outside the range, trips an assertion or loops),
    and it answers true exactly when the range is aligned and tiled by whole
    elements; it then leaves the context alone, otherwise it reports a bad
    length. *)
Theorem IsProtocolRangeValid_iff elementSize sfo alignment range c :
  iter_params elementSize sfo alignment -> bytes_ok (br_data range) ->
  exists b c', IsProtocolRangeValid elementSize range sfo alignment c = Some (b, c') /\
    (b = true <-> br_size range mod alignment = 0 /\ br_addr range mod alignment = 0 /\
                  exists n, tiled elementSize sfo alignment range 0 n) /\
    (b = true -> c' = c) /\ (b = false -> failed_from OFPBRC_BAD_LEN c c').
Proof. apply range_validity. Qed.

(** ** A valid range as the sequence of its elements (alignment 8) *)

(** The bytes of one element with its padding. *)
Definition elem_ok (elementSize sfo : Z) (c : list Z) : Prop :=
  exists e, rd16 c sfo = Some e /\ 4 <= e /\ elementSize <= e < 2 ^ 16 /\ zlen c = PadLength e.

Section Elements.
Context (elementSize sfo : Z) (Hparams : iter_params elementSize sfo 8).

Lemma elem_length c : elem_ok elementSize sfo c -> elementSize <= zlen c /\ 4 <= zlen c /\ zlen c mod 8 = 0.
Proof.
  intros (e & _ & He & Hs & ->). pose proof (PadLength_bounds e ltac:(lia)). lia.
Qed.

Lemma sfo_room : 0 <= sfo < 32 /\ sfo + 2 <= elementSize /\ 4 <= elementSize.
Proof. unfold iter_params, PROTOCOL_ITERATOR_SIZE_CONDITIONAL in Hparams. lia. Qed.

Lemma declared_elem pre c post e :
  rd16 c sfo = Some e -> declared sfo (pre ++ c ++ post) (zlen pre) = Some e.
Proof.
  intros H. pose proof sfo_room. unfold declared, PROTOCOL_ITERATOR_SIZE_CONDITIONAL.
  rewrite (proj2 (Z.eqb_neq sfo 0xfffe)) by lia. apply rd_be_inv in H as Hr.
  unfold rd_be. rewrite (slice_skip pre _ (zlen pre)) by lia.
  replace (zlen pre + sfo - zlen pre) with sfo by lia. rewrite slice_app_l by lia. done.
Qed.

Lemma elems_tiled addr pre cs :
  Forall (elem_ok elementSize sfo) cs ->
  tiled elementSize sfo 8 (mkRange addr (pre ++ mjoin cs)) (zlen pre) (length cs).
Proof.
  intros Hcs. revert pre. induction Hcs as [|c cs (e & Hd & H4 & He & Hl) Hcs IH]; intros pre.
  { simpl. rewrite app_nil_r. constructor. }
  change (mjoin (c :: cs)) with (c ++ mjoin cs).
  apply (tiled_elem _ _ _ _ _ e); unfold br_size; cbn [br_data]; try (done || lia).
  - by apply declared_elem.
  - unfold jump. simpl. rewrite <- Hl, !zlen_app. pose proof (zlen_nonneg (mjoin cs)). lia.
  - unfold jump. simpl. rewrite <- Hl, <- zlen_app, app_assoc. apply IH.
Qed.

Lemma tiled_elems range p n :
  bytes_ok (br_data range) -> 0 <= p -> tiled elementSize sfo 8 range p n ->
  exists cs, drop (Z.to_nat p) (br_data range) = mjoin cs /\ Forall (elem_ok elementSize sfo) cs /\
    length cs = n.
Proof.
  intros Hb Hp Ht. induction Ht as [|p e n Hd He H8 Hm Hj Ht IH].
  { exists []. split_and!; try done. rewrite drop_ge; [done|]. unfold br_size, zlen. lia. }
  pose proof (declared_range sfo range Hb p e Hd) as Hr. specialize (H8 eq_refl).
  unfold jump in *. cbn [Z.eqb negb Pos.eqb] in *. pose proof (PadLength_bounds e ltac:(lia)) as [Hpl _].
  destruct IH as (cs & Hcs & Hok & Hn); [lia|].
  set (m := drop (Z.to_nat p) (br_data range)). exists (take (Z.to_nat (PadLength e)) m :: cs).
  assert (drop (Z.to_nat (PadLength e)) m = mjoin cs) as Hm'.
  { unfold m. rewrite drop_drop, <- Hcs. f_equal. lia. }
  assert (zlen m = br_size range - p) as Zm by (unfold m, br_size in *; rewrite zlen_drop; lia).
  split_and!; [by rewrite <- (take_drop (Z.to_nat (PadLength e)) m), Hm' at 1| |by simpl; rewrite Hn].
  constructor; [|done]. exists e. split_and!; try lia.
  2: { rewrite zlen_take. lia. }
  pose proof sfo_room. unfold declared, PROTOCOL_ITERATOR_SIZE_CONDITIONAL in Hd.
  rewrite (proj2 (Z.eqb_neq sfo 0xfffe)) in Hd by lia. rewrite <- Hd. unfold rd_be. f_equal.
  assert (br_data range = take (Z.to_nat p) (br_data range) ++ m) as -> by (unfold m; by rewrite take_drop).
  rewrite (slice_skip _ m p) by (rewrite ?zlen_take; unfold br_size in *; lia).
  replace (p + sfo - p) with sfo by lia. rewrite <- (take_drop (Z.to_nat (PadLength e)) m) at 2.
  rewrite slice_app_l; [done|]. rewrite zlen_take. lia.
Qed.

(** One round of the loop, at an element of the range. *)
Lemma for_elements_round {A} (body : Z -> A -> option (bool * A)) fuel addr pre x rest a :
  addr mod 8 = 0 -> zlen pre mod 8 = 0 -> elem_ok elementSize sfo x ->
  for_elements elementSize sfo 8 body (S fuel) (mkRange addr (pre ++ x ++ rest)) (zlen pre) a =
  '(go, a) ← body (zlen pre) a;
  if negb go then Some (false, a)
  else for_elements elementSize sfo 8 body fuel (mkRange addr (pre ++ x ++ rest)) (zlen (pre ++ x)) a.
Proof.
  intros Ha Hm Hx. pose proof (elem_length x Hx) as (_ & Hx4 & Hx8). cbn [for_elements].
  rewrite (proj2 (Z.eqb_neq _ _)).
  2: { unfold br_size. cbn [br_data]. rewrite !zlen_app. pose proof (zlen_nonneg rest). lia. }
  destruct (body (zlen pre) a) as [[[] a']|]; cbn [mbind option_bind negb]; [|done..].
  unfold ProtocolIterator_next. cbn [br_addr br_data]. rewrite IsPtrAligned_8_add by done.
  destruct Hx as (e & Hd & H4 & He & Hl). pose proof sfo_room.
  destruct (element_size_declared elementSize sfo 8 (mkRange addr (pre ++ x ++ rest)) Hparams (zlen pre) e)
    as [Hes _]; [by apply declared_elem|lia|lia|].
  cbn [br_data] in Hes. rewrite Hes. cbn [mbind option_bind Z.eqb Pos.eqb]. by rewrite <- Hl, zlen_app.
Qed.

Lemma for_elements_end {A} (body : Z -> A -> option (bool * A)) fuel addr m a :
  for_elements elementSize sfo 8 body fuel (mkRange addr m) (zlen m) a = Some (true, a).
Proof. destruct fuel; cbn [for_elements]; unfold br_size; cbn [br_data]; by rewrite Z.eqb_refl. Qed.

Lemma elems_few cs : Forall (elem_ok elementSize sfo) cs -> (length cs <= length (mjoin cs))%nat.
Proof.
  induction 1 as [|x cs Hx Hcs IH]; [done|]. simpl. apply elem_length in Hx as (_ & ? & _).
  rewrite length_app. unfold zlen in *. lia.
Qed.

(** A loop whose body only looks at its element is a fold over the elements. *)
Lemma for_elements_elems {A} (body : Z -> A -> option (bool * A)) (g : A -> list Z -> A)
    (P : A -> Prop) addr cs a :
  addr mod 8 = 0 -> Forall (elem_ok elementSize sfo) cs -> P a ->
  (forall pre c post a, mjoin cs = pre ++ c ++ post -> c ∈ cs -> zlen pre mod 8 = 0 -> P a ->
     body (zlen pre) a = Some (true, g a c) /\ P (g a c)) ->
  for_elements elementSize sfo 8 body (length (mjoin cs)) (mkRange addr (mjoin cs)) 0 a =
  Some (true, foldl g a cs).
Proof.
  intros Ha Hcs HPa Hbody. set (all := mjoin cs) in *.
  assert (forall fuel pre rest a, all = pre ++ mjoin rest -> (forall x, x ∈ rest -> x ∈ cs) ->
    (length rest <= fuel)%nat -> zlen pre mod 8 = 0 -> P a ->
    for_elements elementSize sfo 8 body fuel (mkRange addr all) (zlen pre) a =
      Some (true, foldl g a rest)) as Hgen.
  { intros fuel pre rest. revert fuel pre. induction rest as [|x rest IH]; intros fuel pre b E Hin Hf Hm HP.
    { simpl in E. rewrite app_nil_r in E. rewrite E. apply for_elements_end. }
    destruct fuel as [|fuel]; [simpl in Hf; lia|]. change (mjoin (x :: rest)) with (x ++ mjoin rest) in E.
    assert (elem_ok elementSize sfo x) as Hx by (eapply Forall_forall; [exact Hcs|apply Hin; set_solver]).
    destruct (Hbody _ x _ b E) as [Hb HP']; [apply Hin; set_solver|done..|].
    rewrite E, for_elements_round, Hb, <- E by done. cbn [mbind option_bind negb].
    apply IH; try done; [by rewrite <- app_assoc|set_solver|simpl in Hf; lia|].
    apply elem_length in Hx as (_ & _ & Hx8). by rewrite zlen_app, Zplus_mod, Hm, Hx8. }
  apply (Hgen _ [] cs); try done. by apply elems_few.
Qed.

Lemma elems_mod8 cs : Forall (elem_ok elementSize sfo) cs -> zlen (mjoin cs) mod 8 = 0.
Proof.
  induction 1 as [|x cs Hx Hcs IH]; [done|]. simpl. rewrite zlen_app.
  apply elem_length in Hx as (_ & _ & ?). by rewrite Zplus_mod, IH, H.
Qed.

(** A range is made of its elements in one way only. *)
Lemma elems_unique cs ds :
  Forall (elem_ok elementSize sfo) cs -> Forall (elem_ok elementSize sfo) ds -> mjoin cs = mjoin ds -> cs = ds.
Proof.
  intros Hcs. revert ds. induction Hcs as [|c cs Hc Hcs IH]; intros ds Hds E.
  { destruct Hds as [|d ds Hd Hds]; [done|]. apply elem_length in Hd as (_ & ? & _).
    apply (f_equal zlen) in E. change (mjoin (d :: ds)) with (d ++ mjoin ds) in E. rewrite zlen_app in E.
    change (zlen (mjoin [])) with 0 in E. pose proof (zlen_nonneg (mjoin ds)). lia. }
  destruct Hds as [|d ds Hd Hds].
  { apply elem_length in Hc as (_ & ? & _). apply (f_equal zlen) in E.
    change (mjoin (c :: cs)) with (c ++ mjoin cs) in E. rewrite zlen_app in E.
    change (zlen (mjoin [])) with 0 in E. pose proof (zlen_nonneg (mjoin cs)). lia. }
  change (c ++ mjoin cs = d ++ mjoin ds) in E.
  assert (zlen c = zlen d) as Hl.
  { destruct Hc as (e & He & _ & _ & ->), Hd as (e' & He' & _ & _ & ->). f_equal.
    pose proof (declared_elem [] c (mjoin cs) e He) as H1. pose proof (declared_elem [] d (mjoin ds) e' He') as H2.
    simpl in H1, H2. rewrite E in H1. congruence. }
  apply app_inj_1 in E as [-> E]; [|unfold zlen in Hl; lia]. f_equal. by apply IH.
Qed.

(** A range made of whole elements that their own check accepts is accepted. *)
Lemma validateInput_elems elem addr cs c :
  addr mod 8 = 0 -> Forall (elem_ok elementSize sfo) cs -> bytes_ok (mjoin cs) ->
  (forall pre x post, mjoin cs = pre ++ x ++ post -> x ∈ cs -> zlen pre mod 8 = 0 ->
     elem (zlen pre) c = Some (true, c)) ->
  ProtocolRange_validateInput elementSize sfo 8 elem (mkRange addr (mjoin cs)) c = Some (true, c).
Proof.
  intros Ha Hcs Hb Helem. unfold ProtocolRange_validateInput.
  destruct (range_validity elementSize sfo 8 (mkRange addr (mjoin cs)) c Hparams Hb)
    as (b & c' & -> & Hiff & Ht & _).
  pose proof (elems_mod8 cs Hcs) as Hm.
  assert (b = true) as ->.
  { apply Hiff. split_and!; [done..|]. exists (length cs). by apply (elems_tiled addr []). }
  cbn [mbind option_bind negb]. rewrite (Ht eq_refl). cbn [br_data].
  rewrite (for_elements_elems _ (fun c' _ => c') (fun c' => c' = c)); [|done..|].
  - f_equal. f_equal. clear. induction cs as [|x cs IH]; [done|]. exact IH.
  - intros pre x post a Ha' Hx Hp ->. split; [by eapply Helem|done].
Qed.

(** A loop whose body decides a property of its element stops at the first
    element that fails, and answers whether all have it. *)
Lemma for_elements_check {A} (body : Z -> A -> option (bool * A)) (P : list Z -> Prop) addr cs a :
  addr mod 8 = 0 -> Forall (elem_ok elementSize sfo) cs ->
  (forall pre x post, mjoin cs = pre ++ x ++ post -> x ∈ cs -> zlen pre mod 8 = 0 ->
     exists b a', body (zlen pre) a = Some (b, a') /\ (b = true <-> P x) /\ (b = true -> a' = a)) ->
  exists b a', for_elements elementSize sfo 8 body (length (mjoin cs)) (mkRange addr (mjoin cs)) 0 a =
    Some (b, a') /\ (b = true <-> Forall P cs) /\ (b = true -> a' = a).
Proof.
  intros Ha Hcs Hbody. set (all := mjoin cs) in *.
  assert (forall fuel pre rest, all = pre ++ mjoin rest -> (forall x, x ∈ rest -> x ∈ cs) ->
    (length rest <= fuel)%nat -> zlen pre mod 8 = 0 ->
    exists b a', for_elements elementSize sfo 8 body fuel (mkRange addr all) (zlen pre) a =
      Some (b, a') /\ (b = true <-> Forall P rest) /\ (b = true -> a' = a)) as Hgen.
  { intros fuel pre rest. revert fuel pre. induction rest as [|x rest IH]; intros fuel pre E Hin Hf Hm.
    { simpl in E. rewrite app_nil_r in E. rewrite E, for_elements_end. exists true, a. by split_and!. }
    destruct fuel as [|fuel]; [simpl in Hf; lia|]. change (mjoin (x :: rest)) with (x ++ mjoin rest) in E.
    assert (elem_ok elementSize sfo x) as Hx by (eapply Forall_forall; [exact Hcs|apply Hin; set_solver]).
    destruct (Hbody _ x _ E) as (b & a' & Hb & HP & Hk); [apply Hin; set_solver|done|].
    rewrite E, for_elements_round, Hb, <- E by done. cbn [mbind option_bind]. destruct b; cbn [negb].
    2: { exists false, a'. split; [done|]. split; [|done]. split; [done|]. intros [? _]%Forall_cons. by apply HP. }
    rewrite (Hk eq_refl). destruct (IH fuel (pre ++ x)) as (b & a'' & -> & Hb' & Hk').
    - by rewrite <- app_assoc.
    - set_solver.
    - simpl in Hf. lia.
    - apply elem_length in Hx as (_ & _ & Hx8). by rewrite zlen_app, Zplus_mod, Hm, Hx8.
    - exists b, a''. split; [done|]. split; [|done]. rewrite Forall_cons, Hb'. split; [split; [by apply HP|done]|tauto]. }
  apply (Hgen _ [] cs); try done. by apply elems_few.
Qed.

(** A loop that passes over the first elements and stops at one. *)
Lemma for_elements_stop {A} (body : Z -> A -> option (bool * A)) addr cs x ds a a' :
  addr mod 8 = 0 -> Forall (elem_ok elementSize sfo) (cs ++ x :: ds) ->
  (forall l y r, cs ++ x :: ds = l ++ y :: r -> y ∈ cs -> zlen (mjoin l) mod 8 = 0 ->
     body (zlen (mjoin l)) a = Some (true, a)) ->
  (zlen (mjoin cs) mod 8 = 0 -> body (zlen (mjoin cs)) a = Some (false, a')) ->
  for_elements elementSize sfo 8 body (length (mjoin (cs ++ x :: ds)))
    (mkRange addr (mjoin (cs ++ x :: ds))) 0 a = Some (false, a').
Proof.
  intros Ha Hok Hgo Hstop. pose proof (elems_few _ Hok) as Hfew. set (all := cs ++ x :: ds) in *.
  assert (forall fuel pre rest, cs = pre ++ rest -> (length rest < fuel)%nat -> zlen (mjoin pre) mod 8 = 0 ->
    for_elements elementSize sfo 8 body fuel (mkRange addr (mjoin all)) (zlen (mjoin pre)) a = Some (false, a')) as Hgen.
  { intros fuel pre rest. revert fuel pre. induction rest as [|y rest IH]; intros fuel pre E Hf Hm;
      (destruct fuel as [|fuel]; [simpl in Hf; lia|]).
    - rewrite app_nil_r in E. subst pre. unfold all. rewrite join_app. change (mjoin (x :: ds)) with (x ++ mjoin ds).
      rewrite for_elements_round; [|done..|eapply Forall_forall; [exact Hok|unfold all; set_solver]].
      by rewrite Hstop.
    - assert (all = pre ++ y :: rest ++ x :: ds) as Eall by (unfold all; rewrite E, <- app_assoc; done).
      assert (elem_ok elementSize sfo y) as Hy by (eapply Forall_forall; [exact Hok|rewrite Eall; set_solver]).
      assert (mjoin all = mjoin pre ++ y ++ mjoin (rest ++ x :: ds)) as Ej by (by rewrite Eall, join_app).
      rewrite Ej, for_elements_round, (Hgo pre y _ Eall), <- Ej by (done || rewrite E; set_solver).
      cbn [mbind option_bind negb].
      assert (mjoin pre ++ y = mjoin (pre ++ [y])) as Ey by (rewrite join_app; simpl; by rewrite app_nil_r).
      rewrite Ey. apply IH; [by rewrite <- app_assoc|simpl in Hf; lia|].
      apply elem_length in Hy as (_ & _ & Hy8). by rewrite <- Ey, zlen_app, Zplus_mod, Hm, Hy8. }
  apply (Hgen _ [] cs); try done.
  assert (length all = length cs + S (length ds))%nat by (unfold all; by rewrite length_app). lia.
Qed.

(** [ProtocolRange::validateInput] when the element's check decides [P]. *)
Lemma validateInput_iff elem (P : list Z -> Prop) range c :
  bytes_ok (br_data range) ->
  (forall cs pre x post, br_data range = mjoin cs -> Forall (elem_ok elementSize sfo) cs -> x ∈ cs ->
     br_data range = pre ++ x ++ post -> zlen pre mod 8 = 0 ->
     exists b c', elem (zlen pre) c = Some (b, c') /\ (b = true <-> P x) /\ (b = true -> c' = c)) ->
  exists b c', ProtocolRange_validateInput elementSize sfo 8 elem range c = Some (b, c') /\
    (b = true <-> br_addr range mod 8 = 0 /\
       exists cs, br_data range = mjoin cs /\ Forall (elem_ok elementSize sfo) cs /\ Forall P cs) /\
    (b = true -> c' = c).
Proof.
  intros Hb Helem. unfold ProtocolRange_validateInput. destruct range as [addr m]. cbn [br_addr br_data] in *.
  destruct (range_validity elementSize sfo 8 (mkRange addr m) c Hparams Hb) as (b & c' & -> & Hiff & Ht & _).
  cbn [mbind option_bind br_addr] in *. destruct b; cbn [negb].
  2: { exists false, c'. split_and!; [done| |done]. split; [done|]. intros (Ha & cs & -> & Hcs & _). apply Hiff.
       split_and!; [unfold br_size; cbn [br_data]; by apply elems_mod8|done|]. exists (length cs).
       by apply (elems_tiled addr []). }
  destruct (proj1 Hiff eq_refl) as (_ & Ha & n & Hn). rewrite (Ht eq_refl).
  destruct (tiled_elems (mkRange addr m) 0 n Hb ltac:(lia) Hn) as (cs & Hm & Hcs & _).
  change (drop 0 m = mjoin cs) in Hm. rewrite drop_0 in Hm. subst m.
  destruct (for_elements_check elem P addr cs c Ha Hcs) as (b & a' & E & Hb' & Hk).
  { intros pre x post E Hx Hp. by apply (Helem cs pre x post). }
  exists b, a'. split; [exact E|]. split; [|done]. rewrite Hb'. split; [eauto 6|].
  intros (_ & cs' & Em & Hcs' & HP). rewrite Em in E.
  destruct (for_elements_check elem P addr cs' c Ha Hcs') as (b2 & a2 & E2 & Hb2 & _).
  { intros pre x post Ex Hx Hp. apply (Helem cs' pre x post); try done. by rewrite Em. }
  rewrite E2 in E. injection E as -> ->. apply Hb', Hb2, HP.
Qed.

(** The inherited check followed by a second loop over the elements, as in the
    ranges that refine it, when the loop's body decides [P]. *)
Lemma validate_twice_iff body (P : list Z -> Prop) range c :
  bytes_ok (br_data range) ->
  (forall pre x post, br_data range = pre ++ x ++ post -> br_addr range mod 8 = 0 -> zlen pre mod 8 = 0 ->
     elem_ok elementSize sfo x -> bytes_ok x ->
     exists b c', body (zlen pre) c = Some (b, c') /\ (b = true <-> P x) /\ (b = true -> c' = c)) ->
  exists b c',
    ('(ok, c) ← ProtocolRange_validateInput elementSize sfo 8 (fun _ c => Some (true, c)) range c;
     if negb ok then Some (false, c)
     else for_elements elementSize sfo 8 body (length (br_data range)) range 0 c) = Some (b, c') /\
    (b = true <-> br_addr range mod 8 = 0 /\
       exists cs, br_data range = mjoin cs /\ Forall (elem_ok elementSize sfo) cs /\ Forall P cs) /\
    (b = true -> c' = c).
Proof.
  intros Hb Hbody.
  destruct (validateInput_iff (fun _ c => Some (true, c)) (fun _ => True) range c Hb) as (b & c' & -> & Hiff & Hc).
  { intros. exists true, c. by split_and!. }
  cbn [mbind option_bind]. destruct b; cbn [negb].
  2: { exists false, c'. split_and!; try done. split; [done|]. intros (Ha & cs & Hm & Hcs & _). apply Hiff.
       split; [done|]. exists cs. split_and!; try done. by apply Forall_true. }
  destruct (proj1 Hiff eq_refl) as (Ha & cs & Hm & Hcs & _). rewrite (Hc eq_refl). clear Hiff Hc.
  destruct range as [addr m]. cbn [br_data br_addr] in *. subst m.
  destruct (for_elements_check body P addr cs c Ha Hcs) as (b & a' & E & Hb' & Hk).
  { intros pre x post E Hx Hp. apply (Hbody pre x post); try done; [by eapply Forall_forall in Hcs|].
    rewrite E, !Forall_app in Hb. tauto. }
  exists b, a'. split_and!; try done. rewrite Hb'. split; [eauto 6|]. intros (_ & cs' & Hm' & Hcs' & Hok).
  by rewrite (elems_unique cs cs' Hcs Hcs' Hm').
Qed.
End Elements.

Definition two_hellos : list Z := [0;1;0;8;0;0;0;16; 0;2;0;5;9;0;0;0].

Lemma IsProtocolRangeValid_witness :
  exists b c', IsProtocolRangeValid 4 (mkRange 4096 two_hellos) 2 8 (Validation_make None (Some 0))
      = Some (b, c') /\
    (b = true <-> br_size (mkRange 4096 two_hellos) mod 8 = 0 /\ 4096 mod 8 = 0 /\
                  exists n, tiled 4 2 8 (mkRange 4096 two_hellos) 0 n) /\
    (b = true -> c' = Validation_make None (Some 0)) /\
    (b = false -> failed_from OFPBRC_BAD_LEN (Validation_make None (Some 0)) c').
Proof.
  apply (IsProtocolRangeValid_iff 4 2 8 (mkRange 4096 two_hellos)).
  - unfold iter_params. lia.
  - simpl. bytes.
Defined.

(** Once a range has been accepted, the unchecked code is safe on it: the
    item count succeeds, and that many steps of the iterator lead from the
    start of the range exactly to its end, without a read outside it. *)
Theorem valid_range_iterates elementSize sfo alignment range c c' :
  iter_params elementSize sfo alignment -> bytes_ok (br_data range) ->
  IsProtocolRangeValid elementSize range sfo alignment c = Some (true, c') ->
  exists n, ProtocolRangeItemCount elementSize range sfo alignment = Some (Z.of_nat n) /\
    walk n elementSize sfo alignment range 0 = Some (br_size range) /\
    4 * Z.of_nat n <= br_size range.
Proof.
  intros Hp Hb. rewrite IsProtocolRangeValid_variable by done.
  destruct (Z.eqb_spec (br_size range mod alignment) 0) as [Hm|Hm]; cbn [negb]; [|done].
  destruct (Z.eqb_spec (br_addr range mod alignment) 0) as [Ha|Ha]; cbn [negb]; [|done].
  destruct (range_valid_loop_spec elementSize sfo alignment range Hp Hb
              (S (length (br_data range))) 0 (br_size range) c) as (b & c1 & -> & Hiff & _);
    [unfold br_size, zlen in *; lia || done..|].
  intros [= -> ->]. destruct (proj1 Hiff eq_refl) as [n Hn]. exists n.
  pose proof (tiled_count _ _ _ _ Hp Hb 0 n Hn) as Hc. split_and!.
  - unfold ProtocolRangeItemCount. rewrite (IsPtrAligned_mod elementSize sfo), Ha, Hm by done.
    rewrite (proj2 (Z.eqb_neq _ _)) by (unfold iter_params, PROTOCOL_ITERATOR_SIZE_CONDITIONAL,
      PROTOCOL_ITERATOR_SIZE_FIXED in *; lia).
    rewrite (proj2 (andb_true_iff _ _)) by (unfold iter_params in Hp; lia).
    cbn [andb Z.eqb].
    rewrite (tiled_item_count elementSize sfo alignment range Hp Hb) with (n := n); try done.
    unfold br_size, zlen in *. lia.
  - apply tiled_walk; try done. by rewrite Z.add_0_r, (IsPtrAligned_mod elementSize sfo), Ha.
  - lia.
Qed.

Lemma valid_range_iterates_witness :
  exists n, ProtocolRangeItemCount 4 (mkRange 4096 two_hellos) 2 8 = Some (Z.of_nat n) /\
    walk n 4 2 8 (mkRange 4096 two_hellos) 0 = Some (br_size (mkRange 4096 two_hellos)) /\
    4 * Z.of_nat n <= br_size (mkRange 4096 two_hellos).
Proof.
  apply (valid_range_iterates 4 2 8 _ (Validation_make None None) (Validation_make None None)).
  - unfold iter_params. lia.
  - simpl. bytes.
  - by vm_compute.
Defined.

(** A range of fixed-size elements is accepted on its length alone: its
    address is not looked at, although the comment on
    [isProtocolRangeFixedValid] lists an 8-byte aligned start as one of the
    tests. An accepted range is walked by the iterator only if it happens to
    be aligned; at an odd address the iterator's own assertion fails. *)
Theorem fixed_range_ignores_alignment elementSize addr data c :
  0 < elementSize -> elementSize mod 8 = 0 -> zlen data mod elementSize = 0 ->
  IsProtocolRangeValid elementSize (mkRange addr data) PROTOCOL_ITERATOR_SIZE_FIXED 8 c
    = Some (true, c) /\
  (addr mod 8 ≠ 0 ->
   ProtocolIterator_next elementSize PROTOCOL_ITERATOR_SIZE_FIXED 8 (mkRange addr data) 0 = None).
Proof.
  intros H0 H8 Hd. unfold IsProtocolRangeValid, isProtocolRangeFixedValid, br_size. simpl.
  rewrite H8, Hd, (proj2 (Z.ltb_lt 0 elementSize) H0). split; [done|]. intros Ha.
  unfold ProtocolIterator_next, IsPtrAligned. simpl.
  rewrite Z.add_0_r, (land_ones_mod addr 3) by done.
  by rewrite (proj2 (Z.eqb_neq (addr mod 2 ^ 3) 0)).
Qed.

Lemma fixed_range_ignores_alignment_witness :
  IsProtocolRangeValid 8 (mkRange 4097 (replicate 16 0)) PROTOCOL_ITERATOR_SIZE_FIXED 8
    (Validation_make None None) = Some (true, Validation_make None None) /\
  (4097 mod 8 ≠ 0 ->
   ProtocolIterator_next 8 PROTOCOL_ITERATOR_SIZE_FIXED 8 (mkRange 4097 (replicate 16 0)) 0 = None).
Proof. apply (fixed_range_ignores_alignment 8 4097 (replicate 16 0)); done. Defined.

(** [ProtocolRangeItemCount] is documented to count the valid items of an
    invalid range, but it reads the size field before it knows that the field
    is there: for elements with their size at offset 8 (queues), an aligned
    range of exactly eight bytes makes it read past the end. *)
Theorem item_count_reads_past_end elementSize addr data :
  addr mod 8 = 0 -> zlen data = 8 ->
  ProtocolRangeItemCount elementSize (mkRange addr data) 8 8 = None.
Proof.
  intros Ha Hd. unfold ProtocolRangeItemCount, br_size, IsPtrAligned. simpl br_data.
  simpl br_addr. rewrite Hd, (land_ones_mod addr 3) by done.
  change (2 ^ 3) with 8. rewrite Ha. cbn -[rd_be].
  replace (rd16 data (0 + 8)) with (@None Z); [done|].
  destruct (rd16 data _) as [v|] eqn:E; [|done]. apply rd_be_inv in E. lia.
Qed.

Lemma item_count_reads_past_end_witness :
  ProtocolRangeItemCount 16 (mkRange 4096 (replicate 8 0)) 8 8 = None.
Proof. by apply (item_count_reads_past_end 16 4096 (replicate 8 0)). Defined.

(** ** Splitting a range into chunks *)

Section Split.
Context (elementSize sfo chunkSize : Z) (range : ByteRange).
Context (Hparams : iter_params elementSize sfo 8) (Hbytes : bytes_ok (br_data range)).

(** [r] is the end of the longest run of whole elements that fits in a chunk. *)
Definition split_point (r : Z) : Prop :=
  r <= chunkSize /\ (exists m, tiled elementSize sfo 8 range r m) /\
  (r = br_size range \/
   exists e, declared sfo (br_data range) r = Some e /\ chunkSize < r + PadLength e).

Lemma split_offset_loop_spec fuel p len n :
  tiled elementSize sfo 8 range p n -> p + len = br_size range -> len mod 8 = 0 ->
  0 <= p <= chunkSize -> p mod 8 = 0 -> (n < fuel)%nat ->
  exists r, split_offset_loop fuel chunkSize sfo (br_data range) p len p = Some r /\
    p <= r /\ r mod 8 = 0 /\ split_point r.
Proof.
  intros Ht. revert fuel len.
  induction Ht as [|p e n Hd He H8 Hm Hj Ht IH]; intros fuel len Hl Hmod Hp Hpm Hf;
    (destruct fuel as [|fuel]; [lia|]).
  - replace len with 0 by lia. exists (br_size range). split_and!; try done; [lia..|].
    split; [lia|]. split; [|by left]. exists O. constructor.
  - pose proof (declared_range _ _ Hbytes _ _ Hd).
    destruct (jump_bounds elementSize sfo 8 Hparams e) as [Hb Hz]; [lia|done|].
    destruct (element_size_declared elementSize sfo 8 range Hparams p e Hd He H8) as [_ Hsz].
    unfold declared in Hd. change (jump 8 e) with (PadLength e) in *.
    destruct (Z.eqb_spec sfo PROTOCOL_ITERATOR_SIZE_CONDITIONAL) as [E|E].
    { unfold iter_params, PROTOCOL_ITERATOR_SIZE_CONDITIONAL in *. lia. }
    cbn [split_offset_loop]. rewrite (proj2 (Z.ltb_lt 0 len)) by lia.
    assert (8 <= len) by (Z.to_euclidean_division_equations; lia).
    rewrite (proj2 (Z.leb_le 8 len)) by done. cbn [negb].
    rewrite Hd. cbn. replace (Z.max (sfo + 2) e) with e by lia.
    rewrite (proj2 (Z.ltb_ge len _)) by lia.
    destruct (Z.ltb_spec chunkSize (p + PadLength e)).
    + exists p. split_and!; try done. split; [lia|]. split.
      * exists (S n). econstructor; eauto. unfold declared.
        by rewrite (proj2 (Z.eqb_neq _ _) E).
      * right. exists e. split; [|done]. unfold declared.
        by rewrite (proj2 (Z.eqb_neq _ _) E).
    + rewrite Hz. cbn. destruct (IH fuel (len - PadLength e)) as (r & -> & ? & ? & ?);
        [lia|by apply (size_mod_step 8)|lia|by rewrite Zplus_mod, Hpm, Hz|lia|].
      exists r. split_and!; try done. lia.
Qed.
End Split.

(** [ProtocolRangeSplitOffset], on a valid range whose first element fits
    in a chunk, returns an element boundary within the chunk (a multiple of
    eight, not zero unless the range is empty) such that either the whole range
    was taken or the next element does not fit. *)
Theorem ProtocolRangeSplitOffset_spec elementSize sfo chunkSize range n e :
  iter_params elementSize sfo 8 -> bytes_ok (br_data range) -> 8 <= chunkSize ->
  br_addr range mod 8 = 0 -> br_size range mod 8 = 0 ->
  tiled elementSize sfo 8 range 0 n ->
  (0 < br_size range -> declared sfo (br_data range) 0 = Some e /\ PadLength e <= chunkSize) ->
  exists r, ProtocolRangeSplitOffset chunkSize range sfo = Some r /\ r mod 8 = 0 /\
    split_point elementSize sfo chunkSize range r /\ (0 < br_size range -> 0 < r).
Proof.
  intros Hp Hb Hc Ha Hm Ht He. unfold ProtocolRangeSplitOffset.
  rewrite (IsPtrAligned_mod elementSize sfo 8), Ha, Hm by done.
  assert (sfo < 32) by (unfold iter_params in Hp; lia).
  rewrite (proj2 (andb_true_iff (sfo <? 32) _)) by lia. cbn [andb Z.eqb].
  destruct (Z.leb_spec (br_size range) chunkSize).
  - exists (br_size range). split_and!; try done. split; [lia|]. split; [|by left].
    exists O. constructor.
  - pose proof (tiled_count _ _ _ _ Hp Hb 0 n Ht).
    destruct (split_offset_loop_spec elementSize sfo chunkSize range Hp Hb
      (S (length (br_data range))) 0 (br_size range) n) as (r & -> & Hr & Hr8 & Hs);
      try done; [lia|unfold br_size, zlen in *; lia|].
    cbn. rewrite Hr8. destruct (Z.eqb_spec r 0) as [->|]; cbn; [|exists r; split_and!; done || lia].
    destruct Hs as (_ & _ & [Hz|(e' & Hd' & Hx)]); [lia|].
    destruct He as [He1 He2]; [lia|]. simplify_eq. lia.
Qed.

Lemma two_hellos_tiled : tiled 4 2 8 (mkRange 4096 two_hellos) 0 2.
Proof.
  apply (tiled_elem _ _ _ _ 0 8); try done. apply (tiled_elem _ _ _ _ 8 5); try done.
  apply tiled_end.
Defined.

Lemma ProtocolRangeSplitOffset_witness :
  exists r, ProtocolRangeSplitOffset 8 (mkRange 4096 two_hellos) 2 = Some r /\ r mod 8 = 0 /\
    split_point 4 2 8 (mkRange 4096 two_hellos) r /\
    (0 < br_size (mkRange 4096 two_hellos) -> 0 < r).
Proof.
  apply (ProtocolRangeSplitOffset_spec 4 2 8 (mkRange 4096 two_hellos) 2 8); try done.
  - unfold iter_params. lia.
  - simpl. bytes.
  - apply two_hellos_tiled.
Defined.

(** ** Arrays of multipart sections *)

Section ArrayTheorems.
Context (validateInput : Z -> Validation -> option (bool * Validation)).

(** [array_ok ... p len c c']: from [p] on, [len] bytes of the body are whole
    elements, each accepted by [validateInput] in turn. *)
Inductive array_ok (Offset : Z) (body : ByteRange) : Z -> Z -> Validation -> Validation -> Prop :=
| array_ok_end p c : array_ok Offset body p 0 c c
| array_ok_elem p len size c c1 c2 :
    rd16 (br_data body) (p + Offset) = Some size -> Offset + 2 <= size ->
    PadLength size <= len -> validateInput p c = Some (true, c1) ->
    array_ok Offset body (p + PadLength size) (len - PadLength size) c1 c2 ->
    array_ok Offset body p len c c2.

Lemma array_ok_inv Offset body p len c c2 :
  len ≠ 0 -> bytes_ok (br_data body) -> array_ok Offset body p len c c2 ->
  exists size c1, rd16 (br_data body) (p + Offset) = Some size /\ Offset + 2 <= size /\
    PadLength size <= len /\ size <= PadLength size /\ validateInput p c = Some (true, c1) /\
    array_ok Offset body (p + PadLength size) (len - PadLength size) c1 c2.
Proof.
  intros Hn Hb. inversion 1 as [|??? c0 c1 c0' Hrd]; subst; [done|].
  pose proof (rd_be_range _ _ _ _ Hb Hrd) as Hr.
  pose proof (PadLength_bounds size ltac:(lia)). exists size, c1. split_and!; auto; lia.
Qed.

Lemma array_var_loop_spec (Hv : forall p c, is_Some (validateInput p c)) Offset body fuel p len c :
  0 <= Offset -> bytes_ok (br_data body) -> br_addr body mod 8 = 0 -> p mod 8 = 0 ->
  0 <= p -> 0 <= len -> p + len <= br_size body -> (Z.to_nat len < fuel)%nat ->
  exists b c', array_var_loop validateInput fuel Offset body p len c = Some (b, c') /\
    forall c2, b = true /\ c' = c2 <-> array_ok Offset body p len c c2.
Proof.
  intros Ho Hb Ha. revert p len c.
  induction fuel as [|fuel IH]; intros p len c Hpm Hp Hl Hs Hf; [lia|].
  cbn [array_var_loop]. unfold br_size in *.
  destruct (Z.eqb_spec len 0) as [->|Hn].
  { exists true, c. split; [done|]. intros c2. split; [intros [_ <-]; constructor|].
    inversion 1; subst; [done|]. exfalso.
    match goal with H : rd16 _ _ = Some ?s |- _ =>
      apply rd_be_range in H; [|done]; pose proof (PadLength_bounds s ltac:(lia)) end. lia. }
  rewrite (IsPtrAligned_8_add _ _ Ha Hpm).
  (* an element that is refused is not in [array_ok] *)
  assert (forall c1, (forall c2, ~ array_ok Offset body p len c c2) ->
    exists b c', Some (false, c1) = Some (b, c') /\
    forall c2, b = true /\ c' = c2 <-> array_ok Offset body p len c c2) as Hrej.
  { intros c1 Hno. do 2 eexists. split; [done|]. intros c2. split; [by intros []|].
    intros H. by destruct (Hno c2). }
  pose proof (array_ok_inv Offset body p len c) as Hinv.
  destruct (Z.ltb_spec len (Offset + 2)).
  { apply Hrej. intros c2 (size & c1 & ?)%Hinv; [lia|done..]. }
  destruct (rd_be_some 2 (br_data body) (p + Offset)) as [size Hsz]; [lia..|].
  rewrite Hsz. cbn. pose proof (rd_be_range _ _ _ _ Hb Hsz).
  destruct (Z.ltb_spec size (Offset + 2)).
  { apply Hrej. intros c2 (size' & c1 & ? & ?)%Hinv; [simplify_eq; lia|done..]. }
  destruct (PadLength_bounds size ltac:(lia)) as [Hpad Hpad8].
  destruct (Z.ltb_spec len (PadLength size)).
  { apply Hrej. intros c2 (size' & c1 & ? & ? & ? & _)%Hinv; [simplify_eq; lia|done..]. }
  destruct (Hv p c) as [[ok c1] Hok]. rewrite Hok. cbn. destruct ok; cbn.
  2: { apply Hrej. intros c2 (size' & c1' & ? & ? & ? & ? & ? & _)%Hinv; [simplify_eq|done..]. }
  rewrite (proj2 (Z.ltb_lt 0 _)) by lia.
  destruct (IH (p + PadLength size) (len - PadLength size) c1) as (b & c' & -> & Hiff);
    [by rewrite Zplus_mod, Hpm, Hpad8|lia..|].
  exists b, c'. split; [done|]. intros c2. rewrite Hiff. split.
  - intros. by eapply array_ok_elem.
  - intros (size' & c1' & ? & ? & ? & ? & ? & ?)%Hinv; [by simplify_eq|done..].
Qed.

(** The checks at the given positions, in order, stopping at the first refusal. *)
Fixpoint validate_all (ps : list Z) (c : Validation) : option (bool * Validation) :=
  match ps with
  | [] => Some (true, c)
  | p :: ps' => '(ok, c') ← validateInput p c;
                if negb ok then Some (false, c') else validate_all ps' c'
  end.

Lemma array_fixed_loop_all size body fuel p k c :
  0 < size -> size mod 8 = 0 -> br_addr body mod 8 = 0 -> p mod 8 = 0 -> (k < fuel)%nat ->
  array_fixed_loop validateInput fuel size body p (Z.of_nat k * size) c =
  validate_all ((fun i => p + i * size) <$> seqZ 0 (Z.of_nat k)) c.
Proof.
  intros H0 H8 Ha. revert fuel p c.
  induction k as [|k IH]; intros fuel p c Hp Hf; (destruct fuel as [|fuel]; [lia|]);
    cbn [array_fixed_loop].
  { done. }
  rewrite (proj2 (Z.eqb_neq _ 0)) by lia.
  rewrite (IsPtrAligned_8_add _ _ Ha Hp).
  rewrite (proj2 (Z.ltb_ge _ size)) by lia.
  rewrite seqZ_cons by lia. cbn [fmap list_fmap validate_all]. rewrite Z.mul_0_l, Z.add_0_r.
  destruct (validateInput p c) as [[ok c1]|]; cbn; [|done]. destruct ok; cbn; [|done].
  replace (Z.of_nat (S k) * size - size) with (Z.of_nat k * size) by lia.
  rewrite IH; [|by rewrite Zplus_mod, Hp, H8|lia].
  replace (Z.pred (Z.of_nat (S k))) with (Z.of_nat k) by lia.
  f_equal. change (Z.succ 0) with 1. rewrite <- (Z.add_0_r 1), <- fmap_add_seqZ, <- list_fmap_compose.
  apply list_fmap_ext. intros _ i _. simpl. lia.
Qed.
End ArrayTheorems.

(** [validateArrayVariableSize] always returns when the element checks do
    (no read outside the body, no failing assertion), and it accepts exactly
    the bodies of a supported version whose remaining length is made of whole
    padded elements that [Type::validateInput] accepts one after the other. *)
Theorem validateArrayVariableSize_iff validateInput Offset body minVersion c :
  (forall p c, is_Some (validateInput p c)) -> 0 <= Offset -> bytes_ok (br_data body) ->
  0 <= v_lengthRemaining c <= br_size body ->
  exists b c', validateArrayVariableSize validateInput Offset body minVersion c = Some (b, c') /\
    forall c2, b = true /\ c' = c2 <->
      minVersion <= v_version c /\ v_lengthRemaining c mod 8 = 0 /\ br_addr body mod 8 = 0 /\
      array_ok validateInput Offset body 0 (v_lengthRemaining c) c c2.
Proof.
  intros Hv Ho Hb Hl. unfold validateArrayVariableSize.
  assert (forall c1 (P : Validation -> Prop), (forall c2, ~ P c2) ->
    exists b c', Some (false, c1) = Some (b, c') /\ forall c2, b = true /\ c' = c2 <-> P c2) as Hrej.
  { intros c1 P Hno. do 2 eexists. split; [done|]. naive_solver. }
  destruct (Z.ltb_spec (v_version c) minVersion); [apply Hrej; lia|].
  destruct (Z.eqb_spec (v_lengthRemaining c mod 8) 0) as [Hm|]; cbn [negb]; [|apply Hrej; naive_solver].
  rewrite IsPtrAligned_8.
  destruct (Z.eqb_spec (br_addr body mod 8) 0) as [Ha|]; cbn [negb]; [|apply Hrej; naive_solver].
  destruct (array_var_loop_spec validateInput Hv Offset body (S (Z.to_nat (v_lengthRemaining c)))
    0 (v_lengthRemaining c) c) as (b & c' & -> & Hiff); try done; try lia.
  exists b, c'. split; [done|]. intros c2. rewrite Hiff. naive_solver lia.
Qed.

(** [validateArrayFixedSize] on an aligned body whose length is a multiple
    of the element size applies the element check to every element in order
    and stops at the first refusal; any other body is refused. *)
Theorem validateArrayFixedSize_all validateInput size body minVersion c :
  0 < size -> size mod 8 = 0 -> 0 <= v_lengthRemaining c ->
  validateArrayFixedSize validateInput size body minVersion c =
  if v_version c <? minVersion then Some (false, multipartTypeIsNotSupportedForVersion c)
  else if negb (br_addr body mod 8 =? 0)
  then Some (false, rangeDataHasImproperAlignment (br_addr body) c)
  else if negb (v_lengthRemaining c mod size =? 0)
  then Some (false, rangeSizeIsNotMultipleOfElementSize (br_addr body) c)
  else validate_all validateInput
         ((fun i => i * size) <$> seqZ 0 (v_lengthRemaining c / size)) c.
Proof.
  intros H0 H8 Hl. unfold validateArrayFixedSize. rewrite IsPtrAligned_8.
  destruct (_ <? _); [done|]. destruct (Z.eqb_spec (br_addr body mod 8) 0) as [Ha|]; [|done].
  cbn [negb]. destruct (Z.eqb_spec (v_lengthRemaining c mod size) 0) as [Hm|]; [|done]. cbn [negb].
  assert (0 <= v_lengthRemaining c / size) as Hq by (by apply Z.div_pos; lia).
  assert (v_lengthRemaining c = Z.of_nat (Z.to_nat (v_lengthRemaining c / size)) * size) as E.
  { rewrite Z2Nat.id by done. Z.to_euclidean_division_equations. nia. }
  rewrite E at 2. rewrite (array_fixed_loop_all validateInput); try done.
  - rewrite Z2Nat.id by done. done.
  - nia.
Qed.

Definition accept_all (p : Z) (c : Validation) : option (bool * Validation) := Some (true, c).

Lemma validateArrayVariableSize_witness :
  exists b c', validateArrayVariableSize accept_all 2 (mkRange 4096 two_hellos) 1
      (setLengthRemaining 16 (Validation_make (Some (4080, 32, 4, None)) None)) = Some (b, c') /\
    forall c2, b = true /\ c' = c2 <->
      1 <= 4 /\ 16 mod 8 = 0 /\ 4096 mod 8 = 0 /\
      array_ok accept_all 2 (mkRange 4096 two_hellos) 0 16
        (setLengthRemaining 16 (Validation_make (Some (4080, 32, 4, None)) None)) c2.
Proof.
  apply (validateArrayVariableSize_iff accept_all 2 (mkRange 4096 two_hellos) 1
    (setLengthRemaining 16 (Validation_make (Some (4080, 32, 4, None)) None))); try done.
  simpl. bytes.
Defined.

Lemma validateArrayFixedSize_witness :
  validateArrayFixedSize accept_all 8 (mkRange 4096 two_hellos) 1
    (setLengthRemaining 16 (Validation_make (Some (4080, 32, 4, None)) None)) =
  Some (true, setLengthRemaining 16 (Validation_make (Some (4080, 32, 4, None)) None)).
Proof. by rewrite (validateArrayFixedSize_all accept_all 8). Defined.
