(* ===== verification/Ports.v ===== *)
(** * Ports (src/ofp/port.cpp, portrange.cpp, include/ofp/port.h, portproperty.h,
    propertyrange.h)

    The port description of OpenFlow 1.4 and later (a fixed structure followed
    by properties) and the fixed structures of 1.0 and of 1.1 to 1.3. Old ports
    are converted to a [PortBuilder] when they are received and back when they
    are written for an old peer. Members are native values; the big-endian
    layout is in the [_at] readers and [_bytes] writers. *)

From S2P Require Import Prelude.
From S2P Require Import ByteOrder.
From S2P Require Import Constants.
From S2P Require Import Validation.
From S2P Require Import ProtocolRange.

(** ** The structures *)

Record Port : Type := mkPort {
  port_portNo : Z;
  port_length : Z;
  port_hwAddr : list Z;
  port_name : list Z;
  port_config : Z;
  port_state : Z }.

Record PortBuilder : Type := mkPortBuilder { pb_msg : Port; pb_properties : list Z }.

Record PortV1 : Type := mkPortV1 {
  p1_portNo : Z;
  p1_hwAddr : list Z;
  p1_name : list Z;
  p1_config : Z;
  p1_state : Z;
  p1_curr : Z;
  p1_advertised : Z;
  p1_supported : Z;
  p1_peer : Z }.

Record PortV2 : Type := mkPortV2 {
  p2_portNo : Z;
  p2_hwAddr : list Z;
  p2_name : list Z;
  p2_config : Z;
  p2_state : Z;
  p2_curr : Z;
  p2_advertised : Z;
  p2_supported : Z;
  p2_peer : Z;
  p2_currSpeed : Z;
  p2_maxSpeed : Z }.

Record PortPropertyEthernet : Type := mkEthernet {
  eth_curr : Z;
  eth_advertised : Z;
  eth_supported : Z;
  eth_peer : Z;
  eth_currSpeed : Z;
  eth_maxSpeed : Z }.

Definition sizeof_Port : Z := 40.
Definition sizeof_PortV1 : Z := 48.
Definition sizeof_PortV2 : Z := 64.
Definition sizeof_PortPropertyEthernet : Z := 32.
Definition DefaultSizeEthernet : Z := 40 + sizeof_PortPropertyEthernet.
Definition OFPPDPT_ETHERNET : Z := 0.

(** ** Layout *)

Definition pad (n : nat) : list Z := replicate n 0.

Definition Port_at (m : list Z) (p : Z) : option Port :=
  portNo ← rd32 m p; length ← rd16 m (p + 4); hwAddr ← slice m (p + 8) 6;
  name ← slice m (p + 16) 16; config ← rd32 m (p + 32); state ← rd32 m (p + 36);
  Some (mkPort portNo length hwAddr name config state).

Definition Port_bytes (s : Port) : list Z :=
  be_bytes 4 (port_portNo s) ++ be_bytes 2 (port_length s) ++ pad 2 ++ port_hwAddr s ++ pad 2 ++
  port_name s ++ be_bytes 4 (port_config s) ++ be_bytes 4 (port_state s).

Definition PortV1_at (m : list Z) (p : Z) : option PortV1 :=
  portNo ← rd16 m p; hwAddr ← slice m (p + 2) 6; name ← slice m (p + 8) 16;
  config ← rd32 m (p + 24); state ← rd32 m (p + 28); curr ← rd32 m (p + 32);
  advertised ← rd32 m (p + 36); supported ← rd32 m (p + 40); peer ← rd32 m (p + 44);
  Some (mkPortV1 portNo hwAddr name config state curr advertised supported peer).

Definition PortV1_bytes (s : PortV1) : list Z :=
  be_bytes 2 (p1_portNo s) ++ p1_hwAddr s ++ p1_name s ++ be_bytes 4 (p1_config s) ++
  be_bytes 4 (p1_state s) ++ be_bytes 4 (p1_curr s) ++ be_bytes 4 (p1_advertised s) ++
  be_bytes 4 (p1_supported s) ++ be_bytes 4 (p1_peer s).

Definition PortV2_at (m : list Z) (p : Z) : option PortV2 :=
  portNo ← rd32 m p; hwAddr ← slice m (p + 8) 6; name ← slice m (p + 16) 16;
  config ← rd32 m (p + 32); state ← rd32 m (p + 36); curr ← rd32 m (p + 40);
  advertised ← rd32 m (p + 44); supported ← rd32 m (p + 48); peer ← rd32 m (p + 52);
  currSpeed ← rd32 m (p + 56); maxSpeed ← rd32 m (p + 60);
  Some (mkPortV2 portNo hwAddr name config state curr advertised supported peer currSpeed maxSpeed).

Definition PortV2_bytes (s : PortV2) : list Z :=
  be_bytes 4 (p2_portNo s) ++ pad 4 ++ p2_hwAddr s ++ pad 2 ++ p2_name s ++
  be_bytes 4 (p2_config s) ++ be_bytes 4 (p2_state s) ++ be_bytes 4 (p2_curr s) ++
  be_bytes 4 (p2_advertised s) ++ be_bytes 4 (p2_supported s) ++ be_bytes 4 (p2_peer s) ++
  be_bytes 4 (p2_currSpeed s) ++ be_bytes 4 (p2_maxSpeed s).

(** [Interpret_cast<PortPropertyEthernet>]: the 32 bytes are read whatever
    length the property declares. *)
Definition PortPropertyEthernet_at (m : list Z) (p : Z) : option PortPropertyEthernet :=
  curr ← rd32 m (p + 8); advertised ← rd32 m (p + 12); supported ← rd32 m (p + 16);
  peer ← rd32 m (p + 20); currSpeed ← rd32 m (p + 24); maxSpeed ← rd32 m (p + 28);
  Some (mkEthernet curr advertised supported peer currSpeed maxSpeed).

Definition PortPropertyEthernet_bytes (s : PortPropertyEthernet) : list Z :=
  be_bytes 2 OFPPDPT_ETHERNET ++ be_bytes 2 32 ++ pad 4 ++ be_bytes 4 (eth_curr s) ++
  be_bytes 4 (eth_advertised s) ++ be_bytes 4 (eth_supported s) ++ be_bytes 4 (eth_peer s) ++
  be_bytes 4 (eth_currSpeed s) ++ be_bytes 4 (eth_maxSpeed s).

(** ** Properties *)

(** The loop of [findProperty]; the end of the range when there is none. *)
Fixpoint find_property_loop (fuel : nat) (range : ByteRange) (type p : Z) : option Z :=
  if negb (p <? br_size range) then Some (br_size range)
  else match fuel with
       | O => None
       | S fuel' =>
           t ← rd16 (br_data range) p;
           if t =? type then Some p
           else p ← ProtocolIterator_next 4 2 8 range p;
                find_property_loop fuel' range type p
       end.

Definition findProperty (range : ByteRange) (type : Z) : option Z :=
  find_property_loop (length (br_data range)) range type 0.

(** [PropertyRange::validateInput]: the items have no check of their own. *)
Definition PropertyRange_validateInput (range : ByteRange) (c : Validation)
    : option (bool * Validation) :=
  ProtocolRange_validateInput 4 2 8 (fun _ c => Some (true, c)) range c.

(** ** Conversion to a builder *)

Definition updateLen (msg : Port) (properties : list Z) : PortBuilder :=
  mkPortBuilder
    (mkPort (port_portNo msg) (u16 (sizeof_Port + zlen properties)) (port_hwAddr msg)
       (port_name msg) (port_config msg) (port_state msg)) properties.

Definition PortBuilder_of_V1 (port : PortV1) : PortBuilder :=
  updateLen
    (mkPort (PortNumber_fromV1 (p1_portNo port)) 40 (p1_hwAddr port) (p1_name port)
       (p1_config port) (p1_state port))
    (PortPropertyEthernet_bytes
       (mkEthernet (OFPPortFeaturesFlagsConvertFromV1 (p1_curr port))
          (OFPPortFeaturesFlagsConvertFromV1 (p1_advertised port))
          (OFPPortFeaturesFlagsConvertFromV1 (p1_supported port))
          (OFPPortFeaturesFlagsConvertFromV1 (p1_peer port)) 0 0)).

Definition PortBuilder_of_V2 (port : PortV2) : PortBuilder :=
  updateLen
    (mkPort (p2_portNo port) 40 (p2_hwAddr port) (p2_name port) (p2_config port) (p2_state port))
    (PortPropertyEthernet_bytes
       (mkEthernet (p2_curr port) (p2_advertised port) (p2_supported port) (p2_peer port)
          (p2_currSpeed port) (p2_maxSpeed port))).

(** [copyTo]: the bytes that are stored; [PortList::add] appends the same. *)
Definition PortBuilder_copyTo (b : PortBuilder) : list Z :=
  Port_bytes (pb_msg b) ++ pb_properties b.

(** ** Conversion to the old structures

    [props] is [port.properties()] or the builder's own property list. *)

Definition PortV1_make (port : Port) (props : ByteRange) : option PortV1 :=
  i ← findProperty props OFPPDPT_ETHERNET;
  eth ← (if negb (i =? br_size props) then PortPropertyEthernet_at (br_data props) i
         else Some (mkEthernet 0 0 0 0 0 0));
  Some (mkPortV1 (u16 (port_portNo port)) (port_hwAddr port) (port_name port)
          (port_config port) (port_state port)
          (OFPPortFeaturesFlagsConvertToV1 (eth_curr eth))
          (OFPPortFeaturesFlagsConvertToV1 (eth_advertised eth))
          (OFPPortFeaturesFlagsConvertToV1 (eth_supported eth))
          (OFPPortFeaturesFlagsConvertToV1 (eth_peer eth))).

Definition PortV2_make (port : Port) (props : ByteRange) : option PortV2 :=
  i ← findProperty props OFPPDPT_ETHERNET;
  eth ← (if negb (i =? br_size props) then PortPropertyEthernet_at (br_data props) i
         else Some (mkEthernet 0 0 0 0 0 0));
  Some (mkPortV2 (port_portNo port) (port_hwAddr port) (port_name port)
          (port_config port) (port_state port) (eth_curr eth) (eth_advertised eth)
          (eth_supported eth) (eth_peer eth) (eth_currSpeed eth) (eth_maxSpeed eth)).

(** [Port::properties]: a [SafeByteRange] behind the structure at [p], which is
    [len] bytes long by its own account. *)
Definition Port_properties (range : ByteRange) (p : Z) : option ByteRange :=
  len ← rd16 (br_data range) (p + 4);
  if sizeof_Port <=? len then
    d ← slice (br_data range) (p + sizeof_Port) (len - sizeof_Port);
    Some (mkRange (br_addr range + p + sizeof_Port) d)
  else Some (mkRange 0 []).

Definition Port_validateInput (range : ByteRange) (p : Z) (c : Validation)
    : option (bool * Validation) :=
  let remaining := v_lengthRemaining c in
  let '(ok, c) := validateBool (sizeof_Port <=? remaining)
                    (str "Length remaining too short for Port") c in
  if negb ok then Some (false, c) else
  len ← rd16 (br_data range) (p + 4);
  let '(ok, c) := validateBool ((len <=? remaining) && (sizeof_Port <=? len))
                    (str "Invalid length for Port") c in
  if negb ok then Some (false, c) else
  props ← Port_properties range p;
  PropertyRange_validateInput props c.

(** ** Writing: the version of the channel decides the structure. [addr] is the
    address of the builder's property list. *)

Definition PortBuilder_writeSize (version : Z) (b : PortBuilder) : Z :=
  if OFP_VERSION_5 <=? version then sizeof_Port + zlen (pb_properties b)
  else if OFP_VERSION_2 <=? version then sizeof_PortV2
  else sizeof_PortV1.

Definition PortBuilder_write (version addr : Z) (b : PortBuilder) : option (list Z) :=
  if OFP_VERSION_5 <=? version then
    assert! (port_length (pb_msg b) =? sizeof_Port + zlen (pb_properties b));;
    Some (Port_bytes (pb_msg b) ++ pb_properties b)
  else if OFP_VERSION_2 <=? version then
    PortV2_bytes <$> PortV2_make (pb_msg b) (mkRange addr (pb_properties b))
  else
    PortV1_bytes <$> PortV1_make (pb_msg b) (mkRange addr (pb_properties b)).

Definition PortRange_writeSize (version : Z) (range : ByteRange) : option Z :=
  if OFP_VERSION_5 <=? version then Some (br_size range) else
  n ← ProtocolRangeItemCount sizeof_Port range 4 8;
  Some (n * (if OFP_VERSION_2 <=? version then sizeof_PortV2 else sizeof_PortV1)).

(** The bytes one port of a range is written as. *)
Definition Port_write_old (version : Z) (range : ByteRange) (p : Z) : option (list Z) :=
  port ← Port_at (br_data range) p; props ← Port_properties range p;
  if OFP_VERSION_2 <=? version then PortV2_bytes <$> PortV2_make port props
  else PortV1_bytes <$> PortV1_make port props.

Definition PortRange_write (version : Z) (range : ByteRange) : option (list Z) :=
  if OFP_VERSION_5 <=? version then Some (br_data range) else
  snd <$> for_elements sizeof_Port 4 8
    (fun p out => w ← Port_write_old version range p; Some (true, out ++ w))
    (length (br_data range)) range 0 [].

(** ** Reading back what was written *)

Definition u32_ok (v : Z) : Prop := 0 <= v < 2 ^ 32.

Definition port_shape (s : Port) : Prop :=
  u32_ok (port_portNo s) /\ 0 <= port_length s < 2 ^ 16 /\ zlen (port_hwAddr s) = 6 /\
  zlen (port_name s) = 16 /\ u32_ok (port_config s) /\ u32_ok (port_state s).

Definition eth_shape (s : PortPropertyEthernet) : Prop :=
  u32_ok (eth_curr s) /\ u32_ok (eth_advertised s) /\ u32_ok (eth_supported s) /\
  u32_ok (eth_peer s) /\ u32_ok (eth_currSpeed s) /\ u32_ok (eth_maxSpeed s).

(** A structure as it can be read from memory. *)
Definition v1_shape (s : PortV1) : Prop :=
  0 <= p1_portNo s < 2 ^ 16 /\ zlen (p1_hwAddr s) = 6 /\ zlen (p1_name s) = 16 /\
  u32_ok (p1_config s) /\ u32_ok (p1_state s) /\ u32_ok (p1_curr s) /\
  u32_ok (p1_advertised s) /\ u32_ok (p1_supported s) /\ u32_ok (p1_peer s).

Definition v2_shape (s : PortV2) : Prop :=
  u32_ok (p2_portNo s) /\ zlen (p2_hwAddr s) = 6 /\ zlen (p2_name s) = 16 /\
  u32_ok (p2_config s) /\ u32_ok (p2_state s) /\ u32_ok (p2_curr s) /\
  u32_ok (p2_advertised s) /\ u32_ok (p2_supported s) /\ u32_ok (p2_peer s) /\
  u32_ok (p2_currSpeed s) /\ u32_ok (p2_maxSpeed s).

Ltac encoded s := rewrite !be_be_bytes_small by (unfold u32_ok in *; lia); by destruct s.

Lemma Port_at_bytes s k : port_shape s -> Port_at (Port_bytes s ++ k) 0 = Some s.
Proof.
  intros (? & ? & Hh & Hn & ? & ?). unfold Port_at, Port_bytes, pad.
  rewrite <- !app_assoc. read_layout. encoded s.
Qed.

Lemma eth_at_bytes s k :
  eth_shape s -> PortPropertyEthernet_at (PortPropertyEthernet_bytes s ++ k) 0 = Some s.
Proof.
  intros (? & ? & ? & ? & ? & ?). unfold PortPropertyEthernet_at, PortPropertyEthernet_bytes, pad.
  rewrite <- !app_assoc. read_layout. encoded s.
Qed.

Lemma PortV1_at_bytes s k : v1_shape s -> PortV1_at (PortV1_bytes s ++ k) 0 = Some s.
Proof.
  intros (? & Hh & Hn & ? & ? & ? & ? & ? & ?). unfold PortV1_at, PortV1_bytes.
  rewrite <- !app_assoc. read_layout. encoded s.
Qed.

Lemma PortV2_at_bytes s k : v2_shape s -> PortV2_at (PortV2_bytes s ++ k) 0 = Some s.
Proof.
  intros (? & Hh & Hn & ? & ? & ? & ? & ? & ? & ? & ?). unfold PortV2_at, PortV2_bytes, pad.
  rewrite <- !app_assoc. read_layout. encoded s.
Qed.

(** ** The builders' property lists *)

Lemma eth_length s : zlen (PortPropertyEthernet_bytes s) = 32.
Proof. unfold PortPropertyEthernet_bytes, pad. by autorewrite with zlen. Qed.

Lemma eth_bytes_ok s : bytes_ok (PortPropertyEthernet_bytes s).
Proof.
  unfold PortPropertyEthernet_bytes, pad. rewrite !Forall_app.
  split_and!; auto with ofp; by apply Forall_replicate.
Qed.

Lemma eth_head s k :
  rd16 (PortPropertyEthernet_bytes s ++ k) 0 = Some OFPPDPT_ETHERNET /\
  rd16 (PortPropertyEthernet_bytes s ++ k) 2 = Some 32.
Proof.
  unfold PortPropertyEthernet_bytes, pad. rewrite <- !app_assoc.
  split; read_layout; f_equal; by rewrite be_be_bytes_small.
Qed.

Lemma find_ethernet addr s k :
  findProperty (mkRange addr (PortPropertyEthernet_bytes s ++ k)) OFPPDPT_ETHERNET = Some 0.
Proof.
  unfold findProperty. cbn [br_data]. set (m := PortPropertyEthernet_bytes s ++ k).
  assert (0 < zlen m) as Hm by (unfold m; rewrite zlen_app, eth_length; pose proof (zlen_nonneg k); lia).
  replace (length m) with (S (pred (length m))) by (unfold zlen in Hm; lia).
  cbn [find_property_loop]. unfold br_size. cbn [br_data].
  rewrite (proj2 (Z.ltb_lt 0 _) Hm). cbn [negb]. unfold m. by rewrite (proj1 (eth_head s k)).
Qed.

(** The Ethernet values a builder's first property holds. *)
Lemma V1_of_ethernet addr port s :
  eth_shape s ->
  PortV1_make port (mkRange addr (PortPropertyEthernet_bytes s)) =
  Some (mkPortV1 (u16 (port_portNo port)) (port_hwAddr port) (port_name port)
          (port_config port) (port_state port)
          (OFPPortFeaturesFlagsConvertToV1 (eth_curr s))
          (OFPPortFeaturesFlagsConvertToV1 (eth_advertised s))
          (OFPPortFeaturesFlagsConvertToV1 (eth_supported s))
          (OFPPortFeaturesFlagsConvertToV1 (eth_peer s))).
Proof.
  intros Hs. unfold PortV1_make. rewrite <- (app_nil_r (PortPropertyEthernet_bytes s)).
  rewrite find_ethernet. cbn [mbind option_bind]. unfold br_size. cbn [br_data].
  rewrite zlen_app, eth_length. cbn [Z.eqb negb]. by rewrite eth_at_bytes.
Qed.

Lemma V2_of_ethernet addr port s :
  eth_shape s ->
  PortV2_make port (mkRange addr (PortPropertyEthernet_bytes s)) =
  Some (mkPortV2 (port_portNo port) (port_hwAddr port) (port_name port)
          (port_config port) (port_state port) (eth_curr s) (eth_advertised s)
          (eth_supported s) (eth_peer s) (eth_currSpeed s) (eth_maxSpeed s)).
Proof.
  intros Hs. unfold PortV2_make. rewrite <- (app_nil_r (PortPropertyEthernet_bytes s)).
  rewrite find_ethernet. cbn [mbind option_bind]. unfold br_size. cbn [br_data].
  rewrite zlen_app, eth_length. cbn [Z.eqb negb]. by rewrite eth_at_bytes.
Qed.

(** The port feature bits that OpenFlow 1.0 defines. *)
Definition v1_features (f : Z) : Prop := Z.land f 0xF000 = 0.

Definition v1_canonical (s : PortV1) : Prop :=
  v1_shape s /\ v1_features (p1_curr s) /\ v1_features (p1_advertised s) /\
  v1_features (p1_supported s) /\ v1_features (p1_peer s).

(** A port of OpenFlow 1.0 (feature bits 12 to 15 unused, as the protocol
    defines them), received into a builder and written to a 1.0 peer, is the
    same 48 bytes again; a port of OpenFlow 1.1 to 1.3 is the same 64 bytes
    again. A peer of the 1.4 and later layout gets a port whose fixed part and
    Ethernet property carry the same values. *)
Theorem port_roundtrip (v1 : PortV1) (v2 : PortV2) version addr :
  v1_canonical v1 -> v2_shape v2 -> OFP_VERSION_2 <= version < OFP_VERSION_5 ->
  PortBuilder_write OFP_VERSION_1 addr (PortBuilder_of_V1 v1) = Some (PortV1_bytes v1) /\
  PortBuilder_write version addr (PortBuilder_of_V2 v2) = Some (PortV2_bytes v2) /\
  (exists port eth,
     PortBuilder_write OFP_VERSION_5 addr (PortBuilder_of_V2 v2) =
       Some (Port_bytes port ++ PortPropertyEthernet_bytes eth) /\
     port = mkPort (p2_portNo v2) 72 (p2_hwAddr v2) (p2_name v2) (p2_config v2) (p2_state v2) /\
     eth = mkEthernet (p2_curr v2) (p2_advertised v2) (p2_supported v2) (p2_peer v2)
             (p2_currSpeed v2) (p2_maxSpeed v2)).
Proof.
  intros ((Hno & Hh & Hn & Hcf & Hst & Hc & Ha & Hs & Hp) & Fc & Fa & Fs & Fp) H2 Hv.
  unfold OFP_VERSION_2, OFP_VERSION_5 in Hv. split_and!.
  - unfold PortBuilder_write, PortBuilder_of_V1, updateLen. cbn [pb_msg pb_properties].
    change (OFP_VERSION_5 <=? OFP_VERSION_1) with false. change (OFP_VERSION_2 <=? OFP_VERSION_1) with false.
    cbv iota. rewrite V1_of_ethernet.
    2: { repeat split; cbn [eth_curr eth_advertised eth_supported eth_peer eth_currSpeed eth_maxSpeed];
         try done; by apply port_features_FromV1_range. }
    cbn [port_portNo port_hwAddr port_name port_config port_state eth_curr eth_advertised eth_supported
         eth_peer fmap option_fmap option_map].
    unfold u32_ok in *. rewrite !port_features_check by (done || lia).
    change (u16 (PortNumber_fromV1 (p1_portNo v1))) with (PortNumber_toV1 (PortNumber_fromV1 (p1_portNo v1))).
    rewrite PortNumber_v1_roundtrip by done. by destruct v1.
  - unfold PortBuilder_write, PortBuilder_of_V2, updateLen. cbn [pb_msg pb_properties].
    unfold OFP_VERSION_2, OFP_VERSION_5. rewrite (proj2 (Z.leb_gt _ _)), (proj2 (Z.leb_le _ _)) by lia.
    destruct H2 as (? & ? & ? & ? & ? & ? & ? & ? & ? & ? & ?).
    rewrite V2_of_ethernet by done. by destruct v2.
  - do 2 eexists. split; [|split; reflexivity].
    unfold PortBuilder_write, PortBuilder_of_V2, updateLen. cbn [pb_msg pb_properties port_length].
    change (OFP_VERSION_5 <=? OFP_VERSION_5) with true. cbv iota. rewrite eth_length. reflexivity.
Qed.

(** ** Lists of ports *)

Lemma Port_at_shift pre x : Port_at (pre ++ x) (zlen pre) = Port_at x 0.
Proof. unfold Port_at, rd_be. by rewrite slice_shift0, !slice_shift by lia. Qed.

Lemma Port_length s : port_shape s -> zlen (Port_bytes s) = 40.
Proof.
  intros (_ & _ & Hh & Hn & _). unfold Port_bytes, pad. autorewrite with zlen. rewrite Hh, Hn. done.
Qed.

Lemma Port_length_field s k : port_shape s -> rd16 (Port_bytes s ++ k) 4 = Some (port_length s).
Proof.
  intros (? & ? & Hh & Hn & ? & ?). unfold Port_bytes, pad. rewrite <- !app_assoc. read_layout.
  by rewrite be_be_bytes_small.
Qed.

(** A port with its Ethernet property, as both conversions build it. *)
Definition eth_port (x : Port * PortPropertyEthernet) : list Z :=
  Port_bytes x.1 ++ PortPropertyEthernet_bytes x.2.

Definition eth_port_ok (x : Port * PortPropertyEthernet) : Prop :=
  port_shape x.1 /\ port_length x.1 = 72 /\ eth_shape x.2.

Lemma eth_port_length x : eth_port_ok x -> zlen (eth_port x) = 72.
Proof. intros (Hs & _). unfold eth_port. by rewrite zlen_app, Port_length, eth_length. Qed.

Lemma eth_port_elem x : eth_port_ok x -> elem_ok sizeof_Port 4 (eth_port x).
Proof.
  intros Hx. pose proof (eth_port_length x Hx) as Hl. destruct Hx as (Hs & H72 & _). exists 72.
  split_and!; [|unfold sizeof_Port; lia..|by rewrite Hl].
  unfold eth_port. by rewrite Port_length_field, H72.
Qed.

Lemma port_params : iter_params sizeof_Port 4 8.
Proof. unfold iter_params, sizeof_Port. lia. Qed.

Lemma eth_port_properties addr pre x post :
  eth_port_ok x ->
  Port_properties (mkRange addr (pre ++ eth_port x ++ post)) (zlen pre) =
  Some (mkRange (addr + zlen pre + 40) (PortPropertyEthernet_bytes x.2)).
Proof.
  intros (Hs & H72 & He). unfold Port_properties, rd_be. cbn [br_data br_addr].
  unfold sizeof_Port. rewrite slice_shift by lia. unfold eth_port. rewrite <- app_assoc.
  pose proof (Port_length_field x.1 (PortPropertyEthernet_bytes x.2 ++ post) Hs) as Hf.
  unfold rd_be in Hf. rewrite Hf, H72. cbn [mbind option_bind]. rewrite slice_shift by lia.
  change (40 <=? 72) with true. cbv iota. change (72 - 40) with 32.
  rewrite (slice_skip (Port_bytes x.1) _ 40) by (by apply Port_length || lia).
  change (40 - 40) with 0. rewrite slice_head by apply eth_length. done.
Qed.

(** The bytes such a port is written as for an old version. *)
Definition eth_port_old (version : Z) (x : Port * PortPropertyEthernet) : list Z :=
  let '(p, e) := x in
  if OFP_VERSION_2 <=? version then
    PortV2_bytes (mkPortV2 (port_portNo p) (port_hwAddr p) (port_name p) (port_config p) (port_state p)
      (eth_curr e) (eth_advertised e) (eth_supported e) (eth_peer e) (eth_currSpeed e) (eth_maxSpeed e))
  else
    PortV1_bytes (mkPortV1 (u16 (port_portNo p)) (port_hwAddr p) (port_name p) (port_config p)
      (port_state p) (OFPPortFeaturesFlagsConvertToV1 (eth_curr e))
      (OFPPortFeaturesFlagsConvertToV1 (eth_advertised e))
      (OFPPortFeaturesFlagsConvertToV1 (eth_supported e)) (OFPPortFeaturesFlagsConvertToV1 (eth_peer e))).

Lemma Port_write_old_eth version addr pre x post :
  eth_port_ok x ->
  Port_write_old version (mkRange addr (pre ++ eth_port x ++ post)) (zlen pre) =
  Some (eth_port_old version x).
Proof.
  intros Hx. unfold Port_write_old. cbn [br_data]. rewrite eth_port_properties by done.
  destruct Hx as (Hs & H72 & He). rewrite Port_at_shift. unfold eth_port. rewrite <- app_assoc.
  rewrite Port_at_bytes by done. cbn [mbind option_bind]. destruct x as [p e]. cbn [fst snd eth_port_old].
  destruct (OFP_VERSION_2 <=? version); [by rewrite V2_of_ethernet|by rewrite V1_of_ethernet].
Qed.

Lemma eth_property_valid addr s c :
  addr mod 8 = 0 -> PropertyRange_validateInput (mkRange addr (PortPropertyEthernet_bytes s)) c = Some (true, c).
Proof.
  intros Ha. unfold PropertyRange_validateInput.
  rewrite <- (mjoin_one (PortPropertyEthernet_bytes s)).
  apply validateInput_elems; try done.
  - unfold iter_params. lia.
  - repeat constructor. exists 32. pose proof (eth_head s []) as [_ H]. rewrite app_nil_r in H.
    split_and!; [done|lia..|by rewrite eth_length].
  - rewrite mjoin_one. apply eth_bytes_ok.
Qed.

Lemma eth_port_valid addr pre x post c :
  eth_port_ok x -> addr mod 8 = 0 -> zlen pre mod 8 = 0 -> 72 <= v_lengthRemaining c ->
  Port_validateInput (mkRange addr (pre ++ eth_port x ++ post)) (zlen pre) c = Some (true, c).
Proof.
  intros Hx Ha Hp Hl. unfold Port_validateInput. rewrite eth_port_properties by done.
  unfold rd_be. cbn [br_data]. rewrite slice_shift by lia. destruct Hx as (Hs & H72 & He).
  unfold eth_port. rewrite <- app_assoc.
  pose proof (Port_length_field x.1 (PortPropertyEthernet_bytes x.2 ++ post) Hs) as Hf.
  unfold rd_be in Hf. rewrite Hf, H72. unfold validateBool, sizeof_Port.
  rewrite (proj2 (Z.leb_le 40 _)) by lia. cbn [negb mbind option_bind].
  rewrite (proj2 (Z.leb_le 72 _)) by lia. cbn [andb].
  change (40 <=? 72) with true. cbn [negb]. apply eth_property_valid.
  rewrite Zplus_mod, (Zplus_mod addr), Ha, Hp. done.
Qed.

Lemma eth_ports_elems l : Forall eth_port_ok l -> Forall (elem_ok sizeof_Port 4) (eth_port <$> l).
Proof. intros H. apply Forall_fmap. eapply Forall_impl; [exact H|]. apply eth_port_elem. Qed.

Lemma eth_port_old_length version x :
  eth_port_ok x ->
  zlen (eth_port_old version x) = if OFP_VERSION_2 <=? version then sizeof_PortV2 else sizeof_PortV1.
Proof.
  intros ((_ & _ & Hh & Hn & _) & _). destruct x as [p e]. simpl in Hh, Hn. unfold eth_port_old.
  destruct (_ <=? _); unfold PortV1_bytes, PortV2_bytes, pad; cbn [p1_hwAddr p1_name p2_hwAddr p2_name];
    autorewrite with zlen; by rewrite Hh, Hn.
Qed.

Lemma eth_ports_members l c :
  Forall eth_port_ok l -> c ∈ eth_port <$> l -> exists x, c = eth_port x /\ eth_port_ok x.
Proof. intros Hl (y & -> & Hy)%list_elem_of_fmap. exists y. split; [done|]. by eapply Forall_forall in Hl. Qed.

Lemma eth_ports_written version addr l :
  addr mod 8 = 0 -> Forall eth_port_ok l -> version < OFP_VERSION_5 ->
  PortRange_write version (mkRange addr (mjoin (eth_port <$> l))) = Some (mjoin (eth_port_old version <$> l)).
Proof.
  intros Ha Hl Hv. pose proof (eth_ports_elems l Hl) as Hel.
  unfold PortRange_write. rewrite (proj2 (Z.leb_gt _ _)) by done. cbn [br_data].
  set (h := fun c => default [] (Port_write_old version (mkRange 0 c) 0)).
  assert (forall x, eth_port_ok x -> h (eth_port x) = eth_port_old version x) as Hh.
  { intros x Hx. unfold h. pose proof (Port_write_old_eth version 0 [] x [] Hx) as E.
    rewrite app_nil_r in E. change (zlen []) with 0 in E. simpl in E. by rewrite E. }
  rewrite (for_elements_elems sizeof_Port 4 port_params _ (fun o c => o ++ h c) (fun _ => True)); try done.
  - simpl. f_equal. rewrite foldl_join. simpl. rewrite <- list_fmap_compose. f_equal.
    apply list_fmap_ext. intros i x Hi. apply Hh. by eapply Forall_lookup_1 in Hi.
  - intros pre x post a E Hx Hp _. destruct (eth_ports_members l x Hl Hx) as (y & -> & Hy). split; [|done].
    rewrite E, Port_write_old_eth by done. cbn [mbind option_bind]. by rewrite Hh.
Qed.

(** A port list as the conversions from the old layouts build it (each port
    followed by its Ethernet property) is accepted by [PortRange::validateInput];
    written for a version before 1.4 it is the concatenation of the old
    structures, of exactly the size that [writeSize] announces. *)
Theorem port_list_written version addr l c :
  addr mod 8 = 0 -> Forall eth_port_ok l -> bytes_ok (mjoin (eth_port <$> l)) ->
  zlen (mjoin (eth_port <$> l)) <= v_lengthRemaining c -> version < OFP_VERSION_5 ->
  let range := mkRange addr (mjoin (eth_port <$> l)) in
  ProtocolRange_validateInput sizeof_Port 4 8 (Port_validateInput range) range c = Some (true, c) /\
  PortRange_write version range = Some (mjoin (eth_port_old version <$> l)) /\
  PortRange_writeSize version range = Some (zlen (mjoin (eth_port_old version <$> l))).
Proof.
  intros Ha Hl Hb Hr Hv range. pose proof (eth_ports_elems l Hl) as Hel.
  split_and!.
  - apply validateInput_elems; try done; [apply port_params|]. intros pre x post E Hx Hp.
    destruct (eth_ports_members l x Hl Hx) as (y & -> & Hy). unfold range. rewrite E. apply eth_port_valid; try done.
    pose proof (eth_port_length y Hy). rewrite E, !zlen_app in Hr.
    pose proof (zlen_nonneg pre). pose proof (zlen_nonneg post). lia.
  - by apply eth_ports_written.
  - unfold PortRange_writeSize. rewrite (proj2 (Z.leb_gt _ _)) by done.
    rewrite (mjoin_fmap_length _ (if OFP_VERSION_2 <=? version then sizeof_PortV2 else sizeof_PortV1)).
    2: { eapply Forall_impl; [exact Hl|]. apply eth_port_old_length. }
    assert (zlen (mjoin (eth_port <$> l)) = 72 * zlen l) as Hz.
    { apply mjoin_fmap_length. eapply Forall_impl; [exact Hl|]. apply eth_port_length. }
    unfold ProtocolRangeItemCount. unfold range, br_size. cbn [br_data br_addr].
    change (4 =? PROTOCOL_ITERATOR_SIZE_FIXED) with false. cbn [Z.ltb Z.eqb orb andb Z.compare Pos.compare Pos.compare_cont Pos.eqb].
    assert (zlen (mjoin (eth_port <$> l)) mod 8 = 0) as ->.
    { rewrite Hz. Z.div_mod_to_equations; lia. }
    rewrite IsPtrAligned_8, Ha. cbn [Z.eqb andb].
    pose proof (elems_tiled sizeof_Port 4 port_params addr [] (eth_port <$> l) Hel) as Ht.
    rewrite (tiled_item_count sizeof_Port 4 8 (mkRange addr (mjoin (eth_port <$> l))) port_params Hb
      _ 0 _ (length (eth_port <$> l))); [| exact Ht|done| |].
    + cbn [mbind option_bind]. f_equal. rewrite length_fmap. unfold zlen. lia.
    + unfold br_size. cbn [br_data]. rewrite Hz. Z.div_mod_to_equations; lia.
    + rewrite length_fmap. unfold zlen in Hz. lia.
Qed.

(** The two conversions in this form. *)
Definition pair_of_V1 (s : PortV1) : Port * PortPropertyEthernet :=
  (mkPort (PortNumber_fromV1 (p1_portNo s)) 72 (p1_hwAddr s) (p1_name s) (p1_config s) (p1_state s),
   mkEthernet (OFPPortFeaturesFlagsConvertFromV1 (p1_curr s))
     (OFPPortFeaturesFlagsConvertFromV1 (p1_advertised s))
     (OFPPortFeaturesFlagsConvertFromV1 (p1_supported s))
     (OFPPortFeaturesFlagsConvertFromV1 (p1_peer s)) 0 0).

Definition pair_of_V2 (s : PortV2) : Port * PortPropertyEthernet :=
  (mkPort (p2_portNo s) 72 (p2_hwAddr s) (p2_name s) (p2_config s) (p2_state s),
   mkEthernet (p2_curr s) (p2_advertised s) (p2_supported s) (p2_peer s)
     (p2_currSpeed s) (p2_maxSpeed s)).

Lemma copyTo_V1 s : PortBuilder_copyTo (PortBuilder_of_V1 s) = eth_port (pair_of_V1 s).
Proof. unfold PortBuilder_copyTo, PortBuilder_of_V1, updateLen. cbn [pb_msg pb_properties]. by rewrite eth_length. Qed.

Lemma copyTo_V2 s : PortBuilder_copyTo (PortBuilder_of_V2 s) = eth_port (pair_of_V2 s).
Proof. unfold PortBuilder_copyTo, PortBuilder_of_V2, updateLen. cbn [pb_msg pb_properties]. by rewrite eth_length. Qed.

Lemma pair_of_V1_ok s : v1_shape s -> eth_port_ok (pair_of_V1 s).
Proof.
  intros (? & ? & ? & ? & ? & ? & ? & ? & ?). unfold eth_port_ok, port_shape, eth_shape. simpl.
  split_and!; try done; try (by apply PortNumber_fromV1_range); by apply port_features_FromV1_range.
Qed.

Lemma pair_of_V2_ok s : v2_shape s -> eth_port_ok (pair_of_V2 s).
Proof.
  intros (? & ? & ? & ? & ? & ? & ? & ? & ? & ? & ?). unfold eth_port_ok, port_shape, eth_shape. simpl.
  split_and!; done || lia.
Qed.

Lemma old_of_V1 s : v1_canonical s -> eth_port_old OFP_VERSION_1 (pair_of_V1 s) = PortV1_bytes s.
Proof.
  intros ((? & ? & ? & ? & ? & ? & ? & ? & ?) & ? & ? & ? & ?). unfold eth_port_old, pair_of_V1.
  change (OFP_VERSION_2 <=? OFP_VERSION_1) with false. unfold u32_ok in *.
  cbn [port_portNo port_hwAddr port_name port_config port_state eth_curr eth_advertised eth_supported eth_peer].
  rewrite !port_features_check by (done || lia). fold (PortNumber_toV1 (PortNumber_fromV1 (p1_portNo s))).
  rewrite PortNumber_v1_roundtrip by done. by destruct s.
Qed.

Lemma old_of_V2 version s :
  OFP_VERSION_2 <= version -> eth_port_old version (pair_of_V2 s) = PortV2_bytes s.
Proof.
  intros Hv. unfold eth_port_old, pair_of_V2. rewrite (proj2 (Z.leb_le _ _)) by done. by destruct s.
Qed.

(** ** Examples *)

Definition example_name : list Z := str "eth0" ++ replicate 12 0.

Definition example_V1 : PortV1 :=
  mkPortV1 0xfffe [0; 27; 33; 1; 2; 3] example_name 0 1 0x802 0xfff 0x7f 0.

Definition example_V2 : PortV2 :=
  mkPortV2 7 [0; 27; 33; 1; 2; 4] example_name 1 4 0x802 0xffff 0x7f 0 1000000 10000000.

Lemma example_V1_canonical : v1_canonical example_V1.
Proof. repeat split; by vm_compute. Qed.

Lemma example_V2_shape : v2_shape example_V2.
Proof. repeat split; by vm_compute. Qed.

Lemma port_roundtrip_witness :
  PortBuilder_write 1 64 (PortBuilder_of_V1 example_V1) = Some (PortV1_bytes example_V1) /\
  PortBuilder_write 4 64 (PortBuilder_of_V2 example_V2) = Some (PortV2_bytes example_V2).
Proof.
  destruct (port_roundtrip example_V1 example_V2 4 64) as (H1 & H2 & _);
    [exact example_V1_canonical|exact example_V2_shape|unfold OFP_VERSION_2, OFP_VERSION_5; lia|].
  split; [exact H1|exact H2].
Defined.

Lemma port_list_written_witness :
  PortRange_write 1 (mkRange 1024 (mjoin (eth_port <$> [pair_of_V1 example_V1; pair_of_V2 example_V2]))) =
  Some (mjoin (eth_port_old 1 <$> [pair_of_V1 example_V1; pair_of_V2 example_V2])).
Proof.
  refine (proj1 (proj2 (port_list_written 1 1024 [pair_of_V1 example_V1; pair_of_V2 example_V2]
    (setLengthRemaining 144 (Validation_make None None)) _ _ _ _ _))).
  - reflexivity.
  - repeat constructor; by vm_compute.
  - apply (bool_decide_unpack _). vm_compute. exact I.
  - vm_compute. discriminate.
  - vm_compute. reflexivity.
Defined.

(** A port with one property of type Ethernet and length 8. *)
Definition short_property : list Z := be_bytes 2 OFPPDPT_ETHERNET ++ be_bytes 2 8 ++ pad 4.

Definition short_property_port : list Z :=
  Port_bytes (mkPort 1 48 [0; 27; 33; 1; 2; 3] example_name 0 0) ++ short_property.

(** [validateInput] checks that the properties of a port tile its end, not
    that an Ethernet property has its 32 bytes: a port whose Ethernet property
    is 8 bytes long is accepted, and writing it for an OpenFlow 1.0 or 1.3 peer
    reads past the property list. *)
Theorem short_ethernet_property_read_past_end :
  let range := mkRange 1024 short_property_port in
  let c := setLengthRemaining 48 (Validation_make None None) in
  ProtocolRange_validateInput sizeof_Port 4 8 (Port_validateInput range) range c = Some (true, c) /\
  PortRange_write OFP_VERSION_1 range = None /\ PortRange_write OFP_VERSION_4 range = None.
Proof. vm_compute. split_and!; reflexivity. Qed.
