(* ===== verification/Oxm.v ===== *)
(** * OXM fields (include/ofp/oxmtype.h, oxmiterator.h, oxmrange.h, oxmlist.h,
    src/ofp/oxmlist.cpp, oxmtype.cpp)

    A match is a sequence of OXM fields, each a 4-byte type (class, field,
    mask bit, length) followed by [length] bytes of value. The first part models
    the types, the unchecked iterator and the range checks on raw bytes; the
    second the [OXMList] operations on a byte buffer, written against the
    interface [ByteBuffer] that [SmallBuffer] implements; the third shows that
    both are the encoding of operations on plain lists of items. *)

From Stdlib Require Import Sorted.
From S2P Require Import Prelude.
From S2P Require Import ByteOrder.
From S2P Require Import Hex.
From S2P Require Import SmallBuffer.

(** ** OXMType

    The object holds [value32_ = BigEndianFromNative(native)]; a type is
    represented here by its native value, from which [value32] gives the member
    on a little-endian ([le]) or big-endian host. *)

Definition OXMType_value32 (le : bool) (native : Z) : Z := HostSwapByteOrder le W4 native.

Definition OXMType_make (oxmClass oxmField oxmSize : Z) (oxmMask : bool) : Z :=
  Z.lor (Z.lor (Z.lor (Z.shiftl oxmClass 16) (Z.shiftl (Z.land oxmField 0x7F) 9))
               (if oxmMask then 0x100 else 0)) oxmSize.

Definition oxmClass (t : Z) : Z := Z.shiftr t 16.
Definition oxmField (t : Z) : Z := Z.land (Z.shiftr t 9) 0x7F.
Definition oxmSize (t : Z) : Z := Z.land t 0xFF.

(** [length] and [hasMask] work on [value32_] directly. *)
Definition MaskBits (le : bool) : Z := HostSwapByteOrder le W4 0x100.
Definition End8Bits (le : bool) : Z := HostSwapByteOrder le W4 0xFF.
Definition End8RightShift (le : bool) : Z := if End8Bits le =? 0xFF then 0 else 24.

Definition OXMType_length (le : bool) (value32_ : Z) : Z :=
  Z.shiftr (Z.land value32_ (End8Bits le)) (End8RightShift le).
Definition OXMType_hasMask (le : bool) (value32_ : Z) : bool :=
  negb (Z.land value32_ (MaskBits le) =? 0).
(** The same on native values (see [OXMType_host_independent]). *)
Definition oxm_length (t : Z) : Z := oxmSize t.
Definition hasMask (t : Z) : bool := negb (Z.land t 0x100 =? 0).
Definition isIllegal (t : Z) : bool := hasMask t && (oxm_length t =? 0).
Definition isExperimenter (t : Z) : bool := oxmClass t =? 0xffff.
Definition expSize (t : Z) : Z := if isExperimenter t then 4 else 0.

(** The size is computed as an [int] and passed as a [UInt16]. *)
Definition withMask (t : Z) : Z :=
  if hasMask t then t
  else OXMType_make (oxmClass t) (oxmField t)
         (u16 ((oxmSize t - expSize t) * 2 + expSize t)) true.

Definition withoutMask (t : Z) : Z :=
  if negb (hasMask t) then t
  else OXMType_make (oxmClass t) (oxmField t)
         (u16 (Z.quot (oxmSize t - expSize t) 2 + expSize t)) false.

(** ** The table of known types ([OXMType::internalID...])

    [OXMTypeInternalMapArray] is generated at build time; it is an argument:
    rows of (value32, experimenter, id), sorted by [value32]. *)

Definition OXMInternalID_UNKNOWN : Z := 0xffff.

(** [std::lower_bound] on the first component: binary search for the first
    index whose key is not below [v], in [first, first + count). *)
Fixpoint lower_bound (fuel : nat) (table : list (Z * Z * Z)) (v first count : Z) : option Z :=
  match fuel with
  | O => None
  | S fuel' =>
    if count <=? 0 then Some first else
    let step := count / 2 in
    '(k, _, _) ← (if 0 <=? first + step then table !! Z.to_nat (first + step) else None);
    if k <? v then lower_bound fuel' table v (first + step + 1) (count - (step + 1))
    else lower_bound fuel' table v first step
  end.

Definition unmasked_value32 (le : bool) (t : Z) : Z :=
  OXMType_value32 le (if hasMask t then withoutMask t else t).

Definition internalID (le : bool) (table : list (Z * Z * Z)) (t : Z) : option Z :=
  let value32 := unmasked_value32 le t in
  i ← lower_bound (S (length table)) table value32 0 (zlen table);
  if i =? zlen table then Some OXMInternalID_UNKNOWN else
  '(k, _, id) ← table !! Z.to_nat i;
  Some (if k =? value32 then id else OXMInternalID_UNKNOWN).

Definition internalID_IgnoreLength (le : bool) (table : list (Z * Z * Z)) (t : Z) : Z :=
  let Prefix24Bits := Z.lnot (End8Bits le) in
  let value32 := Z.land (OXMType_value32 le (withoutMask t)) Prefix24Bits in
  match head (filter (fun row => Z.land row.1.1 Prefix24Bits = value32) table) with
  | Some (_, _, id) => id
  | None => OXMInternalID_UNKNOWN
  end.

(** The linear scan over the rows with the same key. *)
Fixpoint exp_scan (rows : list (Z * Z * Z)) (value32 experimenter : Z) : Z :=
  match rows with
  | [] => OXMInternalID_UNKNOWN
  | (k, e, id) :: rows' =>
      if negb (k =? value32) then OXMInternalID_UNKNOWN
      else if e =? experimenter then id else exp_scan rows' value32 experimenter
  end.

Definition internalID_Experimenter (le : bool) (table : list (Z * Z * Z)) (t experimenter : Z)
    : option Z :=
  let value32 := unmasked_value32 le t in
  i ← lower_bound (S (length table)) table value32 0 (zlen table);
  Some (exp_scan (drop (Z.to_nat i) table) value32 experimenter).

(** ** OXMIterator: positions in a byte range, without checks *)

Definition it_type (m : list Z) (p : Z) : option Z := rd32 m p.

(** [OXMIterator::size] and [operator++]. *)
Definition it_size (m : list Z) (p : Z) : option Z := b ← rd8 m (p + 3); Some (4 + b).
Definition it_next (m : list Z) (p : Z) : option Z := s ← it_size m p; Some (p + s).

(** [Item::isExperimenter], [experimenter], [unknownValuePtr], [unknownValueLength]. *)
Definition item_isExperimenter (m : list Z) (p : Z) : option bool :=
  b0 ← rd8 m p; b1 ← rd8 m (p + 1); b3 ← rd8 m (p + 3);
  Some ((b0 =? 0xFF) && (b1 =? 0xFF) && (4 <=? b3)).
Definition item_experimenter (m : list Z) (p : Z) : option Z :=
  e ← item_isExperimenter m p; if (e : bool) then rd32 m (p + 4) else Some 0.
Definition item_unknownValuePtr (m : list Z) (p : Z) : option Z :=
  e ← item_isExperimenter m p; Some (p + 4 + if (e : bool) then 4 else 0).
Definition item_unknownValueLength (m : list Z) (p : Z) : option Z :=
  e ← item_isExperimenter m p; t ← it_type m p;
  assert! negb e || (4 <=? oxm_length t);;
  Some (oxm_length t - if (e : bool) then 4 else 0).

(** ** OXMRange *)

(** The loop of [validateInput] on [pos] and [left]. *)
Fixpoint oxm_valid_loop (fuel : nat) (m : list Z) (pos left : Z) : option bool :=
  match fuel with
  | O => None
  | S fuel' =>
    if negb (pos <? zlen m) then assert! (pos =? zlen m) && (left =? 0);; Some true
    else if left <? 4 then Some false
    else b ← rd8 m (pos + 3);
      let len := 4 + b in
      if left <? len then Some false
      else oxm_valid_loop fuel' m (pos + len) (left - len)
  end.

Definition OXMRange_validateInput (m : list Z) : option bool :=
  oxm_valid_loop (S (length m)) m 0 (zlen m).

Definition OXMRange_validateInput_paddedField (m : list Z) : option bool :=
  let left := zlen m in
  if left <? 4 then Some false
  else b ← rd8 m 3;
    let len := 4 + b in
    if left <? len then Some false
    else
      let left' := left - len in
      if left' <=? 7 then Some (IsMemFilled (drop (Z.to_nat len) m) 0) else Some false.

(** The loop of [exists], [get], [findValue] and [findOrderedPos]: the first
    position whose type satisfies the test, or the end. *)
Fixpoint it_find (fuel : nat) (f : Z -> bool) (m : list Z) (iter : Z) : option Z :=
  match fuel with
  | O => None
  | S fuel' =>
    if negb (iter <? zlen m) then Some (zlen m) else
    t ← it_type m iter;
    if f t then Some iter
    else iter' ← it_next m iter; it_find fuel' f m iter'
  end.

Definition findValue (m : list Z) (type : Z) : option Z :=
  it_find (S (length m)) (fun t => t =? type) m 0.
Definition findOrderedPos (m : list Z) (type : Z) : option Z :=
  it_find (S (length m)) (fun t => type <? t) m 0.

Definition OXMRange_exists (m : list Z) (type : Z) : option bool :=
  i ← findValue m type; Some (i <? zlen m).

(** [get]: the [size] bytes of a non-experimenter value, zero if it is absent. *)
Definition OXMRange_get (m : list Z) (type size : Z) : option (list Z) :=
  i ← findValue m type;
  if i <? zlen m then slice m (i + 4) size else Some (replicate (Z.to_nat size) 0).

(** ** OXMList

    What the list needs from its byte buffer: the operations of [ByteList] and
    stores through [mutableData], as refinements of operations on the bytes. *)

Class ByteBuffer (B : Type) := {
  bb_data : B -> list Z;
  bb_add : B -> list Z -> option B;
  bb_addMasked : B -> list Z -> list Z -> Z -> option B;
  bb_insert : B -> Z -> list Z -> option B;
  bb_insertUninitialized : B -> Z -> Z -> option (B * Z);
  bb_replaceUninitialized : B -> Z -> Z -> Z -> option (B * Z);
  bb_store : B -> Z -> list Z -> option B;
  bb_clear : B -> B }.

Class ByteBufferLaws (B : Type) `{ByteBuffer B} := {
  bb_rep : B -> list Z -> Prop;
  bb_room : B -> Z -> Prop;
  bb_rep_data b c : bb_rep b c -> bb_data b = c;
  bb_room_none b c more : bb_rep b c -> more <= 0 -> bb_room b more;
  bb_add_ok b c data :
    bb_rep b c -> zlen c + zlen data <= maxLength ->
    exists b', bb_add b data = Some b' /\ bb_rep b' (c ++ data);
  bb_addMasked_ok b c data mask n :
    bb_rep b c -> zlen data = n -> zlen mask = n -> zlen c + n <= maxLength ->
    exists b', bb_addMasked b data mask n = Some b' /\ bb_rep b' (c ++ MemCopyMasked data mask);
  bb_insert_ok b c1 c2 data :
    bb_rep b (c1 ++ c2) -> zlen (c1 ++ c2) + zlen data <= maxLength ->
    exists b', bb_insert b (zlen c1) data = Some b' /\ bb_rep b' (c1 ++ data ++ c2);
  bb_insertUninitialized_ok b c1 c2 n :
    bb_rep b (c1 ++ c2) -> 0 <= n -> zlen (c1 ++ c2) + n <= maxLength ->
    exists b' x, bb_insertUninitialized b (zlen c1) n = Some (b', zlen c1) /\
                 bb_rep b' (c1 ++ x ++ c2) /\ zlen x = n;
  bb_replaceUninitialized_ok b c1 g c2 n :
    bb_rep b (c1 ++ g ++ c2) -> 0 <= n -> bb_room b (n - zlen g) ->
    exists b' x, bb_replaceUninitialized b (zlen c1) (zlen c1 + zlen g) n = Some (b', zlen c1) /\
                 bb_rep b' (c1 ++ x ++ c2) /\ zlen x = n;
  bb_store_ok b c1 x c2 data :
    bb_rep b (c1 ++ x ++ c2) -> zlen x = zlen data ->
    exists b', bb_store b (zlen c1) data = Some b' /\ bb_rep b' (c1 ++ data ++ c2);
  bb_clear_ok b c : bb_rep b c -> bb_rep (bb_clear b) [] }.

(** [SmallBuffer] (and so [ByteList]) implements the interface. *)
Section SmallBufferInstance.
Context (heap_fill : Z -> list Z) `{Hfill : !HeapFill heap_fill}.

Definition SB_store (sb : SmallBuffer) (off : Z) (bs : list Z) : option SmallBuffer :=
  m ← wr (SB_mem sb) off bs; Some (SB_set_mem sb m (sb_size sb)).

#[export] Instance SmallBuffer_ops : ByteBuffer SmallBuffer := {
  bb_data := SB_contents;
  bb_add := SB_add heap_fill;
  bb_addMasked := ByteList_addMasked heap_fill;
  bb_insert := SB_insert heap_fill;
  bb_insertUninitialized := SB_insertUninitialized heap_fill;
  bb_replaceUninitialized := SB_replaceUninitialized heap_fill;
  bb_store := SB_store;
  bb_clear := SB_clear }.

#[export] Instance SmallBuffer_laws : ByteBufferLaws SmallBuffer.
Proof.
  refine {| bb_rep := represents; bb_room := replace_room |}; simpl.
  - intros b c [_ H]. done.
  - intros b c more [(H & _) _] Hm. left. unfold SB_remaining. lia.
  - by apply SB_add_spec.
  - by apply ByteList_addMasked_spec.
  - by apply SB_insert_spec.
  - by apply SB_insertUninitialized_spec.
  - by apply SB_replaceUninitialized_spec.
  - intros b c1 x c2 data Hr Hx. unfold SB_store.
    destruct (SB_store_spec b c1 x c2 data Hr Hx) as (m & -> & Hm). by eexists.
  - apply SB_clear_spec.
Defined.
End SmallBufferInstance.

Section OXMListOps.
Context {B : Type} `{ByteBuffer B}.

(** The bytes of a type object. *)
Definition type_bytes (type : Z) : list Z := be_bytes 4 type.

Definition OXMList_add (b : B) (type : Z) (data : list Z) : option B :=
  assert! (oxm_length type =? zlen data);;
  b ← bb_add b (type_bytes type); bb_add b data.

Definition OXMList_addExperimenter (b : B) (type experimenter : Z) (data : list Z) : option B :=
  assert! (oxm_length type =? zlen data + 4);;
  b ← bb_add b (type_bytes type); b ← bb_add b (be_bytes 4 experimenter); bb_add b data.

Definition OXMList_add_masked (b : B) (type : Z) (data mask : list Z) (len : Z) : option B :=
  assert! (oxm_length type =? 2 * len);;
  b ← bb_add b (type_bytes type); b ← bb_addMasked b data mask len; bb_add b mask.

Definition OXMList_addExperimenter_masked (b : B) (type experimenter : Z) (data mask : list Z)
    (len : Z) : option B :=
  assert! (oxm_length type =? 4 + 2 * len);;
  b ← bb_add b (type_bytes type); b ← bb_add b (be_bytes 4 experimenter);
  b ← bb_addMasked b data mask len; bb_add b mask.

(** [add(OXMIterator)]: the item at position [p] of the bytes [m]. *)
Definition OXMList_add_iter (b : B) (m : list Z) (p : Z) : option B :=
  s ← it_size m p; item ← slice m p s; bb_add b item.

Definition OXMList_addSignal (b : B) (signal : Z) : option B := bb_add b (type_bytes signal).
Definition OXMList_insertSignal (b : B) (pos signal : Z) : option B :=
  bb_insert b pos (type_bytes signal).

(** [sizeof(type)] is 4. *)
Definition OXMList_addOrdered (b : B) (type : Z) (data : list Z) : option B :=
  pos ← findOrderedPos (bb_data b) type;
  '(b, _) ← bb_insertUninitialized b pos (4 + zlen data);
  b ← bb_store b pos (type_bytes type); bb_store b (pos + 4) data.

Definition OXMList_replace (b : B) (pos posEnd type : Z) (data : list Z) : option (B * Z) :=
  assert! (oxm_length type =? zlen data) && (pos <? posEnd);;
  let newlen := 4 + zlen data in
  '(b, _) ← bb_replaceUninitialized b pos posEnd newlen;
  b ← bb_store b pos (type_bytes type);
  b ← bb_store b (pos + 4) data;
  assert! (pos + newlen <=? zlen (bb_data b)) && (0 <=? pos + newlen);;
  Some (b, pos + newlen).

Definition OXMList_replaceValue (b : B) (pos : Z) (data : list Z) : option B :=
  p ← item_unknownValuePtr (bb_data b) pos; bb_store b p data.

(** [replace<ValueType>(value)]. *)
Definition OXMList_replace_value (b : B) (type : Z) (data : list Z) : option B :=
  iter ← findValue (bb_data b) type;
  if negb (iter =? zlen (bb_data b)) then OXMList_replaceValue b iter data
  else OXMList_add b type data.

Definition OXMList_pad8 (b : B) (n : Z) : option B :=
  let len := u64 (PadLength (n + zlen (bb_data b)) - (n + zlen (bb_data b))) in
  if 0 <? len then assert! (len <? 8);; bb_add b (replicate (Z.to_nat len) 0) else Some b.
End OXMListOps.

(** ** Items: the abstract view of a range *)

Record oxm_item := Item { item_type : Z; item_body : list Z }.

Definition item_ok (i : oxm_item) : Prop :=
  0 <= item_type i < 2 ^ 32 /\ zlen (item_body i) = oxm_length (item_type i) /\
  bytes_ok (item_body i).

Definition encode_item (i : oxm_item) : list Z := type_bytes (item_type i) ++ item_body i.
Definition encode (l : list oxm_item) : list Z := concat (encode_item <$> l).

(** The value without the experimenter id ([unknownValuePtr]). *)
Definition item_value (i : oxm_item) : list Z :=
  if isExperimenter (item_type i) && (4 <=? oxm_length (item_type i))
  then drop 4 (item_body i) else item_body i.

#[export] Instance oxm_item_eq_dec : EqDecision oxm_item.
Proof. solve_decision. Defined.

Lemma encode_cons i l : encode (i :: l) = encode_item i ++ encode l.
Proof. done. Qed.

Lemma encode_app l k : encode (l ++ k) = encode l ++ encode k.
Proof. unfold encode. by rewrite fmap_app, concat_app. Qed.

Lemma type_bytes_length t : zlen (type_bytes t) = 4.
Proof. unfold zlen, type_bytes. by rewrite be_bytes_length. Qed.

Lemma encode_item_length i : zlen (encode_item i) = 4 + zlen (item_body i).
Proof. unfold encode_item. by rewrite zlen_app, type_bytes_length. Qed.

Lemma encode_ok l : Forall item_ok l -> bytes_ok (encode l).
Proof.
  induction 1 as [|i l (_ & _ & Hb) _ IH]; [done|]. rewrite encode_cons. unfold encode_item.
  rewrite !Forall_app. eauto using be_bytes_ok.
Qed.

Lemma oxm_length_range t : 0 <= oxm_length t < 256.
Proof.
  unfold oxm_length, oxmSize. rewrite (land_ones_mod t 8) by done.
  apply (Z.mod_pos_bound t (2 ^ 8)). lia.
Qed.

Lemma type_bytes_be t : 0 <= t < 2 ^ 32 -> be (type_bytes t) = t.
Proof. intros. unfold type_bytes. rewrite be_be_bytes, Z.mod_small; done. Qed.

(** The four bytes of a type: class (two bytes), field and mask, length. *)
Lemma type_bytes_eq t :
  type_bytes t = [(t / 2 ^ 24) mod 256; (t / 2 ^ 16) mod 256; (t / 2 ^ 8) mod 256; t mod 256].
Proof.
  unfold type_bytes. cbn [be_bytes app].
  rewrite !Z.div_div by lia. done.
Qed.

Lemma rd_prefix m pre b rest (i : Z) :
  m = pre ++ rest -> rest !! Z.to_nat i = Some b -> 0 <= i -> rd8 m (zlen pre + i) = Some b.
Proof.
  intros -> Hb Hi. pose proof (zlen_nonneg pre). unfold rd8.
  rewrite (proj2 (Z.leb_le 0 _)) by lia.
  rewrite lookup_app_r by (unfold zlen in *; lia). rewrite <- Hb. f_equal. unfold zlen. lia.
Qed.

Section ReadItem.
Context (m pre rest : list Z) (i : oxm_item).
Context (Hm : m = pre ++ encode_item i ++ rest) (Hi : item_ok i).

Lemma it_type_at : it_type m (zlen pre) = Some (item_type i).
Proof.
  destruct Hi as (Ht & _). unfold it_type, rd_be.
  rewrite (slice_split m _ 4 pre (type_bytes (item_type i)) (item_body i ++ rest)).
  - simpl. by rewrite type_bytes_be.
  - rewrite Hm. unfold encode_item. by rewrite <- app_assoc.
  - done.
  - apply type_bytes_length.
Qed.

Lemma it_byte_at k b :
  type_bytes (item_type i) !! Z.to_nat k = Some b -> 0 <= k -> rd8 m (zlen pre + k) = Some b.
Proof.
  intros Hb Hk. eapply rd_prefix; [exact Hm| |done].
  unfold encode_item. rewrite <- app_assoc, lookup_app_l; [done|].
  by apply lookup_lt_Some in Hb.
Qed.

Lemma it_length_byte : rd8 m (zlen pre + 3) = Some (zlen (item_body i)).
Proof.
  destruct Hi as (Ht & Hl & _). rewrite (it_byte_at 3 (item_type i mod 256)); [|by rewrite type_bytes_eq|done].
  rewrite Hl. unfold oxm_length, oxmSize. by rewrite (land_ones_mod _ 8).
Qed.

Lemma it_size_at : it_size m (zlen pre) = Some (zlen (encode_item i)).
Proof. unfold it_size. rewrite it_length_byte. simpl. by rewrite encode_item_length. Qed.

Lemma it_next_at : it_next m (zlen pre) = Some (zlen (pre ++ encode_item i)).
Proof. unfold it_next. rewrite it_size_at. simpl. by rewrite zlen_app. Qed.

(** [Item::isExperimenter] looks at the bytes; on a whole item it agrees with
    the type, except that a type too short for the id does not count. *)
Lemma item_isExperimenter_at :
  item_isExperimenter m (zlen pre) =
  Some (isExperimenter (item_type i) && (4 <=? oxm_length (item_type i))).
Proof.
  destruct Hi as (Ht & Hl & _). unfold item_isExperimenter.
  rewrite <- (Z.add_0_r (zlen pre)) at 1.
  rewrite (it_byte_at 0 ((item_type i / 2 ^ 24) mod 256)) by (done || by rewrite type_bytes_eq).
  rewrite (it_byte_at 1 ((item_type i / 2 ^ 16) mod 256)) by (done || by rewrite type_bytes_eq).
  rewrite it_length_byte, Hl. simpl. f_equal. f_equal.
  unfold isExperimenter, oxmClass. rewrite Z.shiftr_div_pow2 by lia.
  apply eq_true_iff_eq. rewrite andb_true_iff, !Z.eqb_eq.
  Z.to_euclidean_division_equations. lia.
Qed.
End ReadItem.

Lemma encode_cons_nonempty i l : encode (i :: l) ≠ [].
Proof. rewrite encode_cons. unfold encode_item. by rewrite type_bytes_eq. Qed.

Lemma encode_step i rest l :
  item_ok i -> Forall item_ok l -> encode_item i ++ rest = encode l ->
  exists l', l = i :: l' /\ Forall item_ok l' /\ rest = encode l'.
Proof.
  intros (Ht & Hlen & _) Hl E. destruct l as [|j l'].
  { unfold encode_item in E. by rewrite type_bytes_eq in E. }
  inversion Hl as [|?? (Ht' & Hlen' & _) Hl']; subst. exists l'. rewrite encode_cons in E.
  assert (item_type i = item_type j) as Et.
  { apply (f_equal (fun x => be (take 4 x))) in E. unfold encode_item in E.
    rewrite <- !app_assoc, !take_app_length', !type_bytes_be in E by done. done. }
  assert (length (encode_item i) = length (encode_item j)) as Hlx.
  { pose proof (encode_item_length i). pose proof (encode_item_length j).
    rewrite Et in Hlen. unfold zlen in *. lia. }
  apply app_inj_1 in E as [Ei El]; [|done]. unfold encode_item in Ei. rewrite Et in Ei.
  apply app_inv_head in Ei. destruct i, j; simpl in *. split_and!; congruence || done.
Qed.

Lemma encode_inj l k :
  Forall item_ok l -> Forall item_ok k -> encode l = encode k -> l = k.
Proof.
  intros Hl. revert k. induction Hl as [|i l Hi Hl IH]; intros k Hk E.
  - destruct k as [|j k]; [done|]. by destruct (encode_cons_nonempty j k (eq_sym E)).
  - rewrite encode_cons in E. apply encode_step in E as (k' & -> & Hk' & E); try done.
    f_equal. by apply IH.
Qed.

(** Cutting the first item off a byte string. *)
Lemma item_of_bytes rest :
  bytes_ok rest -> 4 <= zlen rest ->
  exists b, rest !! 3%nat = Some b /\ is_byte b /\
    (4 + b <= zlen rest ->
     exists i rest', item_ok i /\ rest = encode_item i ++ rest' /\ zlen (item_body i) = b).
Proof.
  intros Hb Hl. destruct rest as [|t0 [|t1 [|t2 [|t3 r]]]]; try (unfold zlen in Hl; simpl in Hl; lia).
  exists t3. assert (bytes_ok [t0; t1; t2; t3] /\ bytes_ok r) as [Ht Hr].
  { by rewrite <- Forall_app. }
  assert (is_byte t3) as H3 by (by rewrite !Forall_cons in Ht; naive_solver).
  split_and!; [done|done|]. intros Hlen. rewrite !zlen_cons in Hlen.
  unfold is_byte in H3. destruct (cut_at r t3) as (bd & rest' & -> & Hbd); [lia|].
  apply Forall_app in Hr as [Hbd' _].
  assert (0 <= be [t0; t1; t2; t3] < 2 ^ 32) as Hr by (by apply be_range in Ht).
  assert (oxm_length (be [t0; t1; t2; t3]) = t3) as Hsz.
  { unfold oxm_length, oxmSize. rewrite (land_ones_mod _ 8) by done.
    change [t0; t1; t2; t3] with ([t0; t1; t2] ++ [t3]).
    rewrite be_snoc, Z.add_comm, Z.mod_add, Z.mod_small; lia. }
  exists (Item (be [t0; t1; t2; t3]) bd), rest'. split_and!;
    [|unfold encode_item; cbn [item_type item_body]|done].
  - unfold item_ok. simpl. split_and!; lia || done.
  - unfold type_bytes. by rewrite (be_bytes_be_len 4 [t0; t1; t2; t3]).
Qed.

Lemma oxm_valid_loop_spec fuel m pre rest :
  m = pre ++ rest -> bytes_ok rest -> (length rest < fuel)%nat ->
  exists b, oxm_valid_loop fuel m (zlen pre) (zlen rest) = Some b /\
    (b = true <-> exists l, Forall item_ok l /\ rest = encode l).
Proof.
  revert pre rest. induction fuel as [|fuel IH]; intros pre rest Hm Hb Hf; [lia|].
  cbn [oxm_valid_loop]. assert (zlen m = zlen pre + zlen rest) as Hz by (by rewrite Hm, zlen_app).
  pose proof (zlen_nonneg rest). pose proof (zlen_nonneg pre).
  destruct (Z.ltb_spec (zlen pre) (zlen m)) as [Hlt|Hge]; cbn [negb].
  2: { exists true. rewrite (proj2 (andb_true_iff _ _)) by lia. split; [done|].
       split; [|done]. exists []. split; [done|]. destruct rest; [done|]. rewrite zlen_cons in *.
       pose proof (zlen_nonneg rest). lia. }
  assert ((forall l, ~ (Forall item_ok l /\ rest = encode l)) ->
    exists b, Some false = Some b /\ (b = true <-> exists l, Forall item_ok l /\ rest = encode l)) as Hrej.
  { intros Hno. exists false. split; [done|]. split; [done|]. intros [l Hl]. by destruct (Hno l). }
  assert (forall l, Forall item_ok l -> rest = encode l ->
    exists i l', rest = encode_item i ++ encode l' /\ item_ok i) as Hne.
  { intros [|i l] Hl ->; [change (zlen (encode [])) with 0 in *; lia|].
    inversion Hl; subst. by exists i, l. }
  destruct (Z.ltb_spec (zlen rest) 4).
  { apply Hrej. intros l [Hl E]. destruct (Hne l Hl E) as (i & l' & E' & _).
    rewrite E', zlen_app, encode_item_length in *.
    pose proof (zlen_nonneg (item_body i)). pose proof (zlen_nonneg (encode l')). lia. }
  destruct (item_of_bytes rest Hb) as (b & Hb3 & Hbb & Hcut); [done|].
  rewrite (rd_prefix m pre b rest 3) by done. cbn. unfold is_byte in Hbb.
  destruct (Z.ltb_spec (zlen rest) (4 + b)).
  { apply Hrej. intros l [Hl E]. destruct (Hne l Hl E) as (i & l' & E' & Hi).
    pose proof (it_length_byte rest [] (encode l') i E' Hi) as Hr.
    pose proof (rd_prefix rest [] b rest 3 eq_refl Hb3 ltac:(lia)) as Hr'. simplify_eq.
    rewrite E', zlen_app, encode_item_length in *. pose proof (zlen_nonneg (encode l')). lia. }
  destruct Hcut as (i & rest' & Hi & Hrest & Hlen); [lia|].
  destruct (IH (pre ++ encode_item i) rest') as (b' & Hloop & Hiff).
  - rewrite Hm, Hrest. by rewrite app_assoc.
  - rewrite Hrest in Hb. by apply Forall_app in Hb as [_ ?].
  - rewrite Hrest in Hf. pose proof (encode_item_length i). unfold zlen in *.
    rewrite length_app in Hf. lia.
  - rewrite zlen_app, encode_item_length, Hlen in Hloop.
    rewrite Hrest, zlen_app, encode_item_length, Hlen.
    replace (4 + b + zlen rest' - (4 + b)) with (zlen rest') by lia.
    exists b'. split; [done|]. rewrite Hiff. split.
    + intros (l & Hl & ->). exists (i :: l). by split; [constructor|].
    + intros (l & Hl & E). apply encode_step in E as (l' & -> & Hl' & ->); eauto.
Qed.

(** C17. [OXMRange::validateInput] never reads outside the range and always
    answers; it accepts exactly the byte strings that are the encoding of a
    sequence of OXM fields, and that sequence is unique. *)
Theorem OXMRange_validateInput_iff m :
  bytes_ok m ->
  exists b, OXMRange_validateInput m = Some b /\
    (b = true <-> exists l, Forall item_ok l /\ m = encode l /\
       forall k, Forall item_ok k -> m = encode k -> k = l).
Proof.
  intros Hm. destruct (oxm_valid_loop_spec (S (length m)) m [] m) as (b & E & Hiff);
    [done|done|lia|].
  exists b. split; [done|]. rewrite Hiff. split.
  - intros (l & Hl & ->). exists l. split_and!; try done. intros k Hk Ek. by apply encode_inj.
  - intros (l & Hl & -> & _). eauto.
Qed.

(** An Ethernet type field (0x80000a02) and a masked field of four bytes. *)
Definition match_bytes : list Z :=
  [0x80; 0; 0x0a; 2; 8; 0; 0x80; 0; 0x19; 8; 10; 0; 0; 0; 255; 0; 0; 0].

Lemma OXMRange_validateInput_witness :
  exists b, OXMRange_validateInput match_bytes = Some b /\
    (b = true <-> exists l, Forall item_ok l /\ match_bytes = encode l /\
       forall k, Forall item_ok k -> match_bytes = encode k -> k = l).
Proof. apply (OXMRange_validateInput_iff match_bytes). bytes. Defined.

(** ** Searching *)

(** [l] cut before the first item whose type satisfies [f]. *)
Definition cut_before (f : Z -> bool) (l l1 l2 : list oxm_item) : Prop :=
  l = l1 ++ l2 /\ Forall (fun i => f (item_type i) = false) l1 /\
  match l2 with [] => True | i :: _ => f (item_type i) = true end.

Lemma it_find_spec fuel f m pre l :
  m = pre ++ encode l -> Forall item_ok l -> (length l < fuel)%nat ->
  exists l1 l2, cut_before f l l1 l2 /\
    it_find fuel f m (zlen pre) = Some (zlen (pre ++ encode l1)).
Proof.
  revert pre l. induction fuel as [|fuel IH]; intros pre l Hm Hl Hf; [lia|].
  cbn [it_find]. destruct Hl as [|i l Hi Hl].
  - exists [], []. split; [done|]. rewrite Hm. change (encode []) with (@nil Z).
    by rewrite app_nil_r, Z.ltb_irrefl.
  - rewrite encode_cons in Hm. pose proof (zlen_nonneg (item_body i)).
    pose proof (zlen_nonneg (encode l)).
    rewrite (proj2 (Z.ltb_lt (zlen pre) (zlen m))) by (rewrite Hm, !zlen_app, encode_item_length; lia).
    cbn [negb]. rewrite (it_type_at m pre (encode l) i) by done. simpl.
    destruct (f (item_type i)) eqn:Hfi.
    + exists [], (i :: l). split; [done|]. by rewrite app_nil_r.
    + rewrite (it_next_at m pre (encode l) i) by done. simpl in *.
      destruct (IH (pre ++ encode_item i) l) as (l1 & l2 & (-> & H1 & H2) & ->);
        [by rewrite <- app_assoc|done|lia|].
      exists (i :: l1), l2. split; [|by rewrite encode_cons, <- app_assoc].
      split; [done|]. split; [by constructor|done].
Qed.

Lemma encode_length_ge l : (length l <= length (encode l))%nat.
Proof.
  induction l as [|i l IH]; [done|]. rewrite encode_cons, length_app. simpl.
  pose proof (encode_item_length i) as H. unfold zlen in H. lia.
Qed.

Lemma find_spec f l :
  Forall item_ok l ->
  exists l1 l2, cut_before f l l1 l2 /\
    it_find (S (length (encode l))) f (encode l) 0 = Some (zlen (encode l1)).
Proof.
  intros Hl. pose proof (encode_length_ge l).
  apply (it_find_spec (S (length (encode l))) f (encode l) [] l); [done|done|lia].
Qed.

(** ** OXMList operations as operations on lists of items *)

Lemma item_ok_masked type data mask :
  0 <= type < 2 ^ 32 -> bytes_ok data -> bytes_ok mask -> zlen data = zlen mask ->
  oxm_length type = 2 * zlen data -> item_ok (Item type (MemCopyMasked data mask ++ mask)).
Proof.
  intros Ht Hd Hk Hl Hlen. unfold item_ok. simpl.
  assert (length data = length mask) as Hn by (unfold zlen in *; lia).
  split; [done|]. split.
  - rewrite zlen_app. unfold zlen. rewrite MemCopyMasked_length by done. unfold zlen in *. lia.
  - apply Forall_app. split; [by apply MemCopyMasked_ok|done].
Qed.

(** The operations of [OXMList] that change the list; positions of items are
    given by their index. *)
Inductive oxm_op :=
| OAdd (type : Z) (data : list Z)
| OAddExp (type experimenter : Z) (data : list Z)
| OAddMasked (type : Z) (data mask : list Z)
| OAddExpMasked (type experimenter : Z) (data mask : list Z)
| OAddSignal (signal : Z)
| OInsertSignal (n : nat) (signal : Z)
| OAddOrdered (type : Z) (data : list Z)
| OReplace (n k : nat) (type : Z) (data : list Z)
| OReplaceValue (type : Z) (data : list Z)
| OClear.

(** Byte position of the [n]-th item. *)
Definition item_pos (l : list oxm_item) (n : nat) : Z := zlen (encode (take n l)).

Definition oxm_step {B} `{ByteBuffer B} (b : B) (l : list oxm_item) (op : oxm_op) : option B :=
  match op with
  | OAdd t d => OXMList_add b t d
  | OAddExp t e d => OXMList_addExperimenter b t e d
  | OAddMasked t d m => OXMList_add_masked b t d m (zlen d)
  | OAddExpMasked t e d m => OXMList_addExperimenter_masked b t e d m (zlen d)
  | OAddSignal s => OXMList_addSignal b s
  | OInsertSignal n s => OXMList_insertSignal b (item_pos l n) s
  | OAddOrdered t d => OXMList_addOrdered b t d
  | OReplace n k t d =>
      r ← OXMList_replace b (item_pos l n) (item_pos l (n + k)) t d; Some r.1
  | OReplaceValue t d => OXMList_replace_value b t d
  | OClear => Some (bb_clear b)
  end.

(** The experimenter id of the first item of [l], which stays when its value
    is replaced; other fields have none. *)
Definition exp_id (type : Z) (l : list oxm_item) : list Z :=
  if isExperimenter type then take 4 (default [] (item_body <$> head l)) else [].

(** What each operation means for the list of items. *)
Definition items_step (l : list oxm_item) (op : oxm_op) (l' : list oxm_item) : Prop :=
  match op with
  | OAdd t d => l' = l ++ [Item t d]
  | OAddExp t e d => l' = l ++ [Item t (be_bytes 4 e ++ d)]
  | OAddMasked t d m => l' = l ++ [Item t (MemCopyMasked d m ++ m)]
  | OAddExpMasked t e d m => l' = l ++ [Item t (be_bytes 4 e ++ MemCopyMasked d m ++ m)]
  | OAddSignal s => l' = l ++ [Item s []]
  | OInsertSignal n s => l' = take n l ++ Item s [] :: drop n l
  | OAddOrdered t d => exists l1 l2, cut_before (fun x => t <? x) l l1 l2 /\ l' = l1 ++ Item t d :: l2
  | OReplace n k t d => l' = take n l ++ Item t d :: drop (n + k) l
  | OReplaceValue t d =>
      exists l1 l2, cut_before (fun x => x =? t) l l1 l2 /\
                    l' = l1 ++ Item t (exp_id t l2 ++ d) :: tail l2
  | OClear => l' = []
  end.

(** When the operations are correct: the assertions of oxmlist.h and
    oxmlist.cpp (a type agrees with the length of its value, a range is not
    empty and inside the list; [addOrdered] and the signals rely on the same
    without asserting it), and two conditions the code does not check.
    A replacement that is longer than the range needs room in the buffer
    ([bb_room]): [replaceUninitialized] does not make it. [replace(value)] of
    an experimenter field that is absent fails the assertion of [add], which
    counts the experimenter id in the length; a present one keeps its id. *)
Definition oxm_op_pre {B} `{ByteBufferLaws B} (b : B) (l : list oxm_item) (op : oxm_op) : Prop :=
  zlen (encode l) + 1024 <= maxLength /\
  match op with
  | OAdd t d | OAddOrdered t d => item_ok (Item t d)
  | OAddExp t e d => item_ok (Item t (be_bytes 4 e ++ d))
  | OAddMasked t d m =>
      0 <= t < 2 ^ 32 /\ bytes_ok d /\ bytes_ok m /\ zlen d = zlen m /\ oxm_length t = 2 * zlen d
  | OAddExpMasked t e d m =>
      0 <= t < 2 ^ 32 /\ bytes_ok d /\ bytes_ok m /\ zlen d = zlen m /\
      oxm_length t = 4 + 2 * zlen d
  | OAddSignal s => item_ok (Item s [])
  | OInsertSignal n s => item_ok (Item s []) /\ (n <= length l)%nat
  | OReplace n k t d =>
      item_ok (Item t d) /\ (0 < k)%nat /\ (n + k <= length l)%nat /\
      bb_room b (4 + zlen d - (item_pos l (n + k) - item_pos l n))
  | OReplaceValue t d =>
      0 <= t < 2 ^ 32 /\ bytes_ok d /\
      if isExperimenter t then oxm_length t = 4 + zlen d /\ t ∈ item_type <$> l
      else oxm_length t = zlen d
  | OClear => True
  end.

Section ListOps.
Context {B : Type} `{HL : ByteBufferLaws B}.
Implicit Types (b : B) (l : list oxm_item).

(** Appending the pieces of an item one after the other. *)
Lemma bb_add2 b c x y :
  bb_rep b c -> zlen c + zlen x + zlen y <= maxLength ->
  exists b', (b1 ← bb_add b x; bb_add b1 y) = Some b' /\ bb_rep b' (c ++ x ++ y).
Proof.
  intros Hr Hl. pose proof (zlen_nonneg y). destruct (bb_add_ok b c x Hr) as (b1 & -> & Hb1); [lia|].
  destruct (bb_add_ok b1 _ y Hb1) as (b2 & E & Hb2); [rewrite zlen_app; lia|].
  exists b2. split; [done|]. by rewrite app_assoc.
Qed.

Lemma item_small i : item_ok i -> zlen (encode_item i) <= 259.
Proof.
  intros (_ & Hl & _). rewrite encode_item_length, Hl.
  pose proof (oxm_length_range (item_type i)). lia.
Qed.

Lemma encode_snoc l i : encode (l ++ [i]) = encode l ++ encode_item i.
Proof. rewrite encode_app, encode_cons. change (encode []) with (@nil Z). by rewrite app_nil_r. Qed.

Lemma OXMList_add_ok b l t d :
  bb_rep b (encode l) -> zlen (encode l) + 1024 <= maxLength -> item_ok (Item t d) ->
  exists b', OXMList_add b t d = Some b' /\ bb_rep b' (encode (l ++ [Item t d])).
Proof.
  intros Hr Hm Hi. pose proof (item_small _ Hi) as Hs. rewrite encode_item_length in Hs.
  destruct Hi as (_ & Hl & _). simpl in *. unfold OXMList_add.
  rewrite (proj2 (Z.eqb_eq _ _) (eq_sym Hl)).
  destruct (bb_add2 b (encode l) (type_bytes t) d Hr) as (b' & E & Hr').
  { rewrite type_bytes_length. lia. }
  exists b'. split; [done|]. by rewrite encode_snoc.
Qed.

Lemma OXMList_addExperimenter_ok b l t e d :
  bb_rep b (encode l) -> zlen (encode l) + 1024 <= maxLength ->
  item_ok (Item t (be_bytes 4 e ++ d)) ->
  exists b', OXMList_addExperimenter b t e d = Some b' /\
             bb_rep b' (encode (l ++ [Item t (be_bytes 4 e ++ d)])).
Proof.
  intros Hr Hm Hi. pose proof (item_small _ Hi) as Hs. rewrite encode_item_length in Hs.
  destruct Hi as (_ & Hl & _). cbn [item_type item_body] in *.
  pose proof (type_bytes_length e) as He. unfold type_bytes in He. rewrite zlen_app, He in *.
  unfold OXMList_addExperimenter. rewrite (proj2 (Z.eqb_eq _ _)) by lia.
  pose proof (zlen_nonneg d).
  destruct (bb_add_ok b _ (type_bytes t) Hr) as (b1 & -> & Hb1); [rewrite type_bytes_length; lia|].
  destruct (bb_add2 b1 _ (be_bytes 4 e) d Hb1) as (b' & E & Hb2).
  { rewrite zlen_app, type_bytes_length, He. lia. }
  exists b'. split; [done|]. rewrite encode_snoc. unfold encode_item. by rewrite app_assoc.
Qed.

Lemma OXMList_add_masked_ok b l t d m :
  bb_rep b (encode l) -> zlen (encode l) + 1024 <= maxLength -> zlen d = zlen m ->
  oxm_length t = 2 * zlen d ->
  exists b', OXMList_add_masked b t d m (zlen d) = Some b' /\
             bb_rep b' (encode (l ++ [Item t (MemCopyMasked d m ++ m)])).
Proof.
  intros Hr Hm Hl Ht. pose proof (oxm_length_range t). pose proof (zlen_nonneg d).
  unfold OXMList_add_masked. rewrite (proj2 (Z.eqb_eq _ _) Ht).
  destruct (bb_add_ok b _ (type_bytes t) Hr) as (b1 & -> & Hb1); [rewrite type_bytes_length; lia|].
  destruct (bb_addMasked_ok b1 _ d m (zlen d) Hb1) as (b2 & E2 & Hb2); [done..| |].
  { rewrite zlen_app, type_bytes_length. lia. }
  simpl. rewrite E2. simpl.
  assert (zlen (MemCopyMasked d m) = zlen d) as Hz.
  { unfold zlen in *. rewrite MemCopyMasked_length; lia. }
  destruct (bb_add_ok b2 _ m Hb2) as (b' & E & Hb3).
  { rewrite !zlen_app, type_bytes_length. lia. }
  exists b'. split; [done|]. rewrite encode_snoc. unfold encode_item. cbn [item_type item_body].
  by rewrite !app_assoc.
Qed.

Lemma OXMList_addExperimenter_masked_ok b l t e d m :
  bb_rep b (encode l) -> zlen (encode l) + 1024 <= maxLength -> zlen d = zlen m ->
  oxm_length t = 4 + 2 * zlen d ->
  exists b', OXMList_addExperimenter_masked b t e d m (zlen d) = Some b' /\
             bb_rep b' (encode (l ++ [Item t (be_bytes 4 e ++ MemCopyMasked d m ++ m)])).
Proof.
  intros Hr Hm Hl Ht. pose proof (oxm_length_range t). pose proof (zlen_nonneg d).
  pose proof (type_bytes_length e) as He. unfold type_bytes in He.
  unfold OXMList_addExperimenter_masked. rewrite (proj2 (Z.eqb_eq _ _) Ht).
  destruct (bb_add_ok b _ (type_bytes t) Hr) as (b1 & -> & Hb1); [rewrite type_bytes_length; lia|].
  destruct (bb_add_ok b1 _ (be_bytes 4 e) Hb1) as (b2 & E2 & Hb2).
  { rewrite zlen_app, type_bytes_length, He. lia. }
  cbn [mbind option_bind]. rewrite E2. cbn [mbind option_bind].
  destruct (bb_addMasked_ok b2 _ d m (zlen d) Hb2) as (b3 & E3 & Hb3); [done..| |].
  { rewrite !zlen_app, type_bytes_length, He. lia. }
  rewrite E3. cbn [mbind option_bind].
  assert (zlen (MemCopyMasked d m) = zlen d) as Hz.
  { unfold zlen in *. rewrite MemCopyMasked_length; lia. }
  destruct (bb_add_ok b3 _ m Hb3) as (b' & E & Hb4).
  { rewrite !zlen_app, type_bytes_length, He. lia. }
  exists b'. split; [done|]. rewrite encode_snoc. unfold encode_item. cbn [item_type item_body].
  by rewrite !app_assoc.
Qed.

Lemma encode_take_drop n l : encode (take n l) ++ encode (drop n l) = encode l.
Proof. by rewrite <- encode_app, take_drop. Qed.

Lemma OXMList_insertSignal_ok b l n s :
  bb_rep b (encode l) -> zlen (encode l) + 1024 <= maxLength ->
  exists b', OXMList_insertSignal b (item_pos l n) s = Some b' /\
             bb_rep b' (encode (take n l ++ Item s [] :: drop n l)).
Proof.
  intros Hr Hm. unfold OXMList_insertSignal, item_pos. rewrite <- (encode_take_drop n l) in Hr.
  destruct (bb_insert_ok b _ _ (type_bytes s) Hr) as (b' & E & Hb').
  { rewrite encode_take_drop, type_bytes_length. lia. }
  exists b'. split; [done|]. rewrite encode_app, encode_cons. unfold encode_item.
  cbn [item_type item_body]. by rewrite app_nil_r.
Qed.

Lemma encode_pos l : l <> [] -> 0 < zlen (encode l).
Proof.
  destruct l as [|i l]; [done|]. intros _. rewrite encode_cons, zlen_app, encode_item_length.
  pose proof (zlen_nonneg (item_body i)). pose proof (zlen_nonneg (encode l)). lia.
Qed.

(** The item whose value is replaced by one of the same length. *)
Lemma exp_item_ok j l d :
  item_ok j -> bytes_ok d ->
  (if isExperimenter (item_type j)
   then oxm_length (item_type j) = 4 + zlen d /\ item_type j ∈ item_type <$> l
   else oxm_length (item_type j) = zlen d) ->
  forall l2, item_ok (Item (item_type j) (exp_id (item_type j) (j :: l2) ++ d)).
Proof.
  intros (Ht & Hlj & Hb) Hd Hlen l2. unfold exp_id, item_ok. cbn [item_type item_body].
  pose proof (zlen_nonneg d).
  destruct (isExperimenter _); cbn [head fmap option_fmap option_map default id]; [|done].
  destruct Hlen as [Hlen _]. split; [done|]. split.
  - rewrite zlen_app, zlen_take. lia.
  - apply Forall_app. split; [by apply Forall_take|done].
Qed.

(** The two stores that fill the gap made for an item. *)
Lemma store_item b c1 x c2 t d :
  bb_rep b (c1 ++ x ++ c2) -> zlen x = 4 + zlen d ->
  exists b', (b1 ← bb_store b (zlen c1) (type_bytes t); bb_store b1 (zlen c1 + 4) d) = Some b' /\
             bb_rep b' (c1 ++ encode_item (Item t d) ++ c2).
Proof.
  intros Hr Hx. pose proof (zlen_nonneg d). destruct (cut_at x 4) as (x1 & x2 & -> & Hx1); [lia|].
  rewrite zlen_app in Hx. rewrite <- app_assoc in Hr.
  destruct (bb_store_ok b c1 x1 (x2 ++ c2) (type_bytes t) Hr) as (b1 & -> & Hb1);
    [by rewrite type_bytes_length|].
  rewrite app_assoc in Hb1.
  destruct (bb_store_ok b1 (c1 ++ type_bytes t) x2 c2 d Hb1) as (b2 & E & Hb2); [lia|].
  rewrite zlen_app, type_bytes_length in E. exists b2. split; [done|].
  unfold encode_item. cbn [item_type item_body]. by rewrite <- !app_assoc in *.
Qed.

Lemma OXMList_addOrdered_ok b l t d :
  bb_rep b (encode l) -> Forall item_ok l -> zlen (encode l) + 1024 <= maxLength ->
  item_ok (Item t d) ->
  exists b' l1 l2, OXMList_addOrdered b t d = Some b' /\ cut_before (fun x => t <? x) l l1 l2 /\
             bb_rep b' (encode (l1 ++ Item t d :: l2)).
Proof.
  intros Hr Hl Hm Hi. pose proof (item_small _ Hi) as Hs. rewrite encode_item_length in Hs.
  cbn [item_body] in Hs. pose proof (zlen_nonneg d).
  unfold OXMList_addOrdered, findOrderedPos. rewrite (bb_rep_data _ _ Hr).
  destruct (find_spec (fun x => t <? x) l Hl) as (l1 & l2 & Hcut & ->). cbn [mbind option_bind].
  pose proof Hcut as (E & _). rewrite E, encode_app in Hr.
  destruct (bb_insertUninitialized_ok b _ _ (4 + zlen d) Hr) as (b1 & x & -> & Hb1 & Hx);
    [lia|rewrite <- encode_app, <- E; lia|]. cbn.
  destruct (store_item b1 _ x _ t d Hb1 Hx) as (b' & E' & Hb').
  exists b', l1, l2. split; [done|]. split; [done|]. by rewrite encode_app, encode_cons.
Qed.

Lemma OXMList_replace_ok b l n k t d :
  bb_rep b (encode l) -> item_ok (Item t d) -> (0 < k)%nat -> (n + k <= length l)%nat ->
  bb_room b (4 + zlen d - (item_pos l (n + k) - item_pos l n)) ->
  exists b', OXMList_replace b (item_pos l n) (item_pos l (n + k)) t d
             = Some (b', item_pos l n + (4 + zlen d)) /\
             bb_rep b' (encode (take n l ++ Item t d :: drop (n + k) l)).
Proof.
  intros Hr Hi Hk Hn Hsz. pose proof (zlen_nonneg d). pose proof Hi as (_ & Hlen & _).
  simpl in Hlen. set (g := take k (drop n l)).
  assert (l = take n l ++ g ++ drop (n + k) l) as El.
  { unfold g. rewrite <- (take_drop n l) at 1. f_equal.
    rewrite <- (take_drop k (drop n l)) at 1. by rewrite drop_drop, Nat.add_comm. }
  assert (take (n + k) l = take n l ++ g) as Et.
  { unfold g. by rewrite take_take_drop. }
  unfold item_pos in *. rewrite Et, encode_app, zlen_app in *.
  rewrite El, !encode_app in Hr.
  pose proof (zlen_nonneg (encode (take n l))).
  unfold OXMList_replace. rewrite (proj2 (Z.eqb_eq _ _) (eq_sym Hlen)).
  assert (0 < zlen (encode g)).
  { apply encode_pos. intros Eg. apply (f_equal length) in Eg. unfold g in Eg.
    rewrite length_take, length_drop in Eg. simpl in Eg. lia. }
  rewrite (proj2 (Z.ltb_lt _ _)) by lia. cbn [andb].
  destruct (bb_replaceUninitialized_ok b _ (encode g) _ (4 + zlen d) Hr)
    as (b1 & x & -> & Hb1 & Hx); [lia|by replace (zlen (encode g)) with
      (zlen (encode (take n l)) + zlen (encode g) - zlen (encode (take n l))) by lia|].
  cbn [mbind option_bind]. destruct (store_item b1 _ x _ t d Hb1 Hx) as (b' & E' & Hb').
  revert E'. cbn [mbind option_bind]. destruct (bb_store b1 _ _) as [b2|]; [|done].
  cbn [mbind option_bind]. intros ->. cbn [mbind option_bind].
  rewrite (bb_rep_data _ _ Hb'), !zlen_app, encode_item_length. cbn [item_body].
  pose proof (zlen_nonneg (encode (drop (n + k) l))).
  rewrite (proj2 (andb_true_iff _ _)) by lia. exists b'. split; [done|].
  by rewrite encode_app, encode_cons.
Qed.

Lemma item_id_cut j :
  item_ok j -> isExperimenter (item_type j) = true -> 4 <= oxm_length (item_type j) ->
  zlen (take 4 (item_body j)) = 4 /\
  encode_item j = (type_bytes (item_type j) ++ take 4 (item_body j)) ++ drop 4 (item_body j).
Proof.
  intros (_ & Hl & _) _ H4. unfold encode_item. rewrite <- app_assoc, take_drop.
  split; [rewrite zlen_take; lia|done].
Qed.

(** Replacing the value of the item found: it starts after the type, or
    after the experimenter id that follows it. *)
Lemma OXMList_replaceValue_ok b l1 j l2 d :
  bb_rep b (encode (l1 ++ j :: l2)) -> item_ok j ->
  (if isExperimenter (item_type j) then oxm_length (item_type j) = 4 + zlen d
   else oxm_length (item_type j) = zlen d) ->
  exists b', OXMList_replaceValue b (zlen (encode l1)) d = Some b' /\
    bb_rep b' (encode (l1 ++ Item (item_type j) (exp_id (item_type j) (j :: l2) ++ d) :: l2)).
Proof.
  intros Hr Hj Hlen. rewrite encode_app, encode_cons in Hr |- *.
  unfold OXMList_replaceValue, item_unknownValuePtr. rewrite (bb_rep_data _ _ Hr).
  rewrite (item_isExperimenter_at _ (encode l1) (encode l2) j) by done.
  cbn [mbind option_bind]. unfold exp_id. pose proof (zlen_nonneg d).
  destruct (isExperimenter (item_type j)) eqn:Ex; cbn [head fmap option_fmap option_map default id].
  - destruct (item_id_cut j Hj Ex) as [H4 E]; [lia|]. rewrite E, <- app_assoc, app_assoc in Hr.
    destruct Hj as (_ & Hlj & _).
    destruct (bb_store_ok b _ (drop 4 (item_body j)) (encode l2) d Hr) as (b' & E' & Hb').
    { rewrite zlen_drop. lia. }
    exists b'. rewrite !zlen_app, type_bytes_length, H4 in E'. split.
    + rewrite <- E'. rewrite (proj2 (Z.leb_le _ _)) by lia. cbn [andb]. f_equal. lia.
    + unfold encode_item. cbn [item_type item_body]. by rewrite <- !app_assoc in *.
  - destruct Hj as (_ & Hlj & _). unfold encode_item in Hr. rewrite <- app_assoc, app_assoc in Hr.
    destruct (bb_store_ok b (encode l1 ++ type_bytes (item_type j)) (item_body j) (encode l2) d Hr)
      as (b' & E & Hb'); [congruence|].
    rewrite zlen_app, type_bytes_length in E. rewrite Z.add_0_r. exists b'. split; [done|].
    unfold encode_item. cbn [item_type item_body]. by rewrite <- !app_assoc in *.
Qed.

Lemma OXMList_replace_value_ok b l t d :
  bb_rep b (encode l) -> Forall item_ok l -> oxm_op_pre b l (OReplaceValue t d) ->
  exists b' l1 l2, OXMList_replace_value b t d = Some b' /\
    cut_before (fun x => x =? t) l l1 l2 /\ item_ok (Item t (exp_id t l2 ++ d)) /\
    bb_rep b' (encode (l1 ++ Item t (exp_id t l2 ++ d) :: tail l2)).
Proof.
  intros Hr Hl (Hm & Ht & Hd & Hlen). unfold OXMList_replace_value, findValue.
  rewrite (bb_rep_data _ _ Hr).
  destruct (find_spec (fun x => x =? t) l Hl) as (l1 & l2 & Hcut & ->). cbn [mbind option_bind].
  pose proof Hcut as (El & H1 & H2). destruct l2 as [|j l2].
  - rewrite app_nil_r in El. subst l1. rewrite Z.eqb_refl. cbn [negb].
    destruct (isExperimenter t) eqn:Ex.
    { destruct Hlen as [_ (i & -> & Hi)%list_elem_of_fmap].
      rewrite Forall_forall in H1. by specialize (H1 i Hi); rewrite Z.eqb_refl in H1. }
    assert (item_ok (Item t d)) as Hi by (split; [done|split; [by symmetry|done]]).
    destruct (OXMList_add_ok b l t d Hr Hm Hi) as (b' & E & Hb').
    exists b', l, []. unfold exp_id. by rewrite Ex.
  - apply Z.eqb_eq in H2. subst l t. pose proof Hr as Hr2.
    rewrite encode_app, encode_cons in Hr2 |- *.
    apply Forall_app in Hl as [Hl1 [Hj Hl2]%Forall_cons].
    pose proof (encode_item_length j). pose proof (zlen_nonneg (item_body j)).
    pose proof (zlen_nonneg (encode l2)). rewrite (proj2 (Z.eqb_neq _ _)) by (rewrite !zlen_app; lia).
    cbn [negb]. destruct (OXMList_replaceValue_ok b l1 j l2 d Hr Hj) as (b' & E & Hb').
    { destruct (isExperimenter _); [apply Hlen|done]. }
    exists b', l1, (j :: l2). split; [done|]. split; [done|]. split; [|done].
    by eapply (exp_item_ok j (l1 ++ j :: l2)).
Qed.
End ListOps.

Lemma item_ok_exp_masked t e d m :
  0 <= t < 2 ^ 32 -> bytes_ok d -> bytes_ok m -> zlen d = zlen m ->
  oxm_length t = 4 + 2 * zlen d -> item_ok (Item t (be_bytes 4 e ++ MemCopyMasked d m ++ m)).
Proof.
  intros Ht Hd Hk Hl Hlen. unfold item_ok. cbn [item_type item_body].
  split; [done|]. split.
  - pose proof (type_bytes_length e) as He. unfold type_bytes in He. rewrite !zlen_app, He.
    unfold zlen in *. rewrite MemCopyMasked_length; lia.
  - rewrite !Forall_app. eauto using be_bytes_ok, MemCopyMasked_ok.
Qed.

(** C16. The operations of [OXMList], run on any byte buffer that keeps the
    [ByteBuffer] contract, do what they say on the list of fields: when the
    buffer holds the encoding of a list of well-formed items, every operation
    within the conditions of [oxm_op_pre] succeeds and leaves the encoding of
    the list that [items_step] describes, again well formed. Besides the
    code's own assertions the conditions are that a replacement longer than
    the range it replaces finds room in the buffer (otherwise the buffer
    underneath overflows), and that [replace(value)] of an experimenter field
    finds the field in the list. *)
Theorem OXMList_refines {B} `{ByteBufferLaws B} (b : B) l op :
  bb_rep b (encode l) -> Forall item_ok l -> oxm_op_pre b l op ->
  exists b' l', oxm_step b l op = Some b' /\ items_step l op l' /\
    Forall item_ok l' /\ bb_rep b' (encode l').
Proof.
  intros Hr Hl [Hm Hop].
  destruct op as [t d|t e d|t d m|t e d m|s|n s|t d|n k t d|t d|]; cbn [oxm_step items_step].
  - destruct (OXMList_add_ok b l t d Hr Hm Hop) as (b' & E & Hb').
    exists b', (l ++ [Item t d]). rewrite Forall_app, Forall_singleton. done.
  - destruct (OXMList_addExperimenter_ok b l t e d Hr Hm Hop) as (b' & E & Hb').
    eexists b', _. rewrite E. split_and!; try done. by rewrite Forall_app, Forall_singleton.
  - destruct Hop as (Ht & Hd & Hk & Hdm & Hlen).
    destruct (OXMList_add_masked_ok b l t d m Hr Hm Hdm Hlen) as (b' & E & Hb').
    eexists b', _. rewrite E. split_and!; try done. rewrite Forall_app, Forall_singleton.
    split; [done|]. by apply item_ok_masked.
  - destruct Hop as (Ht & Hd & Hk & Hdm & Hlen).
    destruct (OXMList_addExperimenter_masked_ok b l t e d m Hr Hm Hdm Hlen) as (b' & E & Hb').
    eexists b', _. rewrite E. split_and!; try done. rewrite Forall_app, Forall_singleton.
    split; [done|]. by apply item_ok_exp_masked.
  - destruct (bb_add_ok b _ (type_bytes s) Hr) as (b' & E & Hb'); [rewrite type_bytes_length; lia|].
    exists b', (l ++ [Item s []]). rewrite Forall_app, Forall_singleton, encode_snoc.
    unfold encode_item. cbn [item_type item_body]. by rewrite app_nil_r.
  - destruct Hop as [Hs Hn]. destruct (OXMList_insertSignal_ok b l n s Hr Hm) as (b' & E & Hb').
    eexists b', _. rewrite E. split_and!; try done.
    rewrite Forall_app, Forall_cons. eauto using Forall_take, Forall_drop.
  - destruct (OXMList_addOrdered_ok b l t d Hr Hl Hm Hop) as (b' & l1 & l2 & E & Hc & Hb').
    eexists b', _. rewrite E. split; [done|]. split; [eauto|]. split; [|done].
    destruct Hc as (-> & _). rewrite Forall_app, Forall_cons in *. naive_solver.
  - destruct Hop as (Hi & Hk & Hn & Hsz).
    destruct (OXMList_replace_ok b l n k t d Hr Hi Hk Hn Hsz) as (b' & -> & Hb').
    eexists b', _. split_and!; try done.
    rewrite Forall_app, Forall_cons. eauto using Forall_take, Forall_drop.
  - destruct (OXMList_replace_value_ok b l t d Hr Hl (conj Hm Hop))
      as (b' & l1 & l2 & E & Hc & Hi & Hb').
    eexists b', _. rewrite E. split; [done|]. split; [eauto|]. split; [|done].
    destruct Hc as (-> & _). rewrite Forall_app, Forall_cons in *.
    split_and!; [naive_solver|done|]. destruct l2; [done|]. simpl. by apply proj2, Forall_cons in Hl as [_ ?].
  - exists (bb_clear b), []. split_and!; try done. by eapply bb_clear_ok.
Qed.

Definition heap_zero (n : Z) : list Z := replicate (Z.to_nat n) 0.

#[export] Instance heap_zero_fill : HeapFill heap_zero.
Proof. intros n Hn. unfold heap_zero. rewrite zlen_replicate. lia. Qed.

Lemma OXMList_refines_witness :
  exists b' l',
    @oxm_step _ (SmallBuffer_ops heap_zero) sb_fresh [] (OAdd 0x80000a02 [8; 0]) = Some b' /\
    items_step [] (OAdd 0x80000a02 [8; 0]) l' /\ Forall item_ok l' /\
    represents b' (encode l').
Proof.
  apply (@OXMList_refines _ _ (SmallBuffer_laws heap_zero) sb_fresh []).
  - apply sb_fresh_represents.
  - constructor.
  - split; [done|]. split_and!; [done..|]. simpl. bytes.
Defined.

(** [addOrdered] keeps a list that is sorted by native type sorted, and
    puts the new field after every field that is not greater. *)
Theorem addOrdered_sorted {B} `{ByteBufferLaws B} (b : B) l t d :
  bb_rep b (encode l) -> Forall item_ok l -> zlen (encode l) + 1024 <= maxLength ->
  item_ok (Item t d) -> Sorted (fun i j => item_type i <= item_type j) l ->
  exists b' l', OXMList_addOrdered b t d = Some b' /\ bb_rep b' (encode l') /\
    Sorted (fun i j => item_type i <= item_type j) l' /\ l' ≡ₚ Item t d :: l.
Proof.
  intros Hr Hl Hm Hi Hs.
  destruct (OXMList_addOrdered_ok b l t d Hr Hl Hm Hi) as (b' & l1 & l2 & E & (-> & H1 & H2) & Hb').
  exists b', (l1 ++ Item t d :: l2). split_and!; [done|done| |by rewrite Permutation_middle].
  clear -H1 H2 Hs. induction l1 as [|i l1 IH]; simpl in *.
  - constructor; [by destruct l2; [constructor|inversion Hs]|].
    destruct l2 as [|j l2]; constructor. simpl. lia.
  - apply Forall_cons in H1 as [Hi H1]. inversion Hs as [|?? Hs' Hhd]; subst.
    constructor; [by apply IH|]. destruct l1 as [|j l1]; simpl in *; constructor; simpl; [lia|].
    by inversion Hhd.
Qed.

Lemma addOrdered_sorted_witness :
  exists b' l', @OXMList_addOrdered _ (SmallBuffer_ops heap_zero) sb_fresh 0x80000a02 [8; 0] = Some b' /\
    represents b' (encode l') /\ Sorted (fun i j => item_type i <= item_type j) l' /\
    l' ≡ₚ [Item 0x80000a02 [8; 0]].
Proof.
  apply (@addOrdered_sorted _ _ (SmallBuffer_laws heap_zero) sb_fresh []); try done.
  split_and!; [done..|]. simpl. bytes.
Defined.

(** ** OXM types *)

Lemma lor_rev4 a b c d :
  Z.lor (Z.lor (Z.lor a b) c) d = Z.lor (Z.lor (Z.lor d c) b) a.
Proof.
  apply Z.bits_inj'. intros i _. rewrite !Z.lor_spec.
  by destruct (Z.testbit a i), (Z.testbit b i), (Z.testbit c i), (Z.testbit d i).
Qed.

Lemma OXMType_make_eq cls field size mask :
  0 <= field < 2 ^ 7 -> 0 <= size < 2 ^ 8 ->
  OXMType_make cls field size mask = cls * 2 ^ 16 + field * 2 ^ 9 + Z.b2z mask * 2 ^ 8 + size.
Proof.
  intros Hf Hs. unfold OXMType_make.
  rewrite (land_ones_mod field 7), (Z.mod_small field) by (lia || done).
  replace (if mask then 0x100 else 0) with (Z.shiftl (Z.b2z mask) 8) by (by destruct mask).
  rewrite lor_rev4.
  assert (0 <= Z.b2z mask < 2) by (destruct mask; simpl; lia).
  rewrite (lor_shift_add size), (lor_shift_add _ field), lor_shift_add by lia. lia.
Qed.

Lemma oxm_accessors t :
  0 <= t ->
  oxmClass t = t / 2 ^ 16 /\ oxmField t = (t / 2 ^ 9) mod 2 ^ 7 /\ oxmSize t = t mod 2 ^ 8 /\
  Z.b2z (hasMask t) = (t / 2 ^ 8) mod 2.
Proof.
  intros Ht. unfold oxmClass, oxmField, oxmSize, hasMask.
  rewrite (land_ones_mod _ 7), (land_ones_mod t 8), !Z.shiftr_div_pow2 by (lia || done).
  split_and!; try done. change 0x100 with (Z.shiftl 1 8).
  rewrite land_flag, negb_involutive by lia. by rewrite Z.testbit_spec' by lia.
Qed.

Lemma make_accessors cls field size mask :
  0 <= cls < 2 ^ 16 -> 0 <= field < 2 ^ 7 -> 0 <= size < 2 ^ 8 ->
  0 <= OXMType_make cls field size mask < 2 ^ 32 /\
  oxmClass (OXMType_make cls field size mask) = cls /\
  oxmField (OXMType_make cls field size mask) = field /\
  oxmSize (OXMType_make cls field size mask) = size /\
  hasMask (OXMType_make cls field size mask) = mask.
Proof.
  intros Hc Hf Hs. assert (0 <= Z.b2z mask < 2) by (destruct mask; simpl; lia).
  rewrite OXMType_make_eq by done.
  destruct (oxm_accessors (cls * 2 ^ 16 + field * 2 ^ 9 + Z.b2z mask * 2 ^ 8 + size))
    as (-> & -> & -> & Hm); [lia|].
  assert (hasMask (cls * 2 ^ 16 + field * 2 ^ 9 + Z.b2z mask * 2 ^ 8 + size) = mask) as ->.
  { apply Z.b2z_inj. rewrite Hm. Z.to_euclidean_division_equations. lia. }
  split_and!; try done; Z.to_euclidean_division_equations; lia.
Qed.

(** A type is determined by its class, field, size and mask bit. *)
Lemma make_of_accessors t :
  0 <= t < 2 ^ 32 -> OXMType_make (oxmClass t) (oxmField t) (oxmSize t) (hasMask t) = t.
Proof.
  intros Ht. destruct (oxm_accessors t) as (Ec & Ef & Es & Em); [lia|].
  assert (0 <= oxmField t < 2 ^ 7) by (rewrite Ef; apply Z.mod_pos_bound; lia).
  assert (0 <= oxmSize t < 2 ^ 8) by (rewrite Es; apply Z.mod_pos_bound; lia).
  rewrite OXMType_make_eq by done. rewrite Ec, Ef, Es, Em.
  Z.to_euclidean_division_equations. lia.
Qed.

(** [OXMType::make] packs class, field, size and mask into 32 bits from
    which the accessors read them back; every 32-bit value arises this way. *)
Theorem OXMType_pack_unpack cls field size mask t :
  0 <= cls < 2 ^ 16 -> 0 <= field < 2 ^ 7 -> 0 <= size < 2 ^ 8 -> 0 <= t < 2 ^ 32 ->
  let v := OXMType_make cls field size mask in
  (oxmClass v, oxmField v, oxmSize v, hasMask v) = (cls, field, size, mask) /\
  OXMType_make (oxmClass t) (oxmField t) (oxmSize t) (hasMask t) = t.
Proof.
  intros Hc Hf Hs Ht v. destruct (make_accessors cls field size mask Hc Hf Hs) as (_ & H).
  split; [|by apply make_of_accessors]. unfold v. by destruct H as (-> & -> & -> & ->).
Qed.

Lemma OXMType_pack_unpack_witness :
  (oxmClass 0x80000a02, oxmField 0x80000a02, oxmSize 0x80000a02, hasMask 0x80000a02)
    = (0x8000, 5, 2, false) /\
  OXMType_make (oxmClass 0x80001908) (oxmField 0x80001908) (oxmSize 0x80001908)
    (hasMask 0x80001908) = 0x80001908.
Proof. apply (OXMType_pack_unpack 0x8000 5 2 false 0x80001908); lia. Defined.

(** Sizes for which the mask fits: the value doubled (the experimenter id is
    not doubled) still fits in the 8-bit length. *)
Definition maskable (t : Z) : Prop :=
  hasMask t = false /\ expSize t <= oxmSize t /\ (oxmSize t - expSize t) * 2 + expSize t < 256.

Lemma accessor_ranges t :
  0 <= t < 2 ^ 32 ->
  0 <= oxmClass t < 2 ^ 16 /\ 0 <= oxmField t < 2 ^ 7 /\ 0 <= oxmSize t < 2 ^ 8.
Proof.
  intros Ht. destruct (oxm_accessors t) as (-> & -> & -> & _); [lia|].
  split_and!; Z.to_euclidean_division_equations; lia.
Qed.

Lemma expSize_range t : 0 <= expSize t <= 4.
Proof. unfold expSize. destruct (isExperimenter t); lia. Qed.

(** The parts of a type with its mask added. *)
Lemma withMask_parts t :
  0 <= t < 2 ^ 32 -> maskable t ->
  hasMask (withMask t) = true /\ oxmClass (withMask t) = oxmClass t /\
  oxmField (withMask t) = oxmField t /\
  oxmSize (withMask t) = (oxmSize t - expSize t) * 2 + expSize t.
Proof.
  intros Ht (Hm & He & Hs). pose proof (expSize_range t).
  destruct (accessor_ranges t Ht) as (Hcl & Hfl & _).
  unfold withMask. rewrite Hm, u16_small by lia.
  destruct (make_accessors (oxmClass t) (oxmField t) ((oxmSize t - expSize t) * 2 + expSize t) true)
    as (_ & Ac & Af & As & Am); try done. lia.
Qed.

(** The parts of a type with its mask removed. *)
Lemma withoutMask_parts t :
  0 <= t < 2 ^ 32 ->
  hasMask (withoutMask t) = false /\ oxmClass (withoutMask t) = oxmClass t /\
  oxmField (withoutMask t) = oxmField t /\
  (hasMask t = true -> oxmSize (withoutMask t) = Z.quot (oxmSize t - expSize t) 2 + expSize t).
Proof.
  intros Ht. pose proof (expSize_range t). destruct (accessor_ranges t Ht) as (Hcl & Hfl & Hsl).
  unfold withoutMask. destruct (hasMask t) eqn:Hm; cbn [negb]; [|done].
  assert (0 <= Z.quot (oxmSize t - expSize t) 2 + expSize t < 2 ^ 8) as Hq.
  { Z.to_euclidean_division_equations; lia. }
  rewrite u16_small by lia.
  by destruct (make_accessors (oxmClass t) (oxmField t)
    (Z.quot (oxmSize t - expSize t) 2 + expSize t) false) as (_ & -> & -> & -> & ->).
Qed.

(** [withMask] doubles the length and sets the mask bit without touching
    class and field, and [withoutMask] undoes it, as long as the doubled length
    fits. *)
Theorem withMask_roundtrip t :
  0 <= t < 2 ^ 32 -> maskable t ->
  hasMask (withMask t) = true /\
  oxmClass (withMask t) = oxmClass t /\ oxmField (withMask t) = oxmField t /\
  oxm_length (withMask t) = (oxm_length t - expSize t) * 2 + expSize t /\
  withoutMask (withMask t) = t.
Proof.
  intros Ht Hk. destruct (withMask_parts t Ht Hk) as (Am & Ac & Af & As).
  split_and!; try done. pose proof Hk as (Hm & He & Hs). pose proof (expSize_range t).
  destruct (accessor_ranges t Ht) as (_ & _ & Hsl).
  unfold withoutMask. rewrite Am, Ac, Af, As. cbn [negb].
  assert (expSize (withMask t) = expSize t) as ->.
  { unfold expSize, isExperimenter. by rewrite Ac. }
  rewrite Z.add_simpl_r, Z.quot_mul, u16_small by lia.
  rewrite Z.sub_add, <- Hm. by apply make_of_accessors.
Qed.

Lemma withMask_roundtrip_witness :
  hasMask (withMask 0xFFFF0208) = true /\ oxmClass (withMask 0xFFFF0208) = oxmClass 0xFFFF0208 /\
  oxmField (withMask 0xFFFF0208) = oxmField 0xFFFF0208 /\
  oxm_length (withMask 0xFFFF0208) = (oxm_length 0xFFFF0208 - expSize 0xFFFF0208) * 2
    + expSize 0xFFFF0208 /\ withoutMask (withMask 0xFFFF0208) = 0xFFFF0208.
Proof. by apply (withMask_roundtrip 0xFFFF0208). Defined.

(** [length] and [hasMask], computed by masking the stored big-endian word
    in place, agree with the low byte and the mask bit of the native value on
    little- and big-endian hosts. *)
Theorem OXMType_host_independent le t :
  0 <= t < 2 ^ 32 ->
  OXMType_length le (OXMType_value32 le t) = oxm_length t /\
  OXMType_hasMask le (OXMType_value32 le t) = hasMask t.
Proof.
  intros Ht. destruct le; [|by unfold OXMType_length; rewrite Z.shiftr_0_r].
  unfold OXMType_length, OXMType_hasMask, OXMType_value32, hasMask, oxm_length.
  change (End8RightShift true) with 24. change (End8Bits true) with (Z.shiftl 255 (8 * 3)).
  change (MaskBits true) with (Z.shiftl 1 16). change 0x100 with (Z.shiftl 1 8).
  cbn [HostSwapByteOrder SwapByteOrder]. rewrite SwapFourBytes_spec.
  rewrite !land_flag, land_byte by lia. cbn [fmap list_fmap]. unfold be. cbn [foldl].
  pose proof (byte_at_range t 0). pose proof (byte_at_range t 1).
  pose proof (byte_at_range t 2). pose proof (byte_at_range t 3).
  split.
  - rewrite shiftr_field by lia. unfold oxmSize. rewrite (land_ones_mod t 8) by done.
    unfold byte_at at 1. rewrite Z.sub_diag, Z.mul_1_r.
    change (256 ^ 3) with (2 ^ 24). change (2 ^ 8) with 256.
    assert (byte_at t 0 = t mod 256) as <- by (unfold byte_at; by rewrite Z.div_1_r).
    Z.to_euclidean_division_equations; lia.
  - f_equal. f_equal. apply Z.b2z_inj. rewrite !Z.testbit_spec' by lia.
    assert (byte_at t 1 = (t / 2 ^ 8) mod 256) as E1 by done.
    Z.to_euclidean_division_equations; lia.
Qed.

Lemma OXMType_host_independent_witness :
  OXMType_length true (OXMType_value32 true 0x80001908) = oxm_length 0x80001908 /\
  OXMType_hasMask true (OXMType_value32 true 0x80001908) = hasMask 0x80001908.
Proof. apply (OXMType_host_independent true 0x80001908). lia. Defined.

(** ** Looking up a type in the sorted table *)

Definition row_key (r : Z * Z * Z) : Z := r.1.1.

Definition key_sorted (table : list (Z * Z * Z)) : Prop :=
  forall i j a b, (i <= j)%nat -> table !! i = Some a -> table !! j = Some b -> row_key a <= row_key b.

(** [lower_bound] splits its interval at the first key that is not below [v]. *)
Lemma lower_bound_spec fuel table v first count :
  key_sorted table -> 0 <= first -> 0 <= count -> first + count <= zlen table ->
  (Z.to_nat count < fuel)%nat ->
  exists i, lower_bound fuel table v first count = Some i /\ first <= i <= first + count /\
    (forall j a, first <= j < i -> table !! Z.to_nat j = Some a -> row_key a < v) /\
    (forall j a, i <= j < first + count -> table !! Z.to_nat j = Some a -> v <= row_key a).
Proof.
  intros Hs. revert first count. induction fuel as [|fuel IH]; intros first count H0 Hc Hl Hf; [lia|].
  cbn [lower_bound]. destruct (Z.leb_spec count 0).
  { exists first. split_and!; try done; try lia; intros; lia. }
  assert (0 <= count / 2 < count) as Hst by (Z.to_euclidean_division_equations; lia).
  destruct (lookup_lt_is_Some_2 table (Z.to_nat (first + count / 2))) as [r Hr];
    [unfold zlen in *; lia|].
  rewrite (proj2 (Z.leb_le 0 _)) by lia. rewrite Hr. destruct r as [[k e] id]. cbn.
  destruct (Z.ltb_spec k v).
  - destruct (IH (first + count / 2 + 1) (count - (count / 2 + 1))) as (i & -> & Hi & Hlt & Hge); [lia..|].
    exists i. split_and!; try done; try lia; [|intros; eapply Hge; eauto; lia].
    intros j a Hj Ha. destruct (decide (first + count / 2 < j)); [eapply Hlt; eauto; lia|].
    pose proof (Hs (Z.to_nat j) (Z.to_nat (first + count / 2)) a _ ltac:(lia) Ha Hr) as Hle. unfold row_key in *. simpl in *. lia.
  - destruct (IH first (count / 2)) as (i & -> & Hi & Hlt & Hge); [lia..|].
    exists i. split_and!; try done; try lia.
    intros j a Hj Ha. destruct (decide (j < first + count / 2)); [eapply Hge; eauto; lia|].
    pose proof (Hs (Z.to_nat (first + count / 2)) (Z.to_nat j) _ a ltac:(lia) Hr Ha) as Hle. unfold row_key in *. simpl in *. lia.
Qed.

(** The binary search cuts the table into the rows below [v] and the rest. *)
Lemma lower_bound_cut table v :
  key_sorted table ->
  exists t1 t2, table = t1 ++ t2 /\ Forall (fun r => row_key r < v) t1 /\
    Forall (fun r => v <= row_key r) t2 /\
    lower_bound (S (length table)) table v 0 (zlen table) = Some (zlen t1).
Proof.
  intros Hs. pose proof (zlen_nonneg table) as H0.
  destruct (lower_bound_spec (S (length table)) table v 0 (zlen table))
    as (i & E & Hi & Hlt & Hge); [done|done|done|lia|unfold zlen; lia|].
  exists (take (Z.to_nat i) table), (drop (Z.to_nat i) table). rewrite take_drop, zlen_take.
  split_and!; [done| | |rewrite E; f_equal; lia].
  - apply Forall_lookup. intros k r Hr. pose proof (lookup_lt_Some _ _ _ Hr) as Hk.
    rewrite length_take in Hk. rewrite lookup_take_lt in Hr by lia.
    apply (Hlt (Z.of_nat k) r); [lia|]. by rewrite Nat2Z.id.
  - apply Forall_lookup. intros k r Hr. rewrite lookup_drop in Hr.
    pose proof (lookup_lt_Some _ _ _ Hr). apply (Hge (i + Z.of_nat k) r).
    + unfold zlen in *. lia.
    + replace (Z.to_nat (i + Z.of_nat k)) with (Z.to_nat i + k)%nat by lia. done.
Qed.

(** Reference lookups: the first row with the wanted key. *)
Definition lookup_id (P : Z * Z * Z -> Prop) `{!forall r, Decision (P r)} (table : list (Z * Z * Z)) : Z :=
  match head (filter P table) with
  | Some (_, _, id) => id
  | None => OXMInternalID_UNKNOWN
  end.

Lemma filter_none {A} (P : A -> Prop) `{!forall r, Decision (P r)} t :
  Forall (fun r => ~ P r) t -> filter P t = [].
Proof. induction 1; [done|]. by rewrite filter_cons_False. Qed.

Lemma lookup_id_skip (P : Z * Z * Z -> Prop) `{!forall r, Decision (P r)} t1 t2 :
  Forall (fun r => ~ P r) t1 -> lookup_id P (t1 ++ t2) = lookup_id P t2.
Proof. intros Hn. unfold lookup_id. by rewrite filter_app, (filter_none P t1). Qed.

Lemma lookup_id_none (P : Z * Z * Z -> Prop) `{!forall r, Decision (P r)} t :
  Forall (fun r => ~ P r) t -> lookup_id P t = OXMInternalID_UNKNOWN.
Proof. intros Hn. unfold lookup_id. by rewrite (filter_none P t). Qed.

(** [internalID] and [internalID_Experimenter] search the sorted table with
    [std::lower_bound] and still find what a linear scan of the whole table
    would: the first row with the (unmasked) type, respectively with the type
    and experimenter, or UNKNOWN. *)
Theorem internalID_reference le table t experimenter :
  key_sorted table ->
  internalID le table t = Some (lookup_id (fun r => row_key r = unmasked_value32 le t) table) /\
  internalID_Experimenter le table t experimenter =
    Some (lookup_id (fun r => row_key r = unmasked_value32 le t /\ r.1.2 = experimenter) table).
Proof.
  intros Hs. unfold internalID, internalID_Experimenter. set (v := unmasked_value32 le t).
  destruct (lower_bound_cut table v Hs) as (t1 & t2 & -> & H1 & H2 & ->). cbn [mbind option_bind].
  rewrite !lookup_id_skip by (eapply Forall_impl; [exact H1|]; simpl; lia).
  assert (Z.to_nat (zlen t1) = length t1) as En by (unfold zlen; lia). rewrite En.
  rewrite drop_app_length, zlen_app. split.
  - destruct t2 as [|[[k e] id] t2].
    { change (zlen (@nil (Z * Z * Z))) with 0. by rewrite Z.add_0_r, Z.eqb_refl. }
    rewrite zlen_cons. pose proof (zlen_nonneg t2). rewrite (proj2 (Z.eqb_neq _ _)) by lia.
    rewrite list_lookup_middle by done. cbn [mbind option_bind]. f_equal.
    destruct (Z.eqb_spec k v) as [Hk|Hk].
    + unfold lookup_id. by rewrite filter_cons_True.
    + symmetry. apply lookup_id_none, Forall_lookup. intros n r Hr Hv.
      apply Forall_cons in H2 as [Hk' _]. unfold row_key in Hk'. simpl in Hk'.
      pose proof (Hs (length t1) (length t1 + n)%nat (k, e, id) r ltac:(lia)) as Hle.
      rewrite list_lookup_middle, lookup_app_r in Hle by lia.
      replace (length t1 + n - length t1)%nat with n in Hle by lia.
      specialize (Hle eq_refl Hr). unfold row_key in *. simpl in *. lia.
  - f_equal. assert (key_sorted t2) as Hs2.
    { intros i j a b Hij Ha Hb. apply (Hs (length t1 + i)%nat (length t1 + j)%nat); [lia| |];
        rewrite lookup_app_r by lia; by rewrite Nat.add_comm, Nat.add_sub. }
    clear Hs H1 En. induction t2 as [|[[k e] id] t2 IH]; [done|]. cbn [exp_scan].
    destruct (Z.eqb_spec k v) as [Hk|Hk]; cbn [negb].
    + destruct (Z.eqb_spec e experimenter) as [He|He].
      * unfold lookup_id. by rewrite filter_cons_True.
      * rewrite IH; [|by apply Forall_cons in H2 as []|].
        -- unfold lookup_id. rewrite filter_cons_False by (simpl; naive_solver). done.
        -- intros i j a b Hij. apply (Hs2 (S i) (S j)). lia.
    + symmetry. apply lookup_id_none, Forall_lookup. intros n r Hr [Hv _].
      apply Forall_cons in H2 as [Hk' _]. pose proof (Hs2 0%nat n (k, e, id) r ltac:(lia) eq_refl Hr).
      unfold row_key in *. simpl in *. lia.
Qed.

(** A table of three types with two experimenters, as a little-endian build
    would sort it. *)
Definition small_table : list (Z * Z * Z) :=
  [(0x020a0080, 0, 5); (0x0608FFFF, 1, 7); (0x0608FFFF, 2, 8); (0x080a0080, 0, 9)].

Lemma small_table_sorted : key_sorted small_table.
Proof.
  intros i j a b Hij Ha Hb. unfold small_table in *. unfold row_key.
  destruct i as [|[|[|[|]]]], j as [|[|[|[|]]]]; simplify_eq/=; lia.
Qed.

Lemma internalID_reference_witness :
  internalID true small_table 0xFFFF0806 = Some 7 /\
  internalID_Experimenter true small_table 0xFFFF0806 2 = Some 8.
Proof. apply (internalID_reference true small_table 0xFFFF0806 2 small_table_sorted). Defined.
