(* ===== verification/Prereq.v ===== *)
(** * Match prerequisites (src/ofp/prerequisites.cpp, oxmtypeset.cpp,
    include/ofp/matchbuilder.h)

    A match field may only be used when the fields it depends on are present
    (a TCP port needs the IP protocol and Ethernet type). [MatchBuilder::add]
    inserts the prerequisites of a field first, leaving placeholders
    ("signals", types that cannot occur on the wire) where several values are
    possible; a later [add] of the field substitutes the placeholder, and
    [validate] checks the result.

    The lists and ranges are lists of items (Oxm shows that this is exactly
    what the bytes are); an [OXMIterator] is the list of the items from its
    position up to the end of its range. [None] is a failing assertion or a
    read past the end. The table that maps a type to its prerequisites is
    generated at build time and is an argument. *)

From S2P Require Import Prelude.
From S2P Require Import ByteOrder.
From S2P Require Import Oxm.

Definition kMaskedPrereqSignal : Z := withMask (OXMType_make 0x7FF1 0 0 false).
Definition kValuePrereqSignal : Z := withMask (OXMType_make 0x7FF2 0 0 false).
Definition kPoisonPrereqSignal : Z := withMask (OXMType_make 0x7FF3 0 0 false).

Inductive FailureReason :=
  kUnresolvedAmbiguity | kConflictingPrerequisites | kMissingPrerequisite
| kDuplicateFieldsDetected.

(** ** Reading an item through its iterator *)

Definition type_at (it : list oxm_item) : option Z := item_type <$> head it.

(** [Item::isExperimenter] (see [item_isExperimenter_at]). *)
Definition item_exp (i : oxm_item) : bool :=
  isExperimenter (item_type i) && (4 <=? oxm_length (item_type i)).

(** [length] bytes from [unknownValuePtr() + skip]: they may run on into the
    following items of the buffer, but not past its end. *)
Definition value_at (it : list oxm_item) (skip length : Z) : option (list Z) :=
  i ← head it; slice (encode it) (4 + (if item_exp i then 4 else 0) + skip) length.

(** ** The four comparisons *)

Fixpoint match_masked (value mask preqValue : list Z) : bool :=
  match value, mask, preqValue with
  | v :: value', m :: mask', p :: preqValue' =>
      if negb (Z.land v m =? p) then false else match_masked value' mask' preqValue'
  | _, _, _ => true
  end.

(** [matchValueWithMask(length, data, preq)] *)
Definition matchValueWithMask_data (length : Z) (data : list Z) (preq : list oxm_item) : option bool :=
  pt ← type_at preq; assert! (2 * length =? oxm_length pt);;
  preqValue ← value_at preq 0 length; preqMask ← value_at preq length length;
  value ← slice data 0 length;
  Some (match_masked value preqMask preqValue).

Definition matchValueWithMask (length : Z) (pos preq : list oxm_item) : option bool :=
  t ← type_at pos; assert! (length =? oxm_length t);;
  value ← value_at pos 0 length; matchValueWithMask_data length value preq.

Definition matchMaskWithMask (length : Z) (pos preq : list oxm_item) : option bool :=
  t ← type_at pos; pt ← type_at preq;
  assert! (2 * length =? oxm_length t) && (2 * length =? oxm_length pt);;
  value ← value_at pos 0 length; mask ← value_at pos length length;
  preqValue ← value_at preq 0 length; preqMask ← value_at preq length length;
  Some (match_masked (zip_with Z.land value mask) preqMask preqValue).

(** [matchValueWithValue(length, data, preq)]: memcmp. *)
Definition matchValueWithValue_data (length : Z) (data : list Z) (preq : list oxm_item) : option bool :=
  p ← head preq;
  assert! (length =? oxm_length (item_type p)) ||
          (item_exp p && negb (be (take 4 (item_body p)) =? 0));;
  value ← slice data 0 length; preqValue ← value_at preq 0 length;
  Some (bool_decide (value = preqValue)).

Definition matchValueWithValue (length : Z) (pos preq : list oxm_item) : option bool :=
  t ← type_at pos; assert! (length =? oxm_length t);;
  value ← value_at pos 0 length; matchValueWithValue_data length value preq.

Definition matchMaskWithValue (length : Z) (pos preq : list oxm_item) : option bool :=
  t ← type_at pos; pt ← type_at preq;
  assert! (2 * length =? oxm_length t) && (length =? oxm_length pt);;
  value ← value_at pos 0 length; mask ← value_at pos length length;
  preqValue ← value_at preq 0 length;
  Some (forallb (fun m => m =? 0xFF) mask && bool_decide (value = preqValue)).

(** ** Checking one prerequisite against a range *)

Fixpoint advance_same (preqType : Z) (preq : list oxm_item) : list oxm_item :=
  match preq with
  | i :: preq' => if item_type i =? preqType then advance_same preqType preq' else preq
  | [] => []
  end.

(** [advancePreq]: past the current item and the following ones of its type. *)
Definition advancePreq (preqType : Z) (preq : list oxm_item) : option (list oxm_item) :=
  match preq with [] => None | _ :: preq' => Some (advance_same preqType preq') end.

(** [pos] runs over the range. *)
Fixpoint check_masked_loop (preqTypeMasked : Z) (preq pos : list oxm_item) : option bool :=
  match pos with
  | [] => Some false
  | i :: pos' =>
    let preqType := withoutMask preqTypeMasked in
    let valueLength := oxm_length preqType in
    if item_type i =? preqType then
      m ← matchValueWithMask valueLength pos preq;
      if (m : bool) then Some true else check_masked_loop preqTypeMasked preq pos'
    else if item_type i =? preqTypeMasked then
      m ← matchMaskWithMask valueLength pos preq;
      if (m : bool) then Some true else check_masked_loop preqTypeMasked preq pos'
    else check_masked_loop preqTypeMasked preq pos'
  end.

Definition checkPreqMasked (preqTypeMasked : Z) (preq range : list oxm_item) : option bool :=
  assert! hasMask preqTypeMasked;; check_masked_loop preqTypeMasked preq range.

(** The inner [while (true)] of [checkPreqValue]: the result and [*conflict]. *)
Fixpoint check_value_inner (preqType posType : Z) (pos preq : list oxm_item) (conflict : bool)
    : option (bool * bool) :=
  match preq with
  | [] => None
  | _ :: preq' =>
    let valueLength := oxm_length preqType in
    let again :=
      match preq' with
      | [] => Some (false, true)
      | j :: _ => if negb (item_type j =? preqType) then Some (false, true)
                  else check_value_inner preqType posType pos preq' true
      end in
    if posType =? preqType then
      m ← matchValueWithValue valueLength pos preq;
      if (m : bool) then Some (true, conflict) else again
    else if posType =? withMask preqType then
      m ← matchMaskWithValue valueLength pos preq;
      if (m : bool) then Some (true, conflict) else again
    else Some (false, conflict)
  end.

Fixpoint check_value_loop (preqType : Z) (preq pos : list oxm_item) (conflict : bool)
    : option (bool * bool) :=
  match pos with
  | [] => Some (false, conflict)
  | i :: pos' =>
    '(found, conflict') ← check_value_inner preqType (item_type i) pos preq conflict;
    if (found : bool) then Some (true, conflict')
    else check_value_loop preqType preq pos' conflict'
  end.

Definition checkPreqValue (preqType : Z) (preq range : list oxm_item) (conflict : bool)
    : option (bool * bool) :=
  assert! negb (hasMask preqType);; check_value_loop preqType preq range conflict.

(** ** Inserting prerequisites *)

Definition insertPreqMasked (preqTypeMasked : Z) (preq oxms : list oxm_item) : option (list oxm_item) :=
  ok ← checkPreqMasked preqTypeMasked preq oxms;
  if (ok : bool) then Some oxms
  else p ← head preq; Some (oxms ++ [Item kMaskedPrereqSignal []; p]).

(** The items of [preqType] at the front are added; the rest is the new [preq]. *)
Fixpoint add_same (preqType : Z) (preq oxms : list oxm_item) : list oxm_item * list oxm_item :=
  match preq with
  | i :: preq' => if item_type i =? preqType then add_same preqType preq' (oxms ++ [i])
                  else (preq, oxms)
  | [] => ([], oxms)
  end.

(** Returns the advanced [preq] and the oxms. *)
Definition insertPreqValue (preqType : Z) (preq oxms : list oxm_item)
    : option (list oxm_item * list oxm_item) :=
  '(ok, conflict) ← checkPreqValue preqType preq oxms false;
  match preq with
  | [] => None
  | p :: next =>
    if negb (ok : bool) then
      match next with
      | n :: next' =>
        if item_type n =? preqType then
          Some (add_same preqType next' (oxms ++ [Item kValuePrereqSignal []; p; n]))
        else Some (next, if negb (conflict : bool) then oxms ++ [p]
                         else oxms ++ [Item kPoisonPrereqSignal []])
      | [] => Some (next, if negb (conflict : bool) then oxms ++ [p]
                          else oxms ++ [Item kPoisonPrereqSignal []])
      end
    else preq' ← advancePreq preqType preq; Some (preq', oxms)
  end.

Fixpoint insert_loop (fuel : nat) (preq oxms : list oxm_item) : option (list oxm_item) :=
  match fuel with
  | O => None
  | S fuel' =>
    match preq with
    | [] => Some oxms
    | p :: _ =>
      let preqType := item_type p in
      if hasMask preqType then
        oxms' ← insertPreqMasked preqType preq oxms;
        preq' ← advancePreq preqType preq; insert_loop fuel' preq' oxms'
      else '(preq', oxms') ← insertPreqValue preqType preq oxms; insert_loop fuel' preq' oxms'
    end
  end.

Definition Prerequisites_insert (preqs oxms : list oxm_item) : option (list oxm_item) :=
  insert_loop (S (length preqs)) preqs oxms.

Definition insertAll (oxms : list oxm_item) (preqs : option (list oxm_item))
    : option (list oxm_item) :=
  match preqs with Some p => Prerequisites_insert p oxms | None => Some oxms end.

(** ** Checking a whole match *)

(** [Prerequisites::check]: against the items before the one that needs them. *)
Fixpoint check_loop (fuel : nat) (preq range : list oxm_item) (conflict : bool) : option bool :=
  match fuel with
  | O => None
  | S fuel' =>
    match preq with
    | [] => Some false
    | p :: next =>
      let preqType := item_type p in
      if hasMask preqType then
        ok ← checkPreqMasked preqType preq range;
        if (ok : bool) then Some true
        else preq' ← advancePreq preqType preq; check_loop fuel' preq' range conflict
      else
        '(ok, conflict') ← checkPreqValue preqType preq range conflict;
        if (ok : bool) then Some true else check_loop fuel' next range conflict'
    end
  end.

Definition Prerequisites_check (preqs range : list oxm_item) : option bool :=
  check_loop (S (length preqs)) preqs range false.

Section CheckAll.
(** [lookupInfo]: [None] for an unknown type, else its prerequisites if any. *)
Context (lookupInfo : Z -> option (option (list oxm_item))).

(** [before] are the items in front of [item]; the result is the answer and
    [*reason], which some failures leave as it was. *)
Fixpoint check_items (before items : list oxm_item) (reason : option FailureReason)
    : option (bool * option FailureReason) :=
  match items with
  | [] => Some (true, reason)
  | i :: items' =>
    let type := item_type i in
    if isIllegal type then
      Some (false,
        if (type =? kValuePrereqSignal) || (type =? kMaskedPrereqSignal)
        then Some kUnresolvedAmbiguity
        else if type =? kPoisonPrereqSignal then Some kConflictingPrerequisites else reason)
    else if isExperimenter type then check_items (before ++ [i]) items' reason
    else match lookupInfo type with
         | None | Some None => check_items (before ++ [i]) items' reason
         | Some (Some preqs) =>
             ok ← Prerequisites_check preqs before;
             if (ok : bool) then check_items (before ++ [i]) items' reason
             else Some (false, Some kMissingPrerequisite)
         end
  end.

Definition checkAll (oxm : list oxm_item) (reason : option FailureReason)
    : option (bool * option FailureReason) := check_items [] oxm reason.

(** [MatchBuilder::validate]. *)
Definition MatchBuilder_validate (oxms : list oxm_item) : option (bool * option FailureReason) :=
  checkAll oxms None.
End CheckAll.

(** ** Substituting a placeholder *)

(** [poisonDuplicatesAfterSubstitution] on the items after the new one. *)
Fixpoint poisonDuplicatesAfterSubstitution (type : Z) (rest : list oxm_item) : list oxm_item :=
  match rest with
  | [] => []
  | i :: rest' => if item_type i =? type then Item kPoisonPrereqSignal [] :: rest
                  else i :: poisonDuplicatesAfterSubstitution type rest'
  end.

(** [list->replace(start, iter, type, value, len)] and the search for duplicates. *)
Definition subst_replace (before : list oxm_item) (type : Z) (value : list Z) (len : Z)
    (rest : list oxm_item) : option (list oxm_item) :=
  assert! (oxm_length type =? len);;
  value ← slice value 0 len;
  Some (before ++ Item type value :: poisonDuplicatesAfterSubstitution type rest).

(** The [while (preqType == type)] loop over the values of a placeholder. The
    variable [preqType] is never assigned in it. [Some None]: [iter] reached
    the end of the list. *)
Fixpoint subst_values (before : list oxm_item) (preqType type : Z) (value : list Z) (len : Z)
    (iter : list oxm_item) : option (option (list oxm_item)) :=
  match iter with
  | [] => None
  | _ :: iter' =>
    m ← matchValueWithValue_data len value iter;
    if (m : bool) then
      rest ← advancePreq preqType iter;
      oxms ← subst_replace before type value len rest; Some (Some oxms)
    else match iter' with
         | [] => Some None
         | _ => subst_values before preqType type value len iter'
         end
  end.

(** [before ++ iter] is the list; [Some None] is the result [false]. *)
Fixpoint subst_loop (fuel : nat) (before iter : list oxm_item) (type : Z) (value : list Z) (len : Z)
    : option (option (list oxm_item)) :=
  match fuel with
  | O => None
  | S fuel' =>
    match iter with
    | [] => Some None
    | i :: iter' =>
      let escType := item_type i in
      if escType =? type then
        m ← matchValueWithValue_data len value iter;
        Some (Some (before ++ if negb (m : bool) then Item kPoisonPrereqSignal [] :: iter else iter))
      else if negb (escType =? kMaskedPrereqSignal) && negb (escType =? kValuePrereqSignal)
      then subst_loop fuel' (before ++ [i]) iter' type value len
      else
        match iter' with
        | [] => Some None
        | p :: iter'' =>
          let preqType := item_type p in
          if escType =? kMaskedPrereqSignal then
            assert! hasMask preqType;;
            m ← (if withoutMask preqType =? type
                 then matchValueWithMask_data len value iter' else Some false);
            if (m : bool) then
              oxms ← subst_replace before type value len iter''; Some (Some oxms)
            else subst_loop fuel' (before ++ [i; p]) iter'' type value len
          else
            assert! negb (hasMask preqType);;
            if preqType =? type then subst_values before preqType type value len iter'
            else subst_loop fuel' (before ++ [i]) iter' type value len
        end
    end
  end.

Definition substitute (oxms : list oxm_item) (type : Z) (value : list Z) (len : Z)
    : option (bool * list oxm_item) :=
  assert! negb (hasMask type);;
  if isExperimenter type then Some (false, oxms) else
  r ← subst_loop (S (length oxms)) [] oxms type value len;
  Some (match r with Some oxms' => (true, oxms') | None => (false, oxms) end).

(** The masked overload does nothing. *)
Definition substitute_masked (oxms : list oxm_item) : bool * list oxm_item := (false, oxms).

(** ** MatchBuilder::add for a field of the given type *)

Definition MatchBuilder_add (oxms : list oxm_item) (preqs : option (list oxm_item)) (type : Z)
    (value : list Z) : option (list oxm_item) :=
  oxms ← insertAll oxms preqs;
  '(done, oxms) ← substitute oxms type value (zlen value);
  if (done : bool) then Some oxms
  else assert! (oxm_length type =? zlen value);; Some (oxms ++ [Item type value]).

Definition MatchBuilder_add_masked (oxms : list oxm_item) (preqs : option (list oxm_item)) (type : Z)
    (value mask : list Z) : option (list oxm_item) :=
  oxms ← insertAll oxms preqs;
  let '(done, oxms) := substitute_masked oxms in
  if (done : bool) then Some oxms
  else assert! (oxm_length (withMask type) =? 2 * zlen value);;
    Some (oxms ++ [Item (withMask type) (zip_with Z.land value mask ++ mask)]).

(** ** OXMTypeSet: at most ten classes, each with its 128 fields as bits *)

Definition MaxOXMClasses : Z := 10.
Definition OXMTypeSet : Type := list (Z * Z).

Fixpoint OXMTypeSet_find (s : OXMTypeSet) (type : Z) : bool :=
  match s with
  | [] => false
  | (c, fields) :: s' =>
      if c =? oxmClass type then Z.testbit fields (oxmField type) else OXMTypeSet_find s' type
  end.

Fixpoint typeset_update (s : OXMTypeSet) (cls field : Z) : option (bool * OXMTypeSet) :=
  match s with
  | [] => None
  | (c, fields) :: s' =>
      if c =? cls then
        if negb (Z.testbit fields field) then Some (true, (c, Z.lor fields (Z.shiftl 1 field)) :: s')
        else Some (false, s)
      else match typeset_update s' cls field with
           | Some (b, s'') => Some (b, (c, fields) :: s'')
           | None => None
           end
  end.

Definition OXMTypeSet_add (s : OXMTypeSet) (type : Z) : bool * OXMTypeSet :=
  match typeset_update s (oxmClass type) (oxmField type) with
  | Some r => r
  | None =>
      if zlen s <? MaxOXMClasses
      then (true, s ++ [(oxmClass type, Z.shiftl 1 (oxmField type))])
      else (true, s)
  end.

Fixpoint dup_loop (s : OXMTypeSet) (oxm : list oxm_item) : bool :=
  match oxm with
  | [] => false
  | i :: oxm' =>
      let '(ok, s') := OXMTypeSet_add s (item_type i) in
      if negb ok then true else dup_loop s' oxm'
  end.

Definition duplicateFieldsDetected (oxm : list oxm_item) : bool := dup_loop [] oxm.

(** ** When an item satisfies a prerequisite *)

Definition satisfies (p i : oxm_item) : bool :=
  let t := item_type p in
  if hasMask t then
    let L := Z.to_nat (oxm_length (withoutMask t)) in
    let pv := take L (item_body p) in let pm := drop L (item_body p) in
    if item_type i =? withoutMask t then match_masked (item_body i) pm pv
    else if item_type i =? t
    then match_masked (zip_with Z.land (take L (item_body i)) (drop L (item_body i))) pm pv
    else false
  else
    let L := Z.to_nat (oxm_length t) in
    if item_type i =? t then bool_decide (item_body i = item_body p)
    else if item_type i =? withMask t
    then forallb (fun m => m =? 0xFF) (drop L (item_body i)) &&
         bool_decide (take L (item_body i) = item_body p)
    else false.

(** A prerequisite as the tables hold them: not an experimenter field; a masked
    one holds as much mask as value, another one has room for a mask. *)
Definition preq_ok (p : oxm_item) : Prop :=
  item_ok p /\ isExperimenter (item_type p) = false /\
  if hasMask (item_type p)
  then oxm_length (item_type p) = 2 * oxm_length (withoutMask (item_type p))
  else maskable (item_type p).

Lemma value_at_head i rest skip len :
  item_ok i -> isExperimenter (item_type i) = false -> 0 <= skip -> 0 <= len ->
  skip + len <= oxm_length (item_type i) ->
  value_at (i :: rest) skip len = Some (take (Z.to_nat len) (drop (Z.to_nat skip) (item_body i))).
Proof.
  intros (_ & Hl & _) He Hs Hn Hb. unfold value_at. cbn [head mbind option_bind].
  unfold item_exp. rewrite He. cbn [andb].
  destruct (cut_at (item_body i) skip) as (a & r & Ei & Ha); [lia|].
  rewrite Ei, zlen_app in Hl. destruct (cut_at r len) as (b & d & -> & Hb'); [lia|].
  rewrite (slice_split _ _ len (type_bytes (item_type i) ++ a) b (d ++ encode rest)).
  - rewrite Ei, drop_app_length', take_app_length' by (unfold zlen in *; lia). done.
  - rewrite encode_cons. unfold encode_item. rewrite Ei. by rewrite <- !app_assoc.
  - rewrite zlen_app, type_bytes_length. lia.
  - done.
Qed.

(** Taking the whole body. *)
Lemma body_take i n :
  item_ok i -> n = oxm_length (item_type i) -> take (Z.to_nat n) (item_body i) = item_body i.
Proof. intros (_ & Hl & _) ->. apply take_ge. unfold zlen in Hl. lia. Qed.

Lemma body_rest i n :
  item_ok i -> 2 * n = oxm_length (item_type i) ->
  take (Z.to_nat n) (drop (Z.to_nat n) (item_body i)) = drop (Z.to_nat n) (item_body i).
Proof. intros (_ & Hl & _) He. apply take_ge. rewrite length_drop. unfold zlen in Hl. lia. Qed.

Lemma item_length_nonneg i : 0 <= oxm_length (item_type i).
Proof. pose proof (oxm_length_range (item_type i)). lia. Qed.

(** One step of evaluation of the readers of an iterator. *)
Ltac step := cbn [type_at head fmap option_fmap option_map mbind option_bind orb andb];
  change (Z.to_nat 0) with O; rewrite ?drop_0.

(** The comparisons used for a prerequisite [p] against an item [i] compute
    [satisfies]. *)
Lemma match_satisfies_masked p pr i r :
  preq_ok p -> item_ok i -> hasMask (item_type p) = true ->
  let L := oxm_length (withoutMask (item_type p)) in
  (item_type i = withoutMask (item_type p) ->
   matchValueWithMask L (i :: r) (p :: pr) = Some (satisfies p i)) /\
  (item_type i = item_type p ->
   matchMaskWithMask L (i :: r) (p :: pr) = Some (satisfies p i)).
Proof.
  intros (Hp & Hx & Hlen) Hi Hm L. rewrite Hm in Hlen. fold L in Hlen.
  pose proof (oxm_length_range (withoutMask (item_type p))) as HL. fold L in HL.
  destruct (withoutMask_parts (item_type p)) as (Hwm & Hc & _); [apply Hp|].
  unfold satisfies. rewrite Hm. fold L. split; intros Et.
  - assert (isExperimenter (item_type i) = false) as Hix.
    { unfold isExperimenter in *. by rewrite Et, Hc. }
    assert (oxm_length (item_type i) = L) as Hli by (by rewrite Et).
    unfold matchValueWithMask, matchValueWithMask_data. step.
    rewrite Hli, Hlen, !Z.eqb_refl, (proj2 (Z.eqb_eq _ _) Et), !value_at_head by (done || lia). step.
    rewrite (body_take i) by (done || lia). rewrite slice_all; [|by destruct Hi as (_ & -> & _)].
    step. by rewrite (body_rest p L) by (done || lia).
  - assert (isExperimenter (item_type i) = false) as Hix by (by rewrite Et).
    assert (item_type p ≠ withoutMask (item_type p)) as Hne by congruence.
    unfold matchMaskWithMask. step.
    rewrite Et, Hlen, Z.eqb_refl. cbn [andb].
    rewrite !value_at_head by (done || rewrite ?Et; lia). step.
    rewrite (proj2 (Z.eqb_neq _ _) Hne), Z.eqb_refl.
    by rewrite !body_rest by (done || rewrite ?Et; lia).
Qed.

Lemma match_satisfies_value p pr i r :
  preq_ok p -> item_ok i -> hasMask (item_type p) = false ->
  let L := oxm_length (item_type p) in
  (item_type i = item_type p ->
   matchValueWithValue L (i :: r) (p :: pr) = Some (satisfies p i)) /\
  (item_type i = withMask (item_type p) ->
   matchMaskWithValue L (i :: r) (p :: pr) = Some (satisfies p i)).
Proof.
  intros (Hp & Hx & Hk) Hi Hm L. rewrite Hm in Hk. pose proof (oxm_length_range (item_type p)) as HL.
  fold L in HL. destruct (withMask_parts (item_type p)) as (Hwm & Hc & _ & Hs); [apply Hp|done|].
  unfold satisfies. rewrite Hm. fold L. split; intros Et.
  - assert (isExperimenter (item_type i) = false) as Hix by (by rewrite Et).
    unfold matchValueWithValue, matchValueWithValue_data. step.
    rewrite Et. fold L. rewrite Z.eqb_refl, !value_at_head by (done || rewrite ?Et; lia). step.
    rewrite !body_take by (done || by rewrite Et).
    rewrite slice_all; [|destruct Hi as (_ & -> & _); by rewrite Et]. by rewrite Z.eqb_refl.
  - assert (isExperimenter (item_type i) = false) as Hix.
    { unfold isExperimenter in *. by rewrite Et, Hc. }
    assert (withMask (item_type p) ≠ item_type p) as Hne by congruence.
    assert (oxm_length (item_type i) = 2 * L) as Hli.
    { rewrite Et. unfold oxm_length, L, oxm_length in *. rewrite Hs.
      unfold expSize. rewrite Hx. lia. }
    unfold matchMaskWithValue. step.
    rewrite Hli. fold L. rewrite !Z.eqb_refl. cbn [andb].
    rewrite !value_at_head by (done || rewrite ?Hli; lia). step.
    rewrite Et, (proj2 (Z.eqb_neq _ _) Hne), Z.eqb_refl.
    by rewrite (body_take p), (body_rest i L) by (done || lia).
Qed.

(** ** The loops compute [satisfies] over ranges *)

(** The items of type [t] at the front. *)
Fixpoint same_type (t : Z) (l : list oxm_item) : list oxm_item :=
  match l with
  | i :: l' => if item_type i =? t then i :: same_type t l' else []
  | [] => []
  end.

Lemma satisfies_other p i :
  item_type i ≠ item_type p ->
  item_type i ≠ (if hasMask (item_type p) then withoutMask (item_type p)
                 else withMask (item_type p)) -> satisfies p i = false.
Proof.
  intros H1 H2. unfold satisfies. destruct (hasMask (item_type p));
    by rewrite (proj2 (Z.eqb_neq _ _) H1), (proj2 (Z.eqb_neq _ _) H2).
Qed.

Lemma checkPreqMasked_spec p pr range :
  preq_ok p -> hasMask (item_type p) = true -> Forall item_ok range ->
  checkPreqMasked (item_type p) (p :: pr) range = Some (existsb (satisfies p) range).
Proof.
  intros Hp Hm Hr. unfold checkPreqMasked. rewrite Hm. cbn [negb].
  induction Hr as [|i range Hi Hr IH]; [done|]. cbn [check_masked_loop existsb].
  destruct (match_satisfies_masked p pr i range Hp Hi Hm) as [M1 M2].
  destruct (Z.eqb_spec (item_type i) (withoutMask (item_type p))) as [E1|E1].
  { rewrite (M1 E1). cbn. by destruct (satisfies p i). }
  destruct (Z.eqb_spec (item_type i) (item_type p)) as [E2|E2].
  { rewrite (M2 E2). cbn. by destruct (satisfies p i). }
  rewrite satisfies_other by (rewrite ?Hm; done). done.
Qed.

(** One step of the inner loop, when there is a next prerequisite [q]. *)
Lemma check_value_inner_cons t pt pos p q pr conflict :
  check_value_inner t pt pos (p :: q :: pr) conflict =
  let again := if negb (item_type q =? t) then Some (false, true)
               else check_value_inner t pt pos (q :: pr) true in
  if pt =? t then
    m ← matchValueWithValue (oxm_length t) pos (p :: q :: pr);
    if (m : bool) then Some (true, conflict) else again
  else if pt =? withMask t then
    m ← matchMaskWithValue (oxm_length t) pos (p :: q :: pr);
    if (m : bool) then Some (true, conflict) else again
  else Some (false, conflict).
Proof. done. Qed.

Lemma same_type_In x t l : In x (same_type t l) -> In x l /\ item_type x = t.
Proof.
  induction l as [|y l IH]; [done|]. simpl. destruct (Z.eqb_spec (item_type y) t); [|done].
  simpl. intros [->|H]; [auto|]. apply IH in H. tauto.
Qed.

(** One item against a run of values of one type. *)
Lemma check_value_inner_spec p pr i r conflict :
  Forall preq_ok (p :: pr) -> hasMask (item_type p) = false -> item_ok i ->
  exists conflict', check_value_inner (item_type p) (item_type i) (i :: r) (p :: pr) conflict =
    Some (existsb (fun q => satisfies q i) (p :: same_type (item_type p) pr), conflict').
Proof.
  intros Hps Hm Hi. set (t := item_type p) in *.
  assert (item_type p = t) as Et by done. clearbody t. revert p conflict Hps Et.
  induction pr as [|q pr IH]; intros p conflict [Hp Hpr]%Forall_cons Et.
  - cbn [check_value_inner]. subst t. destruct (match_satisfies_value p [] i r Hp Hi Hm) as [M1 M2]. cbn [same_type existsb].
    rewrite orb_false_r.
    destruct (Z.eqb_spec (item_type i) (item_type p)) as [E1|E1].
    { rewrite (M1 E1). cbn. destruct (satisfies p i); eauto. }
    destruct (Z.eqb_spec (item_type i) (withMask (item_type p))) as [E2|E2].
    { rewrite (M2 E2). cbn. destruct (satisfies p i); eauto. }
    rewrite satisfies_other by (rewrite ?Hm; done). eauto.
  - destruct (match_satisfies_value p (q :: pr) i r) as [M1 M2]; [done|done|by rewrite Et|].
    rewrite Et in M1, M2. rewrite check_value_inner_cons. cbn [same_type]. cbv zeta.
    (* both comparisons continue with the next value in the same way *)
    assert (exists c', (if negb (item_type q =? t) then Some (false, true)
                        else check_value_inner t (item_type i) (i :: r) (q :: pr) true) =
      Some (existsb (fun q => satisfies q i)
              (if item_type q =? t then q :: same_type t pr else []), c')) as Hnext.
    { destruct (Z.eqb_spec (item_type q) t) as [Eq|Eq]; cbn [negb]; [by apply IH|eauto]. }
    destruct Hnext as [c' Hnext]. cbn [existsb].
    destruct (Z.eqb_spec (item_type i) t) as [E1|E1].
    { rewrite (M1 E1). cbn [mbind option_bind]. destruct (satisfies p i); [eauto|].
      rewrite Hnext. eauto. }
    destruct (Z.eqb_spec (item_type i) (withMask t)) as [E2|E2].
    { rewrite (M2 E2). cbn [mbind option_bind]. destruct (satisfies p i); [eauto|].
      rewrite Hnext. eauto. }
    exists conflict. f_equal. f_equal. symmetry. apply not_true_iff_false. rewrite orb_true_iff.
    assert (forall x, item_type x = t -> satisfies x i = false) as Hno.
    { intros x Ex. apply satisfies_other; rewrite ?Ex, ?Hm; done. }
    rewrite (Hno p Et). intros [|Hex]; [done|].
    destruct (Z.eqb_spec (item_type q) t) as [Eq|]; [|done].
    apply existsb_exists in Hex as (x & Hx & Hs). rewrite Hno in Hs; [done|].
    destruct Hx as [Hxq|Hx]; [by subst x|]. by apply same_type_In in Hx as [_ ?].
Qed.

Lemma checkPreqValue_spec p pr range conflict :
  Forall preq_ok (p :: pr) -> hasMask (item_type p) = false -> Forall item_ok range ->
  exists conflict', checkPreqValue (item_type p) (p :: pr) range conflict =
    Some (existsb (fun i => existsb (fun q => satisfies q i) (p :: same_type (item_type p) pr)) range,
          conflict').
Proof.
  intros Hp Hm Hr. unfold checkPreqValue. rewrite Hm. cbn [negb]. revert conflict.
  induction Hr as [|i range Hi Hr IH]; intros conflict; [by exists conflict|].
  cbn [check_value_loop].
  destruct (check_value_inner_spec p pr i range conflict Hp Hm Hi) as [c' ->].
  destruct (IH c') as [c2 IH']. cbn [mbind option_bind existsb] in *.
  destruct (satisfies p i || _); [by exists c'|]. rewrite IH'. eauto.
Qed.

(** Masked prerequisites of one type do not follow each other. *)
Fixpoint masked_apart (l : list oxm_item) : Prop :=
  match l with
  | p :: ((q :: _) as l') =>
      (hasMask (item_type p) = true -> item_type q ≠ item_type p) /\ masked_apart l'
  | _ => True
  end.

Lemma check_loop_spec fuel preqs range conflict :
  Forall preq_ok preqs -> masked_apart preqs -> Forall item_ok range ->
  (length preqs < fuel)%nat ->
  check_loop fuel preqs range conflict =
    Some (existsb (fun p => existsb (satisfies p) range) preqs).
Proof.
  intros Hps Ha Hr. revert preqs conflict Hps Ha.
  induction fuel as [|fuel IH]; intros preqs conflict Hps Ha Hf; [lia|].
  destruct preqs as [|p pr]; [done|]. cbn [check_loop]. pose proof Hps as [Hp Hpr]%Forall_cons.
  assert (masked_apart pr) as Ha' by (destruct pr; [done|apply Ha]). simpl in Hf.
  destruct (hasMask (item_type p)) eqn:Hm.
  - rewrite checkPreqMasked_spec by done. cbn [mbind option_bind existsb].
    destruct (existsb (satisfies p) range); [done|]. cbn [advancePreq mbind option_bind].
    replace (advance_same (item_type p) pr) with pr; [by apply IH; [| |lia]|].
    destruct pr as [|q pr]; [done|]. simpl. destruct Ha as [Hne _].
    by rewrite (proj2 (Z.eqb_neq _ _) (Hne Hm)).
  - destruct (checkPreqValue_spec p pr range conflict Hps Hm Hr) as [c' ->].
    cbn [mbind option_bind]. destruct (existsb _ range) eqn:E.
    + symmetry. f_equal.
      apply existsb_exists in E as (i & Hi & (q & Hq & Hs)%existsb_exists).
      apply existsb_exists. exists q. split; [|apply existsb_exists; eauto].
      destruct Hq as [<-|Hq]; [by left|]. right. by apply same_type_In in Hq as [? _].
    + rewrite IH by (done || lia). f_equal. cbn [existsb]. replace (existsb (satisfies p) range) with false; [done|].
      symmetry. apply not_true_iff_false. intros (i & Hi & Hs)%existsb_exists.
      apply not_true_iff_false in E. apply E, existsb_exists. exists i. split; [done|].
      simpl. by rewrite Hs.
Qed.

(** ** Theorems: checking *)

(** Item [i] is in order after the items [before]. *)
Definition in_order (lookupInfo : Z -> option (option (list oxm_item))) (before : list oxm_item)
    (i : oxm_item) : Prop :=
  isIllegal (item_type i) = false /\
  (isExperimenter (item_type i) = false -> forall preqs, lookupInfo (item_type i) = Some (Some preqs) ->
   exists p j, In p preqs /\ In j before /\ satisfies p j = true).

Definition table_ok (lookupInfo : Z -> option (option (list oxm_item))) : Prop :=
  forall t preqs, lookupInfo t = Some (Some preqs) -> Forall preq_ok preqs /\ masked_apart preqs.

Lemma Prerequisites_check_spec preqs range :
  Forall preq_ok preqs -> masked_apart preqs -> Forall item_ok range ->
  exists b, Prerequisites_check preqs range = Some b /\
    (b = true <-> exists p j, In p preqs /\ In j range /\ satisfies p j = true).
Proof.
  intros Hp Ha Hr. eexists. split; [apply check_loop_spec; try done; lia|].
  rewrite existsb_exists. split.
  - intros (p & Hin & (j & Hj & Hs)%existsb_exists). eauto 10.
  - intros (p & j & Hin & Hj & Hs). exists p. split; [done|]. apply existsb_exists. eauto.
Qed.

Lemma check_items_spec lookupInfo before items reason :
  table_ok lookupInfo -> Forall item_ok (before ++ items) ->
  exists b r, check_items lookupInfo before items reason = Some (b, r) /\
    (b = true <-> forall l1 i l2, items = l1 ++ i :: l2 -> in_order lookupInfo (before ++ l1) i) /\
    (b = true -> r = reason).
Proof.
  intros Ht. revert before. induction items as [|i items IH]; intros before Hok.
  { exists true, reason. split_and!; try done. split; [|done]. intros _ [] ??; done. }
  assert (Forall item_ok ((before ++ [i]) ++ items)) as Hok' by (by rewrite <- app_assoc).
  destruct (IH (before ++ [i]) Hok') as (b & r & E & Hiff & Hr).
  (* an item in order: the answer is that for the rest *)
  assert (in_order lookupInfo before i -> (b = true <->
    forall l1 j l2, i :: items = l1 ++ j :: l2 -> in_order lookupInfo (before ++ l1) j)) as Hgo.
  { intros Hi. rewrite Hiff. split.
    - intros H [|k l1] j l2 [= -> Ej]; [by rewrite app_nil_r|].
      replace (before ++ k :: l1) with ((before ++ [k]) ++ l1) by (by rewrite <- app_assoc).
      by apply (H l1 j l2).
    - intros H l1 j l2 ->. rewrite <- app_assoc. by apply (H (i :: l1) j l2). }
  (* an item out of order refuses the match *)
  assert (forall r', ~ in_order lookupInfo before i -> exists b0 r0, Some (false, r') = Some (b0, r0) /\
    (b0 = true <-> forall l1 j l2, i :: items = l1 ++ j :: l2 -> in_order lookupInfo (before ++ l1) j) /\
    (b0 = true -> r0 = reason)) as Hno.
  { intros r' Hn. exists false, r'. split_and!; try done. split; [done|]. intros H. destruct Hn.
    rewrite <- (app_nil_r before). by apply (H [] i items). }
  cbn [check_items]. unfold in_order in Hgo, Hno at 1.
  destruct (isIllegal (item_type i)) eqn:Ei; [apply Hno; by intros []|].
  destruct (isExperimenter (item_type i)) eqn:Ex.
  { rewrite E. exists b, r. split_and!; [done|apply Hgo|]; naive_solver. }
  destruct (lookupInfo (item_type i)) as [[preqs|]|] eqn:El.
  2,3: rewrite E; exists b, r; split_and!; [done|apply Hgo|]; naive_solver.
  destruct (Ht _ _ El) as [Hp Ha]. apply Forall_app in Hok as [Hb _].
  destruct (Prerequisites_check_spec preqs before Hp Ha Hb) as (b1 & -> & Hb1).
  cbn [mbind option_bind]. destruct b1.
  - rewrite E. exists b, r. split_and!; [done|apply Hgo; naive_solver|done].
  - apply Hno. intros [_ H]. destruct (H eq_refl preqs eq_refl) as (p & j & Hin).
    by assert (false = true) by (apply Hb1; eauto).
Qed.

(** What the comment in [checkAll] promises ("check them all"): the items of a
    prerequisite list that have one type, with or without a mask, are
    alternatives, and for each such type one of them must be met by an earlier
    field. [in_order] asks for one item of the whole list only. *)
Definition all_met (lookupInfo : Z -> option (option (list oxm_item))) (before : list oxm_item)
    (i : oxm_item) : Prop :=
  isIllegal (item_type i) = false /\
  (isExperimenter (item_type i) = false -> forall preqs, lookupInfo (item_type i) = Some (Some preqs) ->
   forall p, In p preqs -> exists q j, In q preqs /\
     withoutMask (item_type q) = withoutMask (item_type p) /\ In j before /\ satisfies q j = true).

(** The prerequisites of field [i] are alternatives of one type. *)
Definition one_type (lookupInfo : Z -> option (option (list oxm_item))) (i : oxm_item) : Prop :=
  forall preqs, lookupInfo (item_type i) = Some (Some preqs) -> forall p q, In p preqs -> In q preqs ->
    withoutMask (item_type q) = withoutMask (item_type p).

Lemma all_met_in_order lookupInfo before i :
  (forall preqs, lookupInfo (item_type i) = Some (Some preqs) -> preqs <> []) ->
  all_met lookupInfo before i -> in_order lookupInfo before i.
Proof.
  intros Hne [Hi H]. split; [done|]. intros Hx preqs El. specialize (Hne _ El).
  destruct preqs as [|p preqs]; [done|].
  destruct (H Hx _ El p ltac:(by left)) as (q & j & ? & _ & ? & ?). eauto.
Qed.

Lemma in_order_all_met lookupInfo before i :
  one_type lookupInfo i -> in_order lookupInfo before i -> all_met lookupInfo before i.
Proof.
  intros Hone [Hi H]. split; [done|]. intros Hx preqs El p Hp.
  destruct (H Hx _ El) as (q & j & ? & ? & ?). exists q, j. split_and!; eauto.
Qed.

(** C30. On every well-formed match [Prerequisites::checkAll] terminates
    without reading out of range. It never refuses a match in which every
    field is legal and has all its prerequisites met by earlier fields. What
    it accepts has, for every field with prerequisites, at least one of them
    met; so it accepts exactly the matches with all prerequisites met when the
    prerequisites of each field are alternatives of one type. For fields with
    prerequisites of several types it is laxer than its comment says: see
    [validate_accepts_partial_prerequisites]. *)
Theorem checkAll_prerequisites lookupInfo oxm reason :
  table_ok lookupInfo -> (forall t, lookupInfo t <> Some (Some [])) -> Forall item_ok oxm ->
  exists b r, checkAll lookupInfo oxm reason = Some (b, r) /\
    ((forall l1 i l2, oxm = l1 ++ i :: l2 -> all_met lookupInfo l1 i) -> b = true) /\
    (b = true <-> forall l1 i l2, oxm = l1 ++ i :: l2 -> in_order lookupInfo l1 i) /\
    (Forall (one_type lookupInfo) oxm ->
     b = true -> forall l1 i l2, oxm = l1 ++ i :: l2 -> all_met lookupInfo l1 i) /\
    (b = true -> r = reason).
Proof.
  intros Ht Hne Hok. destruct (check_items_spec lookupInfo [] oxm reason Ht Hok)
    as (b & r & E & Hiff & Hr). exists b, r. split_and!; try done.
  - intros H. apply Hiff. intros l1 i l2 El. apply all_met_in_order; [|by eapply H].
    intros preqs Ep ->. by apply (Hne (item_type i)).
  - intros Hone Hb l1 i l2 El. apply in_order_all_met; [|by eapply Hiff].
    subst oxm. by apply Forall_app in Hone as [_ [? _]%Forall_cons].
Qed.

(** The fields of the examples, and a part of the table of oxmfields.tab. *)
Definition ETH_TYPE : Z := 0x80000a02.
Definition VLAN_VID : Z := 0x80000c02.
Definition IP_PROTO : Z := 0x80001401.
Definition TCP_SRC : Z := 0x80001a02.
Definition TCP_DST : Z := 0x80001c02.

Definition eth_preqs : list oxm_item := [Item ETH_TYPE [0x08; 0x00]; Item ETH_TYPE [0x86; 0xdd]].
Definition tcp_preqs : list oxm_item := eth_preqs ++ [Item IP_PROTO [6]].

Definition oxm_table (t : Z) : option (option (list oxm_item)) :=
  if t =? ETH_TYPE then Some None
  else if t =? IP_PROTO then Some (Some eth_preqs)
  else if (t =? TCP_SRC) || (t =? TCP_DST) then Some (Some tcp_preqs)
  else None.

Lemma oxm_table_ok : table_ok oxm_table.
Proof.
  intros t preqs. unfold oxm_table, eth_preqs, tcp_preqs. split_ifs; intros [= <-];
    (split; [|by split_and!]); repeat constructor; done || (vm_compute; congruence).
Qed.

Definition tcp_match : list oxm_item :=
  [Item ETH_TYPE [0x08; 0x00]; Item IP_PROTO [6]; Item TCP_DST [0; 80]].

Lemma tcp_match_ok : Forall item_ok tcp_match.
Proof. repeat constructor; done || (vm_compute; congruence). Qed.

Lemma checkAll_prerequisites_witness :
  exists b r, checkAll oxm_table tcp_match None = Some (b, r) /\
    ((forall l1 i l2, tcp_match = l1 ++ i :: l2 -> all_met oxm_table l1 i) -> b = true) /\
    (b = true <-> forall l1 i l2, tcp_match = l1 ++ i :: l2 -> in_order oxm_table l1 i) /\
    (Forall (one_type oxm_table) tcp_match ->
     b = true -> forall l1 i l2, tcp_match = l1 ++ i :: l2 -> all_met oxm_table l1 i) /\
    (b = true -> r = None).
Proof.
  apply (checkAll_prerequisites oxm_table tcp_match None oxm_table_ok); [|exact tcp_match_ok].
  intros t. unfold oxm_table. split_ifs; done.
Defined.

(** A field with several prerequisites is accepted when only one of them is
    met: a match on a TCP port passes [validate] with an Ethernet type alone,
    although the IP protocol is one of the port's prerequisites and nothing in
    the match satisfies it. *)
Theorem validate_accepts_partial_prerequisites :
  let oxm := [Item ETH_TYPE [0x08; 0x00]; Item TCP_DST [0; 80]] in
  MatchBuilder_validate oxm_table oxm = Some (true, None) /\
  ~ all_met oxm_table [Item ETH_TYPE [0x08; 0x00]] (Item TCP_DST [0; 80]).
Proof.
  split; [by vm_compute|]. intros [_ H].
  destruct (H eq_refl tcp_preqs eq_refl (Item IP_PROTO [6])) as (q & j & Hq & Ht & Hj & Hs);
    [simpl; tauto|].
  destruct Hj as [<-|[]]. simpl in Hq. destruct Hq as [<-|[<-|[<-|[]]]]; vm_compute in Ht, Hs; done.
Qed.

(** ** Theorems: inserting prerequisites *)

Lemma advance_same_split t l :
  exists run, l = run ++ advance_same t l /\ Forall (fun i => item_type i = t) run.
Proof.
  induction l as [|i l (run & E & Hr)]; [by exists []|]. simpl.
  destruct (Z.eqb_spec (item_type i) t) as [Ei|]; [|by exists []].
  exists (i :: run). split; [by rewrite E at 1|by constructor].
Qed.

Lemma add_same_eq t l oxms :
  add_same t l oxms = (advance_same t l, oxms ++ same_type t l).
Proof.
  revert oxms. induction l as [|i l IH]; intros oxms; simpl; [by rewrite app_nil_r|].
  destruct (item_type i =? t); [|by rewrite app_nil_r]. by rewrite IH, <- app_assoc.
Qed.

(** What insertion achieves for a prerequisite: a field (or placeholder value)
    satisfying a prerequisite of its type is in the list, or the list has been
    poisoned because of conflicting values. *)
Definition settled (preqs oxms : list oxm_item) (p : oxm_item) : Prop :=
  (exists q i, In q preqs /\ item_type q = item_type p /\ In i oxms /\ satisfies q i = true) \/
  In (Item kPoisonPrereqSignal []) oxms.

(** A table entry is consistent if its value lies within its own mask. *)
Definition preqs_ok (preqs : list oxm_item) : Prop :=
  Forall (fun p => preq_ok p /\ satisfies p p = true) preqs.

Lemma preqs_ok_preq preqs : preqs_ok preqs -> Forall preq_ok preqs.
Proof. intros H. eapply Forall_impl; [exact H|]. by intros ? []. Qed.

Lemma preqs_ok_item preqs : preqs_ok preqs -> Forall item_ok preqs.
Proof. intros H. eapply Forall_impl; [exact H|]. by intros ? [[] _]. Qed.

(** A check that succeeded settles the prerequisite. *)
Lemma settled_found p pr oxms :
  existsb (fun i => existsb (fun q => satisfies q i) (p :: same_type (item_type p) pr)) oxms = true ->
  settled (p :: pr) oxms p.
Proof.
  intros (i & Hi & (q & Hq & Hs)%existsb_exists)%existsb_exists. left. exists q, i.
  destruct Hq as [<-|Hq]; [split_and!; auto; by left|].
  apply same_type_In in Hq as [Hin Et]. split_and!; auto. by right.
Qed.

(** One turn of the loop: a run of prerequisites of one type is consumed, items
    are only appended, and the run is settled. *)
Definition turn (p : oxm_item) (pr oxms : list oxm_item) (r : option (list oxm_item * list oxm_item))
    : Prop :=
  exists run preq' l, r = Some (preq', oxms ++ l) /\ pr = run ++ preq' /\
    Forall (fun i => item_type i = item_type p) run /\ Forall item_ok l /\
    settled (p :: pr) (oxms ++ l) p.

Lemma settled_self p pr oxms l :
  satisfies p p = true -> In p l -> settled (p :: pr) (oxms ++ l) p.
Proof.
  intros Hs Hin. left. exists p, p. split_and!; auto; [by left|]. apply in_or_app. by right.
Qed.

Lemma insertPreqMasked_turn p pr oxms :
  preqs_ok (p :: pr) -> hasMask (item_type p) = true -> Forall item_ok oxms ->
  turn p pr oxms (oxms' ← insertPreqMasked (item_type p) (p :: pr) oxms;
                  preq' ← advancePreq (item_type p) (p :: pr); Some (preq', oxms')).
Proof.
  intros Hps Hm Ho. pose proof Hps as [[Hp Hself] _]%Forall_cons. unfold insertPreqMasked.
  rewrite checkPreqMasked_spec by done. cbn [mbind option_bind advancePreq head].
  destruct (advance_same_split (item_type p) pr) as (run & E & Hrun).
  destruct (existsb (satisfies p) oxms) eqn:Ex; cbn [mbind option_bind].
  - exists run, (advance_same (item_type p) pr), []. rewrite app_nil_r. split_and!; try done.
    apply existsb_exists in Ex as (i & Hi & Hs). left. exists p, i. split_and!; auto. by left.
  - exists run, (advance_same (item_type p) pr), [Item kMaskedPrereqSignal []; p].
    split_and!; try done.
    + constructor; [by split_and!|]. constructor; [apply Hp|done].
    + apply settled_self; [done|]. simpl. tauto.
Qed.

Lemma signal_value_ok : item_ok (Item kValuePrereqSignal []).
Proof. by split_and!. Qed.

Lemma signal_poison_ok : item_ok (Item kPoisonPrereqSignal []).
Proof. by split_and!. Qed.

Lemma same_type_ok t l : Forall item_ok l -> Forall item_ok (same_type t l).
Proof. induction 1; simpl; [done|]. destruct (_ =? t); by constructor. Qed.

(** The single value that could not be found: added, or poison on conflict. *)
Lemma insert_single p pr oxms (conflict : bool) :
  item_ok p -> satisfies p p = true ->
  turn p pr oxms (Some (pr, if negb conflict then oxms ++ [p] else oxms ++ [Item kPoisonPrereqSignal []])).
Proof.
  intros Hp Hs. exists [], pr. destruct conflict; cbn [negb].
  - exists [Item kPoisonPrereqSignal []]. split_and!; try done; [constructor; [apply signal_poison_ok|done]|].
    right. apply in_or_app. simpl. tauto.
  - exists [p]. split_and!; try done; [by constructor|]. apply settled_self; [done|by left].
Qed.

Lemma insertPreqValue_turn p pr oxms :
  preqs_ok (p :: pr) -> hasMask (item_type p) = false -> Forall item_ok oxms ->
  turn p pr oxms (insertPreqValue (item_type p) (p :: pr) oxms).
Proof.
  intros Hps Hm Ho. pose proof Hps as [[Hp Hself] Hpr]%Forall_cons. unfold insertPreqValue.
  destruct (checkPreqValue_spec p pr oxms false (preqs_ok_preq _ Hps) Hm Ho) as [c ->].
  cbn [mbind option_bind]. destruct (existsb _ oxms) eqn:Ex; cbn [negb].
  - cbn [advancePreq mbind option_bind].
    destruct (advance_same_split (item_type p) pr) as (run & E & Hrun).
    exists run, (advance_same (item_type p) pr), []. rewrite app_nil_r. split_and!; try done.
    by apply settled_found.
  - destruct pr as [|n pr]; [apply insert_single; [apply Hp|done]|].
    destruct (Z.eqb_spec (item_type n) (item_type p)) as [En|En];
      [|apply insert_single; [apply Hp|done]].
    rewrite add_same_eq. destruct (advance_same_split (item_type p) pr) as (run & E & Hrun).
    apply preqs_ok_item in Hpr as [Hn Hpr]%Forall_cons.
    exists (n :: run), (advance_same (item_type p) pr),
      ([Item kValuePrereqSignal []; p; n] ++ same_type (item_type p) pr).
    split_and!.
    + by rewrite <- app_assoc.
    + simpl. by rewrite E at 1.
    + by constructor.
    + apply Forall_app. split; [|by apply same_type_ok].
      constructor; [apply signal_value_ok|]. constructor; [apply Hp|]. by constructor.
    + apply settled_self; [done|]. simpl. tauto.
Qed.

Lemma settled_mono ps ps' oxms l p :
  incl ps ps' -> settled ps oxms p -> settled ps' (oxms ++ l) p.
Proof.
  intros Hi [(q & i & Hq & Et & Hin & Hs)|Hp]; [left|right; apply in_or_app; by left].
  exists q, i. split_and!; auto. apply in_or_app. by left.
Qed.

Lemma settled_same_type ps oxms p q :
  item_type q = item_type p -> settled ps oxms p -> settled ps oxms q.
Proof. intros E. unfold settled. by rewrite E. Qed.

Lemma insert_loop_spec fuel preq oxms :
  preqs_ok preq -> Forall item_ok oxms -> (length preq < fuel)%nat ->
  exists l, insert_loop fuel preq oxms = Some (oxms ++ l) /\ Forall item_ok (oxms ++ l) /\
    Forall (settled preq (oxms ++ l)) preq.
Proof.
  revert preq oxms. induction fuel as [|fuel IH]; intros preq oxms Hps Ho Hf; [lia|].
  destruct preq as [|p pr]; cbn [insert_loop]; [exists []; by rewrite app_nil_r|].
  assert (exists r, turn p pr oxms r /\
    (if hasMask (item_type p) then
       oxms' ← insertPreqMasked (item_type p) (p :: pr) oxms;
       preq' ← advancePreq (item_type p) (p :: pr); insert_loop fuel preq' oxms'
     else '(preq', oxms') ← insertPreqValue (item_type p) (p :: pr) oxms; insert_loop fuel preq' oxms') =
    ('(preq', oxms') ← r; insert_loop fuel preq' oxms')) as (r & Hturn & ->).
  { destruct (hasMask (item_type p)) eqn:Hm; eexists; split.
    - by apply insertPreqMasked_turn.
    - by destruct (insertPreqMasked _ _ _).
    - by apply insertPreqValue_turn.
    - done. }
  destruct Hturn as (run & preq' & l1 & -> & -> & Hrun & Hl1 & Hset). cbn [mbind option_bind].
  apply Forall_cons in Hps as [_ [_ Hps]%Forall_app].
  destruct (IH preq' (oxms ++ l1)) as (l2 & -> & Hok & Hall); [done|by apply Forall_app| |].
  { simpl in Hf. rewrite length_app in Hf. lia. }
  exists (l1 ++ l2). rewrite <- app_assoc in *. split_and!; try done.
  assert (settled (p :: run ++ preq') (oxms ++ l1 ++ l2) p) as Hp.
  { rewrite app_assoc. eapply settled_mono; [apply incl_refl|done]. }
  constructor; [done|]. apply Forall_app. split.
  - eapply Forall_impl; [exact Hrun|]. intros q Eq. by apply (settled_same_type _ _ p).
  - eapply Forall_impl; [exact Hall|]. intros q Hq. rewrite <- (app_nil_r (oxms ++ l1 ++ l2)).
    eapply settled_mono; [|exact Hq]. intros x Hx. right. apply in_or_app. by right.
Qed.

(** C31. [Prerequisites::insertAll] terminates on every list and prerequisite
    table entry (the source asks whether it can loop), reads nothing out of
    range, only appends to the list, and settles every prerequisite: afterwards
    a field or placeholder value satisfying it is present, or the list is
    poisoned. *)
Theorem insertAll_settles oxms preqs :
  preqs_ok preqs -> Forall item_ok oxms ->
  exists l, insertAll oxms (Some preqs) = Some (oxms ++ l) /\ Forall item_ok (oxms ++ l) /\
    Forall (settled preqs (oxms ++ l)) preqs.
Proof. intros Hp Ho. apply insert_loop_spec; [done|done|lia]. Qed.

Lemma tcp_preqs_ok : preqs_ok tcp_preqs.
Proof.
  unfold preqs_ok, tcp_preqs, eth_preqs. repeat constructor; done || (vm_compute; congruence).
Qed.

Lemma insertAll_settles_witness :
  exists l, insertAll [] (Some tcp_preqs) = Some ([] ++ l) /\ Forall item_ok ([] ++ l) /\
    Forall (settled tcp_preqs ([] ++ l)) tcp_preqs.
Proof. apply (insertAll_settles [] tcp_preqs tcp_preqs_ok). constructor. Defined.

(** ** Theorems: substitution *)

Lemma compare_head p rest t value :
  item_ok p -> item_type p = t -> isExperimenter t = false -> zlen value = oxm_length t ->
  matchValueWithValue_data (zlen value) value (p :: rest) = Some (bool_decide (value = item_body p)).
Proof.
  intros Hp <- Hx Hl. pose proof (item_length_nonneg p). unfold matchValueWithValue_data. step.
  rewrite Hl, Z.eqb_refl. cbn [orb]. rewrite slice_all by done. step.
  rewrite value_at_head by (done || lia). step. by rewrite body_take.
Qed.

(** An item that [substitute] walks past. *)
Definition plain (t : Z) (i : oxm_item) : Prop :=
  item_type i ≠ t /\ item_type i ≠ kMaskedPrereqSignal /\ item_type i ≠ kValuePrereqSignal.

Lemma subst_loop_plain fuel before plains iter t value len :
  Forall (plain t) plains ->
  subst_loop (length plains + fuel) before (plains ++ iter) t value len =
  subst_loop fuel (before ++ plains) iter t value len.
Proof.
  intros Hp. revert before. induction Hp as [|i plains (H1 & H2 & H3) Hp IH]; intros before.
  { by rewrite app_nil_r. }
  cbn [length Nat.add app subst_loop].
  rewrite (proj2 (Z.eqb_neq _ _) H1), (proj2 (Z.eqb_neq _ _) H2), (proj2 (Z.eqb_neq _ _) H3).
  cbn [negb andb]. by rewrite IH, <- app_assoc.
Qed.

(** The first matching value of the group is found, and the whole group goes. *)
Lemma subst_values_found before group rest t value :
  Forall (fun i => item_ok i /\ item_type i = t) group ->
  In value (item_body <$> group) -> isExperimenter t = false -> zlen value = oxm_length t ->
  match rest with [] => True | i :: _ => item_type i ≠ t end ->
  subst_values before t t value (zlen value) (group ++ rest) =
  Some (Some (before ++ Item t value :: poisonDuplicatesAfterSubstitution t rest)).
Proof.
  intros Hg Hin Hx Hl Hrest.
  induction Hg as [|p group [Hp Et] Hg IH]; [done|]. cbn [app subst_values].
  rewrite (compare_head p (group ++ rest) t) by done. cbn [mbind option_bind].
  destruct (bool_decide_reflect (value = item_body p)) as [Ev|Ev].
  - cbn [advancePreq mbind option_bind]. unfold subst_replace.
    assert (advance_same t (group ++ rest) = rest) as ->.
    { clear -Hg Hrest. induction Hg as [|q group [_ Eq] Hg IH]; simpl.
      - destruct rest as [|i rest]; [done|]. simpl. by rewrite (proj2 (Z.eqb_neq _ _) Hrest).
      - by rewrite Eq, Z.eqb_refl. }
    rewrite Hl, Z.eqb_refl. by rewrite <- Hl, slice_all.
  - destruct Hin as [Hin|Hin]; [congruence|]. specialize (IH Hin).
    destruct group as [|q group]; [done|]. cbn [app] in *. done.
Qed.

(** When the list holds a placeholder for the field being added, and the
    added value is one the placeholder allows, [substitute] replaces the whole
    placeholder (signal and all its values) by the field at the same place and
    leaves everything else alone, except that a later duplicate of the field
    is marked with poison. *)
Theorem substitute_placeholder before group rest t value :
  Forall (plain t) before ->
  Forall (fun i => item_ok i /\ item_type i = t) group ->
  match rest with [] => True | i :: _ => item_type i ≠ t end ->
  In value (item_body <$> group) -> t ≠ kValuePrereqSignal ->
  isExperimenter t = false -> hasMask t = false -> zlen value = oxm_length t ->
  substitute (before ++ Item kValuePrereqSignal [] :: group ++ rest) t value (zlen value) =
  Some (true, before ++ Item t value :: poisonDuplicatesAfterSubstitution t rest).
Proof.
  intros Hb Hg Hrest Hin Hne Hx Hm Hl. unfold substitute. rewrite Hm, Hx. cbn [negb].
  destruct group as [|p group]; [done|].
  replace (S (length (before ++ Item kValuePrereqSignal [] :: (p :: group) ++ rest)))
    with (length before + S (S (S (length (group ++ rest)))))%nat
    by (rewrite !length_app; simpl; rewrite ?length_app; lia).
  rewrite subst_loop_plain by done. cbn [app subst_loop item_type].
  rewrite (proj2 (Z.eqb_neq kValuePrereqSignal t)) by done.
  change (negb (kValuePrereqSignal =? kMaskedPrereqSignal) &&
          negb (kValuePrereqSignal =? kValuePrereqSignal)) with false.
  change (kValuePrereqSignal =? kMaskedPrereqSignal) with false. cbn iota.
  pose proof Hg as [[_ Et] _]%Forall_cons. rewrite Et, Hm, Z.eqb_refl. cbn [negb].
  change (p :: group ++ rest) with ((p :: group) ++ rest).
  by rewrite (subst_values_found before (p :: group) rest t value).
Qed.

Lemma substitute_placeholder_witness :
  substitute ([Item VLAN_VID [0x10; 5]] ++ Item kValuePrereqSignal [] ::
              eth_preqs ++ [Item IP_PROTO [6]]) ETH_TYPE [0x86; 0xdd] 2 =
  Some (true, [Item VLAN_VID [0x10; 5]] ++ Item ETH_TYPE [0x86; 0xdd] ::
              poisonDuplicatesAfterSubstitution ETH_TYPE [Item IP_PROTO [6]]).
Proof.
  apply (substitute_placeholder [Item VLAN_VID [0x10; 5]] eth_preqs [Item IP_PROTO [6]]
    ETH_TYPE [0x86; 0xdd]); try done.
  - by repeat constructor.
  - unfold eth_preqs. repeat constructor; done || (vm_compute; congruence).
  - simpl. tauto.
Defined.

Definition IP_DSCP : Z := 0x80001001.

(** The loop over the values of a placeholder does not stop at the end of
    the placeholder. After [add(IP_DSCP)] (which leaves a placeholder for the
    Ethernet type), [add] of an Ethernet type that is not in the placeholder
    goes on to compare with the DSCP field, whose length differs: the assertion
    fails, and a release build compares a byte past the end. When the following
    field has the right length and the same bytes, it is taken for a value of
    the placeholder and erased. *)
Theorem substitute_runs_past_placeholder :
  (oxms ← MatchBuilder_add [] (Some eth_preqs) IP_DSCP [1];
   MatchBuilder_add oxms None ETH_TYPE [0x08; 0x06]) = None /\
  substitute (Item kValuePrereqSignal [] :: eth_preqs ++ [Item TCP_SRC [0x08; 0x06]])
    ETH_TYPE [0x08; 0x06] 2 = Some (true, [Item ETH_TYPE [0x08; 0x06]]).
Proof. split; by vm_compute. Qed.

(** ** Theorems: duplicate fields *)

Definition field_key (i : oxm_item) : Z * Z := (oxmClass (item_type i), oxmField (item_type i)).

(** Membership of a (class, field) pair in the set. *)
Fixpoint has (s : OXMTypeSet) (k : Z * Z) : bool :=
  match s with
  | [] => false
  | (c, fields) :: s' => if c =? k.1 then Z.testbit fields k.2 else has s' k
  end.

Lemma testbit_set fields f f' :
  0 <= f -> 0 <= f' -> Z.testbit (Z.lor fields (Z.shiftl 1 f)) f' = (f =? f') || Z.testbit fields f'.
Proof.
  intros. rewrite Z.lor_spec, Z.shiftl_1_l, Z.pow2_bits_eqb by lia. apply orb_comm.
Qed.

Lemma typeset_update_spec s c f :
  0 <= f ->
  match typeset_update s c f with
  | None => c ∉ s.*1
  | Some (false, s') => s' = s /\ has s (c, f) = true
  | Some (true, s') => s'.*1 = s.*1 /\ has s (c, f) = false /\
      forall k, 0 <= k.2 -> has s' k = ((c =? k.1) && (f =? k.2)) || has s k
  end.
Proof.
  intros Hf. induction s as [|[c0 fields] s IH]; simpl; [apply not_elem_of_nil|].
  destruct (Z.eqb_spec c0 c) as [->|Hne]; simpl.
  - destruct (Z.testbit fields f) eqn:Hb; cbn [negb]; [done|]. split_and!; try done.
    intros k Hk. simpl. destruct (Z.eqb_spec c k.1); [|done]. by rewrite testbit_set by lia.
  - destruct (typeset_update s c f) as [[[] s']|].
    + destruct IH as (E1 & E2 & E3). simpl. split_and!; [by f_equal|done|].
      intros k Hk. rewrite E3 by done. destruct (Z.eqb_spec c0 k.1) as [->|]; [|done].
      by rewrite (proj2 (Z.eqb_neq c k.1)).
    + destruct IH as [-> E]. done.
    + by apply not_elem_of_cons.
Qed.

(** [seen] are the keys added so far; [classes] contains every class in use. *)
Definition set_inv (classes : list Z) (s : OXMTypeSet) (seen : list (Z * Z)) : Prop :=
  NoDup s.*1 /\ s.*1 ⊆ classes /\ forall k, 0 <= k.2 -> has s k = true <-> k ∈ seen.

Lemma has_new s c f k :
  c ∉ s.*1 -> 0 <= f -> 0 <= k.2 ->
  has (s ++ [(c, Z.shiftl 1 f)]) k = ((c =? k.1) && (f =? k.2)) || has s k.
Proof.
  intros Hc Hf Hk. induction s as [|[c0 fields] s IH]; simpl in *.
  - rewrite Z.shiftl_1_l, Z.pow2_bits_eqb by lia. by destruct (c =? k.1); simpl; rewrite ?orb_false_r.
  - apply not_elem_of_cons in Hc as [Hne Hc]. destruct (Z.eqb_spec c0 k.1) as [->|]; [|by apply IH].
    by rewrite (proj2 (Z.eqb_neq c k.1)).
Qed.

Lemma oxmField_nonneg t : 0 <= t -> 0 <= oxmField t.
Proof. intros Ht. destruct (oxm_accessors t Ht) as (_ & -> & _). apply Z.mod_pos_bound. lia. Qed.

(** Adding one type: refused exactly if its key is known. *)
Lemma OXMTypeSet_add_spec classes s seen t :
  NoDup classes -> zlen classes <= MaxOXMClasses -> set_inv classes s seen -> 0 <= t ->
  oxmClass t ∈ classes ->
  let '(ok, s') := OXMTypeSet_add s t in
  (ok = false <-> (oxmClass t, oxmField t) ∈ seen) /\
  (ok = true -> set_inv classes s' ((oxmClass t, oxmField t) :: seen)).
Proof.
  intros Hnd Hlen (Hn & Hsub & Hhas) Ht Hc. pose proof (oxmField_nonneg t Ht) as Hf.
  unfold OXMTypeSet_add. pose proof (typeset_update_spec s (oxmClass t) (oxmField t) Hf) as Hu.
  assert (forall s', s'.*1 ⊆ classes -> NoDup s'.*1 ->
    (forall k, 0 <= k.2 -> has s' k = ((oxmClass t =? k.1) && (oxmField t =? k.2)) || has s k) ->
    set_inv classes s' ((oxmClass t, oxmField t) :: seen)) as Hnew.
  { intros s' H1 H2 H3. split_and!; try done. intros [c f] Hk. rewrite H3 by done. cbn [fst snd].
    rewrite orb_true_iff, andb_true_iff, !Z.eqb_eq, (Hhas (c, f)), elem_of_cons by done.
    split; [intros [[-> ->]|]; auto|intros [[= <- <-]|]; auto]. }
  assert (has s (oxmClass t, oxmField t) = false -> ~ (oxmClass t, oxmField t) ∈ seen) as Hns.
  { intros H Hin. apply Hhas in Hin; [congruence|done]. }
  destruct (typeset_update s _ _) as [[[] s']|].
  - destruct Hu as (E1 & E2 & E3). split; [|intros _; apply Hnew; rewrite ?E1; done].
    split; [done|]. intros Hin. by destruct (Hns E2).
  - destruct Hu as [-> E]. split; [|done]. split; [|done]. intros _. by apply Hhas.
  - assert (zlen s < MaxOXMClasses) as Hlt.
    { assert (length (oxmClass t :: s.*1) <= length classes)%nat as Hle.
      { apply (NoDup_incl_length (l := oxmClass t :: s.*1)).
        - apply NoDup_ListNoDup. by constructor.
        - intros x [<-|Hx]; apply list_elem_of_In; [done|]. by apply Hsub, list_elem_of_In. }
      simpl in Hle. rewrite length_fmap in Hle. unfold zlen in *. lia. }
    rewrite (proj2 (Z.ltb_lt _ _) Hlt). split.
    + split; [done|]. intros Hin. exfalso. revert Hin. apply Hns. clear -Hu.
      induction s as [|[c0 fs] s IH]; [done|]. simpl in *.
      apply not_elem_of_cons in Hu as [Hne Hu]. rewrite (proj2 (Z.eqb_neq c0 _)) by done.
      by apply IH.
    + intros _. apply Hnew.
      * rewrite fmap_app. intros x [Hx|Hx%list_elem_of_singleton]%elem_of_app; [by apply Hsub|].
        by subst x.
      * rewrite fmap_app. apply NoDup_app. split_and!; [done| |apply NoDup_singleton].
        intros x Hx Hx'%list_elem_of_singleton. by subst x.
      * intros k Hk. by apply has_new.
Qed.

Lemma dup_loop_spec classes s seen oxm :
  NoDup classes -> zlen classes <= MaxOXMClasses -> set_inv classes s seen ->
  Forall item_ok oxm -> (oxmClass ∘ item_type <$> oxm) ⊆ classes ->
  dup_loop s oxm = true <->
  exists l1 i l2, oxm = l1 ++ i :: l2 /\ (field_key i ∈ seen \/ field_key i ∈ field_key <$> l1).
Proof.
  intros Hnd Hlen. revert s seen. induction oxm as [|i oxm IH]; intros s seen Hs Hok Hsub.
  { split; [done|]. intros ([] & ? & ? & ? & _); done. }
  apply Forall_cons in Hok as [Hi Hok]. cbn [dup_loop].
  pose proof (OXMTypeSet_add_spec classes s seen (item_type i) Hnd Hlen Hs) as Hadd.
  destruct (OXMTypeSet_add s (item_type i)) as [ok s'].
  destruct Hadd as [Hko Hnew]; [by destruct Hi as [[? _] _]|apply Hsub; by left|].
  destruct ok; cbn [negb].
  - rewrite (IH s' (field_key i :: seen)); [|by apply Hnew|done|].
    2: { intros x Hx. apply Hsub. by right. }
    assert (field_key i ∉ seen) as Hni by (intros Hin; by apply Hko in Hin).
    split.
    + intros (l1 & j & l2 & -> & Hj). exists (i :: l1), j, l2. split; [done|].
      rewrite fmap_cons, !elem_of_cons in *. tauto.
    + intros ([|k l1] & j & l2 & [= -> ->] & Hj).
      { destruct Hj as [Hj|Hj%elem_of_nil]; done. }
      exists l1, j, l2. split; [done|]. rewrite fmap_cons, !elem_of_cons in *. tauto.
  - split; [intros _|done]. exists [], i, oxm. split; [done|]. left. by apply Hko.
Qed.

(** [duplicateFieldsDetected] finds a duplicate exactly when two fields of
    the match have the same class and field number, as long as the match uses
    at most ten classes. *)
Theorem duplicateFieldsDetected_iff oxm :
  Forall item_ok oxm -> zlen (remove_dups (oxmClass ∘ item_type <$> oxm)) <= MaxOXMClasses ->
  duplicateFieldsDetected oxm = true <-> ~ NoDup (field_key <$> oxm).
Proof.
  intros Hok Hlen. unfold duplicateFieldsDetected.
  rewrite (dup_loop_spec (remove_dups (oxmClass ∘ item_type <$> oxm)) [] []); try done.
  - split.
    + intros (l1 & i & l2 & -> & [Hi%elem_of_nil|Hi]); [done|].
      rewrite fmap_app, fmap_cons. intros (_ & Hd & _)%NoDup_app.
      apply (Hd _ Hi). apply elem_of_cons. by left.
    + intros Hd. clear Hlen Hok. induction oxm as [|i oxm IH] using rev_ind.
      { destruct Hd. constructor. }
      destruct (decide (field_key i ∈ field_key <$> oxm)) as [Hin|Hin].
      { exists oxm, i, []. auto. }
      destruct IH as (l1 & j & l2 & -> & Hj).
      { intros Hn. apply Hd. rewrite fmap_app. apply NoDup_app. split_and!; [done| |apply NoDup_singleton].
        intros x Hx Hx'%list_elem_of_singleton. by subst x. }
      exists l1, j, (l2 ++ [i]). split; [by rewrite <- app_assoc|done].
  - apply NoDup_remove_dups.
  - split_and!; [constructor|apply list_subseteq_nil|]. intros k _. split; [done|].
    by intros ?%elem_of_nil.
  - intros x Hx. by apply elem_of_remove_dups.
Qed.

Lemma duplicateFieldsDetected_witness :
  duplicateFieldsDetected (tcp_match ++ [Item ETH_TYPE [8; 6]]) = true <->
  ~ NoDup (field_key <$> tcp_match ++ [Item ETH_TYPE [8; 6]]).
Proof.
  apply (duplicateFieldsDetected_iff (tcp_match ++ [Item ETH_TYPE [8; 6]])).
  - apply Forall_app. split; [apply tcp_match_ok|]. repeat constructor; done || (vm_compute; congruence).
  - by vm_compute.
Defined.

(** With an eleventh class the set stops recording: the same field twice is
    then not reported as a duplicate. *)
Theorem duplicates_missed_after_ten_classes :
  let oxm := (fun c => Item (OXMType_make c 0 0 false) []) <$> seqZ 1 10 ++ [11; 11] in
  Forall item_ok oxm /\ ~ NoDup (field_key <$> oxm) /\ duplicateFieldsDetected oxm = false.
Proof.
  split_and!; [|by vm_compute; intros H; repeat (apply NoDup_cons in H as [? H]); set_solver|by vm_compute].
  by repeat (constructor; [by split_and!|]).
Qed.
