(* ===== verification/Matches.v ===== *)
(** * Match structures

    The three forms of a match: the 40-byte structure of OpenFlow 1.0
    ([OriginalMatch]), the 88-byte structure of OpenFlow 1.1 ([StandardMatch])
    and the OXM list of the later versions, with the conversions between them
    (src/ofp/originalmatch.cpp, standardmatch.cpp), the match header that
    introduces either in a message (matchheader.cpp, match.cpp) and the IPv4
    prefix masks they share (ipv4address.cpp).

    A structure is a record of native values; addresses are byte lists. The OXM
    types are the rows of oxm/oxmfields.tab, from which the build generates the
    [OFB_*] classes. *)

From coqutil Require Import Datatypes.RecordSetters.
From S2P Require Import Prelude.
From S2P Require Import ByteOrder.
From S2P Require Import Hex.
From S2P Require Import SmallBuffer.
From S2P Require Import Constants.
From S2P Require Import Validation.
From S2P Require Import ProtocolRange.
From S2P Require Import Oxm.
Import DoubleBraceUpdate.

(** ** OXM types of the fields that the conversions know *)

Definition OFB_IN_PORT : Z := OXMType_make 0x8000 0 4 false.
Definition OFB_METADATA : Z := OXMType_make 0x8000 2 8 false.
Definition OFB_ETH_DST : Z := OXMType_make 0x8000 3 6 false.
Definition OFB_ETH_SRC : Z := OXMType_make 0x8000 4 6 false.
Definition OFB_ETH_TYPE : Z := OXMType_make 0x8000 5 2 false.
Definition OFB_VLAN_VID : Z := OXMType_make 0x8000 6 2 false.
Definition OFB_VLAN_PCP : Z := OXMType_make 0x8000 7 1 false.
Definition OFB_IP_DSCP : Z := OXMType_make 0x8000 8 1 false.
Definition OFB_IP_ECN : Z := OXMType_make 0x8000 9 1 false.
Definition OFB_IP_PROTO : Z := OXMType_make 0x8000 10 1 false.
Definition OFB_IPV4_SRC : Z := OXMType_make 0x8000 11 4 false.
Definition OFB_IPV4_DST : Z := OXMType_make 0x8000 12 4 false.
Definition OFB_TCP_SRC : Z := OXMType_make 0x8000 13 2 false.
Definition OFB_TCP_DST : Z := OXMType_make 0x8000 14 2 false.
Definition OFB_UDP_SRC : Z := OXMType_make 0x8000 15 2 false.
Definition OFB_UDP_DST : Z := OXMType_make 0x8000 16 2 false.
Definition OFB_SCTP_SRC : Z := OXMType_make 0x8000 17 2 false.
Definition OFB_SCTP_DST : Z := OXMType_make 0x8000 18 2 false.
Definition OFB_ICMPV4_TYPE : Z := OXMType_make 0x8000 19 1 false.
Definition OFB_ICMPV4_CODE : Z := OXMType_make 0x8000 20 1 false.
Definition OFB_ARP_OP : Z := OXMType_make 0x8000 21 2 false.
Definition OFB_ARP_SPA : Z := OXMType_make 0x8000 22 4 false.
Definition OFB_ARP_TPA : Z := OXMType_make 0x8000 23 4 false.
Definition OFB_IPV6_FLABEL : Z := OXMType_make 0x8000 28 4 false.
Definition OFB_MPLS_LABEL : Z := OXMType_make 0x8000 34 4 false.
Definition OFB_MPLS_TC : Z := OXMType_make 0x8000 35 1 false.

Definition v1_OFPVID_NONE : Z := 0xffff.
Definition v1_OFPVID_PRESENT : Z := 0xfffe.
Definition OFPMT_STANDARD : Z := 0.
Definition OFPMT_OXM : Z := 1.
Definition OFPMT_STANDARD_LENGTH : Z := 88.

(** ** IPv4 addresses and masks *)

Definition address_valid (a : list Z) : bool := negb (IsMemFilled a 0).
Definition isBroadcast (a : list Z) : bool := IsMemFilled a 255.
Definition allOnes (n : nat) : list Z := replicate n 255.
Definition zeros (n : nat) : list Z := replicate n 0.

Definition IPv4Address_mask (prefix : Z) : option (list Z) :=
  assert! (prefix <=? 32);;
  let d := Z.min 4 (prefix / 8) in
  let r := prefix mod 8 in
  let result := replicate (Z.to_nat d) 255 ++ replicate (Z.to_nat (4 - d)) 0 in
  Some (if d <? 4 then <[Z.to_nat d := u8 (Z.shiftl 255 (8 - r))]> result else result).

(** The [while (v & 0x80)] loop: an 8-bit value has at most 8 leading ones. *)
Fixpoint leading_ones (fuel : nat) (v result : Z) : option Z :=
  if Z.land v 0x80 =? 0 then Some result
  else match fuel with
       | O => None
       | S fuel' => leading_ones fuel' (Z.land (Z.shiftl v 1) 0xFF) (result + 1)
       end.

Fixpoint IPv4Address_prefix_loop (addr : list Z) (result : Z) : option Z :=
  match addr with
  | [] => Some result
  | b :: rest =>
      if negb (b =? 255) then leading_ones 9 b result
      else IPv4Address_prefix_loop rest (result + 8)
  end.

Definition IPv4Address_prefix (addr : list Z) : option Z := IPv4Address_prefix_loop addr 0.

(** ** Wildcard bits: [OriginalMatch::Wildcards] (OW) and [StandardMatch::Wildcards] (SW) *)

Definition OW_IN_PORT : Z := Z.shiftl 1 0.
Definition OW_DL_VLAN : Z := Z.shiftl 1 1.
Definition OW_DL_SRC : Z := Z.shiftl 1 2.
Definition OW_DL_DST : Z := Z.shiftl 1 3.
Definition OW_DL_TYPE : Z := Z.shiftl 1 4.
Definition OW_NW_PROTO : Z := Z.shiftl 1 5.
Definition OW_TP_SRC : Z := Z.shiftl 1 6.
Definition OW_TP_DST : Z := Z.shiftl 1 7.
Definition OW_NW_SRC_SHIFT : Z := 8.
Definition OW_NW_SRC_MASK : Z := Z.shiftl (Z.shiftl 1 6 - 1) OW_NW_SRC_SHIFT.
Definition OW_NW_DST_SHIFT : Z := 14.
Definition OW_NW_DST_MASK : Z := Z.shiftl (Z.shiftl 1 6 - 1) OW_NW_DST_SHIFT.
Definition OW_DL_VLAN_PCP : Z := Z.shiftl 1 20.
Definition OW_NW_TOS : Z := Z.shiftl 1 21.
Definition OW_ALL : Z := 0x003820FF.

Definition SW_IN_PORT : Z := Z.shiftl 1 0.
Definition SW_DL_VLAN : Z := Z.shiftl 1 1.
Definition SW_DL_VLAN_PCP : Z := Z.shiftl 1 2.
Definition SW_DL_TYPE : Z := Z.shiftl 1 3.
Definition SW_NW_TOS : Z := Z.shiftl 1 4.
Definition SW_NW_PROTO : Z := Z.shiftl 1 5.
Definition SW_TP_SRC : Z := Z.shiftl 1 6.
Definition SW_TP_DST : Z := Z.shiftl 1 7.
Definition SW_MPLS_LABEL : Z := Z.shiftl 1 8.
Definition SW_MPLS_TC : Z := Z.shiftl 1 9.
Definition SW_ALL : Z := Z.shiftl 1 10 - 1.

(** [wc & bit] as a condition, and [wc & ~bit]. *)
Definition has_bit (wc bit : Z) : bool := negb (Z.land wc bit =? 0).
Definition unset (wc bit : Z) : Z := Z.land wc (Z.lnot bit).

Definition set_nw_src_mask (wc prefix : Z) : Z :=
  let prefix := if 32 <? prefix then 32 else prefix in
  Z.lor (unset wc OW_NW_SRC_MASK) (Z.shiftl (32 - prefix) OW_NW_SRC_SHIFT).

Definition set_nw_dst_mask (wc prefix : Z) : Z :=
  let prefix := if 32 <? prefix then 32 else prefix in
  Z.lor (unset wc OW_NW_DST_MASK) (Z.shiftl (32 - prefix) OW_NW_DST_SHIFT).

(** ** The structures *)

Record OriginalMatch : Type := mkOriginalMatch {
  om_wildcards : Z;
  om_in_port : Z;
  om_dl_src : list Z;
  om_dl_dst : list Z;
  om_dl_vlan : Z;
  om_dl_vlan_pcp : Z;
  om_dl_type : Z;
  om_nw_tos : Z;
  om_nw_proto : Z;
  om_nw_src : list Z;
  om_nw_dst : list Z;
  om_tp_src : Z;
  om_tp_dst : Z }.

Record StandardMatch : Type := mkStandardMatch {
  sm_type : Z;
  sm_length : Z;
  sm_in_port : Z;
  sm_wildcards : Z;
  sm_dl_src : list Z;
  sm_dl_src_mask : list Z;
  sm_dl_dst : list Z;
  sm_dl_dst_mask : list Z;
  sm_dl_vlan : Z;
  sm_dl_vlan_pcp : Z;
  sm_dl_type : Z;
  sm_nw_tos : Z;
  sm_nw_proto : Z;
  sm_nw_src : list Z;
  sm_nw_src_mask : list Z;
  sm_nw_dst : list Z;
  sm_nw_dst_mask : list Z;
  sm_tp_src : Z;
  sm_tp_dst : Z;
  sm_mpls_label : Z;
  sm_mpls_tc : Z;
  sm_metadata : Z;
  sm_metadata_mask : Z }.

(** [memset(this, 0, sizeof(OriginalMatch))] and the default members. *)
Definition OriginalMatch_zero : OriginalMatch :=
  mkOriginalMatch 0 0 (zeros 6) (zeros 6) 0 0 0 0 0 (zeros 4) (zeros 4) 0 0.

Definition StandardMatch_default : StandardMatch :=
  mkStandardMatch OFPMT_STANDARD OFPMT_STANDARD_LENGTH 0 SW_ALL (zeros 6) (zeros 6) (zeros 6)
    (zeros 6) 0 0 0 0 0 (zeros 4) (zeros 4) (zeros 4) (zeros 4) 0 0 0 0 0 0.

(** The structures at an address: the layout that the compiler gives them
    (every member at its natural offset, padding at 21, 26 and 39, 69). *)
Definition OriginalMatch_at (m : list Z) (p : Z) : option OriginalMatch :=
  wildcards ← rd32 m p; in_port ← rd16 m (p + 4);
  dl_src ← slice m (p + 6) 6; dl_dst ← slice m (p + 12) 6;
  dl_vlan ← rd16 m (p + 18); dl_vlan_pcp ← rd8 m (p + 20);
  dl_type ← rd16 m (p + 22); nw_tos ← rd8 m (p + 24); nw_proto ← rd8 m (p + 25);
  nw_src ← slice m (p + 28) 4; nw_dst ← slice m (p + 32) 4;
  tp_src ← rd16 m (p + 36); tp_dst ← rd16 m (p + 38);
  Some (mkOriginalMatch wildcards in_port dl_src dl_dst dl_vlan dl_vlan_pcp dl_type nw_tos
          nw_proto nw_src nw_dst tp_src tp_dst).

Definition StandardMatch_at (m : list Z) (p : Z) : option StandardMatch :=
  type ← rd16 m p; length ← rd16 m (p + 2); in_port ← rd32 m (p + 4);
  wildcards ← rd32 m (p + 8);
  dl_src ← slice m (p + 12) 6; dl_src_mask ← slice m (p + 18) 6;
  dl_dst ← slice m (p + 24) 6; dl_dst_mask ← slice m (p + 30) 6;
  dl_vlan ← rd16 m (p + 36); dl_vlan_pcp ← rd8 m (p + 38);
  dl_type ← rd16 m (p + 40); nw_tos ← rd8 m (p + 42); nw_proto ← rd8 m (p + 43);
  nw_src ← slice m (p + 44) 4; nw_src_mask ← slice m (p + 48) 4;
  nw_dst ← slice m (p + 52) 4; nw_dst_mask ← slice m (p + 56) 4;
  tp_src ← rd16 m (p + 60); tp_dst ← rd16 m (p + 62);
  mpls_label ← rd32 m (p + 64); mpls_tc ← rd8 m (p + 68);
  metadata ← rd64 m (p + 72); metadata_mask ← rd64 m (p + 80);
  Some (mkStandardMatch type length in_port wildcards dl_src dl_src_mask dl_dst dl_dst_mask
          dl_vlan dl_vlan_pcp dl_type nw_tos nw_proto nw_src nw_src_mask nw_dst nw_dst_mask
          tp_src tp_dst mpls_label mpls_tc metadata metadata_mask).

Definition StandardMatch_bytes (s : StandardMatch) : list Z :=
  be_bytes 2 (sm_type s) ++ be_bytes 2 (sm_length s) ++ be_bytes 4 (sm_in_port s) ++
  be_bytes 4 (sm_wildcards s) ++ sm_dl_src s ++ sm_dl_src_mask s ++ sm_dl_dst s ++
  sm_dl_dst_mask s ++ be_bytes 2 (sm_dl_vlan s) ++ be_bytes 1 (sm_dl_vlan_pcp s) ++ [0] ++
  be_bytes 2 (sm_dl_type s) ++ be_bytes 1 (sm_nw_tos s) ++ be_bytes 1 (sm_nw_proto s) ++
  sm_nw_src s ++ sm_nw_src_mask s ++ sm_nw_dst s ++ sm_nw_dst_mask s ++
  be_bytes 2 (sm_tp_src s) ++ be_bytes 2 (sm_tp_dst s) ++ be_bytes 4 (sm_mpls_label s) ++
  be_bytes 1 (sm_mpls_tc s) ++ [0; 0; 0] ++ be_bytes 8 (sm_metadata s) ++
  be_bytes 8 (sm_metadata_mask s).

(** ** Iterating a range

    [for (auto &item : range)]: the body gets the item's type and the readers
    [item.value<T>()] and [item.mask<T>()] at the size of [T]. *)
Section ForItems.
Context {A : Type} (body : Z -> (Z -> option (list Z)) -> (Z -> option (list Z)) -> A -> option A).

Fixpoint for_items (fuel : nat) (m : list Z) (p : Z) (a : A) : option A :=
  if p =? zlen m then Some a
  else match fuel with
       | O => None
       | S fuel' =>
           t ← it_type m p;
           a ← body t (fun n => slice m (p + 4) n) (fun n => slice m (p + 4 + n) n) a;
           p ← it_next m p;
           for_items fuel' m p a
       end.
End ForItems.

(** ** OriginalMatch *)

(** The vlan id that a [VLAN_VID] value stands for in the fixed structures. *)
Definition vlan_of_oxm (vlan : Z) : Z :=
  if vlan =? OFPVID_NONE then v1_OFPVID_NONE else Z.land vlan (Z.lnot OFPVID_PRESENT).

Definition vlan_of_oxm_masked (vlan mask : Z) : Z :=
  if (vlan =? OFPVID_PRESENT) && (mask =? OFPVID_PRESENT) then v1_OFPVID_PRESENT
  else Z.land vlan (Z.lnot OFPVID_PRESENT).

(** The loop body of [OriginalMatch(const OXMRange &)]; the state is the
    structure and the local [wc]. *)
Definition original_item (t : Z) (value mask : Z -> option (list Z)) (st : OriginalMatch * Z)
    : option (OriginalMatch * Z) :=
  let '(s, wc) := st in
  if t =? OFB_IN_PORT then
    v ← be <$> value 4; Some (s {{ om_in_port := u16 v }}, unset wc OW_IN_PORT)
  else if t =? OFB_ETH_SRC then
    v ← value 6; Some (s {{ om_dl_src := v }}, unset wc OW_DL_SRC)
  else if t =? OFB_ETH_DST then
    v ← value 6; Some (s {{ om_dl_dst := v }}, unset wc OW_DL_DST)
  else if t =? OFB_ETH_TYPE then
    v ← be <$> value 2; Some (s {{ om_dl_type := v }}, unset wc OW_DL_TYPE)
  else if t =? OFB_VLAN_VID then
    v ← be <$> value 2; Some (s {{ om_dl_vlan := vlan_of_oxm v }}, unset wc OW_DL_VLAN)
  else if t =? withMask OFB_VLAN_VID then
    v ← be <$> value 2; k ← be <$> mask 2;
    Some (s {{ om_dl_vlan := vlan_of_oxm_masked v k }}, unset wc OW_DL_VLAN)
  else if t =? OFB_VLAN_PCP then
    v ← be <$> value 1; Some (s {{ om_dl_vlan_pcp := v }}, unset wc OW_DL_VLAN_PCP)
  else if t =? OFB_IP_DSCP then
    v ← be <$> value 1; Some (s {{ om_nw_tos := v }}, unset wc OW_NW_TOS)
  else if t =? OFB_IP_PROTO then
    v ← be <$> value 1; Some (s {{ om_nw_proto := v }}, unset wc OW_NW_PROTO)
  else if t =? OFB_IPV4_SRC then
    v ← value 4; Some (s {{ om_nw_src := v }}, set_nw_src_mask wc 32)
  else if t =? withMask OFB_IPV4_SRC then
    v ← value 4; k ← mask 4; prefix ← IPv4Address_prefix k;
    Some (s {{ om_nw_src := v }}, set_nw_src_mask wc prefix)
  else if t =? OFB_IPV4_DST then
    v ← value 4; Some (s {{ om_nw_dst := v }}, set_nw_dst_mask wc 32)
  else if t =? withMask OFB_IPV4_DST then
    v ← value 4; k ← mask 4; prefix ← IPv4Address_prefix k;
    Some (s {{ om_nw_dst := v }}, set_nw_dst_mask wc prefix)
  else if t =? OFB_TCP_SRC then
    v ← be <$> value 2; Some (s {{ om_tp_src := v }}, unset wc OW_TP_SRC)
  else if t =? OFB_TCP_DST then
    v ← be <$> value 2; Some (s {{ om_tp_dst := v }}, unset wc OW_TP_DST)
  else if t =? OFB_UDP_SRC then
    v ← be <$> value 2; Some (s {{ om_tp_src := v }}, unset wc OW_TP_SRC)
  else if t =? OFB_UDP_DST then
    v ← be <$> value 2; Some (s {{ om_tp_dst := v }}, unset wc OW_TP_DST)
  else if t =? OFB_ICMPV4_TYPE then
    v ← be <$> value 1; Some (s {{ om_tp_src := v }}, unset wc OW_TP_SRC)
  else if t =? OFB_ICMPV4_CODE then
    v ← be <$> value 1; Some (s {{ om_tp_dst := v }}, unset wc OW_TP_DST)
  else Some (s, wc).

Definition OriginalMatch_of_range (m : list Z) : option OriginalMatch :=
  '(s, wc) ← for_items original_item (length m) m 0 (OriginalMatch_zero, OW_ALL);
  Some (s {{ om_wildcards := wc }}).

Definition nw_mask (wc mask shift : Z) : option (list Z) :=
  let bits := Z.shiftr (Z.land wc mask) shift in
  let bits := if 32 <? bits then 32 else bits in
  IPv4Address_mask (32 - bits).

Definition om_nw_src_mask (o : OriginalMatch) : option (list Z) :=
  nw_mask (om_wildcards o) OW_NW_SRC_MASK OW_NW_SRC_SHIFT.
Definition om_nw_dst_mask (o : OriginalMatch) : option (list Z) :=
  nw_mask (om_wildcards o) OW_NW_DST_MASK OW_NW_DST_SHIFT.

Definition WildcardMap : list (Z * Z) :=
  [(OW_IN_PORT, SW_IN_PORT); (OW_DL_VLAN, SW_DL_VLAN); (OW_DL_TYPE, SW_DL_TYPE);
   (OW_NW_PROTO, SW_NW_PROTO); (OW_TP_SRC, SW_TP_SRC); (OW_TP_DST, SW_TP_DST);
   (OW_DL_VLAN_PCP, SW_DL_VLAN_PCP); (OW_NW_TOS, SW_NW_TOS)].

Definition standardWildcards (wc : Z) : Z :=
  Z.lor (foldl (fun result e => if has_bit wc e.1 then Z.lor result e.2 else result) 0 WildcardMap)
        (Z.lor SW_MPLS_TC SW_MPLS_LABEL).

(** ** StandardMatch *)

(** The loop body of [StandardMatch(const OXMRange &)]. *)
Definition standard_item (t : Z) (value mask : Z -> option (list Z)) (st : StandardMatch * Z)
    : option (StandardMatch * Z) :=
  let '(s, wc) := st in
  if t =? OFB_IN_PORT then
    v ← be <$> value 4; Some (s {{ sm_in_port := v }}, unset wc SW_IN_PORT)
  else if t =? OFB_ETH_SRC then
    v ← value 6; Some (s {{ sm_dl_src := v; sm_dl_src_mask := allOnes 6 }}, wc)
  else if t =? withMask OFB_ETH_SRC then
    v ← value 6; k ← mask 6; Some (s {{ sm_dl_src := v; sm_dl_src_mask := k }}, wc)
  else if t =? OFB_ETH_DST then
    v ← value 6; Some (s {{ sm_dl_dst := v; sm_dl_dst_mask := allOnes 6 }}, wc)
  else if t =? withMask OFB_ETH_DST then
    v ← value 6; k ← mask 6; Some (s {{ sm_dl_dst := v; sm_dl_dst_mask := k }}, wc)
  else if t =? OFB_VLAN_VID then
    v ← be <$> value 2; Some (s {{ sm_dl_vlan := vlan_of_oxm v }}, unset wc SW_DL_VLAN)
  else if t =? withMask OFB_VLAN_VID then
    v ← be <$> value 2; k ← be <$> mask 2;
    Some (s {{ sm_dl_vlan := vlan_of_oxm_masked v k }}, unset wc SW_DL_VLAN)
  else if t =? OFB_VLAN_PCP then
    v ← be <$> value 1; Some (s {{ sm_dl_vlan_pcp := v }}, unset wc SW_DL_VLAN_PCP)
  else if t =? OFB_ETH_TYPE then
    v ← be <$> value 2; Some (s {{ sm_dl_type := v }}, unset wc SW_DL_TYPE)
  else if t =? OFB_IP_DSCP then
    v ← be <$> value 1; Some (s {{ sm_nw_tos := v }}, unset wc SW_NW_TOS)
  else if t =? OFB_IP_PROTO then
    v ← be <$> value 1; Some (s {{ sm_nw_proto := v }}, unset wc SW_NW_PROTO)
  else if t =? OFB_IPV4_SRC then
    v ← value 4; Some (s {{ sm_nw_src := v; sm_nw_src_mask := allOnes 4 }}, wc)
  else if t =? withMask OFB_IPV4_SRC then
    v ← value 4; k ← mask 4; Some (s {{ sm_nw_src := v; sm_nw_src_mask := k }}, wc)
  else if t =? OFB_IPV4_DST then
    v ← value 4; Some (s {{ sm_nw_dst := v; sm_nw_dst_mask := allOnes 4 }}, wc)
  else if t =? withMask OFB_IPV4_DST then
    v ← value 4; k ← mask 4; Some (s {{ sm_nw_dst := v; sm_nw_dst_mask := k }}, wc)
  else if t =? OFB_TCP_SRC then
    v ← be <$> value 2; Some (s {{ sm_tp_src := v }}, unset wc SW_TP_SRC)
  else if t =? OFB_UDP_SRC then
    v ← be <$> value 2; Some (s {{ sm_tp_src := v }}, unset wc SW_TP_SRC)
  else if t =? OFB_ICMPV4_TYPE then
    v ← be <$> value 1; Some (s {{ sm_tp_src := v }}, unset wc SW_TP_SRC)
  else if t =? OFB_TCP_DST then
    v ← be <$> value 2; Some (s {{ sm_tp_dst := v }}, unset wc SW_TP_DST)
  else if t =? OFB_UDP_DST then
    v ← be <$> value 2; Some (s {{ sm_tp_dst := v }}, unset wc SW_TP_DST)
  else if t =? OFB_ICMPV4_CODE then
    v ← be <$> value 1; Some (s {{ sm_tp_dst := v }}, unset wc SW_TP_DST)
  else if t =? OFB_MPLS_LABEL then
    v ← be <$> value 4; Some (s {{ sm_mpls_label := v }}, unset wc SW_MPLS_LABEL)
  else if t =? OFB_MPLS_TC then
    v ← be <$> value 1; Some (s {{ sm_mpls_tc := v }}, unset wc SW_MPLS_TC)
  else if t =? OFB_METADATA then
    v ← be <$> value 8; Some (s {{ sm_metadata := v; sm_metadata_mask := 2 ^ 64 - 1 }}, wc)
  else if t =? withMask OFB_METADATA then
    v ← be <$> value 8; k ← be <$> mask 8;
    Some (s {{ sm_metadata := v; sm_metadata_mask := k }}, wc)
  else if t =? OFB_ARP_OP then
    v ← be <$> value 2; Some (s {{ sm_nw_proto := u8 v }}, unset wc SW_NW_PROTO)
  else if t =? OFB_ARP_SPA then
    v ← value 4; Some (s {{ sm_nw_src := v; sm_nw_src_mask := allOnes 4 }}, wc)
  else if t =? withMask OFB_ARP_SPA then
    v ← value 4; k ← mask 4; Some (s {{ sm_nw_src := v; sm_nw_src_mask := k }}, wc)
  else if t =? OFB_ARP_TPA then
    v ← value 4; Some (s {{ sm_nw_dst := v; sm_nw_dst_mask := allOnes 4 }}, wc)
  else if t =? withMask OFB_ARP_TPA then
    v ← value 4; k ← mask 4; Some (s {{ sm_nw_dst := v; sm_nw_dst_mask := k }}, wc)
  else Some (s, wc).

Definition StandardMatch_of_range (m : list Z) : option StandardMatch :=
  '(s, wc) ← for_items standard_item (length m) m 0
               (StandardMatch_default, sm_wildcards StandardMatch_default);
  Some (s {{ sm_wildcards := wc }}).

Definition StandardMatch_of_original (o : OriginalMatch) : option StandardMatch :=
  let origWildcards := om_wildcards o in
  src_mask ← om_nw_src_mask o;
  dst_mask ← om_nw_dst_mask o;
  Some (mkStandardMatch OFPMT_STANDARD OFPMT_STANDARD_LENGTH (om_in_port o)
    (standardWildcards origWildcards)
    (om_dl_src o) (if negb (has_bit origWildcards OW_DL_SRC) then allOnes 6 else zeros 6)
    (om_dl_dst o) (if negb (has_bit origWildcards OW_DL_DST) then allOnes 6 else zeros 6)
    (om_dl_vlan o) (om_dl_vlan_pcp o) (om_dl_type o) (om_nw_tos o) (om_nw_proto o)
    (om_nw_src o) src_mask (om_nw_dst o) dst_mask (om_tp_src o) (om_tp_dst o) 0 0 0 0).

(** [toOXMList] appends to a list; [list.add(V{v})] and [list.add(V{v}, V{m})]. *)
Section ToOXMList.
Context {B : Type} `{ByteBuffer B}.
Implicit Types (s : StandardMatch) (b : B).

Definition add_value (type : Z) (value : list Z) b : option B := OXMList_add b type value.

Definition add_value_mask (type : Z) (value mask : list Z) b : option B :=
  OXMList_add_masked b (withMask type) value mask (zlen value).

(** [if (mask.valid()) { if (mask.isBroadcast()) add(v) else add(v, mask) }]. *)
Definition add_address (type : Z) (value mask : list Z) b : option B :=
  if address_valid mask then
    if isBroadcast mask then add_value type value b
    else add_value_mask type value mask b
  else Some b.

Definition convertDatalinkARP s (wc : Z) b : option B :=
  assert! (sm_dl_type s =? DATALINK_ARP);;
  b ← (if negb (has_bit wc SW_NW_PROTO) then add_value OFB_ARP_OP (be_bytes 2 (sm_nw_proto s)) b
          else Some b);
  b ← add_address OFB_ARP_SPA (sm_nw_src s) (sm_nw_src_mask s) b;
  add_address OFB_ARP_TPA (sm_nw_dst s) (sm_nw_dst_mask s) b.

Definition add_vlan s (wc : Z) b : option B :=
  if negb (has_bit wc SW_DL_VLAN) then
    if sm_dl_vlan s =? v1_OFPVID_NONE then add_value OFB_VLAN_VID (be_bytes 2 OFPVID_NONE) b
    else if sm_dl_vlan s =? v1_OFPVID_PRESENT then
      add_value_mask OFB_VLAN_VID (be_bytes 2 OFPVID_PRESENT) (be_bytes 2 OFPVID_PRESENT) b
    else add_value OFB_VLAN_VID (be_bytes 2 (Z.lor (sm_dl_vlan s) OFPVID_PRESENT)) b
  else Some b.

(** The transport port, by the IP protocol; the types and the ICMP field that
    go with [tp_src] or [tp_dst]. *)
Definition add_port (bit tcp udp icmp sctp port : Z) s (wc : Z) b : option B :=
  if negb (has_bit wc bit) then
    if has_bit wc SW_NW_PROTO then add_value tcp (be_bytes 2 port) b
    else if sm_nw_proto s =? PROTOCOL_TCP then add_value tcp (be_bytes 2 port) b
    else if sm_nw_proto s =? PROTOCOL_UDP then add_value udp (be_bytes 2 port) b
    else if sm_nw_proto s =? PROTOCOL_ICMP then add_value icmp (be_bytes 1 (u8 port)) b
    else if sm_nw_proto s =? PROTOCOL_SCTP then add_value sctp (be_bytes 2 port) b
    else add_value tcp (be_bytes 2 port) b
  else Some b.

Definition add_unless (skip : bool) (type : Z) (value : list Z) b : option B :=
  if negb skip then add_value type value b else Some b.

(** The fields after [dl_type], when the match is not for ARP. *)
Definition convertNetwork s (wc : Z) b : option B :=
  b ← add_unless (has_bit wc SW_NW_TOS) OFB_IP_DSCP (be_bytes 1 (sm_nw_tos s)) b;
  b ← add_unless (has_bit wc SW_NW_PROTO) OFB_IP_PROTO (be_bytes 1 (sm_nw_proto s)) b;
  b ← add_address OFB_IPV4_SRC (sm_nw_src s) (sm_nw_src_mask s) b;
  b ← add_address OFB_IPV4_DST (sm_nw_dst s) (sm_nw_dst_mask s) b;
  b ← add_port SW_TP_SRC OFB_TCP_SRC OFB_UDP_SRC OFB_ICMPV4_TYPE OFB_SCTP_SRC (sm_tp_src s)
           s wc b;
  b ← add_port SW_TP_DST OFB_TCP_DST OFB_UDP_DST OFB_ICMPV4_CODE OFB_SCTP_DST (sm_tp_dst s)
           s wc b;
  b ← add_unless (has_bit wc SW_MPLS_LABEL) OFB_MPLS_LABEL (be_bytes 4 (sm_mpls_label s)) b;
  add_unless (has_bit wc SW_MPLS_TC) OFB_MPLS_TC (be_bytes 1 (sm_mpls_tc s)) b.

(** [empty] is the b's empty buffer. *)
Definition toOXMList (empty : B) s : option B :=
  let wc := sm_wildcards s in
  b ← add_unless (has_bit wc SW_IN_PORT) OFB_IN_PORT (be_bytes 4 (sm_in_port s)) empty;
  b ← (if negb (sm_metadata_mask s =? 0) then
            add_value_mask OFB_METADATA (be_bytes 8 (sm_metadata s))
              (be_bytes 8 (sm_metadata_mask s)) b
          else Some b);
  b ← add_address OFB_ETH_SRC (sm_dl_src s) (sm_dl_src_mask s) b;
  b ← add_address OFB_ETH_DST (sm_dl_dst s) (sm_dl_dst_mask s) b;
  b ← add_vlan s wc b;
  b ← add_unless (has_bit wc SW_DL_VLAN_PCP) OFB_VLAN_PCP (be_bytes 1 (sm_dl_vlan_pcp s)) b;
  if negb (has_bit wc SW_DL_TYPE) then
    b ← add_value OFB_ETH_TYPE (be_bytes 2 (sm_dl_type s)) b;
    if sm_dl_type s =? DATALINK_ARP then convertDatalinkARP s wc b
    else convertNetwork s wc b
  else convertNetwork s wc b.
End ToOXMList.

(** ** MatchHeader and Match *)

(** [this] is at address [addr]; [m] is the memory from there on. *)
Definition MatchHeader_type (m : list Z) : option Z := rd16 m 0.
Definition MatchHeader_length (m : list Z) : option Z := rd16 m 2.

Definition MatchHeader_oxmRange (m : list Z) : option (list Z) :=
  length ← MatchHeader_length m;
  assert! (4 <=? length);;
  type ← MatchHeader_type m;
  if negb (type =? OFPMT_OXM) then Some [] else slice m 4 (length - 4).

Definition MatchHeader_stdMatch (m : list Z) : option StandardMatch :=
  type ← MatchHeader_type m;
  length ← MatchHeader_length m;
  assert! (type =? OFPMT_STANDARD) && (length =? OFPMT_STANDARD_LENGTH);;
  StandardMatch_at m 0.

Definition MatchHeader_validateInput (addr : Z) (m : list Z) (lengthRemaining : Z) (c : Validation)
    : option (bool * Validation) :=
  let invalid (message : list Z) := Some (false, matchIsInvalid message addr c) in
  if lengthRemaining <? 4 then invalid (str "Insufficient bytes")
  else if negb (IsPtrAligned addr 8) then invalid (str "Not aligned")
  else
    matchType ← MatchHeader_type m;
    matchLength ← MatchHeader_length m;
    if (v_version c <? OFP_VERSION_4) && (matchType =? OFPMT_STANDARD) then
      if negb (matchLength =? OFPMT_STANDARD_LENGTH) then invalid (str "Invalid match length")
      else Some (true, c)
    else if negb (matchType =? OFPMT_OXM) then invalid (str "Invalid match type")
    else if matchLength <? 4 then invalid (str "Invalid match length")
    else
      let matchLengthPadded := PadLength matchLength in
      if lengthRemaining <? matchLengthPadded then invalid (str "Invalid remaining length")
      else
        oxm ← slice m 4 (matchLength - 4);
        ok ← OXMRange_validateInput oxm;
        if negb ok then invalid (str "Invalid oxm range") else Some (true, c).

(** The constructor of [Match] from a match header: the OXM list it holds. *)
Definition Match_make {B} `{ByteBuffer B} (empty : B) (m : list Z) : option B :=
  type ← MatchHeader_type m;
  if type =? OFPMT_OXM then range ← MatchHeader_oxmRange m; bb_add empty range
  else if type =? OFPMT_STANDARD then
    length ← MatchHeader_length m;
    assert! (length =? OFPMT_STANDARD_LENGTH);;
    s ← MatchHeader_stdMatch m; toOXMList empty s
  else Some empty.

(** * Specifications and proofs *)

(** ** IPv4 masks *)

Lemma prefix_mask_check :
  forallb (fun n => bool_decide ((m ← IPv4Address_mask n; IPv4Address_prefix m) = Some n))
    (seqZ 0 33) = true.
Proof. vm_compute. reflexivity. Qed.

(** The mask of [n] ones, as a 32-bit number. *)
Lemma mask_value_check :
  forallb (fun n => bool_decide (be <$> IPv4Address_mask n = Some (2 ^ 32 - 2 ^ (32 - n))) &&
                    bool_decide (length <$> IPv4Address_mask n = Some 4%nat) &&
                    bool_decide (forallb (fun b => (0 <=? b) && (b <? 256)) <$> IPv4Address_mask n
                                 = Some true))
    (seqZ 0 33) = true.
Proof. vm_compute. reflexivity. Qed.

Lemma IPv4Address_mask_ok n :
  0 <= n <= 32 ->
  exists m, IPv4Address_mask n = Some m /\ be m = 2 ^ 32 - 2 ^ (32 - n) /\ length m = 4%nat /\
            bytes_ok m /\ IPv4Address_prefix m = Some n.
Proof.
  intros Hn. pose proof (small_check _ 33 mask_value_check n ltac:(lia)) as Hv.
  pose proof (small_check _ 33 prefix_mask_check n ltac:(lia)) as Hp. cbv beta in Hv, Hp.
  apply bool_decide_eq_true_1 in Hp.
  apply andb_true_iff in Hv as [[Hv Hl]%andb_true_iff Hb].
  apply bool_decide_eq_true_1 in Hv, Hl, Hb.
  destruct (IPv4Address_mask n) as [m|]; [|done]. exists m. simpl in *. simplify_eq.
  split_and!; try congruence. apply List.Forall_forall. intros b Hin.
  rewrite List.forallb_forall in Hb. specialize (Hb b Hin).
  unfold is_byte. lia.
Qed.

(** ** toOXMList as a list of items *)

Definition value_item (skip : bool) (t : Z) (v : list Z) : list oxm_item :=
  if skip then [] else [Item t v].

Definition masked_item (t : Z) (v k : list Z) : oxm_item :=
  Item (withMask t) (MemCopyMasked v k ++ k).

Definition address_items (t : Z) (v k : list Z) : list oxm_item :=
  if address_valid k then if isBroadcast k then [Item t v] else [masked_item t v k] else [].

Definition vlan_items (s : StandardMatch) : list oxm_item :=
  if has_bit (sm_wildcards s) SW_DL_VLAN then []
  else if sm_dl_vlan s =? v1_OFPVID_NONE then [Item OFB_VLAN_VID [0; 0]]
  else if sm_dl_vlan s =? v1_OFPVID_PRESENT then [masked_item OFB_VLAN_VID [16; 0] [16; 0]]
  else [Item OFB_VLAN_VID (be_bytes 2 (Z.lor (sm_dl_vlan s) OFPVID_PRESENT))].

(** The type and the value under which a transport port is listed. *)
Definition port_item (wc proto tcp udp icmp sctp port : Z) : oxm_item :=
  if has_bit wc SW_NW_PROTO then Item tcp (be_bytes 2 port)
  else if proto =? PROTOCOL_UDP then Item udp (be_bytes 2 port)
  else if proto =? PROTOCOL_ICMP then Item icmp (be_bytes 1 (u8 port))
  else if proto =? PROTOCOL_SCTP then Item sctp (be_bytes 2 port)
  else Item tcp (be_bytes 2 port).

Definition head_items (s : StandardMatch) : list oxm_item :=
  let wc := sm_wildcards s in
  value_item (has_bit wc SW_IN_PORT) OFB_IN_PORT (be_bytes 4 (sm_in_port s)) ++
  (if sm_metadata_mask s =? 0 then []
   else [masked_item OFB_METADATA (be_bytes 8 (sm_metadata s)) (be_bytes 8 (sm_metadata_mask s))]) ++
  address_items OFB_ETH_SRC (sm_dl_src s) (sm_dl_src_mask s) ++
  address_items OFB_ETH_DST (sm_dl_dst s) (sm_dl_dst_mask s) ++
  vlan_items s ++
  value_item (has_bit wc SW_DL_VLAN_PCP) OFB_VLAN_PCP (be_bytes 1 (sm_dl_vlan_pcp s)).

Definition arp_items (s : StandardMatch) : list oxm_item :=
  value_item (has_bit (sm_wildcards s) SW_NW_PROTO) OFB_ARP_OP (be_bytes 2 (sm_nw_proto s)) ++
  address_items OFB_ARP_SPA (sm_nw_src s) (sm_nw_src_mask s) ++
  address_items OFB_ARP_TPA (sm_nw_dst s) (sm_nw_dst_mask s).

Definition network_items (s : StandardMatch) : list oxm_item :=
  let wc := sm_wildcards s in
  value_item (has_bit wc SW_NW_TOS) OFB_IP_DSCP (be_bytes 1 (sm_nw_tos s)) ++
  value_item (has_bit wc SW_NW_PROTO) OFB_IP_PROTO (be_bytes 1 (sm_nw_proto s)) ++
  address_items OFB_IPV4_SRC (sm_nw_src s) (sm_nw_src_mask s) ++
  address_items OFB_IPV4_DST (sm_nw_dst s) (sm_nw_dst_mask s) ++
  (if has_bit wc SW_TP_SRC then [] else
     [port_item wc (sm_nw_proto s) OFB_TCP_SRC OFB_UDP_SRC OFB_ICMPV4_TYPE OFB_SCTP_SRC
        (sm_tp_src s)]) ++
  (if has_bit wc SW_TP_DST then [] else
     [port_item wc (sm_nw_proto s) OFB_TCP_DST OFB_UDP_DST OFB_ICMPV4_CODE OFB_SCTP_DST
        (sm_tp_dst s)]) ++
  value_item (has_bit wc SW_MPLS_LABEL) OFB_MPLS_LABEL (be_bytes 4 (sm_mpls_label s)) ++
  value_item (has_bit wc SW_MPLS_TC) OFB_MPLS_TC (be_bytes 1 (sm_mpls_tc s)).

Definition is_arp (s : StandardMatch) : bool :=
  negb (has_bit (sm_wildcards s) SW_DL_TYPE) && (sm_dl_type s =? DATALINK_ARP).

Definition std_items (s : StandardMatch) : list oxm_item :=
  head_items s ++
  value_item (has_bit (sm_wildcards s) SW_DL_TYPE) OFB_ETH_TYPE (be_bytes 2 (sm_dl_type s)) ++
  (if is_arp s then arp_items s else network_items s).

(** The address members hold as many bytes as their types do. *)
Definition address_ok (n : nat) (a : list Z) : Prop := length a = n /\ bytes_ok a.

Definition std_shape (s : StandardMatch) : Prop :=
  address_ok 6 (sm_dl_src s) /\ address_ok 6 (sm_dl_src_mask s) /\
  address_ok 6 (sm_dl_dst s) /\ address_ok 6 (sm_dl_dst_mask s) /\
  address_ok 4 (sm_nw_src s) /\ address_ok 4 (sm_nw_src_mask s) /\
  address_ok 4 (sm_nw_dst s) /\ address_ok 4 (sm_nw_dst_mask s).

(** A step of [toOXMList] that appends the items [l]. *)
Section Appends.
Context {B : Type} `{HL : ByteBufferLaws B}.

Definition appends (f : B -> option B) (l : list oxm_item) : Prop :=
  Forall item_ok l /\
  forall b k, bb_rep b (encode k) -> zlen (encode k) + zlen (encode l) + 1024 <= maxLength ->
    exists b', f b = Some b' /\ bb_rep b' (encode (k ++ l)).

Lemma appends_none : appends Some [].
Proof. split; [done|]. intros b k Hr _. exists b. by rewrite app_nil_r. Qed.

Lemma appends_bind f g l k :
  appends f l -> appends g k -> appends (fun b => b ← f b; g b) (l ++ k).
Proof.
  intros [Hl Hf] [Hk Hg]. split; [by apply Forall_app|]. intros b j Hr Hm.
  rewrite encode_app, zlen_app in Hm. pose proof (zlen_nonneg (encode k)).
  destruct (Hf b j Hr) as (b1 & -> & Hr1); [lia|]. cbn [mbind option_bind].
  destruct (Hg b1 _ Hr1) as (b2 & -> & Hr2); [rewrite encode_app, zlen_app; lia|].
  exists b2. by rewrite app_assoc.
Qed.

Lemma appends_value t v : item_ok (Item t v) -> appends (add_value t v) [Item t v].
Proof.
  intros Hi. split; [by constructor|]. intros b k Hr Hm. apply OXMList_add_ok; try done.
  pose proof (zlen_nonneg (encode [Item t v])). lia.
Qed.

Lemma appends_masked t v k :
  0 <= withMask t < 2 ^ 32 -> bytes_ok v -> bytes_ok k -> zlen v = zlen k ->
  oxm_length (withMask t) = 2 * zlen v ->
  appends (add_value_mask t v k) [masked_item t v k].
Proof.
  intros Ht Hv Hk Hl Ho. split; [constructor; [by apply item_ok_masked|done]|].
  intros b j Hr Hm. apply OXMList_add_masked_ok; try done.
  pose proof (zlen_nonneg (encode [masked_item t v k])). lia.
Qed.

Lemma appends_unless skip t v :
  item_ok (Item t v) -> appends (add_unless skip t v) (value_item skip t v).
Proof. intros Hi. destruct skip; [apply appends_none|by apply appends_value]. Qed.

Lemma appends_address n t v k :
  0 <= t < 2 ^ 32 -> 0 <= withMask t < 2 ^ 32 -> oxm_length t = Z.of_nat n ->
  oxm_length (withMask t) = 2 * Z.of_nat n -> address_ok n v -> address_ok n k ->
  appends (add_address t v k) (address_items t v k).
Proof.
  intros Ht Htm Hl Hlm [Hv Hvb] [Hk Hkb]. unfold address_items.
  destruct (address_valid k) eqn:Ev.
  - destruct (isBroadcast k) eqn:Eb.
    + destruct (appends_value t v) as [Hok Hap]; [unfold item_ok, zlen; simpl; split_and!; done || lia|].
      split; [done|]. intros. unfold add_address. rewrite Ev, Eb. auto.
    + destruct (appends_masked t v k) as [Hok Hap]; [unfold zlen; done || lia..|].
      split; [done|]. intros. unfold add_address. rewrite Ev, Eb. auto.
  - split; [done|]. intros b j Hr _. exists b. unfold add_address. rewrite Ev, app_nil_r. done.
Qed.

Lemma appends_ext f g l : (forall b, f b = g b) -> appends f l -> appends g l.
Proof. intros E [Hl Hap]. split; [done|]. intros b k. rewrite <- E. apply Hap. Qed.

Lemma item_ok_be t n v : 0 <= t < 2 ^ 32 -> oxm_length t = Z.of_nat n -> item_ok (Item t (be_bytes n v)).
Proof.
  intros Ht Hl. unfold item_ok, zlen. cbn [item_type item_body]. rewrite be_bytes_length.
  split_and!; done || lia || apply be_bytes_ok.
Qed.

Lemma appends_vlan s wc :
  wc = sm_wildcards s -> appends (add_vlan s wc) (vlan_items s).
Proof.
  intros ->. unfold add_vlan, vlan_items. destruct (has_bit _ _); [apply appends_none|].
  cbn [negb]. destruct (_ =? _).
  { apply (appends_value OFB_VLAN_VID (be_bytes 2 OFPVID_NONE)). by apply item_ok_be. }
  destruct (_ =? _); [by apply appends_masked; done || bytes|].
  apply appends_value. by apply item_ok_be.
Qed.

Lemma appends_port bit tcp udp icmp sctp port s wc :
  Forall (fun t => 0 <= t < 2 ^ 32 /\ oxm_length t = 2) [tcp; udp; sctp] ->
  0 <= icmp < 2 ^ 32 -> oxm_length icmp = 1 ->
  appends (add_port bit tcp udp icmp sctp port s wc)
    (if has_bit wc bit then [] else [port_item wc (sm_nw_proto s) tcp udp icmp sctp port]).
Proof.
  rewrite !Forall_cons. intros ([??] & [??] & [??] & _) Hi Hil.
  unfold add_port, port_item. destruct (has_bit wc bit); [apply appends_none|]. cbn [negb].
  destruct (has_bit wc SW_NW_PROTO); [by apply appends_value, item_ok_be|].
  destruct (Z.eqb_spec (sm_nw_proto s) PROTOCOL_TCP) as [->|].
  { by apply appends_value, item_ok_be. }
  repeat (destruct (_ =? _); [by apply appends_value, item_ok_be|]).
  by apply appends_value, item_ok_be.
Qed.

Lemma appends_network s :
  std_shape s -> appends (convertNetwork s (sm_wildcards s)) (network_items s).
Proof.
  intros (_ & _ & _ & _ & Hs & Hsm & Hd & Hdm). unfold convertNetwork, network_items. cbv zeta.
  repeat apply appends_bind;
    (by apply appends_unless, item_ok_be) || (by apply (appends_address 4)) ||
    (by apply appends_port; [repeat (apply Forall_cons_2; [done|]); constructor|..]).
Qed.

Lemma appends_arp s :
  std_shape s -> sm_dl_type s = DATALINK_ARP ->
  appends (convertDatalinkARP s (sm_wildcards s)) (arp_items s).
Proof.
  intros (_ & _ & _ & _ & Hs & Hsm & Hd & Hdm) Ht. unfold convertDatalinkARP, arp_items.
  rewrite Ht. cbn [Z.eqb]. change (DATALINK_ARP =? DATALINK_ARP) with true. cbn [negb].
  repeat apply appends_bind;
    (by apply (appends_unless _ OFB_ARP_OP), item_ok_be) || (by apply (appends_address 4)).
Qed.

Lemma appends_std s (empty : B) :
  std_shape s -> appends (fun b => toOXMList b s) (std_items s).
Proof.
  intros Hs. pose proof Hs as (Ha & Ham & Hb & Hbm & _).
  unfold std_items, head_items. rewrite <- !app_assoc. unfold toOXMList. cbv zeta.
  apply appends_bind; [by apply appends_unless, item_ok_be|].
  apply appends_bind.
  { destruct (_ =? 0); [apply appends_none|].
    apply appends_masked; done || apply be_bytes_ok || by unfold zlen; rewrite !be_bytes_length. }
  apply appends_bind; [by apply (appends_address 6)|].
  apply appends_bind; [by apply (appends_address 6)|].
  apply appends_bind; [by apply appends_vlan|].
  apply appends_bind; [by apply appends_unless, item_ok_be|].
  unfold is_arp. destruct (has_bit _ SW_DL_TYPE); cbn [negb andb value_item].
  { by apply appends_network. }
  apply appends_bind; [by apply appends_value, item_ok_be|].
  destruct (Z.eqb_spec (sm_dl_type s) DATALINK_ARP); [by apply appends_arp|by apply appends_network].
Qed.

Lemma std_items_few s : zlen (std_items s) <= 20.
Proof.
  assert (forall skip t v, zlen (value_item skip t v) <= 1) as Hv by (by intros [] ??).
  assert (forall t v k, zlen (address_items t v k) <= 1) as Ha.
  { intros. unfold address_items. by repeat destruct (_ : bool). }
  assert (zlen (vlan_items s) <= 1) as Hn.
  { unfold vlan_items. by repeat destruct (_ : bool). }
  assert (forall (c : bool) (i : oxm_item), zlen (if c then [] else [i]) <= 1) as Hc by (by intros []).
  unfold std_items, head_items, arp_items, network_items. cbv zeta.
  destruct (is_arp s); rewrite !zlen_app;
    repeat match goal with |- context [zlen ?l] =>
      let n := fresh "n" in
      assert (zlen l <= 1) by (apply Hv || apply Ha || apply Hn || apply Hc);
      set (n := zlen l) in *; clearbody n end; lia.
Qed.

(** [toOXMList] on the empty buffer gives the encoding of the match's items. *)
Lemma toOXMList_ok (empty : B) s :
  bb_rep empty [] -> std_shape s ->
  Forall item_ok (std_items s) /\
  exists b, toOXMList empty s = Some b /\ bb_data b = encode (std_items s).
Proof.
  intros He Hs. destruct (appends_std s empty Hs) as [Hok Hf]. split; [done|].
  destruct (Hf empty [] He) as (b & E & Hr).
  { assert (zlen (encode (std_items s)) <= 259 * zlen (std_items s)) as Hb.
    { clear -Hok. induction Hok as [|i l Hi Hl IH]; [done|].
      rewrite encode_cons, zlen_app, zlen_cons. pose proof (item_small _ Hi). lia. }
    pose proof (std_items_few s).
    change (zlen (encode [])) with 0. unfold maxLength. lia. }
  exists b. split; [done|]. by apply bb_rep_data in Hr.
Qed.
End Appends.

(** ** The loops over a well-formed range, item by item *)

Fixpoint fold_items {A} (g : oxm_item -> A -> option A) (l : list oxm_item) (a : A) : option A :=
  match l with
  | [] => Some a
  | i :: l => a ← g i a; fold_items g l a
  end.

Lemma fold_items_app {A} (g : oxm_item -> A -> option A) l k a :
  fold_items g (l ++ k) a = (a ← fold_items g l a; fold_items g k a).
Proof.
  revert a. induction l as [|i l IH]; intros a; [done|]. cbn [fold_items app].
  destruct (g i a) as [a'|]; [apply IH|done].
Qed.

Definition on_item {A} (body : Z -> (Z -> option (list Z)) -> (Z -> option (list Z)) -> A -> option A)
    (i : oxm_item) (a : A) : option A :=
  body (item_type i) (fun n => slice (item_body i) 0 n) (fun n => slice (item_body i) n n) a.

(** The body reads nothing of the item but the value and the mask it holds. *)
Definition reads_item {A} (body : Z -> (Z -> option (list Z)) -> (Z -> option (list Z)) -> A -> option A)
    : Prop :=
  forall i value mask a, item_ok i ->
    (forall n, 0 <= n <= zlen (item_body i) -> value n = slice (item_body i) 0 n) ->
    (forall n, 0 <= n -> 2 * n <= zlen (item_body i) -> mask n = slice (item_body i) n n) ->
    body (item_type i) value mask a = on_item body i a.

(** Reading inside an item that sits in a larger memory. *)
Lemma slice_inside m pre x rest off n :
  m = pre ++ x ++ rest -> 0 <= off -> 0 <= n -> off + n <= zlen x ->
  slice m (zlen pre + off) n = slice x off n.
Proof.
  intros -> Ho Hn Hx. pose proof (zlen_nonneg pre). pose proof (zlen_nonneg rest).
  rewrite !slice_some by (lia || (rewrite !zlen_app; lia)).
  replace (Z.to_nat (zlen pre + off)) with (length pre + Z.to_nat off)%nat by (unfold zlen; lia).
  rewrite drop_app_add, drop_app_le by (unfold zlen in *; lia).
  rewrite take_app_le; [done|]. rewrite length_drop. unfold zlen in *. lia.
Qed.

Lemma for_items_encode {A} body (Hbody : reads_item body) l m pre fuel (a : A) :
  Forall item_ok l -> m = pre ++ encode l -> (length (encode l) <= fuel)%nat ->
  for_items body fuel m (zlen pre) a = fold_items (on_item body) l a.
Proof.
  intros Hl. revert pre fuel a. induction Hl as [|i l Hi Hl IH]; intros pre fuel a Hm Hf.
  { change (encode []) with (@nil Z) in Hm. rewrite app_nil_r in Hm. subst m.
    destruct fuel; cbn [for_items]; by rewrite Z.eqb_refl. }
  rewrite encode_cons in Hm, Hf. pose proof (encode_item_length i) as Hz.
  pose proof (zlen_nonneg (item_body i)). rewrite length_app in Hf.
  destruct fuel as [|fuel]; [unfold zlen in *; lia|]. cbn [for_items fold_items].
  destruct (Z.eqb_spec (zlen pre) (zlen m)) as [E|_].
  { rewrite Hm, !zlen_app in E. pose proof (zlen_nonneg (encode l)). lia. }
  rewrite (it_type_at m pre (encode l) i Hm Hi). cbn [mbind option_bind].
  assert (m = (pre ++ type_bytes (item_type i)) ++ item_body i ++ encode l) as Hm'.
  { rewrite Hm. unfold encode_item. by rewrite <- !app_assoc. }
  assert (zlen pre + 4 = zlen (pre ++ type_bytes (item_type i))) as Hp.
  { by rewrite zlen_app, type_bytes_length. }
  rewrite (Hbody i _ _ a Hi).
  - destruct (on_item body i a) as [a'|]; [|done]. cbn [mbind option_bind].
    rewrite (it_next_at m pre (encode l) i Hm Hi). cbn [mbind option_bind].
    apply IH; [by rewrite Hm, app_assoc|]. unfold zlen in *. lia.
  - intros n Hn. rewrite Hp, <- (Z.add_0_r (zlen _)). apply (slice_inside _ _ _ _ _ _ Hm'); lia.
  - intros n Hn Hn2. rewrite Hp. apply (slice_inside _ _ _ _ _ _ Hm'); lia.
Qed.

(** Walk the [switch] of a conversion: in each case the item's length is the
    one its type names, so the reads stay inside the item. *)
Ltac switch_cases tac :=
  repeat match goal with
  | |- context [?t =? ?c] =>
      destruct (Z.eqb_spec t c) as [Ht|_];
      [ match goal with H : zlen _ = oxm_length _ |- _ =>
          rewrite Ht in H; vm_compute oxm_length in H end; tac |]
  end.

Lemma standard_reads : reads_item standard_item.
Proof.
  intros i value mask [s wc] (_ & Hl & _) Hv Hk. unfold on_item, standard_item.
  switch_cases ltac:(rewrite ?Hv, ?Hk by lia; reflexivity). done.
Qed.

Lemma original_reads : reads_item original_item.
Proof.
  intros i value mask [s wc] (_ & Hl & _) Hv Hk. unfold on_item, original_item.
  switch_cases ltac:(rewrite ?Hv, ?Hk by lia; reflexivity). done.
Qed.

Lemma standard_range l :
  Forall item_ok l ->
  StandardMatch_of_range (encode l) =
    ('(s, wc) ← fold_items (on_item standard_item) l (StandardMatch_default, SW_ALL);
     Some (s {{ sm_wildcards := wc }})).
Proof.
  intros Hl. unfold StandardMatch_of_range.
  by rewrite (for_items_encode standard_item standard_reads l (encode l) [] _ _ Hl).
Qed.

Lemma original_range l :
  Forall item_ok l ->
  OriginalMatch_of_range (encode l) =
    ('(s, wc) ← fold_items (on_item original_item) l (OriginalMatch_zero, OW_ALL);
     Some (s {{ om_wildcards := wc }})).
Proof.
  intros Hl. unfold OriginalMatch_of_range.
  by rewrite (for_items_encode original_item original_reads l (encode l) [] _ _ Hl).
Qed.

(** ** The conversions never leave a validated range *)

Lemma leading_ones_check :
  forallb (fun v => match leading_ones 9 v 0 with Some r => (0 <=? r) && (r <=? 8) | None => false end)
    (seqZ 0 256) = true.
Proof. vm_compute. reflexivity. Qed.

Lemma leading_ones_add fuel v a b :
  leading_ones fuel v (a + b) = (fun r => r + b) <$> leading_ones fuel v a.
Proof.
  revert v a. induction fuel as [|fuel IH]; intros v a; simpl; destruct (_ =? 0); try done.
  rewrite <- IH. f_equal. lia.
Qed.

Lemma prefix_loop_total addr r :
  bytes_ok addr -> exists p, IPv4Address_prefix_loop addr r = Some p /\ r <= p <= r + 8 * zlen addr.
Proof.
  intros Hb. revert r. induction Hb as [|b addr Hb Ha IH]; intros r; cbn [IPv4Address_prefix_loop].
  { exists r. rewrite zlen_nil. split; [done|lia]. }
  rewrite zlen_cons. pose proof (zlen_nonneg addr). destruct (b =? 255); cbn [negb].
  - destruct (IH (r + 8)) as (p & -> & Hp). exists p. split; [done|lia].
  - pose proof (small_check _ 256 leading_ones_check b Hb) as Hc. cbv beta in Hc.
    change r with (0 + r). rewrite leading_ones_add.
    destruct (leading_ones 9 b 0) as [q|]; [|done]. exists (q + r). split; [done|lia].
Qed.

Lemma IPv4Address_prefix_total addr :
  bytes_ok addr -> exists p, IPv4Address_prefix addr = Some p /\ 0 <= p <= 8 * zlen addr.
Proof. intros Hb. by destruct (prefix_loop_total addr 0 Hb) as (p & E & Hp); eauto. Qed.

(** Perform the reads of an item of known length. *)
Ltac item_reads :=
  repeat match goal with
  | |- context [slice (item_body ?i) ?o ?n] =>
      let E := fresh "E" in
      destruct (slice (item_body i) o n) eqn:E;
      [cbn [mbind option_bind fmap option_fmap option_map]
      |rewrite slice_some in E by lia; discriminate]
  end.

Lemma standard_item_total i a : item_ok i -> is_Some (on_item standard_item i a).
Proof.
  intros (_ & Hl & Hb). destruct a as [s wc]. unfold on_item, standard_item.
  switch_cases ltac:(item_reads; by eexists). by eexists.
Qed.

Lemma original_item_total i a : item_ok i -> is_Some (on_item original_item i a).
Proof.
  intros (_ & Hl & Hb). destruct a as [s wc]. unfold on_item, original_item.
  switch_cases ltac:(item_reads;
    try match goal with |- context [IPv4Address_prefix ?k] =>
      destruct (IPv4Address_prefix_total k) as (? & -> & _); [by eapply slice_ok|] end;
    by eexists). by eexists.
Qed.

Lemma fold_items_total {A} (g : oxm_item -> A -> option A) l a :
  (forall i a, item_ok i -> is_Some (g i a)) -> Forall item_ok l -> is_Some (fold_items g l a).
Proof.
  intros Hg Hl. revert a. induction Hl as [|i l Hi Hl IH]; intros a; [by eexists|].
  cbn [fold_items]. destruct (Hg i a Hi) as [a' ->]. apply IH.
Qed.

Lemma valid_range_items m :
  bytes_ok m -> OXMRange_validateInput m = Some true -> exists l, Forall item_ok l /\ m = encode l.
Proof.
  intros Hm Hv. destruct (oxm_valid_loop_spec (S (length m)) m [] m) as (b & E & Hiff); [done|done|lia|].
  unfold OXMRange_validateInput in Hv. change (zlen []) with 0 in E. apply Hiff. congruence.
Qed.

(** Both conversions from an OXM range (to the OpenFlow 1.1 structure and to
    the OpenFlow 1.0 structure) return a structure for every range that
    [OXMRange::validateInput] accepts: none of their reads leaves the range,
    whatever fields it holds and in whatever order. *)
Theorem match_conversions_total m :
  bytes_ok m -> OXMRange_validateInput m = Some true ->
  is_Some (StandardMatch_of_range m) /\ is_Some (OriginalMatch_of_range m).
Proof.
  intros Hm Hv. destruct (valid_range_items m Hm Hv) as (l & Hl & ->).
  rewrite standard_range, original_range by done.
  destruct (fold_items_total (on_item standard_item) l (StandardMatch_default, SW_ALL)
              standard_item_total Hl) as [[s wc] ->].
  destruct (fold_items_total (on_item original_item) l (OriginalMatch_zero, OW_ALL)
              original_item_total Hl) as [[o wo] ->].
  split; by eexists.
Qed.

Lemma match_conversions_total_witness :
  OXMRange_validateInput [128; 0; 10; 2; 8; 0; 128; 0; 23; 8; 10; 0; 0; 0; 255; 0; 0; 0] = Some true /\
  is_Some (StandardMatch_of_range [128; 0; 10; 2; 8; 0; 128; 0; 23; 8; 10; 0; 0; 0; 255; 0; 0; 0]) /\
  is_Some (OriginalMatch_of_range [128; 0; 10; 2; 8; 0; 128; 0; 23; 8; 10; 0; 0; 0; 255; 0; 0; 0]).
Proof. split; [reflexivity|]. apply match_conversions_total; [bytes|reflexivity]. Defined.

(** ** Effect of the groups of items that [toOXMList] lists *)

Section Effects.
Context {A : Type} (body : Z -> (Z -> option (list Z)) -> (Z -> option (list Z)) -> A -> option A).
Implicit Types (st : A) (v k : list Z).

Lemma fold_value t n (upd : Z -> A -> A) (skip : bool) (v : Z) st :
  (forall value mask st, body t value mask st = (x ← be <$> value (Z.of_nat n); Some (upd x st))) ->
  0 <= v < 256 ^ Z.of_nat n ->
  fold_items (on_item body) (value_item skip t (be_bytes n v)) st
  = Some (if skip then st else upd v st).
Proof.
  intros Hb Hv. destruct skip; [done|]. cbn [value_item fold_items]. unfold on_item.
  cbn [item_type item_body]. rewrite Hb, slice_all by (unfold zlen; by rewrite be_bytes_length).
  cbn [fmap option_fmap option_map mbind option_bind]. by rewrite be_be_bytes, Z.mod_small.
Qed.

Lemma masked_reads t v k n :
  length v = n -> length k = n -> MemCopyMasked v k = v ->
  slice (item_body (masked_item t v k)) 0 (Z.of_nat n) = Some v /\
  slice (item_body (masked_item t v k)) (Z.of_nat n) (Z.of_nat n) = Some k.
Proof.
  intros Hv Hk He. unfold masked_item. cbn [item_body]. rewrite He. split.
  - by apply (slice_split _ _ _ [] v k); unfold zlen; rewrite ?Hv.
  - apply (slice_split _ _ _ v k []); unfold zlen; rewrite ?app_nil_r, ?Hv, ?Hk; done.
Qed.

Lemma isBroadcast_true k n : address_ok n k -> isBroadcast k = true -> k = allOnes n.
Proof.
  intros [Hl _] H%IsMemFilled_true. subst n. unfold allOnes.
  induction H as [|x k Hx Hk IH]; [done|]. cbn. rewrite <- IH. by rewrite Hx.
Qed.

Lemma fold_masked t n (upd : list Z -> list Z -> A -> A) v k st :
  (forall value mask st, body (withMask t) value mask st
     = (x ← value (Z.of_nat n); y ← mask (Z.of_nat n); Some (upd x y st))) ->
  length v = n -> length k = n -> MemCopyMasked v k = v ->
  fold_items (on_item body) [masked_item t v k] st = Some (upd v k st).
Proof.
  intros Hb Hv Hk He. destruct (masked_reads t v k n Hv Hk He) as [E1 E2].
  cbn [fold_items]. unfold on_item. change (item_type (masked_item t v k)) with (withMask t).
  by rewrite Hb, E1, E2.
Qed.

Lemma fold_address t n (upd : list Z -> list Z -> A -> A) v k st :
  (forall value mask st, body t value mask st
     = (x ← value (Z.of_nat n); Some (upd x (allOnes n) st))) ->
  (forall value mask st, body (withMask t) value mask st
     = (x ← value (Z.of_nat n); y ← mask (Z.of_nat n); Some (upd x y st))) ->
  address_ok n v -> address_ok n k -> MemCopyMasked v k = v ->
  fold_items (on_item body) (address_items t v k) st
  = Some (if address_valid k then upd v k st else st).
Proof.
  intros Hb Hm Hv Hk He. unfold address_items. destruct (address_valid k); [|done].
  destruct (isBroadcast k) eqn:Eb.
  - rewrite (isBroadcast_true k n Hk Eb). cbn [fold_items]. unfold on_item.
    cbn [item_type item_body]. destruct Hv as [Hv _].
    by rewrite Hb, slice_all by (unfold zlen; by rewrite Hv).
  - destruct Hv, Hk. by apply (fold_masked t n).
Qed.
End Effects.

(** ** Round trip of the OpenFlow 1.1 structure *)

(** A member that is wildcarded is zero. *)
Definition zero_if (skip : bool) (v : Z) : bool := negb skip || (v =? 0).
Definition fits (w v : Z) : bool := (0 <=? v) && (v <? 2 ^ w).

Definition bytes_fit (n : nat) (a : list Z) : bool :=
  (length a =? n)%nat && forallb (fits 8) a.

(** An address has no bits outside its mask. *)
Definition masked_fits (n : nat) (v k : list Z) : bool :=
  bytes_fit n v && bytes_fit n k && bool_decide (MemCopyMasked v k = v).

Definition vlan_fits (skip : bool) (v : Z) : bool :=
  fits 16 v &&
  if skip then v =? 0
  else (v =? v1_OFPVID_NONE) || (v =? v1_OFPVID_PRESENT) || (Z.land v OFPVID_PRESENT =? 0).

(** A port of a protocol that the structure can name: ICMP's are 8 bits wide;
    SCTP's have no OXM field that is read back. *)
Definition port_fits (skip any_proto : bool) (proto v : Z) : bool :=
  fits 16 v && zero_if skip v &&
  (skip || any_proto ||
   (negb (proto =? PROTOCOL_SCTP) && (negb (proto =? PROTOCOL_ICMP) || fits 8 v))).

Definition std_canonical (s : StandardMatch) : bool :=
  let wc := sm_wildcards s in
  (sm_type s =? OFPMT_STANDARD) && (sm_length s =? OFPMT_STANDARD_LENGTH) && fits 10 wc &&
  (fits 32 (sm_in_port s) && zero_if (has_bit wc SW_IN_PORT) (sm_in_port s)) &&
  masked_fits 6 (sm_dl_src s) (sm_dl_src_mask s) &&
  masked_fits 6 (sm_dl_dst s) (sm_dl_dst_mask s) &&
  vlan_fits (has_bit wc SW_DL_VLAN) (sm_dl_vlan s) &&
  (fits 8 (sm_dl_vlan_pcp s) && zero_if (has_bit wc SW_DL_VLAN_PCP) (sm_dl_vlan_pcp s)) &&
  (fits 16 (sm_dl_type s) && zero_if (has_bit wc SW_DL_TYPE) (sm_dl_type s)) &&
  (fits 8 (sm_nw_tos s) && zero_if (has_bit wc SW_NW_TOS) (sm_nw_tos s)) &&
  (fits 8 (sm_nw_proto s) && zero_if (has_bit wc SW_NW_PROTO) (sm_nw_proto s)) &&
  masked_fits 4 (sm_nw_src s) (sm_nw_src_mask s) &&
  masked_fits 4 (sm_nw_dst s) (sm_nw_dst_mask s) &&
  port_fits (has_bit wc SW_TP_SRC) (has_bit wc SW_NW_PROTO) (sm_nw_proto s) (sm_tp_src s) &&
  port_fits (has_bit wc SW_TP_DST) (has_bit wc SW_NW_PROTO) (sm_nw_proto s) (sm_tp_dst s) &&
  (fits 32 (sm_mpls_label s) && zero_if (has_bit wc SW_MPLS_LABEL) (sm_mpls_label s)) &&
  (fits 8 (sm_mpls_tc s) && zero_if (has_bit wc SW_MPLS_TC) (sm_mpls_tc s)) &&
  (fits 64 (sm_metadata s) && fits 64 (sm_metadata_mask s) &&
   (Z.land (sm_metadata s) (sm_metadata_mask s) =? sm_metadata s)) &&
  (if is_arp s then
     has_bit wc SW_NW_TOS && has_bit wc SW_TP_SRC && has_bit wc SW_TP_DST && has_bit wc SW_MPLS_LABEL &&
     has_bit wc SW_MPLS_TC
   else true).

Lemma fits_iff w v : fits w v = true <-> 0 <= v < 2 ^ w.
Proof. unfold fits. lia. Qed.

Lemma bytes_fit_ok n a : bytes_fit n a = true -> address_ok n a.
Proof.
  unfold bytes_fit, address_ok. intros [Hl%Nat.eqb_eq Hb]%andb_true_iff. split; [done|].
  apply List.Forall_forall. intros b Hin. rewrite List.forallb_forall in Hb.
  apply (fits_iff 8), Hb, Hin.
Qed.

Lemma masked_fits_ok n v k :
  masked_fits n v k = true -> address_ok n v /\ address_ok n k /\ MemCopyMasked v k = v.
Proof.
  unfold masked_fits. intros [[H1 H2]%andb_true_iff H3]%andb_true_iff.
  split_and!; [by apply bytes_fit_ok..|by apply bool_decide_eq_true_1 in H3].
Qed.

(** An address whose mask is zero is zero. *)
Lemma MemCopyMasked_zeros v k n :
  address_ok n v -> address_ok n k -> MemCopyMasked v k = v -> address_valid k = false ->
  v = zeros n /\ k = zeros n.
Proof.
  intros [Hv Hvb] [Hk Hkb] He Ha. apply negb_false_iff, IsMemFilled_true in Ha. change (u8 0) with 0 in Ha.
  assert (k = zeros n) as ->.
  { subst n. rewrite <- Hk. clear -Ha. unfold zeros. induction Ha as [|x k -> Hk IH]; [done|].
    cbn. by rewrite <- IH. }
  split; [|done]. rewrite <- He. clear -Hv. subst n. unfold zeros, MemCopyMasked.
  induction v as [|x v IH]; [done|]. cbn. rewrite IH. by rewrite Z.land_0_r.
Qed.

Lemma be_bytes_zero n v : 0 <= v < 256 ^ Z.of_nat n -> be_bytes n v = zeros n -> v = 0.
Proof.
  intros Hv E. apply (f_equal be) in E. unfold zeros in E.
  by rewrite be_be_bytes, be_zeros, Z.mod_small in E.
Qed.

Lemma be_bytes_land n v k : MemCopyMasked (be_bytes n v) (be_bytes n k) = be_bytes n (Z.land v k).
Proof.
  revert v k. induction n as [|n IH]; intros v k; [done|]. cbn [be_bytes]. unfold MemCopyMasked in *.
  rewrite zip_with_app by (by rewrite !be_bytes_length). rewrite IH. cbn [zip_with].
  assert (forall z, z / 256 = Z.shiftr z 8) as Hs by (intros; by rewrite Z.shiftr_div_pow2).
  assert (forall z, z mod 256 = Z.land z 255) as Hm by (intros; by rewrite (land_ones_mod _ 8)).
  rewrite !Hs, !Hm, Z.shiftr_land. do 2 f_equal. apply Z.bits_inj'. intros i Hi.
  rewrite !Z.land_spec. by destruct (Z.testbit v i), (Z.testbit k i), (Z.testbit 255 i).
Qed.

(** Adding the present bit to a VLAN id and taking it away. *)
Lemma vlan_present_bit v :
  0 <= v < 2 ^ 16 -> Z.land v OFPVID_PRESENT = 0 ->
  0 <= Z.lor v OFPVID_PRESENT < 2 ^ 16 /\ vlan_of_oxm (Z.lor v OFPVID_PRESENT) = v.
Proof.
  change OFPVID_PRESENT with (2 ^ 12). intros Hv Hf.
  assert (Z.testbit v 12 = false) as Hbit.
  { apply Z.eqb_eq in Hf. change (2 ^ 12) with (Z.shiftl 1 12) in Hf.
    rewrite land_flag in Hf by lia. by destruct (Z.testbit v 12). }
  assert (Z.lor v (2 ^ 12) = v + 2 ^ 12) as Hadd.
  { by rewrite <- Z.lxor_lor, <- Z.add_nocarry_lxor. }
  assert (Z.log2 (Z.lor v (2 ^ 12)) < 16) as Hlog.
  { rewrite Z.log2_lor by lia. apply Z.max_lub_lt; [|done].
    destruct (decide (v = 0)) as [->|]; [done|]. apply Z.log2_lt_pow2; lia. }
  assert (Z.lor v (2 ^ 12) < 2 ^ 16) by (apply Z.log2_lt_pow2; [lia|done]).
  split; [lia|]. unfold vlan_of_oxm. rewrite (proj2 (Z.eqb_neq _ _)) by (unfold OFPVID_NONE; lia).
  apply Z.bits_inj'. intros i Hi. change OFPVID_PRESENT with (2 ^ 12).
  rewrite Z.land_spec, Z.lor_spec, Z.lnot_spec, Z.pow2_bits_eqb by lia.
  destruct (Z.eqb_spec 12 i) as [<-|]; rewrite ?Hbit, ?andb_true_r, ?orb_false_r; done.
Qed.

(** The wildcards after a field that is listed unless [skip]. *)
Definition clr (skip : bool) (W b : Z) : Z := if skip then W else unset W b.

(** One listed field, starting from a structure where it is still zero. *)
Section Fields.
Context {R : Type}.
Context (body : Z -> (Z -> option (list Z)) -> (Z -> option (list Z)) -> R * Z -> option (R * Z)).
Implicit Types (st : R).

Lemma field_value t n b (set : Z -> R -> R) skip W v st :
  (forall value mask st wc, body t value mask (st, wc)
     = (x ← be <$> value (Z.of_nat n); Some (set x st, unset wc b))) ->
  0 <= v < 256 ^ Z.of_nat n -> (skip = true -> set v st = st) ->
  fold_items (on_item body) (value_item skip t (be_bytes n v)) (st, W)
  = Some (set v st, clr skip W b).
Proof.
  intros Hb Hv Hz.
  rewrite (fold_value body t n (fun x '(st, wc) => (set x st, unset wc b))); [|by intros ?? []|done].
  destruct skip; [|done]. by rewrite Hz.
Qed.

Lemma field_address t n (set : list Z -> list Z -> R -> R) W v k st :
  (forall value mask st wc, body t value mask (st, wc)
     = (x ← value (Z.of_nat n); Some (set x (allOnes n) st, wc))) ->
  (forall value mask st wc, body (withMask t) value mask (st, wc)
     = (x ← value (Z.of_nat n); y ← mask (Z.of_nat n); Some (set x y st, wc))) ->
  masked_fits n v k = true -> set (zeros n) (zeros n) st = st ->
  fold_items (on_item body) (address_items t v k) (st, W) = Some (set v k st, W).
Proof.
  intros Hb Hm (Hv & Hk & He)%masked_fits_ok Hz.
  rewrite (fold_address body t n (fun x y '(st, W) => (set x y st, W)));
    [|by intros ?? []|by intros ?? []|done..].
  destruct (address_valid k) eqn:Ea; [done|].
  destruct (MemCopyMasked_zeros v k n Hv Hk He Ea) as [-> ->]. by rewrite Hz.
Qed.

Lemma field_port tcp udp icmp sctp skip b (set : Z -> R -> R) W wc proto v st :
  (forall t value mask st wc, t = tcp \/ t = udp -> body t value mask (st, wc)
     = (x ← be <$> value 2; Some (set x st, unset wc b))) ->
  (forall value mask st wc, body icmp value mask (st, wc)
     = (x ← be <$> value 1; Some (set x st, unset wc b))) ->
  port_fits skip (has_bit wc SW_NW_PROTO) proto v = true -> (set 0 st = st) ->
  fold_items (on_item body)
    (if skip then [] else [port_item wc proto tcp udp icmp sctp v]) (st, W)
  = Some (set v st, clr skip W b).
Proof.
  intros Hb Hi Hf Hz. unfold port_fits, zero_if in Hf.
  apply andb_true_iff in Hf as [[Hv%fits_iff Hs]%andb_true_iff Hp]. destruct skip.
  { cbn in Hs. apply Z.eqb_eq in Hs as ->. by rewrite Hz. }
  assert (forall t, t = tcp \/ t = udp -> fold_items (on_item body) [Item t (be_bytes 2 v)]
            (st, W) = Some (set v st, unset W b)) as Ht.
  { intros t Ht. apply (field_value t 2 b set false); try done. intros. by apply Hb. }
  unfold port_item. destruct (has_bit wc SW_NW_PROTO); [auto|]. cbn [orb] in Hp.
  destruct (proto =? PROTOCOL_UDP); [auto|]. destruct (proto =? PROTOCOL_ICMP) eqn:Ei.
  - assert (0 <= v < 256) as Hv8.
    { cbn in Hp. apply andb_true_iff in Hp as [_ Hp]. by apply (fits_iff 8) in Hp. }
    rewrite u8_small by done. by apply (field_value icmp 1 b set false).
  - destruct (proto =? PROTOCOL_SCTP); [done|auto].
Qed.

Lemma field_vlan (set : Z -> R -> R) b W s st :
  (forall value mask st wc, body OFB_VLAN_VID value mask (st, wc)
     = (x ← be <$> value 2; Some (set (vlan_of_oxm x) st, unset wc b))) ->
  (forall value mask st wc, body (withMask OFB_VLAN_VID) value mask (st, wc)
     = (x ← be <$> value 2; y ← be <$> mask 2;
        Some (set (vlan_of_oxm_masked x y) st, unset wc b))) ->
  vlan_fits (has_bit (sm_wildcards s) SW_DL_VLAN) (sm_dl_vlan s) = true -> set 0 st = st ->
  fold_items (on_item body) (vlan_items s) (st, W)
  = Some (set (sm_dl_vlan s) st, clr (has_bit (sm_wildcards s) SW_DL_VLAN) W b).
Proof.
  intros Hb Hm Hf Hz. unfold vlan_items, vlan_fits in *.
  apply andb_true_iff in Hf as [Hv%fits_iff Hf].
  destruct (has_bit _ _).
  { cbn [fold_items]. apply Z.eqb_eq in Hf as ->. by rewrite Hz. }
  assert (forall x, 0 <= x < 2 ^ 16 -> fold_items (on_item body) [Item OFB_VLAN_VID (be_bytes 2 x)]
            (st, W) = Some (set (vlan_of_oxm x) st, unset W b)) as Ht.
  { intros x Hx. by apply (field_value OFB_VLAN_VID 2 b (fun x => set (vlan_of_oxm x)) false). }
  destruct (Z.eqb_spec (sm_dl_vlan s) v1_OFPVID_NONE) as [->|Hn].
  { by apply (Ht OFPVID_NONE). }
  destruct (Z.eqb_spec (sm_dl_vlan s) v1_OFPVID_PRESENT) as [->|Hp].
  { cbn [fold_items]. unfold on_item. change (item_type _) with (withMask OFB_VLAN_VID).
    by rewrite Hm. }
  cbn [orb] in Hf. destruct (vlan_present_bit (sm_dl_vlan s) Hv) as [Hlt Hback];
    [by apply Z.eqb_eq|]. rewrite Ht by done. by rewrite Hback.
Qed.
End Fields.

Lemma field_metadata v k st W :
  0 <= v < 2 ^ 64 -> 0 <= k < 2 ^ 64 -> Z.land v k = v -> sm_metadata st = 0 ->
  sm_metadata_mask st = 0 ->
  fold_items (on_item standard_item)
    (if k =? 0 then [] else [masked_item OFB_METADATA (be_bytes 8 v) (be_bytes 8 k)]) (st, W)
  = Some (st {{ sm_metadata := v; sm_metadata_mask := k }}, W).
Proof.
  intros Hv Hk Hl Hs Hsm. destruct (Z.eqb_spec k 0) as [->|_].
  { rewrite Z.land_0_r in Hl. subst v. destruct st. cbn in *. by subst. }
  rewrite (fold_masked standard_item OFB_METADATA 8
    (fun x y '(st, W) => (st {{ sm_metadata := be x; sm_metadata_mask := be y }}, W))).
  - by rewrite !be_be_bytes, !Z.mod_small.
  - intros value mask [s w]. change (Z.of_nat 8) with 8.
    transitivity (x ← be <$> value 8; y ← be <$> mask 8;
                  Some (s {{ sm_metadata := x; sm_metadata_mask := y }}, w)); [done|].
    by destruct (value 8), (mask 8).
  - apply be_bytes_length.
  - apply be_bytes_length.
  - by rewrite be_bytes_land, Hl.
Qed.

(** A wildcarded member is zero, as it is in the structure under construction. *)
Ltac zskip H :=
  let Hw := fresh in
  intros Hw; unfold zero_if in H; rewrite Hw in H; cbn in H; apply Z.eqb_eq in H; rewrite H; done.

Section StandardRoundTrip.
Context (s : StandardMatch) (Hs : std_canonical s = true).
Abbreviation wc := (sm_wildcards s).

Lemma std_parts :
  sm_type s = OFPMT_STANDARD /\ sm_length s = OFPMT_STANDARD_LENGTH /\ 0 <= wc < 2 ^ 10 /\
  (0 <= sm_in_port s < 2 ^ 32 /\ zero_if (has_bit wc SW_IN_PORT) (sm_in_port s) = true) /\
  masked_fits 6 (sm_dl_src s) (sm_dl_src_mask s) = true /\
  masked_fits 6 (sm_dl_dst s) (sm_dl_dst_mask s) = true /\
  vlan_fits (has_bit wc SW_DL_VLAN) (sm_dl_vlan s) = true /\
  (0 <= sm_dl_vlan_pcp s < 2 ^ 8 /\ zero_if (has_bit wc SW_DL_VLAN_PCP) (sm_dl_vlan_pcp s) = true) /\
  (0 <= sm_dl_type s < 2 ^ 16 /\ zero_if (has_bit wc SW_DL_TYPE) (sm_dl_type s) = true) /\
  (0 <= sm_nw_tos s < 2 ^ 8 /\ zero_if (has_bit wc SW_NW_TOS) (sm_nw_tos s) = true) /\
  (0 <= sm_nw_proto s < 2 ^ 8 /\ zero_if (has_bit wc SW_NW_PROTO) (sm_nw_proto s) = true) /\
  masked_fits 4 (sm_nw_src s) (sm_nw_src_mask s) = true /\
  masked_fits 4 (sm_nw_dst s) (sm_nw_dst_mask s) = true /\
  port_fits (has_bit wc SW_TP_SRC) (has_bit wc SW_NW_PROTO) (sm_nw_proto s) (sm_tp_src s) = true /\
  port_fits (has_bit wc SW_TP_DST) (has_bit wc SW_NW_PROTO) (sm_nw_proto s) (sm_tp_dst s) = true /\
  (0 <= sm_mpls_label s < 2 ^ 32 /\ zero_if (has_bit wc SW_MPLS_LABEL) (sm_mpls_label s) = true) /\
  (0 <= sm_mpls_tc s < 2 ^ 8 /\ zero_if (has_bit wc SW_MPLS_TC) (sm_mpls_tc s) = true) /\
  (0 <= sm_metadata s < 2 ^ 64 /\ 0 <= sm_metadata_mask s < 2 ^ 64 /\
   Z.land (sm_metadata s) (sm_metadata_mask s) = sm_metadata s) /\
  (if is_arp s then
     has_bit wc SW_NW_TOS && has_bit wc SW_TP_SRC && has_bit wc SW_TP_DST && has_bit wc SW_MPLS_LABEL &&
     has_bit wc SW_MPLS_TC
   else true) = true.
Proof.
  generalize Hs. unfold std_canonical. rewrite !andb_true_iff, !fits_iff, !Z.eqb_eq. tauto.
Qed.

Lemma std_shape_canonical : std_shape s.
Proof.
  destruct std_parts as (_&_&_&_&H1&H2&_&_&_&_&_&H3&H4&_).
  apply masked_fits_ok in H1, H2, H3, H4. unfold std_shape. naive_solver.
Qed.

(** The structure when the fields up to [dl_vlan_pcp] are known. *)
Definition head_state : StandardMatch :=
  StandardMatch_default {{ sm_in_port := sm_in_port s; sm_metadata := sm_metadata s;
    sm_metadata_mask := sm_metadata_mask s; sm_dl_src := sm_dl_src s;
    sm_dl_src_mask := sm_dl_src_mask s; sm_dl_dst := sm_dl_dst s;
    sm_dl_dst_mask := sm_dl_dst_mask s; sm_dl_vlan := sm_dl_vlan s;
    sm_dl_vlan_pcp := sm_dl_vlan_pcp s }}.

(** The wildcards, cleared for the listed fields in turn. *)
Definition clear_bits (wc : Z) (bits : list Z) (W : Z) : Z :=
  foldl (fun W b => clr (has_bit wc b) W b) W bits.

Lemma std_head W :
  fold_items (on_item standard_item) (head_items s) (StandardMatch_default, W)
  = Some (head_state, clear_bits wc [SW_IN_PORT; SW_DL_VLAN; SW_DL_VLAN_PCP] W).
Proof.
  destruct std_parts as (_&_&_&[Hip Hipz]&Hsrc&Hdst&Hvl&[Hpc Hpcz]&_&_&_&_&_&_&_&_&_&(Hm&Hmm&Hml)&_).
  unfold head_items, head_state. cbv zeta. rewrite fold_items_app.
  rewrite (field_value standard_item _ _ SW_IN_PORT (fun x st => st {{ sm_in_port := x }}));
    [|done|done|zskip Hipz].
  cbn [mbind option_bind]. rewrite fold_items_app, field_metadata by done. cbn [mbind option_bind].
  rewrite fold_items_app, (field_address standard_item _ 6
    (fun x y st => st {{ sm_dl_src := x; sm_dl_src_mask := y }})) by done. cbn [mbind option_bind].
  rewrite fold_items_app, (field_address standard_item _ 6
    (fun x y st => st {{ sm_dl_dst := x; sm_dl_dst_mask := y }})) by done. cbn [mbind option_bind].
  rewrite fold_items_app, (field_vlan standard_item (fun x st => st {{ sm_dl_vlan := x }}) SW_DL_VLAN)
    by done. cbn [mbind option_bind].
  rewrite (field_value standard_item _ _ SW_DL_VLAN_PCP (fun x st => st {{ sm_dl_vlan_pcp := x }}));
    [|done|done|zskip Hpcz]. done.
Qed.

(** The structure when the fields up to [dl_type] are known. *)
Definition type_state : StandardMatch := head_state {{ sm_dl_type := sm_dl_type s }}.

Lemma std_type W :
  fold_items (on_item standard_item)
    (value_item (has_bit wc SW_DL_TYPE) OFB_ETH_TYPE (be_bytes 2 (sm_dl_type s)))
    (head_state, W)
  = Some (type_state, clr (has_bit wc SW_DL_TYPE) W SW_DL_TYPE).
Proof.
  destruct std_parts as (_&_&_&_&_&_&_&_&[Ht Htz]&_).
  by rewrite (field_value standard_item _ _ SW_DL_TYPE (fun x st => st {{ sm_dl_type := x }}));
    [|done|done|zskip Htz].
Qed.

Definition arp_state : StandardMatch :=
  type_state {{ sm_nw_proto := sm_nw_proto s; sm_nw_src := sm_nw_src s;
    sm_nw_src_mask := sm_nw_src_mask s; sm_nw_dst := sm_nw_dst s;
    sm_nw_dst_mask := sm_nw_dst_mask s }}.

Lemma std_arp W :
  fold_items (on_item standard_item) (arp_items s) (type_state, W)
  = Some (arp_state, clr (has_bit wc SW_NW_PROTO) W SW_NW_PROTO).
Proof.
  destruct std_parts as (_&_&_&_&_&_&_&_&_&_&[Hp Hpz]&Hsrc&Hdst&_).
  unfold arp_items. rewrite fold_items_app.
  assert (fold_items (on_item standard_item)
    (value_item (has_bit wc SW_NW_PROTO) OFB_ARP_OP (be_bytes 2 (sm_nw_proto s)))
    (type_state, W) =
    Some (type_state {{ sm_nw_proto := sm_nw_proto s }}, clr (has_bit wc SW_NW_PROTO) W SW_NW_PROTO)) as ->.
  { rewrite (field_value standard_item _ _ SW_NW_PROTO (fun x st => st {{ sm_nw_proto := u8 x }}));
      [by rewrite u8_small|done|cbn; lia|rewrite (u8_small (sm_nw_proto s)) by done; zskip Hpz]. }
  cbn [mbind option_bind].
  rewrite fold_items_app, (field_address standard_item _ 4
    (fun x y st => st {{ sm_nw_src := x; sm_nw_src_mask := y }})) by done. cbn [mbind option_bind].
  by rewrite (field_address standard_item _ 4
    (fun x y st => st {{ sm_nw_dst := x; sm_nw_dst_mask := y }})) by done.
Qed.

Lemma std_network W :
  fold_items (on_item standard_item) (network_items s) (type_state, W)
  = Some (arp_state {{ sm_nw_tos := sm_nw_tos s; sm_tp_src := sm_tp_src s; sm_tp_dst := sm_tp_dst s;
                       sm_mpls_label := sm_mpls_label s; sm_mpls_tc := sm_mpls_tc s }},
          clear_bits wc [SW_NW_TOS; SW_NW_PROTO; SW_TP_SRC; SW_TP_DST; SW_MPLS_LABEL; SW_MPLS_TC] W).
Proof.
  destruct std_parts as
    (_&_&_&_&_&_&_&_&_&[Ht Htz]&[Hp Hpz]&Hsrc&Hdst&Hts&Htd&[Hl Hlz]&[Hc Hcz]&_).
  unfold network_items. cbv zeta. rewrite fold_items_app.
  rewrite (field_value standard_item _ _ SW_NW_TOS (fun x st => st {{ sm_nw_tos := x }}));
    [|done|done|zskip Htz]. cbn [mbind option_bind]. rewrite fold_items_app.
  rewrite (field_value standard_item _ _ SW_NW_PROTO (fun x st => st {{ sm_nw_proto := x }}));
    [|done|done|zskip Hpz]. cbn [mbind option_bind].
  rewrite fold_items_app, (field_address standard_item _ 4
    (fun x y st => st {{ sm_nw_src := x; sm_nw_src_mask := y }})) by done. cbn [mbind option_bind].
  rewrite fold_items_app, (field_address standard_item _ 4
    (fun x y st => st {{ sm_nw_dst := x; sm_nw_dst_mask := y }})) by done. cbn [mbind option_bind].
  rewrite fold_items_app, (field_port standard_item _ _ _ _ _ SW_TP_SRC (fun x st => st {{ sm_tp_src := x }}));
    [|by intros ????? [->| ->]|done..]. cbn [mbind option_bind].
  rewrite fold_items_app, (field_port standard_item _ _ _ _ _ SW_TP_DST (fun x st => st {{ sm_tp_dst := x }}));
    [|by intros ????? [->| ->]|done..]. cbn [mbind option_bind].
  rewrite fold_items_app.
  rewrite (field_value standard_item _ _ SW_MPLS_LABEL (fun x st => st {{ sm_mpls_label := x }}));
    [|done|done|zskip Hlz]. cbn [mbind option_bind].
  by rewrite (field_value standard_item _ _ SW_MPLS_TC (fun x st => st {{ sm_mpls_tc := x }}));
    [|done|done|zskip Hcz].
Qed.

(** Clearing the bits of the fields that are listed leaves the wildcards. *)
Lemma wc_network :
  clear_bits wc [SW_IN_PORT; SW_DL_VLAN; SW_DL_VLAN_PCP; SW_DL_TYPE; SW_NW_TOS; SW_NW_PROTO;
                 SW_TP_SRC; SW_TP_DST; SW_MPLS_LABEL; SW_MPLS_TC] SW_ALL = wc.
Proof.
  destruct std_parts as (_&_&Hw&_).
  assert (forallb (fun w => clear_bits w [SW_IN_PORT; SW_DL_VLAN; SW_DL_VLAN_PCP; SW_DL_TYPE;
    SW_NW_TOS; SW_NW_PROTO; SW_TP_SRC; SW_TP_DST; SW_MPLS_LABEL; SW_MPLS_TC] SW_ALL =? w)
    (seqZ 0 1024) = true) as Hc by (by vm_compute).
  pose proof (small_check _ _ Hc wc Hw) as H. cbv beta in H. by apply Z.eqb_eq in H.
Qed.

(** The fields that an ARP match does not list are wildcarded. *)
Lemma wc_arp :
  is_arp s = true ->
  clear_bits wc [SW_IN_PORT; SW_DL_VLAN; SW_DL_VLAN_PCP; SW_DL_TYPE; SW_NW_PROTO] SW_ALL = wc /\
  sm_nw_tos s = 0 /\ sm_tp_src s = 0 /\ sm_tp_dst s = 0 /\ sm_mpls_label s = 0 /\ sm_mpls_tc s = 0.
Proof.
  intros Ha. destruct std_parts as (_&_&Hw&_&_&_&_&_&_&[_ Ht]&_&_&_&Hts&Htd&[_ Hl]&[_ Hc]&_&Harp).
  rewrite Ha in Harp. split.
  - assert (forallb (fun w => negb (has_bit w SW_NW_TOS && has_bit w SW_TP_SRC && has_bit w SW_TP_DST &&
      has_bit w SW_MPLS_LABEL && has_bit w SW_MPLS_TC) ||
      (clear_bits w [SW_IN_PORT; SW_DL_VLAN; SW_DL_VLAN_PCP; SW_DL_TYPE; SW_NW_PROTO] SW_ALL =? w))
      (seqZ 0 1024) = true)
      as Hck by (by vm_compute).
    pose proof (small_check _ _ Hck wc Hw) as H. cbv beta in H. rewrite Harp in H. by apply Z.eqb_eq in H.
  - rewrite !andb_true_iff in Harp. destruct Harp as ((((H1 & H2) & H3) & H4) & H5).
    unfold port_fits in *. rewrite !andb_true_iff in Hts, Htd. unfold zero_if in *.
    rewrite H1 in Ht. rewrite H2 in Hts. rewrite H3 in Htd. rewrite H4 in Hl. rewrite H5 in Hc.
    cbn [negb orb] in *. rewrite Z.eqb_eq in *. tauto.
Qed.

End StandardRoundTrip.

Lemma std_items_fold s :
  std_canonical s = true -> Forall item_ok (std_items s) ->
  StandardMatch_of_range (encode (std_items s)) = Some s.
Proof.
  intros Hs Hok. rewrite standard_range by done. unfold std_items.
  rewrite fold_items_app, std_head by done.
  cbn [mbind option_bind]. rewrite fold_items_app, std_type by done. cbn [mbind option_bind].
  destruct (std_parts s Hs) as (Hty & Hlen & _).
  destruct (is_arp s) eqn:Ea.
  - destruct (wc_arp s Hs Ea) as (Hw & H1 & H2 & H3 & H4 & H5).
    rewrite std_arp by done. cbn [mbind option_bind].
    etransitivity; [apply (f_equal (fun w => Some (_ {{ sm_wildcards := w }})) Hw)|].
    clear -Hty Hlen H1 H2 H3 H4 H5. destruct s. cbn in *. by subst.
  - rewrite std_network by done. cbn [mbind option_bind].
    etransitivity; [apply (f_equal (fun w => Some (_ {{ sm_wildcards := w }})) (wc_network s Hs))|].
    clear -Hty Hlen. destruct s. cbn in *. by subst.
Qed.

(** C26. Round trip between the OpenFlow 1.1 match structure and its OXM list.
    [toOXMList] of a canonical structure (wildcarded members are zero, addresses
    and metadata have no bits outside their masks, a VLAN id has no present bit,
    transport ports belong to a protocol the structure can name, an ARP match
    wildcards what ARP does not have) succeeds, lists well-formed fields that
    [OXMRange::validateInput] accepts, and [StandardMatch(OXMRange)] of that list
    is the structure again: all 23 members, the wildcard bits included. *)
Theorem standard_match_roundtrip {B} `{ByteBufferLaws B} (empty : B) s :
  bb_rep empty [] -> std_canonical s = true ->
  exists b, toOXMList empty s = Some b /\
    OXMRange_validateInput (bb_data b) = Some true /\
    StandardMatch_of_range (bb_data b) = Some s.
Proof.
  intros He Hs. destruct (toOXMList_ok empty s He (std_shape_canonical s Hs)) as (Hok & b & E & Hd).
  exists b. split; [done|]. rewrite Hd. split; [|by apply std_items_fold].
  destruct (oxm_valid_loop_spec (S (length (encode (std_items s)))) (encode (std_items s)) []
              (encode (std_items s))) as (r & Er & Hiff); [done|by apply encode_ok|lia|].
  unfold OXMRange_validateInput. change (zlen []) with 0 in Er. rewrite Er. f_equal. apply Hiff. eauto.
Qed.

(** A TCP match on a subnet, a VLAN and a port. *)
Definition std_example : StandardMatch :=
  mkStandardMatch 0 88 7 0x314 (zeros 6) (zeros 6) [1; 2; 3; 4; 5; 6] (allOnes 6) 100 0 0x800 0 6
    [10; 1; 0; 0] [255; 255; 0; 0] (zeros 4) (zeros 4) 80 443 0 0 0x1200 0xff00.

Lemma standard_match_roundtrip_witness :
  std_canonical std_example = true /\
  exists b, @toOXMList _ (SmallBuffer_ops heap_zero) sb_fresh std_example = Some b /\
    OXMRange_validateInput (SB_contents b) = Some true /\
    StandardMatch_of_range (SB_contents b) = Some std_example.
Proof.
  split; [reflexivity|].
  apply (@standard_match_roundtrip _ _ (SmallBuffer_laws heap_zero) sb_fresh std_example).
  - apply sb_fresh_represents.
  - reflexivity.
Defined.

(** ** Round trip of the OpenFlow 1.0 structure *)

(** The wildcards of the OpenFlow 1.0 structure: flags, and the numbers of
    wildcarded bits of the two addresses. *)
Definition join_wc (flags src dst : Z) : Z :=
  Z.lor flags (Z.lor (Z.shiftl src OW_NW_SRC_SHIFT) (Z.shiftl dst OW_NW_DST_SHIFT)).

Definition flag_mask : Z := 0x3000ff.

Definition flags_ok (f : Z) : Prop := Z.land f flag_mask = f.

Lemma flags_low f i : flags_ok f -> 8 <= i < 20 -> Z.testbit f i = false.
Proof.
  unfold flags_ok. intros <- Hi. rewrite Z.land_spec.
  assert (forallb (fun k => (k <? 8) || negb (Z.testbit flag_mask k)) (seqZ 0 20) = true)
    as Hc by (by vm_compute).
  pose proof (small_check _ _ Hc i ltac:(lia)) as H. cbv beta in H.
  destruct (Z.testbit flag_mask i) eqn:E; [|apply andb_false_r]. rewrite ?E in H. cbn in H. lia.
Qed.

(** Each bit of the joined wildcards comes from one of the three parts. *)
Lemma join_bit f src dst i :
  flags_ok f -> 0 <= src < 64 -> 0 <= dst < 64 -> 0 <= i ->
  Z.testbit (join_wc f src dst) i
  = if (8 <=? i) && (i <? 14) then Z.testbit src (i - 8)
    else if (14 <=? i) && (i <? 20) then Z.testbit dst (i - 14) else Z.testbit f i.
Proof.
  intros Hf Hs Hd Hi. unfold join_wc, OW_NW_SRC_SHIFT, OW_NW_DST_SHIFT.
  rewrite !Z.lor_spec, !Z.shiftl_spec by done.
  pose proof (testbit_high src 6 (i - 8)) as Hsh. pose proof (testbit_high dst 6 (i - 14)) as Hdh.
  pose proof (flags_low f i Hf) as Hz.
  destruct (Z.leb_spec 8 i); [|rewrite (Z.testbit_neg_r src), (Z.testbit_neg_r dst) by lia; destruct (Z.leb_spec 14 i);
    [lia|by rewrite orb_false_r]].
  destruct (Z.ltb_spec i 14); cbn [andb].
  { rewrite Hz, (Z.testbit_neg_r dst), orb_false_r by lia. done. }
  rewrite Hsh by lia. destruct (Z.leb_spec 14 i); [|lia]. destruct (Z.ltb_spec i 20); cbn [andb].
  - by rewrite Hz by lia.
  - by rewrite Hdh, orb_false_r by lia.
Qed.

Ltac join_bits :=
  apply Z.bits_inj'; intros i Hi; unfold unset;
  rewrite ?Z.lor_spec, ?Z.land_spec, ?Z.lnot_spec by done; rewrite !join_bit by (done || lia).

Lemma flags_unset f b : flags_ok f -> flags_ok (unset f b).
Proof.
  unfold flags_ok, unset. intros <-. rewrite <- !Z.land_assoc. f_equal.
  rewrite (Z.land_comm (Z.lnot b)), Z.land_assoc, Z.land_diag. by rewrite Z.land_comm, Z.land_comm.
Qed.

Lemma join_clr skip f src dst j :
  flags_ok f -> 0 <= src < 64 -> 0 <= dst < 64 -> 0 <= j -> (j < 8 \/ 20 <= j) ->
  clr skip (join_wc f src dst) (Z.shiftl 1 j) = join_wc (clr skip f (Z.shiftl 1 j)) src dst.
Proof.
  intros Hf Hs Hd Hj Hr. destruct skip; [done|]. cbn [clr]. pose proof (flags_unset f (Z.shiftl 1 j) Hf).
  join_bits. unfold unset. rewrite Z.land_spec, Z.lnot_spec, Z.shiftl_1_l, Z.pow2_bits_eqb by lia.
  destruct (Z.eqb_spec j i); cbn [negb]; rewrite ?andb_true_r, ?andb_false_r; [|done].
  destruct (Z.leb_spec 8 i), (Z.ltb_spec i 14), (Z.leb_spec 14 i), (Z.ltb_spec i 20); cbn [andb]; done || lia.
Qed.

Lemma join_set_src f src dst p :
  flags_ok f -> 0 <= src < 64 -> 0 <= dst < 64 -> 0 <= p <= 32 ->
  set_nw_src_mask (join_wc f src dst) p = join_wc f (32 - p) dst.
Proof.
  intros Hf Hs Hd Hp. unfold set_nw_src_mask. destruct (Z.ltb_spec 32 p); [lia|]. join_bits.
  change OW_NW_SRC_MASK with (Z.shiftl (Z.ones 6) 8). rewrite testbit_field by lia.
  unfold OW_NW_SRC_SHIFT. rewrite Z.shiftl_spec by done. change (8 + 6) with 14.
  pose proof (testbit_high (32 - p) 6 (i - 8)) as Hh.
  destruct (Z.leb_spec 8 i), (Z.ltb_spec i 14); cbn [andb negb];
    rewrite ?andb_false_r, ?andb_true_r; try lia; [done| |].
  - by rewrite Hh, orb_false_r by lia.
  - by rewrite (Z.testbit_neg_r (32 - p)), orb_false_r by lia.
Qed.

Lemma join_set_dst f src dst p :
  flags_ok f -> 0 <= src < 64 -> 0 <= dst < 64 -> 0 <= p <= 32 ->
  set_nw_dst_mask (join_wc f src dst) p = join_wc f src (32 - p).
Proof.
  intros Hf Hs Hd Hp. unfold set_nw_dst_mask. destruct (Z.ltb_spec 32 p); [lia|]. join_bits.
  change OW_NW_DST_MASK with (Z.shiftl (Z.ones 6) 14). rewrite testbit_field by lia.
  unfold OW_NW_DST_SHIFT. rewrite Z.shiftl_spec by done. change (14 + 6) with 20.
  pose proof (testbit_high (32 - p) 6 (i - 14)) as Hh.
  destruct (Z.leb_spec 14 i).
  - destruct (Z.ltb_spec i 14); [lia|]. destruct (Z.ltb_spec i 20); rewrite andb_false_r;
      cbn [andb negb]; rewrite ?andb_false_r, ?andb_true_r; [done|]. by rewrite Hh, orb_false_r by lia.
  - cbn [andb negb]. by rewrite (Z.testbit_neg_r (32 - p)), andb_true_r, orb_false_r by lia.
Qed.

Lemma standardWildcards_bits wc :
  has_bit (standardWildcards wc) SW_IN_PORT = has_bit wc OW_IN_PORT /\
  has_bit (standardWildcards wc) SW_DL_VLAN = has_bit wc OW_DL_VLAN /\
  has_bit (standardWildcards wc) SW_DL_VLAN_PCP = has_bit wc OW_DL_VLAN_PCP /\
  has_bit (standardWildcards wc) SW_DL_TYPE = has_bit wc OW_DL_TYPE /\
  has_bit (standardWildcards wc) SW_NW_TOS = has_bit wc OW_NW_TOS /\
  has_bit (standardWildcards wc) SW_NW_PROTO = has_bit wc OW_NW_PROTO /\
  has_bit (standardWildcards wc) SW_TP_SRC = has_bit wc OW_TP_SRC /\
  has_bit (standardWildcards wc) SW_TP_DST = has_bit wc OW_TP_DST /\
  has_bit (standardWildcards wc) SW_MPLS_LABEL = true /\
  has_bit (standardWildcards wc) SW_MPLS_TC = true.
Proof.
  unfold standardWildcards, WildcardMap. cbn [foldl fst snd].
  generalize (has_bit wc OW_IN_PORT), (has_bit wc OW_DL_VLAN), (has_bit wc OW_DL_VLAN_PCP), (has_bit wc OW_DL_TYPE),
    (has_bit wc OW_NW_TOS), (has_bit wc OW_NW_PROTO), (has_bit wc OW_TP_SRC), (has_bit wc OW_TP_DST).
  intros [] [] [] [] [] [] [] []; vm_compute; tauto.
Qed.

Definition mac_fits (skip : bool) (v : list Z) : bool :=
  bytes_fit 6 v && (negb skip || bool_decide (v = zeros 6)).

Section OriginalFields.
Implicit Types (st : OriginalMatch) (W : Z) (v : list Z).

(** An Ethernet address: an exact match or none. *)
Lemma field_mac t b (set : list Z -> OriginalMatch -> OriginalMatch) skip W v st :
  (forall value mask st wc, original_item t value mask (st, wc)
     = (x ← value 6; Some (set x st, unset wc b))) ->
  mac_fits skip v = true -> set (zeros 6) st = st ->
  fold_items (on_item original_item)
    (address_items t v (if negb skip then allOnes 6 else zeros 6)) (st, W)
  = Some (set v st, clr skip W b).
Proof.
  intros Hb [[Hv _]%bytes_fit_ok Hv0]%andb_true_iff Hz. destruct skip; cbn [negb orb] in *.
  { apply bool_decide_eq_true_1 in Hv0 as ->.
    change (address_items t (zeros 6) (zeros 6)) with (@nil oxm_item). by rewrite Hz. }
  change (address_items t v (allOnes 6)) with [Item t v]. cbn [fold_items]. unfold on_item.
  cbn [item_type item_body]. by rewrite Hb, slice_all by (unfold zlen; by rewrite Hv).
Qed.

Lemma mask_extremes :
  forallb (fun p => match IPv4Address_mask p with
     | Some k => Bool.eqb (address_valid k) (negb (p =? 0)) && Bool.eqb (isBroadcast k) (p =? 32)
     | None => false end) (seqZ 0 33) = true.
Proof. by vm_compute. Qed.

(** An IPv4 address with a prefix of [p] bits. *)
Lemma field_ipv4 t (set : list Z -> OriginalMatch -> OriginalMatch) (setm : Z -> Z -> Z) p k W v st :
  (forall value mask st wc, original_item t value mask (st, wc)
     = (x ← value 4; Some (set x st, setm wc 32))) ->
  (forall value mask st wc, original_item (withMask t) value mask (st, wc)
     = (x ← value 4; y ← mask 4; prefix ← IPv4Address_prefix y; Some (set x st, setm wc prefix))) ->
  0 <= p <= 32 -> IPv4Address_mask p = Some k -> masked_fits 4 v k = true ->
  set (zeros 4) st = st -> (p = 0 -> setm W 0 = W) ->
  fold_items (on_item original_item) (address_items t v k) (st, W) = Some (set v st, setm W p).
Proof.
  intros Hb Hm Hp Hk (Hv & Hkk & He)%masked_fits_ok Hz Hw.
  pose proof (small_check _ _ mask_extremes p ltac:(lia)) as Hx. cbv beta in Hx. rewrite Hk in Hx.
  apply andb_true_iff in Hx as [Ha%Bool.eqb_prop Hbr%Bool.eqb_prop].
  destruct (IPv4Address_mask_ok p Hp) as (k' & Hk' & _ & _ & _ & Hpre). simplify_eq.
  unfold address_items. rewrite Ha, Hbr. destruct (Z.eqb_spec p 0) as [->|Hp0]; cbn [negb].
  { destruct (MemCopyMasked_zeros v k 4 Hv Hkk He) as [-> _]; [by rewrite Ha|].
    cbn [fold_items]. by rewrite Hz, Hw. }
  destruct Hv as [Hv _], Hkk as [Hkk _]. destruct (Z.eqb_spec p 32) as [->|].
  - cbn [fold_items]. unfold on_item. cbn [item_type item_body].
    by rewrite Hb, slice_all by (unfold zlen; by rewrite Hv).
  - destruct (masked_reads t v k 4 Hv Hkk He) as [E1 E2]. change (Z.of_nat 4) with 4 in *.
    cbn [fold_items]. unfold on_item. change (item_type (masked_item t v k)) with (withMask t).
    by rewrite Hm, E1, E2; cbn [mbind option_bind]; rewrite Hpre.
Qed.
End OriginalFields.

(** The canonical OpenFlow 1.0 structures. *)
Definition nw_bits (wc mask shift : Z) : Z := Z.shiftr (Z.land wc mask) shift.

Definition orig_arp (o : OriginalMatch) : bool :=
  negb (has_bit (om_wildcards o) OW_DL_TYPE) && (om_dl_type o =? DATALINK_ARP).

Definition ipv4_fits (v : list Z) (k : option (list Z)) : bool :=
  match k with Some k => masked_fits 4 v k | None => false end.

Definition orig_canonical (o : OriginalMatch) : bool :=
  let wc := om_wildcards o in
  let src := nw_bits wc OW_NW_SRC_MASK OW_NW_SRC_SHIFT in
  let dst := nw_bits wc OW_NW_DST_MASK OW_NW_DST_SHIFT in
  (fits 22 wc && (src <=? 32) && (dst <=? 32)) &&
  (fits 16 (om_in_port o) && zero_if (has_bit wc OW_IN_PORT) (om_in_port o)) &&
  mac_fits (has_bit wc OW_DL_SRC) (om_dl_src o) &&
  mac_fits (has_bit wc OW_DL_DST) (om_dl_dst o) &&
  vlan_fits (has_bit wc OW_DL_VLAN) (om_dl_vlan o) &&
  (fits 8 (om_dl_vlan_pcp o) && zero_if (has_bit wc OW_DL_VLAN_PCP) (om_dl_vlan_pcp o)) &&
  (fits 16 (om_dl_type o) && zero_if (has_bit wc OW_DL_TYPE) (om_dl_type o)) &&
  (fits 8 (om_nw_tos o) && zero_if (has_bit wc OW_NW_TOS) (om_nw_tos o)) &&
  (fits 8 (om_nw_proto o) && zero_if (has_bit wc OW_NW_PROTO) (om_nw_proto o)) &&
  ipv4_fits (om_nw_src o) (om_nw_src_mask o) &&
  ipv4_fits (om_nw_dst o) (om_nw_dst_mask o) &&
  port_fits (has_bit wc OW_TP_SRC) (has_bit wc OW_NW_PROTO) (om_nw_proto o) (om_tp_src o) &&
  port_fits (has_bit wc OW_TP_DST) (has_bit wc OW_NW_PROTO) (om_nw_proto o) (om_tp_dst o) &&
  (if orig_arp o then
     has_bit wc OW_NW_TOS && has_bit wc OW_NW_PROTO && has_bit wc OW_TP_SRC && has_bit wc OW_TP_DST &&
     (src =? 32) && (dst =? 32)
   else true).

(** Clearing flag bits, position by position. *)
Lemma clear_bits_spec wc js f i :
  Forall (fun j => 0 <= j) js -> 0 <= i ->
  Z.testbit (clear_bits wc (Z.shiftl 1 <$> js) f) i
  = Z.testbit f i && (if bool_decide (i ∈ js) then Z.testbit wc i else true).
Proof.
  intros Hj Hi. revert f. induction Hj as [|j js Hj Hjs IH]; intros f.
  { cbn. by rewrite andb_true_r. }
  change (clear_bits wc (Z.shiftl 1 <$> j :: js) f)
    with (clear_bits wc (Z.shiftl 1 <$> js) (clr (has_bit wc (Z.shiftl 1 j)) f (Z.shiftl 1 j))).
  rewrite IH. unfold has_bit. rewrite land_flag, negb_involutive by done.
  assert (Z.testbit (clr (Z.testbit wc j) f (Z.shiftl 1 j)) i
          = Z.testbit f i && (if i =? j then Z.testbit wc j else true)) as ->.
  { unfold clr, unset. destruct (Z.testbit wc j) eqn:E; [by destruct (i =? j); rewrite andb_true_r|].
    rewrite Z.land_spec, Z.lnot_spec, Z.shiftl_1_l, Z.pow2_bits_eqb, (Z.eqb_sym j) by done.
    by destruct (i =? j). }
  destruct (Z.eqb_spec i j) as [->|Hne].
  - rewrite (bool_decide_eq_true_2 (j ∈ j :: js)) by (by left).
    destruct (bool_decide (j ∈ js)); by destruct (Z.testbit f j), (Z.testbit wc j).
  - rewrite andb_true_r. f_equal. erewrite (bool_decide_ext (i ∈ j :: js)); [done|].
    rewrite elem_of_cons. naive_solver.
Qed.

Definition flag_bits : list Z := Z.shiftl 1 <$> [0; 2; 3; 1; 20; 4; 21; 5; 6; 7].

Lemma clear_all_flags wc : clear_bits wc flag_bits flag_mask = Z.land wc flag_mask.
Proof.
  apply Z.bits_inj'. intros i Hi. unfold flag_bits.
  rewrite clear_bits_spec, Z.land_spec by (done || (repeat constructor; lia)).
  destruct (Z.testbit flag_mask i) eqn:E; [|by rewrite andb_false_r].
  rewrite andb_true_r, andb_true_l. rewrite bool_decide_eq_true_2; [done|].
  destruct (decide (i < 22)); [|by rewrite (testbit_high flag_mask 22) in E by (done || lia)].
  assert (forallb (fun k => negb (Z.testbit flag_mask k) ||
    bool_decide (k ∈ [0; 2; 3; 1; 20; 4; 21; 5; 6; 7])) (seqZ 0 22) = true) as Hc by (by vm_compute).
  pose proof (small_check _ _ Hc i ltac:(lia)) as H. cbv beta in H. rewrite E in H. cbn [negb orb] in H.
  by apply bool_decide_eq_true_1 in H.
Qed.

Lemma join_clear_bits wc js f src dst :
  Forall (fun j => 0 <= j /\ (j < 8 \/ 20 <= j)) js ->
  flags_ok f -> 0 <= src < 64 -> 0 <= dst < 64 ->
  flags_ok (clear_bits wc (Z.shiftl 1 <$> js) f) /\
  clear_bits wc (Z.shiftl 1 <$> js) (join_wc f src dst)
  = join_wc (clear_bits wc (Z.shiftl 1 <$> js) f) src dst.
Proof.
  intros Hj. revert f. induction Hj as [|j js [Hj Hr] Hjs IH]; intros f Hf Hs Hd; [done|].
  change (clear_bits wc (Z.shiftl 1 <$> j :: js) ?f)
    with (clear_bits wc (Z.shiftl 1 <$> js) (clr (has_bit wc (Z.shiftl 1 j)) f (Z.shiftl 1 j))).
  rewrite join_clr by done. apply IH; try done. unfold clr. destruct (has_bit wc _); [done|].
  by apply flags_unset.
Qed.

(** Wildcards taken apart. *)
Lemma join_split wc :
  0 <= wc < 2 ^ 22 ->
  flags_ok (Z.land wc flag_mask) /\
  0 <= nw_bits wc OW_NW_SRC_MASK OW_NW_SRC_SHIFT < 64 /\
  0 <= nw_bits wc OW_NW_DST_MASK OW_NW_DST_SHIFT < 64 /\
  wc = join_wc (Z.land wc flag_mask) (nw_bits wc OW_NW_SRC_MASK OW_NW_SRC_SHIFT)
         (nw_bits wc OW_NW_DST_MASK OW_NW_DST_SHIFT).
Proof.
  intros Hw. unfold nw_bits.
  change OW_NW_SRC_MASK with (Z.shiftl (Z.ones 6) 8). change OW_NW_DST_MASK with (Z.shiftl (Z.ones 6) 14).
  change OW_NW_SRC_SHIFT with 8. change OW_NW_DST_SHIFT with 14.
  assert (forall k, 0 <= k -> Z.shiftr (Z.land wc (Z.shiftl (Z.ones 6) k)) k = Z.shiftr wc k mod 64) as E.
  { intros k Hk. rewrite land_shifted_mask, Z.shiftr_shiftl_l, Z.sub_diag, Z.shiftl_0_r by lia.
    by rewrite Z.land_ones. }
  assert (flags_ok (Z.land wc flag_mask)) as Hf.
  { unfold flags_ok. by rewrite <- Z.land_assoc, Z.land_diag. }
  rewrite !E by lia. pose proof (Z.mod_pos_bound (Z.shiftr wc 8) 64 ltac:(lia)).
  pose proof (Z.mod_pos_bound (Z.shiftr wc 14) 64 ltac:(lia)). split_and!; [done|lia..|].
  apply Z.bits_inj'. intros i Hi. rewrite join_bit by done. change 64 with (2 ^ 6).
  destruct ((8 <=? i) && (i <? 14)) eqn:E1.
  { rewrite Z.mod_pow2_bits_low, Z.shiftr_spec by lia. by replace (i - 8 + 8) with i by lia. }
  destruct ((14 <=? i) && (i <? 20)) eqn:E2.
  { rewrite Z.mod_pow2_bits_low, Z.shiftr_spec by lia. by replace (i - 14 + 14) with i by lia. }
  rewrite Z.land_spec. destruct (decide (i < 22)); [|by rewrite (testbit_high wc 22) by lia].
  assert (forallb (fun k => ((8 <=? k) && (k <? 20)) || Z.testbit flag_mask k) (seqZ 0 22) = true)
    as Hc by (by vm_compute).
  pose proof (small_check _ _ Hc i ltac:(lia)) as H1. cbv beta in H1.
  destruct (Z.testbit flag_mask i); [by rewrite andb_true_r|lia].
Qed.

Section OriginalRoundTrip.
Context (o : OriginalMatch) (Ho : orig_canonical o = true).
Abbreviation wc := (om_wildcards o).
Abbreviation src := (nw_bits wc OW_NW_SRC_MASK OW_NW_SRC_SHIFT).
Abbreviation dst := (nw_bits wc OW_NW_DST_MASK OW_NW_DST_SHIFT).

Lemma orig_parts :
  (0 <= wc < 2 ^ 22 /\ src <= 32 /\ dst <= 32) /\
  (0 <= om_in_port o < 2 ^ 16 /\ zero_if (has_bit wc OW_IN_PORT) (om_in_port o) = true) /\
  mac_fits (has_bit wc OW_DL_SRC) (om_dl_src o) = true /\
  mac_fits (has_bit wc OW_DL_DST) (om_dl_dst o) = true /\
  vlan_fits (has_bit wc OW_DL_VLAN) (om_dl_vlan o) = true /\
  (0 <= om_dl_vlan_pcp o < 2 ^ 8 /\ zero_if (has_bit wc OW_DL_VLAN_PCP) (om_dl_vlan_pcp o) = true) /\
  (0 <= om_dl_type o < 2 ^ 16 /\ zero_if (has_bit wc OW_DL_TYPE) (om_dl_type o) = true) /\
  (0 <= om_nw_tos o < 2 ^ 8 /\ zero_if (has_bit wc OW_NW_TOS) (om_nw_tos o) = true) /\
  (0 <= om_nw_proto o < 2 ^ 8 /\ zero_if (has_bit wc OW_NW_PROTO) (om_nw_proto o) = true) /\
  ipv4_fits (om_nw_src o) (om_nw_src_mask o) = true /\
  ipv4_fits (om_nw_dst o) (om_nw_dst_mask o) = true /\
  port_fits (has_bit wc OW_TP_SRC) (has_bit wc OW_NW_PROTO) (om_nw_proto o) (om_tp_src o) = true /\
  port_fits (has_bit wc OW_TP_DST) (has_bit wc OW_NW_PROTO) (om_nw_proto o) (om_tp_dst o) = true /\
  (if orig_arp o then
     has_bit wc OW_NW_TOS && has_bit wc OW_NW_PROTO && has_bit wc OW_TP_SRC && has_bit wc OW_TP_DST &&
     (src =? 32) && (dst =? 32)
   else true) = true.
Proof.
  generalize Ho. unfold orig_canonical. cbv zeta. rewrite !andb_true_iff, !fits_iff, !Z.leb_le. tauto.
Qed.

(** The conversion to the OpenFlow 1.1 structure. *)
Lemma orig_standard :
  exists ks kd s, StandardMatch_of_original o = Some s /\
    om_nw_src_mask o = Some ks /\ om_nw_dst_mask o = Some kd /\
    IPv4Address_mask (32 - src) = Some ks /\ IPv4Address_mask (32 - dst) = Some kd /\
    s = mkStandardMatch OFPMT_STANDARD OFPMT_STANDARD_LENGTH (om_in_port o) (standardWildcards wc)
      (om_dl_src o) (if negb (has_bit wc OW_DL_SRC) then allOnes 6 else zeros 6)
      (om_dl_dst o) (if negb (has_bit wc OW_DL_DST) then allOnes 6 else zeros 6)
      (om_dl_vlan o) (om_dl_vlan_pcp o) (om_dl_type o) (om_nw_tos o) (om_nw_proto o)
      (om_nw_src o) ks (om_nw_dst o) kd (om_tp_src o) (om_tp_dst o) 0 0 0 0.
Proof.
  destruct orig_parts as ((Hw & Hs & Hd) & _). destruct (join_split wc Hw) as (_ & Hs0 & Hd0 & _).
  assert (om_nw_src_mask o = IPv4Address_mask (32 - src)) as Es.
  { unfold om_nw_src_mask, nw_mask. fold src. cbv zeta. destruct (Z.ltb_spec 32 src); [lia|done]. }
  assert (om_nw_dst_mask o = IPv4Address_mask (32 - dst)) as Ed.
  { unfold om_nw_dst_mask, nw_mask. fold dst. cbv zeta. destruct (Z.ltb_spec 32 dst); [lia|done]. }
  destruct (IPv4Address_mask_ok (32 - src) ltac:(lia)) as (ks & Hks & _).
  destruct (IPv4Address_mask_ok (32 - dst) ltac:(lia)) as (kd & Hkd & _).
  exists ks, kd. unfold StandardMatch_of_original. rewrite Es, Ed, Hks, Hkd. by eexists.
Qed.

Context (ks kd : list Z) (s : StandardMatch).
Context (Hks : IPv4Address_mask (32 - src) = Some ks) (Hkd : IPv4Address_mask (32 - dst) = Some kd).
Context (Eks : om_nw_src_mask o = Some ks) (Ekd : om_nw_dst_mask o = Some kd).
Context (Es : s = mkStandardMatch OFPMT_STANDARD OFPMT_STANDARD_LENGTH (om_in_port o) (standardWildcards wc)
      (om_dl_src o) (if negb (has_bit wc OW_DL_SRC) then allOnes 6 else zeros 6)
      (om_dl_dst o) (if negb (has_bit wc OW_DL_DST) then allOnes 6 else zeros 6)
      (om_dl_vlan o) (om_dl_vlan_pcp o) (om_dl_type o) (om_nw_tos o) (om_nw_proto o)
      (om_nw_src o) ks (om_nw_dst o) kd (om_tp_src o) (om_tp_dst o) 0 0 0 0).

Lemma orig_shape : std_shape s.
Proof.
  destruct orig_parts as (_&_&Hs&Hd&_&_&_&_&_&His&Hid&_). rewrite Eks in His. rewrite Ekd in Hid.
  apply masked_fits_ok in His as (?&?&_), Hid as (?&?&_).
  unfold mac_fits in *. apply andb_true_iff in Hs as [?%bytes_fit_ok _], Hd as [?%bytes_fit_ok _].
  assert (forall b : bool, address_ok 6 (if b then allOnes 6 else zeros 6)) as Ha.
  { intros []; (split; [done|]); apply Forall_replicate; done. }
  rewrite Es. by repeat split; try apply Ha; done || (eapply proj1; done) || (eapply proj2; done).
Qed.

Definition orig_head : OriginalMatch :=
  OriginalMatch_zero {{ om_in_port := om_in_port o; om_dl_src := om_dl_src o; om_dl_dst := om_dl_dst o;
    om_dl_vlan := om_dl_vlan o; om_dl_vlan_pcp := om_dl_vlan_pcp o; om_dl_type := om_dl_type o }}.

Ltac sm_proj :=
  cbn [sm_type sm_length sm_in_port sm_wildcards sm_dl_src sm_dl_src_mask sm_dl_dst sm_dl_dst_mask
       sm_dl_vlan sm_dl_vlan_pcp sm_dl_type sm_nw_tos sm_nw_proto sm_nw_src sm_nw_src_mask sm_nw_dst
       sm_nw_dst_mask sm_tp_src sm_tp_dst sm_mpls_label sm_mpls_tc sm_metadata sm_metadata_mask].

Lemma orig_head_fold W :
  fold_items (on_item original_item)
    (head_items s ++ value_item (has_bit (sm_wildcards s) SW_DL_TYPE) OFB_ETH_TYPE (be_bytes 2 (sm_dl_type s)))
    (OriginalMatch_zero, W)
  = Some (orig_head, clear_bits wc (Z.shiftl 1 <$> [0; 2; 3; 1; 20; 4]) W).
Proof.
  destruct orig_parts as (_&[Hip Hipz]&Hs&Hd&Hv&[Hpc Hpcz]&[Ht Htz]&_).
  destruct (standardWildcards_bits wc) as (B1 & B2 & B3 & B4 & _).
  rewrite Es. unfold head_items. cbv zeta. sm_proj. rewrite B1, B3, B4, <- !app_assoc, fold_items_app.
  rewrite (field_value original_item _ _ OW_IN_PORT (fun x st => st {{ om_in_port := u16 x }}));
    [|done|cbn; lia|rewrite u16_small by done; zskip Hipz].
  rewrite u16_small by done. cbn [mbind option_bind]. rewrite fold_items_app. cbn [Z.eqb fold_items mbind option_bind].
  rewrite fold_items_app, (field_mac OFB_ETH_SRC OW_DL_SRC (fun x st => st {{ om_dl_src := x }}));
    [|done..]. cbn [mbind option_bind].
  rewrite fold_items_app, (field_mac OFB_ETH_DST OW_DL_DST (fun x st => st {{ om_dl_dst := x }}));
    [|done..]. cbn [mbind option_bind].
  rewrite fold_items_app, (field_vlan original_item (fun x st => st {{ om_dl_vlan := x }}) OW_DL_VLAN);
    sm_proj; rewrite ?B2; [|done..]. cbn [mbind option_bind].
  rewrite fold_items_app, (field_value original_item _ _ OW_DL_VLAN_PCP (fun x st => st {{ om_dl_vlan_pcp := x }}));
    [|done|done|zskip Hpcz]. cbn [mbind option_bind].
  by rewrite (field_value original_item _ _ OW_DL_TYPE (fun x st => st {{ om_dl_type := x }}));
    [|done|done|zskip Htz].
Qed.

Definition orig_state : OriginalMatch :=
  orig_head {{ om_nw_tos := om_nw_tos o; om_nw_proto := om_nw_proto o; om_nw_src := om_nw_src o;
    om_nw_dst := om_nw_dst o; om_tp_src := om_tp_src o; om_tp_dst := om_tp_dst o }}.

Lemma orig_network f :
  flags_ok f ->
  fold_items (on_item original_item) (network_items s) (orig_head, join_wc f 32 32)
  = Some (orig_state, join_wc (clear_bits wc (Z.shiftl 1 <$> [21; 5; 6; 7]) f) src dst).
Proof.
  intros Hf. destruct orig_parts as ((Hw&Hs&Hd)&_&_&_&_&_&_&[Ht Htz]&[Hp Hpz]&His&Hid&Hts&Htd&_).
  rewrite Eks in His. rewrite Ekd in Hid. cbn in His, Hid.
  destruct (join_split wc Hw) as (_ & Hs0 & Hd0 & _).
  destruct (standardWildcards_bits wc) as (_ & _ & _ & _ & B5 & B6 & B7 & B8 & B9 & B10).
  rewrite Es. unfold network_items. cbv zeta. sm_proj. rewrite B5, B6, B7, B8, B9, B10.
  rewrite fold_items_app.
  rewrite (field_value original_item _ _ OW_NW_TOS (fun x st => st {{ om_nw_tos := x }}));
    [|done|done|zskip Htz]. cbn [mbind option_bind]. rewrite fold_items_app.
  rewrite (field_value original_item _ _ OW_NW_PROTO (fun x st => st {{ om_nw_proto := x }}));
    [|done|done|zskip Hpz]. cbn [mbind option_bind]. rewrite fold_items_app.
  set (f1 := clear_bits wc (Z.shiftl 1 <$> [21; 5]) f).
  destruct (join_clear_bits wc [21; 5] f 32 32) as [Hf1 Ej]; [repeat constructor; lia|done..|].
  change (clr _ (clr _ (join_wc f 32 32) _) _) with (clear_bits wc (Z.shiftl 1 <$> [21; 5]) (join_wc f 32 32)).
  rewrite Ej. fold f1 in Hf1 |- *.
  rewrite (field_ipv4 OFB_IPV4_SRC (fun x st => st {{ om_nw_src := x }}) set_nw_src_mask (32 - src));
    [|done|done|lia|done|done|done|intros _; by rewrite join_set_src by (done || lia)].
  rewrite join_set_src by (done || lia). cbn [mbind option_bind]. rewrite fold_items_app.
  rewrite (field_ipv4 OFB_IPV4_DST (fun x st => st {{ om_nw_dst := x }}) set_nw_dst_mask (32 - dst));
    [|done|done|lia|done|done|done|intros _; by rewrite join_set_dst by (done || lia)].
  rewrite join_set_dst by (done || lia). cbn [mbind option_bind].
  replace (32 - (32 - src)) with src by lia. replace (32 - (32 - dst)) with dst by lia.
  rewrite fold_items_app, (field_port original_item _ _ _ _ _ OW_TP_SRC (fun x st => st {{ om_tp_src := x }}));
    [|by intros ????? [->| ->]|done|by rewrite B6|done]. cbn [mbind option_bind].
  rewrite fold_items_app, (field_port original_item _ _ _ _ _ OW_TP_DST (fun x st => st {{ om_tp_dst := x }}));
    [|by intros ????? [->| ->]|done|by rewrite B6|done]. cbn [mbind option_bind].
  destruct (join_clear_bits wc [6; 7] f1 src dst) as [_ Ej2]; [repeat constructor; lia|done..|].
  cbn [value_item app fold_items]. do 2 f_equal. exact Ej2.
Qed.
End OriginalRoundTrip.

(** An ARP match of the OpenFlow 1.0 structure lists nothing after [dl_type]. *)
Lemma orig_arp_items o ks kd s :
  orig_canonical o = true -> orig_arp o = true ->
  om_nw_src_mask o = Some ks -> om_nw_dst_mask o = Some kd ->
  IPv4Address_mask (32 - nw_bits (om_wildcards o) OW_NW_SRC_MASK OW_NW_SRC_SHIFT) = Some ks ->
  IPv4Address_mask (32 - nw_bits (om_wildcards o) OW_NW_DST_MASK OW_NW_DST_SHIFT) = Some kd ->
  has_bit (sm_wildcards s) SW_NW_PROTO = has_bit (om_wildcards o) OW_NW_PROTO ->
  sm_nw_src_mask s = ks -> sm_nw_dst_mask s = kd ->
  arp_items s = [] /\ orig_state o = orig_head o /\
  clear_bits (om_wildcards o) flag_bits flag_mask =
    clear_bits (om_wildcards o) (Z.shiftl 1 <$> [0; 2; 3; 1; 20; 4]) flag_mask /\
  nw_bits (om_wildcards o) OW_NW_SRC_MASK OW_NW_SRC_SHIFT = 32 /\
  nw_bits (om_wildcards o) OW_NW_DST_MASK OW_NW_DST_SHIFT = 32.
Proof.
  intros Ho Ha Eks Ekd Hks Hkd Hb <- <-.
  destruct (orig_parts o Ho) as (_&_&_&_&_&_&_&[_ Ht]&[_ Hp]&His&Hid&Hts&Htd&Harp).
  rewrite Ha, !andb_true_iff in Harp. destruct Harp as (((((T1 & T2) & T3) & T4) & T5) & T6).
  apply Z.eqb_eq in T5, T6. rewrite Eks in His. rewrite Ekd in Hid. cbn [ipv4_fits] in His, Hid.
  rewrite T5 in Hks. rewrite T6 in Hkd. change (IPv4Address_mask (32 - 32)) with (Some (zeros 4)) in *.
  injection Hks as Hks. injection Hkd as Hkd. rewrite <- Hks in His. rewrite <- Hkd in Hid.
  assert (forall v, masked_fits 4 v (zeros 4) = true -> v = zeros 4) as Hz.
  { intros v (Hv & Hk & He)%masked_fits_ok. by destruct (MemCopyMasked_zeros v (zeros 4) 4 Hv Hk He). }
  split_and!; [|..|done|done].
  - unfold arp_items. rewrite Hb, T2, <- Hks, <- Hkd. done.
  - unfold orig_state. unfold port_fits, zero_if in *. rewrite T1 in Ht. rewrite T2 in Hp.
    rewrite T3, !andb_true_iff in Hts. rewrite T4, !andb_true_iff in Htd. cbn [negb orb] in *.
    rewrite Z.eqb_eq in *. destruct Hts as [[_ ->] _], Htd as [[_ ->] _].
    by rewrite Ht, Hp, (Hz _ His), (Hz _ Hid).
  - unfold flag_bits, clear_bits. cbn [fmap list_fmap foldl].
    change (Z.shiftl 1 21) with OW_NW_TOS. change (Z.shiftl 1 5) with OW_NW_PROTO.
    change (Z.shiftl 1 6) with OW_TP_SRC. change (Z.shiftl 1 7) with OW_TP_DST.
    by rewrite T1, T2, T3, T4.
Qed.

Lemma orig_items_fold o ks kd s :
  orig_canonical o = true ->
  om_nw_src_mask o = Some ks -> om_nw_dst_mask o = Some kd ->
  IPv4Address_mask (32 - nw_bits (om_wildcards o) OW_NW_SRC_MASK OW_NW_SRC_SHIFT) = Some ks ->
  IPv4Address_mask (32 - nw_bits (om_wildcards o) OW_NW_DST_MASK OW_NW_DST_SHIFT) = Some kd ->
  s = mkStandardMatch OFPMT_STANDARD OFPMT_STANDARD_LENGTH (om_in_port o)
      (standardWildcards (om_wildcards o))
      (om_dl_src o) (if negb (has_bit (om_wildcards o) OW_DL_SRC) then allOnes 6 else zeros 6)
      (om_dl_dst o) (if negb (has_bit (om_wildcards o) OW_DL_DST) then allOnes 6 else zeros 6)
      (om_dl_vlan o) (om_dl_vlan_pcp o) (om_dl_type o) (om_nw_tos o) (om_nw_proto o)
      (om_nw_src o) ks (om_nw_dst o) kd (om_tp_src o) (om_tp_dst o) 0 0 0 0 ->
  Forall item_ok (std_items s) ->
  OriginalMatch_of_range (encode (std_items s)) = Some o.
Proof.
  intros Ho Eks Ekd Hks Hkd Es Hok. rewrite original_range by done. unfold std_items.
  destruct (standardWildcards_bits (om_wildcards o)) as (_ & _ & _ & B4 & _ & B6 & _).
  destruct (orig_parts o Ho) as ((Hw & _) & _). destruct (join_split _ Hw) as (_ & _ & _ & Ej).
  rewrite app_assoc, fold_items_app, (orig_head_fold o Ho ks kd s Es). cbn [mbind option_bind].
  change OW_ALL with (join_wc flag_mask 32 32).
  destruct (join_clear_bits (om_wildcards o) [0; 2; 3; 1; 20; 4] flag_mask 32 32) as [Hf ->];
    [repeat constructor; lia|done..|].
  assert (is_arp s = orig_arp o) as -> by (rewrite Es; unfold is_arp, orig_arp; cbn; by rewrite B4).
  assert ((orig_state o) {{ om_wildcards := om_wildcards o }} = o) as Hfin by (by destruct o).
  destruct (orig_arp o) eqn:Ea.
  - destruct (orig_arp_items o ks kd s Ho Ea) as (-> & Hst & Hcl & H1 & H2);
      [done..|by rewrite Es|by rewrite Es|by rewrite Es|].
    cbn [fold_items mbind option_bind]. rewrite <- Hst, <- Hcl, clear_all_flags.
    rewrite H1, H2 in Ej. rewrite <- Ej. by rewrite Hfin.
  - rewrite (orig_network o Ho ks kd s Hks Hkd Eks Ekd Es) by done. cbn [mbind option_bind].
    change (clear_bits (om_wildcards o) (Z.shiftl 1 <$> [21; 5; 6; 7])
      (clear_bits (om_wildcards o) (Z.shiftl 1 <$> [0; 2; 3; 1; 20; 4]) flag_mask))
      with (clear_bits (om_wildcards o) flag_bits flag_mask).
    rewrite clear_all_flags, <- Ej. by rewrite Hfin.
Qed.

(** Round trip of the OpenFlow 1.0 match through the library's internal
    form: a canonical 40-byte match is converted to the OpenFlow 1.1 structure,
    listed as OXM fields, and [OriginalMatch(OXMRange)] of the list is the match
    again: all 13 members, with the flag bits and the two prefix lengths of the
    wildcards. An ARP match is canonical only if it wildcards the network fields,
    since the conversion back does not know their OXM types. *)
Theorem original_match_roundtrip {B} `{ByteBufferLaws B} (empty : B) o :
  bb_rep empty [] -> orig_canonical o = true ->
  exists s b, StandardMatch_of_original o = Some s /\ toOXMList empty s = Some b /\
    OriginalMatch_of_range (bb_data b) = Some o.
Proof.
  intros He Ho. destruct (orig_standard o Ho) as (ks & kd & s & E & Eks & Ekd & Hks & Hkd & Es).
  destruct (toOXMList_ok empty s He (orig_shape o Ho ks kd s Eks Ekd Es)) as (Hok & b & Eb & Hd).
  exists s, b. rewrite Hd. split_and!; [done|done|]. by apply (orig_items_fold o ks kd s).
Qed.

(** A UDP match on a source subnet and a VLAN, from the local port. *)
Definition orig_example : OriginalMatch :=
  mkOriginalMatch 0x38084c 0xfffe (zeros 6) (zeros 6) 100 0 0x800 0 17 [10; 1; 2; 0] (zeros 4) 0 53.

Lemma original_match_roundtrip_witness :
  orig_canonical orig_example = true /\
  exists s b, StandardMatch_of_original orig_example = Some s /\
    @toOXMList _ (SmallBuffer_ops heap_zero) sb_fresh s = Some b /\
    OriginalMatch_of_range (SB_contents b) = Some orig_example.
Proof.
  split; [reflexivity|].
  apply (@original_match_roundtrip _ _ (SmallBuffer_laws heap_zero) sb_fresh orig_example).
  - apply sb_fresh_represents.
  - reflexivity.
Defined.

(** ** What the conversions lose *)

Definition roundtrip_standard (s : StandardMatch) : option StandardMatch :=
  b ← @toOXMList _ (SmallBuffer_ops heap_zero) sb_fresh s; StandardMatch_of_range (SB_contents b).

Definition roundtrip_original (o : OriginalMatch) : option OriginalMatch :=
  s ← StandardMatch_of_original o;
  b ← @toOXMList _ (SmallBuffer_ops heap_zero) sb_fresh s; OriginalMatch_of_range (SB_contents b).

(** An IPv4 match on an SCTP destination port. *)
Definition sctp_match : StandardMatch :=
  mkStandardMatch 0 88 0 0x357 (zeros 6) (zeros 6) (zeros 6) (zeros 6) 0 0 0x800 0 132
    (zeros 4) (zeros 4) (zeros 4) (zeros 4) 0 2905 0 0 0 0.

(** The conversion from OXM fields to the OpenFlow 1.1 structure ignores the
    SCTP ports that [toOXMList] lists: a match on SCTP destination port 2905
    comes back as a match on all SCTP traffic (the port is 0 and wildcarded),
    although the structure's [OFPFW_TP_DST] covers SCTP ports. *)
Theorem sctp_port_lost :
  has_bit (sm_wildcards sctp_match) SW_TP_DST = false /\
  roundtrip_standard sctp_match
  = Some (sctp_match {{ sm_wildcards := 0x3d7; sm_tp_dst := 0 }}) /\
  has_bit 0x3d7 SW_TP_DST = true.
Proof. split_and!; vm_compute; reflexivity. Qed.

(** An ARP request for one target address, in the OpenFlow 1.0 structure. *)
Definition arp_match : OriginalMatch :=
  mkOriginalMatch 0x3020cf 0 (zeros 6) (zeros 6) 0 0 0x806 0 1 (zeros 4) [10; 0; 0; 9] 0 0.

(** The conversion from OXM fields to the OpenFlow 1.0 structure ignores the
    ARP fields that [toOXMList] lists: a match on ARP requests for one target
    address comes back as a match on all ARP packets. The OpenFlow 1.1
    constructor handles these fields. *)
Theorem arp_fields_lost :
  om_nw_dst_mask arp_match = Some (allOnes 4) /\ has_bit (om_wildcards arp_match) OW_NW_PROTO = false /\
  roundtrip_original arp_match
  = Some (arp_match {{ om_wildcards := 0x3820ef; om_nw_proto := 0; om_nw_dst := zeros 4 }}) /\
  has_bit 0x3820ef OW_NW_PROTO = true.
Proof. split_and!; vm_compute; reflexivity. Qed.

(** [fromV1] and [toV1] are inverse on 16-bit ports, but the conversion from
    the OpenFlow 1.0 match to the OpenFlow 1.1 match copies [in_port] without
    [fromV1]: a match on a reserved port (such as OFPP_LOCAL, 0xfffe) is turned
    into a match on an ordinary 32-bit port number, for every such port. *)
Theorem in_port_not_extended o s port :
  StandardMatch_of_original o = Some s -> om_in_port o = port -> 0xFF00 < port < 2 ^ 16 ->
  PortNumber_toV1 (PortNumber_fromV1 port) = port /\
  sm_in_port s = port /\ sm_in_port s <> PortNumber_fromV1 port.
Proof.
  intros E Hp Hr. assert (sm_in_port s = port) as Hs.
  { unfold StandardMatch_of_original in E. destruct (om_nw_src_mask o), (om_nw_dst_mask o); cbn in E;
      simplify_eq. by cbn. }
  rewrite Hs, PortNumber_v1_roundtrip by lia. split_and!; [done..|].
  rewrite PortNumber_fromV1_reserved by lia. lia.
Qed.

Lemma in_port_not_extended_witness :
  PortNumber_toV1 (PortNumber_fromV1 0xfffe) = 0xfffe /\ 0xfffe = 0xfffe /\
  0xfffe <> PortNumber_fromV1 0xfffe.
Proof.
  destruct (StandardMatch_of_original orig_example) as [s|] eqn:E; [|discriminate E].
  pose proof (in_port_not_extended orig_example s 0xfffe E eq_refl ltac:(lia)) as (H1 & H2 & H3).
  split; [exact H1|]. split; [reflexivity|]. rewrite <- H2 at 1. exact H3.
Defined.

(** ** Match headers *)

(** What [validateInput] checks, for the header's type and length. *)
Definition match_header_ok (version : Z) (m : list Z) (type length lengthRemaining : Z) : Prop :=
  (version < 4 /\ type = OFPMT_STANDARD /\ length = OFPMT_STANDARD_LENGTH) \/
  (type = OFPMT_OXM /\ 4 <= length /\ PadLength length <= lengthRemaining /\
   exists l, Forall item_ok l /\ slice m 4 (length - 4) = Some (encode l)).

(** A validation function's answer: accept exactly [P], and report a refusal. *)
Definition verdict (c : Validation) (r : option (bool * Validation)) (P : Prop) : Prop :=
  exists ok c', r = Some (ok, c') /\ (ok = true <-> P) /\
    (if ok then c' = c else failed_from OFPBRC_BAD_LEN c c').

Section MatchHeaders.
Context (addr : Z) (m : list Z) (c : Validation) (Hm : bytes_ok m).

Lemma verdict_reject (P : Prop) msg :
  ~ P -> verdict c (Some (false, matchIsInvalid msg addr c)) P.
Proof. intros HP. eexists false, _. split; [done|]. split; [done|]. apply report_failed. Qed.

Lemma verdict_accept (P : Prop) : P -> verdict c (Some (true, c)) P.
Proof. intros HP. by eexists true, _. Qed.

Lemma verdict_iff r (P Q : Prop) : (P <-> Q) -> verdict c r P -> verdict c r Q.
Proof. intros HPQ (ok & c' & ? & ? & ?). exists ok, c'. by rewrite <- HPQ. Qed.

Lemma oxm_verdict len lengthRemaining :
  4 <= len < 2 ^ 16 -> PadLength len <= lengthRemaining <= zlen m ->
  verdict c (oxm ← slice m 4 (len - 4); ok ← OXMRange_validateInput oxm;
             if negb ok then Some (false, matchIsInvalid (str "Invalid oxm range") addr c)
             else Some (true, c))
    (exists l, Forall item_ok l /\ slice m 4 (len - 4) = Some (encode l)).
Proof.
  intros Hl Hp. pose proof (PadLength_bounds len ltac:(lia)) as [Hb _].
  destruct (slice m 4 (len - 4)) as [oxm|] eqn:Eo;
    [|rewrite slice_some in Eo by lia; discriminate]. cbn [mbind option_bind].
  destruct (oxm_valid_loop_spec (S (length oxm)) oxm [] oxm) as (ok & Ev & Hiff);
    [done|by eapply slice_ok|lia|].
  unfold OXMRange_validateInput. change (zlen []) with 0 in Ev. rewrite Ev. cbn [mbind option_bind].
  assert ((exists l, Forall item_ok l /\ Some oxm = Some (encode l)) <-> ok = true) as E.
  { rewrite Hiff. split; intros (l & Hl' & E); exists l; split; congruence. }
  destruct ok; cbn [negb].
  - by apply verdict_accept, E.
  - apply verdict_reject. rewrite E. done.
Qed.
End MatchHeaders.

Lemma MatchHeader_verdict addr m lengthRemaining c :
  bytes_ok m -> 0 <= lengthRemaining <= zlen m ->
  verdict c (MatchHeader_validateInput addr m lengthRemaining c)
    (4 <= lengthRemaining /\ addr mod 8 = 0 /\
     exists type length, MatchHeader_type m = Some type /\ MatchHeader_length m = Some length /\
       match_header_ok (v_version c) m type length lengthRemaining).
Proof.
  intros Hm Hl. unfold MatchHeader_validateInput.
  destruct (Z.ltb_spec lengthRemaining 4); [apply verdict_reject; lia|].
  rewrite IsPtrAligned_8. destruct (Z.eqb_spec (addr mod 8) 0); cbn [negb]; [|apply verdict_reject; lia].
  destruct (rd_be_some 2 m 0) as [type Et]; [lia..|]. destruct (rd_be_some 2 m 2) as [len El]; [lia..|].
  pose proof (rd_be_range _ _ _ _ Hm El) as Hlr. change (256 ^ 2) with (2 ^ 16) in Hlr.
  fold (MatchHeader_type m) in Et. fold (MatchHeader_length m) in El. rewrite Et, El. cbn [mbind option_bind].
  apply (verdict_iff c _ (match_header_ok (v_version c) m type len lengthRemaining)).
  { split; [by eauto 10|]. intros (_ & _ & t' & l' & ? & ? & ?). by simplify_eq. }
  unfold match_header_ok, OFP_VERSION_4.
  destruct ((v_version c <? 4) && (type =? OFPMT_STANDARD)) eqn:Estd.
  { apply andb_true_iff in Estd as [Hv ->%Z.eqb_eq].
    destruct (Z.eqb_spec len OFPMT_STANDARD_LENGTH); cbn [negb].
    - apply verdict_accept. left. split_and!; done || lia.
    - apply verdict_reject. by intros [(_ & _ & ?)|(? & _)]. }
  destruct (Z.eqb_spec type OFPMT_OXM) as [->|Ht]; cbn [negb].
  2: { apply verdict_reject. intros [(? & -> & _)|(? & _)]; [|done].
       rewrite (proj2 (Z.ltb_lt _ _)) in Estd; done. }
  destruct (Z.ltb_spec len 4).
  { apply verdict_reject. intros [(_ & ? & _)|(_ & ? & _)]; [done|lia]. }
  destruct (Z.ltb_spec lengthRemaining (PadLength len)).
  { apply verdict_reject. intros [(_ & ? & _)|(_ & _ & ? & _)]; [done|lia]. }
  eapply verdict_iff; [|apply (oxm_verdict addr m c Hm len lengthRemaining); lia].
  split; [intros Hx; by right|]. intros [(_ & ? & _)|(_ & _ & _ & ?)]; done.
Qed.

(** [MatchHeader::validateInput] on a memory of at least [lengthRemaining]
    bytes always answers without reading past it. It accepts exactly: an aligned
    header with at least 4 bytes, that either is a standard match of length 88
    (before OpenFlow 1.3) or an OXM match whose padded length fits in the
    remaining bytes and whose body is a sequence of OXM fields. Acceptance
    leaves the context unchanged; a refusal records OFPBRC_BAD_LEN and logs. *)
Theorem MatchHeader_validateInput_iff addr m lengthRemaining c :
  bytes_ok m -> 0 <= lengthRemaining <= zlen m ->
  verdict c (MatchHeader_validateInput addr m lengthRemaining c)
    (4 <= lengthRemaining /\ addr mod 8 = 0 /\
     exists type length, MatchHeader_type m = Some type /\ MatchHeader_length m = Some length /\
       match_header_ok (v_version c) m type length lengthRemaining).
Proof. apply MatchHeader_verdict. Qed.

Definition match_memory : list Z := [0; 1; 0; 10; 128; 0; 10; 2; 8; 0; 0; 0; 0; 0; 0; 0].

Lemma MatchHeader_validateInput_witness :
  let c := Validation_make None (Some 0) in
  verdict c (MatchHeader_validateInput 1024 match_memory 16 c)
    (4 <= 16 /\ 1024 mod 8 = 0 /\
     exists type length, MatchHeader_type match_memory = Some type /\
       MatchHeader_length match_memory = Some length /\
       match_header_ok (v_version c) match_memory type length 16).
Proof.
  intros c. apply (MatchHeader_validateInput_iff 1024 match_memory 16 c).
  - unfold match_memory. bytes.
  - vm_compute. split; discriminate.
Defined.

Lemma StandardMatch_at_ok m :
  bytes_ok m -> 88 <= zlen m -> exists s, StandardMatch_at m 0 = Some s /\ std_shape s.
Proof.
  intros Hm Hl. unfold StandardMatch_at.
  read_fields m.
  eexists. split; [reflexivity|]. unfold std_shape. cbn.
  split_and!; (split; [|by eapply slice_ok]); field_length m.
Qed.

(** A match header that [validateInput] accepts can be read: [Match] of it
    is a list of well-formed OXM fields, the fields of the header's own range
    for an OXM match and the converted structure for a standard match, provided
    that a standard match is followed by the 88 bytes that its length names. *)
Theorem match_of_accepted_header {B} `{ByteBufferLaws B} (empty : B) addr m lengthRemaining c :
  bytes_ok m -> 0 <= lengthRemaining <= zlen m -> bb_rep empty [] ->
  MatchHeader_validateInput addr m lengthRemaining c = Some (true, c) ->
  (MatchHeader_type m = Some OFPMT_STANDARD -> 88 <= zlen m) ->
  exists b l, Match_make empty m = Some b /\ bb_data b = encode l /\ Forall item_ok l /\
    (MatchHeader_type m = Some OFPMT_OXM -> MatchHeader_oxmRange m = Some (encode l)).
Proof.
  intros Hm Hl He Ha H88. destruct (MatchHeader_verdict addr m lengthRemaining c Hm Hl) as (ok & c' & E & Hiff & _).
  rewrite Ha in E. simplify_eq. destruct (proj1 Hiff eq_refl) as (_ & _ & type & len & Et & El & Hok).
  unfold Match_make. rewrite Et. cbn [mbind option_bind].
  destruct Hok as [(_ & -> & ->)|(-> & H4 & _ & l & Hil & Es)].
  - destruct (StandardMatch_at_ok m Hm (H88 Et)) as (s & E & Hs).
    destruct (toOXMList_ok empty s He Hs) as (Hi & b & Eb & Hd). exists b, (std_items s).
    rewrite El. cbn [mbind option_bind]. unfold MatchHeader_stdMatch. rewrite Et, El. cbn [mbind option_bind].
    change (OFPMT_STANDARD =? OFPMT_OXM) with false. change (OFPMT_STANDARD =? OFPMT_STANDARD) with true.
    change (OFPMT_STANDARD_LENGTH =? OFPMT_STANDARD_LENGTH) with true. cbn [andb].
    rewrite E. cbn [mbind option_bind]. split_and!; done.
  - change (OFPMT_OXM =? OFPMT_OXM) with true. unfold MatchHeader_oxmRange. rewrite Et, El.
    cbn [mbind option_bind]. rewrite (proj2 (Z.leb_le 4 len)) by done.
    change (negb (OFPMT_OXM =? OFPMT_OXM)) with false. cbn iota. rewrite Es. cbn [mbind option_bind].
    destruct (bb_add_ok empty [] (encode l) He) as (b & Eb & Hr).
    { apply slice_inv in Es as (_ & _ & _ & _ & Es). change (zlen []) with 0. unfold maxLength.
      assert (rd_be 2 m 2 = Some len) as Er by done. apply rd_be_range in Er; [|done]. lia. }
    exists b, l. rewrite Eb. split_and!; try done. by apply bb_rep_data in Hr.
Qed.

Lemma match_of_accepted_header_witness :
  let c := Validation_make None (Some 0) in
  exists b l, @Match_make _ (SmallBuffer_ops heap_zero) sb_fresh match_memory = Some b /\
    SB_contents b = encode l /\ Forall item_ok l /\
    (MatchHeader_type match_memory = Some OFPMT_OXM ->
     MatchHeader_oxmRange match_memory = Some (encode l)).
Proof.
  intros c. apply (@match_of_accepted_header _ _ (SmallBuffer_laws heap_zero) sb_fresh 1024
    match_memory 16 c).
  - unfold match_memory. bytes.
  - vm_compute. split; discriminate.
  - apply sb_fresh_represents.
  - reflexivity.
  - discriminate.
Defined.

(** The context of an OpenFlow 1.1 message. *)
Definition v2_context : Validation := Validation_make (Some (1024, 64, 2, None)) (Some 0).

(** The proviso is needed: for a standard match [validateInput] checks the
    length field but not the bytes that remain, so before OpenFlow 1.3 a
    truncated standard match of 8 bytes is accepted, and building its [Match]
    reads past the end of the message. *)
Theorem truncated_standard_match_accepted :
  let m := [0; 0; 0; 88; 0; 0; 0; 0] in
  MatchHeader_validateInput 1072 m 8 v2_context = Some (true, v2_context) /\
  @Match_make _ (SmallBuffer_ops heap_zero) sb_fresh m = None.
Proof. split; vm_compute; reflexivity. Qed.
