(* ===== verification/Actions.v ===== *)
(** * Actions (src/ofp/actionrange.cpp, include/ofp/actions.h, actioniterator.h,
    actiontype.h, nicira.h)

    A list of actions is a range of elements with a 16-bit type, a 16-bit
    length and a body, padded to 8 bytes. The list is checked when a message is
    received, and translated action by action when it is written for an
    OpenFlow 1.0 peer. *)

From S2P Require Import Prelude.
From S2P Require Import ByteOrder.
From S2P Require Import Hex.
From S2P Require Import Constants.
From S2P Require Import Validation.
From S2P Require Import ProtocolRange.
From S2P Require Import Oxm.
From S2P Require Import Matches.

Definition OFPAT_OUTPUT : Z := 0.
Definition OFPAT_SET_FIELD : Z := 25.
Definition OFPAT_EXPERIMENTER : Z := 0xFFFF.
Definition OFPAT_STRIP_VLAN_V1 : Z := 0x7FF1.
Definition OFPAT_ENQUEUE_V1 : Z := 0x7FF2.

Definition v1_OFPAT_SET_VLAN_VID : Z := 1.
Definition v1_OFPAT_SET_VLAN_PCP : Z := 2.
Definition v1_OFPAT_SET_DL_SRC : Z := 4.
Definition v1_OFPAT_SET_DL_DST : Z := 5.
Definition v1_OFPAT_SET_NW_SRC : Z := 6.
Definition v1_OFPAT_SET_NW_DST : Z := 7.
Definition v1_OFPAT_SET_NW_TOS : Z := 8.
Definition v1_OFPAT_SET_TP_SRC : Z := 9.
Definition v1_OFPAT_SET_TP_DST : Z := 10.

Definition NICIRA : Z := 0x00002320.
Definition NXAST_REG_MOVE : Z := 6.
Definition NXAST_REG_LOAD : Z := 7.

(** ** Items *)

(** [ActionType::enumType] and [length] of the item at [p]. *)
Definition action_type (m : list Z) (p : Z) : option Z := rd16 m p.
Definition action_size (m : list Z) (p : Z) : option Z := rd16 m (p + 2).

(** [value()] and [oxmRange()]: the bytes behind the type word. *)
Definition action_value (m : list Z) (p : Z) : option (list Z) :=
  len ← action_size m p; slice m (p + 4) (len - 4).

(** The bytes of an [ActionType] object. *)
Definition ActionType_bytes (type length : Z) : list Z := be_bytes 2 type ++ be_bytes 2 length.

(** ** Validation *)

Definition validateInput_SetField (m : list Z) (p : Z) : option bool :=
  len ← action_size m p;
  if len <? 16 then Some false
  else oxm ← action_value m p; OXMRange_validateInput_paddedField oxm.

Definition validateInput_NICIRA (m : list Z) (p : Z) (c : Validation) : option (bool * Validation) :=
  size ← action_size m p;
  if size <? 10 then Some (validateBool false (str "Invalid Nicira action size") c)
  else
    subtype ← rd16 m (p + 8);
    if subtype =? NXAST_REG_MOVE
    then Some (validateBool (size =? 24) (str "Invalid AT_NX_REGMOVE action") c)
    else if subtype =? NXAST_REG_LOAD
    then Some (validateBool (size =? 24) (str "Invalid AT_NX_REGLOAD action") c)
    else Some (true, c).

(** The loop body of [ActionRange::validateInput]. *)
Definition validate_action (m : list Z) (p : Z) (c : Validation) : option (bool * Validation) :=
  type ← action_type m p;
  if type =? OFPAT_SET_FIELD then ok ← validateInput_SetField m p; Some (ok, c)
  else if type =? OFPAT_EXPERIMENTER then
    len ← action_size m p;
    let '(ok, c) := validateBool (8 <=? len) (str "Invalid EXPERIMENTER action") c in
    if negb ok then Some (false, c)
    else
      experimenterid ← rd32 m (p + 4);
      if experimenterid =? NICIRA then validateInput_NICIRA m p c else Some (true, c)
  else Some (true, c).

Definition ActionRange_validateInput (range : ByteRange) (c : Validation) : option (bool * Validation) :=
  '(ok, c) ← ProtocolRange_validateInput 4 2 8 (fun _ c => Some (true, c)) range c;
  if negb ok then Some (false, c)
  else for_elements 4 2 8 (validate_action (br_data range)) (length (br_data range)) range 0 c.

(** ** Writing *)

(** [writeSizeMinusSetFieldV1]; [oxm] is the type of the set field. *)
Definition writeSizeMinusSetFieldV1 (oxm : Z) : Z :=
  if (oxm =? OFB_ETH_SRC) || (oxm =? OFB_ETH_DST) then 0
  else if (oxm =? OFB_VLAN_VID) || (oxm =? OFB_VLAN_PCP) || (oxm =? OFB_IPV4_SRC) ||
    (oxm =? OFB_IPV4_DST) || (oxm =? OFB_IP_DSCP) || (oxm =? OFB_TCP_SRC) || (oxm =? OFB_TCP_DST) ||
    (oxm =? OFB_UDP_SRC) || (oxm =? OFB_UDP_DST) || (oxm =? OFB_ICMPV4_TYPE) || (oxm =? OFB_ICMPV4_CODE)
  then 8
  else 0.

(** [ActionRange::writeSize]; [newSize] is a [size_t]. *)
Definition ActionRange_writeSize (version : Z) (range : ByteRange) : option Z :=
  if negb (version =? OFP_VERSION_1) then Some (br_size range)
  else
    let m := br_data range in
    snd <$> for_elements 4 2 8
      (fun p newSize =>
         type ← action_type m p; len ← action_size m p;
         if (type =? OFPAT_OUTPUT) && (len =? 16) then Some (true, u64 (newSize - 8))
         else if type =? OFPAT_SET_FIELD then
           oxm ← it_type m (p + 4); Some (true, u64 (newSize - writeSizeMinusSetFieldV1 oxm))
         else Some (true, newSize))
      (length m) range 0 (br_size range).

(** [AT_SET_FIELD_V<Code, ValueType>] and its variant without padding, from
    the [n] value bytes of the set field at [p]. *)
Definition writeAction (code n : Z) (m : list Z) (p : Z) : option (list Z) :=
  v ← slice m (p + 8) n;
  let size := PadLength (4 + n) in
  Some (ActionType_bytes code size ++ v ++ replicate (Z.to_nat (size - (4 + n))) 0).

(** [writeSetFieldV1]: an unknown field is logged and nothing is written. *)
Definition writeSetFieldV1 (m : list Z) (p : Z) : option (list Z) :=
  oxm ← it_type m (p + 4);
  if oxm =? OFB_VLAN_VID then writeAction v1_OFPAT_SET_VLAN_VID 2 m p
  else if oxm =? OFB_VLAN_PCP then writeAction v1_OFPAT_SET_VLAN_PCP 1 m p
  else if oxm =? OFB_ETH_SRC then writeAction v1_OFPAT_SET_DL_SRC 6 m p
  else if oxm =? OFB_ETH_DST then writeAction v1_OFPAT_SET_DL_DST 6 m p
  else if oxm =? OFB_IPV4_SRC then writeAction v1_OFPAT_SET_NW_SRC 4 m p
  else if oxm =? OFB_IPV4_DST then writeAction v1_OFPAT_SET_NW_DST 4 m p
  else if oxm =? OFB_IP_DSCP then writeAction v1_OFPAT_SET_NW_TOS 1 m p
  else if oxm =? OFB_TCP_SRC then writeAction v1_OFPAT_SET_TP_SRC 2 m p
  else if oxm =? OFB_TCP_DST then writeAction v1_OFPAT_SET_TP_DST 2 m p
  else if oxm =? OFB_UDP_SRC then writeAction v1_OFPAT_SET_TP_SRC 2 m p
  else if oxm =? OFB_UDP_DST then writeAction v1_OFPAT_SET_TP_DST 2 m p
  else if oxm =? OFB_ICMPV4_TYPE then writeAction v1_OFPAT_SET_TP_SRC 1 m p
  else if oxm =? OFB_ICMPV4_CODE then writeAction v1_OFPAT_SET_TP_DST 1 m p
  else Some [].

(** [AT_OUTPUT_V1] of the output action at [p]: the port is narrowed. *)
Definition write_output_V1 (m : list Z) (p : Z) : option (list Z) :=
  port ← rd32 m (p + 4); maxlen ← rd16 m (p + 8);
  Some (ActionType_bytes OFPAT_OUTPUT 8 ++ be_bytes 2 (u16 port) ++ be_bytes 2 maxlen).

Definition write_action_V1 (m : list Z) (p : Z) : option (list Z) :=
  type ← action_type m p; len ← action_size m p;
  if (type =? OFPAT_OUTPUT) && (len =? 16) then write_output_V1 m p
  else if type =? OFPAT_SET_FIELD then writeSetFieldV1 m p
  else slice m p len.

Definition ActionRange_write (version : Z) (range : ByteRange) : option (list Z) :=
  if negb (version =? OFP_VERSION_1) then Some (br_data range)
  else
    snd <$> for_elements 4 2 8
      (fun p out => w ← write_action_V1 (br_data range) p; Some (true, out ++ w))
      (length (br_data range)) range 0 [].

(** ** What the checks accept *)

(** One OXM field followed by at most seven zero bytes. *)
Definition padded_field (oxm : list Z) : Prop :=
  exists b, rd8 oxm 3 = Some b /\ 4 + b <= zlen oxm <= 4 + b + 7 /\
    Forall (fun z => z = 0) (drop (Z.to_nat (4 + b)) oxm).

(** An action (with its padding) as [validateInput] wants it. *)
Definition action_ok (x : list Z) : Prop :=
  exists type len, rd16 x 0 = Some type /\ rd16 x 2 = Some len /\
    (type = OFPAT_SET_FIELD -> 16 <= len /\ exists oxm, slice x 4 (len - 4) = Some oxm /\ padded_field oxm) /\
    (type = OFPAT_EXPERIMENTER -> 8 <= len /\
       (rd32 x 4 = Some NICIRA -> 10 <= len /\
          (rd16 x 8 = Some NXAST_REG_MOVE \/ rd16 x 8 = Some NXAST_REG_LOAD -> len = 24))).

Lemma action_params : iter_params 4 2 8.
Proof. unfold iter_params. lia. Qed.

Lemma action_elem x : elem_ok 4 2 x ->
  exists type len, rd16 x 0 = Some type /\ rd16 x 2 = Some len /\ 4 <= len < 2 ^ 16 /\
    zlen x = PadLength len /\ len <= zlen x /\ 8 <= zlen x /\ zlen x mod 8 = 0.
Proof.
  intros (e & Hd & H4 & He & Hl). pose proof (PadLength_bounds e ltac:(lia)) as [Hb Hm].
  assert (8 <= zlen x) by (rewrite Hl in *; Z.div_mod_to_equations; lia).
  destruct (rd_be_some 2 x 0) as [t Ht]; [lia..|]. exists t, e. split_and!; try done; try lia. by rewrite Hl.
Qed.

Section Action.
Context (pre x post : list Z) (Hx : elem_ok 4 2 x).

Lemma action_reads :
  action_type (pre ++ x ++ post) (zlen pre) = rd16 x 0 /\
  action_size (pre ++ x ++ post) (zlen pre) = rd16 x 2 /\
  rd32 (pre ++ x ++ post) (zlen pre + 4) = rd32 x 4.
Proof.
  destruct (action_elem x Hx) as (t & len & _ & _ & _ & _ & _ & H8 & _).
  unfold action_type, action_size, rd_be. by rewrite slice_mid0, !slice_mid by lia.
Qed.

Lemma paddedField_iff oxm :
  bytes_ok oxm -> exists b, OXMRange_validateInput_paddedField oxm = Some b /\ (b = true <-> padded_field oxm).
Proof.
  intros Hb. unfold OXMRange_validateInput_paddedField. destruct (Z.ltb_spec (zlen oxm) 4) as [H4|H4].
  { exists false. split; [done|]. split; [done|]. intros (b & H%rd8_inv & _). lia. }
  destruct (rd8_some oxm 3) as [b E]; [lia|]. rewrite E. cbn [mbind option_bind].
  assert (padded_field oxm <-> 4 + b <= zlen oxm <= 4 + b + 7 /\
    Forall (fun z => z = 0) (drop (Z.to_nat (4 + b)) oxm)) as Hp.
  { split; [intros (b' & ? & ?); by simplify_eq|intros ?; by exists b]. }
  destruct (Z.ltb_spec (zlen oxm) (4 + b)); [exists false; split; [done|]; rewrite Hp; split; [done|lia]|].
  destruct (Z.leb_spec (zlen oxm - (4 + b)) 7); [|exists false; split; [done|]; rewrite Hp; split; [done|lia]].
  eexists. split; [done|]. rewrite Hp, IsMemFilled_true. change (u8 0) with 0. intuition lia.
Qed.

(** The loop body decides [action_ok] and changes the context only to refuse. *)
Lemma validate_action_iff c :
  bytes_ok x -> exists b c', validate_action (pre ++ x ++ post) (zlen pre) c = Some (b, c') /\
    (b = true <-> action_ok x) /\ (b = true -> c' = c).
Proof.
  intros Hb. destruct (action_elem x Hx) as (type & len & Et & El & Hr & Hp & Hle & H8 & H0).
  assert (action_ok x <->
    (type = OFPAT_SET_FIELD -> 16 <= len /\ exists oxm, slice x 4 (len - 4) = Some oxm /\ padded_field oxm) /\
    (type = OFPAT_EXPERIMENTER -> 8 <= len /\ (rd32 x 4 = Some NICIRA -> 10 <= len /\
          (rd16 x 8 = Some NXAST_REG_MOVE \/ rd16 x 8 = Some NXAST_REG_LOAD -> len = 24)))) as Hok.
  { split; [intros (t & l & ? & ? & ?); by simplify_eq|intros [? ?]; exists type, len; by split_and!]. }
  destruct action_reads as (Rt & Rs & R4). unfold validate_action. rewrite Rt, Et. cbn [mbind option_bind].
  destruct (Z.eqb_spec type OFPAT_SET_FIELD) as [->|Hsf].
  { unfold validateInput_SetField, action_value. rewrite Rs, El. cbn [mbind option_bind].
    destruct (Z.ltb_spec len 16); [exists false, c; split_and!; try done; rewrite Hok; split; [done|lia]|].
    rewrite slice_mid, slice_some by lia. cbn [mbind option_bind].
    set (oxm := take _ _) in *. destruct (paddedField_iff oxm) as (b & -> & Hbi).
    { by apply Forall_take, Forall_drop. }
    cbn [mbind option_bind]. exists b, c. split_and!; try done. rewrite Hok, Hbi. split.
    - intros Hpf. split; [|done]. intros _. split; [lia|]. exists oxm. by rewrite slice_some by lia.
    - intros [Hs _]. destruct (Hs eq_refl) as (_ & o & Ho & Hpf). rewrite slice_some in Ho by lia. by simplify_eq. }
  destruct (Z.eqb_spec type OFPAT_EXPERIMENTER) as [->|Hex].
  2: { exists true, c. split_and!; try done. rewrite Hok. tauto. }
  rewrite Rs, El. cbn [mbind option_bind]. unfold validateBool.
  destruct (Z.leb_spec 8 len); cbn [negb]; [|eexists false, _; split_and!; try done; rewrite Hok; split; [done|]; intros [_ Hs]; specialize (Hs eq_refl); lia].
  rewrite R4. destruct (rd_be_some 4 x 4) as [ex Ex]; [lia..|]. rewrite Ex. cbn [mbind option_bind].
  destruct (Z.eqb_spec ex NICIRA) as [->|Hni].
  2: { exists true, c. split_and!; try done. rewrite Hok. split; [|done]. intros _. split; [done|]. intros _.
       split; [lia|]. rewrite Ex. congruence. }
  unfold validateInput_NICIRA. rewrite Rs, El. cbn [mbind option_bind]. unfold validateBool.
  destruct (Z.ltb_spec len 10).
  { eexists false, _. split_and!; try done. rewrite Hok. split; [done|]. intros [_ Hs].
    destruct (Hs eq_refl) as [_ Hs']. specialize (Hs' Ex). lia. }
  assert (10 <= zlen x) by lia. unfold rd_be at 1. rewrite slice_mid by lia.
  destruct (rd_be_some 2 x 8) as [st Est]; [lia..|]. unfold rd_be in Est at 1. rewrite Est. cbn [mbind option_bind].
  fold (rd_be 2 x 8) in Est.
  assert (forall b c', (b = true <-> (st = NXAST_REG_MOVE \/ st = NXAST_REG_LOAD -> len = 24)) ->
    (b = true -> c' = c) -> exists b0 c0, Some (b, c') = Some (b0, c0) /\ (b0 = true <-> action_ok x) /\
      (b0 = true -> c0 = c)) as Hend.
  { intros b c' Hbi Hc. exists b, c'. split_and!; try done. rewrite Hok, Hbi, Est, Ex. naive_solver lia. }
  destruct (Z.eqb_spec st NXAST_REG_MOVE) as [->|].
  { destruct (Z.eqb_spec len 24) as [->|]; apply Hend; try done. split; [done|]. intros HH. destruct n. auto. }
  destruct (Z.eqb_spec st NXAST_REG_LOAD) as [->|].
  { destruct (Z.eqb_spec len 24) as [->|]; apply Hend; try done. split; [done|]. intros HH. destruct n0. auto. }
  apply Hend; [|done]. tauto.
Qed.
End Action.

Lemma actions_valid_iff range c :
  bytes_ok (br_data range) ->
  exists b c', ActionRange_validateInput range c = Some (b, c') /\
    (b = true <-> br_addr range mod 8 = 0 /\
       exists cs, br_data range = mjoin cs /\ Forall (elem_ok 4 2) cs /\ Forall action_ok cs) /\
    (b = true -> c' = c).
Proof.
  intros Hb. apply (validate_twice_iff 4 2 action_params); [done|].
  intros pre x post E _ _ Hx Hbx. rewrite E. by apply validate_action_iff.
Qed.

(** C22. [ActionRange::validateInput] always answers, without a read outside the
    range, and accepts exactly the aligned concatenations of whole actions in
    which every set-field holds one padded OXM field and every experimenter
    action has its header (a Nicira register action all its 24 bytes); it
    leaves the context alone when it accepts. *)
Theorem ActionRange_validateInput_iff range c :
  bytes_ok (br_data range) ->
  exists b c', ActionRange_validateInput range c = Some (b, c') /\
    (b = true <-> br_addr range mod 8 = 0 /\
       exists cs, br_data range = mjoin cs /\ Forall (elem_ok 4 2) cs /\ Forall action_ok cs) /\
    (b = true -> c' = c).
Proof. apply actions_valid_iff. Qed.

(** ** What is written for OpenFlow 1.0 *)

(** The fields of set-field actions that OpenFlow 1.0 has an action for, with
    the action's type and the size of the value. *)
Definition v1_set_action (oxm : Z) : option (Z * Z) :=
  if oxm =? OFB_VLAN_VID then Some (v1_OFPAT_SET_VLAN_VID, 2)
  else if oxm =? OFB_VLAN_PCP then Some (v1_OFPAT_SET_VLAN_PCP, 1)
  else if oxm =? OFB_ETH_SRC then Some (v1_OFPAT_SET_DL_SRC, 6)
  else if oxm =? OFB_ETH_DST then Some (v1_OFPAT_SET_DL_DST, 6)
  else if oxm =? OFB_IPV4_SRC then Some (v1_OFPAT_SET_NW_SRC, 4)
  else if oxm =? OFB_IPV4_DST then Some (v1_OFPAT_SET_NW_DST, 4)
  else if oxm =? OFB_IP_DSCP then Some (v1_OFPAT_SET_NW_TOS, 1)
  else if oxm =? OFB_TCP_SRC then Some (v1_OFPAT_SET_TP_SRC, 2)
  else if oxm =? OFB_TCP_DST then Some (v1_OFPAT_SET_TP_DST, 2)
  else if oxm =? OFB_UDP_SRC then Some (v1_OFPAT_SET_TP_SRC, 2)
  else if oxm =? OFB_UDP_DST then Some (v1_OFPAT_SET_TP_DST, 2)
  else if oxm =? OFB_ICMPV4_TYPE then Some (v1_OFPAT_SET_TP_SRC, 1)
  else if oxm =? OFB_ICMPV4_CODE then Some (v1_OFPAT_SET_TP_DST, 1)
  else None.

Lemma writeSetFieldV1_spec m p :
  writeSetFieldV1 m p =
  (oxm ← it_type m (p + 4);
   match v1_set_action oxm with Some (code, n) => writeAction code n m p | None => Some [] end).
Proof.
  unfold writeSetFieldV1, v1_set_action. destruct (it_type m (p + 4)); [|done]. cbn [mbind option_bind].
  split_ifs; done.
Qed.

(** The known fields: the low byte of the type is the size of the value. *)
Lemma v1_set_action_size oxm code n :
  v1_set_action oxm = Some (code, n) ->
  oxm mod 256 = n /\ 0 <= code < 2 ^ 16 /\ (n = 1 \/ n = 2 \/ n = 4 \/ n = 6) /\
  writeSizeMinusSetFieldV1 oxm = if n =? 6 then 0 else 8.
Proof.
  unfold v1_set_action. intros H. repeat case_match; simplify_eq;
    repeat match goal with E : (_ =? _) = true |- _ => apply Z.eqb_eq in E; subst
           | E : (_ =? _) = false |- _ => clear E end;
    split_and!; first [by vm_compute | lia].
Qed.

(** What one action is written as. *)
Definition v1_bytes (x : list Z) : list Z := default [] (write_action_V1 x 0).

Lemma rd32_low x p t : bytes_ok x -> rd32 x p = Some t -> rd8 x (p + 3) = Some (t mod 256).
Proof.
  intros Hb. unfold rd_be. destruct (slice x p 4) as [bs|] eqn:E; [|done]. intros [= <-].
  pose proof (slice_ok _ _ _ _ Hb E) as Hbs. apply slice_inv in E as (H0 & _ & Hl & -> & Hz).
  destruct (rd8_some x (p + 3)) as [b Eb]; [lia|]. rewrite Eb. f_equal.
  pose proof (rd8_byte _ _ _ Hb Eb) as Hbb. unfold rd8 in Eb. rewrite (proj2 (Z.leb_le _ _)) in Eb by lia.
  assert (take (Z.to_nat 4) (drop (Z.to_nat p) x) = take 3 (drop (Z.to_nat p) x) ++ [b]) as ->.
  { change (Z.to_nat 4) with 4%nat. rewrite (take_S_r _ 3 b); [done|].
    rewrite lookup_drop. by replace (Z.to_nat p + 3)%nat with (Z.to_nat (p + 3)) by lia. }
  rewrite be_snoc, Z.add_comm, Z.mod_add by lia. unfold is_byte in Hbb. by rewrite Z.mod_small.
Qed.

Section WriteAction.
Context (x : list Z) (Hx : elem_ok 4 2 x) (Hb : bytes_ok x) (Hok : action_ok x).

(** Writing looks only at the action, and never reads outside it. *)
Lemma write_action_inside pre post :
  write_action_V1 (pre ++ x ++ post) (zlen pre) = Some (v1_bytes x).
Proof.
  assert (write_action_V1 (pre ++ x ++ post) (zlen pre) = write_action_V1 x 0 /\
          is_Some (write_action_V1 x 0)) as [-> [w Hw]].
  2: { unfold v1_bytes. by rewrite Hw. }
  destruct (action_elem x Hx) as (type & len & Et & El & Hr & Hp & Hle & H8 & H0).
  destruct (action_reads pre x post Hx) as (Rt & Rs & R4).
  pose proof (action_reads [] x [] Hx) as (Rt' & Rs' & R4').
  rewrite app_nil_r in Rt', Rs', R4'. change (zlen []) with 0 in *. simpl in Rt', Rs', R4'.
  unfold write_action_V1. rewrite Rt, Rs, Rt', Rs', Et, El. cbn [mbind option_bind].
  destruct ((type =? OFPAT_OUTPUT) && (len =? 16)) eqn:Eo.
  { apply andb_true_iff in Eo as [_ ->%Z.eqb_eq]. unfold write_output_V1. rewrite R4.
    replace (rd16 (pre ++ x ++ post) (zlen pre + 8)) with (rd16 x 8) by (unfold rd_be; by rewrite slice_mid by lia).
    destruct (rd_be_some 4 x 4) as [a Ea]; [lia..|]. destruct (rd_be_some 2 x 8) as [b Eb]; [lia..|].
    change (0 + 4) with 4. change (0 + 8) with 8. rewrite Ea, Eb. cbn [mbind option_bind]. eauto. }
  destruct (Z.eqb_spec type OFPAT_SET_FIELD) as [->|].
  2: { rewrite slice_mid0, slice_some by lia. eauto. }
  destruct Hok as (t & l & Et' & El' & Hsf & _). simplify_eq.
  destruct (Hsf eq_refl) as (H16 & oxm & Ho & b & Eb & Hz & _).
  rewrite !writeSetFieldV1_spec. unfold it_type. rewrite R4. change (0 + 4) with 4.
  destruct (rd_be_some 4 x 4) as [f Ef]; [lia..|]. rewrite Ef. cbn [mbind option_bind].
  destruct (v1_set_action f) as [[code n]|] eqn:Ev; [|eauto].
  destruct (v1_set_action_size f code n Ev) as (Hn & _ & Hn' & _).
  assert (rd8 x 7 = Some b) as E7.
  { apply slice_inv in Ho as (_ & _ & _ & -> & _). rewrite <- Eb. unfold rd8. cbn [Z.leb Z.compare].
    change (Z.to_nat 3) with 3%nat. rewrite lookup_take_lt by lia. by rewrite lookup_drop. }
  pose proof (rd32_low x 4 f Hb Ef) as E7'. change (4 + 3) with 7 in E7'. rewrite E7' in E7.
  injection E7 as <-. rewrite Hn in *.
  apply slice_inv in Ho as (_ & _ & _ & _ & Ho). unfold writeAction.
  rewrite slice_mid by lia. change (0 + 8) with 8. rewrite slice_some by lia. cbn [mbind option_bind]. eauto.
Qed.

(** An action that OpenFlow 1.0 has, without extra padding. *)
Definition translatable (y : list Z) : Prop :=
  rd16 y 2 = Some (zlen y) /\
  (rd16 y 0 = Some OFPAT_SET_FIELD -> zlen y = 16 /\
     exists oxm, rd32 y 4 = Some oxm /\ is_Some (v1_set_action oxm)).

(** What [writeSize] takes off for an action. *)
Definition size_minus (y : list Z) : Z := zlen y - zlen (v1_bytes y).

(** The three kinds of actions, and what is written for them. *)
Lemma translated_action :
  translatable x ->
  (rd16 x 0 = Some OFPAT_OUTPUT /\ zlen x = 16 /\
     exists port maxlen, rd32 x 4 = Some port /\ rd16 x 8 = Some maxlen /\
       v1_bytes x = ActionType_bytes OFPAT_OUTPUT 8 ++ be_bytes 2 (u16 port) ++ be_bytes 2 maxlen) \/
  (rd16 x 0 = Some OFPAT_SET_FIELD /\ zlen x = 16 /\
     exists oxm code n v, rd32 x 4 = Some oxm /\ v1_set_action oxm = Some (code, n) /\
       slice x 8 n = Some v /\ zlen v = n /\
       v1_bytes x = ActionType_bytes code (if n =? 6 then 16 else 8) ++ v ++
         replicate (Z.to_nat ((if n =? 6 then 16 else 8) - (4 + n))) 0) \/
  (rd16 x 0 <> Some OFPAT_SET_FIELD /\ (rd16 x 0 = Some OFPAT_OUTPUT -> zlen x <> 16) /\ v1_bytes x = x).
Proof.
  intros [Hl Hsf]. destruct (action_elem x Hx) as (type & len & Et & El & Hr & Hp & Hle & H8 & H0).
  assert (len = zlen x) as -> by congruence. unfold v1_bytes, write_action_V1, action_type, action_size.
  change (0 + 2) with 2. rewrite Et, El in *. cbn [mbind option_bind].
  destruct ((type =? OFPAT_OUTPUT) && (zlen x =? 16)) eqn:Eo.
  { apply andb_true_iff in Eo as [->%Z.eqb_eq Ez%Z.eqb_eq]. left. split_and!; try done.
    destruct (rd_be_some 4 x 4) as [a Ea]; [lia..|]. destruct (rd_be_some 2 x 8) as [b Eb]; [lia..|].
    exists a, b. unfold write_output_V1. change (0 + 4) with 4. change (0 + 8) with 8. rewrite Ea, Eb.
    by split_and!. }
  destruct (Z.eqb_spec type OFPAT_SET_FIELD) as [->|Hn].
  2: { right; right. split_and!; [congruence| |].
       - intros [= ->] E. rewrite E in Eo. done.
       - by rewrite slice_all. }
  right; left. destruct (Hsf eq_refl) as (Ez & oxm & Eoxm & [[code n] Hv]). split_and!; try done.
  rewrite writeSetFieldV1_spec. unfold it_type. change (0 + 4) with 4. rewrite Eoxm. cbn [mbind option_bind].
  rewrite Hv. destruct (v1_set_action_size oxm code n Hv) as (_ & _ & Hn & _).
  unfold writeAction. change (0 + 8) with 8. rewrite slice_some by lia. cbn [mbind option_bind default].
  do 4 eexists. split_and!; [reflexivity|exact Hv|by rewrite slice_some by lia| |].
  - rewrite zlen_take, zlen_drop. lia.
  - by destruct Hn as [->|[->|[->| ->]]].
Qed.

Lemma translated_elem : translatable x ->
  elem_ok 4 2 (v1_bytes x) /\ zlen (v1_bytes x) <= zlen x.
Proof.
  intros Ht. destruct (translated_action Ht) as [(_ & Hz & port & maxlen & _ & _ & ->)|
    [(_ & Hz & oxm & code & n & v & _ & Hv & _ & Hn & ->)|(_ & _ & ->)]].
  - unfold ActionType_bytes. rewrite Hz. autorewrite with zlen. split; [|done]. exists 8.
    by split_and!.
  - destruct (v1_set_action_size oxm code n Hv) as (_ & _ & Hn' & _). unfold ActionType_bytes.
    split; [|rewrite Hz; autorewrite with zlen; rewrite Hn; by destruct Hn' as [->|[->|[->| ->]]]].
    exists (if n =? 6 then 16 else 8). split_and!.
    + unfold rd_be. rewrite <- !app_assoc. read_layout. f_equal. rewrite be_be_bytes_small; [done|].
      split_ifs; lia.
    + split_ifs; lia.
    + split_ifs; lia.
    + split_ifs; lia.
    + autorewrite with zlen. rewrite Hn. by destruct Hn' as [->|[->|[->| ->]]].
  - done.
Qed.

(** One round of [writeSize]. *)
Definition write_size_body (m : list Z) (p newSize : Z) : option (bool * Z) :=
  type ← action_type m p; len ← action_size m p;
  if (type =? OFPAT_OUTPUT) && (len =? 16) then Some (true, u64 (newSize - 8))
  else if type =? OFPAT_SET_FIELD then
    oxm ← it_type m (p + 4); Some (true, u64 (newSize - writeSizeMinusSetFieldV1 oxm))
  else Some (true, newSize).

Lemma write_size_step pre post s :
  translatable x -> 0 <= s < 2 ^ 64 ->
  write_size_body (pre ++ x ++ post) (zlen pre) s = Some (true, u64 (s - size_minus x)).
Proof.
  intros Ht Hs. destruct (action_reads pre x post Hx) as (Rt & Rs & R4).
  unfold write_size_body, size_minus, it_type. rewrite Rt, Rs, R4.
  pose proof Ht as [Hl _]. rewrite Hl. destruct (translated_action Ht) as [(Et & Hz & port & maxlen & _ & _ & ->)|
    [(Et & Hz & oxm & code & n & v & Eo & Hv & _ & Hn & ->)|(Et & Eo & ->)]].
  - rewrite Et, Hz. cbn [mbind option_bind Z.eqb andb]. by autorewrite with zlen.
  - rewrite Et, Hz. cbn [mbind option_bind]. change (OFPAT_SET_FIELD =? OFPAT_OUTPUT) with false.
    cbn [andb]. rewrite Z.eqb_refl, Eo. cbn [mbind option_bind].
    destruct (v1_set_action_size oxm code n Hv) as (_ & _ & Hn' & ->). unfold ActionType_bytes.
    autorewrite with zlen. rewrite Hn. by destruct Hn' as [->|[->|[->| ->]]].
  - destruct (action_elem x Hx) as (type & len & Et' & _). rewrite Et' in *. cbn [mbind option_bind].
    assert ((type =? OFPAT_OUTPUT) && (zlen x =? 16) = false) as ->.
    { destruct (Z.eqb_spec type OFPAT_OUTPUT) as [->|]; [|done]. apply Z.eqb_neq. auto. }
    rewrite (proj2 (Z.eqb_neq type OFPAT_SET_FIELD)) by congruence. rewrite Z.sub_diag, Z.sub_0_r.
    by rewrite u64_small.
Qed.
End WriteAction.

Lemma foldl_u64 (d : list Z -> Z) cs s :
  0 <= s < 2 ^ 64 ->
  foldl (fun s c => u64 (s - d c)) s cs = u64 (s - foldr (fun c a => d c + a) 0 cs).
Proof.
  revert s. induction cs as [|c cs IH]; intros s Hs; simpl; [rewrite Z.sub_0_r; by rewrite u64_small|].
  rewrite IH by apply u64_range. unfold u64. rewrite Zminus_mod_idemp_l. f_equal. lia.
Qed.

Lemma total_minus cs :
  foldr (fun c a => size_minus c + a) 0 cs = zlen (mjoin cs) - zlen (mjoin (v1_bytes <$> cs)).
Proof.
  induction cs as [|c cs IH]; [done|]. cbn [foldr].
  change (mjoin (c :: cs)) with (c ++ mjoin cs).
  change (mjoin (v1_bytes <$> c :: cs)) with (v1_bytes c ++ mjoin (v1_bytes <$> cs)).
  rewrite IH, !zlen_app. unfold size_minus. lia.
Qed.

(** The output and its announced size. *)
Lemma actions_v1_written addr cs c :
  ActionRange_validateInput (mkRange addr (mjoin cs)) c = Some (true, c) ->
  Forall (elem_ok 4 2) cs -> bytes_ok (mjoin cs) -> zlen (mjoin cs) < 2 ^ 64 ->
  ActionRange_write OFP_VERSION_1 (mkRange addr (mjoin cs)) = Some (mjoin (v1_bytes <$> cs)) /\
  (Forall translatable cs ->
     ActionRange_writeSize OFP_VERSION_1 (mkRange addr (mjoin cs)) = Some (zlen (mjoin (v1_bytes <$> cs))) /\
     Forall (elem_ok 4 2) (v1_bytes <$> cs)).
Proof.
  intros Hv Hcs Hb Hz.
  assert (addr mod 8 = 0 /\ Forall action_ok cs) as [Ha Hok].
  { destruct (actions_valid_iff (mkRange addr (mjoin cs)) c Hb) as (b & c' & E & Hiff & _).
    rewrite Hv in E. injection E as <- <-. destruct (proj1 Hiff eq_refl) as (Ha & ds & Hm & Hds & Hok).
    split; [done|]. by rewrite (elems_unique 4 2 action_params cs ds Hcs Hds Hm). }
  assert (forall pre x post, mjoin cs = pre ++ x ++ post -> x ∈ cs -> elem_ok 4 2 x /\ bytes_ok x /\ action_ok x) as Hin.
  { intros pre x post E Hx. rewrite E, !Forall_app in Hb. rewrite Forall_forall in Hcs, Hok.
    split_and!; [by apply Hcs|tauto|by apply Hok]. }
  split.
  - unfold ActionRange_write. change (OFP_VERSION_1 =? OFP_VERSION_1) with true. cbn [negb br_data].
    rewrite (for_elements_elems 4 2 action_params _ (fun o x => o ++ v1_bytes x) (fun _ => True)); try done.
    + cbn [fmap option_fmap option_map snd]. by rewrite foldl_join.
    + intros pre x post o E Hx Hp _. destruct (Hin _ _ _ E Hx) as (? & ? & ?). split; [|done].
      rewrite E, write_action_inside by done. done.
  - intros Ht. split.
    2: { apply Forall_fmap, Forall_forall. intros x Hx. rewrite Forall_forall in Hcs, Ht. simpl.
         apply translated_elem; auto. }
    unfold ActionRange_writeSize. change (OFP_VERSION_1 =? OFP_VERSION_1) with true. cbn [negb br_data].
    rewrite (for_elements_elems 4 2 action_params _ (fun s x => u64 (s - size_minus x))
      (fun s => 0 <= s < 2 ^ 64)); try done.
    + cbn [fmap option_fmap option_map snd]. unfold br_size. cbn [br_data].
      pose proof (zlen_nonneg (mjoin cs)). rewrite foldl_u64, total_minus by lia. f_equal.
      assert (zlen (mjoin (v1_bytes <$> cs)) <= zlen (mjoin cs)) as Hle.
      { clear -Hcs Ht. induction Hcs as [|x cs Hx Hcs IH]; [done|].
        apply Forall_cons in Ht as [Htx Ht]. destruct (translated_elem x Hx Htx) as [_ Hlx].
        change (mjoin (x :: cs)) with (x ++ mjoin cs).
        change (mjoin (v1_bytes <$> x :: cs)) with (v1_bytes x ++ mjoin (v1_bytes <$> cs)).
        rewrite !zlen_app. specialize (IH Ht). lia. }
      pose proof (zlen_nonneg (mjoin (v1_bytes <$> cs))). rewrite u64_small; lia.
    + unfold br_size. cbn [br_data]. pose proof (zlen_nonneg (mjoin cs)). lia.
    + intros pre x post s E Hx Hp Hs. destruct (Hin _ _ _ E Hx) as (? & ? & ?).
      assert (translatable x) by (by eapply Forall_forall in Ht). split; [|apply u64_range].
      rewrite E. by apply write_size_step.
Qed.

(** A list of actions that [validateInput] accepts can be written for an
    OpenFlow 1.0 peer without a read outside it: the output is the
    concatenation of what each action is written as. If every action has an
    OpenFlow 1.0 form, [writeSize] announces exactly that many bytes and the
    output is again a list of whole actions. *)
Theorem actions_written addr cs c :
  ActionRange_validateInput (mkRange addr (mjoin cs)) c = Some (true, c) ->
  Forall (elem_ok 4 2) cs -> bytes_ok (mjoin cs) -> zlen (mjoin cs) < 2 ^ 64 ->
  ActionRange_write OFP_VERSION_1 (mkRange addr (mjoin cs)) = Some (mjoin (v1_bytes <$> cs)) /\
  (Forall translatable cs ->
     ActionRange_writeSize OFP_VERSION_1 (mkRange addr (mjoin cs)) = Some (zlen (mjoin (v1_bytes <$> cs))) /\
     Forall (elem_ok 4 2) (v1_bytes <$> cs)).
Proof. apply actions_v1_written. Qed.

(** ** Examples *)

Definition set_field (oxm : Z) (v : list Z) : list Z :=
  ActionType_bytes OFPAT_SET_FIELD 16 ++ be_bytes 4 oxm ++ v ++ replicate (Z.to_nat (8 - zlen v)) 0.

Definition output_action (port maxlen : Z) : list Z :=
  ActionType_bytes OFPAT_OUTPUT 16 ++ be_bytes 4 port ++ be_bytes 2 maxlen ++ replicate 6 0.

Definition example_actions : list (list Z) :=
  [set_field OFB_ETH_SRC [0; 27; 33; 1; 2; 3]; set_field OFB_TCP_DST [0; 80]; output_action 0xfffffffd 128].

Lemma example_elems : Forall (elem_ok 4 2) example_actions.
Proof. repeat constructor; exists 16; by vm_compute. Qed.

Lemma example_translatable : Forall translatable example_actions.
Proof.
  apply Forall_cons_2; [|apply Forall_cons_2; [|apply Forall_singleton]]; (split; [by vm_compute|]).
  - intros _. split; [by vm_compute|]. exists OFB_ETH_SRC. split; [by vm_compute|by eexists].
  - intros _. split; [by vm_compute|]. exists OFB_TCP_DST. split; [by vm_compute|by eexists].
  - intros H. by vm_compute in H.
Qed.

Lemma ActionRange_validateInput_witness :
  exists b c', ActionRange_validateInput (mkRange 64 (mjoin example_actions)) (Validation_make None None) = Some (b, c') /\
    (b = true <-> 64 mod 8 = 0 /\ exists cs, mjoin example_actions = mjoin cs /\ Forall (elem_ok 4 2) cs /\
       Forall action_ok cs) /\ (b = true -> c' = Validation_make None None).
Proof.
  apply (ActionRange_validateInput_iff (mkRange 64 (mjoin example_actions)) (Validation_make None None)).
  apply (bool_decide_unpack _). by vm_compute.
Defined.

Lemma actions_written_witness :
  ActionRange_write 1 (mkRange 64 (mjoin example_actions)) = Some (mjoin (v1_bytes <$> example_actions)) /\
  ActionRange_writeSize 1 (mkRange 64 (mjoin example_actions)) = Some 32.
Proof.
  destruct (actions_written 64 example_actions (Validation_make None None)) as [H1 H2].
  - by vm_compute.
  - exact example_elems.
  - apply (bool_decide_unpack _). by vm_compute.
  - by vm_compute.
  - split; [exact H1|]. apply H2.
    exact example_translatable.
Defined.

(** [writeSize] and [write] disagree on actions that OpenFlow 1.0 does not
    have: an accepted set-field of an IPv6 flow label counts 16 bytes, and
    nothing is written; an accepted experimenter action of length 12 counts 16
    bytes, and 12 are written. The length of the message then does not match
    its bytes. *)
Theorem unsupported_actions_miscounted :
  let flabel := mkRange 64 (set_field OFB_IPV6_FLABEL [0; 0; 0; 7]) in
  let exper := mkRange 64 (ActionType_bytes OFPAT_EXPERIMENTER 12 ++ [0; 0; 0; 1; 1; 2; 3; 4; 0; 0; 0; 0]) in
  let c := Validation_make None None in
  ActionRange_validateInput flabel c = Some (true, c) /\
  ActionRange_writeSize OFP_VERSION_1 flabel = Some 16 /\ ActionRange_write OFP_VERSION_1 flabel = Some [] /\
  ActionRange_validateInput exper c = Some (true, c) /\
  ActionRange_writeSize OFP_VERSION_1 exper = Some 16 /\
  zlen <$> ActionRange_write OFP_VERSION_1 exper = Some 12.
Proof. vm_compute. split_and!; reflexivity. Qed.
