(* ===== verification/Instructions.v ===== *)
(** * Instructions (src/ofp/instructionrange.cpp, include/ofp/instructions.h,
    instructioniterator.h, instructionlist.h)

    A list of instructions is a range of elements with a 16-bit type, a 16-bit
    length and a body, padded to 8 bytes; two kinds of instructions hold a list
    of actions. The list is checked when a message is received. *)

From S2P Require Import Prelude.
From S2P Require Import ByteOrder.
From S2P Require Import Constants.
From S2P Require Import Validation.
From S2P Require Import ProtocolRange.
From S2P Require Import Oxm.
From S2P Require Import Matches.
From S2P Require Import Actions.

Definition OFPIT_GOTO_TABLE : Z := 1.
Definition OFPIT_WRITE_METADATA : Z := 2.
Definition OFPIT_WRITE_ACTIONS : Z := 3.
Definition OFPIT_APPLY_ACTIONS : Z := 4.
Definition OFPIT_CLEAR_ACTIONS : Z := 5.
Definition OFPIT_METER : Z := 6.
Definition OFPIT_EXPERIMENTER : Z := 0xFFFF.

(** ** Received instructions *)

Definition instruction_type (range : ByteRange) (p : Z) : option Z := rd16 (br_data range) p.
Definition instruction_length (range : ByteRange) (p : Z) : option Z := rd16 (br_data range) (p + 2).

(** [item.instruction<Type>()]: the cast asserts the alignment of [Type]. *)
Definition instruction_cast (range : ByteRange) (p : Z) : option unit :=
  assert! IsPtrAligned (br_addr range + p) 8;; Some tt.

(** [IT_WithActions::dataRange]. *)
Definition instruction_dataRange (range : ByteRange) (p : Z) : option ByteRange :=
  length ← instruction_length range p;
  if 8 <=? length then d ← slice (br_data range) (p + 8) (length - 8); Some (mkRange (br_addr range + p + 8) d)
  else Some (mkRange 0 []).

Definition IT_WithActions_validateInput (range : ByteRange) (p : Z) (c : Validation) : option (bool * Validation) :=
  length ← instruction_length range p;
  let '(ok, c) := validateBool (8 <=? length) (str "Invalid Instruction length") c in
  if negb ok then Some (false, c)
  else actions ← instruction_dataRange range p; ActionRange_validateInput actions c.

Definition IT_EXPERIMENTER_validateInput (range : ByteRange) (p : Z) (c : Validation) : option (bool * Validation) :=
  length ← instruction_length range p;
  Some (validateBool (8 <=? length) (str "Invalid Experimenter instruction") c).

(** The body of the loop of [InstructionRange::validateInput]. *)
Definition validate_instruction (range : ByteRange) (p : Z) (c : Validation) : option (bool * Validation) :=
  type ← instruction_type range p;
  if (type =? OFPIT_WRITE_ACTIONS) || (type =? OFPIT_APPLY_ACTIONS) then
    _ ← instruction_cast range p; IT_WithActions_validateInput range p c
  else if type =? OFPIT_EXPERIMENTER then
    _ ← instruction_cast range p; IT_EXPERIMENTER_validateInput range p c
  else Some (true, c).

Definition InstructionRange_validateInput (range : ByteRange) (c : Validation) : option (bool * Validation) :=
  '(ok, c) ← ProtocolRange_validateInput 4 2 8 (fun _ c => Some (true, c)) range c;
  if negb ok then Some (false, c)
  else for_elements 4 2 8 (validate_instruction range) (length (br_data range)) range 0 c.

(** [outputActions]: the size of the body is computed in [size_t]. *)
Definition output_actions_body (range : ByteRange) (p : Z) (a : ByteRange) : option (bool * ByteRange) :=
  type ← instruction_type range p;
  if type =? OFPIT_APPLY_ACTIONS then
    size ← ProtocolElement_size 4 2 (br_data range) p;
    d ← slice (br_data range) (p + 8) (u64 (size - 8));
    Some (false, mkRange (br_addr range + p + 8) d)
  else Some (true, a).

Definition outputActions (range : ByteRange) : option ByteRange :=
  snd <$> for_elements 4 2 8 (output_actions_body range) (length (br_data range)) range 0 (mkRange 0 []).

(** ** Building a list of instructions *)

(** [InstructionHeaderWithPadding]. *)
Definition instruction_header (type length : Z) : list Z :=
  be_bytes 2 type ++ be_bytes 2 length ++ replicate 4 0.

Inductive Instruction : Type :=
  | IT_GOTO_TABLE (tableId : Z)
  | IT_WRITE_METADATA (metadata mask : Z)
  | IT_WRITE_ACTIONS (actions : list Z)
  | IT_APPLY_ACTIONS (actions : list Z)
  | IT_CLEAR_ACTIONS
  | IT_METER (meter : Z)
  | IT_EXPERIMENTER (experimenterId : Z) (data : list Z).

(** [InstructionList::add]. *)
Definition InstructionList_add (buf : list Z) (i : Instruction) : list Z :=
  buf ++
  match i with
  | IT_GOTO_TABLE tableId => be_bytes 2 OFPIT_GOTO_TABLE ++ be_bytes 2 8 ++ [tableId] ++ replicate 3 0
  | IT_WRITE_METADATA metadata mask =>
      instruction_header OFPIT_WRITE_METADATA 24 ++ be_bytes 8 metadata ++ be_bytes 8 mask
  | IT_WRITE_ACTIONS actions => instruction_header OFPIT_WRITE_ACTIONS (u16 (8 + zlen actions)) ++ actions
  | IT_APPLY_ACTIONS actions => instruction_header OFPIT_APPLY_ACTIONS (u16 (8 + zlen actions)) ++ actions
  | IT_CLEAR_ACTIONS => instruction_header OFPIT_CLEAR_ACTIONS 8
  | IT_METER meter => be_bytes 2 OFPIT_METER ++ be_bytes 2 8 ++ be_bytes 4 meter
  | IT_EXPERIMENTER experimenterId data =>
      be_bytes 2 OFPIT_EXPERIMENTER ++ be_bytes 2 (u16 (8 + zlen data)) ++ be_bytes 4 experimenterId ++ data
  end.

(** ** What the checks accept *)

(** A list of actions that [ActionRange::validateInput] accepts. *)
Definition actions_ok (m : list Z) : Prop :=
  exists cs, m = mjoin cs /\ Forall (elem_ok 4 2) cs /\ Forall action_ok cs.

(** An instruction (with its padding) as [validateInput] wants it. *)
Definition instruction_ok (x : list Z) : Prop :=
  exists type len, rd16 x 0 = Some type /\ rd16 x 2 = Some len /\
    (type = OFPIT_WRITE_ACTIONS \/ type = OFPIT_APPLY_ACTIONS ->
       8 <= len /\ exists actions, slice x 8 (len - 8) = Some actions /\ actions_ok actions) /\
    (type = OFPIT_EXPERIMENTER -> 8 <= len).

Section Instruction.
Context (addr : Z) (pre x post : list Z).
Context (Ha : addr mod 8 = 0) (Hp : zlen pre mod 8 = 0) (Hx : elem_ok 4 2 x).
Local Notation range := (mkRange addr (pre ++ x ++ post)).

Lemma instruction_reads type len :
  rd16 x 0 = Some type -> rd16 x 2 = Some len ->
  instruction_type range (zlen pre) = Some type /\ instruction_length range (zlen pre) = Some len /\
  instruction_cast range (zlen pre) = Some tt.
Proof.
  intros Ht Hl. pose proof (rd_be_inv _ _ _ _ Hl).
  unfold instruction_type, instruction_length, instruction_cast. cbn [br_data br_addr].
  rewrite IsPtrAligned_8_add by done. unfold rd_be in *. rewrite slice_mid by lia.
  rewrite slice_mid0 by lia. by rewrite Hl, Ht.
Qed.

Lemma instruction_body len : rd16 x 2 = Some len -> 8 <= len -> exists d,
  slice x 8 (len - 8) = Some d /\ slice (pre ++ x ++ post) (zlen pre + 8) (len - 8) = Some d /\
  instruction_dataRange range (zlen pre) = Some (mkRange (addr + zlen pre + 8) d).
Proof.
  intros El H8. destruct (action_elem x Hx) as (type & len' & Et & El' & Hr & Hpad & Hle & _). simplify_eq.
  eexists. split; [apply slice_some; lia|]. rewrite slice_mid by lia. split; [apply slice_some; lia|].
  unfold instruction_dataRange. destruct (instruction_reads _ _ Et El) as (_ & -> & _).
  cbn [mbind option_bind br_data br_addr]. rewrite (proj2 (Z.leb_le 8 len)) by done.
  rewrite slice_mid, slice_some by lia. done.
Qed.

Lemma validate_instruction_iff c :
  bytes_ok x -> exists b c', validate_instruction range (zlen pre) c = Some (b, c') /\
    (b = true <-> instruction_ok x) /\ (b = true -> c' = c).
Proof.
  intros Hb. destruct (action_elem x Hx) as (type & len & Et & El & Hr & Hpad & Hle & H8 & H0).
  assert (instruction_ok x <->
    (type = OFPIT_WRITE_ACTIONS \/ type = OFPIT_APPLY_ACTIONS ->
       8 <= len /\ exists actions, slice x 8 (len - 8) = Some actions /\ actions_ok actions) /\
    (type = OFPIT_EXPERIMENTER -> 8 <= len)) as Hok.
  { split; [intros (t & l & ? & ? & ?); by simplify_eq|intros [? ?]; exists type, len; by split_and!]. }
  destruct (instruction_reads _ _ Et El) as (Rt & Rl & Rc). unfold validate_instruction. rewrite Rt.
  cbn [mbind option_bind]. destruct ((type =? _) || _) eqn:E.
  - assert (type = OFPIT_WRITE_ACTIONS \/ type = OFPIT_APPLY_ACTIONS) as Hty by lia. clear E.
    assert (type <> OFPIT_EXPERIMENTER) by (destruct Hty as [-> | ->]; done).
    rewrite Rc. cbn [mbind option_bind]. unfold IT_WithActions_validateInput. rewrite Rl. cbn [mbind option_bind].
    unfold validateBool. destruct (Z.leb_spec 8 len) as [Hlen|Hlen]; cbn [negb].
    2: { eexists false, _. split_and!; try done. rewrite Hok. split; [done|]. intros [Hs _]. apply Hs in Hty. lia. }
    destruct (instruction_body len El Hlen) as (d & Ed & _ & ->). cbn [mbind option_bind].
    destruct (actions_valid_iff (mkRange (addr + zlen pre + 8) d) c) as (b & c' & -> & Hiff & Hc).
    { by eapply slice_ok. }
    exists b, c'. split_and!; try done. rewrite Hiff, Hok, Ed. cbn [br_addr br_data].
    assert ((addr + zlen pre + 8) mod 8 = 0) as Hal by (Z.to_euclidean_division_equations; lia).
    split; [intros (_ & Hcs)|intros [Hs _]; destruct (Hs Hty) as (_ & a & [= <-] & Hcs); done].
    split; [|done]. intros _. split; [done|]. by exists d.
  - destruct (Z.eqb_spec type OFPIT_EXPERIMENTER) as [->|Hex].
    + rewrite Rc. cbn [mbind option_bind]. unfold IT_EXPERIMENTER_validateInput. rewrite Rl. cbn [mbind option_bind].
      unfold validateBool. destruct (Z.leb_spec 8 len).
      * exists true, c. split_and!; try done. rewrite Hok. split; [|done]. intros _. split; [|done]. by intros [? | ?].
      * eexists false, _. split_and!; try done. rewrite Hok. split; [done|]. intros [_ Hs]. specialize (Hs eq_refl). lia.
    + exists true, c. split_and!; try done. rewrite Hok. split; [|done]. intros _. split; [lia|done].
Qed.

Lemma output_actions_step a :
  bytes_ok x -> instruction_ok x ->
  output_actions_body range (zlen pre) a =
  if decide (rd16 x 0 = Some OFPIT_APPLY_ACTIONS)
  then d ← (len ← rd16 x 2; slice x 8 (len - 8)); Some (false, mkRange (addr + zlen pre + 8) d)
  else Some (true, a).
Proof.
  intros Hb (type & len & Et & El & Hact & _). destruct (instruction_reads _ _ Et El) as (Rt & _ & _).
  unfold output_actions_body. rewrite Rt, Et. cbn [mbind option_bind br_data br_addr].
  destruct (Z.eqb_spec type OFPIT_APPLY_ACTIONS) as [->|Hne].
  2: { rewrite decide_False by congruence. done. }
  rewrite decide_True by done. destruct Hact as [H8 _]; [by right|].
  destruct (action_elem x Hx) as (_ & len' & _ & El' & Hr & _). simplify_eq.
  destruct (element_size_declared 4 2 8 range action_params (zlen pre) len) as [Hes _]; [|lia|lia|].
  { cbn [br_data]. apply (declared_elem 4 2 action_params); done. }
  cbn [br_data] in Hes. rewrite Hes, El. cbn [mbind option_bind]. rewrite u64_small by lia.
  destruct (instruction_body len El H8) as (d & -> & -> & _). done.
Qed.
End Instruction.

Lemma instructions_valid_iff range c :
  bytes_ok (br_data range) ->
  exists b c', InstructionRange_validateInput range c = Some (b, c') /\
    (b = true <-> br_addr range mod 8 = 0 /\
       exists cs, br_data range = mjoin cs /\ Forall (elem_ok 4 2) cs /\ Forall instruction_ok cs) /\
    (b = true -> c' = c).
Proof.
  intros Hb. apply (validate_twice_iff 4 2 action_params); [done|]. destruct range as [addr m].
  intros pre x post E Ha Hp Hx Hbx. cbn [br_data br_addr] in *. rewrite E. by apply validate_instruction_iff.
Qed.

(** C21. [InstructionRange::validateInput] always answers, without a read outside
    the range, and accepts exactly the aligned concatenations of whole
    instructions in which the body of every write-actions and apply-actions
    instruction is a valid action list and every experimenter instruction has
    its header; it leaves the context alone when it accepts. *)
Theorem InstructionRange_validateInput_iff range c :
  bytes_ok (br_data range) ->
  exists b c', InstructionRange_validateInput range c = Some (b, c') /\
    (b = true <-> br_addr range mod 8 = 0 /\
       exists cs, br_data range = mjoin cs /\ Forall (elem_ok 4 2) cs /\ Forall instruction_ok cs) /\
    (b = true -> c' = c).
Proof. apply instructions_valid_iff. Qed.

(** ** The actions of a list *)

Definition is_apply (x : list Z) : Prop := rd16 x 0 = Some OFPIT_APPLY_ACTIONS.

(** The actions of the first apply-actions instruction. *)
Fixpoint first_actions (cs : list (list Z)) : list Z :=
  match cs with
  | [] => []
  | x :: cs => if decide (rd16 x 0 = Some OFPIT_APPLY_ACTIONS)
               then default [] (len ← rd16 x 2; slice x 8 (len - 8)) else first_actions cs
  end.

Lemma first_actions_cases cs :
  (first_actions cs = [] /\ Forall (fun x => ~ is_apply x) cs) \/
  exists l x r, cs = l ++ x :: r /\ Forall (fun x => ~ is_apply x) l /\ is_apply x /\
    first_actions cs = default [] (len ← rd16 x 2; slice x 8 (len - 8)).
Proof.
  induction cs as [|x cs IH]; [by left|]. cbn [first_actions]. destruct (decide _) as [Hx|Hx].
  { right. by exists [], x, cs. }
  destruct IH as [[E Hcs]|(l & y & r & -> & Hl & Hy & E)]; [left; by rewrite Forall_cons|].
  right. exists (x :: l), y, r. rewrite Forall_cons. done.
Qed.

Lemma outputActions_first addr cs :
  addr mod 8 = 0 -> Forall (elem_ok 4 2) cs -> Forall instruction_ok cs -> bytes_ok (mjoin cs) ->
  exists a, outputActions (mkRange addr (mjoin cs)) = Some (mkRange a (first_actions cs)) /\ a mod 8 = 0 /\
    actions_ok (first_actions cs).
Proof.
  intros Ha Hcs Hok Hb. unfold outputActions.
  assert (forall l x r, cs = l ++ x :: r -> zlen (mjoin l) mod 8 = 0 -> ~ is_apply x ->
    output_actions_body (mkRange addr (mjoin cs)) (zlen (mjoin l)) (mkRange 0 []) = Some (true, mkRange 0 [])) as Hgo.
  { intros l x r E Hm Hx. rewrite Forall_forall in Hcs, Hok. assert (x ∈ cs) as Hin by (rewrite E; set_solver).
    revert Hb. rewrite E, join_app. change (mjoin (x :: r)) with (x ++ mjoin r). rewrite !Forall_app. intros (_ & ? & _).
    rewrite output_actions_step by auto. by rewrite decide_False. }
  destruct (first_actions_cases cs) as [[-> Hn]|(l & x & r & E & Hl & Hx & ->)].
  - exists 0. cbn [br_data]. rewrite (for_elements_elems 4 2 action_params _ (fun a _ => a) (fun a => a = mkRange 0 [])); try done.
    + split_and!; [|done|by exists []]. cbn [fmap option_fmap option_map snd].
      do 2 f_equal. clear. induction cs as [|x cs IH]; [done|]. exact IH.
    + intros pre x post a E Hx Hp ->. split; [|done]. rewrite Forall_forall in Hcs, Hok, Hn.
      rewrite E in Hb |- *. rewrite !Forall_app in Hb. rewrite output_actions_step by (try apply Hcs; try apply Hok; tauto).
      rewrite decide_False; [done|]. by apply Hn.
  - assert (elem_ok 4 2 x) as Hex by (eapply Forall_forall; [exact Hcs|rewrite E; set_solver]).
    assert (instruction_ok x) as Hix by (eapply Forall_forall; [exact Hok|rewrite E; set_solver]).
    destruct Hix as (type & len & Et & El & Hact & _). pose proof Hx as Hx'. unfold is_apply in Hx'. simplify_eq.
    destruct Hact as (H8 & d & Ed & Hd); [by right|]. rewrite El. cbn [mbind option_bind]. rewrite Ed. cbn [default].
    pose proof (elems_mod8 4 2 l) as Hm. exists (addr + zlen (mjoin l) + 8). cbn [br_data].
    rewrite (for_elements_stop 4 2 action_params _ addr l x r _ (mkRange (addr + zlen (mjoin l) + 8) d)); try done.
    + split_and!; try done. apply Forall_app in Hcs as [Hcl _]. specialize (Hm Hcl). Z.to_euclidean_division_equations. lia.
    + intros l' y r' E Hy Hl'. apply Hgo with y r'; try done. by eapply Forall_forall in Hl.
    + intros Hl8. assert (bytes_ok x) by (revert Hb; rewrite join_app; change (mjoin (x :: r)) with (x ++ mjoin r);
        rewrite !Forall_app; tauto).
      rewrite join_app. change (mjoin (x :: r)) with (x ++ mjoin r).
      rewrite output_actions_step; [|try done..].
      * rewrite decide_True, El by done. cbn [mbind option_bind]. rewrite Ed. done.
      * eapply Forall_forall; [exact Hok|set_solver].
Qed.

(** On an accepted list of instructions [outputActions] returns, without a
    read outside the list, the actions of the first apply-actions instruction
    or none, and they are a list that [ActionRange::validateInput] accepts. *)
Theorem outputActions_spec range c c' :
  bytes_ok (br_data range) -> InstructionRange_validateInput range c = Some (true, c') ->
  exists cs actions, br_data range = mjoin cs /\ Forall (elem_ok 4 2) cs /\
    outputActions range = Some actions /\ br_data actions = first_actions cs /\
    ActionRange_validateInput actions c = Some (true, c).
Proof.
  intros Hb Hv. destruct (instructions_valid_iff range c Hb) as (b & c2 & E & Hiff & _).
  rewrite Hv in E. injection E as <- _. destruct (proj1 Hiff eq_refl) as (Ha & cs & Em & Hcs & Hok).
  destruct range as [addr m]. cbn [br_addr br_data] in *. subst m.
  destruct (outputActions_first addr cs Ha Hcs Hok Hb) as (a & E & Haa & Hact).
  exists cs, (mkRange a (first_actions cs)). split_and!; try done.
  destruct (actions_valid_iff (mkRange a (first_actions cs)) c) as (b & c3 & -> & Hb' & Hc).
  - cbn [br_data]. destruct (first_actions_cases cs) as [[-> _]|(l & x & r & Ecs & _ & _ & ->)]; [done|].
    destruct (rd16 x 2) as [len|]; [|done]. cbn [mbind option_bind]. destruct (slice x 8 (len - 8)) eqn:Es; [|done].
    eapply slice_ok; [|exact Es]. revert Hb. rewrite Ecs, join_app.
    change (mjoin (x :: r)) with (x ++ mjoin r). rewrite !Forall_app. tauto.
  - assert (b = true) as -> by (apply Hb'; cbn [br_addr br_data]; done). by rewrite Hc.
Qed.

(** ** Lists that were built *)

(** Instructions whose length fits in its field; the body of an experimenter
    instruction is not padded by [InstructionList::add]. *)
Definition instruction_fits (i : Instruction) : Prop :=
  match i with
  | IT_GOTO_TABLE tableId => 0 <= tableId < 256
  | IT_WRITE_ACTIONS actions | IT_APPLY_ACTIONS actions =>
      bytes_ok actions /\ actions_ok actions /\ 8 + zlen actions < 2 ^ 16
  | IT_EXPERIMENTER _ data => bytes_ok data /\ zlen data mod 8 = 0 /\ 8 + zlen data < 2 ^ 16
  | _ => True
  end.

Definition instruction_bytes (i : Instruction) : list Z := InstructionList_add [] i.

Lemma actions_ok_mod8 m : actions_ok m -> zlen m mod 8 = 0.
Proof. intros (cs & -> & Hcs & _). by apply (elems_mod8 4 2). Qed.

(** An instruction of a type word, a length word and a body. *)
Lemma instruction_shape type body :
  0 <= type < 2 ^ 16 -> bytes_ok body -> zlen body mod 8 = 4 -> 4 + zlen body < 2 ^ 16 ->
  let x := be_bytes 2 type ++ be_bytes 2 (4 + zlen body) ++ body in
  bytes_ok x /\ rd16 x 0 = Some type /\ rd16 x 2 = Some (4 + zlen body) /\ elem_ok 4 2 x.
Proof.
  intros Ht Hb Hm Hl x. pose proof (zlen_nonneg body).
  assert (zlen x = 4 + zlen body) as Hx by (unfold x; autorewrite with zlen; lia).
  assert (rd16 x 2 = Some (4 + zlen body)) as E2.
  { unfold rd_be. change 2 with (zlen (be_bytes 2 type) + 0) at 1. unfold x.
    rewrite slice_mid, slice_all by done. change (be <$> Some ?b) with (Some (be b)). rewrite (be_be_bytes_small 2); [done|].
    change (256 ^ Z.of_nat 2) with (2 ^ 16). lia. }
  split_and!; [|..|done|].
  - unfold x. rewrite !Forall_app. split_and!; [apply be_bytes_ok..|done].
  - unfold x, rd_be. rewrite slice_head by done. change (be <$> Some ?b) with (Some (be b)). rewrite (be_be_bytes_small 2); [done|].
    change (256 ^ Z.of_nat 2) with (2 ^ 16). lia.
  - exists (4 + zlen body). split_and!; [done|lia..|].
    rewrite PadLength_fixed; [done|lia|]. Z.to_euclidean_division_equations. lia.
Qed.

(** The body of an instruction behind its type and length. *)
Definition instruction_parts (i : Instruction) : Z * list Z :=
  match i with
  | IT_GOTO_TABLE tableId => (OFPIT_GOTO_TABLE, [tableId] ++ replicate 3 0)
  | IT_WRITE_METADATA metadata mask =>
      (OFPIT_WRITE_METADATA, replicate 4 0 ++ be_bytes 8 metadata ++ be_bytes 8 mask)
  | IT_WRITE_ACTIONS actions => (OFPIT_WRITE_ACTIONS, replicate 4 0 ++ actions)
  | IT_APPLY_ACTIONS actions => (OFPIT_APPLY_ACTIONS, replicate 4 0 ++ actions)
  | IT_CLEAR_ACTIONS => (OFPIT_CLEAR_ACTIONS, replicate 4 0)
  | IT_METER meter => (OFPIT_METER, be_bytes 4 meter)
  | IT_EXPERIMENTER experimenterId data => (OFPIT_EXPERIMENTER, be_bytes 4 experimenterId ++ data)
  end.

Lemma instruction_parts_ok i : instruction_fits i ->
  let '(type, body) := instruction_parts i in
  0 <= type < 2 ^ 16 /\ bytes_ok body /\ zlen body mod 8 = 4 /\ 4 + zlen body < 2 ^ 16 /\
  instruction_bytes i = be_bytes 2 type ++ be_bytes 2 (4 + zlen body) ++ body.
Proof.
  assert (forall d : list Z, zlen d mod 8 = 0 -> (4 + zlen d) mod 8 = 4) as Hmod
    by (intros d ?; Z.to_euclidean_division_equations; lia).
  unfold instruction_bytes, InstructionList_add, instruction_header. rewrite app_nil_l.
  destruct i as [t|md mk|acts|acts| |mt|ex d]; cbn [instruction_parts instruction_fits]; intros Hf.
  - split_and!; try done. bytes.
  - split_and!; try done. rewrite !Forall_app. split_and!; [bytes|apply be_bytes_ok..].
  - destruct Hf as (Hb & Ha & Hl). apply actions_ok_mod8 in Ha as Hm. pose proof (zlen_nonneg acts).
    rewrite zlen_app. change (zlen (replicate 4 0)) with 4. rewrite u16_small, <- !app_assoc by lia.
    split_and!; try done; [rewrite Forall_app; split; [bytes|done]|by apply Hmod|lia|do 3 f_equal; lia].
  - destruct Hf as (Hb & Ha & Hl). apply actions_ok_mod8 in Ha as Hm. pose proof (zlen_nonneg acts).
    rewrite zlen_app. change (zlen (replicate 4 0)) with 4. rewrite u16_small, <- !app_assoc by lia.
    split_and!; try done; [rewrite Forall_app; split; [bytes|done]|by apply Hmod|lia|do 3 f_equal; lia].
  - split_and!; try done. bytes.
  - split_and!; try done. apply be_bytes_ok.
  - destruct Hf as (Hb & Hm & Hl). pose proof (zlen_nonneg d). rewrite zlen_app. change (zlen (be_bytes 4 ex)) with 4.
    rewrite u16_small by lia.
    split_and!; try done; [rewrite Forall_app; split; [apply be_bytes_ok|done]|by apply Hmod|lia|do 3 f_equal; lia].
Qed.

(** The actions of an instruction that has them. *)
Definition own_actions (i : Instruction) : option (list Z) :=
  match i with IT_WRITE_ACTIONS a | IT_APPLY_ACTIONS a => Some a | _ => None end.

Lemma built_instruction i : instruction_fits i ->
  bytes_ok (instruction_bytes i) /\ elem_ok 4 2 (instruction_bytes i) /\ instruction_ok (instruction_bytes i) /\
  rd16 (instruction_bytes i) 0 = Some (fst (instruction_parts i)) /\
  forall a, own_actions i = Some a ->
    (len ← rd16 (instruction_bytes i) 2; slice (instruction_bytes i) 8 (len - 8)) = Some a.
Proof.
  intros Hf. pose proof (instruction_parts_ok i Hf) as Hp.
  destruct (instruction_parts i) as [type body] eqn:Ei. destruct Hp as (Ht & Hb & Hm & Hl & ->).
  destruct (instruction_shape type body Ht Hb Hm Hl) as (Hbx & E0 & E2 & Hx).
  set (x := be_bytes 2 type ++ _) in *. cbn [fst].
  assert (forall a, own_actions i = Some a -> slice x 8 (4 + zlen body - 8) = Some a) as Hact.
  { intros a Ha. assert (body = replicate 4 0 ++ a) as -> by (destruct i; simplify_eq/=; done).
    unfold x. rewrite app_assoc, app_assoc. change 8 with (zlen ((be_bytes 2 type ++ be_bytes 2
      (4 + zlen (replicate 4 0 ++ a))) ++ replicate 4 0)) at 1.
    rewrite slice_shift0. apply slice_all. rewrite zlen_app. change (zlen (replicate 4 0)) with 4. lia. }
  split_and!; try done.
  2: { intros a Ha. rewrite E2. cbn [mbind option_bind]. by apply Hact. }
  exists type, (4 + zlen body). split_and!; try done.
  - intros Hty. split.
    + assert (zlen body mod 8 = 4) as Hm' by done. pose proof (zlen_nonneg body). Z.to_euclidean_division_equations. lia.
    + destruct i; simplify_eq/=; try by destruct Hty. all: eexists; split; [by apply Hact|tauto].
  - intros _. pose proof (zlen_nonneg body). Z.to_euclidean_division_equations. lia.
Qed.

Lemma built_list ins : foldl InstructionList_add [] ins = mjoin (instruction_bytes <$> ins).
Proof.
  assert (forall buf, foldl InstructionList_add buf ins = buf ++ mjoin (instruction_bytes <$> ins)) as H by
    (induction ins as [|i ins IH]; intros buf; [by rewrite app_nil_r|]; cbn [foldl]; rewrite IH;
     change (InstructionList_add buf i) with (buf ++ instruction_bytes i); by rewrite <- app_assoc).
  apply H.
Qed.

(** The actions that [outputActions] finds in a built list. *)
Fixpoint applied_actions (ins : list Instruction) : list Z :=
  match ins with
  | [] => []
  | IT_APPLY_ACTIONS a :: _ => a
  | _ :: ins => applied_actions ins
  end.

Lemma first_actions_built ins : Forall instruction_fits ins ->
  first_actions (instruction_bytes <$> ins) = applied_actions ins.
Proof.
  induction 1 as [|i ins Hi His IH]; [done|]. rewrite fmap_cons. cbn [first_actions].
  destruct (built_instruction i Hi) as (_ & _ & _ & -> & Ha).
  destruct i; cbn [instruction_parts fst applied_actions own_actions] in *; try (by rewrite decide_False).
  rewrite decide_True by done. by rewrite (Ha _ eq_refl).
Qed.

Lemma built_list_ok ins : Forall instruction_fits ins ->
  let m := foldl InstructionList_add [] ins in
  bytes_ok m /\ zlen m mod 8 = 0 /\
  (exists cs, m = mjoin cs /\ Forall (elem_ok 4 2) cs /\ Forall instruction_ok cs /\ first_actions cs = applied_actions ins).
Proof.
  intros His m. unfold m. rewrite built_list.
  assert (Forall (elem_ok 4 2) (instruction_bytes <$> ins) /\ Forall instruction_ok (instruction_bytes <$> ins)) as [H1 H2].
  { rewrite !Forall_fmap. split; (eapply Forall_impl; [exact His|]); intros i Hi; apply built_instruction in Hi; tauto. }
  split_and!.
  - clear -His. induction His as [|i ins Hi His IH]; [done|]. simpl. apply Forall_app. split; [|done].
    by apply built_instruction.
  - by apply (elems_mod8 4 2).
  - eexists. split_and!; try done. by apply first_actions_built.
Qed.

(** A list made with [InstructionList::add] from instructions whose lengths
    fit passes [InstructionRange::validateInput], and [outputActions] finds the
    actions of its first apply-actions instruction. *)
Theorem built_instructions_accepted addr ins c :
  addr mod 8 = 0 -> Forall instruction_fits ins ->
  let range := mkRange addr (foldl InstructionList_add [] ins) in
  InstructionRange_validateInput range c = Some (true, c) /\
  exists a, outputActions range = Some a /\ br_data a = applied_actions ins.
Proof.
  intros Ha His range. destruct (built_list_ok ins His) as (Hb & _ & cs & E & Hcs & Hok & Hf). split.
  - destruct (instructions_valid_iff range c Hb) as (b & c' & -> & Hiff & Hc).
    assert (b = true) as -> by (apply Hiff; split; [done|by exists cs]). by rewrite Hc.
  - unfold range. rewrite E in Hb |- *. destruct (outputActions_first addr cs Ha Hcs Hok Hb) as (a & -> & _).
    by eexists.
Qed.

(** ** Witnesses *)

Definition example_instructions : list Instruction :=
  [IT_METER 7; IT_APPLY_ACTIONS (mjoin example_actions); IT_GOTO_TABLE 2].

Lemma example_fits : Forall instruction_fits example_instructions.
Proof.
  assert (bytes_ok (mjoin example_actions)) as Hb by (vm_compute mjoin; bytes).
  unfold example_instructions. rewrite !Forall_cons. split_and!; try done.
  split_and!; [done| |by vm_compute].
  destruct (actions_valid_iff (mkRange 0 (mjoin example_actions)) (Validation_make None None) Hb) as (b & c & E & Hiff & _).
  assert (b = true) as -> by (vm_compute in E; congruence). by destruct (proj1 Hiff eq_refl).
Qed.

Definition example_list : ByteRange := mkRange 4096 (foldl InstructionList_add [] example_instructions).

Lemma example_list_bytes : bytes_ok (br_data example_list).
Proof. apply (built_list_ok _ example_fits). Qed.

Lemma InstructionRange_validateInput_witness :
  exists b c', InstructionRange_validateInput example_list (Validation_make None None) = Some (b, c') /\
    (b = true <-> br_addr example_list mod 8 = 0 /\
       exists cs, br_data example_list = mjoin cs /\ Forall (elem_ok 4 2) cs /\ Forall instruction_ok cs) /\
    (b = true -> c' = Validation_make None None).
Proof. apply InstructionRange_validateInput_iff. apply example_list_bytes. Defined.

Lemma outputActions_witness :
  exists cs actions, br_data example_list = mjoin cs /\ Forall (elem_ok 4 2) cs /\
    outputActions example_list = Some actions /\ br_data actions = first_actions cs /\
    ActionRange_validateInput actions (Validation_make None None) = Some (true, Validation_make None None).
Proof.
  eapply outputActions_spec; [apply example_list_bytes|]. vm_compute. reflexivity.
Defined.

Lemma built_instructions_witness :
  InstructionRange_validateInput example_list (Validation_make None None) = Some (true, Validation_make None None) /\
  exists a, outputActions example_list = Some a /\ br_data a = mjoin example_actions.
Proof. apply (built_instructions_accepted 4096 example_instructions); [done|apply example_fits]. Defined.
