(* ===== verification/MsgBuffer.v ===== *)
(** * The buffer of a message (include/ofp/message.h, header.h, bytelist.h)

    A received message is normalised in place in its [ByteList]. Here the buffer
    is the byte string that the list represents (its own memory is the subject
    of SmallBuffer.v); a pointer into it is an offset, relative to a start that
    is aligned to 8. Every access is checked: [None] is an access outside the
    buffer, overlapping operands of [memcpy], or a failing assertion. *)

From S2P Require Import Prelude.
From S2P Require Import Constants.
From S2P Require Import SmallBuffer.

(** The contents of uninitialized bytes: any bytes of the right number, which
    may depend on the buffer they are added to. *)
Class Uninit : Type := { uninit : list Z -> Z -> list Z }.

Class UninitLaws `{Uninit} : Prop := {
  uninit_len buf n : 0 <= n -> zlen (uninit buf n) = n;
  uninit_ok buf n : bytes_ok (uninit buf n) }.

(** ** Editing *)

Definition b_insert (buf : list Z) (pos : Z) (data : list Z) : option (list Z) :=
  assert! (0 <=? pos) && (pos <=? zlen buf);;
  Some (take (Z.to_nat pos) buf ++ data ++ drop (Z.to_nat pos) buf).

Definition b_insertZeros (buf : list Z) (pos n : Z) : option (list Z) :=
  b_insert buf pos (replicate (Z.to_nat n) 0).

Definition b_insertUninitialized `{Uninit} (buf : list Z) (pos n : Z) : option (list Z) :=
  assert! (0 <=? n);; b_insert buf pos (uninit buf n).

Definition b_addUninitialized `{Uninit} (buf : list Z) (n : Z) : option (list Z) :=
  assert! (0 <=? n);; Some (buf ++ uninit buf n).

Definition b_replace (buf : list Z) (pos posEnd : Z) (data : list Z) : option (list Z) :=
  assert! (0 <=? pos) && (pos <=? posEnd) && (posEnd <=? zlen buf);;
  Some (take (Z.to_nat pos) buf ++ data ++ drop (Z.to_nat posEnd) buf).

Definition b_remove (buf : list Z) (pos n : Z) : option (list Z) :=
  assert! (0 <=? n);; b_replace buf pos (pos + n) [].

(** [resize] to a smaller length. *)
Definition b_shrink (buf : list Z) (n : Z) : option (list Z) :=
  assert! (0 <=? n) && (n <=? zlen buf);; Some (take (Z.to_nat n) buf).

(** ** Memory functions inside the buffer; [wr] is [memcpy] from elsewhere,
    [memmove] that of SmallBuffer.v *)

Definition b_memcpy (buf : list Z) (dst src n : Z) : option (list Z) :=
  assert! (dst + n <=? src) || (src + n <=? dst);; memmove buf dst src n.

Definition b_memset (buf : list Z) (dst v n : Z) : option (list Z) :=
  wr buf dst (replicate (Z.to_nat n) v).

(** ** The header *)

Definition kTooBigErrorFlag : Z := 0xE0.
Definition kInvalidErrorFlag : Z := 0xF0.
Definition sizeof_Header : Z := 8.

Definition b_version (buf : list Z) : option Z := rd8 buf 0.
Definition b_type (buf : list Z) : option Z := rd8 buf 1.
Definition b_length (buf : list Z) : option Z := rd16 buf 2.
Definition b_setVersion (buf : list Z) (v : Z) : option (list Z) := wr buf 0 [v].
Definition b_setType (buf : list Z) (t : Z) : option (list Z) := wr buf 1 [t].
Definition b_setLength (buf : list Z) (length : Z) : option (list Z) :=
  assert! (length <=? OFP_MAX_SIZE);; wr buf 2 (be_bytes 2 (u16 length)).

(** ** Lemmas: an access cuts the buffer *)

Section Cuts.
Implicit Types (a b c d x y buf : list Z).

Lemma b_insert_cut a c y : b_insert (a ++ c) (zlen a) y = Some (a ++ y ++ c).
Proof.
  unfold b_insert. pose proof (zlen_nonneg a). pose proof (zlen_nonneg c).
  rewrite zlen_app, !(proj2 (Z.leb_le _ _)) by lia. cbn [andb].
  rewrite take_app_length', drop_app_length' by (unfold zlen; lia). done.
Qed.

Lemma b_insert_at buf a c y pos : buf = a ++ c -> zlen a = pos -> b_insert buf pos y = Some (a ++ y ++ c).
Proof. intros -> <-. apply b_insert_cut. Qed.

Lemma b_replace_at buf a b c y pos posEnd :
  buf = a ++ b ++ c -> zlen a = pos -> zlen a + zlen b = posEnd -> b_replace buf pos posEnd y = Some (a ++ y ++ c).
Proof.
  intros -> <- <-. unfold b_replace. pose proof (zlen_nonneg a). pose proof (zlen_nonneg b).
  pose proof (zlen_nonneg c). rewrite !zlen_app, !(proj2 (Z.leb_le _ _)) by lia. cbn [andb].
  rewrite take_app_length' by (unfold zlen; lia). rewrite (app_assoc a b c), drop_app_length'; [done|].
  rewrite length_app. unfold zlen. lia.
Qed.

Lemma b_memcpy_eq buf dst src n :
  dst + n <= src \/ src + n <= dst -> b_memcpy buf dst src n = memmove buf dst src n.
Proof. intros H. unfold b_memcpy. by replace (_ || _) with true by lia. Qed.

Lemma b_insert_some buf pos y : 0 <= pos <= zlen buf ->
  exists buf', b_insert buf pos y = Some buf' /\ zlen buf' = zlen buf + zlen y /\
    (bytes_ok buf -> bytes_ok y -> bytes_ok buf').
Proof.
  intros Hp. destruct (cut_at buf pos Hp) as (a & c & -> & <-). rewrite b_insert_cut. eexists.
  split; [done|]. rewrite !zlen_app, !Forall_app. split; [lia|tauto].
Qed.

Lemma wr_some buf off y : 0 <= off -> off + zlen y <= zlen buf ->
  exists buf', wr buf off y = Some buf' /\ zlen buf' = zlen buf /\ (bytes_ok buf -> bytes_ok y -> bytes_ok buf').
Proof.
  intros H0 Hl. unfold wr. rewrite !(proj2 (Z.leb_le _ _)) by lia. cbn [andb]. eexists. split; [done|].
  pose proof (zlen_nonneg y). split; [autorewrite with zlen; lia|].
  intros Hb Hy. rewrite !Forall_app. split_and!; [by apply Forall_take|done|by apply Forall_drop].
Qed.

Lemma memmove_some buf dst src n : 0 <= dst -> 0 <= src -> 0 <= n -> dst + n <= zlen buf -> src + n <= zlen buf ->
  exists buf', memmove buf dst src n = Some buf' /\ zlen buf' = zlen buf /\ (bytes_ok buf -> bytes_ok buf').
Proof.
  intros. unfold memmove. rewrite slice_some by lia. cbn [mbind option_bind].
  destruct (wr_some buf dst (take (Z.to_nat n) (drop (Z.to_nat src) buf))) as (b' & -> & Hz & Hok).
  - done.
  - rewrite zlen_take, zlen_drop. lia.
  - exists b'. split_and!; try done. intros Hb. apply Hok; [done|]. by apply Forall_take, Forall_drop.
Qed.
End Cuts.

(** Run the accesses of a handler on a buffer given as a concatenation. *)
Ltac run_layout :=
  unfold memmove, b_memset;
  repeat (progress (try (rewrite b_memcpy_eq by lia; unfold memmove); read_layout; write_layout)).

(** The same behind a prefix [pre], at offsets from [zlen pre]. *)
Ltac run_layout_at :=
  unfold memmove, b_memset;
  repeat (progress (
    try (rewrite b_memcpy_eq by lia; unfold memmove); unfold rd_be;
    rewrite ?slice_shift0, ?slice_shift by lia; read_layout;
    rewrite ?wr_shift0, ?wr_shift by lia; write_layout)).
