(* ===== verification/Messages.v ===== *)
(** * Messages and channels (include/ofp/message.h, src/ofp/message.cpp,
    include/ofp/protocolmsg.h, writable.h, memorychannel.h)

    A received message is a buffer that [castMessage] checks before its class
    is used. A message that is sent is written to a [Writable], an interface
    that the connections and [MemoryChannel] implement. *)

From S2P Require Import Prelude.
From S2P Require Import ByteOrder.
From S2P Require Import Constants.
From S2P Require Import Validation.
From S2P Require Import ProtocolRange.
From S2P Require Import MsgBuffer.

Definition OFPMP_UNSUPPORTED : Z := 0xf9f9.
Definition OFPMPF_NONE : Z := 0.
Definition OFPMPF_MORE : Z := 1.

(** ** Received messages *)

(** What a message class gives to the templates [ProtocolMsg] and
    [castMessage]: its type, its limits and its own check, which gets the
    address and the bytes of the message. *)
Record MsgClass : Type := mkMsgClass {
  MsgType : Z;
  MsgMinLength : Z;
  MsgMaxLength : Z;
  MsgMultiple8 : bool;
  MsgAlign : Z;
  MsgValidateInput : Z -> list Z -> Validation -> option (bool * Validation) }.

Definition Multiple8 (M : MsgClass) : bool := MsgMultiple8 M && negb (MsgMinLength M =? MsgMaxLength M).

Definition isLengthValid (M : MsgClass) (length : Z) : bool :=
  (MsgMinLength M <=? length) && (length <=? MsgMaxLength M) &&
  (negb (Multiple8 M) || (length mod 8 =? 0)).

(** [castMessage]: whether the message is returned, and the context that was
    used; [addr] is the address of the message's buffer. *)
Definition castMessage (M : MsgClass) (addr : Z) (buf : list Z) (info : option (list Z)) (error : option Z)
    : option (bool * Validation) :=
  type ← b_type buf;
  assert! (type =? MsgType M);;
  let length := zlen buf in
  len ← b_length buf;
  assert! (length =? len);;
  version ← b_version buf;
  let context := Validation_make (Some (addr, length, version, info)) error in
  let versionFlag := Z.land version 0xF0 in
  if negb (versionFlag =? 0) then
    Some (false, if versionFlag =? kTooBigErrorFlag then messagePreprocessTooBigError context
                 else if versionFlag =? kInvalidErrorFlag then messagePreprocessFailure context
                 else context)
  else if negb (isLengthValid M length) then Some (false, messageSizeIsInvalid context)
  else
    assert! IsPtrAligned addr (MsgAlign M);;
    '(ok, context) ← MsgValidateInput M addr buf context;
    Some (ok : bool, context).

Definition Message_subtype (buf : list Z) : option Z :=
  mtype ← b_type buf;
  if ((mtype =? OFPT_MULTIPART_REQUEST) || (mtype =? OFPT_MULTIPART_REPLY)) && (12 <=? zlen buf)
  then rd16 buf 8 else Some OFPMP_UNSUPPORTED.

Definition Message_multipartFlags (buf : list Z) : option Z :=
  mtype ← b_type buf;
  if ((mtype =? OFPT_MULTIPART_REQUEST) || (mtype =? OFPT_MULTIPART_REPLY)) && (12 <=? zlen buf)
  then rd16 buf 10 else Some OFPMPF_NONE.

(** ** Channels *)

(** The interface [Writable]; [w_sent] is the sequence of bytes written. *)
Class Writable (W : Type) : Type := {
  w_version : W -> Z;
  w_nextXid : W -> Z * W;
  w_write : list Z -> W -> W;
  w_flush : W -> W;
  w_sent : W -> list Z }.

(** What the builders rely on: bytes arrive in the order in which they are
    written, and neither taking a transaction id nor flushing writes any. *)
Class WritableLaws (W : Type) `{Writable W} : Prop := {
  w_write_sent : forall d w, w_sent (w_write d w) = w_sent w ++ d;
  w_write_version : forall d w, w_version (w_write d w) = w_version w;
  w_xid_sent : forall w, w_sent (snd (w_nextXid w)) = w_sent w;
  w_xid_version : forall w, w_version (snd (w_nextXid w)) = w_version w;
  w_xid_range : forall w, 0 <= fst (w_nextXid w) < 2 ^ 32;
  w_flush_sent : forall w, w_sent (w_flush w) = w_sent w;
  w_flush_version : forall w, w_version (w_flush w) = w_version w }.

(** [write(data, length, padSize)]. *)
Definition w_write_padded `{Writable W} (data : list Z) (padSize : Z) (w : W) : option W :=
  assert! (padSize <? 8);; Some (w_write (replicate (Z.to_nat padSize) 0) (w_write data w)).

(** The counter [nextXid_] has 32 bits. *)
Record MemoryChannel : Type := mkChannel {
  mc_buf : list Z;
  mc_nextXid : Z;
  mc_version : Z;
  mc_flushed : bool }.

Definition MemoryChannel_make (version : Z) : MemoryChannel := mkChannel [] 1 version false.

Definition MemoryChannel_write (d : list Z) (ch : MemoryChannel) : MemoryChannel :=
  mkChannel (mc_buf ch ++ d) (mc_nextXid ch) (mc_version ch) (mc_flushed ch).

Definition MemoryChannel_flush (ch : MemoryChannel) : MemoryChannel :=
  mkChannel (mc_buf ch) (mc_nextXid ch) (mc_version ch) true.

Definition MemoryChannel_nextXid (ch : MemoryChannel) : Z * MemoryChannel :=
  (u32 (mc_nextXid ch), mkChannel (mc_buf ch) (u32 (mc_nextXid ch + 1)) (mc_version ch) (mc_flushed ch)).

Definition MemoryChannel_setNextXid (xid : Z) (ch : MemoryChannel) : MemoryChannel :=
  mkChannel (mc_buf ch) xid (mc_version ch) (mc_flushed ch).

(** [data] may be used after [flush], or when nothing was written. *)
Definition MemoryChannel_data (ch : MemoryChannel) : option (list Z) :=
  assert! mc_flushed ch || (zlen (mc_buf ch) =? 0);; Some (mc_buf ch).

#[export] Instance MemoryChannel_Writable : Writable MemoryChannel := {|
  w_version := mc_version;
  w_nextXid := MemoryChannel_nextXid;
  w_write := MemoryChannel_write;
  w_flush := MemoryChannel_flush;
  w_sent := mc_buf |}.

#[export] Instance MemoryChannel_laws : WritableLaws MemoryChannel.
Proof. split; try done. intros w. apply u32_range. Qed.

(** ** The header of a message that is sent *)

Definition Header_bytes (h : Header) : list Z :=
  be_bytes 1 (hdr_version h) ++ be_bytes 1 (hdr_type h) ++ be_bytes 2 (hdr_length h) ++ be_bytes 4 (hdr_xid h).

(** [setVersion], [setType], [setLength] and [setXid], as the builders use
    them together. *)
Definition Header_set (version type length xid : Z) : option Header :=
  assert! (length <=? OFP_MAX_SIZE);; Some (Hdr version type (u16 length) xid).

Definition Header_at (buf : list Z) : option Header :=
  v ← b_version buf; t ← b_type buf; l ← b_length buf; x ← rd32 buf 4; Some (Hdr v t l x).

Definition header_ok (h : Header) : Prop :=
  0 <= hdr_version h < 256 /\ 0 <= hdr_type h < 256 /\ 0 <= hdr_length h < 2 ^ 16 /\ 0 <= hdr_xid h < 2 ^ 32.

Lemma Header_bytes_len h : zlen (Header_bytes h) = 8.
Proof. unfold Header_bytes. by autorewrite with zlen. Qed.

Lemma rd8_first v k : 0 <= v < 256 -> rd8 (be_bytes 1 v ++ k) 0 = Some v.
Proof. intros Hv. change (Some (v mod 256) = Some v). by rewrite Z.mod_small. Qed.

Lemma Header_fields h k : header_ok h ->
  b_version (Header_bytes h ++ k) = Some (hdr_version h) /\ b_type (Header_bytes h ++ k) = Some (hdr_type h) /\
  b_length (Header_bytes h ++ k) = Some (hdr_length h) /\ rd32 (Header_bytes h ++ k) 4 = Some (hdr_xid h) /\
  Header_at (Header_bytes h ++ k) = Some h.
Proof.
  intros (Hv & Ht & Hl & Hx). unfold Header_at, b_version, b_type, b_length, Header_bytes. rewrite <- !app_assoc.
  assert (forall a k, rd8 (be_bytes 1 (hdr_version h) ++ be_bytes 1 a ++ k) 1 = rd8 (be_bytes 1 a ++ k) 0) as E1 by done.
  rewrite E1, !rd8_first by done. read_layout. rewrite !be_be_bytes_small by done. by destruct h.
Qed.

Lemma Header_set_ok version type length xid :
  0 <= version < 256 -> 0 <= type < 256 -> 0 <= length <= OFP_MAX_SIZE -> 0 <= xid < 2 ^ 32 ->
  Header_set version type length xid = Some (Hdr version type length xid) /\ header_ok (Hdr version type length xid).
Proof.
  unfold OFP_MAX_SIZE. intros Hv Ht Hl Hx. unfold Header_set, OFP_MAX_SIZE.
  rewrite (proj2 (Z.leb_le _ _)), u16_small by lia. split; [done|]. unfold header_ok. cbn. lia.
Qed.

(** What [castMessage] does for a message whose size is the one its header
    gives and whose version carries no error flag. *)
Lemma castMessage_checks M addr buf info error v :
  b_type buf = Some (MsgType M) -> b_length buf = Some (zlen buf) -> b_version buf = Some v ->
  Z.land v 0xF0 = 0 -> isLengthValid M (zlen buf) = true -> IsPtrAligned addr (MsgAlign M) = true ->
  castMessage M addr buf info error =
  MsgValidateInput M addr buf (Validation_make (Some (addr, zlen buf, v, info)) error).
Proof.
  intros Et El Ev Hf Hl Ha. unfold castMessage. rewrite Et. cbn [mbind option_bind]. rewrite Z.eqb_refl, El.
  cbn [mbind option_bind]. rewrite Z.eqb_refl, Ev. cbn [mbind option_bind]. rewrite Hf, Hl, Ha. cbn [negb Z.eqb].
  by destruct (MsgValidateInput M addr buf _) as [[ok c]|].
Qed.

Lemma version_no_flag v : 0 <= v < 16 -> Z.land v 0xF0 = 0.
Proof.
  intros Hv. assert (Forall (fun v => Z.land v 0xF0 = 0) (seqZ 0 16)) as H by (vm_compute; repeat constructor).
  rewrite Forall_forall in H. apply H, elem_of_seqZ. lia.
Qed.

Lemma v_version_make addr size v info error : v_version (Validation_make (Some (addr, size, v, info)) error) = v.
Proof. by destruct error. Qed.
