(* ===== verification/Multipart.v ===== *)
(** * Multipart messages (src/ofp/multipartreply.cpp, multipartrequest.cpp,
    include/ofp/multipartreply.h, multipartrequest.h)

    A multipart message carries a list of sections. A body that does not fit in
    one message is cut at section boundaries and sent as several messages with
    the same transaction id, all but the last marked with a flag. *)

From S2P Require Import Prelude.
From S2P Require Import ByteOrder.
From S2P Require Import Constants.
From S2P Require Import Validation.
From S2P Require Import ProtocolRange.
From S2P Require Import MsgBuffer.
From S2P Require Import Messages.

Definition v1_OFPT_STATS_REQUEST : Z := 16.
Definition v1_OFPT_STATS_REPLY : Z := 17.

(** [UnpaddedSizeVersion1] and [sizeof(MultipartReply)]. *)
Definition multipart_header_size (version : Z) : Z := if version =? OFP_VERSION_1 then 12 else 16.

Definition MAX_BODY_SIZE : Z := OFP_MAX_SIZE - 16.

(** The members of [MultipartReply] and [MultipartRequest]. *)
Record MultipartMsg : Type := mkMultipart {
  mp_header : Header;
  mp_type : Z;
  mp_flags : Z }.

Record MultipartBuilder : Type := mkMultipartBuilder {
  mpb_msg : MultipartMsg;
  mpb_body : list Z }.

(** [setReplyFlags] with [setReplyBody], and the same for requests. *)
Definition set_flags_body (flags : Z) (body : list Z) (b : MultipartBuilder) : MultipartBuilder :=
  mkMultipartBuilder (mkMultipart (mp_header (mpb_msg b)) (mp_type (mpb_msg b)) flags) body.

(** The first 12 bytes of the message, and all 16. *)
Definition Multipart_bytes (version : Z) (m : MultipartMsg) : list Z :=
  Header_bytes (mp_header m) ++ be_bytes 2 (mp_type m) ++ be_bytes 2 (mp_flags m) ++
  (if version =? OFP_VERSION_1 then [] else replicate 4 0).

(** The two builders differ in the message types only. *)
Section Builder.
Context (rawType type : Z).

Section Send.
Context {W : Type} `{Writable W}.

Definition multipart_send (b : MultipartBuilder) (ch : W) : option (Z * MultipartBuilder * W) :=
  let version := w_version ch in
  let '(xid, ch) := w_nextXid ch in
  let msgLen := zlen (mpb_body b) + multipart_header_size version in
  hdr ← Header_set version (if version =? OFP_VERSION_1 then rawType else type) msgLen xid;
  let msg := mkMultipart hdr (mp_type (mpb_msg b)) (mp_flags (mpb_msg b)) in
  let ch := w_write (Multipart_bytes version msg) ch in
  let ch := w_write (mpb_body b) ch in
  Some (xid, mkMultipartBuilder msg (mpb_body b), w_flush ch).
End Send.

(** [sendUsingReplyBody]: every round sends one chunk and sets the next
    transaction id back; the rest stays in the builder. *)
Fixpoint multipart_chunks (fuel : nat) (offset : Z) (body : ByteRange) (b : MultipartBuilder) (ch : MemoryChannel)
    : option (MultipartBuilder * MemoryChannel) :=
  if MAX_BODY_SIZE <? br_size body then
    match fuel with
    | O => None
    | S fuel' =>
        chunkSize ← ProtocolRangeSplitOffset MAX_BODY_SIZE body offset;
        assert! (chunkSize <=? MAX_BODY_SIZE) && (chunkSize <=? br_size body) && (0 <? chunkSize);;
        chunk ← slice (br_data body) 0 chunkSize;
        '(_, b, ch) ← multipart_send (set_flags_body OFPMPF_MORE chunk b) ch;
        let ch := MemoryChannel_setNextXid (hdr_xid (mp_header (mpb_msg b))) ch in
        let body := mkRange (br_addr body + chunkSize) (drop (Z.to_nat chunkSize) (br_data body)) in
        multipart_chunks fuel' offset body b ch
    end
  else Some (set_flags_body OFPMPF_NONE (br_data body) b, ch).

Definition sendUsingBody (offset : Z) (body : ByteRange) (b : MultipartBuilder) (ch : MemoryChannel)
    : option (MultipartBuilder * MemoryChannel) :=
  multipart_chunks (length (br_data body)) offset body b ch.
End Builder.

Definition MultipartReplyBuilder_send {W} `{Writable W} : MultipartBuilder -> W -> option (Z * MultipartBuilder * W) :=
  multipart_send v1_OFPT_STATS_REPLY OFPT_MULTIPART_REPLY.
Definition MultipartRequestBuilder_send {W} `{Writable W} : MultipartBuilder -> W -> option (Z * MultipartBuilder * W) :=
  multipart_send v1_OFPT_STATS_REQUEST OFPT_MULTIPART_REQUEST.
Definition sendUsingReplyBody := sendUsingBody v1_OFPT_STATS_REPLY OFPT_MULTIPART_REPLY.
Definition sendUsingRequestBody := sendUsingBody v1_OFPT_STATS_REQUEST OFPT_MULTIPART_REQUEST.

(** ** Cutting at element boundaries *)

Section Cutting.
Context (elementSize sfo : Z) (Hparams : iter_params elementSize sfo 8).
Implicit Types (pre rest : list (list Z)).

(** The loop of [ProtocolRangeSplitOffset] takes elements while they fit. *)
Lemma split_loop_elems chunkSize fuel pre rest :
  Forall (elem_ok elementSize sfo) rest -> (length rest < fuel)%nat ->
  let p := zlen (mjoin pre) in p mod 8 = 0 -> p <= chunkSize ->
  exists r1 r2, rest = r1 ++ r2 /\
    split_offset_loop fuel chunkSize sfo (mjoin pre ++ mjoin rest) p (zlen (mjoin rest)) p = Some (zlen (mjoin (pre ++ r1))) /\
    zlen (mjoin (pre ++ r1)) <= chunkSize /\
    match r2 with [] => True | x :: _ => chunkSize < zlen (mjoin (pre ++ r1)) + zlen x end.
Proof.
  intros Hrest. revert fuel pre. induction Hrest as [|x rest Hx Hrest IH]; intros fuel pre Hf p Hp Hc;
    (destruct fuel as [|fuel]; [simpl in Hf; lia|]).
  { exists [], []. rewrite !app_nil_r. by split_and!. }
  pose proof (elem_length elementSize sfo x Hx) as (_ & Hx4 & Hx8). pose proof (sfo_room elementSize sfo Hparams).
  destruct Hx as (e & He & H4 & Hse & Hl). pose proof (zlen_nonneg (mjoin rest)).
  assert (zlen (mjoin (x :: rest)) = zlen x + zlen (mjoin rest)) as Hz by apply zlen_app. rewrite Hz.
  assert (8 <= zlen x) by (Z.to_euclidean_division_equations; lia).
  cbn [split_offset_loop]. rewrite (proj2 (Z.ltb_lt 0 _)) by lia. cbn [negb]. rewrite (proj2 (Z.leb_le 8 _)) by lia.
  assert (rd16 (mjoin pre ++ mjoin (x :: rest)) (p + sfo) = Some e) as ->.
  { change (mjoin (x :: rest)) with (x ++ mjoin rest). unfold rd_be in *. apply rd_be_inv in He as Hi. unfold p.
    rewrite slice_mid by lia. exact He. }
  cbn [mbind option_bind]. replace (Z.max (sfo + 2) e) with e by lia. rewrite <- Hl.
  rewrite (proj2 (Z.ltb_ge _ _)) by lia. destruct (Z.ltb_spec chunkSize (p + zlen x)).
  { exists [], (x :: rest). rewrite app_nil_r. split_and!; done || lia. }
  rewrite Hx8. cbn [Z.eqb]. assert (zlen (mjoin (pre ++ [x])) = p + zlen x) as Hpx.
  { rewrite join_app, zlen_app. simpl. by rewrite app_nil_r. }
  destruct (IH fuel (pre ++ [x])) as (r1 & r2 & -> & E & Hle & Hnext).
  - simpl in Hf. lia.
  - rewrite Hpx, Zplus_mod, Hp, Hx8. done.
  - lia.
  - exists (x :: r1), r2. rewrite <- app_assoc in E, Hle, Hnext. split_and!; try done.
    change (pre ++ x :: r1) with (pre ++ [x] ++ r1). rewrite <- E, Hpx.
    replace (zlen x + zlen (mjoin (r1 ++ r2)) - zlen x) with (zlen (mjoin (r1 ++ r2))) by lia.
    f_equal. rewrite join_app, <- app_assoc. do 2 f_equal. simpl. by rewrite app_nil_r.
Qed.

(** A body that is too long is cut behind the elements that fit, at least one
    when every element does. *)
Lemma split_offset_elems chunkSize addr cs :
  Forall (elem_ok elementSize sfo) cs -> addr mod 8 = 0 -> 8 <= chunkSize < zlen (mjoin cs) ->
  Forall (fun x => zlen x <= chunkSize) cs ->
  exists c1 c2, cs = c1 ++ c2 /\ c1 <> [] /\ zlen (mjoin c1) <= chunkSize /\
    ProtocolRangeSplitOffset chunkSize (mkRange addr (mjoin cs)) sfo = Some (zlen (mjoin c1)).
Proof.
  intros Hcs Ha Hc Hfit. destruct (split_loop_elems chunkSize (S (length (mjoin cs))) [] cs Hcs) as (c1 & c2 & Ecs & E & Hle & Hnext);
    [pose proof (elems_few elementSize sfo cs Hcs); lia|done|unfold zlen; simpl; lia|]. cbn [app] in *.
  assert (c1 <> []) as Hne.
  { intros ->. cbn [app] in Ecs. subst c2. destruct cs as [|x cs]; [simpl in Hc; unfold zlen in Hc; simpl in Hc; lia|].
    apply Forall_cons in Hfit as [Hx _]. change (zlen (mjoin [])) with 0 in Hnext. lia. }
  exists c1, c2. split_and!; try done. unfold ProtocolRangeSplitOffset, br_size. cbn [br_data br_addr].
  pose proof (sfo_room elementSize sfo Hparams). rewrite (proj2 (Z.ltb_lt sfo 32)), (proj2 (Z.leb_le 8 _)) by lia. cbn [andb].
  rewrite (elems_mod8 elementSize sfo cs Hcs), IsPtrAligned_8, Ha. cbn [Z.eqb andb]. rewrite (proj2 (Z.leb_gt _ _)) by lia.
  change (mjoin []) with (@nil Z) in E. cbn [app] in E. change (zlen []) with 0 in E. rewrite E. cbn [mbind option_bind].
  rewrite Ecs in Hcs. apply Forall_app in Hcs as [Hc1 _]. rewrite (elems_mod8 elementSize sfo c1 Hc1). cbn [Z.eqb andb].
  rewrite (proj2 (Z.eqb_neq _ _)); [done|]. destruct c1 as [|x c1]; [done|]. apply Forall_cons in Hc1 as [Hx _].
  apply elem_length in Hx as (_ & ? & _). change (mjoin (x :: c1)) with (x ++ mjoin c1). rewrite zlen_app.
  pose proof (zlen_nonneg (mjoin c1)). lia.
Qed.
End Cutting.

(** ** The messages *)

Section Chunks.
Context (rawType type : Z) (Hraw : 0 <= rawType < 256) (Htype : 0 <= type < 256).

Definition multipart_message (version xid mtype flags : Z) (body : list Z) : list Z :=
  Multipart_bytes version (mkMultipart (Hdr version (if version =? OFP_VERSION_1 then rawType else type)
    (zlen body + multipart_header_size version) xid) mtype flags) ++ body.

(** All parts but the last are marked. *)
Fixpoint part_messages (msg : Z -> list Z -> list Z) (parts : list (list Z)) : list (list Z) :=
  match parts with
  | [] => []
  | [c] => [msg OFPMPF_NONE c]
  | c :: parts => msg OFPMPF_MORE c :: part_messages msg parts
  end.

Lemma header_size_range v : 12 <= multipart_header_size v <= 16.
Proof. unfold multipart_header_size. destruct (v =? OFP_VERSION_1); lia. Qed.

(** The fields of a message, and that its header gives its size. *)
Lemma message_fields version xid mtype flags body :
  0 <= version < 256 -> 0 <= xid < 2 ^ 32 -> 0 <= mtype < 2 ^ 16 -> 0 <= flags < 2 ^ 16 -> zlen body <= MAX_BODY_SIZE ->
  let m := multipart_message version xid mtype flags body in
  b_version m = Some version /\ b_length m = Some (zlen m) /\ zlen m <= OFP_MAX_SIZE /\ rd32 m 4 = Some xid /\
  rd16 m 8 = Some mtype /\ rd16 m 10 = Some flags /\ drop (Z.to_nat (multipart_header_size version)) m = body.
Proof.
  intros Hv Hx Ht Hf Hb m. unfold MAX_BODY_SIZE, OFP_MAX_SIZE in *. pose proof (zlen_nonneg body). pose proof (header_size_range version).
  assert (zlen m = zlen body + multipart_header_size version) as Hz.
  { unfold m, multipart_message, Multipart_bytes. rewrite !zlen_app, Header_bytes_len. autorewrite with zlen.
    unfold multipart_header_size. destruct (version =? OFP_VERSION_1); [change (zlen []) with 0|change (zlen (replicate 4 0)) with 4]; lia. }
  assert (drop (Z.to_nat (multipart_header_size version)) m = body) as Hd.
  { unfold m, multipart_message. apply drop_app_length'. unfold Multipart_bytes, multipart_header_size. rewrite !length_app.
    pose proof (Header_bytes_len (mp_header (mkMultipart (Hdr version (if version =? OFP_VERSION_1 then rawType else type)
      (zlen body + multipart_header_size version) xid) mtype flags))) as Hh. unfold zlen, multipart_header_size in Hh.
    destruct (version =? OFP_VERSION_1); simpl length; unfold zlen in *; simpl in *; lia. }
  rewrite Hz. unfold m, multipart_message, Multipart_bytes in Hd |- *. cbn [mp_header mp_type mp_flags] in *.
  set (h := Hdr version _ _ xid) in *. rewrite <- !app_assoc in Hd |- *.
  set (tail := _ ++ be_bytes 2 flags ++ _) in Hd |- *.
  destruct (Header_fields h tail) as (Ev & _ & El & Ex & _).
  { unfold header_ok, h. cbn [hdr_version hdr_type hdr_length hdr_xid]. split_and!; try lia; destruct (version =? OFP_VERSION_1); lia. }
  rewrite Ev, El, Ex. cbn [hdr_version hdr_length hdr_xid h]. split_and!; try done; [lia|..];
    pose proof (Header_bytes_len h) as Hh; set (hb := Header_bytes h) in *; unfold tail, rd_be;
    rewrite (slice_skip hb _ 8) by (done || lia); [change (8 - 8) with 0|change (10 - 8) with 2];
    [rewrite slice_head by done|rewrite (slice_skip (be_bytes 2 mtype) _ 2) by done; change (2 - 2) with 0; rewrite slice_head by done];
    cbn [fmap option_fmap option_map]; by rewrite be_be_bytes_small.
Qed.

Lemma multipart_send_spec b (ch : MemoryChannel) :
  0 <= mc_version ch < 256 -> zlen (mpb_body b) <= MAX_BODY_SIZE ->
  exists b' ch', multipart_send rawType type b ch = Some (u32 (mc_nextXid ch), b', ch') /\
    mc_buf ch' = mc_buf ch ++ multipart_message (mc_version ch) (u32 (mc_nextXid ch)) (mp_type (mpb_msg b))
                                (mp_flags (mpb_msg b)) (mpb_body b) /\
    mc_version ch' = mc_version ch /\ mp_type (mpb_msg b') = mp_type (mpb_msg b) /\
    hdr_xid (mp_header (mpb_msg b')) = u32 (mc_nextXid ch).
Proof.
  unfold MAX_BODY_SIZE. intros Hv Hb. pose proof (zlen_nonneg (mpb_body b)). pose proof (header_size_range (mc_version ch)).
  unfold OFP_MAX_SIZE in Hb.
  destruct (Header_set_ok (mc_version ch) (if mc_version ch =? OFP_VERSION_1 then rawType else type)
    (zlen (mpb_body b) + multipart_header_size (mc_version ch)) (u32 (mc_nextXid ch))) as [Eh _];
    [done|by destruct (_ =? _)|unfold OFP_MAX_SIZE; lia|apply u32_range|].
  unfold multipart_send. cbn [w_version w_nextXid MemoryChannel_Writable MemoryChannel_nextXid]. rewrite Eh.
  cbn [mbind option_bind]. eexists _, _. split; [reflexivity|]. cbn. unfold multipart_message. by rewrite <- app_assoc.
Qed.

Section Loop.
Context (elementSize sfo : Z) (Hparams : iter_params elementSize sfo 8).

Lemma multipart_chunks_spec fuel addr cs b ch :
  Forall (elem_ok elementSize sfo) cs -> Forall (fun x => zlen x <= MAX_BODY_SIZE) cs -> addr mod 8 = 0 ->
  0 <= mc_version ch < 256 -> (length cs <= fuel)%nat ->
  let xid := u32 (mc_nextXid ch) in
  exists b1 ch1 b2 ch2 parts,
    multipart_chunks rawType type fuel sfo (mkRange addr (mjoin cs)) b ch = Some (b1, ch1) /\
    multipart_send rawType type b1 ch1 = Some (xid, b2, ch2) /\
    mjoin parts = cs /\ Forall (fun p => zlen (mjoin p) <= MAX_BODY_SIZE) parts /\ parts <> [] /\
    mc_buf ch2 = mc_buf ch ++
      mjoin (part_messages (multipart_message (mc_version ch) xid (mp_type (mpb_msg b))) (mjoin <$> parts)).
Proof.
  revert addr cs b ch. induction fuel as [|fuel IH]; intros addr cs b ch Hcs Hfit Ha Hv Hf xid;
    cbn [multipart_chunks]; unfold br_size; cbn [br_data];
    (destruct (Z.ltb_spec MAX_BODY_SIZE (zlen (mjoin cs))) as [Hbig|Hsmall];
      [|destruct (multipart_send_spec (set_flags_body OFPMPF_NONE (mjoin cs) b) ch Hv Hsmall) as (b2 & ch2 & E & Hbuf & _);
        exists (set_flags_body OFPMPF_NONE (mjoin cs) b), ch, b2, ch2, [cs]; split_and!; try done;
        [by apply app_nil_r|by apply Forall_singleton|rewrite Hbuf; simpl; by rewrite app_nil_r]]).
  { destruct cs; [|simpl in Hf; lia]. unfold zlen, MAX_BODY_SIZE, OFP_MAX_SIZE in Hbig. simpl in Hbig. lia. }
  destruct (split_offset_elems elementSize sfo Hparams MAX_BODY_SIZE addr cs Hcs Ha) as (c1 & c2 & -> & Hne & Hle & ->);
    [by split|done|]. cbn [mbind option_bind].
  apply Forall_app in Hcs as [Hc1 Hc2], Hfit as [Hf1 Hf2].
  assert (8 <= zlen (mjoin c1)) as Hpos.
  { destruct c1 as [|x c1]; [done|]. apply Forall_cons in Hc1 as [Hx _]. apply elem_length in Hx as (_ & ? & ?).
    change (mjoin (x :: c1)) with (x ++ mjoin c1). rewrite zlen_app. pose proof (zlen_nonneg (mjoin c1)).
    Z.to_euclidean_division_equations. lia. }
  rewrite join_app in Hbig |- *. pose proof (zlen_nonneg (mjoin c2)).
  rewrite (proj2 (Z.leb_le _ _) Hle), (proj2 (Z.leb_le _ (zlen _))), (proj2 (Z.ltb_lt 0 _)) by (rewrite ?zlen_app; lia).
  cbn [andb]. rewrite slice_head by done. cbn [mbind option_bind].
  destruct (multipart_send_spec (set_flags_body OFPMPF_MORE (mjoin c1) b) ch Hv Hle) as (b' & ch' & -> & Hbuf & Hv' & Ht' & Hx').
  cbn [mbind option_bind]. rewrite Hx', drop_app_length' by (unfold zlen; lia). cbn [br_addr].
  set (ch2 := MemoryChannel_setNextXid _ ch').
  destruct (IH (addr + zlen (mjoin c1)) c2 b' ch2 Hc2 Hf2) as (b1 & ch1 & b2 & ch3 & parts & E1 & E2 & Ep & Hps & Hpn & Hb3).
  - pose proof (elems_mod8 elementSize sfo c1 Hc1). Z.to_euclidean_division_equations. lia.
  - cbn. lia.
  - rewrite length_app in Hf. destruct c1; [done|]. simpl in Hf. lia.
  - assert (u32 (mc_nextXid ch2) = xid) as Ex by (cbn; apply u32_small, u32_range).
    rewrite Ex in E2, Hb3. exists b1, ch1, b2, ch3, (c1 :: parts). split_and!; try done.
    + by rewrite <- Ep.
    + by apply Forall_cons.
    + rewrite Hb3. change (mc_buf ch2) with (mc_buf ch'). rewrite Hbuf, <- app_assoc. f_equal.
      change (mc_version ch2) with (mc_version ch'). rewrite Hv', Ht'.
      destruct parts as [|p parts]; [done|]. done.
Qed.
End Loop.
End Chunks.

(** C14. A body of any length, made of sections that fit in a message, is sent by
    [sendUsingReplyBody] (or [sendUsingRequestBody]) followed by [send] as a
    sequence of messages whose bodies, one after the other, are the body. Each is
    cut at a section boundary, has the size that its header gives and at most
    65535 bytes, and carries the transaction id of the first; all but the last
    are marked with OFPMPF_MORE. *)
Theorem multipart_body_sent elementSize sfo rawType type addr cs b ch :
  iter_params elementSize sfo 8 -> 0 <= rawType < 256 -> 0 <= type < 256 ->
  Forall (elem_ok elementSize sfo) cs -> Forall (fun x => zlen x <= MAX_BODY_SIZE) cs -> addr mod 8 = 0 ->
  0 <= mc_version ch < 256 -> 0 <= mp_type (mpb_msg b) < 2 ^ 16 ->
  let xid := u32 (mc_nextXid ch) in
  exists b1 ch1 b2 ch2 parts,
    sendUsingBody rawType type sfo (mkRange addr (mjoin cs)) b ch = Some (b1, ch1) /\
    multipart_send rawType type b1 ch1 = Some (xid, b2, ch2) /\
    mjoin parts = cs /\ parts <> [] /\
    let ms := part_messages (multipart_message rawType type (mc_version ch) xid (mp_type (mpb_msg b))) (mjoin <$> parts) in
    mc_buf ch2 = mc_buf ch ++ mjoin ms /\
    Forall (fun m => b_length m = Some (zlen m) /\ zlen m <= OFP_MAX_SIZE /\ rd32 m 4 = Some xid) ms.
Proof.
  intros Hp Hr Ht Hcs Hfit Ha Hv Hmt xid.
  destruct (multipart_chunks_spec rawType type Hr Ht elementSize sfo Hp (length (mjoin cs)) addr cs b ch Hcs Hfit Ha Hv)
    as (b1 & ch1 & b2 & ch2 & parts & E1 & E2 & Ep & Hps & Hne & Hbuf); [by apply (elems_few elementSize sfo)|].
  exists b1, ch1, b2, ch2, parts. split_and!; try done.
  cbv zeta. split; [done|]. clear -Hps Hv Hmt Hr Ht. assert (0 <= xid < 2 ^ 32) as Hx by apply u32_range.
  assert (forall flags p, (flags = OFPMPF_NONE \/ flags = OFPMPF_MORE) -> zlen (mjoin p) <= MAX_BODY_SIZE ->
    let m := multipart_message rawType type (mc_version ch) xid (mp_type (mpb_msg b)) flags (mjoin p) in
    b_length m = Some (zlen m) /\ zlen m <= OFP_MAX_SIZE /\ rd32 m 4 = Some xid) as Hm.
  { intros flags p Hfl Hle. assert (0 <= flags < 2 ^ 16) by (destruct Hfl as [-> | ->]; done).
    destruct (message_fields rawType type Hr Ht (mc_version ch) xid (mp_type (mpb_msg b)) flags (mjoin p)) as (_ & ? & ? & ? & _); done. }
  induction Hps as [|p parts Hle Hps IH]; [by apply Forall_nil|]. destruct parts as [|q parts].
  - apply Forall_singleton. apply Hm; [by left|done].
  - apply Forall_cons. split; [apply Hm; [by right|done]|]. exact IH.
Qed.

(** ** Witness *)

(** Nine sections of 8000 bytes: a body of 72000 bytes, sent in two messages. *)
Definition big_section : list Z := [0; 1; 0x1f; 0x40] ++ replicate 7996 7.

Lemma multipart_body_sent_witness :
  let b := mkMultipartBuilder (mkMultipart (Hdr 0 OFPT_MULTIPART_REPLY 0 0) 4 0) [] in let ch := MemoryChannel_make 4 in
  exists b1 ch1 b2 ch2 parts,
    sendUsingReplyBody 2 (mkRange 4096 (mjoin (replicate 9 big_section))) b ch = Some (b1, ch1) /\
    MultipartReplyBuilder_send b1 ch1 = Some (1, b2, ch2) /\
    mjoin parts = replicate 9 big_section /\ parts <> [] /\
    let ms := part_messages (multipart_message v1_OFPT_STATS_REPLY OFPT_MULTIPART_REPLY 4 1 4) (mjoin <$> parts) in
    mc_buf ch2 = [] ++ mjoin ms /\
    Forall (fun m => b_length m = Some (zlen m) /\ zlen m <= OFP_MAX_SIZE /\ rd32 m 4 = Some 1) ms.
Proof.
  assert (zlen big_section = 8000) as Hz by (vm_compute; reflexivity).
  assert (elem_ok 4 2 big_section) as He by (exists 8000; split_and!; [vm_compute; reflexivity|lia..|by rewrite Hz]).
  apply (multipart_body_sent 4 2 v1_OFPT_STATS_REPLY OFPT_MULTIPART_REPLY 4096 (replicate 9 big_section)
    (mkMultipartBuilder (mkMultipart (Hdr 0 OFPT_MULTIPART_REPLY 0 0) 4 0) []) (MemoryChannel_make 4)).
  - unfold iter_params. lia.
  - done.
  - done.
  - by apply Forall_replicate.
  - apply Forall_replicate. rewrite Hz. done.
  - done.
  - done.
  - done.
Defined.
