(* ===== verification/Hello.v ===== *)
(** * Version sets and hello messages (src/ofp/protocolversions.cpp,
    include/ofp/protocolversions.h, src/ofp/hello.cpp, include/ofp/hello.h)

    A set of protocol versions is a 32-bit bitmap. Each side of a connection
    sends a hello with its highest version and, where that does not say it all,
    its bitmap; each side then picks a version from the hello it received. Shifts
    by the width of the type or more and signed overflow are undefined in C++:
    they are [None]. *)

From S2P Require Import Prelude.
From S2P Require Import ByteOrder.
From S2P Require Import Constants.
From S2P Require Import Validation.
From S2P Require Import ProtocolRange.
From S2P Require Import MsgBuffer.
From S2P Require Import Messages.

(** ** Sets of versions *)

Definition OFP_VERSION_LAST : Z := OFP_VERSION_6.
Definition MinVersionSupported : Z := OFP_VERSION_1.
Definition MaxVersionSupported : Z := 30.

Definition VersionBitmapAll : Z :=
  Z.land (u32 (Z.lnot (u32 (Z.shiftl 0xFFFFFFFF (OFP_VERSION_LAST + 1))))) (u32 (Z.lnot 1)).
Definition VersionBitmapNone : Z := 0.

(** [(bitmap_ >> i) & 1]. *)
Definition version_bit (bitmap i : Z) : bool := negb (Z.land (Z.shiftr bitmap i) 1 =? 0).

Definition add_version (bitmap v : Z) : Z :=
  if (MinVersionSupported <=? v) && (v <=? MaxVersionSupported) then Z.lor bitmap (Z.shiftl 1 v) else bitmap.

(** The constructor from an initializer list, and [fromVector]. *)
Definition fromVector (versions : list Z) : Z := foldl add_version 0 versions.

Definition versions_empty (bitmap : Z) : bool := bitmap =? 0.

Definition containsVersion (bitmap version : Z) : option bool :=
  assert! (version <? 32);; Some (version_bit bitmap version).

Definition versions_intersection (bitmap versions : Z) : Z := Z.land bitmap versions.

Fixpoint highest_loop (i : nat) (bits : Z) : Z :=
  match i with
  | O => 0
  | S i' => if version_bit bits (Z.of_nat i) then Z.of_nat i else highest_loop i' bits
  end.

Definition highestVersion (bitmap : Z) : Z := highest_loop (Z.to_nat MaxVersionSupported) bitmap.

Definition negotiateVersion (bitmap msgVersion msgVersions : Z) : option Z :=
  if (OFP_VERSION_4 <=? msgVersion) && negb (versions_empty msgVersions) then
    Some (highestVersion (versions_intersection bitmap msgVersions))
  else
    let myVersion := highestVersion bitmap in
    if myVersion <=? msgVersion then Some myVersion
    else ok ← containsVersion bitmap msgVersion; Some (if ok : bool then msgVersion else 0).

Definition includeInHelloMsg (bitmap version : Z) : option bool :=
  if version <? OFP_VERSION_4 then Some false
  else
    assert! (version <? 32);;
    if bitmap =? Z.shiftl 1 version then Some false
    else
      assert! (version <? 30);;
      Some (negb (bitmap =? Z.shiftl 1 (version + 1) - 2)).

Definition versions_list (bitmap : Z) : list Z :=
  filter (fun i => version_bit bitmap i = true) (seqZ MinVersionSupported MaxVersionSupported).

(** ** Hello messages *)

Definition OFPHET_VERSIONBITMAP : Z := 1.

(** [HelloElement::versionBitMap], for the element at [p]. *)
Definition versionBitMap (data : list Z) (p : Z) : option Z :=
  length ← rd16 data (p + 2);
  if 8 <=? length then rd32 data (p + 4) else Some 0.

Definition msgBody (addr : Z) (buf : list Z) : option ByteRange :=
  length ← b_length buf;
  body ← slice buf 8 (length - 8); Some (mkRange (addr + 8) body).

(** The range of hello elements, empty when it is not valid. *)
Definition helloElements (addr : Z) (buf : list Z) : option ByteRange :=
  elems ← msgBody addr buf;
  '(ok, _) ← ProtocolRange_validateInput 4 2 8 (fun _ c => Some (true, c)) elems (Validation_make None None);
  Some (if ok : bool then elems else mkRange 0 []).

(** The loop of [Hello::protocolVersions]: it returns at the first bitmap. *)
Definition hello_body (data : list Z) (p : Z) (found : Z) : option (bool * Z) :=
  type ← rd16 data p;
  if type =? OFPHET_VERSIONBITMAP then b ← versionBitMap data p; Some (false, b) else Some (true, found).

Definition Hello_protocolVersions (addr : Z) (buf : list Z) : option Z :=
  elems ← helloElements addr buf;
  '(_, b) ← for_elements 4 2 8 (hello_body (br_data elems)) (length (br_data elems)) elems 0 VersionBitmapNone;
  Some b.

Definition Hello_class : MsgClass :=
  mkMsgClass OFPT_HELLO 8 65535 true 4 (fun _ _ c => Some (true, c)).

(** The members of [HelloBuilder]: the message's header and the bitmap; the
    element's two fields are set whenever they are written. *)
Record HelloBuilder : Type := mkHelloBuilder {
  hb_header : Header;
  hb_bitmap : Z }.

Definition HelloBuilder_versions (versions : Z) : HelloBuilder :=
  mkHelloBuilder (Hdr (highestVersion versions) OFPT_HELLO 0 0) versions.
Definition HelloBuilder_version (version : Z) : HelloBuilder :=
  mkHelloBuilder (Hdr version OFPT_HELLO 0 0) (fromVector [version]).
Definition HelloBuilder_of (addr : Z) (buf : list Z) : option HelloBuilder :=
  h ← Header_at buf; b ← Hello_protocolVersions addr buf; Some (mkHelloBuilder h b).

(** The builder's 16 bytes. *)
Definition HelloBuilder_bytes (b : HelloBuilder) : list Z :=
  Header_bytes (hb_header b) ++ be_bytes 2 OFPHET_VERSIONBITMAP ++ be_bytes 2 8 ++ be_bytes 4 (hb_bitmap b).

(** The version and the set that [HelloBuilder::send] settles on. *)
Definition hello_version_bitmap (version bitmap : Z) : Z * Z :=
  if version =? 0 then
    if versions_empty bitmap then (OFP_VERSION_LAST, VersionBitmapAll) else (highestVersion bitmap, bitmap)
  else if (OFP_VERSION_4 <=? version) && versions_empty bitmap then (version, fromVector [version])
  else (version, bitmap).

Definition HelloBuilder_send {W} `{Writable W} (b : HelloBuilder) (ch : W) : option (Z * HelloBuilder * W) :=
  let '(version, versionsBitmap) := hello_version_bitmap (hdr_version (hb_header b)) (hb_bitmap b) in
  incl ← includeInHelloMsg versionsBitmap version;
  let bitmap := if incl : bool then versionsBitmap else hb_bitmap b in
  let msgLen := if incl : bool then 16 else 8 in
  let '(xid, ch) := w_nextXid ch in
  h ← Header_set version (hdr_type (hb_header b)) msgLen xid;
  let b := mkHelloBuilder h bitmap in
  let ch := w_write (take (Z.to_nat msgLen) (HelloBuilder_bytes b)) ch in
  Some (xid, b, w_flush ch).

(** The version that one side picks for a hello it received
    ([DefaultHandshake::onHello]). *)
Definition negotiateHello (versions addr : Z) (buf : list Z) : option Z :=
  msgVersion ← b_version buf;
  msgVersionSet ← Hello_protocolVersions addr buf;
  negotiateVersion versions msgVersion msgVersionSet.

(** ** Lemmas on version sets *)

(** What a set supports, in the range that the code looks at. *)
Definition supports (bitmap v : Z) : Prop := 1 <= v <= MaxVersionSupported /\ Z.testbit bitmap v = true.

(** A set as the constructors build it, with a highest version for which a hello
    is defined. *)
Definition versions_ok (bitmap : Z) : Prop :=
  0 <= bitmap /\ (forall i, Z.testbit bitmap i = true -> 1 <= i < MaxVersionSupported) /\ bitmap <> 0.

Lemma version_bit_testbit b i : 0 <= i -> version_bit b i = Z.testbit b i.
Proof.
  intros Hi. unfold version_bit. change 1 with (Z.shiftl 1 0) at 1. rewrite land_flag by done.
  by rewrite negb_involutive, Z.shiftr_spec, Z.add_0_l.
Qed.

Lemma highest_loop_spec n b :
  let h := highest_loop n b in
  0 <= h <= Z.of_nat n /\ (h <> 0 -> Z.testbit b h = true) /\
  (forall v, 1 <= v <= Z.of_nat n -> Z.testbit b v = true -> v <= h).
Proof.
  induction n as [|n IH]; cbn [highest_loop]; [split_and!; done || lia|].
  rewrite version_bit_testbit by lia. destruct (Z.testbit b (Z.of_nat (S n))) eqn:E.
  - split_and!; [lia|lia|done|]. intros; lia.
  - destruct IH as ([? ?] & ? & IH). split_and!; [lia|lia|done|]. intros v Hv Hb.
    destruct (decide (v = Z.of_nat (S n))) as [->|]; [congruence|]. apply IH; [lia|done].
Qed.

Lemma highestVersion_spec b :
  let h := highestVersion b in
  0 <= h <= MaxVersionSupported /\ (h <> 0 -> supports b h) /\ (forall v, supports b v -> v <= h).
Proof.
  destruct (highest_loop_spec (Z.to_nat MaxVersionSupported) b) as (Hr & Hb & Hm).
  unfold highestVersion, supports, MaxVersionSupported in *. cbv zeta in *. rewrite Z2Nat.id in Hr, Hm by lia.
  split_and!; [lia..| |].
  - intros Hne. split; [lia|auto].
  - intros v [Hv Hv']. auto.
Qed.

Lemma supports_inter a b v : supports (versions_intersection a b) v <-> supports a v /\ supports b v.
Proof. unfold supports, versions_intersection. rewrite Z.land_spec, andb_true_iff. tauto. Qed.

Lemma supports_high b v : supports b v -> 1 <= highestVersion b /\ v <= highestVersion b.
Proof. intros H. destruct (highestVersion_spec b) as (_ & _ & Hm). pose proof (Hm v H). destruct H. lia. Qed.

(** The largest member decides the highest version. *)
Lemma highestVersion_max b h : supports b h -> (forall v, supports b v -> v <= h) -> highestVersion b = h.
Proof.
  intros Hh Hm. destruct (highestVersion_spec b) as (_ & Hs & Hm'). pose proof (Hm' h Hh).
  destruct (supports_high b h Hh). pose proof (Hm _ (Hs ltac:(lia))). lia.
Qed.

Lemma versions_ok_high b : versions_ok b -> 1 <= highestVersion b < 30 /\ supports b (highestVersion b).
Proof.
  intros (Hb & Hbits & Hne). destruct (highestVersion_spec b) as (Hr & Hs & Hm).
  assert (exists i, Z.testbit b i = true) as [i Hi].
  { exists (Z.log2 b). apply Z.bit_log2. lia. }
  pose proof (Hbits i Hi). assert (i <= highestVersion b) by (apply Hm; split; [lia|done]).
  assert (supports b (highestVersion b)) as Hsup by (apply Hs; lia). split; [|done].
  destruct Hsup as [_ Ht]. apply Hbits in Ht. unfold MaxVersionSupported in *. lia.
Qed.

Lemma versions_ok_u32 b : versions_ok b -> 0 <= b < 2 ^ 32.
Proof.
  intros (Hb & Hbits & _). apply bits_range; [lia..|]. intros i Hi. destruct (Z.testbit b i) eqn:E; [|done].
  apply Hbits in E. unfold MaxVersionSupported in *. lia.
Qed.

(** The members of a set that was built from a list. *)
Lemma fromVector_bits l i : 0 <= i ->
  Z.testbit (fromVector l) i = bool_decide (i ∈ l /\ 1 <= i <= MaxVersionSupported).
Proof.
  intros Hi. unfold fromVector. assert (forall acc, 0 <= acc -> 0 <= foldl add_version acc l /\
    Z.testbit (foldl add_version acc l) i = Z.testbit acc i || bool_decide (i ∈ l /\ 1 <= i <= MaxVersionSupported)) as Hg.
  { induction l as [|v l IH]; intros acc Hacc; cbn [foldl].
    { rewrite bool_decide_false, orb_false_r by (intros [?%not_elem_of_nil _]; done). done. }
    unfold add_version at 2 4. destruct (andb _ _) eqn:E.
    - apply andb_true_iff in E as [E1%Z.leb_le E2%Z.leb_le]. unfold MinVersionSupported, OFP_VERSION_1 in E1.
      rewrite Z.shiftl_1_l. destruct (IH (Z.lor acc (2 ^ v))) as [? ->]; [apply Z.lor_nonneg; split; [done|lia]|].
      split; [done|]. rewrite Z.lor_spec, Z.pow2_bits_eqb, <- orb_assoc by lia. f_equal.
      destruct (Z.eqb_spec v i) as [->|]; cbn [orb].
      + symmetry. apply bool_decide_true. split; [set_solver|done].
      + apply bool_decide_ext. set_solver.
    - destruct (IH acc Hacc) as [? ->]. split; [done|]. f_equal. apply bool_decide_ext.
      apply andb_false_iff in E. unfold MinVersionSupported, OFP_VERSION_1 in E. rewrite !Z.leb_gt in E.
      rewrite elem_of_cons. split; [tauto|]. intros [[->|?] ?]; [lia|done]. }
  destruct (Hg 0) as [_ ->]; [done|]. by rewrite Z.testbit_0_l.
Qed.

Lemma fromVector_ok l : l <> [] -> Forall (fun v => 1 <= v < MaxVersionSupported) l -> versions_ok (fromVector l).
Proof.
  intros Hne Hl. assert (forall i, Z.testbit (fromVector l) i = true -> 1 <= i < MaxVersionSupported) as Hb.
  { intros i Hi. destruct (Z.lt_ge_cases i 0); [by rewrite Z.testbit_neg_r in Hi|].
    rewrite fromVector_bits in Hi by done. apply bool_decide_eq_true in Hi as [Hi _]. by eapply Forall_forall in Hl. }
  split_and!; [|done|].
  - apply Z.bits_iff_nonneg_ex. exists 30. intros i Hi. destruct (Z.testbit _ i) eqn:E; [|done]. apply Hb in E.
    unfold MaxVersionSupported in E. lia.
  - destruct l as [|v l]; [done|]. apply Forall_cons in Hl as [Hv _]. intros E.
    pose proof (fromVector_bits (v :: l) v ltac:(lia)) as Ht. rewrite E, Z.testbit_0_l in Ht.
    symmetry in Ht. apply bool_decide_eq_false in Ht. apply Ht. split; [set_solver|lia].
Qed.

(** When the bitmap is left out of a hello. *)
Lemma includeInHelloMsg_spec b v : 0 <= v < 30 ->
  exists incl, includeInHelloMsg b v = Some incl /\
    (incl = false <-> v < 4 \/ b = 2 ^ v \/ b = 2 ^ (v + 1) - 2).
Proof.
  intros Hv. unfold includeInHelloMsg, OFP_VERSION_4. destruct (Z.ltb_spec v 4); [exists false; intuition|].
  rewrite (proj2 (Z.ltb_lt v 32)), (proj2 (Z.ltb_lt v 30)), !Z.shiftl_1_l by lia.
  destruct (Z.eqb_spec b (2 ^ v)) as [->|]; [exists false; intuition|].
  destruct (Z.eqb_spec b (2 ^ (v + 1) - 2)) as [->|]; [exists false; intuition|]. exists true.
  split; [done|]. split; [done|lia].
Qed.

Lemma testbit_all_below v i : 0 <= v -> 1 <= i <= v -> Z.testbit (2 ^ (v + 1) - 2) i = true.
Proof.
  intros Hv Hi. replace (2 ^ (v + 1) - 2) with (2 * (2 ^ v - 1)) by (rewrite Z.pow_add_r by lia; lia).
  replace i with (Z.succ (i - 1)) by lia. rewrite Z.double_bits_succ.
  replace (2 ^ v - 1) with (Z.ones v) by (rewrite Z.ones_equiv; lia). by rewrite Z.ones_spec_low by lia.
Qed.

(** The two ways to choose a version, of a side with the set [mine] that hears of
    the version [theirs] alone, or of the set as well. *)
Lemma negotiate_plain mine theirs : 0 <= theirs -> versions_ok mine ->
  exists v, negotiateVersion mine theirs 0 = Some v /\
    v = (if highestVersion mine <=? theirs then highestVersion mine
         else if Z.testbit mine theirs then theirs else 0).
Proof.
  intros Ht Hm. unfold negotiateVersion, versions_empty. change (0 =? 0) with true. rewrite andb_false_r.
  destruct (versions_ok_high mine Hm) as [Hh _]. destruct (Z.leb_spec (highestVersion mine) theirs); [eauto|].
  unfold containsVersion. rewrite (proj2 (Z.ltb_lt theirs 32)) by lia. rewrite version_bit_testbit by done. eauto.
Qed.

Lemma negotiate_bitmap mine theirs set : 4 <= theirs -> set <> 0 ->
  negotiateVersion mine theirs set = Some (highestVersion (versions_intersection mine set)).
Proof.
  intros Ht Hs. unfold negotiateVersion, versions_empty, OFP_VERSION_4.
  by rewrite (proj2 (Z.leb_le 4 _)), (proj2 (Z.eqb_neq _ _)).
Qed.

(** ** Lemmas on hello messages *)

(** What the elements of a valid range say: the first bitmap. *)
Fixpoint first_bitmap (elems : list (list Z)) : Z :=
  match elems with
  | [] => VersionBitmapNone
  | x :: rest => if bool_decide (rd16 x 0 = Some OFPHET_VERSIONBITMAP)
                 then default 0 (versionBitMap x 0) else first_bitmap rest
  end.

Lemma hello_params : iter_params 4 2 8.
Proof. unfold iter_params. lia. Qed.

(** A read inside an element. *)
Lemma rd_be_elem n pre x rest off : 0 <= off -> off + n <= zlen x ->
  rd_be n (pre ++ x ++ rest) (zlen pre + off) = rd_be n x off.
Proof. intros H0 H. unfold rd_be. by rewrite slice_mid. Qed.

Lemma hello_body_elem pre x rest b : elem_ok 4 2 x ->
  hello_body (pre ++ x ++ rest) (zlen pre) b =
  Some (if bool_decide (rd16 x 0 = Some OFPHET_VERSIONBITMAP) then (false, default 0 (versionBitMap x 0)) else (true, b)).
Proof.
  intros Hx. destruct (elem_length 4 2 x Hx) as (_ & H4 & H8). destruct Hx as (e & He & He4 & _ & Hl).
  assert (8 <= zlen x) as Hx8 by (Z.to_euclidean_division_equations; lia).
  unfold hello_body, versionBitMap. replace (zlen pre) with (zlen pre + 0) at 1 by lia.
  rewrite !rd_be_elem by lia. destruct (rd_be_some 2 x 0) as [t Et]; [lia..|].
  rewrite Et. cbn [mbind option_bind]. destruct (Z.eqb_spec t OFPHET_VERSIONBITMAP) as [->|Hne].
  - rewrite bool_decide_true by done. change (0 + 2) with 2. change (0 + 4) with 4.
    rewrite He. cbn [mbind option_bind]. destruct (8 <=? e); [|done].
    destruct (rd_be_some 4 x 4) as [w Ew]; [lia..|]. by rewrite Ew.
  - by rewrite bool_decide_false by congruence.
Qed.

Lemma hello_loop fuel addr pre cs :
  addr mod 8 = 0 -> zlen pre mod 8 = 0 -> Forall (elem_ok 4 2) cs -> (length cs <= fuel)%nat ->
  let all := pre ++ mjoin cs in
  exists go, for_elements 4 2 8 (hello_body all) fuel (mkRange addr all) (zlen pre) VersionBitmapNone =
    Some (go, first_bitmap cs).
Proof.
  intros Ha Hp Hcs. revert fuel pre Hp. induction Hcs as [|x cs Hx Hcs IH]; intros fuel pre Hp Hf all.
  { exists true. unfold all. simpl. rewrite app_nil_r. by apply for_elements_end. }
  destruct fuel as [|fuel]; [simpl in Hf; lia|]. unfold all. change (mjoin (x :: cs)) with (x ++ mjoin cs).
  rewrite for_elements_round by (done || apply hello_params). rewrite hello_body_elem by done. cbn [first_bitmap].
  destruct (bool_decide _); cbn [mbind option_bind negb]; [by exists false|].
  rewrite app_assoc. apply (IH fuel (pre ++ x)); [|simpl in Hf; lia].
  apply elem_length in Hx as (_ & _ & Hx8). by rewrite zlen_app, Zplus_mod, Hp, Hx8.
Qed.

(** The body of a hello that a side may rely on: whole elements at an aligned
    address. *)
Definition hello_elements (addr : Z) (buf : list Z) (cs : list (list Z)) : Prop :=
  addr mod 8 = 0 /\ drop 8 buf = mjoin cs /\ Forall (elem_ok 4 2) cs.

Lemma protocolVersions_read addr buf :
  bytes_ok buf -> b_length buf = Some (zlen buf) -> 8 <= zlen buf ->
  exists b, Hello_protocolVersions addr buf = Some b /\
    ((exists cs, hello_elements addr buf cs /\ b = first_bitmap cs) \/
     ((forall cs, ~ hello_elements addr buf cs) /\ b = VersionBitmapNone)).
Proof.
  intros Hb Hl H8. unfold Hello_protocolVersions, helloElements, msgBody. rewrite Hl. cbn [mbind option_bind].
  rewrite slice_some by lia. cbn [mbind option_bind]. change (Z.to_nat 8) with 8%nat.
  rewrite take_ge by (rewrite length_drop; unfold zlen in *; lia).
  assert (bytes_ok (drop 8 buf)) as Hb' by (by apply Forall_drop).
  assert ((addr + 8) mod 8 = addr mod 8) as Hm8 by (Z.to_euclidean_division_equations; lia).
  destruct (validateInput_iff 4 2 hello_params (fun _ c => Some (true, c)) (fun _ => True) (mkRange (addr + 8) (drop 8 buf))
    (Validation_make None None) Hb') as (ok & c & E & Hiff & _).
  { intros. exists true. eexists. by split_and!. }
  rewrite E. cbn [mbind option_bind]. cbn [br_addr br_data] in Hiff. destruct ok.
  - destruct (proj1 Hiff eq_refl) as (Ha & cs & Hd & Hcs & _). cbn [br_data]. rewrite Hd.
    destruct (hello_loop (length (mjoin cs)) (addr + 8) [] cs Ha) as (go & Eg); [done|done|by apply (elems_few 4 2)|].
    cbn [app] in Eg. change (zlen []) with 0 in Eg. rewrite Eg. cbn [mbind option_bind]. eexists. split; [done|].
    left. exists cs. split; [|done]. split_and!; [lia|done..].
  - eexists. split; [done|]. right. split; [|done]. intros cs (Ha & Hd & Hcs).
    enough (false = true) by done. apply Hiff. split; [lia|]. exists cs. split_and!; try done. by apply Forall_true.
Qed.

Lemma first_bitmap_range cs : bytes_ok (mjoin cs) -> 0 <= first_bitmap cs < 2 ^ 32.
Proof.
  induction cs as [|x cs IH]; intros Hb; [done|]. change (mjoin (x :: cs)) with (x ++ mjoin cs) in Hb.
  apply Forall_app in Hb as [Hx Hcs]. cbn [first_bitmap]. case_bool_decide; [|by apply IH]. unfold versionBitMap.
  destruct (rd16 x (0 + 2)); [|done]. cbn [mbind option_bind]. destruct (8 <=? z); [|done].
  destruct (rd32 x (0 + 4)) as [w|] eqn:E; [|done]. cbn. by apply (rd_be_range 4 x 4).
Qed.

Definition hello_message (versions xid : Z) (incl : bool) : list Z :=
  Header_bytes (Hdr (highestVersion versions) OFPT_HELLO (if incl then 16 else 8) xid) ++
  (if incl then be_bytes 2 OFPHET_VERSIONBITMAP ++ be_bytes 2 8 ++ be_bytes 4 versions else []).

Lemma hello_message_read versions xid incl : versions_ok versions -> 0 <= xid < 2 ^ 32 ->
  let msg := hello_message versions xid incl in
  bytes_ok msg /\ zlen msg = (if incl then 16 else 8) /\ b_length msg = Some (zlen msg) /\
  b_type msg = Some OFPT_HELLO /\ b_version msg = Some (highestVersion versions) /\
  forall addr, addr mod 8 = 0 -> Hello_protocolVersions addr msg = Some (if incl then versions else VersionBitmapNone).
Proof.
  intros Hok Hx msg. destruct (versions_ok_high _ Hok) as [Hh _]. pose proof (versions_ok_u32 _ Hok) as Hu.
  set (h := Hdr (highestVersion versions) OFPT_HELLO (if incl then 16 else 8) xid).
  assert (header_ok h) as Hhdr by (unfold header_ok, h, OFPT_HELLO; cbn; destruct incl; lia).
  set (elem := be_bytes 2 OFPHET_VERSIONBITMAP ++ be_bytes 2 8 ++ be_bytes 4 versions).
  assert (zlen elem = 8) as He by (unfold elem; by autorewrite with zlen).
  assert (bytes_ok elem) as Hbe by (unfold elem; rewrite !Forall_app; split_and!; apply be_bytes_ok).
  assert (elem_ok 4 2 elem) as Heo.
  { exists 8. split_and!; [|lia|lia|lia|by rewrite He]. unfold elem. read_layout. by rewrite be_be_bytes_small. }
  assert (first_bitmap [elem] = versions) as Hf.
  { cbn [first_bitmap]. unfold versionBitMap, elem. change (0 + 2) with 2. change (0 + 4) with 4. read_layout.
    rewrite !be_be_bytes_small by done. by rewrite bool_decide_true. }
  assert (zlen msg = (if incl then 16 else 8)) as Hz.
  { unfold msg, hello_message. rewrite zlen_app, Header_bytes_len. destruct incl; [|done]. fold elem. lia. }
  assert (bytes_ok msg) as Hb.
  { unfold msg, hello_message, Header_bytes. fold elem. rewrite !Forall_app. split_and!; try apply be_bytes_ok. by destruct incl. }
  destruct (Header_fields h (if incl then elem else []) Hhdr) as (Ev & Et & El & _). 
  split_and!; try done; [by rewrite Hz|]. intros addr Ha.
  destruct (protocolVersions_read addr msg Hb) as (b & -> & Hc); [by rewrite Hz|rewrite Hz; by destruct incl|].
  assert (drop 8 msg = if incl then elem else []) as Hd.
  { unfold msg, hello_message. apply drop_app_length'. pose proof (Header_bytes_len h) as Hhl. unfold zlen in Hhl. unfold h in Hhl. lia. }
  set (cs := if incl then [elem] else []).
  assert (hello_elements addr msg cs) as Hcs.
  { split_and!; [done|rewrite Hd; by destruct incl|]. destruct incl; [by apply Forall_singleton|by apply Forall_nil]. }
  f_equal. destruct Hc as [(cs' & (_ & Hd' & Hok') & ->)|[Hno _]]; [|by destruct (Hno cs)].
  destruct Hcs as (_ & Hd2 & Hok2). rewrite (elems_unique 4 2 hello_params cs' cs) by (done || congruence).
  unfold cs. by destruct incl.
Qed.

(** What a builder of a set of versions sends. *)
Lemma hello_sent `{WritableLaws W} versions (ch : W) : versions_ok versions ->
  exists b ch' incl, includeInHelloMsg versions (highestVersion versions) = Some incl /\
    HelloBuilder_send (HelloBuilder_versions versions) ch = Some (fst (w_nextXid ch), b, ch') /\
    w_sent ch' = w_sent ch ++ hello_message versions (fst (w_nextXid ch)) incl /\ w_version ch' = w_version ch.
Proof.
  intros Hok. destruct (versions_ok_high _ Hok) as [Hh _].
  destruct (includeInHelloMsg_spec versions (highestVersion versions)) as (incl & Ei & _); [lia|].
  unfold HelloBuilder_send, HelloBuilder_versions, hello_version_bitmap. cbn [hb_header hb_bitmap hdr_version hdr_type].
  rewrite (proj2 (Z.eqb_neq (highestVersion versions) 0)) by lia. unfold versions_empty.
  rewrite (proj2 (Z.eqb_neq versions 0)), andb_false_r, Ei by (by destruct Hok as (_ & _ & ?)). cbn [mbind option_bind].
  pose proof (w_xid_range ch) as Hx. pose proof (w_xid_sent ch) as Hs. pose proof (w_xid_version ch) as Hv.
  destruct (w_nextXid ch) as [xid ch1]. cbn [fst snd] in *.
  destruct (Header_set_ok (highestVersion versions) OFPT_HELLO (if incl then 16 else 8) xid) as [-> Hhdr];
    [lia|done|unfold OFP_MAX_SIZE; destruct incl; lia|done|]. cbn [mbind option_bind].
  eexists _, _, incl. split_and!; [done|done| |].
  - rewrite w_flush_sent, w_write_sent, Hs. f_equal. unfold HelloBuilder_bytes, hello_message. cbn [hb_header hb_bitmap].
    pose proof (Header_bytes_len (Hdr (highestVersion versions) OFPT_HELLO (if incl then 16 else 8) xid)) as Hhl.
    destruct incl; [apply take_ge|rewrite app_nil_r; apply take_app_length'].
    + rewrite !length_app, !be_bytes_length. unfold zlen in Hhl. lia.
    + unfold zlen in Hhl. lia.
  - by rewrite w_flush_version, w_write_version.
Qed.

(** ** Negotiation *)

(** What a side with the set [mine] makes of the set [theirs], as told in a hello
    with or without the bitmap. *)
Definition picks (mine theirs : Z) (incl : bool) : Z :=
  if incl then highestVersion (versions_intersection mine theirs)
  else if highestVersion mine <=? highestVersion theirs then highestVersion mine
  else if Z.testbit mine (highestVersion theirs) then highestVersion theirs else 0.

Lemma negotiateHello_picks mine theirs xid incl addr :
  versions_ok mine -> versions_ok theirs -> 0 <= xid < 2 ^ 32 -> addr mod 8 = 0 ->
  includeInHelloMsg theirs (highestVersion theirs) = Some incl ->
  negotiateHello mine addr (hello_message theirs xid incl) = Some (picks mine theirs incl).
Proof.
  intros Hm Ht Hx Ha Hi. destruct (versions_ok_high _ Ht) as [Hh _].
  destruct (hello_message_read theirs xid incl Ht Hx) as (_ & _ & _ & _ & Ev & Hp). unfold negotiateHello.
  rewrite Ev, (Hp addr Ha). cbn [mbind option_bind]. unfold picks.
  destruct (includeInHelloMsg_spec theirs (highestVersion theirs)) as (incl' & Ei & Hiff); [lia|].
  assert (incl' = incl) as -> by congruence. destruct incl.
  - apply negotiate_bitmap; [|by destruct Ht as (_ & _ & ?)]. destruct (Z.lt_ge_cases (highestVersion theirs) 4) as [Hlt|]; [|done].
    discriminate (proj2 Hiff (or_introl Hlt)).
  - destruct (negotiate_plain mine (highestVersion theirs)) as (v & E & ->); [lia|done|]. exact E.
Qed.

Section Negotiation.
Context (a b : Z) (Ha : versions_ok a) (Hb : versions_ok b).

Lemma picks_own incl : picks a b incl <> 0 -> supports a (picks a b incl).
Proof.
  destruct (versions_ok_high a Ha) as [Hh Hs]. destruct (versions_ok_high b Hb) as [Hh' Hs']. unfold picks. destruct incl.
  - intros Hne. apply highestVersion_spec in Hne. by apply supports_inter in Hne as [? _].
  - destruct (_ <=? _); [done|]. destruct (Z.testbit a _) eqn:E; [|done]. intros _. split; [|done].
    destruct Hs'. lia.
Qed.

(** When the smaller of the two highest versions is common, it is picked. *)
Lemma picks_min incl : let m := Z.min (highestVersion a) (highestVersion b) in
  supports a m -> supports b m -> picks a b incl = m.
Proof.
  intros m Hma Hmb. unfold picks. destruct incl.
  - apply highestVersion_max; [by apply supports_inter|]. intros v [Hv1 Hv2]%supports_inter.
    pose proof (supports_high a v Hv1). pose proof (supports_high b v Hv2). unfold m. lia.
  - unfold m in *. destruct (Z.leb_spec (highestVersion a) (highestVersion b)); [lia|].
    rewrite Z.min_r in * by lia. destruct Hma as [_ ->]. done.
Qed.
End Negotiation.

(** The set of a side that leaves out its bitmap. *)
Lemma silent_set a : versions_ok a -> includeInHelloMsg a (highestVersion a) = Some false ->
  highestVersion a < 4 \/ (forall v, supports a v -> v = highestVersion a) \/ (forall v, 1 <= v <= highestVersion a -> supports a v).
Proof.
  intros Ha Hi. destruct (versions_ok_high a Ha) as [Hh _]. set (h := highestVersion a) in *.
  destruct (includeInHelloMsg_spec a h) as (i & E & Hiff); [lia|]. assert (i = false) as -> by congruence.
  destruct (proj1 Hiff eq_refl) as [?|[E2|E2]]; [by left|right; left|right; right].
  - intros v [Hv Ht]. rewrite E2, Z.pow2_bits_eqb in Ht by lia. lia.
  - intros v Hv. split; [unfold MaxVersionSupported; lia|]. rewrite E2. apply testbit_all_below; lia.
Qed.

(** One side heard a bitmap and the other did not. *)
Lemma picks_mixed a b : versions_ok a -> versions_ok b ->
  includeInHelloMsg a (highestVersion a) = Some false -> includeInHelloMsg b (highestVersion b) = Some true ->
  picks a b true <> 0 -> picks b a false <> 0 -> picks a b true = picks b a false.
Proof.
  intros Ha Hb Ia Ib Hna Hnb. destruct (versions_ok_high a Ha) as [Hha Hsa]. destruct (versions_ok_high b Hb) as [Hhb Hsb].
  assert (4 <= highestVersion b) as Hb4.
  { destruct (includeInHelloMsg_spec b (highestVersion b)) as (i & E & Hiff); [lia|].
    assert (i = true) as -> by congruence. destruct (Z.lt_ge_cases (highestVersion b) 4) as [Hlt|]; [|done].
    discriminate (proj2 Hiff (or_introl Hlt)). }
  assert (supports a (Z.min (highestVersion a) (highestVersion b)) /\ supports b (Z.min (highestVersion a) (highestVersion b)))
    as [Hm1 Hm2].
  2: { rewrite (picks_min a b true) by done. rewrite (picks_min b a false); rewrite ?(Z.min_comm (highestVersion b)); done. }
  pose proof Hna as Hc. unfold picks in Hc. apply highestVersion_spec in Hc. apply supports_inter in Hc as [Hc1 Hc2].
  revert Hnb. unfold picks. destruct (Z.leb_spec (highestVersion b) (highestVersion a)).
  - intros _. rewrite Z.min_r by done. split; [|done].
    destruct (silent_set a Ha Ia) as [?|[Hone|Hall]]; [lia| |apply Hall; lia].
    pose proof (Hone _ Hc1) as E. rewrite E in Hc2. pose proof (supports_high b _ Hc2).
    replace (highestVersion b) with (highestVersion a) by lia. done.
  - destruct (Z.testbit b (highestVersion a)) eqn:E; [|done]. intros _. rewrite Z.min_l by lia. split; [done|].
    split; [destruct Hsa; lia|done].
Qed.

(** When neither side sends a bitmap. *)
Lemma picks_silent a b : versions_ok a -> versions_ok b ->
  picks a b false <> 0 -> picks b a false <> 0 -> picks a b false = picks b a false.
Proof.
  intros Ha Hb. unfold picks. destruct (Z.leb_spec (highestVersion a) (highestVersion b)),
    (Z.leb_spec (highestVersion b) (highestVersion a)); try lia; [|];
    [destruct (Z.testbit b _)|destruct (Z.testbit a _)]; done.
Qed.

Lemma picks_agree a b ia ib : versions_ok a -> versions_ok b ->
  includeInHelloMsg a (highestVersion a) = Some ia -> includeInHelloMsg b (highestVersion b) = Some ib ->
  picks a b ib <> 0 -> picks b a ia <> 0 -> picks a b ib = picks b a ia.
Proof.
  intros Ha Hb Ia Ib Hna Hnb. destruct ia, ib.
  - unfold picks, versions_intersection. by rewrite Z.land_comm.
  - symmetry. by apply picks_mixed.
  - by apply picks_mixed.
  - by apply picks_silent.
Qed.

(** No common version is above the one that a side picks. *)
Lemma picks_highest a b incl c : picks a b incl <> 0 -> supports a c -> supports b c -> c <= picks a b incl.
Proof.
  intros Hne Hca Hcb. pose proof (supports_high a c Hca). pose proof (supports_high b c Hcb). unfold picks in *. destruct incl.
  - apply highestVersion_spec. by apply supports_inter.
  - destruct (_ <=? _); [lia|]. destruct (Z.testbit _ _); [lia|done].
Qed.

(** C11. Two sides with the version sets [a] and [b] exchange hellos, each built from
    its own set and sent over any channel. Whatever a side picks is a version of
    its own. When both pick one, they pick the same, which is the highest version
    that both support; and when the smaller of their highest versions is common,
    both pick it. *)
Theorem negotiation_agrees {W} `{WritableLaws W} a b (cha chb : W) addra addrb :
  versions_ok a -> versions_ok b -> addra mod 8 = 0 -> addrb mod 8 = 0 ->
  exists xa ba cha' ma xb bb chb' mb va vb,
    HelloBuilder_send (HelloBuilder_versions a) cha = Some (xa, ba, cha') /\ w_sent cha' = w_sent cha ++ ma /\
    HelloBuilder_send (HelloBuilder_versions b) chb = Some (xb, bb, chb') /\ w_sent chb' = w_sent chb ++ mb /\
    negotiateHello a addra mb = Some va /\ negotiateHello b addrb ma = Some vb /\
    (va <> 0 -> supports a va) /\ (vb <> 0 -> supports b vb) /\
    (va <> 0 -> vb <> 0 -> va = vb /\ forall c, supports a c -> supports b c -> c <= va) /\
    (let m := Z.min (highestVersion a) (highestVersion b) in supports a m -> supports b m -> va = m /\ vb = m).
Proof.
  intros Ha Hb Hla Hlb. destruct (hello_sent a cha Ha) as (ba & cha' & ia & Ia & Ea & Sa & _).
  destruct (hello_sent b chb Hb) as (bb & chb' & ib & Ib & Eb & Sb & _).
  exists (fst (w_nextXid cha)), ba, cha', (hello_message a (fst (w_nextXid cha)) ia).
  exists (fst (w_nextXid chb)), bb, chb', (hello_message b (fst (w_nextXid chb)) ib), (picks a b ib), (picks b a ia).
  rewrite !negotiateHello_picks by (done || apply w_xid_range). split_and!; try done.
  - by apply picks_own.
  - by apply picks_own.
  - intros Hna Hnb. split; [by apply picks_agree|]. intros c. by apply picks_highest.
  - intros m Hma Hmb. split; [by apply picks_min|]. unfold m in *. rewrite Z.min_comm in *. by apply picks_min.
Qed.

(** A hello that was received is read without leaving its buffer, whatever it
    holds; its set of versions is the first bitmap among its elements, and empty
    when the elements do not fill the message. *)
Theorem protocolVersions_spec addr buf :
  bytes_ok buf -> b_length buf = Some (zlen buf) -> 8 <= zlen buf ->
  exists b, Hello_protocolVersions addr buf = Some b /\ 0 <= b < 2 ^ 32 /\
    ((exists cs, hello_elements addr buf cs /\ b = first_bitmap cs) \/
     ((forall cs, ~ hello_elements addr buf cs) /\ b = VersionBitmapNone)).
Proof.
  intros Hb Hl H8. destruct (protocolVersions_read addr buf Hb Hl H8) as (b & E & Hc). exists b. split_and!; try done;
  destruct Hc as [(cs & (_ & Hd & _) & ->)|[_ ->]]; try done; apply first_bitmap_range; rewrite <- Hd; by apply Forall_drop.
Qed.

(** ** Witnesses *)

Lemma versions_1_4 : versions_ok (fromVector [1; 4]) /\ versions_ok (fromVector [1; 2; 3; 4; 5]).
Proof. split; apply fromVector_ok; try done; repeat constructor; done. Qed.

Lemma negotiation_agrees_witness :
  let a := fromVector [1; 4] in let b := fromVector [1; 2; 3; 4; 5] in
  exists xa ba cha' ma xb bb chb' mb va vb,
    HelloBuilder_send (HelloBuilder_versions a) (MemoryChannel_make 0) = Some (xa, ba, cha') /\ mc_buf cha' = [] ++ ma /\
    HelloBuilder_send (HelloBuilder_versions b) (MemoryChannel_make 0) = Some (xb, bb, chb') /\ mc_buf chb' = [] ++ mb /\
    negotiateHello a 4096 mb = Some va /\ negotiateHello b 8192 ma = Some vb /\ va = 4 /\ vb = 4.
Proof.
  destruct versions_1_4 as [Ha Hb]. intros a b.
  destruct (negotiation_agrees a b (MemoryChannel_make 0) (MemoryChannel_make 0) 4096 8192 Ha Hb eq_refl eq_refl)
    as (xa & ba & cha' & ma & xb & bb & chb' & mb & va & vb & H1 & H2 & H3 & H4 & H5 & H6 & _ & _ & _ & H7).
  exists xa, ba, cha', ma, xb, bb, chb', mb, va, vb. split_and!; try done; apply H7; split; vm_compute; done.
Defined.

(** A hello of version 1.3 with an unknown element and the bitmap of versions 1
    and 4. *)
Definition hello_1_4 : list Z :=
  [4; 0; 0; 24; 0; 0; 0; 1;  0; 9; 0; 6; 7; 7; 0; 0;  0; 1; 0; 8; 0; 0; 0; 0x12].

Lemma protocolVersions_witness :
  exists b, Hello_protocolVersions 4096 hello_1_4 = Some b /\ b = 0x12 /\ 0 <= b < 2 ^ 32.
Proof.
  destruct (protocolVersions_spec 4096 hello_1_4) as (b & E & Hr & _); [repeat constructor; unfold is_byte; lia|done|done|].
  exists b. split_and!; try done; [|lia..]. assert (Hello_protocolVersions 4096 hello_1_4 = Some 0x12) by done. congruence.
Defined.
