(* ===== verification/NormActions.v ===== *)
(** * Normalising OpenFlow 1.0 actions (include/ofp/normalize.h,
    src/ofp/normalize.cpp: [normActionsV1orV2] and what it calls)

    The actions of an OpenFlow 1.0 message are rewritten in place: the output
    action gets its 32-bit port, the actions that set a header field become
    set-field actions. The iterators are offsets into the buffer; an edit moves
    the end, and the loop goes on behind the rewritten action. *)

From S2P Require Import Prelude.
From S2P Require Import ByteOrder.
From S2P Require Import Hex.
From S2P Require Import Constants.
From S2P Require Import SmallBuffer.
From S2P Require Import Validation.
From S2P Require Import ProtocolRange.
From S2P Require Import Oxm.
From S2P Require Import Matches.
From S2P Require Import Actions.
From S2P Require Import MsgBuffer.


Definition v2_OFPAT_SET_VLAN_VID : Z := 1.
Definition v2_OFPAT_SET_VLAN_PCP : Z := 2.
Definition v2_OFPAT_SET_DL_SRC : Z := 3.
Definition v2_OFPAT_SET_DL_DST : Z := 4.
Definition v2_OFPAT_SET_NW_SRC : Z := 5.
Definition v2_OFPAT_SET_NW_DST : Z := 6.
Definition v2_OFPAT_SET_NW_TOS : Z := 7.
Definition v2_OFPAT_SET_NW_ECN : Z := 8.
Definition v2_OFPAT_SET_TP_SRC : Z := 9.
Definition v2_OFPAT_SET_TP_DST : Z := 10.
Definition v2_OFPAT_SET_MPLS_LABEL : Z := 13.
Definition v2_OFPAT_SET_MPLS_TC : Z := 14.

(** The port number of an OpenFlow 1.0 structure at [pos]. *)
Definition normPortNumberV1 (buf : list Z) (pos : Z) : option Z :=
  port16 ← rd16 buf pos;
  Some (if 0xFF00 <? port16 then Z.lor port16 0xFFFF0000 else port16).

Section Norm.
Context (le : bool) `{Uninit}.

(** [memcpy(&value, data, sizeof(value))] into a [Type::NativeType], and the
    bytes of [Type{value}]. A [Big] integer has the host's integer as its native
    type ([big] is its width); the address types and [VlanNumber] are their own. *)
Definition native_copy (big : option width) (v : list Z) : list Z :=
  match big with
  | Some w => host_store le w (Big_make le w (host_load le v) false)
  | None => v
  end.

(** The OXM list that [normSetField] builds: the field, padded so that it and
    the action's header fill a multiple of 8 bytes. *)
Definition set_field_list (oxm : Z) (big : option width) (v : list Z) : list Z :=
  let list := type_bytes oxm ++ native_copy big v in
  list ++ replicate (Z.to_nat (PadLength (4 + zlen list) - (4 + zlen list))) 0.

(** [normSetField<Type>]; [n] is [sizeof(Type)]. The result is the buffer, the
    new end and the change of length. *)
Definition normSetField (oxm n : Z) (big : option width) (buf : list Z) (iter iterEnd : Z)
    : option (list Z * Z * Z) :=
  size ← action_size buf iter;
  if negb (size mod 8 =? 0) then Some (buf, iterEnd, 0) else
  let valueLen := u64 (size - 4) in
  if n <=? valueLen then
    v ← slice buf (iter + 4) n;
    let list := set_field_list oxm big v in
    let lengthChange := zlen list - (size - 4) in
    assert! (0 <=? iter) && (iter <=? zlen buf) && (0 <=? iterEnd) && (iterEnd <=? zlen buf);;
    buf ← (if 0 <? lengthChange then b_insertUninitialized buf (iter + 4) lengthChange
           else if lengthChange <? 0 then b_remove buf iter (- lengthChange)
           else Some buf);
    assert! (iter <=? iterEnd + lengthChange);;
    assert! IsPtrAligned iter 8 && IsPtrAligned (iterEnd + lengthChange) 8;;
    buf ← wr buf iter (ActionType_bytes OFPAT_SET_FIELD (u16 (4 + zlen list)));
    buf ← wr buf (iter + 4) list;
    Some (buf, iterEnd + lengthChange, lengthChange)
  else Some (buf, iterEnd, 0).

Definition normOutput (buf : list Z) (iter iterEnd : Z) : option (list Z * Z * Z) :=
  type ← action_type buf iter; size ← action_size buf iter;
  if negb ((type =? OFPAT_OUTPUT) && (size =? 8)) then Some (buf, iterEnd, 0) else
  port ← normPortNumberV1 buf (iter + 4);
  assert! IsPtrAligned (iter + 6) 2;;
  maxlen ← rd16 buf (iter + 6);
  assert! (0 <=? iter) && (iter <=? zlen buf) && (0 <=? iterEnd) && (iterEnd <=? zlen buf);;
  buf ← b_insertUninitialized buf (iter + 4) 8;
  assert! (iter <=? iterEnd + 8);;
  assert! IsPtrAligned iter 8 && IsPtrAligned (iterEnd + 8) 8;;
  buf ← wr buf iter (output_action port maxlen);
  type ← action_type buf iter; size ← action_size buf iter;
  assert! (type =? OFPAT_OUTPUT) && (size =? 16);;
  Some (buf, iterEnd + 8, 8).

(** The type code of the later versions. *)
Definition norm_type (version type : Z) : Z :=
  if version =? OFP_VERSION_1 then
    if type =? v1_OFPAT_STRIP_VLAN then OFPAT_STRIP_VLAN_V1
    else if type =? v1_OFPAT_ENQUEUE then OFPAT_ENQUEUE_V1
    else if (v1_OFPAT_SET_DL_SRC <=? type) && (type <=? v1_OFPAT_SET_NW_TOS) then type - 1
    else type
  else type.

Definition normActionV1orV2 (type : Z) (buf : list Z) (iter iterEnd ipProto : Z)
    : option (list Z * Z * Z) :=
  version ← b_version buf;
  let type := norm_type version type in
  if type =? OFPAT_OUTPUT then normOutput buf iter iterEnd
  else if type =? v2_OFPAT_SET_VLAN_VID then normSetField OFB_VLAN_VID 2 None buf iter iterEnd
  else if type =? v2_OFPAT_SET_VLAN_PCP then normSetField OFB_VLAN_PCP 1 (Some W1) buf iter iterEnd
  else if type =? v2_OFPAT_SET_DL_SRC then normSetField OFB_ETH_SRC 6 None buf iter iterEnd
  else if type =? v2_OFPAT_SET_DL_DST then normSetField OFB_ETH_DST 6 None buf iter iterEnd
  else if type =? v2_OFPAT_SET_NW_SRC then normSetField OFB_IPV4_SRC 4 None buf iter iterEnd
  else if type =? v2_OFPAT_SET_NW_DST then normSetField OFB_IPV4_DST 4 None buf iter iterEnd
  else if type =? v2_OFPAT_SET_NW_TOS then normSetField OFB_IP_DSCP 1 (Some W1) buf iter iterEnd
  else if type =? v2_OFPAT_SET_NW_ECN then normSetField OFB_IP_ECN 1 (Some W1) buf iter iterEnd
  else if type =? v2_OFPAT_SET_TP_SRC then
    if ipProto =? PROTOCOL_TCP then normSetField OFB_TCP_SRC 2 (Some W2) buf iter iterEnd
    else if ipProto =? PROTOCOL_UDP then normSetField OFB_UDP_SRC 2 (Some W2) buf iter iterEnd
    else if ipProto =? PROTOCOL_ICMP then normSetField OFB_ICMPV4_TYPE 1 (Some W1) buf iter iterEnd
    else Some (buf, iterEnd, 0)
  else if type =? v2_OFPAT_SET_TP_DST then
    if ipProto =? PROTOCOL_TCP then normSetField OFB_TCP_DST 2 (Some W2) buf iter iterEnd
    else if ipProto =? PROTOCOL_UDP then normSetField OFB_UDP_DST 2 (Some W2) buf iter iterEnd
    else if ipProto =? PROTOCOL_ICMP then normSetField OFB_ICMPV4_CODE 1 (Some W1) buf iter iterEnd
    else Some (buf, iterEnd, 0)
  else Some (buf, iterEnd, 0).

Fixpoint norm_actions_loop (fuel : nat) (buf : list Z) (iter iterEnd ipProto lengthChange : Z)
    : option (list Z * Z) :=
  if iter <? iterEnd then
    match fuel with
    | O => None
    | S fuel' =>
        type ← action_type buf iter;
        '(buf, iterEnd, delta) ←
          (if (type <=? v1_OFPAT_ENQUEUE) || (type =? v2_OFPAT_SET_MPLS_LABEL) ||
              (type =? v2_OFPAT_SET_MPLS_TC)
           then normActionV1orV2 type buf iter iterEnd ipProto
           else Some (buf, iterEnd, 0));
        iter ← ProtocolIterator_next 4 2 8 (mkRange 0 buf) iter;
        norm_actions_loop fuel' buf iter iterEnd ipProto (lengthChange + delta)
    end
  else Some (buf, lengthChange).

(** [normActionsV1orV2] of the actions in [begin, end) of the buffer. *)
Definition normActionsV1orV2 (buf : list Z) (begin_ end_ ipProto : Z) : option (list Z * Z) :=
  norm_actions_loop (length buf) buf begin_ end_ ipProto 0.

(** ** Reference: what one action becomes *)

(** The field that an action sets: OXM type, size, and width of a [Big]. *)
Definition norm_field (version type ipProto : Z) : option (Z * Z * option width) :=
  let type := norm_type version type in
  if type =? v2_OFPAT_SET_VLAN_VID then Some (OFB_VLAN_VID, 2, None)
  else if type =? v2_OFPAT_SET_VLAN_PCP then Some (OFB_VLAN_PCP, 1, Some W1)
  else if type =? v2_OFPAT_SET_DL_SRC then Some (OFB_ETH_SRC, 6, None)
  else if type =? v2_OFPAT_SET_DL_DST then Some (OFB_ETH_DST, 6, None)
  else if type =? v2_OFPAT_SET_NW_SRC then Some (OFB_IPV4_SRC, 4, None)
  else if type =? v2_OFPAT_SET_NW_DST then Some (OFB_IPV4_DST, 4, None)
  else if type =? v2_OFPAT_SET_NW_TOS then Some (OFB_IP_DSCP, 1, Some W1)
  else if type =? v2_OFPAT_SET_NW_ECN then Some (OFB_IP_ECN, 1, Some W1)
  else if type =? v2_OFPAT_SET_TP_SRC then
    if ipProto =? PROTOCOL_TCP then Some (OFB_TCP_SRC, 2, Some W2)
    else if ipProto =? PROTOCOL_UDP then Some (OFB_UDP_SRC, 2, Some W2)
    else if ipProto =? PROTOCOL_ICMP then Some (OFB_ICMPV4_TYPE, 1, Some W1) else None
  else if type =? v2_OFPAT_SET_TP_DST then
    if ipProto =? PROTOCOL_TCP then Some (OFB_TCP_DST, 2, Some W2)
    else if ipProto =? PROTOCOL_UDP then Some (OFB_UDP_DST, 2, Some W2)
    else if ipProto =? PROTOCOL_ICMP then Some (OFB_ICMPV4_CODE, 1, Some W1) else None
  else None.

(** The action that replaces the action [x] (a whole element). *)
Definition norm_action (version ipProto : Z) (x : list Z) : list Z :=
  match rd16 x 0, rd16 x 2 with
  | Some type, Some size =>
      if v1_OFPAT_ENQUEUE <? type then x
      else if type =? OFPAT_OUTPUT then
        if size =? 8 then
          output_action (PortNumber_fromV1 (default 0 (rd16 x 4))) (default 0 (rd16 x 6))
        else x
      else match norm_field version type ipProto with
           | Some (oxm, n, big) =>
               if (size mod 8 =? 0) && (n <=? size - 4)
               then set_field oxm (native_copy big (default [] (slice x 4 n)))
               else x
           | None => x
           end
  | _, _ => x
  end.
End Norm.

(** ** The loop implements the reference *)

Section NormProofs.
Context (le : bool) `{UninitLaws}.

(** A width and the number of bytes it stands for. *)
Definition big_size (n : Z) (big : option width) : Prop :=
  match big with Some w => n = Z.of_nat (wbytes w) | None => True end.

Lemma native_copy_len n big v : big_size n big -> zlen v = n -> zlen (native_copy le big v) = n.
Proof.
  unfold big_size, native_copy. destruct big as [w|]; [|done]. intros -> _. unfold host_store.
  destruct le; unfold zlen; rewrite ?length_rev, be_bytes_length; done.
Qed.

Lemma native_copy_ok big v : bytes_ok v -> bytes_ok (native_copy le big v).
Proof.
  unfold native_copy, host_store. destruct big; [|done]. intros _. destruct le; [apply rev_ok|]; apply be_bytes_ok.
Qed.

Lemma norm_field_size version type ipProto oxm n big :
  norm_field version type ipProto = Some (oxm, n, big) ->
  (n = 1 \/ n = 2 \/ n = 4 \/ n = 6) /\ big_size n big /\ 0 <= oxm < 2 ^ 32 /\ oxm mod 256 = n.
Proof.
  unfold norm_field. intros E. repeat case_match; simplify_eq; (split_and!; [lia|done|by vm_compute..]).
Qed.

Lemma set_field_list_eq oxm n big v :
  n = 1 \/ n = 2 \/ n = 4 \/ n = 6 -> big_size n big -> zlen v = n ->
  zlen (set_field_list le oxm big v) = 12 /\
  ActionType_bytes OFPAT_SET_FIELD 16 ++ set_field_list le oxm big v = set_field oxm (native_copy le big v).
Proof.
  intros Hn Hb Hv. pose proof (native_copy_len n big v Hb Hv) as Hl.
  unfold set_field_list, set_field, type_bytes. rewrite !zlen_app, zlen_be_bytes, Hl.
  replace (PadLength (4 + (Z.of_nat 4 + n)) - (4 + (Z.of_nat 4 + n))) with (8 - n)
    by (by destruct Hn as [->|[->|[->| ->]]]).
  rewrite zlen_replicate. split; [lia|]. by rewrite <- !app_assoc.
Qed.

(** Overwriting sixteen bytes in two pieces. *)
Lemma write_twice pre y post h l :
  zlen y = 16 -> zlen h = 4 -> zlen l = 12 ->
  (b ← wr (pre ++ y ++ post) (zlen pre) h; wr b (zlen pre + 4) l) = Some (pre ++ (h ++ l) ++ post).
Proof.
  intros Hy Hh Hl. destruct (cut_at y 4) as (y1 & y2 & -> & Hy1); [lia|]. rewrite zlen_app in Hy.
  rewrite (wr_split _ (zlen pre) h pre y1 (y2 ++ post)) by (rewrite <- ?app_assoc; done || lia).
  cbn [mbind option_bind].
  rewrite (wr_split _ (zlen pre + 4) l (pre ++ h) y2 post); [by rewrite <- !app_assoc|by rewrite <- !app_assoc| |lia].
  rewrite zlen_app. lia.
Qed.

Section Step.
Context (pre x post : list Z) (R : Z).
Context (Hx : elem_ok 4 2 x) (Hpre : zlen pre mod 8 = 0) (HR : 0 <= R <= zlen post) (HR8 : R mod 8 = 0).
Let buf := pre ++ x ++ post.
Let iter := zlen pre.
Let iterEnd := zlen pre + (zlen x + R).

Lemma step_bounds :
  (0 <=? iter) && (iter <=? zlen buf) && (0 <=? iterEnd) && (iterEnd <=? zlen buf) = true.
Proof.
  unfold buf, iter, iterEnd. rewrite !zlen_app. pose proof (zlen_nonneg pre). pose proof (zlen_nonneg x).
  rewrite !(proj2 (Z.leb_le _ _)) by lia. done.
Qed.

Lemma step_aligned d : zlen x mod 8 = 0 -> d mod 8 = 0 -> IsPtrAligned iter 8 && IsPtrAligned (iterEnd + d) 8 = true.
Proof.
  intros Hx8 Hd. rewrite !IsPtrAligned_8. unfold iter, iterEnd. rewrite Hpre.
  replace ((zlen pre + (zlen x + R) + d) mod 8) with 0; [done|]. Z.div_mod_to_equations; lia.
Qed.

Lemma normSetField_step oxm n big size :
  n = 1 \/ n = 2 \/ n = 4 \/ n = 6 -> big_size n big -> rd16 x 2 = Some size ->
  let y := if (size mod 8 =? 0) && (n <=? size - 4)
           then set_field oxm (native_copy le big (default [] (slice x 4 n))) else x in
  normSetField le oxm n big buf iter iterEnd = Some (pre ++ y ++ post, iterEnd + (zlen y - zlen x), zlen y - zlen x).
Proof.
  intros Hn Hb Hs y. assert (y = if (size mod 8 =? 0) && (n <=? size - 4)
    then set_field oxm (native_copy le big (default [] (slice x 4 n))) else x) as Ey by done. clearbody y.
  destruct (action_elem x Hx) as (type & len & Et & El & Hr & Hp & Hle & Hx8 & Hx0).
  assert (len = size) as -> by congruence. destruct (action_reads pre x post Hx) as (_ & Rs & _).
  unfold normSetField. change (action_size buf iter = rd16 x 2) in Rs. rewrite Rs, Hs. cbn [mbind option_bind].
  assert (forall d, zlen y - zlen x = d -> y = x ->
    Some (buf, iterEnd, 0) = Some (pre ++ y ++ post, iterEnd + d, d)) as Hsame.
  { intros d <- ->. rewrite Z.sub_diag, Z.add_0_r. done. }
  destruct (Z.eqb_spec (size mod 8) 0) as [Hm|Hm]; cbn [negb].
  2: { by apply Hsame. }
  rewrite u64_small by lia. cbn [andb] in Ey.
  destruct (Z.leb_spec n (size - 4)) as [Hns|Hns]; [|by apply Hsame].
  assert (zlen x = size) as Hxs by (rewrite Hp; apply PadLength_fixed; lia).
  change (slice buf (iter + 4) n) with (slice (pre ++ x ++ post) (zlen pre + 4) n).
  rewrite slice_mid by lia. destruct (slice x 4 n) as [v|] eqn:Ev; [|by rewrite slice_some in Ev by lia].
  cbn [mbind option_bind default] in *. unfold id in Ey. apply slice_inv in Ev as (_ & _ & _ & _ & Hv).
  destruct (set_field_list_eq oxm n big v Hn Hb Hv) as [Hl Hy]. rewrite Hl.
  rewrite step_bounds. assert (zlen y = 16) as Zy by (rewrite Ey, <- Hy, zlen_app, Hl; done).
  assert (exists z, (if 0 <? 12 - (size - 4) then b_insertUninitialized buf (iter + 4) (12 - (size - 4))
     else if 12 - (size - 4) <? 0 then b_remove buf iter (- (12 - (size - 4))) else Some buf) =
     Some (pre ++ z ++ post) /\ zlen z = 16) as (z & -> & Hz).
  { unfold buf, iter. destruct (Z.ltb_spec 0 (12 - (size - 4))).
    - destruct (cut_at x 4) as (x1 & x2 & Ex & Hx1); [lia|]. unfold b_insertUninitialized.
      rewrite (proj2 (Z.leb_le _ _)) by lia.
      rewrite (b_insert_at _ (pre ++ x1) (x2 ++ post)); [|by rewrite Ex, <- !app_assoc|rewrite zlen_app; lia].
      exists (x1 ++ uninit (pre ++ x ++ post) (12 - (size - 4)) ++ x2). rewrite <- !app_assoc. split; [done|]. rewrite !zlen_app, uninit_len by lia.
      rewrite Ex, zlen_app in Hxs. lia.
    - destruct (Z.ltb_spec (12 - (size - 4)) 0).
      + destruct (cut_at x (size - 16)) as (x1 & x2 & Ex & Hx1); [lia|]. unfold b_remove.
        rewrite (proj2 (Z.leb_le _ _)) by lia. rewrite (b_replace_at _ pre x1 (x2 ++ post)); try lia.
        * exists x2. split; [done|]. rewrite Ex, zlen_app in Hxs. lia.
        * by rewrite Ex, <- !app_assoc.
      + exists x. split; [done|lia]. }
  cbn [mbind option_bind]. rewrite (proj2 (Z.leb_le iter _)) by (unfold iter, iterEnd; lia).
  rewrite step_aligned by (Z.div_mod_to_equations; lia). change (u16 (4 + 12)) with 16.
  pose proof (write_twice pre z post (ActionType_bytes OFPAT_SET_FIELD 16) (set_field_list le oxm big v) Hz eq_refl Hl) as Hw.
  fold iter in Hw. destruct (wr _ iter _) as [b1|]; [|done]. cbn [mbind option_bind] in *. rewrite Hw.
  cbn [mbind option_bind]. rewrite Hy, <- Ey, Zy, Hxs.
  by replace (12 - (size - 4)) with (16 - size) by lia.
Qed.

Lemma output_action_len port maxlen : zlen (output_action port maxlen) = 16.
Proof. unfold output_action, ActionType_bytes. by autorewrite with zlen. Qed.

Lemma output_action_head port maxlen :
  rd16 (output_action port maxlen) 0 = Some OFPAT_OUTPUT /\ rd16 (output_action port maxlen) 2 = Some 16.
Proof.
  unfold output_action, ActionType_bytes. rewrite <- !app_assoc. split; read_layout; by rewrite be_be_bytes_small.
Qed.

Lemma output_action_elem port maxlen : elem_ok 4 2 (output_action port maxlen).
Proof. exists 16. rewrite output_action_len. split_and!; [apply output_action_head|done..]. Qed.

Lemma normOutput_step size :
  rd16 x 0 = Some OFPAT_OUTPUT -> rd16 x 2 = Some size ->
  let y := if size =? 8 then output_action (PortNumber_fromV1 (default 0 (rd16 x 4))) (default 0 (rd16 x 6))
           else x in
  normOutput buf iter iterEnd = Some (pre ++ y ++ post, iterEnd + (zlen y - zlen x), zlen y - zlen x).
Proof.
  intros Ht Hs y. assert (y = if size =? 8 then output_action (PortNumber_fromV1 (default 0 (rd16 x 4)))
    (default 0 (rd16 x 6)) else x) as Ey by done. clearbody y.
  destruct (action_elem x Hx) as (type & len & Et & El & Hr & Hp & Hle & Hx8 & Hx0).
  destruct (action_reads pre x post Hx) as (Rt & Rs & _). unfold normOutput.
  change (action_type buf iter = rd16 x 0) in Rt. change (action_size buf iter = rd16 x 2) in Rs.
  rewrite Rt, Rs, Ht, Hs. cbn [mbind option_bind]. rewrite Z.eqb_refl. cbn [andb].
  destruct (Z.eqb_spec size 8) as [->|]; cbn [negb].
  2: { rewrite Ey, Z.sub_diag, Z.add_0_r. done. }
  assert (zlen x = 8) as Hx8' by (rewrite Hp; assert (len = 8) as -> by congruence; done).
  unfold normPortNumberV1, rd_be.
  change (slice buf (iter + 4) 2) with (slice (pre ++ x ++ post) (zlen pre + 4) 2).
  change (slice buf (iter + 6) 2) with (slice (pre ++ x ++ post) (zlen pre + 6) 2).
  rewrite !slice_mid by lia. fold (rd_be 2 x 4) (rd_be 2 x 6).
  destruct (rd_be_some 2 x 4) as [port Eport]; [lia..|]. destruct (rd_be_some 2 x 6) as [maxlen Emax]; [lia..|].
  rewrite Eport, Emax in *. cbn [mbind option_bind default] in *. unfold id in Ey. fold (PortNumber_fromV1 port).
  replace (IsPtrAligned (iter + 6) 2) with true.
  2: { unfold IsPtrAligned, iter. rewrite (land_ones_mod _ 1) by done. symmetry. apply Z.eqb_eq.
       Z.div_mod_to_equations; lia. }
  rewrite step_bounds. unfold b_insertUninitialized. change (0 <=? 8) with true. cbv iota.
  destruct (cut_at x 4) as (x1 & x2 & Ex & Hx1); [lia|].
  rewrite (b_insert_at buf (pre ++ x1) (x2 ++ post));
    [|unfold buf; by rewrite Ex, <- !app_assoc|rewrite zlen_app; unfold iter; lia].
  cbn [mbind option_bind]. rewrite (proj2 (Z.leb_le iter _)) by (unfold iter, iterEnd; lia).
  rewrite step_aligned by done. set (o := output_action _ _) in *.
  assert (zlen o = 16) as Ho by apply output_action_len.
  rewrite (wr_split _ iter o pre (x1 ++ uninit buf 8 ++ x2) post); [|by rewrite <- !app_assoc|done|].
  2: { rewrite !zlen_app, uninit_len, Ho by lia. rewrite Ex, zlen_app in Hx8'. lia. }
  cbn [mbind option_bind].
  destruct (action_reads pre o post (output_action_elem _ _)) as (Rt' & Rs' & _).
  fold iter in Rt', Rs'. rewrite Rt', Rs'. destruct (output_action_head (PortNumber_fromV1 port) maxlen) as [Ho1 Ho2].
  fold o in Ho1, Ho2. rewrite Ho1, Ho2. cbn [mbind option_bind]. rewrite Ey, Ho, Hx8'. done.
Qed.

Lemma norm_action_step version ipProto :
  rd8 pre 0 = Some version ->
  (type ← action_type buf iter;
   if (type <=? v1_OFPAT_ENQUEUE) || (type =? v2_OFPAT_SET_MPLS_LABEL) || (type =? v2_OFPAT_SET_MPLS_TC)
   then normActionV1orV2 le type buf iter iterEnd ipProto else Some (buf, iterEnd, 0)) =
  let y := norm_action le version ipProto x in
  Some (pre ++ y ++ post, iterEnd + (zlen y - zlen x), zlen y - zlen x).
Proof.
  intros Hv. destruct (action_elem x Hx) as (type & len & Et & El & Hr & Hp & Hle & Hx8 & Hx0).
  destruct (action_reads pre x post Hx) as (Rt & Rs & _). change (action_type buf iter = rd16 x 0) in Rt.
  rewrite Rt, Et. cbn [mbind option_bind].
  assert (b_version buf = Some version) as Hver.
  { unfold b_version, buf. rewrite rd8_app_l; [done|]. apply rd8_inv in Hv. lia. }
  assert (Some (buf, iterEnd, 0) = Some (pre ++ x ++ post, iterEnd + (zlen x - zlen x), zlen x - zlen x)) as Hsame.
  { by rewrite Z.sub_diag, Z.add_0_r. }
  unfold norm_action. rewrite Et, El. cbv zeta.
  destruct (Z.ltb_spec v1_OFPAT_ENQUEUE type) as [Hgt|Hle2].
  { assert (normActionV1orV2 le type buf iter iterEnd ipProto = Some (buf, iterEnd, 0)) as E.
    { unfold normActionV1orV2. rewrite Hver. cbn [mbind option_bind]. unfold norm_type.
      unfold v1_OFPAT_ENQUEUE, v1_OFPAT_STRIP_VLAN, v1_OFPAT_SET_NW_TOS in *.
      repeat rewrite (proj2 (Z.eqb_neq type _)) by (unfold OFPAT_OUTPUT; lia).
      rewrite (proj2 (Z.leb_gt type 8)), andb_false_r by lia. cbv iota. destruct (version =? _);
      unfold OFPAT_OUTPUT, v2_OFPAT_SET_VLAN_VID, v2_OFPAT_SET_VLAN_PCP, v2_OFPAT_SET_DL_SRC, v2_OFPAT_SET_DL_DST,
        v2_OFPAT_SET_NW_SRC, v2_OFPAT_SET_NW_DST, v2_OFPAT_SET_NW_TOS, v2_OFPAT_SET_NW_ECN,
        v2_OFPAT_SET_TP_SRC, v2_OFPAT_SET_TP_DST;
      repeat rewrite (proj2 (Z.eqb_neq type _)) by lia; done. }
    rewrite E. by destruct (_ || _). }
  rewrite (proj2 (Z.leb_le _ _)) by done. cbn [orb].
  destruct (Z.eqb_spec type OFPAT_OUTPUT) as [->|Hno].
  { unfold normActionV1orV2. rewrite Hver. cbn [mbind option_bind].
    replace (norm_type version OFPAT_OUTPUT) with OFPAT_OUTPUT by (unfold norm_type; by destruct (_ =? _)).
    change (OFPAT_OUTPUT =? OFPAT_OUTPUT) with true. cbv iota. by apply normOutput_step. }
  assert (normActionV1orV2 le type buf iter iterEnd ipProto =
    match norm_field version type ipProto with
    | Some (oxm, n, big) => normSetField le oxm n big buf iter iterEnd
    | None => Some (buf, iterEnd, 0) end) as ->.
  { unfold normActionV1orV2, norm_field. rewrite Hver. cbn [mbind option_bind].
    assert (norm_type version type =? OFPAT_OUTPUT = false) as ->.
    { apply Z.eqb_neq. unfold norm_type, OFPAT_OUTPUT, v1_OFPAT_SET_DL_SRC, OFPAT_STRIP_VLAN_V1, OFPAT_ENQUEUE_V1 in *.
      split_ifs; lia. }
    split_ifs; done. }
  destruct (norm_field version type ipProto) as [[[oxm n] big]|] eqn:Ef; [|done].
  destruct (norm_field_size _ _ _ _ _ _ Ef) as (Hn & Hb & _). by apply normSetField_step.
Qed.
End Step.

Lemma set_field_len oxm v : zlen v <= 8 -> zlen (set_field oxm v) = 16.
Proof. intros Hv. pose proof (zlen_nonneg v). unfold set_field, ActionType_bytes. autorewrite with zlen. lia. Qed.

Lemma set_field_head oxm v :
  rd16 (set_field oxm v) 0 = Some OFPAT_SET_FIELD /\ rd16 (set_field oxm v) 2 = Some 16 /\
  rd32 (set_field oxm v) 4 = Some (oxm mod 2 ^ 32).
Proof.
  unfold set_field, ActionType_bytes. rewrite <- !app_assoc.
  split_and!; read_layout; rewrite be_be_bytes; reflexivity.
Qed.

Lemma set_field_elem oxm v : zlen v <= 8 -> elem_ok 4 2 (set_field oxm v).
Proof. intros Hv. exists 16. rewrite set_field_len by done. split_and!; [apply set_field_head|done..]. Qed.

(** The three things that can become of an action. *)
Lemma norm_action_cases version ipProto x :
  elem_ok 4 2 x ->
  norm_action le version ipProto x = x \/
  (zlen x = 8 /\ exists port maxlen, norm_action le version ipProto x = output_action port maxlen) \/
  (exists type oxm n big v, rd16 x 0 = Some type /\ norm_field version type ipProto = Some (oxm, n, big) /\
     slice x 4 n = Some v /\ zlen v = n /\ norm_action le version ipProto x = set_field oxm (native_copy le big v)).
Proof.
  intros Hx. destruct (action_elem x Hx) as (type & len & Et & El & Hr & Hp & Hle & Hx8 & Hx0).
  unfold norm_action. rewrite Et, El. destruct (_ <? _); [by left|]. destruct (Z.eqb_spec type OFPAT_OUTPUT) as [_|_].
  { destruct (Z.eqb_spec len 8) as [->|]; [right; left|by left]. rewrite Hp. split; [done|eauto]. }
  destruct (norm_field version type ipProto) as [[[oxm n] big]|] eqn:Ef; [|by left].
  destruct ((len mod 8 =? 0) && (n <=? len - 4)) eqn:E; [|by left].
  apply andb_true_iff in E as [_ ?%Z.leb_le]. destruct (norm_field_size _ _ _ _ _ _ Ef) as (Hn & _ & _).
  right; right. exists type, oxm, n, big, (take (Z.to_nat n) (drop (Z.to_nat 4) x)).
  rewrite slice_some by lia. split_and!; try done. rewrite zlen_take, zlen_drop. lia.
Qed.

Lemma norm_action_elem version ipProto x :
  elem_ok 4 2 x -> elem_ok 4 2 (norm_action le version ipProto x) /\
    zlen (norm_action le version ipProto x) <= zlen x + 8.
Proof.
  intros Hx. destruct (action_elem x Hx) as (type & len & Et & El & Hr & Hp & Hle & Hx8 & Hx0).
  destruct (norm_action_cases version ipProto x Hx) as [->|[(Hx' & p & m & ->)|(t & oxm & n & big & v & _ & Ef & _ & Hv & ->)]].
  - split; [done|lia].
  - split; [apply output_action_elem|]. rewrite output_action_len. lia.
  - destruct (norm_field_size _ _ _ _ _ _ Ef) as (Hn & Hb & _).
    pose proof (native_copy_len n big v Hb Hv). split; [apply set_field_elem; lia|]. rewrite set_field_len; lia.
Qed.

Lemma set_field_bytes oxm v : bytes_ok v -> bytes_ok (set_field oxm v).
Proof.
  intros Hv. unfold set_field, ActionType_bytes. rewrite !Forall_app.
  split_and!; auto with ofp. by apply Forall_replicate.
Qed.

Lemma norm_action_bytes version ipProto x :
  elem_ok 4 2 x -> bytes_ok x -> bytes_ok (norm_action le version ipProto x).
Proof.
  intros Hx Hb. destruct (norm_action_cases version ipProto x Hx) as [->|[(_ & p & m & ->)|(t & oxm & n & big & v & _ & _ & Ev & _ & ->)]].
  - done.
  - unfold output_action, ActionType_bytes. rewrite !Forall_app. split_and!; auto with ofp. by apply Forall_replicate.
  - apply set_field_bytes, native_copy_ok. by eapply slice_ok.
Qed.

(** Every action grows by at most 8 bytes, so the list at most doubles. *)
Lemma norm_actions_growth version ipProto cs :
  Forall (elem_ok 4 2) cs ->
  Forall (elem_ok 4 2) (norm_action le version ipProto <$> cs) /\
  zlen (mjoin (norm_action le version ipProto <$> cs)) <= 2 * zlen (mjoin cs).
Proof.
  induction 1 as [|x cs Hx Hcs [IH1 IH2]]; [done|]. rewrite fmap_cons.
  destruct (norm_action_elem version ipProto x Hx) as [He Hl].
  destruct (action_elem x Hx) as (type & len & _ & _ & _ & _ & _ & Hx8 & _).
  split; [by constructor|].
  rewrite !zlen_mjoin_cons. lia.
Qed.

Lemma norm_loop_spec version ipProto post cs fuel pre ch :
  rd8 pre 0 = Some version -> zlen pre mod 8 = 0 -> Forall (elem_ok 4 2) cs -> (length cs <= fuel)%nat ->
  norm_actions_loop le fuel (pre ++ mjoin cs ++ post) (zlen pre) (zlen pre + zlen (mjoin cs)) ipProto ch =
  Some (pre ++ mjoin (norm_action le version ipProto <$> cs) ++ post,
        ch + (zlen (mjoin (norm_action le version ipProto <$> cs)) - zlen (mjoin cs))).
Proof.
  intros Hv Hp8 Hcs. revert fuel pre ch Hv Hp8.
  induction Hcs as [|x cs Hx Hcs IH]; intros fuel pre ch Hv Hp8 Hf.
  { change (mjoin []) with (@nil Z). change (mjoin (norm_action le version ipProto <$> [])) with (@nil Z).
    change (zlen []) with 0. destruct fuel; cbn [norm_actions_loop];
      rewrite Z.add_0_r, (proj2 (Z.ltb_ge _ _)), Z.sub_diag, Z.add_0_r by lia; done. }
  destruct fuel as [|fuel]; [simpl in Hf; lia|]. rewrite fmap_cons.
  set (y := norm_action le version ipProto x). set (ys := norm_action le version ipProto <$> cs) in *.
  change (mjoin (x :: cs)) with (x ++ mjoin cs). change (mjoin (y :: ys)) with (y ++ mjoin ys).
  destruct (action_elem x Hx) as (type & len & Et & _ & _ & _ & _ & Hx8 & _).
  pose proof (zlen_nonneg (mjoin cs)). pose proof (zlen_nonneg post).
  rewrite zlen_app. cbn [norm_actions_loop]. rewrite (proj2 (Z.ltb_lt _ _)) by lia.
  rewrite <- (app_assoc x).
  pose proof (norm_action_step pre x (mjoin cs ++ post) (zlen (mjoin cs)) Hx Hp8 ltac:(rewrite zlen_app; lia)
    (elems_mod8 4 2 cs Hcs) version ipProto Hv) as Hstep.
  destruct (action_type (pre ++ x ++ mjoin cs ++ post) (zlen pre)) as [t|]; [|done].
  cbn [mbind option_bind] in Hstep |- *. rewrite Hstep. cbv zeta. fold y. cbn [mbind option_bind].
  destruct (norm_action_elem version ipProto x Hx) as [Hy _]. fold y in Hy.
  destruct (elem_length 4 2 y Hy) as (_ & _ & Hy8).
  unfold ProtocolIterator_next. cbn [br_addr br_data]. rewrite Z.add_0_l, IsPtrAligned_8, Hp8. cbn [Z.eqb].
  destruct Hy as (e & Hd & H4 & He & Hl).
  destruct (element_size_declared 4 2 8 (mkRange 0 (pre ++ y ++ mjoin cs ++ post)) action_params (zlen pre) e)
    as [Hes _]; [|lia|lia|]; [by apply (declared_elem 4 2 action_params)|].
  cbn [br_data] in Hes. rewrite Hes. cbn [mbind option_bind Z.eqb Pos.eqb]. rewrite <- Hl.
  rewrite (app_assoc pre y), <- zlen_app.
  replace (zlen pre + (zlen x + zlen (mjoin cs)) + (zlen y - zlen x)) with (zlen (pre ++ y) + zlen (mjoin cs))
    by (rewrite zlen_app; lia).
  rewrite IH.
  - rewrite <- !app_assoc, !zlen_app. do 2 f_equal. lia.
  - rewrite rd8_app_l; [done|]. apply rd8_inv in Hv. lia.
  - rewrite zlen_app, Zplus_mod, Hp8, Hy8. done.
  - simpl in Hf. lia.
Qed.
End NormProofs.

(** The value is copied unchanged, unless it is a [Big] integer of more than
    one byte on a little-endian host: then its bytes are reversed. *)
Lemma native_copy_big le w v :
  length v = wbytes w -> bytes_ok v -> native_copy le (Some w) v = if le then rev v else v.
Proof.
  intros Hl Hb. unfold native_copy, Big_make. rewrite HostSwap_load by done. unfold host_store.
  rewrite <- Hl, be_bytes_be by done. done.
Qed.

Lemma native_copy_id le n big v :
  big_size n big -> zlen v = n -> bytes_ok v -> le = false \/ big <> Some W2 -> n <= 2 ->
  native_copy le big v = v.
Proof.
  intros Hs Hl Hb Hc Hn. destruct big as [w|]; [|done]. simpl in Hs.
  rewrite native_copy_big by (done || unfold zlen in *; lia). destruct le; [|done].
  destruct Hc as [|Hw]; [done|]. destruct w; simpl in *; try congruence; try (unfold zlen in *; lia).
  destruct v as [|a [|b v]]; unfold zlen in *; simpl in *; try lia. done.
Qed.

(** The IP protocol that a transport field belongs to. *)
Definition field_proto (oxm : Z) : option Z :=
  if (oxm =? OFB_TCP_SRC) || (oxm =? OFB_TCP_DST) then Some PROTOCOL_TCP
  else if (oxm =? OFB_UDP_SRC) || (oxm =? OFB_UDP_DST) then Some PROTOCOL_UDP
  else if (oxm =? OFB_ICMPV4_TYPE) || (oxm =? OFB_ICMPV4_CODE) then Some PROTOCOL_ICMP
  else None.

(** The fields whose value class is a 16-bit [Big] integer. *)
Definition port_field (oxm : Z) : bool :=
  (oxm =? OFB_TCP_SRC) || (oxm =? OFB_TCP_DST) || (oxm =? OFB_UDP_SRC) || (oxm =? OFB_UDP_DST).

Lemma v1_field_norm oxm code n ipProto :
  v1_set_action oxm = Some (code, n) -> default ipProto (field_proto oxm) = ipProto ->
  code <= v1_OFPAT_ENQUEUE /\ code <> OFPAT_OUTPUT /\
  exists big, norm_field OFP_VERSION_1 code ipProto = Some (oxm, n, big) /\
    (big = Some W2 <-> port_field oxm = true) /\ (big = None \/ n <= 2).
Proof.
  unfold v1_set_action. intros E Hp. repeat case_match; simplify_eq;
    repeat match goal with E : (_ =? _) = true |- _ => apply Z.eqb_eq in E; subst oxm
           | E : (_ =? _) = false |- _ => clear E end;
    cbv in Hp; try subst ipProto; (split; [by vm_compute|]); (split; [by vm_compute|]);
    eexists; (split; [by vm_compute|]); (split; [by vm_compute|]); (by left) || (right; by vm_compute).
Qed.

Lemma v1_set_field oxm code n v :
  0 <= oxm < 2 ^ 32 -> v1_set_action oxm = Some (code, n) -> zlen v = n ->
  v1_bytes (set_field oxm v) = ActionType_bytes code (if n =? 6 then 16 else 8) ++ v ++
    replicate (Z.to_nat ((if n =? 6 then 16 else 8) - (4 + n))) 0.
Proof.
  intros Ho Hv Hl. destruct (v1_set_action_size oxm code n Hv) as (_ & _ & Hn & _).
  assert (zlen v <= 8) as Hl8 by lia. destruct (set_field_head oxm v) as (Ht & Hs & Hf).
  rewrite Z.mod_small in Hf by done.
  pose proof (set_field_elem oxm v Hl8) as He. destruct (translated_action _ He) as [(Ht' & _)|[(_ & _ & oxm' & code' & n' & v' & Hf' & Hv' & Hs' & _ & ->)|(Hno & _)]].
  - split; [by rewrite set_field_len|]. intros _. rewrite set_field_len by done. split; [done|]. eauto.
  - rewrite Ht in Ht'. done.
  - rewrite Hf in Hf'. injection Hf' as <-. rewrite Hv in Hv'. injection Hv' as <- <-.
    assert (v' = v) as ->; [|done]. unfold set_field, ActionType_bytes in Hs'. revert Hs'.
    rewrite <- !app_assoc. read_layout. congruence.
  - by rewrite Ht in Hno.
Qed.

(** Reading back an action that was written for OpenFlow 1.0. *)
Lemma action_v1_back le oxm code n v ipProto port maxlen :
  v1_set_action oxm = Some (code, n) -> 0 <= oxm < 2 ^ 32 -> zlen v = n -> bytes_ok v ->
  default ipProto (field_proto oxm) = ipProto -> le = false \/ port_field oxm = false ->
  0 <= port < 2 ^ 16 -> 0 <= maxlen < 2 ^ 16 ->
  norm_action le OFP_VERSION_1 ipProto (v1_bytes (set_field oxm v)) = set_field oxm v /\
  norm_action le OFP_VERSION_1 ipProto (v1_bytes (output_action (PortNumber_fromV1 port) maxlen)) =
    output_action (PortNumber_fromV1 port) maxlen.
Proof.
  intros Hv Ho Hl Hb Hp Hle Hport Hmax.
  destruct (v1_set_action_size oxm code n Hv) as (_ & Hc & Hn & _).
  destruct (v1_field_norm oxm code n ipProto Hv Hp) as (Hc1 & Hc2 & big & Hf & Hw & Hbig).
  destruct (norm_field_size _ _ _ _ _ _ Hf) as (_ & Hbs & _).
  split.
  - rewrite (v1_set_field oxm code n v) by done. set (L := if n =? 6 then 16 else 8).
    assert (n <= L - 4 /\ L mod 8 = 0 /\ 8 <= L <= 16) as (HL & HL8 & HLr).
    { unfold L. by destruct Hn as [->|[->|[->| ->]]]. }
    set (x := ActionType_bytes code L ++ v ++ replicate (Z.to_nat (L - (4 + n))) 0).
    assert (rd16 x 0 = Some code /\ rd16 x 2 = Some L /\ slice x 4 n = Some v) as (E0 & E2 & E4).
    { unfold x, ActionType_bytes. rewrite <- !app_assoc. split_and!; read_layout; try done;
        by rewrite be_be_bytes_small by lia. }
    unfold norm_action. rewrite E0, E2, Hf. cbv iota. rewrite E4. rewrite (proj2 (Z.ltb_ge _ _)) by done.
    rewrite (proj2 (Z.eqb_neq _ _)) by done. rewrite HL8, (proj2 (Z.leb_le _ _)) by done. cbn [Z.eqb andb default].
    f_equal. unfold id. destruct big as [w|]; [|done]. destruct Hbig as [|Hn2]; [done|].
    apply (native_copy_id le n); try done. destruct Hle as [|Hpf]; [by left|right]. intros ?%Hw. congruence.
  - pose proof (PortNumber_fromV1_range port Hport) as Hr. set (p := PortNumber_fromV1 port) in *.
    destruct (output_action_head p maxlen) as [Ht Hs].
    assert (v1_bytes (output_action p maxlen) = ActionType_bytes OFPAT_OUTPUT 8 ++ be_bytes 2 port ++ be_bytes 2 maxlen) as ->.
    { unfold v1_bytes, write_action_V1, action_type, action_size. change (0 + 2) with 2. rewrite Ht, Hs.
      cbn [mbind option_bind Z.eqb andb Pos.eqb]. change (OFPAT_OUTPUT =? OFPAT_OUTPUT) with true. cbn [andb].
      unfold write_output_V1.
      assert (rd32 (output_action p maxlen) (0 + 4) = Some p /\ rd16 (output_action p maxlen) (0 + 8) = Some maxlen) as [-> ->].
      { unfold output_action, ActionType_bytes. rewrite <- !app_assoc. split; read_layout; by rewrite be_be_bytes_small. }
      cbn [mbind option_bind default]. unfold id. fold (PortNumber_toV1 p). unfold p.
      by rewrite PortNumber_v1_roundtrip. }
    set (x := ActionType_bytes OFPAT_OUTPUT 8 ++ _).
    assert (rd16 x 0 = Some OFPAT_OUTPUT /\ rd16 x 2 = Some 8 /\ rd16 x 4 = Some port /\ rd16 x 6 = Some maxlen)
      as (E0 & E2 & E4 & E6).
    { unfold x, ActionType_bytes. rewrite <- !app_assoc. split_and!; read_layout; by rewrite be_be_bytes_small. }
    unfold norm_action. by rewrite E0, E2, E4, E6.
Qed.

(** An action of OpenFlow 1.0 that was written from the internal form is
    normalised to that form again: an output to any port that 1.0 has, and
    every set-field that 1.0 has an action for, when the flow's IP protocol is
    the field's. The TCP and UDP ports are excepted on a little-endian host. *)
Theorem action_v1_roundtrip le oxm code n v ipProto port maxlen :
  v1_set_action oxm = Some (code, n) -> 0 <= oxm < 2 ^ 32 -> zlen v = n -> bytes_ok v ->
  default ipProto (field_proto oxm) = ipProto -> le = false \/ port_field oxm = false ->
  0 <= port < 2 ^ 16 -> 0 <= maxlen < 2 ^ 16 ->
  norm_action le OFP_VERSION_1 ipProto (v1_bytes (set_field oxm v)) = set_field oxm v /\
  norm_action le OFP_VERSION_1 ipProto (v1_bytes (output_action (PortNumber_fromV1 port) maxlen)) =
    output_action (PortNumber_fromV1 port) maxlen.
Proof. apply action_v1_back. Qed.

(** The bytes of a message are more than its actions are many. *)
Lemma actions_fuel pre cs post :
  Forall (elem_ok 4 2) cs -> (length cs <= length (pre ++ mjoin cs ++ post))%nat.
Proof.
  intros Hcs. rewrite !length_app.
  enough (length cs <= length (mjoin cs))%nat by lia. induction Hcs as [|x cs Hx Hcs IH]; [done|].
  apply elem_length in Hx as (_ & Hx & _). change (mjoin (x :: cs)) with (x ++ mjoin cs).
  rewrite length_app. unfold zlen in Hx. cbn [length]. lia.
Qed.

(** C15. The in-place loop is the reference applied to every action: on any
    sequence of whole actions between [pre] (which starts with the message
    header) and [post] it terminates without leaving the buffer, replaces each
    action by its [norm_action], leaves everything else alone, whatever the
    uninitialized bytes were, and returns the change of length. The result is
    again a sequence of whole actions, at most twice as long. *)
Theorem normActions_reference le `{UninitLaws} version ipProto pre cs post :
  rd8 pre 0 = Some version -> zlen pre mod 8 = 0 -> Forall (elem_ok 4 2) cs ->
  let cs' := norm_action le version ipProto <$> cs in
  normActionsV1orV2 le (pre ++ mjoin cs ++ post) (zlen pre) (zlen pre + zlen (mjoin cs)) ipProto =
    Some (pre ++ mjoin cs' ++ post, zlen (mjoin cs') - zlen (mjoin cs)) /\
  Forall (elem_ok 4 2) cs' /\ zlen (mjoin cs') <= 2 * zlen (mjoin cs).
Proof.
  intros Hv Hp Hcs cs'. split; [|by apply norm_actions_growth].
  unfold normActionsV1orV2. rewrite (norm_loop_spec le version) by (done || by apply actions_fuel).
  done.
Qed.

(** Uninitialized bytes of a fixed value. *)
#[export] Instance fill_uninit : Uninit := {| uninit := fun _ n => replicate (Z.to_nat n) 0xAA |}.

#[export] Instance fill_uninit_laws : UninitLaws.
Proof.
  constructor.
  - intros buf n Hn. unfold uninit, fill_uninit. rewrite zlen_replicate. lia.
  - intros buf n. apply Forall_replicate. unfold is_byte. lia.
Qed.

(** OpenFlow 1.0: set the source address, set a transport port to 80, output. *)
Definition v1_actions : list (list Z) :=
  [ActionType_bytes v1_OFPAT_SET_DL_SRC 16 ++ [0; 27; 33; 1; 2; 3; 0; 0; 0; 0; 0; 0];
   ActionType_bytes v1_OFPAT_SET_TP_DST 8 ++ [0; 80; 0; 0];
   ActionType_bytes OFPAT_OUTPUT 8 ++ [0xff; 0xfd; 0; 128]].

Lemma normActions_reference_witness :
  normActionsV1orV2 false ([1; 14; 0; 40; 0; 0; 0; 1] ++ mjoin v1_actions ++ []) 8 (8 + 32) PROTOCOL_TCP =
  Some ([1; 14; 0; 40; 0; 0; 0; 1] ++ mjoin example_actions, 16).
Proof.
  refine (eq_trans (proj1 (normActions_reference false 1 PROTOCOL_TCP [1; 14; 0; 40; 0; 0; 0; 1] v1_actions [] _ _ _)) _).
  - reflexivity.
  - reflexivity.
  - repeat constructor; [exists 16|exists 8|exists 8]; by vm_compute.
  - by vm_compute.
Defined.

Lemma action_v1_roundtrip_witness :
  norm_action true 1 PROTOCOL_ICMP (v1_bytes (set_field OFB_ETH_SRC [0; 27; 33; 1; 2; 3])) =
    set_field OFB_ETH_SRC [0; 27; 33; 1; 2; 3] /\
  norm_action true 1 PROTOCOL_ICMP (v1_bytes (output_action (PortNumber_fromV1 0xfffd) 128)) =
    output_action (PortNumber_fromV1 0xfffd) 128.
Proof.
  apply (action_v1_roundtrip true OFB_ETH_SRC v1_OFPAT_SET_DL_SRC 6 [0; 27; 33; 1; 2; 3] PROTOCOL_ICMP 0xfffd 128);
    try reflexivity; try lia; try bytes; try (by vm_compute). by right.
Defined.

(** On a little-endian host the port of every transport action comes out with
    its bytes swapped: [normSetField] copies the big-endian value into a native
    integer and converts that to big-endian again. Setting TCP port 80 becomes
    setting port 20480, and writing the message back for a 1.0 peer keeps the
    wrong port. *)
Theorem transport_port_swapped a b :
  is_byte a -> is_byte b ->
  norm_action true OFP_VERSION_1 PROTOCOL_TCP (v1_bytes (set_field OFB_TCP_DST [a; b])) =
    set_field OFB_TCP_DST [b; a] /\
  norm_action false OFP_VERSION_1 PROTOCOL_TCP (v1_bytes (set_field OFB_TCP_DST [a; b])) =
    set_field OFB_TCP_DST [a; b].
Proof.
  intros Ha Hb. assert (bytes_ok [a; b]) as Hab by bytes.
  assert (forall le, norm_action le OFP_VERSION_1 PROTOCOL_TCP (v1_bytes (set_field OFB_TCP_DST [a; b])) =
    set_field OFB_TCP_DST (native_copy le (Some W2) [a; b])) as E.
  { intros le. rewrite (v1_set_field OFB_TCP_DST v1_OFPAT_SET_TP_DST 2) by done. done. }
  rewrite !E, !native_copy_big by done. done.
Qed.

Lemma transport_port_swapped_witness :
  norm_action true 1 PROTOCOL_TCP (v1_bytes (set_field OFB_TCP_DST [0; 80])) = set_field OFB_TCP_DST [80; 0].
Proof. apply (transport_port_swapped 0 80); unfold is_byte; lia. Defined.
