(* ===== verification/Normalize.v ===== *)
(** * Normalising received messages (src/ofp/normalize.cpp)

    A received message of an older version is rewritten in place to the
    layout of the newest version that the rest of the library reads. Each
    handler is a function on the message's buffer; a structural error is
    recorded in the version byte of the header, which [Message::castMessage]
    then refuses. [None] is an access outside the buffer or a failing
    assertion. *)

From S2P Require Import Prelude.
From S2P Require Import ByteOrder.
From S2P Require Import Hex.
From S2P Require Import Constants.
From S2P Require Import SmallBuffer.
From S2P Require Import Validation.
From S2P Require Import ProtocolRange.
From S2P Require Import Ports.
From S2P Require Import Oxm.
From S2P Require Import Matches.
From S2P Require Import Actions.
From S2P Require Import Instructions.
From S2P Require Import MsgBuffer.
From S2P Require Import NormActions.

Definition OFPMP_FLOW_DESC : Z := 1.
Definition OFPMP_AGGREGATE_STATS : Z := 2.
Definition OFPMP_TABLE_STATS : Z := 3.
Definition OFPMP_PORT_STATS : Z := 4.
Definition OFPMP_QUEUE_STATS : Z := 5.
Definition OFPMP_GROUP_STATS : Z := 6.
Definition OFPMP_PORT_DESC : Z := 13.

Definition sizeof_FeaturesReply : Z := 32.
Definition sizeof_MultipartReply : Z := 16.
Definition sizeof_MultipartRequest : Z := 16.
Definition sizeof_QueueGetConfigReply : Z := 16.
Definition UnpaddedSizeVersion1 : Z := 12.

Definition markInputTooBig (buf : list Z) : option (list Z) :=
  v ← b_version buf; b_setVersion buf (Z.lor kTooBigErrorFlag v).

Definition markInputInvalid (buf : list Z) : option (list Z) :=
  v ← b_version buf; b_setVersion buf (Z.lor kInvalidErrorFlag v).

(** [requestType] and [replyType] of a multipart message. *)
Definition multipartType (buf : list Z) : option Z := rd16 buf 8.

Section Normalize.
Context (le : bool) `{Uninit}.

(** ** Ports *)

(** The loop that collects the converted ports: [count] structures of [size]
    bytes from [p] on. *)
Fixpoint convert_ports (conv : list Z -> Z -> option (list Z)) (size : Z) (count : nat) (buf : list Z)
    (p : Z) (ports : list Z) : option (list Z) :=
  match count with
  | O => Some ports
  | S count' => x ← conv buf p; convert_ports conv size count' buf (p + size) (ports ++ x)
  end.

Definition convert_V1 (buf : list Z) (p : Z) : option (list Z) :=
  portV1 ← PortV1_at buf p; Some (PortBuilder_copyTo (PortBuilder_of_V1 portV1)).
Definition convert_V2 (buf : list Z) (p : Z) : option (list Z) :=
  portV2 ← PortV2_at buf p; Some (PortBuilder_copyTo (PortBuilder_of_V2 portV2)).

(** Replace the tail of the message behind [header] bytes by the new list. *)
Definition store_ports (header portListSize : Z) (ports buf : list Z) : option (list Z) :=
  buf ← b_addUninitialized buf (zlen ports - portListSize);
  assert! (zlen buf =? header + zlen ports);;
  wr buf header ports.

Definition normalizeFeaturesReplyV1 (buf : list Z) : option (list Z) :=
  length ← b_length buf;
  if length <? sizeof_FeaturesReply then markInputInvalid buf else
  let portListSize := length - sizeof_FeaturesReply in
  if negb (portListSize mod sizeof_PortV1 =? 0) then markInputInvalid buf else
  let portCount := portListSize / sizeof_PortV1 in
  ports ← convert_ports convert_V1 sizeof_PortV1 (Z.to_nat portCount) buf sizeof_FeaturesReply [];
  if 65535 - sizeof_FeaturesReply <? zlen ports then markInputTooBig buf
  else store_ports sizeof_FeaturesReply portListSize ports buf.

Definition normalizeFeaturesReplyV2 (buf : list Z) : option (list Z) :=
  length ← b_length buf;
  if length <? sizeof_FeaturesReply then markInputInvalid buf else
  let portListSize := length - sizeof_FeaturesReply in
  if negb (portListSize mod sizeof_PortV2 =? 0) then markInputInvalid buf else
  let portCount := portListSize / sizeof_PortV2 in
  ports ← convert_ports convert_V2 sizeof_PortV2 (Z.to_nat portCount) buf sizeof_FeaturesReply [];
  if 65535 - sizeof_FeaturesReply <? zlen ports then markInputTooBig buf
  else store_ports sizeof_FeaturesReply portListSize ports buf.

Definition normalizeMPPortDescReplyV1 (buf : list Z) : option (list Z) :=
  let portListSize := zlen buf - sizeof_MultipartReply in
  if negb (portListSize mod sizeof_PortV1 =? 0) then markInputInvalid buf else
  let portCount := portListSize / sizeof_PortV1 in
  ports ← convert_ports convert_V1 sizeof_PortV1 (Z.to_nat portCount) buf sizeof_MultipartReply [];
  store_ports sizeof_MultipartReply portListSize ports buf.

Definition normalizeMPPortDescReplyV4 (buf : list Z) : option (list Z) :=
  let portListSize := zlen buf - sizeof_MultipartReply in
  if negb (portListSize mod sizeof_PortV2 =? 0) then markInputInvalid buf else
  let portCount := portListSize / sizeof_PortV2 in
  ports ← convert_ports convert_V2 sizeof_PortV2 (Z.to_nat portCount) buf sizeof_MultipartReply [];
  store_ports sizeof_MultipartReply portListSize ports buf.

Definition normalizePortStatusV1 (buf : list Z) : option (list Z) :=
  length ← b_length buf;
  if negb (length =? 16 + sizeof_PortV1) then markInputInvalid buf else
  port ← convert_V1 buf 16;
  buf ← b_addUninitialized buf (DefaultSizeEthernet - sizeof_PortV1);
  buf ← wr buf 16 port;
  assert! (zlen buf =? 16 + DefaultSizeEthernet);; Some buf.

Definition normalizePortStatusV2 (buf : list Z) : option (list Z) :=
  length ← b_length buf;
  if negb (length =? 16 + sizeof_PortV2) then markInputInvalid buf else
  port ← convert_V2 buf 16;
  buf ← b_addUninitialized buf (DefaultSizeEthernet - sizeof_PortV2);
  buf ← wr buf 16 port;
  assert! (zlen buf =? 16 + DefaultSizeEthernet);; Some buf.

Definition normalizePortModV1 (buf : list Z) : option (list Z) :=
  length ← b_length buf;
  if length <? 32 then markInputInvalid buf else
  inPort ← normPortNumberV1 buf 8;
  buf ← b_insertUninitialized buf 16 8;
  buf ← b_memcpy buf 16 10 6;
  buf ← wr buf 8 (be_bytes 4 inPort);
  buf ← b_memset buf 12 0 4;
  buf ← b_memset buf 22 0 2;
  advertise ← rd32 buf 32;
  buf ← wr buf 32 (be_bytes 4 0x00000008);
  wr buf 36 (be_bytes 4 (OFPPortFeaturesFlagsConvertFromV1 advertise)).

Definition normalizePortModV2 (buf : list Z) : option (list Z) :=
  length ← b_length buf;
  if length <? 40 then markInputInvalid buf else
  advertise ← rd32 buf 32;
  buf ← wr buf 32 (be_bytes 4 0x00000008);
  wr buf 36 (be_bytes 4 advertise).

(** ** Messages with a match and actions *)

(** [Validation context{nullptr, &error}]: the error is not read; the queues
    are checked with [Validation context]. *)
Definition local_context : Validation := Validation_make None (Some 0).
Definition default_context : Validation := Validation_make None None.

Definition normalizeFlowModV1 (buf : list Z) : option (list Z) :=
  length ← b_length buf;
  if length <? 72 then markInputInvalid buf else
  if 65535 - 72 <? zlen buf then markInputTooBig buf else
  let origSize := zlen buf in
  assert! (72 <=? origSize);;
  origMatch ← OriginalMatch_at buf sizeof_Header;
  stdMatch ← StandardMatch_of_original origMatch;
  out_port ← normPortNumberV1 buf 68;
  buf ← b_memcpy buf 8 48 8;
  buf ← wr buf 16 (replicate 8 0xff);
  buf ← b_memcpy buf 24 56 12;
  buf ← wr buf 36 (be_bytes 4 out_port);
  buf ← b_memset buf 40 0 4;
  buf ← b_memcpy buf 44 70 2;
  buf ← b_memset buf 46 0 2;
  let actLen := u16 (origSize - 72) in
  if negb (actLen mod 8 =? 0) then markInputInvalid buf else
  let needed := 64 + if 0 <? actLen then 8 else 0 in
  buf ← b_insertUninitialized buf 48 needed;
  buf ← wr buf 48 (StandardMatch_bytes stdMatch);
  if 0 <? actLen then
    actions ← slice buf 144 actLen;
    '(ok, _) ← ActionRange_validateInput (mkRange 144 actions) local_context;
    if negb (ok : bool) then markInputInvalid buf else
    '(buf, delta) ← normActionsV1orV2 le buf 144 (144 + actLen) (sm_nw_proto stdMatch);
    wr buf 136 (instruction_header OFPIT_APPLY_ACTIONS (u16 (actLen + 8 + delta)))
  else Some buf.

Definition normalizeExperimenterV1 (buf : list Z) : option (list Z) :=
  length ← b_length buf;
  if length <? 12 then markInputInvalid buf else
  if 65535 - 4 <? length then markInputTooBig buf else
  b_insert buf 12 (replicate 4 0).

Definition normalizePacketOutV1 (buf : list Z) : option (list Z) :=
  length ← b_length buf;
  if length <? 16 then markInputInvalid buf else
  if 65535 - 8 <? zlen buf then markInputTooBig buf else
  inPort ← normPortNumberV1 buf 12;
  actionLen ← rd16 buf 14;
  if negb (actionLen mod 8 =? 0) then markInputInvalid buf else
  if zlen buf <? 16 + actionLen then markInputInvalid buf else
  buf ← b_insertUninitialized buf 12 8;
  buf ← wr buf 12 (be_bytes 4 inPort);
  buf ← b_memset buf 18 0 6;
  let finish (buf : list Z) (actionLen : Z) := wr buf 16 (be_bytes 2 actionLen) in
  if 0 <? actionLen then
    actions ← slice buf 24 actionLen;
    '(ok, _) ← ActionRange_validateInput (mkRange 24 actions) local_context;
    if negb (ok : bool) then markInputInvalid buf else
    '(buf, lengthChange) ← normActionsV1orV2 le buf 24 (24 + actionLen) 0;
    finish buf (u16 (actionLen + lengthChange))
  else finish buf actionLen.

Definition normalizeFlowRemovedV1 (buf : list Z) : option (list Z) :=
  length ← b_length buf;
  if negb (length =? 88) then markInputInvalid buf else
  assert! (zlen buf =? 88);;
  origMatch ← OriginalMatch_at buf sizeof_Header;
  stdMatch ← StandardMatch_of_original origMatch;
  buf ← b_memcpy buf 8 48 40;
  buf ← b_insertUninitialized buf 88 (136 - 88);
  wr buf 48 (StandardMatch_bytes stdMatch).

Definition normalizeMPFlowRequestV1 (buf : list Z) : option (list Z) :=
  if negb (zlen buf =? sizeof_MultipartRequest + 44) then markInputInvalid buf else
  buf ← b_addUninitialized buf 76;
  let ptr := sizeof_MultipartRequest in
  origMatch ← OriginalMatch_at buf ptr;
  stdMatch ← StandardMatch_of_original origMatch;
  outPort ← normPortNumberV1 buf (ptr + 40 + 2);
  buf ← b_memcpy buf ptr (ptr + 40) 2;
  buf ← b_memset buf (ptr + 2) 0 2;
  buf ← wr buf (ptr + 4) (be_bytes 4 outPort);
  buf ← b_memset buf (ptr + 8) 0 24;
  buf ← wr buf (ptr + 32) (StandardMatch_bytes stdMatch);
  assert! (zlen buf =? sizeof_MultipartRequest + 120);; Some buf.

Definition normalizeMPPortStatsRequestV1 (buf : list Z) : option (list Z) :=
  if negb (zlen buf =? sizeof_MultipartRequest + 8) then markInputInvalid buf else
  port ← normPortNumberV1 buf sizeof_MultipartRequest;
  wr buf sizeof_MultipartRequest (be_bytes 4 port).

Definition normalizeMultipartRequestV1 (buf : list Z) : option (list Z) :=
  length ← b_length buf;
  if length <? UnpaddedSizeVersion1 then markInputInvalid buf else
  buf ← b_insert buf UnpaddedSizeVersion1 (replicate 4 0);
  reqType ← multipartType buf;
  if (reqType =? OFPMP_FLOW_DESC) || (reqType =? OFPMP_AGGREGATE_STATS) then normalizeMPFlowRequestV1 buf
  else if (reqType =? OFPMP_PORT_STATS) || (reqType =? OFPMP_QUEUE_STATS)
  then normalizeMPPortStatsRequestV1 buf
  else Some buf.

(** ** Multipart replies

    [while (offset < buf_.size()) step(&offset); assert(offset == buf_.size())] *)
Fixpoint reply_loop (step : list Z -> Z -> option (list Z * Z)) (fuel : nat) (buf : list Z) (offset : Z)
    : option (list Z) :=
  if offset <? zlen buf then
    match fuel with
    | O => None
    | S fuel' => '(buf, offset) ← step buf offset; reply_loop step fuel' buf offset
    end
  else assert! (offset =? zlen buf);; Some buf.

(** A loop over the entries of a reply. *)
Definition for_entries (step : list Z -> Z -> option (list Z * Z)) (buf : list Z) : option (list Z) :=
  reply_loop step (length buf) buf sizeof_MultipartReply.

(** [markInputInvalid(...); *start = buf_.size(); return;] *)
Definition stop_invalid (buf : list Z) : option (list Z * Z) :=
  buf ← markInputInvalid buf; Some (buf, zlen buf).

Definition normalizeMPFlowReplyV1 (buf : list Z) (start : Z) : option (list Z * Z) :=
  let ptr := start in
  length ← rd16 buf ptr;
  if zlen buf <? start + length then stop_invalid buf else
  if length <? 88 then stop_invalid buf else
  origMatch ← OriginalMatch_at buf (ptr + 4);
  stdMatch ← StandardMatch_of_original origMatch;
  buf ← memmove buf (ptr + 4) (ptr + 44) 44;
  let actLen := u16 (length - 88) in
  if negb (actLen mod 8 =? 0) then stop_invalid buf else
  let needed := 48 + if 0 <? actLen then 8 else 0 in
  buf ← b_insertUninitialized buf (ptr + 48) needed;
  buf ← wr buf (ptr + 48) (StandardMatch_bytes stdMatch);
  '(buf, needed) ←
    (if 0 <? actLen then
       assert! IsPtrAligned (ptr + 144) 8;;
       '(buf, delta) ← normActionsV1orV2 le buf (ptr + 144) (ptr + 144 + actLen) (sm_nw_proto stdMatch);
       buf ← wr buf (ptr + 136) (instruction_header OFPIT_APPLY_ACTIONS (u16 (actLen + 8 + delta)));
       Some (buf, needed + delta)
     else Some (buf, needed));
  assert! IsPtrAligned ptr 2;;
  buf ← wr buf ptr (be_bytes 2 (u16 (length + needed)));
  Some (buf, start + length + needed).

Definition normalizeMPTableStatsReplyV4 (buf : list Z) (start : Z) : option (list Z * Z) :=
  if zlen buf - start <? 24 then stop_invalid buf else
  buf ← b_insertZeros buf (start + 4) 40;
  Some (buf, start + 64).

Definition normalizeMPPortOrQueueStatsReplyV1 (len : Z) (buf : list Z) (start : Z) : option (list Z * Z) :=
  if zlen buf - start <? len then Some (buf, zlen buf) else
  port ← normPortNumberV1 buf start;
  buf ← wr buf start (be_bytes 4 port);
  buf ← b_insertZeros buf (start + len) 8;
  Some (buf, start + len + 8).

Definition normalizeMPPortOrQueueStatsReplyV3 (len : Z) (buf : list Z) (start : Z) : option (list Z * Z) :=
  if zlen buf - start <? len then Some (buf, zlen buf) else
  buf ← b_insertZeros buf (start + len) 8;
  Some (buf, start + len + 8).

Definition normalizeMPGroupStatsReplyV3 (len : Z) (buf : list Z) (start : Z) : option (list Z * Z) :=
  let remaining := zlen buf - start in
  if remaining <? len then Some (buf, zlen buf) else
  assert! IsPtrAligned start 2;;
  statLen ← rd16 buf start;
  if remaining <? statLen then Some (buf, zlen buf) else
  buf ← wr buf start (be_bytes 2 (u16 (statLen + 8)));
  buf ← b_insertZeros buf (start + len) 8;
  Some (buf, start + statLen + 8).

(** [PortStatsPropertyEthernet] with the 32 bytes of its counters. *)
Definition port_stats_ethernet (counters : list Z) : list Z :=
  be_bytes 2 0 ++ be_bytes 2 40 ++ replicate 4 0 ++ counters.

Definition normalizeMPPortStatsReplyV4 (buf : list Z) (start : Z) : option (list Z * Z) :=
  if zlen buf - start <? 112 then Some (buf, zlen buf) else
  let ptr := start in
  assert! IsPtrAligned ptr 8;;
  buf ← b_insertUninitialized buf (ptr + 112) 8;
  portNo ← slice buf ptr 4; pad ← slice buf (ptr + 4) 4;
  buf ← wr buf ptr pad; buf ← wr buf (ptr + 4) portNo;
  counters ← slice buf (ptr + 72) 32;
  buf ← memmove buf (ptr + 16) (ptr + 8) 64;
  buf ← b_memcpy buf (ptr + 8) (ptr + 104) 8;
  buf ← wr buf (ptr + 80) (port_stats_ethernet counters);
  buf ← wr buf ptr (be_bytes 2 120);
  Some (buf, start + 120).

Definition normalizeMPPortStatsReplyV1 (buf : list Z) (start : Z) : option (list Z * Z) :=
  if zlen buf - start <? 104 then Some (buf, zlen buf) else
  assert! IsPtrAligned start 4;;
  port ← normPortNumberV1 buf start;
  buf ← wr buf start (be_bytes 4 port);
  buf ← b_insertZeros buf (start + 104) 8;
  normalizeMPPortStatsReplyV4 buf start.

Definition normalizeMPPortStatsReplyV2 (buf : list Z) (start : Z) : option (list Z * Z) :=
  if zlen buf - start <? 104 then Some (buf, zlen buf) else
  buf ← b_insertZeros buf (start + 104) 8;
  normalizeMPPortStatsReplyV4 buf start.

Definition normalizeMultipartReplyV1 (buf : list Z) : option (list Z) :=
  length ← b_length buf;
  if length <? UnpaddedSizeVersion1 then markInputInvalid buf else
  buf ← b_insert buf UnpaddedSizeVersion1 (replicate 4 0);
  replyType ← multipartType buf;
  if replyType =? OFPMP_FLOW_DESC then for_entries normalizeMPFlowReplyV1 buf
  else if replyType =? OFPMP_PORT_STATS then for_entries normalizeMPPortStatsReplyV1 buf
  else if replyType =? OFPMP_QUEUE_STATS then for_entries (normalizeMPPortOrQueueStatsReplyV1 32) buf
  else if replyType =? OFPMP_PORT_DESC then normalizeMPPortDescReplyV1 buf
  else Some buf.

Definition normalizeMultipartReplyV2 (buf : list Z) : option (list Z) :=
  length ← b_length buf;
  if length <? sizeof_MultipartReply then markInputInvalid buf else
  replyType ← multipartType buf;
  if replyType =? OFPMP_PORT_STATS then for_entries normalizeMPPortStatsReplyV2 buf
  else if replyType =? OFPMP_PORT_DESC then normalizeMPPortDescReplyV4 buf
  else Some buf.

Definition normalizeMultipartReplyV3 (buf : list Z) : option (list Z) :=
  length ← b_length buf;
  if length <? sizeof_MultipartReply then markInputInvalid buf else
  replyType ← multipartType buf;
  if replyType =? OFPMP_PORT_STATS then for_entries normalizeMPPortStatsReplyV2 buf
  else if replyType =? OFPMP_QUEUE_STATS then for_entries (normalizeMPPortOrQueueStatsReplyV3 32) buf
  else if replyType =? OFPMP_GROUP_STATS then for_entries (normalizeMPGroupStatsReplyV3 32) buf
  else if replyType =? OFPMP_PORT_DESC then normalizeMPPortDescReplyV4 buf
  else Some buf.

Definition normalizeMultipartReplyV4 (buf : list Z) : option (list Z) :=
  length ← b_length buf;
  if length <? sizeof_MultipartReply then markInputInvalid buf else
  replyType ← multipartType buf;
  if replyType =? OFPMP_PORT_STATS then for_entries normalizeMPPortStatsReplyV4 buf
  else if replyType =? OFPMP_PORT_DESC then normalizeMPPortDescReplyV4 buf
  else if replyType =? OFPMP_TABLE_STATS then for_entries normalizeMPTableStatsReplyV4 buf
  else Some buf.

Definition normalizeMultipartReplyV5 (buf : list Z) : option (list Z) :=
  length ← b_length buf;
  if length <? sizeof_MultipartReply then markInputInvalid buf else
  replyType ← multipartType buf;
  if replyType =? OFPMP_TABLE_STATS then for_entries normalizeMPTableStatsReplyV4 buf
  else Some buf.

(** ** Asynchronous configuration: six masks become six properties *)

Definition async_property (i : Z) (mask : list Z) : list Z := be_bytes 2 i ++ be_bytes 2 8 ++ mask.

Definition normalizeAsyncConfigV4 (buf : list Z) : option (list Z) :=
  length ← b_length buf;
  if negb (length =? 32) then markInputInvalid buf else
  buf ← b_addUninitialized buf 24;
  m0 ← slice buf 8 4; m1 ← slice buf 12 4; m2 ← slice buf 16 4;
  m3 ← slice buf 20 4; m4 ← slice buf 24 4; m5 ← slice buf 28 4;
  wr buf 8 (async_property 0 m1 ++ async_property 1 m0 ++ async_property 2 m3 ++
            async_property 3 m2 ++ async_property 4 m5 ++ async_property 5 m4).

(** ** Queues *)

(** [QueueBuilder newQueue{queue}; newQueues.add(newQueue)] for the [QueueV1]
    at [p]: the properties are the [len - 8] bytes behind its header. *)
Definition convert_queue (m : list Z) (p : Z) (out : list Z) : option (list Z) :=
  queueId ← slice m p 4; len ← rd16 m (p + 4);
  props ← (if 8 <=? len then slice m (p + 8) (len - 8) else Some []);
  let newLen := u16 (16 + zlen props) in
  assert! (newLen =? 16 + zlen props);;
  Some (out ++ queueId ++ replicate 4 0 ++ be_bytes 2 newLen ++ replicate 6 0 ++ props).

Definition normalizeQueueGetConfigReplyV1 (buf : list Z) : option (list Z) :=
  length ← b_length buf;
  if length <? sizeof_QueueGetConfigReply then markInputInvalid buf else
  version ← b_version buf;
  buf ← (if version =? OFP_VERSION_1 then
           port ← rd16 buf sizeof_Header;
           wr buf sizeof_Header (be_bytes 4 (PortNumber_fromV1 port))
         else Some buf);
  data ← slice buf sizeof_QueueGetConfigReply (zlen buf - sizeof_QueueGetConfigReply);
  let queues := mkRange sizeof_QueueGetConfigReply data in
  '(ok, _) ← ProtocolRange_validateInput 8 4 8
               (fun p c => len ← rd16 data (p + 4); Some (8 <=? len, c)) queues default_context;
  if negb (ok : bool) then markInputInvalid buf else
  newQueues ← snd <$> for_elements 8 4 8 (fun p out => out ← convert_queue data p out; Some (true, out))
                        (List.length data) queues 0 [];
  if 65535 - sizeof_QueueGetConfigReply <? zlen newQueues then markInputTooBig buf
  else b_replace buf sizeof_QueueGetConfigReply (zlen buf) newQueues.

(** The inner loop of [normalizeQueueGetConfigReplyV2] over the properties of a
    queue. [inl] is a return out of the handler, [inr] the bytes so far. *)
Fixpoint pad_properties (fuel : nat) (m : list Z) (prop propLeft : Z) (newBuf : list Z)
    : option (unit + Z * list Z) :=
  if 4 <? propLeft then
    match fuel with
    | O => None
    | S fuel' =>
        propSize ← rd16 m (prop + 2);
        if (propLeft <? propSize) || (propSize <? 4) then Some (inl tt) else
        d ← slice m prop propSize;
        pad_properties fuel' m (prop + propSize) (propLeft - propSize)
          (newBuf ++ d ++ replicate (Z.to_nat (PadLength propSize - propSize)) 0)
    end
  else if negb (propLeft =? 0) then Some (inl tt) else Some (inr (prop, newBuf)).

Fixpoint pad_queues (fuel : nat) (m : list Z) (ptr remaining : Z) (newBuf : list Z)
    : option (unit + list Z) :=
  if 16 <? remaining then
    match fuel with
    | O => None
    | S fuel' =>
        queueLen ← rd16 m (ptr + 8);
        if (remaining <? queueLen) || (queueLen <? 16) then Some (inl tt) else
        header ← slice m ptr 16;
        r ← pad_properties (length m) m (ptr + 16) (queueLen - 16) (newBuf ++ header);
        match r with
        | inl _ => Some (inl tt)
        | inr (prop, newBuf) =>
            assert! (prop =? ptr + queueLen);;
            pad_queues fuel' m (ptr + queueLen) (remaining - queueLen) newBuf
        end
    end
  else if negb (remaining =? 0) then Some (inl tt) else Some (inr newBuf).

Definition normalizeQueueGetConfigReplyV2 (buf : list Z) : option (list Z) :=
  length ← b_length buf;
  if length <? sizeof_QueueGetConfigReply then Some buf else
  data ← slice buf sizeof_QueueGetConfigReply (zlen buf - sizeof_QueueGetConfigReply);
  r ← pad_queues (List.length data) data 0 (zlen data) [];
  match r with
  | inl _ => Some buf
  | inr newBuf =>
      if 65535 - sizeof_QueueGetConfigReply <? zlen newBuf then markInputTooBig buf
      else b_replace buf sizeof_QueueGetConfigReply (zlen buf) newBuf
  end.

(** ** The dispatcher *)

Definition normalize_by_type (version type : Z) (buf : list Z) : option (list Z) :=
  if version =? OFP_VERSION_1 then
    if type =? OFPT_FEATURES_REPLY then normalizeFeaturesReplyV1 buf
    else if type =? OFPT_FLOW_MOD then normalizeFlowModV1 buf
    else if type =? OFPT_PORT_STATUS then normalizePortStatusV1 buf
    else if type =? OFPT_EXPERIMENTER then normalizeExperimenterV1 buf
    else if type =? OFPT_PACKET_OUT then normalizePacketOutV1 buf
    else if type =? OFPT_PORT_MOD then normalizePortModV1 buf
    else if type =? OFPT_FLOW_REMOVED then normalizeFlowRemovedV1 buf
    else if type =? OFPT_MULTIPART_REQUEST then normalizeMultipartRequestV1 buf
    else if type =? OFPT_MULTIPART_REPLY then normalizeMultipartReplyV1 buf
    else if type =? OFPT_QUEUE_GET_CONFIG_REPLY then normalizeQueueGetConfigReplyV1 buf
    else Some buf
  else if version =? OFP_VERSION_2 then
    if type =? OFPT_FEATURES_REPLY then normalizeFeaturesReplyV2 buf
    else if type =? OFPT_PORT_STATUS then normalizePortStatusV2 buf
    else if type =? OFPT_PORT_MOD then normalizePortModV2 buf
    else if type =? OFPT_MULTIPART_REPLY then normalizeMultipartReplyV2 buf
    else if type =? OFPT_QUEUE_GET_CONFIG_REPLY then normalizeQueueGetConfigReplyV1 buf
    else Some buf
  else if version =? OFP_VERSION_3 then
    if type =? OFPT_FEATURES_REPLY then normalizeFeaturesReplyV2 buf
    else if type =? OFPT_PORT_STATUS then normalizePortStatusV2 buf
    else if type =? OFPT_PORT_MOD then normalizePortModV2 buf
    else if type =? OFPT_MULTIPART_REPLY then normalizeMultipartReplyV3 buf
    else if type =? OFPT_QUEUE_GET_CONFIG_REPLY then normalizeQueueGetConfigReplyV2 buf
    else Some buf
  else if version =? OFP_VERSION_4 then
    if type =? OFPT_FEATURES_REPLY then normalizeFeaturesReplyV2 buf
    else if type =? OFPT_PORT_STATUS then normalizePortStatusV2 buf
    else if type =? OFPT_PORT_MOD then normalizePortModV2 buf
    else if type =? OFPT_MULTIPART_REPLY then normalizeMultipartReplyV4 buf
    else if (type =? OFPT_SET_ASYNC) || (type =? OFPT_GET_ASYNC_REPLY) then normalizeAsyncConfigV4 buf
    else if type =? OFPT_QUEUE_GET_CONFIG_REPLY then normalizeQueueGetConfigReplyV2 buf
    else Some buf
  else if OFP_VERSION_5 <=? version then
    if type =? OFPT_MULTIPART_REPLY then normalizeMultipartReplyV5 buf else Some buf
  else Some buf.

(** [Normalize::normalize]; a message shorter than a header is fatal. *)
Definition normalize (buf : list Z) : option (list Z) :=
  assert! (sizeof_Header <=? zlen buf);;
  version ← b_version buf; type ← b_type buf;
  type ← Header_translateType version type OFP_VERSION_4;
  buf ← (if type =? OFPT_UNSUPPORTED then markInputInvalid buf else Some buf);
  buf ← b_setType buf type;
  length ← b_length buf;
  buf ← (if negb (zlen buf =? length) then buf ← markInputInvalid buf; b_setLength buf (zlen buf)
         else Some buf);
  buf ← normalize_by_type version type buf;
  buf ← (if OFP_MAX_SIZE <? zlen buf then buf ← markInputTooBig buf; b_shrink buf OFP_MAX_SIZE else Some buf);
  buf ← b_setLength buf (zlen buf);
  length ← b_length buf;
  assert! (zlen buf =? length);; Some buf.
End Normalize.
