(* ===== verification/NormSafe.v ===== *)
(** * Normalisation never leaves the message's buffer

    The handlers of Normalize.v rewrite a received message in place. Here a
    small program logic over [option] carries one invariant through them: the
    buffer holds bytes, and its header is that of the received message, up to
    the error flag in the version byte. A handler's proof walks through its
    accesses; the two handlers for which there is no such proof are the ones
    with an access outside the buffer or an endless loop (NormSpec.v). *)

From S2P Require Import Prelude.
From S2P Require Import ByteOrder.
From S2P Require Import Hex.
From S2P Require Import Constants.
From S2P Require Import SmallBuffer.
From S2P Require Import Validation.
From S2P Require Import ProtocolRange.
From S2P Require Import Ports.
From S2P Require Import Oxm.
From S2P Require Import Matches.
From S2P Require Import Actions.
From S2P Require Import Instructions.
From S2P Require Import MsgBuffer.
From S2P Require Import NormActions.
From S2P Require Import Normalize.

(** ** The invariant *)

(** The header [h] with an error flag in the version byte. *)
Definition flagged (f : Z) (h : list Z) : list Z :=
  match h with v :: r => Z.lor f v :: r | [] => [] end.

Definition error_flag (f : Z) : Prop := f = 0 \/ f = kTooBigErrorFlag \/ f = kInvalidErrorFlag.

Definition keeps (h buf : list Z) : Prop :=
  bytes_ok buf /\ 8 <= zlen buf /\ exists f, error_flag f /\ take 8 buf = flagged f h.

Lemma error_flag_lor f g : error_flag f -> error_flag g -> error_flag (Z.lor f g).
Proof. intros [->|[->| ->]] [->|[->| ->]]; unfold error_flag; vm_compute; auto. Qed.

Lemma flagged_lor f g h : flagged f (flagged g h) = flagged (Z.lor f g) h.
Proof. destruct h; [done|]. simpl. by rewrite Z.lor_assoc. Qed.

Lemma keeps_refl buf : bytes_ok buf -> 8 <= zlen buf -> keeps (take 8 buf) buf.
Proof.
  intros Hb H8. split_and!; try done. exists 0. split; [by left|].
  destruct (take 8 buf) eqn:E; [done|]. simpl. by rewrite Z.lor_0_l.
Qed.

(** An edit behind the header. *)
Lemma keeps_edit h buf buf' :
  keeps h buf -> bytes_ok buf' -> 8 <= zlen buf' -> take 8 buf' = take 8 buf -> keeps h buf'.
Proof. intros (_ & _ & f & Hf & E) Hb H8 E'. split_and!; try done. exists f. by rewrite E'. Qed.

Lemma take8_app (a x : list Z) : 8 <= zlen a -> take 8 (a ++ x) = take 8 a.
Proof. intros. rewrite take_app_le; [done|]. unfold zlen in *. lia. Qed.

Lemma take8_take n (buf : list Z) : 8 <= n -> take 8 (take (Z.to_nat n) buf) = take 8 buf.
Proof. intros. rewrite take_take. f_equal. lia. Qed.

Lemma lor_byte a b : is_byte a -> is_byte b -> is_byte (Z.lor a b).
Proof.
  unfold is_byte. intros Ha Hb. apply (bits_range _ 8); [lia|apply Z.lor_nonneg; lia|].
  intros i Hi. rewrite Z.lor_spec, (testbit_high a 8), (testbit_high b 8) by lia. done.
Qed.

Section Logic.
Implicit Types (h buf y : list Z) (off pos n : Z).

Lemma wp_wr h buf off y {B} (k : list Z -> option B) Q :
  keeps h buf -> 8 <= off -> off + zlen y <= zlen buf -> bytes_ok y ->
  (forall buf', keeps h buf' -> zlen buf' = zlen buf -> wp (k buf') Q) -> wp (b ← wr buf off y; k b) Q.
Proof.
  intros Hk H8 Hl Hy K. pose proof Hk as (Hb & _). destruct (wr_some buf off y) as (b' & E & Hz & Hok); [lia..|].
  rewrite E. cbn [mbind option_bind]. pose proof (zlen_nonneg y).
  apply K; [|done]. apply (keeps_edit h buf); auto; [lia|].
  apply wr_inv in E as (_ & _ & _ & ->).
  rewrite take8_app by (rewrite zlen_take; lia). by apply take8_take.
Qed.

Lemma wp_insert h buf pos y {B} (k : list Z -> option B) Q :
  keeps h buf -> 8 <= pos <= zlen buf -> bytes_ok y ->
  (forall buf', keeps h buf' -> zlen buf' = zlen buf + zlen y -> wp (k buf') Q) -> wp (b ← b_insert buf pos y; k b) Q.
Proof.
  intros Hk Hp Hy K. pose proof Hk as (Hb & _). destruct (b_insert_some buf pos y) as (b' & E & Hz & Hok); [lia..|].
  rewrite E. cbn [mbind option_bind]. pose proof (zlen_nonneg y).
  apply K; [|done]. apply (keeps_edit h buf); auto; [lia|]. revert E. unfold b_insert.
  rewrite !(proj2 (Z.leb_le _ _)) by lia. cbn [andb]. intros [= <-].
  rewrite take8_app by (rewrite zlen_take; lia). apply take8_take. lia.
Qed.

Lemma wp_insertZeros h buf pos n {B} (k : list Z -> option B) Q :
  keeps h buf -> 8 <= pos <= zlen buf -> 0 <= n ->
  (forall buf', keeps h buf' -> zlen buf' = zlen buf + n -> wp (k buf') Q) -> wp (b ← b_insertZeros buf pos n; k b) Q.
Proof.
  intros Hk Hp Hn K. unfold b_insertZeros. apply (wp_insert h); [done..| |].
  - by apply Forall_replicate.
  - intros b' Hb' Hz. apply K; [done|]. rewrite Hz. autorewrite with zlen. lia.
Qed.

Lemma wp_memmove h buf dst src n {B} (k : list Z -> option B) Q :
  keeps h buf -> 8 <= dst -> 0 <= src -> 0 <= n -> dst + n <= zlen buf -> src + n <= zlen buf ->
  (forall buf', keeps h buf' -> zlen buf' = zlen buf -> wp (k buf') Q) -> wp (b ← memmove buf dst src n; k b) Q.
Proof.
  intros Hk H8 Hs Hn Hd Hl K. unfold memmove. rewrite slice_some by lia. cbn [mbind option_bind].
  apply (wp_wr h); [done..| | |done].
  - rewrite zlen_take, zlen_drop. lia.
  - destruct Hk as (Hb & _). by apply Forall_take, Forall_drop.
Qed.

Lemma wp_memcpy h buf dst src n {B} (k : list Z -> option B) Q :
  keeps h buf -> 8 <= dst -> 0 <= src -> 0 <= n -> dst + n <= zlen buf -> src + n <= zlen buf ->
  dst + n <= src \/ src + n <= dst ->
  (forall buf', keeps h buf' -> zlen buf' = zlen buf -> wp (k buf') Q) -> wp (b ← b_memcpy buf dst src n; k b) Q.
Proof.
  intros Hk ? ? ? ? ? Ho K. unfold b_memcpy.
  replace ((dst + n <=? src) || (src + n <=? dst)) with true by lia. by apply (wp_memmove h).
Qed.

Lemma wp_memset h buf dst v n {B} (k : list Z -> option B) Q :
  keeps h buf -> 8 <= dst -> 0 <= n -> dst + n <= zlen buf -> is_byte v ->
  (forall buf', keeps h buf' -> zlen buf' = zlen buf -> wp (k buf') Q) -> wp (b ← b_memset buf dst v n; k b) Q.
Proof.
  intros Hk ? ? ? Hv K. unfold b_memset. apply (wp_wr h); [done..| | |done].
  - autorewrite with zlen. lia.
  - by apply Forall_replicate.
Qed.

Lemma wp_rd_be h buf w off {B} (k : Z -> option B) Q :
  keeps h buf -> 0 <= off -> 0 <= w -> off + w <= zlen buf ->
  (forall v, rd_be w buf off = Some v -> 0 <= v < 256 ^ w -> wp (k v) Q) -> wp (b ← rd_be w buf off; k b) Q.
Proof. intros (Hb & _). by apply wp_read_be. Qed.

Lemma wp_slice h buf off n {B} (k : list Z -> option B) Q :
  keeps h buf -> 0 <= off -> 0 <= n -> off + n <= zlen buf ->
  (forall y, slice buf off n = Some y -> bytes_ok y -> zlen y = n -> wp (k y) Q) -> wp (b ← slice buf off n; k b) Q.
Proof. intros (Hb & _). by apply wp_read. Qed.

Lemma wp_port h buf pos {B} (k : Z -> option B) Q :
  keeps h buf -> 0 <= pos -> pos + 2 <= zlen buf -> (forall p, wp (k p) Q) -> wp (b ← normPortNumberV1 buf pos; k b) Q.
Proof.
  intros (Hb & _) ? ? K. unfold normPortNumberV1. destruct (rd_be_some 2 buf pos) as [v E]; [lia..|]. rewrite E. apply K.
Qed.

Lemma first_byte h buf : keeps h buf -> exists v, rd8 buf 0 = Some v /\ is_byte v.
Proof. intros (Hb & H8 & _). destruct (rd8_some buf 0) as [v E]; [lia|]. exists v. eauto using rd8_byte. Qed.

Lemma wp_mark f h buf Q :
  f = kTooBigErrorFlag \/ f = kInvalidErrorFlag -> keeps h buf ->
  (forall buf', keeps h buf' -> zlen buf' = zlen buf -> Q buf') ->
  wp (v ← b_version buf; b_setVersion buf (Z.lor f v)) Q.
Proof.
  intros Hf Hk K. destruct (first_byte h buf Hk) as (v & E & Hv). unfold b_version. rewrite E.
  cbn [mbind option_bind]. destruct Hk as (Hb & H8 & g & Hg & E8).
  destruct buf as [|v' r]; [done|]. injection E as ->.
  unfold b_setVersion. rewrite (wr_split (v :: r) 0 [Z.lor f v] [] [v] r) by done.
  assert (is_byte (Z.lor f v)) as Hfv.
  { apply (lor_byte f v); [|done]. by destruct Hf as [->| ->]; vm_compute. }
  apply K; [|done]. apply Forall_cons in Hb as [_ Hr]. split_and!; [by constructor|done|].
  exists (Z.lor f g). split; [apply error_flag_lor; [unfold error_flag; tauto|done]|].
  rewrite <- flagged_lor, <- E8. done.
Qed.
End Logic.

(** ** Reading the structures inside the buffer *)

Lemma wp_original h buf pos {B} (k : OriginalMatch -> option B) Q :
  keeps h buf -> 0 <= pos -> pos + 40 <= zlen buf ->
  (forall o, length (om_dl_src o) = 6%nat -> length (om_dl_dst o) = 6%nat -> length (om_nw_src o) = 4%nat ->
     length (om_nw_dst o) = 4%nat -> bytes_ok (om_dl_src o ++ om_dl_dst o ++ om_nw_src o ++ om_nw_dst o) ->
     wp (k o) Q) ->
  wp (o ← OriginalMatch_at buf pos; k o) Q.
Proof.
  intros (Hb & _) ? ? K. unfold OriginalMatch_at.
  read_fields buf.
  apply K; cbn; rewrite ?Forall_app; split_and?; (by eapply slice_ok) || field_length buf.
Qed.

Lemma nw_mask_ok wc mask shift : 0 <= mask -> exists m, nw_mask wc mask shift = Some m /\ length m = 4%nat /\ bytes_ok m.
Proof.
  intros Hm. unfold nw_mask. set (b := Z.shiftr (Z.land wc mask) shift).
  assert (0 <= b) by (apply Z.shiftr_nonneg, Z.land_nonneg; by right).
  destruct (IPv4Address_mask_ok (32 - if 32 <? b then 32 else b)) as (m & E & _ & Hl & Hb & _).
  { destruct (Z.ltb_spec 32 b); lia. }
  by exists m.
Qed.

Lemma wp_standard o {B} (k : StandardMatch -> option B) Q :
  length (om_dl_src o) = 6%nat -> length (om_dl_dst o) = 6%nat -> length (om_nw_src o) = 4%nat ->
  length (om_nw_dst o) = 4%nat -> bytes_ok (om_dl_src o ++ om_dl_dst o ++ om_nw_src o ++ om_nw_dst o) ->
  (forall s, StandardMatch_of_original o = Some s ->
     zlen (StandardMatch_bytes s) = 88 -> bytes_ok (StandardMatch_bytes s) -> wp (k s) Q) ->
  wp (s ← StandardMatch_of_original o; k s) Q.
Proof.
  rewrite !Forall_app. intros L1 L2 L3 L4 (? & ? & ? & ?) K.
  destruct (StandardMatch_of_original o) as [s|] eqn:E.
  - cbn [mbind option_bind]. revert E. unfold StandardMatch_of_original, om_nw_src_mask, om_nw_dst_mask.
    destruct (nw_mask_ok (om_wildcards o) OW_NW_SRC_MASK OW_NW_SRC_SHIFT) as (m1 & -> & Hm1 & Hb1); [done|].
    destruct (nw_mask_ok (om_wildcards o) OW_NW_DST_MASK OW_NW_DST_SHIFT) as (m2 & -> & Hm2 & Hb2); [done|].
    cbn [mbind option_bind]. intros [= <-].
    set (s1 := if negb (has_bit _ OW_DL_SRC) then _ else _). set (s2 := if negb (has_bit _ OW_DL_DST) then _ else _).
    assert (forall b : bool, length (if b then allOnes 6 else zeros 6) = 6%nat /\
              bytes_ok (if b then allOnes 6 else zeros 6)) as Hones
      by (intros []; split; [done|bytes|done|bytes]).
    destruct (Hones (negb (has_bit (om_wildcards o) OW_DL_SRC))) as [Ls1 ?].
    destruct (Hones (negb (has_bit (om_wildcards o) OW_DL_DST))) as [Ls2 ?].
    fold s1 in Ls1. fold s2 in Ls2.
    apply K; [done|..]; unfold StandardMatch_bytes; cbn -[be_bytes].
    + autorewrite with zlen. unfold zlen. rewrite L1, L2, L3, L4, Hm1, Hm2, Ls1, Ls2. done.
    + rewrite !Forall_app, !Forall_cons, !Forall_app, !Forall_cons, !Forall_app.
      split_and!; try apply be_bytes_ok; done.
  - exfalso. revert E. unfold StandardMatch_of_original, om_nw_src_mask, om_nw_dst_mask.
    destruct (nw_mask_ok (om_wildcards o) OW_NW_SRC_MASK OW_NW_SRC_SHIFT) as (m1 & -> & _); [done|].
    by destruct (nw_mask_ok (om_wildcards o) OW_NW_DST_MASK OW_NW_DST_SHIFT) as (m2 & -> & _).
Qed.

(** One port of the older layouts becomes a port with an Ethernet property. *)
Lemma convert_V1_some buf p :
  bytes_ok buf -> 0 <= p -> p + 48 <= zlen buf ->
  exists s, PortV1_at buf p = Some s /\ v1_shape s /\ bytes_ok (p1_hwAddr s ++ p1_name s).
Proof.
  intros Hb ? ?. unfold PortV1_at. read_fields buf. eexists. split; [reflexivity|]. unfold v1_shape, u32_ok. cbn.
  rewrite Forall_app. split_and!; try lia; (by eapply slice_ok) || field_length buf.
Qed.

Lemma convert_V2_some buf p :
  bytes_ok buf -> 0 <= p -> p + 64 <= zlen buf ->
  exists s, PortV2_at buf p = Some s /\ v2_shape s /\ bytes_ok (p2_hwAddr s ++ p2_name s).
Proof.
  intros Hb ? ?. unfold PortV2_at. read_fields buf. eexists. split; [reflexivity|]. unfold v2_shape, u32_ok. cbn.
  rewrite Forall_app. split_and!; try lia; (by eapply slice_ok) || field_length buf.
Qed.

Lemma eth_port_bytes x : bytes_ok (port_hwAddr x.1 ++ port_name x.1) -> bytes_ok (eth_port x).
Proof.
  rewrite Forall_app. intros [? ?]. unfold eth_port, Port_bytes, PortPropertyEthernet_bytes, pad.
  rewrite !Forall_app. split_and!; try apply be_bytes_ok; try done; by apply Forall_replicate.
Qed.

Lemma convert_V1_ok buf p :
  bytes_ok buf -> 0 <= p -> p + 48 <= zlen buf -> wp (convert_V1 buf p) (fun x => zlen x = 72 /\ bytes_ok x).
Proof.
  intros Hb ? ?. destruct (convert_V1_some buf p) as (s & E & Hs & Hn); [done..|]. unfold convert_V1.
  rewrite E. cbn [mbind option_bind wp]. rewrite copyTo_V1. split; [by apply eth_port_length, pair_of_V1_ok|by apply eth_port_bytes].
Qed.

Lemma convert_V2_ok buf p :
  bytes_ok buf -> 0 <= p -> p + 64 <= zlen buf -> wp (convert_V2 buf p) (fun x => zlen x = 72 /\ bytes_ok x).
Proof.
  intros Hb ? ?. destruct (convert_V2_some buf p) as (s & E & Hs & Hn); [done..|]. unfold convert_V2.
  rewrite E. cbn [mbind option_bind wp]. rewrite copyTo_V2. split; [by apply eth_port_length, pair_of_V2_ok|by apply eth_port_bytes].
Qed.

Lemma convert_ports_ok conv size buf :
  (forall p, 0 <= p -> p + size <= zlen buf -> wp (conv buf p) (fun x => zlen x = 72 /\ bytes_ok x)) -> 0 <= size ->
  forall count p ports, 0 <= p -> p + Z.of_nat count * size <= zlen buf -> bytes_ok ports ->
  wp (convert_ports conv size count buf p ports)
     (fun out => zlen out = zlen ports + 72 * Z.of_nat count /\ bytes_ok out).
Proof.
  intros Hc Hs. induction count as [|n IH]; intros p ports Hp Hl Hok; cbn [convert_ports].
  { split; [lia|done]. }
  eapply wp_bind; [apply Hc; nia|]. intros x [Hx Hxb].
  eapply wp_mono; [apply (IH (p + size)); [lia|nia|]|].
  - by apply Forall_app.
  - cbn. intros out [-> ?]. rewrite zlen_app. split; [lia|done].
Qed.

(** ** Walking through a handler *)

Ltac sizes := autorewrite with zlen in *; cbn [Z.of_nat Pos.of_succ_nat Pos.succ] in *; lia.

Ltac bytes_side :=
  rewrite ?Forall_app; split_and?; first
    [assumption | apply be_bytes_ok | by apply Forall_replicate | done].

Ltac side := first [eassumption | lia | bytes_side | sizes | by left | by right].

Section Walk.
Context `{UL : UninitLaws}.
Implicit Types (h buf y : list Z) (off pos n : Z).

Lemma wp_insertUninit h buf pos n {B} (k : list Z -> option B) Q :
  keeps h buf -> 8 <= pos <= zlen buf -> 0 <= n ->
  (forall buf', keeps h buf' -> zlen buf' = zlen buf + n -> wp (k buf') Q) ->
  wp (b ← b_insertUninitialized buf pos n; k b) Q.
Proof.
  intros Hk Hp Hn K. unfold b_insertUninitialized. rewrite (proj2 (Z.leb_le 0 n)) by done.
  apply (wp_insert h); [done..|apply uninit_ok|]. intros b' ? Hz. apply K; [done|]. by rewrite Hz, uninit_len.
Qed.

Lemma wp_addUninit h buf n {B} (k : list Z -> option B) Q :
  keeps h buf -> 0 <= n ->
  (forall buf', keeps h buf' -> zlen buf' = zlen buf + n -> wp (k buf') Q) ->
  wp (b ← b_addUninitialized buf n; k b) Q.
Proof.
  intros Hk Hn K. unfold b_addUninitialized. rewrite (proj2 (Z.leb_le 0 n)) by done. cbn [mbind option_bind].
  pose proof Hk as (Hb & H8 & _). apply K; [|by rewrite zlen_app, uninit_len].
  apply (keeps_edit h buf); [done|apply Forall_app; split; [done|apply uninit_ok]| |].
  - rewrite zlen_app, uninit_len by done. lia.
  - by apply take8_app.
Qed.
End Walk.

Ltac step :=
  lazymatch goal with
  | |- wp (markInputInvalid _) _ => eapply (wp_mark kInvalidErrorFlag); [side..|intros]
  | |- wp (markInputTooBig _) _ => eapply (wp_mark kTooBigErrorFlag); [side..|intros]
  | |- wp (mbind _ (wr _ _ _)) _ => eapply wp_wr; [side..|intros]
  | |- wp (mbind _ (b_insert _ _ _)) _ => eapply wp_insert; [side..|intros]
  | |- wp (mbind _ (b_insertZeros _ _ _)) _ => eapply wp_insertZeros; [side..|intros]
  | |- wp (mbind _ (b_insertUninitialized _ _ _)) _ => eapply wp_insertUninit; [side..|intros]
  | |- wp (mbind _ (b_addUninitialized _ _)) _ => eapply wp_addUninit; [side..|intros]
  | |- wp (mbind _ (memmove _ _ _ _)) _ => eapply wp_memmove; [side..|intros]
  | |- wp (mbind _ (b_memcpy _ _ _ _)) _ => eapply wp_memcpy; [side..|intros]
  | |- wp (mbind _ (b_memset _ _ _ _)) _ => eapply wp_memset; [side..|intros]
  | |- wp (mbind _ (rd_be _ _ _)) _ => eapply wp_rd_be; [side..|intros]
  | |- wp (mbind _ (slice _ _ _)) _ => eapply wp_slice; [side..|intros]
  | |- wp (mbind _ (normPortNumberV1 _ _)) _ => eapply wp_port; [side..|intros]
  | |- wp (mbind _ (OriginalMatch_at _ _)) _ => eapply wp_original; [side..|intros]
  | |- wp (mbind _ (StandardMatch_of_original _)) _ => eapply wp_standard; [side..|intros]
  | |- wp (wr _ _ _) _ => apply wp_tail
  | |- wp (b_insert _ _ _) _ => apply wp_tail
  | |- wp (if ?b then _ else _) _ =>
      let E := fresh in destruct b eqn:E
  end.

Ltac walk := repeat step.
Ltac finish := first [eassumption | done | exfalso; lia | exfalso; sizes].

(** What [normalize] gives a handler: the size in the header is right. *)
Definition message_ok (h buf : list Z) : Prop :=
  keeps h buf /\ zlen buf <= 65535 /\ b_length buf = Some (zlen buf).

Section Handlers.
Context (le : bool) `{UL : UninitLaws}.
Variables (h buf : list Z).
Hypothesis Hmsg : message_ok h buf.

Ltac start := destruct Hmsg as (Hk & Hmax & Hlen); pose proof Hk as (Hb & H8 & _); rewrite ?Hlen; cbn [mbind option_bind].

Lemma normalizePortModV1_safe : wp (normalizePortModV1 buf) (keeps h).
Proof. unfold normalizePortModV1. start. walk; finish. Qed.

Lemma normalizePortModV2_safe : wp (normalizePortModV2 buf) (keeps h).
Proof. unfold normalizePortModV2. start. walk; finish. Qed.

Lemma normalizeExperimenterV1_safe : wp (normalizeExperimenterV1 buf) (keeps h).
Proof. unfold normalizeExperimenterV1. start. walk; finish. Qed.

Lemma normalizeFlowRemovedV1_safe : wp (normalizeFlowRemovedV1 buf) (keeps h).
Proof. unfold normalizeFlowRemovedV1, sizeof_Header. start. walk; finish. Qed.

Lemma normalizeAsyncConfigV4_safe : wp (normalizeAsyncConfigV4 buf) (keeps h).
Proof. unfold normalizeAsyncConfigV4, async_property. start. walk; finish. Qed.

Lemma normalizePortStatusV1_safe : wp (normalizePortStatusV1 buf) (keeps h).
Proof.
  unfold normalizePortStatusV1, sizeof_PortV1, DefaultSizeEthernet, sizeof_PortPropertyEthernet. start. walk; [finish|].
  eapply wp_bind; [apply convert_V1_ok; [done|lia..]|]. intros x [Hx Hxb]. walk; finish.
Qed.

Lemma normalizePortStatusV2_safe : wp (normalizePortStatusV2 buf) (keeps h).
Proof.
  unfold normalizePortStatusV2, sizeof_PortV2, DefaultSizeEthernet, sizeof_PortPropertyEthernet. start. walk; [finish|].
  eapply wp_bind; [apply convert_V2_ok; [done|lia..]|]. intros x [Hx Hxb]. walk; finish.
Qed.

Lemma store_ports_safe header size b ports :
  keeps h b -> 8 <= header -> zlen b = header + size -> size <= zlen ports -> 0 <= size -> bytes_ok ports ->
  wp (store_ports header size ports b) (keeps h).
Proof. intros. unfold store_ports. walk; finish. Qed.

(** The four handlers with a list of ports, with the arithmetic of the sizes. *)
Lemma ports_safe conv size header (tooBig : bool) b :
  keeps h b -> 8 <= header <= zlen b -> 0 < size <= 72 ->
  (forall p, 0 <= p -> p + size <= zlen b -> wp (conv b p) (fun x => zlen x = 72 /\ bytes_ok x)) ->
  let portListSize := zlen b - header in
  wp (if negb (portListSize mod size =? 0) then markInputInvalid b else
      ports ← convert_ports conv size (Z.to_nat (portListSize / size)) b header [];
      if tooBig && (65535 - header <? zlen ports) then markInputTooBig b
      else store_ports header portListSize ports b) (keeps h).
Proof.
  intros Hk Hh Hs Hc n. pose proof (Z.div_mod n size ltac:(lia)) as Hd.
  pose proof (Z.div_pos n size ltac:(lia) ltac:(lia)). step; [walk; finish|].
  eapply wp_bind; [apply (convert_ports_ok conv size b Hc); [lia|lia|rewrite Z2Nat.id by lia; nia|done]|].
  intros ports [Hp Hpb]. rewrite Z2Nat.id in Hp by lia. change (zlen []) with 0 in Hp.
  step; [walk; finish|]. apply store_ports_safe; try done; nia.
Qed.

Lemma normalizeFeaturesReplyV1_safe : wp (normalizeFeaturesReplyV1 buf) (keeps h).
Proof.
  unfold normalizeFeaturesReplyV1, sizeof_FeaturesReply, sizeof_PortV1. start. step; [walk; finish|].
  apply (ports_safe convert_V1 48 32 true buf); [done|lia|lia|]. intros. by apply convert_V1_ok.
Qed.

Lemma normalizeFeaturesReplyV2_safe : wp (normalizeFeaturesReplyV2 buf) (keeps h).
Proof.
  unfold normalizeFeaturesReplyV2, sizeof_FeaturesReply, sizeof_PortV2. start. step; [walk; finish|].
  apply (ports_safe convert_V2 64 32 true buf); [done|lia|lia|]. intros. by apply convert_V2_ok.
Qed.

Lemma normalizeMPPortDescReplyV1_safe b : keeps h b -> 16 <= zlen b -> wp (normalizeMPPortDescReplyV1 b) (keeps h).
Proof.
  intros Hk ?. pose proof Hk as (Hb & _). unfold normalizeMPPortDescReplyV1, sizeof_MultipartReply, sizeof_PortV1.
  apply (ports_safe convert_V1 48 16 false b); [done|lia|lia|]. intros. by apply convert_V1_ok.
Qed.

Lemma normalizeMPPortDescReplyV4_safe b : keeps h b -> 16 <= zlen b -> wp (normalizeMPPortDescReplyV4 b) (keeps h).
Proof.
  intros Hk ?. pose proof Hk as (Hb & _). unfold normalizeMPPortDescReplyV4, sizeof_MultipartReply, sizeof_PortV2.
  apply (ports_safe convert_V2 64 16 false b); [done|lia|lia|]. intros. by apply convert_V2_ok.
Qed.

(** Actions that the validator accepts are rewritten in place. *)
Lemma wp_actions b pos n actions c ip {B} (k : list Z * Z -> option B) Q (refuse : option B) :
  keeps h b -> 8 <= pos -> pos mod 8 = 0 -> slice b pos n = Some actions -> wp refuse Q ->
  (forall b' d, keeps h b' -> pos <= zlen b' -> zlen b' = zlen b + d -> wp (k (b', d)) Q) ->
  wp ('(ok, _) ← ActionRange_validateInput (mkRange pos actions) c;
      if negb (ok : bool) then refuse else r ← normActionsV1orV2 le b pos (pos + n) ip; k r) Q.
Proof.
  intros Hk H8 Hp Es Hr K. pose proof Hk as (Hb & Hbl & _).
  pose proof (slice_ok _ _ _ _ Hb Es) as Hab. apply slice_inv in Es as (_ & Hn & Hl & -> & Hz).
  destruct (actions_valid_iff (mkRange pos (take (Z.to_nat n) (drop (Z.to_nat pos) b))) c Hab)
    as (ok & c' & -> & Hiff & _). cbn [mbind option_bind]. destruct ok; cbn [negb]; [|done].
  destruct (proj1 Hiff eq_refl) as (_ & cs & E & Hcs & _). cbn [br_data] in E. rewrite E in Hz, Hab.
  set (pre := take (Z.to_nat pos) b). set (post := drop (Z.to_nat n) (drop (Z.to_nat pos) b)).
  assert (b = pre ++ mjoin cs ++ post) as Eb by (unfold pre, post; by rewrite <- E, !take_drop).
  assert (zlen pre = pos) as Hpre by (unfold pre; rewrite zlen_take; lia).
  destruct (first_byte h b Hk) as (v & Ev & _).
  assert (rd8 pre 0 = Some v) as Ev' by (rewrite Eb in Ev; by rewrite rd8_app_l in Ev by lia).
  unfold normActionsV1orV2. rewrite Eb, <- Hpre, <- Hz.
  rewrite (norm_loop_spec le v) by (done || (by rewrite Hpre) || by apply actions_fuel). cbn [mbind option_bind].
  apply K.
  - rewrite Eb, !Forall_app in Hb. destruct Hb as (? & ? & ?).
    apply (keeps_edit h b); [done|rewrite !Forall_app; split_and!; try done| |].
    + apply Forall_mjoin, Forall_fmap. apply Forall_mjoin in Hab. rewrite Forall_forall in Hab, Hcs |- *.
      intros x Hx. apply norm_action_bytes; auto.
    + rewrite zlen_app. pose proof (zlen_nonneg (mjoin (norm_action le v ip <$> cs) ++ post)). lia.
    + rewrite Eb. rewrite !take8_app by lia. done.
  - rewrite zlen_app. pose proof (zlen_nonneg (mjoin (norm_action le v ip <$> cs) ++ post)). lia.
  - rewrite Eb, !zlen_app. lia.
Qed.

Lemma normalizeFlowModV1_safe : wp (normalizeFlowModV1 le buf) (keeps h).
Proof.
  unfold normalizeFlowModV1, sizeof_Header, instruction_header. start.
  step; [walk; finish|]. step; [walk; finish|]. rewrite (u16_small (zlen buf - 72)) by lia.
  walk; try finish. destruct (Z.ltb_spec 0 (zlen buf - 72)); walk; try finish.
  eapply wp_actions; [done|lia|done|done|walk; finish|]. intros b' d ? ? ?. walk; finish.
Qed.

Lemma normalizePacketOutV1_safe : wp (normalizePacketOutV1 le buf) (keeps h).
Proof.
  unfold normalizePacketOutV1. start. walk; try finish.
  destruct (Z.ltb_spec 0 v); walk; try finish.
  eapply wp_actions; [done|lia|done|done|walk; finish|]. intros b' d ? ? ?. walk; finish.
Qed.

Lemma normalizeMultipartRequestV1_safe : wp (normalizeMultipartRequestV1 buf) (keeps h).
Proof.
  unfold normalizeMultipartRequestV1, normalizeMPFlowRequestV1, normalizeMPPortStatsRequestV1, multipartType,
    UnpaddedSizeVersion1, sizeof_MultipartRequest. start. walk; finish.
Qed.

(** *** Loops over the entries of a reply *)

(** Between two entries: the next one starts at a multiple of 8. *)
Definition at_entry (b : list Z) (start : Z) : Prop :=
  keeps h b /\ 16 <= start <= zlen b /\ (start < zlen b -> start mod 8 = 0).

(** A step goes to the next entry or to the end; less is left behind it. *)
Definition next_entry (b : list Z) (start : Z) (r : list Z * Z) : Prop :=
  at_entry r.1 r.2 /\ zlen r.1 - r.2 < zlen b - start.

Definition entry_step (step : list Z -> Z -> option (list Z * Z)) : Prop :=
  forall b start, at_entry b start -> start < zlen b ->
  wp (step b start) (next_entry b start).

Lemma reply_loop_safe step fuel b start :
  entry_step step -> at_entry b start -> zlen b - start <= Z.of_nat fuel -> wp (reply_loop step fuel b start) (keeps h).
Proof.
  intros Hstep. revert b start. induction fuel as [|n IH]; intros b start Hat Hf; cbn [reply_loop].
  - pose proof Hat as (Hk & ? & _). destruct (Z.ltb_spec start (zlen b)); [lia|].
    replace (start =? zlen b) with true by lia. done.
  - pose proof Hat as (Hk & ? & _). destruct (Z.ltb_spec start (zlen b)).
    + eapply wp_bind; [by apply Hstep|]. intros [b' s'] [Hat' Hd]. cbn in Hat', Hd. apply IH; [done|lia].
    + replace (start =? zlen b) with true by lia. done.
Qed.

Lemma for_entries_safe step b : entry_step step -> keeps h b -> 16 <= zlen b -> wp (for_entries step b) (keeps h).
Proof.
  intros Hs Hk H16. unfold for_entries, sizeof_MultipartReply. apply reply_loop_safe; [done| |unfold zlen; lia].
  split_and!; done || lia.
Qed.

(** The step stops at the end of the buffer, or goes [n] bytes further. *)
Lemma stop_entry b start b' : start < zlen b -> keeps h b' -> 16 <= zlen b' -> next_entry b start (b', zlen b').
Proof. intros. split; [split_and!; done || (cbn; lia)|cbn; lia]. Qed.

Lemma stop_invalid_entry b start : at_entry b start -> start < zlen b -> wp (stop_invalid b) (next_entry b start).
Proof.
  intros (Hk & Hs & _) Hlt. unfold stop_invalid.
  eapply wp_bind; [step; exact (conj H0 H1)|]. intros b' [Hk' Hz]. apply stop_entry; [done..|lia].
Qed.

Lemma advance_entry b start b' n :
  16 <= start -> start mod 8 = 0 -> keeps h b' -> n mod 8 = 0 -> 0 < n -> start + n <= zlen b' ->
  zlen b' - n < zlen b -> next_entry b start (b', start + n).
Proof.
  intros. split; [|cbn; lia]. split_and!; cbn; [done|lia|lia|]. intros _. rewrite Z.add_mod, H1, H3 by lia. done.
Qed.

Lemma table_stats_step : entry_step normalizeMPTableStatsReplyV4.
Proof.
  intros b start Hat Hlt. pose proof Hat as (Hk & Hs & H8). specialize (H8 Hlt). unfold normalizeMPTableStatsReplyV4.
  step; [by apply stop_invalid_entry|]. walk. apply advance_entry; done || lia.
Qed.

Lemma queue_stats_V1_step len : 8 <= len -> len mod 8 = 0 -> entry_step (normalizeMPPortOrQueueStatsReplyV1 len).
Proof.
  intros Hl Hl8 b start Hat Hlt. pose proof Hat as (Hk & Hs & H8). specialize (H8 Hlt).
  unfold normalizeMPPortOrQueueStatsReplyV1. step; [apply stop_entry; done || lia|]. walk.
  rewrite <- Z.add_assoc. apply advance_entry; try done; try lia. rewrite Z.add_mod, Hl8 by lia. done.
Qed.

Lemma queue_stats_V3_step len : 8 <= len -> len mod 8 = 0 -> entry_step (normalizeMPPortOrQueueStatsReplyV3 len).
Proof.
  intros Hl Hl8 b start Hat Hlt. pose proof Hat as (Hk & Hs & H8). specialize (H8 Hlt).
  unfold normalizeMPPortOrQueueStatsReplyV3. step; [apply stop_entry; done || lia|]. walk.
  rewrite <- Z.add_assoc. apply advance_entry; try done; try lia. rewrite Z.add_mod, Hl8 by lia. done.
Qed.

Lemma port_stats_V4_next b b' start :
  keeps h b' -> 16 <= start -> start + 112 <= zlen b' -> start mod 8 = 0 -> zlen b' - 112 < zlen b ->
  wp (normalizeMPPortStatsReplyV4 b' start) (next_entry b start).
Proof.
  intros Hk Hs Hl H8 Hd. unfold normalizeMPPortStatsReplyV4, port_stats_ethernet.
  step; [exfalso; lia|]. rewrite IsPtrAligned_8, (proj2 (Z.eqb_eq _ _) H8). walk.
  apply advance_entry; done || lia.
Qed.

Lemma port_stats_V4_step : entry_step normalizeMPPortStatsReplyV4.
Proof.
  intros b start Hat Hlt. pose proof Hat as (Hk & Hs & H8). specialize (H8 Hlt).
  destruct (Z.ltb_spec (zlen b - start) 112).
  - unfold normalizeMPPortStatsReplyV4. rewrite (proj2 (Z.ltb_lt _ _)) by done. apply stop_entry; done || lia.
  - apply port_stats_V4_next; done || lia.
Qed.

Lemma port_stats_V2_step : entry_step normalizeMPPortStatsReplyV2.
Proof.
  intros b start Hat Hlt. pose proof Hat as (Hk & Hs & H8). specialize (H8 Hlt). unfold normalizeMPPortStatsReplyV2.
  step; [apply stop_entry; done || lia|]. walk. apply port_stats_V4_next; done || lia.
Qed.

Lemma port_stats_V1_step : entry_step normalizeMPPortStatsReplyV1.
Proof.
  intros b start Hat Hlt. pose proof Hat as (Hk & Hs & H8). specialize (H8 Hlt). unfold normalizeMPPortStatsReplyV1.
  step; [apply stop_entry; done || lia|].
  change 4 with (2 ^ 2). rewrite (IsPtrAligned_pow2 start 2) by done. replace (start mod 2 ^ 2 =? 0) with true.
  - walk. apply port_stats_V4_next; done || lia.
  - symmetry. apply Z.eqb_eq. change (2 ^ 2) with 4. apply Z.mod_divide; [done|].
    apply Z.mod_divide in H8 as [q ->]; [|done]. exists (2 * q). lia.
Qed.

(** The type of the reply does not change when the header is padded. *)
Lemma wp_padded {B} (k : list Z -> option B) Q :
  12 <= zlen buf ->
  (forall b, keeps h b -> zlen b = zlen buf + 4 -> rd16 b 8 = rd16 buf 8 -> wp (k b) Q) ->
  wp (b ← b_insert buf 12 (replicate 4 0); k b) Q.
Proof.
  intros H12 K. destruct Hmsg as (Hk & _). destruct (cut_at buf 12 ltac:(lia)) as (a & c & E & Ha).
  assert (wp (b_insert buf 12 (replicate 4 0)) (fun b => keeps h b /\ zlen b = zlen buf + 4)) as Hw.
  { apply wp_tail. eapply wp_insert; [done|lia|bytes_side|]. intros b ? Hz. split; [done|sizes]. }
  rewrite (b_insert_at buf a c) in Hw |- * by done. destruct Hw as [? ?]. cbn [mbind option_bind].
  apply K; [done..|]. rewrite E, !rd_be_app_l by lia. done.
Qed.

Definition not_reply_type (t : Z) : Prop := forall v, rd16 buf 8 = Some v -> v <> t.

Ltac reply := repeat lazymatch goal with |- wp (for_entries _ _) _ => fail | _ => step end; try finish.
Ltac entries lemma := apply for_entries_safe; [apply lemma; done|done|lia].

(** Replies whose entries are checked: not the flow entries of OpenFlow 1.0 and
    the group statistics of OpenFlow 1.2. *)
Lemma normalizeMultipartReplyV1_safe :
  not_reply_type OFPMP_FLOW_DESC -> wp (normalizeMultipartReplyV1 le buf) (keeps h).
Proof.
  intros Ht. unfold normalizeMultipartReplyV1, UnpaddedSizeVersion1, multipartType. start. step; [walk; finish|].
  apply wp_padded; [lia|]. intros b Hkb Hz Htype.
  step. rewrite Htype in *. replace (v =? OFPMP_FLOW_DESC) with false by (symmetry; by apply Z.eqb_neq, Ht).
  reply.
  - entries port_stats_V1_step.
  - entries (queue_stats_V1_step 32).
  - apply normalizeMPPortDescReplyV1_safe; [done|lia].
Qed.

Lemma normalizeMultipartReplyV2_safe : wp (normalizeMultipartReplyV2 buf) (keeps h).
Proof.
  unfold normalizeMultipartReplyV2, sizeof_MultipartReply, multipartType. start. reply.
  - entries port_stats_V2_step.
  - apply normalizeMPPortDescReplyV4_safe; [done|lia].
Qed.

Lemma normalizeMultipartReplyV3_safe :
  not_reply_type OFPMP_GROUP_STATS -> wp (normalizeMultipartReplyV3 buf) (keeps h).
Proof.
  intros Ht. unfold normalizeMultipartReplyV3, sizeof_MultipartReply, multipartType. start.
  step; [walk; finish|]. step. replace (v =? OFPMP_GROUP_STATS) with false by (symmetry; by apply Z.eqb_neq, Ht).
  reply.
  - entries port_stats_V2_step.
  - entries (queue_stats_V3_step 32).
  - apply normalizeMPPortDescReplyV4_safe; [done|lia].
Qed.

Lemma normalizeMultipartReplyV4_safe : wp (normalizeMultipartReplyV4 buf) (keeps h).
Proof.
  unfold normalizeMultipartReplyV4, sizeof_MultipartReply, multipartType. start. reply.
  - entries port_stats_V4_step.
  - apply normalizeMPPortDescReplyV4_safe; [done|lia].
  - entries table_stats_step.
Qed.

Lemma normalizeMultipartReplyV5_safe : wp (normalizeMultipartReplyV5 buf) (keeps h).
Proof.
  unfold normalizeMultipartReplyV5, sizeof_MultipartReply, multipartType. start. reply. entries table_stats_step.
Qed.
End Handlers.

(** ** Queues *)

(** What a queue of OpenFlow 1.0 and 1.1 becomes: the header grows by 8 bytes,
    the properties are the bytes that the length covers. *)
Definition queue_of_V1 (x : list Z) : list Z :=
  let len := default 0 (rd16 x 4) in
  take 4 x ++ replicate 4 0 ++ be_bytes 2 (len + 8) ++ replicate 6 0 ++ take (Z.to_nat (len - 8)) (drop 8 x).

Lemma queue_params : iter_params 8 4 8.
Proof. unfold iter_params. lia. Qed.

Lemma queue_V1_length x : elem_ok 8 4 x -> exists len, rd16 x 4 = Some len /\ 8 <= len < 2 ^ 16 /\
  len <= zlen x /\ zlen (queue_of_V1 x) = len + 8.
Proof.
  intros (len & E & _ & Hl & Hz). pose proof (PadLength_bounds len ltac:(lia)). exists len.
  split_and!; try done; try lia. unfold queue_of_V1. rewrite E. cbn [default id].
  autorewrite with zlen. lia.
Qed.

Lemma convert_queue_elem pre x post out :
  elem_ok 8 4 x -> zlen x <= 65512 ->
  convert_queue (pre ++ x ++ post) (zlen pre) out = Some (out ++ queue_of_V1 x).
Proof.
  intros Hx Hz. destruct (queue_V1_length x Hx) as (len & E & Hl & Hlx & Hq). unfold convert_queue.
  rewrite slice_mid0 by lia. rewrite slice_some by lia. cbn [mbind option_bind].
  unfold rd_be in E |- *. rewrite slice_mid by lia. rewrite E. cbn [mbind option_bind].
  rewrite (proj2 (Z.leb_le 8 len)) by lia. rewrite slice_mid by lia. rewrite slice_some by lia. cbn [mbind option_bind].
  rewrite !zlen_take, zlen_drop.
  replace (16 + _ `min` _) with (len + 8) by lia.
  rewrite u16_small, Z.eqb_refl by lia. unfold queue_of_V1, rd_be. rewrite E. done.
Qed.

(** The loop of [normalizeQueueGetConfigReplyV1] over accepted queues. *)
Lemma convert_queues cs :
  Forall (elem_ok 8 4) cs -> zlen (mjoin cs) <= 65519 ->
  for_elements 8 4 8 (fun p out => out ← convert_queue (mjoin cs) p out; Some (true, out)) (length (mjoin cs))
    (mkRange 16 (mjoin cs)) 0 [] = Some (true, mjoin (queue_of_V1 <$> cs)).
Proof.
  intros Hcs Hz. rewrite (for_elements_elems 8 4 queue_params _ (fun o x => o ++ queue_of_V1 x) (fun _ => True)); try done.
  - by rewrite foldl_join.
  - intros pre x post a E Hx _ _. split; [|done]. rewrite E.
    assert (elem_ok 8 4 x) as Hxo by (rewrite Forall_forall in Hcs; auto).
    rewrite convert_queue_elem; [done..|]. rewrite E, !zlen_app in Hz.
    pose proof (zlen_nonneg pre). pose proof (zlen_nonneg post). apply elem_length in Hxo as (_ & _ & Hm).
    pose proof (Z.div_mod (zlen x) 8 ltac:(done)). lia.
Qed.

Lemma queue_of_V1_bytes x : bytes_ok x -> bytes_ok (queue_of_V1 x).
Proof.
  intros Hx. unfold queue_of_V1. rewrite !Forall_app.
  split_and!; try (by apply Forall_replicate); try apply be_bytes_ok; [by apply Forall_take|].
  by apply Forall_take, Forall_drop.
Qed.

Lemma wp_replace h b y :
  keeps h b -> 16 <= zlen b -> bytes_ok y -> wp (b_replace b 16 (zlen b) y) (fun b' => keeps h b' /\ b' = take 16 b ++ y).
Proof.
  intros Hk H16 Hy. pose proof Hk as (Hb & _).
  rewrite (b_replace_at b (take 16 b) (drop 16 b) []); cbn [wp].
  - rewrite app_nil_r. split; [|done]. apply (keeps_edit h b); [done|apply Forall_app; split; [by apply Forall_take|done]| |].
    + rewrite zlen_app, zlen_take. pose proof (zlen_nonneg y). lia.
    + rewrite take8_app by (rewrite zlen_take; lia). by rewrite take_take.
  - by rewrite app_nil_r, take_drop.
  - rewrite zlen_take. lia.
  - rewrite zlen_take, zlen_drop. lia.
Qed.

Section Queues.
Variables (h buf : list Z).
Hypothesis Hmsg : message_ok h buf.

Lemma normalizeQueueGetConfigReplyV1_safe : wp (normalizeQueueGetConfigReplyV1 buf) (keeps h).
Proof.
  unfold normalizeQueueGetConfigReplyV1, sizeof_QueueGetConfigReply, sizeof_Header.
  destruct Hmsg as (Hk & Hmax & Hlen). rewrite Hlen. cbn [mbind option_bind]. step; [walk; finish|].
  destruct (first_byte h buf Hk) as (v & Ev & _). unfold b_version. rewrite Ev. cbn [mbind option_bind].
  eapply wp_bind with (P := fun b => keeps h b /\ zlen b = zlen buf).
  { destruct (v =? OFP_VERSION_1); [|done]. walk. by split. }
  intros b [Hkb Hz]. step.
  match goal with E : slice b 16 _ = Some ?d |- _ => rename d into data; rename E into Edata end.
  assert (bytes_ok data) as Hdata by done.
  destruct (validateInput_iff 8 4 queue_params (fun p c => len ← rd16 data (p + 4); Some (8 <=? len, c))
    (fun _ => True) (mkRange 16 data) default_context) as (ok & c' & -> & Hiff & _); [done| |].
  { cbn [br_data]. intros cs pre x post E Hcs Hx Ep _. rewrite Forall_forall in Hcs.
    destruct (queue_V1_length x (Hcs x Hx)) as (len & El & Hl & Hlx & _).
    exists true, default_context. split_and!; try done. rewrite Ep. unfold rd_be in El |- *. rewrite slice_mid by lia.
    rewrite El. cbn [mbind option_bind]. by rewrite (proj2 (Z.leb_le 8 len)) by lia. }
  cbn [mbind option_bind br_data]. destruct ok; cbn [negb]; [|walk; finish].
  destruct (proj1 Hiff eq_refl) as (_ & cs & E & Hcs & _). cbn [br_data] in E. subst data.
  rewrite convert_queues by (done || lia). cbn [fmap option_fmap option_map snd mbind option_bind].
  step; [walk; finish|]. eapply wp_mono; [apply wp_replace; [done|lia|]|by intros b' [? _]].
  apply Forall_mjoin, Forall_fmap. apply Forall_mjoin in Hdata. eapply Forall_impl; [exact Hdata|]. apply queue_of_V1_bytes.
Qed.

Lemma pad_properties_safe m fuel prop left out :
  bytes_ok m -> 0 <= prop -> 0 <= left -> prop + left <= zlen m -> left <= Z.of_nat fuel -> bytes_ok out ->
  wp (pad_properties fuel m prop left out)
     (fun r => match r with inl _ => True | inr (p, o) => p = prop + left /\ bytes_ok o end).
Proof.
  intros Hm. revert prop left out. induction fuel as [|n IH]; intros prop left out Hp Hl Hz Hf Ho; cbn [pad_properties].
  all: destruct (Z.ltb_spec 4 left);
    [|destruct (Z.eqb_spec left 0); cbn [negb wp]; [split; [lia|done]|done]].
  - lia.
  - destruct (rd_be_some 2 m (prop + 2)) as [sz E]; [lia..|]. rewrite E. cbn [mbind option_bind].
    destruct (Z.ltb_spec left sz); [done|]. destruct (Z.ltb_spec sz 4); [done|]. cbn [orb].
    rewrite slice_some by lia. cbn [mbind option_bind].
    eapply wp_mono; [apply IH; try lia|].
    + rewrite !Forall_app. split_and!; [done|by apply Forall_take, Forall_drop|by apply Forall_replicate].
    + intros [|[p o]]; [done|]. intros [-> ?]. split; [lia|done].
Qed.

Lemma pad_queues_safe m fuel ptr remaining out :
  bytes_ok m -> 0 <= ptr -> 0 <= remaining -> ptr + remaining <= zlen m -> remaining <= Z.of_nat fuel -> bytes_ok out ->
  wp (pad_queues fuel m ptr remaining out) (fun r => match r with inl _ => True | inr o => bytes_ok o end).
Proof.
  intros Hm. revert ptr remaining out. induction fuel as [|n IH]; intros ptr rem out Hp Hl Hz Hf Ho; cbn [pad_queues].
  all: destruct (Z.ltb_spec 16 rem); [|by destruct (rem =? 0)].
  - lia.
  - destruct (rd_be_some 2 m (ptr + 8)) as [len E]; [lia..|]. rewrite E. cbn [mbind option_bind].
    destruct (Z.ltb_spec rem len); [done|]. destruct (Z.ltb_spec len 16); [done|]. cbn [orb].
    rewrite slice_some by lia. cbn [mbind option_bind].
    eapply wp_bind; [apply pad_properties_safe; try done; try lia|].
    + unfold zlen in Hz. lia.
    + rewrite Forall_app. split; [done|by apply Forall_take, Forall_drop].
    + intros [|[p o]]; [done|]. intros [-> Ho']. replace (_ =? _) with true by lia. apply IH; done || lia.
Qed.

Lemma normalizeQueueGetConfigReplyV2_safe : wp (normalizeQueueGetConfigReplyV2 buf) (keeps h).
Proof.
  unfold normalizeQueueGetConfigReplyV2, sizeof_QueueGetConfigReply.
  destruct Hmsg as (Hk & Hmax & Hlen). rewrite Hlen. cbn [mbind option_bind]. step; [done|]. step.
  eapply wp_bind; [apply pad_queues_safe; try done; unfold zlen; lia|].
  intros [|o]; [done|]. intros Ho. step; [walk; finish|].
  eapply wp_mono; [apply wp_replace; [done|lia|done]|by intros b' [? _]].
Qed.
End Queues.

(** ** The whole of [normalize] *)

Lemma translateType_latest v t :
  is_byte v -> is_byte t -> exists t', Header_translateType v t OFP_VERSION_4 = Some t' /\ is_byte t' /\
    (v = OFP_VERSION_1 -> t' = OFPT_MULTIPART_REPLY -> t = 17) /\
    (v = OFP_VERSION_3 -> t' = OFPT_MULTIPART_REPLY -> t = 19).
Proof.
  intros Hv Ht.
  set (ok v t := match Header_translateType v t OFP_VERSION_4 with
       | Some t' => (0 <=? t') && (t' <? 256) && (negb (t' =? OFPT_MULTIPART_REPLY) ||
           (negb (v =? OFP_VERSION_1) || (t =? 17)) && (negb (v =? OFP_VERSION_3) || (t =? 19)))
       | None => false end).
  assert (ok v t = true) as H.
  { apply (small_check (ok v) 256); [|done].
    apply (small_check (fun v => forallb (ok v) (seqZ 0 256)) 256); [|done]. by vm_compute. }
  unfold ok in H. destruct (Header_translateType v t OFP_VERSION_4) as [t'|]; [|done]. exists t'.
  unfold is_byte. split_and!; [done|lia..].
Qed.

(** The header that the handlers get: the type is that of the latest version,
    the length is the size, and the version is flagged if either was wrong. *)
Definition entry_version (v t' length size : Z) : Z :=
  if (t' =? OFPT_UNSUPPORTED) || negb (size =? length) then Z.lor kInvalidErrorFlag v else v.

Definition entry_message (v t' length : Z) (rest : list Z) : list Z :=
  let size := 4 + zlen rest in entry_version v t' length size :: t' :: be_bytes 2 size ++ rest.

(** What [normalize] does behind the handler. *)
Definition exit_message (buf : list Z) : option (list Z) :=
  buf ← (if OFP_MAX_SIZE <? zlen buf then buf ← markInputTooBig buf; b_shrink buf OFP_MAX_SIZE else Some buf);
  buf ← b_setLength buf (zlen buf);
  length ← b_length buf;
  assert! (zlen buf =? length);; Some buf.

(** Header accesses on a buffer given by its first bytes. *)
Lemma mark_cons v r : markInputInvalid (v :: r) = Some (Z.lor kInvalidErrorFlag v :: r).
Proof. exact (wr_split (v :: r) 0 [Z.lor kInvalidErrorFlag v] [] [v] r eq_refl eq_refl eq_refl). Qed.

Lemma markBig_cons v r : markInputTooBig (v :: r) = Some (Z.lor kTooBigErrorFlag v :: r).
Proof. exact (wr_split (v :: r) 0 [Z.lor kTooBigErrorFlag v] [] [v] r eq_refl eq_refl eq_refl). Qed.

Lemma setType_cons v t r t' : b_setType (v :: t :: r) t' = Some (v :: t' :: r).
Proof. exact (wr_split (v :: t :: r) 1 [t'] [v] [t] r eq_refl eq_refl eq_refl). Qed.

Lemma setLength_cons v t l1 l2 r n :
  0 <= n <= 65535 -> b_setLength (v :: t :: l1 :: l2 :: r) n = Some (v :: t :: be_bytes 2 n ++ r).
Proof.
  intros. unfold b_setLength, OFP_MAX_SIZE. rewrite (proj2 (Z.leb_le _ _)) by lia.
  rewrite (wr_split _ 2 _ [v; t] [l1; l2] r) by (done || by rewrite zlen_be_bytes).
  by rewrite u16_small by lia.
Qed.

Lemma length_cons4 v t l1 l2 r : b_length (v :: t :: l1 :: l2 :: r) = Some (256 * l1 + l2).
Proof.
  unfold b_length, rd_be. rewrite (slice_split _ 2 2 [v; t] [l1; l2] r) by done.
  unfold be. cbn. f_equal. lia.
Qed.

Lemma be_bytes_pair l1 l2 : is_byte l1 -> is_byte l2 -> be_bytes 2 (256 * l1 + l2) = [l1; l2].
Proof.
  intros. replace (256 * l1 + l2) with (be [l1; l2]) by (unfold be; cbn; lia).
  apply be_bytes_be_len; [done|]. by rewrite !Forall_cons.
Qed.

Lemma normalize_parts `{Uninit} le v t l1 l2 rest t' :
  bytes_ok (v :: t :: l1 :: l2 :: rest) -> 4 <= zlen rest <= 65531 ->
  Header_translateType v t OFP_VERSION_4 = Some t' ->
  normalize le (v :: t :: l1 :: l2 :: rest) =
  (b ← normalize_by_type le v t' (entry_message v t' (256 * l1 + l2) rest); exit_message b).
Proof.
  rewrite !Forall_cons. intros (Hv & Ht & H1 & H2 & Hr) Hz Et.
  assert (forall a b c d, zlen (a :: b :: c :: d :: rest) = 4 + zlen rest) as Hlen by (intros; autorewrite with zlen; lia).
  unfold normalize. rewrite Hlen, (proj2 (Z.leb_le sizeof_Header _)) by (unfold sizeof_Header; lia).
  change (b_version (v :: t :: l1 :: l2 :: rest)) with (Some v).
  change (b_type (v :: t :: l1 :: l2 :: rest)) with (Some t). cbn [mbind option_bind]. rewrite Et. cbn [mbind option_bind].
  set (v1 := if t' =? OFPT_UNSUPPORTED then Z.lor kInvalidErrorFlag v else v).
  replace (if t' =? OFPT_UNSUPPORTED then markInputInvalid _ else _) with (Some (v1 :: t :: l1 :: l2 :: rest))
    by (unfold v1; destruct (t' =? OFPT_UNSUPPORTED); [by rewrite mark_cons|done]).
  cbn [mbind option_bind]. rewrite setType_cons. cbn [mbind option_bind]. rewrite length_cons4 by done.
  cbn [mbind option_bind]. rewrite Hlen. unfold entry_message, entry_version.
  set (w := if (t' =? OFPT_UNSUPPORTED) || _ then _ else _).
  replace (if negb (4 + zlen rest =? 256 * l1 + l2) then _ else _) with (Some (w :: t' :: be_bytes 2 (4 + zlen rest) ++ rest)).
  { done. }
  unfold w, v1. destruct (Z.eqb_spec (4 + zlen rest) (256 * l1 + l2)) as [E|E]; cbn [negb].
  - rewrite orb_false_r, E. by rewrite be_bytes_pair.
  - rewrite orb_true_r, mark_cons. cbn [mbind option_bind]. rewrite Hlen, setLength_cons by lia. f_equal. f_equal.
    destruct (t' =? OFPT_UNSUPPORTED); [|done]. by rewrite Z.lor_assoc, Z.lor_diag.
Qed.

Lemma keeps_cons v t l1 l2 h4 b :
  keeps (v :: t :: l1 :: l2 :: h4) b -> length h4 = 4%nat ->
  exists f r, error_flag f /\ b = Z.lor f v :: t :: l1 :: l2 :: h4 ++ r /\ bytes_ok b.
Proof.
  intros (Hb & H8 & f & Hf & E) Hl. exists f, (drop 8 b). split_and!; try done.
  rewrite <- (take_drop 8 b) at 1. rewrite E. cbn [flagged app]. done.
Qed.

Lemma set_size w t l1 l2 r :
  let b := w :: t :: l1 :: l2 :: r in let m := w :: t :: be_bytes 2 (zlen b) ++ r in
  zlen b <= 65535 ->
  zlen m = zlen b /\
  (buf ← b_setLength b (zlen b); length ← b_length buf; assert! (zlen buf =? length);; Some buf) = Some m.
Proof.
  intros b m Hz. pose proof (zlen_nonneg r).
  assert (zlen b = 4 + zlen r) as Hb by (unfold b; autorewrite with zlen; lia).
  assert (zlen m = zlen b) as Hm by (unfold m; autorewrite with zlen; lia).
  split; [done|]. unfold b at 1. rewrite setLength_cons by lia. fold m. cbn [mbind option_bind]. rewrite Hm.
  assert (b_length m = Some (zlen b)) as ->.
  { unfold m, b_length, rd_be. rewrite (slice_split _ 2 2 [w; t] (be_bytes 2 (zlen b)) r) by (done || by rewrite zlen_be_bytes).
    cbn [fmap option_fmap option_map]. by rewrite be_be_bytes_small by lia. }
  cbn [mbind option_bind]. by rewrite Z.eqb_refl.
Qed.

Lemma shrink_cons w t l1 l2 xid r n :
  length xid = 4%nat -> 8 <= n <= zlen (w :: t :: l1 :: l2 :: xid ++ r) ->
  b_shrink (w :: t :: l1 :: l2 :: xid ++ r) n = Some (w :: t :: l1 :: l2 :: xid ++ take (Z.to_nat (n - 8)) r).
Proof.
  intros Hx Hn. unfold b_shrink. rewrite !(proj2 (Z.leb_le _ _)) by lia. cbn [andb].
  change (w :: t :: l1 :: l2 :: xid ++ r) with (([w; t; l1; l2] ++ xid) ++ r).
  rewrite take_app, length_app, Hx. rewrite take_ge by (rewrite length_app, Hx; cbn; lia).
  cbn [length app]. do 7 f_equal. lia.
Qed.

(** A well-formed message with the header of [v :: t :: _ :: _ :: xid]. *)
Definition sealed (v t : Z) (xid : list Z) (f : Z) (m : list Z) : Prop :=
  error_flag f /\ (exists body, m = Z.lor f v :: t :: be_bytes 2 (zlen m) ++ xid ++ body) /\
  8 <= zlen m <= 65535 /\ bytes_ok m.

Lemma set_size_sealed v t l1 l2 xid f r :
  error_flag f -> is_byte v -> is_byte t -> bytes_ok xid -> length xid = 4%nat -> bytes_ok r -> zlen r <= 65527 ->
  let b := Z.lor f v :: t :: l1 :: l2 :: xid ++ r in
  wp (buf ← b_setLength b (zlen b); length ← b_length buf; assert! (zlen buf =? length);; Some buf) (sealed v t xid f).
Proof.
  intros Hf Hv Ht Hx Hl Hr Hz b. pose proof (zlen_nonneg r). assert (zlen xid = 4) as Hx4 by (unfold zlen; lia).
  destruct (set_size (Z.lor f v) t l1 l2 (xid ++ r)) as [Hm E]; [autorewrite with zlen; lia|].
  unfold b. rewrite E. unfold sealed. cbn [wp]. rewrite Hm. split_and!; try done; [by exists r|autorewrite with zlen; lia..|].
  rewrite !Forall_cons, !Forall_app. split_and!; try done; [|apply be_bytes_ok].
  apply lor_byte; [|done]. by destruct Hf as [->|[->| ->]].
Qed.

Lemma exit_message_ok v t l1 l2 xid b :
  keeps (v :: t :: l1 :: l2 :: xid) b -> length xid = 4%nat -> is_byte v ->
  wp (exit_message b) (fun m => exists f, (65535 < zlen b -> f <> 0) /\ sealed v t xid f m).
Proof.
  intros Hk Hx Hv. unfold exit_message, OFP_MAX_SIZE.
  destruct (keeps_cons _ _ _ _ _ _ Hk Hx) as (f & r & Hf & Eb & Hb).
  pose proof Hb as Hb'. rewrite Eb, !Forall_cons, Forall_app in Hb'. destruct Hb' as (_ & Ht & _ & _ & Hxb & Hr).
  assert (zlen xid = 4) as Hx4 by (unfold zlen; lia).
  destruct (Z.ltb_spec 65535 (zlen b)).
  - subst b. rewrite markBig_cons. cbn [mbind option_bind].
    rewrite shrink_cons, Z.lor_assoc by (done || autorewrite with zlen in *; lia). cbn [mbind option_bind].
    eapply wp_mono; [apply set_size_sealed; try done|].
    + apply error_flag_lor; [|done]. by right; left.
    + by apply Forall_take.
    + rewrite zlen_take. lia.
    + intros m Hm. eexists. split; [|done]. intros _ E. apply Z.lor_eq_0_l in E. done.
  - subst b. cbn [mbind option_bind]. eapply wp_mono; [apply set_size_sealed; try done|].
    + autorewrite with zlen in *; lia.
    + intros m Hm. exists f. split; [lia|done].
Qed.

(** Every message but the replies whose entries are not checked. *)
Definition checked_reply (buf : list Z) : Prop :=
  (b_version buf = Some OFP_VERSION_1 -> b_type buf = Some 17 -> rd16 buf 8 <> Some OFPMP_FLOW_DESC) /\
  (b_version buf = Some OFP_VERSION_3 -> b_type buf = Some 19 -> rd16 buf 8 <> Some OFPMP_GROUP_STATS).

Lemma normalize_by_type_safe le `{UninitLaws} h buf v t :
  message_ok h buf ->
  (v = OFP_VERSION_1 -> t = OFPT_MULTIPART_REPLY -> rd16 buf 8 <> Some OFPMP_FLOW_DESC) ->
  (v = OFP_VERSION_3 -> t = OFPT_MULTIPART_REPLY -> rd16 buf 8 <> Some OFPMP_GROUP_STATS) ->
  wp (normalize_by_type le v t buf) (keeps h).
Proof.
  intros Hmsg H1 H3. pose proof Hmsg as (Hk & _). unfold normalize_by_type.
  assert (v = OFP_VERSION_1 -> t = OFPT_MULTIPART_REPLY -> not_reply_type buf OFPMP_FLOW_DESC) as N1
    by (intros ? ? w E ->; by apply H1).
  assert (v = OFP_VERSION_3 -> t = OFPT_MULTIPART_REPLY -> not_reply_type buf OFPMP_GROUP_STATS) as N3
    by (intros ? ? w E ->; by apply H3).
  repeat match goal with |- wp (if ?b then _ else _) _ => destruct b eqn:? end; try done.
  all: first
    [ by apply normalizeFeaturesReplyV1_safe | by apply normalizeFeaturesReplyV2_safe | by apply normalizeFlowModV1_safe
    | by apply normalizePortStatusV1_safe | by apply normalizePortStatusV2_safe | by apply normalizeExperimenterV1_safe
    | by apply normalizePacketOutV1_safe | by apply normalizePortModV1_safe | by apply normalizePortModV2_safe
    | by apply normalizeFlowRemovedV1_safe | by apply normalizeMultipartRequestV1_safe
    | by apply normalizeQueueGetConfigReplyV1_safe | by apply normalizeQueueGetConfigReplyV2_safe
    | by apply normalizeMultipartReplyV2_safe | by apply normalizeMultipartReplyV4_safe
    | by apply normalizeMultipartReplyV5_safe | by apply normalizeAsyncConfigV4_safe
    | apply normalizeMultipartReplyV1_safe; [done..|apply N1; by apply Z.eqb_eq]
    | apply normalizeMultipartReplyV3_safe; [done..|apply N3; by apply Z.eqb_eq] ].
Qed.

Lemma entry_message_ok v t l1 l2 xid body t' :
  bytes_ok (v :: t :: l1 :: l2 :: xid ++ body) -> is_byte t' -> length xid = 4%nat -> zlen body <= 65527 ->
  let buf := entry_message v t' (256 * l1 + l2) (xid ++ body) in
  message_ok (take 8 buf) buf /\
  exists m1 m2, take 8 buf = entry_version v t' (256 * l1 + l2) (8 + zlen body) :: t' :: m1 :: m2 :: xid.
Proof.
  intros Hb Ht' Hx Hz buf. pose proof (zlen_nonneg body). assert (zlen xid = 4) as Hx4 by (unfold zlen; lia).
  assert (zlen buf = 8 + zlen body) as Hl by (unfold buf, entry_message; autorewrite with zlen; lia).
  rewrite !Forall_cons, Forall_app in Hb. destruct Hb as (Hv & Ht & H1 & H2 & Hxb & Hbb).
  split.
  - split_and!; [|lia|].
    + apply keeps_refl; [|lia]. unfold buf, entry_message, entry_version. rewrite !Forall_cons, !Forall_app.
      split_and!; try done; [|apply be_bytes_ok]. destruct (_ || _); [|done]. by apply lor_byte.
    + rewrite Hl. unfold buf, entry_message, b_length, rd_be.
      rewrite (slice_split _ 2 2 [_; t'] (be_bytes 2 (4 + zlen (xid ++ body))) (xid ++ body))
        by (done || by rewrite zlen_be_bytes).
      cbn [fmap option_fmap option_map]. rewrite zlen_app, be_be_bytes_small by lia. f_equal. lia.
  - unfold buf, entry_message. destruct (be_bytes 2 _) as [|m1 [|m2 [|]]] eqn:E;
      pose proof (be_bytes_length 2 (4 + zlen (xid ++ body))) as Hbl; rewrite E in Hbl; try done.
    exists m1, m2. cbn [app take]. rewrite take_app_length' by done. do 2 f_equal. rewrite zlen_app. lia.
Qed.

Lemma flagged_entry f v t' length size :
  error_flag f -> exists g, error_flag g /\ (f <> 0 -> g <> 0) /\
    Z.lor f (entry_version v t' length size) = Z.lor g v /\
    (t' = OFPT_UNSUPPORTED \/ size <> length -> g = kInvalidErrorFlag).
Proof.
  intros Hf. unfold entry_version. destruct (Z.eqb_spec t' OFPT_UNSUPPORTED), (Z.eqb_spec size length);
    cbn [orb negb]; (exists f; split_and!; done || tauto) ||
    (exists (Z.lor f kInvalidErrorFlag); split_and!;
     [apply error_flag_lor; [done|by right; right]|by destruct Hf as [->|[->| ->]]|by rewrite Z.lor_assoc|
      by destruct Hf as [->|[->| ->]]]).
Qed.

Lemma normalize_total le `{UninitLaws} buf :
  bytes_ok buf -> 8 <= zlen buf <= 65535 -> checked_reply buf ->
  exists v t t' m f,
    b_version buf = Some v /\ b_type buf = Some t /\ Header_translateType v t OFP_VERSION_4 = Some t' /\
    normalize le buf = Some m /\ bytes_ok m /\ 8 <= zlen m <= 65535 /\
    b_length m = Some (zlen m) /\ b_type m = Some t' /\ slice m 4 4 = slice buf 4 4 /\
    b_version m = Some (Z.lor f v) /\ error_flag f /\
    (t' = OFPT_UNSUPPORTED \/ b_length buf <> Some (zlen buf) -> f = kInvalidErrorFlag).
Proof.
  intros Hb Hz [C1 C3]. destruct (cut_at buf 8 ltac:(lia)) as (hd & body & -> & Hhd). rewrite zlen_app, Hhd in Hz.
  destruct hd as [|v [|t [|l1 [|l2 xid]]]]; try done. assert (length xid = 4%nat) as Hx by (unfold zlen in Hhd; cbn in Hhd; lia).
  assert (zlen xid = 4) as Hx4 by (unfold zlen; lia).
  cbn [app] in *. pose proof Hb as Hb'. rewrite !Forall_cons, Forall_app in Hb'. destruct Hb' as (Hv & Ht & H1 & H2 & Hxb & Hbb).
  destruct (translateType_latest v t Hv Ht) as (t' & Et & Ht' & T1 & T3). exists v, t, t'.
  destruct (entry_message_ok v t l1 l2 xid body t') as (Hmsg & m1 & m2 & Ehd); [done|done|done|lia|].
  set (e := entry_message v t' (256 * l1 + l2) (xid ++ body)) in *.
  assert (rd16 e 8 = rd16 (v :: t :: l1 :: l2 :: xid ++ body) 8) as E8.
  { rewrite <- (take_drop 8 e), Ehd.
    assert (drop 8 e = body) as ->.
    { unfold e, entry_message. rewrite (app_assoc (be_bytes 2 _)).
      apply (drop_app_length' (_ :: t' :: be_bytes 2 _ ++ xid)). cbn [length]. by rewrite length_app, be_bytes_length, Hx. }
    done. }
  assert (wp (normalize_by_type le v t' e) (keeps (take 8 e))) as Hw.
  { apply normalize_by_type_safe; [exact _|exact Hmsg|..]; rewrite E8; intros -> ->.
    - apply C1; [done|]. by rewrite T1.
    - apply C3; [done|]. by rewrite T3. }
  rewrite (normalize_parts le v t l1 l2 (xid ++ body) t') by (done || rewrite zlen_app; lia). fold e.
  apply wp_some in Hw as (b & -> & Hk). cbn [mbind option_bind]. rewrite Ehd in Hk.
  assert (is_byte (entry_version v t' (256 * l1 + l2) (8 + zlen body))) as Hev
    by (unfold entry_version; destruct (_ || _); [by apply lor_byte|done]).
  pose proof (exit_message_ok _ _ _ _ _ _ Hk Hx Hev) as (m & -> & f0 & _ & Hf0 & (r & Em) & Hm & Hmb)%wp_some.
  destruct (flagged_entry f0 v t' (256 * l1 + l2) (8 + zlen body) Hf0) as (f & Hf & _ & Ef & Hflag).
  rewrite Ef in Em. exists m, f. split_and!; try done; try lia.
  - rewrite Em. unfold b_length, rd_be.
    rewrite (slice_split _ 2 2 [_; t'] (be_bytes 2 (zlen m)) (xid ++ r)) by (done || by rewrite zlen_be_bytes).
    cbn [fmap option_fmap option_map]. by rewrite be_be_bytes_small, <- Em by lia.
  - by rewrite Em.
  - rewrite Em, (app_assoc (be_bytes 2 _)).
    rewrite (slice_split _ 4 4 (_ :: t' :: be_bytes 2 (zlen m)) xid r) by
      (done || rewrite <- ?app_assoc; autorewrite with zlen; done || lia).
    symmetry. apply (slice_split _ 4 4 [v; t; l1; l2] xid body); done.
  - by rewrite Em.
  - intros [->|Hne]; apply Hflag; [by left|]. right. intros E. apply Hne. rewrite length_cons4. f_equal.
    autorewrite with zlen. lia.
Qed.

(** C2. Every message of at most 65535 bytes is normalised without an access outside
    its buffer, without a failing assertion and in finitely many steps, but for
    the two replies of [checked_reply]. The result again has at most 65535
    bytes, and its header gives that size, the type of the latest version and
    the transaction id of the received message; a version without an error flag
    is the received one, and an unsupported type or a wrong length is flagged. *)
Theorem normalize_safe le `{UninitLaws} buf :
  bytes_ok buf -> 8 <= zlen buf <= 65535 -> checked_reply buf ->
  exists v t t' m f,
    b_version buf = Some v /\ b_type buf = Some t /\ Header_translateType v t OFP_VERSION_4 = Some t' /\
    normalize le buf = Some m /\ bytes_ok m /\ 8 <= zlen m <= 65535 /\
    b_length m = Some (zlen m) /\ b_type m = Some t' /\ slice m 4 4 = slice buf 4 4 /\
    b_version m = Some (Z.lor f v) /\ error_flag f /\
    (t' = OFPT_UNSUPPORTED \/ b_length buf <> Some (zlen buf) -> f = kInvalidErrorFlag).
Proof. exact (normalize_total le buf). Qed.

Lemma normalize_safe_witness :
  let buf := [1; 15; 0; 32; 0; 0; 0; 7; 0; 5; 1; 2; 3; 4; 5; 6; 0; 0; 0; 1; 0; 0; 0; 1; 0; 0; 0; 32; 0; 0; 0; 0] in
  exists m, normalize true buf = Some m /\ b_length m = Some (zlen m) /\ b_type m = Some OFPT_PORT_MOD.
Proof.
  intros buf.
  destruct (normalize_safe true buf) as (v & t & t' & m & f & Ev & Et & E & En & _ & _ & El & Em & _).
  - bytes.
  - vm_compute. split; discriminate.
  - split; intros; vm_compute; discriminate.
  - exists m. injection Ev as <-. injection Et as <-. vm_compute in E. injection E as <-. done.
Defined.
