(* ===== verification/NormSpec.v ===== *)
(** * What normalisation makes of a message

    The layout of the normalised message, for the handlers that rewrite a whole
    message or every entry of a reply, and the handlers whose result is not a
    message of the newer layout. *)

From S2P Require Import Prelude.
From S2P Require Import ByteOrder.
From S2P Require Import Hex.
From S2P Require Import Constants.
From S2P Require Import SmallBuffer.
From S2P Require Import Validation.
From S2P Require Import ProtocolRange.
From S2P Require Import Ports.
From S2P Require Import Oxm.
From S2P Require Import Matches.
From S2P Require Import Actions.
From S2P Require Import Instructions.
From S2P Require Import MsgBuffer.
From S2P Require Import NormActions.
From S2P Require Import Normalize.
From S2P Require Import NormSafe.

(** ** Flow modifications of OpenFlow 1.0 *)

(** The fields of the message behind the header and the match. *)
Record flow_mod_v1 : Type := mkFlowModV1 {
  fm_cookie : list Z;
  fm_command : list Z;
  fm_buffer_id : list Z;
  fm_out_port : Z;
  fm_flags : list Z }.

Definition flow_mod_shape (m : flow_mod_v1) : Prop :=
  zlen (fm_cookie m) = 8 /\ zlen (fm_command m) = 8 /\ zlen (fm_buffer_id m) = 4 /\
  0 <= fm_out_port m < 2 ^ 16 /\ zlen (fm_flags m) = 2.

(** [command] stands for the command, the timeouts and the priority. *)
Definition flow_mod_old (hdr om : list Z) (m : flow_mod_v1) (actions : list Z) : list Z :=
  hdr ++ om ++ fm_cookie m ++ fm_command m ++ fm_buffer_id m ++ be_bytes 2 (fm_out_port m) ++ fm_flags m ++ actions.

Definition flow_mod_new (hdr : list Z) (s : StandardMatch) (m : flow_mod_v1) (actions : list Z) : list Z :=
  hdr ++ fm_cookie m ++ replicate 8 0xff ++ fm_command m ++ fm_buffer_id m ++
  be_bytes 4 (PortNumber_fromV1 (fm_out_port m)) ++ replicate 4 0 ++ fm_flags m ++ replicate 2 0 ++
  StandardMatch_bytes s ++
  (if 0 <? zlen actions then instruction_header OFPIT_APPLY_ACTIONS (8 + zlen actions) ++ actions else []).

Lemma original_at_shift pre om post n :
  zlen pre = n -> zlen om = 40 -> OriginalMatch_at (pre ++ om ++ post) n = OriginalMatch_at om 0.
Proof.
  intros <- Hz. unfold OriginalMatch_at, rd_be. rewrite slice_mid0, !slice_mid, !rd8_mid by lia. done.
Qed.

(** The 40 bytes of the match become the fixed part of the new message. *)
Lemma flow_mod_fixed_part {B} hdr om m rest (k : list Z -> option B) :
  zlen hdr = 8 -> zlen om = 40 -> flow_mod_shape m ->
  (out_port ← normPortNumberV1 (flow_mod_old hdr om m rest) 68;
   buf ← b_memcpy (flow_mod_old hdr om m rest) 8 48 8;
   buf ← wr buf 16 (replicate 8 0xff);
   buf ← b_memcpy buf 24 56 12;
   buf ← wr buf 36 (be_bytes 4 out_port);
   buf ← b_memset buf 40 0 4;
   buf ← b_memcpy buf 44 70 2;
   buf ← b_memset buf 46 0 2; k buf) =
  k (hdr ++ fm_cookie m ++ replicate 8 0xff ++ fm_command m ++ fm_buffer_id m ++
        be_bytes 4 (PortNumber_fromV1 (fm_out_port m)) ++ replicate 4 0 ++ fm_flags m ++ replicate 2 0 ++
        fm_cookie m ++ fm_command m ++ fm_buffer_id m ++ be_bytes 2 (fm_out_port m) ++ fm_flags m ++ rest).
Proof.
  intros Hh Ho (Hc & Hcm & Hb & Hp & Hf). unfold flow_mod_old.
  destruct (cut_at om 8 ltac:(lia)) as (p1 & om1 & -> & L1). rewrite zlen_app in Ho.
  destruct (cut_at om1 8 ltac:(lia)) as (p2 & om2 & -> & L2). rewrite zlen_app in Ho.
  destruct (cut_at om2 12 ltac:(lia)) as (p3 & om3 & -> & L3). rewrite zlen_app in Ho.
  destruct (cut_at om3 4 ltac:(lia)) as (p4 & om4 & -> & L4). rewrite zlen_app in Ho.
  destruct (cut_at om4 4 ltac:(lia)) as (p5 & om5 & -> & L5). rewrite zlen_app in Ho.
  destruct (cut_at om5 2 ltac:(lia)) as (p6 & p7 & -> & L6). rewrite zlen_app in Ho. assert (zlen p7 = 2) as L7 by lia.
  rewrite <- !app_assoc, !(app_assoc (fm_command m) (fm_buffer_id m)).
  assert (zlen (fm_command m ++ fm_buffer_id m) = 12) as Lc by (rewrite zlen_app; lia).
  set (c12 := fm_command m ++ fm_buffer_id m) in *. clearbody c12.
  unfold normPortNumberV1, PortNumber_fromV1. run_layout.
  rewrite be_be_bytes_small by lia. done.
Qed.

Lemma std_bytes_length om o s :
  bytes_ok om -> zlen om = 40 -> OriginalMatch_at om 0 = Some o -> StandardMatch_of_original o = Some s ->
  zlen (StandardMatch_bytes s) = 88.
Proof.
  intros Hb Hz Eo Es.
  assert (keeps (take 8 om) om) as Hk by (apply keeps_refl; [done|lia]).
  assert (wp (o' ← OriginalMatch_at om 0; s' ← StandardMatch_of_original o'; Some s')
    (fun s' => zlen (StandardMatch_bytes s') = 88)) as Hw.
  { eapply wp_original; [done|lia|lia|]. intros. eapply wp_standard; try done. }
  rewrite Eo in Hw. cbn [mbind option_bind] in Hw. by rewrite Es in Hw.
Qed.

Lemma normalized_nonempty le version ip cs :
  Forall (elem_ok 4 2) cs -> (0 <? zlen (mjoin cs)) = (0 <? zlen (mjoin (norm_action le version ip <$> cs))).
Proof.
  intros Hcs. destruct Hcs as [|x cs Hx Hcs]; [done|].
  assert (elem_ok 4 2 (norm_action le version ip x)) as Hy by (by apply norm_action_elem).
  apply elem_length in Hx as (_ & ? & _).
  apply elem_length in Hy as (_ & ? & _).
  rewrite fmap_cons, !zlen_mjoin_cons. pose proof (zlen_nonneg (mjoin cs)).
  pose proof (zlen_nonneg (mjoin (norm_action le version ip <$> cs))). lia.
Qed.

(** Accepted actions inside the buffer are normalised in place. *)
Lemma run_actions le `{UninitLaws} {B} pre cs post ip version (k : list Z * Z -> option B) refuse :
  rd8 pre 0 = Some version -> zlen pre mod 8 = 0 -> bytes_ok (mjoin cs) ->
  Forall (elem_ok 4 2) cs -> Forall action_ok cs ->
  let cs' := norm_action le version ip <$> cs in
  (actions ← slice (pre ++ mjoin cs ++ post) (zlen pre) (zlen (mjoin cs));
   '(ok, _) ← ActionRange_validateInput (mkRange (zlen pre) actions) local_context;
   if negb (ok : bool) then refuse else
   r ← normActionsV1orV2 le (pre ++ mjoin cs ++ post) (zlen pre) (zlen pre + zlen (mjoin cs)) ip; k r) =
  k (pre ++ mjoin cs' ++ post, zlen (mjoin cs') - zlen (mjoin cs)).
Proof.
  intros Hv Hp Hb Hcs Hok cs'. rewrite slice_mid0, slice_all by done. cbn [mbind option_bind].
  destruct (actions_valid_iff (mkRange (zlen pre) (mjoin cs)) local_context Hb) as (ok & c & -> & Hiff & _).
  assert (ok = true) as -> by (apply Hiff; split; [done|]; by exists cs). cbn [mbind option_bind negb].
  unfold normActionsV1orV2. rewrite (norm_loop_spec le version) by (done || by apply actions_fuel). done.
Qed.

(** The match and the instruction behind the fixed part: the last 24 bytes of
    the old fixed part are overwritten. *)
Lemma flow_mod_tail le `{UninitLaws} fixed old16 old8 cs s ip :
  zlen fixed = 48 -> rd8 fixed 0 = Some OFP_VERSION_1 -> zlen old16 = 16 -> zlen old8 = 8 ->
  zlen (StandardMatch_bytes s) = 88 -> bytes_ok (mjoin cs) -> Forall (elem_ok 4 2) cs -> Forall action_ok cs ->
  let acts := mjoin cs in let acts' := mjoin (norm_action le OFP_VERSION_1 ip <$> cs) in
  8 + zlen acts' < 2 ^ 16 ->
  (buf ← b_insertUninitialized (fixed ++ old16 ++ old8 ++ acts) 48 (64 + if 0 <? zlen acts then 8 else 0);
   buf ← wr buf 48 (StandardMatch_bytes s);
   if 0 <? zlen acts then
     actions ← slice buf 144 (zlen acts);
     '(ok, _) ← ActionRange_validateInput (mkRange 144 actions) local_context;
     if negb (ok : bool) then markInputInvalid buf else
     '(buf, delta) ← normActionsV1orV2 le buf 144 (144 + zlen acts) ip;
     wr buf 136 (instruction_header OFPIT_APPLY_ACTIONS (u16 (zlen acts + 8 + delta)))
   else Some buf) =
  Some (fixed ++ StandardMatch_bytes s ++
    (if 0 <? zlen acts' then instruction_header OFPIT_APPLY_ACTIONS (8 + zlen acts') ++ acts' else [])).
Proof.
  intros Hfx Hv L16 L8 Hs Hab Hcs Hok acts acts' Hmax. pose proof (zlen_nonneg acts).
  unfold acts'. rewrite <- normalized_nonempty by done. fold acts acts'.
  unfold b_insertUninitialized. destruct (Z.ltb_spec 0 (zlen acts)) as [Ha|Ha].
  - change (0 <=? 64 + 8) with true. rewrite (b_insert_at _ fixed (old16 ++ old8 ++ acts)) by done.
    cbn [mbind option_bind]. set (u := uninit _ (64 + 8)). assert (zlen u = 72) as Hu by (by apply uninit_len).
    rewrite (wr_split _ 48 _ fixed (u ++ old16) (old8 ++ acts)) by (rewrite <- ?app_assoc, ?zlen_app; done || lia).
    cbn [mbind option_bind]. set (pre := fixed ++ StandardMatch_bytes s ++ old8).
    assert (zlen pre = 144) as Hpre by (unfold pre; rewrite !zlen_app; lia).
    replace (fixed ++ StandardMatch_bytes s ++ old8 ++ acts) with (pre ++ acts ++ [])
      by (unfold pre; by rewrite app_nil_r, <- !app_assoc).
    rewrite <- Hpre. rewrite (run_actions le pre cs [] ip OFP_VERSION_1); try done.
    + fold acts acts'. rewrite app_nil_r. unfold pre.
      rewrite (wr_split _ 136 _ (fixed ++ StandardMatch_bytes s) old8 acts').
      * rewrite u16_small by (pose proof (zlen_nonneg acts'); lia). rewrite <- !app_assoc. do 5 f_equal. lia.
      * by rewrite <- !app_assoc.
      * rewrite zlen_app. lia.
      * unfold instruction_header. autorewrite with zlen. lia.
    + unfold pre. by rewrite rd8_app_l by lia.
    + by rewrite Hpre.
  - assert (acts = []) as -> by (destruct acts; [done|rewrite zlen_cons in Ha; pose proof (zlen_nonneg acts); lia]).
    change (0 <=? 64 + 0) with true. rewrite (b_insert_at _ fixed (old16 ++ old8 ++ [])) by done.
    cbn [mbind option_bind]. set (u := uninit _ (64 + 0)). assert (zlen u = 64) as Hu by (by apply uninit_len).
    rewrite (wr_split _ 48 _ fixed (u ++ old16 ++ old8) []) by (rewrite ?app_nil_r, ?zlen_app; done || lia). done.
Qed.

(** The layout of a rewritten flow modification. *)
Lemma flow_mod_rewritten le `{UninitLaws} hdr om m o s cs :
  zlen hdr = 8 -> rd8 hdr 0 = Some OFP_VERSION_1 -> rd16 hdr 2 = Some (72 + zlen (mjoin cs)) ->
  zlen om = 40 -> bytes_ok om -> OriginalMatch_at om 0 = Some o -> StandardMatch_of_original o = Some s ->
  flow_mod_shape m -> bytes_ok (mjoin cs) -> Forall (elem_ok 4 2) cs -> Forall action_ok cs ->
  let cs' := norm_action le OFP_VERSION_1 (sm_nw_proto s) <$> cs in
  72 + zlen (mjoin cs) <= 65535 - 72 -> 8 + zlen (mjoin cs') < 2 ^ 16 ->
  normalizeFlowModV1 le (flow_mod_old hdr om m (mjoin cs)) = Some (flow_mod_new hdr s m (mjoin cs')).
Proof.
  intros Hh Hv Hlen Ho Hob Eo Es Hm Hab Hcs Hok cs' Hmax Hmax'. pose proof Hm as (Hc & Hcm & Hb & Hp & Hf).
  pose proof (std_bytes_length om o s Hob Ho Eo Es) as Hs88.
  set (acts := mjoin cs) in *. pose proof (zlen_nonneg acts).
  assert (zlen (flow_mod_old hdr om m acts) = 72 + zlen acts) as Hz
    by (unfold flow_mod_old; autorewrite with zlen; lia).
  assert (b_length (flow_mod_old hdr om m acts) = Some (72 + zlen acts)) as El
    by (unfold b_length, flow_mod_old; rewrite rd_be_app_l by lia; done).
  assert (OriginalMatch_at (flow_mod_old hdr om m acts) sizeof_Header = Some o) as Eo'
    by (unfold flow_mod_old; rewrite original_at_shift by done; done).
  unfold normalizeFlowModV1. rewrite El. cbn [mbind option_bind]. rewrite Hz, !(proj2 (Z.ltb_ge _ _)) by lia.
  rewrite (proj2 (Z.leb_le 72 _)) by lia. rewrite Eo'. cbn [mbind option_bind]. rewrite Es. cbn [mbind option_bind].
  rewrite u16_small by lia. replace (72 + zlen acts - 72) with (zlen acts) by lia.
  rewrite flow_mod_fixed_part by done.
  assert (zlen acts mod 8 = 0) as -> by (by apply (elems_mod8 4 2)). cbn [negb Z.eqb].
  set (fixed := hdr ++ fm_cookie m ++ replicate 8 0xff ++ fm_command m ++ fm_buffer_id m ++
        be_bytes 4 (PortNumber_fromV1 (fm_out_port m)) ++ replicate 4 0 ++ fm_flags m ++ replicate 2 0).
  assert (zlen fixed = 48) as Hfx by (unfold fixed; autorewrite with zlen; lia).
  replace (hdr ++ _) with (fixed ++ fm_cookie m ++ fm_command m ++ fm_buffer_id m ++ be_bytes 2 (fm_out_port m) ++
    fm_flags m ++ acts) by (unfold fixed; by rewrite <- !app_assoc).
  rewrite (app_assoc (fm_cookie m)), (app_assoc (fm_buffer_id m)), (app_assoc (fm_buffer_id m ++ _)).
  rewrite (flow_mod_tail le fixed (fm_cookie m ++ fm_command m) _ cs s); try done.
  - unfold flow_mod_new. f_equal. unfold fixed. by rewrite <- !app_assoc.
  - unfold fixed. by rewrite rd8_app_l by lia.
  - rewrite zlen_app. lia.
  - autorewrite with zlen. lia.
Qed.

(** C24. [normalizeFlowModV1] turns a flow modification of OpenFlow 1.0 into the
    newer layout: every field is kept, the output port is extended, the match
    is the standard match of the original one, and the actions, each of them
    normalised, are the body of one apply-actions instruction; there is none
    when the message has no actions. *)
Theorem flow_mod_normalized le `{UninitLaws} hdr om m o s cs :
  zlen hdr = 8 -> rd8 hdr 0 = Some OFP_VERSION_1 -> rd16 hdr 2 = Some (72 + zlen (mjoin cs)) ->
  zlen om = 40 -> bytes_ok om -> OriginalMatch_at om 0 = Some o -> StandardMatch_of_original o = Some s ->
  flow_mod_shape m -> bytes_ok (mjoin cs) -> Forall (elem_ok 4 2) cs -> Forall action_ok cs ->
  let cs' := norm_action le OFP_VERSION_1 (sm_nw_proto s) <$> cs in
  72 + zlen (mjoin cs) <= 65535 - 72 -> 8 + zlen (mjoin cs') < 2 ^ 16 ->
  normalizeFlowModV1 le (flow_mod_old hdr om m (mjoin cs)) = Some (flow_mod_new hdr s m (mjoin cs')).
Proof. exact (flow_mod_rewritten le hdr om m o s cs). Qed.

Definition example_flow_mod : flow_mod_v1 :=
  mkFlowModV1 [0; 0; 0; 0; 0; 0; 0; 9] [0; 0; 0; 60; 0; 0; 128; 0] [255; 255; 255; 255] 65535 [0; 1].

(** A match on a TCP port, and two actions: output to the controller and a new
    VLAN id. *)
Definition example_original : list Z :=
  [0; 63; 255; 79; 0; 0; 0; 0; 0; 0; 0; 0; 0; 0; 0; 0; 0; 0; 0; 0; 0; 0; 8; 0; 0; 6; 0; 0;
   0; 0; 0; 0; 0; 0; 0; 0; 0; 0; 0; 80].

Definition example_v1_actions : list (list Z) := [[0; 0; 0; 8; 255; 253; 0; 128]; [0; 1; 0; 8; 0; 5; 0; 0]].

Lemma flow_mod_normalized_witness :
  let hdr := [1; 14; 0; 88; 0; 0; 0; 1] in
  exists buf, normalizeFlowModV1 true (flow_mod_old hdr example_original example_flow_mod (mjoin example_v1_actions)) = Some buf /\
    zlen buf = 176 /\ slice buf 36 4 = Some [255; 255; 255; 255] /\
    slice buf 136 24 = Some [0; 4; 0; 40; 0; 0; 0; 0; 0; 0; 0; 16; 255; 255; 255; 253; 0; 128; 0; 0; 0; 0; 0; 0].
Proof.
  intros hdr. eexists. split.
  - eapply (flow_mod_normalized true hdr example_original example_flow_mod _ _ example_v1_actions);
      [done|done|reflexivity|done|bytes|reflexivity|reflexivity|..].
    + by vm_compute.
    + change (mjoin example_v1_actions) with [0; 0; 0; 8; 255; 253; 0; 128; 0; 1; 0; 8; 0; 5; 0; 0]. bytes.
    + unfold example_v1_actions. rewrite !Forall_cons. split_and!; [..|done]; exists 8; by vm_compute.
    + unfold example_v1_actions. rewrite !Forall_cons.
      split_and!; [exists 0, 8|exists 1, 8|done]; split_and!; by vm_compute.
    + by vm_compute.
    + by vm_compute.
  - by vm_compute.
Defined.

(** ** Lists of ports *)

Lemma PortV1_at_mid pre s post : v1_shape s -> PortV1_at (pre ++ PortV1_bytes s ++ post) (zlen pre) = Some s.
Proof.
  intros Hs. rewrite <- (PortV1_at_bytes s post Hs). unfold PortV1_at, rd_be.
  rewrite slice_shift0, !slice_shift by lia. done.
Qed.

Lemma PortV2_at_mid pre s post : v2_shape s -> PortV2_at (pre ++ PortV2_bytes s ++ post) (zlen pre) = Some s.
Proof.
  intros Hs. rewrite <- (PortV2_at_bytes s post Hs). unfold PortV2_at, rd_be.
  rewrite slice_shift0, !slice_shift by lia. done.
Qed.

(** The loop over the ports, for a conversion that reads one structure. *)
Lemma convert_ports_list {P} (conv : list Z -> Z -> option (list Z)) size (old new : P -> list Z) l :
  Forall (fun s => zlen (old s) = size /\ forall pre post, conv (pre ++ old s ++ post) (zlen pre) = Some (new s)) l ->
  forall pre out, convert_ports conv size (length l) (pre ++ mjoin (old <$> l)) (zlen pre) out =
    Some (out ++ mjoin (new <$> l)).
Proof.
  induction 1 as [|s l [Hz Hc] Hl IH]; intros pre out; cbn [convert_ports length].
  { by rewrite app_nil_r. }
  rewrite fmap_cons. change (mjoin (old s :: ?k)) with (old s ++ mjoin k).
  rewrite Hc. cbn [mbind option_bind].
  replace (zlen pre + size) with (zlen (pre ++ old s)) by (rewrite zlen_app; lia).
  rewrite app_assoc, IH, fmap_cons. change (mjoin (new s :: ?k)) with (new s ++ mjoin k). by rewrite app_assoc.
Qed.

(** The handlers with a port list of [n] structures behind [hdr]. *)
Lemma ports_normalized `{UninitLaws} {P} conv size (old : P -> list Z) (new : P -> Port * PortPropertyEthernet) hdr l :
  0 < size <= 72 ->
  Forall (fun s => zlen (old s) = size /\ forall pre post, conv (pre ++ old s ++ post) (zlen pre) = Some (eth_port (new s))) l ->
  Forall (fun s => eth_port_ok (new s)) l ->
  let buf := hdr ++ mjoin (old <$> l) in
  zlen buf - zlen hdr = size * zlen l /\
  convert_ports conv size (Z.to_nat (size * zlen l / size)) buf (zlen hdr) [] = Some (mjoin (eth_port ∘ new <$> l)) /\
  zlen (mjoin (eth_port ∘ new <$> l)) = 72 * zlen l /\
  store_ports (zlen hdr) (size * zlen l) (mjoin (eth_port ∘ new <$> l)) buf =
    Some (hdr ++ mjoin (eth_port ∘ new <$> l)).
Proof.
  intros Hs Hl Hok buf. pose proof (zlen_nonneg l).
  assert (zlen (mjoin (old <$> l)) = size * zlen l) as Hz
    by (apply mjoin_fmap_length; eapply Forall_impl; [exact Hl|]; by intros ? [? _]).
  assert (zlen (mjoin (eth_port ∘ new <$> l)) = 72 * zlen l) as Hz'
    by (apply mjoin_fmap_length; eapply Forall_impl; [exact Hok|]; intros s; by apply eth_port_length).
  split_and!; [unfold buf; rewrite zlen_app; lia| |done|].
  - rewrite Z.mul_comm, Z.div_mul by lia.
    replace (Z.to_nat (zlen l)) with (length l) by (unfold zlen; lia).
    unfold buf. by rewrite (convert_ports_list conv size old (eth_port ∘ new)).
  - assert (size * zlen l <= 72 * zlen l) by (apply Z.mul_le_mono_nonneg_r; lia).
    unfold store_ports, b_addUninitialized, buf. rewrite Hz', (proj2 (Z.leb_le 0 _)) by lia. cbn [mbind option_bind].
    set (u := uninit _ _). assert (zlen u = 72 * zlen l - size * zlen l) as Hu by (unfold u; rewrite uninit_len; lia).
    rewrite !zlen_app, Hz, Hu. replace (_ =? _) with true by lia.
    rewrite (wr_split _ _ _ hdr (mjoin (old <$> l) ++ u) []); rewrite ?app_nil_r, ?zlen_app, <- ?app_assoc; done || lia.
Qed.

Lemma V1_conversion l :
  Forall v1_shape l ->
  Forall (fun s => zlen (PortV1_bytes s) = 48 /\ forall pre post,
    convert_V1 (pre ++ PortV1_bytes s ++ post) (zlen pre) = Some (eth_port (pair_of_V1 s))) l /\
  Forall (fun s => eth_port_ok (pair_of_V1 s)) l.
Proof.
  intros Hl. split; (eapply Forall_impl; [exact Hl|]); intros s Hs; [|by apply pair_of_V1_ok]. split.
  - pose proof Hs as (_ & Hh & Hn & _). unfold PortV1_bytes. autorewrite with zlen. rewrite Hh, Hn. done.
  - intros pre post. unfold convert_V1. rewrite PortV1_at_mid by done. cbn [mbind option_bind]. by rewrite copyTo_V1.
Qed.

Lemma V2_conversion l :
  Forall v2_shape l ->
  Forall (fun s => zlen (PortV2_bytes s) = 64 /\ forall pre post,
    convert_V2 (pre ++ PortV2_bytes s ++ post) (zlen pre) = Some (eth_port (pair_of_V2 s))) l /\
  Forall (fun s => eth_port_ok (pair_of_V2 s)) l.
Proof.
  intros Hl. split; (eapply Forall_impl; [exact Hl|]); intros s Hs; [|by apply pair_of_V2_ok]. split.
  - pose proof Hs as (_ & Hh & Hn & _). unfold PortV2_bytes, pad. autorewrite with zlen. rewrite Hh, Hn. done.
  - intros pre post. unfold convert_V2. rewrite PortV2_at_mid by done. cbn [mbind option_bind]. by rewrite copyTo_V2.
Qed.

(** What a features reply with the structures [old <$> l] becomes. *)
Definition features_result {P} (old : P -> list Z) (new : P -> Port * PortPropertyEthernet) (hdr : list Z) (l : list P)
    : option (list Z) :=
  if 65535 - 32 <? 72 * zlen l then markInputTooBig (hdr ++ mjoin (old <$> l))
  else Some (hdr ++ mjoin (eth_port ∘ new <$> l)).

(** C29. A features reply of OpenFlow 1.0, or of 1.1 to 1.3, is normalised to the same
    message with every port in the newest layout, or marked as too big when
    they do not fit; writing the ports back at the version they came from gives
    the bytes of the received list. *)
Theorem features_reply_roundtrip `{UninitLaws} hdr1 l1 hdr2 l2 version addr :
  zlen hdr1 = 32 -> rd16 hdr1 2 = Some (32 + 48 * zlen l1) -> Forall v1_canonical l1 ->
  zlen hdr2 = 32 -> rd16 hdr2 2 = Some (32 + 64 * zlen l2) -> Forall v2_shape l2 ->
  OFP_VERSION_2 <= version < OFP_VERSION_5 -> addr mod 8 = 0 ->
  normalizeFeaturesReplyV1 (hdr1 ++ mjoin (PortV1_bytes <$> l1)) = features_result PortV1_bytes pair_of_V1 hdr1 l1 /\
  normalizeFeaturesReplyV2 (hdr2 ++ mjoin (PortV2_bytes <$> l2)) = features_result PortV2_bytes pair_of_V2 hdr2 l2 /\
  PortRange_write OFP_VERSION_1 (mkRange addr (mjoin (eth_port ∘ pair_of_V1 <$> l1))) = Some (mjoin (PortV1_bytes <$> l1)) /\
  PortRange_write version (mkRange addr (mjoin (eth_port ∘ pair_of_V2 <$> l2))) = Some (mjoin (PortV2_bytes <$> l2)).
Proof.
  intros Hh1 E1 Hc1 Hh2 E2 Hs2 Hv Ha. pose proof (zlen_nonneg l1). pose proof (zlen_nonneg l2).
  assert (Forall v1_shape l1) as Hs1 by (eapply Forall_impl; [exact Hc1|]; by intros s [? _]).
  destruct (V1_conversion l1 Hs1) as [C1 O1]. destruct (V2_conversion l2 Hs2) as [C2 O2].
  split_and!.
  - destruct (ports_normalized convert_V1 48 PortV1_bytes pair_of_V1 hdr1 l1 ltac:(lia) C1 O1) as (Hz & Ec & Hl & Es).
    unfold normalizeFeaturesReplyV1, b_length, features_result, sizeof_FeaturesReply, sizeof_PortV1.
    rewrite rd_be_app_l, E1 by lia. cbn [mbind option_bind]. rewrite (proj2 (Z.ltb_ge _ _)) by lia.
    replace (32 + 48 * zlen l1 - 32) with (48 * zlen l1) by lia. rewrite (Z.mul_comm 48), Z.mod_mul by lia. cbn [Z.eqb negb].
    rewrite (Z.mul_comm _ 48). rewrite <- Hh1, Ec. cbn [mbind option_bind]. rewrite Hl, Hh1.
    destruct (_ <? _); [done|]. by rewrite <- Hh1.
  - destruct (ports_normalized convert_V2 64 PortV2_bytes pair_of_V2 hdr2 l2 ltac:(lia) C2 O2) as (Hz & Ec & Hl & Es).
    unfold normalizeFeaturesReplyV2, b_length, features_result, sizeof_FeaturesReply, sizeof_PortV2.
    rewrite rd_be_app_l, E2 by lia. cbn [mbind option_bind]. rewrite (proj2 (Z.ltb_ge _ _)) by lia.
    replace (32 + 64 * zlen l2 - 32) with (64 * zlen l2) by lia. rewrite (Z.mul_comm 64), Z.mod_mul by lia. cbn [Z.eqb negb].
    rewrite (Z.mul_comm _ 64). rewrite <- Hh2, Ec. cbn [mbind option_bind]. rewrite Hl, Hh2.
    destruct (_ <? _); [done|]. by rewrite <- Hh2.
  - rewrite list_fmap_compose, eth_ports_written; [|done|by apply Forall_fmap|done].
    rewrite <- list_fmap_compose. do 2 f_equal. apply list_fmap_ext. intros i s Hi. apply old_of_V1.
    by eapply Forall_lookup_1 in Hi.
  - rewrite list_fmap_compose, eth_ports_written; [|done|by apply Forall_fmap|lia].
    rewrite <- list_fmap_compose. do 2 f_equal. apply list_fmap_ext. intros i s Hi. apply old_of_V2. lia.
Qed.

Lemma features_reply_roundtrip_witness :
  let hdr := [1; 6; 0; 80; 0; 0; 0; 1] ++ replicate 24 0 in
  let hdr2 := [4; 6; 0; 96; 0; 0; 0; 1] ++ replicate 24 0 in
  normalizeFeaturesReplyV1 (hdr ++ mjoin (PortV1_bytes <$> [example_V1])) =
    Some (hdr ++ mjoin (eth_port ∘ pair_of_V1 <$> [example_V1])) /\
  PortRange_write 4 (mkRange 64 (mjoin (eth_port ∘ pair_of_V2 <$> [example_V2]))) = Some (PortV2_bytes example_V2).
Proof.
  intros hdr hdr2.
  destruct (features_reply_roundtrip hdr [example_V1] hdr2 [example_V2] 4 64) as (H1 & _ & _ & H4);
    [done|reflexivity| |done|reflexivity| |unfold OFP_VERSION_2, OFP_VERSION_5; lia|done|].
  - constructor; [exact example_V1_canonical|done].
  - constructor; [exact example_V2_shape|done].
  - split; [exact H1|]. rewrite H4. reflexivity.
Defined.

(** ** Port statistics *)

(** An entry: port number and padding, eight counters, four counters of
    Ethernet errors, and the duration (OpenFlow 1.3). *)
Record port_stats : Type := mkPortStats {
  ps_portNo : list Z;
  ps_pad : list Z;
  ps_counters : list Z;
  ps_ethernet : list Z;
  ps_duration : list Z }.

Definition port_stats_shape (x : port_stats) : Prop :=
  zlen (ps_portNo x) = 4 /\ zlen (ps_pad x) = 4 /\ zlen (ps_counters x) = 64 /\ zlen (ps_ethernet x) = 32 /\
  zlen (ps_duration x) = 8.

Definition port_stats_V4 (x : port_stats) : list Z :=
  ps_portNo x ++ ps_pad x ++ ps_counters x ++ ps_ethernet x ++ ps_duration x.

Definition port_stats_V5 (x : port_stats) : list Z :=
  be_bytes 2 120 ++ drop 2 (ps_pad x) ++ ps_portNo x ++ ps_duration x ++ ps_counters x ++
  port_stats_ethernet (ps_ethernet x).

Lemma port_stats_V4_entry `{UninitLaws} pre x post :
  port_stats_shape x -> zlen pre mod 8 = 0 ->
  normalizeMPPortStatsReplyV4 (pre ++ port_stats_V4 x ++ post) (zlen pre) =
    Some (pre ++ port_stats_V5 x ++ post, zlen (pre ++ port_stats_V5 x)).
Proof.
  intros (H1 & H2 & H3 & H4 & H5) Hp. unfold normalizeMPPortStatsReplyV4, port_stats_V4, port_stats_V5.
  pose proof (zlen_nonneg post). destruct x as [p q c e d]. cbn [ps_portNo ps_pad ps_counters ps_ethernet ps_duration] in *.
  rewrite !zlen_app, (proj2 (Z.ltb_ge _ _)) by lia. rewrite IsPtrAligned_8, Hp. cbn [Z.eqb].
  unfold b_insertUninitialized. change (0 <=? 8) with true.
  rewrite (b_insert_at _ (pre ++ p ++ q ++ c ++ e ++ d) post) by (rewrite <- ?app_assoc, ?zlen_app; done || lia).
  set (u := uninit _ 8). assert (zlen u = 8) as Hu by (by apply uninit_len).
  rewrite <- !app_assoc. cbn [mbind option_bind].
  rewrite slice_shift0, slice_shift by lia. read_layout.
  rewrite wr_shift0. write_layout. rewrite wr_shift by lia. write_layout.
  rewrite slice_shift by lia. read_layout. unfold memmove. rewrite slice_shift by lia. read_layout.
  destruct (cut_at c 8 ltac:(lia)) as (ca & cb & Ec & Lca). destruct (cut_at e 8 ltac:(lia)) as (ea & eb & Ee & Lea).
  assert (zlen cb = 56) as Lcb by (rewrite Ec, zlen_app in H3; lia).
  assert (zlen eb = 24) as Leb by (rewrite Ee, zlen_app in H4; lia).
  rewrite wr_shift by lia. rewrite (wr_split _ 16 c (q ++ p ++ ca) (cb ++ ea) (eb ++ d ++ u ++ post));
    [|rewrite Ec, Ee at 1; by rewrite <- !app_assoc|rewrite !zlen_app; lia|rewrite zlen_app; lia].
  rewrite <- !app_assoc. cbn [fmap option_fmap option_map mbind option_bind].
  rewrite b_memcpy_eq by lia. unfold memmove. rewrite slice_shift by lia. read_layout.
  rewrite wr_shift by lia. write_layout. unfold port_stats_ethernet. rewrite wr_shift by lia.
  rewrite (wr_split _ 80 _ (q ++ p ++ d ++ c) (eb ++ d ++ u) post);
    [|by rewrite <- !app_assoc|rewrite !zlen_app; lia|autorewrite with zlen; lia].
  destruct (cut_at q 2 ltac:(lia)) as (q1 & q2 & -> & Lq1). rewrite <- !app_assoc.
  cbn [fmap option_fmap option_map mbind option_bind]. rewrite wr_shift0. write_layout.
  rewrite (drop_app_length' q1) by (unfold zlen in Lq1; lia). f_equal. f_equal.
  rewrite zlen_app in H2. autorewrite with zlen. lia.
Qed.

(** The duration is missing before OpenFlow 1.3, and the port number has 16 bits
    in OpenFlow 1.0. *)
Definition port_stats_V2 (x : port_stats) : list Z :=
  ps_portNo x ++ ps_pad x ++ ps_counters x ++ ps_ethernet x.

Definition without_duration (x : port_stats) : port_stats :=
  mkPortStats (ps_portNo x) (ps_pad x) (ps_counters x) (ps_ethernet x) (replicate 8 0).

Definition extended_port (x : port_stats) : port_stats :=
  mkPortStats (be_bytes 4 (PortNumber_fromV1 (default 0 (rd16 (ps_portNo x) 0)))) (ps_pad x) (ps_counters x)
    (ps_ethernet x) (replicate 8 0).

Lemma port_stats_V2_zeros pre x post :
  port_stats_shape x ->
  b_insertZeros (pre ++ port_stats_V2 x ++ post) (zlen pre + 104) 8 = Some (pre ++ port_stats_V4 (without_duration x) ++ post).
Proof.
  intros (H1 & H2 & H3 & H4 & H5). unfold b_insertZeros, port_stats_V2, port_stats_V4, without_duration.
  cbn [ps_portNo ps_pad ps_counters ps_ethernet ps_duration].
  rewrite (b_insert_at _ (pre ++ port_stats_V2 x) post); unfold port_stats_V2; rewrite <- ?app_assoc, ?zlen_app; done || lia.
Qed.

Lemma port_stats_V2_entry `{UninitLaws} pre x post :
  port_stats_shape x -> zlen pre mod 8 = 0 ->
  normalizeMPPortStatsReplyV2 (pre ++ port_stats_V2 x ++ post) (zlen pre) =
    Some (pre ++ port_stats_V5 (without_duration x) ++ post, zlen (pre ++ port_stats_V5 (without_duration x))).
Proof.
  intros Hx Hp. unfold normalizeMPPortStatsReplyV2. rewrite port_stats_V2_zeros by done.
  pose proof Hx as (H1 & H2 & H3 & H4 & H5). pose proof (zlen_nonneg post).
  assert (zlen (port_stats_V2 x) = 104) as Hz by (unfold port_stats_V2; rewrite !zlen_app; lia).
  rewrite (proj2 (Z.ltb_ge _ 104)) by (rewrite !zlen_app; lia). cbn [mbind option_bind].
  apply port_stats_V4_entry; [|done]. by split_and!.
Qed.

Lemma port_stats_V1_entry `{UninitLaws} pre x post :
  port_stats_shape x -> bytes_ok (ps_portNo x) -> zlen pre mod 8 = 0 ->
  normalizeMPPortStatsReplyV1 (pre ++ port_stats_V2 x ++ post) (zlen pre) =
    Some (pre ++ port_stats_V5 (extended_port x) ++ post, zlen (pre ++ port_stats_V5 (extended_port x))).
Proof.
  intros Hx Hb Hp. unfold normalizeMPPortStatsReplyV1.
  pose proof Hx as (H1 & H2 & H3 & H4 & H5). pose proof (zlen_nonneg post).
  assert (zlen (port_stats_V2 x) = 104) as Hz by (unfold port_stats_V2; rewrite !zlen_app; lia).
  rewrite (proj2 (Z.ltb_ge _ 104)) by (rewrite !zlen_app; lia).
  change (IsPtrAligned (zlen pre) 4) with (IsPtrAligned (zlen pre) (2 ^ 2)). rewrite (IsPtrAligned_pow2 _ 2) by done.
  replace (zlen pre mod 2 ^ 2 =? 0) with true
    by (symmetry; apply Z.eqb_eq; change (2 ^ 2) with 4; apply Z.mod_divide; [done|];
        apply Z.mod_divide in Hp as [q ->]; [|done]; exists (2 * q); lia).
  unfold normPortNumberV1, rd_be. rewrite slice_mid0 by lia.
  assert (slice (port_stats_V2 x) 0 2 = slice (ps_portNo x) 0 2) as -> by (unfold port_stats_V2; by rewrite slice_app_l by lia).
  destruct (slice (ps_portNo x) 0 2) as [p|] eqn:Ep; [|by rewrite slice_some in Ep by lia].
  cbn [fmap option_fmap option_map mbind option_bind].
  assert (rd16 (ps_portNo x) 0 = Some (be p)) as Er by (unfold rd_be; by rewrite Ep).
  unfold port_stats_V2. rewrite <- !app_assoc. rewrite wr_shift0. write_layout.
  set (y := mkPortStats (be_bytes 4 (PortNumber_fromV1 (be p))) (ps_pad x) (ps_counters x) (ps_ethernet x) (ps_duration x)).
  assert (port_stats_shape y) as Hy by (by split_and!).
  pose proof (port_stats_V2_zeros pre y post Hy) as Ez. unfold port_stats_V2 in Ez. rewrite <- !app_assoc in Ez.
  unfold y, PortNumber_fromV1 in Ez. cbn [ps_portNo ps_pad ps_counters ps_ethernet] in Ez. rewrite Ez. cbn [mbind option_bind].
  rewrite port_stats_V4_entry by (done || by split_and!). unfold extended_port. by rewrite Er.
Qed.

(** *** The loop over the entries *)

Section Entries.
Context {P : Type} (step : list Z -> Z -> option (list Z * Z)) (old new : P -> list Z).

Definition rewrites (x : P) : Prop :=
  0 < zlen (old x) /\ 0 < zlen (new x) /\ zlen (new x) mod 8 = 0 /\ forall pre post, zlen pre mod 8 = 0 ->
    step (pre ++ old x ++ post) (zlen pre) = Some (pre ++ new x ++ post, zlen (pre ++ new x)).

Lemma reply_loop_list l fuel pre tail :
  Forall rewrites l -> zlen pre mod 8 = 0 ->
  reply_loop step (length l + fuel) (pre ++ mjoin (old <$> l) ++ tail) (zlen pre) =
  reply_loop step fuel (pre ++ mjoin (new <$> l) ++ tail) (zlen (pre ++ mjoin (new <$> l))).
Proof.
  intros Hl. revert pre. induction Hl as [|x l (Ho & Hn & Hm & Hs) Hl IH]; intros pre Hp; cbn [length Nat.add].
  { change (mjoin (new <$> [])) with (@nil Z). by rewrite app_nil_r. }
  rewrite !fmap_cons. change (mjoin (old x :: ?k)) with (old x ++ mjoin k). change (mjoin (new x :: ?k)) with (new x ++ mjoin k).
  cbn [reply_loop]. pose proof (zlen_nonneg (mjoin (old <$> l))). pose proof (zlen_nonneg tail).
  rewrite (proj2 (Z.ltb_lt _ _)) by (rewrite !zlen_app; lia). rewrite <- (app_assoc (old x)), Hs by done.
  cbn [mbind option_bind]. rewrite app_assoc, IH.
  - by rewrite <- !app_assoc.
  - rewrite zlen_app, Z.add_mod, Hp, Hm by lia. done.
Qed.

(** All entries are rewritten, and what is left behind them is kept when the
    step stops there. *)
Lemma for_entries_list l pre tail :
  Forall rewrites l -> zlen pre = 16 ->
  (forall b start, 0 < zlen tail -> zlen b - start = zlen tail -> step b start = Some (b, zlen b)) ->
  for_entries step (pre ++ mjoin (old <$> l) ++ tail) = Some (pre ++ mjoin (new <$> l) ++ tail).
Proof.
  intros Hl Hp Ht. unfold for_entries, sizeof_MultipartReply. rewrite <- Hp.
  assert (length l <= length (mjoin (old <$> l)))%nat as Hlen.
  { clear -Hl. induction Hl as [|x l (Ho & _) Hl IH]; [done|]. rewrite fmap_cons. change (mjoin (old x :: ?k)) with (old x ++ mjoin k).
    rewrite length_app. unfold zlen in Ho. cbn [length]. lia. }
  pose proof (zlen_nonneg tail).
  assert (exists f, length (pre ++ mjoin (old <$> l) ++ tail) = (length l + f)%nat /\ (1 <= f)%nat) as (f & -> & Hf).
  { rewrite !length_app. exists (length pre + length (mjoin (old <$> l)) + length tail - length l)%nat. unfold zlen in Hp. lia. }
  rewrite reply_loop_list by (done || by rewrite Hp). destruct f as [|f]; [lia|]. rewrite app_assoc. cbn [reply_loop].
  rewrite !zlen_app. destruct (Z.ltb_spec (zlen pre + zlen (mjoin (new <$> l))) (zlen pre + zlen (mjoin (new <$> l)) + zlen tail)).
  - rewrite Ht by (rewrite ?zlen_app; lia). cbn [mbind option_bind]. destruct f; cbn [reply_loop];
      rewrite Z.ltb_irrefl, Z.eqb_refl; done.
  - replace (_ =? _) with true by lia. done.
Qed.
End Entries.

Lemma port_stats_V5_length x : port_stats_shape x -> zlen (port_stats_V5 x) = 120.
Proof.
  intros (H1 & H2 & H3 & H4 & H5). unfold port_stats_V5, port_stats_ethernet. autorewrite with zlen. lia.
Qed.

Lemma port_stats_rewrites `{UninitLaws} l :
  Forall port_stats_shape l ->
  Forall (rewrites normalizeMPPortStatsReplyV4 port_stats_V4 port_stats_V5) l /\
  Forall (rewrites normalizeMPPortStatsReplyV2 port_stats_V2 (port_stats_V5 ∘ without_duration)) l /\
  (Forall (fun x => bytes_ok (ps_portNo x)) l ->
   Forall (rewrites normalizeMPPortStatsReplyV1 port_stats_V2 (port_stats_V5 ∘ extended_port)) l).
Proof.
  intros Hl.
  assert (forall x, port_stats_shape x -> zlen (port_stats_V2 x) = 104 /\ zlen (port_stats_V4 x) = 112 /\
    port_stats_shape (without_duration x) /\ port_stats_shape (extended_port x)) as Hz.
  { intros x (H1 & H2 & H3 & H4 & H5). unfold port_stats_V2, port_stats_V4. rewrite !zlen_app. split_and!; done || lia. }
  split_and!.
  - eapply Forall_impl; [exact Hl|]. intros x Hx. destruct (Hz x Hx) as (Z2 & Z4 & _).
    pose proof (port_stats_V5_length x Hx) as Z5. split_and!; [lia..|by rewrite Z5|]. intros. by apply port_stats_V4_entry.
  - eapply Forall_impl; [exact Hl|]. intros x Hx. destruct (Hz x Hx) as (Z2 & _ & Hw & _).
    pose proof (port_stats_V5_length _ Hw) as Z5. split_and!; cbn [compose]; [lia..|by rewrite Z5|].
    intros. by apply port_stats_V2_entry.
  - intros Hb. rewrite Forall_forall in Hl, Hb |- *. intros x Hx. destruct (Hz x (Hl x Hx)) as (Z2 & _ & _ & Hw).
    pose proof (port_stats_V5_length _ Hw) as Z5. split_and!; cbn [compose]; [lia..|by rewrite Z5|].
    intros. apply port_stats_V1_entry; auto.
Qed.

(** A reply with port statistics is rewritten entry by entry: each entry becomes
    one of 120 bytes that starts with its length, the port number, the
    duration and the counters, with the error counters as an Ethernet property;
    a truncated entry at the end is left alone. The duration is zero where the
    version has none, and the 16-bit ports of OpenFlow 1.0 are extended. *)
Theorem port_stats_normalized `{UninitLaws} le hdr l tail :
  zlen hdr = 16 -> rd16 hdr 8 = Some OFPMP_PORT_STATS -> Forall port_stats_shape l -> 0 <= zlen tail < 104 ->
  (rd16 hdr 2 = Some (zlen (hdr ++ mjoin (port_stats_V4 <$> l) ++ tail)) ->
   normalizeMultipartReplyV4 (hdr ++ mjoin (port_stats_V4 <$> l) ++ tail) =
     Some (hdr ++ mjoin (port_stats_V5 <$> l) ++ tail)) /\
  (rd16 hdr 2 = Some (zlen (hdr ++ mjoin (port_stats_V2 <$> l) ++ tail)) ->
   let buf' := Some (hdr ++ mjoin (port_stats_V5 ∘ without_duration <$> l) ++ tail) in
   normalizeMultipartReplyV2 (hdr ++ mjoin (port_stats_V2 <$> l) ++ tail) = buf' /\
   normalizeMultipartReplyV3 (hdr ++ mjoin (port_stats_V2 <$> l) ++ tail) = buf') /\
  (forall hdr12, hdr = hdr12 ++ replicate 4 0 -> zlen hdr12 = 12 ->
   rd16 hdr12 2 = Some (zlen (hdr12 ++ mjoin (port_stats_V2 <$> l) ++ tail)) ->
   Forall (fun x => bytes_ok (ps_portNo x)) l ->
   normalizeMultipartReplyV1 le (hdr12 ++ mjoin (port_stats_V2 <$> l) ++ tail) =
     Some (hdr ++ mjoin (port_stats_V5 ∘ extended_port <$> l) ++ tail)).
Proof.
  intros Hh Ht Hl Hz. destruct (port_stats_rewrites l Hl) as (R4 & R2 & R1).
  assert (forall k, 16 <= zlen (hdr ++ k)) as H16 by (intros k; rewrite zlen_app; pose proof (zlen_nonneg k); lia).
  assert (forall k, rd16 (hdr ++ k) 2 = rd16 hdr 2 /\ rd16 (hdr ++ k) 8 = rd16 hdr 8) as Hrd
    by (intros k; rewrite !rd_be_app_l by lia; done).
  split_and!.
  - intros El. unfold normalizeMultipartReplyV4, b_length, multipartType. destruct (Hrd (mjoin (port_stats_V4 <$> l) ++ tail)) as [-> ->].
    rewrite El, Ht. cbn [mbind option_bind]. rewrite (proj2 (Z.ltb_ge _ _)) by apply H16.
    change (OFPMP_PORT_STATS =? OFPMP_PORT_STATS) with true. apply for_entries_list; [done..|].
    intros b start Ht0 Hb. unfold normalizeMPPortStatsReplyV4. by rewrite (proj2 (Z.ltb_lt _ _)) by lia.
  - intros El buf'. assert (for_entries normalizeMPPortStatsReplyV2 (hdr ++ mjoin (port_stats_V2 <$> l) ++ tail) = buf') as E2.
    { apply for_entries_list; [done..|]. intros b start Ht0 Hb. unfold normalizeMPPortStatsReplyV2.
      by rewrite (proj2 (Z.ltb_lt _ _)) by lia. }
    unfold normalizeMultipartReplyV2, normalizeMultipartReplyV3, b_length, multipartType.
    destruct (Hrd (mjoin (port_stats_V2 <$> l) ++ tail)) as [-> ->].
    rewrite El, Ht. cbn [mbind option_bind]. rewrite (proj2 (Z.ltb_ge _ _)) by apply H16.
    change (OFPMP_PORT_STATS =? OFPMP_PORT_STATS) with true. done.
  - intros hdr12 -> H12 El Hb. unfold normalizeMultipartReplyV1, b_length, UnpaddedSizeVersion1.
    rewrite rd_be_app_l, El by lia. cbn [mbind option_bind].
    rewrite (proj2 (Z.ltb_ge _ _)) by (rewrite zlen_app; pose proof (zlen_nonneg (mjoin (port_stats_V2 <$> l) ++ tail)); lia).
    rewrite (b_insert_at _ hdr12 (mjoin (port_stats_V2 <$> l) ++ tail)) by done. cbn [mbind option_bind].
    rewrite app_assoc. unfold multipartType.
    destruct (Hrd (mjoin (port_stats_V2 <$> l) ++ tail)) as [_ ->]. rewrite Ht. cbn [mbind option_bind].
    change (OFPMP_PORT_STATS =? OFPMP_FLOW_DESC) with false. change (OFPMP_PORT_STATS =? OFPMP_PORT_STATS) with true.
    apply for_entries_list; [by apply R1|done|].
    intros b start Ht0 Hs. unfold normalizeMPPortStatsReplyV1. by rewrite (proj2 (Z.ltb_lt _ _)) by lia.
Qed.

Definition example_port_stats : port_stats :=
  mkPortStats [0; 0; 0; 7] [0; 0; 0; 0] (replicate 64 1) (replicate 32 2) [0; 0; 0; 9; 0; 0; 0; 3].

Lemma port_stats_normalized_witness :
  let hdr := [4; 19; 0; 130; 0; 0; 0; 1; 0; 4; 0; 0; 0; 0; 0; 0] in
  normalizeMultipartReplyV4 (hdr ++ mjoin (port_stats_V4 <$> [example_port_stats]) ++ [5; 6]) =
  Some (hdr ++ mjoin (port_stats_V5 <$> [example_port_stats]) ++ [5; 6]).
Proof.
  intros hdr. refine (proj1 (port_stats_normalized true hdr [example_port_stats] [5; 6] _ _ _ _) _).
  - reflexivity.
  - reflexivity.
  - constructor; [|constructor]. by split_and!.
  - vm_compute. split; [discriminate|reflexivity].
  - vm_compute. reflexivity.
Defined.

(** ** Replies that normalisation mishandles *)

(** The state of the loop over a reply after [n] rounds, each of which was
    entered because the loop test held. *)
Fixpoint reply_rounds (step : list Z -> Z -> option (list Z * Z)) (n : nat) (buf : list Z) (offset : Z)
    : option (list Z * Z) :=
  match n with
  | O => Some (buf, offset)
  | S n' => assert! (offset <? zlen buf);; '(buf, offset) ← step buf offset; reply_rounds step n' buf offset
  end.

Lemma reply_rounds_loop step n fuel buf offset buf' offset' :
  reply_rounds step n buf offset = Some (buf', offset') ->
  reply_loop step (n + fuel) buf offset = reply_loop step fuel buf' offset'.
Proof.
  revert buf offset. induction n as [|n IH]; intros buf offset; cbn [reply_rounds]; [by intros [= -> ->]|].
  cbn [Nat.add reply_loop]. destruct (offset <? zlen buf); [|done].
  destruct (step buf offset) as [[b1 o1]|]; [|done]. cbn [mbind option_bind]. apply IH.
Qed.

(** A word of 8 bytes that starts with 0, and the same word once the loop has
    taken its first two bytes for the length of an entry and added 8. *)
Definition word0 (k : list Z) : list Z := [0; 0] ++ k.
Definition word8 (k : list Z) : list Z := [0; 8] ++ k.

Lemma word0_length k : zlen k = 6 -> zlen (word0 k) = 8.
Proof. intros Hk. unfold word0. rewrite zlen_app, Hk. done. Qed.

Lemma words_length ks : Forall (fun k => zlen k = 6) ks -> zlen (mjoin (word0 <$> ks)) = 8 * zlen ks.
Proof.
  induction 1 as [|k ks Hk _ IH]; [done|]. change (mjoin (word0 <$> k :: ks)) with (word0 k ++ mjoin (word0 <$> ks)).
  rewrite zlen_app, word0_length, IH by done. unfold zlen. simpl length. lia.
Qed.

Lemma words8_length ks : Forall (fun k => zlen k = 6) ks -> zlen (mjoin (word8 <$> ks)) = 8 * zlen ks.
Proof.
  intros Hks. rewrite <- words_length by done. induction Hks as [|k ks Hk _ IH]; [done|].
  change (mjoin (?f <$> k :: ks)) with (f k ++ mjoin (f <$> ks)). rewrite !zlen_app. by rewrite IH.
Qed.

(** One round on four such words. *)
Lemma group_stats_round pre k ks tail :
  zlen pre mod 8 = 0 -> zlen k = 6 -> zlen ks = 3 -> Forall (fun k => zlen k = 6) ks ->
  normalizeMPGroupStatsReplyV3 32 (pre ++ word0 k ++ mjoin (word0 <$> ks) ++ tail) (zlen pre) =
  Some ((pre ++ word8 k) ++ mjoin (word0 <$> ks) ++ replicate 8 0 ++ tail, zlen pre + 8).
Proof.
  intros Hp Hk H3 Hks. pose proof (words_length ks Hks) as Hw. rewrite H3 in Hw.
  pose proof (word0_length k Hk) as Hk0. pose proof (zlen_nonneg tail).
  unfold normalizeMPGroupStatsReplyV3. rewrite !zlen_app, Hk0, Hw.
  rewrite (proj2 (Z.ltb_ge _ 32)) by lia.
  change (IsPtrAligned (zlen pre) 2) with (IsPtrAligned (zlen pre) (2 ^ 1)). rewrite IsPtrAligned_pow2 by done.
  replace (zlen pre mod 2 ^ 1 =? 0) with true
    by (symmetry; apply Z.eqb_eq; apply Z.mod_divide; [done|];
        apply Z.mod_divide in Hp as [q ->]; [|done]; exists (4 * q); lia).
  unfold rd_be. rewrite (slice_split _ _ _ pre [0; 0] (k ++ mjoin (word0 <$> ks) ++ tail)) by done.
  cbn [fmap option_fmap option_map mbind option_bind]. change (be [0; 0]) with 0.
  rewrite (proj2 (Z.ltb_ge _ 0)) by lia.
  rewrite (wr_split _ _ _ pre [0; 0] (k ++ mjoin (word0 <$> ks) ++ tail)) by done. cbn [mbind option_bind].
  unfold b_insertZeros. rewrite (b_insert_at _ (pre ++ word8 k ++ mjoin (word0 <$> ks)) tail).
  - cbn [mbind option_bind]. rewrite Z.add_0_r. by rewrite <- !app_assoc.
  - by rewrite <- !app_assoc.
  - rewrite !zlen_app, Hw. unfold word8. rewrite zlen_app, Hk. change (zlen [0; 8]) with 2. lia.
Qed.

(** The state after [n] rounds: the words passed by carry a length of 8, and
    a zero word for each of them has been added behind. *)
Lemma group_stats_rounds n pre ks tail :
  zlen pre mod 8 = 0 -> zlen ks = 4 -> Forall (fun k => zlen k = 6) ks ->
  reply_rounds (normalizeMPGroupStatsReplyV3 32) n (pre ++ mjoin (word0 <$> ks) ++ tail) (zlen pre) =
  Some (pre ++ mjoin (word8 <$> take n (ks ++ replicate n (replicate 6 0))) ++
        mjoin (word0 <$> drop n (ks ++ replicate n (replicate 6 0))) ++ tail, zlen pre + 8 * Z.of_nat n).
Proof.
  revert pre ks. induction n as [|n IH]; intros pre ks Hp H4 Hks.
  { cbn. by rewrite app_nil_r, Z.add_0_r. }
  destruct ks as [|k ks]; [done|]. apply Forall_cons in Hks as [Hk Hks].
  assert (zlen ks = 3) as H3 by (unfold zlen in *; simpl in H4; lia).
  assert (zlen (pre ++ word8 k) = zlen pre + 8) as Hp8.
  { unfold word8. rewrite !zlen_app, Hk. done. }
  pose proof (words_length ks Hks) as Hw. pose proof (zlen_nonneg tail).
  change (mjoin (word0 <$> k :: ks)) with (word0 k ++ mjoin (word0 <$> ks)). cbn [reply_rounds].
  rewrite <- (app_assoc (word0 k)).
  rewrite (proj2 (Z.ltb_lt _ _)) by (rewrite !zlen_app, word0_length by done; lia).
  rewrite group_stats_round by done. cbn [mbind option_bind]. rewrite <- Hp8.
  specialize (IH (pre ++ word8 k) (ks ++ [replicate 6 0])).
  rewrite fmap_app, join_app, <- (app_assoc (mjoin (word0 <$> ks))) in IH.
  change (mjoin (word0 <$> [replicate 6 0])) with (replicate 8 0) in IH.
  rewrite IH.
  - rewrite <- (app_assoc ks). change ([replicate 6 0] ++ replicate n (replicate 6 0))
      with (replicate (S n) (replicate 6 0)). cbn [app take drop].
    change (mjoin (word8 <$> k :: take n (ks ++ replicate (S n) (replicate 6 0))))
      with (word8 k ++ mjoin (word8 <$> take n (ks ++ replicate (S n) (replicate 6 0)))).
    rewrite Hp8, <- !app_assoc. do 2 f_equal. lia.
  - rewrite Hp8, Z.add_mod, Hp by lia. done.
  - rewrite zlen_app, H3. done.
  - rewrite Forall_app. by repeat constructor.
Qed.

(** C40. A group entry that gives its length as 0, and whose reference, packet
    and byte counts start with two zero bytes, makes the loop over the group
    statistics of OpenFlow 1.2 run for ever. The buffer and the position after
    any number [n] of rounds are given: no round fails, each one has moved the
    position on by 8 and inserted 8 zero bytes, which become the next entry, so
    the loop test holds again, whatever follows the entry. *)
Theorem group_stats_loop_forever pre ks tail n :
  zlen pre mod 8 = 0 -> zlen ks = 4 -> Forall (fun k => zlen k = 6) ks ->
  let buf := pre ++ mjoin (word0 <$> ks) ++ tail in
  let words := ks ++ replicate n (replicate 6 0) in
  let buf' := pre ++ mjoin (word8 <$> take n words) ++ mjoin (word0 <$> drop n words) ++ tail in
  let offset' := zlen pre + 8 * Z.of_nat n in
  reply_rounds (normalizeMPGroupStatsReplyV3 32) n buf (zlen pre) = Some (buf', offset') /\
  zlen buf' = zlen buf + 8 * Z.of_nat n /\ offset' < zlen buf' /\
  reply_loop (normalizeMPGroupStatsReplyV3 32) n buf (zlen pre) = None.
Proof.
  intros Hp H4 Hks buf words buf' offset'. pose proof (group_stats_rounds n pre ks tail Hp H4 Hks) as E.
  fold buf words buf' offset' in E. pose proof (zlen_nonneg tail). pose proof (words_length ks Hks).
  assert (Forall (fun k : list Z => zlen k = 6) words) as Hws.
  { apply Forall_app. split; [done|]. by apply Forall_replicate. }
  assert (zlen words = 4 + Z.of_nat n) as Hn by (unfold words; rewrite zlen_app, zlen_replicate; lia).
  assert (zlen buf' = zlen buf + 8 * Z.of_nat n) as El.
  { unfold buf', buf. rewrite !zlen_app, words8_length, words_length by (by apply Forall_take || by apply Forall_drop).
    rewrite zlen_take, zlen_drop. lia. }
  assert (offset' < zlen buf') by (rewrite El; unfold buf, offset'; rewrite !zlen_app; lia).
  split_and!; try done. rewrite <- (Nat.add_0_r n), (reply_rounds_loop _ _ 0 _ _ _ _ E). cbn [reply_loop].
  by rewrite (proj2 (Z.ltb_lt _ _)).
Qed.

(** A reply with one group entry: group 7, referenced once, 5 packets of 300
    bytes together. *)
Definition zero_length_group : list Z :=
  [3; 19; 0; 48; 0; 0; 0; 1; 0; 6; 0; 0; 0; 0; 0; 0] ++
  mjoin (word0 <$> [[0; 0; 0; 0; 0; 7]; [0; 1; 0; 0; 0; 0]; [0; 0; 0; 0; 0; 5]; [0; 0; 0; 0; 1; 44]]).

Lemma group_stats_loop_witness :
  normalize true zero_length_group = None /\
  forall n, reply_loop (normalizeMPGroupStatsReplyV3 32) n zero_length_group 16 = None.
Proof.
  split; [by vm_compute|]. intros n.
  pose proof (group_stats_loop_forever [3; 19; 0; 48; 0; 0; 0; 1; 0; 6; 0; 0; 0; 0; 0; 0]
    [[0; 0; 0; 0; 0; 7]; [0; 1; 0; 0; 0; 0]; [0; 0; 0; 0; 0; 5]; [0; 0; 0; 0; 1; 44]] [] n
    eq_refl eq_refl ltac:(by repeat constructor)) as (_ & _ & _ & H).
  rewrite app_nil_r in H. exact H.
Defined.

(** The actions of a flow entry of OpenFlow 1.0 are normalised without being
    validated: a set-VLAN action that gives its length as 0xfff8, in an entry
    of 96 bytes, makes [normSetField] remove bytes behind the end. *)
Theorem flow_reply_actions_unchecked :
  let entry := [0; 96] ++ replicate 86 0 ++ [0; 1; 255; 248; 0; 0; 0; 0] in
  let buf := [1; 17; 0; 108; 0; 0; 0; 1; 0; 1; 0; 0] ++ entry in
  zlen buf = 108 /\ b_length buf = Some (zlen buf) /\ normalize true buf = None.
Proof. by vm_compute. Qed.

(** A queue of OpenFlow 1.2 or 1.3 whose properties are padded keeps its old
    length: the padded properties of the first queue reach over the start of
    the second one. *)
Theorem padded_queue_keeps_length :
  let prop := [255; 255; 0; 12; 0; 0; 0; 1; 0; 0; 0; 2] in
  let queue := [0; 0; 0; 1; 0; 0; 0; 2; 0; 40; 0; 0; 0; 0; 0; 0] in
  let hdr := [4; 23; 0; 96; 0; 0; 0; 1; 0; 0; 0; 2; 0; 0; 0; 0] in
  let pad8 := [0; 0; 0; 0] in
  normalize true (hdr ++ queue ++ prop ++ prop ++ queue ++ prop ++ prop) =
  Some ([4; 23; 0; 112; 0; 0; 0; 1; 0; 0; 0; 2; 0; 0; 0; 0] ++
        queue ++ prop ++ pad8 ++ prop ++ pad8 ++ queue ++ prop ++ pad8 ++ prop ++ pad8).
Proof. by vm_compute. Qed.

(** A queue of OpenFlow 1.0 whose length is not a multiple of 8 loses its
    padding, so that the next queue starts in the middle of the 8 bytes. *)
Theorem queue_V1_padding_lost :
  let queue := [0; 0; 0; 1; 0; 12; 0; 0; 255; 255; 0; 4] in
  let new := [0; 0; 0; 1; 0; 0; 0; 0; 0; 20; 0; 0; 0; 0; 0; 0; 255; 255; 0; 4] in
  let hdr := [1; 21; 0; 48; 0; 0; 0; 1; 0; 3; 0; 0; 0; 0; 0; 0] in
  normalize true (hdr ++ queue ++ [0; 0; 0; 0] ++ queue ++ [0; 0; 0; 0]) =
  Some ([1; 23; 0; 56; 0; 0; 0; 1; 0; 0; 0; 3; 0; 0; 0; 0] ++ new ++ new).
Proof. by vm_compute. Qed.
