(* ===== verification/FlowMod.v ===== *)
(** * Flow modifications (src/ofp/flowmod.cpp, include/ofp/flowmod.h)

    The message that installs a flow: fixed fields, a match and a list of
    instructions. The builder writes it for every version: with OXM fields, with
    the match structure of OpenFlow 1.1, or with the match and the plain actions
    of OpenFlow 1.0. *)

From coqutil Require Import Datatypes.RecordSetters.
Import DoubleBraceUpdate.
From S2P Require Import Prelude.
From S2P Require Import ByteOrder.
From S2P Require Import Hex.
From S2P Require Import Constants.
From S2P Require Import SmallBuffer.
From S2P Require Import Validation.
From S2P Require Import ProtocolRange.
From S2P Require Import Ports.
From S2P Require Import Oxm.
From S2P Require Import Matches.
From S2P Require Import Actions.
From S2P Require Import Instructions.
From S2P Require Import MsgBuffer.
From S2P Require Import Messages.
From S2P Require Import NormActions.
From S2P Require Import Normalize.
From S2P Require Import NormSafe.
From S2P Require Import NormSpec.

(** ** The message *)

Definition UnpaddedSizeWithMatchHeader : Z := 52.
Definition SizeWithoutMatchHeader : Z := 48.

(** The members before the match header. *)
Record FlowMod : Type := mkFlowMod {
  fmod_header : Header;
  fmod_cookie : Z;
  fmod_cookieMask : Z;
  fmod_tableId : Z;
  fmod_command : Z;
  fmod_idleTimeout : Z;
  fmod_hardTimeout : Z;
  fmod_priority : Z;
  fmod_bufferId : Z;
  fmod_outPort : Z;
  fmod_outGroup : Z;
  fmod_flags : Z;
  fmod_importance : Z }.

Definition FlowMod_bytes (m : FlowMod) : list Z :=
  Header_bytes (fmod_header m) ++ be_bytes 8 (fmod_cookie m) ++ be_bytes 8 (fmod_cookieMask m) ++
  be_bytes 1 (fmod_tableId m) ++ be_bytes 1 (fmod_command m) ++ be_bytes 2 (fmod_idleTimeout m) ++
  be_bytes 2 (fmod_hardTimeout m) ++ be_bytes 2 (fmod_priority m) ++ be_bytes 4 (fmod_bufferId m) ++
  be_bytes 4 (fmod_outPort m) ++ be_bytes 4 (fmod_outGroup m) ++ be_bytes 2 (fmod_flags m) ++
  be_bytes 2 (fmod_importance m).

(** The accessors of a received message. *)
Definition FlowMod_at (buf : list Z) : option FlowMod :=
  header ← Header_at buf;
  cookie ← rd64 buf 8; cookieMask ← rd64 buf 16; tableId ← rd_be 1 buf 24; command ← rd_be 1 buf 25;
  idle ← rd16 buf 26; hard ← rd16 buf 28; priority ← rd16 buf 30; bufferId ← rd32 buf 32;
  outPort ← rd32 buf 36; outGroup ← rd32 buf 40; flags ← rd16 buf 44; importance ← rd16 buf 46;
  Some (mkFlowMod header cookie cookieMask tableId command idle hard priority bufferId outPort outGroup flags importance).

(** [matchHeader_] and what follows it. *)
Definition matchHeader (buf : list Z) : list Z := drop 48 buf.

Definition FlowMod_instructions (addr : Z) (buf : list Z) : option ByteRange :=
  matchLength ← MatchHeader_length (matchHeader buf);
  let offset := SizeWithoutMatchHeader + PadLength matchLength in
  length ← b_length buf;
  if offset <=? length then d ← slice buf offset (length - offset); Some (mkRange (addr + offset) d)
  else Some (mkRange 0 []).

Definition FlowMod_validateInput (addr : Z) (buf : list Z) (c : Validation) : option (bool * Validation) :=
  length ← b_length buf;
  if length <? UnpaddedSizeWithMatchHeader then Some (false, c) else
  let remainingLength := length - SizeWithoutMatchHeader in
  '(ok, c) ← MatchHeader_validateInput (addr + SizeWithoutMatchHeader) (matchHeader buf) remainingLength c;
  if negb (ok : bool) then Some (false, c) else
  instructions ← FlowMod_instructions addr buf;
  '(ok, c) ← InstructionRange_validateInput instructions c;
  if negb (ok : bool) then Some (false, c) else Some (true, c).

Definition FlowMod_class : MsgClass := mkMsgClass OFPT_FLOW_MOD 56 65528 true 8 FlowMod_validateInput.

Definition FlowMod_match {B} `{ByteBuffer B} (empty : B) (buf : list Z) : option B :=
  Match_make empty (matchHeader buf).

(** ** The builder *)

Record FlowModBuilder : Type := mkFlowModBuilder {
  fmb_msg : FlowMod;
  fmb_match : list Z;
  fmb_instructions : list Z }.

(** [FlowModBuilder(const FlowMod *msg)]. *)
Definition FlowModBuilder_of {B} `{ByteBuffer B} (empty : B) (addr : Z) (buf : list Z) : option FlowModBuilder :=
  msg ← FlowMod_at buf;
  m ← FlowMod_match empty buf;
  instructions ← FlowMod_instructions addr buf;
  Some (mkFlowModBuilder msg (bb_data m) (br_data instructions)).

Definition OriginalMatch_bytes (o : OriginalMatch) : list Z :=
  be_bytes 4 (om_wildcards o) ++ be_bytes 2 (om_in_port o) ++ om_dl_src o ++ om_dl_dst o ++
  be_bytes 2 (om_dl_vlan o) ++ be_bytes 1 (om_dl_vlan_pcp o) ++ [0] ++ be_bytes 2 (om_dl_type o) ++
  be_bytes 1 (om_nw_tos o) ++ be_bytes 1 (om_nw_proto o) ++ [0; 0] ++ om_nw_src o ++ om_nw_dst o ++
  be_bytes 2 (om_tp_src o) ++ be_bytes 2 (om_tp_dst o).

Section Send.
Context {W : Type} `{Writable W}.

(** Fill in the header of [msg_]. *)
Definition FlowModBuilder_header (msgLen : Z) (b : FlowModBuilder) (ch : W) : option (Z * FlowModBuilder * W) :=
  let '(xid, ch) := w_nextXid ch in
  hdr ← Header_set (w_version ch) OFPT_FLOW_MOD msgLen xid;
  Some (xid, mkFlowModBuilder ((fmb_msg b) {{ fmod_header := hdr }}) (fmb_match b) (fmb_instructions b), ch).

Definition sendStandard (b : FlowModBuilder) (ch : W) : option (Z * FlowModBuilder * W) :=
  assert! (OFP_VERSION_2 <=? w_version ch);;
  stdMatch ← StandardMatch_of_range (fmb_match b);
  let msgMatchLen := SizeWithoutMatchHeader + OFPMT_STANDARD_LENGTH in
  let instrLenPadded := PadLength (zlen (fmb_instructions b)) in
  '(xid, b, ch) ← FlowModBuilder_header (msgMatchLen + instrLenPadded) b ch;
  let ch := w_write (FlowMod_bytes (fmb_msg b)) ch in
  let ch := w_write (StandardMatch_bytes stdMatch) ch in
  let ch := w_write (fmb_instructions b) ch in
  Some (xid, b, w_flush ch).

(** [local] is the address of the builder's instructions. The length of the
    message is a [UInt16]. *)
Definition sendOriginal (local : Z) (b : FlowModBuilder) (ch : W) : option (Z * FlowModBuilder * W) :=
  assert! (w_version ch <=? OFP_VERSION_1);;
  origMatch ← OriginalMatch_of_range (fmb_match b);
  actions ← outputActions (mkRange local (fmb_instructions b));
  msgLen ← (if 0 <? br_size actions then n ← ActionRange_writeSize (w_version ch) actions; Some (u16 (72 + n))
            else Some 72);
  '(xid, b, ch) ← FlowModBuilder_header msgLen b ch;
  let b := if negb (fmod_tableId (fmb_msg b) =? 0)
           then mkFlowModBuilder ((fmb_msg b) {{ fmod_tableId := 0 }}) (fmb_match b) (fmb_instructions b) else b in
  let msg := fmb_msg b in
  let ch := w_write (Header_bytes (fmod_header msg)) ch in
  let ch := w_write (OriginalMatch_bytes origMatch) ch in
  let ch := w_write (be_bytes 8 (fmod_cookie msg)) ch in
  let ch := w_write (be_bytes 1 (fmod_tableId msg) ++ be_bytes 1 (fmod_command msg) ++
                     be_bytes 2 (fmod_idleTimeout msg) ++ be_bytes 2 (fmod_hardTimeout msg) ++
                     be_bytes 2 (fmod_priority msg) ++ be_bytes 4 (fmod_bufferId msg)) ch in
  let ch := w_write (drop 2 (be_bytes 4 (fmod_outPort msg))) ch in
  let ch := w_write (be_bytes 2 (fmod_flags msg)) ch in
  ch ← (if 0 <? br_size actions then out ← ActionRange_write (w_version ch) actions; Some (w_write out ch)
        else Some ch);
  Some (xid, b, w_flush ch).

Definition FlowModBuilder_send (local : Z) (b : FlowModBuilder) (ch : W) : option (Z * FlowModBuilder * W) :=
  let version := w_version ch in
  if version <=? OFP_VERSION_1 then sendOriginal local b ch
  else if version =? OFP_VERSION_2 then sendStandard b ch
  else
    let msgMatchLen := UnpaddedSizeWithMatchHeader + zlen (fmb_match b) in
    let msgMatchLenPadded := PadLength msgMatchLen in
    let instrLen := zlen (fmb_instructions b) in
    let instrLenPadded := PadLength instrLen in
    assert! (instrLen mod 8 =? 0);;
    '(xid, b, ch) ← FlowModBuilder_header (msgMatchLenPadded + instrLenPadded) b ch;
    let ch := w_write (FlowMod_bytes (fmb_msg b) ++ be_bytes 2 OFPMT_OXM ++ be_bytes 2 (u16 (4 + zlen (fmb_match b)))) ch in
    ch ← w_write_padded (fmb_match b) (msgMatchLenPadded - msgMatchLen) ch;
    let ch := w_write (fmb_instructions b) ch in
    Some (xid, b, w_flush ch).

(** [sendFastVersion1]. *)
Definition fast_layout : list Z :=
  [0x01; 0x0E; 0x00; 0x50; 0x00; 0x00; 0x00; 0x01;
   0x00; 0x38; 0x20; 0xF2; 0xA2; 0xA2; 0xCD; 0xCD;
   0xCD; 0xCD; 0xCD; 0xCD; 0xAB; 0xAB; 0xAB; 0xAB;
   0xAB; 0xAB] ++ replicate 33 0 ++
  [0x0A; 0x00; 0x1E; 0x80; 0x00;
   0x34; 0x34; 0x34; 0x34; 0x00; 0x00; 0x00; 0x00;
   0x00; 0x00; 0x00; 0x08; 0xB3; 0xB3; 0x00; 0x00].

Definition sendFastVersion1 (inPort outPort bufferId : Z) (dst src : list Z) (ch : W) : option (Z * W) :=
  let '(xid, ch) := w_nextXid ch in
  buf ← wr fast_layout 4 (be_bytes 4 xid);
  buf ← wr buf 12 (be_bytes 2 (u16 inPort));
  buf ← wr buf 14 src;
  buf ← wr buf 20 dst;
  buf ← wr buf 64 (be_bytes 4 bufferId);
  buf ← wr buf 76 (be_bytes 2 (u16 outPort));
  Some (xid, w_flush (w_write buf ch)).
End Send.

(** ** Reading what was written *)

Definition FlowMod_ok (m : FlowMod) : Prop :=
  header_ok (fmod_header m) /\ 0 <= fmod_cookie m < 2 ^ 64 /\ 0 <= fmod_cookieMask m < 2 ^ 64 /\
  0 <= fmod_tableId m < 2 ^ 8 /\ 0 <= fmod_command m < 2 ^ 8 /\ 0 <= fmod_idleTimeout m < 2 ^ 16 /\
  0 <= fmod_hardTimeout m < 2 ^ 16 /\ 0 <= fmod_priority m < 2 ^ 16 /\ 0 <= fmod_bufferId m < 2 ^ 32 /\
  0 <= fmod_outPort m < 2 ^ 32 /\ 0 <= fmod_outGroup m < 2 ^ 32 /\ 0 <= fmod_flags m < 2 ^ 16 /\
  0 <= fmod_importance m < 2 ^ 16.

Lemma FlowMod_bytes_len m : zlen (FlowMod_bytes m) = 48.
Proof. unfold FlowMod_bytes. rewrite zlen_app, Header_bytes_len. by autorewrite with zlen. Qed.

Lemma Header_bytes_ok h : bytes_ok (Header_bytes h).
Proof. unfold Header_bytes. rewrite !Forall_app. split_and!; apply be_bytes_ok. Qed.

Lemma FlowMod_bytes_ok m : bytes_ok (FlowMod_bytes m).
Proof. unfold FlowMod_bytes. rewrite !Forall_app. split_and!; [apply Header_bytes_ok|apply be_bytes_ok..]. Qed.

Lemma FlowMod_fields m k : FlowMod_ok m -> FlowMod_at (FlowMod_bytes m ++ k) = Some m.
Proof.
  intros (Hh & ? & ? & ? & ? & ? & ? & ? & ? & ? & ? & ? & ?). unfold FlowMod_at, FlowMod_bytes.
  rewrite <- !app_assoc. destruct (Header_fields (fmod_header m) (be_bytes 8 (fmod_cookie m) ++
    be_bytes 8 (fmod_cookieMask m) ++ be_bytes 1 (fmod_tableId m) ++ be_bytes 1 (fmod_command m) ++
    be_bytes 2 (fmod_idleTimeout m) ++ be_bytes 2 (fmod_hardTimeout m) ++ be_bytes 2 (fmod_priority m) ++
    be_bytes 4 (fmod_bufferId m) ++ be_bytes 4 (fmod_outPort m) ++ be_bytes 4 (fmod_outGroup m) ++
    be_bytes 2 (fmod_flags m) ++ be_bytes 2 (fmod_importance m) ++ k) Hh) as (_ & _ & _ & _ & ->).
  cbn [mbind option_bind]. pose proof (Header_bytes_len (fmod_header m)) as Hl. set (hb := Header_bytes _) in *.
  read_layout. rewrite !be_be_bytes_small by done. by destruct m.
Qed.

(** A message of fixed fields, a match of its padded length, and the rest. *)
Section Layout.
Context (m : FlowMod) (mh rest : list Z) (mlen : Z).
Local Notation buf := (FlowMod_bytes m ++ mh ++ rest).
Context (Hm : FlowMod_ok m) (Hlen : hdr_length (fmod_header m) = zlen buf).
Context (Hmh : rd16 mh 2 = Some mlen) (Hpad : zlen mh = PadLength mlen).

Lemma layout_matchHeader : matchHeader buf = mh ++ rest.
Proof. unfold matchHeader. rewrite drop_app_length'; [done|]. pose proof (FlowMod_bytes_len m). unfold zlen in *. lia. Qed.

Lemma layout_header : b_version buf = Some (hdr_version (fmod_header m)) /\
  b_type buf = Some (hdr_type (fmod_header m)) /\ b_length buf = Some (zlen buf).
Proof.
  destruct Hm as [Hh _]. rewrite <- Hlen. unfold FlowMod_bytes. rewrite <- !app_assoc.
  edestruct Header_fields as (H1 & H2 & H3 & _); [exact Hh|]. split_and!; [exact H1|exact H2|exact H3].
Qed.

Lemma layout_instructions addr : FlowMod_instructions addr buf = Some (mkRange (addr + 48 + zlen mh) rest).
Proof.
  unfold FlowMod_instructions, MatchHeader_length. rewrite layout_matchHeader.
  pose proof (rd_be_inv _ _ _ _ Hmh). rewrite rd_be_app_l, Hmh by lia. cbn [mbind option_bind].
  destruct layout_header as (_ & _ & ->). cbn [mbind option_bind]. unfold SizeWithoutMatchHeader.
  rewrite <- Hpad, !zlen_app, FlowMod_bytes_len. pose proof (zlen_nonneg rest). rewrite (proj2 (Z.leb_le _ _)) by lia.
  rewrite (slice_skip _ _ 48) by (rewrite ?FlowMod_bytes_len; pose proof (zlen_nonneg mh); lia).
  rewrite (slice_skip mh _ (zlen mh)) by lia. replace (48 + zlen mh - 48 - zlen mh) with 0 by lia.
  rewrite slice_all by lia. cbn [mbind option_bind]. do 2 f_equal. lia.
Qed.

Lemma layout_builder {B} `{ByteBuffer B} (empty : B) addr b :
  Match_make empty (mh ++ rest) = Some b ->
  FlowModBuilder_of empty addr buf = Some (mkFlowModBuilder m (bb_data b) rest).
Proof.
  intros Hb. unfold FlowModBuilder_of, FlowMod_match. rewrite FlowMod_fields by done. cbn [mbind option_bind].
  rewrite layout_matchHeader, Hb. cbn [mbind option_bind]. by rewrite layout_instructions.
Qed.

(** Such a message is accepted when its parts are. *)
Lemma layout_accepted addr info error :
  hdr_type (fmod_header m) = OFPT_FLOW_MOD -> 0 <= hdr_version (fmod_header m) < 16 ->
  zlen buf <= 65528 -> 8 <= zlen mh -> addr mod 8 = 0 -> bytes_ok mh -> bytes_ok rest ->
  match_header_ok (hdr_version (fmod_header m)) (mh ++ rest) (default 0 (rd16 mh 0)) mlen (zlen mh + zlen rest) ->
  (exists cs, rest = mjoin cs /\ Forall (elem_ok 4 2) cs /\ Forall instruction_ok cs) ->
  exists c, castMessage FlowMod_class addr buf info error = Some (true, c).
Proof.
  intros Ht Hv Hmax H8 Ha Hbm Hbr Hok Hins. destruct layout_header as (Ev & Et & El). rewrite Ht in Et.
  assert (zlen buf = 48 + zlen mh + zlen rest) as Hz by (rewrite !zlen_app, FlowMod_bytes_len; lia).
  assert (zlen mh mod 8 = 0) as Hm8.
  { rewrite Hpad. apply rd_be_range in Hmh; [|done]. apply PadLength_bounds. lia. }
  assert (zlen rest mod 8 = 0) as Hr8 by (destruct Hins as (cs & -> & Hcs & _); by apply (elems_mod8 4 2)).
  pose proof (zlen_nonneg rest).
  rewrite (castMessage_checks FlowMod_class _ _ _ _ _ Et El Ev (version_no_flag _ Hv)).
  2: { unfold isLengthValid, Multiple8. cbn [FlowMod_class MsgMinLength MsgMaxLength MsgMultiple8 andb negb orb].
       rewrite Hz in *. rewrite !(proj2 (Z.leb_le _ _)) by lia. cbn. apply Z.eqb_eq. Z.to_euclidean_division_equations. lia. }
  2: { cbn [FlowMod_class MsgAlign]. rewrite IsPtrAligned_8. by apply Z.eqb_eq. }
  set (c := Validation_make _ _). assert (v_version c = hdr_version (fmod_header m)) as Hc by apply v_version_make.
  cbn [FlowMod_class MsgValidateInput]. unfold FlowMod_validateInput. rewrite El. cbn [mbind option_bind].
  unfold UnpaddedSizeWithMatchHeader, SizeWithoutMatchHeader. rewrite (proj2 (Z.ltb_ge _ _)) by lia.
  rewrite layout_matchHeader. replace (zlen buf - 48) with (zlen mh + zlen rest) by lia.
  destruct (MatchHeader_verdict (addr + 48) (mh ++ rest) (zlen mh + zlen rest) c) as (ok & c' & -> & Hiff & Hc').
  { by apply Forall_app. } { rewrite zlen_app. lia. }
  cbn [mbind option_bind]. assert (ok = true) as ->.
  { apply Hiff. split_and!; [lia|Z.to_euclidean_division_equations; lia|].
    destruct (rd_be_some 2 mh 0) as [t Et0]; [lia..|]. exists t, mlen. unfold MatchHeader_type, MatchHeader_length.
    rewrite !rd_be_app_l by lia. rewrite Hc. rewrite Et0 in Hok. done. }
  subst c'. cbn [negb]. rewrite layout_instructions. cbn [mbind option_bind].
  destruct (instructions_valid_iff (mkRange (addr + 48 + zlen mh) rest) c Hbr) as (b & c' & -> & Hb & _).
  cbn [mbind option_bind]. assert (b = true) as ->; [|by eexists].
  apply Hb. split; [|done]. cbn [br_addr]. Z.to_euclidean_division_equations. lia.
Qed.
End Layout.

(** ** What is accepted *)

Lemma matchHeader_rd buf w off : 48 <= zlen buf -> 0 <= off -> rd_be w (matchHeader buf) off = rd_be w buf (48 + off).
Proof.
  intros Hz Ho. unfold rd_be, matchHeader. f_equal. rewrite <- (take_drop 48 buf) at 2.
  assert (zlen (take 48 buf) = 48) as Ht by (rewrite zlen_take; lia).
  replace (48 + off) with (zlen (take 48 buf) + off) by lia. by rewrite slice_shift.
Qed.

(** The bytes behind the padded match, if it ends inside the message, are a
    list of acceptable instructions. *)
Definition instructions_behind (buf : list Z) (mlen : Z) : Prop :=
  48 + PadLength mlen <= zlen buf ->
  exists cs, drop (Z.to_nat (48 + PadLength mlen)) buf = mjoin cs /\ Forall (elem_ok 4 2) cs /\ Forall instruction_ok cs.

Lemma FlowMod_instructions_range addr buf mlen :
  bytes_ok buf -> 52 <= zlen buf -> b_length buf = Some (zlen buf) -> addr mod 8 = 0 -> rd16 buf 50 = Some mlen ->
  exists r, FlowMod_instructions addr buf = Some r /\ bytes_ok (br_data r) /\ br_addr r mod 8 = 0 /\
    ((exists cs, br_data r = mjoin cs /\ Forall (elem_ok 4 2) cs /\ Forall instruction_ok cs) <->
     instructions_behind buf mlen).
Proof.
  intros Hb Hz El Ha Em. unfold FlowMod_instructions, MatchHeader_length.
  rewrite matchHeader_rd by lia. change (48 + 2) with 50. rewrite Em, El. cbn [mbind option_bind].
  pose proof (rd_be_range _ _ _ _ Hb Em) as Hml. destruct (PadLength_bounds mlen) as [Hp Hp8]; [lia|].
  unfold SizeWithoutMatchHeader, instructions_behind. destruct (Z.leb_spec (48 + PadLength mlen) (zlen buf)) as [Hle|Hgt].
  - rewrite slice_some by lia. cbn [mbind option_bind]. rewrite take_ge.
    2: { rewrite length_drop. unfold zlen in *. lia. }
    eexists. split; [done|]. cbn [br_data br_addr].
    split_and!; [by apply Forall_drop|Z.to_euclidean_division_equations; lia|tauto].
  - eexists. split; [done|]. split_and!; try done. cbn [br_data]. split; [lia|]. intros _. by exists [].
Qed.

(** C20. [FlowMod::validateInput] on a message of the size that its header gives
    always answers without reading outside the message. It accepts exactly
    the messages with an acceptable match header, followed by a list of
    acceptable instructions (if the padded match ends inside the message), and
    leaves the context alone when it does. *)
Theorem FlowMod_validateInput_iff addr buf c :
  bytes_ok buf -> 8 <= zlen buf -> b_length buf = Some (zlen buf) ->
  exists b c', FlowMod_validateInput addr buf c = Some (b, c') /\ (b = true -> c' = c) /\
    (b = true <-> 52 <= zlen buf /\ addr mod 8 = 0 /\
       exists type mlen, rd16 buf 48 = Some type /\ rd16 buf 50 = Some mlen /\
         match_header_ok (v_version c) (drop 48 buf) type mlen (zlen buf - 48) /\ instructions_behind buf mlen).
Proof.
  intros Hb H8 El. unfold FlowMod_validateInput. rewrite El. cbn [mbind option_bind].
  unfold UnpaddedSizeWithMatchHeader, SizeWithoutMatchHeader.
  destruct (Z.ltb_spec (zlen buf) 52); [exists false, c; split_and!; try done; split; [done|lia]|].
  destruct (MatchHeader_verdict (addr + 48) (matchHeader buf) (zlen buf - 48) c) as (ok & c1 & -> & Hiff & Hc1).
  { by apply Forall_drop. } { unfold matchHeader. rewrite zlen_drop. lia. }
  assert ((addr + 48) mod 8 = 0 <-> addr mod 8 = 0) as Ha8 by (Z.to_euclidean_division_equations; lia).
  unfold MatchHeader_type, MatchHeader_length in Hiff. rewrite !matchHeader_rd, Ha8 in Hiff by lia.
  change (48 + 0) with 48 in Hiff. change (48 + 2) with 50 in Hiff.
  cbn [mbind option_bind]. destruct ok; cbn [negb].
  2: { exists false, c1. split_and!; try done. split; [done|]. intros (_ & Ha & type & mlen & ? & ? & ? & _).
       apply Hiff. split_and!; [lia|done|]. by exists type, mlen. }
  subst c1. destruct (proj1 Hiff eq_refl) as (_ & Ha & type & mlen & Et & Em & Hok).
  destruct (FlowMod_instructions_range addr buf mlen Hb ltac:(lia) El Ha Em) as (r & -> & Hbr & Har & Hins).
  cbn [mbind option_bind]. destruct (instructions_valid_iff r c Hbr) as (b & c' & -> & Hb' & Hc').
  cbn [mbind option_bind]. exists b, c'. split; [by destruct b|]. split; [done|]. rewrite Hb', Hins. split.
  - intros [_ Hi]. split_and!; [lia|done|]. by exists type, mlen.
  - intros (_ & _ & t & l & ? & ? & _ & Hi). by simplify_eq.
Qed.

(** ** Round trips *)

(** The builder with the header that [send] fills in. *)
Definition with_header (b : FlowModBuilder) (h : Header) : FlowModBuilder :=
  mkFlowModBuilder ((fmb_msg b) {{ fmod_header := h }}) (fmb_match b) (fmb_instructions b).

Section RoundTrip.
Context {W : Type} `{HW : WritableLaws W} {B : Type} `{HB : ByteBufferLaws B}.
Context (empty : B) (Hempty : bb_rep empty []).

Lemma builder_header b (ch : W) n :
  FlowMod_ok (fmb_msg b) -> 0 <= w_version ch < 256 -> 0 <= n <= OFP_MAX_SIZE ->
  let xid := fst (w_nextXid ch) in let h := Hdr (w_version ch) OFPT_FLOW_MOD n xid in
  FlowModBuilder_header n b ch = Some (xid, with_header b h, snd (w_nextXid ch)) /\
  FlowMod_ok (fmb_msg (with_header b h)).
Proof.
  intros Hm Hv Hn xid h. unfold FlowModBuilder_header. destruct (w_nextXid ch) as [x ch'] eqn:E.
  pose proof (w_xid_version ch) as Ev. pose proof (w_xid_range ch) as Hx. rewrite E in Ev, Hx. cbn [fst snd] in *.
  destruct (Header_set_ok (w_version ch) OFPT_FLOW_MOD n x) as [Eh Hok]; try done.
  rewrite Ev, Eh. cbn [mbind option_bind]. split; [done|].
  destruct Hm as (_ & Hm). by split.
Qed.

Definition oxm_match (l : list oxm_item) : list Z :=
  be_bytes 2 OFPMT_OXM ++ be_bytes 2 (4 + zlen (encode l)) ++ encode l ++
  replicate (Z.to_nat (PadLength (4 + zlen (encode l)) - (4 + zlen (encode l)))) 0.

(** The match part of a message with OXM fields. *)
Lemma oxm_match_ok l rest v :
  Forall item_ok l -> 4 + zlen (encode l) < 2 ^ 16 ->
  let mlen := 4 + zlen (encode l) in let mh := oxm_match l in
  bytes_ok mh /\ rd16 mh 0 = Some OFPMT_OXM /\ rd16 mh 2 = Some mlen /\ zlen mh = PadLength mlen /\
  match_header_ok v (mh ++ rest) OFPMT_OXM mlen (zlen mh + zlen rest) /\
  exists b, Match_make empty (mh ++ rest) = Some b /\ bb_data b = encode l.
Proof.
  intros Hl Hz mlen mh. set (e := encode l) in *. pose proof (zlen_nonneg e). pose proof (zlen_nonneg rest).
  destruct (PadLength_bounds mlen) as [Hp _]; [lia|].
  assert (zlen mh = PadLength mlen) as Hmh.
  { unfold mh, oxm_match. rewrite !zlen_app, zlen_replicate. fold e mlen. autorewrite with zlen. lia. }
  assert (forall k, rd16 (mh ++ k) 0 = Some OFPMT_OXM /\ rd16 (mh ++ k) 2 = Some mlen /\ slice (mh ++ k) 4 (mlen - 4) = Some e) as Hr.
  { intros k. unfold mh, oxm_match. fold e mlen. rewrite <- !app_assoc. unfold rd_be.
    rewrite slice_head by done. rewrite !(slice_skip (be_bytes 2 OFPMT_OXM) _ 2) by done.
    change (2 - 2) with 0. rewrite slice_head by done. rewrite (slice_skip (be_bytes 2 mlen) _ 2) by done.
    change (4 - 2 - 2) with 0. rewrite slice_head by lia. cbn [fmap option_fmap option_map].
    rewrite !be_be_bytes_small; [done| |done]. change (256 ^ Z.of_nat 2) with (2 ^ 16). lia. }
  destruct (Hr rest) as (R0 & R2 & Rs). pose proof (Hr []) as (R0' & R2' & _). rewrite app_nil_r in R0', R2'.
  split_and!; try done.
  - unfold mh, oxm_match. rewrite !Forall_app. split_and!; [apply be_bytes_ok..|by apply encode_ok|].
    by apply Forall_replicate.
  - right. split_and!; [done|lia|lia|]. exists l. split; [done|]. exact Rs.
  - unfold Match_make, MatchHeader_type. rewrite R0. cbn [mbind option_bind]. change (OFPMT_OXM =? OFPMT_OXM) with true.
    unfold MatchHeader_oxmRange, MatchHeader_length, MatchHeader_type. rewrite R2, R0. cbn [mbind option_bind].
    rewrite (proj2 (Z.leb_le 4 _)) by lia. change (negb (OFPMT_OXM =? OFPMT_OXM)) with false. cbn iota. rewrite Rs.
    cbn [mbind option_bind]. destruct (bb_add_ok empty [] e Hempty) as (b & -> & Hb).
    { change (zlen []) with 0. unfold maxLength. lia. }
    exists b. split; [done|]. by apply bb_rep_data in Hb.
Qed.

(** C10. A flow modification that the builder sends to a peer of OpenFlow 1.2 or
    later is accepted by [castMessage], and a builder made from the received
    message is the builder that was sent: every field, the match and the
    instructions. *)
Theorem flow_mod_roundtrip local addr b l ins (ch : W) info error :
  OFP_VERSION_3 <= w_version ch < 16 -> FlowMod_ok (fmb_msg b) -> addr mod 8 = 0 ->
  fmb_match b = encode l -> Forall item_ok l -> zlen (encode l) < 2 ^ 16 ->
  fmb_instructions b = foldl InstructionList_add [] ins -> Forall instruction_fits ins ->
  let n := PadLength (52 + zlen (encode l)) + zlen (fmb_instructions b) in n <= 65528 ->
  let b' := with_header b (Hdr (w_version ch) OFPT_FLOW_MOD n (fst (w_nextXid ch))) in
  exists ch' m c, FlowModBuilder_send local b ch = Some (fst (w_nextXid ch), b', ch') /\
    w_sent ch' = w_sent ch ++ m /\
    castMessage FlowMod_class addr m info error = Some (true, c) /\
    FlowModBuilder_of empty addr m = Some b'.
Proof.
  intros Hv Hm Ha El Hl Hlz Ei Hi n Hn b'. unfold OFP_VERSION_3 in Hv. pose proof (zlen_nonneg (encode l)).
  pose proof (zlen_nonneg (fmb_instructions b)).
  destruct (built_list_ok ins Hi) as (Hib & Hi8 & cs & Ecs & Hcs & Hok & _). rewrite <- Ei in Hib, Hi8, Ecs.
  assert (PadLength (52 + zlen (encode l)) = 48 + PadLength (4 + zlen (encode l))) as Hp.
  { rewrite !PadLength_eq by lia. clear. Z.to_euclidean_division_equations. lia. }
  destruct (PadLength_bounds (4 + zlen (encode l))) as [Hpb _]; [lia|].
  destruct (builder_header b ch n Hm ltac:(lia)) as [Eh Hm']; [unfold OFP_MAX_SIZE; lia|]. fold b' in Eh, Hm'.
  destruct (oxm_match_ok l (fmb_instructions b) (w_version ch) Hl ltac:(lia)) as (Hmb & R0 & R2 & Hmz & Hmok & mb & Emb & Hmd).
  set (mh := oxm_match l) in *. set (m := FlowMod_bytes (fmb_msg b') ++ mh ++ fmb_instructions b).
  assert (zlen m = n) as Hmn by (unfold m, n; rewrite !zlen_app, FlowMod_bytes_len; lia).
  destruct (layout_accepted (fmb_msg b') mh (fmb_instructions b) (4 + zlen (encode l)) Hm' (eq_sym Hmn) R2 Hmz addr info error)
    as (c & Hc); try done; try (cbn; lia); [fold m; lia| |by rewrite R0|by exists cs|].
  { rewrite Hmz. rewrite PadLength_eq by lia. Z.to_euclidean_division_equations. lia. }
  eexists _, m, c. split_and!; [|..|exact Hc|].
  - unfold FlowModBuilder_send, OFP_VERSION_1, OFP_VERSION_2. rewrite (proj2 (Z.leb_gt _ _)), (proj2 (Z.eqb_neq _ _)) by lia.
    rewrite El, Hi8. cbn [Z.eqb]. unfold UnpaddedSizeWithMatchHeader. rewrite (PadLength_fixed (zlen (fmb_instructions b))) by lia.
    fold n. rewrite Eh. cbn [mbind option_bind]. unfold w_write_padded. rewrite Hp.
    rewrite (proj2 (Z.ltb_lt _ _)) by lia. cbn [mbind option_bind]. reflexivity.
  - rewrite w_flush_sent, !w_write_sent, w_xid_sent, <- !app_assoc. f_equal. unfold m, mh, oxm_match. rewrite <- !app_assoc.
    change (fmb_match b') with (fmb_match b). rewrite El, u16_small by lia. do 4 f_equal. f_equal. f_equal. lia.
  - unfold m. rewrite (layout_builder (fmb_msg b') mh (fmb_instructions b) (4 + zlen (encode l)) Hm' (eq_sym Hmn) R2 Hmz empty addr mb Emb).
    rewrite Hmd, <- El. done.
Qed.
End RoundTrip.

(** ** Matches on the wire *)

Definition std_ranges (s : StandardMatch) : Prop :=
  std_shape s /\
  (0 <= sm_type s < 2 ^ 16 /\ 0 <= sm_length s < 2 ^ 16 /\ 0 <= sm_in_port s < 2 ^ 32 /\ 0 <= sm_wildcards s < 2 ^ 32) /\
  (0 <= sm_dl_vlan s < 2 ^ 16 /\ 0 <= sm_dl_vlan_pcp s < 2 ^ 8 /\ 0 <= sm_dl_type s < 2 ^ 16) /\
  (0 <= sm_nw_tos s < 2 ^ 8 /\ 0 <= sm_nw_proto s < 2 ^ 8 /\ 0 <= sm_tp_src s < 2 ^ 16 /\ 0 <= sm_tp_dst s < 2 ^ 16) /\
  (0 <= sm_mpls_label s < 2 ^ 32 /\ 0 <= sm_mpls_tc s < 2 ^ 8 /\ 0 <= sm_metadata s < 2 ^ 64 /\
   0 <= sm_metadata_mask s < 2 ^ 64).

Lemma address_zlen n a : address_ok n a -> zlen a = Z.of_nat n.
Proof. intros [<- _]. done. Qed.

Lemma standard_at_bytes s k : std_ranges s ->
  StandardMatch_at (StandardMatch_bytes s ++ k) 0 = Some s /\ zlen (StandardMatch_bytes s) = 88 /\
  bytes_ok (StandardMatch_bytes s) /\
  rd16 (StandardMatch_bytes s) 0 = Some (sm_type s) /\ rd16 (StandardMatch_bytes s) 2 = Some (sm_length s).
Proof.
  intros ((A1 & A2 & A3 & A4 & A5 & A6 & A7 & A8) & (? & ? & ? & ?) & (? & ? & ?) & (? & ? & ? & ?) & (? & ? & ? & ?)).
  assert (zlen [0] = 1) as Z1 by done. assert (zlen [0; 0; 0] = 3) as Z3 by done.
  pose proof (address_zlen _ _ A1) as L1. pose proof (address_zlen _ _ A2) as L2. pose proof (address_zlen _ _ A3) as L3.
  pose proof (address_zlen _ _ A4) as L4. pose proof (address_zlen _ _ A5) as L5. pose proof (address_zlen _ _ A6) as L6.
  pose proof (address_zlen _ _ A7) as L7. pose proof (address_zlen _ _ A8) as L8.
  change (Z.of_nat 6) with 6 in *. change (Z.of_nat 4) with 4 in *. split_and!.
  - unfold StandardMatch_at, StandardMatch_bytes. rewrite <- !app_assoc, !rd8_rd_be. read_layout.
    rewrite !be_be_bytes_small by done. by destruct s.
  - unfold StandardMatch_bytes. rewrite !zlen_app. autorewrite with zlen. lia.
  - unfold StandardMatch_bytes. rewrite !Forall_app. unfold address_ok in *.
    split_and!; try apply be_bytes_ok; try tauto; bytes.
  - unfold StandardMatch_bytes. read_layout. by rewrite be_be_bytes_small.
  - unfold StandardMatch_bytes. read_layout. by rewrite be_be_bytes_small.
Qed.

Lemma vlan_fits_range skip v : vlan_fits skip v = true -> 0 <= v < 2 ^ 16.
Proof. unfold vlan_fits. by intros [?%fits_iff _]%andb_true_iff. Qed.

Lemma port_fits_range skip any proto v : port_fits skip any proto v = true -> 0 <= v < 2 ^ 16.
Proof. unfold port_fits. by intros [[?%fits_iff _]%andb_true_iff _]%andb_true_iff. Qed.

Lemma std_ranges_canonical s : std_canonical s = true -> std_ranges s.
Proof.
  intros Hs. destruct (std_parts s Hs) as (Ht & Hl & Hw & [? _] & _ & _ & Hv & [? _] & [? _] & [? _] & [? _] & _ & _ &
    Hp & Hq & [? _] & [? _] & (? & ? & _) & _).
  apply vlan_fits_range in Hv. apply port_fits_range in Hp, Hq.
  split; [by apply std_shape_canonical|]. rewrite Ht, Hl. split_and!; done || lia.
Qed.

Lemma standardWildcards_range wc : 0 <= standardWildcards wc < 2 ^ 32.
Proof.
  unfold standardWildcards, WildcardMap. cbn [foldl fst snd].
  generalize (has_bit wc OW_IN_PORT), (has_bit wc OW_DL_VLAN), (has_bit wc OW_DL_VLAN_PCP), (has_bit wc OW_DL_TYPE),
    (has_bit wc OW_NW_TOS), (has_bit wc OW_NW_PROTO), (has_bit wc OW_TP_SRC), (has_bit wc OW_TP_DST).
  intros [] [] [] [] [] [] [] []; vm_compute; split; discriminate || reflexivity.
Qed.

(** A canonical match of OpenFlow 1.0: its bytes, and its way through the
    structure of OpenFlow 1.1 and the OXM list. *)
Lemma original_match_parts o : orig_canonical o = true ->
  zlen (OriginalMatch_bytes o) = 40 /\ bytes_ok (OriginalMatch_bytes o) /\
  OriginalMatch_at (OriginalMatch_bytes o) 0 = Some o /\
  exists s, StandardMatch_of_original o = Some s /\ std_ranges s /\ sm_type s = OFPMT_STANDARD /\
    sm_length s = OFPMT_STANDARD_LENGTH /\ sm_nw_proto s = om_nw_proto o /\
    (Forall item_ok (std_items s) -> OriginalMatch_of_range (encode (std_items s)) = Some o).
Proof.
  intros Ho. destruct (orig_parts o Ho) as ((Hw & _) & [? _] & Ms & Md & Hv & [? _] & [? _] & [? _] & [? _] & Is & Id &
    Hp & Hq & _).
  destruct (orig_standard o Ho) as (ks & kd & s & E & Eks & Ekd & Hks & Hkd & Es).
  pose proof (orig_shape o Ho ks kd s Eks Ekd Es) as Hshape.
  apply vlan_fits_range in Hv. apply port_fits_range in Hp, Hq.
  assert (address_ok 6 (om_dl_src o) /\ address_ok 6 (om_dl_dst o) /\ address_ok 4 (om_nw_src o) /\
    address_ok 4 (om_nw_dst o)) as (A1 & A2 & A3 & A4).
  { destruct Hshape as (? & _ & ? & _ & ? & _ & ? & _). rewrite Es in *. done. }
  pose proof (address_zlen _ _ A1) as L1. pose proof (address_zlen _ _ A2) as L2.
  pose proof (address_zlen _ _ A3) as L3. pose proof (address_zlen _ _ A4) as L4.
  change (Z.of_nat 6) with 6 in *. change (Z.of_nat 4) with 4 in *.
  split_and!.
  - unfold OriginalMatch_bytes. rewrite !zlen_app. autorewrite with zlen. lia.
  - unfold OriginalMatch_bytes. rewrite !Forall_app. unfold address_ok in *.
    split_and!; try apply be_bytes_ok; try tauto; bytes.
  - assert (zlen [0] = 1) as Z1 by done. assert (zlen [0; 0] = 2) as Z2 by done.
    unfold OriginalMatch_at, OriginalMatch_bytes. rewrite !rd8_rd_be. read_layout.
    rewrite !be_be_bytes_small by (done || (change (256 ^ Z.of_nat 4) with (2 ^ 32); lia)). by destruct o.
  - exists s. split; [done|]. split_and!; try (by rewrite Es).
    + split; [done|]. pose proof (standardWildcards_range (om_wildcards o)). rewrite Es. cbn. split_and!; done || lia.
    + intros Hitems. by apply (orig_items_fold o ks kd s).
Qed.

(** ** Flow modifications for OpenFlow 1.1 *)

Section OldVersions.
Context {W : Type} `{HW : WritableLaws W} {B : Type} `{HB : ByteBufferLaws B}.
Context (empty : B) (Hempty : bb_rep empty []).

(** The match part of a message with the match structure. *)
Lemma standard_match_ok s rest v :
  std_ranges s -> sm_type s = OFPMT_STANDARD -> sm_length s = OFPMT_STANDARD_LENGTH -> v < 4 ->
  let mh := StandardMatch_bytes s in
  Forall item_ok (std_items s) /\ match_header_ok v (mh ++ rest) OFPMT_STANDARD 88 (zlen mh + zlen rest) /\
  exists b, Match_make empty (mh ++ rest) = Some b /\ bb_data b = encode (std_items s).
Proof.
  intros Hs Ht Hl Hv mh. destruct (standard_at_bytes s rest Hs) as (Ea & Hz & _ & R0 & R2). rewrite Ht in R0. rewrite Hl in R2.
  destruct (toOXMList_ok empty s Hempty (proj1 Hs)) as (Hok & b & Eb & Hb). split; [done|]. split; [by left|].
  exists b. split; [|done]. unfold Match_make, MatchHeader_type, MatchHeader_length, mh.
  rewrite !rd_be_app_l, R0, R2 by lia. cbn [mbind option_bind].
  change (OFPMT_STANDARD =? OFPMT_OXM) with false. change (OFPMT_STANDARD =? OFPMT_STANDARD) with true.
  change (OFPMT_STANDARD_LENGTH =? OFPMT_STANDARD_LENGTH) with true. cbn iota.
  unfold MatchHeader_stdMatch, MatchHeader_type, MatchHeader_length. rewrite !rd_be_app_l, R0, R2 by lia. cbn [mbind option_bind].
  change (OFPMT_STANDARD =? OFPMT_STANDARD) with true. change (OFPMT_STANDARD_LENGTH =? OFPMT_STANDARD_LENGTH) with true.
  cbn [andb]. rewrite Ea. cbn [mbind option_bind]. exact Eb.
Qed.

(** A flow modification that the builder sends to a peer of OpenFlow 1.1, with
    the fields of a canonical match structure: it is accepted, and the builder
    made from it is the builder that was sent. *)
Theorem flow_mod_v2_roundtrip local addr b s ins (ch : W) info error :
  w_version ch = OFP_VERSION_2 -> FlowMod_ok (fmb_msg b) -> addr mod 8 = 0 ->
  fmb_match b = encode (std_items s) -> std_canonical s = true ->
  fmb_instructions b = foldl InstructionList_add [] ins -> Forall instruction_fits ins ->
  let n := 136 + zlen (fmb_instructions b) in n <= 65528 ->
  let b' := with_header b (Hdr OFP_VERSION_2 OFPT_FLOW_MOD n (fst (w_nextXid ch))) in
  exists ch' m c, FlowModBuilder_send local b ch = Some (fst (w_nextXid ch), b', ch') /\
    w_sent ch' = w_sent ch ++ m /\
    castMessage FlowMod_class addr m info error = Some (true, c) /\
    FlowModBuilder_of empty addr m = Some b'.
Proof.
  intros Hv Hm Ha El Hs Ei Hi n Hn b'. pose proof (zlen_nonneg (fmb_instructions b)).
  destruct (built_list_ok ins Hi) as (Hib & Hi8 & cs & Ecs & Hcs & Hok & _). rewrite <- Ei in Hib, Hi8, Ecs.
  destruct (std_parts s Hs) as (Ht & Hlen & _). pose proof (std_ranges_canonical s Hs) as Hr.
  destruct (standard_match_ok s (fmb_instructions b) OFP_VERSION_2 Hr Ht Hlen ltac:(done)) as (Hit & Hmok & mb & Emb & Hmd).
  destruct (standard_at_bytes s [] Hr) as (_ & Hz & Hsb & R0 & R2). rewrite Ht in R0. rewrite Hlen in R2.
  destruct (builder_header b ch n Hm) as [Eh Hm']; [by rewrite Hv|unfold OFP_MAX_SIZE; lia|].
  rewrite Hv in Eh, Hm'. fold b' in Eh, Hm'.
  set (mh := StandardMatch_bytes s) in *. set (m := FlowMod_bytes (fmb_msg b') ++ mh ++ fmb_instructions b).
  assert (zlen m = n) as Hmn by (unfold m, n; rewrite !zlen_app, FlowMod_bytes_len; lia).
  destruct (layout_accepted (fmb_msg b') mh (fmb_instructions b) 88 Hm' (eq_sym Hmn) R2 Hz addr info error)
    as (c & Hc); try done; [fold m; lia|by rewrite Hz|by rewrite R0|by exists cs|].
  eexists _, m, c. split_and!; [|..|exact Hc|].
  - unfold FlowModBuilder_send. rewrite Hv. change (OFP_VERSION_2 <=? OFP_VERSION_1) with false.
    change (OFP_VERSION_2 =? OFP_VERSION_2) with true. cbn iota. unfold sendStandard. rewrite Hv.
    change (OFP_VERSION_2 <=? OFP_VERSION_2) with true. rewrite El, std_items_fold by done. cbn [mbind option_bind].
    rewrite PadLength_fixed by lia. change (SizeWithoutMatchHeader + OFPMT_STANDARD_LENGTH) with 136. fold n.
    rewrite Eh. reflexivity.
  - rewrite w_flush_sent, !w_write_sent, w_xid_sent, <- !app_assoc. done.
  - unfold m. rewrite (layout_builder (fmb_msg b') mh (fmb_instructions b) 88 Hm' (eq_sym Hmn) R2 Hz empty addr mb Emb).
    rewrite Hmd, <- El. done.
Qed.
End OldVersions.

(** ** Witnesses *)

Definition example_msg : FlowMod := mkFlowMod (Hdr 0 OFPT_FLOW_MOD 0 0) 9 0 3 0 60 0 0x8000 0xffffffff 0xffffffff 0xffffffff 1 0.

Lemma example_msg_ok : FlowMod_ok example_msg.
Proof. unfold FlowMod_ok, header_ok. cbn. repeat split; try discriminate; reflexivity. Qed.

Definition example_fields : list oxm_item := [Item OFB_ETH_TYPE [8; 0]; Item OFB_IPV4_DST [10; 0; 0; 1]].

Lemma example_fields_ok : Forall item_ok example_fields.
Proof.
  unfold example_fields. rewrite !Forall_cons. split_and!; [..|done];
    (split; [vm_compute; split; [discriminate|reflexivity]|]); (split; [reflexivity|]); cbn [item_body]; bytes.
Qed.

Definition example_builder (fields : list oxm_item) : FlowModBuilder :=
  mkFlowModBuilder example_msg (encode fields) (foldl InstructionList_add [] example_instructions).

Lemma FlowMod_validateInput_witness :
  exists m b c', mc_buf <$> (snd <$> FlowModBuilder_send 0 (example_builder example_fields) (MemoryChannel_make 4)) = Some m /\
    FlowMod_validateInput 4096 m (Validation_make None None) = Some (b, c') /\ b = true.
Proof.
  eexists. destruct (FlowMod_validateInput_iff 4096 (default [] (mc_buf <$> (snd <$> FlowModBuilder_send 0
    (example_builder example_fields) (MemoryChannel_make 4)))) (Validation_make None None)) as (b & c' & E & _ & _).
  - vm_compute default. bytes.
  - vm_compute. discriminate.
  - vm_compute. reflexivity.
  - exists b, c'. split; [vm_compute; reflexivity|]. split; [exact E|]. vm_compute in E. congruence.
Defined.

Lemma flow_mod_roundtrip_witness :
  let b := example_builder example_fields in let ch := MemoryChannel_make 4 in
  let n := PadLength (52 + zlen (encode example_fields)) + zlen (fmb_instructions b) in
  let b' := with_header b (Hdr (w_version ch) OFPT_FLOW_MOD n (fst (w_nextXid ch))) in
  exists ch' m c, FlowModBuilder_send 0 b ch = Some (fst (w_nextXid ch), b', ch') /\ w_sent ch' = w_sent ch ++ m /\
    castMessage FlowMod_class 4096 m None None = Some (true, c) /\
    @FlowModBuilder_of _ (SmallBuffer_ops heap_zero) sb_fresh 4096 m = Some b'.
Proof.
  apply (@flow_mod_roundtrip MemoryChannel _ _ _ _ (SmallBuffer_laws heap_zero) sb_fresh
    sb_fresh_represents 0 4096 (example_builder example_fields) example_fields example_instructions
    (MemoryChannel_make 4) None None).
  - by vm_compute.
  - apply example_msg_ok.
  - done.
  - done.
  - apply example_fields_ok.
  - by vm_compute.
  - done.
  - apply example_fits.
  - by vm_compute.
Defined.

Lemma flow_mod_v2_roundtrip_witness :
  let b := example_builder (std_items std_example) in let ch := MemoryChannel_make 2 in
  let b' := with_header b (Hdr OFP_VERSION_2 OFPT_FLOW_MOD (136 + zlen (fmb_instructions b)) (fst (w_nextXid ch))) in
  exists ch' m c, FlowModBuilder_send 0 b ch = Some (fst (w_nextXid ch), b', ch') /\ w_sent ch' = w_sent ch ++ m /\
    castMessage FlowMod_class 4096 m None None = Some (true, c) /\
    @FlowModBuilder_of _ (SmallBuffer_ops heap_zero) sb_fresh 4096 m = Some b'.
Proof.
  apply (@flow_mod_v2_roundtrip MemoryChannel _ _ _ _ (SmallBuffer_laws heap_zero) sb_fresh
    sb_fresh_represents 0 4096 (example_builder (std_items std_example)) std_example example_instructions
    (MemoryChannel_make 2) None None).
  - done.
  - apply example_msg_ok.
  - done.
  - done.
  - by vm_compute.
  - done.
  - apply example_fits.
  - by vm_compute.
Defined.
