(* ===== verification/FlowModV1.v ===== *)
(** * Flow modifications for OpenFlow 1.0 and back

    [FlowModBuilder::sendOriginal] writes the match and the actions of OpenFlow
    1.0; the receiver's normalisation turns the message into the newer layout,
    which [FlowMod] reads. The composition of both directions is the identity on
    what OpenFlow 1.0 can say. *)

From coqutil Require Import Datatypes.RecordSetters.
Import DoubleBraceUpdate.
From S2P Require Import Prelude.
From S2P Require Import ByteOrder.
From S2P Require Import Hex.
From S2P Require Import Constants.
From S2P Require Import SmallBuffer.
From S2P Require Import Validation.
From S2P Require Import ProtocolRange.
From S2P Require Import Ports.
From S2P Require Import Oxm.
From S2P Require Import Matches.
From S2P Require Import Actions.
From S2P Require Import Instructions.
From S2P Require Import MsgBuffer.
From S2P Require Import Messages.
From S2P Require Import NormActions.
From S2P Require Import Normalize.
From S2P Require Import NormSafe.
From S2P Require Import NormSpec.
From S2P Require Import FlowMod.

(** ** Actions that OpenFlow 1.0 has *)

(** An output to a port of OpenFlow 1.0, or a set-field with an action of its
    own whose field belongs to the flow's IP protocol. The TCP and UDP ports are
    excepted on a little-endian host, where the normalisation swaps them. *)
Inductive v1_form (le : bool) (ipProto : Z) : list Z -> Prop :=
  | v1_output port maxlen :
      0 <= port < 2 ^ 16 -> 0 <= maxlen < 2 ^ 16 ->
      v1_form le ipProto (output_action (PortNumber_fromV1 port) maxlen)
  | v1_set oxm code n v :
      v1_set_action oxm = Some (code, n) -> 0 <= oxm < 2 ^ 32 -> zlen v = n -> bytes_ok v ->
      default ipProto (field_proto oxm) = ipProto -> le = false \/ port_field oxm = false ->
      v1_form le ipProto (set_field oxm v).

Lemma set_field_action_ok oxm v : 1 <= zlen v <= 8 -> rd8 (be_bytes 4 oxm) 3 = Some (zlen v) -> action_ok (set_field oxm v).
Proof.
  intros Hv H3. pose proof (zlen_nonneg v). destruct (set_field_head oxm v) as (Ht & Hl & _).
  exists OFPAT_SET_FIELD, 16. split_and!; try done. intros _. split; [done|].
  set (pad := replicate (Z.to_nat (8 - zlen v)) 0). exists (be_bytes 4 oxm ++ v ++ pad).
  assert (zlen pad = 8 - zlen v) as Hp by (unfold pad; rewrite zlen_replicate; lia).
  assert (zlen (be_bytes 4 oxm ++ v ++ pad) = 12) as Hz by (rewrite !zlen_app; change (zlen (be_bytes 4 oxm)) with 4; lia).
  split.
  - unfold set_field, ActionType_bytes. fold pad. rewrite <- !app_assoc. rewrite (slice_skip (be_bytes 2 _) _ 2) by done.
    rewrite (slice_skip (be_bytes 2 16) _ 2) by done. by apply slice_all.
  - exists (zlen v). rewrite rd8_app_l by done. split; [done|]. rewrite Hz. split; [lia|].
    rewrite app_assoc, drop_app_length'; [by apply Forall_replicate|].
    rewrite length_app, be_bytes_length. unfold zlen. lia.
Qed.

Lemma v1_set_action_field oxm code n : v1_set_action oxm = Some (code, n) -> 0 <= oxm < 2 ^ 32 ->
  rd8 (be_bytes 4 oxm) 3 = Some n /\ 1 <= n <= 6 /\ code <= v1_OFPAT_ENQUEUE.
Proof.
  unfold v1_set_action. intros E Ho. repeat case_match; simplify_eq;
    repeat match goal with E : (_ =? _) = true |- _ => apply Z.eqb_eq in E; subst oxm
           | E : (_ =? _) = false |- _ => clear E end; (split; [by vm_compute|by vm_compute]).
Qed.

Lemma v1_output_bytes port maxlen : 0 <= port < 2 ^ 16 -> 0 <= maxlen < 2 ^ 16 ->
  let y := output_action (PortNumber_fromV1 port) maxlen in
  v1_bytes y = ActionType_bytes OFPAT_OUTPUT 8 ++ be_bytes 2 (u16 (PortNumber_fromV1 port)) ++ be_bytes 2 maxlen /\
  translatable y /\ elem_ok 4 2 (v1_bytes y).
Proof.
  intros Hp Hm y. destruct (output_action_head (PortNumber_fromV1 port) maxlen) as [Ht Hs]. fold y in Ht, Hs.
  assert (zlen y = 16) as Hy by apply output_action_len. assert (elem_ok 4 2 y) as He by apply output_action_elem.
  pose proof (PortNumber_fromV1_range port Hp) as Hr.
  assert (translatable y) as Htr by (split; [by rewrite Hy|rewrite Ht; discriminate]).
  split_and!; [|done|by apply translated_elem].
  destruct (translated_action y He Htr) as [(_ & _ & p & k & Ep & Ek & ->)|[(Hx & _)|(_ & Hx & _)]]; [|by rewrite Ht in Hx|tauto].
  revert Ep Ek. unfold y, output_action, ActionType_bytes. rewrite <- !app_assoc. read_layout.
  rewrite !be_be_bytes_small by done. congruence.
Qed.

(** Everything the round trip needs of such an action. *)
Lemma v1_form_ok le ipProto y : v1_form le ipProto y ->
  bytes_ok y /\ elem_ok 4 2 y /\ action_ok y /\ translatable y /\
  bytes_ok (v1_bytes y) /\ elem_ok 4 2 (v1_bytes y) /\ action_ok (v1_bytes y) /\ 8 <= zlen (v1_bytes y) /\
  norm_action le OFP_VERSION_1 ipProto (v1_bytes y) = y.
Proof.
  intros [port maxlen Hp Hm|oxm code n v Hv Ho Hl Hb Hf Hle]; clear y.
  - pose proof (PortNumber_fromV1_range port Hp) as Hr.
    destruct (action_v1_back le OFB_VLAN_VID v1_OFPAT_SET_VLAN_VID 2 [0; 0] ipProto port maxlen) as [_ Hback];
      [done|done|done|bytes|done|by right|done|done|].
    set (y := output_action (PortNumber_fromV1 port) maxlen) in *.
    destruct (output_action_head (PortNumber_fromV1 port) maxlen) as [Ht Hs]. fold y in Ht, Hs.
    assert (zlen y = 16) as Hy by apply output_action_len.
    assert (elem_ok 4 2 y) as He by apply output_action_elem.
    destruct (v1_output_bytes port maxlen Hp Hm) as (Ev & Htr & He'). fold y in Ev, Htr, He'.
    rewrite Ev in *. split_and!; try done.
    + unfold y, output_action, ActionType_bytes. rewrite !Forall_app. split_and!; try apply be_bytes_ok. by apply Forall_replicate.
    + exists OFPAT_OUTPUT, 16. done.
    + unfold ActionType_bytes. rewrite !Forall_app. split_and!; apply be_bytes_ok.
    + exists OFPAT_OUTPUT, 8. unfold ActionType_bytes. rewrite <- !app_assoc.
      split_and!; [read_layout; by rewrite be_be_bytes_small..|done|done].
  - destruct (v1_set_action_field oxm code n Hv Ho) as (H3 & Hn & Hcode).
    destruct (action_v1_back le oxm code n v ipProto 0 0 Hv Ho Hl Hb Hf Hle) as [Hback _]; [done..|].
    destruct (set_field_head oxm v) as (Ht & Hs & Hox). rewrite Z.mod_small in Hox by done.
    pose proof (set_field_elem oxm v ltac:(lia)) as He.
    assert (zlen (set_field oxm v) = 16) as Hy by (apply set_field_len; lia).
    assert (translatable (set_field oxm v)) as Htr.
    { split; [by rewrite Hy|]. intros _. split; [done|]. exists oxm. split; [done|]. by eexists. }
    destruct (translated_elem _ He Htr) as [He' _]. destruct (v1_set_action_size oxm code n Hv) as (_ & Hc & Hn' & _).
    rewrite (v1_set_field oxm code n v) in * by done. set (L := if n =? 6 then 16 else 8) in *.
    assert (8 <= L <= 16 /\ n <= L - 4) as [HL HL'] by (unfold L; destruct (n =? 6) eqn:E6; lia).
    split_and!; try done.
    + unfold set_field, ActionType_bytes. rewrite !Forall_app.
      split_and!; try apply be_bytes_ok; [done|by apply Forall_replicate].
    + apply set_field_action_ok; [lia|]. by rewrite Hl.
    + unfold ActionType_bytes. rewrite !Forall_app. split_and!; try apply be_bytes_ok; [done|by apply Forall_replicate].
    + exists code, L. unfold ActionType_bytes. rewrite <- !app_assoc.
      assert (0 <= code) by lia. unfold v1_OFPAT_ENQUEUE, OFPAT_SET_FIELD, OFPAT_EXPERIMENTER in *.
      split_and!; [read_layout; rewrite be_be_bytes_small; [done|cbn; lia]..|lia|lia].
    + rewrite !zlen_app, zlen_replicate. unfold ActionType_bytes. autorewrite with zlen. lia.
Qed.

Lemma v1_forms le ipProto ys : Forall (v1_form le ipProto) ys ->
  let xs := v1_bytes <$> ys in
  bytes_ok (mjoin ys) /\ Forall (elem_ok 4 2) ys /\ Forall action_ok ys /\ Forall translatable ys /\
  bytes_ok (mjoin xs) /\ Forall (elem_ok 4 2) xs /\ Forall action_ok xs /\ zlen (mjoin xs) <= zlen (mjoin ys) /\
  norm_action le OFP_VERSION_1 ipProto <$> xs = ys /\ (ys <> [] -> 0 < zlen (mjoin ys)).
Proof.
  induction 1 as [|y ys Hy Hys IH]; [done|]. cbv zeta in IH |- *.
  destruct (v1_form_ok le ipProto y Hy) as (B1 & B2 & B3 & B4 & B5 & B6 & B7 & B8 & B9).
  destruct IH as (C1 & C2 & C3 & C4 & C5 & C6 & C7 & C8 & C9 & _). rewrite fmap_cons.
  change (mjoin (y :: ys)) with (y ++ mjoin ys).
  change (mjoin (v1_bytes y :: (v1_bytes <$> ys))) with (v1_bytes y ++ mjoin (v1_bytes <$> ys)).
  rewrite fmap_cons, B9, C9, !Forall_app, !Forall_cons, !zlen_app. destruct (translated_elem y B2 B4) as [_ Hle].
  pose proof (zlen_nonneg (mjoin ys)). split_and!; done || lia.
Qed.

(** ** Normalising the message *)

(** [normalize] runs the handler of flow modifications and stores the new
    length. *)
Lemma normalize_flow_mod le `{UninitLaws} xid n rest rest' :
  0 <= xid < 2 ^ 32 -> n = 8 + zlen rest -> n <= 65535 -> 8 + zlen rest' <= 65535 ->
  let hdr n := Header_bytes (Hdr OFP_VERSION_1 OFPT_FLOW_MOD n xid) in
  normalizeFlowModV1 le (hdr n ++ rest) = Some (hdr n ++ rest') ->
  normalize le (hdr n ++ rest) = Some (hdr (8 + zlen rest') ++ rest').
Proof.
  intros Hx -> Hn Hn' hdr Hnorm. set (n := 8 + zlen rest) in *. pose proof (zlen_nonneg rest). pose proof (zlen_nonneg rest').
  assert (forall k, 0 <= k <= 65535 -> header_ok (Hdr OFP_VERSION_1 OFPT_FLOW_MOD k xid)) as Hok
    by (intros k Hk; unfold header_ok; cbn [hdr_version hdr_type hdr_length hdr_xid]; split_and!; done || lia).
  destruct (Header_fields _ rest (Hok n ltac:(lia))) as (Ev & Et & El & _ & _). cbn [hdr_version hdr_type hdr_length] in *.
  fold (hdr n) in Ev, Et, El.
  assert (zlen (hdr n ++ rest) = n /\ zlen (hdr n ++ rest') = 8 + zlen rest') as [Hz Hz']
    by (unfold hdr; rewrite !zlen_app, Header_bytes_len; done).
  unfold normalize, sizeof_Header. rewrite Hz, (proj2 (Z.leb_le 8 n)) by lia. rewrite Ev, Et. cbn [mbind option_bind].
  change (Header_translateType OFP_VERSION_1 OFPT_FLOW_MOD OFP_VERSION_4) with (Some OFPT_FLOW_MOD). cbn [mbind option_bind].
  change (OFPT_FLOW_MOD =? OFPT_UNSUPPORTED) with false. cbn [mbind option_bind].
  assert (b_setType (hdr n ++ rest) OFPT_FLOW_MOD = Some (hdr n ++ rest)) as ->.
  { unfold b_setType, hdr, Header_bytes. cbn [hdr_version hdr_type]. rewrite <- !app_assoc.
    rewrite (wr_skip (be_bytes 1 OFP_VERSION_1) _ _ 1) by done. change (1 - 1) with 0. by rewrite wr_head. }
  cbn [mbind option_bind]. rewrite El, Hz. cbn [mbind option_bind]. rewrite Z.eqb_refl. cbn [negb mbind option_bind].
  unfold normalize_by_type. change (OFP_VERSION_1 =? OFP_VERSION_1) with true.
  change (OFPT_FLOW_MOD =? OFPT_FEATURES_REPLY) with false. change (OFPT_FLOW_MOD =? OFPT_FLOW_MOD) with true. cbn iota.
  rewrite Hnorm. cbn [mbind option_bind]. rewrite Hz'. unfold OFP_MAX_SIZE. rewrite (proj2 (Z.ltb_ge _ _)) by lia.
  cbn [mbind option_bind]. rewrite Hz'.
  assert (b_setLength (hdr n ++ rest') (8 + zlen rest') = Some (hdr (8 + zlen rest') ++ rest')) as ->.
  { unfold b_setLength, OFP_MAX_SIZE. rewrite (proj2 (Z.leb_le _ _)), u16_small by lia. unfold hdr, Header_bytes.
    cbn [hdr_version hdr_type hdr_length hdr_xid]. rewrite <- !app_assoc. by write_layout. }
  cbn [mbind option_bind]. destruct (Header_fields _ rest' (Hok (8 + zlen rest') ltac:(lia))) as (_ & _ & El' & _).
  fold (hdr (8 + zlen rest')) in El'. rewrite El'. cbn [mbind option_bind hdr_length].
  assert (zlen (hdr (8 + zlen rest') ++ rest') = 8 + zlen rest') as -> by (unfold hdr; by rewrite zlen_app, Header_bytes_len).
  by rewrite Z.eqb_refl.
Qed.

(** ** The round trip *)

(** A list of actions as instructions. *)
Definition v1_instructions (ys : list (list Z)) : list Instruction :=
  match ys with [] => [] | _ => [IT_APPLY_ACTIONS (mjoin ys)] end.

(** What OpenFlow 1.0 keeps of the fields. *)
Definition v1_message (m : FlowMod) (h : Header) : FlowMod :=
  mkFlowMod h (fmod_cookie m) (2 ^ 64 - 1) 0 (fmod_command m) (fmod_idleTimeout m) (fmod_hardTimeout m)
    (fmod_priority m) (fmod_bufferId m) (fmod_outPort m) 0 (fmod_flags m) 0.

(** The fields behind the match, as they are written. *)
Definition v1_fields (m : FlowMod) (port : Z) : flow_mod_v1 :=
  mkFlowModV1 (be_bytes 8 (fmod_cookie m))
    (be_bytes 1 0 ++ be_bytes 1 (fmod_command m) ++ be_bytes 2 (fmod_idleTimeout m) ++
     be_bytes 2 (fmod_hardTimeout m) ++ be_bytes 2 (fmod_priority m))
    (be_bytes 4 (fmod_bufferId m)) port (be_bytes 2 (fmod_flags m)).

Lemma low_port port : 0 <= port < 2 ^ 16 -> drop 2 (be_bytes 4 (PortNumber_fromV1 port)) = be_bytes 2 port.
Proof.
  intros Hp. rewrite <- (PortNumber_v1_roundtrip port Hp) at 2. set (z := PortNumber_fromV1 port).
  change (drop 2 (be_bytes 4 z)) with (be_bytes 2 z). unfold PortNumber_toV1, u16.
  transitivity (be_bytes 2 (be (be_bytes 2 z))); [|by rewrite be_be_bytes].
  symmetry. apply be_bytes_be_len; [apply be_bytes_length|apply be_bytes_ok].
Qed.

Lemma v1_instructions_fit ys le ip : Forall (v1_form le ip) ys -> 8 + zlen (mjoin ys) < 2 ^ 16 ->
  Forall instruction_fits (v1_instructions ys) /\ applied_actions (v1_instructions ys) = mjoin ys /\
  foldl InstructionList_add [] (v1_instructions ys) =
    (if 0 <? zlen (mjoin ys) then instruction_header OFPIT_APPLY_ACTIONS (8 + zlen (mjoin ys)) ++ mjoin ys else []).
Proof.
  intros Hys Hz. destruct (v1_forms le ip ys Hys) as (B1 & B2 & B3 & _ & _ & _ & _ & _ & _ & Hne).
  destruct ys as [|y ys]; [done|]. cbn [v1_instructions applied_actions foldl].
  set (a := mjoin (y :: ys)) in *. split_and!; [|done|].
  - apply Forall_singleton. cbn [instruction_fits]. split_and!; try done. by exists (y :: ys).
  - specialize (Hne ltac:(done)). rewrite (proj2 (Z.ltb_lt _ _)) by done. cbn [InstructionList_add app].
    by rewrite u16_small by lia.
Qed.

Section V1RoundTrip.
Context {W : Type} `{HW : WritableLaws W} {B : Type} `{HB : ByteBufferLaws B}.
Context (empty : B) (Hempty : bb_rep empty []).
Context (le : bool) `{HU : UninitLaws}.

(** The actions at the end of the message. *)
Lemma send_actions (R : Type) (r : W -> R) actions out (ch : W) :
  ActionRange_write OFP_VERSION_1 actions = Some out -> (br_size actions = 0 -> out = []) ->
  exists ch', (ch ← (if 0 <? br_size actions then o ← ActionRange_write OFP_VERSION_1 actions; Some (w_write o ch)
                     else Some ch); Some (r (w_flush ch))) = Some (r ch') /\
    w_sent ch' = w_sent ch ++ out.
Proof.
  intros Hw Ho. pose proof (zlen_nonneg (br_data actions)). unfold br_size in *.
  destruct (Z.ltb_spec 0 (zlen (br_data actions))).
  - rewrite Hw. eexists. split; [reflexivity|]. by rewrite w_flush_sent, w_write_sent.
  - eexists. split; [reflexivity|]. rewrite Ho, app_nil_r by lia. apply w_flush_sent.
Qed.

(** What [sendOriginal] writes. *)
Lemma sendOriginal_bytes local b o ys port (ch : W) :
  w_version ch = OFP_VERSION_1 -> FlowMod_ok (fmb_msg b) -> local mod 8 = 0 ->
  OriginalMatch_of_range (fmb_match b) = Some o ->
  Forall (v1_form le (om_nw_proto o)) ys -> fmb_instructions b = foldl InstructionList_add [] (v1_instructions ys) ->
  fmod_outPort (fmb_msg b) = PortNumber_fromV1 port -> 0 <= port < 2 ^ 16 ->
  144 + zlen (mjoin ys) <= 65528 ->
  let xid := fst (w_nextXid ch) in let out := mjoin (v1_bytes <$> ys) in
  let m := flow_mod_old (Header_bytes (Hdr OFP_VERSION_1 OFPT_FLOW_MOD (72 + zlen out) xid))
             (OriginalMatch_bytes o) (v1_fields (fmb_msg b) port) out in
  exists b' ch', FlowModBuilder_send local b ch = Some (xid, b', ch') /\ w_sent ch' = w_sent ch ++ m.
Proof.
  intros Hv Hm Hloc Eo Hys Ei Hport Hp Hmax xid out m.
  destruct (v1_forms _ _ _ Hys) as (B1 & B2 & B3 & B4 & _ & _ & _ & Hle & _ & Hne). fold out in Hle.
  destruct (v1_instructions_fit ys _ _ Hys ltac:(lia)) as (Hfit & Happ & _).
  destruct (built_list_ok _ Hfit) as (Hib & _ & cs & Ecs & Hcs & Hcok & Hfirst). rewrite <- Ei in Hib, Ecs.
  rewrite Happ in Hfirst. pose proof (zlen_nonneg out). pose proof (zlen_nonneg (mjoin ys)).
  rewrite Ecs in Hib. destruct (outputActions_first local cs Hloc Hcs Hcok Hib) as (a & Ea & Haa & _).
  rewrite Hfirst in Ea. rewrite <- Ecs in Ea.
  destruct (actions_v1_written a ys (Validation_make None None)) as [Hw Hws]; try done; [|lia|].
  { destruct (actions_valid_iff (mkRange a (mjoin ys)) (Validation_make None None) B1) as (r & c & -> & Hiff & Hc).
    assert (r = true) as -> by (apply Hiff; split; [done|by exists ys]). by rewrite Hc. }
  destruct (Hws B4) as [Hsz _]. fold out in Hw, Hsz.
  destruct (builder_header b ch (72 + zlen out) Hm) as [Eh _]; [by rewrite Hv|unfold OFP_MAX_SIZE; lia|]. rewrite Hv in Eh.
  fold xid in Eh. set (b1 := with_header b _) in Eh. set (range := mkRange a (mjoin ys)) in *.
  unfold FlowModBuilder_send. rewrite Hv. change (OFP_VERSION_1 <=? OFP_VERSION_1) with true. cbn iota.
  unfold sendOriginal. rewrite Hv. change (OFP_VERSION_1 <=? OFP_VERSION_1) with true. cbn iota. rewrite Eo.
  cbn [mbind option_bind]. rewrite Ea. cbn [mbind option_bind].
  assert ((if 0 <? br_size range then n ← ActionRange_writeSize OFP_VERSION_1 range; Some (u16 (72 + n)) else Some 72)
    = Some (72 + zlen out)) as ->.
  { unfold br_size, range at 1. cbn [br_data]. destruct (Z.ltb_spec 0 (zlen (mjoin ys)));
      [rewrite Hsz; cbn [mbind option_bind]; by rewrite u16_small by lia|do 2 f_equal; lia]. }
  cbn [mbind option_bind]. rewrite Eh. cbn [mbind option_bind]. set (b2 := if negb _ then _ else b1).
  assert (fmb_msg b2 = mkFlowMod (Hdr OFP_VERSION_1 OFPT_FLOW_MOD (72 + zlen out) xid) (fmod_cookie (fmb_msg b))
    (fmod_cookieMask (fmb_msg b)) 0 (fmod_command (fmb_msg b)) (fmod_idleTimeout (fmb_msg b)) (fmod_hardTimeout (fmb_msg b))
    (fmod_priority (fmb_msg b)) (fmod_bufferId (fmb_msg b)) (fmod_outPort (fmb_msg b)) (fmod_outGroup (fmb_msg b))
    (fmod_flags (fmb_msg b)) (fmod_importance (fmb_msg b))) as Eb2.
  { unfold b2. destruct (Z.eqb_spec (fmod_tableId (fmb_msg b1)) 0) as [E0|]; [|done]. cbn [negb].
    unfold b1, with_header in *. destruct (fmb_msg b). cbn in *. by subst. }
  rewrite Eb2, !w_write_version, w_xid_version, Hv.
  edestruct (send_actions _ (fun ch => (xid, b2, ch)) range out) as (ch' & -> & Hs); [done| |].
  { unfold br_size, range. cbn [br_data]. intros Hz. destruct ys; [done|]. specialize (Hne ltac:(done)). lia. }
  exists b2, ch'. split; [done|]. rewrite Hs, !w_write_sent, w_xid_sent, <- !app_assoc. f_equal.
  unfold m, flow_mod_old, v1_fields. cbn [fm_cookie fm_command fm_buffer_id fm_out_port fm_flags fmod_header fmod_cookie
    fmod_tableId fmod_command fmod_idleTimeout fmod_hardTimeout fmod_priority fmod_bufferId fmod_outPort fmod_flags].
  rewrite <- (low_port port Hp), <- Hport. by rewrite <- !app_assoc.
Qed.

(** The normalised message in the layout that [FlowMod] reads. *)
Lemma new_layout s m port xid ys :
  fmod_outPort m = PortNumber_fromV1 port -> zlen (StandardMatch_bytes s) = 88 ->
  8 + zlen (mjoin ys) < 2 ^ 16 -> Forall (v1_form le (sm_nw_proto s)) ys ->
  let ins := foldl InstructionList_add [] (v1_instructions ys) in
  let rest n := FlowMod_bytes (v1_message m (Hdr OFP_VERSION_1 OFPT_FLOW_MOD n xid)) ++ StandardMatch_bytes s ++ ins in
  exists tail, 8 + zlen tail = 136 + zlen ins /\
    (forall n, flow_mod_new (Header_bytes (Hdr OFP_VERSION_1 OFPT_FLOW_MOD n xid)) s (v1_fields m port) (mjoin ys) =
       Header_bytes (Hdr OFP_VERSION_1 OFPT_FLOW_MOD n xid) ++ tail) /\
    forall n, rest n = Header_bytes (Hdr OFP_VERSION_1 OFPT_FLOW_MOD n xid) ++ tail.
Proof.
  intros Hport Hs Hz Hys ins rest. destruct (v1_instructions_fit ys _ _ Hys Hz) as (_ & _ & Ei). fold ins in Ei.
  eexists. split_and!; [|intros n; reflexivity|].
  - rewrite <- Ei. unfold v1_fields. cbn [fm_cookie fm_command fm_buffer_id fm_out_port fm_flags]. autorewrite with zlen.
    rewrite Hs. cbn [Z.of_nat Pos.of_succ_nat Pos.succ]. lia.
  - intros n. unfold rest, FlowMod_bytes, v1_message, v1_fields. cbn [fmod_header fmod_cookie fmod_cookieMask
      fmod_tableId fmod_command fmod_idleTimeout fmod_hardTimeout fmod_priority fmod_bufferId fmod_outPort fmod_outGroup
      fmod_flags fmod_importance fm_cookie fm_command fm_buffer_id fm_out_port fm_flags].
    rewrite <- Ei, Hport, <- !app_assoc. reflexivity.
Qed.

(** The receiver's normalisation of what was sent. *)
Lemma v1_normalized m o s ys port xid tail :
  orig_canonical o = true -> StandardMatch_of_original o = Some s -> Forall (v1_form le (sm_nw_proto s)) ys ->
  0 <= port < 2 ^ 16 -> 0 <= xid < 2 ^ 32 -> 144 + zlen (mjoin ys) <= 65528 -> 8 + zlen tail <= 65528 ->
  let out := mjoin (v1_bytes <$> ys) in let hdr n := Header_bytes (Hdr OFP_VERSION_1 OFPT_FLOW_MOD n xid) in
  (forall n, flow_mod_new (hdr n) s (v1_fields m port) (mjoin ys) = hdr n ++ tail) ->
  let msg := flow_mod_old (hdr (72 + zlen out)) (OriginalMatch_bytes o) (v1_fields m port) out in
  zlen msg = 72 + zlen out /\ normalize le msg = Some (hdr (8 + zlen tail) ++ tail).
Proof.
  intros Ho Es Hys Hp Hx Hmax Ht out hdr Enew msg.
  destruct (original_match_parts o Ho) as (Hoz & Hob & Hoat & _).
  destruct (v1_forms _ _ _ Hys) as (_ & _ & _ & _ & B5 & B6 & B7 & Hle & Hnorm & _). fold out in Hle, B5.
  pose proof (zlen_nonneg out). assert (flow_mod_shape (v1_fields m port)) as Hsh by (unfold flow_mod_shape; split_and!; done || (cbn; lia)).
  assert (zlen (hdr (72 + zlen out)) = 8) as Hh by apply Header_bytes_len.
  assert (zlen msg = 72 + zlen out) as Hz.
  { unfold msg, flow_mod_old. rewrite !zlen_app, Hoz, Hh. destruct Hsh as (-> & -> & -> & _ & ->).
    change (zlen (be_bytes 2 _)) with 2. lia. }
  split; [done|].
  destruct (Header_fields (Hdr OFP_VERSION_1 OFPT_FLOW_MOD (72 + zlen out) xid) []) as (Ev & _ & El & _).
  { unfold header_ok. cbn [hdr_version hdr_type hdr_length hdr_xid]. split_and!; done || lia. }
  rewrite app_nil_r in Ev, El. fold (hdr (72 + zlen out)) in Ev, El.
  pose proof (flow_mod_rewritten le (hdr (72 + zlen out)) (OriginalMatch_bytes o) (v1_fields m port) o s (v1_bytes <$> ys)) as Hrw.
  cbv zeta in Hrw. fold out in Hrw. rewrite Hnorm, Enew in Hrw.
  unfold msg, flow_mod_old. apply (normalize_flow_mod le xid); [done| |lia|lia|].
  - unfold msg, flow_mod_old in Hz. rewrite zlen_app, Hh in Hz. lia.
  - apply Hrw; try done; lia.
Qed.

(** C9. A flow modification that OpenFlow 1.0 can say, sent to a peer of OpenFlow
    1.0 and normalised by the receiver: the message is accepted, and a builder
    made from it has the match and the actions of the builder that was sent,
    and every field that OpenFlow 1.0 has. What OpenFlow 1.0 can say: the match
    is the image of a canonical original match; the instructions are none, or
    one apply-actions list of outputs to 16-bit ports and of set-fields that
    have an action of their own and fit the IP protocol of the match
    ([v1_form]); the out port has 16 bits; the message fits into 65528 bytes.
    On a little-endian host the set-fields of TCP and UDP ports are excepted:
    the receiver swaps their bytes. *)
Theorem flow_mod_v1_roundtrip local addr b o s ys port (ch : W) info error :
  w_version ch = OFP_VERSION_1 -> FlowMod_ok (fmb_msg b) -> local mod 8 = 0 -> addr mod 8 = 0 ->
  orig_canonical o = true -> StandardMatch_of_original o = Some s -> fmb_match b = encode (std_items s) ->
  Forall (v1_form le (om_nw_proto o)) ys -> fmb_instructions b = foldl InstructionList_add [] (v1_instructions ys) ->
  fmod_outPort (fmb_msg b) = PortNumber_fromV1 port -> 0 <= port < 2 ^ 16 ->
  144 + zlen (mjoin ys) <= 65528 ->
  let xid := fst (w_nextXid ch) in
  exists b' ch' m m' c, FlowModBuilder_send local b ch = Some (xid, b', ch') /\ w_sent ch' = w_sent ch ++ m /\
    zlen m = 72 + zlen (mjoin (v1_bytes <$> ys)) /\
    normalize le m = Some m' /\ castMessage FlowMod_class addr m' info error = Some (true, c) /\
    FlowModBuilder_of empty addr m' =
      Some (mkFlowModBuilder (v1_message (fmb_msg b) (Hdr OFP_VERSION_1 OFPT_FLOW_MOD (zlen m') xid))
              (fmb_match b) (fmb_instructions b)).
Proof.
  intros Hv Hm Hloc Ha Ho Es El Hys Ei Hport Hp Hmax xid.
  destruct (original_match_parts o Ho) as (Hoz & Hob & Hoat & s' & Es' & Hr & Hst & Hsl & Hproto & Hback).
  rewrite Es in Es'. injection Es' as <-. pose proof (w_xid_range ch) as Hx. fold xid in Hx.
  destruct (v1_forms _ _ _ Hys) as (B1 & _ & _ & _ & B5 & B6 & B7 & Hle & Hnorm & _).
  destruct (v1_instructions_fit ys _ _ Hys ltac:(lia)) as (Hfit & _ & Ei'). rewrite <- Ei in Ei'.
  destruct (standard_at_bytes s [] Hr) as (_ & Hz & Hsb & R0 & R2). rewrite Hst in R0. rewrite Hsl in R2.
  destruct (standard_match_ok empty Hempty s (fmb_instructions b) OFP_VERSION_1 Hr Hst Hsl ltac:(done)) as (Hit & Hmok & mb & Emb & Hmd).
  pose proof (Hback Hit) as Eo. rewrite <- El in Eo.
  destruct (sendOriginal_bytes local b o ys port ch Hv Hm Hloc Eo Hys Ei Hport Hp Hmax) as (b' & ch' & Esend & Esent).
  fold xid in Esend, Esent. set (out := mjoin (v1_bytes <$> ys)) in *. set (hdr n := Header_bytes (Hdr OFP_VERSION_1 OFPT_FLOW_MOD n xid)) in *.
  rewrite <- Hproto in Hys. destruct (new_layout s (fmb_msg b) port xid ys Hport Hz ltac:(lia) Hys) as (tail & Htail & Enew & Erest).
  rewrite <- Ei in Htail, Erest. pose proof (zlen_nonneg out). pose proof (zlen_nonneg (mjoin ys)).
  assert (136 + zlen (fmb_instructions b) <= 65528) as Hn'.
  { rewrite Ei'. destruct (Z.ltb_spec 0 (zlen (mjoin ys))); [rewrite zlen_app; change (zlen (instruction_header _ _)) with 8; lia|done]. }
  destruct (built_list_ok _ Hfit) as (Hib & _ & cs & Ecs & Hcs & Hcok & _). rewrite <- Ei in Hib, Ecs.
  set (n := 136 + zlen (fmb_instructions b)) in *. set (msg := v1_message (fmb_msg b) (Hdr OFP_VERSION_1 OFPT_FLOW_MOD n xid)).
  assert (0 <= n) by (unfold n; pose proof (zlen_nonneg (fmb_instructions b)); lia).
  assert (FlowMod_ok msg) as Hmsg.
  { destruct Hm as (_ & ? & ? & ? & ? & ? & ? & ? & ? & ? & ? & ? & ?). unfold FlowMod_ok, header_ok, msg, v1_message.
    cbn [fmod_header fmod_cookie fmod_cookieMask fmod_tableId fmod_command fmod_idleTimeout fmod_hardTimeout
      fmod_priority fmod_bufferId fmod_outPort fmod_outGroup fmod_flags fmod_importance hdr_version hdr_type hdr_length hdr_xid].
    split_and!; done || lia. }
  set (m' := FlowMod_bytes msg ++ StandardMatch_bytes s ++ fmb_instructions b).
  assert (zlen m' = n) as Hm'n by (unfold m', n; rewrite !zlen_app, FlowMod_bytes_len; lia).
  destruct (layout_accepted msg (StandardMatch_bytes s) (fmb_instructions b) 88 Hmsg (eq_sym Hm'n) R2 Hz addr info error)
    as (c & Hc); try done; [fold m'; lia|by rewrite Hz|by rewrite R0|by exists cs|].
  destruct (v1_normalized (fmb_msg b) o s ys port xid tail Ho Es Hys Hp Hx Hmax ltac:(lia) Enew) as [Hzm Hnm].
  eexists b', ch', _, m', c. split_and!; [exact Esend|exact Esent|exact Hzm| |exact Hc|].
  - etransitivity; [exact Hnm|]. unfold m', msg. rewrite (Erest n). by replace (8 + zlen tail) with n by lia.
  - rewrite Hm'n. unfold m'.
    rewrite (layout_builder msg (StandardMatch_bytes s) (fmb_instructions b) 88 Hmsg (eq_sym Hm'n) R2 Hz empty addr mb Emb).
    by rewrite Hmd, <- El.
Qed.
End V1RoundTrip.

(** ** The prepared message *)

(** The flow that [sendFastVersion1] installs. *)
Definition fast_builder (inPort port bufferId : Z) (dst src : list Z) : FlowModBuilder :=
  mkFlowModBuilder (mkFlowMod (Hdr 0 OFPT_FLOW_MOD 0 0) 0 0 0 0 10 30 0x8000 bufferId 0 0 0 0)
    (encode [Item OFB_IN_PORT (be_bytes 4 inPort); Item OFB_ETH_SRC src; Item OFB_ETH_DST dst])
    (foldl InstructionList_add [] (v1_instructions [output_action (PortNumber_fromV1 port) 0])).

Lemma fast_match inPort dst src :
  0 <= inPort < 2 ^ 32 -> zlen src = 6 -> zlen dst = 6 -> bytes_ok src -> bytes_ok dst ->
  OriginalMatch_of_range (encode [Item OFB_IN_PORT (be_bytes 4 inPort); Item OFB_ETH_SRC src; Item OFB_ETH_DST dst]) =
  Some (mkOriginalMatch 0x3820F2 (u16 inPort) src dst 0 0 0 0 0 (zeros 4) (zeros 4) 0 0).
Proof.
  intros Hi Hs Hd Bs Bd. rewrite original_range.
  2: { rewrite !Forall_cons. split_and!; try done; (split; [done|]); cbn [item_body item_type]; (split; [done|]); try done.
       apply be_bytes_ok. }
  cbn [fold_items]. unfold on_item, original_item. cbn [item_type item_body].
  change (OFB_IN_PORT =? OFB_IN_PORT) with true. change (OFB_ETH_SRC =? OFB_IN_PORT) with false.
  change (OFB_ETH_SRC =? OFB_ETH_SRC) with true. change (OFB_ETH_DST =? OFB_IN_PORT) with false.
  change (OFB_ETH_DST =? OFB_ETH_SRC) with false. change (OFB_ETH_DST =? OFB_ETH_DST) with true. cbn iota.
  rewrite !slice_all by done. change (be <$> Some (be_bytes 4 inPort)) with (Some (be (be_bytes 4 inPort))).
  rewrite be_be_bytes_small by done. reflexivity.
Qed.

(** C33. [sendFastVersion1] writes what the builder writes for the same flow: the
    prepared bytes with six fields filled in are the general message. *)
Theorem sendFastVersion1_reference {W} `{WritableLaws W} local inPort port bufferId dst src (ch : W) :
  w_version ch = OFP_VERSION_1 -> local mod 8 = 0 ->
  0 <= inPort < 2 ^ 32 -> 0 <= port < 2 ^ 16 -> 0 <= bufferId < 2 ^ 32 ->
  zlen src = 6 -> zlen dst = 6 -> bytes_ok src -> bytes_ok dst ->
  exists xid b' ch1 ch2,
    sendFastVersion1 inPort (PortNumber_fromV1 port) bufferId dst src ch = Some (xid, ch1) /\
    FlowModBuilder_send local (fast_builder inPort port bufferId dst src) ch = Some (xid, b', ch2) /\
    w_sent ch1 = w_sent ch2.
Proof.
  intros Hv Hloc Hi Hp Hb Hs Hd Bs Bd. set (b := fast_builder inPort port bufferId dst src).
  pose proof (w_xid_range ch) as Hx.
  destruct (sendOriginal_bytes false local b (mkOriginalMatch 0x3820F2 (u16 inPort) src dst 0 0 0 0 0 (zeros 4) (zeros 4) 0 0)
    [output_action (PortNumber_fromV1 port) 0] 0 ch) as (b' & ch2 & E & Hsent); try done.
  - by apply fast_match.
  - apply Forall_singleton. by apply v1_output.
  - unfold sendFastVersion1. destruct (w_nextXid ch) as [xid ch1] eqn:Ex. cbn [fst] in *.
    pose proof (w_xid_sent ch) as Hxs. rewrite Ex in Hxs. cbn [snd] in Hxs.
    change fast_layout with (be_bytes 4 0x010E0050 ++ be_bytes 4 1 ++ be_bytes 4 0x3820F2 ++ be_bytes 2 0xA2A2 ++
      be_bytes 6 0xCDCDCDCDCDCD ++ be_bytes 6 0xABABABABABAB ++ be_bytes 38 0x0A001E8000 ++ be_bytes 4 0x34343434 ++
      be_bytes 8 8 ++ be_bytes 2 0xB3B3 ++ be_bytes 2 0).
    assert (Z.of_nat 6 = zlen src /\ Z.of_nat 6 = zlen dst) as [Hs' Hd'] by done.
    repeat (progress write_layout). eexists xid, b', _, ch2. split_and!; [reflexivity|exact E|].
    rewrite w_flush_sent, w_write_sent, Hxs, Hsent. f_equal.
    destruct (v1_output_bytes port 0 Hp ltac:(done)) as (Ev & _). change (v1_bytes <$> [?x]) with [v1_bytes x]. rewrite Ev.
    fold (PortNumber_toV1 (PortNumber_fromV1 port)). rewrite PortNumber_v1_roundtrip by done.
    unfold flow_mod_old, OriginalMatch_bytes. cbn [om_dl_src om_dl_dst]. rewrite <- !app_assoc. reflexivity.
Qed.

(** ** Witnesses *)

Definition example_v1_forms : list (list Z) := [set_field OFB_VLAN_VID [0; 5]; output_action (PortNumber_fromV1 0xfffd) 128].

Definition example_v1_builder : FlowModBuilder :=
  mkFlowModBuilder example_msg
    (encode (std_items (default StandardMatch_default (StandardMatch_of_original orig_example))))
    (foldl InstructionList_add [] (v1_instructions example_v1_forms)).

Lemma flow_mod_v1_roundtrip_witness :
  let b := example_v1_builder in let ch := MemoryChannel_make 1 in
  exists b' ch' m m' c, FlowModBuilder_send 0 b ch = Some (fst (w_nextXid ch), b', ch') /\ w_sent ch' = w_sent ch ++ m /\
    zlen m = 72 + zlen (mjoin (v1_bytes <$> example_v1_forms)) /\
    normalize true m = Some m' /\ castMessage FlowMod_class 4096 m' None None = Some (true, c) /\
    @FlowModBuilder_of _ (SmallBuffer_ops heap_zero) sb_fresh 4096 m' =
      Some (mkFlowModBuilder (v1_message (fmb_msg b) (Hdr OFP_VERSION_1 OFPT_FLOW_MOD (zlen m') (fst (w_nextXid ch))))
              (fmb_match b) (fmb_instructions b)).
Proof.
  apply (@flow_mod_v1_roundtrip MemoryChannel _ _ _ _ (SmallBuffer_laws heap_zero) sb_fresh sb_fresh_represents true _ _
    0 4096 example_v1_builder orig_example (default StandardMatch_default (StandardMatch_of_original orig_example))
    example_v1_forms 0xffff (MemoryChannel_make 1) None None).
  - done.
  - apply example_msg_ok.
  - done.
  - done.
  - by vm_compute.
  - by vm_compute.
  - done.
  - unfold example_v1_forms. rewrite !Forall_cons. split_and!; [| |done].
    + eapply v1_set; [reflexivity|by vm_compute|done|bytes|by vm_compute|by right].
    + by apply v1_output.
  - done.
  - by vm_compute.
  - done.
  - by vm_compute.
Defined.

Lemma sendFastVersion1_witness :
  exists xid b' ch1 ch2,
    sendFastVersion1 3 (PortNumber_fromV1 4) 0xffffffff [0; 0; 0; 0; 0; 1] [0; 0; 0; 0; 0; 2] (MemoryChannel_make 1) = Some (xid, ch1) /\
    FlowModBuilder_send 0 (fast_builder 3 4 0xffffffff [0; 0; 0; 0; 0; 1] [0; 0; 0; 0; 0; 2]) (MemoryChannel_make 1) = Some (xid, b', ch2) /\
    w_sent ch1 = w_sent ch2.
Proof.
  apply (sendFastVersion1_reference 0 3 4 0xffffffff [0; 0; 0; 0; 0; 1] [0; 0; 0; 0; 0; 2] (MemoryChannel_make 1)); done || bytes.
Defined.
