(* ===== verification/Packet.v ===== *)
(** * Packet headers and the Internet checksum (include/ofp/pkt.h,
    src/ofp/pkt.cpp)

    The headers are read in place, at the offsets of their fields; this file
    has their sizes, alignments and small helpers, [Castable::cast], and the
    checksum. The checksum works on host integers loaded from memory at
    aligned addresses, so it depends on the byte order of the host and on the
    addresses of its inputs; the main theorem shows that its result does not. *)

From S2P Require Import Prelude.
From S2P Require Import ByteOrder.
From S2P Require Import Constants.
From S2P Require Import ProtocolRange.

(** ** include/ofp/pkt.h *)

Definition kIPv4Version : Z := 4.
Definition kIPv6Version : Z := 6.

(** [Castable::cast] for a structure of the given size and alignment: whether
    it is there. *)
Definition pkt_cast (size align addr : Z) (data : list Z) : option bool :=
  assert! IsPtrAligned addr align;; Some (size <=? zlen data).

Definition sizeof_Ethernet : Z := 14.
Definition sizeof_VlanHdr : Z := 4.
Definition sizeof_Arp : Z := 28.
Definition sizeof_IPv4Hdr : Z := 20.
Definition sizeof_IPv6Hdr : Z := 40.
Definition sizeof_IPv6ExtHdr : Z := 8.
Definition sizeof_ICMPHdr : Z := 4.
Definition sizeof_TCPHdr : Z := 20.
Definition sizeof_UDPHdr : Z := 8.

Definition OFP_ARP_PREFIX : list Z := [0x00; 0x01; 0x08; 0x00; 0x06; 0x04].

Definition IPv4_MoreFragMask : Z := 0x2000.
Definition IPv4_FragOffsetMask : Z := 0x1FFF.

Definition nxmFragmentType (frag : Z) : Z :=
  let flags := Z.land frag (Z.lor IPv4_MoreFragMask IPv4_FragOffsetMask) in
  if flags =? IPv4_MoreFragMask then NXM_FRAG_TYPE_ANY
  else if negb (flags =? 0) then Z.lor NXM_FRAG_TYPE_ANY NXM_FRAG_TYPE_LATER
  else NXM_FRAG_TYPE_NONE.

Definition IPv6Ext_Hop : Z := 0.
Definition IPv6Ext_Router : Z := 43.
Definition IPv6Ext_Fragment : Z := 44.
Definition IPv6Ext_ESP : Z := 50.
Definition IPv6Ext_Auth : Z := 51.
Definition IPv6Ext_NoNextHeader : Z := 59.
Definition IPv6Ext_Dest : Z := 60.
Definition IPv6Ext_Mobility : Z := 135.
Definition IPv6Ext_HostIdentity : Z := 139.
Definition IPv6Ext_Shim6 : Z := 140.
Definition IPv6Ext_Experimental253 : Z := 253.
Definition IPv6Ext_Experimental254 : Z := 254.

Definition IPv6NextHeaderIsExtension (nextHeader : Z) : bool :=
  existsb (Z.eqb nextHeader)
    [IPv6Ext_Hop; IPv6Ext_Router; IPv6Ext_Fragment; IPv6Ext_ESP; IPv6Ext_Auth; IPv6Ext_Dest;
     IPv6Ext_Mobility; IPv6Ext_HostIdentity; IPv6Ext_Shim6; IPv6Ext_Experimental253;
     IPv6Ext_Experimental254].

(** [LLDPTlv]: the two bytes [taglen_]. The constructor ors [length & 0x0100]
    into a value that is then narrowed to eight bits. *)
Definition LLDPTlv_make (type length : Z) : option (list Z) :=
  assert! (length <? 512);;
  Some [u8 (Z.lor (Z.shiftl type 1) (Z.land length 0x0100)); Z.land length 0x00FF].
Definition LLDPTlv_type (t0 : Z) : Z := Z.shiftr t0 1.
Definition LLDPTlv_length (t0 t1 : Z) : Z := Z.lor (Z.shiftl (Z.land t0 0x01) 8) t1.

Definition LLDP_END : Z := 0.
Definition LLDP_CHASSIS_ID : Z := 1.
Definition LLDP_PORT_ID : Z := 2.
Definition LLDP_TTL : Z := 3.
Definition LLDP_PORT_DESCR : Z := 4.
Definition LLDP_SYS_NAME : Z := 5.
Definition LLDP_ORG_SPECIFIC : Z := 127.

(** ** src/ofp/pkt.cpp *)

Definition fold (n : Z) : Z :=
  let n := u32 (Z.land n 0xffff + Z.shiftr n 16) in
  let n := u32 (n + Z.shiftr n 16) in
  u16 n.

(** The byte [b] at one of the two positions of a host integer in memory. *)
Definition to16 (le : bool) (b offset : Z) : option Z :=
  assert! (offset <=? 1);;
  val ← wr (host_store le W2 0) offset [b]; Some (host_load le val).

(** The [while] loop of [sum1c]: the sum, and the zero or one bytes left. *)
Fixpoint sum_words (le : bool) (sum : Z) (data : list Z) : Z * list Z :=
  match data with
  | a :: b :: rest => sum_words le (u32 (sum + host_load le [a; b])) rest
  | _ => (sum, data)
  end.

(** The first byte at an odd address: the sum, the bytes left and the
    parity. *)
Definition sum_start (le : bool) (d : ByteRange) (odd : bool) : option (Z * list Z * bool) :=
  match br_data d with
  | b :: rest =>
    if negb (IsPtrAligned (br_addr d) 2) then s ← to16 le b 1; Some (s, rest, negb odd)
    else Some (0, br_data d, odd)
  | [] => Some (0, [], odd)
  end.

Definition sum1c (le : bool) (accum : Z) (d : ByteRange) (odd : bool) : option Z :=
  assert! (br_size d <=? 2 * 65537);;
  '(sum, data, odd) ← sum_start le d odd;
  let '(sum, rest) := sum_words le sum data in
  sum ← (match rest with b :: _ => s ← to16 le b 0; Some (u32 (sum + s)) | [] => Some sum end);
  let result := fold sum in
  let result := if (odd : bool) then SwapByteOrder W2 result else result in
  Some (if accum =? 0 then result else fold (accum + result)).

(** [Big16(~sum, true)]: the host integer of the object. *)
Definition Checksum1 (le : bool) (d1 : ByteRange) : option Z :=
  s ← sum1c le 0 d1 false; Some (Big_make le W2 (u16 (Z.lnot s)) true).

Definition Checksum2 (le : bool) (d1 d2 : ByteRange) : option Z :=
  s ← sum1c le 0 d1 false;
  s ← sum1c le s d2 (negb (br_size d1 mod 2 =? 0));
  Some (Big_make le W2 (u16 (Z.lnot s)) true).

Definition Checksum3 (le : bool) (d1 d2 d3 : ByteRange) : option Z :=
  let d12size := br_size d1 + br_size d2 in
  s ← sum1c le 0 d1 false;
  s ← sum1c le s d2 (negb (br_size d1 mod 2 =? 0));
  s ← sum1c le s d3 (negb (d12size mod 2 =? 0));
  Some (Big_make le W2 (u16 (Z.lnot s)) true).

(** ** Reference: RFC 1071 *)

(** One's complement addition of 16-bit words. *)
Definition add1c (a b : Z) : Z := if a + b <? 2 ^ 16 then a + b else a + b - 65535.

(** The big-endian 16-bit words of the data, a last single byte padded with
    a zero byte. *)
Fixpoint words16 (data : list Z) : list Z :=
  match data with
  | a :: b :: rest => be [a; b] :: words16 rest
  | [a] => [be [a; 0]]
  | [] => []
  end.

Definition inet_sum (data : list Z) : Z := foldl add1c 0 (words16 data).
Definition inet_checksum (data : list Z) : Z := 65535 - inet_sum data.

(** ** One's complement sums

    [sums v n]: [v] is the 16-bit one's complement representation of the
    natural number [n]: congruent modulo 65535, and zero only for zero. *)
Definition sums (v n : Z) : Prop :=
  0 <= v <= 65535 /\ 0 <= n /\ (n - v) mod 65535 = 0 /\ (v = 0 <-> n = 0).

Lemma sums_fun v v' n : sums v n -> sums v' n -> v = v'.
Proof.
  intros (? & ? & Ha & ?) (? & _ & Hb & ?).
  apply Z.mod_divide in Ha as [x ?], Hb as [y ?]; [|lia..]. lia.
Qed.

Lemma mod_witness n v k : n = v + k * 65535 -> (n - v) mod 65535 = 0.
Proof. intros ->. replace (v + k * 65535 - v) with (k * 65535) by lia. by apply Z.mod_mul. Qed.

Lemma sums_self n : 0 <= n <= 65535 -> sums n n.
Proof. intros. split_and!; [lia..| |lia]. by rewrite Z.sub_diag. Qed.

Lemma fold_sums n : 0 <= n < 2 ^ 32 -> sums (fold n) n.
Proof.
  intros Hn. unfold fold. rewrite (land_ones_mod _ 16), !Z.shiftr_div_pow2 by (lia || done).
  pose proof (Z.div_mod n (2 ^ 16)). pose proof (Z.mod_pos_bound n (2 ^ 16)).
  set (h := n / 2 ^ 16) in *. set (l := n mod 2 ^ 16) in *.
  rewrite (u32_small (l + h)) by lia.
  pose proof (Z.div_mod (l + h) (2 ^ 16)). pose proof (Z.mod_pos_bound (l + h) (2 ^ 16)).
  set (c := (l + h) / 2 ^ 16) in *. rewrite u32_small by lia.
  replace (u16 (l + h + c)) with (l + h - 65535 * c)
    by (apply (Z.mod_unique_pos _ _ c); lia).
  split_and!; [lia..|apply (mod_witness _ _ (h + c)); lia|lia].
Qed.

Lemma sums_cong v n m :
  sums v n -> 0 <= m -> (m - n) mod 65535 = 0 -> (n = 0 <-> m = 0) -> sums v m.
Proof.
  intros (? & ? & Hd & ?) Hm He Hz. split_and!; [lia..| |lia].
  replace (m - v) with ((m - n) + (n - v)) by lia. by rewrite Z.add_mod, He, Hd by lia.
Qed.

Lemma sums_fold a b n m :
  sums a n -> sums b m -> sums (fold (a + b)) (n + m).
Proof.
  intros (? & ? & Ha & ?) (? & ? & Hb & ?).
  eapply sums_cong; [apply fold_sums; lia|lia| |lia].
  replace (n + m - (a + b)) with ((n - a) + (m - b)) by lia. by rewrite Z.add_mod, Ha, Hb by lia.
Qed.

Lemma sums_add1c a b n m :
  sums a n -> sums b m -> sums (add1c a b) (n + m).
Proof.
  intros (? & ? & Ha & ?) (? & ? & Hb & ?).
  apply Z.mod_divide in Ha as [x ?], Hb as [y ?]; [|lia..].
  unfold add1c. destruct (Z.ltb_spec (a + b) (2 ^ 16)).
  - split_and!; [lia..|apply (mod_witness _ _ (x + y)); lia|lia].
  - split_and!; [lia..|apply (mod_witness _ _ (x + y + 1)); lia|lia].
Qed.

(** ** The weight of each byte

    The bytes of the data count 256 and 1 in turn; [low] says that the first
    one counts 1. *)
Fixpoint weight (low : bool) (data : list Z) : Z :=
  match data with
  | [] => 0
  | b :: rest => (if low then b else 256 * b) + weight (negb low) rest
  end.

Lemma weight_nonneg low data : bytes_ok data -> 0 <= weight low data.
Proof.
  intros Hb. revert low. induction Hb as [|b rest Hb _ IH]; intros low; simpl; [lia|].
  specialize (IH (negb low)). unfold is_byte in Hb. destruct low; lia.
Qed.

Lemma weight_bound low data :
  bytes_ok data ->
  2 * weight low data <=
  65535 * zlen data + (if Z.odd (zlen data) then if low then - 65025 else 65025 else 0).
Proof.
  intros Hb. revert low. induction Hb as [|b rest Hb _ IH]; intros low; [done|].
  cbn [weight]. rewrite zlen_cons, Z.add_1_l, Z.odd_succ, <- Z.negb_odd. unfold is_byte in Hb.
  specialize (IH (negb low)). destruct low, (Z.odd (zlen rest)); simpl in *; lia.
Qed.

Lemma weight_app low a b :
  weight low (a ++ b) = weight low a + weight (xorb low (Z.odd (zlen a))) b.
Proof.
  revert low. induction a as [|x a IH]; intros low.
  - change (zlen (@nil Z)) with 0. simpl. by rewrite xorb_false_r.
  - cbn [app weight]. rewrite IH, zlen_cons, Z.add_1_l, Z.odd_succ, <- Z.negb_odd.
    replace (xorb (negb low) (Z.odd (zlen a))) with (xorb low (negb (Z.odd (zlen a))))
      by (by destruct low, (Z.odd (zlen a))). lia.
Qed.

(** Shifting every byte to the other half of its word multiplies the sum by
    256, modulo 65535. *)
Lemma weight_shift data low :
  (weight (negb low) data - 256 * weight low data) mod 65535 = 0.
Proof.
  revert low. induction data as [|b rest IH]; intros low; [done|]. cbn [weight].
  specialize (IH (negb low)). apply Z.mod_divide in IH as [k ?]; [|lia].
  destruct low; cbn [negb] in *.
  - apply (mod_witness _ _ k). lia.
  - apply (mod_witness _ _ (k - b)). lia.
Qed.

Lemma weight_zero data low :
  bytes_ok data -> (weight low data = 0 <-> weight (negb low) data = 0).
Proof.
  intros Hb. revert low. induction Hb as [|b rest Hb Hr IH]; intros low; [done|]. cbn [weight].
  specialize (IH (negb low)). pose proof (weight_nonneg low rest Hr).
  pose proof (weight_nonneg (negb low) rest Hr). rewrite negb_involutive in *. unfold is_byte in Hb.
  destruct low; simpl in *; lia.
Qed.

Lemma swap_sums v n :
  sums v n -> sums (SwapTwoBytes v) (256 * n).
Proof.
  intros (Hv & Hn & Hd & Hz). apply Z.mod_divide in Hd as [k ?]; [|lia].
  rewrite SwapTwoBytes_spec. unfold byte_at, be. cbn [foldl].
  change (256 ^ 0) with 1. change (256 ^ 1) with 256. rewrite Z.div_1_r.
  pose proof (Z.div_mod v 256). pose proof (Z.mod_pos_bound v 256).
  set (h := v / 256) in *. set (l := v mod 256) in *. rewrite (Z.mod_small h) by lia.
  split_and!; [lia..|apply (mod_witness _ _ (256 * k + h)); lia|lia].
Qed.

(** Swapping the bytes of a sum gives the sum with the other parity. *)
Lemma swap_weight v data low :
  bytes_ok data -> sums v (weight low data) -> sums (SwapTwoBytes v) (weight (negb low) data).
Proof.
  intros Hb Hs. eapply sums_cong; [by apply swap_sums|by apply weight_nonneg|apply weight_shift|].
  pose proof (weight_zero data low Hb). lia.
Qed.

(** ** The sum of the code *)

Lemma host_word le a b : host_load le [a; b] = weight le [a; b].
Proof. destruct le; unfold host_load, be; simpl; lia. Qed.

Lemma to16_weight le b : to16 le b 1 = Some (weight (negb le) [b]) /\ to16 le b 0 = Some (weight le [b]).
Proof. split; destruct le; unfold to16, host_store, wr, host_load, be; simpl; rewrite ?Z.mod_0_l by done; f_equal; try lia.
  all: change ((0 / 256) mod 256) with 0; lia. Qed.

Lemma pair_ind {A} (P : list A -> Prop) :
  P [] -> (forall a, P [a]) -> (forall a b l, P l -> P (a :: b :: l)) -> forall l, P l.
Proof.
  intros H0 H1 H2 l. enough (P l /\ forall a, P (a :: l)) by tauto.
  induction l as [|b l [IH1 IH2]]; split; auto.
Qed.

Lemma sum_words_weight le sum data :
  bytes_ok data -> 0 <= sum -> sum + weight le data < 2 ^ 32 ->
  exists left, length left = (length data mod 2)%nat /\
    (sum_words le sum data).2 = left /\
    (sum_words le sum data).1 + weight le left = sum + weight le data.
Proof.
  intros Hb. revert sum. induction data as [|a|a b rest IH] using pair_ind; intros sum H0 Hlt.
  - by exists [].
  - by exists [a].
  - apply Forall_cons in Hb as [Ha Hb]. apply Forall_cons in Hb as [Hb Hr].
    cbn [sum_words]. rewrite host_word. unfold is_byte in *.
    cbn [weight] in *. rewrite negb_involutive in *. pose proof (weight_nonneg le rest Hr).
    assert (0 <= (if le then a else 256 * a) + ((if negb le then b else 256 * b) + 0)) by (destruct le; simpl; lia).
    rewrite u32_small by lia.
    destruct (IH Hr (sum + ((if le then a else 256 * a) + ((if negb le then b else 256 * b) + 0))))
      as (left & Hl & E2 & E1); [lia..|].
    exists left. split_and!; [|done|lia]. rewrite Hl. cbn [length].
    replace (S (S (length rest))) with (length rest + 1 * 2)%nat by lia.
    by rewrite Nat.Div0.mod_add.
Qed.

Lemma odd_mod2 n : negb (n mod 2 =? 0) = Z.odd n.
Proof. rewrite Zmod_odd. by destruct (Z.odd n). Qed.

Lemma sum_start_weight le d odd :
  bytes_ok (br_data d) ->
  exists s0 rest flip, sum_start le d odd = Some (s0, rest, xorb odd flip) /\ bytes_ok rest /\
    0 <= s0 /\ s0 + weight le rest = weight (xorb le flip) (br_data d).
Proof.
  destruct d as [addr data]. unfold sum_start. cbn [br_data br_addr]. intros Hb.
  destruct data as [|b rest].
  { exists 0, [], false. by rewrite !xorb_false_r. }
  apply Forall_cons in Hb as Hb'. destruct Hb' as [Hb0 Hr]. unfold is_byte in Hb0.
  destruct (IsPtrAligned addr 2); cbn [negb].
  - exists 0, (b :: rest), false. rewrite !xorb_false_r. split_and!; [done|done|lia|lia].
  - rewrite (proj1 (to16_weight le b)). exists (weight (negb le) [b]), rest, true.
    cbn [mbind option_bind]. rewrite !xorb_true_r. split_and!; [done|done| |].
    + apply weight_nonneg. by constructor.
    + cbn [weight]. rewrite negb_involutive. lia.
Qed.

(** The size that the code asserts keeps the 32-bit sum from overflowing. *)
Lemma weight_small low data :
  bytes_ok data -> zlen data <= 2 * 65537 -> 0 <= weight low data < 2 ^ 32.
Proof.
  intros Hb Hsz. pose proof (weight_bound low data Hb). pose proof (weight_nonneg low data Hb).
  destruct (Z.eq_dec (zlen data) (2 * 65537)) as [E|E].
  - rewrite E in *. simpl in *. lia.
  - destruct (Z.odd (zlen data)), low; lia.
Qed.

(** [sum1c] adds to the accumulator the sum of its bytes, the first one
    counted as the high or the low byte of a word of the host. *)
Lemma sum1c_sums le accum d odd n :
  bytes_ok (br_data d) -> br_size d <= 2 * 65537 -> sums accum n ->
  exists s, sum1c le accum d odd = Some s /\ sums s (n + weight (xorb le odd) (br_data d)).
Proof.
  intros Hb Hsz Hacc. unfold sum1c. rewrite (proj2 (Z.leb_le _ _)) by lia.
  destruct (sum_start_weight le d odd Hb) as (s0 & rest & flip & -> & Hr & H0 & Hw).
  cbn [mbind option_bind]. pose proof (weight_small (xorb le flip) _ Hb Hsz) as Hlt.
  set (data := br_data d) in *.
  destruct (sum_words_weight le s0 rest Hr H0) as (lft & Hlen & E2 & E1); [lia|].
  destruct (sum_words le s0 rest) as [sum l']. simpl in E1, E2. subst l'. cbn [mbind option_bind].
  set (total := match lft with [] => _ | _ :: _ => _ end).
  assert (total = Some (weight (xorb le flip) data)) as ->.
  { unfold total. pose proof (Nat.mod_upper_bound (length rest) 2).
    destruct lft as [|b [|]]; [..|simpl in *; lia].
    - cbn [weight] in E1. f_equal. lia.
    - rewrite (proj2 (to16_weight le b)). cbn [mbind option_bind]. rewrite E1, Hw.
      f_equal. by apply u32_small. }
  cbn [mbind option_bind]. pose proof (fold_sums _ Hlt) as Hf.
  set (result := if xorb odd flip then _ else _).
  assert (sums result (weight (xorb le odd) data)) as Hres.
  { unfold result. destruct odd, flip; cbn [xorb]; rewrite ?xorb_true_r, ?xorb_false_r in *; try done.
    - by apply swap_weight.
    - pose proof (swap_weight _ _ _ Hb Hf) as E. by rewrite negb_involutive in E. }
  destruct (Z.eqb_spec accum 0) as [->|Hne].
  - exists result. split; [done|]. assert (n = 0) as -> by (destruct Hacc as (_ & _ & _ & ?); lia). done.
  - eexists. split; [done|]. by apply sums_fold.
Qed.

Lemma inet_sum_sums data : bytes_ok data -> sums (inet_sum data) (weight false data).
Proof.
  unfold inet_sum. intros Hb. assert (sums 0 0) as H0 by (by apply sums_self).
  revert H0. change (weight false data) with (0 + weight false data).
  generalize 0 at 1 3 as v. generalize 0 at 1 2 as n. revert Hb.
  induction data as [|a|a b rest IH] using pair_ind; intros Hb n v Hv.
  - simpl. by rewrite Z.add_0_r.
  - cbn [words16 foldl weight]. apply Forall_cons in Hb as [Ha _]. unfold is_byte in Ha.
    apply sums_add1c; [done|]. unfold be. cbn [foldl].
    replace (256 * a + 0) with ((0 * 256 + a) * 256 + 0) by lia. apply sums_self. lia.
  - apply Forall_cons in Hb as [Ha Hb]. apply Forall_cons in Hb as [Hb Hr]. unfold is_byte in *.
    cbn [words16 foldl weight negb].
    replace (n + (256 * a + (b + weight false rest))) with ((n + (256 * a + b)) + weight false rest) by lia.
    apply IH; [done|]. apply sums_add1c; [done|]. unfold be. cbn [foldl].
    replace (256 * a + b) with ((0 * 256 + a) * 256 + b) by lia. apply sums_self. lia.
Qed.

(** The object made from the complement of a host sum lies in memory as the
    checksum of the data. *)
Lemma checksum_layout le s data :
  bytes_ok data -> sums s (weight le data) ->
  host_store le W2 (Big_make le W2 (u16 (Z.lnot s)) true) = be_bytes 2 (inet_checksum data).
Proof.
  intros Hb Hs. unfold Big_make, inet_checksum. pose proof (inet_sum_sums data Hb) as Hi.
  assert (0 <= s <= 65535) as Hr by apply Hs.
  replace (u16 (Z.lnot s)) with (65535 - s)
    by (unfold Z.lnot; apply (Z.mod_unique_pos _ _ (-1)); lia).
  destruct le; unfold host_store.
  - pose proof (swap_weight _ _ _ Hb Hs) as Hw. cbn [negb] in Hw.
    rewrite (sums_fun _ _ _ Hi Hw), SwapTwoBytes_spec. clear. unfold be, byte_at. cbn [wbytes be_bytes rev app foldl].
    change (256 ^ 0) with 1. change (256 ^ 1) with 256. rewrite Z.div_1_r.
    f_equal; [|f_equal]; Z.to_euclidean_division_equations; lia.
  - by rewrite (sums_fun _ _ _ Hi Hs).
Qed.

Section Ranges.
Context (le : bool) (d1 d2 d3 : ByteRange).
Context (B1 : bytes_ok (br_data d1)) (B2 : bytes_ok (br_data d2)) (B3 : bytes_ok (br_data d3)).
Context (L1 : br_size d1 <= 2 * 65537) (L2 : br_size d2 <= 2 * 65537) (L3 : br_size d3 <= 2 * 65537).

Lemma Checksum1_bytes :
  exists n, Checksum1 le d1 = Some n /\ host_store le W2 n = be_bytes 2 (inet_checksum (br_data d1)).
Proof.
  unfold Checksum1. destruct (sum1c_sums le 0 d1 false 0 B1 L1 (sums_self 0 ltac:(lia))) as (s1 & -> & S1).
  rewrite xorb_false_r, Z.add_0_l in S1. eexists. split; [done|]. by apply checksum_layout.
Qed.

Lemma Checksum2_bytes :
  exists n, Checksum2 le d1 d2 = Some n /\
    host_store le W2 n = be_bytes 2 (inet_checksum (br_data d1 ++ br_data d2)).
Proof.
  unfold Checksum2. rewrite odd_mod2.
  destruct (sum1c_sums le 0 d1 false 0 B1 L1 (sums_self 0 ltac:(lia))) as (s1 & -> & S1).
  cbn [mbind option_bind]. rewrite xorb_false_r, Z.add_0_l in S1.
  destruct (sum1c_sums le s1 d2 (Z.odd (br_size d1)) _ B2 L2 S1) as (s2 & -> & S2).
  unfold br_size in S2. rewrite <- weight_app in S2. eexists. split; [done|].
  apply checksum_layout; [by apply Forall_app|done].
Qed.

Lemma Checksum3_bytes :
  exists n, Checksum3 le d1 d2 d3 = Some n /\
    host_store le W2 n = be_bytes 2 (inet_checksum (br_data d1 ++ br_data d2 ++ br_data d3)).
Proof.
  unfold Checksum3. rewrite !odd_mod2.
  destruct (sum1c_sums le 0 d1 false 0 B1 L1 (sums_self 0 ltac:(lia))) as (s1 & -> & S1).
  cbn [mbind option_bind]. rewrite xorb_false_r, Z.add_0_l in S1.
  destruct (sum1c_sums le s1 d2 (Z.odd (br_size d1)) _ B2 L2 S1) as (s2 & -> & S2).
  cbn [mbind option_bind]. unfold br_size in S2. rewrite <- weight_app in S2.
  destruct (sum1c_sums le s2 d3 (Z.odd (br_size d1 + br_size d2)) _ B3 L3 S2) as (s3 & -> & S3).
  unfold br_size in S3. rewrite <- zlen_app, <- weight_app, <- app_assoc in S3. eexists. split; [done|].
  apply checksum_layout; [by rewrite !Forall_app|done].
Qed.
End Ranges.

(** C18. The checksum of one, two or three ranges of bytes, at any addresses and on
    a host of either byte order, is stored as the Internet checksum (RFC 1071)
    of the bytes of the ranges one after the other, also when a range ends in
    the middle of a word. *)
Theorem Checksum_reference le d1 d2 d3 :
  bytes_ok (br_data d1) -> bytes_ok (br_data d2) -> bytes_ok (br_data d3) ->
  br_size d1 <= 2 * 65537 -> br_size d2 <= 2 * 65537 -> br_size d3 <= 2 * 65537 ->
  (exists n, Checksum1 le d1 = Some n /\
     host_store le W2 n = be_bytes 2 (inet_checksum (br_data d1))) /\
  (exists n, Checksum2 le d1 d2 = Some n /\
     host_store le W2 n = be_bytes 2 (inet_checksum (br_data d1 ++ br_data d2))) /\
  (exists n, Checksum3 le d1 d2 d3 = Some n /\
     host_store le W2 n = be_bytes 2 (inet_checksum (br_data d1 ++ br_data d2 ++ br_data d3))).
Proof.
  intros B1 B2 B3 L1 L2 L3.
  split_and!; [by apply Checksum1_bytes|by apply Checksum2_bytes|by apply Checksum3_bytes].
Qed.

Lemma Checksum_reference_witness :
  exists n, Checksum2 true (mkRange 3 [0x45; 0x00; 0x00]) (mkRange 8 [0x73; 0xb8; 0x61]) = Some n /\
    host_store true W2 n = be_bytes 2 (inet_checksum [0x45; 0x00; 0x00; 0x73; 0xb8; 0x61]).
Proof.
  refine (proj1 (proj2 (Checksum_reference true (mkRange 3 [0x45; 0x00; 0x00])
    (mkRange 8 [0x73; 0xb8; 0x61]) (mkRange 0 []) _ _ _ _ _ _))); try bytes; done.
Defined.

(** Data that carries its own checksum sums to all ones: the check a
    receiver makes. *)
Lemma add1c_range a b : 0 <= a <= 65535 -> 0 <= b <= 65535 -> 0 <= add1c a b <= 65535.
Proof. intros. unfold add1c. destruct (Z.ltb_spec (a + b) (2 ^ 16)); lia. Qed.

Lemma weight_be16 v : 0 <= v <= 65535 -> weight false (be_bytes 2 v) = v.
Proof.
  intros. rewrite <- (be_be_bytes_small 2 v) at 2 by (simpl; lia).
  unfold be. cbn [be_bytes app weight negb foldl]. lia.
Qed.

Lemma checksum_verifies pre post :
  bytes_ok pre -> bytes_ok post -> Z.odd (zlen pre) = false ->
  inet_sum (pre ++ be_bytes 2 (inet_checksum (pre ++ [0; 0] ++ post)) ++ post) = 65535.
Proof.
  intros Hp Hq He. set (z := pre ++ [0; 0] ++ post).
  assert (bytes_ok z) as Hz by (unfold z; rewrite !Forall_app; split_and!; [done|bytes|done]).
  pose proof (inet_sum_sums z Hz) as Hs. pose proof (proj1 Hs) as Hr. unfold inet_checksum.
  set (c := 65535 - inet_sum z). assert (0 <= c <= 65535) as Hc by (unfold c; lia).
  eapply sums_fun; [apply inet_sum_sums; rewrite !Forall_app; split_and!; [done|apply be_bytes_ok|done]|].
  rewrite !weight_app, He, weight_be16, xorb_false_r by done. cbn [xorb].
  unfold z in Hs. rewrite !weight_app, He, xorb_false_r in Hs.
  change (weight false [0; 0]) with 0 in Hs. change (Z.odd (zlen [0; 0])) with false in Hs.
  cbn [xorb] in Hs. fold z in Hs. destruct Hs as (_ & ? & Hm & ?).
  pose proof (weight_nonneg false pre Hp). pose proof (weight_nonneg false post Hq).
  apply Z.mod_divide in Hm as [k Hk]; [|lia].
  split_and!; [lia..|apply (mod_witness _ _ k); unfold c; lia|].
  unfold c in *. lia.
Qed.

(** ** LLDP section headers *)

(** A section header round-trips for lengths below 256. For a longer one the
    constructor loses the ninth bit of the length, which its accessors, the
    LLDP format and its own assertion all have. *)
Theorem LLDPTlv_length_lost type length :
  0 <= type < 128 -> 0 <= length < 512 ->
  exists t0 t1, LLDPTlv_make type length = Some [t0; t1] /\ LLDPTlv_type t0 = type /\
    LLDPTlv_length t0 t1 = length mod 256.
Proof.
  intros Ht Hl. unfold LLDPTlv_make. rewrite (proj2 (Z.ltb_lt _ _)) by lia.
  eexists _, _. split; [done|]. unfold LLDPTlv_type, LLDPTlv_length.
  assert (u8 (Z.lor (Z.shiftl type 1) (Z.land length 0x0100)) = type * 2) as ->.
  { unfold u8. rewrite <- Z.land_ones, Z.land_lor_distr_l, <- Z.land_assoc by lia.
    change (Z.land 0x0100 (Z.ones 8)) with 0. rewrite Z.land_0_r, Z.lor_0_r, Z.land_ones by lia.
    rewrite Z.shiftl_mul_pow2 by lia. apply Z.mod_small. lia. }
  rewrite (land_ones_mod length 8), (land_ones_mod (type * 2) 1), Z.shiftr_div_pow2 by (lia || done).
  rewrite Z.pow_1_r, Z.div_mul, Z.mod_mul by lia. done.
Qed.

Lemma LLDPTlv_length_lost_witness :
  exists t0 t1, LLDPTlv_make 127 300 = Some [t0; t1] /\ LLDPTlv_type t0 = 127 /\
    LLDPTlv_length t0 t1 = 300 mod 256.
Proof. apply LLDPTlv_length_lost; lia. Defined.
