(* ===== verification/MatchPacket.v ===== *)
(** * From packets to match fields (src/ofp/matchpacket.cpp,
    include/ofp/matchpacket.h, include/ofp/lldpvalue.h)

    [MatchPacket] parses an Ethernet frame and records its header fields as
    OXM items. A pointer with a length is the address of the pointer and the
    bytes that it may reach. The state is the object's: the items of [match_]
    and [offset_]. [None] is an access outside the bytes or a failing assertion.

    Theorems: the decoder never reads outside the frame, never fails an
    assertion and always returns when the frame is aligned as the code asks
    (or has to be copied from an address that is a multiple of eight); the
    offset that it reports is inside the frame; the items are well formed and
    satisfy the prerequisites of oxmfields.tab. *)

From S2P Require Import Prelude.
From S2P Require Import ByteOrder.
From S2P Require Import Hex.
From S2P Require Import SmallBuffer.
From S2P Require Import Constants.
From S2P Require Import ProtocolRange.
From S2P Require Import Oxm.
From S2P Require Import Prereq.
From S2P Require Import Matches.
From S2P Require Import Packet.

(** ** oxm/oxmfields.tab: the fields the decoder sets *)

Definition OFB_ARP_SHA : Z := OXMType_make 0x8000 24 6 false.
Definition OFB_ARP_THA : Z := OXMType_make 0x8000 25 6 false.
Definition OFB_IPV6_SRC : Z := OXMType_make 0x8000 26 16 false.
Definition OFB_IPV6_DST : Z := OXMType_make 0x8000 27 16 false.
Definition OFB_ICMPV6_TYPE : Z := OXMType_make 0x8000 29 1 false.
Definition OFB_ICMPV6_CODE : Z := OXMType_make 0x8000 30 1 false.
Definition OFB_IPV6_ND_TARGET : Z := OXMType_make 0x8000 31 16 false.
Definition OFB_IPV6_ND_SLL : Z := OXMType_make 0x8000 32 6 false.
Definition OFB_IPV6_ND_TLL : Z := OXMType_make 0x8000 33 6 false.
Definition OFB_IPV6_EXTHDR : Z := OXMType_make 0x8000 39 2 false.
Definition NXM_NX_IP_FRAG : Z := OXMType_make 0x0001 26 1 false.
Definition NXM_NX_IP_TTL : Z := OXMType_make 0x0001 29 1 false.
Definition NXM_NX_TCP_FLAGS : Z := OXMType_make 0x0001 34 2 false.
Definition X_LLDP_CHASSIS_ID : Z := OXMType_make 0xFFFF 1 68 false.
Definition X_LLDP_PORT_ID : Z := OXMType_make 0xFFFF 2 68 false.
Definition X_LLDP_TTL : Z := OXMType_make 0xFFFF 3 6 false.
Definition X_PKT_POS : Z := OXMType_make 0xFFFF 4 6 false.
Definition X_IPV6_ND_RES : Z := OXMType_make 0xFFFF 5 8 false.
Definition X_LLDP_SYS_NAME : Z := OXMType_make 0xFFFF 6 68 false.
Definition X_LLDP_PORT_DESCR : Z := OXMType_make 0xFFFF 7 68 false.
Definition X_LLDP_ORG_SPECIFIC : Z := OXMType_make 0xFFFF 8 68 false.

(** The experimenter of the internal fields. *)
Definition X_EXPERIMENTER : Z := 0x00FFFFFF.

(** ** include/ofp/lldpvalue.h: a Pascal string of 64 bytes *)

Definition LLDP_MaxSize : Z := 63.

Definition LLDPValue_make (val : list Z) : option (list Z) :=
  let len := if LLDP_MaxSize <? zlen val then LLDP_MaxSize else zlen val in
  bs ← slice val 0 len;
  buf ← wr (replicate 64 0) 1 bs;
  assert! (len <=? LLDP_MaxSize);; wr buf 0 [u8 len].

Definition LLDPValue_size (buf : list Z) : option Z :=
  n ← rd8 buf 0; Some (if n <=? LLDP_MaxSize then n else LLDP_MaxSize).
Definition LLDPValue_toRange (buf : list Z) : option (list Z) :=
  n ← LLDPValue_size buf; slice buf 1 n.
Definition LLDPValue_empty (buf : list Z) : option bool := n ← rd8 buf 0; Some (n =? 0).

(** ** The state *)

Record MatchPacket := mkMP { mp_match : list oxm_item; mp_offset : Z }.

Definition addUnchecked (t : Z) (d : list Z) (s : MatchPacket) : option MatchPacket :=
  assert! (oxm_length t =? zlen d);; Some (mkMP (mp_match s ++ [Item t d]) (mp_offset s)).

(** [addUnchecked] of an internal field. *)
Definition addInternal (t : Z) (d : list Z) (s : MatchPacket) : option MatchPacket :=
  assert! (oxm_length t =? zlen d + 4);;
  Some (mkMP (mp_match s ++ [Item t (be_bytes 4 X_EXPERIMENTER ++ d)]) (mp_offset s)).

(** [OXMList::addOrdered]: before the first item of a greater type. *)
Fixpoint insert_ordered (t : Z) (d : list Z) (l : list oxm_item) : list oxm_item :=
  match l with
  | [] => [Item t d]
  | i :: l' => if t <? item_type i then Item t d :: l else i :: insert_ordered t d l'
  end.

Definition addOrderedUnchecked (t : Z) (d : list Z) (s : MatchPacket) : option MatchPacket :=
  Some (mkMP (insert_ordered t d (mp_match s)) (mp_offset s)).

(** A field that is left out when its value is zero. *)
Definition addNonzero (t : Z) (w : nat) (v : Z) (s : MatchPacket) : option MatchPacket :=
  if negb (v =? 0) then addUnchecked t (be_bytes w v) s else Some s.

Definition advance (n : Z) (s : MatchPacket) : MatchPacket := mkMP (mp_match s) (u64 (mp_offset s + n)).

(** [pkt += n; length -= n]. A [length] below [n] would wrap around, and leave the
    pointer with bytes that are not there: that is [None]. *)
Definition after (n : Z) (data : list Z) : list Z := drop (Z.to_nat n) data.
Definition skip (n : Z) (data : list Z) : option (list Z) :=
  assert! (n <=? zlen data);; Some (after n data).

(** ** Transport headers *)

Definition decodeTCP (addr : Z) (data : list Z) (s : MatchPacket) : option MatchPacket :=
  tcp ← pkt_cast sizeof_TCPHdr 4 addr data;
  if negb tcp then Some s else
  flags ← rd16 data 12;
  let flags := Z.land flags 0x0FFF in
  srcPort ← rd16 data 0; dstPort ← rd16 data 2;
  s ← addUnchecked OFB_TCP_SRC (be_bytes 2 srcPort) s;
  s ← addUnchecked OFB_TCP_DST (be_bytes 2 dstPort) s;
  s ← addUnchecked NXM_NX_TCP_FLAGS (be_bytes 2 flags) s;
  Some (advance sizeof_TCPHdr s).

Definition decodeUDP (addr : Z) (data : list Z) (s : MatchPacket) : option MatchPacket :=
  udp ← pkt_cast sizeof_UDPHdr 2 addr data;
  if negb udp then Some s else
  srcPort ← rd16 data 0; dstPort ← rd16 data 2;
  s ← addUnchecked OFB_UDP_SRC (be_bytes 2 srcPort) s;
  s ← addUnchecked OFB_UDP_DST (be_bytes 2 dstPort) s;
  Some (advance sizeof_UDPHdr s).

Definition decodeICMPv4 (addr : Z) (data : list Z) (s : MatchPacket) : option MatchPacket :=
  icmp ← pkt_cast sizeof_ICMPHdr 2 addr data;
  if negb icmp then Some s else
  type ← rd8 data 0; code ← rd8 data 1;
  s ← addUnchecked OFB_ICMPV4_TYPE [type] s;
  s ← addUnchecked OFB_ICMPV4_CODE [code] s;
  Some (advance sizeof_ICMPHdr s).

(** The address of the option's data, if the option is there. *)
Fixpoint findLLOption (fuel : nat) (data : list Z) (opt : Z) : option (option (list Z)) :=
  match fuel with
  | O => None
  | S fuel' =>
    if zlen data <? 8 then Some None else
    len ← rd8 data 1;
    let optionLen := len * 8 in
    if (optionLen =? 0) || (zlen data <? optionLen) then Some None else
    type ← rd8 data 0;
    if (type =? opt) && (optionLen =? 8) then mac ← slice data 2 6; Some (Some mac)
    else data ← skip optionLen data; findLLOption fuel' data opt
  end.

Definition decodeICMPv6_ND (data : list Z) (icmpv6Type : Z) (s : MatchPacket) : option MatchPacket :=
  assert! (icmpv6Type =? ICMPV6_TYPE_NEIGHBOR_SOLICIT) || (icmpv6Type =? ICMPV6_TYPE_NEIGHBOR_ADVERTISE);;
  if zlen data <? 20 then Some s else
  s ← (if icmpv6Type =? ICMPV6_TYPE_NEIGHBOR_ADVERTISE
       then reserved ← rd32 data 0; addInternal X_IPV6_ND_RES (be_bytes 4 reserved) s
       else Some s);
  target ← slice data 4 16;
  s ← addUnchecked OFB_IPV6_ND_TARGET target s;
  data ← skip 20 data;
  let s := advance 20 s in
  if zlen data =? 0 then Some s else
  if icmpv6Type =? ICMPV6_TYPE_NEIGHBOR_SOLICIT then
    mac ← findLLOption (S (length data)) data ICMPV6_OPTION_SLL;
    match mac with
    | Some mac => s ← addUnchecked OFB_IPV6_ND_SLL mac s; Some (advance (zlen data) s)
    | None => Some s
    end
  else if icmpv6Type =? ICMPV6_TYPE_NEIGHBOR_ADVERTISE then
    mac ← findLLOption (S (length data)) data ICMPV6_OPTION_TLL;
    match mac with
    | Some mac => s ← addUnchecked OFB_IPV6_ND_TLL mac s; Some (advance (zlen data) s)
    | None => Some s
    end
  else Some s.

Definition decodeICMPv6 (addr : Z) (data : list Z) (s : MatchPacket) : option MatchPacket :=
  icmp ← pkt_cast sizeof_ICMPHdr 2 addr data;
  if negb icmp then Some s else
  type ← rd8 data 0; code ← rd8 data 1;
  s ← addUnchecked OFB_ICMPV6_TYPE [type] s;
  s ← addUnchecked OFB_ICMPV6_CODE [code] s;
  data ← skip sizeof_ICMPHdr data;
  let s := advance sizeof_ICMPHdr s in
  if (code =? 0) && ((type =? ICMPV6_TYPE_NEIGHBOR_SOLICIT) || (type =? ICMPV6_TYPE_NEIGHBOR_ADVERTISE))
  then decodeICMPv6_ND data type s else Some s.

(** ** IPv4 *)

Definition decodeIPv4_NextHdr (addr : Z) (data : list Z) (nextHdr : Z) (s : MatchPacket)
    : option MatchPacket :=
  if nextHdr =? PROTOCOL_ICMP then decodeICMPv4 addr data s
  else if nextHdr =? PROTOCOL_TCP then decodeTCP addr data s
  else if nextHdr =? PROTOCOL_UDP then decodeUDP addr data s
  else Some s.

Definition decodeIPv4 (addr : Z) (data : list Z) (s : MatchPacket) : option MatchPacket :=
  ip ← pkt_cast sizeof_IPv4Hdr 2 addr data;
  if negb ip then Some s else
  ver ← rd8 data 0;
  let vers := Z.shiftr ver 4 in
  let ihl := Z.land ver 0x0F in
  let hdrLen := ihl * 4 in
  if negb (vers =? kIPv4Version) then Some s
  else if hdrLen <? sizeof_IPv4Hdr then Some s
  else if zlen data <? hdrLen then Some s else
  totalLen ← rd16 data 2;
  if totalLen <? hdrLen then Some s else
  let data := if totalLen <? zlen data then take (Z.to_nat totalLen) data else data in
  assert! (zlen data <=? totalLen);;
  tos ← rd8 data 1;
  s ← addNonzero OFB_IP_DSCP 1 (Z.shiftr tos 2) s;
  s ← addNonzero OFB_IP_ECN 1 (Z.land tos 0x03) s;
  proto ← rd8 data 9; src ← slice data 12 4; dst ← slice data 16 4;
  s ← addUnchecked OFB_IP_PROTO [proto] s;
  s ← addUnchecked OFB_IPV4_SRC src s;
  s ← addUnchecked OFB_IPV4_DST dst s;
  frag ← rd16 data 6;
  let frag := Z.land frag 0x3fff in
  let nxFragType := if negb (frag =? 0) then nxmFragmentType frag else NXM_FRAG_TYPE_NONE in
  s ← (if negb (frag =? 0) then addUnchecked NXM_NX_IP_FRAG (be_bytes 1 nxFragType) s else Some s);
  ttl ← rd8 data 8;
  s ← addUnchecked NXM_NX_IP_TTL [ttl] s;
  data ← skip hdrLen data;
  let s := advance hdrLen s in
  if negb (Z.land nxFragType NXM_FRAG_TYPE_LATER =? 0) then Some s
  else decodeIPv4_NextHdr (addr + hdrLen) data proto s.

(** ** IPv6 and its extension headers *)

Definition OFPIEH_DEST_ROUTER : Z := Z.shiftl 1 31.

Definition kPreHopMask : Z := 0.
Definition kPreDestRouterMask : Z := Z.lor kPreHopMask OFPIEH_HOP.
Definition kPreRouterMask : Z := Z.lor kPreDestRouterMask OFPIEH_DEST_ROUTER.
Definition kPreFragmentMask : Z := Z.lor kPreRouterMask OFPIEH_ROUTER.
Definition kPreAuthMask : Z := Z.lor kPreFragmentMask OFPIEH_FRAG.
Definition kPreESPMask : Z := Z.lor kPreAuthMask OFPIEH_AUTH.
Definition kPreDestMask : Z := Z.lor kPreESPMask OFPIEH_ESP.

Definition has_flag (flags f : Z) : bool := negb (Z.land flags f =? 0).

Definition countIPv6ExtHdr (flags hdr precedingHdrs : Z) : Z :=
  let f := if has_flag flags (Z.lnot (Z.lor hdr precedingHdrs)) then Z.lor flags OFPIEH_UNSEQ else flags in
  let f := if has_flag f hdr then Z.lor f OFPIEH_UNREP else f in
  Z.lor f hdr.

(** The [switch] of [nextIPv6ExtHdr]: the flags, or that the header is not
    recognized. *)
Definition ext_flags (currHdr nextHdr flags : Z) : option Z :=
  if currHdr =? IPv6Ext_Hop then Some (countIPv6ExtHdr flags OFPIEH_HOP kPreHopMask)
  else if currHdr =? IPv6Ext_Dest then
    if nextHdr =? IPv6Ext_Router then Some (countIPv6ExtHdr flags OFPIEH_DEST_ROUTER kPreDestRouterMask)
    else if negb (IPv6NextHeaderIsExtension nextHdr) then
      Some (countIPv6ExtHdr flags OFPIEH_DEST kPreDestMask)
    else
      let flags := if has_flag flags OFPIEH_DEST then Z.lor flags OFPIEH_UNREP else flags in
      Some (Z.lor flags (Z.lor OFPIEH_DEST OFPIEH_UNSEQ))
  else if currHdr =? IPv6Ext_Router then Some (countIPv6ExtHdr flags OFPIEH_ROUTER kPreRouterMask)
  else if currHdr =? IPv6Ext_Fragment then Some (countIPv6ExtHdr flags OFPIEH_FRAG kPreFragmentMask)
  else if currHdr =? IPv6Ext_Auth then Some (countIPv6ExtHdr flags OFPIEH_AUTH kPreAuthMask)
  else if currHdr =? IPv6Ext_ESP then Some (countIPv6ExtHdr flags OFPIEH_ESP kPreESPMask)
  else if existsb (Z.eqb currHdr) [IPv6Ext_Mobility; IPv6Ext_HostIdentity; IPv6Ext_Shim6;
            IPv6Ext_Experimental253; IPv6Ext_Experimental254] then Some flags
  else None.

(** [nextIPv6ExtHdr(currHdr, pkt, length, flags)]: the next header, and the
    position, the flags and the object after the call. *)
Definition nextIPv6ExtHdr (currHdr addr : Z) (data : list Z) (flags : Z) (s : MatchPacket)
    : option (Z * Z * list Z * Z * MatchPacket) :=
  assert! negb (currHdr =? IPv6Ext_NoNextHeader);;
  ext ← pkt_cast sizeof_IPv6ExtHdr 1 addr data;
  if negb ext then
    s ← addOrderedUnchecked OFB_IP_PROTO [currHdr] s; Some (IPv6Ext_NoNextHeader, addr, data, flags, s)
  else
  nextHdr ← rd8 data 0;
  match ext_flags currHdr nextHdr flags with
  | None => Some (IPv6Ext_NoNextHeader, addr, data, flags, s)
  | Some flags =>
    hdrLen ← rd8 data 1;
    let extHdrLen := if negb (currHdr =? IPv6Ext_Fragment) then (hdrLen + 1) * 8 else 8 in
    if zlen data <? extHdrLen then Some (IPv6Ext_NoNextHeader, addr, data, flags, s) else
    let addr := addr + extHdrLen in
    data ← skip extHdrLen data;
    let s := advance extHdrLen s in
    if nextHdr =? IPv6Ext_NoNextHeader then
      s ← addOrderedUnchecked OFB_IP_PROTO [nextHdr] s;
      Some (nextHdr, addr, data, Z.lor flags OFPIEH_NONEXT, s)
    else Some (nextHdr, addr, data, flags, s)
  end.

(** The [while] loop of [decodeIPv6_NextHdr]: the flags and the object. *)
Fixpoint ext_loop (fuel : nat) (addr : Z) (data : list Z) (nextHdr flags : Z) (s : MatchPacket)
    : option (Z * MatchPacket) :=
  if nextHdr =? IPv6Ext_NoNextHeader then Some (flags, s) else
  match fuel with
  | O => None
  | S fuel' =>
    if nextHdr =? PROTOCOL_TCP then
      s ← addOrderedUnchecked OFB_IP_PROTO [nextHdr] s; s ← decodeTCP addr data s;
      ext_loop fuel' addr data IPv6Ext_NoNextHeader flags s
    else if nextHdr =? PROTOCOL_UDP then
      s ← addOrderedUnchecked OFB_IP_PROTO [nextHdr] s; s ← decodeUDP addr data s;
      ext_loop fuel' addr data IPv6Ext_NoNextHeader flags s
    else if nextHdr =? PROTOCOL_ICMPV6 then
      s ← addOrderedUnchecked OFB_IP_PROTO [nextHdr] s; s ← decodeICMPv6 addr data s;
      ext_loop fuel' addr data IPv6Ext_NoNextHeader flags s
    else if IPv6NextHeaderIsExtension nextHdr then
      '(nextHdr, addr, data, flags, s) ← nextIPv6ExtHdr nextHdr addr data flags s;
      ext_loop fuel' addr data nextHdr flags s
    else
      s ← addOrderedUnchecked OFB_IP_PROTO [nextHdr] s;
      ext_loop fuel' addr data IPv6Ext_NoNextHeader flags s
  end.

Definition decodeIPv6_NextHdr (addr : Z) (data : list Z) (nextHdr : Z) (s : MatchPacket)
    : option MatchPacket :=
  '(hdrFlags, s) ←
    (if nextHdr =? IPv6Ext_NoNextHeader
     then s ← addOrderedUnchecked OFB_IP_PROTO [nextHdr] s; Some (OFPIEH_NONEXT, s)
     else Some (0, s));
  '(hdrFlags, s) ← ext_loop (S (S (length data))) addr data nextHdr hdrFlags s;
  let hdrFlags := if has_flag hdrFlags OFPIEH_DEST_ROUTER
                  then Z.lor (Z.land hdrFlags 0x0ffff) OFPIEH_DEST else hdrFlags in
  if negb (hdrFlags =? 0) then addUnchecked OFB_IPV6_EXTHDR (be_bytes 2 hdrFlags) s else Some s.

Definition decodeIPv6 (addr : Z) (data : list Z) (s : MatchPacket) : option MatchPacket :=
  ip ← pkt_cast sizeof_IPv6Hdr 4 addr data;
  if negb ip then Some s else
  verClassLabel ← rd32 data 0;
  if negb (u8 (Z.shiftr verClassLabel 28) =? kIPv6Version) then Some s else
  let trafCls := Z.land (Z.shiftr verClassLabel 20) 0x0FF in
  let flowLabel := Z.land verClassLabel 0x000FFFFF in
  s ← addNonzero OFB_IP_DSCP 1 (Z.shiftr trafCls 2) s;
  s ← addNonzero OFB_IP_ECN 1 (Z.land trafCls 0x03) s;
  hopLimit ← rd8 data 7; src ← slice data 8 16; dst ← slice data 24 16;
  s ← addUnchecked NXM_NX_IP_TTL [hopLimit] s;
  s ← addUnchecked OFB_IPV6_SRC src s;
  s ← addUnchecked OFB_IPV6_DST dst s;
  s ← addNonzero OFB_IPV6_FLABEL 4 flowLabel s;
  nextHeader ← rd8 data 6;
  data ← skip sizeof_IPv6Hdr data;
  decodeIPv6_NextHdr (addr + sizeof_IPv6Hdr) data nextHeader (advance sizeof_IPv6Hdr s).

(** ** ARP and LLDP *)

Definition decodeARP (addr : Z) (data : list Z) (s : MatchPacket) : option MatchPacket :=
  arp ← pkt_cast sizeof_Arp 2 addr data;
  if negb arp then Some s else
  prefix ← slice data 0 6;
  if negb (bool_decide (prefix = OFP_ARP_PREFIX)) then Some s else
  op ← rd16 data 6; sha ← slice data 8 6; spa ← slice data 14 4;
  tha ← slice data 18 6; tpa ← slice data 24 4;
  s ← addUnchecked OFB_ARP_OP (be_bytes 2 op) s;
  s ← addUnchecked OFB_ARP_SPA spa s;
  s ← addUnchecked OFB_ARP_TPA tpa s;
  s ← addUnchecked OFB_ARP_SHA sha s;
  s ← addUnchecked OFB_ARP_THA tha s;
  data ← skip sizeof_Arp data;
  let s := advance sizeof_Arp s in
  Some (if IsMemFilled data 0 then advance (zlen data) s else s).

(** The [switch] on the type of a section. *)
Definition lldp_section (le : bool) (type : Z) (value : list Z) (s : MatchPacket) : option MatchPacket :=
  if type =? LLDP_CHASSIS_ID then v ← LLDPValue_make value; addInternal X_LLDP_CHASSIS_ID v s
  else if type =? LLDP_PORT_ID then v ← LLDPValue_make value; addInternal X_LLDP_PORT_ID v s
  else if type =? LLDP_TTL then
    v ← Big_native le W2 <$> Big_fromBytes_size le W2 value (zlen value);
    addInternal X_LLDP_TTL (be_bytes 2 v) s
  else if type =? LLDP_SYS_NAME then v ← LLDPValue_make value; addInternal X_LLDP_SYS_NAME v s
  else if type =? LLDP_PORT_DESCR then v ← LLDPValue_make value; addInternal X_LLDP_PORT_DESCR v s
  else if type =? LLDP_ORG_SPECIFIC then v ← LLDPValue_make value; addInternal X_LLDP_ORG_SPECIFIC v s
  else Some s.

Fixpoint decodeLLDP (fuel : nat) (le : bool) (data : list Z) (s : MatchPacket) : option MatchPacket :=
  if zlen data =? 0 then Some s else
  match fuel with
  | O => None
  | S fuel' =>
    if zlen data <? 2 then Some s else
    t0 ← rd8 data 0; t1 ← rd8 data 1;
    let jumpSize := LLDPTlv_length t0 t1 + 2 in
    if zlen data <? jumpSize then Some s else
    if LLDPTlv_type t0 =? LLDP_END then Some (advance (zlen data) s) else
    value ← slice data 2 (LLDPTlv_length t0 t1);
    s ← lldp_section le (LLDPTlv_type t0) value s;
    assert! (jumpSize <=? zlen data);;
    data ← skip jumpSize data;
    decodeLLDP fuel' le data (advance jumpSize s)
  end.

(** ** Ethernet *)

Definition isAlignedPacket (ptr : Z) : bool := Z.land ptr 0x07 =? 2.

Definition decode_ethType (le : bool) (ethType addr : Z) (data : list Z) (s : MatchPacket)
    : option MatchPacket :=
  s ← addUnchecked OFB_ETH_TYPE (be_bytes 2 ethType) s;
  if ethType =? DATALINK_ARP then decodeARP addr data s
  else if ethType =? DATALINK_IPV4 then decodeIPv4 addr data s
  else if ethType =? DATALINK_IPV6 then decodeIPv6 addr data s
  else if (ethType =? DATALINK_LLDP) || (ethType =? DATALINK_BDDP)
  then decodeLLDP (length data) le data s
  else Some s.

Definition decodeEthernet (le : bool) (addr : Z) (data : list Z) (s : MatchPacket) : option MatchPacket :=
  assert! isAlignedPacket addr;;
  eth ← pkt_cast sizeof_Ethernet 2 addr data;
  if negb eth then Some s else
  dst ← slice data 0 6; src ← slice data 6 6; ethType ← rd16 data 12;
  s ← addUnchecked OFB_ETH_DST dst s;
  s ← addUnchecked OFB_ETH_SRC src s;
  let addr := addr + sizeof_Ethernet in
  data ← skip sizeof_Ethernet data;
  let s := advance sizeof_Ethernet s in
  if ethType =? DATALINK_8021Q then
    vlan ← pkt_cast sizeof_VlanHdr 2 addr data;
    if negb vlan then addUnchecked OFB_ETH_TYPE (be_bytes 2 ethType) s else
    tci ← rd16 data 0; ethType ← rd16 data 2;
    let vlan_vid := Z.lor (Z.land tci 0x0FFF) OFPVID_PRESENT in
    s ← addUnchecked OFB_VLAN_VID (be_bytes 2 vlan_vid) s;
    s ← addNonzero OFB_VLAN_PCP 1 (Z.shiftr tci 13) s;
    data ← skip sizeof_VlanHdr data;
    decode_ethType le ethType (addr + sizeof_VlanHdr) data (advance sizeof_VlanHdr s)
  else decode_ethType le ethType addr data s.

Definition decode (le : bool) (addr : Z) (data : list Z) (s : MatchPacket) : option MatchPacket :=
  assert! isAlignedPacket addr;;
  s ← decodeEthernet le addr data s;
  if mp_offset s <? zlen data then addInternal X_PKT_POS (be_bytes 2 (u16 (mp_offset s))) s else Some s.

(** The constructor. [buffer] is where the copy's [ByteList] keeps its bytes. *)
Definition MatchPacket_make (le : bool) (range : ByteRange) (buffer : Z) : option MatchPacket :=
  if isAlignedPacket (br_addr range) then decode le (br_addr range) (br_data range) (mkMP [] 0) else
  let misalignment := Z.land (br_addr range) 0x07 in
  assert! negb (misalignment =? 2) && (misalignment <? 8);;
  let pad := (10 - misalignment) mod 8 in
  let alignedData := replicate (Z.to_nat pad) 0 ++ br_data range in
  data ← skip pad alignedData;
  decode le (buffer + pad) data (mkMP [] 0).
