(* ===== verification/PacketSafe.v ===== *)
(** * The packet decoder is safe and its matches are valid

    One invariant is carried through the decoder of MatchPacket.v: each item
    recorded so far is well formed, legal, and has the prerequisites of
    oxm/oxmfields.tab among the items before it. The same walk shows that no
    access leaves the frame, that every assertion on an address holds, that
    the loops end, and that [offset_] stays inside the frame. *)

From S2P Require Import Prelude.
From S2P Require Import ByteOrder.
From S2P Require Import Hex.
From S2P Require Import Constants.
From S2P Require Import ProtocolRange.
From S2P Require Import Oxm.
From S2P Require Import Prereq.
From S2P Require Import Matches.
From S2P Require Import Packet.
From S2P Require Import MatchPacket.

(** ** oxm/oxmfields.tab: prerequisites

    For each field, the alternatives of each prerequisite: one item of each
    group has to come before the field. A masked field has the prerequisites
    of the field. *)
Definition eth_is (v : Z) : oxm_item := Item OFB_ETH_TYPE (be_bytes 2 v).
Definition proto_is (v : Z) : oxm_item := Item OFB_IP_PROTO [v].
Definition icmpv6_is (v : Z) : oxm_item := Item OFB_ICMPV6_TYPE [v].

Definition one_of (t : Z) (ts : list Z) : bool := existsb (Z.eqb t) ts.

Definition OFB_IN_PHY_PORT : Z := OXMType_make 0x8000 1 4 false.
Definition OFB_MPLS_BOS : Z := OXMType_make 0x8000 36 1 false.
Definition OFB_PBB_ISID : Z := OXMType_make 0x8000 37 3 false.
Definition OFB_PBB_UCA : Z := OXMType_make 0x8000 41 1 false.
Definition OFB_TCP_FLAGS : Z := OXMType_make 0x8000 42 2 false.

Definition tab_prereqs (t : Z) : list (list oxm_item) :=
  let t := if hasMask t then withoutMask t else t in
  if one_of t [OFB_VLAN_PCP] then [[Item (withMask OFB_VLAN_VID) [0x10; 0x00; 0x10; 0x00]]]
  else if one_of t [OFB_IP_DSCP; OFB_IP_ECN; OFB_IP_PROTO; NXM_NX_IP_FRAG; NXM_NX_IP_TTL]
  then [[eth_is 0x0800; eth_is 0x86dd]]
  else if one_of t [OFB_IPV4_SRC; OFB_IPV4_DST] then [[eth_is 0x0800]]
  else if one_of t [OFB_TCP_SRC; OFB_TCP_DST; OFB_TCP_FLAGS; NXM_NX_TCP_FLAGS] then [[proto_is 6]]
  else if one_of t [OFB_UDP_SRC; OFB_UDP_DST] then [[proto_is 17]]
  else if one_of t [OFB_ICMPV4_TYPE; OFB_ICMPV4_CODE] then [[eth_is 0x0800]; [proto_is 1]]
  else if one_of t [OFB_ARP_OP; OFB_ARP_SPA; OFB_ARP_TPA; OFB_ARP_SHA; OFB_ARP_THA] then [[eth_is 0x0806]]
  else if one_of t [OFB_IPV6_SRC; OFB_IPV6_DST; OFB_IPV6_FLABEL; OFB_IPV6_EXTHDR] then [[eth_is 0x86dd]]
  else if one_of t [OFB_ICMPV6_TYPE; OFB_ICMPV6_CODE] then [[eth_is 0x86dd]; [proto_is 58]]
  else if one_of t [OFB_IPV6_ND_TARGET] then [[icmpv6_is 135; icmpv6_is 136]]
  else if one_of t [OFB_IPV6_ND_SLL] then [[icmpv6_is 135]]
  else if one_of t [OFB_IPV6_ND_TLL] then [[icmpv6_is 136]]
  else if one_of t [OFB_SCTP_SRC; OFB_SCTP_DST] then [[proto_is 132]]
  else if one_of t [OFB_MPLS_LABEL; OFB_MPLS_TC; OFB_MPLS_BOS] then [[eth_is 0x8847; eth_is 0x8848]]
  else if one_of t [OFB_PBB_ISID; OFB_PBB_UCA] then [[eth_is 0x88E7]]
  else if one_of t [OFB_IN_PHY_PORT] then [[Item (withMask OFB_IN_PORT) (replicate 8 0)]]
  else [].

(** ** The invariant *)

Definition met (before : list oxm_item) (i : oxm_item) : Prop :=
  forall g, In g (tab_prereqs (item_type i)) ->
  exists p j, In p g /\ In j before /\ satisfies p j = true.

Definition in_place (before : list oxm_item) (i : oxm_item) : Prop :=
  item_ok i /\ isIllegal (item_type i) = false /\ met before i.

Fixpoint in_sequence (before l : list oxm_item) : Prop :=
  match l with
  | [] => True
  | i :: l' => in_place before i /\ in_sequence (before ++ [i]) l'
  end.

Lemma in_place_mono b b' i : incl b b' -> in_place b i -> in_place b' i.
Proof.
  intros Hi (Hok & Hl & Hm). split_and!; [done..|]. intros g Hg.
  destruct (Hm g Hg) as (p & j & ? & ? & ?). eauto 10.
Qed.

Lemma sequence_app b l k : in_sequence b (l ++ k) <-> in_sequence b l /\ in_sequence (b ++ l) k.
Proof.
  revert b. induction l as [|i l IH]; intros b; cbn [app in_sequence].
  - rewrite app_nil_r. tauto.
  - rewrite IH, <- app_assoc. cbn [app]. tauto.
Qed.

Lemma sequence_mono b b' l : incl b b' -> in_sequence b l -> in_sequence b' l.
Proof.
  revert b b'. induction l as [|i l IH]; intros b b' Hi; [done|]. cbn [in_sequence]. intros [H1 H2].
  split; [by apply (in_place_mono b)|]. apply (IH (b ++ [i])); [|done].
  apply incl_app; [by apply incl_appl|apply incl_appr, incl_refl].
Qed.

Lemma sequence_items_ok b l : in_sequence b l -> Forall item_ok l.
Proof.
  revert b. induction l as [|i l IH]; intros b; [by constructor|]. intros [(Hok & _) Hc].
  constructor; [done|by eapply IH].
Qed.

Lemma sequence_in_place l1 i l2 : in_sequence [] (l1 ++ i :: l2) -> in_place l1 i.
Proof. rewrite sequence_app. by intros (_ & H & _). Qed.

(** ** Ordered insertion *)

(** It is the operation that the byte buffer implements. *)
Lemma insert_ordered_step t d l : items_step l (OAddOrdered t d) (insert_ordered t d l).
Proof.
  cbn [items_step]. induction l as [|i l IH]; cbn [insert_ordered].
  - exists [], []. split; [|done]. unfold cut_before. split_and!; [done|by constructor|done].
  - destruct (t <? item_type i) eqn:E.
    + exists [], (i :: l). split; [|done]. unfold cut_before. split_and!; [done|by constructor|done].
    + destruct IH as (l1 & l2 & (-> & Hf & Hh) & ->). exists (i :: l1), l2. split; [|done].
      unfold cut_before. split_and!; [done|by constructor|done].
Qed.

Lemma insert_ordered_after t d pre l :
  Forall (fun i => item_type i <= t) pre -> insert_ordered t d (pre ++ l) = pre ++ insert_ordered t d l.
Proof.
  induction pre as [|i pre IH]; [done|]. intros [Hi Hp]%Forall_cons. cbn [app insert_ordered].
  rewrite (proj2 (Z.ltb_ge _ _)) by done. by rewrite IH.
Qed.

Lemma insert_ordered_split t d l :
  exists l1 l2, l = l1 ++ l2 /\ insert_ordered t d l = l1 ++ Item t d :: l2.
Proof.
  induction l as [|i l (l1 & l2 & -> & E)]; cbn [insert_ordered]; [by exists [], []|].
  destruct (t <? item_type i); [by exists [], (i :: l1 ++ l2)|]. exists (i :: l1), l2. by rewrite E.
Qed.

(** The Ethernet type comes before every item of a type above [IP_PROTO]. *)
Definition frame (v : Z) (l : list oxm_item) : Prop :=
  exists l1 l2, l = l1 ++ eth_is v :: l2 /\ Forall (fun i => item_type i <= OFB_IP_PROTO) l1.

Lemma frame_in v l : frame v l -> In (eth_is v) l.
Proof. intros (l1 & l2 & -> & _). apply in_elt. Qed.

Lemma frame_insert v d l :
  frame v l -> exists pre post, l = pre ++ post /\ In (eth_is v) pre /\
    insert_ordered OFB_IP_PROTO d l = pre ++ Item OFB_IP_PROTO d :: post /\
    frame v (insert_ordered OFB_IP_PROTO d l).
Proof.
  intros (l1 & l2 & -> & Hl). destruct (insert_ordered_split OFB_IP_PROTO d l2) as (m1 & m2 & -> & E).
  assert (insert_ordered OFB_IP_PROTO d (l1 ++ eth_is v :: m1 ++ m2) =
          l1 ++ eth_is v :: m1 ++ Item OFB_IP_PROTO d :: m2) as E'.
  { change (eth_is v :: m1 ++ m2) with ([eth_is v] ++ m1 ++ m2). rewrite app_assoc.
    rewrite insert_ordered_after, E, <- app_assoc; [done|].
    apply Forall_app. split; [done|]. constructor; [by vm_compute|constructor]. }
  exists (l1 ++ eth_is v :: m1), m2. rewrite E', <- !app_assoc. split_and!; [done| |done|].
  - apply in_elt.
  - by exists l1, (m1 ++ Item OFB_IP_PROTO d :: m2).
Qed.

(** ** Steps of the decoder *)

Definition wf (s : MatchPacket) : Prop := in_sequence [] (mp_match s).

(** [s'] has what [s] has, and more. *)
Definition grows (s s' : MatchPacket) : Prop :=
  wf s' /\ incl (mp_match s) (mp_match s') /\ forall v, frame v (mp_match s) -> frame v (mp_match s').

(** The decoder used at most [n] bytes more. *)
Definition within (n : Z) (s s' : MatchPacket) : Prop :=
  grows s s' /\ mp_offset s <= mp_offset s' <= mp_offset s + n.

Lemma grows_refl s : wf s -> grows s s.
Proof. intros. split_and!; [done|apply incl_refl|done]. Qed.

Lemma grows_trans s1 s2 s3 : grows s1 s2 -> grows s2 s3 -> grows s1 s3.
Proof. intros (_ & I1 & F1) (W & I2 & F2). split_and!; [done|by eapply incl_tran|auto]. Qed.

Lemma grows_in s s' i : grows s s' -> In i (mp_match s) -> In i (mp_match s').
Proof. intros (_ & I & _). apply I. Qed.

Lemma grows_frame s s' v : grows s s' -> frame v (mp_match s) -> frame v (mp_match s').
Proof. intros (_ & _ & F). apply F. Qed.

Lemma grows_advance s n : wf s -> grows s (advance n s).
Proof. intros. split_and!; [done|apply incl_refl|done]. Qed.

Lemma within_grows n s s' : within n s s' -> grows s s'.
Proof. by intros [? _]. Qed.

Lemma within_refl n s : wf s -> 0 <= n -> within n s s.
Proof. intros. split; [by apply grows_refl|lia]. Qed.

Lemma frame_app v l k : frame v l -> frame v (l ++ k).
Proof. intros (l1 & l2 & -> & ?). exists l1, (l2 ++ k). by rewrite <- app_assoc. Qed.

Lemma grows_append s i :
  wf s -> in_place (mp_match s) i -> grows s (mkMP (mp_match s ++ [i]) (mp_offset s)).
Proof.
  intros Hw Hi. split_and!; cbn [mp_match].
  - unfold wf. cbn [mp_match]. rewrite sequence_app. by split_and!.
  - apply incl_appl, incl_refl.
  - intros v. apply frame_app.
Qed.

Section Steps.
Context {B : Type} (k : MatchPacket -> option B) (Q : B -> Prop).

Lemma wp_add t d s :
  wf s -> item_ok (Item t d) -> isIllegal t = false -> met (mp_match s) (Item t d) ->
  (forall s', grows s s' -> In (Item t d) (mp_match s') -> mp_offset s' = mp_offset s -> wp (k s') Q) ->
  wp (s' ← addUnchecked t d s; k s') Q.
Proof.
  intros Hw Hi Hl Hm K. unfold addUnchecked. pose proof Hi as (_ & El & _). cbn in El.
  rewrite (proj2 (Z.eqb_eq _ _)) by done. cbn [mbind option_bind].
  apply K; [by apply grows_append|apply in_app_iff; right; by left|done].
Qed.

Lemma wp_addInternal t d s :
  wf s -> item_ok (Item t (be_bytes 4 X_EXPERIMENTER ++ d)) -> isIllegal t = false -> tab_prereqs t = [] ->
  (forall s', grows s s' -> mp_offset s' = mp_offset s -> wp (k s') Q) ->
  wp (s' ← addInternal t d s; k s') Q.
Proof.
  intros Hw Hi Hl Hm K. unfold addInternal. pose proof Hi as (_ & El & _). cbn [item_body item_type] in El.
  rewrite zlen_app, zlen_be_bytes in El. rewrite (proj2 (Z.eqb_eq _ _)) by lia. cbn [mbind option_bind].
  apply K; [|done]. apply grows_append; [done|]. split_and!; [done..|]. intros g. cbn [item_type]. by rewrite Hm.
Qed.

Lemma wp_addOrdered v p s :
  wf s -> v = 0x0800 \/ v = 0x86dd -> frame v (mp_match s) -> 0 <= p < 256 ->
  (forall s', grows s s' -> In (proto_is p) (mp_match s') -> mp_offset s' = mp_offset s -> wp (k s') Q) ->
  wp (s' ← addOrderedUnchecked OFB_IP_PROTO [p] s; k s') Q.
Proof.
  intros Hw Hv Hf Hp K. unfold addOrderedUnchecked. cbn [mbind option_bind].
  destruct (frame_insert v [p] _ Hf) as (pre & post & E & Hin & E' & Hf').
  apply K; [|cbn [mp_match]; rewrite E'; apply in_elt|done].
  split_and!; cbn [mp_match].
  - unfold wf in *. cbn [mp_match]. rewrite E'. rewrite E in Hw. apply sequence_app in Hw as [H1 H2].
    rewrite sequence_app. cbn [in_sequence]. split_and!; [done|..].
    + split_and!; [split_and!; [by vm_compute..|bytes]|done|].
      intros g Hg. cbn [item_type] in Hg. vm_compute in Hg. destruct Hg as [<-|[]].
      destruct Hv as [-> | ->]; eexists _, _; (split; [|split; [exact Hin|]]); [by left|done|right; by left|done].
    + apply (sequence_mono pre); [apply incl_appl, incl_refl|done].
  - rewrite E', E. intros x Hx. apply in_app_iff in Hx. rewrite in_app_iff. simpl. tauto.
  - intros w Hw'. by destruct (frame_insert w [p] _ Hw') as (_ & _ & _ & _ & _ & ?).
Qed.
End Steps.

(** ** Automation *)

(** The prerequisites of a field, from facts about the items before it. *)
Ltac prereq_from H j :=
  first
    [ by (eexists _, j; split; [left; reflexivity|split; [exact H|vm_compute; reflexivity]])
    | by (eexists _, j; split; [right; left; reflexivity|split; [exact H|vm_compute; reflexivity]]) ].

Ltac prereqs :=
  let g := fresh "g" in let Hg := fresh "Hg" in
  intros g Hg; cbn [item_type] in Hg; vm_compute in Hg;
  repeat (destruct Hg as [<-|Hg]); try (by destruct Hg);
  match goal with
  | H : In ?j ?l |- exists p q, In p _ /\ In q ?l /\ _ => prereq_from H j
  end.

Lemma item_ok_bytes t d :
  0 <= t < 2 ^ 32 -> zlen d = oxm_length t -> bytes_ok d -> item_ok (Item t d).
Proof. intros Ht Hl Hb. by split; [|split]. Qed.

Lemma item_ok_byte t v :
  0 <= t < 2 ^ 32 -> oxm_length t = 1 -> 0 <= v < 256 -> item_ok (Item t [v]).
Proof. intros ? Hl ?. apply item_ok_bytes; [done|by rewrite Hl|]. by constructor. Qed.

Lemma item_ok_internal t d :
  0 <= t < 2 ^ 32 -> oxm_length t = 4 + zlen d -> bytes_ok d ->
  item_ok (Item t (be_bytes 4 X_EXPERIMENTER ++ d)).
Proof.
  intros ? Hl ?. apply item_ok_bytes; [done|by rewrite zlen_app, zlen_be_bytes, Hl|].
  apply Forall_app. split; [apply be_bytes_ok|done].
Qed.

Ltac type_range := by (split; [apply Z.leb_le|apply Z.ltb_lt]; vm_compute).

(** The item of an added field is well formed. *)
Ltac item_shape :=
  first
    [ apply item_ok_be; [type_range|by vm_compute]
    | apply item_ok_byte; [type_range|by vm_compute|lia]
    | apply item_ok_bytes; [type_range|etransitivity; [eassumption|by vm_compute]|assumption] ].

(** What earlier states have, the later ones have. *)
Ltac carry :=
  repeat match goal with
  | G : grows ?s ?s', H : In ?i (mp_match ?s) |- _ =>
      lazymatch goal with
      | _ : In i (mp_match s') |- _ => fail
      | _ => pose proof (grows_in s s' i G H)
      end
  | G : grows ?s ?s', H : frame ?v (mp_match ?s) |- _ =>
      lazymatch goal with
      | _ : frame v (mp_match s') |- _ => fail
      | _ => pose proof (grows_frame s s' v G H)
      end
  end.

Ltac well :=
  match goal with
  | H : wf ?s |- wf ?s => exact H
  | G : grows _ ?s |- wf ?s => exact (proj1 G)
  | |- wf (advance _ ?s) => change (wf s); well
  end.

Ltac chase :=
  match goal with
  | |- grows ?s ?s => apply grows_refl; well
  | G : grows ?s ?s' |- grows ?s ?s' => exact G
  | G : grows ?a ?s' |- grows ?s ?s' => apply (grows_trans s a s'); [chase|exact G]
  end.

Lemma wp_cast size align addr data {B} (k : bool -> option B) Q :
  IsPtrAligned addr align = true ->
  (zlen data < size -> wp (k false) Q) -> (size <= zlen data -> wp (k true) Q) ->
  wp (x ← pkt_cast size align addr data; k x) Q.
Proof.
  intros Ha K0 K1. unfold pkt_cast. rewrite Ha. cbn [mbind option_bind].
  destruct (Z.leb_spec size (zlen data)); [by apply K1|by apply K0].
Qed.

Lemma wp_addNonzero t w v s {B} (k : MatchPacket -> option B) Q :
  wf s -> item_ok (Item t (be_bytes w v)) -> isIllegal t = false -> met (mp_match s) (Item t (be_bytes w v)) ->
  (forall s', grows s s' -> mp_offset s' = mp_offset s -> wp (k s') Q) ->
  wp (s' ← addNonzero t w v s; k s') Q.
Proof.
  intros Hw ? ? ? K. unfold addNonzero. destruct (negb (v =? 0)).
  - apply wp_add; auto.
  - cbn [mbind option_bind]. apply K; [by apply grows_refl|done].
Qed.

Lemma within_advance n m s s' :
  grows s s' -> mp_offset s' = mp_offset s -> 0 <= m <= n -> 0 <= mp_offset s -> mp_offset s + n < 2 ^ 64 ->
  within n s (advance m s').
Proof.
  intros G E ? ? ?. split.
  - apply (grows_trans s s'); [done|]. apply grows_advance, G.
  - unfold advance. cbn [mp_offset]. rewrite E, u64_small by lia. lia.
Qed.

(** The rest of the packet is decoded after [m] bytes. *)
Lemma within_after n m s s' s'' :
  grows s s' -> mp_offset s' = mp_offset s -> 0 <= m <= n -> 0 <= mp_offset s -> mp_offset s + n < 2 ^ 64 ->
  within (n - m) (advance m s') s'' -> within n s s''.
Proof.
  intros G E ? ? ? [G' Ho]. split.
  - apply (grows_trans s s'); [done|]. apply (grows_trans s' (advance m s')); [|done].
    apply grows_advance, G.
  - unfold advance in Ho. cbn [mp_offset] in Ho. rewrite E, u64_small in Ho by lia. lia.
Qed.

Lemma after_ok n data : bytes_ok data -> bytes_ok (after n data).
Proof. apply Forall_drop. Qed.

Lemma skip_some n data : n <= zlen data -> skip n data = Some (after n data).
Proof. intros H. unfold skip. by rewrite (proj2 (Z.leb_le _ _) H). Qed.

Ltac skip_step := rewrite skip_some by lia; cbn [mbind option_bind].

Lemma after_length n data : 0 <= n <= zlen data -> zlen (after n data) = zlen data - n.
Proof. intros. unfold after. rewrite zlen_drop. lia. Qed.

Ltac read_step :=
  match goal with
  | |- wp (_ ← rd8 _ _; _) _ => apply wp_rd8; [assumption|lia|intros ? ? ?]
  | |- wp (_ ← rd_be _ _ _; _) _ => apply wp_read_be; [assumption|lia..|intros ? ? ?]
  | |- wp (_ ← slice _ _ _; _) _ => apply wp_read; [assumption|lia..|intros ? ? ? ?]
  end.

Ltac add_step :=
  match goal with
  | |- wp (_ ← addUnchecked _ _ ?s; _) _ =>
      carry; apply wp_add; [well|item_shape|by vm_compute|prereqs|];
      let s' := fresh "s" in intros s' ? ? ?
  | |- wp (_ ← addNonzero _ _ _ ?s; _) _ =>
      carry; apply wp_addNonzero; [well|item_shape|by vm_compute|prereqs|];
      let s' := fresh "s" in intros s' ? ?
  end.

(** The addresses of the headers. *)
Lemma aligned4 addr : addr mod 4 = 0 -> IsPtrAligned addr 4 = true.
Proof. intros H. change 4 with (2 ^ 2). rewrite IsPtrAligned_pow2 by done. by apply Z.eqb_eq. Qed.

Lemma aligned2 addr : addr mod 4 = 0 -> IsPtrAligned addr 2 = true.
Proof.
  intros H. change 2 with (2 ^ 1) at 1. rewrite IsPtrAligned_pow2 by done. apply Z.eqb_eq.
  revert H. Z.to_euclidean_division_equations. lia.
Qed.

Lemma aligned1 addr : IsPtrAligned addr 1 = true.
Proof. unfold IsPtrAligned. by rewrite Z.land_0_r. Qed.

(** A header that is not there leaves the object as it is. *)
Ltac cast_step :=
  apply wp_cast;
  [ first [by apply aligned4 | by apply aligned2 | apply aligned1]
  | intros _; apply within_refl; [done|apply zlen_nonneg]
  | intros ?; cbn [negb] ].

(** ** Transport headers *)

Section Transport.
Context (addr : Z) (data : list Z) (s : MatchPacket).
Context (Hwf : wf s) (Hb : bytes_ok data) (Ha : addr mod 4 = 0).
Context (H0 : 0 <= mp_offset s) (Hmax : mp_offset s + zlen data < 2 ^ 64).

Lemma decodeTCP_within : In (proto_is 6) (mp_match s) -> wp (decodeTCP addr data s) (within (zlen data) s).
Proof.
  intros Hp. unfold decodeTCP, sizeof_TCPHdr. cast_step. repeat read_step. repeat add_step.
  apply within_advance; [chase|lia..].
Qed.

Lemma decodeUDP_within : In (proto_is 17) (mp_match s) -> wp (decodeUDP addr data s) (within (zlen data) s).
Proof.
  intros Hp. unfold decodeUDP, sizeof_UDPHdr. cast_step. repeat read_step. repeat add_step.
  apply within_advance; [chase|lia..].
Qed.

Lemma decodeICMPv4_within :
  In (eth_is 0x0800) (mp_match s) -> In (proto_is 1) (mp_match s) ->
  wp (decodeICMPv4 addr data s) (within (zlen data) s).
Proof.
  intros He Hp. unfold decodeICMPv4, sizeof_ICMPHdr. cast_step. repeat read_step. repeat add_step.
  apply within_advance; [chase|lia..].
Qed.

Lemma findLLOption_some fuel d opt :
  bytes_ok d -> (length d < fuel)%nat ->
  wp (findLLOption fuel d opt) (fun r => match r with Some mac => bytes_ok mac /\ zlen mac = 6 | None => True end).
Proof.
  clear Hb Hmax. revert d. induction fuel as [|fuel IH]; intros d Hd Hf; [lia|]. cbn [findLLOption].
  destruct (Z.ltb_spec (zlen d) 8); [done|]. read_step. destruct (_ || _) eqn:E; [done|].
  read_step. destruct (_ && _).
  - read_step. done.
  - skip_step. apply IH; [by apply after_ok|]. unfold after. rewrite length_drop. unfold zlen in *. lia.
Qed.

Lemma decodeICMPv6_ND_within type :
  type = 135 \/ type = 136 -> In (icmpv6_is type) (mp_match s) ->
  wp (decodeICMPv6_ND data type s) (within (zlen data) s).
Proof.
  intros Ht Hi. unfold decodeICMPv6_ND.
  replace (_ || _) with true by (by destruct Ht as [-> | ->]).
  destruct (Z.ltb_spec (zlen data) 20); [apply within_refl; [done|apply zlen_nonneg]|].
  apply (wp_bind _ _ (fun s' => grows s s' /\ mp_offset s' = mp_offset s)).
  { destruct (_ =? _); [|split; [by apply grows_refl|done]]. read_step. apply wp_tail.
    apply wp_addInternal; [done| |done|done|intros s' ? ?; by split].
    apply item_ok_internal; [type_range|rewrite zlen_be_bytes; by vm_compute|apply be_bytes_ok]. }
  intros s1 [G1 E1]. carry. read_step.
  apply wp_add; [well|item_shape|by vm_compute|destruct Ht as [-> | ->]; prereqs|]. intros s2 G2 _ E2. carry.
  pose proof (after_length 20 data) as Hl. skip_step.
  destruct (Z.eqb_spec (zlen (after 20 data)) 0); [apply within_advance; [chase|lia..]|].
  assert (forall t m, item_ok (Item t m) -> isIllegal t = false -> met (mp_match s2) (Item t m) ->
    wp (s' ← addUnchecked t m (advance 20 s2); Some (advance (zlen (after 20 data)) s')) (within (zlen data) s)) as Hadd.
  { intros t m Hm Hil Hmet. apply wp_add; [well|done..|]. intros s3 G3 _ E3.
    apply (within_after _ 20 s s2); [chase|lia..|]. rewrite Hl in * by lia.
    apply within_advance; [done|done|lia|..]; unfold advance; cbn [mp_offset]; rewrite u64_small; lia. }
  destruct Ht as [-> | ->]; cbn [Z.eqb Pos.eqb];
    (eapply wp_bind; [apply findLLOption_some; [by apply after_ok|lia]|]); intros [mac|] Hmac;
    try (apply within_advance; [chase|lia..]); destruct Hmac; apply Hadd; try item_shape; try done; prereqs.
Qed.

End Transport.

(** The header of a protocol, and the rest decoded behind it. *)
Lemma wp_after n m s s' r :
  grows s s' -> mp_offset s' = mp_offset s -> 0 <= m <= n -> 0 <= mp_offset s -> mp_offset s + n < 2 ^ 64 ->
  wp r (within (n - m) (advance m s')) -> wp r (within n s).
Proof. intros. eapply wp_mono; [done|]. intros s'' ?. by apply (within_after n m s s'). Qed.

Lemma advance_offset m s : 0 <= mp_offset s + m < 2 ^ 64 -> mp_offset (advance m s) = mp_offset s + m.
Proof. intros. unfold advance. cbn [mp_offset]. by apply u64_small. Qed.

(** The conditions on the state behind a header. *)
Ltac behind :=
  rewrite ?advance_offset, ?after_length by lia;
  first [assumption | by apply after_ok | well | lia].

Ltac after m :=
  match goal with
  | |- context [advance m ?s'] =>
      apply (wp_after _ m _ s'); [chase|lia..|]; rewrite <- after_length by lia
  end.

Lemma decodeICMPv6_within addr data s :
  wf s -> bytes_ok data -> addr mod 4 = 0 -> 0 <= mp_offset s -> mp_offset s + zlen data < 2 ^ 64 ->
  In (eth_is 0x86dd) (mp_match s) -> In (proto_is 58) (mp_match s) ->
  wp (decodeICMPv6 addr data s) (within (zlen data) s).
Proof.
  intros Hwf Hb Ha H0 Hmax He Hp. unfold decodeICMPv6, sizeof_ICMPHdr. cast_step. repeat read_step.
  repeat add_step. skip_step. destruct (_ && _) eqn:E; [|apply within_advance; [chase|lia..]]. carry.
  apply andb_prop in E as [_ E]. unfold ICMPV6_TYPE_NEIGHBOR_SOLICIT, ICMPV6_TYPE_NEIGHBOR_ADVERTISE in E.
  after 4.
  apply decodeICMPv6_ND_within; [behind..|lia|done].
Qed.

Lemma wp_within_mono n m s r : wp r (within n s) -> n <= m -> wp r (within m s).
Proof. intros H Hn. eapply wp_mono; [done|]. intros s' [G Ho]. split; [done|lia]. Qed.

(** ** IPv4 *)

Lemma decodeIPv4_NextHdr_within addr data nextHdr s :
  wf s -> bytes_ok data -> addr mod 4 = 0 -> 0 <= mp_offset s -> mp_offset s + zlen data < 2 ^ 64 ->
  In (eth_is 0x0800) (mp_match s) -> In (proto_is nextHdr) (mp_match s) ->
  wp (decodeIPv4_NextHdr addr data nextHdr s) (within (zlen data) s).
Proof.
  intros. unfold decodeIPv4_NextHdr, PROTOCOL_ICMP, PROTOCOL_TCP, PROTOCOL_UDP.
  destruct (Z.eqb_spec nextHdr 1) as [-> |]; [by apply decodeICMPv4_within|].
  destruct (Z.eqb_spec nextHdr 6) as [-> |]; [by apply decodeTCP_within|].
  destruct (Z.eqb_spec nextHdr 17) as [-> |]; [by apply decodeUDP_within|].
  apply within_refl; [done|apply zlen_nonneg].
Qed.

(** The part behind the checks of the lengths. *)
Lemma decodeIPv4_within addr data s :
  wf s -> bytes_ok data -> addr mod 4 = 0 -> 0 <= mp_offset s -> mp_offset s + zlen data < 2 ^ 64 ->
  In (eth_is 0x0800) (mp_match s) ->
  wp (decodeIPv4 addr data s) (within (zlen data) s).
Proof.
  intros Hwf Hb Ha H0 Hmax He. unfold decodeIPv4, sizeof_IPv4Hdr. cast_step.
  pose proof (within_refl (zlen data) s Hwf (zlen_nonneg data)) as Hstop.
  read_step. destruct (negb _); [done|]. rewrite (land_ones_mod v 4) by done.
  pose proof (Z.mod_pos_bound v (2 ^ 4)). set (hdrLen := v mod 2 ^ 4 * 4) in *.
  destruct (Z.ltb_spec hdrLen 20); [done|]. destruct (Z.ltb_spec (zlen data) hdrLen); [done|].
  read_step. destruct (Z.ltb_spec v0 hdrLen); [done|].
  set (d := if v0 <? zlen data then take (Z.to_nat v0) data else data).
  assert (bytes_ok d /\ hdrLen <= zlen d <= zlen data /\ zlen d <= v0) as (Hd & Hl & Ht).
  { unfold d. destruct (Z.ltb_spec v0 (zlen data)); [|by split_and!; try lia].
    split; [by apply Forall_take|]. rewrite zlen_take. lia. }
  clearbody d. rewrite (proj2 (Z.leb_le _ _)) by done. apply (wp_within_mono (zlen d)); [|lia]. clear Hstop.
  read_step. add_step. add_step. repeat read_step. repeat add_step. read_step.
  set (nxFragType := if negb (Z.land _ _ =? 0) then _ else _). clearbody nxFragType.
  apply (wp_bind _ _ (fun s' => grows s4 s' /\ mp_offset s' = mp_offset s4)).
  { carry. destruct (negb _); [|split; [by apply grows_refl; well|done]].
    apply wp_tail. apply wp_add; [well|item_shape|done|prereqs|]. intros s' ? _ ?. by split. }
  intros s5 [? ?]. carry. read_step. add_step. skip_step.
  destruct (negb _); [apply within_advance; [chase|unfold hdrLen in *; lia..]|]. carry.
  after hdrLen. apply decodeIPv4_NextHdr_within; [behind..| |behind|behind|done|done].
  unfold hdrLen. rewrite Z.mod_add; done.
Qed.

(** ** IPv6 *)

(** After [nextIPv6ExtHdr] the decoder is at the next header, or is told that
    there is none. *)
Definition moved (data : list Z) (s : MatchPacket) (r : Z * Z * list Z * Z * MatchPacket) : Prop :=
  let '(nextHdr, addr', data', _, s') := r in
  grows s s' /\ bytes_ok data' /\ addr' mod 4 = 0 /\ 0 <= nextHdr < 256 /\
  mp_offset s' = mp_offset s + (zlen data - zlen data') /\ zlen data' <= zlen data /\
  (nextHdr = IPv6Ext_NoNextHeader \/ 8 <= zlen data - zlen data').

Lemma nextIPv6ExtHdr_moved cur addr data flags s :
  wf s -> bytes_ok data -> addr mod 4 = 0 -> 0 <= mp_offset s -> mp_offset s + zlen data < 2 ^ 64 ->
  frame 0x86dd (mp_match s) -> cur ≠ IPv6Ext_NoNextHeader -> 0 <= cur < 256 ->
  wp (nextIPv6ExtHdr cur addr data flags s) (moved data s).
Proof.
  intros Hwf Hb Ha H0 Hmax Hf Hc Hcr. unfold nextIPv6ExtHdr, sizeof_IPv6ExtHdr.
  rewrite (proj2 (Z.eqb_neq _ _)) by done. cbn [negb]. pose proof (zlen_nonneg data).
  assert (forall f s', grows s s' -> mp_offset s' = mp_offset s ->
    moved data s (IPv6Ext_NoNextHeader, addr, data, f, s')) as Hend.
  { intros. unfold moved. split_and!; try done; lia || by left. }
  apply wp_cast; [apply aligned1|..]; intros Hl; cbn [negb].
  { apply (wp_addOrdered _ _ 0x86dd); [done|by right|done..|]. intros s' ? _ ?. by apply Hend. }
  read_step. destruct (ext_flags cur v flags) as [fl|]; [|apply Hend; [by apply grows_refl|done]].
  read_step. set (n := if negb _ then (_ + 1) * 8 else 8).
  assert (8 <= n /\ n mod 4 = 0) as [Hn Hn4].
  { unfold n. destruct (negb _); [|done]. split; [lia|]. Z.to_euclidean_division_equations. lia. }
  clearbody n. destruct (Z.ltb_spec (zlen data) n); [apply Hend; [by apply grows_refl|done]|].
  assert (forall f s', grows s s' -> mp_offset s' = mp_offset s + n ->
    moved data s (v, addr + n, after n data, f, s')) as Hgo.
  { intros f s' G E. unfold moved. rewrite after_length by lia.
    split_and!; try done; [by apply after_ok|rewrite Z.add_mod, Ha, Hn4; done|lia..|right; lia]. }
  assert (grows s (advance n s)) as G by (by apply grows_advance). skip_step.
  destruct (Z.eqb_spec v IPv6Ext_NoNextHeader).
  - apply (wp_addOrdered _ _ 0x86dd); [done|by right|by apply (grows_frame s)|done|].
    intros s' ? _ E. apply Hgo; [chase|]. rewrite E, advance_offset; lia.
  - apply Hgo; [done|]. apply advance_offset. lia.
Qed.

Lemma ext_loop_within fuel addr data nextHdr flags s :
  wf s -> bytes_ok data -> addr mod 4 = 0 -> 0 <= mp_offset s -> mp_offset s + zlen data < 2 ^ 64 ->
  frame 0x86dd (mp_match s) -> 0 <= nextHdr < 256 -> (length data < fuel)%nat ->
  wp (ext_loop fuel addr data nextHdr flags s) (fun r => within (zlen data) s r.2).
Proof.
  revert addr data nextHdr flags s.
  induction fuel as [|fuel IH]; intros addr data nextHdr flags s Hwf Hb Ha H0 Hmax Hf Hn Hfuel; [lia|].
  cbn [ext_loop]. destruct (Z.eqb_spec nextHdr IPv6Ext_NoNextHeader).
  { apply within_refl; [done|apply zlen_nonneg]. }
  assert (forall a d f s', within (zlen data) s s' ->
    wp (ext_loop fuel a d IPv6Ext_NoNextHeader f s') (fun r => within (zlen data) s r.2)) as Hlast
    by (by intros a d f s' W; destruct fuel).
  assert (forall dec, (forall s', grows s s' -> In (proto_is nextHdr) (mp_match s') -> mp_offset s' = mp_offset s ->
      wp (dec s') (within (zlen data) s')) ->
    wp (s0 ← addOrderedUnchecked OFB_IP_PROTO [nextHdr] s; s1 ← dec s0;
        ext_loop fuel addr data IPv6Ext_NoNextHeader flags s1) (fun r => within (zlen data) s r.2)) as Htransport.
  { intros dec Hdec. apply (wp_addOrdered _ _ 0x86dd); [done|by right|done..|]. intros s1 G1 Hin E1.
    eapply wp_bind; [by apply Hdec|]. intros s2 [G2 Ho]. apply Hlast. split; [chase|lia]. }
  destruct (Z.eqb_spec nextHdr PROTOCOL_TCP) as [-> |].
  { apply Htransport. intros s' G Hin E. apply decodeTCP_within; try done; [apply G|lia..]. }
  destruct (Z.eqb_spec nextHdr PROTOCOL_UDP) as [-> |].
  { apply Htransport. intros s' G Hin E. apply decodeUDP_within; try done; [apply G|lia..]. }
  destruct (Z.eqb_spec nextHdr PROTOCOL_ICMPV6) as [-> |].
  { apply Htransport. intros s' G Hin E. apply decodeICMPv6_within; try done; [apply G|lia..|].
    by apply frame_in, (grows_frame s). }
  destruct (IPv6NextHeaderIsExtension nextHdr).
  - eapply wp_bind; [by apply nextIPv6ExtHdr_moved|].
    intros [[[[nh a] d] f] s'] (G & Hd & Ha' & Hn' & E & Hle & Hc).
    destruct Hc as [-> |Hc]; [apply Hlast; split; [done|pose proof (zlen_nonneg d); lia]|].
    eapply wp_mono; [apply IH; try done; [apply G|lia..|by apply (grows_frame s)|unfold zlen in *; lia]|].
    intros [f' s''] [G' Ho]. cbn [snd] in *. split; [chase|lia].
  - apply (wp_addOrdered _ _ 0x86dd); [done|by right|done..|]. intros s1 G1 Hin E1.
    apply Hlast. split; [chase|pose proof (zlen_nonneg data); lia].
Qed.

Lemma decodeIPv6_NextHdr_within addr data nextHdr s :
  wf s -> bytes_ok data -> addr mod 4 = 0 -> 0 <= mp_offset s -> mp_offset s + zlen data < 2 ^ 64 ->
  frame 0x86dd (mp_match s) -> 0 <= nextHdr < 256 ->
  wp (decodeIPv6_NextHdr addr data nextHdr s) (within (zlen data) s).
Proof.
  intros Hwf Hb Ha H0 Hmax Hf Hn. unfold decodeIPv6_NextHdr.
  apply (wp_bind _ _ (fun r => grows s r.2 /\ mp_offset r.2 = mp_offset s)).
  { destruct (_ =? _); [|by split; [apply grows_refl|]].
    apply (wp_addOrdered _ _ 0x86dd); [done|by right|done..|]. intros s1 G1 Hin E1. by split. }
  intros [f0 s0] [G E]. cbn [snd] in *.
  eapply wp_bind; [apply (ext_loop_within _ addr data nextHdr f0 s0); try done|].
  1: apply G. 1-2: lia. 1: by apply (grows_frame s). 1: lia.
  intros [f s'] [G' Ho]. cbn [snd] in *. set (fl := if has_flag _ _ then _ else f). clearbody fl.
  pose proof (grows_frame s s' _ ltac:(chase) Hf) as Hin%frame_in.
  destruct (negb _); [|split; [chase|lia]].
  apply wp_tail, wp_add; [well|item_shape|done|prereqs|]. intros s2 G2 _ E2. split; [chase|lia].
Qed.

Lemma decodeIPv6_within addr data s :
  wf s -> bytes_ok data -> addr mod 4 = 0 -> 0 <= mp_offset s -> mp_offset s + zlen data < 2 ^ 64 ->
  frame 0x86dd (mp_match s) ->
  wp (decodeIPv6 addr data s) (within (zlen data) s).
Proof.
  intros Hwf Hb Ha H0 Hmax Hf. pose proof (frame_in _ _ Hf) as Hin.
  unfold decodeIPv6, sizeof_IPv6Hdr. cast_step. read_step.
  destruct (negb _); [apply within_refl; [done|apply zlen_nonneg]|].
  add_step. add_step. repeat read_step. do 3 add_step. add_step. read_step. carry.
  skip_step. after 40. apply decodeIPv6_NextHdr_within; [behind..| |behind|behind|done|done].
  rewrite Z.add_mod, Ha; done.
Qed.

(** ** ARP and LLDP *)

Lemma decodeARP_within addr data s :
  wf s -> bytes_ok data -> addr mod 4 = 0 -> 0 <= mp_offset s -> mp_offset s + zlen data < 2 ^ 64 ->
  In (eth_is 0x0806) (mp_match s) ->
  wp (decodeARP addr data s) (within (zlen data) s).
Proof.
  intros Hwf Hb Ha H0 Hmax He. unfold decodeARP, sizeof_Arp. cast_step.
  read_step. destruct (negb _); [apply within_refl; [done|apply zlen_nonneg]|].
  repeat read_step. repeat add_step. skip_step. cbn [wp].
  destruct (IsMemFilled _ _); [|apply within_advance; [chase|lia..]].
  apply (within_after _ 28 s s4); [chase|lia..|]. rewrite <- after_length by lia.
  apply within_advance; [apply grows_refl; well|done|pose proof (zlen_nonneg (after 28 data)); lia|behind..].
Qed.

Lemma LLDPValue_make_some val :
  bytes_ok val -> exists buf, LLDPValue_make val = Some buf /\ zlen buf = 64 /\ bytes_ok buf /\
    LLDPValue_toRange buf = Some (take 63 val).
Proof.
  intros Hb. unfold LLDPValue_make, LLDP_MaxSize. pose proof (zlen_nonneg val).
  set (len := if 63 <? zlen val then 63 else zlen val).
  assert (0 <= len <= 63 /\ len <= zlen val /\ take (Z.to_nat len) val = take 63 val) as (Hl & Hv & Et).
  { unfold len. destruct (Z.ltb_spec 63 (zlen val)); [split_and!; [lia..|done]|].
    split_and!; [lia..|]. rewrite !take_ge; [done|unfold zlen in *; lia..]. }
  clearbody len. rewrite slice_some by lia. cbn [mbind option_bind]. rewrite drop_0, Et.
  assert (zlen (take 63 val) = len) as Hz by (rewrite <- Et, zlen_take; lia).
  set (v := take 63 val) in *.
  change (replicate 64 0) with ([0] ++ replicate 63 0).
  rewrite (wr_split _ 1 v [0] (replicate (length v) 0) (replicate (63 - length v) 0)); cycle 1.
  { f_equal. rewrite <- replicate_add. f_equal. unfold zlen in *. lia. }
  { done. } { unfold zlen. by rewrite length_replicate. }
  cbn [mbind option_bind]. rewrite (proj2 (Z.leb_le _ _)) by lia.
  rewrite (wr_split _ 0 [u8 len] [] [0] (v ++ replicate (63 - length v) 0)) by done.
  eexists. split; [done|]. cbn [app]. rewrite u8_small by lia.
  assert (bytes_ok v) as Hv' by (by apply Forall_take). split_and!.
  - autorewrite with zlen. unfold zlen in *. lia.
  - constructor; [unfold is_byte; lia|]. apply Forall_app. split; [done|]. by apply Forall_replicate.
  - unfold LLDPValue_toRange, LLDPValue_size, LLDP_MaxSize.
    change (rd8 (len :: v ++ replicate (63 - length v) 0) 0) with (Some len). cbn [mbind option_bind].
    rewrite (proj2 (Z.leb_le len 63)) by lia.
    rewrite (slice_split _ 1 len [len] v (replicate (63 - length v) 0)) by done. done.
Qed.

Lemma lldp_section_grows le type value s :
  wf s -> bytes_ok value ->
  wp (lldp_section le type value s) (fun s' => grows s s' /\ mp_offset s' = mp_offset s).
Proof.
  intros Hwf Hb. unfold lldp_section. destruct (LLDPValue_make_some value Hb) as (buf & -> & Hl & Hbuf & _).
  pose proof (Big_fromBytes_size_spec le W2 value Hb) as E2.
  assert (forall t d, 0 <= t < 2 ^ 32 -> oxm_length t = 4 + zlen d -> bytes_ok d -> isIllegal t = false ->
    tab_prereqs t = [] -> wp (addInternal t d s) (fun s' => grows s s' /\ mp_offset s' = mp_offset s)) as Hadd.
  { intros. apply wp_tail, wp_addInternal; [done|by apply item_ok_internal|done..|]. by intros. }
  cbn [mbind option_bind]. split_ifs;
    try (apply Hadd; [type_range|rewrite Hl; by vm_compute|done..]).
  - rewrite E2. cbn [mbind option_bind].
    apply Hadd; [type_range|rewrite zlen_be_bytes; by vm_compute|apply be_bytes_ok|done..].
  - split; [by apply grows_refl|done].
Qed.

Lemma LLDPTlv_length_range t0 t1 : 0 <= t0 < 256 -> 0 <= t1 < 256 -> 0 <= LLDPTlv_length t0 t1 < 512.
Proof.
  intros. unfold LLDPTlv_length. rewrite (land_ones_mod t0 1), Z.shiftl_mul_pow2, lor_hi_lo by (lia || done).
  pose proof (Z.mod_pos_bound t0 (2 ^ 1)). lia.
Qed.

Lemma decodeLLDP_within fuel le data s :
  wf s -> bytes_ok data -> 0 <= mp_offset s -> mp_offset s + zlen data < 2 ^ 64 -> (length data <= fuel)%nat ->
  wp (decodeLLDP fuel le data s) (within (zlen data) s).
Proof.
  revert data s. induction fuel as [|fuel IH]; intros data s Hwf Hb H0 Hmax Hf; cbn [decodeLLDP];
    pose proof (zlen_nonneg data).
  { destruct data; [|simpl in Hf; lia]. by apply within_refl. }
  pose proof (within_refl (zlen data) s Hwf ltac:(done)) as Hstop.
  destruct (Z.eqb_spec (zlen data) 0); [done|]. destruct (Z.ltb_spec (zlen data) 2); [done|].
  repeat read_step. pose proof (LLDPTlv_length_range v v0) as Hr. set (len := LLDPTlv_length v v0) in *.
  destruct (Z.ltb_spec (zlen data) (len + 2)); [done|].
  destruct (_ =? LLDP_END); [apply within_advance; [by apply grows_refl|lia..]|].
  read_step. eapply wp_bind; [by apply lldp_section_grows|]. intros s' [G E].
  rewrite (proj2 (Z.leb_le _ _)) by lia. skip_step. after (len + 2).
  apply IH; [behind..|unfold after; rewrite length_drop; unfold zlen in *; lia].
Qed.

(** ** Ethernet *)

Lemma frame_snoc v l : Forall (fun i => item_type i <= OFB_IP_PROTO) l -> frame v (l ++ [eth_is v]).
Proof. intros. by exists l, []. Qed.

Lemma decode_ethType_within le ethType addr data s :
  wf s -> bytes_ok data -> addr mod 4 = 0 -> 0 <= mp_offset s -> mp_offset s + zlen data < 2 ^ 64 ->
  Forall (fun i => item_type i <= OFB_IP_PROTO) (mp_match s) ->
  wp (decode_ethType le ethType addr data s) (within (zlen data) s).
Proof.
  intros Hwf Hb Ha H0 Hmax Hle. unfold decode_ethType, addUnchecked.
  assert (item_ok (eth_is ethType)) as Hi by (apply item_ok_be; [type_range|by vm_compute]).
  change (oxm_length OFB_ETH_TYPE =? zlen (be_bytes 2 ethType)) with true. cbn [mbind option_bind].
  set (s' := mkMP _ _). assert (grows s s') as G.
  { apply grows_append; [done|]. split_and!; [by apply Hi..|done|]. intros g Hg. by vm_compute in Hg. }
  assert (frame ethType (mp_match s')) as Hf by (by apply frame_snoc).
  assert (mp_offset s' = mp_offset s) as E by done. clearbody s'. pose proof (frame_in _ _ Hf).
  assert (wf s') as Hwf' by apply G.
  eapply (wp_mono _ (within (zlen data) s')); [|intros s'' [G' Ho]; split; [chase|lia]].
  destruct (Z.eqb_spec ethType DATALINK_ARP) as [-> |]; [apply decodeARP_within; done || lia|].
  destruct (Z.eqb_spec ethType DATALINK_IPV4) as [-> |]; [apply decodeIPv4_within; done || lia|].
  destruct (Z.eqb_spec ethType DATALINK_IPV6) as [-> |]; [apply decodeIPv6_within; done || lia|].
  destruct (_ || _); [|apply within_refl; [done|apply zlen_nonneg]].
  apply decodeLLDP_within; done || lia.
Qed.

(** The address that the code expects: two bytes behind a multiple of eight. *)
Lemma aligned_packet addr : isAlignedPacket addr = true <-> addr mod 8 = 2.
Proof. unfold isAlignedPacket. rewrite (land_ones_mod addr 3) by done. apply Z.eqb_eq. Qed.

Lemma vlan_present tci :
  0 <= tci < 65536 ->
  satisfies (Item (withMask OFB_VLAN_VID) [0x10; 0x00; 0x10; 0x00])
    (Item OFB_VLAN_VID (be_bytes 2 (Z.lor (Z.land tci 0x0FFF) OFPVID_PRESENT))) = true.
Proof.
  intros. rewrite (land_ones_mod tci 12) by done. pose proof (Z.mod_pos_bound tci (2 ^ 12) ltac:(done)) as Hr.
  revert Hr. generalize (tci mod 2 ^ 12) as x. intros x Hr. revert x Hr.
  apply (small_check (fun x => satisfies (Item (withMask OFB_VLAN_VID) [0x10; 0x00; 0x10; 0x00])
    (Item OFB_VLAN_VID (be_bytes 2 (Z.lor x OFPVID_PRESENT)))) 4096). by vm_compute.
Qed.

(** The fields in front of the Ethernet type. *)
Definition low (s : MatchPacket) : Prop := Forall (fun i => item_type i <= OFB_IP_PROTO) (mp_match s).

Lemma wp_add_low t d s {B} (k : MatchPacket -> option B) Q :
  wf s -> low s -> item_ok (Item t d) -> isIllegal t = false -> met (mp_match s) (Item t d) -> t <= OFB_IP_PROTO ->
  (forall s', grows s s' -> low s' -> In (Item t d) (mp_match s') -> mp_offset s' = mp_offset s -> wp (k s') Q) ->
  wp (s' ← addUnchecked t d s; k s') Q.
Proof.
  intros Hw Hl Hi Hil Hm Ht K. unfold addUnchecked. pose proof Hi as (_ & El & _). cbn in El.
  rewrite (proj2 (Z.eqb_eq _ _)) by done. cbn [mbind option_bind].
  apply K; [by apply grows_append| |apply in_app_iff; right; by left|done].
  apply Forall_app. split; [done|]. by constructor.
Qed.

Lemma decodeEthernet_within le addr data s :
  wf s -> low s -> bytes_ok data -> addr mod 8 = 2 -> 0 <= mp_offset s -> mp_offset s + zlen data < 2 ^ 64 ->
  wp (decodeEthernet le addr data s) (within (zlen data) s).
Proof.
  intros Hwf Hlow Hb Ha H0 Hmax. unfold decodeEthernet, sizeof_Ethernet, sizeof_VlanHdr.
  rewrite (proj2 (aligned_packet addr)) by done.
  assert (IsPtrAligned addr 2 = true /\ (addr + 14) mod 4 = 0 /\ (addr + 14 + 4) mod 4 = 0) as (A2 & A4 & A4').
  { change (IsPtrAligned addr 2) with (IsPtrAligned addr (2 ^ 1)). rewrite IsPtrAligned_pow2 by done.
    revert Ha. Z.to_euclidean_division_equations. lia. }
  apply wp_cast; [done|intros _; apply within_refl; [done|apply zlen_nonneg]|]. intros Hl. cbn [negb].
  repeat read_step.
  apply wp_add_low; [done|done|item_shape|done|prereqs|by vm_compute|]. intros s1 G1 L1 _ E1.
  apply wp_add_low; [well|done|item_shape|done|prereqs|by vm_compute|]. intros s2 G2 L2 _ E2.
  skip_step. after 14. pose proof (after_ok 14 data Hb) as Hb'. pose proof (after_length 14 data ltac:(lia)) as Hl'.
  assert (mp_offset (advance 14 s2) = mp_offset s + 14) as E14 by (rewrite advance_offset; lia).
  assert (wf (advance 14 s2)) as W14 by (change (wf s2); well). assert (low (advance 14 s2)) as L14 by done.
  set (s3 := advance 14 s2) in *. set (d := after 14 data) in *. clearbody s3 d.
  destruct (v =? DATALINK_8021Q); [|apply decode_ethType_within; try done; lia].
  apply wp_cast; [by apply aligned2| |]; intros Hv; cbn [negb].
  { apply wp_tail, wp_add; [done|item_shape|done|prereqs|]. intros s4 G4 _ E4. split; [done|].
    pose proof (zlen_nonneg d). lia. }
  repeat read_step.
  apply wp_add_low; [done|done|item_shape|done|prereqs|by vm_compute|]. intros s4 G4 L4 Hin E4.
  apply (wp_bind _ _ (fun s' => grows s4 s' /\ low s' /\ mp_offset s' = mp_offset s4)).
  { unfold addNonzero. destruct (negb _); [|by split_and!; [apply grows_refl; well| |]].
    apply wp_tail, wp_add_low; [well|done|item_shape|done| |by vm_compute|intros; by split_and!].
    intros g Hg. cbn [item_type] in Hg. vm_compute in Hg. destruct Hg as [<-|[]].
    eexists _, _. split; [by left|]. split; [exact Hin|]. by apply vlan_present. }
  intros s5 (G5 & L5 & E5). skip_step. after 4. apply decode_ethType_within; try done; behind.
Qed.

(** ** The constructor *)

(** Where the frame is decoded: at its own address, or in the copy, behind the padding
    that the constructor computes. The address must be two past a multiple of eight. *)
Definition decodable (range : ByteRange) (buffer : Z) : Prop :=
  br_addr range mod 8 = 2 \/ (buffer + (10 - br_addr range mod 8) mod 8) mod 8 = 2.

Lemma make_decode le range buffer :
  exists addr, MatchPacket_make le range buffer = decode le addr (br_data range) (mkMP [] 0) /\
    (decodable range buffer <-> addr mod 8 = 2).
Proof.
  unfold MatchPacket_make, decodable. destruct (isAlignedPacket (br_addr range)) eqn:E.
  { apply aligned_packet in E. exists (br_addr range). split; [done|]. tauto. }
  assert (br_addr range mod 8 <> 2) as Hn by (intros H%aligned_packet; congruence).
  rewrite (land_ones_mod (br_addr range) 3) by done. change (2 ^ 3) with 8.
  pose proof (Z.mod_pos_bound (br_addr range) 8 ltac:(done)) as Hm. replace (negb _ && _) with true by lia.
  set (pad := (10 - br_addr range mod 8) mod 8). assert (0 <= pad) as Hp by (by apply Z.mod_pos_bound).
  pose proof (zlen_nonneg (br_data range)).
  rewrite skip_some by (rewrite zlen_app, zlen_replicate; lia). cbn [mbind option_bind]. exists (buffer + pad). split; [|tauto].
  f_equal. unfold after. by rewrite drop_app_length' by (by rewrite length_replicate).
Qed.

Lemma undecodable le addr data s : addr mod 8 <> 2 -> decode le addr data s = None.
Proof.
  intros H. unfold decode. destruct (isAlignedPacket addr) eqn:E; [|done]. by apply aligned_packet in E.
Qed.

Definition pkt_pos (offset : Z) : oxm_item :=
  Item X_PKT_POS (be_bytes 4 X_EXPERIMENTER ++ be_bytes 2 (u16 offset)).

Lemma decode_spec le addr data :
  addr mod 8 = 2 -> bytes_ok data -> zlen data < 2 ^ 64 ->
  exists items offset, decode le addr data (mkMP [] 0) =
      Some (mkMP (items ++ if offset <? zlen data then [pkt_pos offset] else []) offset) /\
    0 <= offset <= zlen data /\
    in_sequence [] (items ++ if offset <? zlen data then [pkt_pos offset] else []).
Proof.
  intros Ha Hb Hmax. unfold decode. rewrite (proj2 (aligned_packet addr)) by done.
  assert (wf (mkMP [] 0)) as Hw by done.
  pose proof (decodeEthernet_within le addr data (mkMP [] 0) Hw) as H.
  apply wp_some in H as ([items offset] & -> & [(Hw' & _) Ho]); [|by constructor|done..].
  cbn [mp_offset mp_match mbind option_bind] in *. exists items, offset.
  destruct (Z.ltb_spec offset (zlen data)); [|rewrite app_nil_r; split_and!; done || lia].
  unfold addInternal. change (oxm_length X_PKT_POS =? zlen (be_bytes 2 (u16 offset)) + 4) with true.
  split_and!; [done|lia..|]. rewrite sequence_app. split; [done|]. cbn [in_sequence]. split; [|done].
  split; [apply item_ok_internal; [type_range|rewrite zlen_be_bytes; by vm_compute|apply be_bytes_ok]|].
  split; [done|]. intros g Hg. by vm_compute in Hg.
Qed.

(** C6. A frame at a decodable address, however it is cut or corrupted, is decoded
    without an access outside it, without a failing assertion and without an endless
    loop. The offset stays inside the frame, and is recorded in the match when it is
    not its end. Each recorded field is well formed and legal, and comes after
    fields that meet its prerequisites. At any other address the decoder's first
    assertion fails. Addresses that are 2 modulo 8 are decodable; with a copy whose
    buffer is aligned to eight bytes, multiples of eight are too, and no others: the
    comment on the copy says that it is appropriately aligned. *)
Theorem decode_safe le range buffer : bytes_ok (br_data range) -> br_size range < 2 ^ 64 ->
  (decodable range buffer ->
   exists s items, MatchPacket_make le range buffer = Some s /\ 0 <= mp_offset s <= br_size range /\
     mp_match s = items ++ (if mp_offset s <? br_size range then [pkt_pos (mp_offset s)] else []) /\
     forall l1 i l2, mp_match s = l1 ++ i :: l2 ->
       item_ok i /\ isIllegal (item_type i) = false /\ met l1 i) /\
  (~ decodable range buffer -> MatchPacket_make le range buffer = None) /\
  (buffer mod 8 = 0 -> (decodable range buffer <-> br_addr range mod 8 = 0 \/ br_addr range mod 8 = 2)).
Proof.
  intros Hb Hmax. destruct (make_decode le range buffer) as (addr & -> & Ha). split_and!.
  - intros Hd%Ha. destruct (decode_spec le addr (br_data range) Hd Hb Hmax) as (items & offset & -> & Ho & Hc).
    eexists _, items. split; [done|]. cbn [mp_offset mp_match]. unfold br_size. split; [done|].
    split; [done|]. intros l1 i l2 E. apply (sequence_in_place l1 i l2). by rewrite <- E.
  - intros Hn. apply undecodable. tauto.
  - intros Hbuf. unfold decodable. revert Hbuf. clear. Z.to_euclidean_division_equations. lia.
Qed.

(** A table that lists at least the prerequisites of oxmfields.tab for the
    fields that have any. *)
Definition covers_tab (lookupInfo : Z -> option (option (list oxm_item))) : Prop :=
  forall t preqs, lookupInfo t = Some (Some preqs) -> exists g, In g (tab_prereqs t) /\ incl g preqs.

(** C28. The match of a decoded frame passes the prerequisite check of
    [MatchBuilder::validate], for every table that covers oxmfields.tab. *)
Theorem decoded_match_valid lookupInfo le range buffer :
  table_ok lookupInfo -> covers_tab lookupInfo ->
  decodable range buffer -> bytes_ok (br_data range) -> br_size range < 2 ^ 64 ->
  exists s, MatchPacket_make le range buffer = Some s /\
    MatchBuilder_validate lookupInfo (mp_match s) = Some (true, None).
Proof.
  intros Ht Hcov Hd Hb Hmax. destruct (make_decode le range buffer) as (addr & -> & Ha). apply Ha in Hd.
  destruct (decode_spec le addr (br_data range) Hd Hb Hmax) as (items & offset & -> & Ho & Hc).
  eexists. split; [done|]. cbn [mp_match]. set (l := items ++ _) in *. clearbody l.
  unfold MatchBuilder_validate, checkAll.
  destruct (check_items_spec lookupInfo [] l None Ht) as (b & r & -> & Hiff & Hr).
  { by eapply sequence_items_ok. }
  destruct b; [by rewrite Hr|]. exfalso. enough (false = true) by done. apply Hiff. cbn [app].
  intros l1 i l2 ->. destruct (sequence_in_place l1 i l2 Hc) as (_ & Hil & Hm). split; [done|].
  intros _ preqs El. destruct (Hcov _ _ El) as (g & Hg & Hi).
  destruct (Hm g Hg) as (p & j & Hp & Hj & Hs). exists p, j. auto.
Qed.

(** A TCP segment in an Ethernet frame. *)
Definition tcp_frame : list Z :=
  [0; 0; 0; 0; 0; 1] ++ [0; 0; 0; 0; 0; 2] ++ [0x08; 0x00] ++
  [0x45; 0; 0; 40; 0; 0; 0; 0; 64; 6; 0; 0; 10; 0; 0; 1; 10; 0; 0; 2] ++
  [0; 80; 0x1f; 0x90; 0; 0; 0; 1; 0; 0; 0; 0; 0x50; 0x02; 0; 0; 0; 0; 0; 0].

Lemma tcp_frame_ok : bytes_ok tcp_frame.
Proof. unfold tcp_frame. bytes. Qed.

Lemma decode_safe_witness :
  exists s items, MatchPacket_make true (mkRange 2 tcp_frame) 0 = Some s /\
    0 <= mp_offset s <= br_size (mkRange 2 tcp_frame) /\
    mp_match s = items ++ (if mp_offset s <? br_size (mkRange 2 tcp_frame) then [pkt_pos (mp_offset s)] else []) /\
    forall l1 i l2, mp_match s = l1 ++ i :: l2 ->
      item_ok i /\ isIllegal (item_type i) = false /\ met l1 i.
Proof. exact (proj1 (decode_safe true (mkRange 2 tcp_frame) 0 tcp_frame_ok eq_refl) (or_introl eq_refl)). Defined.

Lemma oxm_table_covers : covers_tab oxm_table.
Proof.
  intros t preqs. unfold oxm_table. destruct (t =? ETH_TYPE); [done|].
  destruct (Z.eqb_spec t IP_PROTO) as [-> |].
  { intros [= <-]. exists eth_preqs. split; [by left|apply incl_refl]. }
  destruct (_ || _) eqn:E; [|done]. intros [= <-].
  exists [Item IP_PROTO [6]]. split; [|apply incl_appr, incl_refl].
  apply orb_prop in E as [->%Z.eqb_eq | ->%Z.eqb_eq]; by left.
Qed.

Lemma decoded_match_valid_witness :
  exists s, MatchPacket_make true (mkRange 2 tcp_frame) 0 = Some s /\
    MatchBuilder_validate oxm_table (mp_match s) = Some (true, None).
Proof.
  exact (decoded_match_valid oxm_table true (mkRange 2 tcp_frame) 0 oxm_table_ok oxm_table_covers
    (or_introl eq_refl) tcp_frame_ok eq_refl).
Defined.
