(* ===== verification/PacketBuilder.v ===== *)
(** * From match fields to packets (src/ofp/matchpacketbuilder.cpp,
    include/ofp/matchpacketbuilder.h)

    [MatchPacketBuilder] collects the fields of a match and writes the packet
    that has them, the inverse of MatchPacket.v. The fields of the object are a
    record of native values; addresses are byte lists, an LLDP value its 64
    bytes. A [ByteList] is its bytes. The checksums are computed over local
    structures, whose address is a parameter, as is the host's byte order;
    [None] is a failing assertion. *)

From coqutil Require Import Datatypes.RecordSetters.
From S2P Require Import Prelude.
From S2P Require Import ByteOrder.
From S2P Require Import Hex.
From S2P Require Import SmallBuffer.
From S2P Require Import Constants.
From S2P Require Import ProtocolRange.
From S2P Require Import Oxm.
From S2P Require Import Prereq.
From S2P Require Import Matches.
From S2P Require Import Packet.
From S2P Require Import MatchPacket.
From S2P Require Import PacketSafe.
Import DoubleBraceUpdate.

(** ** The object *)

Record MatchPacketBuilder := mkPB {
  pb_ethDst : list Z; pb_ethSrc : list Z; pb_ethType : Z; pb_vlanVid : Z; pb_vlanPcp : Z;
  pb_arpOp : Z; pb_arpSpa : list Z; pb_arpTpa : list Z; pb_arpSha : list Z; pb_arpTha : list Z;
  pb_icmpType : Z; pb_icmpCode : Z;
  pb_ipv4Src : list Z; pb_ipv4Dst : list Z; pb_ipv6Src : list Z; pb_ipv6Dst : list Z;
  pb_srcPort : Z; pb_dstPort : Z; pb_ipProto : Z; pb_ipTtl : Z;
  pb_ndTarget : list Z; pb_ndLl : list Z; pb_ndRes : Z;
  pb_lldpChassisId : list Z; pb_lldpPortId : list Z; pb_lldpTtl : Z;
  pb_lldpSysName : list Z; pb_lldpPortDescr : list Z; pb_lldpCustom : list (list Z) }.

Definition MatchPacketBuilder_init : MatchPacketBuilder :=
  mkPB (zeros 6) (zeros 6) 0 0 0 0 (zeros 4) (zeros 4) (zeros 6) (zeros 6) 0 0
    (zeros 4) (zeros 4) (zeros 16) (zeros 16) 0 0 0 0 (zeros 16) (zeros 6) 0
    (zeros 64) (zeros 64) 0 (zeros 64) (zeros 64) [].

(** The loop body of the constructor. The value of an internal field is behind
    its experimenter. *)
Definition builder_item (t : Z) (value mask : Z -> option (list Z)) (b : MatchPacketBuilder)
    : option MatchPacketBuilder :=
  let exp_value n := drop 4 <$> value (4 + n) in
  if t =? OFB_ETH_DST then v ← value 6; Some (b {{ pb_ethDst := v }})
  else if t =? OFB_ETH_SRC then v ← value 6; Some (b {{ pb_ethSrc := v }})
  else if t =? OFB_ETH_TYPE then v ← be <$> value 2; Some (b {{ pb_ethType := v }})
  else if t =? OFB_VLAN_VID then v ← be <$> value 2; Some (b {{ pb_vlanVid := v }})
  else if t =? OFB_VLAN_PCP then v ← be <$> value 1; Some (b {{ pb_vlanPcp := v }})
  else if t =? OFB_ARP_OP then v ← be <$> value 2; Some (b {{ pb_arpOp := v }})
  else if t =? OFB_ARP_SHA then v ← value 6; Some (b {{ pb_arpSha := v }})
  else if t =? OFB_ARP_SPA then v ← value 4; Some (b {{ pb_arpSpa := v }})
  else if t =? OFB_ARP_THA then v ← value 6; Some (b {{ pb_arpTha := v }})
  else if t =? OFB_ARP_TPA then v ← value 4; Some (b {{ pb_arpTpa := v }})
  else if t =? OFB_IPV4_SRC then v ← value 4; Some (b {{ pb_ipv4Src := v }})
  else if t =? OFB_IPV4_DST then v ← value 4; Some (b {{ pb_ipv4Dst := v }})
  else if t =? OFB_IPV6_SRC then v ← value 16; Some (b {{ pb_ipv6Src := v }})
  else if t =? OFB_IPV6_DST then v ← value 16; Some (b {{ pb_ipv6Dst := v }})
  else if t =? OFB_IP_PROTO then v ← be <$> value 1; Some (b {{ pb_ipProto := v }})
  else if t =? NXM_NX_IP_TTL then v ← be <$> value 1; Some (b {{ pb_ipTtl := v }})
  else if t =? OFB_TCP_SRC then v ← be <$> value 2; Some (b {{ pb_srcPort := v }})
  else if t =? OFB_TCP_DST then v ← be <$> value 2; Some (b {{ pb_dstPort := v }})
  else if t =? OFB_ICMPV4_CODE then v ← be <$> value 1; Some (b {{ pb_icmpCode := v }})
  else if t =? OFB_ICMPV6_CODE then v ← be <$> value 1; Some (b {{ pb_icmpCode := v }})
  else if t =? OFB_ICMPV4_TYPE then v ← be <$> value 1; Some (b {{ pb_icmpType := v }})
  else if t =? OFB_ICMPV6_TYPE then v ← be <$> value 1; Some (b {{ pb_icmpType := v }})
  else if t =? OFB_IPV6_ND_TARGET then v ← value 16; Some (b {{ pb_ndTarget := v }})
  else if t =? OFB_IPV6_ND_SLL then v ← value 6; Some (b {{ pb_ndLl := v }})
  else if t =? OFB_IPV6_ND_TLL then v ← value 6; Some (b {{ pb_ndLl := v }})
  else if t =? X_LLDP_CHASSIS_ID then v ← exp_value 64; Some (b {{ pb_lldpChassisId := v }})
  else if t =? X_LLDP_PORT_ID then v ← exp_value 64; Some (b {{ pb_lldpPortId := v }})
  else if t =? X_LLDP_TTL then v ← be <$> exp_value 2; Some (b {{ pb_lldpTtl := v }})
  else if t =? X_LLDP_SYS_NAME then v ← exp_value 64; Some (b {{ pb_lldpSysName := v }})
  else if t =? X_LLDP_PORT_DESCR then v ← exp_value 64; Some (b {{ pb_lldpPortDescr := v }})
  else if t =? X_LLDP_ORG_SPECIFIC then
    v ← exp_value 64; Some (b {{ pb_lldpCustom := pb_lldpCustom b ++ [v] }})
  else if t =? X_IPV6_ND_RES then v ← be <$> exp_value 4; Some (b {{ pb_ndRes := v }})
  else Some b.

Definition MatchPacketBuilder_make (range : list Z) : option MatchPacketBuilder :=
  ok ← OXMRange_validateInput range;
  assert! (ok : bool);; for_items builder_item (length range) range 0 MatchPacketBuilder_init.

(** ** Headers *)

Definition kDefaultIPv4_TTL : Z := 64.
Definition kDefaultIPv6_TTL : Z := 64.
Definition kMinEthernetFrameDataSize : Z := 60.

Section Build.
Context (le : bool) (local local' : Z) (b : MatchPacketBuilder).

(** The bytes of a [Big16] that holds the host integer [n]. *)
Definition cksum_bytes (n : Z) : list Z := host_store le W2 n.

Definition addEthernet : list Z :=
  if pb_vlanVid b =? OFPVID_NONE then
    pb_ethDst b ++ pb_ethSrc b ++ be_bytes 2 (pb_ethType b)
  else
    let tci := u16 (Z.lor (Z.shiftl (pb_vlanPcp b) 13) (Z.land (pb_vlanVid b) 0x0fff)) in
    (pb_ethDst b ++ pb_ethSrc b ++ be_bytes 2 DATALINK_8021Q) ++ be_bytes 2 tci ++ be_bytes 2 (pb_ethType b).

Definition IPv4Hdr_bytes (length ttl proto : Z) (cksum src dst : list Z) : list Z :=
  be_bytes 1 0x45 ++ be_bytes 1 0 ++ be_bytes 2 length ++ be_bytes 2 0 ++ be_bytes 2 0 ++ be_bytes 1 ttl ++
  be_bytes 1 proto ++ cksum ++ src ++ dst.

Definition addIPv4 (length : Z) : option (list Z) :=
  let hdr cksum := IPv4Hdr_bytes (u16 (sizeof_IPv4Hdr + length))
    (if negb (pb_ipTtl b =? 0) then pb_ipTtl b else kDefaultIPv4_TTL) (pb_ipProto b) cksum
    (pb_ipv4Src b) (pb_ipv4Dst b) in
  cksum ← Checksum1 le (mkRange local (hdr [0; 0]));
  Some (hdr (cksum_bytes cksum)).

Definition addIPv6 (length : Z) : list Z :=
  be_bytes 4 0x60000000 ++ be_bytes 2 (u16 length) ++ be_bytes 1 (pb_ipProto b) ++
  be_bytes 1 (if negb (pb_ipTtl b =? 0) then pb_ipTtl b else kDefaultIPv6_TTL) ++
  pb_ipv6Src b ++ pb_ipv6Dst b.

(** ** Packets *)

Definition buildEthernet (data : ByteRange) : option (list Z) := Some (addEthernet ++ br_data data).

Definition buildArp : option (list Z) :=
  Some (addEthernet ++ OFP_ARP_PREFIX ++ be_bytes 2 (pb_arpOp b) ++ pb_arpSha b ++ pb_arpSpa b ++
        pb_arpTha b ++ pb_arpTpa b).

(** One section: the two-byte header and the value. *)
Definition lldp_tlv (type : Z) (value : list Z) : option (list Z) :=
  tlv ← LLDPTlv_make type (zlen value); Some (tlv ++ value).

Definition lldp_value (type : Z) (v : list Z) : option (list Z) :=
  value ← LLDPValue_toRange v; lldp_tlv type value.

Definition lldp_optional (type : Z) (v : list Z) : option (list Z) :=
  e ← LLDPValue_empty v; if negb e then lldp_value type v else Some [].

Fixpoint lldp_custom (vs : list (list Z)) : option (list Z) :=
  match vs with
  | [] => Some []
  | v :: vs => t ← lldp_value LLDP_ORG_SPECIFIC v; rest ← lldp_custom vs; Some (t ++ rest)
  end.

Definition buildLldp : option (list Z) :=
  tlv1 ← lldp_value LLDP_CHASSIS_ID (pb_lldpChassisId b);
  tlv2 ← lldp_value LLDP_PORT_ID (pb_lldpPortId b);
  tlv3 ← lldp_tlv LLDP_TTL (be_bytes 2 (pb_lldpTtl b));
  name ← lldp_optional LLDP_SYS_NAME (pb_lldpSysName b);
  descr ← lldp_optional LLDP_PORT_DESCR (pb_lldpPortDescr b);
  custom ← lldp_custom (pb_lldpCustom b);
  end_ ← LLDPTlv_make LLDP_END 0;
  Some (addEthernet ++ tlv1 ++ tlv2 ++ tlv3 ++ name ++ descr ++ custom ++ end_).

Definition buildIPv4_other (data : ByteRange) : option (list Z) :=
  ip ← addIPv4 (br_size data); Some (addEthernet ++ ip ++ br_data data).

Definition ICMPHdr_bytes (cksum : list Z) : list Z :=
  be_bytes 1 (pb_icmpType b) ++ be_bytes 1 (pb_icmpCode b) ++ cksum.

Definition buildICMPv4 (data : ByteRange) : option (list Z) :=
  ip ← addIPv4 (sizeof_ICMPHdr + br_size data);
  cksum ← Checksum2 le (mkRange local (ICMPHdr_bytes [0; 0])) data;
  Some (addEthernet ++ ip ++ ICMPHdr_bytes (cksum_bytes cksum) ++ br_data data).

Definition TCPHdr_bytes (cksum : list Z) : list Z :=
  be_bytes 2 (pb_srcPort b) ++ be_bytes 2 (pb_dstPort b) ++ be_bytes 4 0 ++ be_bytes 4 0 ++ be_bytes 2 0 ++
  be_bytes 2 0 ++ cksum ++ be_bytes 2 0.

Definition buildTCPv4 (data : ByteRange) : option (list Z) :=
  ip ← addIPv4 (sizeof_TCPHdr + br_size data);
  cksum ← Checksum2 le (mkRange local (TCPHdr_bytes [0; 0])) data;
  Some (addEthernet ++ ip ++ TCPHdr_bytes (cksum_bytes cksum) ++ br_data data).

Definition buildIPv4 (data : ByteRange) : option (list Z) :=
  if pb_ipProto b =? PROTOCOL_ICMP then buildICMPv4 data
  else if pb_ipProto b =? PROTOCOL_TCP then buildTCPv4 data
  else buildIPv4_other data.

Definition buildIPv6_other (data : ByteRange) : option (list Z) :=
  Some (addEthernet ++ addIPv6 (br_size data) ++ br_data data).

Definition IPv6PseudoHdr_bytes (upperLength : Z) : list Z :=
  pb_ipv6Src b ++ pb_ipv6Dst b ++ be_bytes 4 (u32 upperLength) ++ [0; 0; 0] ++ be_bytes 1 (pb_ipProto b).

Definition buildICMPv6 (data : ByteRange) : option (list Z) :=
  let len := sizeof_ICMPHdr + br_size data in
  cksum ← Checksum3 le (mkRange local (IPv6PseudoHdr_bytes len)) (mkRange local' (ICMPHdr_bytes [0; 0])) data;
  Some (addEthernet ++ addIPv6 len ++ ICMPHdr_bytes (cksum_bytes cksum) ++ br_data data).

Definition nd_body : list Z :=
  be_bytes 4 (if pb_icmpType b =? ICMPV6_TYPE_NEIGHBOR_ADVERTISE then pb_ndRes b else 0) ++
  pb_ndTarget b ++
  be_bytes 1 (if pb_icmpType b =? ICMPV6_TYPE_NEIGHBOR_SOLICIT then ICMPV6_OPTION_SLL else ICMPV6_OPTION_TLL) ++
  be_bytes 1 1 ++ pb_ndLl b.

Definition buildICMPv6_ND : option (list Z) :=
  assert! (pb_icmpType b =? ICMPV6_TYPE_NEIGHBOR_SOLICIT) ||
          (pb_icmpType b =? ICMPV6_TYPE_NEIGHBOR_ADVERTISE);;
  buildICMPv6 (mkRange local nd_body).

Definition buildIPv6 (data : ByteRange) : option (list Z) :=
  if pb_ipProto b =? PROTOCOL_ICMPV6 then
    if (pb_icmpType b =? ICMPV6_TYPE_NEIGHBOR_SOLICIT) || (pb_icmpType b =? ICMPV6_TYPE_NEIGHBOR_ADVERTISE)
    then buildICMPv6_ND else buildICMPv6 data
  else buildIPv6_other data.

Definition pad60 (msg : list Z) : list Z :=
  if zlen msg <? kMinEthernetFrameDataSize
  then msg ++ zeros (Z.to_nat (kMinEthernetFrameDataSize - zlen msg)) else msg.

Definition build (data : ByteRange) : option (list Z) :=
  msg ← (if pb_ethType b =? DATALINK_ARP then buildArp
         else if pb_ethType b =? DATALINK_LLDP then buildLldp
         else if pb_ethType b =? DATALINK_IPV4 then buildIPv4 data
         else if pb_ethType b =? DATALINK_IPV6 then buildIPv6 data
         else buildEthernet data);
  Some (pad60 msg).
End Build.

(** ** Builders in good shape *)

Definition field_ok (n : Z) (v : list Z) : Prop := zlen v = n /\ bytes_ok v.

(** An LLDP value as the constructor [LLDPValue(const ByteRange &)] makes it. *)
Definition lldp_ok (v : list Z) : Prop :=
  exists val, bytes_ok val /\ zlen val <= 63 /\ LLDPValue_make val = Some v.

(** Fields as a match can give them: a VLAN tag has the [OFPVID_PRESENT] bit,
    and a priority comes with a tag. *)
Record pb_ok (b : MatchPacketBuilder) : Prop := mkPBok {
  ok_ethDst : field_ok 6 (pb_ethDst b); ok_ethSrc : field_ok 6 (pb_ethSrc b);
  ok_ethType : 0 <= pb_ethType b < 2 ^ 16; ok_not_vlan : pb_ethType b ≠ DATALINK_8021Q;
  ok_vlan : (pb_vlanVid b = 0 /\ pb_vlanPcp b = 0) \/
            (OFPVID_PRESENT <= pb_vlanVid b < OFPVID_PRESENT + 4096 /\ 0 <= pb_vlanPcp b < 8);
  ok_arpOp : 0 <= pb_arpOp b < 2 ^ 16;
  ok_arpSpa : field_ok 4 (pb_arpSpa b); ok_arpTpa : field_ok 4 (pb_arpTpa b);
  ok_arpSha : field_ok 6 (pb_arpSha b); ok_arpTha : field_ok 6 (pb_arpTha b);
  ok_icmpType : 0 <= pb_icmpType b < 256; ok_icmpCode : 0 <= pb_icmpCode b < 256;
  ok_ipv4Src : field_ok 4 (pb_ipv4Src b); ok_ipv4Dst : field_ok 4 (pb_ipv4Dst b);
  ok_ipv6Src : field_ok 16 (pb_ipv6Src b); ok_ipv6Dst : field_ok 16 (pb_ipv6Dst b);
  ok_srcPort : 0 <= pb_srcPort b < 2 ^ 16; ok_dstPort : 0 <= pb_dstPort b < 2 ^ 16;
  ok_ipProto : 0 <= pb_ipProto b < 256; ok_ipTtl : 0 < pb_ipTtl b < 256;
  ok_ndTarget : field_ok 16 (pb_ndTarget b); ok_ndLl : field_ok 6 (pb_ndLl b);
  ok_ndRes : 0 <= pb_ndRes b < 2 ^ 32;
  ok_chassisId : lldp_ok (pb_lldpChassisId b); ok_portId : lldp_ok (pb_lldpPortId b);
  ok_lldpTtl : 0 <= pb_lldpTtl b < 2 ^ 16;
  ok_sysName : lldp_ok (pb_lldpSysName b); ok_portDescr : lldp_ok (pb_lldpPortDescr b);
  ok_custom : Forall lldp_ok (pb_lldpCustom b) }.

(** ** Reading what was built *)

Lemma rd8_be m i : rd8 m i = rd_be 1 m i.
Proof.
  unfold rd_be. destruct (rd8 m i) as [v|] eqn:E.
  - pose proof (rd8_inv _ _ _ E) as Hi. rewrite slice_some by lia. revert E. unfold rd8.
    rewrite (proj2 (Z.leb_le _ _)) by lia. intros E.
    rewrite (drop_S m v (Z.to_nat i)) by done. cbn [take Z.to_nat Pos.to_nat Pos.iter_op fmap option_fmap option_map].
    by unfold be; simpl.
  - destruct (slice m i 1) as [y|] eqn:Es; [|done]. apply slice_inv in Es as (H0 & _ & Hl & _).
    destruct (rd8_some m i) as [v Ev]; [lia|congruence].
Qed.

Lemma addUnchecked_ok t d s :
  oxm_length t = zlen d -> addUnchecked t d s = Some (mkMP (mp_match s ++ [Item t d]) (mp_offset s)).
Proof. intros E. unfold addUnchecked. by rewrite (proj2 (Z.eqb_eq _ _) E). Qed.

Lemma skip_app n a k : zlen a = n -> skip n (a ++ k) = Some k.
Proof.
  intros <-. unfold skip, after. rewrite zlen_app, (proj2 (Z.leb_le _ _)) by (pose proof (zlen_nonneg k); lia).
  unfold zlen. by rewrite Nat2Z.id, drop_app_length.
Qed.

Ltac known_length :=
  symmetry; first [ rewrite zlen_be_bytes; by vm_compute
                  | match goal with H : zlen ?v = _ |- zlen ?v = _ => rewrite H; by vm_compute end
                  | by vm_compute ].

Ltac add_fields :=
  repeat (rewrite addUnchecked_ok by known_length; cbn [mbind option_bind mp_match mp_offset]).

Lemma vlan_tci vid pcp :
  OFPVID_PRESENT <= vid < OFPVID_PRESENT + 4096 -> 0 <= pcp < 8 ->
  let tci := u16 (Z.lor (Z.shiftl pcp 13) (Z.land vid 0x0fff)) in
  0 <= tci < 2 ^ 16 /\ Z.lor (Z.land tci 0x0FFF) OFPVID_PRESENT = vid /\ Z.shiftr tci 13 = pcp.
Proof.
  unfold OFPVID_PRESENT. intros Hv Hp. cbv zeta.
  rewrite Z.shiftl_mul_pow2, (land_ones_mod vid 12) by (lia || done).
  assert (vid mod 2 ^ 12 = vid - 0x1000) as ->
    by (symmetry; apply (Z.mod_unique_pos _ _ 1); lia).
  rewrite lor_hi_lo, u16_small by lia. split; [lia|]. split.
  - rewrite (land_ones_mod _ 12) by done.
    replace ((pcp * 2 ^ 13 + (vid - 0x1000)) mod 2 ^ 12) with (vid - 0x1000)
      by (apply (Z.mod_unique_pos _ _ (pcp * 2)); lia).
    rewrite Z.lor_comm. change 0x1000 with (1 * 2 ^ 12) at 1. rewrite lor_hi_lo; lia.
  - rewrite Z.shiftr_div_pow2 by lia. symmetry. apply (Z.div_unique_pos _ _ _ (vid - 0x1000)); lia.
Qed.

Definition vlan_fields (b : MatchPacketBuilder) : list oxm_item :=
  if pb_vlanVid b =? 0 then []
  else Item OFB_VLAN_VID (be_bytes 2 (pb_vlanVid b)) ::
       (if pb_vlanPcp b =? 0 then [] else [Item OFB_VLAN_PCP (be_bytes 1 (pb_vlanPcp b))]).

Definition eth_fields (b : MatchPacketBuilder) : list oxm_item :=
  [Item OFB_ETH_DST (pb_ethDst b); Item OFB_ETH_SRC (pb_ethSrc b)] ++ vlan_fields b.

Lemma addEthernet_length b : pb_ok b -> zlen (addEthernet b) = if pb_vlanVid b =? 0 then 14 else 18.
Proof.
  intros [[Hd _] [Hs _]]. unfold addEthernet, OFPVID_NONE.
  destruct (pb_vlanVid b =? 0); autorewrite with zlen; lia.
Qed.

Lemma decodeEthernet_built le addr b rest :
  pb_ok b -> addr mod 8 = 2 ->
  exists addr', addr' mod 4 = 0 /\
    decodeEthernet le addr (addEthernet b ++ rest) (mkMP [] 0) =
    decode_ethType le (pb_ethType b) addr' rest (mkMP (eth_fields b) (zlen (addEthernet b))).
Proof.
  intros Hok Ha. pose proof (addEthernet_length b Hok) as Hlen. pose proof (zlen_nonneg rest).
  destruct Hok as [[Hd _] [Hs _] Ht Hnv Hv]. unfold decodeEthernet.
  rewrite (proj2 (aligned_packet addr)) by done. unfold pkt_cast, sizeof_Ethernet, sizeof_VlanHdr.
  assert (IsPtrAligned addr 2 = true /\ (addr + 14) mod 4 = 0 /\ (addr + 14 + 4) mod 4 = 0) as (A2 & A4 & A4').
  { change (IsPtrAligned addr 2) with (IsPtrAligned addr (2 ^ 1)). rewrite IsPtrAligned_pow2 by done.
    revert Ha. Z.to_euclidean_division_equations. lia. }
  rewrite A2. cbn [mbind option_bind].
  rewrite (proj2 (Z.leb_le 14 _)) by (rewrite zlen_app, Hlen; destruct (pb_vlanVid b =? 0); lia). cbn [negb].
  set (n := zlen (addEthernet b)) in *. clearbody n. unfold addEthernet, eth_fields, vlan_fields, OFPVID_NONE in *. change DATALINK_8021Q with 0x8100 in *.
  destruct (Z.eqb_spec (pb_vlanVid b) 0) as [E|E].
  - exists (addr + 14). split; [done|]. rewrite <- !app_assoc. read_layout. rewrite be_be_bytes_small by (simpl; lia).
    add_fields. unfold advance. cbn [mp_match mp_offset app]. rewrite (proj2 (Z.eqb_neq _ _)) by done.
    rewrite !app_assoc, skip_app by (autorewrite with zlen; lia). cbn [mbind option_bind]. by rewrite Hlen.
  - destruct Hv as [[? _]|[Hv Hp]]; [done|]. exists (addr + 14 + 4). split; [done|].
    destruct (vlan_tci _ _ Hv Hp) as (Hr & Evid & Epcp).
    set (tci := u16 _) in *. clearbody tci. rewrite <- !app_assoc. read_layout. add_fields.
    change (be (be_bytes 2 0x8100) =? 0x8100) with true. cbv iota.
    rewrite (aligned2 (addr + 14) A4). cbn [mbind option_bind].
    assert (skip 14 (pb_ethDst b ++ pb_ethSrc b ++ be_bytes 2 0x8100 ++ be_bytes 2 tci ++ be_bytes 2 (pb_ethType b) ++ rest)
            = Some (be_bytes 2 tci ++ be_bytes 2 (pb_ethType b) ++ rest)) as ->.
    { rewrite !app_assoc, <- (app_assoc _ _ rest), <- (app_assoc _ (be_bytes 2 tci)). apply skip_app.
      autorewrite with zlen. lia. }
    cbn [mbind option_bind]. rewrite (proj2 (Z.leb_le 4 _)) by (autorewrite with zlen; lia). cbn [negb]. read_layout.
    rewrite !be_be_bytes_small by (simpl; lia). rewrite Evid, Epcp. add_fields. unfold advance, addNonzero.
    rewrite app_assoc, skip_app by (autorewrite with zlen; lia).
    destruct (pb_vlanPcp b =? 0); cbn [negb]; add_fields; cbn [mbind option_bind mp_match mp_offset app]; by rewrite Hlen.
Qed.

(** ** ARP *)

Definition arp_bytes (b : MatchPacketBuilder) : list Z :=
  OFP_ARP_PREFIX ++ be_bytes 2 (pb_arpOp b) ++ pb_arpSha b ++ pb_arpSpa b ++ pb_arpTha b ++ pb_arpTpa b.

Definition arp_fields (b : MatchPacketBuilder) : list oxm_item :=
  [Item OFB_ARP_OP (be_bytes 2 (pb_arpOp b)); Item OFB_ARP_SPA (pb_arpSpa b); Item OFB_ARP_TPA (pb_arpTpa b);
   Item OFB_ARP_SHA (pb_arpSha b); Item OFB_ARP_THA (pb_arpTha b)].

Lemma arp_bytes_length b : pb_ok b -> zlen (arp_bytes b) = 28.
Proof.
  intros [_ _ _ _ _ _ [? _] [? _] [? _] [? _]]. unfold arp_bytes. autorewrite with zlen.
  change (zlen OFP_ARP_PREFIX) with 6. lia.
Qed.

Lemma decodeARP_built addr b k s :
  pb_ok b -> addr mod 4 = 0 -> 0 <= mp_offset s -> mp_offset s + 28 + Z.of_nat k < 2 ^ 64 ->
  decodeARP addr (arp_bytes b ++ zeros k) s =
  Some (mkMP (mp_match s ++ arp_fields b) (mp_offset s + 28 + Z.of_nat k)).
Proof.
  intros Hok Ha H0 Hmax. pose proof (arp_bytes_length b Hok) as Hl.
  destruct Hok as [_ _ _ _ _ Hop [? _] [? _] [? _] [? _]]. unfold decodeARP, pkt_cast, sizeof_Arp.
  rewrite (aligned2 addr Ha). cbn [mbind option_bind].
  assert (zlen (zeros k) = Z.of_nat k) as Hz by (unfold zeros; apply zlen_replicate).
  rewrite (proj2 (Z.leb_le 28 _)) by (rewrite zlen_app; lia). cbn [negb].
  rewrite (skip_app 28 _ _ Hl). clear Hl. unfold arp_bytes. rewrite <- !app_assoc.
  assert (zlen OFP_ARP_PREFIX = 6) by done. read_layout.
  rewrite bool_decide_true by done. cbn [negb]. read_layout. rewrite be_be_bytes_small by (simpl; lia).
  add_fields. cbn [mbind option_bind].
  assert (IsMemFilled (zeros k) 0 = true) as -> by (apply IsMemFilled_true; by apply Forall_replicate).
  rewrite Hz. unfold advance. cbn [mp_match mp_offset]. rewrite !u64_small by (rewrite ?u64_small; lia).
  by rewrite <- !app_assoc.
Qed.

(** The value for a field that is not in the match. *)
Definition eth_part (b : MatchPacketBuilder) : MatchPacketBuilder :=
  MatchPacketBuilder_init {{ pb_ethDst := pb_ethDst b }} {{ pb_ethSrc := pb_ethSrc b }}
    {{ pb_ethType := pb_ethType b }} {{ pb_vlanVid := pb_vlanVid b }} {{ pb_vlanPcp := pb_vlanPcp b }}.

(** ** The constructor on a list of items *)

Lemma builder_reads : reads_item builder_item.
Proof.
  intros i value mask b (_ & Hl & _) Hv _. unfold on_item, builder_item.
  switch_cases ltac:(rewrite ?Hv by lia; reflexivity). done.
Qed.

Lemma builder_make_items l :
  Forall item_ok l ->
  MatchPacketBuilder_make (encode l) = fold_items (on_item builder_item) l MatchPacketBuilder_init.
Proof.
  intros Hl. unfold MatchPacketBuilder_make, OXMRange_validateInput.
  destruct (oxm_valid_loop_spec (S (length (encode l))) (encode l) [] (encode l)) as (ok & E & Hiff);
    [done|by apply encode_ok|lia|].
  change (zlen []) with 0 in E. rewrite E. cbn [mbind option_bind].
  rewrite (proj2 Hiff) by eauto.
  by rewrite (for_items_encode builder_item builder_reads l (encode l) [] _ _ Hl).
Qed.

(** The case of a [switch] that a known type selects. *)
Ltac pick_case :=
  repeat match goal with
  | |- context [if ?a =? ?c then _ else _] =>
      let r := eval vm_compute in (a =? c) in
      lazymatch r with
      | true => change (a =? c) with true; cbv iota
      | false => change (a =? c) with false; cbv iota
      end
  end.

Lemma fold_step i l b b' :
  on_item builder_item i b = Some b' ->
  fold_items (on_item builder_item) (i :: l) b = fold_items (on_item builder_item) l b'.
Proof. intros E. cbn [fold_items]. by rewrite E. Qed.

(** An internal field, read behind its experimenter. *)
Lemma internal_value d n :
  zlen d = n -> drop 4 <$> slice (be_bytes 4 X_EXPERIMENTER ++ d) 0 (4 + n) = Some d.
Proof. intros <-. rewrite slice_all by (autorewrite with zlen; lia). done. Qed.

Ltac field_case :=
  intros; apply fold_step; unfold on_item, builder_item; cbn [item_type item_body]; cbv zeta; pick_case;
  rewrite slice_all by assumption; reflexivity.

Ltac internal_case :=
  intros; apply fold_step; unfold on_item, builder_item; cbn [item_type item_body]; cbv zeta; pick_case;
  rewrite internal_value by assumption; reflexivity.

(** What the constructor does with each field. *)
Section Fields.
Context (v : list Z) (b : MatchPacketBuilder) (l : list oxm_item).
Abbreviation run := (fold_items (on_item builder_item)).
Abbreviation internal := (app (be_bytes 4 X_EXPERIMENTER)).

Lemma take_ETH_DST : zlen v = 6 -> run (Item OFB_ETH_DST v :: l) b = run l (b {{ pb_ethDst := v }}).
Proof. field_case. Qed.
Lemma take_ETH_SRC : zlen v = 6 -> run (Item OFB_ETH_SRC v :: l) b = run l (b {{ pb_ethSrc := v }}).
Proof. field_case. Qed.
Lemma take_ETH_TYPE : zlen v = 2 -> run (Item OFB_ETH_TYPE v :: l) b = run l (b {{ pb_ethType := be v }}).
Proof. field_case. Qed.
Lemma take_VLAN_VID : zlen v = 2 -> run (Item OFB_VLAN_VID v :: l) b = run l (b {{ pb_vlanVid := be v }}).
Proof. field_case. Qed.
Lemma take_VLAN_PCP : zlen v = 1 -> run (Item OFB_VLAN_PCP v :: l) b = run l (b {{ pb_vlanPcp := be v }}).
Proof. field_case. Qed.
Lemma take_ARP_OP : zlen v = 2 -> run (Item OFB_ARP_OP v :: l) b = run l (b {{ pb_arpOp := be v }}).
Proof. field_case. Qed.
Lemma take_ARP_SHA : zlen v = 6 -> run (Item OFB_ARP_SHA v :: l) b = run l (b {{ pb_arpSha := v }}).
Proof. field_case. Qed.
Lemma take_ARP_SPA : zlen v = 4 -> run (Item OFB_ARP_SPA v :: l) b = run l (b {{ pb_arpSpa := v }}).
Proof. field_case. Qed.
Lemma take_ARP_THA : zlen v = 6 -> run (Item OFB_ARP_THA v :: l) b = run l (b {{ pb_arpTha := v }}).
Proof. field_case. Qed.
Lemma take_ARP_TPA : zlen v = 4 -> run (Item OFB_ARP_TPA v :: l) b = run l (b {{ pb_arpTpa := v }}).
Proof. field_case. Qed.
Lemma take_IPV4_SRC : zlen v = 4 -> run (Item OFB_IPV4_SRC v :: l) b = run l (b {{ pb_ipv4Src := v }}).
Proof. field_case. Qed.
Lemma take_IPV4_DST : zlen v = 4 -> run (Item OFB_IPV4_DST v :: l) b = run l (b {{ pb_ipv4Dst := v }}).
Proof. field_case. Qed.
Lemma take_IPV6_SRC : zlen v = 16 -> run (Item OFB_IPV6_SRC v :: l) b = run l (b {{ pb_ipv6Src := v }}).
Proof. field_case. Qed.
Lemma take_IPV6_DST : zlen v = 16 -> run (Item OFB_IPV6_DST v :: l) b = run l (b {{ pb_ipv6Dst := v }}).
Proof. field_case. Qed.
Lemma take_IP_PROTO : zlen v = 1 -> run (Item OFB_IP_PROTO v :: l) b = run l (b {{ pb_ipProto := be v }}).
Proof. field_case. Qed.
Lemma take_IP_TTL : zlen v = 1 -> run (Item NXM_NX_IP_TTL v :: l) b = run l (b {{ pb_ipTtl := be v }}).
Proof. field_case. Qed.
Lemma take_TCP_SRC : zlen v = 2 -> run (Item OFB_TCP_SRC v :: l) b = run l (b {{ pb_srcPort := be v }}).
Proof. field_case. Qed.
Lemma take_TCP_DST : zlen v = 2 -> run (Item OFB_TCP_DST v :: l) b = run l (b {{ pb_dstPort := be v }}).
Proof. field_case. Qed.
Lemma take_ICMPV4_CODE : zlen v = 1 -> run (Item OFB_ICMPV4_CODE v :: l) b = run l (b {{ pb_icmpCode := be v }}).
Proof. field_case. Qed.
Lemma take_ICMPV6_CODE : zlen v = 1 -> run (Item OFB_ICMPV6_CODE v :: l) b = run l (b {{ pb_icmpCode := be v }}).
Proof. field_case. Qed.
Lemma take_ICMPV4_TYPE : zlen v = 1 -> run (Item OFB_ICMPV4_TYPE v :: l) b = run l (b {{ pb_icmpType := be v }}).
Proof. field_case. Qed.
Lemma take_ICMPV6_TYPE : zlen v = 1 -> run (Item OFB_ICMPV6_TYPE v :: l) b = run l (b {{ pb_icmpType := be v }}).
Proof. field_case. Qed.
Lemma take_ND_TARGET : zlen v = 16 -> run (Item OFB_IPV6_ND_TARGET v :: l) b = run l (b {{ pb_ndTarget := v }}).
Proof. field_case. Qed.
Lemma take_ND_SLL : zlen v = 6 -> run (Item OFB_IPV6_ND_SLL v :: l) b = run l (b {{ pb_ndLl := v }}).
Proof. field_case. Qed.
Lemma take_ND_TLL : zlen v = 6 -> run (Item OFB_IPV6_ND_TLL v :: l) b = run l (b {{ pb_ndLl := v }}).
Proof. field_case. Qed.
Lemma take_CHASSIS :
  zlen v = 64 -> run (Item X_LLDP_CHASSIS_ID (internal v) :: l) b = run l (b {{ pb_lldpChassisId := v }}).
Proof. internal_case. Qed.
Lemma take_PORT_ID :
  zlen v = 64 -> run (Item X_LLDP_PORT_ID (internal v) :: l) b = run l (b {{ pb_lldpPortId := v }}).
Proof. internal_case. Qed.
Lemma take_LLDP_TTL :
  zlen v = 2 -> run (Item X_LLDP_TTL (internal v) :: l) b = run l (b {{ pb_lldpTtl := be v }}).
Proof. internal_case. Qed.
Lemma take_SYS_NAME :
  zlen v = 64 -> run (Item X_LLDP_SYS_NAME (internal v) :: l) b = run l (b {{ pb_lldpSysName := v }}).
Proof. internal_case. Qed.
Lemma take_PORT_DESCR :
  zlen v = 64 -> run (Item X_LLDP_PORT_DESCR (internal v) :: l) b = run l (b {{ pb_lldpPortDescr := v }}).
Proof. internal_case. Qed.
Lemma take_ND_RES :
  zlen v = 4 -> run (Item X_IPV6_ND_RES (internal v) :: l) b = run l (b {{ pb_ndRes := be v }}).
Proof. internal_case. Qed.
Lemma take_ORG_SPECIFIC :
  zlen v = 64 ->
  run (Item X_LLDP_ORG_SPECIFIC (internal v) :: l) b = run l (b {{ pb_lldpCustom := pb_lldpCustom b ++ [v] }}).
Proof. internal_case. Qed.
Lemma skip_TCP_FLAGS : run (Item NXM_NX_TCP_FLAGS v :: l) b = run l b.
Proof. apply fold_step. unfold on_item, builder_item. cbn [item_type item_body]. cbv zeta. by pick_case. Qed.
End Fields.

Ltac value_length := first [rewrite zlen_be_bytes; reflexivity | assumption | reflexivity].

Ltac take_field :=
  first [ rewrite take_ETH_DST by value_length | rewrite take_ETH_SRC by value_length | rewrite take_ETH_TYPE by value_length
          | rewrite take_VLAN_VID by value_length | rewrite take_VLAN_PCP by value_length | rewrite take_ARP_OP by value_length
          | rewrite take_ARP_SHA by value_length | rewrite take_ARP_SPA by value_length | rewrite take_ARP_THA by value_length
          | rewrite take_ARP_TPA by value_length | rewrite take_IPV4_SRC by value_length | rewrite take_IPV4_DST by value_length
          | rewrite take_IPV6_SRC by value_length | rewrite take_IPV6_DST by value_length | rewrite take_IP_PROTO by value_length
          | rewrite take_IP_TTL by value_length | rewrite take_TCP_SRC by value_length | rewrite take_TCP_DST by value_length
          | rewrite take_ICMPV4_CODE by value_length | rewrite take_ICMPV6_CODE by value_length | rewrite take_ICMPV4_TYPE by value_length
          | rewrite take_ICMPV6_TYPE by value_length | rewrite take_ND_TARGET by value_length | rewrite take_ND_SLL by value_length
          | rewrite take_ND_TLL by value_length | rewrite take_CHASSIS by value_length | rewrite take_PORT_ID by value_length
          | rewrite take_LLDP_TTL by value_length | rewrite take_SYS_NAME by value_length | rewrite take_PORT_DESCR by value_length
          | rewrite take_ND_RES by value_length | rewrite take_ORG_SPECIFIC by value_length
        | rewrite skip_TCP_FLAGS ].

Lemma builder_eth b l :
  pb_ok b ->
  fold_items (on_item builder_item)
    (eth_fields b ++ Item OFB_ETH_TYPE (be_bytes 2 (pb_ethType b)) :: l) MatchPacketBuilder_init =
  fold_items (on_item builder_item) l (eth_part b).
Proof.
  intros [[Hd _] [Hs _] Ht _ Hv]. unfold eth_fields, vlan_fields, eth_part. cbn [app].
  take_field. take_field.
  destruct (Z.eqb_spec (pb_vlanVid b) 0) as [Ev|Ev].
  - destruct Hv as [[-> ->]|[? _]]; [|unfold OFPVID_PRESENT in *; lia].
    cbn [app]. take_field. rewrite be_be_bytes_small by (simpl; lia). done.
  - destruct Hv as [[? _]|[Hv Hp]]; [done|]. cbn [app]. take_field.
    destruct (Z.eqb_spec (pb_vlanPcp b) 0) as [-> |]; cbn [app]; take_field; try take_field;
      rewrite !be_be_bytes_small by (simpl; unfold OFPVID_PRESENT in *; lia); done.
Qed.

(** The frame of a built packet: the rest is decoded by its type, and the
    position is recorded unless everything was used. *)
Definition end_mark (off n : Z) : list oxm_item := if off <? n then [pkt_pos off] else [].

Definition frame_fields (b : MatchPacketBuilder) (tail : list oxm_item) (off n : Z) : list oxm_item :=
  eth_fields b ++ eth_is (pb_ethType b) :: tail ++ end_mark off n.

Lemma decode_built le addr b rest tail off :
  pb_ok b -> addr mod 8 = 2 ->
  (forall addr', addr' mod 4 = 0 ->
     decode_ethType le (pb_ethType b) addr' rest (mkMP (eth_fields b) (zlen (addEthernet b))) =
     Some (mkMP (eth_fields b ++ eth_is (pb_ethType b) :: tail) off)) ->
  decode le addr (addEthernet b ++ rest) (mkMP [] 0) =
  Some (mkMP (frame_fields b tail off (zlen (addEthernet b ++ rest))) off).
Proof.
  intros Hok Ha Hd. unfold decode. rewrite (proj2 (aligned_packet addr)) by done.
  destruct (decodeEthernet_built le addr b rest Hok Ha) as (addr' & Ha' & ->).
  rewrite (Hd addr' Ha'). cbn [mbind option_bind mp_offset]. unfold frame_fields, end_mark.
  destruct (_ <? _); [|by rewrite app_nil_r]. unfold addInternal.
  change (oxm_length X_PKT_POS =? zlen (be_bytes 2 (u16 off)) + 4) with true.
  cbn [mp_match mp_offset]. by rewrite <- app_assoc.
Qed.

Lemma builder_end_mark off n b : fold_items (on_item builder_item) (end_mark off n) b = Some b.
Proof.
  unfold end_mark. destruct (off <? n); [|done]. cbn [fold_items]. unfold on_item, builder_item, pkt_pos.
  cbn [item_type item_body]. cbv zeta. by pick_case.
Qed.

Lemma addEthernet_ok b : pb_ok b -> bytes_ok (addEthernet b).
Proof.
  intros [[_ ?] [_ ?]]. unfold addEthernet. destruct (_ =? _); rewrite !Forall_app;
    split_and!; done || apply be_bytes_ok.
Qed.

Lemma zeros_ok n : bytes_ok (zeros n).
Proof. by apply Forall_replicate. Qed.

Definition arp_part (b : MatchPacketBuilder) : MatchPacketBuilder :=
  (eth_part b) {{ pb_arpOp := pb_arpOp b }} {{ pb_arpSpa := pb_arpSpa b }} {{ pb_arpTpa := pb_arpTpa b }}
    {{ pb_arpSha := pb_arpSha b }} {{ pb_arpTha := pb_arpTha b }}.

Lemma build_arp le local local' b data :
  pb_ok b -> pb_ethType b = DATALINK_ARP ->
  exists k, build le local local' b data = Some (addEthernet b ++ arp_bytes b ++ zeros k) /\
    zlen (addEthernet b) + 28 + Z.of_nat k = 60.
Proof.
  intros Hok Ht. unfold build. rewrite Ht. change (DATALINK_ARP =? DATALINK_ARP) with true. cbv iota.
  unfold buildArp. cbn [mbind option_bind]. fold (arp_bytes b).
  pose proof (addEthernet_length b Hok) as He. pose proof (arp_bytes_length b Hok) as Hl.
  unfold pad60, kMinEthernetFrameDataSize. rewrite zlen_app, Hl.
  rewrite (proj2 (Z.ltb_lt _ _)) by (destruct (_ =? _); lia). rewrite <- app_assoc.
  eexists. split; [done|]. destruct (_ =? _); lia.
Qed.

(** The fields of a decoded packet, given to a builder. *)
Lemma rebuild le addr b rest tail off b' :
  pb_ok b -> addr mod 8 = 2 -> bytes_ok rest -> zlen rest < 2 ^ 32 ->
  (forall addr', addr' mod 4 = 0 ->
     decode_ethType le (pb_ethType b) addr' rest (mkMP (eth_fields b) (zlen (addEthernet b))) =
     Some (mkMP (eth_fields b ++ eth_is (pb_ethType b) :: tail) off)) ->
  fold_items (on_item builder_item) tail (eth_part b) = Some b' ->
  exists s, decode le addr (addEthernet b ++ rest) (mkMP [] 0) = Some s /\ mp_offset s = off /\
    mp_match s = frame_fields b tail off (zlen (addEthernet b ++ rest)) /\
    MatchPacketBuilder_make (encode (mp_match s)) = Some b'.
Proof.
  intros Hok Ha Hb Hl Hd Hf. pose proof (decode_built le addr b rest tail off Hok Ha Hd) as D.
  eexists. split; [exact D|]. split_and!; [done..|]. cbn [mp_match].
  destruct (decode_spec le addr (addEthernet b ++ rest) Ha) as (items & off' & E & _ & Hc).
  { apply Forall_app. split; [by apply addEthernet_ok|done]. }
  { rewrite zlen_app, addEthernet_length by done. destruct (_ =? _); lia. }
  rewrite E in D. injection D as D _. rewrite D in Hc. rewrite builder_make_items by (by eapply sequence_items_ok).
  unfold frame_fields, eth_is. rewrite builder_eth, fold_items_app, Hf by done. apply builder_end_mark.
Qed.

(** An ARP packet that the builder writes has the minimal length of a frame;
    the decoder uses all of it and finds the fields, from which the builder
    makes the same packet again. *)
Theorem arp_roundtrip le local local' addr b data :
  pb_ok b -> pb_ethType b = DATALINK_ARP -> addr mod 8 = 2 ->
  exists m s b', build le local local' b data = Some m /\ zlen m = 60 /\
    decode le addr m (mkMP [] 0) = Some s /\ mp_offset s = zlen m /\
    mp_match s = eth_fields b ++ eth_is DATALINK_ARP :: arp_fields b /\
    MatchPacketBuilder_make (encode (mp_match s)) = Some b' /\
    build le local local' b' data = Some m.
Proof.
  intros Hok Ht Ha. destruct (build_arp le local local' b data Hok Ht) as (k & E & Hk).
  pose proof (addEthernet_length b Hok) as He. pose proof (arp_bytes_length b Hok) as Hl.
  assert (zlen (zeros k) = Z.of_nat k) as Hz by (unfold zeros; apply zlen_replicate).
  assert (zlen (addEthernet b ++ arp_bytes b ++ zeros k) = 60) as Hm by (rewrite !zlen_app; lia).
  destruct (rebuild le addr b (arp_bytes b ++ zeros k) (arp_fields b) 60 (arp_part b) Hok Ha)
    as (s & D & Eo & Em & B).
  - destruct Hok as [_ _ _ _ _ _ [_ ?] [_ ?] [_ ?] [_ ?]]. unfold arp_bytes. rewrite !Forall_app.
    split_and!; try done; [bytes|apply be_bytes_ok|apply zeros_ok].
  - rewrite zlen_app. destruct (_ =? _); lia.
  - intros addr' Ha'. unfold decode_ethType. rewrite Ht, addUnchecked_ok by done.
    cbn [mbind option_bind mp_match mp_offset]. change (DATALINK_ARP =? DATALINK_ARP) with true. cbv iota.
    pose proof (zlen_nonneg (addEthernet b)).
    rewrite decodeARP_built by (done || (cbn [mp_offset]; lia)).
    cbn [mp_match mp_offset]. by rewrite Hk, <- app_assoc.
  - destruct Hok as [_ _ _ _ _ Hop [? _] [? _] [? _] [? _]]. unfold arp_fields.
    do 5 take_field. cbn [fold_items]. by rewrite be_be_bytes_small by (simpl; lia).
  - exists (addEthernet b ++ arp_bytes b ++ zeros k), s, (arp_part b). rewrite Hm in *.
    split_and!; try done.
    + rewrite Em. unfold frame_fields, end_mark. by rewrite Ht, app_nil_r.
    + rewrite <- E. unfold build. change (pb_ethType (arp_part b)) with (pb_ethType b). by rewrite Ht.
Qed.

(** ** IPv4 *)

Definition ipv4_hdr (b : MatchPacketBuilder) (length : Z) (cksum : list Z) : list Z :=
  IPv4Hdr_bytes (sizeof_IPv4Hdr + length) (pb_ipTtl b) (pb_ipProto b) cksum (pb_ipv4Src b) (pb_ipv4Dst b).

Definition ipv4_fields (b : MatchPacketBuilder) : list oxm_item :=
  [proto_is (pb_ipProto b); Item OFB_IPV4_SRC (pb_ipv4Src b); Item OFB_IPV4_DST (pb_ipv4Dst b);
   Item NXM_NX_IP_TTL [pb_ipTtl b]].

Lemma ipv4_hdr_shape b length ck :
  pb_ok b -> zlen ck = 2 -> bytes_ok ck -> zlen (ipv4_hdr b length ck) = 20 /\ bytes_ok (ipv4_hdr b length ck).
Proof.
  intros [_ _ _ _ _ _ _ _ _ _ _ _ [? ?] [? ?]] Hc Hb. unfold ipv4_hdr, IPv4Hdr_bytes. split.
  - autorewrite with zlen. lia.
  - rewrite !Forall_app. split_and!; done || apply be_bytes_ok.
Qed.

(** The header that the builder writes, with a checksum that verifies. *)
Lemma addIPv4_hdr le local b length :
  pb_ok b -> 0 <= length -> sizeof_IPv4Hdr + length < 2 ^ 16 ->
  exists ck, addIPv4 le local b length = Some (ipv4_hdr b length ck) /\ zlen ck = 2 /\ bytes_ok ck /\
    inet_sum (ipv4_hdr b length ck) = 65535.
Proof.
  intros Hok Hl Hm. unfold addIPv4. rewrite u16_small by (unfold sizeof_IPv4Hdr in *; lia).
  rewrite (proj2 (Z.eqb_neq (pb_ipTtl b) 0)) by (destruct Hok; lia). cbn [negb].
  destruct (ipv4_hdr_shape b length [0; 0] Hok) as [Hz Hb]; [done|bytes|].
  destruct (Checksum1_bytes le (mkRange local (ipv4_hdr b length [0; 0]))) as (n & E & En);
    [done|unfold br_size; cbn [br_data]; lia|].
  unfold ipv4_hdr in E at 1. rewrite E. cbn [mbind option_bind br_data] in *. unfold cksum_bytes. rewrite En.
  eexists. split; [done|]. split; [by rewrite zlen_be_bytes|]. split; [apply be_bytes_ok|].
  unfold ipv4_hdr, IPv4Hdr_bytes in *.
  pose proof (checksum_verifies
    (be_bytes 1 0x45 ++ be_bytes 1 0 ++ be_bytes 2 (sizeof_IPv4Hdr + length) ++ be_bytes 2 0 ++ be_bytes 2 0 ++
     be_bytes 1 (pb_ipTtl b) ++ be_bytes 1 (pb_ipProto b)) (pb_ipv4Src b ++ pb_ipv4Dst b)) as V.
  rewrite <- !app_assoc in V. apply V.
  - rewrite !Forall_app. split_and!; apply be_bytes_ok.
  - destruct Hok as [_ _ _ _ _ _ _ _ _ _ _ _ [_ ?] [_ ?]]. by apply Forall_app.
  - autorewrite with zlen. done.
Qed.

Lemma be_one v : be [v] = v.
Proof. unfold be. simpl. lia. Qed.

Lemma cast_there size align addr data :
  IsPtrAligned addr align = true -> size <= zlen data -> pkt_cast size align addr data = Some true.
Proof. intros Ha Hs. unfold pkt_cast. by rewrite Ha, (proj2 (Z.leb_le _ _) Hs). Qed.

Lemma decodeIPv4_built addr b ck payload k s :
  pb_ok b -> addr mod 4 = 0 -> zlen ck = 2 -> sizeof_IPv4Hdr + zlen payload < 2 ^ 16 ->
  0 <= mp_offset s -> mp_offset s + 20 < 2 ^ 64 ->
  decodeIPv4 addr (ipv4_hdr b (zlen payload) ck ++ payload ++ zeros k) s =
  decodeIPv4_NextHdr (addr + 20) payload (pb_ipProto b)
    (mkMP (mp_match s ++ ipv4_fields b) (mp_offset s + 20)).
Proof.
  intros Hok Ha Hck Hlen H0 Hmax. unfold sizeof_IPv4Hdr in *. pose proof (zlen_nonneg payload).
  assert (zlen (ipv4_hdr b (zlen payload) ck) = 20) as Hl.
  { destruct Hok as [_ _ _ _ _ _ _ _ _ _ _ _ [? _] [? _]]. unfold ipv4_hdr, IPv4Hdr_bytes.
    autorewrite with zlen. lia. }
  unfold decodeIPv4, sizeof_IPv4Hdr.
  rewrite cast_there by (by apply aligned2 || (rewrite zlen_app; pose proof (zlen_nonneg (payload ++ zeros k)); lia)).
  cbn [mbind option_bind negb]. set (data := ipv4_hdr b (zlen payload) ck ++ payload ++ zeros k).
  assert (rd8 data 0 = Some 0x45 /\ rd16 data 2 = Some (20 + zlen payload)) as [-> ->].
  { rewrite rd8_be. unfold data, ipv4_hdr, IPv4Hdr_bytes, sizeof_IPv4Hdr. rewrite <- !app_assoc.
    split; read_layout; [done|]. rewrite be_be_bytes_small; [done|simpl; lia]. }
  cbn [mbind option_bind]. change (Z.shiftr 0x45 4 =? kIPv4Version) with true.
  change (Z.land 0x45 0x0F * 4) with 20. change (20 <? 20) with false. cbn [negb].
  assert (zlen data = 20 + zlen payload + Z.of_nat k) as Hz.
  { unfold data, zeros. rewrite !zlen_app, zlen_replicate, Hl. lia. }
  rewrite (proj2 (Z.ltb_ge (zlen data) 20)), (proj2 (Z.ltb_ge (20 + zlen payload) 20)) by lia.
  assert ((if 20 + zlen payload <? zlen data then take (Z.to_nat (20 + zlen payload)) data else data) =
          ipv4_hdr b (zlen payload) ck ++ payload) as ->.
  { assert (data = (ipv4_hdr b (zlen payload) ck ++ payload) ++ zeros k) as Ed by (by unfold data; rewrite app_assoc).
    destruct (Z.ltb_spec (20 + zlen payload) (zlen data)).
    - rewrite Ed, take_app_length'; [done|]. rewrite length_app. unfold zlen in *. lia.
    - rewrite Ed. replace k with 0%nat by lia. unfold zeros. simpl. by rewrite app_nil_r. }
  rewrite (skip_app 20 _ payload Hl), (proj2 (Z.leb_le _ _)) by (rewrite zlen_app; lia). clear data Hz.
  destruct Hok as [_ _ _ _ _ _ _ _ _ _ _ _ [? _] [? _] _ _ _ _ Hp Ht]. rewrite !rd8_be.
  unfold ipv4_hdr, IPv4Hdr_bytes, sizeof_IPv4Hdr. rewrite <- !app_assoc. read_layout.
  rewrite !be_be_bytes_small by (simpl; lia). unfold addNonzero.
  change (Z.shiftr 0 2 =? 0) with true. change (Z.land 0 0x03 =? 0) with true.
  change (Z.land 0 0x3fff =? 0) with true. cbn [negb mbind option_bind]. add_fields.
  change (Z.land NXM_FRAG_TYPE_NONE NXM_FRAG_TYPE_LATER =? 0) with true. cbn [negb].
  unfold advance. cbn [mp_match mp_offset]. rewrite u64_small by lia. by rewrite <- !app_assoc.
Qed.

(** The transport header behind an IPv4 header, and its fields. *)
Definition v4_transport (b : MatchPacketBuilder) (ck : list Z) : list Z :=
  if pb_ipProto b =? PROTOCOL_ICMP then ICMPHdr_bytes b ck else TCPHdr_bytes b ck.

Definition v4_transport_fields (b : MatchPacketBuilder) : list oxm_item :=
  if pb_ipProto b =? PROTOCOL_ICMP
  then [Item OFB_ICMPV4_TYPE [pb_icmpType b]; Item OFB_ICMPV4_CODE [pb_icmpCode b]]
  else [Item OFB_TCP_SRC (be_bytes 2 (pb_srcPort b)); Item OFB_TCP_DST (be_bytes 2 (pb_dstPort b));
        Item NXM_NX_TCP_FLAGS (be_bytes 2 0)].

Definition v4_transport_size (b : MatchPacketBuilder) : Z :=
  if pb_ipProto b =? PROTOCOL_ICMP then sizeof_ICMPHdr else sizeof_TCPHdr.

Lemma v4_transport_shape b ck :
  zlen ck = 2 -> bytes_ok ck ->
  zlen (v4_transport b ck) = v4_transport_size b /\ bytes_ok (v4_transport b ck).
Proof.
  intros Hc Hb. unfold v4_transport, v4_transport_size, ICMPHdr_bytes, TCPHdr_bytes, sizeof_ICMPHdr, sizeof_TCPHdr.
  destruct (_ =? _); (split; [autorewrite with zlen; lia|]);
    rewrite !Forall_app; split_and!; done || apply be_bytes_ok.
Qed.

Lemma decode_v4_transport addr b ck data s :
  pb_ok b -> pb_ipProto b = PROTOCOL_ICMP \/ pb_ipProto b = PROTOCOL_TCP -> addr mod 4 = 0 -> zlen ck = 2 ->
  0 <= mp_offset s -> mp_offset s + 20 < 2 ^ 64 ->
  decodeIPv4_NextHdr addr (v4_transport b ck ++ data) (pb_ipProto b) s =
  Some (mkMP (mp_match s ++ v4_transport_fields b) (mp_offset s + v4_transport_size b)).
Proof.
  intros Hok Hp Ha Hc H0 Hmax. pose proof (zlen_nonneg data).
  destruct Hok as [_ _ _ _ _ _ _ _ _ _ Hty Hco _ _ _ _ Hsp Hdp].
  unfold decodeIPv4_NextHdr, v4_transport, v4_transport_fields, v4_transport_size, decodeICMPv4, decodeTCP,
    ICMPHdr_bytes, TCPHdr_bytes.
  destruct Hp as [-> | ->]; pick_case.
  - rewrite cast_there by (by apply aligned2 || (autorewrite with zlen; unfold sizeof_ICMPHdr; lia)).
    cbn [mbind option_bind negb]. rewrite !rd8_be, <- !app_assoc. read_layout.
    rewrite !be_be_bytes_small by (simpl; lia). add_fields. unfold advance, sizeof_ICMPHdr.
    cbn [mp_match mp_offset]. rewrite u64_small by lia. by rewrite <- app_assoc.
  - rewrite cast_there by (by apply aligned4 || (autorewrite with zlen; unfold sizeof_TCPHdr; lia)).
    cbn [mbind option_bind negb]. rewrite <- !app_assoc. read_layout.
    rewrite !be_be_bytes_small by (simpl; lia). change (Z.land 0 0x0FFF) with 0. add_fields.
    unfold advance, sizeof_TCPHdr. cbn [mp_match mp_offset]. rewrite u64_small by lia. by rewrite <- !app_assoc.
Qed.

Lemma pad60_zeros m : exists k, pad60 m = m ++ zeros k /\ (k <= 60)%nat.
Proof.
  unfold pad60, kMinEthernetFrameDataSize. pose proof (zlen_nonneg m).
  destruct (_ <? _); [eexists; split; [done|lia]|]. exists 0%nat. split; [|lia].
  unfold zeros. cbn [replicate]. by rewrite app_nil_r.
Qed.

(** The packets for ICMP and TCP. *)
Lemma build_v4 le local local' b data :
  pb_ok b -> pb_ethType b = DATALINK_IPV4 -> pb_ipProto b = PROTOCOL_ICMP \/ pb_ipProto b = PROTOCOL_TCP ->
  bytes_ok (br_data data) -> br_size data <= 65495 ->
  exists ck ck' k, zlen ck = 2 /\ bytes_ok ck /\ zlen ck' = 2 /\ bytes_ok ck' /\
    inet_sum (ipv4_hdr b (v4_transport_size b + br_size data) ck) = 65535 /\
    build le local local' b data =
    Some (addEthernet b ++ ipv4_hdr b (v4_transport_size b + br_size data) ck ++
          (v4_transport b ck' ++ br_data data) ++ zeros k) /\ (k <= 60)%nat.
Proof.
  intros Hok Ht Hp Hb Hs. pose proof (zlen_nonneg (br_data data)). unfold br_size in *.
  assert (0 <= v4_transport_size b <= 20) as Hts
    by (unfold v4_transport_size, sizeof_ICMPHdr, sizeof_TCPHdr; destruct (_ =? _); lia).
  destruct (addIPv4_hdr le local b (v4_transport_size b + zlen (br_data data)) Hok) as (ck & E1 & Hc & Hcb & Hv);
    [lia|unfold sizeof_IPv4Hdr; lia|].
  destruct (v4_transport_shape b [0; 0]) as [Hz Hzb]; [done|bytes|].
  destruct (Checksum2_bytes le (mkRange local (v4_transport b [0; 0])) data) as (n & E2 & En);
    [done|done|unfold br_size; cbn [br_data]; lia|unfold br_size; lia|].
  assert (build le local local' b data =
    Some (pad60 (addEthernet b ++ ipv4_hdr b (v4_transport_size b + zlen (br_data data)) ck ++
                 v4_transport b (cksum_bytes le n) ++ br_data data))) as E.
  { unfold build. rewrite Ht. pick_case. unfold buildIPv4, buildICMPv4, buildTCPv4, br_size.
    destruct Hp as [Hp|Hp]; unfold v4_transport, v4_transport_size in *; rewrite Hp in *; pick_case.
    - change (PROTOCOL_ICMP =? PROTOCOL_ICMP) with true in *. cbv iota in *. rewrite E1. cbn [mbind option_bind].
      by rewrite E2.
    - change (PROTOCOL_TCP =? PROTOCOL_ICMP) with false in *. cbv iota in *. rewrite E1. cbn [mbind option_bind].
      by rewrite E2. }
  unfold cksum_bytes in E. rewrite En in E.
  exists ck, (be_bytes 2 (inet_checksum (br_data (mkRange local (v4_transport b [0; 0])) ++ br_data data))).
  edestruct pad60_zeros as (k & Ek & Hk). rewrite Ek in E. exists k. rewrite E, <- !app_assoc.
  split_and!; try done. apply be_bytes_ok.
Qed.

Definition ipv4_part (b : MatchPacketBuilder) : MatchPacketBuilder :=
  (eth_part b) {{ pb_ipProto := pb_ipProto b }} {{ pb_ipv4Src := pb_ipv4Src b }}
    {{ pb_ipv4Dst := pb_ipv4Dst b }} {{ pb_ipTtl := pb_ipTtl b }}.

Definition v4_part (b : MatchPacketBuilder) : MatchPacketBuilder :=
  if pb_ipProto b =? PROTOCOL_ICMP
  then (ipv4_part b) {{ pb_icmpType := pb_icmpType b }} {{ pb_icmpCode := pb_icmpCode b }}
  else (ipv4_part b) {{ pb_srcPort := pb_srcPort b }} {{ pb_dstPort := pb_dstPort b }}.

Lemma builder_v4 b :
  pb_ok b ->
  fold_items (on_item builder_item) (ipv4_fields b ++ v4_transport_fields b) (eth_part b) = Some (v4_part b).
Proof.
  intros [_ _ _ _ _ _ _ _ _ _ _ _ [? _] [? _] _ _ Hsp Hdp]. unfold ipv4_fields, v4_transport_fields, v4_part, proto_is.
  cbn [app]. do 4 take_field. destruct (_ =? _).
  - do 2 take_field. cbn [fold_items]. by rewrite !be_one.
  - do 2 take_field. take_field. cbn [fold_items]. rewrite !be_be_bytes_small by (simpl; lia). by rewrite !be_one.
Qed.

Lemma build_v4_part le local local' b data :
  pb_ethType b = DATALINK_IPV4 -> pb_ipProto b = PROTOCOL_ICMP \/ pb_ipProto b = PROTOCOL_TCP ->
  build le local local' (v4_part b) data = build le local local' b data.
Proof.
  intros Ht Hp. assert (pb_ethType (v4_part b) = DATALINK_IPV4) as Ht'
    by (unfold v4_part; by destruct (pb_ipProto b =? PROTOCOL_ICMP)).
  unfold build. rewrite Ht, Ht'. pick_case. unfold v4_part.
  destruct Hp as [Hp|Hp]; rewrite Hp; pick_case; unfold buildIPv4;
    change (pb_ipProto ((ipv4_part b) {{ pb_icmpType := pb_icmpType b }} {{ pb_icmpCode := pb_icmpCode b }}))
      with (pb_ipProto b);
    change (pb_ipProto ((ipv4_part b) {{ pb_srcPort := pb_srcPort b }} {{ pb_dstPort := pb_dstPort b }}))
      with (pb_ipProto b); rewrite Hp; pick_case; reflexivity.
Qed.

(** C23. An ICMP or TCP packet over IPv4 that the builder writes, with or without a
    VLAN tag, any payload that fits and padding: its IP header passes the
    receiver's checksum test, the decoder finds its fields and the position of
    the payload, and a builder made from the decoded fields writes the same
    packet again. *)
Theorem ipv4_roundtrip le local local' addr b data :
  pb_ok b -> pb_ethType b = DATALINK_IPV4 -> pb_ipProto b = PROTOCOL_ICMP \/ pb_ipProto b = PROTOCOL_TCP ->
  bytes_ok (br_data data) -> br_size data <= 65495 -> addr mod 8 = 2 ->
  exists m s b' hdr, build le local local' b data = Some m /\
    slice m (zlen (addEthernet b)) 20 = Some hdr /\ inet_sum hdr = 65535 /\
    decode le addr m (mkMP [] 0) = Some s /\
    mp_offset s = zlen (addEthernet b) + 20 + v4_transport_size b /\
    slice m (mp_offset s) (br_size data) = Some (br_data data) /\
    mp_match s = frame_fields b (ipv4_fields b ++ v4_transport_fields b) (mp_offset s) (zlen m) /\
    MatchPacketBuilder_make (encode (mp_match s)) = Some b' /\
    build le local local' b' data = Some m.
Proof.
  intros Hok Ht Hp Hb Hs Ha.
  destruct (build_v4 le local local' b data Hok Ht Hp Hb Hs) as (ck & ck' & k & Hc & Hcb & Hc' & Hcb' & Hv & E & Hk).
  destruct (v4_transport_shape b ck' Hc' Hcb') as [Htl Htb]. pose proof (zlen_nonneg (br_data data)). unfold br_size in *.
  assert (0 <= v4_transport_size b <= 20) as Hts
    by (unfold v4_transport_size, sizeof_ICMPHdr, sizeof_TCPHdr; destruct (_ =? _); lia).
  set (payload := v4_transport b ck' ++ br_data data) in *.
  assert (zlen payload = v4_transport_size b + zlen (br_data data)) as Hpl by (unfold payload; rewrite zlen_app; lia).
  rewrite <- Hpl in *. destruct (ipv4_hdr_shape b (zlen payload) ck Hok Hc Hcb) as [Hhl Hhb].
  set (hdr := ipv4_hdr b (zlen payload) ck) in *. pose proof (zlen_nonneg (addEthernet b)).
  pose proof (addEthernet_length b Hok) as He.
  destruct (rebuild le addr b (hdr ++ payload ++ zeros k) (ipv4_fields b ++ v4_transport_fields b)
    (zlen (addEthernet b) + 20 + v4_transport_size b) (v4_part b) Hok Ha) as (s & D & Eo & Em & B).
  - unfold payload. rewrite !Forall_app. split_and!; done || apply zeros_ok.
  - unfold zeros. rewrite !zlen_app, zlen_replicate, Hhl, Hpl. lia.
  - intros addr' Ha'. unfold decode_ethType. rewrite Ht, addUnchecked_ok by done.
    cbn [mbind option_bind mp_match mp_offset]. pick_case. assert (zlen (addEthernet b) <= 18) by (destruct (_ =? _); lia).
    unfold hdr. rewrite decodeIPv4_built by (done || (unfold sizeof_IPv4Hdr; cbn [mp_offset]; lia)).
    unfold payload. cbn [mp_match mp_offset].
    rewrite decode_v4_transport; [|done|done| |done|cbn [mp_offset]; lia..].
    + cbn [mp_match mp_offset]. by rewrite <- !app_assoc.
    + rewrite Z.add_mod, Ha'; done.
  - by apply builder_v4.
  - exists (addEthernet b ++ hdr ++ payload ++ zeros k), s, (v4_part b), hdr.
    rewrite build_v4_part by done. rewrite Eo.
    split_and!; try done.
    + rewrite slice_shift0. by apply slice_head.
    + rewrite (slice_split _ _ (zlen (br_data data)) (addEthernet b ++ hdr ++ v4_transport b ck') (br_data data) (zeros k));
        [done| |rewrite !zlen_app; lia|done]. unfold payload. by rewrite <- !app_assoc.
Qed.

(** ** IPv6: neighbor discovery *)

Definition ipv6_fields (b : MatchPacketBuilder) : list oxm_item :=
  [Item NXM_NX_IP_TTL [pb_ipTtl b]; Item OFB_IPV6_SRC (pb_ipv6Src b); Item OFB_IPV6_DST (pb_ipv6Dst b)].

Lemma addIPv6_length b length : pb_ok b -> zlen (addIPv6 b length) = 40.
Proof.
  intros [_ _ _ _ _ _ _ _ _ _ _ _ _ _ [? _] [? _]]. unfold addIPv6. autorewrite with zlen. lia.
Qed.

Lemma decodeIPv6_built addr b length rest s :
  pb_ok b -> addr mod 4 = 0 -> 0 <= mp_offset s -> mp_offset s + 40 < 2 ^ 64 ->
  decodeIPv6 addr (addIPv6 b length ++ rest) s =
  decodeIPv6_NextHdr (addr + 40) rest (pb_ipProto b) (mkMP (mp_match s ++ ipv6_fields b) (mp_offset s + 40)).
Proof.
  intros Hok Ha H0 Hmax. pose proof (addIPv6_length b length Hok) as Hl. pose proof (zlen_nonneg rest).
  unfold decodeIPv6, sizeof_IPv6Hdr. rewrite cast_there by (by apply aligned4 || (rewrite zlen_app; lia)).
  cbn [mbind option_bind negb]. rewrite (skip_app 40 _ rest Hl). clear Hl.
  destruct Hok as [_ _ _ _ _ _ _ _ _ _ _ _ _ _ [? _] [? _] _ _ Hp Ht]. unfold addIPv6.
  rewrite (proj2 (Z.eqb_neq (pb_ipTtl b) 0)) by lia. cbn [negb].
  rewrite !rd8_be, <- !app_assoc. read_layout. rewrite !be_be_bytes_small by (simpl; lia).
  change (u8 (Z.shiftr 0x60000000 28) =? kIPv6Version) with true. cbn [negb]. unfold addNonzero.
  change (Z.shiftr (Z.land (Z.shiftr 0x60000000 20) 0xFF) 2 =? 0) with true.
  change (Z.land (Z.land (Z.shiftr 0x60000000 20) 0xFF) 0x03 =? 0) with true.
  change (Z.land 0x60000000 0x000FFFFF =? 0) with true. cbn [negb mbind option_bind]. add_fields.
  unfold advance. cbn [mp_match mp_offset]. rewrite u64_small by lia. by rewrite <- !app_assoc.
Qed.

Definition is_nd (b : MatchPacketBuilder) : Prop :=
  pb_icmpType b = ICMPV6_TYPE_NEIGHBOR_SOLICIT \/ pb_icmpType b = ICMPV6_TYPE_NEIGHBOR_ADVERTISE.

Definition nd_fields (b : MatchPacketBuilder) : list oxm_item :=
  [icmpv6_is (pb_icmpType b); Item OFB_ICMPV6_CODE [pb_icmpCode b]] ++
  (if pb_icmpType b =? ICMPV6_TYPE_NEIGHBOR_ADVERTISE
   then [Item X_IPV6_ND_RES (be_bytes 4 X_EXPERIMENTER ++ be_bytes 4 (pb_ndRes b))] else []) ++
  [Item OFB_IPV6_ND_TARGET (pb_ndTarget b);
   Item (if pb_icmpType b =? ICMPV6_TYPE_NEIGHBOR_SOLICIT then OFB_IPV6_ND_SLL else OFB_IPV6_ND_TLL) (pb_ndLl b)].

Lemma nd_body_shape b : pb_ok b -> zlen (nd_body b) = 28 /\ bytes_ok (nd_body b).
Proof.
  intros [_ _ _ _ _ _ _ _ _ _ _ _ _ _ _ _ _ _ _ _ [? ?] [? ?]]. unfold nd_body. split.
  - autorewrite with zlen. lia.
  - rewrite !Forall_app. split_and!; done || apply be_bytes_ok.
Qed.

Lemma addInternal_ok t d s :
  oxm_length t = zlen d + 4 ->
  addInternal t d s = Some (mkMP (mp_match s ++ [Item t (be_bytes 4 X_EXPERIMENTER ++ d)]) (mp_offset s)).
Proof. intros E. unfold addInternal. by rewrite (proj2 (Z.eqb_eq _ _) E). Qed.

(** The link-layer option that the builder writes is found. *)
Lemma findLLOption_built fuel opt ll :
  zlen ll = 6 -> 0 <= opt < 256 -> findLLOption (S fuel) (be_bytes 1 opt ++ be_bytes 1 1 ++ ll) opt = Some (Some ll).
Proof.
  intros Hl Ho. cbn [findLLOption]. rewrite (proj2 (Z.ltb_ge _ 8)) by (autorewrite with zlen; lia).
  rewrite !rd8_be. read_layout. rewrite !be_be_bytes_small by (simpl; lia).
  change (1 * 8 =? 0) with false. cbn [orb]. rewrite (proj2 (Z.ltb_ge _ (1 * 8))) by (autorewrite with zlen; lia).
  by rewrite Z.eqb_refl.
Qed.

Lemma decodeICMPv6_built addr b ck s :
  pb_ok b -> is_nd b -> pb_icmpCode b = 0 -> addr mod 4 = 0 -> zlen ck = 2 ->
  0 <= mp_offset s -> mp_offset s + 32 < 2 ^ 64 ->
  decodeICMPv6 addr (ICMPHdr_bytes b ck ++ nd_body b) s =
  Some (mkMP (mp_match s ++ nd_fields b) (mp_offset s + 32)).
Proof.
  intros Hok Hnd Hcode Ha Hc H0 Hmax. destruct (nd_body_shape b Hok) as [Hnl _].
  destruct Hok as [_ _ _ _ _ _ _ _ _ _ Hty Hco _ _ _ _ _ _ _ _ [Ht _] [Hll _] Hres].
  unfold decodeICMPv6, sizeof_ICMPHdr.
  rewrite cast_there by (by apply aligned2 || (unfold ICMPHdr_bytes; autorewrite with zlen; lia)).
  cbn [mbind option_bind negb].
  rewrite (skip_app 4 (ICMPHdr_bytes b ck) (nd_body b)) by (unfold ICMPHdr_bytes; autorewrite with zlen; lia).
  unfold ICMPHdr_bytes. rewrite !rd8_be, <- !app_assoc. read_layout. rewrite !be_be_bytes_small by (simpl; lia).
  add_fields. unfold is_nd in Hnd. rewrite Hcode. change (0 =? 0) with true. cbn [andb].
  rewrite (proj2 (orb_true_iff _ _)) by (destruct Hnd as [-> | ->]; [by left|by right]).
  unfold decodeICMPv6_ND.
  rewrite (proj2 (orb_true_iff _ _)) by (destruct Hnd as [-> | ->]; [by left|by right]).
  rewrite (proj2 (Z.ltb_ge _ 20)) by lia.
  assert (skip 20 (nd_body b) = Some (be_bytes 1 (if pb_icmpType b =? ICMPV6_TYPE_NEIGHBOR_SOLICIT
      then ICMPV6_OPTION_SLL else ICMPV6_OPTION_TLL) ++ be_bytes 1 1 ++ pb_ndLl b)) as ->.
  { unfold nd_body. rewrite app_assoc. apply skip_app. autorewrite with zlen. lia. }
  unfold nd_body, nd_fields, icmpv6_is. rewrite Hcode.
  destruct Hnd as [-> | ->]; pick_case; read_layout; rewrite ?be_be_bytes_small by (simpl; lia);
    rewrite ?addInternal_ok by (rewrite zlen_be_bytes; by vm_compute); cbn [mbind option_bind]; add_fields;
    pick_case;
    rewrite findLLOption_built by (done || lia); cbn [mbind option_bind]; add_fields; unfold advance;
    cbn [mp_match mp_offset]; rewrite <- !app_assoc; do 2 f_equal;
    autorewrite with zlen; rewrite !u64_small; rewrite ?u64_small; rewrite ?u64_small; lia.
Qed.

Lemma eth_fields_low b : Forall (fun i => item_type i <= OFB_IP_PROTO) (eth_fields b).
Proof.
  unfold eth_fields, vlan_fields. destruct (_ =? 0); [|destruct (_ =? 0)];
    repeat (constructor; [by vm_compute|]); constructor.
Qed.

(** [IP_PROTO] goes between the hop limit and the addresses. *)
Definition v6_fields (b : MatchPacketBuilder) : list oxm_item :=
  [Item NXM_NX_IP_TTL [pb_ipTtl b]; proto_is (pb_ipProto b); Item OFB_IPV6_SRC (pb_ipv6Src b);
   Item OFB_IPV6_DST (pb_ipv6Dst b)].

Lemma insert_proto b v :
  insert_ordered OFB_IP_PROTO [pb_ipProto b] ((eth_fields b ++ [eth_is v]) ++ ipv6_fields b) =
  eth_fields b ++ eth_is v :: v6_fields b.
Proof.
  unfold ipv6_fields. change (Item NXM_NX_IP_TTL ?x :: ?l) with ([Item NXM_NX_IP_TTL x] ++ l).
  rewrite app_assoc, insert_ordered_after.
  - rewrite <- !app_assoc. reflexivity.
  - rewrite !Forall_app. split_and!; [apply eth_fields_low|..]; (constructor; [by vm_compute|constructor]).
Qed.

Lemma decodeIPv6_nd addr b ck l off :
  pb_ok b -> is_nd b -> pb_icmpCode b = 0 -> pb_ipProto b = PROTOCOL_ICMPV6 -> addr mod 4 = 0 -> zlen ck = 2 ->
  0 <= off -> off + 32 < 2 ^ 64 ->
  decodeIPv6_NextHdr addr (ICMPHdr_bytes b ck ++ nd_body b) (pb_ipProto b) (mkMP l off) =
  Some (mkMP (insert_ordered OFB_IP_PROTO [pb_ipProto b] l ++ nd_fields b) (off + 32)).
Proof.
  intros Hok Hnd Hcode Hp Ha Hc H0 Hmax. unfold decodeIPv6_NextHdr. rewrite Hp. pick_case.
  cbn [mbind option_bind ext_loop]. pick_case. unfold addOrderedUnchecked. cbn [mbind option_bind].
  rewrite decodeICMPv6_built by done. cbn [mbind option_bind mp_match mp_offset ext_loop]. pick_case.
  cbn [mbind option_bind]. done.
Qed.

Definition nd_part (b : MatchPacketBuilder) : MatchPacketBuilder :=
  let b1 := (eth_part b) {{ pb_ipTtl := pb_ipTtl b }} {{ pb_ipProto := pb_ipProto b }}
    {{ pb_ipv6Src := pb_ipv6Src b }} {{ pb_ipv6Dst := pb_ipv6Dst b }}
    {{ pb_icmpType := pb_icmpType b }} {{ pb_icmpCode := pb_icmpCode b }} in
  let b2 := if pb_icmpType b =? ICMPV6_TYPE_NEIGHBOR_ADVERTISE then b1 {{ pb_ndRes := pb_ndRes b }} else b1 in
  b2 {{ pb_ndTarget := pb_ndTarget b }} {{ pb_ndLl := pb_ndLl b }}.

Lemma builder_nd b :
  pb_ok b -> is_nd b ->
  fold_items (on_item builder_item) (v6_fields b ++ nd_fields b) (eth_part b) = Some (nd_part b).
Proof.
  intros [_ _ _ _ _ _ _ _ _ _ _ _ _ _ [? _] [? _] _ _ _ _ [? _] [? _] ?] Hnd.
  unfold v6_fields, nd_fields, nd_part, proto_is, icmpv6_is. cbn [app]. do 6 take_field.
  unfold is_nd in Hnd. destruct Hnd as [Hnd|Hnd]; rewrite Hnd; pick_case; cbn [app].
  - do 2 take_field. cbn [fold_items]. by rewrite !be_one.
  - take_field. do 2 take_field. cbn [fold_items]. rewrite !be_one, be_be_bytes_small by (simpl; lia). done.
Qed.

Lemma nd_part_same b :
  pb_icmpType (nd_part b) = pb_icmpType b /\ pb_ethType (nd_part b) = pb_ethType b /\
  pb_ipProto (nd_part b) = pb_ipProto b /\ addEthernet (nd_part b) = addEthernet b /\
  (forall n, addIPv6 (nd_part b) n = addIPv6 b n) /\ (forall c, ICMPHdr_bytes (nd_part b) c = ICMPHdr_bytes b c) /\
  (forall n, IPv6PseudoHdr_bytes (nd_part b) n = IPv6PseudoHdr_bytes b n) /\ nd_body (nd_part b) = nd_body b.
Proof.
  assert (pb_icmpType (nd_part b) = pb_icmpType b) as Et by (unfold nd_part; by destruct (_ =? _)).
  unfold nd_body. rewrite Et. unfold nd_part. destruct (pb_icmpType b =? ICMPV6_TYPE_NEIGHBOR_ADVERTISE); by split_and!.
Qed.

Lemma build_nd_part le local local' b data :
  pb_ethType b = DATALINK_IPV6 -> pb_ipProto b = PROTOCOL_ICMPV6 -> is_nd b ->
  build le local local' (nd_part b) data = build le local local' b data.
Proof.
  intros Ht Hp Hnd. destruct (nd_part_same b) as (E1 & E2 & E3 & E4 & E5 & E6 & E7 & E8).
  unfold build, buildIPv6, buildICMPv6_ND, buildICMPv6. rewrite E1, E2, E3, E4, Ht, Hp. pick_case.
  rewrite (proj2 (orb_true_iff _ _)) by (destruct Hnd as [-> | ->]; [by left|by right]).
  rewrite E5, E6, E7, E8. destruct (Checksum3 _ _ _ _); [|done]. cbn [mbind option_bind]. by rewrite E6.
Qed.

Lemma build_nd le local local' b data :
  pb_ok b -> pb_ethType b = DATALINK_IPV6 -> pb_ipProto b = PROTOCOL_ICMPV6 -> is_nd b ->
  exists ck, zlen ck = 2 /\ bytes_ok ck /\
    inet_sum (IPv6PseudoHdr_bytes b 32 ++ ICMPHdr_bytes b ck ++ nd_body b) = 65535 /\
    build le local local' b data =
    Some (addEthernet b ++ addIPv6 b 32 ++ ICMPHdr_bytes b ck ++ nd_body b).
Proof.
  intros Hok Ht Hp Hnd. destruct (nd_body_shape b Hok) as [Hnl Hnb].
  assert (zlen (IPv6PseudoHdr_bytes b 32) = 40 /\ bytes_ok (IPv6PseudoHdr_bytes b 32)) as [Hpl Hpb].
  { destruct Hok as [_ _ _ _ _ _ _ _ _ _ _ _ _ _ [? ?] [? ?]]. unfold IPv6PseudoHdr_bytes. split.
    - autorewrite with zlen. change (zlen [0; 0; 0]) with 3. lia.
    - rewrite !Forall_app. split_and!; try done; try apply be_bytes_ok. bytes. }
  destruct (Checksum3_bytes le (mkRange local (IPv6PseudoHdr_bytes b 32)) (mkRange local' (ICMPHdr_bytes b [0; 0]))
    (mkRange local (nd_body b))) as (n & E & En); cbn [br_data] in *; unfold br_size; cbn [br_data].
  { done. } { unfold ICMPHdr_bytes. rewrite !Forall_app. split_and!; [apply be_bytes_ok..|bytes]. }
  { done. } { lia. } { unfold ICMPHdr_bytes. autorewrite with zlen. change (zlen [0; 0]) with 2. lia. } { lia. }
  exists (be_bytes 2 (inet_checksum (IPv6PseudoHdr_bytes b 32 ++ ICMPHdr_bytes b [0; 0] ++ nd_body b))).
  split; [by rewrite zlen_be_bytes|]. split; [apply be_bytes_ok|]. split.
  - pose proof (checksum_verifies (IPv6PseudoHdr_bytes b 32 ++ be_bytes 1 (pb_icmpType b) ++ be_bytes 1 (pb_icmpCode b))
      (nd_body b)) as V. unfold ICMPHdr_bytes. rewrite <- !app_assoc in *. apply V; [|done|].
    + rewrite !Forall_app. split_and!; done || apply be_bytes_ok.
    + rewrite !zlen_app, Hpl, !zlen_be_bytes. done.
  - unfold build. rewrite Ht. pick_case. unfold buildIPv6. rewrite Hp. pick_case.
    rewrite (proj2 (orb_true_iff _ _)) by (destruct Hnd as [-> | ->]; [by left|by right]).
    unfold buildICMPv6_ND, buildICMPv6.
    rewrite (proj2 (orb_true_iff _ _)) by (destruct Hnd as [-> | ->]; [by left|by right]).
    unfold br_size. cbn [br_data]. rewrite Hnl. change (sizeof_ICMPHdr + 28) with 32. rewrite E.
    cbn [mbind option_bind]. unfold cksum_bytes. rewrite En. unfold pad60, kMinEthernetFrameDataSize.
    rewrite (proj2 (Z.ltb_ge _ 60)); [done|].
    rewrite !zlen_app, addIPv6_length, addEthernet_length, Hnl by done. unfold ICMPHdr_bytes.
    autorewrite with zlen. destruct (_ =? _); lia.
Qed.

(** A neighbor solicitation or advertisement that the builder writes: its
    ICMPv6 checksum verifies with the IPv6 pseudo header, the decoder uses all
    of the packet and finds its fields, and a builder made from the decoded
    fields writes the same packet again. *)
Theorem nd_roundtrip le local local' addr b data :
  pb_ok b -> pb_ethType b = DATALINK_IPV6 -> pb_ipProto b = PROTOCOL_ICMPV6 -> is_nd b -> pb_icmpCode b = 0 ->
  addr mod 8 = 2 ->
  exists m s b' icmp, build le local local' b data = Some m /\
    m = addEthernet b ++ addIPv6 b 32 ++ icmp /\
    inet_sum (IPv6PseudoHdr_bytes b 32 ++ icmp) = 65535 /\
    decode le addr m (mkMP [] 0) = Some s /\ mp_offset s = zlen m /\
    mp_match s = eth_fields b ++ eth_is DATALINK_IPV6 :: v6_fields b ++ nd_fields b /\
    MatchPacketBuilder_make (encode (mp_match s)) = Some b' /\
    build le local local' b' data = Some m.
Proof.
  intros Hok Ht Hp Hnd Hcode Ha.
  destruct (build_nd le local local' b data Hok Ht Hp Hnd) as (ck & Hc & Hcb & Hv & E).
  destruct (nd_body_shape b Hok) as [Hnl Hnb]. pose proof (addIPv6_length b 32 Hok) as H6.
  pose proof (addEthernet_length b Hok) as He. pose proof (zlen_nonneg (addEthernet b)).
  assert (zlen (ICMPHdr_bytes b ck) = 4) as Hi by (unfold ICMPHdr_bytes; autorewrite with zlen; lia).
  set (icmp := ICMPHdr_bytes b ck ++ nd_body b) in *.
  assert (zlen (addEthernet b ++ addIPv6 b 32 ++ icmp) = zlen (addEthernet b) + 72) as Hm
    by (unfold icmp; rewrite !zlen_app; lia).
  destruct (rebuild le addr b (addIPv6 b 32 ++ icmp) (v6_fields b ++ nd_fields b) (zlen (addEthernet b) + 72)
    (nd_part b) Hok Ha) as (s & D & Eo & Em & B).
  - destruct Hok as [_ _ _ _ _ _ _ _ _ _ _ _ _ _ [_ ?] [_ ?]]. unfold icmp, addIPv6, ICMPHdr_bytes.
    rewrite !Forall_app. split_and!; done || apply be_bytes_ok.
  - unfold icmp. rewrite !zlen_app. lia.
  - intros addr' Ha'. unfold decode_ethType. rewrite Ht, addUnchecked_ok by done.
    cbn [mbind option_bind mp_match mp_offset]. pick_case. assert (zlen (addEthernet b) <= 18) by (destruct (_ =? _); lia).
    rewrite decodeIPv6_built by (done || (cbn [mp_offset]; lia)). cbn [mp_match mp_offset].
    unfold icmp. rewrite decodeIPv6_nd; try done; [|rewrite Z.add_mod, Ha'; done|lia..].
    change (Item OFB_ETH_TYPE (be_bytes 2 DATALINK_IPV6)) with (eth_is DATALINK_IPV6).
    rewrite insert_proto, <- app_assoc. cbn [app]. do 2 f_equal. lia.
  - by apply builder_nd.
  - exists (addEthernet b ++ addIPv6 b 32 ++ icmp), s, (nd_part b), icmp. rewrite build_nd_part by done.
    rewrite Hm in *. split_and!; try done. rewrite Em. unfold frame_fields, end_mark.
    rewrite Z.ltb_irrefl, Ht, app_nil_r. done.
Qed.

(** ** LLDP *)

(** The bytes of a value that was made from at most 63 bytes. *)
Definition value_of (v : list Z) : list Z := default [] (LLDPValue_toRange v).

Lemma lldp_ok_value v :
  lldp_ok v -> LLDPValue_toRange v = Some (value_of v) /\ LLDPValue_make (value_of v) = Some v /\
    zlen (value_of v) <= 63 /\ bytes_ok (value_of v) /\ zlen v = 64 /\ bytes_ok v /\
    LLDPValue_empty v = Some (zlen (value_of v) =? 0).
Proof.
  intros (val & Hb & Hl & E). destruct (LLDPValue_make_some val Hb) as (v' & E' & Hz & Hb' & Er).
  rewrite E in E'. injection E' as <-. rewrite take_ge in Er by (unfold zlen in *; lia).
  unfold value_of. rewrite Er. cbn [default].
  assert (LLDPValue_empty v = Some (zlen val =? 0)) as Ee; [|by split_and!].
  revert Er. unfold LLDPValue_toRange, LLDPValue_size, LLDPValue_empty.
  destruct (rd8 v 0) as [n|] eqn:En; [|done]. cbn [mbind option_bind]. intros Es.
  pose proof (rd8_byte _ _ _ Hb' En) as Hn. unfold is_byte in Hn.
  apply slice_inv in Es as (_ & _ & _ & _ & Ez). rewrite Ez. unfold LLDP_MaxSize.
  destruct (Z.leb_spec n 63); [done|]. f_equal. lia.
Qed.

(** A section: its type and its value. *)
Definition sec_bytes (x : Z * list Z) : list Z := [x.1 * 2; zlen x.2] ++ x.2.

Definition sec_ok (x : Z * list Z) : Prop := 0 < x.1 < 128 /\ zlen x.2 <= 63 /\ bytes_ok x.2.

Definition named_section (type : Z) (v : list Z) : list (Z * list Z) :=
  if zlen (value_of v) =? 0 then [] else [(type, value_of v)].

Definition sections (b : MatchPacketBuilder) : list (Z * list Z) :=
  [(LLDP_CHASSIS_ID, value_of (pb_lldpChassisId b)); (LLDP_PORT_ID, value_of (pb_lldpPortId b));
   (LLDP_TTL, be_bytes 2 (pb_lldpTtl b))] ++
  named_section LLDP_SYS_NAME (pb_lldpSysName b) ++ named_section LLDP_PORT_DESCR (pb_lldpPortDescr b) ++
  ((fun v => (LLDP_ORG_SPECIFIC, value_of v)) <$> pb_lldpCustom b).

Lemma lldp_tlv_bytes type value :
  0 < type < 128 -> zlen value <= 63 -> lldp_tlv type value = Some (sec_bytes (type, value)).
Proof.
  intros Ht Hl. pose proof (zlen_nonneg value). unfold lldp_tlv, LLDPTlv_make, sec_bytes. cbn [fst snd].
  rewrite (proj2 (Z.ltb_lt _ _)) by lia. cbn [mbind option_bind]. do 2 f_equal.
  rewrite (land_ones_mod _ 8 0xFF) by done. rewrite Z.mod_small by (change (2 ^ 8) with 256; lia).
  f_equal. replace (Z.land (zlen value) 0x100) with 0.
  - rewrite Z.lor_0_r, Z.shiftl_mul_pow2 by lia. apply u8_small. lia.
  - symmetry. change 0x100 with (Z.shiftl 1 8). apply Z.eqb_eq. rewrite land_flag by done.
    by rewrite (testbit_high _ 8) by lia.
Qed.

Lemma lldp_value_bytes type v :
  0 < type < 128 -> lldp_ok v -> lldp_value type v = Some (sec_bytes (type, value_of v)).
Proof.
  intros Ht Hv. destruct (lldp_ok_value v Hv) as (E & _ & Hl & _). unfold lldp_value. rewrite E.
  cbn [mbind option_bind]. by apply lldp_tlv_bytes.
Qed.

Lemma lldp_optional_bytes type v :
  0 < type < 128 -> lldp_ok v -> lldp_optional type v = Some (mjoin (sec_bytes <$> named_section type v)).
Proof.
  intros Ht Hv. destruct (lldp_ok_value v Hv) as (_ & _ & _ & _ & _ & _ & E).
  unfold lldp_optional, named_section. rewrite E. cbn [mbind option_bind].
  destruct (_ =? 0); cbn [negb]; [done|]. rewrite lldp_value_bytes by done.
  cbn [fmap list_fmap]. by rewrite mjoin_one.
Qed.

Lemma lldp_custom_bytes vs :
  Forall lldp_ok vs ->
  lldp_custom vs = Some (mjoin (sec_bytes <$> ((fun v => (LLDP_ORG_SPECIFIC, value_of v)) <$> vs))).
Proof.
  induction 1 as [|v vs Hv _ IH]; [done|]. cbn [lldp_custom fmap list_fmap].
  rewrite lldp_value_bytes by done. cbn [mbind option_bind]. by rewrite IH.
Qed.

Lemma buildLldp_bytes b :
  pb_ok b -> buildLldp b = Some (addEthernet b ++ mjoin (sec_bytes <$> sections b) ++ [0; 0]).
Proof.
  intros [_ _ _ _ _ _ _ _ _ _ _ _ _ _ _ _ _ _ _ _ _ _ _ H1 H2 Ht H3 H4 H5]. unfold buildLldp.
  rewrite !lldp_value_bytes by done. cbn [mbind option_bind].
  rewrite lldp_tlv_bytes by (done || (rewrite zlen_be_bytes; lia)). cbn [mbind option_bind].
  rewrite !lldp_optional_bytes by done. cbn [mbind option_bind].
  rewrite lldp_custom_bytes by done. change (LLDPTlv_make LLDP_END 0) with (Some [0; 0]).
  cbn [mbind option_bind]. f_equal. unfold sections. rewrite !fmap_app, !join_app. cbn [fmap list_fmap].
  change (mjoin [?x; ?y; ?z]) with (x ++ y ++ z ++ []). rewrite <- !app_assoc. done.
Qed.

Definition sec_type (type : Z) : Z :=
  if type =? LLDP_CHASSIS_ID then X_LLDP_CHASSIS_ID
  else if type =? LLDP_PORT_ID then X_LLDP_PORT_ID
  else if type =? LLDP_TTL then X_LLDP_TTL
  else if type =? LLDP_SYS_NAME then X_LLDP_SYS_NAME
  else if type =? LLDP_PORT_DESCR then X_LLDP_PORT_DESCR
  else X_LLDP_ORG_SPECIFIC.

Definition sec_item (x : Z * list Z) : oxm_item :=
  Item (sec_type x.1) (be_bytes 4 X_EXPERIMENTER ++
    if x.1 =? LLDP_TTL then x.2 else default [] (LLDPValue_make x.2)).

Definition sec_known (x : Z * list Z) : Prop :=
  In x.1 [LLDP_CHASSIS_ID; LLDP_PORT_ID; LLDP_TTL; LLDP_SYS_NAME; LLDP_PORT_DESCR; LLDP_ORG_SPECIFIC] /\
  (x.1 = LLDP_TTL -> zlen x.2 = 2) /\ zlen x.2 <= 63 /\ bytes_ok x.2.

Lemma lldp_section_item le x s :
  sec_known x -> lldp_section le x.1 x.2 s = Some (mkMP (mp_match s ++ [sec_item x]) (mp_offset s)).
Proof.
  destruct x as [t v]. intros (Hin & Httl & Hl & Hb). cbn [fst snd] in *.
  destruct (LLDPValue_make_some v Hb) as (buf & E & Hz & _ & _).
  unfold lldp_section, sec_item, sec_type. cbn [fst snd]. rewrite E. cbn [mbind option_bind].
  change (default [] (Some buf)) with buf. cbn [In] in Hin. destruct Hin as [<-|[<-|[<-|[<-|[<-|[<-|[]]]]]]]; pick_case;
    try (apply addInternal_ok; rewrite Hz; by vm_compute).
  rewrite (Big_fromBytes_size_spec le W2 v Hb). cbn [mbind option_bind]. specialize (Httl eq_refl).
  replace (length v - wbytes W2)%nat with 0%nat by (unfold zlen in Httl; simpl; lia). rewrite drop_0.
  rewrite (be_bytes_be_len 2 v) by (done || (unfold zlen in Httl; lia)).
  apply addInternal_ok. by rewrite Httl.
Qed.

Lemma sec_header t v rest :
  0 < t < 128 -> zlen v <= 63 ->
  let data := sec_bytes (t, v) ++ rest in
  rd8 data 0 = Some (t * 2) /\ rd8 data 1 = Some (zlen v) /\ LLDPTlv_type (t * 2) = t /\
  LLDPTlv_length (t * 2) (zlen v) = zlen v /\ slice data 2 (zlen v) = Some v /\
  skip (zlen v + 2) data = Some rest /\ zlen data = zlen v + 2 + zlen rest.
Proof.
  intros Ht Hl. pose proof (zlen_nonneg v). cbv zeta. unfold sec_bytes. cbn [fst snd].
  split_and!; [done|done| | | | |].
  - unfold LLDPTlv_type. rewrite Z.shiftr_div_pow2 by lia. by apply Z.div_mul.
  - unfold LLDPTlv_length. rewrite (land_ones_mod _ 1) by done. change (2 ^ 1) with 2.
    rewrite Z.mod_mul by done. done.
  - rewrite <- app_assoc. rewrite (slice_split _ 2 (zlen v) [t * 2; zlen v] v rest); done.
  - apply skip_app. rewrite zlen_app. change (zlen [t * 2; zlen v]) with 2. lia.
  - rewrite !zlen_app. change (zlen [t * 2; zlen v]) with 2. lia.
Qed.

Lemma decodeLLDP_sections le secs k fuel s :
  Forall sec_known secs ->
  let data := mjoin (sec_bytes <$> secs) ++ [0; 0] ++ zeros k in
  (length data <= fuel)%nat -> 0 <= mp_offset s -> mp_offset s + zlen data < 2 ^ 64 ->
  decodeLLDP fuel le data s = Some (mkMP (mp_match s ++ (sec_item <$> secs)) (mp_offset s + zlen data)).
Proof.
  intros Hs. revert fuel s. induction Hs as [|[t v] secs Hx Hs IH]; intros fuel s data Hf H0 Hmax.
  - cbn in data. assert (zlen data = 2 + Z.of_nat k) as Hz
      by (unfold data, zeros; rewrite !zlen_cons, zlen_replicate; lia).
    destruct fuel as [|fuel]; [unfold data in Hf; simpl in Hf; lia|]. cbn [decodeLLDP].
    rewrite (proj2 (Z.eqb_neq _ 0)), (proj2 (Z.ltb_ge _ 2)) by lia.
    change (rd8 data 0) with (Some 0). change (rd8 data 1) with (Some 0). cbn [mbind option_bind].
    change (LLDPTlv_length 0 0 + 2) with 2. rewrite (proj2 (Z.ltb_ge _ 2)) by lia.
    change (LLDPTlv_type 0 =? LLDP_END) with true. cbv iota. unfold advance. rewrite u64_small by lia.
    cbn [fmap list_fmap]. by rewrite app_nil_r.
  - unfold data in *. clear data. cbn [fmap list_fmap] in *.
    change (mjoin (?x :: ?k)) with (x ++ mjoin k) in *. rewrite <- app_assoc in *.
    set (rest := mjoin (sec_bytes <$> secs) ++ [0; 0] ++ zeros k) in *.
    pose proof Hx as (Hin & _ & Hl & Hb). cbn [fst snd] in *.
    assert (0 < t < 128) as Ht by (cbn [In] in Hin; unfold LLDP_CHASSIS_ID, LLDP_PORT_ID, LLDP_TTL, LLDP_SYS_NAME,
      LLDP_PORT_DESCR, LLDP_ORG_SPECIFIC in Hin; lia).
    destruct (sec_header t v rest Ht Hl) as (E0 & E1 & Et & El & Ev & Es & Ez).
    set (data := sec_bytes (t, v) ++ rest) in *. pose proof (zlen_nonneg v). pose proof (zlen_nonneg rest).
    destruct fuel as [|fuel]; [unfold zlen in Ez; lia|]. cbn [decodeLLDP].
    rewrite (proj2 (Z.eqb_neq _ 0)), (proj2 (Z.ltb_ge _ 2)) by lia.
    rewrite E0, E1. cbn [mbind option_bind]. rewrite El, Et.
    rewrite (proj2 (Z.ltb_ge _ _)), (proj2 (Z.eqb_neq t LLDP_END)) by (unfold LLDP_END; lia).
    rewrite Ev. cbn [mbind option_bind].
    pose proof (lldp_section_item le (t, v) s Hx) as Hsec. cbn [fst snd] in Hsec. rewrite Hsec.
    cbn [mbind option_bind]. rewrite (proj2 (Z.leb_le _ _)), Es by lia. cbn [mbind option_bind]. unfold advance. cbn [mp_match mp_offset].
    rewrite u64_small by lia.
    rewrite (IH fuel (mkMP (mp_match s ++ [sec_item (t, v)]) (mp_offset s + (zlen v + 2))));
      [|clear - Hf Ez; unfold zlen in Ez; lia|cbn [mp_offset]; lia..].
    cbn [mp_match mp_offset]. rewrite <- app_assoc. cbn [app]. do 2 f_equal. lia.
Qed.

Definition named_value (v : list Z) : list Z := if zlen (value_of v) =? 0 then zeros 64 else v.

Definition lldp_part (b : MatchPacketBuilder) : MatchPacketBuilder :=
  (eth_part b) {{ pb_lldpChassisId := pb_lldpChassisId b }} {{ pb_lldpPortId := pb_lldpPortId b }}
    {{ pb_lldpTtl := pb_lldpTtl b }} {{ pb_lldpSysName := named_value (pb_lldpSysName b) }}
    {{ pb_lldpPortDescr := named_value (pb_lldpPortDescr b) }} {{ pb_lldpCustom := pb_lldpCustom b }}.

Lemma sections_known b : pb_ok b -> Forall sec_known (sections b).
Proof.
  intros [_ _ _ _ _ _ _ _ _ _ _ _ _ _ _ _ _ _ _ _ _ _ _ H1 H2 Ht H3 H4 H5].
  assert (forall t v, lldp_ok v -> t ≠ LLDP_TTL ->
    In t [LLDP_CHASSIS_ID; LLDP_PORT_ID; LLDP_TTL; LLDP_SYS_NAME; LLDP_PORT_DESCR; LLDP_ORG_SPECIFIC] ->
    sec_known (t, value_of v)) as Hv.
  { intros t v Hv Hn Hin. destruct (lldp_ok_value v Hv) as (_ & _ & ? & ? & _). unfold sec_known. cbn [fst snd].
    split_and!; done. }
  unfold sections, named_section. rewrite !Forall_app. split_and!.
  - constructor; [apply Hv; [done..|cbn; tauto]|]. constructor; [apply Hv; [done..|cbn; tauto]|].
    constructor; [|constructor]. unfold sec_known. cbn [fst snd].
    split_and!; [cbn; tauto|by intros _|by rewrite zlen_be_bytes|apply be_bytes_ok].
  - destruct (_ =? _); constructor; [apply Hv; [done..|cbn; tauto]|constructor].
  - destruct (_ =? _); constructor; [apply Hv; [done..|cbn; tauto]|constructor].
  - apply Forall_fmap. eapply Forall_impl; [done|]. intros v Hv'. apply Hv; [done..|cbn; tauto].
Qed.

Lemma sec_item_value t v :
  lldp_ok v -> t ≠ LLDP_TTL -> sec_item (t, value_of v) = Item (sec_type t) (be_bytes 4 X_EXPERIMENTER ++ v).
Proof.
  intros Hv Ht. destruct (lldp_ok_value v Hv) as (_ & E & _). unfold sec_item. cbn [fst snd].
  rewrite (proj2 (Z.eqb_neq _ _)) by done. by rewrite E.
Qed.

Lemma builder_custom vs b :
  Forall lldp_ok vs ->
  fold_items (on_item builder_item) (sec_item <$> ((fun v => (LLDP_ORG_SPECIFIC, value_of v)) <$> vs)) b =
  Some (b {{ pb_lldpCustom := pb_lldpCustom b ++ vs }}).
Proof.
  intros Hvs. revert b. induction Hvs as [|v vs Hv _ IH]; intros b.
  { cbn [fmap list_fmap fold_items]. rewrite app_nil_r. by destruct b. }
  cbn [fmap list_fmap]. rewrite sec_item_value by done. destruct (lldp_ok_value v Hv) as (_ & _ & _ & _ & Hz & _).
  unfold sec_type. pick_case. take_field. rewrite IH.
  change (pb_lldpCustom (b {{ pb_lldpCustom := ?x }})) with x. by rewrite <- app_assoc.
Qed.

Lemma builder_lldp b :
  pb_ok b -> fold_items (on_item builder_item) (sec_item <$> sections b) (eth_part b) = Some (lldp_part b).
Proof.
  intros [_ _ _ _ _ _ _ _ _ _ _ _ _ _ _ _ _ _ _ _ _ _ _ H1 H2 Ht H3 H4 H5].
  destruct (lldp_ok_value _ H1) as (_ & _ & _ & _ & Z1 & _). destruct (lldp_ok_value _ H2) as (_ & _ & _ & _ & Z2 & _).
  destruct (lldp_ok_value _ H3) as (_ & _ & _ & _ & Z3 & _). destruct (lldp_ok_value _ H4) as (_ & _ & _ & _ & Z4 & _).
  unfold sections. rewrite !fmap_app. cbn [fmap list_fmap app]. rewrite !sec_item_value by done.
  change (sec_item (LLDP_TTL, ?v)) with (Item X_LLDP_TTL (be_bytes 4 X_EXPERIMENTER ++ v)).
  unfold sec_type. pick_case. do 3 take_field. rewrite be_be_bytes_small by (simpl; lia).
  unfold lldp_part, named_section, named_value.
  destruct (zlen (value_of (pb_lldpSysName b)) =? 0), (zlen (value_of (pb_lldpPortDescr b)) =? 0);
    cbn [fmap list_fmap app]; rewrite ?sec_item_value by done; unfold sec_type; pick_case;
    repeat take_field; by rewrite builder_custom.
Qed.

Lemma lldp_optional_named t v : lldp_ok v -> lldp_optional t (named_value v) = lldp_optional t v.
Proof.
  intros Hv. unfold named_value. destruct (Z.eqb_spec (zlen (value_of v)) 0) as [E|]; [|done].
  destruct (lldp_ok_value v Hv) as (_ & _ & _ & _ & _ & _ & Ee). unfold lldp_optional. by rewrite Ee, E.
Qed.

Lemma build_lldp_part le local local' b data :
  pb_ok b -> pb_ethType b = DATALINK_LLDP ->
  build le local local' (lldp_part b) data = build le local local' b data.
Proof.
  intros [_ _ _ _ _ _ _ _ _ _ _ _ _ _ _ _ _ _ _ _ _ _ _ H1 H2 Hl H3 H4 H5] Ht.
  unfold build. change (pb_ethType (lldp_part b)) with (pb_ethType b). rewrite Ht. pick_case. f_equal. unfold buildLldp.
  change (pb_lldpSysName (lldp_part b)) with (named_value (pb_lldpSysName b)).
  change (pb_lldpPortDescr (lldp_part b)) with (named_value (pb_lldpPortDescr b)).
  by rewrite !lldp_optional_named.
Qed.

(** C27. An LLDP packet that the builder writes, with the optional sections and any
    number of organization specific ones: the decoder uses all of it and finds
    each section, and a builder made from the decoded fields writes the same
    packet again. *)
Theorem lldp_roundtrip le local local' addr b data :
  pb_ok b -> pb_ethType b = DATALINK_LLDP -> zlen (mjoin (sec_bytes <$> sections b)) < 2 ^ 31 -> addr mod 8 = 2 ->
  exists m s b', build le local local' b data = Some m /\
    decode le addr m (mkMP [] 0) = Some s /\ mp_offset s = zlen m /\
    mp_match s = eth_fields b ++ eth_is DATALINK_LLDP :: (sec_item <$> sections b) /\
    MatchPacketBuilder_make (encode (mp_match s)) = Some b' /\
    build le local local' b' data = Some m.
Proof.
  intros Hok Ht Hsz Ha. pose proof (sections_known b Hok) as Hk.
  assert (exists k, build le local local' b data =
    Some (addEthernet b ++ mjoin (sec_bytes <$> sections b) ++ [0; 0] ++ zeros k) /\ (k <= 60)%nat) as (k & E & Hk60).
  { unfold build. rewrite Ht. pick_case. rewrite buildLldp_bytes by done. cbn [mbind option_bind].
    edestruct pad60_zeros as (k & -> & ?). exists k. by rewrite <- !app_assoc. }
  set (rest := mjoin (sec_bytes <$> sections b) ++ [0; 0] ++ zeros k) in *.
  assert (zlen rest < 2 ^ 32) as Hr.
  { unfold rest, zeros. rewrite !zlen_app, zlen_replicate. change (zlen [0; 0]) with 2. lia. }
  pose proof (zlen_nonneg (addEthernet b)). pose proof (addEthernet_length b Hok) as He.
  destruct (rebuild le addr b rest (sec_item <$> sections b) (zlen (addEthernet b) + zlen rest) (lldp_part b) Hok Ha)
    as (s & D & Eo & Em & B); [|done| | |].
  - unfold rest. rewrite !Forall_app. split_and!; [|bytes|apply zeros_ok]. apply Forall_mjoin, Forall_fmap.
    eapply Forall_impl; [exact Hk|]. intros [t v] (Hin & _ & Hl & Hb). pose proof (zlen_nonneg v). cbn [fst snd] in *.
    unfold sec_bytes. cbn [fst snd compose]. apply Forall_app. split; [|done]. constructor; [|constructor; [|done]].
    + cbn [In] in Hin. unfold is_byte, LLDP_CHASSIS_ID, LLDP_PORT_ID, LLDP_TTL, LLDP_SYS_NAME, LLDP_PORT_DESCR,
        LLDP_ORG_SPECIFIC in *. lia.
    + unfold is_byte. lia.
  - intros addr' Ha'. unfold decode_ethType. rewrite Ht, addUnchecked_ok by done.
    cbn [mbind option_bind mp_match mp_offset]. pick_case.
    change ((DATALINK_LLDP =? DATALINK_LLDP) || (DATALINK_LLDP =? DATALINK_BDDP)) with true. cbv iota.
    unfold rest. rewrite decodeLLDP_sections; [|done|fold rest; cbn [mp_offset]; try done; try lia..].
    + cbn [mp_match mp_offset]. by rewrite <- app_assoc.
    + destruct (_ =? _); lia.
  - by apply builder_lldp.
  - exists (addEthernet b ++ rest), s, (lldp_part b). rewrite build_lldp_part by done.
    rewrite zlen_app, Eo in *. split_and!; try done. rewrite Em. unfold frame_fields, end_mark.
    by rewrite Z.ltb_irrefl, Ht, app_nil_r.
Qed.

(** ** Examples *)

Definition sample (ethType vlanVid ipProto icmpType : Z) : MatchPacketBuilder :=
  MatchPacketBuilder_init {{ pb_ethDst := [0; 0; 0; 0; 0; 1] }} {{ pb_ethSrc := [0; 0; 0; 0; 0; 2] }}
    {{ pb_ethType := ethType }} {{ pb_vlanVid := vlanVid }} {{ pb_arpOp := 1 }}
    {{ pb_arpSpa := [10; 0; 0; 1] }} {{ pb_arpTpa := [10; 0; 0; 2] }} {{ pb_ipv4Src := [10; 0; 0; 1] }}
    {{ pb_ipv4Dst := [10; 0; 0; 2] }} {{ pb_srcPort := 8080 }} {{ pb_dstPort := 80 }}
    {{ pb_ipProto := ipProto }} {{ pb_ipTtl := 64 }} {{ pb_icmpType := icmpType }} {{ pb_lldpTtl := 120 }}.

Lemma zeros_field n k : Z.of_nat n = k -> field_ok k (zeros n).
Proof. intros <-. split; [apply zlen_replicate|apply zeros_ok]. Qed.

Lemma empty_lldp_ok : lldp_ok (zeros 64).
Proof. exists []. by split_and!. Qed.

Lemma sample_ok ethType vlanVid ipProto icmpType :
  0 <= ethType < 2 ^ 16 -> ethType ≠ DATALINK_8021Q ->
  vlanVid = 0 \/ OFPVID_PRESENT <= vlanVid < OFPVID_PRESENT + 4096 ->
  0 <= ipProto < 256 -> 0 <= icmpType < 256 -> pb_ok (sample ethType vlanVid ipProto icmpType).
Proof.
  intros. constructor; cbn -[zeros]; unfold constant; try lia; try done;
    try (by apply zeros_field); try apply empty_lldp_ok; try (split; [done|bytes]); try constructor.
Qed.

Lemma arp_roundtrip_witness :
  exists m s b', build true 0 0 (sample DATALINK_ARP 0x1005 0 0) (mkRange 0 []) = Some m /\ zlen m = 60 /\
    decode true 2 m (mkMP [] 0) = Some s /\ mp_offset s = zlen m /\
    mp_match s = eth_fields (sample DATALINK_ARP 0x1005 0 0) ++ eth_is DATALINK_ARP ::
      arp_fields (sample DATALINK_ARP 0x1005 0 0) /\
    MatchPacketBuilder_make (encode (mp_match s)) = Some b' /\
    build true 0 0 b' (mkRange 0 []) = Some m.
Proof.
  refine (arp_roundtrip true 0 0 2 (sample DATALINK_ARP 0x1005 0 0) (mkRange 0 []) _ eq_refl eq_refl).
  apply sample_ok; unfold DATALINK_ARP, DATALINK_8021Q, OFPVID_PRESENT; lia.
Defined.

Lemma ipv4_roundtrip_witness :
  let b := sample DATALINK_IPV4 0 PROTOCOL_TCP 0 in let data := mkRange 3 [1; 2; 3] in
  exists m s b' hdr, build true 0 0 b data = Some m /\
    slice m (zlen (addEthernet b)) 20 = Some hdr /\ inet_sum hdr = 65535 /\
    decode true 2 m (mkMP [] 0) = Some s /\
    mp_offset s = zlen (addEthernet b) + 20 + v4_transport_size b /\
    slice m (mp_offset s) (br_size data) = Some (br_data data) /\
    mp_match s = frame_fields b (ipv4_fields b ++ v4_transport_fields b) (mp_offset s) (zlen m) /\
    MatchPacketBuilder_make (encode (mp_match s)) = Some b' /\
    build true 0 0 b' data = Some m.
Proof.
  intros b data. refine (ipv4_roundtrip true 0 0 2 b data _ eq_refl (or_intror eq_refl) _ _ eq_refl).
  - apply sample_ok; unfold DATALINK_IPV4, DATALINK_8021Q, PROTOCOL_TCP; lia.
  - unfold data. cbn [br_data]. bytes.
  - done.
Defined.

Lemma nd_roundtrip_witness :
  let b := sample DATALINK_IPV6 0 PROTOCOL_ICMPV6 ICMPV6_TYPE_NEIGHBOR_SOLICIT in
  exists m s b' icmp, build true 0 0 b (mkRange 0 []) = Some m /\
    m = addEthernet b ++ addIPv6 b 32 ++ icmp /\
    inet_sum (IPv6PseudoHdr_bytes b 32 ++ icmp) = 65535 /\
    decode true 2 m (mkMP [] 0) = Some s /\ mp_offset s = zlen m /\
    mp_match s = eth_fields b ++ eth_is DATALINK_IPV6 :: v6_fields b ++ nd_fields b /\
    MatchPacketBuilder_make (encode (mp_match s)) = Some b' /\
    build true 0 0 b' (mkRange 0 []) = Some m.
Proof.
  intros b. refine (nd_roundtrip true 0 0 2 b (mkRange 0 []) _ eq_refl eq_refl (or_introl eq_refl) eq_refl eq_refl).
  apply sample_ok; unfold DATALINK_IPV6, DATALINK_8021Q, PROTOCOL_ICMPV6, ICMPV6_TYPE_NEIGHBOR_SOLICIT; lia.
Defined.

Lemma lldp_roundtrip_witness :
  let b := sample DATALINK_LLDP 0 0 0 in
  exists m s b', build true 0 0 b (mkRange 0 []) = Some m /\
    decode true 2 m (mkMP [] 0) = Some s /\ mp_offset s = zlen m /\
    mp_match s = eth_fields b ++ eth_is DATALINK_LLDP :: (sec_item <$> sections b) /\
    MatchPacketBuilder_make (encode (mp_match s)) = Some b' /\
    build true 0 0 b' (mkRange 0 []) = Some m.
Proof.
  intros b. refine (lldp_roundtrip true 0 0 2 b (mkRange 0 []) _ eq_refl _ eq_refl).
  - apply sample_ok; unfold DATALINK_LLDP, DATALINK_8021Q; lia.
  - done.
Defined.

(** The TCP checksum that the builder writes covers the segment alone: the
    segment sums to all ones by itself, so that it does not with the pseudo
    header of the addresses, protocol and length that TCP requires. The data
    offset in the header is zero as well. *)
Theorem tcp_checksum_lacks_pseudo_header :
  let b := sample DATALINK_IPV4 0 PROTOCOL_TCP 0 in
  exists m seg, build true 0 0 b (mkRange 0 []) = Some m /\ slice m 34 20 = Some seg /\
    inet_sum seg = 65535 /\
    inet_sum (pb_ipv4Src b ++ pb_ipv4Dst b ++ [0; PROTOCOL_TCP] ++ be_bytes 2 20 ++ seg) ≠ 65535 /\
    rd8 seg 12 = Some 0.
Proof.
  eexists _, _. split; [vm_compute; reflexivity|]. split; [vm_compute; reflexivity|].
  split; [vm_compute; reflexivity|]. split; [intros H; vm_compute in H; discriminate|vm_compute; reflexivity].
Qed.
