(* ===== verification/Text.v ===== *)
(** * Text: the parts of llvm::StringRef that the parsers use
    (src/external/yaml-io/src/Support/StringRef.cpp, include/llvm/ADT/StringRef.h)

    A reader that reports success through its result and advances the string
    returns the value and the rest of the string, [None] on failure. Strings
    are lists of character codes. *)

From S2P Require Import Prelude.

(** ** StringRef: reading unsigned integers *)

(** The value of a digit in any radix up to 36. *)
Definition CharVal (c : Z) : option Z :=
  if (48 <=? c) && (c <=? 57) then Some (c - 48)
  else if (97 <=? c) && (c <=? 122) then Some (c - 97 + 10)
  else if (65 <=? c) && (c <=? 90) then Some (c - 65 + 10)
  else None.

Definition startswith (s prefix : list Z) : bool := bool_decide (take (length prefix) s = prefix).

(** [consume_front]: the string without the prefix, if it has it. *)
Definition consume_front (s prefix : list Z) : option (list Z) :=
  if startswith s prefix then Some (drop (length prefix) s) else None.

(** [toLower] and [equals_lower] of LLVM, on character codes. *)
Definition toLower (x : Z) : Z := if (65 <=? x) && (x <=? 90) then x - 65 + 97 else x.
Definition equals_lower (a b : list Z) : bool :=
  (zlen a =? zlen b) && bool_decide (toLower <$> a = toLower <$> b).

(** The radix and the string after its marker. *)
Definition GetAutoSenseRadix (s : list Z) : Z * list Z :=
  if bool_decide (s = []) then (10, s)
  else if startswith s (str "0x") || startswith s (str "0X") then (16, drop 2 s)
  else if startswith s (str "0b") || startswith s (str "0B") then (2, drop 2 s)
  else if startswith s (str "0o") then (8, drop 2 s)
  else match s with
       | 48 :: d :: _ => if (48 <=? d) && (d <=? 57) then (8, drop 1 s) else (10, s)
       | _ => (10, s)
       end.

(** The [while] loop; [None] is the return on overflow. *)
Fixpoint consume_loop (radix : Z) (s : list Z) (result : Z) : option (Z * list Z) :=
  match s with
  | [] => Some (result, s)
  | c :: s' =>
    match CharVal c with
    | None => Some (result, s)
    | Some v =>
      if radix <=? v then Some (result, s)
      else
        let r := u64 (u64 (result * radix) + v) in
        if r / radix <? result then None else consume_loop radix s' r
    end
  end.

Definition consumeUnsignedInteger (radix : Z) (s : list Z) : option (Z * list Z) :=
  let '(radix, s) := if radix =? 0 then GetAutoSenseRadix s else (radix, s) in
  if bool_decide (s = []) then None else
  '(v, s2) ← consume_loop radix s 0;
  if zlen s =? zlen s2 then None else Some (v, s2).

(** [consumeInteger] for an unsigned type of [w] bits. *)
Definition consumeInteger (w radix : Z) (s : list Z) : option (Z * list Z) :=
  '(v, s2) ← consumeUnsignedInteger radix s;
  if v mod 2 ^ w =? v then Some (v, s2) else None.

(** [getAsInteger] for an unsigned type of [w] bits: all of the string. *)
Definition getAsInteger (w radix : Z) (s : list Z) : option Z :=
  '(v, s2) ← consumeUnsignedInteger radix s;
  if bool_decide (s2 = []) && (v mod 2 ^ w =? v) then Some v else None.

(** [find] and [rfind] of a character: the index, [None] for [npos]. *)
Fixpoint find_char (c : Z) (s : list Z) : option nat :=
  match s with
  | [] => None
  | x :: s' => if x =? c then Some O else S <$> find_char c s'
  end.
Fixpoint rfind_char (c : Z) (s : list Z) : option nat :=
  match s with
  | [] => None
  | x :: s' =>
    match rfind_char c s' with
    | Some i => Some (S i)
    | None => if x =? c then Some O else None
    end
  end.

(** Blank characters: space, tab, newline, vertical tab, form feed, return. *)
Definition is_blank (c : Z) : bool := (c =? 32) || ((9 <=? c) && (c <=? 13)).
Fixpoint ltrim (s : list Z) : list Z :=
  match s with
  | [] => []
  | c :: s' => if is_blank c then ltrim s' else s
  end.
Definition rtrim (s : list Z) : list Z := reverse (ltrim (reverse s)).
Definition trim (s : list Z) : list Z := rtrim (ltrim s).

(** Printing an unsigned integer in decimal ([%llu], [<<]); [%09u] pads it. A
    64-bit number has at most twenty digits. *)
Fixpoint dec_loop (fuel : nat) (n : Z) (acc : list Z) : list Z :=
  match fuel with
  | O => acc
  | S f => let acc := (48 + n mod 10) :: acc in if n <? 10 then acc else dec_loop f (n / 10) acc
  end.
Definition dec (n : Z) : list Z := dec_loop 20 n [].
Definition dec_pad (w : nat) (n : Z) : list Z :=
  let d := dec n in replicate (w - length d) 48 ++ d.

(** ** Decimal text *)

Definition is_digit (c : Z) : Prop := 48 <= c <= 57.

(** The number that decimal digits denote after the digits of [a]. *)
Definition dval (a : Z) (ds : list Z) : Z := foldl (fun v c => v * 10 + (c - 48)) a ds.

Lemma dval_app a ds es : dval a (ds ++ es) = dval (dval a ds) es.
Proof. apply foldl_app. Qed.

Lemma dval_bounds ds : Forall is_digit ds -> forall a, a * 10 ^ zlen ds <= dval a ds < (a + 1) * 10 ^ zlen ds.
Proof.
  induction 1 as [|c ds Hc _ IH]; intros a; [rewrite zlen_nil; simpl; lia|].
  rewrite zlen_cons, Z.pow_add_r by (pose proof (zlen_nonneg ds); lia).
  specialize (IH (a * 10 + (c - 48))). unfold is_digit in Hc.
  pose proof (Z.pow_pos_nonneg 10 (zlen ds) ltac:(lia) (zlen_nonneg ds)).
  change (dval a (c :: ds)) with (dval (a * 10 + (c - 48)) ds). nia.
Qed.

Lemma dval_zeros k a ds : a = 0 -> dval a (replicate k 48 ++ ds) = dval 0 ds.
Proof. intros ->. rewrite dval_app. f_equal. by induction k. Qed.

Lemma CharVal_digit c : is_digit c -> CharVal c = Some (c - 48).
Proof. unfold is_digit, CharVal. intros. by rewrite !(proj2 (Z.leb_le _ _)) by lia. Qed.

(** Reading stops at the first character that is not a decimal digit. *)
Definition no_digit (s : list Z) : Prop := forall c s', s = c :: s' -> ~ is_digit c.

Lemma consume_loop_stop s r : no_digit s -> consume_loop 10 s r = Some (r, s).
Proof.
  destruct s as [|c s']; [done|]. intros Hc. specialize (Hc c s' eq_refl). simpl.
  unfold CharVal, is_digit in *. split_ifs; try lia; try done.
  all: rewrite (proj2 (Z.leb_le _ _)) by lia; done.
Qed.

(** The overflow test is exact in radix 10: a number below 2^64 is read. *)
Lemma consume_loop_digits ds s : forall r,
  Forall is_digit ds -> no_digit s -> 0 <= r -> dval r ds < 2 ^ 64 ->
  consume_loop 10 (ds ++ s) r = Some (dval r ds, s).
Proof.
  induction ds as [|c ds IH]; intros r Hd Hs Hr Hv; [by apply consume_loop_stop|].
  apply Forall_cons in Hd as [Hc Hd]. simpl. rewrite (CharVal_digit c Hc).
  unfold is_digit in Hc. rewrite (proj2 (Z.leb_gt 10 _)) by lia.
  change (dval r (c :: ds)) with (dval (r * 10 + (c - 48)) ds) in *.
  pose proof (dval_bounds ds Hd (r * 10 + (c - 48))) as [Hb _].
  pose proof (Z.pow_pos_nonneg 10 (zlen ds) ltac:(lia) (zlen_nonneg ds)).
  assert (r * 10 + (c - 48) < 2 ^ 64) by nia.
  rewrite (u64_small (r * 10)), u64_small by lia.
  rewrite (proj2 (Z.ltb_ge _ _)) by (apply Z.div_le_lower_bound; lia).
  apply IH; try done; lia.
Qed.

Lemma consumeInteger_digits w ds s :
  Forall is_digit ds -> ds <> [] -> no_digit s -> dval 0 ds < 2 ^ w -> w <= 64 ->
  consumeInteger w 10 (ds ++ s) = Some (dval 0 ds, s).
Proof.
  intros Hd Hn Hs Hv Hw. unfold consumeInteger, consumeUnsignedInteger. cbn [Z.eqb].
  rewrite bool_decide_false by (by destruct ds).
  assert (2 ^ w <= 2 ^ 64) by (by apply Z.pow_le_mono_r).
  rewrite consume_loop_digits by (done || lia). cbn [mbind option_bind].
  rewrite (proj2 (Z.eqb_neq _ _)) by (destruct ds; [done|]; autorewrite with zlen;
    pose proof (zlen_nonneg ds); lia). cbn [mbind option_bind].
  pose proof (dval_bounds ds Hd 0). rewrite Z.mod_small by lia. by rewrite Z.eqb_refl.
Qed.

Lemma dec_loop_spec fuel : forall n acc,
  0 <= n < 10 ^ Z.of_nat fuel -> (0 < fuel)%nat ->
  exists ds, dec_loop fuel n acc = ds ++ acc /\ Forall is_digit ds /\ ds <> [] /\
    dval 0 ds = n /\ (forall k, n < 10 ^ Z.of_nat k -> (0 < k)%nat -> (length ds <= k)%nat).
Proof.
  induction fuel as [|f IH]; intros n acc Hn Hf; [lia|]. simpl.
  pose proof (Z.mod_pos_bound n 10 ltac:(lia)).
  destruct (Z.ltb_spec n 10) as [Hs|Hs].
  - exists [48 + n mod 10]. rewrite Z.mod_small by lia. split_and!; try done.
    + constructor; [unfold is_digit; lia|done].
    + unfold dval. simpl. lia.
  - destruct f as [|f]; [simpl in Hn; lia|].
    destruct (IH (n / 10) ((48 + n mod 10) :: acc)) as (ds & E & Hd & Hne & Hv & Hl).
    { rewrite Nat2Z.inj_succ, Z.pow_succ_r in Hn by lia. split; [apply Z.div_pos; lia|].
      apply Z.div_lt_upper_bound; lia. }
    { lia. }
    exists (ds ++ [48 + n mod 10]). rewrite E, <- app_assoc. split_and!; try done.
    + apply Forall_app. split; [done|]. constructor; [unfold is_digit; lia|done].
    + by destruct ds.
    + rewrite dval_app, Hv. unfold dval. simpl. pose proof (Z.div_mod n 10). lia.
    + intros k Hk Hk0. destruct k as [|k]; [lia|]. rewrite Nat2Z.inj_succ, Z.pow_succ_r in Hk by lia.
      destruct k as [|k]; [simpl in Hk; lia|].
      rewrite length_app. simpl. specialize (Hl (S k)).
      assert (n / 10 < 10 ^ Z.of_nat (S k)) by (apply Z.div_lt_upper_bound; lia). lia.
Qed.

Lemma dec_spec n :
  0 <= n < 2 ^ 64 -> Forall is_digit (dec n) /\ dec n <> [] /\ dval 0 (dec n) = n /\
    (forall k, n < 10 ^ Z.of_nat k -> (0 < k)%nat -> (length (dec n) <= k)%nat).
Proof.
  intros Hn. destruct (dec_loop_spec 20 n []) as (ds & E & ?); [simpl; lia|lia|].
  unfold dec. by rewrite E, app_nil_r.
Qed.

Lemma dec_pad_spec w n :
  0 <= n < 10 ^ Z.of_nat w -> (0 < w)%nat -> n < 2 ^ 64 ->
  Forall is_digit (dec_pad w n) /\ length (dec_pad w n) = w /\ dval 0 (dec_pad w n) = n.
Proof.
  intros Hn Hw H64. destruct (dec_spec n) as (Hd & _ & Hv & Hl); [lia|].
  specialize (Hl w ltac:(lia) Hw). unfold dec_pad. split_and!.
  - apply Forall_app. split; [|done]. apply Forall_replicate. unfold is_digit. lia.
  - rewrite length_app, length_replicate. lia.
  - by rewrite dval_zeros.
Qed.

Lemma no_digit_nil : no_digit [].
Proof. by intros ??. Qed.

Lemma no_digit_cons c s : ~ is_digit c -> no_digit (c :: s).
Proof. by intros Hc ?? [= <- <-]. Qed.

Lemma consumeInteger_dec w n s :
  0 <= n < 2 ^ w -> w <= 64 -> no_digit s -> consumeInteger w 10 (dec n ++ s) = Some (n, s).
Proof.
  intros Hn Hw Hs. assert (2 ^ w <= 2 ^ 64) by (by apply Z.pow_le_mono_r).
  destruct (dec_spec n ltac:(lia)) as (Hd & Hne & Hv & _).
  rewrite consumeInteger_digits by (done || lia). by rewrite Hv.
Qed.

Lemma consume_front_same c s : consume_front (str c ++ s) (str c) = Some s.
Proof.
  unfold consume_front, startswith. rewrite take_app_length, bool_decide_true, drop_app_length by done.
  done.
Qed.

Lemma getAsInteger_digits w ds :
  Forall is_digit ds -> ds <> [] -> dval 0 ds < 2 ^ w -> w <= 64 -> getAsInteger w 10 ds = Some (dval 0 ds).
Proof.
  intros Hd Hn Hv Hw. pose proof (consumeInteger_digits w ds [] Hd Hn no_digit_nil Hv Hw) as E.
  rewrite app_nil_r in E. unfold getAsInteger. unfold consumeInteger in E.
  destruct (consumeUnsignedInteger 10 ds) as [[v r]|]; [|done]. cbn [mbind option_bind] in *.
  destruct (v mod 2 ^ w =? v); [|done]. by simplify_eq.
Qed.

Lemma getAsInteger_dec w n : 0 <= n < 2 ^ w -> w <= 64 -> getAsInteger w 10 (dec n) = Some n.
Proof.
  intros Hn Hw. assert (2 ^ w <= 2 ^ 64) by (by apply Z.pow_le_mono_r).
  destruct (dec_spec n ltac:(lia)) as (Hd & Hne & Hv & _).
  rewrite getAsInteger_digits by (done || lia). by rewrite Hv.
Qed.

(** ** Searching and trimming *)

Lemma find_char_none c s : c ∉ s -> find_char c s = None.
Proof.
  induction s as [|x s IH]; intros H; [done|]. simpl. rewrite elem_of_cons in H.
  rewrite (proj2 (Z.eqb_neq x c)) by naive_solver. by rewrite IH by naive_solver.
Qed.

Lemma find_char_app c s t : c ∉ s -> find_char c (s ++ c :: t) = Some (length s).
Proof.
  induction s as [|x s IH]; intros H; simpl; [by rewrite Z.eqb_refl|].
  rewrite elem_of_cons in H. rewrite (proj2 (Z.eqb_neq x c)) by naive_solver.
  by rewrite IH by naive_solver.
Qed.

Lemma rfind_char_none c s : c ∉ s -> rfind_char c s = None.
Proof.
  induction s as [|x s IH]; intros H; [done|]. simpl. rewrite elem_of_cons in H.
  rewrite IH by naive_solver. by rewrite (proj2 (Z.eqb_neq x c)) by naive_solver.
Qed.

Lemma rfind_char_app c s t : c ∉ t -> rfind_char c (s ++ c :: t) = Some (length s).
Proof.
  intros H. induction s as [|x s IH]; simpl; [by rewrite rfind_char_none, Z.eqb_refl|]. by rewrite IH.
Qed.

Lemma rfind_char_lt c s i : rfind_char c s = Some i -> (i < length s)%nat.
Proof.
  revert i. induction s as [|x s IH]; intros i; [done|]. simpl.
  destruct (rfind_char c s) as [j|].
  - intros [= <-]. specialize (IH j eq_refl). lia.
  - destruct (x =? c); [|done]. intros [= <-]. lia.
Qed.

Lemma rfind_char_skip c s t : c ∉ t -> rfind_char c (s ++ t) = rfind_char c s.
Proof.
  intros H. induction s as [|x s IH]; simpl; [by apply rfind_char_none|]. by rewrite IH.
Qed.

Abbreviation not_blank := (fun c => is_blank c = false).

Lemma ltrim_id s : Forall not_blank s -> ltrim s = s.
Proof. by destruct 1 as [|c s Hc]; simpl; rewrite ?Hc. Qed.

Lemma rtrim_id s : Forall not_blank s -> rtrim s = s.
Proof. intros H. unfold rtrim. rewrite ltrim_id, reverse_involutive; [done|]. by apply Forall_reverse. Qed.

Lemma trim_id s : Forall not_blank s -> trim s = s.
Proof. intros H. unfold trim. rewrite ltrim_id by done. by apply rtrim_id. Qed.

Lemma digit_not_blank c : is_digit c -> is_blank c = false.
Proof. unfold is_digit, is_blank. lia. Qed.

Lemma not_in_digits c ds : Forall is_digit ds -> ~ is_digit c -> c ∉ ds.
Proof. intros H Hc Hin. by rewrite Forall_forall in H; apply H in Hin. Qed.
