(* ===== verification/Addresses.v ===== *)
(** * Addresses and VLAN numbers (src/ofp/macaddress.cpp, ipv4address.cpp,
    ipv6address.cpp, ipv6endpoint.cpp, vlannumber.cpp and their headers)

    Addresses are lists of bytes in network order. The system's [inet_pton] and
    [inet_ntop], reached through asio, are a parameter ([Inet]); what the code
    relies on is stated as [InetLaws]. [MacAddress::parse], which tries several
    notations on the same object, gives the flag and the object afterwards; the
    other parsers give the object when they return true. *)

From S2P Require Import Prelude.
From S2P Require Import Hex.
From S2P Require Import Constants.
From S2P Require Import Text.

(** Copy [out] over the first bytes of an array. *)
Definition overwrite (out addr : list Z) : list Z := out ++ drop (length out) addr.

(** ** MacAddress *)

Definition MacAddress_parse (s addr : list Z) : bool * list Z :=
  let size := zlen addr in
  let '(n, out) := HexDelimitedToRawData s size 58 in
  let addr := overwrite out addr in
  if n =? size then (true, addr) else
  let '(ok, addr) :=
    if zlen s =? 12 then
      let '(n, out) := HexStrictToRawData s size in (n =? size, overwrite out addr)
    else (false, addr) in
  if (ok : bool) then (true, addr) else
  let '(n, out) := HexDelimitedToRawData s size 45 in (n =? size, overwrite out addr).

(** The constructor from a string. *)
Definition MacAddress_make (s : list Z) : list Z :=
  let '(ok, addr) := MacAddress_parse s (replicate 6 0) in
  if (ok : bool) then addr else replicate 6 0.

Definition MacAddress_print (addr : list Z) : list Z := RawDataToHexDelimitedLowercase addr.
Definition MacAddress_valid (addr : list Z) : bool := negb (IsMemFilled addr 0).
Definition MacAddress_isMulticast (addr : list Z) : bool := Z.odd (default 0 (rd8 addr 0)).
Definition MacAddress_isBroadcast (addr : list Z) : bool := IsMemFilled addr 255.

(** ** VlanNumber: [vlan_] is a 16-bit value, the display code a signed 32-bit one *)

Definition displayCode (vlan : Z) : Z :=
  if (vlan =? 0) || (vlan =? OFPVID_PRESENT) then vlan
  else if (vlan <? OFPVID_PRESENT) || (2 * OFPVID_PRESENT <=? vlan) then - vlan
  else vlan - OFPVID_PRESENT.

Definition setDisplayCode (code : Z) : Z :=
  if (code =? 0) || (code =? OFPVID_PRESENT) then u16 code
  else if code <? 0 then Z.land (- code) 0xffff
  else if code <? OFPVID_PRESENT then u16 (code + OFPVID_PRESENT)
  else u16 (Z.land code OFPVID_MASK + OFPVID_PRESENT).

(** ** IPv4Address *)

(** What the code uses of the system's address conversion. [inet_pton] gives
    its result (positive for success, 0 for text that is no address) and the
    bytes it stored; [inet_ntop] gives no text on an error. *)
Class Inet := {
  inet_pton4 : list Z -> Z * list Z;
  inet_pton6 : list Z -> Z * list Z;
  inet_ntop4 : list Z -> option (list Z);
  inet_ntop6 : list Z -> option (list Z);
  max_addr_v4_str_len : Z }.

(** [find_first_not_of("0123456789", sp)], as the number of digits from [sp]. *)
Fixpoint digits (s : list Z) : nat :=
  match s with
  | [] => O
  | c :: s' => if (48 <=? c) && (c <=? 57) then S (digits s') else O
  end.

(** The first three components of [alternateParse], each followed by a dot:
    the components and the rest of the string. *)
Fixpoint alternate_loop (k : nat) (s : list Z) : option (list Z * list Z) :=
  match k with
  | O => Some ([], s)
  | S k' =>
    let ep := digits s in
    match drop ep s with
    | 46 :: rest =>
      v ← getAsInteger 8 10 (take ep s);
      '(vs, r) ← alternate_loop k' rest; Some (v :: vs, r)
    | _ => None
    end
  end.

(** [sp] is never [npos] after the loop. *)
Definition alternateParse (s : list Z) : option (list Z) :=
  '(vs, r) ← alternate_loop 3 s;
  if Nat.ltb (digits r) (length r) then None
  else v ← getAsInteger 8 10 r; Some (vs ++ [v]).

Definition IPv4Address_valid (a : list Z) : bool := negb (IsMemFilled a 0).

Section IP.
Context `{Inet}.

(** The address, when [parse] returns true. *)
Definition IPv4Address_parse (s : list Z) : option (list Z) :=
  if max_addr_v4_str_len <? zlen s then None
  else
    let '(result, a) := inet_pton4 (c_str s) in
    if result =? 0 then alternateParse s else if 0 <? result then Some a else None.

Definition IPv4Address_print (a : list Z) : list Z :=
  match inet_ntop4 a with Some s => s | None => str "<inet_ntop_error4>" end.

(** ** IPv6Address *)

(** The constructor from an IPv4 address: ::ffff:a.b.c.d. *)
Definition IPv6Address_of_v4 (a : list Z) : list Z := replicate 10 0 ++ [0xff; 0xff] ++ a.

Definition isV4Mapped (a : list Z) : bool :=
  IsMemFilled (take 10 a) 0 && (default 0 (rd8 a 10) =? 0xff) && (default 0 (rd8 a 11) =? 0xff).
Definition isLinkLocal (a : list Z) : bool :=
  (default 0 (rd8 a 0) =? 0xfe) && (Z.land (default 0 (rd8 a 1)) 0xc0 =? 0x80).
Definition toV4 (a : list Z) : option (list Z) := assert! isV4Mapped a;; slice a 12 4.

(** [zone]: kept in bytes 2 to 5 of a link-local address, low half first. *)
Definition zone (a : list Z) : option Z :=
  if negb (isLinkLocal a) then Some 0
  else lo ← rd16 a 2; hi ← rd16 a 4; Some (Z.lor (u32 (Z.shiftl hi 16)) lo).
Definition setZone (a : list Z) (zone : Z) : option (list Z) :=
  assert! isLinkLocal a;;
  a ← wr a 2 (be_bytes 2 (u16 zone)); wr a 4 (be_bytes 2 (u16 (Z.shiftr zone 16))).

Definition parseIPv6Address (s : list Z) : option (list Z) :=
  let '(result, a) := inet_pton6 (c_str s) in if 0 <? result then Some a else None.

(** [parse]: [None] is an access or assertion that fails, [Some None] the
    result false. *)
Definition IPv6Address_parse (s : list Z) (parseIPv4 : bool) : option (option (list Z)) :=
  match find_char 37 s with
  | Some pct =>
    match parseIPv6Address (take pct s) with
    | None => Some None
    | Some a =>
      if negb (isLinkLocal a) then Some None else
      let zoneStr := drop (S pct) s in
      if bool_decide (zoneStr = []) then Some None else
      match getAsInteger 32 10 zoneStr with
      | None => Some None
      | Some z => a ← setZone a z; Some (Some a)
      end
    end
  | None =>
    match parseIPv6Address s with
    | Some a => Some (Some a)
    | None =>
      if negb parseIPv4 then Some None
      else Some (IPv6Address_of_v4 <$> IPv4Address_parse s)
    end
  end.

Definition outputV6 (a : list Z) : option (list Z) :=
  my_zone ← zone a;
  temp ← (if negb (my_zone =? 0) then setZone a 0 else Some a);
  match inet_ntop6 temp with
  | Some result => Some (result ++ if negb (my_zone =? 0) then str "%" ++ dec my_zone else [])
  | None => Some (str "<inet_ntop_error6>")
  end.

Definition IPv6Address_print (a : list Z) : option (list Z) :=
  if isV4Mapped a then v4 ← toV4 a; Some (IPv4Address_print v4) else outputV6 a.

(** ** IPv6Endpoint *)

(** The address and the port part of an endpoint's text; [None] returns false. *)
Definition split_endpoint (input : list Z) : option (list Z * list Z) :=
  if bool_decide (head input = Some 91) then
    endBracket ← find_char 93 input;
    let addrStr := trim (take (endBracket - 1) (drop 1 input)) in
    let restStr := ltrim (drop (S endBracket) input) in
    match restStr with
    | [] => None
    | c :: rest => if negb (c =? 58) && negb (c =? 46) then None else Some (addrStr, ltrim rest)
    end
  else
    let lastSeparator :=
      match rfind_char 58 input with
      | None => rfind_char 46 input
      | Some i =>
        match rfind_char 46 input with
        | Some period => if Nat.ltb i period then Some period else Some i
        | None => Some i
        end
      end in
    match lastSeparator with
    | None => Some ([], input)
    | Some i => Some (rtrim (take i input), ltrim (drop (S i) input))
    end.

(** [parse]: the address and the port, [Some None] for false. *)
Definition IPv6Endpoint_parse (s : list Z) : option (option (list Z * Z)) :=
  let input := trim s in
  if bool_decide (input = []) then Some None else
  match split_endpoint input with
  | None => Some None
  | Some (addrStr, portStr) =>
    if bool_decide (portStr = []) then Some None else
    match getAsInteger 16 10 portStr with
    | None => Some None
    | Some port =>
      if port =? 0 then Some None
      else if bool_decide (addrStr = []) then Some (Some (replicate 16 0, port))
      else r ← IPv6Address_parse addrStr true; Some (a ← r; Some (a, port))
    end
  end.

Definition IPv6Endpoint_print (ep : list Z * Z) : option (list Z) :=
  text ← IPv6Address_print ep.1;
  Some ((if isV4Mapped ep.1 then text ++ str ":" else str "[" ++ text ++ str "]:") ++ dec ep.2).
End IP.

(** ** MAC addresses *)

Lemma overwrite_all out addr : length out = length addr -> overwrite out addr = out.
Proof. intros E. unfold overwrite. rewrite E, drop_all. apply app_nil_r. Qed.

(** Twelve hexadecimal digits are no colon-delimited text. *)
Lemma hex_delimited_plain m length :
  bytes_ok m -> (2 <= Datatypes.length m)%nat -> 1 <= length ->
  (hex_delimited 58 length (mjoin (hexPairUpper <$> m)) []).1 = 0.
Proof.
  intros Hm Hl Hlen. destruct m as [|b [|b' m]]; [simpl in Hl; lia..|].
  apply Forall_cons in Hm as [Hb Hm]. apply Forall_cons in Hm as [Hb' _].
  rewrite !hex_text_cons. pose proof (hexPairUpper_reads b Hb) as Hp.
  pose proof (hexPairUpper_reads b' Hb') as Hp'.
  apply pair_reads_inv in Hp as (x & y & -> & Hx & Hy & _ & _ & Hne & _).
  apply pair_reads_inv in Hp' as (x' & y' & -> & Hx' & _).
  assert ((x' =? 58) = false) as Hne' by (apply Z.eqb_neq; by intros ->).
  cbn [app]. change (hex_delimited 58 length (x :: y :: ?r) []) with
    (hex_delimited 58 length ([x; y] ++ r) []).
  unfold app. cbn [hex_delimited]. change (zlen []) with 0.
  rewrite (proj2 (Z.leb_gt _ _)), Hx, Hne, Hy, Hne' by lia. done.
Qed.

(** A MAC address is read back from its printed form (colon-delimited) and
    from twelve hexadecimal digits, whatever the object held before. *)
Theorem mac_roundtrip m addr :
  length m = 6%nat -> length addr = 6%nat -> bytes_ok m ->
  MacAddress_parse (MacAddress_print m) addr = (true, m) /\
  MacAddress_parse (RawDataToHex m) addr = (true, m).
Proof.
  intros Hm Ha Hb. assert (zlen m = 6) as Zm by (unfold zlen; lia).
  unfold MacAddress_parse. replace (zlen addr) with 6 by (unfold zlen; lia). split.
  - unfold MacAddress_print, HexDelimitedToRawData.
    rewrite (hex_delimited_tail m []); [|done|by intros ->|rewrite Zm; done]. cbn [app].
    rewrite Zm, overwrite_all by lia. done.
  - unfold RawDataToHex. rewrite (proj2 (Z.ltb_ge kTwoGigabytes (zlen m))) by (rewrite Zm; done).
    rewrite hex_text_length, Zm. unfold HexDelimitedToRawData, HexStrictToRawData.
    pose proof (hex_delimited_plain m 6 Hb ltac:(lia) ltac:(lia)) as Hz.
    destruct (hex_delimited 58 6 _ []) as [n out] eqn:E. simpl in Hz. subst n. cbn [Z.eqb].
    rewrite hex_strict_hex by (done || rewrite Zm; done). cbn [app]. rewrite Zm. cbn.
    f_equal. unfold overwrite. rewrite drop_ge; [apply app_nil_r|].
    pose proof (hex_delimited_bound (mjoin (hexPairUpper <$> m)) 58 6 [] ltac:(done)) as Ho.
    rewrite E in Ho. simpl in Ho. rewrite length_app, length_drop. unfold zlen in Ho. lia.
Qed.

Lemma mac_roundtrip_witness :
  MacAddress_print [0; 27; 33; 171; 205; 239] = str "00:1b:21:ab:cd:ef" /\
  MacAddress_parse (MacAddress_print [0; 27; 33; 171; 205; 239]) (replicate 6 0) =
    (true, [0; 27; 33; 171; 205; 239]) /\
  MacAddress_parse (RawDataToHex [0; 27; 33; 171; 205; 239]) (replicate 6 0) =
    (true, [0; 27; 33; 171; 205; 239]).
Proof.
  split; [reflexivity|].
  apply (mac_roundtrip [0; 27; 33; 171; 205; 239] (replicate 6 0)); [done|done|bytes].
Defined.

(** ** VLAN numbers *)

(** The display codes of the table in vlannumber.cpp. *)
Definition documented_code (vlan code : Z) : Prop :=
  (vlan = 0 /\ code = 0) \/ (vlan = 4096 /\ code = 4096) \/
  (4097 <= vlan <= 8191 /\ code = vlan - 4096) \/
  ((1 <= vlan <= 4095 \/ 8192 <= vlan) /\ code = - vlan).

(** [displayCode] is the documented code of every 16-bit VLAN number, and
    [setDisplayCode] of it restores the number; codes that are not documented
    still give a 16-bit number. *)
Theorem vlan_display_roundtrip vlan code :
  0 <= vlan < 2 ^ 16 ->
  documented_code vlan (displayCode vlan) /\ setDisplayCode (displayCode vlan) = vlan /\
  0 <= setDisplayCode code < 2 ^ 16.
Proof.
  intros Hv. unfold documented_code, displayCode, OFPVID_PRESENT. split; [|split].
  - split_ifs; lia.
  - unfold setDisplayCode, OFPVID_PRESENT.
    destruct ((vlan =? 0) || (vlan =? 4096)) eqn:E; [rewrite E; apply u16_small; lia|].
    destruct ((vlan <? 4096) || (2 * 4096 <=? vlan)) eqn:E2.
    + replace ((- vlan =? 0) || (- vlan =? 4096)) with false by lia.
      rewrite (proj2 (Z.ltb_lt (- vlan) 0)), Z.opp_involutive by lia.
      rewrite (land_ones_mod vlan 16) by done. apply Z.mod_small. lia.
    + replace ((vlan - 4096 =? 0) || (vlan - 4096 =? 4096)) with false by lia.
      rewrite (proj2 (Z.ltb_ge (vlan - 4096) 0)), (proj2 (Z.ltb_lt (vlan - 4096) 4096)) by lia.
      rewrite u16_small by lia. lia.
  - unfold setDisplayCode. split_ifs; try apply u16_range.
    rewrite (land_ones_mod _ 16) by done. by apply Z.mod_pos_bound.
Qed.

Lemma vlan_display_roundtrip_witness :
  documented_code 4106 (displayCode 4106) /\ setDisplayCode (displayCode 4106) = 4106 /\
  0 <= setDisplayCode 5000 < 2 ^ 16.
Proof. apply (vlan_display_roundtrip 4106 5000). lia. Defined.

(** ** IPv6 addresses: the IPv4-mapped form and the zone *)

Lemma list16 (a : list Z) : length a = 16%nat ->
  exists a0 a1 z0 z1 z2 z3 r, a = a0 :: a1 :: z0 :: z1 :: z2 :: z3 :: r /\ length r = 10%nat.
Proof.
  intros Ha. do 6 (destruct a as [|? a]; [simpl in Ha; lia|]).
  repeat eexists. simpl in Ha. lia.
Qed.

Lemma v4_mapped a : length a = 4%nat ->
  isV4Mapped (IPv6Address_of_v4 a) = true /\ toV4 (IPv6Address_of_v4 a) = Some a.
Proof.
  intros Ha. assert (isV4Mapped (IPv6Address_of_v4 a) = true) as E by done.
  split; [done|]. unfold toV4. rewrite E.
  apply (slice_split _ 12 4 (replicate 10 0 ++ [255; 255]) a []); [|done|unfold zlen; lia].
  by rewrite app_nil_r.
Qed.

Lemma v4_mapped_inv a : length a = 16%nat -> isV4Mapped a = true ->
  exists b, a = IPv6Address_of_v4 b /\ length b = 4%nat.
Proof.
  intros Ha. unfold isV4Mapped. rewrite !andb_true_iff, !Z.eqb_eq. intros [[Hz H10] H11].
  exists (drop 12 a). split; [|rewrite length_drop; lia].
  do 16 (destruct a as [|? a]; [simpl in Ha; lia|]). destruct a; [|simpl in Ha; lia].
  apply IsMemFilled_true in Hz. simpl in Hz, H10, H11. change (u8 0) with 0 in Hz.
  repeat (apply Forall_cons in Hz as [-> Hz]). cbn in H10, H11. by subst.
Qed.

Section Zone.
Context (a0 a1 z0 z1 z2 z3 : Z) (r : list Z).
Let a : list Z := a0 :: a1 :: z0 :: z1 :: z2 :: z3 :: r.

Lemma zone_link_local : isLinkLocal a = (a0 =? 0xfe) && (Z.land a1 0xc0 =? 0x80).
Proof. done. Qed.

Lemma zone_read : isLinkLocal a = true -> bytes_ok a ->
  zone a = Some (be [z2; z3; z0; z1]).
Proof.
  intros Hl Hb. unfold zone. rewrite Hl. cbn [negb].
  unfold rd_be. rewrite (slice_split a 2 2 [a0; a1] [z0; z1] (z2 :: z3 :: r)) by done.
  rewrite (slice_split a 4 2 [a0; a1; z0; z1] [z2; z3] r) by done. cbn [fmap option_fmap option_map mbind option_bind].
  do 6 apply Forall_cons in Hb as [? Hb].
  assert (0 <= be [z0; z1] < 2 ^ 16) by (apply be_range; bytes).
  assert (0 <= be [z2; z3] < 2 ^ 16) by (apply be_range; bytes).
  rewrite u32_small by (rewrite Z.shiftl_mul_pow2; lia).
  rewrite Z.lor_comm, lor_shift_add by lia. f_equal. unfold be. simpl. lia.
Qed.

Lemma zone_write v : isLinkLocal a = true ->
  setZone a v = Some (a0 :: a1 :: be_bytes 2 (u16 v) ++ be_bytes 2 (u16 (Z.shiftr v 16)) ++ r).
Proof.
  intros Hl. unfold setZone. rewrite Hl.
  rewrite (wr_split a 2 _ [a0; a1] [z0; z1] (z2 :: z3 :: r)) by done. cbn [mbind option_bind].
  by rewrite (wr_split _ 4 _ ([a0; a1] ++ be_bytes 2 (u16 v)) [z2; z3] r).
Qed.
End Zone.

Lemma be_bytes2 v : exists x y, be_bytes 2 v = [x; y] /\ is_byte x /\ is_byte y.
Proof.
  pose proof (be_bytes_ok 2 v) as H. do 2 eexists. split; [reflexivity|].
  simpl in H. apply Forall_cons in H as [? H]. by apply Forall_cons in H as [? _].
Qed.

Lemma set_zone_spec a v : length a = 16%nat -> bytes_ok a -> isLinkLocal a = true -> 0 <= v < 2 ^ 32 ->
  exists a', setZone a v = Some a' /\ length a' = 16%nat /\ bytes_ok a' /\ isLinkLocal a' = true /\
    zone a' = Some v /\ isV4Mapped a' = false /\ forall w, setZone a' w = setZone a w.
Proof.
  intros Ha Hb Hl Hv. destruct (list16 a Ha) as (a0 & a1 & z0 & z1 & z2 & z3 & r & -> & Hr).
  rewrite zone_write by done. pose proof (be_be_bytes 2 (u16 v)) as E1.
  pose proof (be_be_bytes 2 (u16 (Z.shiftr v 16))) as E2.
  destruct (be_bytes2 (u16 v)) as (x & y & Exy & Hx & Hy).
  destruct (be_bytes2 (u16 (Z.shiftr v 16))) as (x' & y' & Exy' & Hx' & Hy').
  rewrite Exy in E1 |- *. rewrite Exy' in E2 |- *. cbn [app].
  rewrite Z.mod_small in E1, E2 by apply u16_range.
  eexists. split; [reflexivity|]. do 6 (apply Forall_cons in Hb as [? Hb]).
  assert (bytes_ok (a0 :: a1 :: x :: y :: x' :: y' :: r)) as Hok
    by (repeat (apply Forall_cons_2; [done|]); done).
  split_and!; [simpl; lia|done|done| | |].
  - rewrite zone_read by done. f_equal. replace (be [x'; y'; x; y]) with (be [x'; y'] * 2 ^ 16 + be [x; y])
      by (unfold be; simpl; lia). rewrite E1, E2, Z.shiftr_div_pow2 by lia.
    rewrite (u16_small (v / 2 ^ 16)) by (split; [apply Z.div_pos; lia|apply Z.div_lt_upper_bound; lia]).
    unfold u16. pose proof (Z.div_mod v (2 ^ 16)). lia.
  - rewrite zone_link_local in Hl. apply andb_true_iff in Hl as [->%Z.eqb_eq _]. done.
  - intros w. by rewrite !zone_write.
Qed.

Lemma set_zone_same a : length a = 16%nat -> bytes_ok a -> isLinkLocal a = true ->
  exists z, zone a = Some z /\ 0 <= z < 2 ^ 32 /\ setZone a z = Some a.
Proof.
  intros Ha Hb Hl. destruct (list16 a Ha) as (a0 & a1 & z0 & z1 & z2 & z3 & r & -> & Hr).
  exists (be [z2; z3; z0; z1]). rewrite zone_read, zone_write by done.
  do 6 (apply Forall_cons in Hb as [? Hb]).
  assert (0 <= be [z2; z3; z0; z1] < 2 ^ 32) as Hz by (apply (be_range [z2; z3; z0; z1]); bytes).
  assert (0 <= be [z0; z1] < 2 ^ 16) by (apply be_range; bytes).
  assert (0 <= be [z2; z3] < 2 ^ 16) by (apply be_range; bytes).
  assert (be [z2; z3; z0; z1] = be [z2; z3] * 2 ^ 16 + be [z0; z1]) as E by (unfold be; simpl; lia).
  split_and!; [done|lia|lia|]. rewrite E, Z.shiftr_div_pow2 by lia.
  rewrite Z.div_add_l, (Z.div_small (be [z0; z1])), Z.add_0_r by lia. rewrite (u16_small (be [z2; z3])) by lia.
  unfold u16. rewrite Z.add_comm, Z.mod_add, Z.mod_small by lia.
  rewrite !(be_bytes_be_len 2) by (done || bytes). done.
Qed.

(** The zone of a link-local address is stored in unused bytes of the
    address: it is read back, replaces only the old zone, and storing the old
    zone again restores the address. An IPv4 address survives the mapping. *)
Theorem ipv6_zone_and_v4 a v b :
  length a = 16%nat -> bytes_ok a -> isLinkLocal a = true -> 0 <= v < 2 ^ 32 -> length b = 4%nat ->
  (exists a' z, setZone a v = Some a' /\ zone a' = Some v /\ zone a = Some z /\ setZone a' z = Some a) /\
  isV4Mapped (IPv6Address_of_v4 b) = true /\ toV4 (IPv6Address_of_v4 b) = Some b.
Proof.
  intros Ha Hb Hl Hv Hb4. split; [|by apply v4_mapped].
  destruct (set_zone_spec a v Ha Hb Hl Hv) as (a' & E & _ & _ & _ & Ez & _ & Hw).
  destruct (set_zone_same a Ha Hb Hl) as (z & Hz & _ & Hs).
  exists a', z. by rewrite Hw.
Qed.

Lemma ipv6_zone_witness :
  (exists a' z, setZone (254 :: 128 :: replicate 13 0 ++ [1]) 7 = Some a' /\ zone a' = Some 7 /\
    zone (254 :: 128 :: replicate 13 0 ++ [1]) = Some z /\
    setZone a' z = Some (254 :: 128 :: replicate 13 0 ++ [1])) /\
  isV4Mapped (IPv6Address_of_v4 [10; 0; 0; 1]) = true /\
  toV4 (IPv6Address_of_v4 [10; 0; 0; 1]) = Some [10; 0; 0; 1].
Proof.
  apply (ipv6_zone_and_v4 (254 :: 128 :: replicate 13 0 ++ [1]) 7 [10; 0; 0; 1]); try done. bytes.
Defined.

(** ** Endpoints *)

(** The characters of address text, and of dotted quads. *)
Definition quad_char (c : Z) : Prop := is_digit c \/ c = 46.
Definition addr_char (c : Z) : Prop := isxdigit c = true \/ c = 58 \/ c = 46.

(** Documented behaviour of [inet_ntop] and [inet_pton]: the text of an address
    is made of the usual characters and denotes it, and a dotted quad is no
    IPv6 address. *)
Class InetLaws `{Inet} : Prop := {
  inet6_text a : length a = 16%nat -> bytes_ok a -> exists s,
    inet_ntop6 a = Some s /\ 0 < (inet_pton6 s).1 /\ (inet_pton6 s).2 = a /\
    s <> [] /\ Forall addr_char s;
  inet4_text a : length a = 4%nat -> bytes_ok a -> exists s,
    inet_ntop4 a = Some s /\ 0 < (inet_pton4 s).1 /\ (inet_pton4 s).2 = a /\
    (inet_pton6 s).1 <= 0 /\ s <> [] /\ Forall quad_char s /\ zlen s <= max_addr_v4_str_len }.

(** What the parsers look for does not occur in address text. *)
Definition plain_char (c : Z) : Prop := addr_char c \/ is_digit c \/ c = 37.

Lemma plain_char_spec c : plain_char c -> is_blank c = false /\ c <> 0 /\ c <> 91 /\ c <> 93.
Proof.
  unfold plain_char, addr_char, is_digit, is_blank, isxdigit, isdigit. intros. lia.
Qed.

Lemma addr_char_plain c : addr_char c -> c <> 0 /\ c <> 37 /\ plain_char c.
Proof.
  intros H. split_and!; [| |by left]; unfold addr_char, isxdigit, isdigit in H; lia.
Qed.

Lemma quad_char_addr c : quad_char c -> addr_char c /\ c <> 58.
Proof. unfold quad_char, addr_char, is_digit, isxdigit, isdigit. lia. Qed.

Lemma digit_plain c : is_digit c -> plain_char c /\ c <> 58 /\ c <> 46.
Proof. unfold plain_char, is_digit. lia. Qed.

Lemma c_str_id s : Forall (fun c => c <> 0) s -> c_str s = s.
Proof.
  induction 1 as [|c s Hc _ IH]; [done|]. simpl. rewrite (proj2 (Z.eqb_neq c 0)) by done. by rewrite IH.
Qed.

Lemma not_in_Forall (P : Z -> Prop) c s : Forall P s -> ~ P c -> c ∉ s.
Proof. rewrite Forall_forall. intros Hs Hc Hin. by apply Hc, Hs. Qed.

Lemma drop_app_cons (s : list Z) c t : drop (S (length s)) (s ++ c :: t) = t.
Proof. rewrite (cons_middle c s t), app_assoc. apply drop_app_length'. rewrite length_app. simpl. lia. Qed.

(** How the text of an endpoint is cut. *)
Lemma split_plain s p :
  Forall quad_char s -> s <> [] -> Forall is_digit p ->
  split_endpoint (s ++ 58 :: p) = Some (s, p).
Proof.
  intros Hs Hne Hp. unfold split_endpoint.
  assert (rfind_char 58 (s ++ 58 :: p) = Some (length s)) as ->
    by (apply rfind_char_app; eapply not_in_Forall; [exact Hp|]; unfold is_digit; lia).
  assert (forall i, rfind_char 46 (s ++ 58 :: p) = Some i -> (i < length s)%nat) as H46.
  { intros i. rewrite rfind_char_skip by (rewrite elem_of_cons; intros [?|Hin]; [done|];
      by eapply not_in_Forall; [exact Hp| |exact Hin]; unfold is_digit; lia). apply rfind_char_lt. }
  assert (Some (rtrim (take (length s) (s ++ 58 :: p)), ltrim (drop (S (length s)) (s ++ 58 :: p))) = Some (s, p)) as E.
  { rewrite take_app_length, drop_app_cons, rtrim_id, ltrim_id; [done|..].
    - by eapply Forall_impl; [exact Hp|]; apply digit_not_blank.
    - eapply Forall_impl; [exact Hs|]. intros c Hc. apply plain_char_spec. left. by apply quad_char_addr. }
  rewrite bool_decide_false.
  - destruct (rfind_char 46 _) as [i|]; [|exact E]. specialize (H46 i eq_refl).
    rewrite (proj2 (Nat.ltb_ge _ _)) by lia. exact E.
  - destruct s as [|c s]; [done|]. apply Forall_cons in Hs as [Hc _]. cbn [app head].
    intros [= ->]. unfold quad_char, is_digit in Hc. lia.
Qed.

Lemma split_bracketed s p :
  Forall plain_char s -> Forall is_digit p ->
  split_endpoint (91 :: s ++ 93 :: 58 :: p) = Some (s, p).
Proof.
  intros Hs Hp. unfold split_endpoint.
  change (91 :: s ++ 93 :: 58 :: p) with ((91 :: s) ++ 93 :: 58 :: p).
  rewrite find_char_app by (rewrite elem_of_cons; intros [?|Hin]; [done|];
    eapply not_in_Forall; [exact Hs| |exact Hin]; by intros (_ & _ & _ & ?)%plain_char_spec).
  rewrite bool_decide_true by done. cbn [mbind option_bind]. rewrite drop_app_cons.
  change (drop 1 ((91 :: s) ++ 93 :: 58 :: p)) with (s ++ 93 :: 58 :: p).
  replace (length (91%Z :: s) - 1)%nat with (length s) by (simpl; lia).
  rewrite take_app_length, trim_id by (eapply Forall_impl; [exact Hs|]; apply plain_char_spec).
  cbn. rewrite ltrim_id; [done|]. by eapply Forall_impl; [exact Hp|]; apply digit_not_blank.
Qed.

Section Endpoints.
Context `{InetLaws}.

(** The text of an address is read back. *)
Lemma IPv6Address_parse_print a : length a = 16%nat -> bytes_ok a ->
  exists s, IPv6Address_print a = Some s /\ s <> [] /\ Forall plain_char s /\
    (isV4Mapped a = true -> Forall quad_char s) /\ IPv6Address_parse s true = Some (Some a).
Proof.
  intros Ha Hb. unfold IPv6Address_print. destruct (isV4Mapped a) eqn:E4.
  - destruct (v4_mapped_inv a Ha E4) as (b & -> & Hl). destruct (v4_mapped b Hl) as [_ ->].
    assert (bytes_ok b) as Hbb by (unfold IPv6Address_of_v4 in Hb; rewrite !Forall_app in Hb; tauto).
    destruct (inet4_text b Hl Hbb) as (s & Es & Hp & Ep & H6 & Hne & Hc & Hz).
    unfold IPv4Address_print. cbn [mbind option_bind]. rewrite Es. exists s.
    assert (Forall addr_char s) as Hc' by (eapply Forall_impl; [exact Hc|]; apply quad_char_addr).
    split_and!; [done|done|by eapply Forall_impl; [exact Hc'|]; apply addr_char_plain|done|].
    unfold IPv6Address_parse, parseIPv6Address, IPv4Address_parse.
    rewrite find_char_none by (by eapply not_in_Forall; [exact Hc|]; unfold quad_char, is_digit; lia).
    rewrite c_str_id by (eapply Forall_impl; [exact Hc'|]; intros ? ?%addr_char_plain; tauto).
    destruct (inet_pton6 s) as [r6 a6]. simpl in H6. rewrite (proj2 (Z.ltb_ge _ _)) by lia.
    cbn [negb]. rewrite (proj2 (Z.ltb_ge _ _)) by lia.
    destruct (inet_pton4 s) as [r4 a4]. simpl in Hp, Ep. subst a4.
    rewrite (proj2 (Z.eqb_neq _ _)), (proj2 (Z.ltb_lt _ _)) by lia. done.
  - assert (exists z, zone a = Some z /\ 0 <= z < 2 ^ 32 /\ (z <> 0 -> isLinkLocal a = true))
      as (z & Ez & Hz & Hzl).
    { destruct (isLinkLocal a) eqn:El.
      - destruct (set_zone_same a Ha Hb El) as (z & ? & ? & _). by exists z.
      - exists 0. unfold zone. rewrite El. split_and!; try done; lia. }
    unfold outputV6. rewrite Ez. cbn [mbind option_bind].
    destruct (Z.eqb_spec z 0) as [->|Hz0]; cbn [negb].
    + cbn [mbind option_bind]. destruct (inet6_text a Ha Hb) as (s & -> & Hp & Ep & Hne & Hc).
      rewrite app_nil_r. exists s. split_and!; try done.
      { by eapply Forall_impl; [exact Hc|]; apply addr_char_plain. }
      unfold IPv6Address_parse, parseIPv6Address.
      rewrite find_char_none by (eapply not_in_Forall; [exact Hc|]; by intros (_ & ? & _)%addr_char_plain).
      rewrite c_str_id by (eapply Forall_impl; [exact Hc|]; intros ? ?%addr_char_plain; tauto).
      destruct (inet_pton6 s) as [r6 a6]. simpl in Hp, Ep. subst a6. by rewrite (proj2 (Z.ltb_lt _ _)) by lia.
    + specialize (Hzl Hz0).
      destruct (set_zone_spec a 0 Ha Hb Hzl ltac:(lia)) as (t & -> & Ht & Htb & Htl & _ & _ & Hw).
      destruct (set_zone_same a Ha Hb Hzl) as (z' & Ez' & _ & Hs). simplify_eq.
      cbn [mbind option_bind]. destruct (inet6_text t Ht Htb) as (s & -> & Hp & Ep & Hne & Hc).
      destruct (dec_spec z ltac:(lia)) as (Hd & Hdn & _).
      exists (s ++ 37 :: dec z). split_and!; [done|by destruct s| |done|].
      { rewrite Forall_app, Forall_cons. split_and!; [|by right; right|].
        - by eapply Forall_impl; [exact Hc|]; apply addr_char_plain.
        - by eapply Forall_impl; [exact Hd|]; apply digit_plain. }
      unfold IPv6Address_parse, parseIPv6Address.
      rewrite find_char_app by (eapply not_in_Forall; [exact Hc|]; by intros (_ & ? & _)%addr_char_plain).
      rewrite take_app_length, drop_app_cons.
      rewrite c_str_id by (eapply Forall_impl; [exact Hc|]; intros ? ?%addr_char_plain; tauto).
      destruct (inet_pton6 s) as [r6 a6]. simpl in Hp, Ep. subst a6.
      rewrite (proj2 (Z.ltb_lt _ _)), Htl, bool_decide_false by (done || lia). cbn [negb].
      rewrite getAsInteger_dec, Hw, Hs by lia. done.
Qed.
End Endpoints.

(** An endpoint (any IPv6 address, IPv4-mapped and link-local with a zone
    included, and a port other than 0) is read back from its printed form,
    given the documented behaviour of the system's address conversion. *)
Theorem endpoint_roundtrip `{InetLaws} a port :
  length a = 16%nat -> bytes_ok a -> 0 < port < 2 ^ 16 ->
  exists s, IPv6Endpoint_print (a, port) = Some s /\ IPv6Endpoint_parse s = Some (Some (a, port)).
Proof.
  intros Ha Hb Hp. unfold IPv6Endpoint_print. cbn [fst snd].
  destruct (IPv6Address_parse_print a Ha Hb) as (s & -> & Hne & Hc & H4 & Hparse).
  cbn [mbind option_bind]. eexists. split; [reflexivity|].
  destruct (dec_spec port ltac:(lia)) as (Hd & Hdn & _).
  assert (Forall not_blank s) as Hbs by (eapply Forall_impl; [exact Hc|]; apply plain_char_spec).
  assert (Forall not_blank (dec port)) as Hbd by (eapply Forall_impl; [exact Hd|]; apply digit_not_blank).
  unfold IPv6Endpoint_parse.
  set (input := (if isV4Mapped a then _ else _) ++ dec port).
  assert (trim input = input /\ input <> [] /\ split_endpoint input = Some (s, dec port)) as (-> & Hi & ->).
  2: { rewrite !bool_decide_false by done. rewrite getAsInteger_dec by lia.
       rewrite (proj2 (Z.eqb_neq _ _)) by lia. by rewrite Hparse. }
  destruct (isV4Mapped a); subst input.
  - specialize (H4 eq_refl). rewrite <- app_assoc. change (str ":" ++ dec port) with (58 :: dec port).
    split_and!; [apply trim_id; rewrite Forall_app, Forall_cons; done|by destruct s|].
    apply split_plain; try done.
  - rewrite <- !app_assoc. change (str "[" ++ s ++ str "]:" ++ dec port) with (91 :: s ++ 93 :: 58 :: dec port).
    split_and!; [apply trim_id; rewrite Forall_cons, Forall_app, !Forall_cons; done|done|].
    by apply split_bracketed.
Qed.

(** A concrete conversion that satisfies the laws: hexadecimal text for IPv6
    addresses, three decimal digits per byte for IPv4 ones. *)
Fixpoint read3 (s : list Z) : list Z :=
  match s with
  | a :: b :: c :: s' => dval 0 [a; b; c] :: read3 s'
  | _ => []
  end.

Definition plain_inet : Inet := {|
  inet_pton4 := fun s => (1, read3 s);
  inet_pton6 := fun s => if zlen s =? 32 then (1, (HexStrictToRawData s 16).2) else (0, []);
  inet_ntop4 := fun a => Some (mjoin (dec_pad 3 <$> a));
  inet_ntop6 := fun a => Some (mjoin (hexPairUpper <$> a));
  max_addr_v4_str_len := 16 |}.

Lemma hex_text_digits a : bytes_ok a -> Forall (fun c => isxdigit c = true) (mjoin (hexPairUpper <$> a)).
Proof.
  induction 1 as [|b a Hb _ IH]; [constructor|]. rewrite hex_text_cons.
  destruct (pair_reads_inv _ _ (hexPairUpper_reads b Hb)) as (x & y & -> & Hx & Hy & _).
  by repeat constructor.
Qed.

Lemma quad_text a : bytes_ok a ->
  Forall is_digit (mjoin (dec_pad 3 <$> a)) /\ zlen (mjoin (dec_pad 3 <$> a)) = 3 * zlen a /\
  read3 (mjoin (dec_pad 3 <$> a)) = a.
Proof.
  induction 1 as [|b a Hb _ (Hd & Hz & Hr)]; [done|]. unfold is_byte in Hb.
  change (mjoin (dec_pad 3 <$> b :: a)) with (dec_pad 3 b ++ mjoin (dec_pad 3 <$> a)).
  destruct (dec_pad_spec 3 b) as (D & L & V); [simpl; lia|lia|lia|].
  rewrite zlen_app, zlen_cons, Hz. split_and!; [by apply Forall_app|unfold zlen; lia|].
  destruct (dec_pad 3 b) as [|x [|y [|z [|]]]]; try done. cbn [app read3]. by rewrite V, Hr.
Qed.

#[local] Instance plain_inet_laws : @InetLaws plain_inet.
Proof.
  split; intros a Ha Hb; eexists; (split; [reflexivity|]); simpl.
  - rewrite hex_text_length. replace (zlen a) with 16 by (unfold zlen; lia). cbn [Z.mul Z.eqb Pos.mul Pos.eqb].
    unfold HexStrictToRawData. rewrite hex_strict_hex by (done || (unfold zlen; simpl; lia)).
    split_and!; [done|done| |].
    + intros E. pose proof (hex_text_length a) as Hl. rewrite E in Hl. unfold zlen in Hl. simpl in Hl. lia.
    + eapply Forall_impl; [by apply hex_text_digits|]. by left.
  - destruct (quad_text a Hb) as (Hd & Hz & Hr). assert (zlen a = 4) as Za by (unfold zlen; lia).
    rewrite Hr, Hz, Za. split_and!; [done|done|done| |by eapply Forall_impl; [exact Hd|]; left|done].
    intros E. rewrite E, Za in Hz. done.
Qed.

Lemma endpoint_roundtrip_witness :
  exists s, IPv6Endpoint_print (H := plain_inet) (254 :: 128 :: replicate 3 0 ++ [9] ++ replicate 9 0 ++ [1], 6653) = Some s /\
    IPv6Endpoint_parse (H := plain_inet) s =
      Some (Some (254 :: 128 :: replicate 3 0 ++ [9] ++ replicate 9 0 ++ [1], 6653)).
Proof.
  apply (endpoint_roundtrip (254 :: 128 :: replicate 3 0 ++ [9] ++ replicate 9 0 ++ [1]) 6653); [done|bytes|lia].
Defined.

(** ** Zero-padded dotted quads *)

Lemma digits_app ds s : Forall is_digit ds -> no_digit s -> digits (ds ++ s) = length ds.
Proof.
  intros Hd Hs. induction Hd as [|c ds Hc _ IH]; simpl.
  - destruct s as [|c s']; [done|]. specialize (Hs c s' eq_refl). simpl. unfold is_digit in Hs.
    destruct ((48 <=? c) && (c <=? 57)) eqn:E; [lia|done].
  - unfold is_digit in Hc. by rewrite !(proj2 (Z.leb_le _ _)), IH by lia.
Qed.

(** [alternateParse], the reader for addresses such as "127.000.000.001"
    that [inet_pton] refuses, reads every dotted quad of decimal numbers below
    256, with any number of leading zeros. *)
Theorem alternateParse_quads p q r s :
  Forall (fun ds => Forall is_digit ds /\ ds <> [] /\ dval 0 ds < 256) [p; q; r; s] ->
  alternateParse (p ++ str "." ++ q ++ str "." ++ r ++ str "." ++ s) =
  Some [dval 0 p; dval 0 q; dval 0 r; dval 0 s].
Proof.
  rewrite !Forall_cons. intros ((Hp & Hp' & Vp) & (Hq & Hq' & Vq) & (Hr & Hr' & Vr) & (Hs & Hs' & Vs) & _).
  assert (forall k ds rest, Forall is_digit ds -> ds <> [] -> dval 0 ds < 256 ->
    alternate_loop (S k) (ds ++ str "." ++ rest) =
    ('(vs, r) ← alternate_loop k rest; Some (dval 0 ds :: vs, r))) as Hstep.
  { intros k ds rest Hd Hn Hv. change (str "." ++ rest) with (46 :: rest). cbn [alternate_loop].
    rewrite digits_app by (done || (apply no_digit_cons; unfold is_digit; lia)).
    rewrite drop_app_length, take_app_length, getAsInteger_digits by (done || lia). done. }
  unfold alternateParse. rewrite !Hstep by done. cbn [alternate_loop mbind option_bind].
  rewrite <- (app_nil_r s) at 1. rewrite digits_app by (done || apply no_digit_nil).
  rewrite (proj2 (Nat.ltb_ge _ _)) by lia. rewrite getAsInteger_digits by (done || lia). done.
Qed.

Lemma alternateParse_witness :
  alternateParse (str "127" ++ str "." ++ str "000" ++ str "." ++ str "000" ++ str "." ++ str "001") =
  Some [127; 0; 0; 1].
Proof.
  apply (alternateParse_quads (str "127") (str "000") (str "000") (str "001")).
  repeat (apply Forall_cons_2 || apply Forall_nil_2).
  all: split_and!; [repeat (apply Forall_cons_2 || apply Forall_nil_2); by vm_compute|done|done].
Defined.
