(* ===== verification/Timestamp.v ===== *)
(** * Times (src/ofp/timestamp.cpp, include/ofp/timestamp.h) *)

From S2P Require Import Prelude.
From S2P Require Import Text.

(** ** Timestamp: seconds and nanoseconds *)

Record Timestamp := mkTime { ts_seconds : Z; ts_nanos : Z }.

Definition NANO_UNITS : Z := 1000000000.
Definition Timestamp_zero : Timestamp := mkTime 0 0.

(** [std::pair] comparison. *)
Definition ts_lt (a b : Timestamp) : bool :=
  (ts_seconds a <? ts_seconds b) ||
  ((ts_seconds a =? ts_seconds b) && (ts_nanos a <? ts_nanos b)).

(** [secondsSince], in nanoseconds instead of a [double] in seconds; the two
    branches that borrow a second are kept. *)
Definition since_branch (this ts : Timestamp) : Z :=
  let diff := u64 (ts_seconds this - ts_seconds ts) in
  if ts_nanos ts <=? ts_nanos this then diff * NANO_UNITS + (ts_nanos this - ts_nanos ts)
  else (diff - 1) * NANO_UNITS + (NANO_UNITS - ts_nanos ts + ts_nanos this).
Definition nanosSince (this ts : Timestamp) : Z :=
  if ts_lt this ts then - since_branch ts this else since_branch this ts.

Definition addSeconds (t : Timestamp) (seconds : Z) : Timestamp :=
  if 0 <=? seconds then mkTime (u64 (ts_seconds t + seconds)) (ts_nanos t)
  else mkTime (u64 (ts_seconds t - - seconds)) (ts_nanos t).

Definition ts_add (a b : Timestamp) : Timestamp :=
  let s := u64 (ts_seconds a + ts_seconds b) in
  let n := u32 (ts_nanos a + ts_nanos b) in
  if NANO_UNITS <=? n then mkTime (u64 (s + 1)) (u32 (n - NANO_UNITS)) else mkTime s n.

Definition kInfinity : Timestamp := mkTime 0xFFFFFFFFFFFFFFFF (NANO_UNITS - 1).
Definition ts_isvalid (t : Timestamp) : bool := negb ((ts_seconds t =? 0) && (ts_nanos t =? 0)).
#[export] Instance Timestamp_eq_dec : EqDecision Timestamp.
Proof. solve_decision. Defined.

Definition kPower10 : list Z :=
  [1; 10; 100; 1000; 10000; 100000; 1000000; 10000000; 100000000; 1000000000].

(** [parse]: the new value; the object is unchanged on failure. *)
Definition Timestamp_parse (s : list Z) : option Timestamp :=
  '(intPart, s) ← consumeInteger 64 10 s;
  '(fracPart, s) ←
    match consume_front s (str ".") with
    | Some s =>
      let fracDigits := zlen s in
      if 9 <? fracDigits then None else
      '(f, s2) ← consumeInteger 32 10 s;
      k ← rd8 kPower10 (9 - fracDigits);
      let f := u32 (f * k) in
      assert! (f <? NANO_UNITS);; Some (f, s2)
    | None => Some (0, s)
    end;
  if bool_decide (s = []) then Some (mkTime intPart fracPart) else None.

Definition Timestamp_print (t : Timestamp) : list Z :=
  dec (ts_seconds t) ++ str "." ++ dec_pad 9 (ts_nanos t).

(** Nanoseconds since the epoch. *)
Definition ts_total (t : Timestamp) : Z := ts_seconds t * NANO_UNITS + ts_nanos t.
Definition ts_valid (t : Timestamp) : Prop :=
  0 <= ts_seconds t < 2 ^ 64 /\ 0 <= ts_nanos t < NANO_UNITS.

Lemma ts_lt_total a b : ts_valid a -> ts_valid b -> ts_lt a b = (ts_total a <? ts_total b).
Proof. unfold ts_valid, ts_total, ts_lt, NANO_UNITS. intros [??] [??]. lia. Qed.

Lemma ts_add_total a b :
  ts_valid a -> ts_valid b -> ts_seconds a + ts_seconds b < 2 ^ 64 - 1 ->
  ts_total (ts_add a b) = ts_total a + ts_total b /\ ts_valid (ts_add a b).
Proof.
  unfold ts_valid, ts_total, NANO_UNITS. intros [Ha Hna] [Hb Hnb] Hs.
  unfold ts_add, NANO_UNITS. rewrite (u64_small (ts_seconds a + ts_seconds b)) by lia.
  rewrite (u32_small (ts_nanos a + ts_nanos b)) by lia.
  destruct (Z.leb_spec 1000000000 (ts_nanos a + ts_nanos b)); simpl; [|lia].
  rewrite u64_small, u32_small by lia. lia.
Qed.

(** [secondsSince] (here in nanoseconds) is the signed difference of the two
    times in all of its branches, and [operator+] adds times exactly, carrying
    nanoseconds into seconds, when the seconds do not overflow. *)
Theorem timestamp_arithmetic a b :
  ts_valid a -> ts_valid b ->
  nanosSince a b = ts_total a - ts_total b /\
  (ts_seconds a + ts_seconds b < 2 ^ 64 - 1 ->
   ts_total (ts_add a b) = ts_total a + ts_total b /\ ts_valid (ts_add a b)).
Proof.
  intros Ha Hb. split; [|by apply ts_add_total]. destruct Ha as [Ha Hna], Hb as [Hb Hnb].
  unfold nanosSince, ts_lt, since_branch, ts_total, NANO_UNITS in *.
  destruct (Z.ltb_spec (ts_seconds a) (ts_seconds b)); cbn [orb].
  - rewrite u64_small by lia. split_ifs; lia.
  - destruct (Z.eqb_spec (ts_seconds a) (ts_seconds b)) as [E|]; cbn [andb].
    + rewrite E, Z.sub_diag. change (u64 0) with 0. split_ifs; lia.
    + rewrite u64_small by lia. split_ifs; lia.
Qed.

Lemma timestamp_arithmetic_witness :
  nanosSince (mkTime 10 5) (mkTime 8 7) = ts_total (mkTime 10 5) - ts_total (mkTime 8 7) /\
  (10 + 8 < 2 ^ 64 - 1 ->
   ts_total (ts_add (mkTime 10 5) (mkTime 8 7)) = ts_total (mkTime 10 5) + ts_total (mkTime 8 7) /\
   ts_valid (ts_add (mkTime 10 5) (mkTime 8 7))).
Proof. by apply (timestamp_arithmetic (mkTime 10 5) (mkTime 8 7)). Defined.

(** ** Text *)

Lemma Timestamp_parse_print t :
  ts_valid t -> Timestamp_parse (Timestamp_print t) = Some t.
Proof.
  destruct t as [s n]. intros [Hs Hn]. unfold Timestamp_parse, Timestamp_print. cbn [ts_seconds ts_nanos] in *.
  destruct (dec_spec s Hs) as (Ds & Ns & Vs & _).
  destruct (dec_pad_spec 9 n) as (Dn & Ln & Vn); [unfold NANO_UNITS in Hn; simpl; lia|lia|unfold NANO_UNITS in *; lia|].
  rewrite (consumeInteger_digits 64); [|done|done|apply (no_digit_cons 46); unfold is_digit; lia|lia|done].
  cbn [mbind option_bind]. rewrite Vs.
  change (consume_front (str "." ++ dec_pad 9 n) (str ".")) with (Some (dec_pad 9 n)). cbv iota beta zeta.
  replace (zlen (dec_pad 9 n)) with 9 by (unfold zlen; lia). cbn [Z.ltb Z.compare].
  rewrite <- (app_nil_r (dec_pad 9 n)) at 1.
  rewrite (consumeInteger_digits 32); [|done|by intros E; rewrite E in Ln|apply no_digit_nil|unfold NANO_UNITS in *; lia|lia].
  cbn [mbind option_bind]. change (rd8 kPower10 (9 - 9)) with (Some 1). cbn [mbind option_bind].
  rewrite Vn, Z.mul_1_r, u32_small by (unfold NANO_UNITS in *; lia).
  rewrite (proj2 (Z.ltb_lt n NANO_UNITS)) by lia. done.
Qed.
