(* ===== verification/RateLimiter.v ===== *)
(** * Rate limiter (include/ofp/rpc/ratelimiter.h, src/ofp/rpc/ratelimiter.cpp)

    Decides for each event whether it is allowed: N out of P events every T
    seconds. The counters are 32-bit; the time is given by the caller. *)

From S2P Require Import Prelude.
From S2P Require Import Text.
From S2P Require Import Timestamp.

Record RateLimiter := mkLimiter {
  rl_exp : Timestamp; rl_t : Timestamp; rl_nc : Z; rl_n : Z; rl_p : Z }.

#[export] Instance RateLimiter_eq_dec : EqDecision RateLimiter.
Proof. solve_decision. Defined.

(** The constructors. *)
Definition RateLimiter_nt (n : Z) (t : Timestamp) : RateLimiter :=
  mkLimiter Timestamp_zero t 0 n 0xffffffff.
Definition RateLimiter_npt (n p : Z) (t : Timestamp) : RateLimiter :=
  mkLimiter Timestamp_zero t 0 n p.
Definition RateLimiter_np (n p : Z) : RateLimiter :=
  mkLimiter kInfinity Timestamp_zero 0 n p.
Definition RateLimiter_bool (allow : bool) : RateLimiter :=
  RateLimiter_np (if allow then 1 else 0) (if allow then 1 else 0xffffffff).

(** [allow]: the verdict and the limiter afterwards. *)
Definition allow (t : Timestamp) (l : RateLimiter) : bool * RateLimiter :=
  if negb (ts_lt t (rl_exp l)) then
    (true, mkLimiter (ts_add t (rl_t l)) (rl_t l) 1 (rl_n l) (rl_p l))
  else
    let nc := u32 (rl_nc l + 1) in
    let l := mkLimiter (rl_exp l) (rl_t l) nc (rl_n l) (rl_p l) in
    if nc <=? rl_n l then (true, l)
    else if nc <=? rl_p l then (false, l)
    else
      let exp := if bool_decide (rl_exp l <> kInfinity) then ts_add t (rl_t l) else rl_exp l in
      (true, mkLimiter exp (rl_t l) 1 (rl_n l) (rl_p l)).

(** A sequence of events. *)
Fixpoint allow_all (ts : list Timestamp) (l : RateLimiter) : list bool * RateLimiter :=
  match ts with
  | [] => ([], l)
  | t :: ts' =>
    let '(b, l1) := allow t l in
    let '(bs, l2) := allow_all ts' l1 in (b :: bs, l2)
  end.

(** ** Text *)

(** [parse]: the new value, [None] when it returns false. *)
Definition RateLimiter_parse (s : list Z) : option RateLimiter :=
  if equals_lower s (str "true") then Some (RateLimiter_bool true)
  else if equals_lower s (str "false") then Some (RateLimiter_bool false)
  else
    '(n, s) ← consumeInteger 32 10 s;
    '(p, s) ← match consume_front s (str ":") with
              | Some s => consumeInteger 32 10 s
              | None => Some (0xffffffff, s)
              end;
    '(t, s) ← match consume_front s (str "/") with
              | Some s => t ← Timestamp_parse s; Some (t, [])
              | None => Some (Timestamp_zero, s)
              end;
    if negb (bool_decide (s = [])) then None
    else if ts_isvalid t then Some (RateLimiter_npt n p t) else Some (RateLimiter_np n p).

(** [operator<<]. *)
Definition RateLimiter_print (l : RateLimiter) : list Z :=
  if rl_n l =? 0 then str "false"
  else if (rl_n l =? 1) && (rl_p l =? 1) then str "true"
  else if negb (ts_isvalid (rl_t l)) then dec (rl_n l) ++ str ":" ++ dec (rl_p l)
  else if rl_p l =? 0xffffffff then dec (rl_n l) ++ str "/" ++ Timestamp_print (rl_t l)
  else dec (rl_n l) ++ str ":" ++ dec (rl_p l) ++ str "/" ++ Timestamp_print (rl_t l).

(** The examples of the class comment and the unit test. *)
Definition tenths (ds : list Z) : list Timestamp :=
  (fun d => mkTime (d / 10) (d mod 10 * 100000000)) <$> ds.

Example allow_2_4_10s :
  (allow_all (tenths [0; 25; 40; 50; 65; 95; 100]) (RateLimiter_npt 2 4 (mkTime 10 0))).1 =
  [true; true; false; false; true; true; false].
Proof. reflexivity. Qed.

Example allow_not_a_token_bucket :
  (allow_all (tenths [0; 99; 99; 99; 99; 100; 100; 100; 100; 100; 100]) (RateLimiter_nt 5 (mkTime 10 0))).1 =
  [true; true; true; true; true; true; true; true; true; true; false].
Proof. reflexivity. Qed.

(** ** Helper lemmas *)

Lemma allow_all_app ts us l :
  allow_all (ts ++ us) l =
  let '(bs, l1) := allow_all ts l in let '(cs, l2) := allow_all us l1 in (bs ++ cs, l2).
Proof.
  revert l. induction ts as [|t ts IH]; intros l; simpl; [by destruct (allow_all us l)|].
  destruct (allow t l) as [b l1]. rewrite IH. destruct (allow_all ts l1) as [bs l2].
  by destruct (allow_all us l2).
Qed.

Lemma allow_all_length ts l : length (allow_all ts l).1 = length ts.
Proof.
  revert l. induction ts as [|t ts IH]; intros l; simpl; [done|].
  destruct (allow t l) as [b l1]. specialize (IH l1). destruct (allow_all ts l1). simpl in *. lia.
Qed.

(** The limits themselves never change. *)
Lemma allow_params t l :
  let l' := (allow t l).2 in rl_t l' = rl_t l /\ rl_n l' = rl_n l /\ rl_p l' = rl_p l.
Proof. unfold allow. simpl. split_ifs; done. Qed.

Definition finite (t : Timestamp) : Prop := ts_lt t kInfinity = true.

(** ** Limits without a time interval *)

Section Cycle.
Context (n p : Z) (Hn : 1 <= n) (Hnp : n <= p) (Hp : p < 2 ^ 32 - 1).

(** The limiter after [k] events. *)
Definition cycle_state (k : Z) : RateLimiter :=
  mkLimiter kInfinity Timestamp_zero (if k =? 0 then 0 else (k - 1) mod p + 1) n p.

Lemma allow_cycle t k :
  finite t -> 0 <= k ->
  allow t (cycle_state k) = (k mod p <? n, cycle_state (k + 1)).
Proof.
  intros Ht Hk. unfold allow, cycle_state. simpl. rewrite Ht. simpl.
  rewrite (proj2 (Z.eqb_neq (k + 1) 0)) by lia. replace (k + 1 - 1) with k by lia.
  pose proof (Z.mod_pos_bound k p ltac:(lia)) as Hm.
  destruct (Z.eqb_spec k 0) as [->|Hk0].
  { rewrite Z.mod_0_l by lia. change (u32 (0 + 1)) with 1.
    rewrite (proj2 (Z.leb_le 1 n)), (proj2 (Z.ltb_lt 0 n)) by lia. done. }
  pose proof (Z.mod_pos_bound (k - 1) p ltac:(lia)) as Hm1.
  rewrite u32_small by lia.
  destruct (decide ((k - 1) mod p = p - 1)) as [E|E].
  - assert (k mod p = 0) as ->.
    { replace k with (k - 1 + 1) by lia. rewrite Z.add_mod, E by lia.
      destruct (decide (p = 1)) as [->|]; [by rewrite !Z.mod_1_r|].
      rewrite (Z.mod_small 1 p) by lia. replace (p - 1 + 1) with p by lia. apply Z.mod_same. lia. }
    rewrite E, (proj2 (Z.leb_gt _ n)), (proj2 (Z.leb_gt _ p)), (proj2 (Z.ltb_lt 0 n)) by lia. done.
  - assert (k mod p = (k - 1) mod p + 1) as ->.
    { replace k with (k - 1 + 1) at 1 by lia. rewrite Z.add_mod by lia.
      rewrite (Z.mod_small 1 p) by lia. rewrite Z.mod_small by lia. done. }
    rewrite (proj2 (Z.leb_le _ p)) by lia.
    destruct (Z.leb_spec ((k - 1) mod p + 1 + 1) n), (Z.ltb_spec ((k - 1) mod p + 1) n); (lia || done).
Qed.

Lemma allow_all_cycle ts k :
  Forall finite ts -> 0 <= k ->
  allow_all ts (cycle_state k) =
  ((fun i => i mod p <? n) <$> seqZ k (zlen ts), cycle_state (k + zlen ts)).
Proof.
  revert k. induction ts as [|t ts IH]; intros k Hts Hk.
  { cbn [allow_all]. change (zlen []) with 0. by rewrite Z.add_0_r. }
  apply Forall_cons in Hts as [Ht Hts]. cbn [allow_all].
  rewrite (allow_cycle t k Ht Hk), IH by (done || lia). pose proof (zlen_nonneg ts).
  rewrite zlen_cons, (seqZ_cons k) by lia. simpl.
  replace (Z.succ k) with (k + 1) by lia. replace (Z.pred (1 + zlen ts)) with (zlen ts) by lia.
  f_equal. f_equal. lia.
Qed.
End Cycle.

(** Without a time interval, a limiter "n:p" with 1 <= n <= p allows exactly
    the first n of every p events, for any number of events (the counter is
    reset before it can wrap). *)
Theorem limiter_cycle n p ts :
  1 <= n -> n <= p -> p < 2 ^ 32 - 1 -> Forall finite ts ->
  (allow_all ts (RateLimiter_np n p)).1 = (fun i => i mod p <? n) <$> seqZ 0 (zlen ts).
Proof.
  intros Hn Hnp Hp Hts. change (RateLimiter_np n p) with (cycle_state n p 0).
  by rewrite allow_all_cycle.
Qed.

Lemma limiter_cycle_witness :
  (allow_all (tenths [0; 25; 40; 50; 65; 95; 100; 126]) (RateLimiter_np 2 3)).1 =
  [true; true; false; true; true; false; true; true].
Proof.
  apply (limiter_cycle 2 3 (tenths [0; 25; 40; 50; 65; 95; 100; 126])); try lia.
  by repeat constructor.
Defined.

(** ** Limits with a time interval *)

Fixpoint allowed (bs : list bool) : Z :=
  match bs with [] => 0 | b :: bs' => (if b then 1 else 0) + allowed bs' end.

Section Interval.
Context (T : Timestamp) (HT : ts_valid T).

(** An event the clock can add the interval to. *)
Definition event_ok (t : Timestamp) : Prop :=
  ts_valid t /\ ts_seconds t + ts_seconds T < 2 ^ 64 - 1.

(** Between events: the expiry is a time and a started interval has counted
    its first event. *)
Definition limiter_ok (k : Z) (l : RateLimiter) : Prop :=
  rl_t l = T /\ ts_valid (rl_exp l) /\ 0 <= rl_nc l <= k /\
  (rl_exp l = Timestamp_zero \/ 1 <= rl_nc l).

Lemma allow_ok t l k :
  event_ok t -> limiter_ok k l -> 0 <= k < 2 ^ 32 - 1 -> limiter_ok (k + 1) (allow t l).2.
Proof.
  intros [Ht Hs] (E & Hv & Hc & Hst) Hk. unfold allow.
  destruct (ts_add_total t T Ht HT Hs) as [_ Ha].
  destruct (ts_lt t (rl_exp l)); simpl; rewrite ?E; [|split_and!; simpl; (done || lia || auto)].
  rewrite u32_small by lia. split_ifs; split_and!; simpl; try (done || lia).
  all: try (right; lia).
Qed.

Lemma allow_all_ok ts l k :
  Forall event_ok ts -> limiter_ok k l -> 0 <= k -> k + zlen ts < 2 ^ 32 ->
  limiter_ok (k + zlen ts) (allow_all ts l).2 /\
  rl_n (allow_all ts l).2 = rl_n l /\ rl_p (allow_all ts l).2 = rl_p l.
Proof.
  revert l k. induction ts as [|t ts IH]; intros l k Hts Hl Hk Hb.
  { change (zlen []) with 0 in *. rewrite Z.add_0_r in *. done. }
  apply Forall_cons in Hts as [Ht Hts]. rewrite zlen_cons in *. pose proof (zlen_nonneg ts).
  pose proof (allow_ok t l k Ht Hl ltac:(lia)) as H1. pose proof (allow_params t l) as (_ & En & Ep).
  cbn [allow_all]. destruct (allow t l) as [b l1]. simpl in *.
  specialize (IH l1 (k + 1) Hts H1 ltac:(lia) ltac:(lia)).
  destruct (allow_all ts l1) as [bs l2]. simpl in *. rewrite Z.add_assoc. intuition congruence.
Qed.

(** Within a running interval at most the rest of the N events is allowed. *)
Lemma window_bound ts l :
  Forall (fun t => ts_lt t (rl_exp l) = true) ts -> rl_p l = 0xffffffff ->
  0 <= rl_nc l -> rl_nc l + zlen ts < 2 ^ 32 ->
  allowed (allow_all ts l).1 <= Z.max 0 (rl_n l - rl_nc l).
Proof.
  revert l. induction ts as [|t ts IH]; intros l Hts Hp Hc Hb; simpl; [lia|].
  apply Forall_cons in Hts as [Ht Hts]. rewrite zlen_cons in Hb. pose proof (zlen_nonneg ts).
  unfold allow. rewrite Ht. simpl. rewrite u32_small, Hp by lia.
  set (l1 := mkLimiter _ _ _ _ _). specialize (IH l1 Hts eq_refl). simpl in IH.
  destruct (Z.leb_spec (rl_nc l + 1) (rl_n l)).
  - destruct (allow_all ts l1). simpl in *. lia.
  - rewrite (proj2 (Z.leb_le _ 4294967295)) by lia. destruct (allow_all ts l1). simpl in *. lia.
Qed.

(** Events within [a, a + T), from any state. *)
Lemma span_bound a ts l k :
  Forall (fun t => event_ok t /\ a <= ts_total t < a + ts_total T) ts ->
  limiter_ok k l -> k + zlen ts < 2 ^ 32 -> rl_p l = 0xffffffff -> 1 <= rl_n l ->
  allowed (allow_all ts l).1 <=
    rl_n l + (if bool_decide (rl_exp l = Timestamp_zero) then 0 else Z.max 0 (rl_n l - rl_nc l)).
Proof.
  revert l k. induction ts as [|t ts IH]; intros l k Hts Hl Hb Hp Hn.
  { simpl. case_bool_decide; lia. }
  apply Forall_cons in Hts as [[Ht Hat] Hts]. rewrite zlen_cons in Hb. pose proof (zlen_nonneg ts).
  pose proof Hl as (ET & Hv & Hc & Hst). destruct Ht as [Hvt Hs].
  destruct (ts_add_total t T Hvt HT Hs) as [Etot Ha].
  cbn [allow_all]. unfold allow. destruct (ts_lt t (rl_exp l)) eqn:El; simpl.
  - rewrite ts_lt_total in El by done.
    assert (rl_exp l <> Timestamp_zero) as Hnz.
    { intros E; rewrite E in El; unfold ts_valid, ts_total, NANO_UNITS in *; simpl in *; lia. }
    rewrite (bool_decide_false (_ = Timestamp_zero)) by done.
    rewrite u32_small, Hp by lia. set (l1 := mkLimiter (rl_exp l) _ _ _ _).
    assert (limiter_ok (k + 1) l1) as Hl1 by (split_and!; simpl; (done || lia || right; lia)).
    specialize (IH l1 (k + 1) Hts Hl1 ltac:(lia) eq_refl Hn). simpl in IH.
    rewrite (bool_decide_false (_ = Timestamp_zero)) in IH by done.
    destruct (Z.leb_spec (rl_nc l + 1) (rl_n l)).
    + destruct (allow_all ts l1). simpl in *. lia.
    + rewrite (proj2 (Z.leb_le _ 4294967295)) by lia. destruct (allow_all ts l1). simpl in *. lia.
  - rewrite ET, Hp. set (l1 := mkLimiter (ts_add t T) T _ _ _).
    assert (allowed (allow_all ts l1).1 <= Z.max 0 (rl_n l1 - rl_nc l1)) as Hw.
    { apply window_bound; [|done|simpl; lia|simpl; lia]. eapply Forall_impl; [exact Hts|].
      intros u [[Hvu _] Hu]. simpl. rewrite ts_lt_total by done. lia. }
    simpl in Hw. destruct (allow_all ts l1). simpl in *. case_bool_decide; lia.
Qed.
End Interval.

(** C35. Burst bound: a limiter "n/T" that has seen any sequence of events
    allows at most 2n - 1 of the events that follow within any period shorter
    than T, the figure the class documents, as long as fewer than 2^32 events
    have been seen and the clock does not overflow. *)
Theorem limiter_burst n T before span a :
  1 <= n -> ts_valid T -> zlen (before ++ span) < 2 ^ 32 ->
  Forall (event_ok T) (before ++ span) ->
  Forall (fun t => a <= ts_total t < a + ts_total T) span ->
  allowed (allow_all span (allow_all before (RateLimiter_nt n T)).2).1 <= 2 * n - 1.
Proof.
  intros Hn HT Hl [Hb Hs]%Forall_app Hw. rewrite zlen_app in Hl.
  pose proof (zlen_nonneg before). pose proof (zlen_nonneg span).
  assert (limiter_ok T 0 (RateLimiter_nt n T)) as Hinit by (split_and!; simpl; (done || lia || auto)).
  destruct (allow_all_ok T HT before _ 0 Hb Hinit ltac:(lia) ltac:(lia)) as (H1 & En & Ep).
  set (l := (allow_all before _).2) in *. simpl in En, Ep.
  assert (Forall (fun t => event_ok T t /\ a <= ts_total t < a + ts_total T) span) as Hall.
  { apply Forall_and. done. }
  pose proof (span_bound T HT a span l (0 + zlen before) Hall H1 ltac:(lia) Ep ltac:(lia)) as Hbound.
  destruct H1 as (_ & _ & ? & Hst). rewrite En in Hbound. case_bool_decide; [lia|].
  destruct Hst; [done|lia].
Qed.

(** The bound is reached. *)
Lemma limiter_burst_witness :
  allowed (allow_all (tenths [99; 99; 99; 99; 100; 100; 100; 100; 100; 100])
    (allow_all (tenths [0]) (RateLimiter_nt 5 (mkTime 10 0))).2).1 = 2 * 5 - 1 /\
  allowed (allow_all (tenths [99; 99; 99; 99; 100; 100; 100; 100; 100; 100])
    (allow_all (tenths [0]) (RateLimiter_nt 5 (mkTime 10 0))).2).1 <= 2 * 5 - 1.
Proof.
  split; [reflexivity|].
  apply (limiter_burst 5 (mkTime 10 0) (tenths [0])
    (tenths [99; 99; 99; 99; 100; 100; 100; 100; 100; 100]) 9900000000); try done.
  all: repeat (apply Forall_cons_2 || apply Forall_nil_2); vm_compute; repeat split; congruence.
Defined.

Lemma denied_keeps_exp t l : (allow t l).1 = false -> rl_exp (allow t l).2 = rl_exp l.
Proof. unfold allow. simpl. split_ifs; done. Qed.

Lemma exp_bound T a ts l :
  ts_valid T -> Forall (fun t => event_ok T t /\ ts_total t <= a) ts -> 0 <= a + ts_total T ->
  rl_t l = T -> ts_valid (rl_exp l) -> ts_total (rl_exp l) <= a + ts_total T ->
  let l' := (allow_all ts l).2 in
  rl_t l' = T /\ ts_valid (rl_exp l') /\ ts_total (rl_exp l') <= a + ts_total T.
Proof.
  intros HT. revert l. induction ts as [|t ts IH]; intros l Hts Ha E Hv Hb; [done|].
  apply Forall_cons in Hts as [[[Hvt Hs] Hat] Hts]. cbn [allow_all]. destruct (allow t l) as [b l1] eqn:El.
  destruct (ts_add_total t T Hvt HT Hs) as [Etot Hav].
  assert (rl_t l1 = T /\ (rl_exp l1 = rl_exp l \/ rl_exp l1 = ts_add t T)) as [E1 [Ex|Ex]].
  { unfold allow in El. rewrite E in El. simpl in El.
    revert El. split_ifs; intros [= _ <-]; simpl; auto. }
  all: specialize (IH l1 Hts Ha E1); rewrite Ex in IH; destruct (allow_all ts l1); apply IH; (done || lia).
Qed.

Lemma all_denied_exp ts l : (forall b, b ∈ (allow_all ts l).1 -> b = false) ->
  rl_exp (allow_all ts l).2 = rl_exp l.
Proof.
  revert l. induction ts as [|t ts IH]; intros l H; [done|]. cbn [allow_all] in *.
  pose proof (denied_keeps_exp t l) as Hd. destruct (allow t l) as [b l1].
  specialize (IH l1). destruct (allow_all ts l1) as [bs l2]. simpl in *.
  rewrite IH by (intros c Hc; apply H; set_solver).
  apply Hd, H. set_solver.
Qed.

(** C36. No starvation: whatever n and p are, among events that span at least
    the interval T, the last one included, at least one is allowed, when the
    times do not run backwards past the first of them. *)
Theorem limiter_progress n p T before mid first last_ :
  ts_valid T -> Forall (event_ok T) (before ++ first :: mid) -> ts_valid last_ ->
  Forall (fun t => ts_total t <= ts_total first) before ->
  ts_total first + ts_total T <= ts_total last_ ->
  true ∈ (allow_all (first :: mid ++ [last_]) (allow_all before (RateLimiter_npt n p T)).2).1.
Proof.
  intros HT [Hb Hm]%Forall_app Hlast Hord Hspan.
  assert (0 <= ts_total first + ts_total T) as H0.
  { apply Forall_cons in Hm as [[[[??] [??]] _] _]. destruct HT. unfold ts_total, NANO_UNITS in *. lia. }
  destruct (exp_bound T (ts_total first) before (RateLimiter_npt n p T)) as (E & Hv & Hx);
    [done|by apply Forall_and|done|done|done|simpl; unfold ts_total at 1; simpl; lia|].
  set (l := (allow_all before _).2) in *.
  change (first :: mid ++ [last_]) with ((first :: mid) ++ [last_]).
  destruct (decide (true ∈ (allow_all (first :: mid) l).1)) as [Hin|Hno].
  - rewrite allow_all_app. destruct (allow_all (first :: mid) l) as [bs l1].
    destruct (allow_all [last_] l1). simpl in *. set_solver.
  - assert (rl_exp (allow_all (first :: mid) l).2 = rl_exp l) as Ex.
    { apply all_denied_exp. intros [] Hc; [by destruct Hno|done]. }
    rewrite allow_all_app. destruct (allow_all (first :: mid) l) as [bs l1]. simpl in Ex |- *.
    unfold allow. rewrite Ex, ts_lt_total by done. rewrite (proj2 (Z.ltb_ge _ _)) by lia.
    simpl. set_solver.
Qed.

Lemma limiter_progress_witness :
  true ∈ (allow_all (mkTime 1 0 :: [mkTime 2 0; mkTime 3 0] ++ [mkTime 11 0])
    (allow_all [mkTime 0 0] (RateLimiter_npt 1 8 (mkTime 10 0))).2).1.
Proof.
  apply (limiter_progress 1 8 (mkTime 10 0) [mkTime 0 0] [mkTime 2 0; mkTime 3 0]).
  all: unfold event_ok, ts_valid; repeat (apply Forall_cons_2 || apply Forall_nil_2);
    simpl; unfold ts_valid, ts_total, NANO_UNITS; simpl; lia.
Defined.

(** ** The constant limiters *)

Lemma allow_true t l :
  finite t -> l = RateLimiter_np 1 1 \/ l = mkLimiter kInfinity Timestamp_zero 1 1 1 ->
  allow t l = (true, mkLimiter kInfinity Timestamp_zero 1 1 1).
Proof. intros Ht Hl. unfold finite in Ht. destruct Hl as [-> | ->]; unfold allow; simpl; by rewrite Ht. Qed.

Lemma allow_false t k :
  finite t ->
  allow t (mkLimiter kInfinity Timestamp_zero (u32 k) 0 0xffffffff) =
  (u32 (k + 1) =? 0, mkLimiter kInfinity Timestamp_zero (u32 (k + 1)) 0 0xffffffff).
Proof.
  intros Ht. unfold allow. simpl. rewrite Ht. simpl.
  replace (u32 (u32 k + 1)) with (u32 (k + 1)) by (unfold u32; by rewrite Z.add_mod_idemp_l).
  pose proof (u32_range (k + 1)) as Hr. rewrite (proj2 (Z.leb_le _ 4294967295)) by lia.
  destruct (Z.leb_spec (u32 (k + 1)) 0), (Z.eqb_spec (u32 (k + 1)) 0); (lia || done).
Qed.

Lemma allow_all_false ts k :
  Forall finite ts ->
  (allow_all ts (mkLimiter kInfinity Timestamp_zero (u32 k) 0 0xffffffff)).1 =
  (fun i => u32 i =? 0) <$> seqZ (k + 1) (zlen ts).
Proof.
  intros Hts. revert k. induction Hts as [|t ts Ht _ IH]; intros k; [done|]. cbn [allow_all].
  rewrite (allow_false t k Ht). specialize (IH (k + 1)). destruct (allow_all ts _). simpl in *.
  rewrite IH, zlen_cons, (seqZ_cons (k + 1)) by (pose proof (zlen_nonneg ts); lia). simpl.
  by replace (Z.pred (1 + zlen ts)) with (zlen ts) by lia.
Qed.

(** The limiter "true" allows every event; the limiter "false" denies them,
    except for each 2^32-th, where the counter wraps to zero. *)
Theorem limiter_constant ts :
  Forall finite ts ->
  (allow_all ts (RateLimiter_bool true)).1 = replicate (length ts) true /\
  (allow_all ts (RateLimiter_bool false)).1 = (fun i => u32 i =? 0) <$> seqZ 1 (zlen ts).
Proof.
  intros Hts. split.
  - assert (forall l, l = RateLimiter_np 1 1 \/ l = mkLimiter kInfinity Timestamp_zero 1 1 1 ->
      (allow_all ts l).1 = replicate (length ts) true) as H; [|apply H; by left].
    induction Hts as [|t ts Ht _ IH]; intros l Hl; [done|]. cbn [allow_all].
    rewrite (allow_true t l Ht Hl). specialize (IH _ (or_intror eq_refl)).
    destruct (allow_all ts _). simpl in *. by rewrite IH.
  - apply (allow_all_false ts 0 Hts).
Qed.

Lemma limiter_constant_witness :
  (allow_all (tenths [0; 25; 40]) (RateLimiter_bool true)).1 = [true; true; true] /\
  (allow_all (tenths [0; 25; 40]) (RateLimiter_bool false)).1 = [false; false; false].
Proof. apply (limiter_constant (tenths [0; 25; 40])). by repeat constructor. Defined.

(** ** Parsing what was printed *)

Lemma not_bool_text c s t :
  is_digit c -> (forall d u, t = d :: u -> ~ is_digit (toLower d)) -> t <> [] ->
  equals_lower (c :: s) t = false.
Proof.
  intros Hc Ht Hn. unfold equals_lower. destruct t as [|d u]; [done|].
  rewrite bool_decide_false, andb_false_r; [done|]. simpl. intros [= E _].
  apply (Ht d u eq_refl). rewrite <- E. unfold toLower, is_digit in *.
  by rewrite (proj2 (Z.leb_gt _ _)) by lia.
Qed.

Lemma printed_not_bool n s b :
  0 <= n < 2 ^ 64 -> equals_lower (dec n ++ s) (str (if b : bool then "true" else "false")) = false.
Proof.
  intros Hn. destruct (dec_spec n Hn) as (Hd & Hne & _).
  destruct (dec n) as [|c ds]; [done|]. apply Forall_cons in Hd as [Hc _].
  apply (not_bool_text c (ds ++ s)); [done| |by destruct b].
  intros d u E. destruct b; injection E as <- _; unfold is_digit, toLower; vm_compute; intuition.
Qed.

(** What follows a number in a limiter's text. *)
Lemma no_digit_sep c s : c = 58 \/ c = 47 -> no_digit (c :: s).
Proof. intros Hc. apply no_digit_cons. unfold is_digit. lia. Qed.

(** A limiter as the constructors make it from [n], [p] and [t]. *)
Definition fresh_limiter (n p : Z) (t : Timestamp) : RateLimiter :=
  if ts_isvalid t then RateLimiter_npt n p t else RateLimiter_np n p.

(** Every limiter that allows some event of each cycle (n >= 1) and is not
    "true" is read back from its text, the limits and the interval to the
    nanosecond. *)
Theorem limiter_roundtrip n p t :
  1 <= n < 2 ^ 32 -> 0 <= p < 2 ^ 32 -> ts_valid t -> ~ (n = 1 /\ p = 1) ->
  RateLimiter_parse (RateLimiter_print (fresh_limiter n p t)) = Some (fresh_limiter n p t).
Proof.
  intros Hn Hp Ht Hnp. unfold RateLimiter_print, fresh_limiter.
  assert (rl_n (if ts_isvalid t then RateLimiter_npt n p t else RateLimiter_np n p) = n /\
    rl_p (if ts_isvalid t then RateLimiter_npt n p t else RateLimiter_np n p) = p) as [-> ->]
    by (by destruct (ts_isvalid t)).
  rewrite (proj2 (Z.eqb_neq n 0)) by lia.
  replace ((n =? 1) && (p =? 1)) with false by (symmetry; apply andb_false_iff; rewrite !Z.eqb_neq; lia).
  unfold RateLimiter_parse. destruct (ts_isvalid t) eqn:Ev; cbn [rl_t RateLimiter_npt RateLimiter_np];
    rewrite ?Ev; cbn [negb]; [destruct (Z.eqb_spec p 0xffffffff) as [->|Hpi]|change (ts_isvalid Timestamp_zero) with false; cbn [negb]].
  all: rewrite (printed_not_bool n _ true), (printed_not_bool n _ false) by lia.
  all: rewrite (consumeInteger_dec 32 n) by (lia || (apply no_digit_sep; auto)); cbn [mbind option_bind].
  - change (consume_front (str "/" ++ Timestamp_print t) (str ":")) with (@None (list Z)).
    cbn [mbind option_bind]. rewrite consume_front_same. cbn [mbind option_bind].
    rewrite Timestamp_parse_print by done. cbn [mbind option_bind]. by rewrite Ev.
  - rewrite consume_front_same. rewrite (consumeInteger_dec 32 p) by (lia || (apply no_digit_sep; auto)).
    cbn [mbind option_bind]. rewrite consume_front_same. cbn [mbind option_bind].
    rewrite Timestamp_parse_print by done. cbn [mbind option_bind]. by rewrite Ev.
  - rewrite consume_front_same. rewrite <- (app_nil_r (dec p)).
    rewrite (consumeInteger_dec 32 p) by (lia || apply no_digit_nil). done.
Qed.

Lemma limiter_roundtrip_witness :
  RateLimiter_print (RateLimiter_npt 1 2 (mkTime 3 0)) = str "1:2/3.000000000" /\
  RateLimiter_parse (RateLimiter_print (fresh_limiter 1 2 (mkTime 3 0))) =
    Some (fresh_limiter 1 2 (mkTime 3 0)).
Proof.
  split; [reflexivity|]. apply (limiter_roundtrip 1 2 (mkTime 3 0)); unfold ts_valid, NANO_UNITS; simpl; lia.
Defined.

(** Text that is read and printed again can mean something else: "0:2" is
    printed as "false", but it allows the third event, and the limiter that
    "false" denotes denies it. *)
Theorem zero_limiter_printed_false :
  RateLimiter_parse (str "0:2") = Some (RateLimiter_np 0 2) /\
  RateLimiter_print (RateLimiter_np 0 2) = str "false" /\
  RateLimiter_parse (str "false") = Some (RateLimiter_bool false) /\
  (allow_all (tenths [0; 1; 2]) (RateLimiter_np 0 2)).1 = [false; false; true] /\
  (allow_all (tenths [0; 1; 2]) (RateLimiter_bool false)).1 = [false; false; false].
Proof. by vm_compute. Qed.
