(* ===== verification/SegmentCache.v ===== *)
(** * TCP reassembly: segment cache (src/ofp/demux/segmentcache.cpp,
    include/ofp/demux/segmentcache.h)

    Segments of one direction of a TCP connection that arrived out of order,
    kept sorted by sequence number. Sequence numbers are 32-bit and wrap around;
    a segment is stored by its end. [None] is a failing assertion; an
    operation that runs out of fuel loops for ever. *)

From S2P Require Import Prelude.

(** The bytes are stored in a [ByteList]; here as the list it represents. *)
Record Segment := mkSegment { seg_end : Z; seg_final : bool; seg_data : list Z }.

Definition seg_size (s : Segment) : Z := zlen (seg_data s).
Definition seg_begin (s : Segment) : Z := u32 (seg_end s - seg_size s).
Definition seg_empty (s : Segment) : bool := seg_size s =? 0.

(** [SafeByteRange(data, size, offset)] as bytes: everything from [offset] on,
    nothing if that is past the end. *)
Definition safe_drop (offset : Z) (data : list Z) : list Z :=
  if offset <=? zlen data then drop (Z.to_nat offset) data else [].

Definition seg_append (data : list Z) (final : bool) (s : Segment) : option Segment :=
  assert! negb (seg_final s) || final;;
  Some (mkSegment (u32 (seg_end s + zlen data)) final (seg_data s ++ data)).

Definition seg_prepend (data : list Z) (s : Segment) : Segment :=
  mkSegment (seg_end s) (seg_final s) (data ++ seg_data s).

Definition seg_consume (len : Z) (s : Segment) : option Segment :=
  assert! len <=? seg_size s;;
  Some (mkSegment (seg_end s) (seg_final s) (drop (Z.to_nat len) (seg_data s))).

(** Serial-number comparison. *)
Definition lessThan (lhs rhs : Z) : bool :=
  if lhs <? rhs then u32 (rhs - lhs) <? 0x80000000
  else if rhs <? lhs then 0x80000000 <? u32 (lhs - rhs)
  else false.

Abbreviation SegmentCache := (list Segment).

(** ** Operations *)

(** [append]: at the end of the vector. *)
Definition cache_append (segments : SegmentCache) (e : Z) (data : list Z) (final : bool)
    : SegmentCache := segments ++ [mkSegment e final data].

(** [insert] before index [idx]; a final segment clears out those after it. *)
Definition cache_insert (segments : SegmentCache) (e : Z) (data : list Z) (idx : nat) (final : bool)
    : SegmentCache :=
  take idx segments ++ mkSegment e final data :: (if final then [] else drop idx segments).

(** [update(idx, final)]: merge segment [idx] with the next one if they touch. *)
Definition cache_update (segments : SegmentCache) (idx : nat) (final : bool) : option SegmentCache :=
  seg ← segments !! idx;
  match segments !! S idx with
  | None => Some segments
  | Some next =>
    assert! negb (seg_final seg) || final;;
    if seg_end seg =? seg_begin next then
      seg' ← seg_append (seg_data next) (seg_final next) seg;
      Some (take idx segments ++ seg' :: drop (S (S idx)) segments)
    else if lessThan (seg_begin next) (seg_end seg) then
      let overlap := u32 (seg_end seg - seg_begin next) in
      seg' ← seg_append (safe_drop overlap (seg_data next)) (seg_final next) seg;
      Some (take idx segments ++ seg' :: drop (S (S idx)) segments)
    else Some segments
  end.

(** The part of an overlapping segment that lies before and after [seg]. *)
Definition overlap_prepend (b : Z) (data : list Z) (seg : Segment) : Segment :=
  if lessThan b (seg_begin seg) then
    let offset := u32 (seg_begin seg - b) in
    let newData := take (Z.to_nat (Z.min (zlen data) offset)) data in
    if negb (zlen newData =? 0) then seg_prepend newData seg else seg
  else seg.

(** The loop of [store] from index [i] on. *)
Fixpoint store_loop (fuel : nat) (segments : SegmentCache) (i : nat) (b e : Z) (data : list Z)
    (final : bool) : option SegmentCache :=
  match fuel with
  | O => None
  | S fuel' =>
    match segments !! i with
    | None => Some (cache_append segments e data final)
    | Some seg =>
      if b =? seg_end seg then
        if seg_final seg then Some segments
        else seg' ← seg_append data final seg; cache_update (<[i:=seg']> segments) i final
      else if e =? seg_begin seg then
        if final then Some (cache_insert segments e data i final)
        else Some (<[i:=seg_prepend data seg]> segments)
      else if lessThan e (seg_begin seg) then Some (cache_insert segments e data i final)
      else
      assert! lessThan (seg_begin seg) e;;
      if lessThan b (seg_end seg) then
        let seg1 := overlap_prepend b data seg in
        let newData := safe_drop (u32 (seg_end seg1 - b)) data in
        if negb (zlen newData =? 0) then
          seg2 ← seg_append newData final seg1; cache_update (<[i:=seg2]> segments) i final
        else Some (<[i:=seg1]> segments)
      else if seg_final seg then Some segments
      else store_loop fuel' segments (S i) b e data final
    end
  end.

(** [checkInvariant] *)
Fixpoint check_from (seg : Segment) (rest : SegmentCache) : bool :=
  match rest with
  | [] => true
  | next :: rest' =>
    if negb (seg_end seg =? seg_begin next) && negb (lessThan (seg_end seg) (seg_begin next))
    then false
    else if seg_empty seg && negb (seg_final seg) then false
    else if seg_final seg then false
    else check_from next rest'
  end.
Definition checkInvariant (segments : SegmentCache) : bool :=
  match segments with [] => true | seg :: rest => check_from seg rest end.

(** [store]: everything but an ignored empty segment ends at [DONE] with
    [assert(checkInvariant())]. *)
Definition store_unchecked (segments : SegmentCache) (e : Z) (data : list Z) (final : bool)
    : option SegmentCache :=
  store_loop (S (length segments)) segments 0 (u32 (e - zlen data)) e data final.

Definition store (segments : SegmentCache) (e : Z) (data : list Z) (final : bool)
    : option SegmentCache :=
  if (zlen data =? 0) && negb final then Some segments else
  segments ← store_unchecked segments e data final;
  assert! checkInvariant segments;; Some segments.

Definition current (segments : SegmentCache) : option Segment := head segments.

Definition cache_consume (segments : SegmentCache) (len : Z) : option SegmentCache :=
  match segments with
  | [] => Some []
  | seg :: rest =>
    if seg_size seg <=? len then assert! (len =? seg_size seg);; Some rest
    else seg' ← seg_consume len seg; Some (seg' :: rest)
  end.

Definition cacheSize (segments : SegmentCache) : Z :=
  foldr (fun s sum => seg_size s + sum) 0 segments.

(** The loop of [addMissingData] over the first two segments. *)
Fixpoint missing_loop (fuel : nat) (segments : SegmentCache) (maxMissingBytes : Z)
    : option SegmentCache :=
  match fuel with
  | O => None
  | S fuel' =>
    match segments with
    | first :: second :: rest =>
      if seg_empty second then assert! seg_final second;; Some segments
      else if lessThan (seg_end first) (seg_begin second) then
        let gapSize := u32 (seg_begin second - seg_end first) in
        if maxMissingBytes <? gapSize then Some segments
        else
          f1 ← seg_append (replicate (Z.to_nat gapSize) 0) false first;
          f2 ← seg_append (seg_data second) (seg_final second) f1;
          missing_loop fuel' (f2 :: rest) maxMissingBytes
      else missing_loop fuel' segments maxMissingBytes
    | _ => Some segments
    end
  end.

Definition cache_addMissingData (fuel : nat) (segments : SegmentCache) (e maxMissingBytes : Z)
    : option SegmentCache :=
  match segments with
  | [] => Some []
  | seg :: rest =>
    if seg_empty seg then assert! seg_final seg;; Some segments
    else
      let seg' :=
        if lessThan e (seg_begin seg) then
          let gapSize := u32 (seg_begin seg - e) in
          if gapSize <=? maxMissingBytes
          then seg_prepend (replicate (Z.to_nat gapSize) 0) seg else seg
        else seg in
      missing_loop fuel (seg' :: rest) maxMissingBytes
  end.

(** Equations and inequations of 32-bit sequence numbers. *)
Ltac mod32 := unfold u32 in *; Z.to_euclidean_division_equations; lia.

(** ** Integrity of the data

    [reads stream b data]: [data] is what the sender's stream holds from
    sequence number [b] on. *)
Definition reads (stream : Z -> Z) (b : Z) (data : list Z) : Prop :=
  forall i x, data !! i = Some x -> x = stream (u32 (b + Z.of_nat i)).

Definition seg_ok (stream : Z -> Z) (s : Segment) : Prop :=
  0 <= seg_end s < 2 ^ 32 /\ reads stream (seg_end s - seg_size s) (seg_data s).

Lemma u32_sub_add a b : u32 (b + u32 (a - b)) = u32 a.
Proof. mod32. Qed.

Lemma u32_idem a : u32 (u32 a) = u32 a.
Proof. unfold u32. by rewrite Z.mod_mod. Qed.

Lemma lessThan_spec a b :
  0 <= a < 2 ^ 32 -> 0 <= b < 2 ^ 32 -> lessThan a b = (0 <? u32 (b - a)) && (u32 (b - a) <? 2 ^ 31).
Proof.
  intros Ha Hb. unfold lessThan. destruct (Z.ltb_spec a b).
  - rewrite u32_small by lia. lia.
  - destruct (Z.ltb_spec b a).
    + rewrite (u32_small (a - b)) by lia.
      assert (u32 (b - a) = b - a + 2 ^ 32) as ->; [|lia].
      mod32.
    + replace (b - a) with 0 by lia. done.
Qed.

Section Integrity.
Context (stream : Z -> Z).

Lemma reads_mod b b' data : u32 b = u32 b' -> reads stream b data -> reads stream b' data.
Proof.
  intros E H i x Hx. rewrite (H i x Hx). f_equal. unfold u32 in *.
  by rewrite Zplus_mod, E, <- Zplus_mod.
Qed.

Lemma reads_app b d1 d2 :
  reads stream b (d1 ++ d2) <-> reads stream b d1 /\ reads stream (b + zlen d1) d2.
Proof.
  split.
  - intros H. split; intros i x Hx.
    + apply H. by apply lookup_app_l_Some.
    + rewrite (H (length d1 + i)%nat x); [f_equal; f_equal; unfold zlen; lia|].
      rewrite lookup_app_r by lia. by replace (length d1 + i - length d1)%nat with i by lia.
  - intros [H1 H2] i x [Hx|[Hi Hx]]%lookup_app_Some; [by apply H1|].
    rewrite (H2 _ _ Hx). f_equal. f_equal. unfold zlen. lia.
Qed.

Lemma reads_take b n data : reads stream b data -> reads stream b (take n data).
Proof. intros H. rewrite <- (take_drop n data) in H. by apply reads_app in H as [? _]. Qed.

Lemma reads_safe_drop b n data :
  0 <= n -> reads stream b data -> reads stream (b + n) (safe_drop n data).
Proof.
  intros Hn H. unfold safe_drop. destruct (Z.leb_spec n (zlen data)); [|by intros i x Hx].
  rewrite <- (take_drop (Z.to_nat n) data) in H. apply reads_app in H as [_ H].
  eapply reads_mod; [|exact H]. f_equal. rewrite zlen_take. lia.
Qed.

Lemma seg_append_ok data final s s' :
  seg_append data final s = Some s' -> seg_ok stream s -> reads stream (seg_end s) data ->
  seg_ok stream s'.
Proof.
  unfold seg_append. destruct (_ || _); [|done]. intros [= <-] [He Hr] Hd. split; simpl.
  { apply u32_range. }
  unfold seg_size in *. simpl. rewrite zlen_app.
  eapply reads_mod with (b := seg_end s - zlen (seg_data s)).
  - mod32.
  - apply reads_app. split; [done|]. by rewrite Z.sub_add.
Qed.

Lemma seg_prepend_ok data s :
  seg_ok stream s -> reads stream (seg_begin s - zlen data) data -> seg_ok stream (seg_prepend data s).
Proof.
  intros [He Hr] Hd. split; [done|]. unfold seg_size, seg_begin in *. simpl. rewrite zlen_app.
  apply reads_app. split.
  - eapply reads_mod; [|exact Hd]. unfold seg_size. mod32.
  - eapply reads_mod; [|exact Hr]. f_equal. lia.
Qed.

Lemma seg_begin_range s : 0 <= seg_begin s < 2 ^ 32.
Proof. apply u32_range. Qed.

(** The data of the next segment, from where this one ends. *)
Lemma cache_update_ok segments idx final segments' :
  cache_update segments idx final = Some segments' -> Forall (seg_ok stream) segments ->
  Forall (seg_ok stream) segments'.
Proof.
  unfold cache_update. intros H Hok. destruct (segments !! idx) as [seg|] eqn:E1; [|done].
  cbn [mbind option_bind] in H. destruct (segments !! S idx) as [next|] eqn:E2; [|by simplify_eq].
  destruct (negb (seg_final seg) || final); [|done].
  pose proof (Forall_lookup_1 _ _ _ _ Hok E1) as Hs. pose proof (Forall_lookup_1 _ _ _ _ Hok E2) as Hn.
  assert (forall seg', seg_ok stream seg' ->
    Forall (seg_ok stream) (take idx segments ++ seg' :: drop (S (S idx)) segments)) as Hput.
  { intros seg' Hs'. apply Forall_app. split; [by apply Forall_take|].
    constructor; [done|by apply Forall_drop]. }
  destruct (Z.eqb_spec (seg_end seg) (seg_begin next)) as [E|E].
  - destruct (seg_append _ _ seg) as [seg'|] eqn:Ea; [|done]. simplify_eq/=. apply Hput.
    eapply seg_append_ok; [done|done|]. rewrite E. eapply reads_mod; [|apply Hn].
    unfold seg_begin. by rewrite u32_idem.
  - destruct (lessThan _ _); [|by simplify_eq].
    destruct (seg_append _ _ seg) as [seg'|] eqn:Ea; [|done]. simplify_eq/=. apply Hput.
    eapply seg_append_ok; [done|done|].
    eapply reads_mod; [|apply (reads_safe_drop (seg_end next - seg_size next)); [|apply Hn]].
    + rewrite <- (u32_sub_add (seg_end seg) (seg_begin next)). unfold seg_begin, u32.
      by rewrite Zplus_mod_idemp_l.
    + apply u32_range.
Qed.

(** The part in front of an overlapped segment ends where that segment begins. *)
Lemma overlap_prepend_ok b e data seg :
  u32 (e - zlen data) = b -> 0 <= e < 2 ^ 32 -> zlen data < 2 ^ 32 ->
  lessThan (seg_begin seg) e = true -> seg_ok stream seg -> reads stream b data ->
  seg_ok stream (overlap_prepend b data seg).
Proof.
  intros Hb He Hl Hlt Hs Hd. unfold overlap_prepend.
  assert (0 <= b < 2 ^ 32) as Hbr by (rewrite <- Hb; apply u32_range).
  pose proof (seg_begin_range seg) as Hsr. pose proof (zlen_nonneg data) as Hz.
  destruct (lessThan b (seg_begin seg)) eqn:Hlb; [|done].
  destruct (negb _); [|done]. rewrite lessThan_spec in Hlt, Hlb by done.
  set (o := u32 (seg_begin seg - b)) in *.
  assert (o <= zlen data) as Ho.
  { assert (u32 (zlen data - o) = u32 (e - seg_begin seg)) as Eo.
    { unfold o. rewrite <- Hb. mod32. }
    rewrite <- Eo in Hlt. destruct (decide (zlen data < o)); [|lia]. unfold u32 in Hlt.
    rewrite <- (Z.mod_add (zlen data - o) 1), Z.mod_small in Hlt by lia. lia. }
  apply seg_prepend_ok; [done|]. rewrite zlen_take.
  eapply reads_mod; [|by apply reads_take].
  replace (Z.min (Z.of_nat (Z.to_nat (Z.min (zlen data) o))) (zlen data)) with o by lia.
  unfold o. mod32.
Qed.

Lemma overlap_prepend_end b data seg : seg_end (overlap_prepend b data seg) = seg_end seg.
Proof. unfold overlap_prepend. by split_ifs. Qed.

Lemma store_loop_ok fuel segments i b e data final segments' :
  store_loop fuel segments i b e data final = Some segments' ->
  u32 (e - zlen data) = b -> 0 <= e < 2 ^ 32 -> zlen data < 2 ^ 32 ->
  Forall (seg_ok stream) segments -> reads stream b data ->
  Forall (seg_ok stream) segments'.
Proof.
  intros H Hb He Hl Hok Hd. revert i H. induction fuel as [|fuel IH]; intros i H; [done|].
  assert (seg_ok stream (mkSegment e final data)) as Hnew.
  { split; [done|]. eapply reads_mod; [|exact Hd]. unfold seg_size. simpl.
    rewrite <- Hb. apply u32_idem. }
  assert (Forall (seg_ok stream) (cache_insert segments e data i final)) as Hins.
  { unfold cache_insert. apply Forall_app. split; [by apply Forall_take|]. constructor; [done|].
    destruct final; [done|by apply Forall_drop]. }
  cbn [store_loop] in H. destruct (segments !! i) as [seg|] eqn:E1.
  2: { simplify_eq. apply Forall_app. split; [done|by constructor]. }
  pose proof (Forall_lookup_1 _ _ _ _ Hok E1) as Hs.
  destruct (Z.eqb_spec b (seg_end seg)) as [Eb|Eb].
  { destruct (seg_final seg); [by simplify_eq|].
    destruct (seg_append data final seg) as [seg'|] eqn:Ea; [|done]. cbn [mbind option_bind] in H.
    eapply cache_update_ok; [done|]. apply Forall_insert; [done|].
    eapply seg_append_ok; [done|done|by rewrite <- Eb]. }
  destruct (Z.eqb_spec e (seg_begin seg)) as [Ee|Ee].
  { destruct final; [by simplify_eq|]. simplify_eq. apply Forall_insert; [done|].
    apply seg_prepend_ok; [done|]. eapply reads_mod; [|exact Hd]. apply u32_idem. }
  destruct (lessThan e (seg_begin seg)); [by simplify_eq|].
  destruct (lessThan (seg_begin seg) e) eqn:Hlt; [|done].
  destruct (lessThan b (seg_end seg)).
  - pose proof (overlap_prepend_ok b e data seg Hb He Hl Hlt Hs Hd) as H1.
    destruct (negb _); [|by simplify_eq; apply Forall_insert].
    destruct (seg_append _ final _) as [seg2|] eqn:Ea; [|done]. cbn [mbind option_bind] in H.
    eapply cache_update_ok; [done|]. apply Forall_insert; [done|].
    eapply seg_append_ok; [done|done|].
    eapply reads_mod; [|apply (reads_safe_drop b); [|exact Hd]]; [|apply u32_range].
    apply u32_sub_add.
  - destruct (seg_final seg); [by simplify_eq|]. by eapply IH.
Qed.

Lemma cache_consume_ok segments len segments' :
  cache_consume segments len = Some segments' -> 0 <= len ->
  Forall (seg_ok stream) segments -> Forall (seg_ok stream) segments'.
Proof.
  intros H Hl Hok. destruct Hok as [|seg rest Hs Hok]; [by simplify_eq/=|]. cbn [cache_consume] in H.
  destruct (Z.leb_spec (seg_size seg) len).
  { destruct (len =? seg_size seg); by simplify_eq. }
  unfold seg_consume in H. destruct (len <=? seg_size seg) eqn:E; [|done]. simplify_eq/=.
  constructor; [|done]. destruct Hs as [He Hr]. split; [done|]. unfold seg_size in *. simpl.
  destruct (cut_at (seg_data seg) len) as (d1 & d2 & Ed & Hd1); [lia|]. rewrite Ed in Hr |- *.
  rewrite drop_app_length' by (unfold zlen in Hd1; lia).
  apply reads_app in Hr as [_ Hr]. eapply reads_mod; [|exact Hr].
  f_equal. rewrite zlen_app. lia.
Qed.
End Integrity.

(** C1. Data integrity of reassembly: if every cached byte, and every byte of
    an arriving segment, is the byte the sender's stream has at its sequence
    number (modulo 2^32), then after [store] every cached byte still is,
    however the segment overlaps what is cached; and the same after
    [consume]. *)
Theorem store_integrity stream segments e data final segments' len segments2 :
  0 <= e < 2 ^ 32 -> zlen data < 2 ^ 32 -> 0 <= len ->
  Forall (seg_ok stream) segments -> reads stream (e - zlen data) data ->
  store segments e data final = Some segments' ->
  cache_consume segments' len = Some segments2 ->
  Forall (seg_ok stream) segments' /\ Forall (seg_ok stream) segments2.
Proof.
  intros He Hl Hlen Hok Hd H Hc.
  assert (Forall (seg_ok stream) segments') as Hok'; [|eauto using cache_consume_ok].
  unfold store in H. destruct (_ && _); [by simplify_eq|].
  destruct (store_unchecked _ _ _ _) as [s1|] eqn:Hs; [|done]. cbn [mbind option_bind] in H.
  destruct (checkInvariant s1); [|done]. simplify_eq.
  eapply store_loop_ok; try done. eapply reads_mod; [|exact Hd]. by rewrite u32_idem.
Qed.

(** Two segments of a stream whose byte at sequence number [n] is [n mod 256],
    across the wrap-around of the sequence numbers. *)
Definition demo_stream (n : Z) : Z := n mod 256.

Lemma store_integrity_witness :
  Forall (seg_ok demo_stream) [mkSegment 4 false [254; 255; 0; 1; 2; 3]] /\
  Forall (seg_ok demo_stream) [mkSegment 4 false [0; 1; 2; 3]].
Proof.
  apply (store_integrity demo_stream [mkSegment 4 false [0; 1; 2; 3]] 0 [254; 255] false _ 2);
    try done.
  - constructor; [|done]. split; [done|]. intros [|[|[|[|]]]] x Hx; by simplify_eq/=.
  - intros [|[|]] x Hx; by simplify_eq/=.
Defined.

(** ** Order and coverage

    In a window of less than 2^31 sequence numbers the cache is described by
    intervals of unwrapped sequence numbers: sorted, not empty, and with a gap
    between each two. *)

Definition interval : Type := Z * Z.

Definition seg_is (s : Segment) (iv : interval) : Prop :=
  seg_end s = u32 iv.2 /\ seg_size s = iv.2 - iv.1 /\ seg_final s = false.

Fixpoint chain (lo hi : Z) (ivs : list interval) : Prop :=
  match ivs with
  | [] => True
  | (b, e) :: ivs' => lo <= b /\ b < e /\ e <= hi /\ chain (e + 1) hi ivs'
  end.

Definition covered (ivs : list interval) (p : Z) : Prop :=
  exists iv, In iv ivs /\ iv.1 <= p < iv.2.

(** At most two neighbours in the cache are overlapped or touched by [b, e). *)
Fixpoint touches_two (b e : Z) (ivs : list interval) : Prop :=
  match ivs with
  | iv :: ivs' => match ivs' with
                  | _ :: iv3 :: _ => ~ (b <= iv.2 /\ iv3.1 <= e)
                  | _ => True
                  end /\ touches_two b e ivs'
  | [] => True
  end.

Section Order.
Context (W : Z).
Abbreviation hi := (W + 2 ^ 31 - 1).

Lemma lessThan_abs x y : - 2 ^ 31 < x - y < 2 ^ 31 -> lessThan (u32 x) (u32 y) = (x <? y).
Proof.
  intros H. rewrite lessThan_spec by apply u32_range.
  assert (u32 (u32 y - u32 x) = u32 (y - x)) as -> by mod32.
  destruct (Z.ltb_spec x y).
  - rewrite u32_small by lia. lia.
  - destruct (decide (x = y)) as [->|]; [by rewrite Z.sub_diag|].
    assert (u32 (y - x) = y - x + 2 ^ 32) as -> by mod32. lia.
Qed.

Lemma eqb_abs x y : - 2 ^ 31 < x - y < 2 ^ 31 -> (u32 x =? u32 y) = (x =? y).
Proof.
  intros H. destruct (Z.eqb_spec x y) as [->|Hne]; [apply Z.eqb_refl|].
  apply Z.eqb_neq. mod32.
Qed.

Lemma seg_begin_abs s b e : seg_is s (b, e) -> seg_begin s = u32 b.
Proof. intros (He & Hs & _). unfold seg_begin. rewrite He, Hs. simpl. mod32. Qed.

Lemma chain_weaken lo lo' ivs : lo' <= lo -> chain lo hi ivs -> chain lo' hi ivs.
Proof. destruct ivs as [|[b e] ivs]; simpl; [done|]. intros ? (?&?&?&?). split_and!; lia || done. Qed.

Lemma chain_lower lo ivs iv : chain lo hi ivs -> In iv ivs -> lo <= iv.1 /\ iv.1 < iv.2 /\ iv.2 <= hi.
Proof.
  revert lo. induction ivs as [|[b e] ivs IH]; intros lo; simpl; [done|].
  intros (? & ? & ? & Hc) [<-|Hin]; simpl; [lia|]. apply (IH _ Hc) in Hin. lia.
Qed.

Lemma covered_cons b e ivs p : covered ((b, e) :: ivs) p <-> b <= p < e \/ covered ivs p.
Proof.
  unfold covered. split.
  - intros (iv & [<-|Hin] & Hp); [by left|right; eauto].
  - intros [Hp|(iv & Hin & Hp)]; [exists (b, e); simpl; auto|exists iv; simpl; auto].
Qed.

Lemma append_is data s b e s' :
  seg_append data false s = Some s' -> seg_is s (b, e) -> seg_is s' (b, e + zlen data).
Proof.
  unfold seg_append. intros H (He & Hs & Hf). rewrite Hf in H. simplify_eq/=.
  unfold seg_is, seg_size in *. simpl in *. rewrite zlen_app, He.
  split_and!; [mod32|lia|done].
Qed.

Lemma append_some data s : seg_final s = false -> is_Some (seg_append data false s).
Proof. intros Hf. unfold seg_append. rewrite Hf. by eexists. Qed.

Lemma prepend_is data s b e :
  seg_is s (b, e) -> seg_is (seg_prepend data s) (b - zlen data, e).
Proof.
  intros (He & Hs & Hf). unfold seg_is, seg_size in *. simpl in *. rewrite zlen_app.
  split_and!; lia || done.
Qed.

Lemma safe_drop_length n data :
  0 <= n -> zlen (safe_drop n data) = Z.max 0 (zlen data - n).
Proof.
  intros Hn. unfold safe_drop. pose proof (zlen_nonneg data).
  destruct (Z.leb_spec n (zlen data)); [rewrite zlen_drop; lia|]. rewrite zlen_nil. lia.
Qed.

(** [update] after segment [s] grew to [b, e). *)
Definition merge_next (b e : Z) (ivs : list interval) : list interval :=
  match ivs with
  | [] => [(b, e)]
  | (b2, e2) :: ivs' => if e <? b2 then (b, e) :: ivs else (b, Z.max e e2) :: ivs'
  end.

Lemma cache_update_abs pre s rest b e ivs :
  seg_is s (b, e) -> Forall2 seg_is rest ivs -> W <= b -> b < e -> e <= hi -> chain (b + 1) hi ivs ->
  exists suf, cache_update (pre ++ s :: rest) (length pre) false = Some (pre ++ suf) /\
    Forall2 seg_is suf (merge_next b e ivs).
Proof.
  intros Hs Hr Hb Hbe He Hc. unfold cache_update.
  rewrite (list_lookup_middle pre rest s (length pre)) by done.
  cbn [mbind option_bind]. rewrite lookup_app_r by lia.
  replace (S (length pre) - length pre)%nat with 1%nat by lia. cbn [lookup list_lookup].
  destruct Hr as [|next [b2 e2] rest ivs Hn Hr].
  { exists [s]. split; [done|]. by constructor. }
  cbn [lookup list_lookup merge_next]. simpl in Hc. destruct Hc as (Hb2 & He2 & Hh2 & Hc).
  pose proof Hs as (Ee & Ez & Ef). simpl in *. rewrite Ef. cbn [negb orb].
  rewrite (seg_begin_abs next b2 e2), Ee, eqb_abs, lessThan_abs by (done || lia).
  assert (forall s', drop (S (S (length pre))) (pre ++ s :: next :: rest) = rest /\
    take (length pre) (pre ++ s :: next :: rest) ++ s' :: rest = pre ++ s' :: rest) as Hcut.
  { intros s'. rewrite take_app_length. split; [|done].
    change (s :: next :: rest) with ([s; next] ++ rest). rewrite app_assoc.
    apply drop_app_length'. rewrite length_app. simpl. lia. }
  destruct Hn as (En & Ezn & Efn). simpl in *. rewrite Efn.
  destruct (Z.eqb_spec e b2) as [Eq|Eq].
  - destruct (append_some (seg_data next) s Ef) as [s' Ha]. rewrite Ha. cbn [mbind option_bind].
    destruct (Hcut s') as [-> ->]. rewrite (proj2 (Z.ltb_ge e b2)) by lia.
    exists (s' :: rest). split; [done|]. constructor; [|done].
    apply (append_is _ _ _ _ _ Ha) in Hs. unfold seg_size in *. rewrite Ezn in Hs.
    replace (Z.max e e2) with (e + (e2 - b2)) by lia. done.
  - destruct (Z.ltb_spec b2 e) as [Hlt|Hge].
    + assert (u32 (u32 e - u32 b2) = e - b2) as -> by (rewrite <- (u32_small (e - b2)) by lia; mod32).
      destruct (append_some (safe_drop (e - b2) (seg_data next)) s Ef) as [s' Ha]. rewrite Ha.
      cbn [mbind option_bind]. destruct (Hcut s') as [-> ->].
      rewrite (proj2 (Z.ltb_ge e b2)) by lia. exists (s' :: rest). split; [done|].
      constructor; [|done]. apply (append_is _ _ _ _ _ Ha) in Hs.
      rewrite safe_drop_length in Hs by lia. unfold seg_size in *. rewrite Ezn in Hs.
      replace (Z.max e e2) with (e + Z.max 0 (e2 - b2 - (e - b2))) by lia. done.
    + rewrite (proj2 (Z.ltb_lt e b2)) by lia. exists (s :: next :: rest). split; [done|].
      constructor; [done|]. constructor; [|done]. done.
Qed.

(** The effect of storing [b, e) on the intervals. *)
Fixpoint abs_store (b e : Z) (ivs : list interval) : list interval :=
  match ivs with
  | [] => [(b, e)]
  | (b1, e1) :: ivs' =>
      if e <? b1 then (b, e) :: ivs
      else if e1 <? b then (b1, e1) :: abs_store b e ivs'
      else if e1 <? e then merge_next (Z.min b b1) e ivs'
      else (Z.min b b1, e1) :: ivs'
  end.

Lemma abs_store_chain lo b e ivs :
  chain lo hi ivs -> lo <= b -> b < e -> e <= hi -> touches_two b e ivs ->
  chain lo hi (abs_store b e ivs) /\
  forall p, covered (abs_store b e ivs) p <-> covered ivs p \/ b <= p < e.
Proof.
  revert lo. induction ivs as [|[b1 e1] ivs IH]; intros lo Hc Hlo Hbe He Ht.
  { simpl. split; [lia|]. intros p. rewrite covered_cons. tauto. }
  simpl in Hc. destruct Hc as (H1 & H2 & H3 & Hc). cbn [abs_store].
  destruct Ht as [Ht1 Ht].
  destruct (Z.ltb_spec e b1).
  { split; [simpl; split_and!; lia || (by eapply chain_weaken)|].
    intros p. rewrite (covered_cons b). tauto. }
  destruct (Z.ltb_spec e1 b).
  { destruct (IH (e1 + 1)) as [Hc' Hcov]; [done|lia|lia|lia|done|]. split; [simpl; split_and!; lia || done|].
    intros p. rewrite !covered_cons, Hcov. tauto. }
  destruct (Z.ltb_spec e1 e).
  2: { split; [simpl; split_and!; lia || done|]. intros p. rewrite !covered_cons.
       assert (Z.min b b1 <= p < e1 <-> b1 <= p < e1 \/ b <= p < e) by lia. tauto. }
  destruct ivs as [|[b2 e2] ivs].
  { simpl. split; [lia|]. intros p. rewrite !covered_cons.
    assert (Z.min b b1 <= p < e <-> b1 <= p < e1 \/ b <= p < e) by lia. tauto. }
  simpl in Hc. destruct Hc as (Hn1 & Hn2 & Hn3 & Hc). cbn [merge_next].
  destruct (Z.ltb_spec e b2).
  { split; [simpl; split_and!; lia || done|]. intros p. rewrite !covered_cons.
    assert (Z.min b b1 <= p < e <-> b1 <= p < e1 \/ b <= p < e) by lia. tauto. }
  split.
  - simpl. split_and!; try lia. destruct ivs as [|[b3 e3] ivs]; [done|]. simpl in *.
    split_and!; lia || apply Hc.
  - intros p. rewrite !covered_cons.
    assert (Z.min b b1 <= p < Z.max e e2 <-> b1 <= p < e1 \/ b2 <= p < e2 \/ b <= p < e) by lia. tauto.
Qed.

(** The prefix put in front of an overlapped segment. *)
Lemma overlap_prepend_is b e data s b1 e1 :
  seg_is s (b1, e1) -> zlen data = e - b -> b1 < e -> b < e ->
  W <= b -> e <= hi -> W <= b1 -> b1 <= hi ->
  seg_is (overlap_prepend (u32 b) data s) (Z.min b b1, e1).
Proof.
  intros Hs Hl Hlt Hbe Hb He Hb1 He1. unfold overlap_prepend.
  rewrite (seg_begin_abs s b1 e1), lessThan_abs by (done || lia).
  destruct (Z.ltb_spec b b1); [|by replace (Z.min b b1) with b1 by lia].
  assert (u32 (u32 b1 - u32 b) = b1 - b) as -> by (rewrite <- (u32_small (b1 - b)) by lia; mod32).
  replace (Z.min (zlen data) (b1 - b)) with (b1 - b) by lia.
  assert (zlen (take (Z.to_nat (b1 - b)) data) = b1 - b) as Hz by (rewrite zlen_take; lia).
  rewrite (proj2 (Z.eqb_neq _ 0)) by lia. cbn [negb].
  apply (prepend_is (take (Z.to_nat (b1 - b)) data)) in Hs. rewrite Hz in Hs.
  by replace (Z.min b b1) with (b1 - (b1 - b)) by lia.
Qed.

Lemma store_loop_abs fuel pre suf lo b e data ivs :
  Forall2 seg_is suf ivs -> chain lo hi ivs -> W <= lo -> lo <= b -> b < e -> e <= hi ->
  zlen data = e - b -> (length suf < fuel)%nat ->
  exists suf', store_loop fuel (pre ++ suf) (length pre) (u32 b) (u32 e) data false
                 = Some (pre ++ suf') /\ Forall2 seg_is suf' (abs_store b e ivs).
Proof.
  intros Hr. revert fuel pre lo.
  induction Hr as [|s [b1 e1] suf ivs Hs Hr IH]; intros fuel pre lo Hc HW Hlo Hbe He Hd Hf;
    (destruct fuel as [|fuel]; [simpl in Hf; lia|]); cbn [store_loop].
  { rewrite app_nil_r, lookup_ge_None_2 by lia. exists [mkSegment (u32 e) false data].
    split; [done|]. constructor; [|done]. by split_and!. }
  rewrite list_lookup_middle by done. simpl in Hc, Hf. destruct Hc as (H1 & H2 & H3 & Hc).
  pose proof Hs as (Ee & Ez & Ef). simpl in Ee, Ez.
  rewrite Ee, Ef, (seg_begin_abs s b1 e1), !eqb_abs, !lessThan_abs by (done || lia).
  assert (seg_is (mkSegment (u32 e) false data) (b, e)) as Hnew by (by split_and!).
  assert (forall s', <[length pre := s']> (pre ++ s :: suf) = pre ++ s' :: suf) as Hset.
  { intros s'. by rewrite insert_app_r_alt, Nat.sub_diag by lia. }
  cbn [abs_store].
  destruct (Z.eqb_spec b e1) as [Eb|Eb].
  { destruct (append_some data s Ef) as [s' Ha]. rewrite Ha. cbn [mbind option_bind]. rewrite Hset.
    apply (append_is _ _ _ _ _ Ha) in Hs. rewrite Hd in Hs.
    replace (e1 + (e - b)) with e in Hs by lia.
    rewrite (proj2 (Z.ltb_ge e b1)), (proj2 (Z.ltb_ge e1 b)), (proj2 (Z.ltb_lt e1 e)) by lia.
    replace (Z.min b b1) with b1 by lia.
    apply cache_update_abs; try done; try lia. by apply (chain_weaken (e1 + 1)); [lia|]. }
  destruct (Z.eqb_spec e b1) as [Eq|Eq].
  { eexists. rewrite Hset. split; [done|]. apply (prepend_is data) in Hs. rewrite Hd in Hs.
    rewrite (proj2 (Z.ltb_ge e b1)), (proj2 (Z.ltb_ge e1 b)), (proj2 (Z.ltb_ge e1 e)) by lia.
    constructor; [|done]. by replace (Z.min b b1) with (b1 - (e - b)) by lia. }
  destruct (Z.ltb_spec e b1).
  { exists (mkSegment (u32 e) false data :: s :: suf). unfold cache_insert.
    rewrite take_app_length, drop_app_length. split; [done|]. by repeat constructor. }
  rewrite (proj2 (Z.ltb_lt b1 e)) by lia. destruct (Z.ltb_spec b e1).
  - rewrite (proj2 (Z.ltb_ge e1 b)) by lia. rewrite overlap_prepend_end, Ee.
    pose proof (overlap_prepend_is b e data s b1 e1 Hs Hd ltac:(lia) Hbe ltac:(lia) He ltac:(lia) ltac:(lia))
      as Hs1.
    assert (u32 (u32 e1 - u32 b) = e1 - b) as -> by (rewrite <- (u32_small (e1 - b)) by lia; mod32).
    rewrite safe_drop_length, Hd by lia.
    destruct (Z.ltb_spec e1 e).
    + rewrite (proj2 (Z.eqb_neq _ 0)) by lia. cbn [negb].
      pose proof Hs1 as (_ & _ & Ef1).
      destruct (append_some (safe_drop (e1 - b) data) _ Ef1) as [s2 Ha]. rewrite Ha.
      cbn [mbind option_bind]. rewrite Hset. apply (append_is _ _ _ _ _ Ha) in Hs1.
      rewrite safe_drop_length, Hd in Hs1 by lia.
      replace (e1 + Z.max 0 (e - b - (e1 - b))) with e in Hs1 by lia.
      apply cache_update_abs; try done; try lia. by apply (chain_weaken (e1 + 1)); [lia|].
    + rewrite (proj2 (Z.eqb_eq _ 0)) by lia. cbn [negb]. eexists. rewrite Hset. split; [done|].
      by constructor.
  - rewrite (proj2 (Z.ltb_lt e1 b)) by lia.
    destruct (IH fuel (pre ++ [s]) (e1 + 1)) as (suf' & E & Hsuf); [done|lia..|].
    rewrite <- app_assoc, length_app, Nat.add_1_r in E. cbn [app] in E. rewrite E.
    exists (s :: suf'). split; [by rewrite <- app_assoc|]. by constructor.
Qed.

Lemma check_from_abs s rest b e ivs :
  W <= b -> b < e -> e <= hi -> seg_is s (b, e) -> Forall2 seg_is rest ivs -> chain (e + 1) hi ivs ->
  check_from s rest = true.
Proof.
  intros Hb Hbe He Hs Hr. revert s b e Hb Hbe He Hs.
  induction Hr as [|s2 [b2 e2] rest ivs Hs2 Hr IH]; intros s b e Hb Hbe He Hs Hc; [done|].
  cbn [check_from]. simpl in Hc. destruct Hc as (? & ? & ? & Hc).
  pose proof Hs as (Ee & Ez & Ef). simpl in *.
  rewrite Ee, (seg_begin_abs s2 b2 e2), lessThan_abs by (done || lia).
  rewrite (proj2 (Z.ltb_lt e b2)) by lia. rewrite andb_false_r. unfold seg_empty.
  rewrite Ez, (proj2 (Z.eqb_neq _ 0)), Ef by lia. cbn [andb]. by apply (IH s2 b2 e2); try lia.
Qed.
End Order.

(** C25. Order and coverage of data segments: while no cached segment and not
    the arriving one is final (carries a FIN), the sequence numbers lie in a
    window of 2^31 and the arriving segment meets at most two neighbouring
    cached segments, [store] succeeds (in particular its own invariant check
    passes), keeps the segments sorted with gaps between them, and afterwards
    covers exactly the old sequence numbers and the new ones. For a final
    segment this fails ([final_before_cached_data]). *)
Theorem store_covers W segments ivs b e data :
  Forall2 seg_is segments ivs -> chain W (W + 2 ^ 31 - 1) ivs ->
  W <= b -> b < e -> e <= W + 2 ^ 31 - 1 -> zlen data = e - b -> touches_two b e ivs ->
  exists segments' ivs', store segments (u32 e) data false = Some segments' /\
    Forall2 seg_is segments' ivs' /\ chain W (W + 2 ^ 31 - 1) ivs' /\
    forall p, covered ivs' p <-> covered ivs p \/ b <= p < e.
Proof.
  intros Hr Hc Hb Hbe He Hd Ht.
  destruct (store_loop_abs W (S (length segments)) [] segments W b e data ivs)
    as (segments' & E & Hr'); try done; try lia.
  destruct (abs_store_chain W W b e ivs Hc Hb Hbe He Ht) as [Hc' Hcov].
  exists segments', (abs_store b e ivs). split_and!; try done.
  unfold store, store_unchecked. rewrite (proj2 (Z.eqb_neq (zlen data) 0)) by lia. cbn [andb].
  assert (u32 (u32 e - zlen data) = u32 b) as -> by (rewrite Hd; mod32).
  cbn [app length] in E. rewrite E. cbn [mbind option_bind].
  assert (checkInvariant segments' = true) as ->; [|done].
  destruct Hr' as [|s [b1 e1] rest ivs1 Hs Hr']; [done|]. simpl in Hc'.
  apply (check_from_abs W s rest b1 e1 ivs1); tauto || lia.
Qed.

Lemma store_covers_witness :
  exists segments' ivs',
    store [mkSegment (u32 (2 ^ 32 + 4)) false [1; 2; 3; 4; 5; 6]] (u32 (2 ^ 32 + 7)) [5; 6; 7; 8; 9] false
      = Some segments' /\
    Forall2 seg_is segments' ivs' /\ chain (2 ^ 32 - 10) (2 ^ 32 - 10 + 2 ^ 31 - 1) ivs' /\
    forall p, covered ivs' p <->
      covered [(2 ^ 32 - 2, 2 ^ 32 + 4)] p \/ 2 ^ 32 + 2 <= p < 2 ^ 32 + 7.
Proof.
  apply (store_covers (2 ^ 32 - 10) [mkSegment (u32 (2 ^ 32 + 4)) false [1; 2; 3; 4; 5; 6]]
    [(2 ^ 32 - 2, 2 ^ 32 + 4)] (2 ^ 32 + 2) (2 ^ 32 + 7) [5; 6; 7; 8; 9]); try done.
  constructor; [|done]. by split_and!.
Defined.

(** ** Filling gaps *)

(** Adjacent segments make the loop of [addMissingData] spin. *)
Lemma missing_loop_spins fuel first second rest n :
  seg_empty second = false -> lessThan (seg_end first) (seg_begin second) = false ->
  missing_loop fuel (first :: second :: rest) n = None.
Proof.
  intros H1 H2. induction fuel as [|fuel IH]; [done|]. cbn [missing_loop]. by rewrite H1, H2.
Qed.

(** Three cached segments with gaps between them. *)
Definition three_segments : SegmentCache :=
  (fun e => mkSegment e false (replicate 10 7)) <$> [10; 30; 50].

(** [update] merges a grown segment with one following segment only. If a
    retransmission [5,40) arrives while [0,10), [20,30) and [40,50) are cached,
    [store] leaves [0,40) and [40,50) unmerged (its invariant check allows
    that), and a later [addMissingData] never returns: its loop neither fills a
    gap nor merges. With a retransmission [5,45) the result overlaps and the
    invariant check of [store] fails. *)
Theorem merging_one_segment_is_not_enough :
  checkInvariant three_segments = true /\
  (exists cache, store three_segments 40 (replicate 35 7) false = Some cache /\
     forall fuel n, cache_addMissingData fuel cache 0 n = None) /\
  store three_segments 45 (replicate 40 7) false = None.
Proof.
  split_and!; [by vm_compute| |by vm_compute].
  exists [mkSegment 40 false (replicate 40 7); mkSegment 50 false (replicate 10 7)].
  split; [by vm_compute|]. intros fuel n.
  exact (missing_loop_spins fuel (mkSegment 40 false (replicate 40 7))
    (mkSegment 50 false (replicate 10 7)) [] n eq_refl eq_refl).
Qed.

(** A final segment [5,15) that grows the cached [0,10) while [20,30) is
    cached stays in front of it: [update] does not clear out the rest of the
    segments, as [insert] does, and the invariant check of [store] fails. The
    final segment [12,15), which [insert] handles, clears [20,30) out. *)
Theorem final_before_cached_data :
  store (take 2 three_segments) 15 (replicate 10 7) true = None /\
  store_unchecked (take 2 three_segments) 15 (replicate 10 7) true
    = Some [mkSegment 15 true (replicate 15 7); mkSegment 30 false (replicate 10 7)] /\
  store (take 2 three_segments) 15 (replicate 3 7) true
    = Some [mkSegment 10 false (replicate 10 7); mkSegment 15 true (replicate 3 7)].
Proof. by vm_compute. Qed.

Section Missing.
Context (W : Z).
Abbreviation hi := (W + 2 ^ 31 - 1).

Lemma zeros_length n : 0 <= n -> zlen (replicate (Z.to_nat n) 0) = n.
Proof. intros. rewrite zlen_replicate. lia. Qed.

(** Fill the gaps after [b, e) as long as they are not larger than [n]. *)
Fixpoint fill (b e n : Z) (ivs : list interval) : list interval :=
  match ivs with
  | [] => [(b, e)]
  | (b2, e2) :: ivs' => if n <? b2 - e then (b, e) :: ivs else fill b e2 n ivs'
  end.

Lemma missing_loop_abs fuel s rest b e ivs n :
  seg_is s (b, e) -> Forall2 seg_is rest ivs -> W <= b -> b < e -> e <= hi -> chain (e + 1) hi ivs ->
  (length rest < fuel)%nat ->
  exists segments, missing_loop fuel (s :: rest) n = Some segments /\
    Forall2 seg_is segments (fill b e n ivs).
Proof.
  intros Hs Hr. revert fuel s e Hs.
  induction Hr as [|s2 [b2 e2] rest ivs Hs2 Hr IH]; intros fuel s e Hs Hb Hbe He Hc Hf;
    (destruct fuel as [|fuel]; [lia|]); cbn [missing_loop fill].
  { exists [s]. split; [done|]. by constructor. }
  simpl in Hc. destruct Hc as (? & ? & ? & Hc). pose proof Hs as (Ee & Ez & Ef).
  pose proof Hs2 as (Ee2 & Ez2 & Ef2). simpl in *. unfold seg_empty.
  rewrite Ez2, (proj2 (Z.eqb_neq _ 0)), Ee, (seg_begin_abs s2 b2 e2), lessThan_abs by (done || lia).
  rewrite (proj2 (Z.ltb_lt e b2)) by lia.
  assert (u32 (u32 b2 - u32 e) = b2 - e) as -> by (rewrite <- (u32_small (b2 - e)) by lia; mod32).
  destruct (Z.ltb_spec n (b2 - e)).
  { eexists. split; [done|]. by repeat constructor. }
  destruct (append_some (replicate (Z.to_nat (b2 - e)) 0) s Ef) as [s1 Ha]. rewrite Ha.
  cbn [mbind option_bind]. apply (append_is _ _ _ _ _ Ha) in Hs. rewrite zeros_length in Hs by lia.
  replace (e + (b2 - e)) with b2 in Hs by lia. pose proof Hs as (_ & _ & Ef1).
  rewrite Ef2. destruct (append_some (seg_data s2) s1 Ef1) as [s3 Ha2]. rewrite Ha2.
  cbn [mbind option_bind]. apply (append_is _ _ _ _ _ Ha2) in Hs. unfold seg_size in Ez2.
  rewrite Ez2 in Hs. replace (b2 + (e2 - b2)) with e2 in Hs by lia.
  apply IH; try done; lia.
Qed.
End Missing.

(** On a sorted cache with a gap between each two segments, [addMissingData]
    terminates: it fills the gaps up to the allowed size from the front, joins
    the segments around them, and stops at the first gap that is too large. *)
Theorem addMissingData_fills W segments b1 e1 ivs expected n :
  Forall2 seg_is segments ((b1, e1) :: ivs) -> chain W (W + 2 ^ 31 - 1) ((b1, e1) :: ivs) ->
  W <= expected -> expected <= W + 2 ^ 31 - 1 ->
  exists segments',
    cache_addMissingData (S (length segments)) segments (u32 expected) n = Some segments' /\
    Forall2 seg_is segments'
      (fill (if (expected <? b1) && (b1 - expected <=? n) then expected else b1) e1 n ivs).
Proof.
  intros Hr Hc He1 He2. inversion Hr as [|s ? rest ? Hs Hr']; subst. simpl in Hc.
  destruct Hc as (? & ? & ? & Hc). pose proof Hs as (Ee & Ez & Ef). simpl in Ee, Ez.
  unfold cache_addMissingData, seg_empty. rewrite Ez, (proj2 (Z.eqb_neq _ 0)) by lia.
  rewrite (seg_begin_abs s b1 e1), lessThan_abs by (done || lia).
  destruct (Z.ltb_spec expected b1); cbn [andb]; [|apply (missing_loop_abs W); try done; simpl; lia].
  assert (u32 (u32 b1 - u32 expected) = b1 - expected) as ->
    by (rewrite <- (u32_small (b1 - expected)) by lia; mod32).
  destruct (Z.leb_spec (b1 - expected) n); [|apply (missing_loop_abs W); try done; simpl; lia].
  apply (prepend_is (replicate (Z.to_nat (b1 - expected)) 0)) in Hs.
  rewrite zeros_length in Hs by lia. replace (b1 - (b1 - expected)) with expected in Hs by lia.
  apply (missing_loop_abs W); try done; simpl; lia.
Qed.

Lemma addMissingData_fills_witness :
  exists segments', cache_addMissingData 4 three_segments (u32 0) 10 = Some segments' /\
    Forall2 seg_is segments'
      (fill (if (0 <? 0) && (0 - 0 <=? 10) then 0 else 0) 10 10 [(20, 30); (40, 50)]).
Proof.
  apply (addMissingData_fills 0 three_segments 0 10 [(20, 30); (40, 50)] 0 10); try done.
  unfold three_segments. simpl. repeat constructor.
Defined.
