(* ===== verification/Flow.v ===== *)
(** * TCP flows (src/ofp/demux/flowstate.cpp, flowcache.cpp, include/ofp/demux/
    flowstate.h, flowcache.h; the order on IPv6Endpoint of include/ofp/ipv6endpoint.h)

    A [FlowState] turns the segments of one direction of a connection, in the
    order they arrive, into the byte stream; a [FlowCache] finds the two states
    of a connection by its unordered pair of endpoints. *)

From S2P Require Import Prelude.
From S2P Require Import Timestamp.
From S2P Require Import SegmentCache.

(** ** FlowState and FlowData *)

Record FlowState := mkFlow {
  fs_end : Z; fs_started : bool; fs_finished : bool; fs_cache : SegmentCache }.

(** [fd_state]: whether the pointer to the flow's state is set. *)
Record FlowData := mkData {
  fd_state : bool; fd_data : list Z; fd_sessionID : Z; fd_cached : bool; fd_final : bool }.

Definition FlowState_init : FlowState := mkFlow 0 false false [].
Definition FlowData_empty (sessionID : Z) : FlowData := mkData false [] sessionID false false.

Definition FlowState_empty (st : FlowState) : bool := bool_decide (fs_cache st = []).
Definition FlowState_isFinished (st : FlowState) : bool := fs_finished st && FlowState_empty st.

Definition latestData (st : FlowState) (sessionID : Z) : FlowData :=
  match current (fs_cache st) with
  | Some seg =>
      if seg_begin seg =? fs_end st
      then mkData true (seg_data seg) sessionID true (seg_final seg)
      else FlowData_empty sessionID
  | None => FlowData_empty sessionID
  end.

(** The second half of [receive], from the check of the segment's end on: cache
    what is new in the segment and see what can be delivered. *)
Definition receive_cached (st : FlowState) (ts : Timestamp) (b e : Z) (data : list Z)
    (sessionID : Z) (final : bool) (lastSeen : Timestamp)
    : option (FlowState * FlowData * Timestamp) :=
  if negb (lessThan (fs_end st) e) then Some (st, FlowData_empty sessionID, lastSeen)
  else
    let newData := if lessThan b (fs_end st) then safe_drop (u32 (fs_end st - b)) data else data in
    cache ← store (fs_cache st) e newData final;
    let st := mkFlow (fs_end st) (fs_started st) (final || fs_finished st) cache in
    Some (st, latestData st sessionID, ts).

(** [receive]: the new state, the data made available, and [*lastSeen]. *)
Definition FlowState_receive (st : FlowState) (ts : Timestamp) (e : Z) (data : list Z)
    (sessionID : Z) (final : bool) (lastSeen : Timestamp)
    : option (FlowState * FlowData * Timestamp) :=
  let b := u32 (e - zlen data) in
  let st := if negb (fs_started st) then mkFlow b true (fs_finished st) (fs_cache st) else st in
  if FlowState_empty st && fs_finished st then Some (st, FlowData_empty sessionID, lastSeen)
  else if FlowState_empty st && (b =? fs_end st) then
    Some (mkFlow (fs_end st) (fs_started st) (final || fs_finished st) (fs_cache st),
          mkData true data sessionID false final, ts)
  else receive_cached st ts b e data sessionID final lastSeen.

(** [FlowData::consume] on the flow it belongs to. *)
Definition FlowData_consume (fd : FlowData) (st : FlowState) (len : Z) : option (FlowData * FlowState) :=
  if negb (fd_state fd) then Some (fd, st) else
  assert! (len <=? zlen (fd_data fd));;
  let e := u32 (fs_end st + len) in
  cache ← (if fd_cached fd then cache_consume (fs_cache st) len
           else if len <? zlen (fd_data fd) then
             let left := drop (Z.to_nat len) (fd_data fd) in
             store (fs_cache st) (u32 (e + zlen left)) left false
           else Some (fs_cache st));
  Some (mkData false [] (fd_sessionID fd) (fd_cached fd) (fd_final fd),
        mkFlow e (fs_started st) (fs_finished st) cache).

Definition FlowState_addMissingData (fuel : nat) (st : FlowState) (maxMissingBytes : Z)
    : option FlowState :=
  cache ← cache_addMissingData fuel (fs_cache st) (fs_end st) maxMissingBytes;
  Some (mkFlow (fs_end st) (fs_started st) (fs_finished st) cache).

Definition FlowState_clear (st : FlowState) : FlowState := FlowState_init.

(** ** Endpoints and keys *)

Definition IPv6Endpoint : Type := list Z * Z.

(** [std::array] comparison: lexicographic. *)
Fixpoint bytes_lt (a b : list Z) : bool :=
  match a, b with
  | [], [] => false
  | [], _ :: _ => true
  | _ :: _, [] => false
  | x :: a', y :: b' => if x <? y then true else if y <? x then false else bytes_lt a' b'
  end.

Definition endpoint_le (a b : IPv6Endpoint) : bool :=
  bytes_lt a.1 b.1 || (bool_decide (a.1 = b.1) && (a.2 <=? b.2)).

Definition FlowCacheKey : Type := IPv6Endpoint * IPv6Endpoint.

(** The key and [srcIsX]. *)
Definition FlowCacheKey_make (src dst : IPv6Endpoint) : FlowCacheKey * bool :=
  if endpoint_le src dst then ((src, dst), true) else ((dst, src), false).

(** ** FlowCache *)

Record FlowCacheEntry := mkEntry {
  fe_sessionID : Z; fe_x : FlowState; fe_y : FlowState;
  fe_firstSeen : Timestamp; fe_lastSeen : Timestamp }.

Definition entry_init : FlowCacheEntry :=
  mkEntry 0 FlowState_init FlowState_init Timestamp_zero Timestamp_zero.
Definition entry_finished (en : FlowCacheEntry) : bool :=
  FlowState_isFinished (fe_x en) && FlowState_isFinished (fe_y en).
Definition entry_reset (en : FlowCacheEntry) (ts : Timestamp) (sessID : Z) : FlowCacheEntry :=
  mkEntry sessID (FlowState_clear (fe_x en)) (FlowState_clear (fe_y en)) ts Timestamp_zero.

Record FlowCache := mkCache { fc_cache : gmap FlowCacheKey FlowCacheEntry; fc_assign : Z }.

(** Session ids are 64-bit and never 0. *)
Definition assignSessionID (n : Z) : Z * Z :=
  let n1 := u64 (n + 1) in
  if n1 =? 0 then let n2 := u64 (n1 + 1) in (n2, n2) else (n1, n1).

Definition TCP_ACK : Z := 16.
Definition TCP_RST : Z := 4.
Definition TCP_SYN : Z := 2.
Definition TCP_FIN : Z := 1.
Definition TCP_SYNACK : Z := Z.lor TCP_SYN TCP_ACK.
Definition kTwoMinuteTimeout : Z := 120 * NANO_UNITS.

(** The session an arriving segment belongs to: the entry, the counter, and
    whether the segment is dropped as late. *)
Definition session_for (en : FlowCacheEntry) (assign : Z) (ts : Timestamp) (flags : Z)
    : FlowCacheEntry * Z * bool :=
  let fresh := let '(id, assign') := assignSessionID assign in (entry_reset en ts id, assign', false) in
  if fe_sessionID en =? 0 then fresh
  else if entry_finished en then
    if negb (Z.land flags TCP_SYN =? 0) || (kTwoMinuteTimeout <=? nanosSince ts (fe_lastSeen en))
    then fresh else (en, assign, true)
  else if (Z.land flags TCP_SYNACK =? TCP_SYN) &&
          (kTwoMinuteTimeout <=? nanosSince ts (fe_lastSeen en))
  then fresh else (en, assign, false).

Definition FlowCache_receive (fc : FlowCache) (ts : Timestamp) (src dst : IPv6Endpoint) (seq : Z)
    (data : list Z) (flags : Z) : option (FlowCache * FlowData) :=
  let kInterestingFlags := Z.lor (Z.lor TCP_SYN TCP_FIN) TCP_RST in
  let kFinalFlags := Z.lor TCP_FIN TCP_RST in
  let syn := negb (Z.land flags TCP_SYN =? 0) in
  if syn && negb (zlen data =? 0) then Some (fc, FlowData_empty 0) else
  let e := if syn then u32 (seq + 1) else u32 (seq + zlen data) in
  if (zlen data =? 0) && (Z.land flags kInterestingFlags =? 0) then Some (fc, FlowData_empty 0) else
  let final := negb (Z.land flags kFinalFlags =? 0) in
  let '(key, isX) := FlowCacheKey_make src dst in
  let en := default entry_init (fc_cache fc !! key) in
  let '(en, assign, late) := session_for en (fc_assign fc) ts flags in
  if (late : bool) then
    Some (mkCache (<[key := en]> (fc_cache fc)) assign, FlowData_empty (fe_sessionID en))
  else if (isX : bool) then
    '(x, fd, seen) ← FlowState_receive (fe_x en) ts e data (fe_sessionID en) final (fe_lastSeen en);
    Some (mkCache (<[key := mkEntry (fe_sessionID en) x (fe_y en) (fe_firstSeen en) seen]>
                     (fc_cache fc)) assign, fd)
  else
    '(y, fd, seen) ← FlowState_receive (fe_y en) ts e data (fe_sessionID en) final (fe_lastSeen en);
    Some (mkCache (<[key := mkEntry (fe_sessionID en) (fe_x en) y (fe_firstSeen en) seen]>
                     (fc_cache fc)) assign, fd).

(** [lookup] and [findEntry]. *)
Definition FlowCache_findEntry (fc : FlowCache) (src dst : IPv6Endpoint) : option FlowCacheEntry :=
  fc_cache fc !! (FlowCacheKey_make src dst).1.
Definition FlowCache_lookup (fc : FlowCache) (src dst : IPv6Endpoint) : option FlowState :=
  let '(key, isX) := FlowCacheKey_make src dst in
  en ← fc_cache fc !! key; Some (if (isX : bool) then fe_x en else fe_y en).
Definition FlowCache_clear (fc : FlowCache) : FlowCache := mkCache ∅ (fc_assign fc).

(** [finish] for one entry: the entry with its gaps filled, and the data the
    callback is given for each direction. *)
Definition finish_entry (fuel : nat) (maxMissingBytes : Z) (en : FlowCacheEntry)
    : option (FlowCacheEntry * (FlowData * FlowData)) :=
  x ← FlowState_addMissingData fuel (fe_x en) maxMissingBytes;
  y ← FlowState_addMissingData fuel (fe_y en) maxMissingBytes;
  Some (mkEntry (fe_sessionID en) x y (fe_firstSeen en) (fe_lastSeen en),
        (latestData x (fe_sessionID en), latestData y (fe_sessionID en))).

(** [finish]: the entries in some order (that of the hash map). *)
Definition FlowCache_finish (fuel : nat) (fc : FlowCache) (maxMissingBytes : Z)
    : option (list (FlowCacheKey * (FlowCacheEntry * (FlowData * FlowData)))) :=
  mapM (fun '(key, en) => r ← finish_entry fuel maxMissingBytes en; Some (key, r))
    (map_to_list (fc_cache fc)).

(** ** In-order delivery *)

Section Delivery.
Context (stream : Z -> Z).

(** The sequence number of the next byte is a 32-bit value and every cached
    byte is the sender's. *)
Definition flow_ok (st : FlowState) : Prop :=
  0 <= fs_end st < 2 ^ 32 /\ Forall (seg_ok stream) (fs_cache st).

(** Data that is offered starts at the next byte of the stream. *)
Definition offered_ok (fd : FlowData) (st : FlowState) : Prop :=
  fd_state fd = true -> reads stream (fs_end st) (fd_data fd) /\
    if fd_cached fd then exists seg rest, fs_cache st = seg :: rest /\ seg_data seg = fd_data fd
    else fs_cache st = [].

Lemma store_ok segments e data final segments' :
  store segments e data final = Some segments' -> 0 <= e < 2 ^ 32 -> zlen data < 2 ^ 32 ->
  Forall (seg_ok stream) segments -> reads stream (e - zlen data) data ->
  Forall (seg_ok stream) segments'.
Proof.
  intros H He Hl Hok Hd. unfold store in H. destruct (_ && _); [by simplify_eq|].
  destruct (store_unchecked _ _ _ _) as [s1|] eqn:Hs; [|done]. cbn [mbind option_bind] in H.
  destruct (checkInvariant s1); [|done]. simplify_eq.
  eapply store_loop_ok; try done. eapply reads_mod; [|exact Hd]. by rewrite u32_idem.
Qed.

Lemma latestData_ok st sessionID : flow_ok st -> offered_ok (latestData st sessionID) st.
Proof.
  intros [He Hc]. unfold latestData, current. destruct (fs_cache st) as [|seg rest] eqn:Ec; [done|].
  cbn [head]. destruct (Z.eqb_spec (seg_begin seg) (fs_end st)) as [E|]; [|done].
  intros _. simpl. split; [|by rewrite Ec; eauto]. apply Forall_cons in Hc as [[_ Hr] _].
  eapply reads_mod; [|exact Hr]. rewrite <- E. unfold seg_begin. by rewrite u32_idem.
Qed.

Lemma reads_trim b e off data :
  u32 b = u32 (e - zlen data) -> 0 <= off -> reads stream b data ->
  reads stream (e - zlen (safe_drop off data)) (safe_drop off data).
Proof.
  intros Hb Ho Hd. pose proof (zlen_nonneg data).
  destruct (decide (off <= zlen data)).
  - eapply reads_mod; [|apply (reads_safe_drop _ b off data); done].
    rewrite safe_drop_length by done. mod32.
  - unfold safe_drop. rewrite (proj2 (Z.leb_gt _ _)) by lia. by intros i x Hx.
Qed.

Lemma receive_cached_ok st ts b e data sessionID final lastSeen st' fd seen :
  receive_cached st ts b e data sessionID final lastSeen = Some (st', fd, seen) ->
  u32 b = u32 (e - zlen data) -> flow_ok st -> 0 <= e < 2 ^ 32 -> zlen data < 2 ^ 32 -> reads stream (e - zlen data) data ->
  flow_ok st' /\ offered_ok fd st' /\ fs_started st' = fs_started st /\ fs_end st' = fs_end st.
Proof.
  unfold receive_cached. intros H Hb Hst He Hl Hd.
  destruct (lessThan (fs_end st) e); cbn [negb] in H; [|by simplify_eq].
  destruct (store _ _ _ _) as [cache|] eqn:Hs; [|done]. simplify_eq/=.
  assert (flow_ok (mkFlow (fs_end st) (fs_started st) (final || fs_finished st) cache)) as Hok.
  { split; [apply Hst|]. simpl. pose proof (zlen_nonneg data). pose proof (u32_range (fs_end st - b)).
    destruct (lessThan b (fs_end st)); (eapply store_ok; [exact Hs|done|..]); try apply Hst; try done.
    - rewrite safe_drop_length; lia.
    - apply (reads_trim b); [done|lia|]. by eapply reads_mod; [|exact Hd]. }
  split_and!; try done. by apply latestData_ok.
Qed.

Lemma FlowState_receive_ok st ts e data sessionID final lastSeen st' fd seen :
  FlowState_receive st ts e data sessionID final lastSeen = Some (st', fd, seen) ->
  flow_ok st -> 0 <= e < 2 ^ 32 -> zlen data < 2 ^ 32 -> reads stream (e - zlen data) data ->
  flow_ok st' /\ offered_ok fd st' /\ fs_started st' = true /\
  fs_end st' = (if fs_started st then fs_end st else u32 (e - zlen data)).
Proof.
  unfold FlowState_receive. intros H Hst He Hl Hd. pose proof (u32_range (e - zlen data)) as Hb.
  set (b := u32 (e - zlen data)) in *.
  set (st1 := if negb (fs_started st) then mkFlow b true (fs_finished st) (fs_cache st) else st) in *.
  assert (flow_ok st1) as Hst1.
  { unfold st1. destruct (negb _); [|done]. split; [done|apply Hst]. }
  assert (fs_started st1 = true /\ fs_end st1 = if fs_started st then fs_end st else b) as [Hs1 <-].
  { unfold st1. by destruct (fs_started st) eqn:Es; simpl. }
  clearbody st1. destruct (FlowState_empty st1) eqn:Ee; cbn [andb] in H.
  2: { apply receive_cached_ok in H as (? & ? & ? & ?); try done;
         [split_and!; congruence || done|unfold b; apply u32_idem]. }
  destruct (fs_finished st1); [by simplify_eq|].
  destruct (Z.eqb_spec b (fs_end st1)) as [Eb|].
  2: { apply receive_cached_ok in H as (? & ? & ? & ?); try done;
         [split_and!; congruence || done|unfold b; apply u32_idem]. }
  simplify_eq/=. split_and!; try done. intros _. simpl. apply bool_decide_eq_true in Ee.
  split; [|done]. eapply reads_mod; [|exact Hd]. by rewrite <- Eb, u32_idem.
Qed.

(** Consuming [len] bytes delivers the next [len] bytes of the stream. *)
Lemma FlowData_consume_ok fd st len fd' st' :
  FlowData_consume fd st len = Some (fd', st') -> flow_ok st -> offered_ok fd st ->
  zlen (fd_data fd) < 2 ^ 32 -> 0 <= len ->
  let delivered := if fd_state fd then take (Z.to_nat len) (fd_data fd) else [] in
  flow_ok st' /\ reads stream (fs_end st) delivered /\
  fs_end st' = u32 (fs_end st + zlen delivered) /\ fs_started st' = fs_started st.
Proof.
  unfold FlowData_consume. intros H [He Hc] Ho Hz Hlen. destruct (fd_state fd) eqn:Ef; cbn [negb] in H.
  2: { simplify_eq. split_and!; try done. change (zlen []) with 0. by rewrite Z.add_0_r, u32_small. }
  destruct (Ho Ef) as [Hr _]. destruct (Z.leb_spec len (zlen (fd_data fd))); [|done].
  destruct (cut_at (fd_data fd) len) as (d1 & d2 & Ed & Hd1); [lia|].
  assert (length d1 = Z.to_nat len) as Hn by (unfold zlen in Hd1; lia).
  rewrite Ed in Hr, H, Hz |- *. rewrite take_app_length' by done.
  rewrite drop_app_length', zlen_app in H by done. rewrite zlen_app in Hz.
  apply reads_app in Hr as [Hr1 Hr2].
  destruct (if fd_cached fd then _ else _) as [cache|] eqn:Hcache; [|done]. simplify_eq/=.
  split_and!; try done. split; [apply u32_range|]. simpl.
  destruct (fd_cached fd).
  - by eapply cache_consume_ok.
  - destruct (Z.ltb_spec (zlen d1) (zlen d1 + zlen d2)); [|by simplify_eq].
    pose proof (zlen_nonneg d1).
    eapply store_ok; [exact Hcache|apply u32_range|lia|done|].
    eapply reads_mod; [|exact Hr2]. mod32.
Qed.
End Delivery.

(** A run of a flow: segments arrive, and after each the consumer leaves or
    consumes some of what it is offered; [delivered] are the bytes taken so far. *)
Inductive flow_run (stream : Z -> Z) : FlowState -> list Z -> Prop :=
| run_init : flow_run stream FlowState_init []
| run_receive st delivered ts e data sessionID final lastSeen st1 fd seen :
    flow_run stream st delivered ->
    0 <= e < 2 ^ 32 -> zlen data < 2 ^ 32 -> reads stream (e - zlen data) data ->
    FlowState_receive st ts e data sessionID final lastSeen = Some (st1, fd, seen) ->
    flow_run stream st1 delivered
| run_segment st delivered ts e data sessionID final lastSeen st1 fd seen len fd' st2 :
    flow_run stream st delivered ->
    0 <= e < 2 ^ 32 -> zlen data < 2 ^ 32 -> reads stream (e - zlen data) data ->
    FlowState_receive st ts e data sessionID final lastSeen = Some (st1, fd, seen) ->
    0 <= len -> zlen (fd_data fd) < 2 ^ 32 -> FlowData_consume fd st1 len = Some (fd', st2) ->
    flow_run stream st2 (delivered ++ if fd_state fd then take (Z.to_nat len) (fd_data fd) else []).

(** What was delivered is the stream from some number on, and [end_] is the
    number of the next byte. *)
Definition flow_inv (stream : Z -> Z) (st : FlowState) (delivered : list Z) : Prop :=
  flow_ok stream st /\ exists b0, reads stream b0 delivered /\
    (fs_started st = true -> fs_end st = u32 (b0 + zlen delivered)) /\
    (fs_started st = false -> delivered = []).

Lemma flow_inv_step stream st delivered ts e data sid final seen0 st1 fd seen st2 taken :
  flow_inv stream st delivered ->
  0 <= e < 2 ^ 32 -> zlen data < 2 ^ 32 -> reads stream (e - zlen data) data ->
  FlowState_receive st ts e data sid final seen0 = Some (st1, fd, seen) ->
  (flow_ok stream st1 -> offered_ok stream fd st1 ->
     flow_ok stream st2 /\ reads stream (fs_end st1) taken /\
     fs_end st2 = u32 (fs_end st1 + zlen taken) /\ fs_started st2 = fs_started st1) ->
  flow_inv stream st2 (delivered ++ taken).
Proof.
  intros [Hok (b0 & Hr & Hstart & Hnot)] He Hl Hd Hrecv Hcons.
  destruct (FlowState_receive_ok stream _ _ _ _ _ _ _ _ _ _ Hrecv Hok He Hl Hd)
    as (Hok1 & Hoff & Hs1 & He1).
  destruct (Hcons Hok1 Hoff) as (Hok2 & Hr2 & He2 & Hs2).
  split; [done|]. destruct (fs_started st) eqn:Es.
  - exists b0. specialize (Hstart eq_refl). rewrite reads_app, zlen_app. split_and!; [done| | |congruence].
    + eapply reads_mod; [|exact Hr2]. rewrite He1, Hstart. apply u32_idem.
    + intros _. rewrite He2, He1, Hstart. mod32.
  - exists (u32 (e - zlen data)). rewrite (Hnot eq_refl). cbn [app]. split_and!; [| |congruence].
    + eapply reads_mod; [|exact Hr2]. by rewrite He1.
    + intros _. by rewrite He2, He1.
Qed.

Lemma flow_run_inv stream st delivered : flow_run stream st delivered -> flow_inv stream st delivered.
Proof.
  induction 1 as [|st delivered ts e data sid final seen0 st1 fd seen Hrun IH He Hl Hd Hrecv
    |st delivered ts e data sid final seen0 st1 fd seen len fd' st2 Hrun IH He Hl Hd Hrecv Hlen Hz Hcons].
  - split; [by split|]. exists 0. by split_and!.
  - rewrite <- (app_nil_r delivered). eapply flow_inv_step; [exact IH|exact He|exact Hl|exact Hd|exact Hrecv|]. intros Hok _. split_and!; try done.
    change (zlen []) with 0. rewrite Z.add_0_r, u32_small; [done|apply Hok].
  - eapply flow_inv_step; [exact IH|exact He|exact Hl|exact Hd|exact Hrecv|]. intros Hok Hoff. by eapply FlowData_consume_ok.
Qed.

(** C32. In-order delivery: in every run of a flow, whatever the order, overlap
    and repetition of the arriving segments, the bytes handed to the consumer
    are exactly the sender's stream from the first sequence number on, and the
    flow's [end_] is the sequence number of the next byte. *)
Theorem flow_delivers_stream stream st delivered :
  flow_run stream st delivered ->
  exists b0, reads stream b0 delivered /\ 0 <= fs_end st < 2 ^ 32 /\
    (fs_started st = true -> fs_end st = u32 (b0 + zlen delivered)) /\
    (fs_started st = false -> delivered = []).
Proof.
  intros Hrun. destruct (flow_run_inv stream st delivered Hrun) as [[He _] (b0 & ?)]. exists b0. tauto.
Qed.

(** Two segments across the wrap-around of the sequence numbers. *)
Lemma flow_delivers_stream_witness :
  exists b0, reads demo_stream b0 [254; 255; 0; 1] /\ 0 <= 2 < 2 ^ 32 /\
    (true = true -> 2 = u32 (b0 + zlen [254; 255; 0; 1])) /\ (true = false -> [254; 255; 0; 1] = []).
Proof.
  apply (flow_delivers_stream demo_stream (mkFlow 2 true false []) [254; 255; 0; 1]).
  (* a first segment of two bytes, consumed; then two more *)
  apply (run_segment demo_stream (mkFlow 0 true false []) [254; 255] Timestamp_zero 2 [0; 1] 1 false
    Timestamp_zero (mkFlow 0 true false []) (mkData true [0; 1] 1 false false) Timestamp_zero 2
    (mkData false [] 1 false false)); try done.
  - apply (run_segment demo_stream FlowState_init [] Timestamp_zero 0 [254; 255] 1 false
      Timestamp_zero (mkFlow (2 ^ 32 - 2) true false []) (mkData true [254; 255] 1 false false)
      Timestamp_zero 2 (mkData false [] 1 false false)); try done; [apply run_init|].
    intros [|[|]] x Hx; by simplify_eq/=.
  - intros [|[|]] x Hx; by simplify_eq/=.
Defined.

(** ** Keys, sessions and time *)

Lemma bytes_lt_total a b : a = b \/ bytes_lt a b = true \/ bytes_lt b a = true.
Proof.
  revert b. induction a as [|x a IH]; intros [|y b]; simpl; auto.
  destruct (Z.ltb_spec x y); [auto|]. destruct (Z.ltb_spec y x); [auto|].
  replace y with x by lia. destruct (IH b) as [->|[|]]; auto.
Qed.

Lemma bytes_lt_asym a b : bytes_lt a b = true -> bytes_lt b a = false /\ a ≠ b.
Proof.
  revert b. induction a as [|x a IH]; intros [|y b]; simpl; try done.
  destruct (Z.ltb_spec x y), (Z.ltb_spec y x); try done; try lia.
  - intros _. split; [done|]. intros [= ->]. lia.
  - intros [H1 H2]%IH. split; [done|]. congruence.
Qed.

Lemma endpoint_le_cases a b :
  a ≠ b -> endpoint_le a b = negb (endpoint_le b a).
Proof.
  intros Hne. unfold endpoint_le.
  destruct (bytes_lt_total a.1 b.1) as [E|[H|H]].
  - assert (bytes_lt a.1 b.1 = false) as H1.
    { apply not_true_iff_false. intros H. by apply bytes_lt_asym in H as [_ ?]. }
    rewrite E in *. rewrite H1, !bool_decide_true by done. simpl.
    assert (a.2 ≠ b.2) by (intros E2; apply Hne; destruct a, b; simpl in *; congruence). lia.
  - rewrite H. destruct (bytes_lt_asym _ _ H) as [-> Hn]. simpl.
    by rewrite bool_decide_false by congruence.
  - rewrite H. destruct (bytes_lt_asym _ _ H) as [-> Hn]. simpl.
    by rewrite bool_decide_false by congruence.
Qed.

(** Both directions of a connection use one cache entry: the key does not
    depend on which endpoint is the source, the two directions get different
    sides of the entry, and the key's endpoints are in order. *)
Theorem FlowCacheKey_symmetric src dst :
  (FlowCacheKey_make src dst).1 = (FlowCacheKey_make dst src).1 /\
  (src ≠ dst -> (FlowCacheKey_make src dst).2 = negb (FlowCacheKey_make dst src).2) /\
  endpoint_le (FlowCacheKey_make src dst).1.1 (FlowCacheKey_make src dst).1.2 = true.
Proof.
  unfold FlowCacheKey_make. destruct (decide (src = dst)) as [->|Hne].
  - assert (endpoint_le dst dst = true) as E.
    { unfold endpoint_le. rewrite bool_decide_true by done. by rewrite Z.leb_refl, orb_true_r. }
    by rewrite E.
  - pose proof (endpoint_le_cases src dst Hne) as H.
    destruct (endpoint_le src dst) eqn:E1, (endpoint_le dst src) eqn:E2; simpl in *; by split_and!.
Qed.

(** Sessions: every entry has its own id, not above the last one assigned. *)
Definition sessions_ok (fc : FlowCache) : Prop :=
  0 <= fc_assign fc /\
  (forall k en, fc_cache fc !! k = Some en -> 0 < fe_sessionID en <= fc_assign fc) /\
  (forall k1 k2 e1 e2, fc_cache fc !! k1 = Some e1 -> fc_cache fc !! k2 = Some e2 ->
     fe_sessionID e1 = fe_sessionID e2 -> k1 = k2).

Lemma sessions_ok_insert fc key en assign :
  sessions_ok fc ->
  (assign = fc_assign fc /\ (exists en0, fc_cache fc !! key = Some en0 /\
     fe_sessionID en0 = fe_sessionID en)) \/
  (assign = fc_assign fc + 1 /\ fe_sessionID en = assign) ->
  sessions_ok (mkCache (<[key := en]> (fc_cache fc)) assign).
Proof.
  intros (H0 & Hid & Huniq) Hcase. split_and!; simpl.
  - lia.
  - intros k e1 He1. destruct (decide (k = key)) as [->|Hne].
    + rewrite lookup_insert_eq in He1. simplify_eq.
      destruct Hcase as [[-> (en0 & E0 & <-)]|[-> ->]]; [by eapply Hid|lia].
    + rewrite lookup_insert_ne in He1 by done. apply Hid in He1. lia.
  - assert (forall k e1, k ≠ key -> fc_cache fc !! k = Some e1 -> fe_sessionID e1 ≠ fe_sessionID en) as Hfresh.
    { intros k e1 Hne He1 E. destruct Hcase as [[-> (en0 & E0 & E1)]|[-> E1]].
      - apply Hne. eapply Huniq; [done|done|congruence].
      - apply Hid in He1. lia. }
    intros k1 k2 e1 e2 He1 He2 E.
    destruct (decide (k1 = key)) as [->|N1], (decide (k2 = key)) as [->|N2]; [done|..].
    + rewrite lookup_insert_eq in He1. rewrite lookup_insert_ne in He2 by done. simplify_eq.
      by destruct (Hfresh k2 e2 N2 He2).
    + rewrite lookup_insert_ne in He1 by done. rewrite lookup_insert_eq in He2. simplify_eq.
      by destruct (Hfresh k1 e1 N1 He1).
    + rewrite !lookup_insert_ne in * by done. by eapply Huniq.
Qed.

Lemma session_for_cases en assign ts flags :
  0 <= assign < 2 ^ 64 - 1 ->
  let '(en', assign', late) := session_for en assign ts flags in
  (assign' = assign /\ en' = en /\ fe_sessionID en ≠ 0) \/
  (assign' = assign + 1 /\ fe_sessionID en' = assign + 1 /\ late = false /\
   fe_x en' = FlowState_init /\ fe_y en' = FlowState_init).
Proof.
  intros Ha. unfold session_for, assignSessionID. rewrite (u64_small (assign + 1)) by lia.
  rewrite (proj2 (Z.eqb_neq (assign + 1) 0)) by lia.
  destruct (Z.eqb_spec (fe_sessionID en) 0); [by right|].
  split_ifs; by (left + right).
Qed.

(** Session identifiers: a segment either continues the session of its
    connection or opens one with an id that was never used before (until the
    64-bit counter wraps), so that at any time different connections have
    different, non-zero session ids; a new session starts with both directions
    in their initial state. *)
Theorem sessions_distinct fc ts src dst seq data flags fc' fd :
  sessions_ok fc -> fc_assign fc < 2 ^ 64 - 1 ->
  FlowCache_receive fc ts src dst seq data flags = Some (fc', fd) ->
  sessions_ok fc' /\ fc_assign fc <= fc_assign fc' <= fc_assign fc + 1.
Proof.
  intros Hok Hlt. unfold FlowCache_receive.
  destruct (_ && _); [intros [= <- <-]; split; [done|lia]|].
  destruct (_ && _); [intros [= <- <-]; split; [done|lia]|].
  destruct (FlowCacheKey_make src dst) as [key isX].
  set (en0 := default entry_init (fc_cache fc !! key)).
  pose proof (session_for_cases en0 (fc_assign fc) ts flags) as Hs.
  destruct (session_for en0 (fc_assign fc) ts flags) as [[en assign] late].
  specialize (Hs ltac:(destruct Hok; lia)).
  assert (forall en2, fe_sessionID en2 = fe_sessionID en ->
    sessions_ok (mkCache (<[key := en2]> (fc_cache fc)) assign)) as Hput.
  { intros en2 E. apply sessions_ok_insert; [done|]. rewrite E. destruct Hs as [(-> & -> & Hn)|(-> & -> & _)].
    - left. split; [done|]. unfold en0 in *. destruct (fc_cache fc !! key) as [e0|]; [eauto|done].
    - by right. }
  assert (fc_assign fc <= assign <= fc_assign fc + 1) as Hb by lia.
  destruct late; [intros [= <- <-]; split; [by apply Hput|done]|].
  destruct isX; (destruct (FlowState_receive _ _ _ _ _ _ _) as [[[z d] seen]|]; [|done]);
    intros [= <- <-]; (split; [by apply Hput|done]).
Qed.

Definition ep1 : IPv6Endpoint := (replicate 15 0 ++ [1], 6653).
Definition ep2 : IPv6Endpoint := (replicate 15 0 ++ [1], 50000).

Lemma sessions_distinct_witness :
  match FlowCache_receive (mkCache ∅ 0) Timestamp_zero ep1 ep2 100 [] TCP_SYN with
  | Some (fc', _) => sessions_ok fc' /\ 0 <= fc_assign fc' <= 0 + 1
  | None => False
  end.
Proof.
  destruct (FlowCache_receive _ _ _ _ _ _ _) as [[fc' fd]|] eqn:E; [|by vm_compute in E].
  apply (sessions_distinct (mkCache ∅ 0) Timestamp_zero ep1 ep2 100 [] TCP_SYN fc' fd); [|done|done].
  split_and!; [done| |]; intros *; simpl; by rewrite lookup_empty.
Defined.
