(* ===== verification/MessageSource.v ===== *)
(** * Messages from captured packets (src/ofp/demux/messagesource.cpp,
    include/ofp/demux/messagesource.h, include/ofp/pkt.h)

    Each captured frame is parsed down to its TCP segment; the segment goes to
    the flow cache, and the bytes that become available are cut into OpenFlow
    messages for the callback. A pointer into a capture is a distance from its
    first byte, with a length that wraps around as [size_t] does. [None] is an
    access outside the capture or a failing assertion, the flow cache's included. *)

From coqutil Require Import Datatypes.RecordSetters.
From S2P Require Import Prelude.
From S2P Require Import Constants.
From S2P Require Import ProtocolRange.
From S2P Require Import Packet.
From S2P Require Import Addresses.
From S2P Require Import Timestamp.
From S2P Require Import SegmentCache.
From S2P Require Import Flow.
Import DoubleBraceUpdate.

(** ** State *)

(** A message given to the callback. *)
Record Delivered := mkDelivered {
  dm_session : Z; dm_src : IPv6Endpoint; dm_dst : IPv6Endpoint; dm_time : Timestamp;
  dm_bytes : list Z }.

(** [ms_out] is what the callback was given, [ms_files] what was written to the
    files of the output directory. *)
Record MessageSource := mkSource {
  ms_ts : Timestamp; ms_src : IPv6Endpoint; ms_dst : IPv6Endpoint; ms_seq : Z; ms_flags : Z;
  ms_flows : FlowCache; ms_outputDir : bool; ms_maxMissingBytes : Z; ms_skipPayload : bool;
  ms_out : list Delivered; ms_files : list (Z * IPv6Endpoint * IPv6Endpoint * list Z) }.

Definition MessageSource_init (outputDir : bool) (skipPayload : bool) (maxMissingBytes : Z)
    : MessageSource :=
  mkSource Timestamp_zero (replicate 16 0, 0) (replicate 16 0, 0) 0 0 (mkCache ∅ 0) outputDir
    maxMissingBytes skipPayload [] [].

(** ** Cutting the payload into messages *)

Definition deliverMessage (sessionID : Z) (msg : list Z) (st : MessageSource) : option MessageSource :=
  assert! (8 <=? zlen msg);;
  Some (st {{ ms_out := ms_out st ++ [mkDelivered sessionID (ms_src st) (ms_dst st) (ms_ts st) msg] }}).

(** The [while] loop of [submitPayload], on the bytes that remain: what is
    left of them, and the state. *)
Fixpoint payload_loop (fuel : nat) (data : list Z) (sessionID : Z) (st : MessageSource)
    : option (list Z * MessageSource) :=
  match fuel with
  | O => None
  | S fuel' =>
    if zlen data <? 8 then Some (data, st) else
    msgLen ← rd16 data 2;
    if (8 <=? msgLen) && (msgLen <=? zlen data) then
      st ← deliverMessage sessionID (take (Z.to_nat msgLen) data) st;
      payload_loop fuel' (drop (Z.to_nat msgLen) data) sessionID st
    else if msgLen <? 8 then payload_loop fuel' (drop 8 data) sessionID st
    else Some (data, st)
  end.

(** The number of bytes used. *)
Definition submitPayload (data : list Z) (sessionID : Z) (st : MessageSource)
    : option (Z * MessageSource) :=
  if ms_skipPayload st then Some (zlen data, st) else
  '(rest, st) ← payload_loop (S (length data)) data sessionID st;
  assert! (zlen rest <=? zlen data);; Some (zlen data - zlen rest, st).

(** ** TCP *)

Definition outputWrite (src dst : IPv6Endpoint) (fd : FlowData) (n : Z) (st : MessageSource)
    : option MessageSource :=
  assert! ms_outputDir st;;
  if n =? 0 then Some st
  else d ← slice (fd_data fd) 0 n;
       Some (st {{ ms_files := ms_files st ++ [(fd_sessionID fd, src, dst, d)] }}).

(** [flow.consume(n)]: [fd] points to the state of one side of the entry. *)
Definition FlowCache_consume (fc : FlowCache) (src dst : IPv6Endpoint) (fd : FlowData) (n : Z)
    : option FlowCache :=
  let '(key, isX) := FlowCacheKey_make src dst in
  match fc_cache fc !! key with
  | None => if fd_state fd then None else Some fc
  | Some en =>
    '(_, fs) ← FlowData_consume fd (if (isX : bool) then fe_x en else fe_y en) n;
    let en := if (isX : bool)
              then mkEntry (fe_sessionID en) fs (fe_y en) (fe_firstSeen en) (fe_lastSeen en)
              else mkEntry (fe_sessionID en) (fe_x en) fs (fe_firstSeen en) (fe_lastSeen en) in
    Some (mkCache (<[key := en]> (fc_cache fc)) (fc_assign fc))
  end.

(** The part of [submitTCP] after the flow cache has answered. *)
Definition submitFlow (fd : FlowData) (st : MessageSource) : option MessageSource :=
  if 0 <? zlen (fd_data fd) then
    '(n, st) ← submitPayload (fd_data fd) (fd_sessionID fd) st;
    let n := if fd_final fd && negb (n =? zlen (fd_data fd)) then zlen (fd_data fd) else n in
    st ← (if ms_outputDir st then outputWrite (ms_src st) (ms_dst st) fd n st else Some st);
    flows ← FlowCache_consume (ms_flows st) (ms_src st) (ms_dst st) fd n;
    Some (st {{ ms_flows := flows }})
  else Some st.

(** The end of [submitTCP], from [flows_.receive] on, for the endpoints and the time
    that the members hold. *)
Definition submitSegment (seq : Z) (payload : list Z) (flags : Z) (st : MessageSource) : option MessageSource :=
  '(flows, fd) ← FlowCache_receive (ms_flows st) (ms_ts st) (ms_src st) (ms_dst st) seq payload flags;
  submitFlow fd (st {{ ms_flows := flows }}).

(** [Castable::cast] for a pointer with a length. *)
Definition cast_header (size align addr length : Z) : option bool :=
  assert! IsPtrAligned addr align;; Some (size <=? length).

Definition set_addresses (src dst : list Z) (st : MessageSource) : MessageSource :=
  let st := (st {{ ms_src := (src, (ms_src st).2) }}) in (st {{ ms_dst := (dst, (ms_dst st).2) }}).

(** The functions below run on a capture whose first byte is at [addr]. The
    pointer [data] is its distance from there; [length] is a [size_t], which wraps
    around. A read outside the capture, by a pointer and a length that do not fit,
    is [None]. *)
Section Capture.
Context (addr : Z) (capture : list Z).

Definition submitTCP (data length : Z) (st : MessageSource) : option MessageSource :=
  there ← cast_header 20 4 (addr + data) length;
  if negb (there : bool) then Some st else
  flags ← rd16 capture (data + 12);
  let st := (st {{ ms_flags := flags }}) in
  let tcpHdrLen := Z.shiftr flags 12 * 4 in
  if (tcpHdrLen <? 20) || (length <? tcpHdrLen) then Some st else
  srcPort ← rd16 capture data; dstPort ← rd16 capture (data + 2); seq ← rd32 capture (data + 4);
  let st := (st {{ ms_src := ((ms_src st).1, srcPort) }}) in
  let st := (st {{ ms_dst := ((ms_dst st).1, dstPort) }}) in
  let st := (st {{ ms_seq := seq }}) in
  let data := data + tcpHdrLen in
  let length := u64 (length - tcpHdrLen) in
  payload ← slice capture data length;
  submitSegment seq payload (u8 flags) st.

(** [submitUDP] does nothing. *)
Definition submitUDP (data length : Z) (st : MessageSource) : option MessageSource := Some st.

(** ** IP and Ethernet *)

Definition submitProto (proto data length : Z) (st : MessageSource) : option MessageSource :=
  if proto =? PROTOCOL_TCP then submitTCP data length st
  else if proto =? PROTOCOL_UDP then submitUDP data length st
  else Some st.

Definition submitIPv4 (data length : Z) (st : MessageSource) : option MessageSource :=
  there ← cast_header 20 2 (addr + data) length;
  if negb (there : bool) then Some st else
  ver ← rd8 capture data;
  let vers := Z.shiftr ver 4 in
  let ihl := Z.land ver 0x0F in
  if negb (vers =? 4) then Some st
  else if ihl <? 5 then Some st else
  len ← rd16 capture (data + 2);
  let length := if len <? length then len else length in
  let hdrLen := ihl * 4 in
  if length <? hdrLen then Some st else
  frag ← rd16 capture (data + 6);
  if negb (Z.land frag (Z.lor 0x2000 0x1FFF) =? 0) then Some st else
  src ← slice capture (data + 12) 4; dst ← slice capture (data + 16) 4;
  let st := set_addresses (IPv6Address_of_v4 src) (IPv6Address_of_v4 dst) st in
  assert! (hdrLen <=? length);;
  proto ← rd8 capture (data + 9);
  submitProto proto (data + hdrLen) (u64 (length - hdrLen)) st.

Definition submitIPv6 (data length : Z) (st : MessageSource) : option MessageSource :=
  there ← cast_header 40 4 (addr + data) length;
  if negb (there : bool) then Some st else
  verClassLabel ← rd32 capture data;
  if negb (u8 (Z.shiftr verClassLabel 28) =? 6) then Some st else
  len ← rd16 capture (data + 4);
  src ← slice capture (data + 8) 16; dst ← slice capture (data + 24) 16;
  let st := set_addresses src dst st in
  let length := u64 (length - 40) in
  let length := if len <? length then len else length in
  proto ← rd8 capture (data + 6);
  submitProto proto (data + 40) length st.

Definition submitType (ethType data length : Z) (st : MessageSource) : option MessageSource :=
  if ethType =? DATALINK_IPV4 then submitIPv4 data length st
  else if ethType =? DATALINK_IPV6 then submitIPv6 data length st
  else Some st.

Definition submitEthernet (ts : Timestamp) (st : MessageSource) : option MessageSource :=
  let data := 0 in
  let length := zlen capture in
  let st := (st {{ ms_ts := ts }}) in
  there ← cast_header 14 2 (addr + data) length;
  if negb (there : bool) then Some st else
  ethType ← rd16 capture (data + 12);
  let data := data + 14 in
  let length := u64 (length - 14) in
  if ethType =? DATALINK_8021Q then
    vlan ← cast_header 4 2 (addr + data) length;
    if negb (vlan : bool) then Some st else
    ethType ← rd16 capture (data + 2);
    submitType ethType (data + 4) (u64 (length - 4)) st
  else submitType ethType data length st.

Definition submitIP (ts : Timestamp) (st : MessageSource) : option MessageSource :=
  let data := 0 in
  let length := zlen capture in
  let st := (st {{ ms_ts := ts }}) in
  if 0 <? length then
    b ← rd8 capture data;
    let vers := Z.shiftr b 4 in
    if vers =? 4 then submitIPv4 data length st
    else if vers =? 6 then submitIPv6 data length st
    else Some st
  else Some st.
End Capture.

(** [finish]: what is left in the flows goes to the files, with small gaps
    filled; [fuel] bounds the gaps of a flow. The callback is given both
    directions of every connection. *)
Definition finish_writes (key : FlowCacheKey) (fds : FlowData * FlowData) (st : MessageSource)
    : option MessageSource :=
  st ← outputWrite key.1 key.2 fds.1 (zlen (fd_data fds.1)) st;
  outputWrite key.2 key.1 fds.2 (zlen (fd_data fds.2)) st.

Definition MessageSource_finish (fuel : nat) (st : MessageSource) : option MessageSource :=
  st ← (if ms_outputDir st then
          entries ← FlowCache_finish fuel (ms_flows st) (ms_maxMissingBytes st);
          foldl (fun acc '(key, (_, fds)) => st ← acc; finish_writes key fds st) (Some st) entries
        else Some st);
  Some (st {{ ms_flows := FlowCache_clear (ms_flows st) }}).

(** ** Framing: the messages in a byte string, and the bytes left *)

Fixpoint frames_loop (fuel : nat) (data : list Z) : list (list Z) * list Z :=
  match fuel with
  | O => ([], data)
  | S fuel' =>
    if zlen data <? 8 then ([], data)
    else
      let msgLen := be (take 2 (drop 2 data)) in
      if (8 <=? msgLen) && (msgLen <=? zlen data) then
        let '(ms, rest) := frames_loop fuel' (drop (Z.to_nat msgLen) data) in
        (take (Z.to_nat msgLen) data :: ms, rest)
      else if msgLen <? 8 then frames_loop fuel' (drop 8 data)
      else ([], data)
  end.
Definition frames (data : list Z) : list (list Z) * list Z := frames_loop (S (length data)) data.

(** One round of the loop. *)
Definition frames_body (rec : list Z -> list (list Z) * list Z) (data : list Z) : list (list Z) * list Z :=
  if zlen data <? 8 then ([], data)
  else
    let msgLen := be (take 2 (drop 2 data)) in
    if (8 <=? msgLen) && (msgLen <=? zlen data) then
      let '(ms, rest) := rec (drop (Z.to_nat msgLen) data) in
      (take (Z.to_nat msgLen) data :: ms, rest)
    else if msgLen <? 8 then rec (drop 8 data)
    else ([], data).

(** Every round makes the string shorter. *)
Lemma frames_body_ext f g data :
  (forall d, (length d < length data)%nat -> f d = g d) -> frames_body f data = frames_body g data.
Proof.
  intros H. unfold frames_body. destruct (Z.ltb_spec (zlen data) 8); [done|]. cbv zeta.
  set (n := be _). destruct ((8 <=? n) && (n <=? zlen data)) eqn:E.
  - rewrite H by (rewrite length_drop; unfold zlen in *; lia). done.
  - rewrite H by (rewrite length_drop; unfold zlen in *; lia). done.
Qed.

Lemma frames_loop_fuel fuel data : (length data < fuel)%nat -> frames_loop fuel data = frames data.
Proof.
  revert fuel. induction data as [data IH] using (induction_ltof1 _ length). unfold ltof in IH.
  intros [|fuel] Hf; [lia|]. change (frames_body (frames_loop fuel) data = frames_body (frames_loop (length data)) data).
  apply frames_body_ext. intros d Hd. rewrite !IH by lia. done.
Qed.

Lemma frames_eq data : frames data = frames_body frames data.
Proof.
  change (frames_body (frames_loop (length data)) data = frames_body frames data).
  apply frames_body_ext. intros d Hd. by apply frames_loop_fuel.
Qed.

(** Induction over the rounds of the loop. *)
Lemma frames_ind (P : list Z -> Prop) :
  (forall data, zlen data < 8 -> frames data = ([], data) -> P data) ->
  (forall data n, 8 <= n <= zlen data -> 8 <= zlen data -> be (take 2 (drop 2 data)) = n ->
     frames data = (take (Z.to_nat n) data :: (frames (drop (Z.to_nat n) data)).1,
                    (frames (drop (Z.to_nat n) data)).2) ->
     P (drop (Z.to_nat n) data) -> P data) ->
  (forall data, 8 <= zlen data -> be (take 2 (drop 2 data)) < 8 -> frames data = frames (drop 8 data) ->
     P (drop 8 data) -> P data) ->
  (forall data, 8 <= zlen data -> zlen data < be (take 2 (drop 2 data)) -> frames data = ([], data) ->
     P data) ->
  forall data, P data.
Proof.
  intros H1 H2 H3 H4 data. induction data as [data IH] using (induction_ltof1 _ length). unfold ltof in IH.
  pose proof (frames_eq data) as E. unfold frames_body in E.
  destruct (Z.ltb_spec (zlen data) 8) as [|H8]; [by apply H1|]. cbv zeta in E.
  set (n := be _) in *. destruct ((8 <=? n) && (n <=? zlen data)) eqn:En.
  - apply (H2 data n); [lia|done|done| |apply IH; rewrite length_drop; unfold zlen in *; lia].
    rewrite E. by destruct (frames (drop (Z.to_nat n) data)).
  - destruct (Z.ltb_spec n 8).
    + apply H3; [done|done|done|apply IH; rewrite length_drop; unfold zlen in *; lia].
    + apply H4; [done|fold n; lia|done].
Qed.

(** The loop delivers the frames in order. *)
Definition delivered_as (sessionID : Z) (st : MessageSource) (msg : list Z) : Delivered :=
  mkDelivered sessionID (ms_src st) (ms_dst st) (ms_ts st) msg.

Lemma rd16_2 data : 8 <= zlen data -> rd16 data 2 = Some (be (take 2 (drop 2 data))).
Proof. intros. unfold rd_be. by rewrite slice_some by lia. Qed.

Lemma payload_loop_frames fuel data sid st :
  (length data < fuel)%nat ->
  payload_loop fuel data sid st =
  Some ((frames data).2, st {{ ms_out := ms_out st ++ (delivered_as sid st <$> (frames data).1) }}).
Proof.
  revert fuel st. induction data as [data H8 E|data n Hn H8 En E IH|data H8 En E IH|data H8 En E] using frames_ind;
    intros [|fuel] st Hf; try lia; cbn [payload_loop]; rewrite E.
  - rewrite (proj2 (Z.ltb_lt _ _)) by done. simpl. rewrite app_nil_r. by destruct st.
  - rewrite (proj2 (Z.ltb_ge (zlen data) 8)), rd16_2, En by lia. cbn [mbind option_bind].
    rewrite !(proj2 (Z.leb_le _ _)) by lia. cbn [andb]. unfold deliverMessage.
    rewrite zlen_take, (proj2 (Z.leb_le _ _)) by lia. cbn [mbind option_bind].
    rewrite IH by (rewrite length_drop; unfold zlen in *; lia). destruct st. cbn.
    by rewrite <- app_assoc.
  - rewrite (proj2 (Z.ltb_ge (zlen data) 8)), rd16_2 by lia. cbn [mbind option_bind].
    rewrite (proj2 (Z.leb_gt _ _)), (proj2 (Z.ltb_lt _ _)) by lia. cbn [andb].
    by rewrite IH by (rewrite length_drop; unfold zlen in *; lia).
  - rewrite (proj2 (Z.ltb_ge (zlen data) 8)), rd16_2 by lia. cbn [mbind option_bind].
    rewrite (proj2 (Z.leb_gt _ (zlen data))), andb_false_r, (proj2 (Z.ltb_ge _ _)) by lia.
    simpl. rewrite app_nil_r. by destruct st.
Qed.

(** A whole OpenFlow message: its length field is its size. *)
Definition whole_message (m : list Z) : Prop := 8 <= zlen m /\ be (take 2 (drop 2 m)) = zlen m.

Lemma length_field_take (l : list Z) n : (4 <= n)%nat -> take 2 (drop 2 (take n l)) = take 2 (drop 2 l).
Proof.
  intros Hn. do 4 (destruct n as [|n]; [lia|]). by do 4 (destruct l as [|? l]; [done|]).
Qed.

Lemma length_field_app (l k : list Z) : 4 <= zlen l -> take 2 (drop 2 (l ++ k)) = take 2 (drop 2 l).
Proof.
  intros Hl. unfold zlen in Hl. by do 4 (destruct l as [|? l]; [simpl in Hl; lia|]).
Qed.


Lemma frames_cons m data : whole_message m -> frames (m ++ data) = (m :: (frames data).1, (frames data).2).
Proof.
  intros [H8 Hm]. pose proof (zlen_nonneg data). rewrite frames_eq. unfold frames_body.
  rewrite zlen_app, (proj2 (Z.ltb_ge _ _)) by lia. rewrite length_field_app, Hm by lia. cbv zeta.
  rewrite !(proj2 (Z.leb_le _ _)) by lia. cbn [andb].
  rewrite take_app_length', drop_app_length' by (unfold zlen; lia). by destruct (frames data).
Qed.

Lemma frames_skip h data : zlen h = 8 -> be (take 2 (drop 2 h)) < 8 -> frames (h ++ data) = frames data.
Proof.
  intros H8 Hm. pose proof (zlen_nonneg data). rewrite frames_eq. unfold frames_body.
  rewrite zlen_app, (proj2 (Z.ltb_ge _ _)) by lia. rewrite length_field_app by lia. cbv zeta.
  rewrite (proj2 (Z.leb_gt _ _)), (proj2 (Z.ltb_lt _ _)) by lia. cbn [andb].
  rewrite drop_app_length' by (unfold zlen in H8; lia). done.
Qed.

(** The bytes used contain the messages and leave nothing. *)
Lemma frames_used data : exists used,
  data = used ++ (frames data).2 /\ frames used = ((frames data).1, []).
Proof.
  induction data as [data H8 E|data n Hn H8 En E (u & Hu & IH)|data H8 En E (u & Hu & IH)|data H8 En E]
    using frames_ind; rewrite E; [by exists []| | |by exists []].
  - exists (take (Z.to_nat n) data ++ u). cbn [fst snd]. rewrite <- app_assoc, <- Hu, take_drop.
    split; [done|]. rewrite frames_cons, IH; [done|].
    split; [rewrite zlen_take; lia|]. rewrite length_field_take, zlen_take, En by lia. lia.
  - exists (take 8 data ++ u). rewrite <- app_assoc, <- Hu, take_drop. split; [done|].
    rewrite frames_skip, IH; [done|rewrite zlen_take; lia|]. by rewrite length_field_take by lia.
Qed.

Lemma frames_suffix data : exists used, data = used ++ (frames data).2.
Proof. destruct (frames_used data) as (u & Hu & _). by exists u. Qed.


Lemma frames_rest data : bytes_ok data -> zlen (frames data).2 < 65535.
Proof.
  induction data as [data H8 E|data n Hn H8 En E IH|data H8 En E IH|data H8 En E] using frames_ind; intros Hb;
    rewrite E; cbn [snd]; [lia| | |].
  - apply IH. by apply Forall_drop.
  - apply IH. by apply Forall_drop.
  - assert (bytes_ok (take 2 (drop 2 data))) as Hb2 by (by apply Forall_take, Forall_drop).
    apply be_range in Hb2. rewrite zlen_take, zlen_drop in Hb2.
    replace (Z.min (Z.of_nat 2) (Z.max 0 (zlen data - Z.of_nat 2))) with 2 in Hb2 by lia. lia.
Qed.

Lemma frames_chunks a b :
  frames (a ++ b) =
  let '(m1, r1) := frames a in let '(m2, r2) := frames (r1 ++ b) in (m1 ++ m2, r2).
Proof.
  pose proof (zlen_nonneg b).
  induction a as [data H8 E|data n Hn H8 En E IH|data H8 En E IH|data H8 En E] using frames_ind; rewrite E.
  - by destruct (frames (data ++ b)).
  - rewrite frames_eq. unfold frames_body. rewrite zlen_app, (proj2 (Z.ltb_ge _ _)) by lia.
    rewrite length_field_app, En by lia. cbv zeta. rewrite !(proj2 (Z.leb_le _ _)) by lia. cbn [andb].
    rewrite take_app_le, drop_app_le, IH by (unfold zlen in *; lia).
    destruct (frames (drop (Z.to_nat n) data)) as [m1 r1]. cbn [fst snd]. by destruct (frames (r1 ++ b)).
  - rewrite frames_eq. unfold frames_body. rewrite zlen_app, (proj2 (Z.ltb_ge _ _)) by lia.
    rewrite length_field_app by lia. cbv zeta. rewrite (proj2 (Z.leb_gt _ _)), (proj2 (Z.ltb_lt _ _)) by lia. cbn [andb].
    rewrite drop_app_le, IH by (unfold zlen in *; lia). done.
  - by destruct (frames (data ++ b)).
Qed.

Lemma frames_messages msgs tail :
  Forall whole_message msgs ->
  frames (mjoin msgs ++ tail) = (msgs ++ (frames tail).1, (frames tail).2).
Proof.
  induction 1 as [|m msgs Hm _ IH]; [cbn [mjoin list_join app]; by destruct (frames tail)|].
  change (mjoin (m :: msgs)) with (m ++ mjoin msgs). rewrite <- app_assoc.
  rewrite frames_cons by done. by rewrite IH.
Qed.

Lemma submitPayload_frames data sid st :
  ms_skipPayload st = false ->
  submitPayload data sid st =
  Some (zlen data - zlen (frames data).2,
        st {{ ms_out := ms_out st ++ (delivered_as sid st <$> (frames data).1) }}).
Proof.
  intros Hs. unfold submitPayload. rewrite Hs, payload_loop_frames by lia. cbn [mbind option_bind].
  destruct (frames_suffix data) as [u Hu]. rewrite (proj2 (Z.leb_le _ _)); [done|].
  rewrite Hu at 2. rewrite zlen_app. pose proof (zlen_nonneg u). lia.
Qed.

(** [submitPayload] never fails and uses a prefix of the data. Of a string
    of whole OpenFlow messages followed by an unfinished one it delivers exactly
    those messages, in order. Cutting the stream into pieces, with what
    was left of one piece put before the next, delivers the same messages, and
    what is left is always shorter than the longest message. *)
Theorem submitPayload_spec data more sid st :
  ms_skipPayload st = false -> bytes_ok data ->
  (exists n st', submitPayload data sid st = Some (n, st') /\ 0 <= n <= zlen data /\
     zlen data - n < 65535 /\
     ms_out st' = ms_out st ++ (delivered_as sid st <$> (frames data).1) /\
     submitPayload (data ++ more) sid st =
       ('(k, st'') ← submitPayload (drop (Z.to_nat n) data ++ more) sid st'; Some (n + k, st''))) /\
  (forall msgs tail, data = mjoin msgs ++ tail -> Forall whole_message msgs -> frames tail = ([], tail) ->
     frames data = (msgs, tail)).
Proof.
  intros Hs Hb. split.
  - rewrite submitPayload_frames by done. do 2 eexists. split; [reflexivity|].
    destruct (frames_suffix data) as [u Hu]. pose proof (frames_rest data Hb) as Hr.
    assert (zlen data = zlen u + zlen (frames data).2) as Hz by (rewrite Hu at 1; apply zlen_app).
    pose proof (zlen_nonneg u). pose proof (zlen_nonneg (frames data).2).
    split_and!; [lia|lia|lia|done|]. rewrite Hz. replace (zlen u + _ - _) with (zlen u) by lia.
    assert (drop (Z.to_nat (zlen u)) data = (frames data).2) as ->.
    { rewrite Hu at 1. apply drop_app_length'. unfold zlen. lia. }
    rewrite !submitPayload_frames by done. cbn [mbind option_bind]. rewrite frames_chunks.
    destruct (frames data) as [m1 r1]. cbn [fst snd] in *. destruct (frames (r1 ++ more)) as [m2 r2]. cbn [fst snd].
    rewrite fmap_app, !zlen_app, Hz. f_equal. f_equal; [lia|]. destruct st. cbn. by rewrite app_assoc.
  - intros msgs tail -> Hw Ht. rewrite frames_messages, Ht by done. by rewrite app_nil_r.
Qed.

Definition hello_msg : list Z := [4; 0; 0; 8; 0; 0; 0; 1].

Lemma submitPayload_witness :
  let data := hello_msg ++ hello_msg ++ [4; 10; 0] in
  (exists n st', submitPayload data 7 (MessageSource_init false false 0) = Some (n, st') /\ 0 <= n <= zlen data /\
     zlen data - n < 65535 /\
     ms_out st' = ms_out (MessageSource_init false false 0) ++
       (delivered_as 7 (MessageSource_init false false 0) <$> (frames data).1) /\
     submitPayload (data ++ [9]) 7 (MessageSource_init false false 0) =
       ('(k, st'') ← submitPayload (drop (Z.to_nat n) data ++ [9]) 7 st'; Some (n + k, st''))) /\
  (forall msgs tail, data = mjoin msgs ++ tail -> Forall whole_message msgs -> frames tail = ([], tail) ->
     frames data = (msgs, tail)).
Proof.
  apply (submitPayload_spec (hello_msg ++ hello_msg ++ [4; 10; 0]) [9] 7 (MessageSource_init false false 0)).
  - done.
  - unfold hello_msg. bytes.
Defined.

(** ** One connection: the messages of the sender's stream *)





(** ** Segments and the cache of connections *)








(** ** Runs over a capture *)

(** What parsing a frame leaves alone: all but the endpoints, the time and the fields
    of the segment. *)
Definition same_source (st st' : MessageSource) : Prop :=
  ms_flows st' = ms_flows st /\ ms_out st' = ms_out st /\ ms_files st' = ms_files st /\
  ms_skipPayload st' = ms_skipPayload st /\ ms_outputDir st' = ms_outputDir st.


Section Stream.
Context (stream : Z -> Z) (src dst : IPv6Endpoint) (sid : Z).








Let key : FlowCacheKey := (FlowCacheKey_make src dst).1.
Let isX : bool := (FlowCacheKey_make src dst).2.







End Stream.








(** A HELLO message in one segment of a new connection. *)
Definition hello_segment : list Z :=
  be_bytes 2 40000 ++ be_bytes 2 6653 ++ be_bytes 4 100 ++ be_bytes 4 0 ++ be_bytes 2 0x5018 ++
  be_bytes 2 0 ++ be_bytes 2 0 ++ be_bytes 2 0 ++ hello_msg.
Definition hello_source : MessageSource := MessageSource_init false false 0.

(** ** Parsing stays inside the capture *)

Lemma even_address p : p mod 4 = 0 \/ p mod 4 = 2 -> p mod 2 = 0.
Proof. intros. Z.div_mod_to_equations. lia. Qed.

Lemma cast4 size addr length : addr mod 4 = 0 -> cast_header size 4 addr length = Some (size <=? length).
Proof.
  intros E. unfold cast_header. change (IsPtrAligned addr 4) with (IsPtrAligned addr (2 ^ 2)).
  rewrite IsPtrAligned_pow2 by done. change (2 ^ 2) with 4. by rewrite E.
Qed.

Lemma cast2 size addr length : addr mod 2 = 0 -> cast_header size 2 addr length = Some (size <=? length).
Proof.
  intros E. unfold cast_header. change (IsPtrAligned addr 2) with (IsPtrAligned addr (2 ^ 1)).
  rewrite IsPtrAligned_pow2 by done. change (2 ^ 1) with 2. by rewrite E.
Qed.

(** The TCP segment whose header is at [p] of the capture: its ports, sequence number
    and flags are those of the header, and its [n] bytes are the ones behind a header
    of the size that the header tells, all within the capture. *)
Record segment_at (capture : list Z) (p n : Z) (st : MessageSource) (seq : Z) (payload : list Z) (flags : Z) : Prop := mkSegmentAt {
  sa_start : 0 <= p;
  sa_header : 20 <= Z.shiftr (ms_flags st) 12 * 4;
  sa_size : 0 <= n;
  sa_inside : p + Z.shiftr (ms_flags st) 12 * 4 + n <= zlen capture;
  sa_src : rd16 capture p = Some (ms_src st).2;
  sa_dst : rd16 capture (p + 2) = Some (ms_dst st).2;
  sa_seq : rd32 capture (p + 4) = Some seq;
  sa_flags : rd16 capture (p + 12) = Some (ms_flags st) /\ flags = u8 (ms_flags st);
  sa_payload : slice capture (p + Z.shiftr (ms_flags st) 12 * 4) n = Some payload }.

(** The outcome of parsing a part of the capture that ends at [bound]: the frame is
    dropped, or its segment, which ends there at the latest, goes to the flow cache. *)
Definition parsed (capture : list Z) (bound : Z) (st : MessageSource) (r : option MessageSource) : Prop :=
  (exists st', r = Some st' /\ same_source st st') \/
  (exists p n st1 seq payload flags,
     r = submitSegment seq payload flags st1 /\ same_source st st1 /\ ms_ts st1 = ms_ts st /\
     segment_at capture p n st1 seq payload flags /\ p + Z.shiftr (ms_flags st1) 12 * 4 + n <= bound).

Lemma parsed_dropped capture bound st st' : same_source st st' -> parsed capture bound st (Some st').
Proof. intros. left. eauto. Qed.

Lemma parsed_weaken capture bound bound' st st0 r :
  parsed capture bound' st0 r -> bound' <= bound -> same_source st st0 -> ms_ts st0 = ms_ts st -> parsed capture bound st r.
Proof.
  intros [(st' & -> & E)|(p & n & st1 & seq & pl & fl & -> & E & Et & Hs & Hb)] Hle (E1 & E2 & E3 & E4 & E5) Et0.
  - left. exists st'. split; [done|]. destruct E as (F1 & F2 & F3 & F4 & F5). split_and!; congruence.
  - right. exists p, n, st1, seq, pl, fl. destruct E as (F1 & F2 & F3 & F4 & F5).
    split; [done|]. split; [split_and!; congruence|]. split; [congruence|]. split; [done|lia].
Qed.

Section Inside.
Context (addr : Z) (capture : list Z) (Hbytes : bytes_ok capture) (Hsize : zlen capture < 2 ^ 64).

(** A pointer and a length that fit. *)
Definition inside (data length : Z) : Prop := 0 <= data /\ 0 <= length /\ data + length <= zlen capture.

Lemma submitTCP_parsed data length st : inside data length -> (addr + data) mod 4 = 0 ->
  parsed capture (data + length) st (submitTCP addr capture data length st).
Proof.
  intros (Hd & Hl & Hin) Ha. unfold submitTCP. rewrite cast4 by done. cbn [mbind option_bind].
  destruct (Z.leb_spec 20 length); cbn [negb]; [|by apply parsed_dropped].
  destruct (rd_be_some 2 capture (data + 12)) as [fl Efl]; [lia..|]. rewrite Efl. cbn [mbind option_bind].
  destruct (Z.ltb_spec (Z.shiftr fl 12 * 4) 20), (Z.ltb_spec length (Z.shiftr fl 12 * 4)); cbn [orb]; try (by apply parsed_dropped).
  destruct (rd_be_some 2 capture data) as [sp Esp]; [lia..|]. destruct (rd_be_some 2 capture (data + 2)) as [dp Edp]; [lia..|].
  destruct (rd_be_some 4 capture (data + 4)) as [sq Esq]; [lia..|]. rewrite Esp, Edp, Esq. cbn [mbind option_bind].
  rewrite u64_small by lia.
  destruct (slice capture (data + Z.shiftr fl 12 * 4) (length - Z.shiftr fl 12 * 4)) as [pl|] eqn:Epl; [|rewrite slice_some in Epl by lia; done].
  cbn [mbind option_bind]. right. destruct st as [ts src dst seq flags flows dir mm skip out files]. cbn. unfold constant.
  exists data, (length - Z.shiftr fl 12 * 4), (mkSource ts (src.1, sp) (dst.1, dp) sq fl flows dir mm skip out files), sq, pl, (u8 fl).
  split; [done|]. split; [by split_and!|]. split; [done|]. split; [split; cbn; try done; lia|cbn; lia].
Qed.

Lemma submitProto_parsed proto data length st : inside data length -> (addr + data) mod 4 = 0 ->
  parsed capture (data + length) st (submitProto addr capture proto data length st).
Proof.
  intros. unfold submitProto, submitUDP. split_ifs; [by apply submitTCP_parsed|by apply parsed_dropped..].
Qed.

Lemma submitIPv4_parsed data length st : inside data length -> (addr + data) mod 4 = 0 ->
  parsed capture (data + length) st (submitIPv4 addr capture data length st).
Proof.
  intros (Hd & Hl & Hin) Ha. unfold submitIPv4. rewrite cast2 by (apply even_address; lia).
  cbn [mbind option_bind]. destruct (Z.leb_spec 20 length); cbn [negb]; [|by apply parsed_dropped].
  destruct (rd8_some capture data) as [ver ->]; [lia|]. cbn [mbind option_bind].
  destruct (negb _); [by apply parsed_dropped|].
  destruct (Z.ltb_spec (Z.land ver 15) 5) as [|Hihl]; [by apply parsed_dropped|].
  destruct (rd_be_some 2 capture (data + 2)) as [len ->]; [lia..|]. cbn [mbind option_bind].
  set (len' := if len <? length then len else length). assert (len' <= length) as Hlen' by (unfold len'; destruct (Z.ltb_spec len length); lia).
  destruct (Z.ltb_spec len' (Z.land ver 15 * 4)) as [|Hhdr]; [by apply parsed_dropped|].
  destruct (rd_be_some 2 capture (data + 6)) as [frag ->]; [lia..|]. cbn [mbind option_bind].
  destruct (negb _); [by apply parsed_dropped|].
  rewrite !slice_some by lia. cbn [mbind option_bind]. rewrite (proj2 (Z.leb_le _ _) Hhdr).
  destruct (rd8_some capture (data + 9)) as [proto ->]; [lia|]. cbn [mbind option_bind].
  rewrite u64_small by lia. eapply parsed_weaken; [apply submitProto_parsed| |done..].
  - split_and!; lia.
  - rewrite Z.add_assoc, Z.add_mod, Z.mod_mul, Ha by lia. done.
  - lia.
Qed.

Lemma submitIPv6_parsed data length st : inside data length -> (addr + data) mod 4 = 0 ->
  parsed capture (data + length) st (submitIPv6 addr capture data length st).
Proof.
  intros (Hd & Hl & Hin) Ha. unfold submitIPv6. rewrite cast4 by done. cbn [mbind option_bind].
  destruct (Z.leb_spec 40 length); cbn [negb]; [|by apply parsed_dropped].
  destruct (rd_be_some 4 capture data) as [vcl ->]; [lia..|]. cbn [mbind option_bind].
  destruct (negb _); [by apply parsed_dropped|]. destruct (rd_be_some 2 capture (data + 4)) as [len El]; [lia..|].
  apply rd_be_range in El as Hlen; [|done].
  rewrite El, !slice_some by lia. cbn [mbind option_bind]. destruct (rd8_some capture (data + 6)) as [proto ->]; [lia|]. cbn [mbind option_bind].
  rewrite u64_small by lia. set (len' := if len <? length - 40 then len else length - 40).
  assert (0 <= len' <= length - 40) as Hlen' by (unfold len'; destruct (Z.ltb_spec len (length - 40)); lia).
  eapply parsed_weaken; [apply submitProto_parsed| |done..].
  - split_and!; lia.
  - rewrite Z.add_assoc, Z.add_mod, Ha by lia. done.
  - lia.
Qed.

Lemma submitType_parsed t data length st : inside data length -> (addr + data) mod 4 = 0 ->
  parsed capture (data + length) st (submitType addr capture t data length st).
Proof.
  intros. unfold submitType. split_ifs; [by apply submitIPv4_parsed|by apply submitIPv6_parsed|by apply parsed_dropped].
Qed.
End Inside.

(** C37. Parsing a captured frame never reads outside the capture nor breaks an
    alignment assertion, for Ethernet captures that lie two bytes past a multiple of
    four, as the packet source places them, and for IP captures on a multiple of
    four: the frame is either dropped without any effect on the flows, the files or
    the output, or handed to the flow cache as one segment, whose ports, sequence
    number, flags and bytes are those of a TCP header and of what follows it inside
    the capture. Lengths are 64-bit and would wrap around; they never do. *)
Theorem submit_inside_capture ts addr capture st : bytes_ok capture -> zlen capture < 2 ^ 64 ->
  (addr mod 4 = 2 -> parsed capture (zlen capture) (st {{ ms_ts := ts }}) (submitEthernet addr capture ts st)) /\
  (addr mod 4 = 0 -> parsed capture (zlen capture) (st {{ ms_ts := ts }}) (submitIP addr capture ts st)).
Proof.
  intros Hb Hz. split; intros Ha.
  - unfold submitEthernet. cbv zeta. rewrite (cast2 14 (addr + 0)) by (apply even_address; rewrite Z.add_0_r; lia). cbn [mbind option_bind].
    destruct (Z.leb_spec 14 (zlen capture)); cbn [negb]; [|by apply parsed_dropped].
    destruct (rd_be_some 2 capture (0 + 12)) as [t ->]; try lia. cbn [mbind option_bind]. rewrite (u64_small (zlen capture - 14)) by lia.
    assert ((addr + (0 + 14)) mod 4 = 0) as H14 by (Z.div_mod_to_equations; lia).
    destruct (t =? _).
    + rewrite cast2 by (apply even_address; lia). cbn [mbind option_bind].
      destruct (Z.leb_spec 4 (zlen capture - 14)); cbn [negb]; [|by apply parsed_dropped].
      destruct (rd_be_some 2 capture (0 + 14 + 2)) as [t2 ->]; try lia. cbn [mbind option_bind]. rewrite u64_small by lia.
      eapply parsed_weaken; [apply submitType_parsed| |done..]; try done; [split_and!; lia|Z.div_mod_to_equations; lia|lia].
    + eapply parsed_weaken; [apply submitType_parsed| |done..]; try done; [split_and!; lia|lia].
  - unfold submitIP. cbv zeta. destruct (Z.ltb_spec 0 (zlen capture)); [|by apply parsed_dropped].
    destruct (rd8_some capture 0) as [b ->]; [lia|]. cbn [mbind option_bind].
    assert (inside capture 0 (zlen capture)) as Hin by (split_and!; lia). assert ((addr + 0) mod 4 = 0) as Ha0 by (by rewrite Z.add_0_r).
    change (zlen capture) with (0 + zlen capture) at 1.
    split_ifs; [by apply submitIPv4_parsed|by apply submitIPv6_parsed|by apply parsed_dropped].
Qed.

(** ** Well-formed frames *)

(** The 20-byte header of an IPv4 packet that carries a TCP segment: [optLen]
    bytes of options, [len] bytes in all, [f1] and [f2] the fragment field. *)
Definition ipv4_header (optLen len tos id1 id2 f1 f2 ttl ck1 ck2 : Z) (src dst : list Z) : list Z :=
  [0x40 + (5 + optLen / 4); tos] ++ be_bytes 2 len ++ [id1; id2; f1; f2; ttl; PROTOCOL_TCP; ck1; ck2] ++
  src ++ dst.

Lemma shiftr_64 k : 0 <= k < 16 -> Z.shiftr (64 + k) 4 = 4 /\ Z.land (64 + k) 15 = k.
Proof.
  intros Hk. rewrite Z.shiftr_div_pow2, (land_ones_mod _ 4) by done. change (2 ^ 4) with 16.
  split; Z.div_mod_to_equations; lia.
Qed.

(** The fields that [submitIPv4] reads. *)
Lemma ipv4_header_fields optLen len tos id1 id2 f1 f2 ttl ck1 ck2 src dst :
  length src = 4%nat -> length dst = 4%nat ->
  let h := ipv4_header optLen len tos id1 id2 f1 f2 ttl ck1 ck2 src dst in
  zlen h = 20 /\ rd8 h 0 = Some (64 + (5 + optLen / 4)) /\ rd8 h 9 = Some PROTOCOL_TCP /\
  rd16 h 2 = Some (u16 len) /\ rd16 h 6 = Some (be [f1; f2]) /\
  slice h 12 4 = Some src /\ slice h 16 4 = Some dst.
Proof.
  intros Hs Hd h. pose proof (be_be_bytes 2 len) as Hb.
  destruct (be_bytes2 len) as (x & y & Exy & _). unfold h, ipv4_header. rewrite Exy in Hb |- *.
  do 4 (destruct src as [|? src]; [done|]). destruct src; [|done].
  do 4 (destruct dst as [|? dst]; [done|]). destruct dst; [|done].
  cbn [app]. split_and!; try done. change (Some (be [x; y]) = Some (u16 len)). by rewrite Hb.
Qed.

(** Reading behind a prefix. *)
Lemma slice_app_at pre m off len : 0 <= off -> slice (pre ++ m) (zlen pre + off) len = slice m off len.
Proof.
  intros Ho. pose proof (zlen_nonneg pre). unfold slice. rewrite zlen_app.
  destruct (Z.leb_spec 0 len), (Z.leb_spec 0 (zlen pre + off)), (Z.leb_spec 0 off); try lia; cbn [andb]; try done.
  destruct (Z.leb_spec (zlen pre + off + len) (zlen pre + zlen m)), (Z.leb_spec (off + len) (zlen m)); try lia; [|done].
  do 2 f_equal. unfold zlen. rewrite Z2Nat.inj_add, Nat2Z.id by lia. by rewrite <- drop_drop, drop_app_length.
Qed.

Section Frame.
Context (opts seg pad src dst : list Z) (tos id1 id2 f1 f2 ttl ck1 ck2 : Z).
Context (Hs : length src = 4%nat) (Hd : length dst = 4%nat) (Ho1 : zlen opts mod 4 = 0) (Ho2 : zlen opts <= 40).
Context (Hlen : 20 + zlen opts + zlen seg < 2 ^ 16) (Hf1 : f1 = 0 \/ f1 = 0x40) (Hf2 : f2 = 0).
Let header : list Z :=
  ipv4_header (zlen opts) (20 + zlen opts + zlen seg) tos id1 id2 f1 f2 ttl ck1 ck2 src dst.

(** The packet behind [pre]: its length cuts off the padding. *)
Lemma submitIPv4_packet a pre s : (a + zlen pre) mod 4 = 0 ->
  let packet := header ++ opts ++ seg ++ pad in
  submitIPv4 a (pre ++ packet) (zlen pre) (zlen packet) s =
  submitTCP a (pre ++ packet) (zlen pre + (20 + zlen opts)) (zlen seg)
    (set_addresses (IPv6Address_of_v4 src) (IPv6Address_of_v4 dst) s).
Proof.
  intros Ha packet. destruct (ipv4_header_fields (zlen opts) (20 + zlen opts + zlen seg) tos id1 id2 f1 f2 ttl ck1 ck2 src dst Hs Hd)
    as (Zh & E0 & E9 & E2 & E6 & E12 & E16). fold header in Zh, E0, E9, E2, E6, E12, E16.
  pose proof (zlen_nonneg opts). pose proof (zlen_nonneg seg). pose proof (zlen_nonneg pad).
  assert (zlen packet = 20 + zlen opts + zlen seg + zlen pad) as Zp by (unfold packet; rewrite !zlen_app, Zh; lia).
  assert (forall k n, 0 <= k -> k + n <= 20 -> slice (pre ++ packet) (zlen pre + k) n = slice header k n) as Rs.
  { intros k n Hk Hn. rewrite slice_app_at by done. unfold packet. by rewrite slice_app_l by lia. }
  assert (forall w k, 0 <= k -> k + w <= 20 -> rd_be w (pre ++ packet) (zlen pre + k) = rd_be w header k) as Rb.
  { intros w k Hk Hn. unfold rd_be. by rewrite Rs. }
  assert (forall k, 0 <= k < 20 -> rd8 (pre ++ packet) (zlen pre + k) = rd8 header k) as R8.
  { intros k Hk. rewrite !rd8_rd_be. apply Rb; lia. }
  rewrite u16_small in E2 by lia. unfold submitIPv4.
  rewrite cast2 by (apply even_address; lia). cbn [mbind option_bind].
  rewrite (proj2 (Z.leb_le 20 _)) by lia. cbn [negb].
  assert (rd8 (pre ++ packet) (zlen pre) = Some (64 + (5 + zlen opts / 4))) as ->.
  { rewrite <- (Z.add_0_r (zlen pre)). by rewrite R8. }
  cbn [mbind option_bind]. assert (0 <= 5 + zlen opts / 4 < 16) as Hihl by (Z.div_mod_to_equations; lia).
  destruct (shiftr_64 _ Hihl) as [-> ->]. cbn [negb Z.eqb Pos.eqb].
  rewrite (proj2 (Z.ltb_ge (5 + zlen opts / 4) 5)) by (Z.div_mod_to_equations; lia).
  rewrite (Rb 2 2), E2 by lia. cbn [mbind option_bind].
  assert ((if 20 + zlen opts + zlen seg <? zlen packet then 20 + zlen opts + zlen seg else zlen packet) = 20 + zlen opts + zlen seg) as ->.
  { destruct (Z.ltb_spec (20 + zlen opts + zlen seg) (zlen packet)); lia. }
  replace ((5 + zlen opts / 4) * 4) with (20 + zlen opts) by (Z.div_mod_to_equations; lia).
  rewrite (proj2 (Z.ltb_ge _ _)) by lia.
  rewrite (Rb 2 6), E6 by lia. cbn [mbind option_bind].
  assert (Z.land (be [f1; f2]) (Z.lor 8192 8191) = 0) as -> by (destruct Hf1 as [-> | ->]; by rewrite Hf2).
  cbn [Z.eqb negb]. rewrite (Rs 12), (Rs 16), E12, E16 by lia.
  cbn [mbind option_bind]. rewrite (proj2 (Z.leb_le _ _)) by lia.
  rewrite (R8 9), E9 by lia. cbn [mbind option_bind].
  unfold submitProto. rewrite Z.eqb_refl. rewrite u64_small by lia. f_equal. lia.
Qed.
End Frame.

(** An Ethernet frame, with or without a VLAN tag, that holds an unfragmented
    IPv4 packet with any options reaches [submitTCP] with exactly the bytes of
    its TCP segment: Ethernet padding after the packet is dropped, and the
    addresses become the IPv4-mapped ones. *)
Theorem ethernet_frame_decoded ts addr macs vlan opts seg pad src dst tos id1 id2 f1 f2 ttl ck1 ck2 st :
  length macs = 12%nat -> length src = 4%nat -> length dst = 4%nat ->
  (vlan = [] \/ exists t1 t2, vlan = [0x81; 0x00; t1; t2]) ->
  zlen opts mod 4 = 0 -> zlen opts <= 40 -> 20 + zlen opts + zlen seg < 2 ^ 16 -> zlen pad < 2 ^ 16 ->
  f1 = 0 \/ f1 = 0x40 -> f2 = 0 -> addr mod 4 = 2 ->
  let header := ipv4_header (zlen opts) (20 + zlen opts + zlen seg) tos id1 id2 f1 f2 ttl ck1 ck2 src dst in
  let capture := macs ++ vlan ++ [0x08; 0x00] ++ header ++ opts ++ seg ++ pad in
  submitEthernet addr capture ts st =
  submitTCP addr capture (34 + zlen vlan + zlen opts) (zlen seg)
    (set_addresses (IPv6Address_of_v4 src) (IPv6Address_of_v4 dst) (st {{ ms_ts := ts }})).
Proof.
  intros Hm Hs Hd Hv Ho1 Ho2 Hlen Hpad Hf1 Hf2 Ha header capture. assert (zlen macs = 12) as Zm by (unfold zlen; lia).
  pose proof (submitIPv4_packet opts seg pad src dst tos id1 id2 f1 f2 ttl ck1 ck2 Hs Hd Ho1 Ho2 Hlen Hf1 Hf2) as Hip.
  cbv zeta in Hip. fold header in Hip. pose proof (zlen_nonneg opts). pose proof (zlen_nonneg seg). pose proof (zlen_nonneg pad).
  set (packet := header ++ opts ++ seg ++ pad) in *.
  assert (zlen packet = 20 + zlen opts + zlen seg + zlen pad) as Zp.
  { destruct (ipv4_header_fields (zlen opts) (20 + zlen opts + zlen seg) tos id1 id2 f1 f2 ttl ck1 ck2 src dst Hs Hd) as (Zh & _).
    unfold packet, header. rewrite !zlen_app, Zh. lia. }
  unfold submitEthernet. cbv zeta. rewrite Z.add_0_r, (cast2 14 addr) by (apply even_address; lia). cbn [mbind option_bind].
  destruct Hv as [->|(t1 & t2 & ->)].
  - assert (zlen capture = 14 + zlen packet) as Zc by (unfold capture; autorewrite with zlen; lia).
    rewrite (proj2 (Z.leb_le _ _)) by lia. cbn [negb].
    assert (rd16 capture (0 + 12) = Some DATALINK_IPV4) as ->.
    { unfold rd_be, capture. by rewrite (slice_split _ 12 2 macs [8; 0] packet). }
    cbn [mbind option_bind]. change (DATALINK_IPV4 =? DATALINK_8021Q) with false. cbv iota.
    unfold submitType. rewrite Z.eqb_refl, u64_small by lia.
    assert (capture = (macs ++ [8; 0]) ++ packet) as Ec by (unfold capture; by rewrite <- app_assoc).
    assert (zlen (macs ++ [8; 0]) = 14) as Z14 by (autorewrite with zlen; lia).
    rewrite Zc, Ec. replace (14 + zlen packet - 14) with (zlen packet) by lia. rewrite <- Z14 at 1. rewrite Z.add_0_l, Hip.
    + f_equal. rewrite Z14. change (zlen []) with 0. lia.
    + rewrite Z14. Z.div_mod_to_equations. lia.
  - assert (zlen capture = 18 + zlen packet) as Zc by (unfold capture; autorewrite with zlen; lia).
    rewrite (proj2 (Z.leb_le _ _)) by lia. cbn [negb].
    assert (rd16 capture (0 + 12) = Some DATALINK_8021Q) as ->.
    { unfold rd_be, capture. by rewrite (slice_split _ 12 2 macs [129; 0] ([t1; t2; 8; 0] ++ packet)). }
    cbn [mbind option_bind]. rewrite Z.eqb_refl, (cast2 4) by (apply even_address; Z.div_mod_to_equations; lia).
    cbn [mbind option_bind]. rewrite (u64_small (zlen capture - 14)), (proj2 (Z.leb_le _ _)) by lia. cbn [negb].
    assert (rd16 capture (0 + 14 + 2) = Some DATALINK_IPV4) as ->.
    { unfold rd_be, capture. rewrite (slice_split _ (0 + 14 + 2) 2 (macs ++ [129; 0; t1; t2]) [8; 0] packet); try done; [by rewrite <- app_assoc|].
      autorewrite with zlen. lia. }
    cbn [mbind option_bind]. unfold submitType. rewrite Z.eqb_refl, u64_small by lia.
    assert (capture = (macs ++ [129; 0; t1; t2; 8; 0]) ++ packet) as Ec by (unfold capture; by rewrite <- app_assoc).
    assert (zlen (macs ++ [129; 0; t1; t2; 8; 0]) = 18) as Z18 by (autorewrite with zlen; lia).
    rewrite Zc, Ec. replace (18 + zlen packet - 14 - 4) with (zlen packet) by lia.
    replace (0 + 14 + 4) with (zlen (macs ++ [129; 0; t1; t2; 8; 0])) by lia. rewrite Hip.
    + f_equal. rewrite Z18. change (zlen [129; 0; t1; t2]) with 4. lia.
    + rewrite Z18. Z.div_mod_to_equations. lia.
Qed.

(** A HELLO in an Ethernet frame with a VLAN tag, IP options and padding. *)
Definition hello_packet : list Z :=
  ipv4_header 4 (20 + 4 + zlen hello_segment) 0 0 0 0x40 0 64 0 0 [10; 0; 0; 1] [10; 0; 0; 2] ++
  [1; 1; 1; 1] ++ hello_segment ++ [0; 0; 0].
Definition hello_frame : list Z :=
  [1; 2; 3; 4; 5; 6; 7; 8; 9; 10; 11; 12] ++ [0x81; 0x00; 0; 5] ++ [0x08; 0x00] ++ hello_packet.

Lemma ethernet_frame_witness :
  submitEthernet 2 hello_frame Timestamp_zero hello_source =
  submitTCP 2 hello_frame (34 + 4 + 4) (zlen hello_segment)
    (set_addresses (IPv6Address_of_v4 [10; 0; 0; 1]) (IPv6Address_of_v4 [10; 0; 0; 2])
      (hello_source {{ ms_ts := Timestamp_zero }})).
Proof.
  apply (ethernet_frame_decoded Timestamp_zero 2 [1; 2; 3; 4; 5; 6; 7; 8; 9; 10; 11; 12] [0x81; 0x00; 0; 5]
    [1; 1; 1; 1] hello_segment [0; 0; 0] [10; 0; 0; 1] [10; 0; 0; 2] 0 0 0 0x40 0 64 0 0 hello_source);
    try done; [right; by exists 0, 5|by right].
Defined.

(** The frame gives a message, and so does its packet on its own. *)
Lemma submit_inside_capture_witness :
  (exists st, submitEthernet 2 hello_frame Timestamp_zero hello_source = Some st /\ dm_bytes <$> ms_out st = [hello_msg]) /\
  parsed hello_frame (zlen hello_frame) (hello_source {{ ms_ts := Timestamp_zero }})
    (submitEthernet 2 hello_frame Timestamp_zero hello_source) /\
  parsed hello_packet (zlen hello_packet) (hello_source {{ ms_ts := Timestamp_zero }})
    (submitIP 4 hello_packet Timestamp_zero hello_source).
Proof.
  split; [eexists; split; vm_compute; reflexivity|]. split.
  - apply (submit_inside_capture Timestamp_zero 2 hello_frame hello_source); [vm_compute; repeat constructor; done|done|done].
  - apply (submit_inside_capture Timestamp_zero 4 hello_packet hello_source); [vm_compute; repeat constructor; done|done|done].
Defined.
