(* ===== verification/Buffered.v ===== *)
(** The two output buffers of a connection's socket
    (include/ofp/sys/buffered.h, and [TCP_Connection]'s [write], [flush] and
    [mustFlush]).

    [buf_write] queues bytes in one buffer while the other is given to
    asio's [async_write], which is code of a library: a write that is started
    holds the memory of its buffer until its handler runs, and the handler gets
    either an error or the number of all its bytes. [b_inflight] is the content
    of that memory when the write was started, [b_wire] the concatenation of all
    writes that were started, [b_written] that of all calls of [buf_write]; the
    last two are only observed. *)
From stdpp Require Import base list gmap.
From Stdlib Require Import ZArith Lia.
From S2P Require Import Prelude.

Record Buffered : Type := mkBuffered {
  b_buffer : bool -> list Z;
  b_bufferIdx : bool;
  b_isFlushing : bool;
  b_open : bool;
  b_inflight : option (list Z);
  b_wire : list Z;
  b_written : list Z }.

Definition Buffered_make : Buffered := mkBuffered (fun _ => []) false false true None [] [].

(** [buffer_[i] = d]. *)
Definition set_buffer (i : bool) (d : list Z) (buffer : bool -> list Z) : bool -> list Z :=
  fun j => if Bool.eqb i j then d else buffer j.

Definition buf_write (d : list Z) (b : Buffered) : Buffered :=
  mkBuffered (set_buffer (b_bufferIdx b) (b_buffer b (b_bufferIdx b) ++ d) (b_buffer b))
    (b_bufferIdx b) (b_isFlushing b) (b_open b) (b_inflight b) (b_wire b) (b_written b ++ d).

Definition buf_size (b : Buffered) : Z := zlen (b_buffer b (b_bufferIdx b)).

Definition kFlushLimit : Z := 16383.
Definition mustFlush (b : Buffered) : bool := kFlushLimit <? buf_size b.

(** [buf_flush] up to the call of [async_write]. *)
Definition buf_flush (b : Buffered) : Buffered :=
  let outgoing := b_buffer b (b_bufferIdx b) in
  if b_isFlushing b || (zlen outgoing =? 0) then b
  else mkBuffered (b_buffer b) (negb (b_bufferIdx b)) true (b_open b) (Some outgoing) (b_wire b ++ outgoing) (b_written b).

(** The handler that [buf_flush] gives to [async_write]; on an error the handler
    of [TCP_Connection::flush] closes the socket. *)
Definition flush_handler (err : bool) (bytes_transferred : Z) (b : Buffered) : option Buffered :=
  let other := negb (b_bufferIdx b) in
  if negb err then
    assert! (bytes_transferred =? zlen (b_buffer b other));;
    let b := mkBuffered (set_buffer other [] (b_buffer b)) (b_bufferIdx b) false (b_open b) None (b_wire b) (b_written b) in
    Some (if 0 <? buf_size b then buf_flush b else b)
  else Some (mkBuffered (b_buffer b) (b_bufferIdx b) (b_isFlushing b) false None (b_wire b) (b_written b)).

(** ** Runs *)

Inductive BufferedOp : Type :=
| BWrite (d : list Z)
| BFlush
| BDone (err : bool).

(** A handler runs only for a write that was started, with the number of its
    bytes unless it failed. *)
Inductive buffered_step : Buffered -> BufferedOp -> option Buffered -> Prop :=
| step_write d b : buffered_step b (BWrite d) (Some (buf_write d b))
| step_flush b : buffered_step b BFlush (Some (buf_flush b))
| step_done err n d b : b_inflight b = Some d -> (err = false -> n = zlen d) ->
    buffered_step b (BDone err) (flush_handler err n b).

Inductive buffered_run : list BufferedOp -> option Buffered -> Prop :=
| run_start : buffered_run [] (Some Buffered_make)
| run_step ops op b r : buffered_run ops (Some b) -> buffered_step b op r -> buffered_run (ops ++ [op]) r.

(** What every run keeps: the memory of a started write is as it was, and the
    bytes that were written are those on the wire followed by the queued ones. *)
Record buffered_inv (b : Buffered) : Prop := {
  bi_order : b_written b = b_wire b ++ b_buffer b (b_bufferIdx b);
  bi_memory : forall d, b_inflight b = Some d -> b_buffer b (negb (b_bufferIdx b)) = d;
  bi_idle : b_isFlushing b = false -> b_buffer b (negb (b_bufferIdx b)) = [] /\ b_inflight b = None;
  bi_busy : b_isFlushing b = true -> b_open b = true -> is_Some (b_inflight b) }.

Lemma set_buffer_same i d f : set_buffer i d f i = d.
Proof. unfold set_buffer. by rewrite Bool.eqb_reflx. Qed.
Lemma set_buffer_other i d f : set_buffer i d f (negb i) = f (negb i).
Proof. unfold set_buffer. by destruct i. Qed.
Lemma set_buffer_negb i d f : set_buffer (negb i) d f i = f i.
Proof. unfold set_buffer. by destruct i. Qed.

Lemma write_inv d b : buffered_inv b -> buffered_inv (buf_write d b).
Proof.
  intros []. split; cbn; rewrite ?set_buffer_same, ?set_buffer_other; try done. by rewrite bi_order0, app_assoc.
Qed.

Lemma flush_inv b : buffered_inv b -> buffered_inv (buf_flush b).
Proof.
  intros Hinv. unfold buf_flush. case_match eqn:E; [done|]. apply orb_false_elim in E as [Ef _].
  destruct Hinv as [Ho _ Hi _]. destruct (Hi Ef) as [Eo _].
  split; cbn; rewrite ?negb_involutive; [by rewrite Eo, app_nil_r|congruence|done|eauto].
Qed.

Lemma handler_inv err n d b : buffered_inv b -> b_inflight b = Some d -> (err = false -> n = zlen d) ->
  exists b', flush_handler err n b = Some b' /\ buffered_inv b'.
Proof.
  intros [Ho Hm Hi Hb] Ei Hn. unfold flush_handler. destruct err; cbn [negb].
  - eexists. split; [done|]. split; cbn; try done. intros E. by destruct (Hi E) as [_ ?]; simplify_eq.
  - rewrite (Hm d Ei), (Hn eq_refl), Z.eqb_refl. eexists. split; [done|].
    assert (buffered_inv (mkBuffered (set_buffer (negb (b_bufferIdx b)) [] (b_buffer b)) (b_bufferIdx b) false (b_open b)
      None (b_wire b) (b_written b))) as Hinv.
    { split; cbn; rewrite ?set_buffer_negb, ?set_buffer_same; done. }
    case_match; [by apply flush_inv|done].
Qed.

Lemma run_inv ops r : buffered_run ops r -> exists b, r = Some b /\ buffered_inv b.
Proof.
  induction 1 as [|ops op b r _ (b' & [= <-] & Hinv) Hs].
  - eexists. split; [done|]. by split.
  - inversion Hs; subst; [eexists; split; [done|by apply write_inv]|eexists; split; [done|by apply flush_inv]|].
    by eapply handler_inv.
Qed.

(** A run in which every write is followed by a flush leaves no byte queued while
    the socket is idle. *)
Definition flushed (b : Buffered) : Prop := b_isFlushing b = false -> b_buffer b (b_bufferIdx b) = [].

Lemma zlen_nil_inv (l : list Z) : zlen l = 0 -> l = [].
Proof. destruct l; [done|]. unfold zlen. cbn. lia. Qed.

Lemma flush_flushed b : flushed (buf_flush b).
Proof.
  unfold buf_flush, flushed. destruct (b_isFlushing b) eqn:Ef; cbn [orb]; [congruence|].
  destruct (Z.eqb_spec (zlen (b_buffer b (b_bufferIdx b))) 0); [|done]. intros _. by apply zlen_nil_inv.
Qed.

Lemma handler_flushed err n b b' : flush_handler err n b = Some b' -> flushed b -> flushed b'.
Proof.
  unfold flush_handler. destruct err; cbn [negb]; [by intros [= <-]|]. case_match; [|done]. intros [= <-] _.
  case_match eqn:E; [apply flush_flushed|]. intros _. apply zlen_nil_inv. apply Z.ltb_ge in E. unfold buf_size in E.
  pose proof (zlen_nonneg (b_buffer b (b_bufferIdx b))). cbn in *. rewrite set_buffer_negb in *. lia.
Qed.

(** What the builders do with a channel: write a message and flush; the loop
    runs the handlers in between. *)
Inductive SocketOp : Type := SSend (d : list Z) | SDone (err : bool).

Definition expand (op : SocketOp) : list BufferedOp :=
  match op with SSend d => [BWrite d; BFlush] | SDone err => [BDone err] end.
Definition sent_by (op : SocketOp) : list Z := match op with SSend d => d | SDone _ => [] end.
Definition fails (op : SocketOp) : bool := match op with SDone err => err | _ => false end.

Lemma run_last ops op r : buffered_run (ops ++ [op]) r -> exists b, buffered_run ops (Some b) /\ buffered_step b op r.
Proof. intros H. inversion H as [E|o1 o2 b0 r0 Hr Hs E]; [by destruct ops|]. apply app_inj_tail in E as [-> ->]. eauto. Qed.

(** The bytes that were written, and no byte left behind. *)
Lemma socket_run ops b : buffered_run (ops ≫= expand) (Some b) ->
  b_written b = ops ≫= sent_by /\ flushed b /\ (Forall (fun op => fails op = false) ops -> b_open b = true).
Proof.
  revert b. induction ops as [|op ops IH] using rev_ind; intros b; cbn.
  - intros H. inversion H as [E|o1 o2 b0 r0 Hr Hs E]; [done|by destruct o1].
  - rewrite !bind_app. destruct op as [d|err]; cbn [mbind list_bind expand sent_by]; rewrite ?app_nil_r.
    + change [BWrite d; BFlush] with ([BWrite d] ++ [BFlush]). rewrite app_assoc.
      intros (b2 & (b1 & H1 & Hs1)%run_last & Hs2)%run_last. inversion Hs1; subst. inversion Hs2; subst.
      destruct (IH _ H1) as (Hw & Hf & Ho). unfold buf_write in *. split_and!; [|apply flush_flushed|].
      * unfold buf_flush. case_match; cbn; by rewrite Hw.
      * intros [Hall _]%Forall_app. unfold buf_flush. case_match; cbn; auto.
    + intros (b1 & H1 & Hs1)%run_last. destruct (IH _ H1) as (Hw & Hf & Ho). inversion Hs1 as [| |e n d b0 Hd Hn E1 E2 E3]; subst.
      split_and!; [|by eapply handler_flushed|].
      * rewrite <- Hw. unfold flush_handler in E3. destruct err; cbn [negb] in E3; [by injection E3 as <-|].
        case_match; [|done]. injection E3 as <-. case_match; [|done]. unfold buf_flush. by case_match.
      * intros [Hall [Hne _]%Forall_cons]%Forall_app. cbn in Hne. subst err. unfold flush_handler in E3. cbn [negb] in E3.
        case_match; [|done]. injection E3 as <-. case_match; [unfold buf_flush; case_match|]; cbn; auto.
Qed.

(** A completed write is followed by one of the bytes queued meanwhile. *)
Lemma handler_next d b : buffered_inv b -> b_inflight b = Some d ->
  exists b1, flush_handler false (zlen d) b = Some b1 /\ b_wire b1 = b_written b /\ b_written b1 = b_written b /\
    (b_inflight b1 = None \/ is_Some (b_inflight b1) /\ b_buffer b1 (b_bufferIdx b1) = []).
Proof.
  intros [Ho Hm _ _] Ed. unfold flush_handler. cbn [negb]. rewrite (Hm d Ed), Z.eqb_refl. eexists. split; [done|].
  unfold buf_size. cbn [b_buffer b_bufferIdx]. rewrite set_buffer_negb. pose proof (zlen_nonneg (b_buffer b (b_bufferIdx b))).
  case_match eqn:E; [apply Z.ltb_lt in E|apply Z.ltb_ge in E].
  - unfold buf_flush. cbn. rewrite set_buffer_negb. rewrite (proj2 (Z.eqb_neq _ _)) by lia. cbn.
    rewrite set_buffer_same. split_and!; [done..|]. right. eauto.
  - cbn. split_and!; [|done|by left]. rewrite Ho, (zlen_nil_inv (b_buffer b (b_bufferIdx b))) by lia. by rewrite app_nil_r.
Qed.

Lemma handler_last d b : buffered_inv b -> b_inflight b = Some d -> b_buffer b (b_bufferIdx b) = [] ->
  exists b1, flush_handler false (zlen d) b = Some b1 /\ b_wire b1 = b_wire b /\ b_inflight b1 = None.
Proof.
  intros [_ Hm _ _] Ed Eq. unfold flush_handler. cbn [negb]. rewrite (Hm d Ed), Z.eqb_refl. eexists. split; [done|].
  unfold buf_size. cbn [b_buffer b_bufferIdx]. by rewrite set_buffer_negb, Eq.
Qed.

(** C13. The two buffers of a socket are a queue. In every run of sends and
    completions no assertion fails, the memory of the write in flight is not
    touched, and the bytes handed to the stream are a prefix of the bytes sent,
    in order and without loss or duplication. While no write has failed, a
    socket without a write in flight has handed over everything, and one with a
    write in flight has handed over everything after its next two completions
    at the latest. *)
Theorem buffered_fifo ops r : buffered_run (ops ≫= expand) r ->
  exists b, r = Some b /\
    ops ≫= sent_by = b_wire b ++ b_buffer b (b_bufferIdx b) /\
    (forall d, b_inflight b = Some d -> b_buffer b (negb (b_bufferIdx b)) = d) /\
    (Forall (fun op => fails op = false) ops ->
       (b_inflight b = None -> b_wire b = ops ≫= sent_by) /\
       (forall d, b_inflight b = Some d ->
          exists b1, flush_handler false (zlen d) b = Some b1 /\ b_wire b1 = ops ≫= sent_by /\
            (b_inflight b1 = None \/
             exists d1 b2, b_inflight b1 = Some d1 /\ flush_handler false (zlen d1) b1 = Some b2 /\
               b_inflight b2 = None /\ b_wire b2 = ops ≫= sent_by))).
Proof.
  intros H. destruct (run_inv _ _ H) as (b & -> & Hinv). destruct (socket_run _ _ H) as (Hw & Hf & Ho).
  pose proof Hinv as [Hord Hm Hi Hb]. exists b. rewrite <- Hw. split_and!; [done|done|done|]. intros Hok. split.
  - intros En. destruct (b_isFlushing b) eqn:Ef; [by destruct (Hb eq_refl (Ho Hok)); congruence|].
    by rewrite Hord, (Hf Ef), app_nil_r.
  - intros d Ed. destruct (handler_next d b Hinv Ed) as (b1 & E1 & Hw1 & _ & Hn). exists b1. split_and!; [done..|].
    destruct Hn as [Hn|[[d1 Ed1] Eq]]; [by left|right].
    destruct (handler_inv false (zlen d) d b Hinv Ed ltac:(done)) as (b1' & E1' & Hinv1). simplify_eq.
    destruct (handler_last d1 b1 Hinv1 Ed1 Eq) as (b2 & E2 & Hw2 & Hn2). exists d1, b2. split_and!; [done..|congruence].
Qed.

Lemma buffered_fifo_witness :
  let ops := [SSend [1; 2]; SSend [3]; SDone false; SSend [4]; SDone false] in
  exists b, b_wire b = [1; 2; 3; 4] /\ b_inflight b = Some [4] /\ ops ≫= sent_by = b_wire b ++ b_buffer b (b_bufferIdx b).
Proof.
  assert (exists b, b_wire b = [1; 2; 3; 4] /\ b_inflight b = Some [4] /\
    buffered_run ([SSend [1; 2]; SSend [3]; SDone false; SSend [4]; SDone false] ≫= expand) (Some b)) as (b & Hw & Hf & Hr).
  { pose proof (run_step _ _ _ _ run_start (step_write [1; 2] _)) as H0.
    pose proof (run_step _ _ _ _ H0 (step_flush _)) as H1.
    pose proof (run_step _ _ _ _ H1 (step_write [3] _)) as H2.
    pose proof (run_step _ _ _ _ H2 (step_flush _)) as H3.
    pose proof (fun E F => run_step _ _ _ _ H3 (step_done false 2 [1; 2] _ E F)) as H4; specialize (H4 eq_refl (fun _ => eq_refl)).
    pose proof (run_step _ _ _ _ H4 (step_write [4] _)) as H5.
    pose proof (run_step _ _ _ _ H5 (step_flush _)) as H6.
    pose proof (fun E F => run_step _ _ _ _ H6 (step_done false 1 [3] _ E F)) as H7; specialize (H7 eq_refl (fun _ => eq_refl)).
    eexists. split_and!; [| |exact H7]; reflexivity. }
  exists b. split_and!; [done..|].
  destruct (buffered_fifo _ _ Hr) as (b' & [= <-] & Ho & _). exact Ho.
Defined.
