(* ===== verification/Sections.v ===== *)
(** * The parts of messages and their checks (src/ofp/bucket.cpp, queue.cpp,
    queuedesc.cpp, queueproperty.cpp, tabledesc.cpp, tablemodproperty.cpp,
    tablefeatureproperty.cpp, statheader.cpp, mp*.cpp, and their headers)

    One function per [validateInput] of a structure that occurs inside messages:
    buckets, queues, properties, and the sections of multipart messages. Each gets
    the range that it lies in and its position there. The second half proves that
    every check ends without reading outside the range, from the facts that the
    enclosing loop has established about the section. *)

From S2P Require Import Prelude.
From S2P Require Import ByteOrder.
From S2P Require Import Constants.
From S2P Require Import Validation.
From S2P Require Import ProtocolRange.
From S2P Require Import Ports.
From S2P Require Import Oxm.
From S2P Require Import Matches.
From S2P Require Import Actions.
From S2P Require Import Instructions.

(** ** Ranges inside a structure *)

(** [SafeByteRange(this, length, offset)] for the structure at [p]. *)
Definition SafeByteRange (range : ByteRange) (p length offset : Z) : option ByteRange :=
  if offset <=? length then
    d ← slice (br_data range) (p + offset) (length - offset); Some (mkRange (br_addr range + p + offset) d)
  else Some (mkRange 0 []).

Definition accept (_ : Z) (c : Validation) : option (bool * Validation) := Some (true, c).

Definition sizeof_Bucket : Z := 16.
Definition Bucket_validateInput (range : ByteRange) (p : Z) (c : Validation) : option (bool * Validation) :=
  len ← rd16 (br_data range) p;
  if len <? sizeof_Bucket then Some (false, c)
  else actions ← SafeByteRange range p len sizeof_Bucket; ActionRange_validateInput actions c.

Definition BucketRange_validateInput (range : ByteRange) (c : Validation) : option (bool * Validation) :=
  ProtocolRange_validateInput sizeof_Bucket 0 8 (Bucket_validateInput range) range c.

Definition MeterBandRange_validateInput (range : ByteRange) (c : Validation) : option (bool * Validation) :=
  ProtocolRange_validateInput 4 2 8 accept range c.

Definition PacketCounterRange_validateInput (range : ByteRange) (c : Validation) : option (bool * Validation) :=
  ProtocolRange_validateInput 16 PROTOCOL_ITERATOR_SIZE_FIXED 8 accept range c.

Definition InstructionIDRange_validateInput (range : ByteRange) (c : Validation) : option (bool * Validation) :=
  ProtocolRange_validateInput 8 2 4 accept range c.

Definition OXMIDRange_validateInput (range : ByteRange) (c : Validation) : option (bool * Validation) :=
  ProtocolRange_validateInput 8 PROTOCOL_ITERATOR_SIZE_CONDITIONAL 4 accept range c.

Definition ActionID_validateInput (range : ByteRange) (p : Z) (c : Validation) : option (bool * Validation) :=
  len ← rd16 (br_data range) (p + 2);
  Some (validateBool ((len =? 4) || (len =? 8)) (str "Invalid ActionID") c).

Definition ActionIDRange_validateInput (range : ByteRange) (c : Validation) : option (bool * Validation) :=
  ProtocolRange_validateInput 8 2 4 (ActionID_validateInput range) range c.

(** ** Properties *)

(** [prop.property<Type>()] asserts the alignment of [Type]. *)
Definition property_cast (props : ByteRange) (p alignment : Z) : option unit :=
  assert! IsPtrAligned (br_addr props + p) alignment;; Some tt.

(** The properties are checked as a range, and then one by one. *)
Definition validate_properties (one : ByteRange -> Z -> Validation -> option (bool * Validation)) (props : ByteRange)
    (c : Validation) : option (bool * Validation) :=
  '(ok, c) ← PropertyRange_validateInput props c;
  if negb (ok : bool) then Some (false, c)
  else for_elements 4 2 8 (one props) (length (br_data props)) props 0 c.

Definition OFPQT_EXPERIMENTER : Z := 0xffff.

(** The bodies of the loops of the validators, one property at [p]. *)
Definition QueueProperty_check (props : ByteRange) (p : Z) (c : Validation) : option (bool * Validation) :=
  type ← rd16 (br_data props) p;
  if type =? OFPQT_EXPERIMENTER then
    _ ← property_cast props p 8; len ← rd16 (br_data props) (p + 2); Some (16 <=? len, c)
  else Some (true, c).

Definition OFPTMPT_EVICTION : Z := 2.
Definition OFPTMPT_VACANCY : Z := 3.
Definition OFPTMPT_EXPERIMENTER : Z := 0xFFFF.

Definition TableModProperty_check (props : ByteRange) (p : Z) (c : Validation) : option (bool * Validation) :=
  type ← rd16 (br_data props) p;
  if type =? OFPTMPT_EVICTION then
    _ ← property_cast props p 4; len ← rd16 (br_data props) (p + 2); Some (len =? 8, c)
  else if type =? OFPTMPT_VACANCY then
    _ ← property_cast props p 2; len ← rd16 (br_data props) (p + 2); Some (len =? 8, c)
  else if type =? OFPTMPT_EXPERIMENTER then
    _ ← property_cast props p 8; len ← rd16 (br_data props) (p + 2);
    Some (validateBool (12 <=? len) (str "Invalid Experimenter property") c)
  else Some (true, c).

Definition OFPTFPT_INSTRUCTIONS : Z := 0.
Definition OFPTFPT_INSTRUCTIONS_MISS : Z := 1.
Definition OFPTFPT_NEXT_TABLES : Z := 2.
Definition OFPTFPT_NEXT_TABLES_MISS : Z := 3.
Definition OFPTFPT_WRITE_ACTIONS : Z := 4.
Definition OFPTFPT_WRITE_ACTIONS_MISS : Z := 5.
Definition OFPTFPT_APPLY_ACTIONS : Z := 6.
Definition OFPTFPT_APPLY_ACTIONS_MISS : Z := 7.
Definition OFPTFPT_MATCH : Z := 8.
Definition OFPTFPT_WILDCARDS : Z := 10.
Definition OFPTFPT_WRITE_SETFIELD : Z := 12.
Definition OFPTFPT_WRITE_SETFIELD_MISS : Z := 13.
Definition OFPTFPT_APPLY_SETFIELD : Z := 14.
Definition OFPTFPT_APPLY_SETFIELD_MISS : Z := 15.

(** [TableFeatureProperty::validateInput]: [check] is that of its range. *)
Definition TableFeatureProperty_validateInput (check : ByteRange -> Validation -> option (bool * Validation))
    (props : ByteRange) (p : Z) (c : Validation) : option (bool * Validation) :=
  _ ← property_cast props p 8;
  len ← rd16 (br_data props) (p + 2);
  value ← SafeByteRange props p len 4;
  check value c.

Definition TableFeatureProperty_check (props : ByteRange) (p : Z) (c : Validation) : option (bool * Validation) :=
  type ← rd16 (br_data props) p;
  if (type =? OFPTFPT_INSTRUCTIONS) || (type =? OFPTFPT_INSTRUCTIONS_MISS) then
    TableFeatureProperty_validateInput InstructionIDRange_validateInput props p c
  else if (type =? OFPTFPT_NEXT_TABLES) || (type =? OFPTFPT_NEXT_TABLES_MISS) then
    TableFeatureProperty_validateInput (fun _ c => Some (true, c)) props p c
  else if (type =? OFPTFPT_WRITE_ACTIONS) || (type =? OFPTFPT_WRITE_ACTIONS_MISS) ||
          (type =? OFPTFPT_APPLY_ACTIONS) || (type =? OFPTFPT_APPLY_ACTIONS_MISS) then
    TableFeatureProperty_validateInput ActionIDRange_validateInput props p c
  else if (type =? OFPTFPT_MATCH) || (type =? OFPTFPT_WILDCARDS) || (type =? OFPTFPT_WRITE_SETFIELD) ||
          (type =? OFPTFPT_WRITE_SETFIELD_MISS) || (type =? OFPTFPT_APPLY_SETFIELD) ||
          (type =? OFPTFPT_APPLY_SETFIELD_MISS) then
    TableFeatureProperty_validateInput OXMIDRange_validateInput props p c
  else Some (true, c).

(** ** Queues and tables *)

Definition sizeof_Queue : Z := 16.
Definition Queue_validateInput (range : ByteRange) (p : Z) (c : Validation) : option (bool * Validation) :=
  len ← rd16 (br_data range) (p + 8);
  if len <? sizeof_Queue then Some (false, c)
  else props ← SafeByteRange range p (PadLength len) sizeof_Queue; validate_properties QueueProperty_check props c.

Definition QueueRange_validateInput (range : ByteRange) (c : Validation) : option (bool * Validation) :=
  ProtocolRange_validateInput sizeof_Queue 8 8 (Queue_validateInput range) range c.

Definition sizeof_QueueDesc : Z := 16.
Definition QueueDesc_validateInput (range : ByteRange) (p : Z) (c : Validation) : option (bool * Validation) :=
  len ← rd16 (br_data range) (p + 8);
  let '(ok, c) := validateBool (sizeof_QueueDesc <=? len) (str "QueueDesc too short") c in
  if negb ok then Some (false, c)
  else props ← SafeByteRange range p len sizeof_QueueDesc; PropertyRange_validateInput props c.

Definition sizeof_TableDesc : Z := 8.
Definition TableDesc_validateInput (range : ByteRange) (p : Z) (c : Validation) : option (bool * Validation) :=
  let remaining := v_lengthRemaining c in
  if remaining <? sizeof_TableDesc then Some (false, c) else
  len ← rd16 (br_data range) p;
  if (len <? sizeof_TableDesc) || (remaining <? len) then Some (false, c)
  else props ← SafeByteRange range p len sizeof_TableDesc; PropertyRange_validateInput props c.

(** ** Statistics of OpenFlow 1.5 *)

(** [StatHeader::validateInput]; [m] is the memory from the header on. *)
Definition StatHeader_validateInput (addr : Z) (m : list Z) (lengthRemaining : Z) (c : Validation)
    : option (bool * Validation) :=
  let invalid (message : list Z) := Some (false, matchIsInvalid message addr c) in
  if lengthRemaining <? 4 then invalid (str "Insufficient bytes")
  else if negb (IsPtrAligned addr 8) then invalid (str "Not aligned")
  else
    reserved ← rd16 m 0;
    if negb (reserved =? 0) then invalid (str "Invalid reserved type")
    else
      statLength ← rd16 m 2;
      if statLength <? 4 then invalid (str "Invalid stat length")
      else if lengthRemaining <? PadLength statLength then invalid (str "Invalid remaining length")
      else
        oxm ← slice m 4 (statLength - 4);
        ok ← OXMRange_validateInput oxm;
        if negb (ok : bool) then invalid (str "Invalid oxm range") else Some (true, c).

(** ** Sections of multipart messages *)

(** [lengthRemaining() == sizeof(Type)], with the report of those that make one. *)
Definition exact_size (size : Z) (body : Z) (c : Validation) : option (bool * Validation) :=
  if negb (v_lengthRemaining c =? size) then Some (false, lengthRemainingIsInvalid body c) else Some (true, c).
Definition exact_size_quiet (size : Z) (c : Validation) : option (bool * Validation) :=
  Some (v_lengthRemaining c =? size, c).

Definition sizeof_MPDesc : Z := 1056.
Definition sizeof_MPAggregateStatsReply : Z := 24.
Definition sizeof_MPGroupFeatures : Z := 40.
Definition sizeof_MPMeterFeatures : Z := 16.
Definition sizeof_MPExperimenter : Z := 8.

Definition MPDesc_validateInput (range : ByteRange) (p : Z) (c : Validation) : option (bool * Validation) :=
  exact_size sizeof_MPDesc (br_addr range + p) c.
Definition MPAggregateStatsReply_validateInput (range : ByteRange) (p : Z) (c : Validation) : option (bool * Validation) :=
  exact_size sizeof_MPAggregateStatsReply (br_addr range + p) c.
Definition MPGroupFeatures_validateInput (range : ByteRange) (p : Z) (c : Validation) : option (bool * Validation) :=
  exact_size sizeof_MPGroupFeatures (br_addr range + p) c.
Definition MPMeterFeatures_validateInput (range : ByteRange) (p : Z) (c : Validation) : option (bool * Validation) :=
  exact_size sizeof_MPMeterFeatures (br_addr range + p) c.
Definition MPExperimenter_validateInput (range : ByteRange) (p : Z) (c : Validation) : option (bool * Validation) :=
  if v_lengthRemaining c <? sizeof_MPExperimenter then Some (false, lengthRemainingIsInvalid (br_addr range + p) c)
  else Some (true, c).

Definition MPPortStatsRequest_validateInput (_ : Z) (c : Validation) : option (bool * Validation) := exact_size_quiet 8 c.
Definition MPQueueStatsRequest_validateInput (_ : Z) (c : Validation) : option (bool * Validation) := exact_size_quiet 8 c.
Definition MPGroupStatsRequest_validateInput (_ : Z) (c : Validation) : option (bool * Validation) := exact_size_quiet 8 c.
Definition MPMeterConfigRequest_validateInput (_ : Z) (c : Validation) : option (bool * Validation) := exact_size_quiet 8 c.
Definition MPQueueDescRequest_validateInput (_ : Z) (c : Validation) : option (bool * Validation) := exact_size_quiet 8 c.

(** [MPFlowStatsRequest] and [MPFlowMonitorRequest] end with a match; [size] is
    that of the members before it. *)
Definition request_with_match (size : Z) (range : ByteRange) (p : Z) (c : Validation) : option (bool * Validation) :=
  let length := v_lengthRemaining c in
  if length <? size then Some (false, c) else
  let m := drop (Z.to_nat (p + size)) (br_data range) in
  '(ok, c) ← MatchHeader_validateInput (br_addr range + p + size) m (length - size) c;
  if negb (ok : bool) then Some (false, c) else
  matchLength ← MatchHeader_length m;
  Some (length =? size + PadLength matchLength, c).

Definition MPFlowStatsRequest_validateInput : ByteRange -> Z -> Validation -> option (bool * Validation) :=
  request_with_match 32.
Definition MPFlowMonitorRequest_validateInput : ByteRange -> Z -> Validation -> option (bool * Validation) :=
  request_with_match 16.

(** [MPFlowStatsReply::instructions] and its check. *)
Definition MPFlowStatsReply_instructions (range : ByteRange) (p : Z) : option ByteRange :=
  let m := drop (Z.to_nat (p + 48)) (br_data range) in
  type ← MatchHeader_type m;
  assert! (type =? OFPMT_OXM) || (type =? OFPMT_STANDARD);;
  matchLength ← MatchHeader_length m;
  let offset := 48 + PadLength matchLength in
  length ← rd16 (br_data range) p;
  assert! (offset <=? length);;
  SafeByteRange range p length offset.

Definition MPFlowStatsReply_validateInput (range : ByteRange) (p : Z) (c : Validation) : option (bool * Validation) :=
  length ← rd16 (br_data range) p;
  let '(ok, c) := validateAlignedLength length 52 c in
  if negb ok then Some (false, c) else
  let m := drop (Z.to_nat (p + 48)) (br_data range) in
  '(ok, c) ← MatchHeader_validateInput (br_addr range + p + 48) m (length - 48) c;
  if negb (ok : bool) then Some (false, c) else
  matchLength ← MatchHeader_length m;
  let c := setLengthRemaining (u64 (length - 48 - matchLength)) c in
  instructions ← MPFlowStatsReply_instructions range p;
  InstructionRange_validateInput instructions c.

Definition OFPFME_ABBREV : Z := 4.

Definition MPFlowMonitorReply_validateInput (range : ByteRange) (p : Z) (c : Validation) : option (bool * Validation) :=
  let lengthRemaining := v_lengthRemaining c in
  if lengthRemaining <? OFPFME_ABBREV then Some (false, c) else
  event ← rd16 (br_data range) (p + 2);
  length ← rd16 (br_data range) p;
  if OFPFME_ABBREV <=? event then Some (length =? 8, c) else
  if lengthRemaining <? length then Some (false, c) else
  if length <? 24 then Some (false, c) else
  let m := drop (Z.to_nat (p + 24)) (br_data range) in
  '(ok, c) ← MatchHeader_validateInput (br_addr range + p + 24) m (length - 24) c;
  if negb (ok : bool) then Some (false, c) else
  matchLength ← MatchHeader_length m;
  Some (negb (length <? 24 + PadLength matchLength), c).

(** Sections that start with a structure of [size] bytes, whose length is at
    [offset], and end with a range. *)
Definition section_with_range (offset size : Z) (check : ByteRange -> Validation -> option (bool * Validation))
    (range : ByteRange) (p : Z) (c : Validation) : option (bool * Validation) :=
  len ← rd16 (br_data range) (p + offset);
  let '(ok, c) := validateAlignedLength len size c in
  if negb ok then Some (false, c)
  else r ← SafeByteRange range p len size; check r c.

Definition MPGroupDesc_validateInput : ByteRange -> Z -> Validation -> option (bool * Validation) :=
  section_with_range 0 8 BucketRange_validateInput.
Definition MPGroupStats_validateInput : ByteRange -> Z -> Validation -> option (bool * Validation) :=
  section_with_range 0 40 PacketCounterRange_validateInput.
Definition MPMeterConfig_validateInput : ByteRange -> Z -> Validation -> option (bool * Validation) :=
  section_with_range 0 8 MeterBandRange_validateInput.
Definition MPMeterStats_validateInput : ByteRange -> Z -> Validation -> option (bool * Validation) :=
  section_with_range 4 40 PacketCounterRange_validateInput.

Definition sizeof_MPPortStats : Z := 80.
Definition MPPortStats_validateInput (range : ByteRange) (p : Z) (c : Validation) : option (bool * Validation) :=
  if v_lengthRemaining c <? sizeof_MPPortStats then Some (false, c) else
  len ← rd16 (br_data range) p;
  props ← SafeByteRange range p len sizeof_MPPortStats;
  PropertyRange_validateInput props c.

Definition sizeof_MPTableFeatures : Z := 64.
Definition MPTableFeatures_validateInput (range : ByteRange) (p : Z) (c : Validation) : option (bool * Validation) :=
  let lengthRemaining := v_lengthRemaining c in
  if lengthRemaining <? sizeof_MPTableFeatures then Some (false, c) else
  len ← rd16 (br_data range) p;
  if len <? sizeof_MPTableFeatures then Some (false, c) else
  if lengthRemaining <? (if negb (len mod 8 =? 0) then PadLength len else len) then Some (false, c) else
  props ← SafeByteRange range p (PadLength len) sizeof_MPTableFeatures;
  validate_properties TableFeatureProperty_check props c.

(** The length that is looked at is that of the whole message, and not what is
    left of it. *)
Definition MPAggregateStatsReplyV6_validateInput (range : ByteRange) (p : Z) (c : Validation) : option (bool * Validation) :=
  let length := v_length c in
  if length <? 4 then Some (false, c) else
  assert! IsPtrAligned (br_addr range + p) 2;;
  StatHeader_validateInput (br_addr range + p) (drop (Z.to_nat p) (br_data range)) length c.

(** ** Every check ends *)

(** The check answers: it reads nothing outside the range, fails no assertion and
    does not loop. *)
Notation ends r := (wp r (fun _ => True)).

Lemma ends_some {A} (r : option A) : is_Some r -> ends r.
Proof. by intros [? ->]. Qed.

Lemma some_ends {A} (r : option A) : ends r -> is_Some r.
Proof. destruct r; [by eexists|done]. Qed.

(** What follows a check, when it answered. *)
Lemma ends_then (r : option (bool * Validation)) {B} (k : bool -> Validation -> option B) Q :
  ends r -> (forall ok c, wp (k ok c) Q) -> wp ('(ok, c) ← r; k ok c) Q.
Proof. destruct r as [[ok c]|]; [|done]. intros _ K. apply K. Qed.

Lemma wp_SafeByteRange range p len off {B} (k : ByteRange -> option B) Q :
  bytes_ok (br_data range) -> 0 <= p -> 0 <= off -> (off <= len -> p + len <= br_size range) ->
  (forall r, bytes_ok (br_data r) -> br_addr r = br_addr range + p + off \/ br_addr r = 0 /\ br_data r = [] ->
     wp (k r) Q) -> wp (r ← SafeByteRange range p len off; k r) Q.
Proof.
  intros Hb Hp Ho Hr K. unfold SafeByteRange, br_size in *. destruct (Z.leb_spec off len); cbn [mbind option_bind].
  - rewrite slice_some by lia. cbn [mbind option_bind]. apply K; [|by left]. by apply Forall_take, Forall_drop.
  - apply K; [constructor|by right].
Qed.

(** The range behind a structure of [off] bytes at an aligned place is aligned. *)
Lemma safe_aligned range p off (r : ByteRange) :
  br_addr range mod 8 = 0 -> p mod 8 = 0 -> off mod 8 = 0 ->
  br_addr r = br_addr range + p + off \/ br_addr r = 0 /\ br_data r = [] -> br_addr r mod 8 = 0.
Proof. intros Ha Hp Ho [-> | [-> _]]; [|done]. Z.to_euclidean_division_equations. lia. Qed.

Lemma params_aligned size sfo al a : iter_params size sfo al -> a mod al = 0 -> IsPtrAligned a al = true.
Proof.
  intros (_ & [[-> _]|[[-> _]|[-> _]]]) Ha; [by rewrite IsPtrAligned_8, Ha|..];
    change 4 with (2 ^ 2) in *; by rewrite IsPtrAligned_pow2, Ha by done.
Qed.

(** Ranges whose elements carry their sizes. *)
Lemma elements_end size sfo al range (body : Z -> Validation -> option (bool * Validation)) n c :
  iter_params size sfo al -> bytes_ok (br_data range) -> br_addr range mod al = 0 -> tiled size sfo al range 0 n ->
  (forall p e a, 0 <= p -> declared sfo (br_data range) p = Some e -> 4 <= e -> (al = 8 -> size <= e) ->
     p + jump al e <= br_size range -> IsPtrAligned (br_addr range + p) al = true -> ends (body p a)) ->
  ends (for_elements size sfo al body (length (br_data range)) range 0 c).
Proof.
  intros Hpar Hb Ha Hn Hbody.
  destruct (for_elements_tiled size sfo al range Hpar Hb body (fun _ _ => True) (length (br_data range)) 0 n c)
    as (go & c2 & -> & _); [|done|done| | |done|done].
  - intros p e a Hp Hd He H8 Hj Hal _. pose proof (Hbody p e a Hp Hd He H8 Hj Hal) as Hw.
    destruct (body p a) as [[go a']|]; [eauto|done].
  - rewrite Z.add_0_r. by eapply params_aligned.
  - pose proof (tiled_count size sfo al range Hpar Hb 0 n Hn). unfold br_size, zlen in *. lia.
Qed.

Lemma range_ends size sfo al range elem c :
  iter_params size sfo al -> bytes_ok (br_data range) ->
  (forall p e a, 0 <= p -> declared sfo (br_data range) p = Some e -> 4 <= e -> (al = 8 -> size <= e) ->
     p + jump al e <= br_size range -> IsPtrAligned (br_addr range + p) al = true -> ends (elem p a)) ->
  ends (ProtocolRange_validateInput size sfo al elem range c).
Proof.
  intros Hpar Hb Helem. unfold ProtocolRange_validateInput.
  destruct (range_validity size sfo al range c Hpar Hb) as (b & c1 & -> & Hiff & _). cbn [mbind option_bind].
  destruct b; cbn [negb]; [|done]. destruct (proj1 Hiff eq_refl) as (_ & Ha & n & Hn). by eapply elements_end.
Qed.

Lemma accepted_range_ends size sfo al range c :
  iter_params size sfo al -> bytes_ok (br_data range) -> ends (ProtocolRange_validateInput size sfo al accept range c).
Proof. intros Hpar Hb. by apply range_ends. Qed.

(** Ranges of structures of one size: only the total is checked, so that the
    elements are aligned only when the range is. *)
Lemma fixed_end size range fuel p c :
  0 < size < 2 ^ 16 -> size mod 8 = 0 -> br_addr range mod 8 = 0 -> p mod 8 = 0 -> 0 <= p ->
  (exists k, br_size range = p + k * size /\ 0 <= k <= Z.of_nat fuel) ->
  ends (for_elements size PROTOCOL_ITERATOR_SIZE_FIXED 8 accept fuel range p c).
Proof.
  intros Hs H8 Ha. revert p c. induction fuel as [|fuel IH]; intros p c Hp8 Hp (k & Hk & Hr); cbn [for_elements].
  { rewrite (proj2 (Z.eqb_eq p _)) by lia. done. }
  destruct (Z.eqb_spec p (br_size range)) as [|Hne]; [done|]. cbn [accept mbind option_bind negb].
  unfold ProtocolIterator_next, ProtocolElement_size. rewrite (IsPtrAligned_8_add _ _ Ha Hp8).
  change (PROTOCOL_ITERATOR_SIZE_FIXED =? PROTOCOL_ITERATOR_SIZE_FIXED) with true. cbn [mbind option_bind].
  change (8 =? 8) with true. cbn iota. rewrite PadLength_fixed by lia.
  apply IH; [|lia|exists (k - 1); nia]. Z.to_euclidean_division_equations. lia.
Qed.

Lemma fixed_range_ends size range c : 0 < size < 2 ^ 16 -> size mod 8 = 0 -> br_addr range mod 8 = 0 ->
  ends (ProtocolRange_validateInput size PROTOCOL_ITERATOR_SIZE_FIXED 8 accept range c).
Proof.
  intros Hs H8 Ha. unfold ProtocolRange_validateInput, IsProtocolRangeValid, isProtocolRangeFixedValid.
  change (PROTOCOL_ITERATOR_SIZE_FIXED =? PROTOCOL_ITERATOR_SIZE_FIXED) with true. cbn iota.
  rewrite (proj2 (Z.ltb_lt _ _) (proj1 Hs)), H8. cbn [andb Z.eqb]. destruct (Z.eqb_spec (br_size range mod size) 0) as [Hm|];
    cbn [negb mbind option_bind]; [|done].
  apply fixed_end; try done. exists (br_size range / size). unfold br_size, zlen in *.
  pose proof (Z.div_pos (Z.of_nat (length (br_data range))) size). Z.to_euclidean_division_equations. nia.
Qed.

(** The lists of properties. *)
Lemma property_params : iter_params 4 2 8.
Proof. unfold iter_params. lia. Qed.

Lemma properties_total range c : bytes_ok (br_data range) -> ends (PropertyRange_validateInput range c).
Proof. intros Hb. by apply (accepted_range_ends 4 2 8 range c property_params). Qed.

(** A property of a checked list: its length, at least that of its header, and
    its place. *)
Definition property_at (props : ByteRange) (p e : Z) : Prop :=
  0 <= p /\ rd16 (br_data props) (p + 2) = Some e /\ 4 <= e /\ p + PadLength e <= br_size props /\
  (br_addr props + p) mod 8 = 0.

Lemma validate_properties_end one props c :
  bytes_ok (br_data props) -> (forall p e a, property_at props p e -> ends (one props p a)) ->
  ends (validate_properties one props c).
Proof.
  intros Hb Hone. unfold validate_properties, PropertyRange_validateInput, ProtocolRange_validateInput.
  destruct (range_validity 4 2 8 props c property_params Hb) as (b & c1 & -> & Hiff & _). cbn [mbind option_bind].
  destruct b; cbn [negb mbind option_bind]; [|done]. destruct (proj1 Hiff eq_refl) as (_ & Ha & n & Hn).
  apply ends_then; [by eapply (elements_end 4 2 8); [apply property_params|done..|done]|]. intros [] c2; cbn [negb]; [|done].
  eapply (elements_end 4 2 8); [apply property_params|done..|]. intros p e a Hp Hd He _ Hj Hal.
  apply (Hone p e a). rewrite IsPtrAligned_8 in Hal. apply Z.eqb_eq in Hal. by split_and!.
Qed.

Lemma property_cast_some props p al : (br_addr props + p) mod 8 = 0 -> al = 2 \/ al = 4 \/ al = 8 ->
  property_cast props p al = Some tt.
Proof.
  intros Ha Hal. unfold property_cast.
  assert (exists k, al = 2 ^ k /\ 0 <= k <= 3) as (k & -> & Hk) by (destruct Hal as [->|[->| ->]]; [exists 1|exists 2|exists 3]; done).
  rewrite IsPtrAligned_pow2 by lia. assert ((br_addr props + p) mod 2 ^ k = 0) as ->; [|done].
  assert (k = 0 \/ k = 1 \/ k = 2 \/ k = 3) as [->|[->|[->| ->]]] by lia; Z.to_euclidean_division_equations; lia.
Qed.

(** Reads of the fields of a property. *)
Lemma property_type props p e : bytes_ok (br_data props) -> property_at props p e ->
  exists t, rd16 (br_data props) p = Some t.
Proof.
  intros Hb (Hp & Hl & He & Hj & _). pose proof (rd_be_range _ _ _ _ Hb Hl). destruct (PadLength_bounds e ltac:(lia)).
  unfold br_size in *. apply rd_be_some; lia.
Qed.

Ltac property_start Hb Hat t :=
  destruct (property_type _ _ _ Hb Hat) as [t ->]; cbn [mbind option_bind];
  destruct Hat as (Hp & Hl & He & Hj & Ha).

Lemma QueueProperty_ends props p e c : bytes_ok (br_data props) -> property_at props p e -> ends (QueueProperty_check props p c).
Proof.
  intros Hb Hat. unfold QueueProperty_check. property_start Hb Hat t. destruct (t =? _); [|done].
  rewrite property_cast_some, Hl by tauto. done.
Qed.

Lemma TableModProperty_ends props p e c : bytes_ok (br_data props) -> property_at props p e -> ends (TableModProperty_check props p c).
Proof.
  intros Hb Hat. unfold TableModProperty_check. property_start Hb Hat t.
  destruct (t =? OFPTMPT_EVICTION); [rewrite property_cast_some, Hl by tauto; done|].
  destruct (t =? OFPTMPT_VACANCY); [rewrite property_cast_some, Hl by tauto; done|].
  destruct (t =? _); [|done]. rewrite property_cast_some, Hl by tauto. done.
Qed.

Lemma TableFeatureProperty_ends check props p e c :
  (forall r c, bytes_ok (br_data r) -> ends (check r c)) -> bytes_ok (br_data props) -> property_at props p e ->
  ends (TableFeatureProperty_validateInput check props p c).
Proof.
  intros Hc Hb (Hp & Hl & He & Hj & Ha). unfold TableFeatureProperty_validateInput.
  rewrite property_cast_some, Hl by tauto. cbn [mbind option_bind]. pose proof (rd_be_range _ _ _ _ Hb Hl).
  destruct (PadLength_bounds e ltac:(lia)). apply wp_SafeByteRange; [done|lia..|]. intros r Hr _. by apply Hc.
Qed.

Lemma ActionID_ends range c : bytes_ok (br_data range) -> ends (ActionIDRange_validateInput range c).
Proof.
  intros Hb. apply range_ends; [unfold iter_params; lia|done|]. intros p e a Hp Hd He _ Hj Hal.
  unfold ActionID_validateInput. unfold declared in Hd. change (2 =? PROTOCOL_ITERATOR_SIZE_CONDITIONAL) with false in Hd.
  cbn iota in Hd. rewrite Hd. cbn [mbind option_bind]. done.
Qed.

Lemma TableFeatures_ends props p e c : bytes_ok (br_data props) -> property_at props p e ->
  ends (TableFeatureProperty_check props p c).
Proof.
  intros Hb Hat. unfold TableFeatureProperty_check. destruct (property_type _ _ _ Hb Hat) as [t ->]. cbn [mbind option_bind].
  destruct (orb _ _); [|destruct (orb _ _); [|destruct (orb _ _); [|destruct (orb _ _); [|done]]]];
    (eapply TableFeatureProperty_ends; [|done..]); intros r c' Hr.
  - apply (accepted_range_ends 8 2 4); [unfold iter_params; lia|done].
  - done.
  - by apply ActionID_ends.
  - apply (accepted_range_ends 8 PROTOCOL_ITERATOR_SIZE_CONDITIONAL 4); [|done]. unfold iter_params. split; [lia|]. right. right. done.
Qed.

(** Buckets and queues. *)
Lemma actions_end range c : bytes_ok (br_data range) -> ends (ActionRange_validateInput range c).
Proof. intros Hb. by destruct (actions_valid_iff range c Hb) as (b & c' & -> & _). Qed.

Lemma Buckets_end range c : bytes_ok (br_data range) -> ends (BucketRange_validateInput range c).
Proof.
  intros Hb. apply range_ends; [unfold iter_params, sizeof_Bucket; lia|done|]. intros p e a Hp Hd He H8 Hj Hal.
  unfold declared in Hd. change (0 =? PROTOCOL_ITERATOR_SIZE_CONDITIONAL) with false in Hd. cbn iota in Hd. rewrite Z.add_0_r in Hd.
  unfold Bucket_validateInput. rewrite Hd. cbn [mbind option_bind]. destruct (_ <? _); [done|].
  pose proof (rd_be_range _ _ _ _ Hb Hd). destruct (PadLength_bounds e ltac:(lia)). change (jump 8 e) with (PadLength e) in Hj.
  apply wp_SafeByteRange; [done|unfold sizeof_Bucket; lia..|]. intros r Hr _. by apply actions_end.
Qed.

Lemma Queues_end range c : bytes_ok (br_data range) -> ends (QueueRange_validateInput range c).
Proof.
  intros Hb. apply range_ends; [unfold iter_params, sizeof_Queue; lia|done|]. intros p e a Hp Hd He H8 Hj Hal.
  unfold declared in Hd. change (8 =? PROTOCOL_ITERATOR_SIZE_CONDITIONAL) with false in Hd. cbn iota in Hd.
  unfold Queue_validateInput. rewrite Hd. cbn [mbind option_bind]. destruct (_ <? _); [done|].
  change (jump 8 e) with (PadLength e) in Hj. apply wp_SafeByteRange; [done|unfold sizeof_Queue; lia..|]. intros r Hr _.
  apply validate_properties_end; [done|]. intros. by eapply QueueProperty_ends.
Qed.

(** ** Sections in an array *)

(** What [validateArrayVariableSize] knows of a section when it asks for its
    check: [len] is its size field. *)
Definition section_at (Offset : Z) (body : ByteRange) (p len : Z) : Prop :=
  0 <= p /\ p mod 8 = 0 /\ br_addr body mod 8 = 0 /\ rd16 (br_data body) (p + Offset) = Some len /\
  Offset + 2 <= len < 2 ^ 16 /\ len <= PadLength len /\ PadLength len mod 8 = 0 /\ p + PadLength len <= br_size body.

Lemma array_loop_ends (I : Validation -> Prop) check fuel Offset body p len c :
  0 <= Offset -> bytes_ok (br_data body) -> br_addr body mod 8 = 0 ->
  (forall p e a, section_at Offset body p e -> I a -> wp (check p a) (fun r => r.1 = true -> I r.2)) ->
  p mod 8 = 0 -> 0 <= p -> 0 <= len -> p + len <= br_size body -> (Z.to_nat len < fuel)%nat -> I c ->
  ends (array_var_loop check fuel Offset body p len c).
Proof.
  intros Ho Hb Ha Hc. revert p len c. induction fuel as [|fuel IH]; intros p len c Hpm Hp Hl Hs Hf HI; [lia|].
  cbn [array_var_loop]. destruct (Z.eqb_spec len 0); [done|]. rewrite (IsPtrAligned_8_add _ _ Ha Hpm).
  destruct (Z.ltb_spec len (Offset + 2)); [done|]. apply wp_read_be; [done|unfold br_size in Hs; lia..|]. intros size Hsz Hr.
  destruct (Z.ltb_spec size (Offset + 2)); [done|]. change (256 ^ 2) with (2 ^ 16) in Hr.
  destruct (PadLength_bounds size ltac:(lia)) as [Hpad Hpad8]. destruct (Z.ltb_spec len (PadLength size)); [done|].
  assert (section_at Offset body p size) as Hat by (split_and!; done || lia).
  eapply wp_bind; [by apply (Hc p size c)|]. intros [ok c'] HI'. cbn [fst snd] in HI'. destruct ok; cbn [negb]; [|done].
  rewrite (proj2 (Z.ltb_lt 0 _)) by lia. apply IH; [by rewrite Zplus_mod, Hpm, Hpad8|lia..|by apply HI'].
Qed.

Lemma array_ends (I : Validation -> Prop) check Offset body minVersion c :
  0 <= Offset -> bytes_ok (br_data body) -> 0 <= v_lengthRemaining c <= br_size body -> I c ->
  (forall p e a, section_at Offset body p e -> I a -> wp (check p a) (fun r => r.1 = true -> I r.2)) ->
  ends (validateArrayVariableSize check Offset body minVersion c).
Proof.
  intros Ho Hb Hl HI Hc. unfold validateArrayVariableSize. destruct (_ <? _); [done|]. destruct (negb (_ =? 0)); [done|].
  rewrite IsPtrAligned_8. destruct (Z.eqb_spec (br_addr body mod 8) 0); cbn [negb]; [|done].
  apply (array_loop_ends I); try done; lia.
Qed.

Lemma any_array_ends check Offset body minVersion c :
  0 <= Offset -> bytes_ok (br_data body) -> 0 <= v_lengthRemaining c <= br_size body ->
  (forall p e a, section_at Offset body p e -> ends (check p a)) ->
  ends (validateArrayVariableSize check Offset body minVersion c).
Proof.
  intros Ho Hb Hl Hc. apply (array_ends (fun _ => True)); try done. intros p e a Hat _.
  eapply wp_mono; [by apply (Hc p e a)|done].
Qed.

Lemma fixed_array_ends size body minVersion c : 0 < size -> size mod 8 = 0 -> 0 <= v_lengthRemaining c ->
  ends (validateArrayFixedSize accept size body minVersion c).
Proof.
  intros Hs H8 Hl. unfold validateArrayFixedSize. destruct (_ <? _); [done|]. rewrite IsPtrAligned_8.
  destruct (Z.eqb_spec (br_addr body mod 8) 0) as [Ha|]; cbn [negb]; [|done].
  destruct (Z.eqb_spec (v_lengthRemaining c mod size) 0) as [Hm|]; cbn [negb]; [|done].
  assert (0 <= v_lengthRemaining c / size) as Hq by (apply Z.div_pos; lia).
  assert (v_lengthRemaining c = Z.of_nat (Z.to_nat (v_lengthRemaining c / size)) * size) as E.
  { rewrite Z2Nat.id by done. Z.to_euclidean_division_equations. nia. }
  rewrite E at 2. rewrite (array_fixed_loop_all accept) by (done || nia).
  generalize ((fun i => 0 + i * size) <$> seqZ 0 (Z.of_nat (Z.to_nat (v_lengthRemaining c / size)))) as ps.
  clear. induction ps as [|p ps IH]; [done|]. exact IH.
Qed.

Lemma QueueDesc_ends body p len c : bytes_ok (br_data body) -> section_at 8 body p len -> ends (QueueDesc_validateInput body p c).
Proof.
  intros Hb (Hp & Hpm & Ha & Hl & Hr & Hpad & _ & Hs). unfold QueueDesc_validateInput. rewrite Hl. cbn [mbind option_bind].
  destruct (validateBool _ _ c) as [ok c1]. destruct ok; cbn [negb]; [|done].
  apply wp_SafeByteRange; [done|unfold sizeof_QueueDesc; lia..|]. intros r Hrb _. by apply properties_total.
Qed.

(** The table of a status message and those of an array. *)
Lemma TableDesc_ends range p c : bytes_ok (br_data range) -> 0 <= p -> p + 2 <= br_size range ->
  (forall len, rd16 (br_data range) p = Some len -> len <= v_lengthRemaining c -> p + len <= br_size range) ->
  ends (TableDesc_validateInput range p c).
Proof.
  intros Hb Hp Hs Hroom. unfold TableDesc_validateInput. destruct (_ <? _); [done|].
  apply wp_read_be; [done|unfold br_size in Hs; lia..|]. intros len Hl Hr. destruct (orb _ _) eqn:Eo; [done|].
  apply orb_false_iff in Eo as [?%Z.ltb_ge ?%Z.ltb_ge].
  apply wp_SafeByteRange; [done|unfold sizeof_TableDesc; lia|done| |]; [intros _; by apply Hroom|]. intros r Hrb _. by apply properties_total.
Qed.

(** In an array the context still tells the size of the whole body, but the loop has
    compared the size of the section with what is left of it. *)
Lemma TableDesc_section_ends body p len c : bytes_ok (br_data body) -> section_at 0 body p len -> ends (TableDesc_validateInput body p c).
Proof.
  intros Hb (Hp & _ & _ & Hl & Hr & Hpad & _ & Hs). rewrite Z.add_0_r in Hl. apply TableDesc_ends; [done|done|lia|].
  intros n Hn _. simplify_eq. lia.
Qed.

Lemma section_with_range_ends Offset size check body p len c :
  bytes_ok (br_data body) -> section_at Offset body p len -> 0 <= size -> size mod 8 = 0 ->
  (forall r c, bytes_ok (br_data r) -> br_addr r mod 8 = 0 -> ends (check r c)) ->
  ends (section_with_range Offset size check body p c).
Proof.
  intros Hb (Hp & Hpm & Ha & Hl & Hr & Hpad & _ & Hs) H0 H8 Hc. unfold section_with_range. rewrite Hl. cbn [mbind option_bind].
  destruct (validateAlignedLength len size c) as [ok c1]. destruct ok; cbn [negb]; [|done].
  apply wp_SafeByteRange; [done|lia..|]. intros r Hrb Hra. apply Hc; [done|]. by apply (safe_aligned body p size).
Qed.

Lemma PortStats_ends body p len c : bytes_ok (br_data body) -> section_at 0 body p len -> ends (MPPortStats_validateInput body p c).
Proof.
  intros Hb (Hp & Hpm & Ha & Hl & Hr & Hpad & _ & Hs). unfold MPPortStats_validateInput. destruct (_ <? _); [done|].
  rewrite Z.add_0_r in Hl. rewrite Hl. cbn [mbind option_bind]. apply wp_SafeByteRange; [done|unfold sizeof_MPPortStats; lia..|].
  intros r Hrb _. by apply properties_total.
Qed.

Lemma TableFeatures_section_ends body p len c : bytes_ok (br_data body) -> section_at 0 body p len ->
  ends (MPTableFeatures_validateInput body p c).
Proof.
  intros Hb (Hp & Hpm & Ha & Hl & Hr & Hpad & _ & Hs). unfold MPTableFeatures_validateInput. destruct (_ <? sizeof_MPTableFeatures); [done|].
  rewrite Z.add_0_r in Hl. rewrite Hl. cbn [mbind option_bind]. destruct (len <? _); [done|]. destruct (_ <? _); [done|].
  apply wp_SafeByteRange; [done|unfold sizeof_MPTableFeatures; lia..|]. intros r Hrb _.
  apply validate_properties_end; [done|]. intros. by eapply TableFeatures_ends.
Qed.

(** ** Matches and statistics *)

Lemma wp_match addr m L c {B} (k : bool -> Validation -> option B) Q :
  bytes_ok m -> 0 <= L <= zlen m ->
  (forall c', wp (k false c') Q) ->
  (forall type len, 4 <= L -> addr mod 8 = 0 -> MatchHeader_type m = Some type -> MatchHeader_length m = Some len ->
     0 <= len < 2 ^ 16 -> match_header_ok (v_version c) m type len L -> wp (k true c) Q) ->
  wp ('(ok, c') ← MatchHeader_validateInput addr m L c; k ok c') Q.
Proof.
  intros Hm HL Kf Kt. destruct (MatchHeader_verdict addr m L c Hm HL) as (ok & c' & -> & Hok & Hc). cbn [mbind option_bind].
  destruct ok; [|by apply Kf]. subst c'. destruct (proj1 Hok eq_refl) as (H4 & Ha & type & len & Ht & Hl & Hh).
  apply (Kt type len); try done. by apply (rd_be_range 2 m 2 len).
Qed.

Lemma request_with_match_ends size body c : bytes_ok (br_data body) -> 0 <= size ->
  0 <= v_lengthRemaining c <= br_size body -> ends (request_with_match size body 0 c).
Proof.
  intros Hb Hs Hl. unfold request_with_match. destruct (Z.ltb_spec (v_lengthRemaining c) size); [done|].
  apply wp_match; [by apply Forall_drop|unfold br_size in *; zl|done|]. intros type len _ _ _ -> _ _. done.
Qed.

Lemma wp_stat addr m L c : bytes_ok m -> L <= zlen m ->
  wp (StatHeader_validateInput addr m L c) (fun r => r.1 = true -> 4 <= L).
Proof.
  intros Hm HL. unfold StatHeader_validateInput. destruct (Z.ltb_spec L 4); [done|]. destruct (negb _); [done|].
  apply wp_read_be; [done|lia..|]. intros reserved _ _. destruct (negb _); [done|].
  apply wp_read_be; [done|lia..|]. intros len _ Hr. destruct (Z.ltb_spec len 4); [done|].
  destruct (Z.ltb_spec L (PadLength len)); [done|]. change (256 ^ 2) with (2 ^ 16) in Hr.
  destruct (oxm_verdict addr m c Hm len L) as (ok & c' & -> & _); [lia..|]. by intros _.
Qed.

Lemma FlowMonitor_ends body p len c : bytes_ok (br_data body) -> section_at 0 body p len ->
  ends (MPFlowMonitorReply_validateInput body p c).
Proof.
  intros Hb (Hp & Hpm & Ha & Hl & Hr & Hpad & Hpad8 & Hs). unfold MPFlowMonitorReply_validateInput. rewrite Z.add_0_r in Hl.
  assert (8 <= PadLength len) by (Z.to_euclidean_division_equations; lia). unfold br_size in *.
  destruct (_ <? OFPFME_ABBREV); [done|]. apply wp_read_be; [done|lia..|]. intros event _ _. rewrite Hl. cbn [mbind option_bind].
  destruct (_ <=? _); [done|]. destruct (_ <? len); [done|]. destruct (Z.ltb_spec len 24); [done|].
  apply wp_match; [by apply Forall_drop|zl|done|]. intros type mlen _ _ _ -> _ _. done.
Qed.

(** From OpenFlow 1.3 on a match is a list of fields, whose length was compared
    with that of the entry. *)
Lemma FlowStats_ends body p len c : bytes_ok (br_data body) -> section_at 0 body p len -> 4 <= v_version c ->
  wp (MPFlowStatsReply_validateInput body p c) (fun r => r.1 = true -> 4 <= v_version r.2).
Proof.
  intros Hb (Hp & Hpm & Ha & Hl & Hr & Hpad & Hpad8 & Hs) Hv. unfold MPFlowStatsReply_validateInput. rewrite Z.add_0_r in Hl.
  rewrite Hl. cbn [mbind option_bind]. unfold validateAlignedLength, validateBool. destruct (andb _ _) eqn:Eok; cbn [negb]; [|done].
  apply andb_true_iff in Eok as [H52%Z.leb_le _]. unfold br_size in *. set (m := drop _ _).
  assert (bytes_ok m) as Hm by (by apply Forall_drop). assert (len - 48 <= zlen m) as Hz by (unfold m; zl).
  apply wp_match; [done|lia|done|]. intros type mlen H4 _ Et Em Hmr Hok. rewrite Em. cbn [negb mbind option_bind].
  assert (type = OFPMT_OXM /\ PadLength mlen <= len - 48) as [-> Hroom] by (unfold match_header_ok in Hok; naive_solver lia).
  unfold MPFlowStatsReply_instructions. fold m. rewrite Et, Em, Hl. cbn [mbind option_bind Z.eqb orb].
  change (OFPMT_OXM =? OFPMT_OXM) with true. cbn [orb]. rewrite (proj2 (Z.leb_le _ _)) by lia.
  destruct (PadLength_bounds mlen ltac:(lia)) as [Hpm2 _]. apply wp_SafeByteRange; [done|lia..|unfold br_size; lia|].
  intros r Hrb _. destruct (instructions_valid_iff r (setLengthRemaining (u64 (len - 48 - mlen)) c) Hrb) as (b & c' & -> & _ & Hc).
  cbn [wp fst snd]. intros ->. by rewrite (Hc eq_refl).
Qed.
