(* ===== verification/ChannelMsgs.v ===== *)
(** * The messages a connection handles itself (include/ofp/headeronly.h,
    src/ofp/error.cpp, echorequest.cpp, echoreply.cpp, featuresreply.cpp, and the
    port descriptions of src/ofp/multipartreply.cpp) *)

From S2P Require Import Prelude.
From S2P Require Import ByteOrder.
From S2P Require Import Constants.
From S2P Require Import Validation.
From S2P Require Import ProtocolRange.
From S2P Require Import Ports.
From S2P Require Import MsgBuffer.
From S2P Require Import Messages.
From S2P Require Import Multipart.
From S2P Require Import Normalize.
From S2P Require Import Sections.

(** ** Messages that consist of a header *)

(** The builder's message type, the transaction id of a reply ([isReply_] when it
    is given). *)
Record HeaderOnlyBuilder : Type := mkHeaderOnly {
  ho_type : Z;
  ho_reply : option Z }.

Definition HeaderOnlyBuilder_send {W} `{Writable W} (b : HeaderOnlyBuilder) (ch : W) : option (Z * W) :=
  let '(xid, ch) := match ho_reply b with Some xid => (xid, ch) | None => w_nextXid ch end in
  let version := w_version ch in
  newType ← Header_translateType OFP_VERSION_4 (ho_type b) version;
  if negb (newType =? OFPT_UNSUPPORTED) then
    h ← Header_set version newType 8 xid;
    Some (xid, w_flush (w_write (Header_bytes h) ch))
  else Some (xid, ch).

(** ** Errors *)

Definition OFPHFC_INCOMPATIBLE : Z := OFPErrorCodeMake 0 0.
Definition OFPErrorCodeGetCode (code : Z) : Z := Z.land code 0xffff.
Definition sizeof_Error : Z := 12.

Record ErrorBuilder : Type := mkErrorBuilder {
  eb_xid : Z;
  eb_type : Z;
  eb_code : Z;
  eb_data : list Z }.

(** [ErrorBuilder(xid)] with [setErrorCode] and [setErrorData]. *)
Definition ErrorBuilder_make (xid code : Z) (data : list Z) : ErrorBuilder :=
  mkErrorBuilder xid (OFPErrorCodeGetType code) (OFPErrorCodeGetCode code) data.

(** [setErrorData(message)]: at most 64 bytes of it. *)
Definition error_data_of (buf : list Z) : list Z :=
  let len := zlen buf in take (Z.to_nat (if 64 <? len then 64 else len)) buf.

Definition ErrorBuilder_send {W} `{Writable W} (b : ErrorBuilder) (ch : W) : option W :=
  let msgLen := sizeof_Error + zlen (eb_data b) in
  let version := if w_version ch =? 0 then OFP_VERSION_1 else w_version ch in
  h ← Header_set version OFPT_ERROR msgLen (eb_xid b);
  let errCode := OFPErrorCodeMake (eb_type b) (eb_code b) in
  let code := OFPErrorCodeToValue version errCode in
  let type := OFPErrorTypeToValue version errCode in
  Some (w_flush (w_write (eb_data b) (w_write (Header_bytes h ++ be_bytes 2 type ++ be_bytes 2 code) ch))).

(** [Message::replyError]; [buf] is the message that is answered. *)
Definition replyError {W} `{Writable W} (buf : list Z) (error : Z) (explanation : list Z) (ch : W) : option W :=
  xid ← rd32 buf 4;
  ErrorBuilder_send (ErrorBuilder_make xid error
    (if negb (zlen explanation =? 0) then explanation else error_data_of buf)) ch.

Definition Error_class : MsgClass :=
  mkMsgClass OFPT_ERROR 12 65535 false 4 (fun _ _ c => Some (true, c)).

Definition Error_errorCode (buf : list Z) : option Z :=
  v ← b_version buf; t ← rd16 buf 8; c ← rd16 buf 10; Some (OFPErrorCodeFromValue v t c).
Definition Error_errorData (buf : list Z) : option (list Z) :=
  len ← b_length buf; if sizeof_Error <=? len then slice buf sizeof_Error (len - sizeof_Error) else Some [].

(** ** Echo *)

Definition kKeepAliveXID : Z := 0xFBD0FF86.
Definition kKeepAliveData : list Z := str "??OFTR??".
Definition kPassThruData : list Z := str "__OFTR__".

Definition EchoRequest_class : MsgClass :=
  mkMsgClass OFPT_ECHO_REQUEST 8 65535 false 4 (fun _ _ c => Some (true, c)).
Definition EchoReply_class : MsgClass :=
  mkMsgClass OFPT_ECHO_REPLY 8 65535 false 4 (fun _ _ c => Some (true, c)).

Definition isPassThru (buf : list Z) : option bool :=
  len ← b_length buf;
  data ← (if 8 + 8 <=? len then slice buf 8 8 else Some []);
  Some (bool_decide (data = kPassThruData)).

Definition echoData (buf : list Z) : option (list Z) :=
  len ← b_length buf; if 8 <=? len then slice buf 8 (len - 8) else Some [].

Definition isKeepAlive (buf : list Z) : option bool :=
  xid ← rd32 buf 4; data ← echoData buf;
  Some ((xid =? kKeepAliveXID) && bool_decide (data = kKeepAliveData)).

Record EchoRequestBuilder : Type := mkEchoRequest {
  er_xid : Z;
  er_data : list Z }.

Definition EchoRequestBuilder_setKeepAlive (b : EchoRequestBuilder) : EchoRequestBuilder :=
  mkEchoRequest kKeepAliveXID kKeepAliveData.

Definition EchoRequestBuilder_send {W} `{Writable W} (b : EchoRequestBuilder) (ch : W) : option (Z * W) :=
  let version := w_version ch in
  let '(xid, ch) := if er_xid b =? 0 then w_nextXid ch else (er_xid b, ch) in
  h ← Header_set version OFPT_ECHO_REQUEST (8 + zlen (er_data b)) xid;
  Some (xid, w_flush (w_write (er_data b) (w_write (Header_bytes h) ch))).

(** ** Features replies *)

(** [PortRange::validateInput]. *)
Definition PortRange_validateInput (range : ByteRange) (c : Validation) : option (bool * Validation) :=
  ProtocolRange_validateInput sizeof_Port 4 8 (Port_validateInput range) range c.

(** [SafeByteRange(this, header_.length(), sizeof(FeaturesReply))]. *)
Definition FeaturesReply_ports (addr : Z) (buf : list Z) : option ByteRange :=
  len ← b_length buf;
  if sizeof_FeaturesReply <=? len then
    d ← slice buf sizeof_FeaturesReply (len - sizeof_FeaturesReply);
    Some (mkRange (addr + sizeof_FeaturesReply) d)
  else Some (mkRange 0 []).

Definition FeaturesReply_validateInput (addr : Z) (buf : list Z) (c : Validation) : option (bool * Validation) :=
  version ← b_version buf;
  if OFP_VERSION_4 <=? version then Some (v_length c =? sizeof_FeaturesReply, c)
  else
    len ← b_length buf;
    let c := setLengthRemaining (len - sizeof_FeaturesReply) c in
    ports ← FeaturesReply_ports addr buf;
    PortRange_validateInput ports c.

Definition FeaturesReply_class : MsgClass :=
  mkMsgClass OFPT_FEATURES_REPLY 32 65528 true 8 FeaturesReply_validateInput.

Definition FeaturesReply_datapathId (buf : list Z) : option Z := rd64 buf 8.
Definition FeaturesReply_auxiliaryId (buf : list Z) : option Z := rd8 buf 21.

(** ** Port descriptions *)

Definition replyBody (addr : Z) (buf : list Z) : option ByteRange :=
  len ← b_length buf;
  d ← slice buf sizeof_MultipartReply (len - sizeof_MultipartReply);
  Some (mkRange (addr + sizeof_MultipartReply) d).

(** [MultipartReply::validateInput] for the type OFPMP_PORT_DESC. *)
Definition MultipartReply_validateInput_ports (addr : Z) (buf : list Z) (c : Validation) : option (bool * Validation) :=
  len ← b_length buf;
  let c := setLengthRemaining (len - sizeof_MultipartReply) c in
  body ← replyBody addr buf;
  validateArrayVariableSize (Port_validateInput body) 4 body OFP_VERSION_1 c.

Definition PortDescReply_class : MsgClass :=
  mkMsgClass OFPT_MULTIPART_REPLY 16 65535 false 4 MultipartReply_validateInput_ports.

(** ** The checks of ports always end, inside the range *)

(** A port whose length field lies in the range, and whose properties do when it
    is long enough to have any. *)
Lemma Port_validateInput_total range p len c : bytes_ok (br_data range) -> 0 <= p ->
  rd16 (br_data range) (p + 4) = Some len -> (sizeof_Port <= len <= v_lengthRemaining c -> p + len <= br_size range) ->
  is_Some (Port_validateInput range p c).
Proof.
  intros Hb Hp Hl Hroom. unfold Port_validateInput. destruct (validateBool _ _ c) as [[] c1]; cbn [negb]; [|by eexists].
  rewrite Hl. cbn [mbind option_bind]. destruct (validateBool _ _ c1) as [ok c2] eqn:E. destruct ok; cbn [negb]; [|by eexists].
  assert (sizeof_Port <= len <= v_lengthRemaining c) as [Hlen Hrem].
  { unfold validateBool in E. destruct (andb _ _) eqn:Ea; [|done]. by apply andb_true_iff in Ea as [?%Z.leb_le ?%Z.leb_le]. }
  unfold Port_properties. rewrite Hl. cbn [mbind option_bind]. rewrite (proj2 (Z.leb_le _ _) Hlen).
  unfold sizeof_Port, br_size in *. rewrite slice_some by lia. cbn [mbind option_bind]. apply some_ends, properties_total. cbn [br_data].
  by apply Forall_take, Forall_drop.
Qed.

Lemma PortRange_validateInput_total range c : bytes_ok (br_data range) -> is_Some (PortRange_validateInput range c).
Proof.
  intros Hb. apply some_ends, range_ends; [unfold iter_params, sizeof_Port; lia|done|]. intros p e a Hp Hd He H8 Hj _.
  unfold declared in Hd. change (4 =? PROTOCOL_ITERATOR_SIZE_CONDITIONAL) with false in Hd. cbn iota in Hd.
  pose proof (rd_be_range _ _ _ _ Hb Hd). destruct (PadLength_bounds e ltac:(lia)) as [Hpad _].
  change (jump 8 e) with (PadLength e) in Hj. apply ends_some, (Port_validateInput_total range p e); try done. lia.
Qed.

Lemma Port_section_ends body p len c : bytes_ok (br_data body) -> section_at 4 body p len -> ends (Port_validateInput body p c).
Proof.
  intros Hb (Hp & _ & _ & Hl & _ & Hpad & _ & Hs). apply ends_some, (Port_validateInput_total body p len); try done. lia.
Qed.

(** The two classes: whatever the message holds, its check ends inside it. *)
Lemma FeaturesReply_validate_total addr buf c : bytes_ok buf -> b_length buf = Some (zlen buf) -> 32 <= zlen buf ->
  is_Some (FeaturesReply_validateInput addr buf c).
Proof.
  intros Hb Hl H32. unfold FeaturesReply_validateInput. destruct (rd_be_some 1 buf 0) as [v Hv]; [lia..|].
  unfold b_version. rewrite rd8_rd_be, Hv. cbn [mbind option_bind]. destruct (OFP_VERSION_4 <=? v); [by eexists|].
  unfold FeaturesReply_ports. rewrite Hl. cbn [mbind option_bind]. unfold sizeof_FeaturesReply.
  rewrite (proj2 (Z.leb_le _ _)), slice_some by lia. cbn [mbind option_bind]. apply PortRange_validateInput_total. cbn [br_data].
  by apply Forall_take, Forall_drop.
Qed.

Lemma PortDesc_validate_total addr buf c : bytes_ok buf -> b_length buf = Some (zlen buf) -> 16 <= zlen buf ->
  is_Some (MultipartReply_validateInput_ports addr buf c).
Proof.
  intros Hb Hl H16. unfold MultipartReply_validateInput_ports, replyBody. rewrite Hl. cbn [mbind option_bind].
  unfold sizeof_MultipartReply. rewrite slice_some by lia. cbn [mbind option_bind].
  set (d := take _ _). assert (zlen d = zlen buf - 16) as Hd by (unfold d; zl).
  assert (bytes_ok d) as Hbd by (by apply Forall_take, Forall_drop).
  apply some_ends, any_array_ends; unfold br_size; cbn [br_data setLengthRemaining v_lengthRemaining]; [done|done|lia|].
  intros p e a Hat. by eapply (Port_section_ends (mkRange (addr + 16) d)).
Qed.
