(* ===== verification/Connection.v ===== *)
(** * Connections, the handshake and the engine's tables (src/ofp/sys/connection.cpp,
    src/ofp/sys/defaulthandshake.cpp, include/ofp/sys/tcp_connection.ipp, and the
    tables of connections and datapaths of src/ofp/sys/engine.cpp)

    A [World] holds the connection objects, addressed by pointers, and the
    engine's tables. Each function below is a member function; [None] is a failing
    assertion or the use of a pointer whose object is gone. What runs is driven by
    the event loop: the functions of the section Events are its handlers. *)

From S2P Require Import Prelude.
From S2P Require Import ByteOrder.
From S2P Require Import Constants.
From S2P Require Import SmallBuffer.
From S2P Require Import Text.
From S2P Require Import Validation.
From S2P Require Import ProtocolRange.
From S2P Require Import MsgBuffer.
From S2P Require Import Messages.
From S2P Require Import Multipart.
From S2P Require Import Normalize.
From S2P Require Import Hello.
From S2P Require Import ChannelMsgs.
From stdpp Require Import gmap.
From coqutil Require Import Datatypes.RecordSetters.
Import DoubleBraceUpdate.
#[local] Open Scope Z_scope.

(** ** Data *)

Definition FEATURES_REQ : Z := Z.shiftl 1 0.
Definition AUXILIARY : Z := Z.shiftl 1 1.
Definition NO_VERSION_CHECK : Z := Z.shiftl 1 2.

Definition kShutdownCalled : Z := 0x0001.
Definition kManualDelete : Z := 0x0002.
Definition kRequiresHandshake : Z := 0x0004.
Definition kChannelUp : Z := 0x0010.
Definition kShutdownDone : Z := 0x0020.
Definition kChannelIdle : Z := 0x0040.
Definition kPermitsAuxiliary : Z := 0x0080.
Definition kPermitsOtherVersions : Z := 0x0100.
Definition kDefaultController : Z := 0x0200.
Definition kConnectionUp : Z := 0x0400.

(** In milliseconds. *)
Definition kControllerKeepAliveTimeout : Z := 10000.
Definition kRawKeepAliveTimeout : Z := 6000.
Definition kHandshakeTimeout : Z := 5000.
Definition kKeepAliveDefaultTimeout : Z := 10000.

Inductive HandshakeState : Type := kHandshakeInit | kSentHello | kSentFeaturesRequest | kSentPortRequest.

#[export] Instance HandshakeState_eq_dec : EqDecision HandshakeState.
Proof. solve_decision. Defined.

(** The members of [DefaultHandshake]; [hs_factory] tells whether there is a
    listener factory. *)
Record Handshake : Type := mkHandshake {
  hs_versions : Z;
  hs_factory : bool;
  hs_options : Z;
  hs_startingXid : Z;
  hs_state : HandshakeState;
  hs_timeStarted : Z;
  hs_featuresReply : list Z }.

(** The channel listeners: the handshake, and the one the factory makes. *)
Inductive Listener : Type := LHandshake (h : Handshake) | LUser.

(** What the environment of the library sees of a connection: calls of the
    user's listener, alerts, and the shutdown of the socket. *)
Inductive Event : Type :=
| EUp | EDown
| EMessage (source : Z) (buf : list Z)
| EAlert (text : list Z) (data : list Z)
| EShutdown (reset : bool).

(** The read that a connection waits for: none, one of a header, or one of the
    rest of a message. *)
Inductive ReadState : Type :=
| RNone
| RHeader
| RMessage (hdr : list Z).

(** The members of [Connection] and [TCP_Connection]. [c_open] is
    [socket_.is_open()], [c_sent] what was written; [c_handshaking] and
    [c_reading] tell which handlers the event loop holds for the connection. *)
Record Conn : Type := mkConn {
  c_listener : option Listener;
  c_mainConn : Z;
  c_auxList : list Z;
  c_datapathId : Z;
  c_connId : Z;
  c_nextXid : Z;
  c_flags : Z;
  c_version : Z;
  c_auxiliaryId : Z;
  c_timeReadStarted : Z;
  c_keepAliveTimeout : Z;
  c_sent : list Z;
  c_events : list Event;
  c_open : bool;
  c_handshaking : bool;
  c_reading : ReadState }.

Record World : Type := mkWorld {
  w_conns : gmap Z Conn;
  w_dpidMap : gmap Z Z;
  w_connList : list Z;
  w_lastConnId : Z }.

Definition put (p : Z) (c : Conn) (w : World) : World :=
  mkWorld (<[p := c]> (w_conns w)) (w_dpidMap w) (w_connList w) (w_lastConnId w).

(** Run a member function of the object at [p]. *)
Definition on_conn (p : Z) (f : Conn -> option Conn) (w : World) : option World :=
  c ← w_conns w !! p; c ← f c; Some (put p c w).

Definition flag_on (flag : Z) (c : Conn) : bool := negb (Z.land (c_flags c) flag =? 0).
Definition set_flag (flag : Z) (c : Conn) : Conn := c {{ c_flags := Z.lor (c_flags c) flag }}.
Definition clear_flag (flag : Z) (c : Conn) : Conn := c {{ c_flags := Z.ldiff (c_flags c) flag }}.
Definition log_event (e : Event) (c : Conn) : Conn := c {{ c_events := c_events c ++ [e] }}.
Definition set_listener (l : option Listener) (c : Conn) : Conn := c {{ c_listener := l }}.

#[export] Instance Conn_Writable : Writable Conn := {|
  w_version := c_version;
  w_nextXid c := (c_nextXid c, c {{ c_nextXid := u32 (c_nextXid c + 1) }});
  w_write d c := c {{ c_sent := c_sent c ++ d }};
  w_flush c := c;
  w_sent := c_sent |}.

(** ** The channel going up and down *)

Definition channelDown (c : Conn) : Conn :=
  if flag_on kChannelUp c then
    let c := clear_flag kChannelUp c in
    match c_listener c with
    | Some LUser => log_event EDown c
    | Some (LHandshake _) | None => c
    end
  else c.

(** [TCP_Connection::shutdown]; without [reset] the socket is closed later, by
    [shutdown_done]. *)
Definition shutdown (reset : bool) (c : Conn) : Conn :=
  if flag_on kShutdownCalled c then c
  else if negb (c_open c) then c
  else
    let c := set_flag kShutdownCalled c in
    if reset then
      let c := channelDown (set_flag kShutdownDone c) in
      log_event (EShutdown true) (c {{ c_open := false }})
    else log_event (EShutdown false) c.

Definition set_handshake (h : Handshake) (c : Conn) : Conn := set_listener (Some (LHandshake h)) c.

Definition hs_sent (state : HandshakeState) (now : Z) (h : Handshake) : Handshake :=
  h {{ hs_state := state }} {{ hs_timeStarted := now }}.

Definition sendHello (now : Z) (h : Handshake) (c : Conn) : option Conn :=
  '(_, _, c) ← HelloBuilder_send (HelloBuilder_versions (hs_versions h)) c;
  Some (set_handshake (hs_sent kSentHello now h) c).

Definition sendFeaturesRequest (now : Z) (h : Handshake) (c : Conn) : option Conn :=
  '(_, c) ← HeaderOnlyBuilder_send (mkHeaderOnly OFPT_FEATURES_REQUEST None) c;
  Some (set_handshake (hs_sent kSentFeaturesRequest now h) c).

Definition sendPortDescRequest (now : Z) (h : Handshake) (c : Conn) : option Conn :=
  '(_, _, c) ← MultipartRequestBuilder_send
    (mkMultipartBuilder (mkMultipart (Hdr 0 OFPT_MULTIPART_REQUEST 0 0) OFPMP_PORT_DESC OFPMPF_NONE) []) c;
  Some (set_handshake (hs_sent kSentPortRequest now h) c).

Definition onChannelUp (now : Z) (h : Handshake) (c : Conn) : option Conn :=
  assert! bool_decide (hs_state h = kHandshakeInit);;
  sendHello now h (c {{ c_nextXid := hs_startingXid h }}).

Definition channelUp (now : Z) (c : Conn) : option Conn :=
  if negb (flag_on kChannelUp c) then
    let c := set_flag kChannelUp c in
    match c_listener c with
    | Some (LHandshake h) => onChannelUp now h c
    | Some LUser => Some (log_event EUp c)
    | None => Some c
    end
  else Some c.

(** ** The end of the handshake *)

(** The assertion that the handshake is the connection's listener. *)
Definition is_handshake (c : Conn) : bool :=
  match c_listener c with Some (LHandshake _) => true | _ => false end.

Definition clearChannelListener (c : Conn) : option Conn :=
  assert! is_handshake c;; Some (set_listener None c).

Definition installNewChannelListener (h : Handshake) (c : Conn) : option Conn :=
  assert! is_handshake c;;
  if hs_factory h then Some (set_listener (Some LUser) (log_event EUp c))
  else clearChannelListener c.

Definition wantFeatures (h : Handshake) : bool := negb (Z.land (hs_options h) FEATURES_REQ =? 0).

(** ** The engine's tables *)

(** [Connection::setMainConnection]. *)
Definition setMainConnection (p main auxID : Z) (w : World) : option World :=
  c ← w_conns w !! p;
  assert! (c_mainConn c =? p) && negb (main =? p) && negb (auxID =? 0);;
  m ← w_conns w !! main;
  let w := put p (c {{ c_mainConn := main }} {{ c_datapathId := c_datapathId m }} {{ c_auxiliaryId := auxID }}) w in
  m ← w_conns w !! main;
  found ← foldr (fun q r => c ← w_conns w !! q; if c_auxiliaryId c =? auxID then Some (Some q) else r)
            (Some None) (c_auxList m);
  w ← (match found with Some q => on_conn q (fun c => Some (shutdown false c)) w | None => Some w end);
  on_conn main (fun m => Some (m {{ c_auxList := c_auxList m ++ [p] }})) w.

Definition registerDatapath (p : Z) (w : World) : option (bool * World) :=
  c ← w_conns w !! p;
  let dpid := c_datapathId c in
  let auxID := c_auxiliaryId c in
  if auxID =? 0 then
    match w_dpidMap w !! dpid with
    | None => Some (true, mkWorld (w_conns w) (<[dpid := p]> (w_dpidMap w)) (w_connList w) (w_lastConnId w))
    | Some old =>
        if negb (old =? p) then
          let w := mkWorld (w_conns w) (<[dpid := p]> (w_dpidMap w)) (w_connList w) (w_lastConnId w) in
          w ← on_conn old (fun c => Some (shutdown true c)) w; Some (true, w)
        else Some (true, w)
    end
  else
    match w_dpidMap w !! dpid with
    | None => Some (false, w)
    | Some parent =>
        m ← w_conns w !! parent;
        if flag_on kPermitsAuxiliary m then w ← setMainConnection p parent auxID w; Some (true, w)
        else Some (false, w)
    end.

Definition releaseDatapath (p : Z) (w : World) : option World :=
  c ← w_conns w !! p;
  if c_auxiliaryId c =? 0 then
    Some (if bool_decide (w_dpidMap w !! c_datapathId c = Some p)
          then mkWorld (w_conns w) (delete (c_datapathId c) (w_dpidMap w)) (w_connList w) (w_lastConnId w) else w)
  else Some w.

Definition postDatapath (p datapathId auxiliaryId : Z) (w : World) : option (bool * World) :=
  if datapathId =? 0 then Some (false, w)
  else
    w ← on_conn p (fun c => Some (c {{ c_datapathId := datapathId }} {{ c_auxiliaryId := auxiliaryId }})) w;
    registerDatapath p w.

(** ** The handshake's messages *)

(** [ProtocolVersions::toString]. *)
Definition versions_toString (bitmap : Z) : list Z :=
  str "[" ++ mjoin (imap (fun i v => (if (i =? 0)%nat then [] else str ", ") ++ dec v) (versions_list bitmap)) ++ str "]".

Definition incompatible (versions msgVersion msgVersionSet : Z) : list Z :=
  str "Incompatible OpenFlow version: " ++ dec msgVersion ++ str " " ++ versions_toString msgVersionSet ++
  str " Supported versions: " ++ versions_toString versions.

(** Whether the message is one of the class, as [ProtocolMsg::cast] tells. *)
Definition cast (M : MsgClass) (addr : Z) (buf : list Z) : option bool :=
  '(ok, _) ← castMessage M addr buf None (Some 0); Some ok.

(** The functions below run for the handshake [h] of the connection [p]; the
    message came from the connection [src]. *)

Definition onHello (p src addr : Z) (buf : list Z) (now : Z) (h : Handshake) (w : World) : option World :=
  if negb (bool_decide (hs_state h = kHandshakeInit \/ hs_state h = kSentHello)) then Some w
  else
    ok ← cast Hello_class addr buf;
    if negb (ok : bool) then Some w
    else
      msgVersion ← b_version buf;
      msgVersionSet ← Hello_protocolVersions addr buf;
      version ← negotiateHello (hs_versions h) addr buf;
      if version =? 0 then
        let explanation := incompatible (hs_versions h) msgVersion msgVersionSet in
        header ← slice buf 0 8;
        w ← on_conn p (fun c => Some (log_event (EAlert explanation header)
                                        (c {{ c_version := highestVersion (hs_versions h) }}))) w;
        w ← (if negb (wantFeatures h) then on_conn src (replyError buf OFPHFC_INCOMPATIBLE explanation) w else Some w);
        on_conn p (fun c => Some (shutdown false c)) w
      else
        on_conn p (fun c =>
          let c := c {{ c_version := version }} in
          if wantFeatures h then sendFeaturesRequest now h (c {{ c_keepAliveTimeout := kControllerKeepAliveTimeout }})
          else installNewChannelListener h (c {{ c_keepAliveTimeout := kRawKeepAliveTimeout }})) w.

Definition onFeaturesReply (p addr : Z) (buf : list Z) (now : Z) (h : Handshake) (w : World) : option World :=
  if negb (bool_decide (hs_state h = kSentFeaturesRequest)) then Some w
  else
    ok ← cast FeaturesReply_class addr buf;
    if negb (ok : bool) then Some w
    else
      dpid ← FeaturesReply_datapathId buf;
      aux ← FeaturesReply_auxiliaryId buf;
      '(posted, w) ← postDatapath p dpid aux w;
      if posted : bool then
        c ← w_conns w !! p;
        if negb (Z.land (hs_options h) AUXILIARY =? 0) && negb (c_mainConn c =? p) then
          assert! negb (aux =? 0);; on_conn p clearChannelListener w
        else
          len ← b_length buf;
          reply ← slice buf 0 len;
          let h := h {{ hs_featuresReply := reply }} in
          if OFP_VERSION_1 <? c_version c then on_conn p (fun c => sendPortDescRequest now h (set_handshake h c)) w
          else on_conn p (fun c => installNewChannelListener h (set_handshake h c)) w
      else on_conn p (fun c => Some (shutdown false c)) w.

(** The features reply with the ports behind it. *)
Definition appendPortsToFeaturesReply (ports : ByteRange) (h : Handshake) : option Handshake :=
  assert! (0 <? zlen (hs_featuresReply h));;
  if br_size ports =? 0 then Some h
  else
    length ← b_length (hs_featuresReply h);
    assert! (length mod 8 =? 0);;
    let newLength := length + br_size ports in
    assert! (newLength <=? OFP_MAX_SIZE);;
    reply ← b_setLength (hs_featuresReply h) newLength;
    Some (h {{ hs_featuresReply := reply ++ br_data ports }}).

Definition onPortDescReply (p addr : Z) (buf : list Z) (h : Handshake) (w : World) : option World :=
  if negb (bool_decide (hs_state h = kSentPortRequest)) then Some w
  else
    ok ← cast PortDescReply_class addr buf;
    if negb (ok : bool) then Some w
    else
      ports ← replyBody addr buf;
      h ← appendPortsToFeaturesReply ports h;
      on_conn p (fun c => installNewChannelListener h (set_handshake h c)) w.

Definition handshake_onMessage (p src addr : Z) (buf : list Z) (now : Z) (h : Handshake) (w : World) : option World :=
  type ← b_type buf;
  if type =? OFPT_HELLO then onHello p src addr buf now h w
  else if type =? OFPT_FEATURES_REPLY then onFeaturesReply p addr buf now h w
  else if type =? OFPT_ERROR then Some w
  else if type =? OFPT_MULTIPART_REPLY then
    subtype ← Message_subtype buf;
    if subtype =? OFPMP_PORT_DESC then onPortDescReply p addr buf h w else Some w
  else Some w.

Definition handshake_onTickle (now : Z) (h : Handshake) (c : Conn) : Conn :=
  if kHandshakeTimeout <=? now - hs_timeStarted h then shutdown false c else c.

(** ** Messages *)

(** [Connection::echoMessageHandled]: whether the message was handled. *)
Definition echoMessageHandled (addr : Z) (buf : list Z) (c : Conn) : option (bool * Conn) :=
  type ← b_type buf;
  if type =? OFPT_ECHO_REQUEST then
    ok ← cast EchoRequest_class addr buf;
    pass ← (if ok : bool then isPassThru buf else Some false);
    if pass : bool then Some (false, c)
    else buf ← b_setType buf OFPT_ECHO_REPLY; Some (true, w_flush (w_write buf c))
  else if type =? OFPT_ECHO_REPLY then
    ok ← cast EchoReply_class addr buf;
    keep ← (if ok : bool then isKeepAlive buf else Some false);
    Some (keep : bool, c)
  else Some (false, c).

Section Post.
Context `{Uninit} (le : bool).

Definition postMessage (p addr : Z) (buf : list Z) (now : Z) (w : World) : option World :=
  c ← w_conns w !! p;
  '(handled, c) ← (if OFP_VERSION_1 <=? c_version c then echoMessageHandled addr buf c else Some (false, c));
  let w := put p c w in
  if handled : bool then Some w
  else
    m ← w_conns w !! c_mainConn c;
    match c_listener m with
    | None => Some w
    | Some l =>
        buf ← normalize le buf;
        match l with
        | LHandshake h => handshake_onMessage (c_mainConn c) p addr buf now h w
        | LUser => on_conn (c_mainConn c) (fun m => Some (log_event (EMessage p buf) m)) w
        end
    end.
End Post.

(** [Connection::tickle]; [answer] is what the user's listener returns. *)
Definition tickle (answer : bool) (now : Z) (c : Conn) : option Conn :=
  assert! flag_on kConnectionUp c;;
  let keepAlive (c : Conn) : option Conn :=
    let age := now - c_timeReadStarted c in
    if age <? c_keepAliveTimeout c then Some c
    else if (c_version c <? OFP_VERSION_1) || (2 * c_keepAliveTimeout c <=? age) then
      Some (shutdown false (log_event (EAlert (str "No response to echo request on idle channel") []) c))
    else if negb (flag_on kChannelIdle c) then
      '(_, c) ← EchoRequestBuilder_send (EchoRequestBuilder_setKeepAlive (mkEchoRequest 0 [])) (set_flag kChannelIdle c);
      Some c
    else Some c in
  match c_listener c with
  | Some (LHandshake h) => Some (handshake_onTickle now h c)
  | Some LUser => if answer then Some c else keepAlive c
  | None => keepAlive c
  end.

(** ** Finding connections *)

(** [std::lower_bound] over the connections, by their ids: the position of the
    first whose id is not below [cid], when the list is sorted. *)
Fixpoint conn_lower_bound (fuel : nat) (cid : Z) (w : World) (first count : nat) : option nat :=
  if (count =? 0)%nat then Some first
  else match fuel with
       | O => None
       | S fuel' =>
           let step := (count / 2)%nat in
           q ← w_connList w !! (first + step)%nat;
           c ← w_conns w !! q;
           if c_connId c <? cid then conn_lower_bound fuel' cid w (first + step + 1) (count - (step + 1))
           else conn_lower_bound fuel' cid w first step
       end.

(** The position in the list, if any. *)
Definition findConnIter (connId : Z) (w : World) : option (option nat) :=
  assert! negb (connId =? 0);;
  i ← conn_lower_bound (length (w_connList w)) connId w 0 (length (w_connList w));
  match w_connList w !! i with
  | None => Some None
  | Some q => c ← w_conns w !! q; Some (if c_connId c =? connId then Some i else None)
  end.

Definition findConnId (connId : Z) (w : World) : option (option Z) :=
  i ← findConnIter connId w; Some (i ≫= fun i => w_connList w !! i).

Definition findDatapath (connId dpid : Z) (w : World) : option (option Z) :=
  if negb (connId =? 0) then
    r ← findConnId connId w;
    match r with
    | Some q => c ← w_conns w !! q; Some (if (dpid =? 0) || (c_datapathId c =? dpid) then Some q else None)
    | None => Some None
    end
  else if negb (dpid =? 0) then Some (w_dpidMap w !! dpid)
  else Some None.

(** ** Construction and destruction *)

(** [Engine::assignConnectionId]; running out of ids is fatal. *)
Definition registerConnection (p : Z) (w : World) : option (Z * World) :=
  let connId := u64 (w_lastConnId w + 1) in
  assert! negb (connId =? 0);;
  Some (connId, mkWorld (w_conns w) (w_dpidMap w) (w_connList w ++ [p]) connId).

Definition releaseConnection (p : Z) (w : World) : option World :=
  c ← w_conns w !! p;
  i ← findConnIter (c_connId c) w;
  match i with
  | Some i => assert! bool_decide (w_connList w !! i = Some p);;
              Some (mkWorld (w_conns w) (w_dpidMap w) (delete i (w_connList w)) (w_lastConnId w))
  | None => Some w
  end.

Definition updateTimeReadStarted (now : Z) (c : Conn) : Conn :=
  clear_flag kChannelIdle (c {{ c_timeReadStarted := now }}).

(** [Connection::setFlags(securityId, options)]. *)
Definition setFlags (securityId options : Z) (c : Conn) : Conn :=
  let c := if negb (securityId =? 0) then set_flag kRequiresHandshake c else c in
  let c := if negb (Z.land options AUXILIARY =? 0) then set_flag kPermitsAuxiliary c else c in
  let c := if negb (Z.land options NO_VERSION_CHECK =? 0) then set_flag kPermitsOtherVersions c else c in
  if negb (Z.land options FEATURES_REQ =? 0) then set_flag kDefaultController c else c.

(** What a [TCP_Connection] is made from. *)
Record ConnParams : Type := mkParams {
  cp_options : Z;
  cp_securityId : Z;
  cp_versions : Z;
  cp_factory : bool;
  cp_startingXid : Z;
  cp_open : bool }.

Definition new_connection (p : Z) (q : ConnParams) (now : Z) (w : World) : option World :=
  let h := mkHandshake (cp_versions q) (cp_factory q) (cp_options q) (cp_startingXid q) kHandshakeInit 0 [] in
  '(connId, w) ← registerConnection p w;
  let c := mkConn (Some (LHandshake h)) p [] 0 connId 0 0 0 0 0 kKeepAliveDefaultTimeout [] [] (cp_open q) false RNone in
  Some (put p (setFlags (cp_securityId q) (cp_options q) (updateTimeReadStarted now c)) w).

(** [std::find] and [erase]. *)
Fixpoint remove_first (p : Z) (l : list Z) : list Z :=
  match l with
  | [] => []
  | q :: l => if q =? p then l else q :: remove_first p l
  end.

(** [~TCP_Connection] and [~Connection]. *)
Fixpoint destroy (fuel : nat) (p : Z) (w : World) : option World :=
  w ← on_conn p (fun c => Some (channelDown c)) w;
  c ← w_conns w !! p;
  w ← (if negb (c_datapathId c =? 0) then
         w ← releaseDatapath p w;
         if c_mainConn c =? p then
           foldl (fun ow q =>
             w ← ow;
             w ← on_conn q (fun a => Some (shutdown false (a {{ c_mainConn := q }}))) w;
             a ← w_conns w !! q;
             if flag_on kManualDelete a then match fuel with O => None | S fuel' => destroy fuel' q w end else Some w)
             (Some w) (c_auxList c)
         else
           on_conn (c_mainConn c) (fun m => Some (m {{ c_auxList := remove_first p (c_auxList m) }})) w
       else Some w);
  w ← releaseConnection p w;
  Some (mkWorld (delete p (w_conns w)) (w_dpidMap w) (w_connList w) (w_lastConnId w)).

(** ** Handlers of the event loop *)

Definition set_reading (r : ReadState) (c : Conn) : Conn := c {{ c_reading := r }}.

Definition asyncReadHeader (now : Z) (c : Conn) : Conn :=
  if negb (c_open c) then set_reading RNone c else set_reading RHeader (updateTimeReadStarted now c).

Definition asyncReadMessage (hdr : list Z) (now : Z) (c : Conn) : Conn :=
  if negb (c_open c) then set_reading RNone c else set_reading (RMessage hdr) (updateTimeReadStarted now c).

(** [asyncHandshake], and the handler of its completion. *)
Definition asyncHandshake (c : Conn) : Conn := set_flag kConnectionUp c {{ c_handshaking := true }}.

Definition handshake_done (error : bool) (now : Z) (c : Conn) : option Conn :=
  let c := c {{ c_handshaking := false }} in
  if negb error then c ← channelUp now c; Some (asyncReadHeader now c) else Some c.

(** After a message: read the next one, unless the socket was closed. *)
Definition read_on (now : Z) (c : Conn) : Conn :=
  if c_open c then asyncReadHeader now c else channelDown (set_reading RNone c).

Section Handlers.
Context `{Uninit} (le : bool).

Definition header_read (p addr : Z) (hdr : list Z) (now : Z) (w : World) : option World :=
  c ← w_conns w !! p;
  h ← Header_at hdr;
  let negotiatedVersion := if flag_on kPermitsOtherVersions c then 0 else c_version c in
  if Header_validateInput h negotiatedVersion then
    if hdr_length h =? 8 then
      w ← postMessage le p addr hdr now w; on_conn p (fun c => Some (read_on now c)) w
    else on_conn p (fun c => Some (asyncReadMessage hdr now c)) w
  else
    on_conn p (fun c => Some (log_event (EAlert (str "Invalid OpenFlow message header") hdr)
                                (channelDown (set_reading RNone c)))) w.

Definition message_read (p addr : Z) (buf : list Z) (now : Z) (w : World) : option World :=
  w ← postMessage le p addr buf now w; on_conn p (fun c => Some (read_on now c)) w.
End Handlers.

(** The error branches of the two reads. *)
Definition header_error (c : Conn) : Conn := shutdown false (channelDown (set_reading RNone c)).
Definition message_error (c : Conn) : Conn := channelDown (set_reading RNone c).

(** The handler of [flush], when the write failed: the socket is closed. *)
Definition flush_error (c : Conn) : Conn := c {{ c_open := false }}.

(** The handler of [async_shutdown]. *)
Definition shutdown_done (c : Conn) : Conn := set_flag kShutdownDone c {{ c_open := false }}.

(** The handler of the idle timer; [answer] tells what a user's listener returns. *)
Definition idle (answer : Z -> bool) (now : Z) (w : World) : option World :=
  foldl (fun ow p => w ← ow; c ← w_conns w !! p;
           if flag_on kConnectionUp c then on_conn p (tickle (answer p) now) w else Some w) (Some w) (w_connList w).

(** [Engine::close] of a connection. *)
Definition close_connection (fuel : nat) (connId dpid : Z) (w : World) : option (Z * World) :=
  r ← findDatapath connId dpid w;
  match r with
  | Some q =>
      w ← on_conn q (fun c => Some (shutdown false c)) w;
      c ← w_conns w !! q;
      w ← (if flag_on kManualDelete c then destroy fuel q w else Some w); Some (1, w)
  | None => Some (0, w)
  end.

(** ** The event loop *)

(** The handlers that the event loop may run. [Engine::closeAll], which empties the
    list of connections when the engine stops, is not one of them. *)
Inductive LoopEvent : Type :=
| LNew (p : Z) (q : ConnParams) (now : Z)
| LConnect (p : Z)
| LHandshakeDone (p : Z) (error : bool) (now : Z)
| LHeader (p addr : Z) (hdr : list Z) (now : Z)
| LMessage (p addr : Z) (body : list Z) (now : Z)
| LHeaderError (p : Z)
| LMessageError (p : Z)
| LFlushError (p : Z)
| LShutdownDone (p : Z)
| LIdle (answer : Z -> bool) (now : Z)
| LClose (connId dpid : Z)
| LDestroy (p : Z).

Definition handle `{Uninit} (le : bool) (e : LoopEvent) (w : World) : option World :=
  match e with
  | LNew p q now => new_connection p q now w
  | LConnect p => on_conn p (fun c => Some (asyncHandshake c)) w
  | LHandshakeDone p error now => on_conn p (handshake_done error now) w
  | LHeader p addr hdr now => header_read le p addr hdr now w
  | LMessage p addr body now =>
      c ← w_conns w !! p;
      match c_reading c with
      | RMessage hdr => message_read le p addr (hdr ++ body) now w
      | _ => None
      end
  | LHeaderError p => on_conn p (fun c => Some (header_error c)) w
  | LMessageError p => on_conn p (fun c => Some (message_error c)) w
  | LFlushError p => on_conn p (fun c => Some (flush_error c)) w
  | LShutdownDone p => on_conn p (fun c => Some (shutdown_done c)) w
  | LIdle answer now => idle answer now w
  | LClose connId dpid => '(_, w) ← close_connection (size (w_conns w)) connId dpid w; Some w
  | LDestroy p => destroy (size (w_conns w)) p w
  end.

Definition empty_world : World := mkWorld ∅ ∅ [] 0.
