(* ===== verification/ConnInv.v ===== *)
(** * Invariants of connections and of the engine's tables

    What holds in every state of the event loop: the pointers between connections
    and in the engine's tables lead to live objects and agree with each other, the
    list of connections is sorted by connection id, and a user's listener is
    called in the order that its interface promises. *)

From S2P Require Import Prelude.
From S2P Require Import ByteOrder.
From S2P Require Import Constants.
From S2P Require Import SmallBuffer.
From S2P Require Import Validation.
From S2P Require Import ProtocolRange.
From S2P Require Import MsgBuffer.
From S2P Require Import Messages.
From S2P Require Import Multipart.
From S2P Require Import Normalize.
From S2P Require Import NormSafe.
From S2P Require Import Hello.
From S2P Require Import ChannelMsgs.
From S2P Require Import Connection.
From stdpp Require Import gmap.
From coqutil Require Import Datatypes.RecordSetters.
Import DoubleBraceUpdate.
#[local] Open Scope Z_scope.

(** ** Flags *)

Definition is_flag (f : Z) : bool := (0 <? f) && (f =? 2 ^ Z.log2 f).

Lemma is_flag_pow f : is_flag f = true -> exists k, 0 <= k /\ f = Z.shiftl 1 k.
Proof.
  unfold is_flag. intros [H0%Z.ltb_lt H%Z.eqb_eq]%andb_true_iff. exists (Z.log2 f). split; [apply Z.log2_nonneg|].
  by rewrite Z.shiftl_1_l.
Qed.

Lemma flag_eqb i j : 0 <= i -> 0 <= j -> (Z.shiftl 1 i =? Z.shiftl 1 j) = (i =? j).
Proof.
  intros Hi Hj. rewrite !Z.shiftl_1_l. apply eq_true_iff_eq. rewrite !Z.eqb_eq. split; [|by intros ->].
  intros E. by apply (Z.pow_inj_r 2).
Qed.

Lemma has_set f g c : is_flag f = true -> is_flag g = true -> flag_on f (set_flag g c) = flag_on f c || (f =? g).
Proof.
  intros (i & Hi & ->)%is_flag_pow (j & Hj & ->)%is_flag_pow. rewrite flag_eqb by done. unfold flag_on.
  change (c_flags (set_flag (Z.shiftl 1 j) c)) with (Z.lor (c_flags c) (Z.shiftl 1 j)).
  rewrite !land_flag, !negb_involutive, Z.lor_spec, Z.shiftl_1_l, Z.pow2_bits_eqb by done. by rewrite (Z.eqb_sym j).
Qed.

Lemma has_clear f g c : is_flag f = true -> is_flag g = true -> flag_on f (clear_flag g c) = flag_on f c && negb (f =? g).
Proof.
  intros (i & Hi & ->)%is_flag_pow (j & Hj & ->)%is_flag_pow. rewrite flag_eqb by done. unfold flag_on.
  change (c_flags (clear_flag (Z.shiftl 1 j) c)) with (Z.ldiff (c_flags c) (Z.shiftl 1 j)).
  rewrite !land_flag, !negb_involutive, Z.ldiff_spec, Z.shiftl_1_l, Z.pow2_bits_eqb by done. by rewrite (Z.eqb_sym j).
Qed.

(** ** What a step leaves of a connection *)

(** A handshake that has not registered its connection. *)
Definition unregistered (c : Conn) : bool :=
  match c_listener c with
  | Some (LHandshake h) => negb (bool_decide (hs_state h = kSentPortRequest))
  | _ => false
  end.

(** The members that tie a connection to the others stay; a registered one does
    not become unregistered. *)
Definition key_le (c c' : Conn) : Prop :=
  c_mainConn c' = c_mainConn c /\ c_auxList c' = c_auxList c /\ c_datapathId c' = c_datapathId c /\
  c_connId c' = c_connId c /\ c_auxiliaryId c' = c_auxiliaryId c /\
  flag_on kManualDelete c' = flag_on kManualDelete c /\ (unregistered c' = true -> unregistered c = true).

#[export] Instance key_le_preorder : PreOrder key_le.
Proof.
  split; [by intros c|]. intros a b c (A1 & A2 & A3 & A4 & A5 & A6 & A7) (B1 & B2 & B3 & B4 & B5 & B6 & B7).
  split_and!; try congruence. auto.
Qed.

(** The calls of the user's listener. *)
Definition user_event (e : Event) : bool :=
  match e with EUp | EDown | EMessage _ _ => true | EAlert _ _ | EShutdown _ => false end.
Definition is_down (e : Event) : bool := match e with EDown => true | _ => false end.
Definition user_log (c : Conn) : list Event := filter (fun e => user_event e = true) (c_events c).
Definition downs (l : list Event) : list Event := filter (fun e => is_down e = true) l.

(** The calls come in order: [onChannelUp] once and first, [onChannelDown] at most
    once; no call is made while the handshake is the listener. *)
Definition lifecycle (c : Conn) : Prop :=
  match c_listener c with
  | Some LUser => exists rest, user_log c = EUp :: rest /\ EUp ∉ rest /\ (length (downs rest) <= 1)%nat /\
                    (flag_on kChannelUp c = true -> downs rest = [])
  | _ => user_log c = []
  end.

(** A header that passed the check of [asyncReadHeader]. *)
Definition header_ready (hdr : list Z) : Prop :=
  zlen hdr = 8 /\ bytes_ok hdr /\ exists h v, Header_at hdr = Some h /\ Header_validateInput h v = true.

(** The features reply that the ports are appended to. *)
Definition reply_ok (reply : list Z) : Prop :=
  bytes_ok reply /\ 32 <= zlen reply /\ zlen reply mod 8 = 0 /\ b_length reply = Some (zlen reply).

Definition past_hello (h : Handshake) : Prop := hs_state h = kSentFeaturesRequest \/ hs_state h = kSentPortRequest.

(** What holds of a connection on its own. *)
Record local (c : Conn) : Prop := mkLocal {
  l_life : lifecycle c;
  l_init : c_handshaking c = true \/ flag_on kConnectionUp c = false ->
    c_reading c = RNone /\ exists h, c_listener c = Some (LHandshake h) /\ hs_state h = kHandshakeInit;
  l_versions : forall h, c_listener c = Some (LHandshake h) -> versions_ok (hs_versions h);
  l_reply : forall h, c_listener c = Some (LHandshake h) -> hs_state h = kSentPortRequest -> reply_ok (hs_featuresReply h);
  l_negotiated : forall h, c_listener c = Some (LHandshake h) -> past_hello h -> supports (hs_versions h) (c_version c);
  l_read : forall hdr, c_reading c = RMessage hdr -> header_ready hdr;
  l_up : c_handshaking c = true -> flag_on kConnectionUp c = true }.

(** A connection whose handshake with the socket is over. *)
Definition conn_settled (c : Conn) : Prop := flag_on kConnectionUp c = true /\ c_handshaking c = false.

Definition step_ok (c c' : Conn) : Prop := key_le c c' /\ (local c -> local c') /\ (conn_settled c -> conn_settled c').

#[export] Instance step_ok_preorder : PreOrder step_ok.
Proof.
  split; [by intros c|]. intros a b c (K1 & L1 & S1) (K2 & L2 & S2). split_and!; [by transitivity b|auto..].
Qed.

(** A step that leaves alone all that the invariant of a connection is about. *)
Lemma step_ok_same c c' :
  c_mainConn c' = c_mainConn c -> c_auxList c' = c_auxList c -> c_datapathId c' = c_datapathId c ->
  c_connId c' = c_connId c -> c_auxiliaryId c' = c_auxiliaryId c -> c_listener c' = c_listener c ->
  c_version c' = c_version c -> c_handshaking c' = c_handshaking c ->
  c_reading c' = c_reading c -> user_log c' = user_log c ->
  flag_on kManualDelete c' = flag_on kManualDelete c -> flag_on kChannelUp c' = flag_on kChannelUp c ->
  flag_on kConnectionUp c' = flag_on kConnectionUp c -> step_ok c c'.
Proof.
  intros E1 E2 E3 E4 E5 El Ev Eh Er Eu F1 F2 F3. split_and!; [| |unfold conn_settled; by rewrite Eh, F3].
  - unfold key_le, unregistered. rewrite El. by split_and!.
  - intros []. split; unfold lifecycle; rewrite ?El, ?Ev, ?Eh, ?Er, ?Eu, ?F2, ?F3; done.
Qed.

Lemma user_log_other e c : user_event e = false -> user_log (log_event e c) = user_log c.
Proof.
  intros He. unfold user_log. change (c_events (log_event e c)) with (c_events c ++ [e]). rewrite filter_app, filter_cons_False, filter_nil, app_nil_r; [done|].
  by rewrite He.
Qed.

Lemma user_log_user e c : user_event e = true -> user_log (log_event e c) = user_log c ++ [e].
Proof.
  intros He. unfold user_log. change (c_events (log_event e c)) with (c_events c ++ [e]). by rewrite filter_app, filter_cons_True, filter_nil.
Qed.

Lemma step_log e c : user_event e = false -> step_ok c (log_event e c).
Proof. intros He. apply step_ok_same; try done. by apply user_log_other. Qed.

Lemma step_set f c : is_flag f = true -> f <> kManualDelete -> f <> kChannelUp -> f <> kConnectionUp ->
  step_ok c (set_flag f c).
Proof.
  intros Hf N1 N2 N3. apply step_ok_same; try done; rewrite has_set by done;
    rewrite (proj2 (Z.eqb_neq _ f)) by done; by rewrite orb_false_r.
Qed.

Lemma step_clear f c : is_flag f = true -> f <> kManualDelete -> f <> kChannelUp -> f <> kConnectionUp ->
  step_ok c (clear_flag f c).
Proof.
  intros Hf N1 N2 N3. apply step_ok_same; try done; rewrite has_clear by done;
    rewrite (proj2 (Z.eqb_neq _ f)) by done; by rewrite andb_true_r.
Qed.

Lemma step_channelDown c : step_ok c (channelDown c).
Proof.
  unfold channelDown. destruct (flag_on kChannelUp c) eqn:Hup; [|done].
  set (c1 := clear_flag kChannelUp c). assert (key_le c c1) as Hk.
  { unfold key_le, c1. rewrite has_clear by done. rewrite andb_true_r. by split_and!. }
  assert (flag_on kChannelUp c1 = false) as Hd by (unfold c1; rewrite has_clear by done; apply andb_false_r).
  assert (flag_on kConnectionUp c1 = flag_on kConnectionUp c) as Hcu by (unfold c1; rewrite has_clear by done; apply andb_true_r).
  assert (c_listener c <> Some LUser -> step_ok c c1) as Hquiet.
  { intros Hne. split_and!; [done| |unfold conn_settled; by rewrite Hcu]. intros []. split; try done; try by rewrite Hcu. unfold lifecycle in *.
    change (c_listener c1) with (c_listener c). by destruct (c_listener c) as [[]|]. }
  change (c_listener c1) with (c_listener c). destruct (c_listener c) as [[h|]|] eqn:El; [by apply Hquiet| |by apply Hquiet].
  split_and!; [etransitivity; [exact Hk|]; apply (step_log (EAlert [] []) c1); done| |].
  2: { intros [Hc Hh]. split; [|done]. change (flag_on kConnectionUp c1 = true). by rewrite Hcu. }
  intros [Hl Hi ? ? ? ? ?]. split; try done.
  - unfold lifecycle in *. change (c_listener (log_event EDown c1)) with (c_listener c). rewrite El in *.
    destruct Hl as (rest & Eu & Hnu & Hc & Hn). exists (rest ++ [EDown]).
    rewrite user_log_user by done. change (user_log c1) with (user_log c). rewrite Eu. split_and!; [done| | |].
    + rewrite elem_of_app, list_elem_of_singleton. by intros [?|?].
    + unfold downs in *. rewrite filter_app, (Hn Hup). done.
    + change (flag_on kChannelUp (log_event EDown c1)) with (flag_on kChannelUp c1). by rewrite Hd.
  - intros Ho. destruct Hi as (_ & h & E & _); [|congruence].
    change (flag_on kConnectionUp (log_event EDown c1)) with (flag_on kConnectionUp c1) in Ho. by rewrite Hcu in Ho.
  - change (c_handshaking c = true -> flag_on kConnectionUp c1 = true). by rewrite Hcu.
Qed.

Lemma step_shutdown reset c : step_ok c (shutdown reset c).
Proof.
  unfold shutdown. destruct (flag_on kShutdownCalled c); [done|]. destruct (negb (c_open c)); [done|].
  etransitivity; [by apply (step_set kShutdownCalled)|]. destruct reset; [|by apply step_log].
  etransitivity; [by apply (step_set kShutdownDone)|]. etransitivity; [apply step_channelDown|].
  set (c1 := channelDown _). etransitivity; [|by apply step_log]. by apply step_ok_same.
Qed.

(** ** Sending *)

(** Sending touches the counter and the output only. *)
Definition sends (c c' : Conn) : Prop := exists x d, c' = c {{ c_nextXid := x }} {{ c_sent := d }}.

Lemma sends_step c c' : sends c c' -> step_ok c c'.
Proof. intros (x & d & ->). by apply step_ok_same. Qed.

Lemma sends_listener c c' : sends c c' -> c_listener c' = c_listener c.
Proof. by intros (x & d & ->). Qed.

Lemma hello_sends b c x b' c' : HelloBuilder_send b c = Some (x, b', c') -> sends c c'.
Proof.
  unfold HelloBuilder_send. destruct (hello_version_bitmap _ _) as [v vs]. destruct (includeInHelloMsg vs v); [|done].
  cbn [mbind option_bind w_nextXid Conn_Writable]. destruct (Header_set _ _ _ _); [|done]. cbn [mbind option_bind].
  intros [= _ _ <-]. destruct c. by eexists _, _.
Qed.

Lemma header_only_sends t c x c' : HeaderOnlyBuilder_send (mkHeaderOnly t None) c = Some (x, c') -> sends c c'.
Proof.
  unfold HeaderOnlyBuilder_send. cbn [ho_reply ho_type w_nextXid Conn_Writable].
  destruct (Header_translateType _ _ _); [|done]. cbn [mbind option_bind]. destruct (negb _).
  - destruct (Header_set _ _ _ _); [|done]. cbn [mbind option_bind]. intros [= _ <-]. destruct c. by eexists _, _.
  - intros [= _ <-]. destruct c. by eexists _, _.
Qed.

Lemma multipart_sends r t b c x b' c' : multipart_send r t b c = Some (x, b', c') -> sends c c'.
Proof.
  unfold multipart_send. cbn [w_nextXid Conn_Writable]. destruct (Header_set _ _ _ _); [|done]. cbn [mbind option_bind].
  intros [= _ _ <-]. destruct c. by eexists _, _.
Qed.

Lemma error_sends buf e text c c' : replyError buf e text c = Some c' -> sends c c'.
Proof.
  unfold replyError. destruct (rd32 buf 4); [|done]. cbn [mbind option_bind]. unfold ErrorBuilder_send.
  destruct (Header_set _ _ _ _); [|done]. cbn [mbind option_bind]. intros [= <-]. destruct c. by eexists _, _.
Qed.

Lemma echo_sends b c x c' : er_xid b <> 0 -> EchoRequestBuilder_send b c = Some (x, c') -> sends c c'.
Proof.
  intros Hx. unfold EchoRequestBuilder_send. rewrite (proj2 (Z.eqb_neq _ _)) by done.
  destruct (Header_set _ _ _ _); [|done]. cbn [mbind option_bind]. intros [= _ <-]. destruct c. by eexists _, _.
Qed.

(** ** The handshake moving on *)

Lemma step_handshake h c : c_listener c = Some (LHandshake h) ->
  forall state now reply,
  (state = kSentPortRequest -> reply_ok reply) ->
  (state = kSentFeaturesRequest \/ state = kSentPortRequest -> local c -> supports (hs_versions h) (c_version c)) ->
  (hs_state h = kSentPortRequest -> state = kSentPortRequest) ->
  (flag_on kConnectionUp c = true /\ c_handshaking c = false \/ state = kHandshakeInit) ->
  step_ok c (set_handshake (hs_sent state now (h {{ hs_featuresReply := reply }})) c).
Proof.
  intros El state now reply Hr Hn Hp Hi. split_and!; [| |done].
  - unfold key_le. split_and!; try done. unfold unregistered. rewrite El.
    change (c_listener (set_handshake _ c)) with (Some (LHandshake (hs_sent state now (h {{ hs_featuresReply := reply }})))).
    cbn [hs_sent]. intros Hs. apply negb_true_iff, bool_decide_eq_false in Hs. apply negb_true_iff, bool_decide_eq_false.
    intros E. by apply Hs, Hp.
  - intros Hl. pose proof Hl as []. split.
    + unfold lifecycle in *. rewrite El in *. done.
    + intros Ho. change (c_handshaking c = true \/ flag_on kConnectionUp c = false) in Ho. destruct Hi as [[H1 H2]|Hi].
      { rewrite H1, H2 in Ho. by destruct Ho. }
      destruct (l_init0 Ho) as [? _]. split; [done|]. eexists. split; [done|]. done.
    + intros h' [= <-]. exact (l_versions0 h El).
    + intros h' [= <-] E. by apply Hr.
    + intros h' [= <-] E. by apply Hn.
    + done.
    + done.
Qed.

Lemma settled_of c : local c -> (c_reading c <> RNone \/ unregistered c = false) -> conn_settled c.
Proof.
  intros [_ Hi _ _ _ _ _] Hd. assert (~ (c_handshaking c = true \/ flag_on kConnectionUp c = false)) as Hn.
  { intros Ho. destruct (Hi Ho) as (Hr & h & El & Es). destruct Hd as [Hd|Hd]; [done|]. unfold unregistered in Hd.
    rewrite El, Es in Hd. done. }
  unfold conn_settled. destruct (flag_on kConnectionUp c), (c_handshaking c); try done; destruct Hn; auto.
Qed.

Lemma step_install h c c' h' : c_listener c = Some (LHandshake h) -> conn_settled c ->
  installNewChannelListener h' c = Some c' -> step_ok c c'.
Proof.
  intros El [Hc Hh]. unfold installNewChannelListener, clearChannelListener, is_handshake. rewrite El.
  destruct (hs_factory h'); intros [= <-]; split_and!; try done; intros [Hl Hi Hv Hr Hn Hd Hc']; split; try done.
  - unfold lifecycle in *. rewrite El in Hl.
    change (c_listener (set_listener (Some LUser) (log_event EUp c))) with (Some LUser). exists [].
    split_and!; [|by apply not_elem_of_nil|simpl; lia|done].
    change (user_log (log_event EUp c) = [EUp]). by rewrite user_log_user, Hl.
  - intros Ho. change (c_handshaking c = true \/ flag_on kConnectionUp c = false) in Ho. rewrite Hc, Hh in Ho. by destruct Ho.
  - unfold lifecycle in *. by rewrite El in Hl.
  - intros Ho. change (c_handshaking c = true \/ flag_on kConnectionUp c = false) in Ho. rewrite Hc, Hh in Ho. by destruct Ho.
Qed.

Lemma step_clear_listener h c c' : c_listener c = Some (LHandshake h) -> conn_settled c ->
  clearChannelListener c = Some c' -> step_ok c c'.
Proof.
  intros El Hs E. apply (step_install h c c' (mkHandshake 0 false 0 0 kHandshakeInit 0 []) El Hs).
  unfold installNewChannelListener, is_handshake. rewrite El. exact E.
Qed.

Lemma install_registered h c c' : installNewChannelListener h c = Some c' -> unregistered c' = false.
Proof.
  unfold installNewChannelListener, clearChannelListener. destruct (is_handshake c); [|done].
  by destruct (hs_factory h); intros [= <-].
Qed.

Lemma step_version v h c : c_listener c = Some (LHandshake h) -> ~ past_hello h -> step_ok c (c {{ c_version := v }}).
Proof.
  intros El Hp. split_and!; [done| |done]. intros [Hl Hi Hv Hr Hn Hd Hc']. split; try done. intros h' E Hp'.
  change (c_listener c = Some (LHandshake h')) in E. congruence.
Qed.

Lemma step_user_message src buf c : c_listener c = Some LUser -> step_ok c (log_event (EMessage src buf) c).
Proof.
  intros El. split_and!; [done| |done]. intros [Hl Hi Hv Hr Hn Hd Hc']. split; try done. unfold lifecycle in *.
  change (c_listener (log_event (EMessage src buf) c)) with (c_listener c). rewrite El in *.
  destruct Hl as (rest & Eu & Hnu & Hc & Hn'). exists (rest ++ [EMessage src buf]). rewrite user_log_user, Eu by done.
  unfold downs in *. rewrite filter_app, filter_cons_False, filter_nil, app_nil_r by done. split_and!; try done.
  rewrite elem_of_app, list_elem_of_singleton. by intros [?|?].
Qed.

(** ** The tables *)

(** [x] is the connection, if any, that is being registered at the moment: its
    handshake is about to move on. *)
Record topo (x : option Z) (w : World) : Prop := mkTopo {
  t_main : forall p c, w_conns w !! p = Some c -> exists m, w_conns w !! c_mainConn c = Some m /\
    (c_mainConn c <> p -> p ∈ c_auxList m /\ c_mainConn m = c_mainConn c /\ c_auxiliaryId c <> 0 /\ c_datapathId c <> 0);
  t_aux : forall p c q, w_conns w !! p = Some c -> q ∈ c_auxList c ->
    q <> p /\ exists a, w_conns w !! q = Some a /\ c_mainConn a = p;
  t_nodup : forall p c, w_conns w !! p = Some c -> NoDup (c_auxList c);
  t_dp : forall p c, w_conns w !! p = Some c -> c_auxList c <> [] -> c_datapathId c <> 0;
  t_unreg : forall p c, x <> Some p -> w_conns w !! p = Some c -> unregistered c = true ->
    c_mainConn c = p /\ c_auxList c = [] /\ forall d, w_dpidMap w !! d <> Some p;
  t_flag : forall p c, w_conns w !! p = Some c -> flag_on kManualDelete c = false;
  t_dpid : forall d p, w_dpidMap w !! d = Some p ->
    exists c, w_conns w !! p = Some c /\ c_datapathId c = d /\ d <> 0 /\ c_auxiliaryId c = 0 /\ c_mainConn c = p;
  t_list : forall p, p ∈ w_connList w <-> is_Some (w_conns w !! p);
  t_sorted : forall i j p q a b, w_connList w !! i = Some p -> w_connList w !! j = Some q -> (i < j)%nat ->
    w_conns w !! p = Some a -> w_conns w !! q = Some b -> c_connId a < c_connId b;
  t_id : forall p c, w_conns w !! p = Some c -> 0 < c_connId c <= w_lastConnId w;
  t_last : 0 <= w_lastConnId w < 2 ^ 64 }.

Lemma lookup_put p c w q d : w_conns (put p c w) !! q = Some d -> (q = p /\ d = c) \/ (q <> p /\ w_conns w !! q = Some d).
Proof.
  unfold put. cbn [w_conns]. destruct (decide (q = p)) as [->|Hne].
  - rewrite lookup_insert_eq. intros [= ->]. by left.
  - rewrite lookup_insert_ne by done. by right.
Qed.

Lemma lookup_put_eq p c w : w_conns (put p c w) !! p = Some c.
Proof. apply lookup_insert_eq. Qed.
Lemma lookup_put_ne p c w q : q <> p -> w_conns (put p c w) !! q = w_conns w !! q.
Proof. intros. by apply lookup_insert_ne. Qed.

(** An object is found after an update as it was, up to what a step changes. *)
Lemma put_found p c c' w q d : w_conns w !! p = Some c -> key_le c c' -> w_conns w !! q = Some d ->
  exists d', w_conns (put p c' w) !! q = Some d' /\ key_le d d'.
Proof.
  intros Hp Hk Hq. destruct (decide (q = p)) as [->|].
  - exists c'. rewrite lookup_put_eq. split; [done|]. congruence.
  - exists d. by rewrite lookup_put_ne.
Qed.

Lemma put_back p c c' w q d' : w_conns w !! p = Some c -> key_le c c' -> w_conns (put p c' w) !! q = Some d' ->
  exists d, w_conns w !! q = Some d /\ key_le d d'.
Proof. intros Hp Hk [[-> ->]|[_ Hq]]%lookup_put; eauto. by exists d'. Qed.

Lemma topo_put x p c c' w : topo x w -> w_conns w !! p = Some c -> key_le c c' -> topo x (put p c' w).
Proof.
  intros T Hp Hk. split; intros *; try intros Hx;
    try (intros Hq; destruct (put_back p c c' w _ _ Hp Hk Hq) as (d & Hd & (K1 & K2 & K3 & K4 & K5 & K6 & K7)));
    try (rename Hx into Hq; destruct (put_back p c c' w _ _ Hp Hk Hq) as (d & Hd & (K1 & K2 & K3 & K4 & K5 & K6 & K7)));
    rewrite ?K1, ?K2, ?K3, ?K4, ?K5, ?K6.
  - destruct (t_main x w T _ _ Hd) as (m & Hm & Hx). destruct (put_found p c c' w _ _ Hp Hk Hm) as (m' & Hm' & (M1 & M2 & _)).
    exists m'. rewrite M1, M2. by split.
  - intros Hin. destruct (t_aux x w T _ _ _ Hd Hin) as (Hne & a & Ha & Hm).
    destruct (put_found p c c' w _ _ Hp Hk Ha) as (a' & Ha' & (M1 & _)). split; [done|]. exists a'. by rewrite M1.
  - by eapply t_nodup.
  - by eapply t_dp.
  - intros Hu. by eapply (t_unreg x w T); eauto.
  - by eapply t_flag.
  - destruct (t_dpid x w T _ _ Hx) as (a & Ha & Hy). destruct (put_found p c c' w _ _ Hp Hk Ha) as (a' & Ha' & (M1 & M2 & M3 & M4 & M5 & _)).
    exists a'. rewrite M1, M3, M5. by split.
  - change (w_connList (put p c' w)) with (w_connList w). rewrite (t_list x w T). unfold put. cbn [w_conns].
    rewrite lookup_insert_is_Some. split; [|by intros [<-|[_ ?]]; eauto]. intros ?. destruct (decide (p = p0)); auto.
  - intros Hj Hlt Ha Hb. destruct (put_back _ _ _ _ _ _ Hp Hk Ha) as (a' & Ha' & (_ & _ & _ & -> & _)).
    destruct (put_back _ _ _ _ _ _ Hp Hk Hb) as (b' & Hb' & (_ & _ & _ & -> & _)). by eapply (t_sorted x w T i j).
  - by eapply (t_id x w T).
  - apply (t_last x w T).
Qed.

Lemma topo_weaken p w : topo None w -> topo (Some p) w.
Proof. intros []. split; try done. intros q c _. by apply t_unreg0. Qed.

(** The connection that was being registered has moved on. *)
Lemma topo_registered p c c' w : topo (Some p) w -> w_conns w !! p = Some c -> key_le c c' -> unregistered c' = false ->
  topo None (put p c' w).
Proof.
  intros T Hp Hk Hu. pose proof (topo_put (Some p) p c c' w T Hp Hk) as []. split; try done.
  intros q d _ Hq Hd. apply (t_unreg0 q d); try done. intros [= <-]. rewrite lookup_put_eq in Hq. congruence.
Qed.

(** A connection that nothing refers to may change its datapath. *)
Definition detached (p : Z) (c : Conn) (w : World) : Prop :=
  w_conns w !! p = Some c /\ c_mainConn c = p /\ c_auxList c = [] /\ forall d, w_dpidMap w !! d <> Some p.

Lemma topo_rekey x p c c' w : topo x w -> detached p c w ->
  c_mainConn c' = p -> c_auxList c' = [] -> c_connId c' = c_connId c -> flag_on kManualDelete c' = flag_on kManualDelete c ->
  topo x (put p c' w).
Proof.
  intros T (Hp & Hm & Ha & Hd) Hm' Ha' Hi' Hf'.
  assert (forall q a, q <> p -> w_conns w !! q = Some a -> c_mainConn a <> p) as Hnot.
  { intros q a Hne Hq E. destruct (t_main x w T q a Hq) as (m & Hmm & Hx). rewrite E in Hmm.
    destruct Hx as (Hin & _); [congruence|]. assert (m = c) as -> by congruence. rewrite Ha in Hin. by apply not_elem_of_nil in Hin. }
  split.
  - intros q a [[-> ->]|[Hne Hq]]%lookup_put.
    { rewrite Hm'. exists c'. rewrite lookup_put_eq. by split. }
    destruct (t_main x w T q a Hq) as (m & Hmm & Hx). exists m. rewrite lookup_put_ne by (by eapply Hnot). by split.
  - intros q a r [[-> ->]|[Hne Hq]]%lookup_put Hin; [rewrite Ha' in Hin; by apply not_elem_of_nil in Hin|].
    destruct (t_aux x w T q a r Hq Hin) as (Hr & b & Hb & Hbm). split; [done|]. exists b. split; [|done].
    rewrite lookup_put_ne; [done|]. intros ->. congruence.
  - intros q a [[-> ->]|[Hne Hq]]%lookup_put; [rewrite Ha'; constructor|by eapply t_nodup].
  - intros q a [[-> ->]|[Hne Hq]]%lookup_put Hnil; [done|by eapply t_dp].
  - intros q a Hx [[-> ->]|[Hne Hq]]%lookup_put Hu; [by split_and!|by eapply (t_unreg x w T)].
  - intros q a [[-> ->]|[Hne Hq]]%lookup_put; [rewrite Hf'; by eapply t_flag|by eapply t_flag].
  - intros d q Hq. destruct (t_dpid x w T d q Hq) as (a & Hqa & Hx). exists a. rewrite lookup_put_ne; [by split|].
    intros ->. by apply (Hd d).
  - intros q. change (w_connList (put p c' w)) with (w_connList w). rewrite (t_list x w T). unfold put. cbn [w_conns].
    rewrite lookup_insert_is_Some. split; [|by intros [<-|[_ ?]]; eauto]. intros ?. destruct (decide (p = q)); auto.
  - intros i j q r a b Hi Hj Hlt Hq Hr.
    assert (forall q a, w_conns (put p c' w) !! q = Some a -> exists a0, w_conns w !! q = Some a0 /\ c_connId a0 = c_connId a) as Hb.
    { intros q0 a0 [[-> ->]|[_ ?]]%lookup_put; eauto. }
    destruct (Hb q a Hq) as (a0 & Hq0 & <-). destruct (Hb r b Hr) as (b0 & Hr0 & <-). by eapply (t_sorted x w T i j).
  - intros q a [[-> ->]|[Hne Hq]]%lookup_put; [rewrite Hi'; by eapply (t_id x w T)|by eapply (t_id x w T)].
  - apply (t_last x w T).
Qed.

(** Registering a main connection. *)
Lemma topo_insert p c d w : topo (Some p) w -> w_conns w !! p = Some c -> c_datapathId c = d -> d <> 0 ->
  c_auxiliaryId c = 0 -> c_mainConn c = p ->
  topo (Some p) (mkWorld (w_conns w) (<[d := p]> (w_dpidMap w)) (w_connList w) (w_lastConnId w)).
Proof.
  intros [] Hp Ed Hd Ha Hm. split; try done; cbn [w_conns w_dpidMap w_connList w_lastConnId].
  - intros q a Hx Hq Hu. destruct (t_unreg0 q a Hx Hq Hu) as (? & ? & Hn). split_and!; try done. intros e.
    destruct (decide (e = d)) as [->|]; [rewrite lookup_insert_eq; congruence|by rewrite lookup_insert_ne].
  - intros e q. destruct (decide (e = d)) as [->|].
    + rewrite lookup_insert_eq. intros [= <-]. by exists c.
    + rewrite lookup_insert_ne by done. apply t_dpid0.
Qed.

(** Tying an auxiliary connection to its main connection. *)
Lemma topo_attach p c c' main m m' w : topo (Some p) w -> detached p c w -> w_conns w !! main = Some m -> main <> p ->
  c_mainConn m = main -> c_datapathId m <> 0 ->
  c_mainConn c' = main -> c_datapathId c' = c_datapathId m -> c_auxiliaryId c' <> 0 -> c_auxList c' = [] ->
  c_connId c' = c_connId c -> flag_on kManualDelete c' = flag_on kManualDelete c ->
  m' = m {{ c_auxList := c_auxList m ++ [p] }} -> unregistered m = false ->
  topo (Some p) (put main m' (put p c' w)).
Proof.
  intros T (Hp & Hpm & Hpa & Hpd) Hm Hne Hmm Hmd Hcm Hcd Hca Hcl Hci Hcf Em' Hmu.
  assert (c_mainConn m' = main /\ c_datapathId m' = c_datapathId m /\ c_connId m' = c_connId m /\ c_auxiliaryId m' = c_auxiliaryId m /\
    flag_on kManualDelete m' = flag_on kManualDelete m /\ unregistered m' = unregistered m /\ c_auxList m' = c_auxList m ++ [p])
    as (M1 & M2 & M3 & M4 & M5 & M6 & M7) by (subst m'; by split_and!).
  assert (p ∉ c_auxList m) as Hnin.
  { intros Hin. destruct (t_aux _ w T main m p Hm Hin) as (_ & a & Ha & Hx). congruence. }
  assert (forall q a, w_conns (put main m' (put p c' w)) !! q = Some a ->
    (q = main /\ a = m') \/ (q <> main /\ q = p /\ a = c') \/ (q <> main /\ q <> p /\ w_conns w !! q = Some a)) as Hcases.
  { intros q a [?|[? [[??]|[??]]%lookup_put]]%lookup_put; auto. }
  assert (w_conns (put main m' (put p c' w)) !! main = Some m') as Lm by apply lookup_put_eq.
  assert (w_conns (put main m' (put p c' w)) !! p = Some c') as Lp by (rewrite lookup_put_ne by done; apply lookup_put_eq).
  assert (forall q a, q <> p -> w_conns w !! q = Some a -> exists a', w_conns (put main m' (put p c' w)) !! q = Some a' /\
     c_mainConn a' = c_mainConn a /\ c_auxList a ⊆ c_auxList a') as Hfwd.
  { intros q a Hqp Hq. destruct (decide (q = main)) as [->|]; [|exists a; rewrite !lookup_put_ne by done; by split_and!].
    exists m'. assert (a = m) as -> by congruence. split_and!; [done|congruence|set_solver]. }
  assert (forall q a, q <> p -> w_conns w !! q = Some a -> c_mainConn a <> p) as Hnot.
  { intros q a Hqp Hq E. destruct (t_main _ w T q a Hq) as (b & Hb & Hx). rewrite E in Hb.
    destruct Hx as (Hin & _); [congruence|]. assert (b = c) as -> by congruence. rewrite Hpa in Hin. by apply not_elem_of_nil in Hin. }
  split.
  - intros q a [[-> ->]|[(Hq & -> & ->)|(Hq & Hqp & Hqa)]]%Hcases.
    + exists m'. rewrite M1. by split.
    + exists m'. rewrite Hcm. split; [done|]. intros _. rewrite M7, Hcd. split_and!; [set_solver|done..].
    + destruct (t_main _ w T q a Hqa) as (b & Hb & Hx). destruct (Hfwd _ b (Hnot q a Hqp Hqa) Hb) as (b' & Hb' & E & Hs).
      exists b'. split; [done|]. intros Hn. destruct (Hx Hn) as (H1 & H2 & H3 & H4). rewrite E. split_and!; try done. by apply Hs.
  - intros q a r [[-> ->]|[(Hq & -> & ->)|(Hq & Hqp & Hqa)]]%Hcases Hin.
    + rewrite M7, elem_of_app, list_elem_of_singleton in Hin. destruct Hin as [Hin| ->].
      * destruct (t_aux _ w T main m r Hm Hin) as (Hr & a & Ha & Hx). split; [done|].
        destruct (Hfwd r a) as (a' & Ha' & E & _); [intros ->; done|done|]. exists a'. by rewrite E.
      * split; [done|]. exists c'. by split.
    + rewrite Hcl in Hin. by apply not_elem_of_nil in Hin.
    + destruct (t_aux _ w T q a r Hqa Hin) as (Hr & b & Hb & Hx). split; [done|].
      destruct (Hfwd r b) as (b' & Hb' & E & _); [intros ->; congruence|done|]. exists b'. by rewrite E.
  - intros q a [[-> ->]|[(Hq & -> & ->)|(Hq & Hqp & Hqa)]]%Hcases; [|rewrite Hcl; constructor|by eapply t_nodup].
    rewrite M7. apply NoDup_app. split_and!; [by eapply t_nodup| |by apply NoDup_singleton]. intros r Hr ->%list_elem_of_singleton. done.
  - intros q a [[-> ->]|[(Hq & -> & ->)|(Hq & Hqp & Hqa)]]%Hcases Hnil; [congruence|congruence|by eapply t_dp].
  - intros q a Hx [[-> ->]|[(Hq & -> & ->)|(Hq & Hqp & Hqa)]]%Hcases Hu; [congruence|done|by eapply (t_unreg _ w T)].
  - intros q a [[-> ->]|[(Hq & -> & ->)|(Hq & Hqp & Hqa)]]%Hcases; [rewrite M5|rewrite Hcf|]; by eapply t_flag.
  - intros d q Hq. destruct (t_dpid _ w T d q Hq) as (a & Hqa & H1 & H2 & H3 & H4). assert (q <> p) as Hqp by (intros ->; by apply (Hpd d)).
    destruct (decide (q = main)) as [->|]; [|exists a; rewrite !lookup_put_ne by done; by split_and!].
    exists m'. assert (a = m) as -> by congruence. rewrite M1, M2, M4. by split_and!.
  - intros q. change (w_connList (put main m' (put p c' w))) with (w_connList w). rewrite (t_list _ w T). unfold put. cbn [w_conns].
    rewrite !lookup_insert_is_Some. split; [intros; destruct (decide (main = q)), (decide (p = q)); auto|].
    intros [<-|[_ [<-|[_ ?]]]]; eauto.
  - intros i j q r a b Hi Hj Hlt Hq Hr.
    assert (forall q a, w_conns (put main m' (put p c' w)) !! q = Some a -> exists a0, w_conns w !! q = Some a0 /\ c_connId a0 = c_connId a) as Hb.
    { intros q0 a0 [[-> ->]|[(_ & -> & ->)|(_ & _ & ?)]]%Hcases; eauto. }
    destruct (Hb q a Hq) as (a0 & Hq0 & <-). destruct (Hb r b Hr) as (b0 & Hr0 & <-). by eapply (t_sorted _ w T i j).
  - intros q a [[-> ->]|[(Hq & -> & ->)|(Hq & Hqp & Hqa)]]%Hcases; [rewrite M3|rewrite Hci|]; by eapply (t_id _ w T).
  - apply (t_last _ w T).
Qed.

(** ** The invariant *)

(** [D] is a set of connections that are known to be settled. *)
Definition locals (D : gset Z) (w : World) : Prop := map_Forall (fun p c => local c /\ (p ∈ D -> conn_settled c)) (w_conns w).
Definition inv (D : gset Z) (x : option Z) (w : World) : Prop := topo x w /\ locals D w.

Section Invariant.
Context (D : gset Z).

Lemma inv_local x w p c : inv D x w -> w_conns w !! p = Some c -> local c.
Proof. intros [_ L] Hp. by apply (L p). Qed.

Lemma inv_settled x w p c : inv D x w -> w_conns w !! p = Some c -> p ∈ D -> conn_settled c.
Proof. intros [_ L] Hp. by apply (L p). Qed.

Lemma locals_put p c c' w : locals D w -> w_conns w !! p = Some c -> (local c -> local c') -> (conn_settled c -> conn_settled c') ->
  locals D (put p c' w).
Proof. intros L Hp Hl Hs. apply map_Forall_insert_2; [|done]. destruct (L p c Hp). split; auto. Qed.

Lemma inv_put x p c c' w : inv D x w -> w_conns w !! p = Some c -> step_ok c c' -> inv D x (put p c' w).
Proof.
  intros [T L] Hp (Hk & Hl & Hs). split; [by eapply topo_put|]. by apply (locals_put p c).
Qed.

(** Running a member function that takes a step. *)
Lemma inv_on_conn x p f w w' : inv D x w -> on_conn p f w = Some w' ->
  (forall c c', w_conns w !! p = Some c -> local c -> f c = Some c' -> step_ok c c') -> inv D x w'.
Proof.
  intros Hi. unfold on_conn. destruct (w_conns w !! p) as [c|] eqn:Hp; [|done]. cbn [mbind option_bind].
  destruct (f c) as [c'|] eqn:Hf; [|done]. intros [= <-] Hs. apply (inv_put x p c); try done. apply Hs; try done.
  by eapply inv_local.
Qed.

Lemma inv_shutdown x p reset w w' : inv D x w -> on_conn p (fun c => Some (shutdown reset c)) w = Some w' -> inv D x w'.
Proof. intros Hi E. apply (inv_on_conn x p _ w w' Hi E). intros c c' _ _ [= <-]. apply step_shutdown. Qed.

(** The connection that was being registered takes its last step. *)
Lemma inv_registered p f w w' : inv D (Some p) w -> on_conn p f w = Some w' ->
  (forall c c', w_conns w !! p = Some c -> local c -> f c = Some c' -> step_ok c c' /\ unregistered c' = false) ->
  inv D None w'.
Proof.
  intros Hi. unfold on_conn. destruct (w_conns w !! p) as [c|] eqn:Hp; [|done]. cbn [mbind option_bind].
  destruct (f c) as [c'|] eqn:Hf; [|done]. intros [= <-] Hs.
  destruct (Hs c c' eq_refl (inv_local _ _ _ _ Hi Hp) Hf) as [(Hk & Hl & Hst) Hu]. destruct Hi as [T L].
  split; [by eapply topo_registered|]. by apply (locals_put p c).
Qed.

Lemma on_conn_eq p c f w : w_conns w !! p = Some c -> on_conn p f w = (c' ← f c; Some (put p c' w)).
Proof. intros Hp. unfold on_conn. by rewrite Hp. Qed.

Lemma on_conn_other p f w w' q : on_conn p f w = Some w' -> q <> p -> w_conns w' !! q = w_conns w !! q.
Proof.
  unfold on_conn. destruct (w_conns w !! p); [|done]. cbn [mbind option_bind]. destruct (f c); [|done].
  intros [= <-] Hq. by apply lookup_put_ne.
Qed.

(** ** Registration *)

(** The members that registration changes. *)
Definition rekeyed (main dpid aux : Z) (c : Conn) : Conn :=
  c {{ c_mainConn := main }} {{ c_datapathId := dpid }} {{ c_auxiliaryId := aux }}.

Lemma local_rekeyed main dpid aux c : local c -> local (rekeyed main dpid aux c).
Proof. intros []. by split. Qed.

Lemma unregistered_detached w p c : inv D None w -> w_conns w !! p = Some c -> unregistered c = true -> detached p c w.
Proof. intros [T _] Hp Hu. split; [done|]. by apply (t_unreg None w T p c). Qed.

(** The search of [setMainConnection] finds a member of the list. *)
Lemma find_aux_in w l auxID q :
  foldr (fun q r => c ← w_conns w !! q; if c_auxiliaryId c =? auxID then Some (Some q) else r) (Some None) l = Some (Some q) ->
  q ∈ l.
Proof.
  induction l as [|r l IH]; [done|]. cbn [foldr]. destruct (w_conns w !! r) as [c|]; [|done]. cbn [mbind option_bind].
  destruct (_ =? _); [|set_solver]. intros [= ->]. set_solver.
Qed.

Lemma setMainConnection_inv p c main auxID w w' m :
  inv D (Some p) w -> detached p c w -> w_conns w !! main = Some m -> c_mainConn m = main -> c_datapathId m <> 0 ->
  unregistered m = false -> setMainConnection p main auxID w = Some w' ->
  inv D (Some p) w' /\ w_conns w' !! p = Some (rekeyed main (c_datapathId m) auxID c) /\ auxID <> 0.
Proof.
  intros Hi Hdet Hm Hmm Hmd Hmu. pose proof Hdet as (Hp & Hpm & Hpa & Hpd). unfold setMainConnection. rewrite Hp. cbn [mbind option_bind].
  destruct (Z.eqb_spec (c_mainConn c) p); [|done]. destruct (Z.eqb_spec main p) as [|Hne]; [done|].
  destruct (Z.eqb_spec auxID 0) as [|Ha]; [done|]. cbn [negb andb]. rewrite Hm. cbn [mbind option_bind].
  change (c {{ c_mainConn := main }} {{ c_datapathId := c_datapathId m }} {{ c_auxiliaryId := auxID }})
    with (rekeyed main (c_datapathId m) auxID c). set (c' := rekeyed main (c_datapathId m) auxID c).
  rewrite lookup_put_ne, Hm by done. cbn [mbind option_bind].
  destruct (foldr _ _ _) as [found|] eqn:Ef; [|done]. cbn [mbind option_bind].
  set (m' := m {{ c_auxList := c_auxList m ++ [p] }}).
  assert (inv D (Some p) (put main m' (put p c' w))) as Hfin.
  { destruct Hi as [T L]. split; [by apply (topo_attach p c c' main m m' w)|]. apply (locals_put main m); [|by rewrite lookup_put_ne|by intros []; split|done].
    apply (locals_put p c); try done. apply local_rekeyed. }
  destruct found as [q|].
  2: { cbn [mbind option_bind]. unfold on_conn. rewrite lookup_put_ne, Hm by done. intros [= <-]. split_and!; try done.
       rewrite lookup_put_ne by done. apply lookup_put_eq. }
  apply find_aux_in in Ef. destruct (t_aux _ w (proj1 Hi) main m q Hm Ef) as (Hqm & a & Hqa & Hqx).
  assert (q <> p) as Hqp by (intros ->; congruence).
  rewrite (on_conn_eq q a) by (by rewrite lookup_put_ne). cbn [mbind option_bind].
  rewrite (on_conn_eq main m) by (by rewrite !lookup_put_ne). intros [= E].
  assert (put main m' (put q (shutdown false a) (put p c' w)) = put q (shutdown false a) (put main m' (put p c' w))) as Ecomm.
  { unfold put. cbn [w_conns w_dpidMap w_connList w_lastConnId]. f_equal. by apply insert_insert_ne. }
  assert (w' = put q (shutdown false a) (put main m' (put p c' w))) as -> by (rewrite <- Ecomm; by rewrite <- E).
  clear E. split_and!; [|rewrite 2!lookup_put_ne by done; apply lookup_put_eq|done].
  apply (inv_put _ q a); [done|by rewrite !lookup_put_ne|apply step_shutdown].
Qed.

Lemma postDatapath_inv p c dpid aux w w' posted :
  inv D None w -> w_conns w !! p = Some c -> unregistered c = true -> postDatapath p dpid aux w = Some (posted, w') ->
  inv D (Some p) w' /\ (posted = false -> inv D None w') /\
  exists main d a, w_conns w' !! p = Some (rekeyed main d a c) /\ (main <> p -> aux <> 0).
Proof.
  intros Hi Hp Hu. pose proof (unregistered_detached w p c Hi Hp Hu) as Hdet. pose proof Hdet as (_ & Hpm & Hpa & Hpd).
  unfold postDatapath. destruct (Z.eqb_spec dpid 0) as [|Hd0].
  { intros [= <- <-]. split_and!; [split; [by apply topo_weaken, Hi|apply Hi]|done|]. exists (c_mainConn c), (c_datapathId c), (c_auxiliaryId c).
    split; [|congruence]. rewrite Hp. by destruct c. }
  unfold on_conn. rewrite Hp. cbn [mbind option_bind].
  set (c1 := c {{ c_datapathId := dpid }} {{ c_auxiliaryId := aux }}). set (w1 := put p c1 w).
  assert (w_conns w1 !! p = Some c1) as Hp1 by apply lookup_put_eq.
  assert (c1 = rekeyed p dpid aux c) as Ec1 by (unfold c1, rekeyed; rewrite <- Hpm; by destruct c).
  assert (inv D None w1) as Hi1.
  { split; [apply (topo_rekey None p c c1 w (proj1 Hi) Hdet); try done; by rewrite Ec1|]. apply (locals_put p c); [apply Hi|done|rewrite Ec1; apply local_rekeyed|done]. }
  assert (inv D (Some p) w1) as Hi1' by (split; [apply topo_weaken|]; apply Hi1).
  unfold registerDatapath. rewrite Hp1. cbn [mbind option_bind]. change (c_auxiliaryId c1) with aux. change (c_datapathId c1) with dpid.
  change (w_dpidMap w1) with (w_dpidMap w).
  destruct (Z.eqb_spec aux 0) as [Ha|Ha].
  - set (w2 := mkWorld (w_conns w1) (<[dpid := p]> (w_dpidMap w)) (w_connList w1) (w_lastConnId w1)).
    assert (inv D (Some p) w2) as Hi2.
    { split; [|apply Hi1]. apply (topo_insert p c1 dpid w1); try done. apply Hi1'. }
    destruct (w_dpidMap w !! dpid) as [old|] eqn:Eold; [|intros [= <- <-]; split_and!; [done..|]; exists p, dpid, aux; by rewrite <- Ec1].
    destruct (Z.eqb_spec old p) as [->|Hne]; cbn [negb]; [by destruct (Hpd dpid)|].
    fold (on_conn old (fun c => Some (shutdown true c)) w2).
    destruct (on_conn old (fun c => Some (shutdown true c)) w2) as [w3|] eqn:E3; [|done]. cbn [mbind option_bind]. intros [= <- <-].
    split_and!; [by eapply inv_shutdown|done|]. exists p, dpid, aux. rewrite (on_conn_other _ _ _ _ p E3) by done.
    change (w_conns w2 !! p) with (w_conns w1 !! p). rewrite Hp1, Ec1. done.
  - destruct (w_dpidMap w !! dpid) as [parent|] eqn:Epar.
    2: { intros [= <- <-]. split_and!; [done..|]. exists p, dpid, aux. by rewrite Hp1, Ec1. }
    destruct (t_dpid _ w (proj1 Hi) dpid parent Epar) as (m & Hm & Hmd & _ & Hma & Hmm).
    assert (parent <> p) as Hne by (intros ->; by apply (Hpd dpid)).
    assert (w_conns w1 !! parent = Some m) as Hm1 by (by unfold w1; rewrite lookup_put_ne). rewrite Hm1. cbn [mbind option_bind].
    destruct (flag_on kPermitsAuxiliary m).
    2: { intros [= <- <-]. split_and!; [done..|]. exists p, dpid, aux. by rewrite Hp1, Ec1. }
    destruct (setMainConnection p parent aux w1) as [w2|] eqn:E2; [|done]. cbn [mbind option_bind]. intros [= <- <-].
    destruct (setMainConnection_inv p c1 parent aux w1 w2 m) as (Hi2 & Hp2 & _); try done.
    + congruence.
    + destruct (unregistered m) eqn:Eu; [|done]. destruct (t_unreg _ w (proj1 Hi) parent m) as (_ & _ & Hx); try done. by destruct (Hx dpid).
    + split_and!; [done..|]. exists parent, (c_datapathId m), aux. rewrite Hp2, Ec1. done.
Qed.

(** ** The handshake's messages *)

Lemma negotiate_own mine v set r : negotiateVersion mine v set = Some r -> 0 <= v -> r <> 0 -> supports mine r.
Proof.
  unfold negotiateVersion. destruct (andb _ _).
  { intros [= <-] _ Hne. apply highestVersion_spec in Hne. by apply supports_inter in Hne as [? _]. }
  destruct (_ <=? _) eqn:E; [intros [= <-] _ Hne; by apply highestVersion_spec|]. unfold containsVersion.
  destruct (v <? 32); [|done]. cbn [mbind option_bind]. intros [= <-] Hv Hne. rewrite version_bit_testbit in Hne |- * by done.
  destruct (Z.testbit mine v) eqn:Eb; [|done]. destruct (highestVersion_spec mine) as (Hr & _). apply Z.leb_gt in E.
  split; [lia|done].
Qed.

Lemma cast_true M addr buf : cast M addr buf = Some true ->
  b_length buf = Some (zlen buf) /\ isLengthValid M (zlen buf) = true.
Proof.
  unfold cast, castMessage. destruct (b_type buf) as [t|]; [|done]. cbn [mbind option_bind]. destruct (t =? MsgType M); [|done].
  destruct (b_length buf) as [len|]; [|done]. cbn [mbind option_bind]. destruct (Z.eqb_spec (zlen buf) len) as [<-|]; [|done].
  destruct (b_version buf) as [v|]; [|done]. cbn [mbind option_bind]. destruct (negb (Z.land v 0xF0 =? 0)); [done|].
  destruct (isLengthValid M (zlen buf)); [|done]. done.
Qed.

Lemma past_hello_not h : hs_state h = kHandshakeInit \/ hs_state h = kSentHello -> ~ past_hello h.
Proof. unfold past_hello. intros [-> | ->] [?|?]; done. Qed.

Lemma featuresReply_same h : h {{ hs_featuresReply := hs_featuresReply h }} = h.
Proof. by destruct h. Qed.

Lemma step_sendFeatures now h c c' : c_listener c = Some (LHandshake h) -> conn_settled c -> hs_state h <> kSentPortRequest ->
  supports (hs_versions h) (c_version c) -> sendFeaturesRequest now h c = Some c' -> step_ok c c'.
Proof.
  intros El [S1 S2] Hst Hsup. unfold sendFeaturesRequest.
  destruct (HeaderOnlyBuilder_send _ c) as [[x c1]|] eqn:E; [|done]. cbn [mbind option_bind]. intros [= <-].
  apply header_only_sends in E. pose proof (sends_listener _ _ E) as El1. rewrite El in El1.
  etransitivity; [by apply sends_step|]. rewrite <- (featuresReply_same h) at 1. destruct E as (y & d & ->).
  apply (step_handshake h); try done. by left.
Qed.

Lemma step_sendPorts now h c c' : c_listener c = Some (LHandshake h) -> conn_settled c -> past_hello h ->
  reply_ok (hs_featuresReply h) -> sendPortDescRequest now h c = Some c' -> step_ok c c' /\ unregistered c' = false.
Proof.
  intros El [S1 S2] Hst Hr. unfold sendPortDescRequest.
  destruct (MultipartRequestBuilder_send _ c) as [[[x b] c1]|] eqn:E; [|done]. cbn [mbind option_bind]. intros [= <-].
  apply multipart_sends in E. pose proof (sends_listener _ _ E) as El1. rewrite El in El1. split; [|done].
  etransitivity; [by apply sends_step|]. rewrite <- (featuresReply_same h) at 1. destruct E as (y & d & ->).
  apply (step_handshake h); try done; [|by left]. intros _ [_ _ _ _ Hn _ _]. by apply Hn.
Qed.

Lemma onHello_inv p src addr buf now h w w' c :
  inv D None w -> w_conns w !! p = Some c -> c_listener c = Some (LHandshake h) -> conn_settled c -> bytes_ok buf ->
  onHello p src addr buf now h w = Some w' -> inv D None w'.
Proof.
  intros Hi Hp El Hs Hb. unfold onHello. case_bool_decide as Hst; cbn [negb]; [|by intros [= <-]].
  destruct (cast Hello_class addr buf) as [[]|]; cbn [mbind option_bind negb]; [|by intros [= <-]|done].
  destruct (b_version buf) as [v|] eqn:Ev; [|done]. cbn [mbind option_bind].
  destruct (Hello_protocolVersions addr buf) as [vs|] eqn:Evs; [|done]. cbn [mbind option_bind].
  unfold negotiateHello. rewrite Ev, Evs. cbn [mbind option_bind].
  destruct (negotiateVersion (hs_versions h) v vs) as [version|] eqn:En; [|done]. cbn [mbind option_bind].
  pose proof (past_hello_not h Hst) as Hpast. destruct (Z.eqb_spec version 0) as [|Hne].
  - destruct (slice buf 0 8) as [hdr|]; [|done]. cbn [mbind option_bind].
    destruct (on_conn p _ w) as [w1|] eqn:E1; [|done]. cbn [mbind option_bind].
    assert (inv D None w1) as Hi1.
    { apply (inv_on_conn None p _ w w1 Hi E1). intros c1 c2 Hp1 _ [= <-]. assert (c1 = c) as -> by congruence.
      etransitivity; [by apply (step_version (highestVersion (hs_versions h)) h)|]. by apply step_log. }
    destruct (negb (wantFeatures h)); cbn [mbind option_bind]; [|by intros; eapply inv_shutdown].
    destruct (on_conn src _ w1) as [w2|] eqn:E2; [|done]. cbn [mbind option_bind]. intros E. eapply inv_shutdown; [|exact E].
    apply (inv_on_conn None src _ w1 w2 Hi1 E2). intros c1 c2 _ _ E3. by eapply sends_step, error_sends.
  - intros E. apply (inv_on_conn None p _ w w' Hi E). intros c1 c2 Hp1 _. assert (c1 = c) as -> by congruence.
    assert (supports (hs_versions h) version) as Hsup.
    { eapply negotiate_own; [exact En| |done]. unfold b_version in Ev. rewrite rd8_rd_be in Ev. apply rd_be_range in Ev; [lia|done]. }
    set (c3 := c {{ c_version := version }}).
    assert (forall t, step_ok c (c3 {{ c_keepAliveTimeout := t }})) as Hk.
    { intros t. etransitivity; [by apply (step_version version h)|]. by apply step_ok_same. }
    destruct (wantFeatures h); intros E2.
    + etransitivity; [apply (Hk kControllerKeepAliveTimeout)|]. eapply (step_sendFeatures now h); try done.
      by destruct Hst as [-> | ->].
    + etransitivity; [apply (Hk kRawKeepAliveTimeout)|]. by eapply (step_install h).
Qed.

Lemma onFeaturesReply_inv p addr buf now h w w' c :
  inv D None w -> w_conns w !! p = Some c -> c_listener c = Some (LHandshake h) -> conn_settled c -> bytes_ok buf ->
  onFeaturesReply p addr buf now h w = Some w' -> inv D None w'.
Proof.
  intros Hi Hp El Hs Hb. unfold onFeaturesReply. case_bool_decide as Hst; cbn [negb]; [|by intros [= <-]].
  destruct (cast FeaturesReply_class addr buf) as [[]|] eqn:Ec; cbn [mbind option_bind negb]; [|by intros [= <-]|done].
  destruct (FeaturesReply_datapathId buf) as [dpid|]; [|done]. cbn [mbind option_bind].
  destruct (FeaturesReply_auxiliaryId buf) as [aux|]; [|done]. cbn [mbind option_bind].
  destruct (postDatapath p dpid aux w) as [[posted w1]|] eqn:E1; [|done]. cbn [mbind option_bind].
  assert (unregistered c = true) as Hu by (unfold unregistered; rewrite El, Hst; done).
  destruct (postDatapath_inv p c dpid aux w w1 posted Hi Hp Hu E1) as (Hi1 & Hi1' & main & d & a & Hp1 & Hmain).
  set (c1 := rekeyed main d a c) in *. destruct posted; [|intros; eapply inv_shutdown; [|done]; by apply Hi1'].
  rewrite Hp1. cbn [mbind option_bind]. assert (c_listener c1 = Some (LHandshake h)) as El1 by done.
  assert (conn_settled c1) as Hs1 by done.
  destruct (andb _ _).
  { destruct (negb (aux =? 0)); [|done]. intros E. apply (inv_registered p _ w1 w' Hi1 E). intros c2 c3 Hp2 _ E3.
    assert (c2 = c1) as -> by congruence. split; [by eapply (step_clear_listener h)|].
    revert E3. unfold clearChannelListener, is_handshake. rewrite El1. by intros [= <-]. }
  destruct (cast_true _ _ _ Ec) as [Elen Hlen]. rewrite Elen. cbn [mbind option_bind].
  rewrite slice_all by done. cbn [mbind option_bind].
  assert (reply_ok buf) as Hr.
  { unfold isLengthValid, Multiple8 in Hlen. cbn in Hlen. rewrite !andb_true_iff in Hlen. destruct Hlen as [[H1%Z.leb_le _] H2%Z.eqb_eq].
    by split_and!. }
  set (h1 := h {{ hs_featuresReply := buf }}).
  assert (step_ok c1 (set_handshake h1 c1)) as Hset.
  { replace h1 with (hs_sent (hs_state h) (hs_timeStarted h) (h {{ hs_featuresReply := buf }})) by (by destruct h).
    apply (step_handshake h); try done; [|by left]. intros _ [_ _ _ _ Hn _ _]. apply Hn; [done|by left]. }
  destruct (OFP_VERSION_1 <? c_version c1); intros E; apply (inv_registered p _ w1 w' Hi1 E); intros c2 c3 Hp2 _ E3;
    assert (c2 = c1) as -> by congruence.
  - destruct (step_sendPorts now h1 (set_handshake h1 c1) c3) as [Hst3 Hu3]; try done; [by left|]. split; [by etransitivity|done].
  - split; [etransitivity; [exact Hset|]; by eapply (step_install h1)|]. by eapply install_registered.
Qed.

(** The handshake that is replaced does not matter. *)
Lemma install_set h h' c : c_listener c = Some (LHandshake h) ->
  installNewChannelListener h' (set_handshake h' c) = installNewChannelListener h' c.
Proof.
  intros El. unfold installNewChannelListener, clearChannelListener, is_handshake. rewrite El. by destruct (hs_factory h').
Qed.

Lemma onPortDescReply_inv p addr buf h w w' c :
  inv D None w -> w_conns w !! p = Some c -> c_listener c = Some (LHandshake h) -> conn_settled c ->
  onPortDescReply p addr buf h w = Some w' -> inv D None w'.
Proof.
  intros Hi Hp El Hs. unfold onPortDescReply. destruct (negb _); [by intros [= <-]|].
  destruct (cast PortDescReply_class addr buf) as [[]|]; cbn [mbind option_bind negb]; [|by intros [= <-]|done].
  destruct (replyBody addr buf) as [ports|]; [|done]. cbn [mbind option_bind].
  destruct (appendPortsToFeaturesReply ports h) as [h'|]; [|done]. cbn [mbind option_bind]. intros E.
  apply (inv_on_conn None p _ w w' Hi E). intros c1 c2 Hp1 _. assert (c1 = c) as -> by congruence.
  rewrite (install_set h) by done. by apply (step_install h).
Qed.

Lemma handshake_onMessage_inv p src addr buf now h w w' c :
  inv D None w -> w_conns w !! p = Some c -> c_listener c = Some (LHandshake h) -> conn_settled c -> bytes_ok buf ->
  handshake_onMessage p src addr buf now h w = Some w' -> inv D None w'.
Proof.
  intros Hi Hp El Hs Hb. unfold handshake_onMessage. destruct (b_type buf) as [t|]; [|done]. cbn [mbind option_bind].
  destruct (t =? OFPT_HELLO); [by apply (onHello_inv _ _ _ _ _ _ _ _ c)|].
  destruct (t =? OFPT_FEATURES_REPLY); [by apply (onFeaturesReply_inv _ _ _ _ _ _ _ c)|].
  destruct (t =? OFPT_ERROR); [by intros [= <-]|]. destruct (t =? OFPT_MULTIPART_REPLY); [|by intros [= <-]].
  destruct (Message_subtype buf) as [s|]; [|done]. cbn [mbind option_bind].
  destruct (s =? OFPMP_PORT_DESC); [by apply (onPortDescReply_inv _ _ _ _ _ _ c)|by intros [= <-]].
Qed.

(** ** Messages *)

Lemma echo_step addr buf c handled c' : echoMessageHandled addr buf c = Some (handled, c') -> sends c c'.
Proof.
  unfold echoMessageHandled. destruct (b_type buf) as [t|]; [|done]. cbn [mbind option_bind]. destruct (t =? OFPT_ECHO_REQUEST).
  - destruct (cast EchoRequest_class addr buf) as [ok|]; [|done]. cbn [mbind option_bind].
    destruct (if ok then isPassThru buf else Some false) as [[]|]; cbn [mbind option_bind]; [intros [= _ <-]; destruct c; by eexists _, _| |done].
    destruct (b_setType buf _); [|done]. cbn [mbind option_bind]. intros [= _ <-]. destruct c. by eexists _, _.
  - destruct (t =? OFPT_ECHO_REPLY); [|intros [= _ <-]; destruct c; by eexists _, _].
    destruct (cast EchoReply_class addr buf) as [ok|]; [|done]. cbn [mbind option_bind].
    destruct (if ok then isKeepAlive buf else Some false); [|done]. cbn [mbind option_bind]. intros [= _ <-]. destruct c. by eexists _, _.
Qed.

(** A message as the reads deliver it. *)
Definition readable (buf : list Z) : Prop := bytes_ok buf /\ 8 <= zlen buf <= 65535 /\ checked_reply buf.

Lemma settled_sends c c' : sends c c' -> conn_settled c -> conn_settled c'.
Proof. by intros (x & d & ->). Qed.

Lemma postMessage_inv `{UninitLaws} le p addr buf now w w' c :
  inv D None w -> w_conns w !! p = Some c -> conn_settled c -> readable buf ->
  postMessage le p addr buf now w = Some w' -> inv D None w'.
Proof.
  intros Hi Hp Hs (Hb & Hz & Hck). unfold postMessage. rewrite Hp. cbn [mbind option_bind].
  destruct (if OFP_VERSION_1 <=? c_version c then _ else _) as [[handled c1]|] eqn:E1; [|done]. cbn [mbind option_bind].
  assert (sends c c1) as Hsend.
  { destruct (OFP_VERSION_1 <=? c_version c); [by eapply echo_step|]. injection E1 as _ <-. destruct c. by eexists _, _. }
  set (w1 := put p c1 w). assert (inv D None w1) as Hi1 by (apply (inv_put _ p c); try done; by apply sends_step).
  assert (w_conns w1 !! p = Some c1) as Hp1 by apply lookup_put_eq.
  destruct handled; [by intros [= <-]|]. destruct (w_conns w1 !! c_mainConn c1) as [m|] eqn:Hm; [|done]. cbn [mbind option_bind].
  assert (conn_settled m) as Hsm.
  { destruct (decide (c_mainConn c1 = p)) as [Ep|Hne]; [rewrite Ep, Hp1 in Hm; injection Hm as <-; by eapply settled_sends|].
    apply settled_of; [by eapply inv_local|]. right. destruct (t_main _ w1 (proj1 Hi1) p c1 Hp1) as (m' & Hm' & Hx).
    assert (m' = m) as -> by congruence. destruct (Hx Hne) as (Hin & _). destruct (unregistered m) eqn:Eu; [|done].
    destruct (t_unreg _ w1 (proj1 Hi1) _ m ltac:(done) Hm Eu) as (_ & Ha & _). rewrite Ha in Hin. by apply not_elem_of_nil in Hin. }
  destruct (c_listener m) as [l|] eqn:El; [|by intros [= <-]].
  destruct (normalize_total le buf Hb Hz Hck) as (v & t & t' & m1 & f & _ & _ & _ & -> & Hbm & _). cbn [mbind option_bind].
  destruct l as [h|].
  - by apply (handshake_onMessage_inv _ _ _ _ _ _ _ _ m).
  - intros E. apply (inv_on_conn _ _ _ _ _ Hi1 E). intros c2 c3 Hc2 _ [= <-]. apply step_user_message. congruence.
Qed.

(** ** Reads *)

Lemma step_reading r c : conn_settled c -> (forall hdr, r = RMessage hdr -> header_ready hdr) -> step_ok c (set_reading r c).
Proof.
  intros [S1 S2] Hr. split_and!; [done| |done]. intros []. split; try done.
  intros Ho. change (c_handshaking c = true \/ flag_on kConnectionUp c = false) in Ho. rewrite S1, S2 in Ho. by destruct Ho.
Qed.

Lemma step_stop_reading c : step_ok c (set_reading RNone c).
Proof. split_and!; [done| |done]. intros [? Hi ? ? ? ? ?]. split; try done. intros Ho. split; [done|]. by apply Hi. Qed.

Lemma step_time now c : step_ok c (updateTimeReadStarted now c).
Proof.
  unfold updateTimeReadStarted. transitivity (c {{ c_timeReadStarted := now }}); [by apply step_ok_same|]. by apply step_clear.
Qed.

Lemma settled_time now c : conn_settled c -> conn_settled (updateTimeReadStarted now c).
Proof. apply step_time. Qed.

Lemma step_readHeader now c : conn_settled c -> step_ok c (asyncReadHeader now c).
Proof.
  intros Hs. unfold asyncReadHeader. destruct (negb (c_open c)); [apply step_stop_reading|].
  etransitivity; [apply (step_time now)|]. apply step_reading; [by apply settled_time|done].
Qed.

Lemma step_readMessage hdr now c : conn_settled c -> header_ready hdr -> step_ok c (asyncReadMessage hdr now c).
Proof.
  intros Hs Hh. unfold asyncReadMessage. destruct (negb (c_open c)); [apply step_stop_reading|].
  etransitivity; [apply (step_time now)|]. apply step_reading; [by apply settled_time|]. by intros ? [= <-].
Qed.

Lemma step_read_on now c : conn_settled c -> step_ok c (read_on now c).
Proof.
  intros Hs. unfold read_on. destruct (c_open c); [by apply step_readHeader|].
  etransitivity; [apply step_stop_reading|apply step_channelDown].
Qed.
End Invariant.

Lemma locals_add D p c w : locals D w -> w_conns w !! p = Some c -> conn_settled c -> locals (D ∪ {[p]}) w.
Proof.
  intros L Hp Hs q d Hq. destruct (L q d Hq) as [Hl Hd]. split; [done|]. intros [Hin| ->%elem_of_singleton]%elem_of_union; [auto|congruence].
Qed.

Lemma locals_sub D D' w : D' ⊆ D -> locals D w -> locals D' w.
Proof. intros Hs L p c Hp. destruct (L p c Hp) as [Hl Hd]. split; [done|]. intros Hin. by apply Hd, Hs. Qed.

(** The message is posted, and the connection reads on. *)
Lemma message_read_inv `{UninitLaws} le p addr buf now w w' c :
  inv ∅ None w -> w_conns w !! p = Some c -> conn_settled c -> readable buf ->
  message_read le p addr buf now w = Some w' -> inv ∅ None w'.
Proof.
  intros [T L] Hp Hs Hr. unfold message_read. destruct (postMessage le p addr buf now w) as [w1|] eqn:E1; [|done].
  cbn [mbind option_bind]. intros E. assert (inv {[p]} None w1) as Hi1.
  { eapply (postMessage_inv {[p]}); try done. split; [done|]. rewrite <- (union_empty_l_L {[p]}). by eapply locals_add. }
  assert (inv {[p]} None w') as [T' L'].
  { apply (inv_on_conn _ _ _ _ _ _ Hi1 E). intros c1 c2 Hc1 _ [= <-]. apply step_read_on. eapply inv_settled; [exact Hi1|done|set_solver]. }
  split; [done|]. eapply locals_sub; [|exact L']. set_solver.
Qed.

Lemma header_read_inv `{UninitLaws} le p addr hdr now w w' c :
  inv ∅ None w -> w_conns w !! p = Some c -> conn_settled c -> zlen hdr = 8 -> bytes_ok hdr -> checked_reply hdr ->
  header_read le p addr hdr now w = Some w' -> inv ∅ None w'.
Proof.
  intros Hi Hp Hs Hz Hb Hck. unfold header_read. rewrite Hp. cbn [mbind option_bind].
  destruct (Header_at hdr) as [h|] eqn:Eh; [|done]. cbn [mbind option_bind]. destruct (Header_validateInput h _) eqn:Ev.
  - destruct (hdr_length h =? 8).
    + intros E. assert (message_read le p addr hdr now w = Some w') as E' by (unfold message_read; exact E). clear E.
      apply (message_read_inv le p addr hdr now w w' c Hi Hp Hs); [|exact E']. split_and!; try done; lia.
    + intros E. apply (inv_on_conn _ _ _ _ _ _ Hi E). intros c1 c2 Hc1 _ [= <-]. assert (c1 = c) as -> by congruence.
      apply step_readMessage; [done|]. split_and!; eauto.
  - intros E. apply (inv_on_conn _ _ _ _ _ _ Hi E). intros c1 c2 Hc1 _ [= <-].
    etransitivity; [apply step_stop_reading|]. etransitivity; [apply step_channelDown|by apply step_log].
Qed.

(** ** Going up *)

(** Members of one connection that the event loop runs. *)

Lemma step_up h c : c_listener c = Some (LHandshake h) -> step_ok c (set_flag kChannelUp c).
Proof.
  intros El. assert (flag_on kConnectionUp (set_flag kChannelUp c) = flag_on kConnectionUp c) as Hcu by (rewrite has_set by done; apply orb_false_r).
  split_and!; [|intros []; split; try done; try by rewrite Hcu|unfold conn_settled; by rewrite Hcu].
  - unfold key_le. rewrite has_set by done. rewrite orb_false_r. by split_and!.
  - unfold lifecycle in *. change (c_listener (set_flag kChannelUp c)) with (c_listener c). by rewrite El in *.
Qed.

Lemma step_asyncHandshake c : flag_on kConnectionUp c = false -> step_ok c (asyncHandshake c).
Proof.
  intros Hc. split_and!.
  - unfold key_le. split_and!; try done. change (flag_on kManualDelete (set_flag kConnectionUp c) = flag_on kManualDelete c).
    rewrite has_set by done. apply orb_false_r.
  - intros [Hl Hi ? ? ? ? ?]. split; try done.
    2: { intros _. apply Hi. by right. }
    2: { intros _. change (flag_on kConnectionUp (set_flag kConnectionUp c) = true). rewrite has_set by done. apply orb_true_r. }
    unfold lifecycle in *. change (c_listener (asyncHandshake c)) with (c_listener c). destruct (Hi (or_intror Hc)) as (_ & h & El & _). by rewrite El in *.
  - intros [Hs _]. congruence.
Qed.

Lemma step_handshake_done error now c c' : local c -> c_handshaking c = true ->
  handshake_done error now c = Some c' -> step_ok c c'.
Proof.
  intros Hl Hh. destruct Hl as [_ Hi _ _ _ _ Hup]. pose proof (Hup Hh) as Hc. destruct (Hi (or_introl Hh)) as (_ & h & El & Est). clear Hi.
  unfold handshake_done. set (c0 := c {{ c_handshaking := false }}).
  assert (conn_settled c0) as Hs0 by done. assert (step_ok c c0) as H0.
  { split_and!; [done| |done]. intros []. split; try done. intros [Ho|Ho]; [done|]. change (flag_on kConnectionUp c = false) in Ho. congruence. }
  destruct error; cbn [negb]; [by intros [= <-]|]. destruct (channelUp now c0) as [c1|] eqn:E1; [|done]. cbn [mbind option_bind].
  intros [= <-]. assert (step_ok c0 c1) as H1.
  2: { etransitivity; [exact H0|]. etransitivity; [exact H1|]. apply step_readHeader. by apply H1. }
  revert E1. unfold channelUp. destruct (negb (flag_on kChannelUp c0)); [|by intros [= <-]].
  change (c_listener (set_flag kChannelUp c0)) with (c_listener c). rewrite El. unfold onChannelUp. rewrite Est. cbn [bool_decide decide].
  rewrite bool_decide_true by done. unfold sendHello. set (c2 := (set_flag kChannelUp c0) {{ c_nextXid := hs_startingXid h }}).
  assert (step_ok c0 c2) as H2.
  { transitivity (set_flag kChannelUp c0); [by apply (step_up h)|]. by apply step_ok_same. }
  destruct (HelloBuilder_send _ c2) as [[[x b] c3]|] eqn:E3; [|done]. cbn [mbind option_bind]. intros [= <-].
  apply hello_sends in E3. pose proof (settled_sends _ _ E3 (proj2 (proj2 H2) Hs0)) as [S1 S2].
  pose proof (sends_listener _ _ E3) as El3. etransitivity; [exact H2|]. etransitivity; [by apply sends_step|].
  rewrite <- (featuresReply_same h). apply (step_handshake h); try done; [by rewrite El3| |congruence|by left].
  by intros [?|?].
Qed.

Lemma step_tickle answer now c c' : tickle answer now c = Some c' -> step_ok c c'.
Proof.
  unfold tickle. destruct (flag_on kConnectionUp c); [|done].
  assert (forall c', (let age := now - c_timeReadStarted c in
    if age <? c_keepAliveTimeout c then Some c
    else if (c_version c <? OFP_VERSION_1) || (2 * c_keepAliveTimeout c <=? age) then
      Some (shutdown false (log_event (EAlert (str "No response to echo request on idle channel") []) c))
    else if negb (flag_on kChannelIdle c) then
      '(_, c) ← EchoRequestBuilder_send (EchoRequestBuilder_setKeepAlive (mkEchoRequest 0 [])) (set_flag kChannelIdle c); Some c
    else Some c) = Some c' -> step_ok c c') as Hka.
  { cbv zeta. intros c1. destruct (_ <? _); [by intros [= <-]|]. destruct (orb _ _).
    { intros [= <-]. etransitivity; [|apply step_shutdown]. by apply step_log. }
    destruct (negb _); [|by intros [= <-]].
    destruct (EchoRequestBuilder_send _ _) as [[x c2]|] eqn:E; [|done]. cbn [mbind option_bind]. intros [= <-].
    etransitivity; [by apply (step_set kChannelIdle)|]. apply sends_step. by eapply echo_sends; [|exact E]. }
  destruct (c_listener c) as [[h|]|].
  - intros [= <-]. unfold handshake_onTickle. destruct (_ <=? _); [apply step_shutdown|done].
  - destruct answer; [by intros [= <-]|apply Hka].
  - apply Hka.
Qed.

Lemma step_header_error c : step_ok c (header_error c).
Proof. unfold header_error. etransitivity; [|apply step_shutdown]. etransitivity; [apply step_stop_reading|apply step_channelDown]. Qed.

Lemma step_message_error c : step_ok c (message_error c).
Proof. unfold message_error. etransitivity; [apply step_stop_reading|apply step_channelDown]. Qed.

Lemma step_flush_error c : step_ok c (flush_error c).
Proof. by apply step_ok_same. Qed.

Lemma step_shutdown_done c : step_ok c (shutdown_done c).
Proof. unfold shutdown_done. transitivity (set_flag kShutdownDone c); [by apply step_set|by apply step_ok_same]. Qed.
