(* ===== verification/ConnLoop.v ===== *)
(** * The event loop: searches, construction and destruction of connections, and
    the theorems on every run of the loop *)

From S2P Require Import Prelude.
From S2P Require Import ByteOrder.
From S2P Require Import Constants.
From S2P Require Import SmallBuffer.
From S2P Require Import MsgBuffer.
From S2P Require Import Messages.
From S2P Require Import Normalize.
From S2P Require Import NormSafe.
From S2P Require Import Hello.
From S2P Require Import ChannelMsgs.
From S2P Require Import Connection.
From S2P Require Import ConnInv.
From stdpp Require Import gmap.
From coqutil Require Import Datatypes.RecordSetters.
Import DoubleBraceUpdate.
#[local] Open Scope Z_scope.

(** ** The binary search *)

(** The connection at a position of the list has the given id. *)
Definition id_at (w : World) (i : nat) (z : Z) : Prop :=
  exists q c, w_connList w !! i = Some q /\ w_conns w !! q = Some c /\ c_connId c = z.

(** What the search relies on: the connections of the list are there, and sorted
    by their ids. *)
Record searchable (w : World) : Prop := mkSearchable {
  s_there : forall i, (i < length (w_connList w))%nat -> exists z, id_at w i z;
  s_sorted : forall i j a b, id_at w i a -> id_at w j b -> (i < j)%nat -> a < b }.

Lemma id_at_unique w i a b : id_at w i a -> id_at w i b -> a = b.
Proof. intros (q & c & H1 & H2 & <-) (q' & c' & H1' & H2' & <-). congruence. Qed.

Lemma conn_lower_bound_spec w cid : searchable w -> forall fuel first count,
  (first + count <= length (w_connList w))%nat -> (count <= fuel)%nat ->
  exists i, conn_lower_bound fuel cid w first count = Some i /\ (first <= i <= first + count)%nat /\
    (forall j z, (first <= j < i)%nat -> id_at w j z -> z < cid) /\
    (forall j z, (i <= j < first + count)%nat -> id_at w j z -> cid <= z).
Proof.
  intros [Hthere Hsort] fuel. induction fuel as [|fuel IH]; intros first count Hlen Hf; cbn [conn_lower_bound].
  { assert (count = 0%nat) as -> by lia. exists first. split_and!; try done; try lia; intros; lia. }
  destruct (Nat.eqb_spec count 0) as [->|Hc]; [exists first; split_and!; try done; try lia; intros; lia|].
  set (step := (count / 2)%nat). assert (step < count)%nat as Hstep by (apply Nat.div_lt; lia).
  destruct (Hthere (first + step)%nat) as (z & Hz); [lia|]. pose proof Hz as (q & c & -> & Hq & Ez). cbn [mbind option_bind]. rewrite Hq.
  cbn [mbind option_bind]. rewrite Ez. destruct (Z.ltb_spec z cid).
  - destruct (IH (first + step + 1)%nat (count - (step + 1))%nat) as (i & -> & Hi & Hlo & Hhi); [lia..|].
    exists i. split_and!; [done|lia|lia| |].
    + intros j y Hj Hy. destruct (decide (first + step < j)%nat); [apply (Hlo j); [lia|done]|].
      destruct (decide (j = first + step)%nat) as [->|]; [by rewrite (id_at_unique _ _ _ _ Hy Hz)|].
      pose proof (Hsort j (first + step)%nat y z Hy Hz ltac:(lia)). lia.
    + intros j y Hj Hy. apply (Hhi j); [lia|done].
  - destruct (IH first step) as (i & -> & Hi & Hlo & Hhi); [lia..|]. exists i. split_and!; [done|lia|lia|done|].
    intros j y Hj Hy. destruct (decide (j < first + step)%nat); [apply (Hhi j); [lia|done]|].
    destruct (decide (j = first + step)%nat) as [->|]; [by rewrite (id_at_unique _ _ _ _ Hy Hz)|].
    pose proof (Hsort (first + step)%nat j z y Hz Hy ltac:(lia)). lia.
Qed.

Lemma findConnIter_spec w cid : searchable w -> cid <> 0 ->
  exists r, findConnIter cid w = Some r /\
    match r with Some i => id_at w i cid | None => forall i, ~ id_at w i cid end.
Proof.
  intros Hs Hc. unfold findConnIter. rewrite (proj2 (Z.eqb_neq _ _) Hc). cbn [negb].
  destruct (conn_lower_bound_spec w cid Hs (length (w_connList w)) 0 (length (w_connList w))) as (i & -> & Hi & Hlo & Hhi); [lia..|].
  cbn [mbind option_bind].
  assert (forall j, id_at w j cid -> (j < length (w_connList w))%nat) as Hin.
  { intros j (q & c & Hj & _). by eapply lookup_lt_Some. }
  destruct (w_connList w !! i) as [q|] eqn:Eq.
  - apply lookup_lt_Some in Eq as Hlt. destruct (s_there w Hs i Hlt) as (z & Hz). pose proof Hz as (q' & c & Hq' & Hc' & Ez).
    assert (q' = q) as -> by congruence. rewrite Hc'. cbn [mbind option_bind]. rewrite Ez.
    destruct (Z.eqb_spec z cid) as [->|Hne]; [by exists (Some i)|]. exists None. split; [done|]. intros j Hj.
    assert (cid <= z) by (apply (Hhi i); [lia|done]).
    destruct (decide (j < i)%nat); [pose proof (Hlo j cid ltac:(lia) Hj); lia|].
    destruct (decide (j = i)) as [->|]; [by apply Hne, (id_at_unique w i)|].
    pose proof (s_sorted w Hs i j z cid Hz Hj ltac:(lia)). lia.
  - exists None. split; [done|]. intros j Hj. apply lookup_ge_None in Eq. pose proof (Hin j Hj).
    pose proof (Hlo j cid ltac:(lia) Hj). lia.
Qed.

Lemma topo_searchable x w : topo x w -> searchable w.
Proof.
  intros T. split.
  - intros i Hi. apply lookup_lt_is_Some_2 in Hi as [q Hq]. assert (q ∈ w_connList w) as Hin by (by eapply list_elem_of_lookup_2).
    apply (t_list x w T) in Hin as [c Hc]. by exists (c_connId c), q, c.
  - intros i j a b (p & c & Hp & Hc & <-) (q & d & Hq & Hd & <-) Hlt. by eapply (t_sorted x w T i j).
Qed.

(** ** Construction *)

Lemma topo_new p c w : topo None w -> w_conns w !! p = None -> w_lastConnId w + 1 < 2 ^ 64 ->
  c_mainConn c = p -> c_auxList c = [] -> c_connId c = w_lastConnId w + 1 -> flag_on kManualDelete c = false ->
  topo None (put p c (mkWorld (w_conns w) (w_dpidMap w) (w_connList w ++ [p]) (w_lastConnId w + 1))).
Proof.
  intros T Hp Hlast Hm Ha Hi Hf. set (w' := put p c _).
  assert (forall q d, w_conns w' !! q = Some d -> (q = p /\ d = c) \/ (q <> p /\ w_conns w !! q = Some d)) as Hcases.
  { intros q d Hq. apply lookup_put in Hq. done. }
  assert (w_conns w' !! p = Some c) as Lp by apply lookup_put_eq.
  assert (forall q d, w_conns w !! q = Some d -> w_conns w' !! q = Some d /\ q <> p) as Hfwd.
  { intros q d Hq. assert (q <> p) by congruence. split; [|done]. unfold w'. by rewrite lookup_put_ne. }
  split.
  - intros q d [[-> ->]|[Hne Hq]]%Hcases; [exists c; by rewrite Hm|].
    destruct (t_main _ w T q d Hq) as (m & Hmm & Hx). exists m. split; [by apply Hfwd|done].
  - intros q d r [[-> ->]|[Hne Hq]]%Hcases Hin; [rewrite Ha in Hin; by apply not_elem_of_nil in Hin|].
    destruct (t_aux _ w T q d r Hq Hin) as (Hr & a & Hra & Hx). split; [done|]. exists a. split; [by apply Hfwd|done].
  - intros q d [[-> ->]|[Hne Hq]]%Hcases; [rewrite Ha; constructor|by eapply t_nodup].
  - intros q d [[-> ->]|[Hne Hq]]%Hcases; [done|by eapply t_dp].
  - intros q d Hx [[-> ->]|[Hne Hq]]%Hcases Hu; [|by eapply (t_unreg _ w T)]. split_and!; try done. intros e He.
    destruct (t_dpid _ w T e p He) as (a & Hpa & _). congruence.
  - intros q d [[-> ->]|[Hne Hq]]%Hcases; [done|by eapply t_flag].
  - intros e q He. destruct (t_dpid _ w T e q He) as (a & Hqa & Hx). exists a. split; [by apply Hfwd|done].
  - intros q. change (w_connList w') with (w_connList w ++ [p]). rewrite elem_of_app, list_elem_of_singleton, (t_list _ w T). split.
    + intros [[d Hd]| ->]; [exists d; by apply Hfwd|by exists c].
    + intros [d [[-> _]|[_ Hq]]%Hcases]; [by right|left; by exists d].
  - intros i j q r a b Hi' Hj Hlt. change (w_connList w') with (w_connList w ++ [p]) in *.
    apply lookup_app_Some in Hi' as [Hi'|[Hge Hi']].
    2: { apply lookup_lt_Some in Hj as Hj'. rewrite length_app in Hj'. simpl in Hj'. lia. }
    assert (is_Some (w_conns w !! q)) as [a' Ha'] by (apply (t_list _ w T); by eapply list_elem_of_lookup_2).
    intros Hq Hr. apply Hfwd in Ha' as Ha''. assert (a' = a) as -> by (destruct Ha''; congruence).
    apply lookup_app_Some in Hj as [Hj|[Hge Hj]].
    + assert (is_Some (w_conns w !! r)) as [b' Hb'] by (apply (t_list _ w T); by eapply list_elem_of_lookup_2).
      apply Hfwd in Hb' as Hb''. assert (b' = b) as -> by (destruct Hb''; congruence). by eapply (t_sorted _ w T i j).
    + apply list_lookup_singleton_Some in Hj as [_ <-]. assert (b = c) as -> by congruence. rewrite Hi.
      pose proof (t_id _ w T q a Ha'). lia.
  - intros q d [[-> ->]|[Hne Hq]]%Hcases; change (w_lastConnId w') with (w_lastConnId w + 1).
    + pose proof (t_last _ w T). lia.
    + pose proof (t_id _ w T q d Hq). lia.
  - change (w_lastConnId w') with (w_lastConnId w + 1). pose proof (t_last _ w T). lia.
Qed.

Lemma flags_new sec options now c :
  flag_on kManualDelete c = false -> flag_on kConnectionUp c = false ->
  let c' := setFlags sec options (updateTimeReadStarted now c) in
  flag_on kManualDelete c' = false /\ flag_on kConnectionUp c' = false /\ c_listener c' = c_listener c /\ c_mainConn c' = c_mainConn c /\
  c_auxList c' = c_auxList c /\ c_connId c' = c_connId c /\ user_log c' = user_log c /\ c_reading c' = c_reading c /\
  c_handshaking c' = c_handshaking c.
Proof.
  intros H1 H2. unfold setFlags, updateTimeReadStarted.
  destruct (negb (sec =? 0)), (negb (Z.land options AUXILIARY =? 0)), (negb (Z.land options NO_VERSION_CHECK =? 0)),
    (negb (Z.land options FEATURES_REQ =? 0)); cbv zeta; rewrite ?has_set, ?has_clear by done;
    change (flag_on ?f (c {{ c_timeReadStarted := now }})) with (flag_on f c); rewrite H1, H2; by split_and!.
Qed.

Lemma new_connection_inv p q now w w' :
  inv ∅ None w -> w_conns w !! p = None -> w_lastConnId w + 1 < 2 ^ 64 -> versions_ok (cp_versions q) ->
  new_connection p q now w = Some w' -> inv ∅ None w'.
Proof.
  intros [T L] Hp Hlast Hv. unfold new_connection, registerConnection. pose proof (t_last _ w T) as Hl.
  assert (u64 (w_lastConnId w + 1) = w_lastConnId w + 1) as -> by (apply Z.mod_small; lia).
  rewrite (proj2 (Z.eqb_neq _ 0)) by lia. cbn [mbind option_bind negb]. intros [= <-].
  set (h := mkHandshake _ _ _ _ _ _ _). set (c := mkConn _ _ _ _ _ _ _ _ _ _ _ _ _ _ _ _).
  destruct (flags_new (cp_securityId q) (cp_options q) now c) as (F1 & F2 & F3 & F4 & F5 & F6 & F7 & F8 & F9); [done..|].
  set (c' := setFlags _ _ _) in *. split; [by apply topo_new|].
  apply map_Forall_insert_2; [|exact L]. split; [|set_solver]. split.
  - unfold lifecycle. rewrite F3, F7. done.
  - intros _. rewrite F8, F3. split; [done|]. by exists h.
  - intros h'. rewrite F3. by intros [= <-].
  - intros h'. rewrite F3. by intros [= <-].
  - intros h'. rewrite F3. intros [= <-] [?|?]; done.
  - intros hdr. by rewrite F8.
  - by rewrite F9.
Qed.

(** ** Destruction *)

Lemma remove_first_sub p l : remove_first p l `sublist_of` l.
Proof.
  induction l as [|q l IH]; [done|]. cbn [remove_first]. destruct (q =? p); [by apply sublist_cons|by apply sublist_skip].
Qed.

Lemma remove_first_other p l q : q <> p -> q ∈ l -> q ∈ remove_first p l.
Proof.
  intros Hne. induction l as [|r l IH]; [done|]. cbn [remove_first]. rewrite elem_of_cons. destruct (Z.eqb_spec r p) as [->|].
  - by intros [->|?].
  - rewrite elem_of_cons. intuition.
Qed.

Lemma remove_first_gone p l : NoDup l -> p ∉ remove_first p l.
Proof.
  induction 1 as [|r l Hr Hl IH]; [by apply not_elem_of_nil|]. cbn [remove_first]. destruct (Z.eqb_spec r p) as [->|]; [done|].
  rewrite elem_of_cons. intros [?|?]; [congruence|done].
Qed.

Lemma remove_first_absent p l : p ∉ l -> remove_first p l = l.
Proof.
  induction l as [|r l IH]; [done|]. rewrite elem_of_cons. intros Hn. cbn [remove_first].
  rewrite (proj2 (Z.eqb_neq r p)); [|intros ->; tauto]. f_equal. tauto.
Qed.

(** What the destruction of [p] makes of another connection. *)
Record dropped (p q : Z) (a a' : Conn) : Prop := mkDropped {
  d_main : c_mainConn a' = if decide (c_mainConn a = p) then q else c_mainConn a;
  d_aux : c_auxList a' = remove_first p (c_auxList a);
  d_dpid : c_datapathId a' = c_datapathId a;
  d_auxId : c_auxiliaryId a' = c_auxiliaryId a;
  d_id : c_connId a' = c_connId a;
  d_flag : flag_on kManualDelete a' = flag_on kManualDelete a;
  d_unreg : unregistered a' = true -> unregistered a = true }.

(** The list without the connection. *)
Lemma list_dropped w i p : topo None w -> w_connList w !! i = Some p ->
  (forall q, q ∈ delete i (w_connList w) <-> q ∈ w_connList w /\ q <> p) /\
  (forall j k q r, delete i (w_connList w) !! j = Some q -> delete i (w_connList w) !! k = Some r -> (j < k)%nat ->
     exists j' k', w_connList w !! j' = Some q /\ w_connList w !! k' = Some r /\ (j' < k')%nat).
Proof.
  intros T Hi. assert (forall j q, delete i (w_connList w) !! j = Some q ->
    w_connList w !! (if decide (j < i)%nat then j else S j) = Some q) as Hback.
  { intros j q. destruct (decide (j < i)%nat); [by rewrite list_lookup_delete_lt|by rewrite list_lookup_delete_ge by lia]. }
  split.
  - intros q. split.
    + intros [j Hj]%list_elem_of_lookup. apply Hback in Hj. split; [by eapply list_elem_of_lookup_2|]. intros ->.
      assert (is_Some (w_conns w !! p)) as [c Hc] by (apply (t_list _ w T); by eapply list_elem_of_lookup_2).
      set (j' := if decide (j < i)%nat then j else S j) in *. assert (j' <> i) by (unfold j'; destruct (decide (j < i)%nat); lia).
      destruct (decide (j' < i)%nat).
      * pose proof (t_sorted _ w T j' i p p c c Hj Hi ltac:(lia) Hc Hc). lia.
      * pose proof (t_sorted _ w T i j' p p c c Hi Hj ltac:(lia) Hc Hc). lia.
    + intros [[j Hj]%list_elem_of_lookup Hne]. assert (j <> i) by congruence. apply list_elem_of_lookup.
      destruct (decide (j < i)%nat); [exists j; by rewrite list_lookup_delete_lt|].
      exists (j - 1)%nat. rewrite list_lookup_delete_ge by lia. by replace (S (j - 1)) with j by lia.
  - intros j k q r Hj%Hback Hk%Hback Hlt. eexists _, _. split_and!; [exact Hj|exact Hk|].
    destruct (decide (j < i)%nat), (decide (k < i)%nat); lia.
Qed.

Lemma topo_drop p i w w3 : topo None w -> w_connList w !! i = Some p -> (forall d, w_dpidMap w !! d <> Some p) ->
  (forall q a', q <> p -> w_conns w3 !! q = Some a' -> exists a, w_conns w !! q = Some a /\ dropped p q a a') ->
  (forall q a, q <> p -> w_conns w !! q = Some a -> exists a', w_conns w3 !! q = Some a' /\ dropped p q a a') ->
  topo None (mkWorld (delete p (w_conns w3)) (w_dpidMap w) (delete i (w_connList w)) (w_lastConnId w)).
Proof.
  intros T Hi Hd Hback Hfwd. destruct (list_dropped w i p T Hi) as [Hlist Hord].
  assert (forall q a', delete p (w_conns w3) !! q = Some a' -> q <> p /\ exists a, w_conns w !! q = Some a /\ dropped p q a a') as Hb.
  { intros q a' [Hne Hq]%lookup_delete_Some. split; [done|]. by apply Hback. }
  assert (forall q a, q <> p -> w_conns w !! q = Some a -> exists a', delete p (w_conns w3) !! q = Some a' /\ dropped p q a a') as Hf.
  { intros q a Hne Hq. destruct (Hfwd q a Hne Hq) as (a' & Ha' & Hx). exists a'. by rewrite lookup_delete_ne. }
  split; cbn [w_conns w_dpidMap w_connList w_lastConnId].
  - intros q a' Hq'. destruct (Hb q a' Hq') as (Hne & a & Hq & [D1 D2 D3 D4 D5 D6 D7]). rewrite D1. destruct (decide (c_mainConn a = p)) as [Ep|Hmp].
    { exists a'. by split; [apply Hq'|]. }
    destruct (t_main _ w T q a Hq) as (b & Hbb & Hx). destruct (Hf _ b Hmp Hbb) as (b' & Hb' & [B1 B2 _ _ _ _ _]).
    exists b'. split; [done|]. intros Hn. destruct (Hx Hn) as (H1 & H2 & H3 & H4). rewrite B1, B2, H2, D3, D4, decide_False by done.
    split_and!; try done. by apply remove_first_other.
  - intros q a' r (Hne & a & Hq & [D1 D2 D3 D4 D5 D6 D7])%Hb Hin. rewrite D2 in Hin.
    assert (r <> p) as Hr by (intros ->; by eapply remove_first_gone; [eapply (t_nodup _ w T)|]).
    eapply elem_of_sublist in Hin; [|apply remove_first_sub]. destruct (t_aux _ w T q a r Hq Hin) as (Hrq & b & Hbb & Hx).
    split; [done|]. destruct (Hf r b Hr Hbb) as (b' & Hb' & [B1 _ _ _ _ _ _]). exists b'. by rewrite B1, Hx, decide_False.
  - intros q a' (Hne & a & Hq & [D1 D2 D3 D4 D5 D6 D7])%Hb. rewrite D2. eapply sublist_NoDup; [|apply remove_first_sub].
    by eapply (t_nodup _ w T).
  - intros q a' (Hne & a & Hq & [D1 D2 D3 D4 D5 D6 D7])%Hb Hnil. rewrite D3. apply (t_dp _ w T q a Hq). intros E. by rewrite D2, E in Hnil.
  - intros q a' _ (Hne & a & Hq & [D1 D2 D3 D4 D5 D6 D7])%Hb Hu. destruct (t_unreg _ w T q a ltac:(done) Hq (D7 Hu)) as (H1 & H2 & H3).
    rewrite D1, D2, H1, H2, decide_False by done. by split_and!.
  - intros q a' (Hne & a & Hq & [D1 D2 D3 D4 D5 D6 D7])%Hb. rewrite D6. by eapply (t_flag _ w T).
  - intros d q Hdq. destruct (t_dpid _ w T d q Hdq) as (a & Hq & H1 & H2 & H3 & H4). assert (q <> p) as Hne by (intros ->; by apply (Hd d)).
    destruct (Hf q a Hne Hq) as (a' & Ha' & [D1 D2 D3 D4 D5 D6 D7]). exists a'. rewrite D1, D3, D4, decide_False by congruence. by split_and!.
  - intros q. rewrite Hlist, (t_list _ w T). split.
    + intros [[a Ha] Hne]. destruct (Hf q a Hne Ha) as (a' & Ha' & _). by exists a'.
    + intros [a' (Hne & a & Hq & _)%Hb]. split; [by exists a|done].
  - intros j k q r a' b' Hj Hk Hlt (_ & a & Hq & [_ _ _ _ -> _ _])%Hb (_ & b & Hr & [_ _ _ _ -> _ _])%Hb.
    destruct (Hord j k q r Hj Hk Hlt) as (j' & k' & Hj' & Hk' & Hlt'). by eapply (t_sorted _ w T j' k').
  - intros q a' (_ & a & Hq & [_ _ _ _ -> _ _])%Hb. by eapply (t_id _ w T).
  - apply (t_last _ w T).
Qed.

(** An auxiliary connection whose main connection goes away. *)
Definition orphan (q : Z) (a : Conn) : Conn := shutdown false (a {{ c_mainConn := q }}).

(** The loop over the auxiliary connections. *)
Definition orphan_loop (del : Z -> World -> option World) (l : list Z) (w : World) : option World :=
  foldl (fun ow q =>
    w ← ow;
    w ← on_conn q (fun a => Some (shutdown false (a {{ c_mainConn := q }}))) w;
    a ← w_conns w !! q;
    if flag_on kManualDelete a then del q w else Some w) (Some w) l.

Lemma orphan_key q a : key_le (a {{ c_mainConn := q }}) (orphan q a).
Proof. apply step_shutdown. Qed.

Lemma orphan_loop_spec del l w : NoDup l ->
  (forall q, q ∈ l -> exists a, w_conns w !! q = Some a /\ flag_on kManualDelete a = false) ->
  exists w3, orphan_loop del l w = Some w3 /\ w_dpidMap w3 = w_dpidMap w /\ w_connList w3 = w_connList w /\
    w_lastConnId w3 = w_lastConnId w /\
    (forall q, q ∈ l -> w_conns w3 !! q = orphan q <$> w_conns w !! q) /\ (forall q, q ∉ l -> w_conns w3 !! q = w_conns w !! q).
Proof.
  intros Hnd. revert w. induction Hnd as [|q l Hq Hnd IH]; intros w Hl.
  { exists w. split_and!; try done. intros q Hq. by apply not_elem_of_nil in Hq. }
  destruct (Hl q) as (a & Ha & Hf); [set_solver|].
  destruct (IH (put q (orphan q a) w)) as (w3 & E & E1 & E2 & E3 & Hin & Hout).
  { intros r Hr. assert (r <> q) by congruence. rewrite lookup_put_ne by done. apply Hl. set_solver. }
  exists w3. split_and!; try done.
  - unfold orphan_loop. cbn [foldl mbind option_bind]. rewrite (on_conn_eq q a) by done. cbn [mbind option_bind].
    change (shutdown false (a {{ c_mainConn := q }})) with (orphan q a). rewrite lookup_put_eq. cbn [mbind option_bind].
    destruct (orphan_key q a) as (_ & _ & _ & _ & _ & F & _). rewrite F. change (flag_on kManualDelete (a {{ c_mainConn := q }})) with (flag_on kManualDelete a).
    rewrite Hf. exact E.
  - intros r [->|Hr]%elem_of_cons; [rewrite Hout, lookup_put_eq by done; by rewrite Ha|].
    assert (r <> q) by congruence. by rewrite Hin, lookup_put_ne.
  - intros r Hr. rewrite elem_of_cons in Hr. rewrite Hout, lookup_put_ne by tauto. done.
Qed.

Lemma orphan_dropped p q a : c_mainConn a = p -> c_auxList a = [] -> dropped p q a (orphan q a).
Proof.
  intros Hm Ha. destruct (orphan_key q a) as (K1 & K2 & K3 & K4 & K5 & K6 & K7). split.
  - by rewrite K1, decide_True.
  - rewrite K2. change (c_auxList (a {{ c_mainConn := q }})) with (c_auxList a). by rewrite Ha.
  - done.
  - done.
  - done.
  - done.
  - done.
Qed.

Lemma same_dropped p q a : c_mainConn a <> p -> p ∉ c_auxList a -> dropped p q a a.
Proof. intros Hm Ha. split; try done; [by rewrite decide_False|by rewrite remove_first_absent]. Qed.

(** The connection is found by its id, and taken from the list. *)
Lemma release_found w p c : searchable w -> p ∈ w_connList w -> w_conns w !! p = Some c -> c_connId c <> 0 ->
  exists i, w_connList w !! i = Some p /\
    releaseConnection p w = Some (mkWorld (w_conns w) (w_dpidMap w) (delete i (w_connList w)) (w_lastConnId w)).
Proof.
  intros Hs [i Hi]%list_elem_of_lookup Hc Hid. unfold releaseConnection. rewrite Hc. cbn [mbind option_bind].
  destruct (findConnIter_spec w (c_connId c) Hs Hid) as (r & -> & Hr). cbn [mbind option_bind].
  assert (id_at w i (c_connId c)) as Hat by (by exists p, c). destruct r as [j|]; [|by destruct (Hr i)].
  assert (j = i) as ->.
  { destruct (lt_eq_lt_dec i j) as [[Hlt|]|Hlt]; [|done|].
    - pose proof (s_sorted w Hs i j _ _ Hat Hr Hlt). lia.
    - pose proof (s_sorted w Hs j i _ _ Hr Hat Hlt). lia. }
  exists i. split; [done|]. by rewrite bool_decide_true.
Qed.

(** Fewer registrations. *)
Lemma topo_unmap w m : topo None w -> m ⊆ w_dpidMap w -> topo None (mkWorld (w_conns w) m (w_connList w) (w_lastConnId w)).
Proof.
  intros [] Hm. split; try done; cbn [w_conns w_dpidMap].
  - intros p c _ Hp Hu. destruct (t_unreg p c ltac:(done) Hp Hu) as (? & ? & Hn). split_and!; try done. intros d Hd.
    apply (Hn d). by eapply lookup_weaken.
  - intros d p Hd. apply t_dpid. by eapply lookup_weaken.
Qed.

(** The last part of the destructor. *)
Definition drop_conn (p : Z) (w : World) : option World :=
  w ← releaseConnection p w;
  Some (mkWorld (delete p (w_conns w)) (w_dpidMap w) (w_connList w) (w_lastConnId w)).

Lemma drop_conn_inv p c w w3 : inv ∅ None w -> w_conns w !! p = Some c -> (forall d, w_dpidMap w !! d <> Some p) ->
  w_dpidMap w3 = w_dpidMap w -> w_connList w3 = w_connList w -> w_lastConnId w3 = w_lastConnId w ->
  (exists c3, w_conns w3 !! p = Some c3 /\ c_connId c3 = c_connId c) ->
  (forall q a, q <> p -> w_conns w !! q = Some a -> exists a', w_conns w3 !! q = Some a' /\ dropped p q a a' /\ local a') ->
  (forall q, q <> p -> w_conns w !! q = None -> w_conns w3 !! q = None) ->
  exists w', drop_conn p w3 = Some w' /\ inv ∅ None w' /\ w_conns w' !! p = None /\
    (forall q, q <> p -> is_Some (w_conns w !! q) -> is_Some (w_conns w' !! q)).
Proof.
  intros [T L] Hp Hd E1 E2 E3 (c3 & Hp3 & Hid) Hfwd Hnone.
  assert (forall q a', w_conns w3 !! q = Some a' -> exists a, w_conns w !! q = Some a /\ c_connId a = c_connId a' /\
    (q <> p -> dropped p q a a' /\ local a')) as Hback.
  { intros q a' Hq. destruct (decide (q = p)) as [->|Hne]; [exists c; split_and!; [done|congruence|done]|].
    destruct (w_conns w !! q) as [a|] eqn:Ha; [|by rewrite (Hnone q Hne Ha) in Hq]. exists a.
    destruct (Hfwd q a Hne Ha) as (b & Hb & Hx & Hl). assert (b = a') as -> by congruence. split_and!; [done|by destruct Hx|done]. }
  assert (forall i z, id_at w3 i z -> id_at w i z) as Hat.
  { intros i z (q & a' & Hi & Hq & <-). rewrite E2 in Hi. destruct (Hback q a' Hq) as (a & Ha & Hx & _). by exists q, a. }
  assert (searchable w3) as Hs3.
  { pose proof (topo_searchable None w T) as [S1 S2]. split; [|intros i j a b Ha Hb; by eapply S2; apply Hat].
    rewrite E2. intros i Hi. destruct (S1 i Hi) as (z & q & a & Hq & Ha & Ez). destruct (decide (q = p)) as [->|Hne].
    - exists (c_connId c3), p, c3. by rewrite E2.
    - destruct (Hfwd q a Hne Ha) as (a' & Ha' & _). exists (c_connId a'), q, a'. by rewrite E2. }
  destruct (release_found w3 p c3 Hs3) as (i & Hi & Er); [rewrite E2; apply (t_list _ w T); eauto|done| |].
  { pose proof (t_id _ w T p c Hp). lia. }
  rewrite E2 in Hi. unfold drop_conn. rewrite Er. cbn [mbind option_bind w_conns w_dpidMap w_connList w_lastConnId]. rewrite E1, E2, E3.
  eexists. split; [done|]. split_and!.
  - split.
    + apply topo_drop; try done.
      * intros q a' Hne Hq. destruct (Hback q a' Hq) as (a & Ha & _ & Hx). exists a. split; [done|]. by apply Hx.
      * intros q a Hne Hq. destruct (Hfwd q a Hne Hq) as (a' & Ha' & Hx & _). eauto.
    + intros q a' Hq. cbn [w_conns] in Hq. apply lookup_delete_Some in Hq as [Hne Hq].
      destruct (Hback q a' Hq) as (a & _ & _ & Hx). split; [by apply Hx|set_solver].
  - cbn [w_conns]. apply lookup_delete_eq.
  - intros q Hne [a Ha]. cbn [w_conns]. rewrite lookup_delete_ne by done. destruct (Hfwd q a Hne Ha) as (a' & Ha' & _). eauto.
Qed.

(** Before that, the datapath is released. *)
Lemma release_datapath_inv p c w : inv ∅ None w -> w_conns w !! p = Some c ->
  exists w', releaseDatapath p w = Some w' /\ inv ∅ None w' /\ w_conns w' = w_conns w /\ (forall d, w_dpidMap w' !! d <> Some p).
Proof.
  intros [T L] Hp. unfold releaseDatapath. rewrite Hp. cbn [mbind option_bind].
  assert (forall d, w_dpidMap w !! d = Some p -> d = c_datapathId c /\ c_auxiliaryId c = 0) as Hone.
  { intros d Hd. destruct (t_dpid _ w T d p Hd) as (c' & Hc' & H1 & _ & H3 & _). by assert (c' = c) as -> by congruence. }
  destruct (Z.eqb_spec (c_auxiliaryId c) 0) as [Ha|Ha].
  2: { exists w. split_and!; try done. intros d Hd. by apply Hone in Hd as [_ ?]. }
  case_bool_decide as Hm.
  - eexists. split; [done|]. cbn [w_conns w_dpidMap]. split_and!; [split; [apply topo_unmap; [done|apply delete_subseteq]|done]|done|].
    intros d [Hne Hd]%lookup_delete_Some. apply Hone in Hd as [? _]. congruence.
  - exists w. split_and!; try done. intros d Hd. apply Hone in Hd as Hx. destruct Hx as [-> _]. done.
Qed.

Section Destroy.
Context (p : Z) (c : Conn) (w : World) (Hi : inv ∅ None w) (Hp : w_conns w !! p = Some c).

Let T : topo None w := proj1 Hi.

(** Who lists [p], and whose main connection [p] is. *)
Lemma listed_by q a : w_conns w !! q = Some a -> p ∈ c_auxList a -> c_mainConn c = q.
Proof. intros Hq Hin. destruct (t_aux _ w T q a p Hq Hin) as (_ & c' & Hc' & Hx). congruence. Qed.

Lemma tied_to q a : q <> p -> w_conns w !! q = Some a -> c_mainConn a = p ->
  q ∈ c_auxList c /\ c_mainConn c = p /\ c_auxList a = [].
Proof.
  intros Hne Hq Hm. destruct (t_main _ w T q a Hq) as (b & Hb & Hx). rewrite Hm in Hb.
  assert (b = c) as -> by congruence. destruct Hx as (H1 & H2 & _); [congruence|]. split_and!; [done|congruence|].
  destruct (c_auxList a) as [|r l] eqn:El; [done|]. destruct (t_aux _ w T q a r Hq) as (Hrq & d & Hd & Hdm); [rewrite El; set_solver|].
  destruct (t_main _ w T r d Hd) as (e & He & Hy). rewrite Hdm in He. assert (e = a) as -> by congruence.
  destruct Hy as (_ & Hz & _); congruence.
Qed.

Lemma untied_dropped q a : q <> p -> w_conns w !! q = Some a -> q ∉ c_auxList c -> q <> c_mainConn c -> dropped p q a a.
Proof.
  intros Hne Hq Hx Hm. apply same_dropped.
  - intros Hmq. by destruct (tied_to q a Hne Hq Hmq) as (? & _).
  - intros Hy. by apply Hm; rewrite (listed_by q a Hq Hy).
Qed.

(** The world after the destructor, in the terms of [drop_conn]. *)
Definition destroyed (o : option World) : Prop :=
  exists w', o = Some w' /\ inv ∅ None w' /\ w_conns w' !! p = None /\
    (forall q, q <> p -> is_Some (w_conns w !! q) -> is_Some (w_conns w' !! q)).

Lemma destroy_lone : c_datapathId c = 0 -> destroyed (drop_conn p w).
Proof.
  intros Hd0. assert (c_auxList c = []) as Ha.
  { destruct (decide (c_auxList c = [])); [done|]. by destruct (t_dp _ w T p c Hp). }
  assert (c_mainConn c = p) as Hm.
  { destruct (decide (c_mainConn c = p)); [done|]. destruct (t_main _ w T p c Hp) as (m & _ & Hy). by destruct Hy as (_ & _ & _ & ?). }
  apply (drop_conn_inv p c w w); try done; eauto.
  - intros d Hd. destruct (t_dpid _ w T d p Hd) as (c' & Hc' & H1 & H2 & _). congruence.
  - intros q a Hne Hq. exists a. split_and!; [done| |by eapply inv_local]. apply untied_dropped; try done; [|congruence].
    rewrite Ha. by apply not_elem_of_nil.
Qed.

Lemma destroy_main del : (forall d, w_dpidMap w !! d <> Some p) -> c_mainConn c = p ->
  destroyed (w ← orphan_loop del (c_auxList c) w; drop_conn p w).
Proof.
  intros Hno Hm. destruct (orphan_loop_spec del (c_auxList c) w) as (w3 & -> & E1 & E2 & E3 & Hq1 & Hq2).
  { by eapply (t_nodup _ w T). }
  { intros q Hq. destruct (t_aux _ w T p c q Hp Hq) as (_ & a & Ha & _). exists a. split; [done|]. by eapply (t_flag _ w T). }
  cbn [mbind option_bind]. assert (p ∉ c_auxList c) as Hpp by (intros Hx; by destruct (t_aux _ w T p c p Hp Hx)).
  apply (drop_conn_inv p c w w3); try done; [exists c; by rewrite Hq2| |].
  - intros q a Hne Hq. destruct (decide (q ∈ c_auxList c)) as [Hx|Hx].
    + destruct (t_aux _ w T p c q Hp Hx) as (_ & a' & Ha' & Hmq). assert (a' = a) as -> by congruence.
      destruct (tied_to q a Hne Hq Hmq) as (_ & _ & Hnil). exists (orphan q a). rewrite Hq1, Hq by done.
      split_and!; [done|by apply orphan_dropped|]. apply step_shutdown. pose proof (inv_local _ _ _ _ _ Hi Hq) as []. by split.
    + exists a. rewrite Hq2 by done. split_and!; [done| |by eapply inv_local]. apply untied_dropped; congruence.
  - intros q Hne Hq. destruct (decide (q ∈ c_auxList c)) as [Hx|Hx]; [by rewrite Hq1, Hq|by rewrite Hq2].
Qed.

Lemma destroy_aux : (forall d, w_dpidMap w !! d <> Some p) -> c_mainConn c <> p ->
  destroyed (w ← on_conn (c_mainConn c) (fun m => Some (m {{ c_auxList := remove_first p (c_auxList m) }})) w; drop_conn p w).
Proof.
  intros Hno Hm. destruct (t_main _ w T p c Hp) as (m & Hmc & Hx). destruct (Hx Hm) as (H1 & H2 & _).
  assert (c_auxList c = []) as Ha.
  { destruct (c_auxList c) as [|q l] eqn:El; [done|]. destruct (t_aux _ w T p c q Hp) as (Hqp & a & Hq & Hmq); [rewrite El; set_solver|].
    by destruct (tied_to q a Hqp Hq Hmq) as (_ & ? & _). }
  rewrite (on_conn_eq _ m) by done. cbn [mbind option_bind]. set (m' := m {{ c_auxList := remove_first p (c_auxList m) }}).
  apply (drop_conn_inv p c w (put (c_mainConn c) m' w)); try done; [exists c; by rewrite lookup_put_ne| |].
  - intros q a Hne Hq. destruct (decide (q = c_mainConn c)) as [->|Hqm].
    + assert (a = m) as -> by congruence. exists m'. rewrite lookup_put_eq. split_and!; [done| |].
      * split; try done. rewrite decide_False by congruence. done.
      * pose proof (inv_local _ _ _ _ _ Hi Hmc) as []. by split.
    + exists a. rewrite lookup_put_ne by done. split_and!; [done| |by eapply inv_local]. apply untied_dropped; try done.
      rewrite Ha. by apply not_elem_of_nil.
  - intros q Hne Hq. rewrite lookup_put_ne; [done|]. intros ->. congruence.
Qed.
End Destroy.

(** Destroying a connection leaves a consistent world: its auxiliary connections
    stand alone, its main connection forgets it, and no table refers to it. *)
Lemma destroy_inv fuel p c w : inv ∅ None w -> w_conns w !! p = Some c -> destroyed p w (destroy fuel p w).
Proof.
  intros Hi Hp. set (del := fun q w => match fuel with O => None | S fuel' => destroy fuel' q w end).
  assert (destroy fuel p w = (w ← on_conn p (fun c => Some (channelDown c)) w; c ← w_conns w !! p;
    w ← (if negb (c_datapathId c =? 0) then
           w ← releaseDatapath p w;
           if c_mainConn c =? p then orphan_loop del (c_auxList c) w
           else on_conn (c_mainConn c) (fun m => Some (m {{ c_auxList := remove_first p (c_auxList m) }})) w
         else Some w);
    drop_conn p w)) as -> by (by destruct fuel).
  rewrite (on_conn_eq p c) by done. cbn [mbind option_bind]. rewrite lookup_put_eq. cbn [mbind option_bind].
  set (c1 := channelDown c). set (w1 := put p c1 w).
  assert (inv ∅ None w1) as Hi1 by (apply (inv_put _ _ p c); try done; apply step_channelDown).
  assert (w_conns w1 !! p = Some c1) as Hp1 by apply lookup_put_eq.
  assert (forall w2 o, w_conns w2 = w_conns w1 -> destroyed p w2 o -> destroyed p w o) as Hlift.
  { intros w2 o Ec (w' & E & H1 & H2 & H3). exists w'. split_and!; try done. intros q Hne Hq. apply H3; [done|].
    rewrite Ec. unfold w1. by rewrite lookup_put_ne. }
  destruct (Z.eqb_spec (c_datapathId c1) 0); cbn [negb mbind option_bind].
  { apply (Hlift w1); [done|]. by apply (destroy_lone p c1). }
  destruct (release_datapath_inv p c1 w1 Hi1 Hp1) as (w2 & -> & Hi2 & Ec & Hno). cbn [mbind option_bind]. rewrite <- Ec in Hp1.
  apply (Hlift w2); [done|]. destruct (Z.eqb_spec (c_mainConn c1) p); [by apply (destroy_main p c1)|by apply (destroy_aux p c1)].
Qed.

(** ** Runs of the event loop *)

(** When the event loop may run a handler, as asio and the owners of the objects
    promise: a new object is at a fresh address, the completion handlers are those
    that a connection waits for, and an object is destroyed when no handler refers
    to it. Nothing is assumed of the bytes that a read delivers. *)
Definition enabled (e : LoopEvent) (w : World) : Prop :=
  match e with
  | LNew p q _ => w_conns w !! p = None /\ w_lastConnId w + 1 < 2 ^ 64 /\ versions_ok (cp_versions q)
  | LConnect p => exists c, w_conns w !! p = Some c /\ flag_on kConnectionUp c = false
  | LHandshakeDone p _ _ => exists c, w_conns w !! p = Some c /\ c_handshaking c = true
  | LHeader p addr hdr _ =>
      exists c, w_conns w !! p = Some c /\ c_reading c = RHeader /\ zlen hdr = 8 /\ bytes_ok hdr /\ addr mod 8 = 0
  | LMessage p addr body _ =>
      exists c hdr, w_conns w !! p = Some c /\ c_reading c = RMessage hdr /\ b_length hdr = Some (8 + zlen body) /\
        bytes_ok body /\ addr mod 8 = 0
  | LHeaderError p => exists c, w_conns w !! p = Some c /\ c_reading c = RHeader
  | LMessageError p => exists c hdr, w_conns w !! p = Some c /\ c_reading c = RMessage hdr
  | LFlushError p => exists c, w_conns w !! p = Some c
  | LShutdownDone p => exists c, w_conns w !! p = Some c /\ flag_on kShutdownCalled c = true
  | LIdle _ _ | LClose _ _ => True
  | LDestroy p => exists c, w_conns w !! p = Some c /\ c_handshaking c = false /\ c_reading c = RNone
  end.

(** What is assumed of the peer, beyond what asio promises: a message is not one of
    the two replies (flow statistics of OpenFlow 1.0, group statistics of 1.2) that
    [normalize] reads out of bounds or never leaves. *)
Definition checked_event (e : LoopEvent) (w : World) : Prop :=
  match e with
  | LMessage p _ body _ =>
      forall c hdr, w_conns w !! p = Some c -> c_reading c = RMessage hdr -> checked_reply (hdr ++ body)
  | _ => True
  end.

(** The states that the event loop reaches while no peer sends such a reply. *)
Inductive reachable `{Uninit} (le : bool) : World -> Prop :=
| reach_start : reachable le empty_world
| reach_step w e w' : reachable le w -> enabled e w -> checked_event e w -> handle le e w = Some w' -> reachable le w'.

Lemma inv_empty : inv ∅ None empty_world.
Proof.
  assert (forall p, w_conns empty_world !! p = None) as Hn by (intros p; apply lookup_empty).
  assert (forall d, w_dpidMap empty_world !! d = None) as Hd by (intros d; apply lookup_empty).
  split; [|by intros p c Hp; rewrite Hn in Hp].
  split; intros *; try (intros Hp; rewrite ?Hn, ?Hd in Hp; done); try (intros _ Hp; rewrite ?Hn in Hp; done); try done.
  rewrite Hn. split; [intros Hp; by apply not_elem_of_nil in Hp|by intros []].
Qed.

Lemma checked_short hdr : zlen hdr = 8 -> checked_reply hdr.
Proof.
  intros Hz. assert (rd16 hdr 8 = None) as E.
  { destruct (rd16 hdr 8) eqn:E; [|done]. apply rd_be_inv in E. lia. }
  split; by rewrite E.
Qed.

(** A message that was read in two parts. *)
Lemma message_readable hdr body : header_ready hdr -> b_length hdr = Some (8 + zlen body) -> bytes_ok body ->
  checked_reply (hdr ++ body) -> readable (hdr ++ body).
Proof.
  intros (Hz & Hb & _) Hl Hbb Hck. unfold b_length in Hl. apply rd_be_range in Hl as Hr; [|done].
  pose proof (zlen_nonneg body). split_and!; [by apply Forall_app|rewrite zlen_app; lia..|done].
Qed.

Lemma idle_inv answer now l w w' : inv ∅ None w ->
  foldl (fun ow p => w ← ow; c ← w_conns w !! p;
           if flag_on kConnectionUp c then on_conn p (tickle (answer p) now) w else Some w) (Some w) l = Some w' -> inv ∅ None w'.
Proof.
  revert w. induction l as [|p l IH]; intros w Hi; [by intros [= <-]|]. cbn [foldl mbind option_bind].
  assert (forall l, foldl (fun ow p => w ← ow; c ← w_conns w !! p;
           if flag_on kConnectionUp c then on_conn p (tickle (answer p) now) w else Some w) None l = None) as Hnone.
  { intros k. induction k; [done|]. cbn [foldl]. done. }
  destruct (w_conns w !! p) as [c|] eqn:Hp; cbn [mbind option_bind]; [|by rewrite Hnone].
  destruct (flag_on kConnectionUp c); [|by apply IH]. destruct (on_conn p _ w) as [w1|] eqn:E; [|by rewrite Hnone]. apply IH.
  apply (inv_on_conn _ _ _ _ _ _ Hi E). intros c1 c2 _ _. apply step_tickle.
Qed.

Lemma handle_inv `{UninitLaws} le e w w' : inv ∅ None w -> enabled e w -> checked_event e w -> handle le e w = Some w' -> inv ∅ None w'.
Proof.
  intros Hi He Hc. destruct e; cbn [handle enabled checked_event] in *.
  - destruct He as (? & ? & ?). by apply new_connection_inv.
  - destruct He as (c & Hp & Hup). intros E. apply (inv_on_conn _ _ _ _ _ _ Hi E). intros c1 c2 Hc1 _ [= <-].
    apply step_asyncHandshake. congruence.
  - destruct He as (c & Hp & Hh). intros E. apply (inv_on_conn _ _ _ _ _ _ Hi E). intros c1 c2 Hc1 Hl. apply step_handshake_done; congruence.
  - destruct He as (c & Hp & Hr & Hz & Hb & Ha). apply (header_read_inv le p addr hdr now w w' c); try done.
    + apply settled_of; [by eapply inv_local|]. left. congruence.
    + by apply checked_short.
  - destruct He as (c & hdr & Hp & Hr & Hl & Hb & Ha). pose proof (Hc c hdr Hp Hr) as Hck. rewrite Hp. cbn [mbind option_bind]. rewrite Hr.
    pose proof (inv_local _ _ _ _ _ Hi Hp) as Hloc. apply (message_read_inv le p addr (hdr ++ body) now w w' c); try done.
    + apply settled_of; [done|]. left. congruence.
    + apply message_readable; try done. by apply (l_read c Hloc).
  - intros E. apply (inv_on_conn _ _ _ _ _ _ Hi E). intros c1 c2 _ _ [= <-]. apply step_header_error.
  - intros E. apply (inv_on_conn _ _ _ _ _ _ Hi E). intros c1 c2 _ _ [= <-]. apply step_message_error.
  - intros E. apply (inv_on_conn _ _ _ _ _ _ Hi E). intros c1 c2 _ _ [= <-]. apply step_flush_error.
  - intros E. apply (inv_on_conn _ _ _ _ _ _ Hi E). intros c1 c2 _ _ [= <-]. apply step_shutdown_done.
  - by apply idle_inv.
  - unfold close_connection. destruct (findDatapath connId dpid w) as [[q|]|]; [|by intros [= <-]|done]. cbn [mbind option_bind].
    destruct (on_conn q _ w) as [w1|] eqn:E1; [|done]. cbn [mbind option_bind]. pose proof (inv_shutdown _ _ _ _ _ _ Hi E1) as Hi1.
    destruct (w_conns w1 !! q) as [c|] eqn:Hq; [|done]. cbn [mbind option_bind].
    rewrite (t_flag _ w1 (proj1 Hi1) q c Hq). cbn [mbind option_bind]. by intros [= <-].
  - destruct He as (c & Hp & _). destruct (destroy_inv (size (w_conns w)) p c w Hi Hp) as (w1 & E & Hi1 & _).
    intros E2. congruence.
Qed.

Lemma reachable_inv `{UninitLaws} le w : reachable le w -> inv ∅ None w.
Proof. induction 1 as [|w e w' Hr IH He Hc E]; [apply inv_empty|by eapply handle_inv]. Qed.
