(* ===== verification/ConnSafe.v ===== *)
(** * Every handler of the event loop is defined

    In a consistent world no handler follows a dangling pointer, reads outside a
    message or fails an assertion, but for the assertion of
    [appendPortsToFeaturesReply] on the size of the result. *)

From S2P Require Import Prelude.
From S2P Require Import ByteOrder.
From S2P Require Import Constants.
From S2P Require Import SmallBuffer.
From S2P Require Import Text.
From S2P Require Import Validation.
From S2P Require Import ProtocolRange.
From S2P Require Import MsgBuffer.
From S2P Require Import Messages.
From S2P Require Import Multipart.
From S2P Require Import NormActions.
From S2P Require Import Normalize.
From S2P Require Import NormSafe.
From S2P Require Import Hello.
From S2P Require Import ChannelMsgs.
From S2P Require Import Connection.
From S2P Require Import ConnInv.
From S2P Require Import ConnLoop.
From stdpp Require Import gmap.
From coqutil Require Import Datatypes.RecordSetters.
Import DoubleBraceUpdate.
#[local] Open Scope Z_scope.

(** ** Sending *)

Lemma Header_set_total v t len x : len <= OFP_MAX_SIZE -> is_Some (Header_set v t len x).
Proof. intros H. unfold Header_set. rewrite (proj2 (Z.leb_le _ _) H). by eexists. Qed.

Lemma hello_total versions (c : Conn) : versions_ok versions ->
  exists x b c', HelloBuilder_send (HelloBuilder_versions versions) c = Some (x, b, c').
Proof.
  intros Hok. destruct (versions_ok_high _ Hok) as [Hh _].
  destruct (includeInHelloMsg_spec versions (highestVersion versions)) as (incl & Ei & _); [lia|].
  unfold HelloBuilder_send, HelloBuilder_versions, hello_version_bitmap. cbn [hb_header hb_bitmap hdr_version hdr_type].
  rewrite (proj2 (Z.eqb_neq (highestVersion versions) 0)) by lia. unfold versions_empty.
  rewrite (proj2 (Z.eqb_neq versions 0)), andb_false_r, Ei by (by destruct Hok as (_ & _ & ?)). cbn [mbind option_bind w_nextXid Conn_Writable].
  destruct (Header_set_total (highestVersion versions) OFPT_HELLO (if incl then 16 else 8) (c_nextXid c)) as [h ->];
    [unfold OFP_MAX_SIZE; destruct incl; lia|]. eauto.
Qed.

Lemma features_request_total (c : Conn) :
  exists x c', HeaderOnlyBuilder_send (mkHeaderOnly OFPT_FEATURES_REQUEST None) c = Some (x, c').
Proof.
  unfold HeaderOnlyBuilder_send. cbn [ho_reply ho_type w_nextXid Conn_Writable].
  assert (Header_translateType OFP_VERSION_4 OFPT_FEATURES_REQUEST
    (w_version (c {{ c_nextXid := u32 (c_nextXid c + 1) }})) = Some OFPT_FEATURES_REQUEST) as ->.
  { unfold Header_translateType. change (OFP_VERSION_4 =? 0) with false.
    change (OFPT_FEATURES_REQUEST <=? OFPT_FLOW_MOD) with true. cbn iota. destruct (OFP_VERSION_4 =? _); [done|]. by destruct (orb _ _). }
  cbn [mbind option_bind]. destruct (Header_set_total (w_version (c {{ c_nextXid := u32 (c_nextXid c + 1) }}))
    OFPT_FEATURES_REQUEST 8 (c_nextXid c)) as [h Eh]; [done|]. cbn [w_version Conn_Writable] in *.
  change (negb (OFPT_FEATURES_REQUEST =? OFPT_UNSUPPORTED)) with true. cbn iota. rewrite Eh. eauto.
Qed.

Lemma port_request_total b (c : Conn) : mpb_body b = [] -> exists x b' c', MultipartRequestBuilder_send b c = Some (x, b', c').
Proof.
  intros Hb. unfold MultipartRequestBuilder_send, multipart_send. cbn [w_nextXid Conn_Writable]. rewrite Hb.
  match goal with |- context [Header_set ?v ?t ?l ?x] => destruct (Header_set_total v t l x) as [h ->] end; [|eauto].
  pose proof (header_size_range (w_version c)). change (zlen []) with 0. unfold OFP_MAX_SIZE. cbn [w_version Conn_Writable] in *. lia.
Qed.

Lemma error_total buf e text (c : Conn) : 8 <= zlen buf -> 0 < zlen text <= 60000 -> is_Some (replyError buf e text c).
Proof.
  intros Hz Ht. unfold replyError. destruct (rd_be_some 4 buf 4) as [xid ->]; [lia..|]. cbn [mbind option_bind].
  rewrite (proj2 (Z.eqb_neq (zlen text) 0)) by lia. cbn [negb]. unfold ErrorBuilder_send, ErrorBuilder_make. cbn [eb_data eb_xid eb_type eb_code].
  match goal with |- context [Header_set ?v ?t ?l ?x] => destruct (Header_set_total v t l x) as [h ->] end; [|by eexists].
  unfold sizeof_Error, OFP_MAX_SIZE. lia.
Qed.

Lemma echo_request_total b (c : Conn) : er_xid b <> 0 -> zlen (er_data b) <= 8 -> exists x c', EchoRequestBuilder_send b c = Some (x, c').
Proof.
  intros Hx Hz. unfold EchoRequestBuilder_send. rewrite (proj2 (Z.eqb_neq _ _) Hx).
  match goal with |- context [Header_set ?v ?t ?l ?x] => destruct (Header_set_total v t l x) as [h ->] end; [unfold OFP_MAX_SIZE; lia|eauto].
Qed.

(** ** The text of the alert *)

Lemma dec_short n : 0 <= n < 1000 -> zlen (dec n) <= 3.
Proof. intros Hn. destruct (dec_spec n) as (_ & _ & _ & Hl); [lia|]. pose proof (Hl 3%nat ltac:(simpl; lia) ltac:(lia)). unfold zlen. lia. Qed.

Lemma join_short k (l : list (list Z)) : Forall (fun x => zlen x <= k) l -> zlen (mjoin l) <= k * Z.of_nat (length l).
Proof.
  induction 1 as [|x l Hx Hl IH]; [simpl; unfold zlen; simpl; lia|]. change (mjoin (x :: l)) with (x ++ mjoin l).
  rewrite zlen_app. cbn [length]. lia.
Qed.

Lemma versions_text bitmap : zlen (versions_toString bitmap) <= 152.
Proof.
  unfold versions_toString. rewrite !zlen_app. change (zlen (str "[")) with 1. change (zlen (str "]")) with 1.
  set (f := fun i v => _). assert (length (versions_list bitmap) <= 30)%nat as Hlen.
  { unfold versions_list. etransitivity; [apply length_filter|]. by rewrite length_seqZ. }
  pose proof (join_short 5 (imap f (versions_list bitmap))) as Hj. rewrite length_imap in Hj.
  enough (Forall (fun x => zlen x <= 5) (imap f (versions_list bitmap))) as HF by (apply Hj in HF; lia).
  apply Forall_lookup. intros i x. rewrite list_lookup_imap, fmap_Some. intros (v & Hv & ->).
  assert (0 <= v < 1000) as Hr.
  { apply list_elem_of_lookup_2 in Hv. unfold versions_list in Hv. apply list_elem_of_filter in Hv as [_ Hv].
    apply elem_of_seqZ in Hv. unfold MinVersionSupported, MaxVersionSupported, OFP_VERSION_1 in Hv. lia. }
  unfold f. rewrite zlen_app. pose proof (dec_short v Hr). destruct (i =? 0)%nat; [change (zlen []) with 0|change (zlen (str ", ")) with 2]; lia.
Qed.

Lemma incompatible_short versions v set : 0 <= v < 256 -> 0 < zlen (incompatible versions v set) <= 60000.
Proof.
  intros Hv. unfold incompatible. rewrite !zlen_app. pose proof (dec_short v ltac:(lia)). pose proof (zlen_nonneg (dec v)).
  pose proof (versions_text versions). pose proof (versions_text set). pose proof (zlen_nonneg (versions_toString versions)).
  pose proof (zlen_nonneg (versions_toString set)).
  change (zlen (str "Incompatible OpenFlow version: ")) with 31. change (zlen (str " ")) with 1.
  change (zlen (str " Supported versions: ")) with 21. lia.
Qed.

(** ** Messages *)

(** A message whose header gives its size, in an aligned buffer. *)
Definition framed (addr : Z) (buf : list Z) : Prop :=
  bytes_ok buf /\ 8 <= zlen buf <= 65535 /\ b_length buf = Some (zlen buf) /\ addr mod 8 = 0.

Lemma framed_byte addr buf i : framed addr buf -> 0 <= i < 8 -> exists v, rd8 buf i = Some v /\ 0 <= v < 256.
Proof.
  intros (Hb & Hz & _) Hi. rewrite rd8_rd_be. destruct (rd_be_some 1 buf i) as [v E]; [lia..|]. exists v. split; [done|].
  by apply rd_be_range in E.
Qed.

Lemma aligned_4 addr : addr mod 8 = 0 -> IsPtrAligned addr 4 = true.
Proof. intros H. change 4 with (2 ^ 2). rewrite IsPtrAligned_pow2 by done. apply Z.eqb_eq. Z.to_euclidean_division_equations. lia. Qed.

(** The check of the class gets a context of the message's size and version. *)
Lemma cast_context_total M addr buf : framed addr buf -> b_type buf = Some (MsgType M) -> (MsgAlign M = 4 \/ MsgAlign M = 8) ->
  (forall c, isLengthValid M (zlen buf) = true -> v_length c = zlen buf -> b_version buf = Some (v_version c) ->
     is_Some (MsgValidateInput M addr buf c)) -> is_Some (cast M addr buf).
Proof.
  intros Hf Ht Ha Hv. pose proof Hf as (Hb & Hz & Hl & Hm). unfold cast, castMessage. rewrite Ht. cbn [mbind option_bind].
  rewrite Z.eqb_refl, Hl. cbn [mbind option_bind]. rewrite Z.eqb_refl. destruct (framed_byte addr buf 0 Hf) as (v & Ev & _); [lia|].
  change (b_version buf) with (rd8 buf 0) in *. rewrite Ev in *. cbn [mbind option_bind]. destruct (negb _); [by eexists|].
  destruct (isLengthValid M (zlen buf)); cbn [negb]; [|by eexists].
  assert (IsPtrAligned addr (MsgAlign M) = true) as -> by (destruct Ha as [-> | ->]; [by apply aligned_4|by rewrite IsPtrAligned_8, Hm]).
  match goal with |- context [MsgValidateInput M addr buf ?c] => destruct (Hv c eq_refl) as [[ok c'] ->] end; [done..|]. by eexists.
Qed.

Lemma cast_total M addr buf : framed addr buf -> b_type buf = Some (MsgType M) -> (MsgAlign M = 4 \/ MsgAlign M = 8) ->
  (forall c, isLengthValid M (zlen buf) = true -> is_Some (MsgValidateInput M addr buf c)) -> is_Some (cast M addr buf).
Proof. intros Hf Ht Ha Hv. apply cast_context_total; try done. intros c Hi _ _. by apply Hv. Qed.

Lemma echo_total addr buf c : framed addr buf -> exists handled c', echoMessageHandled addr buf c = Some (handled, c').
Proof.
  intros Hf. pose proof Hf as (Hb & Hz & Hl & Hm). unfold echoMessageHandled. destruct (framed_byte addr buf 1 Hf) as (t & Et & _); [lia|].
  unfold b_type at 1. rewrite Et. cbn [mbind option_bind].
  assert (is_Some (echoData buf)) as [d Ed].
  { unfold echoData. rewrite Hl. cbn [mbind option_bind]. rewrite (proj2 (Z.leb_le _ _)), slice_some by lia. by eexists. }
  destruct (Z.eqb_spec t OFPT_ECHO_REQUEST) as [->|].
  - destruct (cast_total EchoRequest_class addr buf) as [ok ->]; [done..|by left|by eexists|]. cbn [mbind option_bind].
    assert (is_Some (isPassThru buf)) as [pass Ep].
    { unfold isPassThru. rewrite Hl. cbn [mbind option_bind]. destruct (Z.leb_spec (8 + 8) (zlen buf)); [|by eexists].
      rewrite slice_some by lia. by eexists. }
    destruct (wr_some buf 1 [OFPT_ECHO_REPLY]) as (m & Em & _); [lia|change (zlen [OFPT_ECHO_REPLY]) with 1; lia|].
    unfold b_setType. rewrite Ep, Em. destruct ok, pass; cbn [mbind option_bind]; eauto.
  - destruct (Z.eqb_spec t OFPT_ECHO_REPLY) as [->|]; [|eauto].
    destruct (cast_total EchoReply_class addr buf) as [ok ->]; [done..|by left|by eexists|]. cbn [mbind option_bind].
    destruct ok; cbn [mbind option_bind]; [|eauto]. unfold isKeepAlive. destruct (rd_be_some 4 buf 4) as [x ->]; [lia..|].
    cbn [mbind option_bind]. rewrite Ed. cbn [mbind option_bind]. eauto.
Qed.

Lemma negotiate_total mine v set : 0 <= v -> is_Some (negotiateVersion mine v set).
Proof.
  intros Hv. unfold negotiateVersion. destruct (andb _ _); [by eexists|]. destruct (Z.leb_spec (highestVersion mine) v); [by eexists|].
  destruct (highestVersion_spec mine) as ([_ Hr] & _). unfold MaxVersionSupported in Hr. unfold containsVersion.
  rewrite (proj2 (Z.ltb_lt v 32)) by lia. by eexists.
Qed.

(** ** What a handler leaves in place *)

Lemma on_conn_total p c f w : w_conns w !! p = Some c -> is_Some (f c) -> is_Some (on_conn p f w).
Proof. intros Hp [c' Hf]. rewrite (on_conn_eq p c) by done. rewrite Hf. by eexists. Qed.

Lemma on_conn_list p f w w' : on_conn p f w = Some w' -> w_connList w' = w_connList w.
Proof. unfold on_conn. destruct (w_conns w !! p); [|done]. cbn [mbind option_bind]. destruct (f c); [|done]. by intros [= <-]. Qed.

(** The first step of a sequence of steps. *)
Lemma bind_some {A B} (o : option A) (f : A -> option B) b : o ≫= f = Some b -> exists a, o = Some a /\ f a = Some b.
Proof. destruct o; [|done]. eauto. Qed.

Ltac next H x := let E := fresh "E" in apply bind_some in H as (x & E & H).

Lemma setMainConnection_list p main aux w w' : setMainConnection p main aux w = Some w' -> w_connList w' = w_connList w.
Proof.
  unfold setMainConnection. intros H. next H c. destruct (andb _ _); [|done]. next H m. next H m2. next H found. next H w2.
  apply on_conn_list in H. rewrite H. destruct found as [q|]; [by apply on_conn_list in E3|]. by injection E3 as <-.
Qed.

Lemma postDatapath_list p d a w b w' : postDatapath p d a w = Some (b, w') -> w_connList w' = w_connList w.
Proof.
  unfold postDatapath. destruct (d =? 0); [by intros [= _ <-]|]. intros H. next H w1. apply on_conn_list in E. rewrite <- E.
  unfold registerDatapath in H. next H c. destruct (c_auxiliaryId c =? 0).
  - destruct (w_dpidMap w1 !! c_datapathId c) as [old|]; [|by injection H as _ <-]. destruct (negb _); [|by injection H as _ <-].
    next H w2. injection H as _ <-. by apply on_conn_list in E1.
  - destruct (w_dpidMap w1 !! c_datapathId c) as [par|]; [|by injection H as _ <-]. next H m. destruct (flag_on _ m); [|by injection H as _ <-].
    next H w2. injection H as _ <-. by apply setMainConnection_list in E2.
Qed.

Lemma onHello_list p src addr buf now h w w' : onHello p src addr buf now h w = Some w' -> w_connList w' = w_connList w.
Proof.
  unfold onHello. destruct (negb _); [by intros [= <-]|]. intros H. next H ok. destruct (negb ok); [by injection H as <-|].
  next H v. next H vs. next H version. destruct (version =? 0); [|by apply on_conn_list in H].
  next H hdr. next H w1. next H w2. apply on_conn_list in H, E4. rewrite H, <- E4.
  destruct (negb (wantFeatures h)); [by apply on_conn_list in E5|by injection E5 as <-].
Qed.

Lemma onFeaturesReply_list p addr buf now h w w' : onFeaturesReply p addr buf now h w = Some w' -> w_connList w' = w_connList w.
Proof.
  unfold onFeaturesReply. destruct (negb _); [by intros [= <-]|]. intros H. next H ok. destruct (negb ok); [by injection H as <-|].
  next H d. next H a. next H r. destruct r as [posted w1]. apply postDatapath_list in E2. rewrite <- E2.
  destruct posted; [|by apply on_conn_list in H]. next H c. destruct (andb _ _).
  { destruct (negb _); [|done]. by apply on_conn_list in H. }
  next H len. next H reply. by destruct (_ <? _); apply on_conn_list in H.
Qed.

Lemma onPortDescReply_list p addr buf h w w' : onPortDescReply p addr buf h w = Some w' -> w_connList w' = w_connList w.
Proof.
  unfold onPortDescReply. destruct (negb _); [by intros [= <-]|]. intros H. next H ok. destruct (negb ok); [by injection H as <-|].
  next H ports. next H h'. by apply on_conn_list in H.
Qed.

Lemma handshake_onMessage_list p src addr buf now h w w' :
  handshake_onMessage p src addr buf now h w = Some w' -> w_connList w' = w_connList w.
Proof.
  unfold handshake_onMessage. intros H. next H t. destruct (t =? OFPT_HELLO); [by eapply onHello_list|].
  destruct (t =? OFPT_FEATURES_REPLY); [by eapply onFeaturesReply_list|]. destruct (t =? OFPT_ERROR); [by injection H as <-|].
  destruct (t =? OFPT_MULTIPART_REPLY); [|by injection H as <-]. next H s. destruct (s =? _); [by eapply onPortDescReply_list|by injection H as <-].
Qed.

Lemma postMessage_list `{Uninit} le p addr buf now w w' : postMessage le p addr buf now w = Some w' -> w_connList w' = w_connList w.
Proof.
  unfold postMessage. intros H0. next H0 c. next H0 r. destruct r as [handled c1]. destruct handled; [by injection H0 as <-|].
  next H0 m. destruct (c_listener m) as [l|]; [|by injection H0 as <-]. next H0 nbuf. destruct l as [h|].
  - apply handshake_onMessage_list in H0. by rewrite H0.
  - apply on_conn_list in H0. by rewrite H0.
Qed.

(** ** Registration *)

Lemma find_aux_total w l auxID : (forall q, q ∈ l -> is_Some (w_conns w !! q)) ->
  is_Some (foldr (fun q r => c ← w_conns w !! q; if c_auxiliaryId c =? auxID then Some (Some q) else r) (Some None) l).
Proof.
  induction l as [|q l IH]; intros Hl; [by eexists|]. cbn [foldr]. destruct (Hl q) as [c ->]; [set_solver|]. cbn [mbind option_bind].
  destruct (_ =? _); [by eexists|]. apply IH. set_solver.
Qed.

Lemma setMainConnection_total p c main auxID w m : topo (Some p) w -> detached p c w -> w_conns w !! main = Some m -> main <> p ->
  auxID <> 0 -> is_Some (setMainConnection p main auxID w).
Proof.
  intros T (Hp & Hpm & Hpa & Hpd) Hm Hne Ha. unfold setMainConnection. rewrite Hp. cbn [mbind option_bind].
  rewrite Hpm, Z.eqb_refl, (proj2 (Z.eqb_neq _ _) Hne), (proj2 (Z.eqb_neq _ _) Ha). cbn [andb negb]. rewrite Hm. cbn [mbind option_bind].
  rewrite lookup_put_ne, Hm by done. cbn [mbind option_bind].
  set (w1 := put p _ w). assert (forall q, is_Some (w_conns w !! q) -> is_Some (w_conns w1 !! q)) as Hw1.
  { intros q Hq. unfold w1, put. cbn [w_conns]. apply lookup_insert_is_Some. destruct (decide (p = q)); auto. }
  destruct (find_aux_total w1 (c_auxList m) auxID) as [found Ef].
  { intros q Hq. apply Hw1. destruct (t_aux _ w T main m q Hm Hq) as (_ & a & ? & _). eauto. }
  rewrite Ef. cbn [mbind option_bind]. assert (is_Some (w_conns w1 !! main)) as [m1 Hm1] by (apply Hw1; eauto).
  destruct found as [q|]; cbn [mbind option_bind]; [|by eapply on_conn_total].
  apply find_aux_in in Ef. destruct (t_aux _ w T main m q Hm Ef) as (Hqm & a & Hqa & _).
  destruct (Hw1 q) as [a1 Ha1]; [eauto|]. rewrite (on_conn_eq q a1) by done. cbn [mbind option_bind].
  apply (on_conn_total main m1); [by rewrite lookup_put_ne|by eexists].
Qed.

Lemma postDatapath_total p c dpid aux w : inv ∅ None w -> w_conns w !! p = Some c -> unregistered c = true ->
  is_Some (postDatapath p dpid aux w).
Proof.
  intros Hi Hp Hu. pose proof (unregistered_detached ∅ w p c Hi Hp Hu) as Hdet. pose proof Hdet as (_ & Hpm & Hpa & Hpd).
  unfold postDatapath. destruct (Z.eqb_spec dpid 0); [by eexists|]. rewrite (on_conn_eq p c) by done. cbn [mbind option_bind].
  set (c1 := c {{ c_datapathId := dpid }} {{ c_auxiliaryId := aux }}). set (w1 := put p c1 w).
  assert (w_conns w1 !! p = Some c1) as Hp1 by apply lookup_put_eq.
  assert (topo (Some p) w1) as T1 by (apply topo_weaken, (topo_rekey None p c c1 w (proj1 Hi) Hdet); done).
  unfold registerDatapath. rewrite Hp1. cbn [mbind option_bind]. change (c_auxiliaryId c1) with aux. change (c_datapathId c1) with dpid.
  change (w_dpidMap w1) with (w_dpidMap w). destruct (Z.eqb_spec aux 0) as [Ha|Ha].
  - destruct (w_dpidMap w !! dpid) as [old|] eqn:Eold; [|by eexists]. destruct (Z.eqb_spec old p) as [->|Hne]; cbn [negb]; [by eexists|].
    destruct (t_dpid _ w1 T1 dpid old Eold) as (m & Hm & _).
    match goal with |- context [on_conn old ?f ?x] => destruct (on_conn_total old m f x) as [w2 ->] end; [done|by eexists|by eexists].
  - destruct (w_dpidMap w !! dpid) as [par|] eqn:Epar; [|by eexists]. destruct (t_dpid _ w1 T1 dpid par Epar) as (m & Hm & _).
    rewrite Hm. cbn [mbind option_bind]. destruct (flag_on _ m); [|by eexists].
    assert (par <> p) as Hne by (intros ->; by apply (Hpd dpid)).
    destruct (setMainConnection_total p c1 par aux w1 m) as [w2 ->]; done.
Qed.

(** ** The handshake's messages *)

(** The features reply and the ports fit in a message. *)
Definition ports_fit (h : Handshake) (buf : list Z) : Prop :=
  hs_state h = kSentPortRequest -> zlen (hs_featuresReply h) + zlen buf - 16 <= OFP_MAX_SIZE.

Section Handshakes.
Context (p addr : Z) (buf : list Z) (h : Handshake) (w : World) (c : Conn).
Context (Hi : inv ∅ None w) (Hp : w_conns w !! p = Some c) (El : c_listener c = Some (LHandshake h)) (Hs : conn_settled c).
Context (Hf : framed addr buf).

Lemma install_total h' c' : is_handshake c' = true -> is_Some (installNewChannelListener h' c').
Proof. intros Hc. unfold installNewChannelListener, clearChannelListener. rewrite Hc. destruct (hs_factory h'); by eexists. Qed.

Lemma onHello_total src now : is_Some (w_conns w !! src) -> b_type buf = Some OFPT_HELLO -> is_Some (onHello p src addr buf now h w).
Proof.
  intros [s Hsrc] Ht. pose proof Hf as (Hb & Hz & Hl & Ha). unfold onHello. destruct (negb _); [by eexists|].
  destruct (cast_total Hello_class addr buf Hf Ht) as [ok ->]; [by left|by eexists|]. cbn [mbind option_bind].
  destruct ok; cbn [negb]; [|by eexists]. destruct (framed_byte addr buf 0 Hf) as (v & Ev & Hv); [lia|].
  unfold negotiateHello. change (b_version buf) with (rd8 buf 0). rewrite Ev. cbn [mbind option_bind].
  destruct (protocolVersions_read addr buf Hb Hl) as (vs & -> & _); [lia|]. cbn [mbind option_bind].
  destruct (negotiate_total (hs_versions h) v vs) as [version ->]; [lia|]. cbn [mbind option_bind].
  destruct (version =? 0).
  - rewrite slice_some by lia. cbn [mbind option_bind]. rewrite (on_conn_eq p c) by done. cbn [mbind option_bind].
    set (w1 := put p _ w). assert (is_Some (w_conns w1 !! src)) as [s1 Hs1].
    { unfold w1, put. cbn [w_conns]. apply lookup_insert_is_Some. destruct (decide (p = src)); eauto. }
    assert (is_Some (w_conns w1 !! p)) as [c1 Hc1] by (unfold w1; rewrite lookup_put_eq; by eexists).
    destruct (negb (wantFeatures h)); cbn [mbind option_bind]; [|eapply on_conn_total; [exact Hc1|by eexists]].
    rewrite (on_conn_eq src s1) by done.
    destruct (error_total buf OFPHFC_INCOMPATIBLE (incompatible (hs_versions h) v vs) s1) as [s2 ->];
      [lia|by apply incompatible_short|]. cbn [mbind option_bind].
    assert (is_Some (w_conns (put src s2 w1) !! p)) as [c2 Hc2].
    { unfold put. cbn [w_conns]. apply lookup_insert_is_Some. destruct (decide (src = p)); eauto. }
    eapply on_conn_total; [exact Hc2|by eexists].
  - apply (on_conn_total p c); [done|]. destruct (wantFeatures h).
    + unfold sendFeaturesRequest.
      match goal with |- context [HeaderOnlyBuilder_send _ ?x] => destruct (features_request_total x) as (y & c' & ->) end. by eexists.
    + apply install_total. assert (is_handshake c = true) as Hh by (unfold is_handshake; by rewrite El). exact Hh.
Qed.

Lemma onFeaturesReply_total now : b_type buf = Some OFPT_FEATURES_REPLY -> is_Some (onFeaturesReply p addr buf now h w).
Proof.
  intros Ht. pose proof Hf as (Hb & Hz & Hl & Ha). unfold onFeaturesReply. case_bool_decide as Hst; cbn [negb]; [|by eexists].
  destruct (cast FeaturesReply_class addr buf) as [ok|] eqn:Ec.
  2: { destruct (cast_total FeaturesReply_class addr buf Hf Ht) as [ok E]; [by right| |congruence].
       intros c0 Hlen. apply FeaturesReply_validate_total; try done. unfold isLengthValid in Hlen. cbn in Hlen.
       rewrite !andb_true_iff in Hlen. destruct Hlen as [[?%Z.leb_le _] _]. done. }
  cbn [mbind option_bind]. destruct ok; cbn [negb]; [|by eexists]. destruct (cast_true _ _ _ Ec) as [_ Hlen].
  assert (32 <= zlen buf) as H32.
  { unfold isLengthValid in Hlen. cbn in Hlen. rewrite !andb_true_iff in Hlen. destruct Hlen as [[?%Z.leb_le _] _]. done. }
  unfold FeaturesReply_datapathId, FeaturesReply_auxiliaryId. rewrite rd8_rd_be.
  destruct (rd_be_some 8 buf 8) as [d ->]; [lia..|]. cbn [mbind option_bind]. destruct (rd_be_some 1 buf 21) as [a ->]; [lia..|].
  cbn [mbind option_bind]. assert (unregistered c = true) as Hu by (unfold unregistered; rewrite El, Hst; done).
  destruct (postDatapath_total p c d a w Hi Hp Hu) as [[posted w1] E1]. rewrite E1. cbn [mbind option_bind].
  destruct (postDatapath_inv ∅ p c d a w w1 posted Hi Hp Hu E1) as (_ & _ & main & d' & a' & Hp1 & Hmain).
  set (c1 := rekeyed main d' a' c) in *. assert (c_listener c1 = Some (LHandshake h)) as El1 by done.
  destruct posted; [|eapply on_conn_total; [exact Hp1|by eexists]]. rewrite Hp1. cbn [mbind option_bind].
  destruct (andb _ _) eqn:Eaux.
  { apply andb_true_iff in Eaux as [_ Em]. apply negb_true_iff, Z.eqb_neq in Em.
    rewrite (proj2 (Z.eqb_neq a 0)) by (by apply Hmain). cbn [negb]. eapply on_conn_total; [exact Hp1|].
    unfold clearChannelListener, is_handshake. rewrite El1. by eexists. }
  rewrite Hl. cbn [mbind option_bind]. rewrite slice_all by done. cbn [mbind option_bind].
  destruct (_ <? _); (eapply on_conn_total; [exact Hp1|]); [|by apply install_total].
  unfold sendPortDescRequest. match goal with |- context [MultipartRequestBuilder_send ?b ?x] =>
    destruct (port_request_total b x) as (y & b' & c' & ->) end; [done|by eexists].
Qed.

Lemma onPortDescReply_total : b_type buf = Some OFPT_MULTIPART_REPLY -> ports_fit h buf -> is_Some (onPortDescReply p addr buf h w).
Proof.
  intros Ht Hfit. pose proof Hf as (Hb & Hz & Hl & Ha). unfold onPortDescReply. case_bool_decide as Hst; cbn [negb]; [|by eexists].
  destruct (cast PortDescReply_class addr buf) as [ok|] eqn:Ec.
  2: { destruct (cast_total PortDescReply_class addr buf Hf Ht) as [ok E]; [by left| |congruence].
       intros c0 Hlen. apply PortDesc_validate_total; try done. unfold isLengthValid in Hlen. cbn in Hlen.
       rewrite !andb_true_iff in Hlen. destruct Hlen as [[?%Z.leb_le _] _]. done. }
  cbn [mbind option_bind]. destruct ok; cbn [negb]; [|by eexists]. destruct (cast_true _ _ _ Ec) as [_ Hlen].
  assert (16 <= zlen buf) as H16.
  { unfold isLengthValid in Hlen. cbn in Hlen. rewrite !andb_true_iff in Hlen. destruct Hlen as [[?%Z.leb_le _] _]. done. }
  unfold replyBody. rewrite Hl. cbn [mbind option_bind]. unfold sizeof_MultipartReply. rewrite slice_some by lia. cbn [mbind option_bind].
  set (ports := mkRange _ _). assert (br_size ports = zlen buf - 16) as Hps by (unfold ports, br_size; cbn [br_data]; zl).
  destruct (l_reply c (inv_local _ _ _ _ _ Hi Hp) h El Hst) as (Rb & R32 & R8 & Rl).
  assert (is_Some (appendPortsToFeaturesReply ports h)) as [h' ->].
  { unfold appendPortsToFeaturesReply. rewrite (proj2 (Z.ltb_lt 0 _)) by lia. destruct (_ =? 0); [by eexists|]. rewrite Rl. cbn [mbind option_bind].
    rewrite R8. cbn [Z.eqb]. specialize (Hfit Hst). rewrite (proj2 (Z.leb_le _ OFP_MAX_SIZE)) by lia. unfold b_setLength.
    rewrite (proj2 (Z.leb_le _ OFP_MAX_SIZE)) by lia.
    destruct (wr_some (hs_featuresReply h) 2 (be_bytes 2 (u16 (zlen (hs_featuresReply h) + br_size ports)))) as (m & -> & _);
      [lia|autorewrite with zlen; lia|]. by eexists. }
  cbn [mbind option_bind]. eapply on_conn_total; [exact Hp|]. by apply install_total.
Qed.

Lemma handshake_onMessage_total src now : is_Some (w_conns w !! src) -> ports_fit h buf ->
  is_Some (handshake_onMessage p src addr buf now h w).
Proof.
  intros Hsrc Hfit. pose proof Hf as (Hb & Hz & Hl & Ha). unfold handshake_onMessage.
  destruct (framed_byte addr buf 1 Hf) as (t & Et & _); [lia|]. change (b_type buf) with (rd8 buf 1). rewrite Et. cbn [mbind option_bind].
  destruct (Z.eqb_spec t OFPT_HELLO) as [->|]; [by apply onHello_total|].
  destruct (Z.eqb_spec t OFPT_FEATURES_REPLY) as [->|]; [by apply onFeaturesReply_total|].
  destruct (t =? OFPT_ERROR); [by eexists|]. destruct (Z.eqb_spec t OFPT_MULTIPART_REPLY) as [->|]; [|by eexists].
  assert (is_Some (Message_subtype buf)) as [s ->].
  { unfold Message_subtype. change (b_type buf) with (rd8 buf 1). rewrite Et. cbn [mbind option_bind].
    destruct (andb _ _) eqn:E; [|by eexists]. apply andb_true_iff in E as [_ E%Z.leb_le]. apply rd_be_some; lia. }
  cbn [mbind option_bind]. destruct (s =? OFPMP_PORT_DESC); [by apply onPortDescReply_total|by eexists].
Qed.
End Handshakes.

(** ** Messages and reads *)

(** The size condition for a message that arrives at [p]. *)
Definition msg_fits `{Uninit} (le : bool) (p : Z) (buf : list Z) (w : World) : Prop :=
  forall c m h nbuf, w_conns w !! p = Some c -> w_conns w !! c_mainConn c = Some m -> c_listener m = Some (LHandshake h) ->
    normalize le buf = Some nbuf -> ports_fit h nbuf.

Lemma postMessage_total `{UninitLaws} le p addr buf now w c :
  inv ∅ None w -> w_conns w !! p = Some c -> conn_settled c -> framed addr buf -> checked_reply buf -> msg_fits le p buf w ->
  is_Some (postMessage le p addr buf now w).
Proof.
  intros Hi Hp Hs Hf Hck Hfit. pose proof Hf as (Hb & Hz & Hl & Ha). unfold postMessage. rewrite Hp. cbn [mbind option_bind].
  assert (exists handled c1, (if OFP_VERSION_1 <=? c_version c then echoMessageHandled addr buf c else Some (false, c)) = Some (handled, c1) /\ sends c c1)
    as (handled & c1 & -> & Hsend).
  { destruct (OFP_VERSION_1 <=? c_version c); [|exists false, c; split; [done|]; destruct c; by eexists _, _].
    destruct (echo_total addr buf c Hf) as (handled & c1 & E). exists handled, c1. split; [done|]. by eapply echo_step. }
  cbn [mbind option_bind]. set (w1 := put p c1 w). destruct handled; [by eexists|].
  assert (inv ∅ None w1) as Hi1 by (apply (inv_put _ _ p c); try done; by apply sends_step).
  assert (w_conns w1 !! p = Some c1) as Hp1 by apply lookup_put_eq.
  assert (c_mainConn c1 = c_mainConn c) as Emain by (by destruct Hsend as (x & d & ->)). rewrite Emain.
  destruct (t_main _ w (proj1 Hi) p c Hp) as (m0 & Hm0 & Hmx).
  assert (exists m, w_conns w1 !! c_mainConn c = Some m /\ c_listener m = c_listener m0 /\ conn_settled m) as (m & Hm & Elm & Hsm).
  { destruct (decide (c_mainConn c = p)) as [Ep|Hne].
    - rewrite Ep in *. exists c1. assert (m0 = c) as -> by congruence. split_and!; [done|by apply sends_listener|by eapply settled_sends].
    - exists m0. unfold w1. rewrite lookup_put_ne by done. split_and!; try done. apply settled_of; [by apply (inv_local _ _ _ _ _ Hi Hm0)|]. right.
      destruct (Hmx Hne) as (Hin & _). destruct (unregistered m0) eqn:Eu; [|done].
      destruct (t_unreg _ w (proj1 Hi) _ m0 ltac:(done) Hm0 Eu) as (_ & Hnil & _). rewrite Hnil in Hin. by apply not_elem_of_nil in Hin. }
  rewrite Hm. cbn [mbind option_bind]. rewrite Elm. destruct (c_listener m0) as [l|] eqn:El; [|by eexists].
  destruct (normalize_total le buf Hb Hz Hck) as (v & t & t' & nbuf & f & _ & _ & _ & En & Hbn & Hzn & Hln & _). rewrite En. cbn [mbind option_bind].
  destruct l as [h|]; [|eapply on_conn_total; [exact Hm|by eexists]].
  apply (handshake_onMessage_total (c_mainConn c) addr nbuf h w1 m Hi1 Hm); try done. by apply (Hfit c m0 h nbuf).
Qed.

Lemma message_read_total `{UninitLaws} le p addr buf now w c :
  inv ∅ None w -> w_conns w !! p = Some c -> conn_settled c -> framed addr buf -> checked_reply buf -> msg_fits le p buf w ->
  is_Some (message_read le p addr buf now w).
Proof.
  intros Hi Hp Hs Hf Hck Hfit. unfold message_read.
  destruct (postMessage_total le p addr buf now w c Hi Hp Hs Hf Hck Hfit) as [w1 E1]. rewrite E1. cbn [mbind option_bind].
  assert (topo None w1) as T1.
  { destruct Hf as (Hb & Hz & _). by eapply (postMessage_inv ∅ le p addr buf now w w1 c). }
  assert (is_Some (w_conns w1 !! p)) as [c1 Hc1].
  { apply (t_list _ w1 T1). rewrite (postMessage_list _ _ _ _ _ _ _ E1). apply (t_list _ w (proj1 Hi)). by eexists. }
  eapply on_conn_total; [exact Hc1|by eexists].
Qed.

Lemma Header_at_total hdr : zlen hdr = 8 -> exists h, Header_at hdr = Some h /\ b_length hdr = Some (hdr_length h).
Proof.
  intros Hz. unfold Header_at, b_version, b_type. rewrite !rd8_rd_be. destruct (rd_be_some 1 hdr 0) as [v ->]; [lia..|].
  destruct (rd_be_some 1 hdr 1) as [t ->]; [lia..|]. unfold b_length. destruct (rd_be_some 2 hdr 2) as [l ->]; [lia..|].
  destruct (rd_be_some 4 hdr 4) as [x ->]; [lia..|]. by eexists.
Qed.

Lemma header_read_total `{UninitLaws} le p addr hdr now w c :
  inv ∅ None w -> w_conns w !! p = Some c -> conn_settled c -> zlen hdr = 8 -> bytes_ok hdr -> addr mod 8 = 0 -> msg_fits le p hdr w ->
  is_Some (header_read le p addr hdr now w).
Proof.
  intros Hi Hp Hs Hz Hb Ha Hfit. unfold header_read. rewrite Hp. cbn [mbind option_bind].
  destruct (Header_at_total hdr Hz) as (h & -> & Hl). cbn [mbind option_bind]. destruct (Header_validateInput h _).
  - destruct (Z.eqb_spec (hdr_length h) 8) as [E8|]; [|eapply on_conn_total; [exact Hp|by eexists]].
    assert (framed addr hdr) as Hf by (split_and!; try done; congruence || lia).
    destruct (message_read_total le p addr hdr now w c Hi Hp Hs Hf (checked_short hdr Hz) Hfit) as [w1 E1]. exists w1. exact E1.
  - eapply on_conn_total; [exact Hp|by eexists].
Qed.

(** ** The other handlers *)

Lemma handshake_done_total error now c : local c -> c_handshaking c = true -> is_Some (handshake_done error now c).
Proof.
  intros [_ Hi Hv _ _ _ _] Hh. destruct (Hi (or_introl Hh)) as (_ & h & El & Est). unfold handshake_done.
  destruct error; cbn [negb]; [by eexists|]. set (c0 := c {{ c_handshaking := false }}).
  assert (is_Some (channelUp now c0)) as [c1 ->]; [|by eexists]. unfold channelUp. destruct (negb _); [|by eexists].
  change (c_listener (set_flag kChannelUp c0)) with (c_listener c). rewrite El. unfold onChannelUp. rewrite bool_decide_true by done.
  unfold sendHello. match goal with |- context [HelloBuilder_send _ ?x] => destruct (hello_total (hs_versions h) x (Hv h El)) as (y & b & c' & ->) end.
  by eexists.
Qed.

Lemma tickle_total answer now c : flag_on kConnectionUp c = true -> is_Some (tickle answer now c).
Proof.
  intros Hc. unfold tickle. rewrite Hc. cbv zeta.
  assert (forall c', is_Some (EchoRequestBuilder_send (EchoRequestBuilder_setKeepAlive (mkEchoRequest 0 [])) c' ≫= fun '(_, c) => Some c)) as Hecho.
  { intros c'. destruct (echo_request_total (EchoRequestBuilder_setKeepAlive (mkEchoRequest 0 [])) c') as (x & c2 & ->); [done|done|by eexists]. }
  destruct (c_listener c) as [[h|]|]; [by eexists| |]; [destruct answer; [by eexists|]|];
    (destruct (_ <? c_keepAliveTimeout c); [by eexists|]; destruct (orb _ _); [by eexists|]; destruct (negb _); [apply Hecho|by eexists]).
Qed.

Lemma idle_total answer now l w : topo None w -> (forall p, p ∈ l -> is_Some (w_conns w !! p)) ->
  is_Some (foldl (fun ow p => w ← ow; c ← w_conns w !! p;
             if flag_on kConnectionUp c then on_conn p (tickle (answer p) now) w else Some w) (Some w) l).
Proof.
  revert w. induction l as [|p l IH]; intros w T Hl; [by eexists|]. cbn [foldl mbind option_bind].
  destruct (Hl p) as [c Hc]; [set_solver|]. rewrite Hc. cbn [mbind option_bind].
  destruct (flag_on kConnectionUp c) eqn:Hu; [|apply IH; [done|set_solver]].
  rewrite (on_conn_eq p c) by done. destruct (tickle_total (answer p) now c Hu) as [c' E]. rewrite E. cbn [mbind option_bind].
  apply step_tickle in E. apply IH; [eapply topo_put; [done..|apply E]|]. intros q Hq. unfold put. cbn [w_conns].
  apply lookup_insert_is_Some. destruct (decide (p = q)); [by left|right; split; [done|apply Hl; set_solver]].
Qed.

(** [findConnId] finds the connection with the id. *)
Lemma findConnId_found w connId : topo None w -> connId <> 0 ->
  exists r, findConnId connId w = Some r /\
    forall p, r = Some p <-> exists c, w_conns w !! p = Some c /\ c_connId c = connId.
Proof.
  intros T Hc. unfold findConnId. destruct (findConnIter_spec w connId (topo_searchable _ w T) Hc) as (r & -> & Hr). cbn [mbind option_bind].
  assert (forall p c, w_conns w !! p = Some c -> exists i, w_connList w !! i = Some p) as Hlist.
  { intros p c Hp. apply list_elem_of_lookup, (t_list _ w T). by eexists. }
  destruct r as [i|].
  - destruct Hr as (q & c & Hi & Hq & Eid). exists (Some q). cbn [mbind option_bind]. rewrite Hi. split; [done|]. intros p. split.
    + intros [= ->]. eauto.
    + intros (c' & Hp & Eid'). destruct (Hlist p c' Hp) as (j & Hj). f_equal.
      destruct (lt_eq_lt_dec i j) as [[Hlt| ->]|Hlt].
      * pose proof (t_sorted _ w T i j q p c c' Hi Hj Hlt Hq Hp). lia.
      * congruence.
      * pose proof (t_sorted _ w T j i p q c' c Hj Hi Hlt Hp Hq). lia.
  - exists None. split; [done|]. intros p. split; [done|]. intros (c & Hp & Eid). destruct (Hlist p c Hp) as (i & Hi).
    destruct (Hr i). by exists p, c.
Qed.

Lemma findDatapath_total connId dpid w : topo None w ->
  exists r, findDatapath connId dpid w = Some r /\ forall q, r = Some q -> is_Some (w_conns w !! q).
Proof.
  intros T. unfold findDatapath. destruct (Z.eqb_spec connId 0) as [|Hne]; cbn [negb].
  - destruct (dpid =? 0); cbn [negb]; eexists; (split; [done|]); [done|]. intros q Hq.
    destruct (t_dpid _ w T dpid q Hq) as (c & Hc & _). by eexists.
  - destruct (findConnId_found w connId T Hne) as (r & -> & Hr). cbn [mbind option_bind]. destruct r as [q|]; [|by exists None].
    destruct (proj1 (Hr q) eq_refl) as (c & Hc & _). rewrite Hc. cbn [mbind option_bind]. eexists. split; [done|].
    intros q' E. destruct (orb _ _); [|done]. injection E as <-. by eexists.
Qed.

(** ** Theorems on every run *)

(** The size condition of an event. *)
Definition event_fits `{Uninit} (le : bool) (e : LoopEvent) (w : World) : Prop :=
  match e with
  | LHeader p _ hdr _ => msg_fits le p hdr w
  | LMessage p _ body _ => forall c hdr, w_conns w !! p = Some c -> c_reading c = RMessage hdr -> msg_fits le p (hdr ++ body) w
  | _ => True
  end.

Lemma handle_total `{UninitLaws} le e w : inv ∅ None w -> enabled e w -> checked_event e w -> event_fits le e w ->
  is_Some (handle le e w).
Proof.
  intros Hi He Hc Hfit. destruct e; cbn [handle enabled checked_event event_fits] in *.
  - destruct He as (Hn & Hlast & _). unfold new_connection, registerConnection. pose proof (t_last _ w (proj1 Hi)) as Hl.
    assert (u64 (w_lastConnId w + 1) = w_lastConnId w + 1) as -> by (apply Z.mod_small; lia).
    rewrite (proj2 (Z.eqb_neq _ 0)) by lia. by eexists.
  - destruct He as (c & Hp & _). eapply on_conn_total; [exact Hp|by eexists].
  - destruct He as (c & Hp & Hh). eapply on_conn_total; [exact Hp|]. apply handshake_done_total; [by apply (inv_local _ _ _ _ _ Hi Hp)|done].
  - destruct He as (c & Hp & Hr & Hz & Hb & Ha). apply (header_read_total le p addr hdr now w c); try done.
    apply settled_of; [by apply (inv_local _ _ _ _ _ Hi Hp)|]. left. congruence.
  - destruct He as (c & hdr & Hp & Hr & Hl & Hb & Ha). pose proof (Hc c hdr Hp Hr) as Hck. rewrite Hp. cbn [mbind option_bind]. rewrite Hr.
    pose proof (inv_local _ _ _ _ _ Hi Hp) as Hloc. pose proof (l_read c Hloc hdr Hr) as Hrd.
    apply (message_read_total le p addr (hdr ++ body) now w c); try done.
    + apply settled_of; [done|]. left. congruence.
    + destruct (message_readable hdr body Hrd Hl Hb Hck) as (H1 & H2 & _). destruct Hrd as (Hz & _). split_and!; try done; try lia.
      unfold b_length in *. rewrite rd_be_app_l, zlen_app by lia. by rewrite Hl, Hz.
    + by apply (Hfit c).
  - destruct He as (c & Hp & _). eapply on_conn_total; [exact Hp|by eexists].
  - destruct He as (c & hdr & Hp & _). eapply on_conn_total; [exact Hp|by eexists].
  - destruct He as (c & Hp). eapply on_conn_total; [exact Hp|by eexists].
  - destruct He as (c & Hp & _). eapply on_conn_total; [exact Hp|by eexists].
  - unfold idle. apply idle_total; [apply Hi|]. intros p. apply (t_list _ w (proj1 Hi)).
  - unfold close_connection. destruct (findDatapath_total connId dpid w (proj1 Hi)) as (r & -> & Hr). cbn [mbind option_bind].
    destruct r as [q|]; [|by eexists]. destruct (Hr q eq_refl) as [c Hq]. rewrite (on_conn_eq q c) by done. cbn [mbind option_bind].
    rewrite lookup_put_eq. cbn [mbind option_bind]. destruct (step_shutdown false c) as ((_ & _ & _ & _ & _ & F & _) & _).
    rewrite F, (t_flag _ w (proj1 Hi) q c Hq). by eexists.
  - destruct He as (c & Hp & _). destruct (destroy_inv (size (w_conns w)) p c w Hi Hp) as (w' & -> & _). by eexists.
Qed.

(** C4. In every state that the event loop reaches the connections and the engine's
    tables are consistent: the main connection of each connection is alive and lists it,
    the auxiliary connections that a connection lists are alive and tied to it,
    each datapath is registered to a live main connection that has it, a
    connection whose handshake has not registered it is in no table, and the list of
    connections holds exactly the live ones, sorted by their ids. *)
Theorem connections_consistent `{UninitLaws} le w : reachable le w -> topo None w.
Proof. intros Hr. apply (reachable_inv le w Hr). Qed.

(** C3. Every handler that the event loop may run in a state that it can reach is
    defined: no pointer to a destroyed connection is followed, no message is read out
    of bounds and no assertion fails, under two provisos on what peers send: the
    features reply and the ports of a port description fit in 65535 bytes together
    ([event_fits]), and no peer sends, now or before, a flow statistics reply of
    OpenFlow 1.0 or a group statistics reply of OpenFlow 1.2 ([checked_event]), which
    the normalization reads out of bounds or never leaves. *)
Theorem loop_defined `{UninitLaws} le w e :
  reachable le w -> enabled e w -> checked_event e w -> event_fits le e w -> is_Some (handle le e w).
Proof. intros Hr. apply handle_total. by apply (reachable_inv le). Qed.

(** C34. A destroyed connection leaves no pointer behind: no connection has it as its
    main connection or lists it, no datapath is registered to it and the list of
    connections does not hold it. *)
Theorem destroyed_forgotten `{UninitLaws} le w w' p : reachable le w -> enabled (LDestroy p) w ->
  handle le (LDestroy p) w = Some w' ->
  (forall q c, w_conns w' !! q = Some c -> c_mainConn c <> p /\ p ∉ c_auxList c) /\
  (forall d, w_dpidMap w' !! d <> Some p) /\ p ∉ w_connList w'.
Proof.
  intros Hr He E. pose proof (reachable_inv le w Hr) as Hi. destruct (handle_inv le _ w w' Hi He I E) as [T _].
  destruct He as (c & Hp & _). destruct (destroy_inv (size (w_conns w)) p c w Hi Hp) as (w1 & E1 & _ & Hnone & _).
  cbn [handle] in E. assert (w1 = w') as -> by congruence. split_and!.
  - intros q a Hq. split.
    + intros Hm. destruct (t_main _ w' T q a Hq) as (m & Hmm & _). congruence.
    + intros Hin. destruct (t_aux _ w' T q a p Hq Hin) as (_ & b & Hb & _). congruence.
  - intros d Hd. destruct (t_dpid _ w' T d p Hd) as (a & Ha & _). congruence.
  - intros Hin. apply (t_list _ w' T) in Hin as [a Ha]. congruence.
Qed.

(** The binary search over the list of connections finds, in every state of the
    event loop, the connection that has the id, and none when there is none. *)
Theorem findConnId_spec `{UninitLaws} le w connId : reachable le w -> connId <> 0 ->
  exists r, findConnId connId w = Some r /\
    forall p, r = Some p <-> exists c, w_conns w !! p = Some c /\ c_connId c = connId.
Proof. intros Hr. apply findConnId_found. apply (reachable_inv le w Hr). Qed.

(** C38. A connection over TLS is shut down by the first tick of the idle timer that
    falls into its TLS handshake, however short that has been: the time at which the
    OpenFlow handshake started is still zero, and the timeout is counted from there. *)
Theorem tls_handshake_tick p q started now answer w w1 w2 :
  new_connection p q started w = Some w1 -> on_conn p (fun c => Some (asyncHandshake c)) w1 = Some w2 ->
  cp_open q = true -> kHandshakeTimeout <= now ->
  exists c c', w_conns w2 !! p = Some c /\ tickle answer now c = Some c' /\
    flag_on kShutdownCalled c = false /\ flag_on kShutdownCalled c' = true /\ EShutdown false ∈ c_events c'.
Proof.
  unfold new_connection. intros E1 E2 Ho Hnow. apply bind_some in E1 as ([connId w0] & _ & [= <-]).
  rewrite (on_conn_eq p _ _ _ (lookup_put_eq _ _ _)) in E2. injection E2 as <-. rewrite lookup_put_eq.
  set (h := mkHandshake _ _ _ _ _ _ _). set (c0 := mkConn _ _ _ _ _ _ _ _ _ _ _ _ _ _ _ _).
  set (c1 := setFlags (cp_securityId q) (cp_options q) (updateTimeReadStarted started c0)).
  assert (flag_on kShutdownCalled c1 = false /\ c_open c1 = true /\ c_listener c1 = Some (LHandshake h)) as (F1 & F2 & F3).
  { unfold c1, setFlags, updateTimeReadStarted. destruct (negb (_ =? 0)), (negb (_ =? 0)), (negb (_ =? 0)), (negb (_ =? 0));
      rewrite ?has_set, ?has_clear by done; by split_and!. }
  exists (asyncHandshake c1). eexists. split; [done|].
  assert (flag_on kConnectionUp (asyncHandshake c1) = true) as Hup.
  { change (flag_on kConnectionUp (set_flag kConnectionUp c1) = true). rewrite has_set by done. apply orb_true_r. }
  assert (flag_on kShutdownCalled (asyncHandshake c1) = false) as Hsd.
  { change (flag_on kShutdownCalled (set_flag kConnectionUp c1) = false). rewrite has_set, F1 by done. done. }
  unfold tickle. rewrite Hup. change (c_listener (asyncHandshake c1)) with (c_listener c1). rewrite F3. split; [reflexivity|].
  unfold handshake_onTickle. change (hs_timeStarted h) with 0. rewrite Z.sub_0_r, (proj2 (Z.leb_le _ _) Hnow).
  unfold shutdown. rewrite Hsd. change (c_open (asyncHandshake c1)) with (c_open c1). rewrite F2. cbn [negb]. split; [done|]. split.
  - change (flag_on kShutdownCalled (set_flag kShutdownCalled (asyncHandshake c1)) = true). rewrite has_set by done. apply orb_true_r.
  - change (EShutdown false ∈ c_events (asyncHandshake c1) ++ [EShutdown false]). set_solver.
Qed.

(** ** Witnesses *)

(** A connection of a switch's side: it is made, connects, sends its hello and
    receives one of version 1, upon which the user's listener takes over; then the
    peer closes it and the object is destroyed. *)
Definition demo_events : list LoopEvent :=
  [LNew 4096 (mkParams 0 0 (fromVector [1; 4]) true 7 true) 100; LConnect 4096; LHandshakeDone 4096 false 110;
   LHeader 4096 65536 [1; 0; 0; 8; 0; 0; 0; 9] 120; LHeaderError 4096].

(** The world after the first [n] events. *)
Definition demo (n : nat) : World :=
  foldl (fun w e => default w (handle true e w)) empty_world (take n demo_events).

Ltac demo_enabled := cbn [enabled]; eexists; repeat split; vm_compute; done.

Lemma demo_reachable : reachable true (demo 4) /\ reachable true (demo 5).
Proof.
  assert (reachable true (demo 1)) as H1.
  { apply (reach_step true empty_world (LNew 4096 (mkParams 0 0 (fromVector [1; 4]) true 7 true) 100)); [constructor| |exact I|reflexivity].
    split_and!; [done|done|apply versions_1_4]. }
  assert (reachable true (demo 2)) as H2 by (apply (reach_step true (demo 1) (LConnect 4096)); [done|demo_enabled|exact I|vm_compute; reflexivity]).
  assert (reachable true (demo 3)) as H3
    by (apply (reach_step true (demo 2) (LHandshakeDone 4096 false 110)); [done|demo_enabled|exact I|vm_compute; reflexivity]).
  assert (reachable true (demo 4)) as H4.
  { apply (reach_step true (demo 3) (LHeader 4096 65536 [1; 0; 0; 8; 0; 0; 0; 9] 120)); [done| |exact I|vm_compute; reflexivity].
    cbn [enabled]. eexists. split; [vm_compute; reflexivity|]. split_and!; [reflexivity|done|bytes|done]. }
  split; [done|]. apply (reach_step true (demo 4) (LHeaderError 4096)); [done|demo_enabled|exact I|vm_compute; reflexivity].
Qed.

Lemma connections_consistent_witness : reachable true (demo 4) /\ topo None (demo 4) /\ w_connList (demo 4) = [4096].
Proof. split; [apply demo_reachable|]. split; [|done]. apply (connections_consistent true (demo 4)). apply demo_reachable. Defined.

Lemma loop_defined_witness : enabled (LDestroy 4096) (demo 5) /\ is_Some (handle true (LDestroy 4096) (demo 5)).
Proof.
  assert (enabled (LDestroy 4096) (demo 5)) as He by demo_enabled. split; [exact He|].
  apply (loop_defined true (demo 5) (LDestroy 4096)); [apply demo_reachable|exact He|exact I|exact I].
Defined.

Lemma destroyed_forgotten_witness : exists w', handle true (LDestroy 4096) (demo 5) = Some w' /\ 4096 ∉ w_connList w'.
Proof.
  destruct (handle true (LDestroy 4096) (demo 5)) as [w'|] eqn:E; [|vm_compute in E; discriminate]. exists w'. split; [reflexivity|].
  apply (destroyed_forgotten true (demo 5) w' 4096); [apply demo_reachable|demo_enabled|exact E].
Defined.

Lemma findConnId_witness : exists r, findConnId 1 (demo 4) = Some r /\ r = Some 4096 /\
  forall p, r = Some p <-> exists c, w_conns (demo 4) !! p = Some c /\ c_connId c = 1.
Proof.
  destruct (findConnId_spec true (demo 4) 1) as (r & E & Hr); [apply demo_reachable|done|]. exists r. split; [exact E|]. split; [|exact Hr].
  vm_compute in E. congruence.
Defined.

Lemma tls_handshake_tick_witness : exists c c', w_conns (demo 2) !! 4096 = Some c /\ tickle false 5000 c = Some c' /\
  flag_on kShutdownCalled c = false /\ flag_on kShutdownCalled c' = true /\ EShutdown false ∈ c_events c'.
Proof.
  apply (tls_handshake_tick 4096 (mkParams 0 0 (fromVector [1; 4]) true 7 true) 100 5000 false empty_world (demo 1) (demo 2));
    [vm_compute; reflexivity|vm_compute; reflexivity|reflexivity|done].
Defined.

(** ** The ports behind the features reply *)

Lemma setLength_read m len : bytes_ok m -> 4 <= zlen m -> 0 <= len <= OFP_MAX_SIZE ->
  exists m', b_setLength m len = Some m' /\ zlen m' = zlen m /\ drop 4 m' = drop 4 m /\ forall k, b_length (m' ++ k) = Some len.
Proof.
  intros Hb Hz Hl. unfold b_setLength, OFP_MAX_SIZE in *. rewrite (proj2 (Z.leb_le _ _)) by lia. rewrite u16_small by lia.
  destruct (cut_at m 2 ltac:(lia)) as (a & r & -> & Ha). rewrite zlen_app in Hz. destruct (cut_at r 2 ltac:(lia)) as (b & r' & -> & Hbb).
  rewrite (wr_split (a ++ b ++ r') 2 (be_bytes 2 len) a b r') by (done || (autorewrite with zlen; lia)).
  eexists. split; [done|]. assert (length a = 2%nat /\ length b = 2%nat) as [La Lb] by (unfold zlen in *; lia).
  split_and!.
  - rewrite !zlen_app. autorewrite with zlen. lia.
  - rewrite !(app_assoc a). rewrite !drop_app_length'; [done|rewrite length_app; lia|rewrite length_app, be_bytes_length; lia].
  - intros k. unfold b_length. rewrite <- !app_assoc. read_layout. by rewrite be_be_bytes_small by lia.
Qed.

(** C39. The ports of a port description are appended to the features reply, whose
    header then gives the new size; the rest of the reply stays. When the result
    would be longer than 65535 bytes, the assertion of [Header::setLength] fails. *)
Theorem appendPorts_spec ports h : reply_ok (hs_featuresReply h) ->
  let r := hs_featuresReply h in
  (zlen r + br_size ports <= OFP_MAX_SIZE -> exists h', appendPortsToFeaturesReply ports h = Some h' /\
     let r' := hs_featuresReply h' in
     b_length r' = Some (zlen r') /\ zlen r' = zlen r + br_size ports /\ drop 4 r' = drop 4 r ++ br_data ports) /\
  (OFP_MAX_SIZE < zlen r + br_size ports -> appendPortsToFeaturesReply ports h = None).
Proof.
  intros (Hb & H32 & H8 & Hl) r. fold r in Hb, H32, H8, Hl. unfold appendPortsToFeaturesReply. fold r. rewrite (proj2 (Z.ltb_lt 0 _)), Hl by lia.
  cbn [mbind option_bind]. rewrite H8. cbn [Z.eqb]. assert (zlen r < 2 ^ 16) as H16 by (unfold b_length in Hl; apply rd_be_range in Hl; [lia|done]).
  split.
  - intros Hfit. pose proof (zlen_nonneg (br_data ports)) as Hp. unfold br_size in *. destruct (Z.eqb_spec (zlen (br_data ports)) 0) as [E0|].
    + exists h. fold r. assert (br_data ports = []) as -> by (apply nil_length_inv; unfold zlen in E0; lia).
      change (zlen []) with 0. rewrite app_nil_r, Z.add_0_r. by split_and!.
    + rewrite (proj2 (Z.leb_le _ _) Hfit). destruct (setLength_read r (zlen r + zlen (br_data ports)) Hb) as (m & -> & Hz & Hd & Hm); [lia..|].
      cbn [mbind option_bind]. eexists. split; [done|]. change (hs_featuresReply (h {{ hs_featuresReply := m ++ br_data ports }})) with (m ++ br_data ports).
      cbv zeta. rewrite Hm, zlen_app, Hz. split_and!; try done.
      rewrite drop_app_le by (unfold zlen in *; lia). by rewrite Hd.
  - intros Hbig. unfold OFP_MAX_SIZE in *. rewrite (proj2 (Z.eqb_neq (br_size ports) 0)) by lia. by rewrite (proj2 (Z.leb_gt _ _)).
Qed.

Lemma appendPorts_witness :
  let h := mkHandshake 2 true 0 0 kSentPortRequest 0 ([4; 6; 0; 32] ++ replicate 28 9) in
  exists h', appendPortsToFeaturesReply (mkRange 64 (replicate 40 5)) h = Some h' /\
    b_length (hs_featuresReply h') = Some (zlen (hs_featuresReply h')).
Proof.
  intros h. destruct (appendPorts_spec (mkRange 64 (replicate 40 5)) h) as [H _].
  - split_and!; [|done|done|done]. change (hs_featuresReply h) with ([4; 6; 0; 32] ++ replicate 28 9). apply Forall_app.
    split; [bytes|apply Forall_replicate; unfold is_byte; lia].
  - destruct H as (h' & E & Hl & _); [done|]. exists h'. by split.
Defined.
