(* ===== verification/ConnVersion.v ===== *)
(** * The negotiated version over the life of a connection, and the order of the
    calls of its listener

    A run of the event loop is annotated with the parameters that each object was
    made from. The version of a connection is then related to the set of versions
    of its own side, before, during and after the handshake, on either side. *)

From S2P Require Import Prelude.
From S2P Require Import ByteOrder.
From S2P Require Import Constants.
From S2P Require Import MsgBuffer.
From S2P Require Import Messages.
From S2P Require Import Multipart.
From S2P Require Import NormActions.
From S2P Require Import Normalize.
From S2P Require Import NormSafe.
From S2P Require Import Hello.
From S2P Require Import ChannelMsgs.
From S2P Require Import Connection.
From S2P Require Import ConnInv.
From S2P Require Import ConnLoop.
From S2P Require Import ConnSafe.
From stdpp Require Import gmap.
From coqutil Require Import Datatypes.RecordSetters.
Import DoubleBraceUpdate.
#[local] Open Scope Z_scope.

(** ** Annotated runs *)

(** The parameters of the object at each address: those of its last construction. *)
Definition made (e : LoopEvent) (g : gmap Z ConnParams) : gmap Z ConnParams :=
  match e with LNew p q _ => <[p := q]> g | _ => g end.

Inductive run `{Uninit} (le : bool) : World -> gmap Z ConnParams -> Prop :=
| run_start : run le empty_world ∅
| run_step w g e w' : run le w g -> enabled e w -> checked_event e w -> handle le e w = Some w' -> run le w' (made e g).

(** The annotation restricts nothing. *)
Lemma run_reachable `{Uninit} le w : reachable le w <-> exists g, run le w g.
Proof.
  split.
  - induction 1 as [|w e w' _ [g IH] He Hc E]; [eexists; constructor|]. eexists. by eapply run_step.
  - intros [g Hr]. induction Hr; [constructor|by eapply reach_step].
Qed.

(** What is known of the version of a connection whose own side has the set [vs]:
    it is zero or one of the set; it is one of the set as soon as the handshake is
    past the hello, and after it, whoever listens then. *)
Definition version_held (vs : Z) (c : Conn) : Prop :=
  (c_version c = 0 \/ supports vs (c_version c)) /\
  match c_listener c with
  | Some (LHandshake h) => hs_versions h = vs /\ (past_hello h -> supports vs (c_version c))
  | Some LUser | None => supports vs (c_version c)
  end.

(** ** Steps of worlds *)

(** Each connection of the later world comes from one of the earlier. *)
Definition evolves (R : relation Conn) (w w' : World) : Prop :=
  forall p c', w_conns w' !! p = Some c' -> exists c, w_conns w !! p = Some c /\ R c c'.

#[export] Instance evolves_preorder R `{!PreOrder R} : PreOrder (evolves R).
Proof.
  split; [intros w p c Hp; by exists c|]. intros w1 w2 w3 H1 H2 p c Hp.
  destruct (H2 p c Hp) as (b & Hb & Rb). destruct (H1 p b Hb) as (a & Ha & Ra). exists a. split; [done|by transitivity b].
Qed.

Lemma evolves_weaken (R S : relation Conn) w w' : (forall c c', R c c' -> S c c') -> evolves R w w' -> evolves S w w'.
Proof. intros HS HR p c Hp. destruct (HR p c Hp) as (a & Ha & Hac). eauto. Qed.

Lemma evolves_conns (R : relation Conn) `{!PreOrder R} w w' : w_conns w' = w_conns w -> evolves R w w'.
Proof. intros E p c. rewrite E. intros Hp. by exists c. Qed.

Lemma put_evolves (R : relation Conn) `{!PreOrder R} p c c' w : w_conns w !! p = Some c -> R c c' -> evolves R w (put p c' w).
Proof. intros Hp Hc q d [[-> ->]|[_ Hq]]%lookup_put; [by exists c|by exists d]. Qed.

Lemma on_conn_evolves (R : relation Conn) `{!PreOrder R} p f w w' : on_conn p f w = Some w' ->
  (forall c c', w_conns w !! p = Some c -> f c = Some c' -> R c c') -> evolves R w w'.
Proof.
  unfold on_conn. intros E HR. next E c. next E c'. injection E as <-. by eapply put_evolves; eauto.
Qed.

(** A step that touches neither the listener nor the version. *)
Definition quiet (c c' : Conn) : Prop := c_listener c' = c_listener c /\ c_version c' = c_version c.

#[export] Instance quiet_preorder : PreOrder quiet.
Proof. split; [done|]. intros a b c [A1 A2] [B1 B2]. split; congruence. Qed.

(** A step that keeps what is known of the version. *)
Definition keeps_version (c c' : Conn) : Prop := forall vs, versions_ok vs -> version_held vs c -> version_held vs c'.

#[export] Instance keeps_version_preorder : PreOrder keeps_version.
Proof. split; [by intros c vs|]. intros a b c H1 H2 vs Hv Hh. by apply H2, H1. Qed.

Lemma quiet_keeps c c' : quiet c c' -> keeps_version c c'.
Proof. intros [E1 E2] vs _. unfold version_held. by rewrite E1, E2. Qed.

Create HintDb quiet.

Lemma quiet_channelDown c : quiet c (channelDown c).
Proof.
  unfold channelDown. destruct (flag_on kChannelUp c); [|done].
  change (c_listener (clear_flag kChannelUp c)) with (c_listener c). by destruct (c_listener c) as [[]|] eqn:E; split.
Qed.

Lemma quiet_shutdown reset c : quiet c (shutdown reset c).
Proof.
  unfold shutdown. destruct (flag_on kShutdownCalled c); [done|]. destruct (negb (c_open c)); [done|]. destruct reset; [|done].
  destruct (quiet_channelDown (set_flag kShutdownDone (set_flag kShutdownCalled c))) as [E1 E2]. by split.
Qed.

Lemma quiet_sends c c' : sends c c' -> quiet c c'.
Proof. by intros (x & d & ->). Qed.

Lemma quiet_readHeader now c : quiet c (asyncReadHeader now c).
Proof. unfold asyncReadHeader. by destruct (negb (c_open c)). Qed.

Lemma quiet_readMessage hdr now c : quiet c (asyncReadMessage hdr now c).
Proof. unfold asyncReadMessage. by destruct (negb (c_open c)). Qed.

Lemma quiet_read_on now c : quiet c (read_on now c).
Proof.
  unfold read_on. destruct (c_open c); [apply quiet_readHeader|]. etransitivity; [|apply quiet_channelDown]. done.
Qed.

Lemma quiet_tickle answer now c c' : tickle answer now c = Some c' -> quiet c c'.
Proof.
  unfold tickle. destruct (flag_on kConnectionUp c); [|done]. cbv zeta. destruct (c_listener c) as [[h|]|] eqn:El.
  { intros [= <-]. unfold handshake_onTickle. destruct (_ <=? _); [apply quiet_shutdown|done]. }
  1: destruct answer; [by intros [= <-]|].
  all: destruct (_ <? _); [by intros [= <-]|]; destruct (orb _ _);
    [intros [= <-]; etransitivity; [|apply quiet_shutdown]; done|]; destruct (negb _); [|by intros [= <-]];
    intros E; next E r; destruct r as [x c1]; injection E as <-; apply echo_sends in E0; [|done];
    by transitivity (set_flag kChannelIdle c); [|apply quiet_sends].
Qed.

#[export] Hint Resolve quiet_channelDown quiet_shutdown quiet_sends quiet_readHeader quiet_readMessage quiet_read_on quiet_tickle : quiet.

(** The quiet steps of one connection. *)
Lemma on_conn_quiet p f w w' : on_conn p f w = Some w' -> (forall c c', f c = Some c' -> quiet c c') -> evolves quiet w w'.
Proof. intros E HR. apply (on_conn_evolves quiet p f w w' E). eauto. Qed.

Lemma shutdown_quiet p reset w w' : on_conn p (fun c => Some (shutdown reset c)) w = Some w' -> evolves quiet w w'.
Proof. intros E. apply (on_conn_quiet _ _ _ _ E). intros c c' [= <-]. apply quiet_shutdown. Qed.

(** ** Registration *)

Lemma setMainConnection_quiet p main aux w w' : setMainConnection p main aux w = Some w' -> evolves quiet w w'.
Proof.
  unfold setMainConnection. intros H. next H c. destruct (andb _ _); [|done]. next H m. next H m2. next H found. next H w2.
  etransitivity; [|by apply (on_conn_quiet _ _ _ _ H); intros a b [= <-]].
  etransitivity; [|destruct found as [q|]; [by eapply shutdown_quiet|injection E3 as <-; reflexivity]]. by apply (put_evolves quiet p c).
Qed.

Lemma registerDatapath_quiet p w b w' : registerDatapath p w = Some (b, w') -> evolves quiet w w'.
Proof.
  unfold registerDatapath. intros H. next H c. destruct (c_auxiliaryId c =? 0).
  - destruct (w_dpidMap w !! c_datapathId c) as [old|]; [|injection H as _ <-; by apply evolves_conns; [apply _|]].
    destruct (negb _); [|by injection H as _ <-]. next H w2. injection H as _ <-.
    etransitivity; [|by eapply shutdown_quiet]. by apply evolves_conns; [apply _|].
  - destruct (w_dpidMap w !! c_datapathId c) as [par|]; [|by injection H as _ <-]. next H m. destruct (flag_on _ m); [|by injection H as _ <-].
    next H w2. injection H as _ <-. by eapply setMainConnection_quiet.
Qed.

Lemma postDatapath_quiet p d a w b w' : postDatapath p d a w = Some (b, w') -> evolves quiet w w'.
Proof.
  unfold postDatapath. destruct (d =? 0); [by intros [= _ <-]|]. intros H. next H w1.
  etransitivity; [by apply (on_conn_quiet _ _ _ _ E); intros x y [= <-]|]. by eapply registerDatapath_quiet.
Qed.

(** ** The handshake *)

Lemma sent_keeps c h st now reply :
  c_listener c = Some (LHandshake h) ->
  (st = kSentFeaturesRequest \/ st = kSentPortRequest -> supports (hs_versions h) (c_version c)) ->
  keeps_version c (set_handshake (hs_sent st now (h {{ hs_featuresReply := reply }})) c).
Proof. intros El Hs vs _ [Hv Hh]. split; [done|]. rewrite El in Hh. destruct Hh as [<- _]. cbn. by split. Qed.

Lemma install_keeps c h h' c' : c_listener c = Some (LHandshake h) -> supports (hs_versions h) (c_version c) ->
  installNewChannelListener h' c = Some c' -> keeps_version c c'.
Proof.
  intros El Hs E vs _ [Hv Hh]. rewrite El in Hh. destruct Hh as [<- _]. revert E.
  unfold installNewChannelListener, clearChannelListener, is_handshake. rewrite El.
  destruct (hs_factory h'); intros [= <-]; split; try done; by right.
Qed.

(** The version that the hello settles. *)
Lemma settle_keeps c h version : c_listener c = Some (LHandshake h) -> supports (hs_versions h) version \/ version = highestVersion (hs_versions h) ->
  keeps_version c (c {{ c_version := version }}).
Proof.
  intros El Hs vs Hok [_ Hh]. rewrite El in Hh. destruct Hh as [<- Hp].
  assert (supports (hs_versions h) version) as Hv by (destruct Hs as [?| ->]; [done|by apply versions_ok_high]).
  split; [by right|]. change (c_listener (c {{ c_version := version }})) with (c_listener c). rewrite El. by split.
Qed.

(** The listener of a connection that has evolved quietly. *)
Lemma evolves_listener w w' p c c' : evolves quiet w w' -> w_conns w !! p = Some c -> w_conns w' !! p = Some c' -> quiet c c'.
Proof. intros Hq Hp Hp'. destruct (Hq p c' Hp') as (a & Ha & Hac). congruence. Qed.

Lemma quietly w w' : evolves quiet w w' -> evolves keeps_version w w'.
Proof. apply evolves_weaken, quiet_keeps. Qed.

Section Handshake.
Context (p : Z) (c : Conn) (h : Handshake) (w w' : World) (Hp : w_conns w !! p = Some c) (El : c_listener c = Some (LHandshake h)).

Lemma onHello_keeps src addr buf now : bytes_ok buf -> onHello p src addr buf now h w = Some w' -> evolves keeps_version w w'.
Proof.
  intros Hb. unfold onHello. case_bool_decide as Hst; cbn [negb]; [|by intros [= <-]]. intros H. next H ok. destruct (negb ok); [by injection H as <-|].
  next H v. next H set. next H version. unfold negotiateHello in E2. rewrite E0, E1 in E2. cbn [mbind option_bind] in E2.
  destruct (Z.eqb_spec version 0) as [|Hne].
  - next H hdr. next H w1. next H w2. etransitivity; [|by eapply quietly, shutdown_quiet]. etransitivity.
    + apply (on_conn_evolves keeps_version _ _ _ _ E4). intros a b Ha [= <-]. assert (a = c) as -> by congruence.
      etransitivity; [apply (settle_keeps c h (highestVersion (hs_versions h))); auto|]. by apply quiet_keeps.
    + destruct (negb (wantFeatures h)); [|by injection E5 as <-]. apply quietly, (on_conn_quiet _ _ _ _ E5).
      intros a b E6. by eapply quiet_sends, error_sends.
  - assert (supports (hs_versions h) version) as Hsup.
    { eapply negotiate_own; [exact E2| |done]. unfold b_version in E0. rewrite rd8_rd_be in E0. apply rd_be_range in E0; [lia|done]. }
    apply (on_conn_evolves keeps_version _ _ _ _ H). intros a b Ha. assert (a = c) as -> by congruence. cbv zeta.
    assert (forall t, keeps_version c (c {{ c_version := version }} {{ c_keepAliveTimeout := t }})) as Hk.
    { intros t. etransitivity; [by apply (settle_keeps c h version); auto|]. by apply quiet_keeps. }
    destruct (wantFeatures h); intros E6; (etransitivity; [apply Hk|]).
    + unfold sendFeaturesRequest in E6. apply bind_some in E6 as ([x d] & Es & [= <-]). apply header_only_sends, quiet_sends in Es.
      etransitivity; [apply quiet_keeps; exact Es|]. destruct Es as [E7 E8]. rewrite <- (featuresReply_same h).
      apply sent_keeps; [by rewrite E7|by rewrite E8].
    + by eapply (install_keeps _ h).
Qed.

Lemma onFeaturesReply_keeps addr buf now : (past_hello h -> supports (hs_versions h) (c_version c)) ->
  onFeaturesReply p addr buf now h w = Some w' -> evolves keeps_version w w'.
Proof.
  intros Hh. unfold onFeaturesReply. case_bool_decide as Hst; cbn [negb]; [|by intros [= <-]]. intros H. next H ok. destruct (negb ok); [by injection H as <-|].
  next H d. next H aux. next H r. destruct r as [posted w1]. apply postDatapath_quiet in E2. etransitivity; [by apply quietly|].
  destruct posted; [|by eapply quietly, shutdown_quiet]. next H c1. destruct (evolves_listener _ _ _ _ _ E2 Hp E3) as [E4 E5].
  rewrite El in E4. assert (supports (hs_versions h) (c_version c1)) as Hs.
  { rewrite E5. apply Hh. by left. }
  assert (forall f, on_conn p f w1 = Some w' -> (forall b, f c1 = Some b -> keeps_version c1 b) -> evolves keeps_version w1 w') as Hstep.
  { intros f Ef Hf. apply (on_conn_evolves keeps_version _ _ _ _ Ef). intros a b Ha. assert (a = c1) as -> by congruence. auto. }
  destruct (andb _ _).
  { destruct (negb _); [|done]. apply (Hstep _ H). intros b. unfold clearChannelListener, is_handshake. rewrite E4. intros [= <-] vs _ [Hv Hl].
    rewrite E4 in Hl. destruct Hl as [<- _]. split; [done|exact Hs]. }
  next H len. next H reply. set (h' := h {{ hs_featuresReply := reply }}) in *.
  assert (keeps_version c1 (set_handshake h' c1)) as H1.
  { replace h' with (hs_sent (hs_state h) (hs_timeStarted h) (h {{ hs_featuresReply := reply }})) by (by destruct h). by apply sent_keeps. }
  destruct (_ <? _); apply (Hstep _ H); intros b E8; (etransitivity; [exact H1|]).
  - unfold sendPortDescRequest in E8. apply bind_some in E8 as ([[x y] z] & Es & [= <-]). apply multipart_sends, quiet_sends in Es.
    etransitivity; [apply quiet_keeps; exact Es|]. destruct Es as [E9 E10]. rewrite <- (featuresReply_same h').
    apply sent_keeps; [by rewrite E9|by rewrite E10].
  - by eapply (install_keeps _ h').
Qed.

Lemma onPortDescReply_keeps addr buf : (past_hello h -> supports (hs_versions h) (c_version c)) ->
  onPortDescReply p addr buf h w = Some w' -> evolves keeps_version w w'.
Proof.
  intros Hh. unfold onPortDescReply. case_bool_decide as Hst; cbn [negb]; [|by intros [= <-]]. intros H. next H ok. destruct (negb ok); [by injection H as <-|].
  next H ports. next H h'. apply (on_conn_evolves keeps_version _ _ _ _ H). intros a b Ha. assert (a = c) as -> by congruence.
  rewrite (install_set h) by done. apply (install_keeps c h); [done|]. apply Hh. by right.
Qed.

Lemma handshake_onMessage_keeps src addr buf now : bytes_ok buf -> (past_hello h -> supports (hs_versions h) (c_version c)) ->
  handshake_onMessage p src addr buf now h w = Some w' -> evolves keeps_version w w'.
Proof.
  intros Hb Hh. unfold handshake_onMessage. intros H. next H t. destruct (t =? OFPT_HELLO); [by eapply onHello_keeps|].
  destruct (t =? OFPT_FEATURES_REPLY); [by eapply onFeaturesReply_keeps|]. destruct (t =? OFPT_ERROR); [by injection H as <-|].
  destruct (t =? OFPT_MULTIPART_REPLY); [|by injection H as <-]. next H s. destruct (s =? _); [by eapply onPortDescReply_keeps|by injection H as <-].
Qed.
End Handshake.

(** ** Messages *)

(** A handshake past the hello, in a consistent world. *)
Lemma negotiated D w p c h : inv D None w -> w_conns w !! p = Some c -> c_listener c = Some (LHandshake h) -> past_hello h ->
  supports (hs_versions h) (c_version c).
Proof. intros Hi Hp El Hh. by apply (l_negotiated c (inv_local _ _ _ _ _ Hi Hp)). Qed.

Lemma postMessage_keeps `{UninitLaws} le p addr buf now w w' :
  inv ∅ None w -> readable buf -> postMessage le p addr buf now w = Some w' -> evolves keeps_version w w'.
Proof.
  intros Hi (Hb & Hz & Hck) E. unfold postMessage in E. next E c. apply bind_some in E as ([handled c1] & E1 & E).
  assert (quiet c c1) as Hq by (destruct (OFP_VERSION_1 <=? c_version c); [by eapply quiet_sends, echo_step|by injection E1 as _ <-]).
  assert (evolves quiet w (put p c1 w)) as H1 by (by eapply put_evolves; [apply _|..]). etransitivity; [by apply quietly|].
  destruct handled; [by injection E as <-|]. apply bind_some in E as (m & Hm & E). destruct (c_listener m) as [l|] eqn:El; [|by injection E as <-].
  destruct (H1 _ m Hm) as (m0 & Hm0 & Q1 & Q2). rewrite El in Q1.
  destruct (normalize_total le buf Hb Hz Hck) as (v & t & t' & m1 & f & _ & _ & _ & En & Hbm & _). rewrite En in E. cbn [mbind option_bind] in E.
  destruct l as [h|].
  - eapply (handshake_onMessage_keeps (c_mainConn c1) m h); try done. rewrite Q2. by eapply negotiated.
  - apply quietly, (on_conn_quiet _ _ _ _ E). by intros a b [= <-].
Qed.

Lemma message_read_keeps `{UninitLaws} le p addr buf now w w' :
  inv ∅ None w -> readable buf -> message_read le p addr buf now w = Some w' -> evolves keeps_version w w'.
Proof.
  intros Hi Hr E. unfold message_read in E. next E w1. etransitivity; [by eapply postMessage_keeps|].
  apply quietly, (on_conn_quiet _ _ _ _ E). intros a b [= <-]. apply quiet_read_on.
Qed.

Lemma header_read_keeps `{UninitLaws} le p addr hdr now w w' :
  inv ∅ None w -> zlen hdr = 8 -> bytes_ok hdr -> header_read le p addr hdr now w = Some w' -> evolves keeps_version w w'.
Proof.
  intros Hi Hz Hb E. unfold header_read in E. next E c. next E h. destruct (Header_validateInput h _).
  - destruct (hdr_length h =? 8).
    + eapply (message_read_keeps le p addr hdr now); [done| |exact E]. split_and!; [done|lia..|by apply checked_short].
    + apply quietly, (on_conn_quiet _ _ _ _ E). intros a b [= <-]. apply quiet_readMessage.
  - apply quietly, (on_conn_quiet _ _ _ _ E). intros a b [= <-]. etransitivity; [apply (quiet_channelDown (set_reading RNone a))|done].
Qed.

(** ** The other handlers *)

Lemma handshake_done_keeps error now c c' : handshake_done error now c = Some c' -> keeps_version c c'.
Proof.
  unfold handshake_done. destruct error; cbn [negb]; [intros [= <-]; by apply quiet_keeps|]. set (c0 := c {{ c_handshaking := false }}).
  intros E. next E c1. injection E as <-. transitivity c1; [|apply quiet_keeps, quiet_readHeader]. transitivity c0; [by apply quiet_keeps|].
  revert E0. unfold channelUp. destruct (negb _); [|by intros [= <-]].
  change (c_listener (set_flag kChannelUp c0)) with (c_listener c0). destruct (c_listener c0) as [[h|]|] eqn:El;
    [|intros [= <-]; by apply quiet_keeps..].
  unfold onChannelUp. destruct (bool_decide _); [|done]. unfold sendHello. intros E.
  apply bind_some in E as ([[x b] c2] & Es & [= <-]). apply hello_sends, quiet_sends in Es.
  etransitivity; [apply (quiet_keeps c0 ((set_flag kChannelUp c0) {{ c_nextXid := hs_startingXid h }})); done|].
  etransitivity; [apply quiet_keeps; exact Es|]. destruct Es as [E7 E8]. rewrite <- (featuresReply_same h).
  apply sent_keeps; [by rewrite E7|by intros [?|?]].
Qed.

(** A loop over the connections, in which a failure stays one. *)
Lemma loop_evolves (R : relation Conn) `{!PreOrder R} (f : World -> Z -> option World) l w w' :
  (forall w p w', f w p = Some w' -> evolves R w w') ->
  foldl (fun ow p => w ← ow; f w p) (Some w) l = Some w' -> evolves R w w'.
Proof.
  intros Hf. revert w. induction l as [|p l IH]; intros w; [intros [= <-]; reflexivity|]. cbn [foldl mbind option_bind].
  assert (forall k, foldl (fun ow p => w ← ow; f w p) None k = None) as Hnone by (intros k; by induction k).
  destruct (f w p) as [w1|] eqn:E; [|by rewrite Hnone]. intros E'. etransitivity; [by eapply Hf|by apply IH].
Qed.

Lemma idle_quiet answer now w w' : idle answer now w = Some w' -> evolves quiet w w'.
Proof.
  unfold idle. apply (loop_evolves quiet (fun w p => c ← w_conns w !! p; if flag_on kConnectionUp c then on_conn p (tickle (answer p) now) w else Some w)).
  intros w1 p w2 E. next E c. destruct (flag_on kConnectionUp c); [|by injection E as <-]. apply (on_conn_quiet _ _ _ _ E). intros a b. apply quiet_tickle.
Qed.

Lemma drop_quiet p w w' : drop_conn p w = Some w' -> evolves quiet w w'.
Proof.
  unfold drop_conn, releaseConnection. intros E. next E w1. next E0 c. next E0 i. assert (w_conns w1 = w_conns w) as Ew.
  { destruct i as [i|]; [|by injection E0 as <-]. destruct (bool_decide _); [|done]. by injection E0 as <-. }
  injection E as <-. intros q d. cbn [w_conns]. rewrite Ew. intros [_ Hq]%lookup_delete_Some. by exists d.
Qed.

Lemma destroy_quiet fuel : forall p w w', destroy fuel p w = Some w' -> evolves quiet w w'.
Proof.
  induction fuel as [fuel IH] using lt_wf_ind. intros p w w' H.
  assert (exists del, (forall q v v', del q v = Some v' -> evolves quiet v v') /\
    (w ← on_conn p (fun c => Some (channelDown c)) w; c ← w_conns w !! p;
     w ← (if negb (c_datapathId c =? 0) then
            w ← releaseDatapath p w;
            if c_mainConn c =? p then orphan_loop del (c_auxList c) w
            else on_conn (c_mainConn c) (fun m => Some (m {{ c_auxList := remove_first p (c_auxList m) }})) w
          else Some w);
     drop_conn p w) = Some w') as (del & Hdel & E).
  { exists (fun q v => match fuel with O => None | S fuel' => destroy fuel' q v end). split; [|by destruct fuel].
    intros q v v'. destruct fuel as [|fuel]; [done|]. apply IH. lia. }
  clear H. next E w1. next E c. next E w2. etransitivity; [|by eapply drop_quiet].
  etransitivity; [apply (on_conn_quiet _ _ _ _ E0); intros a b [= <-]; apply quiet_channelDown|].
  destruct (negb _); [|injection E2 as <-; reflexivity]. next E2 w3. etransitivity.
  { apply (evolves_conns quiet w1 w3). unfold releaseDatapath in E3. next E3 a. destruct (_ =? 0); [|by injection E3 as <-].
    injection E3 as <-. by destruct (bool_decide _). }
  destruct (c_mainConn c =? p); [|by apply (on_conn_quiet _ _ _ _ E2); intros a b [= <-]].
  unfold orphan_loop in E2. eapply (loop_evolves quiet); [|exact E2]. intros v q v' Ev. apply bind_some in Ev as (v1 & Es & Ev). next Ev a.
  etransitivity; [|destruct (flag_on kManualDelete a); [by eapply Hdel|injection Ev as <-; reflexivity]].
  apply (on_conn_quiet _ _ _ _ Es). intros x y [= <-]. etransitivity; [|apply quiet_shutdown]. done.
Qed.

Lemma close_quiet fuel connId dpid w n w' : close_connection fuel connId dpid w = Some (n, w') -> evolves quiet w w'.
Proof.
  unfold close_connection. intros E. next E r. destruct r as [q|]; [|by injection E as _ <-].
  apply bind_some in E as (w1 & E1 & E). next E c. apply bind_some in E as (w2 & E3 & E). injection E as _ <-.
  etransitivity; [by eapply shutdown_quiet|]. destruct (flag_on kManualDelete c); [by eapply destroy_quiet|by injection E3 as <-].
Qed.

Lemma handle_keeps `{UninitLaws} le e w w' : (forall p q now, e <> LNew p q now) ->
  inv ∅ None w -> enabled e w -> checked_event e w -> handle le e w = Some w' -> evolves keeps_version w w'.
Proof.
  intros Hnew Hi He Hc. destruct e; cbn [handle enabled checked_event] in *; [by destruct (Hnew p q now)|..].
  - intros E. apply quietly, (on_conn_quiet _ _ _ _ E). by intros a b [= <-].
  - intros E. apply (on_conn_evolves keeps_version _ _ _ _ E). intros a b _. apply handshake_done_keeps.
  - destruct He as (c & _ & _ & Hz & Hb & _). by apply header_read_keeps.
  - destruct He as (c & hdr & Hp & Hr & Hl & Hb & _). rewrite Hp. cbn [mbind option_bind]. rewrite Hr. apply message_read_keeps; [done|].
    apply message_readable; try done; [|by apply (Hc c)]. by apply (l_read c (inv_local _ _ _ _ _ Hi Hp)).
  - intros E. apply quietly, (on_conn_quiet _ _ _ _ E). intros a b [= <-]. unfold header_error.
    etransitivity; [apply (quiet_channelDown (set_reading RNone a))|apply quiet_shutdown].
  - intros E. apply quietly, (on_conn_quiet _ _ _ _ E). intros a b [= <-]. apply (quiet_channelDown (set_reading RNone a)).
  - intros E. apply quietly, (on_conn_quiet _ _ _ _ E). by intros a b [= <-].
  - intros E. apply quietly, (on_conn_quiet _ _ _ _ E). by intros a b [= <-].
  - intros E. by eapply quietly, idle_quiet.
  - intros E. apply bind_some in E as ([n w1] & E & [= <-]). by eapply quietly, close_quiet.
  - intros E. by eapply quietly, destroy_quiet.
Qed.

(** A new connection: no version, and the handshake of its parameters. *)
Lemma new_held p q now w w' : new_connection p q now w = Some w' ->
  exists c, w_conns w' = <[p := c]> (w_conns w) /\ version_held (cp_versions q) c.
Proof.
  unfold new_connection. intros E. apply bind_some in E as ([connId w0] & E0 & [= <-]). unfold registerConnection in E0.
  destruct (negb _); [|done]. injection E0 as _ <-. eexists. split; [reflexivity|]. set (h := mkHandshake _ _ _ _ _ _ _).
  set (c := mkConn _ _ _ _ _ _ _ _ _ _ _ _ _ _ _ _). assert (version_held (cp_versions q) c) as Hc.
  { split; [by left|]. split; [done|]. by intros [?|?]. }
  unfold setFlags, updateTimeReadStarted. by destruct (negb _), (negb _), (negb _), (negb _).
Qed.

(** Each connection of a run has the parameters of its construction. *)
Definition held (g : gmap Z ConnParams) (w : World) : Prop :=
  forall p c, w_conns w !! p = Some c -> exists q, g !! p = Some q /\ versions_ok (cp_versions q) /\ version_held (cp_versions q) c.

Lemma run_held `{UninitLaws} le w g : run le w g -> held g w.
Proof.
  induction 1 as [|w g e w' Hr IH He Hc E]; [intros p c Hp; change ((∅ : gmap Z Conn) !! p = Some c) in Hp; by rewrite lookup_empty in Hp|].
  assert (inv ∅ None w) as Hi by (apply (reachable_inv le), run_reachable; eauto).
  assert ((exists p q now, e = LNew p q now) \/ forall p q now, e <> LNew p q now) as [(p & q & now & ->)|Hnew]
    by (destruct e; [left; eauto|right; done..]).
  - destruct (new_held p q now w w' E) as (c & Ew & Hh). cbn [made]. intros r d. rewrite Ew. destruct (decide (r = p)) as [->|Hne].
    + rewrite !lookup_insert_eq. intros [= <-]. exists q. split_and!; try done. by destruct He as (_ & _ & ?).
    + rewrite !lookup_insert_ne by done. apply IH.
  - assert (made e g = g) as -> by (destruct e; try done; by destruct (Hnew p q now)). intros p c' Hp.
    destruct (handle_keeps le e w w' Hnew Hi He Hc E p c' Hp) as (c & Hpc & Hk). destruct (IH p c Hpc) as (q & Hq & Hv & Hh). eauto.
Qed.

(** C12. In every run of the event loop, for every connection: the calls that its
    user's listener has received for this connection are those that its interface
    promises - none while the handshake runs; then [onChannelUp] first and once, and
    [onChannelDown] at most once. (A listener object that an agent shares between the
    connections that it opens gets these calls once for each of them.) The version
    of the connection is zero or one that its own side was constructed with, and it
    is one of those from the moment the handshake is past the hello: while features
    and ports are requested, and ever after, whether the user's listener, or none,
    has taken over, on the controller's side and on the switch's. *)
Theorem listener_lifecycle `{UninitLaws} le w g p c : run le w g -> w_conns w !! p = Some c ->
  lifecycle c /\ exists q, g !! p = Some q /\ version_held (cp_versions q) c.
Proof.
  intros Hr Hp. split.
  - eapply l_life, inv_local; [|exact Hp]. apply (reachable_inv le), run_reachable. eauto.
  - destruct (run_held le w g Hr p c Hp) as (q & Hq & _ & Hh). eauto.
Qed.

(** ** Witness *)

(** The run of [demo_events]. *)
Lemma demo_run : exists g, run true (demo 4) g /\ g !! 4096 = Some (mkParams 0 0 (fromVector [1; 4]) true 7 true).
Proof.
  set (q := mkParams 0 0 (fromVector [1; 4]) true 7 true). exists {[ 4096 := q ]}. split; [|apply lookup_singleton_eq].
  assert (run true (demo 1) {[ 4096 := q ]}) as H1.
  { apply (run_step true empty_world ∅ (LNew 4096 q 100)); [constructor| |exact I|reflexivity]. split_and!; [done|done|apply versions_1_4]. }
  assert (run true (demo 2) {[ 4096 := q ]}) as H2
    by (apply (run_step true (demo 1) _ (LConnect 4096)); [done|demo_enabled|exact I|vm_compute; reflexivity]).
  assert (run true (demo 3) {[ 4096 := q ]}) as H3
    by (apply (run_step true (demo 2) _ (LHandshakeDone 4096 false 110)); [done|demo_enabled|exact I|vm_compute; reflexivity]).
  apply (run_step true (demo 3) _ (LHeader 4096 65536 [1; 0; 0; 8; 0; 0; 0; 9] 120)); [done| |exact I|vm_compute; reflexivity].
  cbn [enabled]. eexists. split; [vm_compute; reflexivity|]. split_and!; [reflexivity|done|bytes|done].
Qed.

(** The connection of a switch's side, after the user's listener took over. *)
Lemma listener_lifecycle_witness : exists c, w_conns (demo 4) !! 4096 = Some c /\ c_version c = 1 /\ c_listener c = Some LUser /\
  lifecycle c /\ user_log c = [EUp] /\ supports (fromVector [1; 4]) (c_version c).
Proof.
  destruct (w_conns (demo 4) !! 4096) as [c|] eqn:E; [|vm_compute in E; discriminate]. destruct demo_run as (g & Hr & Hg).
  destruct (listener_lifecycle true (demo 4) g 4096 c Hr E) as [Hl (q & Hq & Hh)]. assert (q = mkParams 0 0 (fromVector [1; 4]) true 7 true) as -> by congruence.
  vm_compute in E. injection E as <-. eexists. split_and!; try reflexivity; [exact Hl|exact (proj2 Hh)].
Defined.
