(* ===== verification/MsgChecks.v ===== *)
(** * The checks of all message classes (src/ofp/bundleaddmessage.cpp, bundlecontrol.cpp,
    flowremoved.cpp, flowremovedv6.cpp, getasyncreply.cpp, groupmod.cpp, metermod.cpp,
    multipartrequest.cpp, multipartreply.cpp, packetin.cpp, packetout.cpp, packetoutv6.cpp,
    portmod.cpp, portstatus.cpp, queuegetconfigreply.cpp, requestforward.cpp, rolestatus.cpp,
    setasync.cpp, tablemod.cpp, tablestatus.cpp, their headers, and
    src/ofp/yaml/decoder.cpp)

    One [MsgClass] per class that derives from [ProtocolMsg], with the limits its
    header gives and its [validateInput], and the switch of [Decoder::decodeMsg] that
    chooses the class of a received message. The main theorem says that the chosen
    check is defined on every framed message, but for two kinds of multipart replies
    whose checks can leave the message. *)

From S2P Require Import Prelude.
From S2P Require Import ByteOrder.
From S2P Require Import Constants.
From S2P Require Import Validation.
From S2P Require Import ProtocolRange.
From S2P Require Import Ports.
From S2P Require Import Oxm.
From S2P Require Import Matches.
From S2P Require Import Actions.
From S2P Require Import Instructions.
From S2P Require Import MsgBuffer.
From S2P Require Import Messages.
From S2P Require Import Multipart.
From S2P Require Import Normalize.
From S2P Require Import Hello.
From S2P Require Import FlowMod.
From S2P Require Import Sections.
From S2P Require Import ChannelMsgs.
From S2P Require Import Connection.
From S2P Require Import ConnInv.
From S2P Require Import ConnSafe.

(** ** Classes without a check of their own *)

Definition OFPT_GET_CONFIG_REPLY : Z := 8.
Definition OFPT_SET_CONFIG : Z := 9.
Definition OFPT_BARRIER_REPLY : Z := 21.
Definition OFPT_ROLE_REPLY : Z := 25.
Definition OFPT_METER_MOD : Z := 29.
Definition OFPT_ROLE_STATUS : Z := 30.
Definition OFPT_TABLE_STATUS : Z := 31.
Definition OFPT_REQUESTFORWARD : Z := 32.
Definition OFPT_BUNDLE_CONTROL : Z := 33.
Definition OFPT_BUNDLE_ADD_MESSAGE : Z := 34.

Definition valid_input (_ : Z) (_ : list Z) (c : Validation) : option (bool * Validation) := Some (true, c).

Definition Experimenter_class : MsgClass := mkMsgClass OFPT_EXPERIMENTER 16 65535 false 4 valid_input.
Definition SetConfig_class : MsgClass := mkMsgClass OFPT_SET_CONFIG 12 12 false 4 valid_input.
Definition GetConfigReply_class : MsgClass := mkMsgClass OFPT_GET_CONFIG_REPLY 12 12 false 4 valid_input.
Definition QueueGetConfigRequest_class : MsgClass := mkMsgClass OFPT_QUEUE_GET_CONFIG_REQUEST 16 16 true 4 valid_input.
Definition RoleRequest_class : MsgClass := mkMsgClass OFPT_ROLE_REQUEST 24 24 true 8 valid_input.
Definition RoleReply_class : MsgClass := mkMsgClass OFPT_ROLE_REPLY 24 24 true 8 valid_input.

(** ** Classes that end with a range *)

(** [SafeByteRange(this, header_.length(), offset)]. *)
Definition rest_of_message (addr : Z) (buf : list Z) (offset : Z) : option ByteRange :=
  length ← b_length buf; SafeByteRange (mkRange addr buf) 0 length offset.

Definition BundleControl_validateInput (addr : Z) (buf : list Z) (c : Validation) : option (bool * Validation) :=
  properties ← rest_of_message addr buf 16; PropertyRange_validateInput properties c.
Definition GetAsyncReply_validateInput (addr : Z) (buf : list Z) (c : Validation) : option (bool * Validation) :=
  properties ← rest_of_message addr buf 8; PropertyRange_validateInput properties c.
Definition SetAsync_validateInput (addr : Z) (buf : list Z) (c : Validation) : option (bool * Validation) :=
  properties ← rest_of_message addr buf 8; PropertyRange_validateInput properties c.
Definition PortMod_validateInput (addr : Z) (buf : list Z) (c : Validation) : option (bool * Validation) :=
  properties ← rest_of_message addr buf 32; PropertyRange_validateInput properties c.
Definition GroupMod_validateInput (addr : Z) (buf : list Z) (c : Validation) : option (bool * Validation) :=
  buckets ← rest_of_message addr buf 16; BucketRange_validateInput buckets c.
Definition MeterMod_validateInput (addr : Z) (buf : list Z) (c : Validation) : option (bool * Validation) :=
  meterBands ← rest_of_message addr buf 16; MeterBandRange_validateInput meterBands c.
Definition QueueGetConfigReply_validateInput (addr : Z) (buf : list Z) (c : Validation) : option (bool * Validation) :=
  queues ← rest_of_message addr buf 16; QueueRange_validateInput queues c.

(** [RoleStatusPropertyValidator] accepts every list. *)
Definition RoleStatus_validateInput (addr : Z) (buf : list Z) (c : Validation) : option (bool * Validation) :=
  props ← rest_of_message addr buf 24;
  '(ok, c) ← PropertyRange_validateInput props c;
  if negb (ok : bool) then Some (false, c) else Some (true, c).

Definition TableMod_validateInput (addr : Z) (buf : list Z) (c : Validation) : option (bool * Validation) :=
  version ← b_version buf;
  if version <=? OFP_VERSION_4 then length ← b_length buf; Some (length =? 16, c)
  else props ← rest_of_message addr buf 16; validate_properties TableModProperty_check props c.

Definition BundleControl_class : MsgClass := mkMsgClass OFPT_BUNDLE_CONTROL 16 65528 true 4 BundleControl_validateInput.
Definition GetAsyncReply_class : MsgClass := mkMsgClass OFPT_GET_ASYNC_REPLY 8 65528 true 4 GetAsyncReply_validateInput.
Definition SetAsync_class : MsgClass := mkMsgClass OFPT_SET_ASYNC 8 65528 true 4 SetAsync_validateInput.
Definition PortMod_class : MsgClass := mkMsgClass OFPT_PORT_MOD 32 65528 true 4 PortMod_validateInput.
Definition GroupMod_class : MsgClass := mkMsgClass OFPT_GROUP_MOD 16 65528 true 4 GroupMod_validateInput.
Definition MeterMod_class : MsgClass := mkMsgClass OFPT_METER_MOD 16 65528 true 4 MeterMod_validateInput.
Definition QueueGetConfigReply_class : MsgClass :=
  mkMsgClass OFPT_QUEUE_GET_CONFIG_REPLY 16 65528 true 4 QueueGetConfigReply_validateInput.
Definition RoleStatus_class : MsgClass := mkMsgClass OFPT_ROLE_STATUS 24 65528 true 8 RoleStatus_validateInput.
Definition TableMod_class : MsgClass := mkMsgClass OFPT_TABLE_MOD 16 65528 true 4 TableMod_validateInput.

(** ** Messages in messages *)

Definition sizeof_BundleAddMessage : Z := 16.

(** The header of the message in it, where [header_at] is the offset. *)
Definition inner_length (addr : Z) (buf : list Z) (header_at : Z) : option Z :=
  assert! IsPtrAligned (addr + header_at) 4;; rd16 buf (header_at + 2).

Definition BundleAddMessage_properties (addr : Z) (buf : list Z) : option ByteRange :=
  length ← b_length buf;
  assert! (sizeof_BundleAddMessage + 8 <=? length);;
  inner ← inner_length addr buf sizeof_BundleAddMessage;
  rest_of_message addr buf (sizeof_BundleAddMessage + PadLength inner).

Definition BundleAddMessage_validateInput (addr : Z) (buf : list Z) (c : Validation) : option (bool * Validation) :=
  hdrLen ← b_length buf;
  if hdrLen <? sizeof_BundleAddMessage + 8 then Some (false, c) else
  inner ← inner_length addr buf sizeof_BundleAddMessage;
  if inner <? 8 then Some (false, c) else
  if hdrLen <? sizeof_BundleAddMessage + inner then Some (false, c) else
  properties ← BundleAddMessage_properties addr buf;
  PropertyRange_validateInput properties c.

Definition RequestForward_validateInput (addr : Z) (buf : list Z) (c : Validation) : option (bool * Validation) :=
  req ← rest_of_message addr buf 8;
  length ← rd16 (br_data req) 2;
  Some (length =? br_size req, c).

Definition BundleAddMessage_class : MsgClass :=
  mkMsgClass OFPT_BUNDLE_ADD_MESSAGE 24 65528 true 4 BundleAddMessage_validateInput.
Definition RequestForward_class : MsgClass :=
  mkMsgClass OFPT_REQUESTFORWARD 16 65535 false 4 RequestForward_validateInput.

(** ** Flows that were removed *)

Definition FlowRemoved_validateInput (addr : Z) (buf : list Z) (c : Validation) : option (bool * Validation) :=
  let length := v_length c in
  let m := drop 48 buf in
  matchLength ← MatchHeader_length m;
  if negb (length =? 48 + PadLength matchLength) then Some (false, c) else
  '(ok, c) ← MatchHeader_validateInput (addr + 48) m (length - 48) c;
  if negb (ok : bool) then Some (false, c) else Some (true, c).

Definition FlowRemovedV6_validateInput (addr : Z) (buf : list Z) (c : Validation) : option (bool * Validation) :=
  let length := v_length c in
  if length <? 28 then Some (false, c) else
  let remainingLength := length - 24 in
  let m := drop 24 buf in
  '(ok, c) ← MatchHeader_validateInput (addr + 24) m remainingLength c;
  if negb (ok : bool) then Some (false, c) else
  matchLength ← MatchHeader_length m;
  let paddedMatchLen := PadLength matchLength in
  if remainingLength <? paddedMatchLen then Some (false, c) else
  let remainingLength := remainingLength - paddedMatchLen in
  assert! IsPtrAligned (addr + 24 + paddedMatchLen) 2;;
  let stat := drop (Z.to_nat paddedMatchLen) m in
  '(ok, c) ← StatHeader_validateInput (addr + 24 + paddedMatchLen) stat remainingLength c;
  if negb (ok : bool) then Some (false, c) else
  statLength ← rd16 stat 2;
  Some (remainingLength =? PadLength statLength, c).

Definition FlowRemoved_class : MsgClass := mkMsgClass OFPT_FLOW_REMOVED 56 65528 true 8 FlowRemoved_validateInput.
Definition FlowRemovedV6_class : MsgClass := mkMsgClass OFPT_FLOW_REMOVED 56 65528 true 8 FlowRemovedV6_validateInput.

(** ** Packets *)

(** [validateInputV1] and [validateInputV2]. *)
Definition PacketIn_validate_short (size : Z) (c : Validation) : option (bool * Validation) :=
  if v_length c <? size then Some (false, messageSizeIsInvalid c) else Some (true, c).

(** [validateInputV3] and the check of later versions: [offset] is that of the match. *)
Definition PacketIn_validate_match (size offset : Z) (addr : Z) (buf : list Z) (c : Validation) : option (bool * Validation) :=
  if v_length c <? size then Some (false, messageSizeIsInvalid c) else
  '(ok, c) ← MatchHeader_validateInput (addr + offset) (drop (Z.to_nat offset) buf) (v_length c - offset) c;
  if negb (ok : bool) then Some (false, c) else Some (true, c).

Definition PacketIn_validateInput (addr : Z) (buf : list Z) (c : Validation) : option (bool * Validation) :=
  version ← b_version buf;
  if version =? OFP_VERSION_1 then PacketIn_validate_short 18 c
  else if version =? OFP_VERSION_2 then PacketIn_validate_short 24 c
  else if version =? OFP_VERSION_3 then PacketIn_validate_match 24 16 addr buf c
  else PacketIn_validate_match 24 24 addr buf c.

Definition PacketOut_validateInput (addr : Z) (buf : list Z) (c : Validation) : option (bool * Validation) :=
  actionsLen ← rd16 buf 16;
  if v_length c <? 24 + actionsLen then Some (false, c) else
  actions ← slice buf 24 actionsLen;
  ActionRange_validateInput (mkRange (addr + 24) actions) c.

(** [SafeByteRange(this, header_.length(), offset, actionsLen_)]. *)
Definition PacketOutV6_actions (addr : Z) (buf : list Z) : option ByteRange :=
  matchLength ← MatchHeader_length (drop 16 buf);
  let offset := 16 + PadLength matchLength in
  length ← b_length buf;
  actionsLen ← rd16 buf 12;
  if offset + actionsLen <=? length then
    d ← slice buf offset actionsLen; Some (mkRange (addr + offset) d)
  else Some (mkRange 0 []).

Definition PacketOutV6_validateInput (addr : Z) (buf : list Z) (c : Validation) : option (bool * Validation) :=
  let length := v_length c in
  if length <? 20 then Some (false, c) else
  let remainingLength := length - 16 in
  let m := drop 16 buf in
  '(ok, c) ← MatchHeader_validateInput (addr + 16) m remainingLength c;
  if negb (ok : bool) then Some (false, c) else
  matchLength ← MatchHeader_length m;
  assert! (PadLength matchLength <=? remainingLength);;
  let remainingLength := remainingLength - PadLength matchLength in
  actionsLen ← rd16 buf 12;
  if remainingLength <? actionsLen then Some (false, c) else
  actions ← PacketOutV6_actions addr buf;
  '(ok, c) ← ActionRange_validateInput actions c;
  if negb (ok : bool) then Some (false, c) else Some (true, c).

Definition PacketIn_class : MsgClass := mkMsgClass OFPT_PACKET_IN 18 65535 false 8 PacketIn_validateInput.
Definition PacketOut_class : MsgClass := mkMsgClass OFPT_PACKET_OUT 24 65535 false 4 PacketOut_validateInput.
Definition PacketOutV6_class : MsgClass := mkMsgClass OFPT_PACKET_OUT 20 65535 false 4 PacketOutV6_validateInput.

(** ** Status messages *)

Definition PortStatus_validateInput (addr : Z) (buf : list Z) (c : Validation) : option (bool * Validation) :=
  length ← b_length buf;
  if length <? 16 + sizeof_Port then Some (false, c) else
  let c := setLengthRemaining (length - 16) c in
  assert! IsPtrAligned (addr + 16) 4;;
  Port_validateInput (mkRange addr buf) 16 c.

Definition TableStatus_validateInput (addr : Z) (buf : list Z) (c : Validation) : option (bool * Validation) :=
  let length := v_length c in
  if length <? 16 + sizeof_TableDesc then Some (false, c) else
  let c := setLengthRemaining (length - 16) c in
  assert! IsPtrAligned (addr + 16) 4;;
  TableDesc_validateInput (mkRange addr buf) 16 c.

Definition PortStatus_class : MsgClass := mkMsgClass OFPT_PORT_STATUS 56 65528 true 4 PortStatus_validateInput.
Definition TableStatus_class : MsgClass := mkMsgClass OFPT_TABLE_STATUS 16 65528 true 4 TableStatus_validateInput.

(** ** Multipart messages *)

Definition OFPMP_DESC : Z := 0.
Definition OFPMP_GROUP_DESC : Z := 7.
Definition OFPMP_GROUP_FEATURES : Z := 8.
Definition OFPMP_METER_STATS : Z := 9.
Definition OFPMP_METER_CONFIG : Z := 10.
Definition OFPMP_METER_FEATURES : Z := 11.
Definition OFPMP_TABLE_FEATURES : Z := 12.
Definition OFPMP_TABLE_DESC : Z := 14.
Definition OFPMP_QUEUE_DESC : Z := 15.
Definition OFPMP_FLOW_MONITOR : Z := 16.
Definition OFPMP_EXPERIMENTER : Z := 0xffff.

Definition requestBody (addr : Z) (buf : list Z) : option ByteRange :=
  len ← b_length buf;
  d ← slice buf sizeof_MultipartRequest (len - sizeof_MultipartRequest);
  Some (mkRange (addr + sizeof_MultipartRequest) d).

Definition MultipartRequest_validateInput (addr : Z) (buf : list Z) (c : Validation) : option (bool * Validation) :=
  len ← b_length buf;
  let c := setLengthRemaining (len - sizeof_MultipartRequest) c in
  type ← multipartType buf;
  body ← requestBody addr buf;
  let empty v := Some (validateEmpty (br_addr body) v c) in
  if type =? OFPMP_DESC then empty OFP_VERSION_1
  else if type =? OFPMP_FLOW_DESC then validate (MPFlowStatsRequest_validateInput body) OFP_VERSION_1 true c
  else if type =? OFPMP_AGGREGATE_STATS then validate (MPFlowStatsRequest_validateInput body) OFP_VERSION_1 true c
  else if type =? OFPMP_TABLE_STATS then empty OFP_VERSION_1
  else if type =? OFPMP_PORT_STATS then validate MPPortStatsRequest_validateInput OFP_VERSION_1 true c
  else if type =? OFPMP_QUEUE_STATS then validate MPQueueStatsRequest_validateInput OFP_VERSION_1 true c
  else if type =? OFPMP_GROUP_STATS then validate MPGroupStatsRequest_validateInput OFP_VERSION_2 true c
  else if type =? OFPMP_GROUP_DESC then empty OFP_VERSION_2
  else if type =? OFPMP_GROUP_FEATURES then empty OFP_VERSION_3
  else if type =? OFPMP_METER_STATS then validate MPMeterConfigRequest_validateInput OFP_VERSION_4 true c
  else if type =? OFPMP_METER_CONFIG then validate MPMeterConfigRequest_validateInput OFP_VERSION_4 true c
  else if type =? OFPMP_METER_FEATURES then empty OFP_VERSION_4
  else if type =? OFPMP_TABLE_FEATURES then validateArrayVariableSize (MPTableFeatures_validateInput body) 0 body OFP_VERSION_4 c
  else if type =? OFPMP_PORT_DESC then empty OFP_VERSION_1
  else if type =? OFPMP_TABLE_DESC then empty OFP_VERSION_5
  else if type =? OFPMP_QUEUE_DESC then validate MPQueueDescRequest_validateInput OFP_VERSION_5 true c
  else if type =? OFPMP_FLOW_MONITOR then validate (MPFlowMonitorRequest_validateInput body) OFP_VERSION_5 true c
  else if type =? OFPMP_EXPERIMENTER then validate (MPExperimenter_validateInput body) OFP_VERSION_1 false c
  else Some (false, multipartTypeIsNotSupported c).

Definition MultipartReply_validateInput (addr : Z) (buf : list Z) (c : Validation) : option (bool * Validation) :=
  len ← b_length buf;
  let c := setLengthRemaining (len - sizeof_MultipartReply) c in
  vers ← b_version buf;
  type ← multipartType buf;
  body ← replyBody addr buf;
  if type =? OFPMP_DESC then validate (MPDesc_validateInput body) OFP_VERSION_1 true c
  else if type =? OFPMP_FLOW_DESC then validateArrayVariableSize (MPFlowStatsReply_validateInput body) 0 body OFP_VERSION_1 c
  else if type =? OFPMP_AGGREGATE_STATS then
    if OFP_VERSION_6 <=? vers then validate (MPAggregateStatsReplyV6_validateInput body) OFP_VERSION_6 true c
    else validate (MPAggregateStatsReply_validateInput body) OFP_VERSION_1 true c
  else if type =? OFPMP_TABLE_STATS then
    if (vers =? OFP_VERSION_2) || (vers =? OFP_VERSION_3) then Some (false, multipartTypeIsNotSupportedForVersion c)
    else validateArrayFixedSize accept 64 body OFP_VERSION_1 c
  else if type =? OFPMP_PORT_STATS then validateArrayVariableSize (MPPortStats_validateInput body) 0 body OFP_VERSION_1 c
  else if type =? OFPMP_QUEUE_STATS then validateArrayFixedSize accept 40 body OFP_VERSION_1 c
  else if type =? OFPMP_GROUP_STATS then validateArrayVariableSize (MPGroupStats_validateInput body) 0 body OFP_VERSION_2 c
  else if type =? OFPMP_GROUP_DESC then validateArrayVariableSize (MPGroupDesc_validateInput body) 0 body OFP_VERSION_2 c
  else if type =? OFPMP_GROUP_FEATURES then validate (MPGroupFeatures_validateInput body) OFP_VERSION_3 true c
  else if type =? OFPMP_METER_STATS then validateArrayVariableSize (MPMeterStats_validateInput body) 4 body OFP_VERSION_4 c
  else if type =? OFPMP_METER_CONFIG then validateArrayVariableSize (MPMeterConfig_validateInput body) 0 body OFP_VERSION_4 c
  else if type =? OFPMP_METER_FEATURES then validate (MPMeterFeatures_validateInput body) OFP_VERSION_4 true c
  else if type =? OFPMP_TABLE_FEATURES then validateArrayVariableSize (MPTableFeatures_validateInput body) 0 body OFP_VERSION_4 c
  else if type =? OFPMP_PORT_DESC then validateArrayVariableSize (Port_validateInput body) 4 body OFP_VERSION_1 c
  else if type =? OFPMP_TABLE_DESC then validateArrayVariableSize (TableDesc_validateInput body) 0 body OFP_VERSION_5 c
  else if type =? OFPMP_QUEUE_DESC then validateArrayVariableSize (QueueDesc_validateInput body) 8 body OFP_VERSION_5 c
  else if type =? OFPMP_FLOW_MONITOR then validateArrayVariableSize (MPFlowMonitorReply_validateInput body) 0 body OFP_VERSION_5 c
  else if type =? OFPMP_EXPERIMENTER then validate (MPExperimenter_validateInput body) OFP_VERSION_1 false c
  else Some (false, multipartTypeIsNotSupported c).

Definition MultipartRequest_class : MsgClass := mkMsgClass OFPT_MULTIPART_REQUEST 16 65535 false 4 MultipartRequest_validateInput.
Definition MultipartReply_class : MsgClass := mkMsgClass OFPT_MULTIPART_REPLY 16 65535 false 4 MultipartReply_validateInput.

(** ** The class of a message *)

(** The classes of messages that consist of a header have a cast of their own. *)
Inductive MsgCast : Type :=
| HeaderOnlyMsg (type : Z)
| ProtocolMsg (M : MsgClass).

Definition HeaderOnly_cast (MsgType : Z) (addr : Z) (buf : list Z) : option bool :=
  type ← b_type buf;
  assert! (type =? MsgType);;
  assert! IsPtrAligned addr 4;;
  Some (zlen buf =? 8).

(** The class that [Decoder::decodeMsg] casts a message to. *)
Definition decodeMsg_class (type version : Z) : option MsgCast :=
  if type =? OFPT_HELLO then Some (ProtocolMsg Hello_class)
  else if type =? OFPT_ERROR then Some (ProtocolMsg Error_class)
  else if type =? OFPT_ECHO_REQUEST then Some (ProtocolMsg EchoRequest_class)
  else if type =? OFPT_ECHO_REPLY then Some (ProtocolMsg EchoReply_class)
  else if type =? OFPT_EXPERIMENTER then Some (ProtocolMsg Experimenter_class)
  else if type =? OFPT_FLOW_MOD then Some (ProtocolMsg FlowMod_class)
  else if type =? OFPT_FEATURES_REQUEST then Some (HeaderOnlyMsg OFPT_FEATURES_REQUEST)
  else if type =? OFPT_FEATURES_REPLY then Some (ProtocolMsg FeaturesReply_class)
  else if type =? OFPT_GET_CONFIG_REQUEST then Some (HeaderOnlyMsg OFPT_GET_CONFIG_REQUEST)
  else if type =? OFPT_GET_CONFIG_REPLY then Some (ProtocolMsg GetConfigReply_class)
  else if type =? OFPT_MULTIPART_REQUEST then Some (ProtocolMsg MultipartRequest_class)
  else if type =? OFPT_MULTIPART_REPLY then Some (ProtocolMsg MultipartReply_class)
  else if type =? OFPT_BARRIER_REQUEST then Some (HeaderOnlyMsg OFPT_BARRIER_REQUEST)
  else if type =? OFPT_BARRIER_REPLY then Some (HeaderOnlyMsg OFPT_BARRIER_REPLY)
  else if type =? OFPT_GET_ASYNC_REQUEST then Some (HeaderOnlyMsg OFPT_GET_ASYNC_REQUEST)
  else if type =? OFPT_PACKET_IN then Some (ProtocolMsg PacketIn_class)
  else if type =? OFPT_PACKET_OUT then Some (ProtocolMsg (if version <? OFP_VERSION_6 then PacketOut_class else PacketOutV6_class))
  else if type =? OFPT_SET_CONFIG then Some (ProtocolMsg SetConfig_class)
  else if type =? OFPT_PORT_STATUS then Some (ProtocolMsg PortStatus_class)
  else if type =? OFPT_GROUP_MOD then Some (ProtocolMsg GroupMod_class)
  else if type =? OFPT_PORT_MOD then Some (ProtocolMsg PortMod_class)
  else if type =? OFPT_TABLE_MOD then Some (ProtocolMsg TableMod_class)
  else if type =? OFPT_ROLE_REQUEST then Some (ProtocolMsg RoleRequest_class)
  else if type =? OFPT_ROLE_REPLY then Some (ProtocolMsg RoleReply_class)
  else if type =? OFPT_GET_ASYNC_REPLY then Some (ProtocolMsg GetAsyncReply_class)
  else if type =? OFPT_SET_ASYNC then Some (ProtocolMsg SetAsync_class)
  else if type =? OFPT_QUEUE_GET_CONFIG_REQUEST then Some (ProtocolMsg QueueGetConfigRequest_class)
  else if type =? OFPT_QUEUE_GET_CONFIG_REPLY then Some (ProtocolMsg QueueGetConfigReply_class)
  else if type =? OFPT_FLOW_REMOVED then Some (ProtocolMsg (if version <? OFP_VERSION_6 then FlowRemoved_class else FlowRemovedV6_class))
  else if type =? OFPT_METER_MOD then Some (ProtocolMsg MeterMod_class)
  else if type =? OFPT_ROLE_STATUS then Some (ProtocolMsg RoleStatus_class)
  else if type =? OFPT_BUNDLE_CONTROL then Some (ProtocolMsg BundleControl_class)
  else if type =? OFPT_BUNDLE_ADD_MESSAGE then Some (ProtocolMsg BundleAddMessage_class)
  else if type =? OFPT_REQUESTFORWARD then Some (ProtocolMsg RequestForward_class)
  else if type =? OFPT_TABLE_STATUS then Some (ProtocolMsg TableStatus_class)
  else None.

(** What [decodeMsg] answers: whether the message is one of its class, and could be
    printed. A type without a class is reported and refused. *)
Definition decodeMsg (addr : Z) (buf : list Z) : option bool :=
  type ← b_type buf;
  version ← b_version buf;
  match decodeMsg_class type version with
  | Some (ProtocolMsg M) => cast M addr buf
  | Some (HeaderOnlyMsg t) => HeaderOnly_cast t addr buf
  | None => Some false
  end.

(** ** Every check ends *)

Section Checks.
Context (addr : Z) (buf : list Z) (Hf : framed addr buf).

Lemma buf_bytes : bytes_ok buf.
Proof. by destruct Hf. Qed.
Lemma buf_length : b_length buf = Some (zlen buf).
Proof. by destruct Hf as (_ & _ & ? & _). Qed.
Lemma buf_aligned : addr mod 8 = 0.
Proof. by destruct Hf as (_ & _ & _ & ?). Qed.

Lemma buf_ptr i k : i mod 8 = 0 -> k = 2 \/ k = 4 -> IsPtrAligned (addr + i) k = true.
Proof.
  pose proof buf_aligned as Ha. intros Hi [-> | ->]; [change 2 with (2 ^ 1)|change 4 with (2 ^ 2)]; rewrite IsPtrAligned_pow2 by done;
    apply Z.eqb_eq; Z.to_euclidean_division_equations; lia.
Qed.

Lemma wp_rest off {B} (k : ByteRange -> option B) Q : 0 <= off ->
  (forall r, bytes_ok (br_data r) -> (off <= zlen buf -> br_size r = zlen buf - off) -> wp (k r) Q) ->
  wp (r ← rest_of_message addr buf off; k r) Q.
Proof.
  intros Ho K. unfold rest_of_message, SafeByteRange. rewrite buf_length. cbn [mbind option_bind br_data br_addr].
  destruct (Z.leb_spec off (zlen buf)).
  - rewrite slice_some by lia. cbn [mbind option_bind]. apply K; unfold br_size; cbn [br_data]; [|intros _; zl].
    apply Forall_take, Forall_drop, buf_bytes.
  - apply K; [constructor|lia].
Qed.

Lemma wp_field w off {B} (k : Z -> option B) Q : 0 <= off -> 0 <= w -> off + w <= zlen buf ->
  (forall v, rd_be w buf off = Some v -> 0 <= v < 256 ^ w -> wp (k v) Q) -> wp (v ← rd_be w buf off; k v) Q.
Proof. apply wp_read_be, buf_bytes. Qed.

Lemma version_field : exists v, b_version buf = Some v.
Proof. destruct (framed_byte addr buf 0 Hf) as (v & Ev & _); [lia|]. by exists v. Qed.

Lemma rest_ends off (check : ByteRange -> Validation -> option (bool * Validation)) c : 0 <= off -> (forall r c, bytes_ok (br_data r) -> ends (check r c)) ->
  ends (r ← rest_of_message addr buf off; check r c).
Proof. intros Ho Hc. apply wp_rest; [done|]. intros r Hr _. by apply Hc. Qed.

Lemma RoleStatus_ends c : ends (RoleStatus_validateInput addr buf c).
Proof.
  apply wp_rest; [done|]. intros r Hr _. apply ends_then; [by apply properties_total|]. by intros [].
Qed.

Lemma TableMod_ends c : ends (TableMod_validateInput addr buf c).
Proof.
  unfold TableMod_validateInput. destruct version_field as [v ->]. cbn [mbind option_bind]. destruct (v <=? _).
  - by rewrite buf_length.
  - apply wp_rest; [done|]. intros r Hr _. apply validate_properties_end; [done|]. intros. by eapply TableModProperty_ends.
Qed.

Lemma BundleAdd_ends c : ends (BundleAddMessage_validateInput addr buf c).
Proof.
  unfold BundleAddMessage_validateInput, BundleAddMessage_properties, inner_length, sizeof_BundleAddMessage.
  rewrite buf_length, buf_ptr by tauto. cbn [mbind option_bind]. destruct (Z.ltb_spec (zlen buf) (16 + 8)); [done|].
  apply wp_field; [lia..|]. intros inner -> Hr. change (256 ^ 2) with (2 ^ 16) in Hr. destruct (inner <? 8); [done|].
  destruct (zlen buf <? _); [done|]. rewrite (proj2 (Z.leb_le _ _)) by lia. cbn [mbind option_bind].
  destruct (PadLength_bounds inner ltac:(lia)). apply rest_ends; [lia|]. intros. by apply properties_total.
Qed.

Lemma RequestForward_ends c : 16 <= zlen buf -> ends (RequestForward_validateInput addr buf c).
Proof.
  intros H16. apply wp_rest; [done|]. intros r Hr Hs. specialize (Hs ltac:(lia)). unfold br_size in *.
  apply wp_read_be; [done|lia..|]. done.
Qed.

Lemma FlowRemoved_ends c : v_length c = zlen buf -> 56 <= zlen buf -> ends (FlowRemoved_validateInput addr buf c).
Proof.
  intros Hl H56. unfold FlowRemoved_validateInput. rewrite Hl. pose proof buf_bytes.
  apply wp_read_be; [by apply Forall_drop|lia..|zl|]. intros mlen _ _. destruct (negb _); [done|].
  apply wp_match; [by apply Forall_drop|zl|done|]. done.
Qed.

Lemma FlowRemovedV6_ends c : v_length c = zlen buf -> ends (FlowRemovedV6_validateInput addr buf c).
Proof.
  intros Hl. unfold FlowRemovedV6_validateInput. rewrite Hl. pose proof buf_bytes. destruct (Z.ltb_spec (zlen buf) 28); [done|].
  apply wp_match; [by apply Forall_drop|zl|done|]. intros type mlen _ _ _ -> Hr _. cbn [negb mbind option_bind].
  destruct (PadLength_bounds mlen ltac:(lia)) as [Hp Hp8]. destruct (Z.ltb_spec (zlen buf - 24) (PadLength mlen)); [done|].
  rewrite <- Z.add_assoc, buf_ptr; [|by rewrite Zplus_mod, Hp8|by left]. set (stat := drop _ (drop 24 buf)).
  assert (zlen stat = zlen buf - 24 - PadLength mlen) as Hz by (unfold stat; zl).
  assert (bytes_ok stat) as Hb by (by apply Forall_drop, Forall_drop).
  eapply wp_bind; [apply (wp_stat (addr + (24 + PadLength mlen)) stat); [done|lia]|]. intros [ok c'] Hok. cbn [fst] in Hok.
  destruct ok; cbn [negb]; [|done]. apply wp_read_be; [done|lia..|specialize (Hok eq_refl); lia|]. done.
Qed.

Lemma PacketIn_match_ends size off c : v_length c = zlen buf -> 0 <= off <= size ->
  ends (PacketIn_validate_match size off addr buf c).
Proof.
  intros Hl Ho. unfold PacketIn_validate_match. rewrite Hl. pose proof buf_bytes. destruct (Z.ltb_spec (zlen buf) size); [done|].
  apply wp_match; [by apply Forall_drop|zl|done|]. done.
Qed.

Lemma PacketIn_ends c : v_length c = zlen buf -> ends (PacketIn_validateInput addr buf c).
Proof.
  intros Hl. unfold PacketIn_validateInput, PacketIn_validate_short. destruct version_field as [v ->]. cbn [mbind option_bind].
  destruct (v =? OFP_VERSION_1); [by destruct (_ <? _)|]. destruct (v =? OFP_VERSION_2); [by destruct (_ <? _)|].
  destruct (v =? OFP_VERSION_3); by apply PacketIn_match_ends.
Qed.

Lemma PacketOut_ends c : v_length c = zlen buf -> 24 <= zlen buf -> ends (PacketOut_validateInput addr buf c).
Proof.
  intros Hl H24. unfold PacketOut_validateInput. rewrite Hl. apply wp_field; [lia..|]. intros n _ Hr.
  destruct (Z.ltb_spec (zlen buf) (24 + n)); [done|]. apply wp_read; [apply buf_bytes|lia..|]. intros y _ Hy _. by apply actions_end.
Qed.

(** The match is a list of fields from OpenFlow 1.5 on, so that the assertion on
    its length holds. *)
Lemma PacketOutV6_ends c : v_length c = zlen buf -> 6 <= v_version c -> ends (PacketOutV6_validateInput addr buf c).
Proof.
  intros Hl Hv. unfold PacketOutV6_validateInput. rewrite Hl. pose proof buf_bytes. destruct (Z.ltb_spec (zlen buf) 20); [done|].
  apply wp_match; [by apply Forall_drop|zl|done|]. intros type mlen _ _ _ Em Hr Hok. rewrite Em. cbn [negb mbind option_bind].
  assert (PadLength mlen <= zlen buf - 16) as Hroom by (unfold match_header_ok in Hok; naive_solver lia).
  rewrite (proj2 (Z.leb_le _ _) Hroom). destruct (PadLength_bounds mlen ltac:(lia)) as [Hp _].
  apply wp_field; [lia..|]. intros n En Hn. destruct (Z.ltb_spec (zlen buf - 16 - PadLength mlen) n); [done|].
  unfold PacketOutV6_actions. rewrite Em, buf_length, En. cbn [mbind option_bind]. rewrite (proj2 (Z.leb_le _ _)) by lia.
  rewrite slice_some by lia. cbn [mbind option_bind]. apply ends_then; [|by intros []]. apply actions_end.
  by apply Forall_take, Forall_drop.
Qed.

Lemma PortStatus_ends c : ends (PortStatus_validateInput addr buf c).
Proof.
  unfold PortStatus_validateInput. rewrite buf_length. cbn [mbind option_bind]. destruct (Z.ltb_spec (zlen buf) (16 + sizeof_Port)); [done|].
  rewrite buf_ptr by tauto. unfold sizeof_Port in *. destruct (rd_be_some 2 buf (16 + 4)) as [len Hl]; [lia..|].
  apply ends_some, (Port_validateInput_total (mkRange addr buf) 16 len); unfold br_size; cbn [br_data]; try done; [apply buf_bytes|].
  cbn [v_lengthRemaining setLengthRemaining]. lia.
Qed.

Lemma TableStatus_ends c : v_length c = zlen buf -> ends (TableStatus_validateInput addr buf c).
Proof.
  intros Hl. unfold TableStatus_validateInput. rewrite Hl. destruct (Z.ltb_spec (zlen buf) (16 + sizeof_TableDesc)); [done|].
  rewrite buf_ptr by tauto. unfold sizeof_TableDesc in *. apply TableDesc_ends; unfold br_size; cbn [br_data]; [apply buf_bytes|lia..|].
  cbn [v_lengthRemaining setLengthRemaining]. lia.
Qed.

Lemma FlowMod_ends c : 56 <= zlen buf -> ends (FlowMod_validateInput addr buf c).
Proof.
  intros H56. unfold FlowMod_validateInput, FlowMod_instructions, UnpaddedSizeWithMatchHeader, SizeWithoutMatchHeader, matchHeader.
  rewrite buf_length. cbn [mbind option_bind]. pose proof buf_bytes. destruct (Z.ltb_spec (zlen buf) 52); [done|].
  apply wp_match; [by apply Forall_drop|zl|done|]. intros type mlen _ _ _ -> Hr _. cbn [negb mbind option_bind].
  destruct (PadLength_bounds mlen ltac:(lia)) as [Hp _].
  assert (forall r, bytes_ok (br_data r) -> ends ('(ok, c) ← InstructionRange_validateInput r c;
    if negb ok then Some (false, c) else Some (true, c))) as Hend.
  { intros r Hb. destruct (instructions_valid_iff r c Hb) as ([] & c' & -> & _); done. }
  destruct (Z.leb_spec (48 + PadLength mlen) (zlen buf)); cbn [mbind option_bind]; [|apply Hend; constructor].
  rewrite slice_some by lia. cbn [mbind option_bind]. apply Hend. by apply Forall_take, Forall_drop.
Qed.

Lemma validate_ends check v m c : ends (check 0 c) -> ends (validate check v m c).
Proof. intros H. unfold validate. destruct (_ <? _); [done|]. by destruct (andb _ _). Qed.

Lemma exact_size_ends n a c : ends (exact_size n a c).
Proof. unfold exact_size. by destruct (negb _). Qed.

(** The body of a multipart message, of which the check's context tells the size. *)
Lemma wp_body {B} (k : ByteRange -> option B) Q : 16 <= zlen buf ->
  (forall body, bytes_ok (br_data body) -> br_size body = zlen buf - 16 -> wp (k body) Q) ->
  wp (body ← requestBody addr buf; k body) Q /\ wp (body ← replyBody addr buf; k body) Q.
Proof.
  intros H16 K. unfold requestBody, replyBody, sizeof_MultipartRequest, sizeof_MultipartReply. rewrite buf_length.
  cbn [mbind option_bind]. rewrite slice_some by lia. cbn [mbind option_bind].
  split; (apply K; unfold br_size; cbn [br_data]; [apply Forall_take, Forall_drop, buf_bytes|zl]).
Qed.

Lemma MultipartRequest_ends c : 16 <= zlen buf -> ends (MultipartRequest_validateInput addr buf c).
Proof.
  intros H16. unfold MultipartRequest_validateInput, sizeof_MultipartRequest. rewrite buf_length. cbn [mbind option_bind].
  apply wp_field; [lia..|]. intros type _ _. apply wp_body; [done|]. intros body Hb Hs.
  assert (forall n, 0 <= n -> ends (request_with_match n body 0 (setLengthRemaining (zlen buf - 16) c))) as Hm.
  { intros n Hn. apply request_with_match_ends; [done..|]. cbn [v_lengthRemaining setLengthRemaining]. lia. }
  repeat (destruct (type =? _); [try done; try (by apply validate_ends); try (by apply validate_ends, Hm)|]); [..|done].
  - apply any_array_ends; [done..|cbn [v_lengthRemaining setLengthRemaining]; lia|]. intros p e a. by apply TableFeatures_section_ends.
  - apply validate_ends. unfold MPExperimenter_validateInput. by destruct (_ <? _).
Qed.

(** The two kinds of replies whose check is not safe: statistics of flows before
    OpenFlow 1.3, and aggregate statistics of OpenFlow 1.5. *)
Definition safe_reply (version type : Z) : Prop :=
  (type = OFPMP_FLOW_DESC -> OFP_VERSION_4 <= version) /\ (type = OFPMP_AGGREGATE_STATS -> version < OFP_VERSION_6).

Lemma MultipartReply_ends c v t : 16 <= zlen buf -> b_version buf = Some v -> v_version c = v ->
  multipartType buf = Some t -> safe_reply v t -> ends (MultipartReply_validateInput addr buf c).
Proof.
  intros H16 Hv Hcv Ht [Hflow Hagg]. unfold MultipartReply_validateInput, sizeof_MultipartReply.
  rewrite buf_length, Hv, Ht. cbn [mbind option_bind]. apply wp_body; [done|]. intros body Hb Hs.
  set (c1 := setLengthRemaining _ c). assert (0 <= v_lengthRemaining c1 <= br_size body) as Hc1 by (cbn; lia).
  assert (forall check offset minV, 0 <= offset -> (forall p e a, section_at offset body p e -> ends (check p a)) ->
    ends (validateArrayVariableSize check offset body minV c1)) as Harr by (intros; by apply any_array_ends).
  assert (forall n, 0 < n < 2 ^ 16 -> n mod 8 = 0 -> forall r c, bytes_ok (br_data r) -> br_addr r mod 8 = 0 ->
    ends (ProtocolRange_validateInput n PROTOCOL_ITERATOR_SIZE_FIXED 8 accept r c)) as Hfix by (intros; by apply fixed_range_ends).
  destruct (t =? OFPMP_DESC); [apply validate_ends, exact_size_ends|].
  destruct (Z.eqb_spec t OFPMP_FLOW_DESC) as [->|].
  { apply (array_ends (fun a => 4 <= v_version a)); try done; [by subst v; apply Hflow|]. intros p e a. by apply FlowStats_ends. }
  destruct (Z.eqb_spec t OFPMP_AGGREGATE_STATS) as [->|].
  { rewrite (proj2 (Z.leb_gt _ _)) by (by apply Hagg). apply validate_ends, exact_size_ends. }
  destruct (t =? OFPMP_TABLE_STATS); [destruct (orb _ _); [done|]; apply fixed_array_ends; [done..|lia]|].
  destruct (t =? OFPMP_PORT_STATS); [apply Harr; [done|]; intros; by eapply PortStats_ends|].
  destruct (t =? OFPMP_QUEUE_STATS); [apply fixed_array_ends; [done..|lia]|].
  destruct (t =? OFPMP_GROUP_STATS); [apply Harr; [done|]; intros; eapply section_with_range_ends; try done; intros; by apply Hfix|].
  destruct (t =? OFPMP_GROUP_DESC); [apply Harr; [done|]; intros; eapply section_with_range_ends; try done; intros; by apply Buckets_end|].
  destruct (t =? OFPMP_GROUP_FEATURES); [apply validate_ends, exact_size_ends|].
  destruct (t =? OFPMP_METER_STATS); [apply Harr; [done|]; intros; eapply section_with_range_ends; try done; intros; by apply Hfix|].
  destruct (t =? OFPMP_METER_CONFIG).
  { apply Harr; [done|]. intros. eapply section_with_range_ends; try done. intros. by apply (accepted_range_ends 4 2 8 _ _ property_params). }
  destruct (t =? OFPMP_METER_FEATURES); [apply validate_ends, exact_size_ends|].
  destruct (t =? OFPMP_TABLE_FEATURES); [apply Harr; [done|]; intros; by eapply TableFeatures_section_ends|].
  destruct (t =? OFPMP_PORT_DESC); [apply Harr; [done|]; intros; by eapply Port_section_ends|].
  destruct (t =? OFPMP_TABLE_DESC); [apply Harr; [done|]; intros; by eapply TableDesc_section_ends|].
  destruct (t =? OFPMP_QUEUE_DESC); [apply Harr; [done|]; intros; by eapply QueueDesc_ends|].
  destruct (t =? OFPMP_FLOW_MONITOR); [apply Harr; [done|]; intros; by eapply FlowMonitor_ends|].
  destruct (t =? OFPMP_EXPERIMENTER); [|done]. apply validate_ends. unfold MPExperimenter_validateInput. by destruct (_ <? _).
Qed.

Definition checked (version type : Z) (M : MsgClass) : Prop :=
  MsgType M = type /\ (MsgAlign M = 4 \/ MsgAlign M = 8) /\
  forall c, MsgMinLength M <= zlen buf -> v_length c = zlen buf -> v_version c = version -> ends (MsgValidateInput M addr buf c).

Lemma checked_rest version type min max m8 al off check :
  al = 4 \/ al = 8 -> 0 <= off -> (forall r c, bytes_ok (br_data r) -> ends (check r c)) ->
  checked version type (mkMsgClass type min max m8 al (fun addr buf c => r ← rest_of_message addr buf off; check r c)).
Proof. intros Ha Ho Hc. split_and!; [done|done|]. intros c _ _ _. by apply rest_ends. Qed.

Lemma checked_valid version type min max m8 al :
  al = 4 \/ al = 8 -> checked version type (mkMsgClass type min max m8 al (fun _ _ c => Some (true, c))).
Proof. intros Ha. by split_and!. Qed.

(** Where the class is the one for [type], the check is that of the class. *)
Ltac class_case H type :=
  match type of H with
  | (if type =? ?t then Some (ProtocolMsg _) else _) = Some _ =>
      destruct (Z.eqb_spec type t) as [->|]; [injection H as <-|]
  | (if type =? ?t then Some (HeaderOnlyMsg _) else _) = Some _ => destruct (type =? t); [discriminate|]
  end.

Ltac class_check := split_and!; [done|by (left + right)|cbn [MsgMinLength MsgValidateInput]; intros c Hmin Hlen Hver].

Lemma class_checked version type M : b_version buf = Some version -> decodeMsg_class type version = Some (ProtocolMsg M) ->
  (type = OFPT_MULTIPART_REPLY -> forall t, multipartType buf = Some t -> safe_reply version t) -> checked version type M.
Proof.
  intros Hv H Hsafe. unfold decodeMsg_class in H.
  repeat class_case H type; [..|done]; try (apply checked_valid; tauto).
  - class_check. by apply FlowMod_ends.
  - class_check. apply ends_some, FeaturesReply_validate_total; [apply buf_bytes|apply buf_length|done].
  - class_check. by apply MultipartRequest_ends.
  - class_check. destruct (rd_be_some 2 buf 8) as [t Ht]; [cbn in Hmin; lia..|].
    by apply (MultipartReply_ends c version t); [| | | |apply Hsafe].
  - class_check. by apply PacketIn_ends.
  - destruct (Z.ltb_spec version OFP_VERSION_6); class_check; [by apply PacketOut_ends|].
    apply PacketOutV6_ends; [done|]. unfold OFP_VERSION_6 in *. lia.
  - class_check. by apply PortStatus_ends.
  - apply checked_rest; [tauto|done|apply Buckets_end].
  - apply checked_rest; [tauto|done|apply properties_total].
  - class_check. by apply TableMod_ends.
  - apply checked_rest; [tauto|done|apply properties_total].
  - apply checked_rest; [tauto|done|apply properties_total].
  - apply checked_rest; [tauto|done|apply Queues_end].
  - destruct (Z.ltb_spec version OFP_VERSION_6); class_check; [by apply FlowRemoved_ends|by apply FlowRemovedV6_ends].
  - apply checked_rest; [tauto|done|]. intros r c Hr. by apply (accepted_range_ends 4 2 8 _ _ property_params).
  - class_check. apply RoleStatus_ends.
  - apply checked_rest; [tauto|done|apply properties_total].
  - class_check. apply BundleAdd_ends.
  - class_check. by apply RequestForward_ends.
  - class_check. by apply TableStatus_ends.
Qed.

End Checks.

(** C5. Whatever a peer sends, [Decoder::decodeMsg] comes to a decision on a framed
    message in an aligned buffer: the class is found, and neither [castMessage] nor the
    class's [validateInput], with the ranges, lists and sections inside, reads outside
    the message, fails an assertion or runs forever. An accepted message has a length
    that its class allows. Excepted are two kinds of multipart replies: statistics of
    flows before OpenFlow 1.3 and aggregate statistics of OpenFlow 1.5. *)
Theorem decodeMsg_total addr buf :
  framed addr buf ->
  (b_type buf = Some OFPT_MULTIPART_REPLY -> forall version type, b_version buf = Some version ->
     multipartType buf = Some type -> safe_reply version type) ->
  exists type version accepted,
    b_type buf = Some type /\ b_version buf = Some version /\ decodeMsg addr buf = Some accepted /\
    (accepted = true ->
       match decodeMsg_class type version with
       | Some (ProtocolMsg M) => isLengthValid M (zlen buf) = true
       | Some (HeaderOnlyMsg t) => zlen buf = 8 /\ t = type
       | None => False
       end).
Proof.
  intros Hf Hsafe. destruct (framed_byte addr buf 1 Hf) as (type & Et & _); [lia|]. destruct (version_field addr buf Hf) as [version Ev].
  change (rd8 buf 1) with (b_type buf) in Et. exists type, version. unfold decodeMsg. rewrite Et, Ev. cbn [mbind option_bind].
  destruct (decodeMsg_class type version) as [[t|M]|] eqn:Ec; [..|by exists false].
  - assert (t = type) as ->.
    { unfold decodeMsg_class in Ec. repeat match type of Ec with (if type =? ?k then _ else _) = _ =>
        destruct (Z.eqb_spec type k) as [->|]; [congruence|] end. done. }
    exists (zlen buf =? 8). unfold HeaderOnly_cast. rewrite Et. cbn [mbind option_bind].
    rewrite Z.eqb_refl, (aligned_4 addr) by (by apply (buf_aligned addr buf)). split_and!; try done. intros ?%Z.eqb_eq. done.
  - destruct (class_checked addr buf Hf version type M Ev Ec) as (HM & Ha & Hc).
    { intros -> t Ht. by apply (Hsafe Et version t). }
    destruct (cast_context_total M addr buf Hf) as [ok Hok]; [by rewrite HM|done| |].
    { intros c Hi Hl Hv. apply some_ends, Hc; [|done|congruence]. unfold isLengthValid in Hi.
      by apply andb_true_iff in Hi as [[?%Z.leb_le _]%andb_true_iff _]. }
    exists ok. split_and!; [done|done|done|]. intros ->. by destruct (cast_true _ _ _ Hok).
Qed.

(** A table status message of OpenFlow 1.4 with one table that has no properties. *)
Definition table_status : list Z :=
  [5; 31; 0; 24; 0; 0; 0; 1; 3] ++ replicate 7 0 ++ [0; 8; 1; 0; 0; 0; 0; 4].

Lemma decodeMsg_total_witness :
  exists type version accepted,
    b_type table_status = Some type /\ b_version table_status = Some version /\ decodeMsg 64 table_status = Some accepted /\
    (accepted = true ->
       match decodeMsg_class type version with
       | Some (ProtocolMsg M) => isLengthValid M (zlen table_status) = true
       | Some (HeaderOnlyMsg t) => zlen table_status = 8 /\ t = type
       | None => False
       end).
Proof.
  apply (decodeMsg_total 64 table_status).
  - split_and!; [unfold table_status; bytes|done|done|done|done].
  - intros H. discriminate H.
Defined.

(** Samples of accepted and refused messages. *)
Example decode_table_status : decodeMsg 64 table_status = Some true.
Proof. vm_compute. reflexivity. Qed.

Example decode_short_table :
  decodeMsg 64 ([5; 31; 0; 24; 0; 0; 0; 1; 3] ++ replicate 7 0 ++ [0; 16; 1; 0; 0; 0; 0; 4]) = Some false.
Proof. vm_compute. reflexivity. Qed.

Example decode_barrier : decodeMsg 64 [4; 20; 0; 8; 0; 0; 0; 1] = Some true.
Proof. vm_compute. reflexivity. Qed.

(** The aggregate statistics of OpenFlow 1.5 are compared with the length of the
    whole message: the check of an empty reply reads behind its end. *)
Example aggregate_reads_outside :
  let reply := [6; 19; 0; 16; 0; 0; 0; 1; 0; 2; 0; 0; 0; 0; 0; 0] in
  framed 64 reply /\ decodeMsg 64 reply = None.
Proof. split; [split_and!; [bytes|done|done|done|done]|]. vm_compute. reflexivity. Qed.

(** A flow entry of OpenFlow 1.1 that ends with the header of its standard match
    is accepted by the match's check, and fails the assertion of [instructions]. *)
Example flow_stats_assertion :
  let reply := [2; 19; 0; 72; 0; 0; 0; 1; 0; 1; 0; 0; 0; 0; 0; 0; 0; 56] ++ replicate 46 0 ++ [0; 0; 0; 88; 0; 0; 0; 0] in
  framed 64 reply /\ decodeMsg 64 reply = None.
Proof. split; [split_and!; [bytes|done|done|done|done]|]. vm_compute. reflexivity. Qed.

(** A port's statistics that announce fewer bytes than the structure has, and are
    accepted because what is left is measured before the first of them. *)
Example short_port_stats :
  decodeMsg 64 ([4; 19; 0; 104; 0; 0; 0; 1; 0; 4; 0; 0; 0; 0; 0; 0; 0; 80] ++ replicate 78 0 ++ [0; 8; 0; 0; 0; 0; 0; 0]) = Some true.
Proof. vm_compute. reflexivity. Qed.
